(* ===== verification/_CoqProject ===== *)
-Q . S2P
Prelude.v
PyStruct.v
Addresses.v
Numerals.v
Revent.v
Recoco.v
Codec.v
OfpMatch.v
OfpActions.v
OfpStructs.v
OfpMessages.v
OfpVarMessages.v
OfpStream.v
Connection.v
Sender.v
Packet.v
FlowTable.v
NomFlowTable.v
Topology.v
PacketWire.v
Epoll.v
IoWorker.v
Core.v
Vns.v
Paths.v
Controller.v
Router.v
L2Learning.v
L3Learning.v
L2Multi.v
SpanningTree.v
HostTracker.v
Switch.v
NxSwitch.v
Dns.v
Dhcp.v
Eap.v
Lldp.v
Apps.v
Discovery.v
EndToEnd.v
