(* ===== verification/Prelude.v ===== *)
(** * A verification of the POX OpenFlow controller

    The repository holds, under [src/Project-4/pox], the Python platform POX:
    an OpenFlow 1.0 message library, the controller's side of a connection, a
    packet library, a software flow table and a set of controller
    applications; beside it, the bridge between POX and a router that students
    write, and its protocol.  This library models those and proves what makes
    them correct.  All paths below are relative to [src/Project-4/pox/pox], but
    for those of [Vns.v] and [Router.v], which are relative to [src/Project-4].

    ** The parts and the files

    - [Prelude.v]: Python exceptions, the error monad [result] and the
      state-and-error monad [M], bytes, big-endian numbers, slices with
      Python's indices.
    - [PyStruct.v]: the formats of Python's [struct] module that the code uses.
    - [Addresses.v]: [lib/addresses.py].
    - [Numerals.v]: what Python writes with [hex] and [str] its [int] reads back.
    - [Revent.v]: the event library, [lib/revent/revent.py]: sources with live
      lists of listeners, and handlers that change them while they are called.
    - [Recoco.v]: the cooperative scheduler, [lib/recoco/recoco.py]: the queue of
      tasks, the hub that waits for files and times, and timers.
    - [Codec.v]: the interface of a fixed-format structure ([WireStruct]) and
      its laws ([WireLaws]): it packs to as many bytes as it announces and
      unpacking gives it back.  Lists of structures are handled against the
      interface.
    - [OfpMatch.v], [OfpActions.v], [OfpStructs.v], [OfpMessages.v],
      [OfpVarMessages.v]: [openflow/libopenflow_01.py], in the order of its
      layers: matches, actions, ports and statistics, messages of fixed and of
      variable length.  A message class is an instance of [WireMsg], and
      [MsgLaws] is what the connection relies on.
    - [OfpStream.v]: [openflow/of_01.py] and [openflow/util.py]: the table from
      types to classes, reading messages from a stream, the assembly of
      statistics replies, echo, and the slices of the deferred sender.
    - [Connection.v]: what a connection does with the messages it reads: the
      handshake, the events it raises on the nexus of [openflow/__init__.py] and on
      itself (through [Revent]), its end, and the loop over sockets.
    - [Sender.v]: [DeferredSender], the thread that keeps what sockets do not take.
    - [Packet.v], [PacketWire.v]: [lib/packet] (Ethernet, VLAN, ARP, IPv4, UDP,
      TCP, ICMP, MPLS) as objects, on the wire, and [ofp_match.from_packet].
    - [FlowTable.v], [NomFlowTable.v]: [openflow/flow_table.py]: the table of a
      software switch, and the copy of a switch's table that a controller keeps.
    - [IoWorker.v]: [lib/ioworker/io_worker.py] (workers, their loop, the wake-up of
      [lib/util.py]) and the channels of [lib/mock_socket.py].
    - [Epoll.v]: [lib/epoll_select.py], [select] by differences told to the kernel.
    - [Core.v]: the registry of [core.py] and a component that waits for others.
    - [Topology.v]: [topology/topology.py] and [openflow/topology.py]: entities
      and their numbers, switches, their ports and reconnections.
    - [Controller.v]: the packet-in event and the messages that applications
      send; a run of a handler over a history of events.
    - [L2Learning.v], [L3Learning.v]: [forwarding/l2_learning.py] and
      [forwarding/l3_learning.py].
    - [Paths.v], [L2Multi.v]: [forwarding/l2_multi.py], its computation of
      paths and its event handlers.
    - [SpanningTree.v]: [openflow/spanning_tree.py] and the one method of
      [openflow/discovery.py] that it calls.
    - [HostTracker.v]: [host_tracker/host_tracker.py]: where hosts are, and
      whether they still are there.
    - [Lldp.v], [Discovery.v]: [lib/packet/lldp.py], the structures of an LLDP
      packet, and [openflow/discovery.py], which sends such packets out of every
      port and learns links from those that come in.
    - [Dns.v], [Dhcp.v], [Eap.v], [Apps.v]: [lib/packet/dns.py], [dhcp.py], [eap.py]
      and [eapol.py], and all the parsers together, which fill the argument of
      [PacketWire] for the packets of applications.
    - [Vns.v], [Router.v]: [ltprotocol/ltprotocol/ltprotocol.py] and
      [pox_module/CSE425]: the VNS protocol on a stream, and the bridge between a
      switch and the clients that route for it.
    - [Switch.v], [NxSwitch.v]: the software switch of
      [openflow/switch_impl.py], over an interface for the way to its
      controllers, and that way with several controllers,
      [openflow/nx_switch_impl.py] and [openflow/nicira_ext.py].
    - [EndToEnd.v]: the learning switch and the software switch at the two ends
      of a connection, with bytes in between.

    A connection reads messages by [OfpStream.read_loop], which hands them to
    [Connection.handle], which raises events; [Revent.raiseEvent] calls the
    applications.  The applications look at the parsed frame
    ([PacketWire.parse_ethernet]), build matches ([Packet.from_packet]) and send
    flow modifications; the switch reads them by [Switch.controller_read],
    [FlowTable.process_flow_mod] applies them, [FlowTable.entry_for_packet]
    looks packets up and [Switch.process_packet] forwards them or sends a
    packet-in.

    ** What is proved

    - Wire formats.  Every message class, match, action list and packet header
      survives being packed and unpacked; what a packer calls a checksum is one;
      a stream of messages, cut anywhere, is read as those messages.  The same
      statements show where it is not so: fields that unpack forgets, lengths
      that pack does not compute, types that the reader does not know.
    - Connections.  A handshake ends in one ConnectionUp; what is sent leaves in
      order, whether sockets take it or the deferred sender keeps it; and where
      the code loses track of a datapath: a failed handshake, a stale connection,
      an end of file.
    - Events and tasks.  Raising an event is delivery to its listeners, in order;
      a task is in one place at a time however the scheduler and the hub
      interleave, tasks take turns, sleepers wake when they are due, timers keep
      their interval.
    - Flow tables.  The order of the table, the absence of duplicates and of two
      entries for one slot are an invariant; each command has its effect, and
      lookup returns the entry of highest priority that applies.
    - Applications.  The learning switches do what their documentation says of
      the history of packets; the multi-switch application computes shortest
      paths in every reachable state and installs them; the spanning tree is a
      forest of real links that spans the network.
      The host tracker learns from every frame of a host; what it does when hosts
      move or fall silent is shown as it is.
    - The switch.  Its table, ports and buffer keep their shape whatever arrives;
      it forwards what the entry it looked up says, floods to every other port,
      announces what it has no entry for and releases it when told to.  Of its
      controllers one at most is the master, and a slave changes nothing.
    - Discovery.  An LLDP packet survives the wire and parsing one ends; a probe
      sent out of a port and received elsewhere makes the link between the two
      known; the links known are between connected switches and are what the
      listeners were told; links not seen for long go.
    - Applications' packets.  A DNS message is read as what RFC 1035 says it is, a
      DHCP packet survives the wire; with all parsers, reading any bytes ends, in
      one of six exceptions at most; a switch loses frames whose packets cannot be
      packed again.
    - Copies and names.  The controller's copy of a flow table has the switch's
      flows as long as changes are confirmed one by one, and breaks when they are
      not; entities have a number each; a component that waits is told of
      what it waits for, in whatever order it comes.
    - The bridge.  A VNS stream is read as its messages however it is cut; a frame
      of the switch reaches every client with the interface's name, and a client's
      frames leave by the ports of their interfaces.
    - Input and output.  Bytes go through workers and their loop without loss and in
      order; selecting by differences told to the kernel is [select], until a
      descriptor is reused.
    - Both ends.  What the learning switch builds can be sent; whatever bytes a
      switch reads its invariant holds; a frame to a known host goes from the
      switch to the controller and is delivered by the answer, and later ones no
      longer go to the controller.

    ** Conventions

    Python integers are [Z], with the ranges of the wire stated where they
    matter; byte strings are lists of bytes; an exception is an [Err].  A loop
    that Python does not bound has fuel, and a theorem shows the fuel given to be
    enough: the length of the buffer for the stream and option parsers, the
    distance for the recursive expansion of a path, twice the number of switches
    for the search of the spanning tree.  Where fuel cannot be enough because
    the code loops for ever ([OfpStream.read_loop] on a length of zero), that is
    the theorem.  The order in which Python iterates over a set or a dictionary
    is an argument, and the theorems hold for every order.  Times are in
    nanoseconds, and the clock and random numbers are arguments.  Code that
    mutates an object is a function to the new object; entries of a flow table
    have an identity, because the code tells equal ones apart, and the frames of
    a switch are cells of a store, because its packet buffer shares them.  A message is
    recorded as the object handed to a connection.

    ** Not modelled

    The operating system's side of sockets and threads (what sockets take and
    [select] reports are arguments) and of Twisted, the locks between threads,
    module loading and option parsing, printing ([show], [__str__], logs), the
    web, messenger and GUI parts, tools, samples, the query language of the object
    graph and its remote-call controllers, the binding of libpcap, the Mininet
    scripts, and the course exercises in C beside POX: input and output, or
    glue. *)

From Stdlib Require Export ZArith Lia Strings.Byte.
From stdpp Require Export base numbers list list_numbers gmap strings sorting.

#[global] Set Default Goal Selector "!".

Declare Scope pox_scope.
Delimit Scope pox_scope with pox.
Open Scope Z_scope.

(** ** Python exceptions and the two monads of the model *)

(** The exception classes the modelled code raises or lets escape. *)
Inductive exn :=
  | StructError | AssertionError | RuntimeError | TypeError | AttributeError
  | KeyError | IndexError | ValueError | NameError | NotImplementedError
  | UnboundLocalError | VNSProtocolException
  | PlainException (* [Exception] itself *)
  | SocketError (errno : Z) (* [socket.error] *)
  | IOError (errno : Z)
  | SystemExit (code : Z)
  | OutOfFuel (* not Python: the recursion bound of a definition was too small *).

#[global] Instance exn_eq_dec : EqDecision exn.
Proof. solve_decision. Defined.

(** The outcome of a Python call: a value, or an exception that escapes. *)
Inductive result (A : Type) :=
  | Ok (a : A)
  | Err (e : exn).
Arguments Ok {A} a.
Arguments Err {A} e.

#[global] Instance result_eq_dec `{EqDecision A} : EqDecision (result A).
Proof. solve_decision. Defined.

#[global] Instance result_ret : MRet result := fun A a => Ok a.
#[global] Instance result_bind : MBind result := fun A B f m =>
  match m with Ok a => f a | Err e => Err e end.
#[global] Instance result_fmap : FMap result := fun A B f m =>
  match m with Ok a => Ok (f a) | Err e => Err e end.

(** [guard_ok c e]: raise [e] unless the test [c] holds. *)
Definition guard_ok (c : bool) (e : exn) : result unit :=
  if c then Ok tt else Err e.

(** A value that may be Python's [None] used where a value is needed. *)
Definition need {A} (e : exn) (o : option A) : result A :=
  match o with Some a => Ok a | None => Err e end.

(** Code that also reads and writes a module global of type [S]: the state
    reached survives an exception. *)
Definition M (S A : Type) : Type := S -> result A * S.

#[global] Instance M_ret {S} : MRet (M S) := fun A a s => (Ok a, s).
#[global] Instance M_bind {S} : MBind (M S) := fun A B f m s =>
  match m s with
  | (Ok a, s') => f a s'
  | (Err e, s') => (Err e, s')
  end.

Definition lift {S A} (r : result A) : M S A := fun s => (r, s).

Lemma bind_Ok {A B} (m : result A) (f : A -> result B) b :
  m ≫= f = Ok b <-> exists a, m = Ok a /\ f a = Ok b.
Proof.
  destruct m as [a|e]; cbn; split.
  - intros H. by exists a.
  - intros (a' & Ha & H). by injection Ha as ->.
  - done.
  - by intros (a' & Ha & _).
Qed.

Lemma M_bind_lift_Ok {S A B} (a : A) (f : A -> M S B) :
  (lift (Ok a) : M S A) ≫= f = f a.
Proof. reflexivity. Qed.

Lemma M_bind_unfold {S A B} (m : M S A) (f : A -> M S B) s :
  (m ≫= f) s = match m s with (Ok a, s') => f a s' | (Err e, s') => (Err e, s') end.
Proof. reflexivity. Qed.

Lemma M_bind_run {S A B} (m : M S A) (f : A -> M S B) s a s' : m s = (Ok a, s') -> (m ≫= f) s = f a s'.
Proof. intros E. by rewrite M_bind_unfold, E. Qed.
Lemma M_bind_Ok {S A B} (m : M S A) (f : A -> M S B) s b s' :
  (m ≫= f) s = (Ok b, s') -> exists a s1, m s = (Ok a, s1) /\ f a s1 = (Ok b, s').
Proof. rewrite M_bind_unfold. destruct (m s) as [[a|e] s1]; [|done]. by exists a, s1. Qed.

(** Reading and changing the state. *)
Definition get {S A} (f : S -> A) : M S A := fun s => (Ok (f s), s).
Definition modify {S} (f : S -> S) : M S unit := fun s => (Ok tt, f s).
Fixpoint for_each {S A} (l : list A) (f : A -> M S unit) : M S unit :=
  match l with [] => mret tt | a :: l => _ ← f a; for_each l f end.

(** A computation keeps a property of the state, whether it raises or not. *)
Definition preserves {S A} (I : S -> Prop) (m : M S A) : Prop := forall s, I s -> I (snd (m s)).

Section preserves.
Context {S : Type} (I : S -> Prop).

Lemma preserves_ret {A} (a : A) : preserves I (mret a).
Proof. intros s Hs. exact Hs. Qed.
Lemma preserves_lift {A} (r : result A) : preserves I (lift r).
Proof. intros s Hs. exact Hs. Qed.
Lemma preserves_get {A} (f : S -> A) : preserves I (get f).
Proof. intros s Hs. exact Hs. Qed.
Lemma preserves_bind {A B} (m : M S A) (f : A -> M S B) :
  preserves I m -> (forall a, preserves I (f a)) -> preserves I (m ≫= f).
Proof.
  intros Hm Hf s Hs. rewrite M_bind_unfold. specialize (Hm s Hs). destruct (m s) as [[a|e] s']; [|exact Hm].
  by apply Hf.
Qed.
Lemma preserves_modify f : (forall s, I s -> I (f s)) -> preserves I (modify f).
Proof. intros Hf s Hs. by apply Hf. Qed.
Lemma preserves_for_each {A} (l : list A) f : (forall a, preserves I (f a)) -> preserves I (for_each l f).
Proof. intros Hf. induction l as [|a l IH]; [apply preserves_ret|]. by apply preserves_bind. Qed.
End preserves.

Create HintDb keeps.
#[export] Hint Resolve preserves_ret preserves_lift preserves_get : keeps.

(** Walk through a handler; what is left are its changes of the state. *)
Ltac keep :=
  repeat (first
    [ solve [auto with keeps]
    | apply preserves_bind
    | apply preserves_for_each
    | match goal with
      | |- preserves _ (if ?b then _ else _) => destruct b
      | |- preserves _ (match ?x with _ => _ end) => destruct x
      end
    | match goal with |- forall _, preserves _ _ => intros ? end ]).

(** Destruct a hypothesis [x ≫= f = Ok y] down to its successful steps. *)
Ltac inv_ok :=
  repeat match goal with
  | H : _ ≫= _ = Ok _ |- _ =>
      apply bind_Ok in H; let a := fresh "a" in
      let E := fresh "E" in destruct H as (a & E & H)
  | H : Ok _ = Ok _ |- _ => injection H as H
  | H : Err _ = Ok _ |- _ => discriminate H
  | H : mret _ = Ok _ |- _ => injection H as H
  | H : guard_ok ?c _ = Ok _ |- _ =>
      let E := fresh "E" in destruct c eqn:E; [clear H | discriminate H]
  end.

(** ** Bytes *)

Abbreviation byte := Init.Byte.byte.
(** A Python 2 [str]/[bytes] object. *)
Abbreviation bytes := (list Init.Byte.byte).

#[global] Instance byte_eq_dec : EqDecision byte := Byte.byte_eq_dec.

(** [ord] and [chr] (the latter reduced modulo 256; range checks are made by
    the callers that have them). *)
Definition byte_to_Z (b : byte) : Z := Z.of_N (Byte.to_N b).
Definition byte_of_Z (z : Z) : byte :=
  match Byte.of_N (Z.to_N (z mod 256)) with Some b => b | None => x00 end.

(** The bytes of a string literal of the source. *)
Definition str (s : string) : bytes := String.list_byte_of_string s.

(** [len(b)]. *)
Definition blen {A} (b : list A) : Z := Z.of_nat (length b).

Definition zeros (n : nat) : bytes := replicate n x00.

Lemma byte_to_Z_range b : 0 <= byte_to_Z b < 256.
Proof. unfold byte_to_Z. pose proof (Byte.to_N_bounded b). lia. Qed.

Lemma byte_to_of_Z z : byte_to_Z (byte_of_Z z) = z mod 256.
Proof.
  unfold byte_of_Z, byte_to_Z.
  pose proof (Z.mod_pos_bound z 256 ltac:(lia)).
  destruct (Byte.of_N _) as [b|] eqn:E.
  - apply Byte.to_of_N in E. rewrite E. lia.
  - apply Byte.of_N_None_iff in E. lia.
Qed.

Lemma byte_of_to_Z b : byte_of_Z (byte_to_Z b) = b.
Proof.
  unfold byte_of_Z. rewrite Z.mod_small by apply byte_to_Z_range.
  unfold byte_to_Z. rewrite N2Z.id, Byte.of_to_N. done.
Qed.
#[global] Instance byte_countable : Countable byte := inj_countable' byte_to_Z byte_of_Z byte_of_to_Z.

Lemma byte_to_Z_inj b c : byte_to_Z b = byte_to_Z c -> b = c.
Proof. intros E. rewrite <-(byte_of_to_Z b), E. apply byte_of_to_Z. Qed.

Lemma byte_of_Z_mod z : byte_of_Z (z mod 256) = byte_of_Z z.
Proof. apply byte_to_Z_inj. rewrite !byte_to_of_Z, Z.mod_mod; lia. Qed.

(** ** Big-endian integers *)

(** The [n] low-order bytes of [z], most significant first. *)
Fixpoint be_encode (n : nat) (z : Z) : bytes :=
  match n with
  | O => []
  | S n' => byte_of_Z (z / 256 ^ Z.of_nat n') :: be_encode n' z
  end.

Fixpoint be_decode (bs : bytes) : Z :=
  match bs with
  | [] => 0
  | b :: bs' => byte_to_Z b * 256 ^ blen bs' + be_decode bs'
  end.

Lemma be_encode_length n z : length (be_encode n z) = n.
Proof. revert z; induction n; intros; simpl; auto. Qed.

Lemma pow256_pos n : 0 < 256 ^ Z.of_nat n.
Proof. apply Z.pow_pos_nonneg; lia. Qed.

Lemma pow256_S n : 256 ^ Z.of_nat (S n) = 256 ^ Z.of_nat n * 256.
Proof. rewrite Nat2Z.inj_succ, Z.pow_succ_r by lia. lia. Qed.

Lemma be_decode_encode n z : be_decode (be_encode n z) = z mod 256 ^ Z.of_nat n.
Proof.
  induction n as [|n IH]; [by rewrite Z.mod_1_r|].
  cbn [be_encode be_decode]. unfold blen. rewrite be_encode_length, IH, byte_to_of_Z.
  pose proof (pow256_pos n).
  rewrite pow256_S, Z.rem_mul_r by lia. lia.
Qed.

Lemma be_decode_encode_small n z :
  0 <= z < 256 ^ Z.of_nat n -> be_decode (be_encode n z) = z.
Proof. intros. rewrite be_decode_encode. by apply Z.mod_small. Qed.

Lemma be_decode_range bs : 0 <= be_decode bs < 256 ^ blen bs.
Proof.
  unfold blen. induction bs as [|b bs IH]; cbn [be_decode length]; [simpl; lia|].
  rewrite pow256_S. pose proof (byte_to_Z_range b). unfold blen. nia.
Qed.

Lemma be_decode_1 b : be_decode [b] = byte_to_Z b.
Proof. simpl. unfold blen. simpl. lia. Qed.

Lemma be_encode_add n z k :
  be_encode n (z + k * 256 ^ Z.of_nat n) = be_encode n z.
Proof.
  revert k; induction n as [|n IH]; intros k; [done|].
  cbn [be_encode]. pose proof (pow256_pos n).
  assert (HE : z + k * 256 ^ Z.of_nat (S n) = z + (k * 256) * 256 ^ Z.of_nat n)
    by (rewrite pow256_S; lia).
  rewrite HE, IH. f_equal.
  rewrite Z.div_add by lia. rewrite <-byte_of_Z_mod, Z.mod_add by lia.
  apply byte_of_Z_mod.
Qed.

Lemma be_encode_decode bs : be_encode (length bs) (be_decode bs) = bs.
Proof.
  induction bs as [|b bs IH]; [done|]. cbn [be_encode be_decode length].
  pose proof (be_decode_range bs) as Hr. unfold blen in *.
  pose proof (pow256_pos (length bs)). f_equal.
  - rewrite Z.div_add_l by lia. rewrite Z.div_small by lia.
    rewrite Z.add_0_r. apply byte_of_to_Z.
  - rewrite Z.add_comm, be_encode_add. apply IH.
Qed.

Lemma be_encode_mod n z : be_encode n (z mod 256 ^ Z.of_nat n) = be_encode n z.
Proof.
  pose proof (pow256_pos n).
  rewrite (Z.div_mod z (256 ^ Z.of_nat n)) at 2 by lia.
  rewrite Z.add_comm, (Z.mul_comm (256 ^ _)). symmetry. apply be_encode_add.
Qed.

(** ** Python slices of byte strings *)

(** The clamping Python applies to a slice bound. *)
Definition norm_idx (n i : Z) : Z :=
  if i <? 0 then Z.max 0 (n + i) else Z.min i n.

(** [b[i:j]]. *)
Definition pyslice {A} (b : list A) (i j : Z) : list A :=
  let lo := norm_idx (blen b) i in
  let hi := norm_idx (blen b) j in
  take (Z.to_nat (hi - lo)) (drop (Z.to_nat lo) b).

(** [b[i:]]. *)
Definition pyfrom {A} (b : list A) (i : Z) : list A :=
  drop (Z.to_nat (norm_idx (blen b) i)) b.

(** [b[:j]]. *)
Definition pyupto {A} (b : list A) (j : Z) : list A := pyslice b 0 j.

Lemma blen_app {A} (a b : list A) : blen (a ++ b) = blen a + blen b.
Proof. unfold blen. rewrite length_app. lia. Qed.

Lemma blen_nonneg {A} (a : list A) : 0 <= blen a.
Proof. unfold blen. lia. Qed.

Lemma blen_nil {A} : blen ([] : list A) = 0.
Proof. done. Qed.

Lemma blen_cons {A} (x : A) l : blen (x :: l) = 1 + blen l.
Proof. unfold blen. simpl length. lia. Qed.

Lemma blen_be_encode n z : blen (be_encode n z) = Z.of_nat n.
Proof. unfold blen. by rewrite be_encode_length. Qed.

Lemma blen_zeros n : blen (zeros n) = Z.of_nat n.
Proof. unfold blen, zeros. by rewrite length_replicate. Qed.

Lemma blen_0_inv {A} (l : list A) : blen l = 0 -> l = [].
Proof. destruct l; [done|]. rewrite blen_cons. pose proof (blen_nonneg l). lia. Qed.

Create Rewrite HintDb blen.
#[export] Hint Rewrite @blen_app @blen_nil @blen_cons blen_be_encode blen_zeros : blen.

(** Solve a goal about lengths of byte strings. *)
Ltac blen_solve :=
  repeat match goal with
  | l : list _ |- _ =>
      lazymatch goal with
      | _ : 0 <= blen l |- _ => fail
      | _ => pose proof (blen_nonneg l)
      end
  end; autorewrite with blen in *; simpl Z.of_nat in *; try lia.

Lemma pyfrom_app {A} (a b : list A) i : i = blen a -> pyfrom (a ++ b) i = b.
Proof.
  intros ->. unfold pyfrom, norm_idx. rewrite blen_app.
  pose proof (blen_nonneg a). pose proof (blen_nonneg b).
  destruct (Z.ltb_spec (blen a) 0); [lia|].
  rewrite Z.min_l by lia. unfold blen at 1. rewrite Nat2Z.id.
  apply drop_app_length.
Qed.

Lemma pyfrom_0 {A} (a : list A) : pyfrom a 0 = a.
Proof. apply (pyfrom_app [] a 0). done. Qed.

Lemma pyfrom_ge {A} (a : list A) i : blen a <= i -> pyfrom a i = [].
Proof.
  intros H. pose proof (blen_nonneg a). unfold pyfrom, norm_idx.
  destruct (Z.ltb_spec i 0); [lia|]. rewrite Z.min_r by lia.
  unfold blen. rewrite Nat2Z.id. apply drop_all.
Qed.

Lemma pyfrom_pos {A} (a : list A) i :
  0 <= i -> pyfrom a i = drop (Z.to_nat i) a.
Proof.
  intros H. unfold pyfrom, norm_idx. destruct (Z.ltb_spec i 0); [lia|].
  destruct (Z.le_ge_cases i (blen a)).
  - by rewrite Z.min_l by lia.
  - rewrite Z.min_r by lia. unfold blen in *.
    rewrite Nat2Z.id, drop_all. symmetry. apply drop_ge. lia.
Qed.

Lemma blen_pyfrom {A} (a : list A) i :
  0 <= i -> blen (pyfrom a i) = Z.max 0 (blen a - i).
Proof. intros. rewrite pyfrom_pos by done. unfold blen. rewrite length_drop. lia. Qed.

Lemma pyslice_pos {A} (a : list A) i j :
  0 <= i -> 0 <= j -> pyslice a i j = take (Z.to_nat (j - i)) (drop (Z.to_nat i) a).
Proof.
  intros Hi Hj. unfold pyslice, norm_idx.
  destruct (Z.ltb_spec i 0); [lia|]. destruct (Z.ltb_spec j 0); [lia|].
  apply list_eq. intros k. rewrite !lookup_take, !lookup_drop.
  unfold blen.
  destruct (decide (k < Z.to_nat (Z.min j (Z.of_nat (length a)) - Z.min i (Z.of_nat (length a))))%nat) as [Hk|Hk];
    destruct (decide (k < Z.to_nat (j - i))%nat) as [Hk'|Hk']; try lia.
  - f_equal. lia.
  - symmetry. apply lookup_ge_None. lia.
  - done.
Qed.

Lemma pyslice_app {A} (a m r : list A) i j :
  i = blen a -> j = blen a + blen m -> pyslice (a ++ m ++ r) i j = m.
Proof.
  intros -> ->. pose proof (blen_nonneg a). pose proof (blen_nonneg m).
  rewrite pyslice_pos by lia. unfold blen.
  rewrite Nat2Z.id, drop_app_length.
  replace (Z.to_nat _) with (length m) by lia. apply take_app_length.
Qed.

(** Skipping a prefix, and reading what is at the front: the steps that
    evaluate a slice of a concatenation. *)
Lemma pyfrom_skip {A} (a b : list A) i :
  blen a <= i -> pyfrom (a ++ b) i = pyfrom b (i - blen a).
Proof.
  intros H. pose proof (blen_nonneg a). rewrite !pyfrom_pos by lia. unfold blen in *.
  rewrite drop_app_ge by lia. f_equal. lia.
Qed.

Lemma pyslice_skip {A} (a b : list A) i j :
  blen a <= i <= j -> pyslice (a ++ b) i j = pyslice b (i - blen a) (j - blen a).
Proof.
  intros H. pose proof (blen_nonneg a). rewrite !pyslice_pos by lia. unfold blen in *.
  rewrite drop_app_ge by lia. f_equal; [lia|]. f_equal. lia.
Qed.

(** Numbers whose bits do not overlap. *)
Lemma land_shiftl_small k a b : 0 <= k -> 0 <= b < 2 ^ k -> Z.land (Z.shiftl a k) b = 0.
Proof.
  intros Hk Hb. apply Z.bits_inj'. intros n Hn. rewrite Z.land_spec, Z.bits_0, Z.shiftl_spec by done.
  destruct (Z.lt_ge_cases n k); [by rewrite Z.testbit_neg_r by lia|].
  rewrite (Z.testbit_eqb b) by lia. rewrite Z.div_small; [by rewrite andb_false_r|].
  split; [lia|]. apply Z.lt_le_trans with (2 ^ k); [lia|]. apply Z.pow_le_mono_r; lia.
Qed.
Lemma lor_shiftl_add k a b : 0 <= k -> 0 <= a -> 0 <= b < 2 ^ k -> Z.lor (Z.shiftl a k) b = a * 2 ^ k + b.
Proof.
  intros Hk Ha Hb. rewrite <-Z.shiftl_mul_pow2 by done.
  by rewrite <-Z.lxor_lor, <-Z.add_nocarry_lxor by (by apply land_shiftl_small).
Qed.

(** [ord(data[i])], for indices that are not negative. *)
Definition byte_at (b : bytes) (i : Z) : result Z :=
  x ← need IndexError (b !! Z.to_nat i); mret (byte_to_Z x).

Lemma byte_at_skip a b i : blen a <= i -> byte_at (a ++ b) i = byte_at b (i - blen a).
Proof.
  intros Hi. unfold byte_at, blen in *. rewrite lookup_app_r by lia.
  by replace (Z.to_nat i - length a)%nat with (Z.to_nat (i - Z.of_nat (length a))) by lia.
Qed.
Lemma byte_at_app pre b post i : i = blen pre -> byte_at (pre ++ b :: post) i = Ok (byte_to_Z b).
Proof. intros ->. rewrite byte_at_skip by lia. by rewrite Z.sub_diag. Qed.

Lemma pyslice_here {A} (m r : list A) j : j = blen m -> pyslice (m ++ r) 0 j = m.
Proof. intros ->. apply (pyslice_app [] m r); done. Qed.

Lemma pyslice_all {A} (m : list A) j : j = blen m -> pyslice m 0 j = m.
Proof. intros H. rewrite <-(app_nil_r m) at 1. by apply pyslice_here. Qed.

Lemma blen_pyslice {A} (a : list A) i j :
  0 <= i <= j -> blen (pyslice a i j) = Z.min (j - i) (Z.max 0 (blen a - i)).
Proof.
  intros. rewrite pyslice_pos by lia. unfold blen.
  rewrite length_take, length_drop. lia.
Qed.

(** [s.ljust(n, '\0')] and [s.replace('\0', '')]. *)
Definition ljust0 (n : nat) (s : bytes) : bytes := s ++ zeros (n - length s).
Definition strip0 (s : bytes) : bytes := filter (fun b => b <> x00) s.

(** No NUL byte in [s]. *)
Definition no_nul (s : bytes) : Prop := Forall (fun b => b <> x00) s.

#[global] Instance no_nul_dec s : Decision (no_nul s).
Proof. unfold no_nul. apply _. Defined.

Lemma strip0_id s : no_nul s -> strip0 s = s.
Proof.
  induction 1 as [|b s Hb Hs IH]; [done|]. unfold strip0 in *.
  rewrite filter_cons_True by done. by rewrite IH.
Qed.

Lemma strip0_zeros n : strip0 (zeros n) = [].
Proof. induction n; [done|]. unfold strip0, zeros in *. simpl. rewrite filter_cons_False; auto. Qed.

Lemma strip0_app a b : strip0 (a ++ b) = strip0 a ++ strip0 b.
Proof. apply filter_app. Qed.

Lemma strip0_ljust0 n s : no_nul s -> strip0 (ljust0 n s) = s.
Proof.
  intros. unfold ljust0. by rewrite strip0_app, strip0_zeros, strip0_id, app_nil_r.
Qed.

Lemma blen_ljust0 n s : blen s <= Z.of_nat n -> blen (ljust0 n s) = Z.of_nat n.
Proof. unfold ljust0, blen, zeros. rewrite length_app, length_replicate. lia. Qed.

Lemma strip0_no_nul s : no_nul (strip0 s).
Proof. unfold no_nul, strip0. rewrite Forall_forall. intros b Hb. by apply list_elem_of_filter in Hb as [? _]. Qed.
