(* ===== verification/PyStruct.v ===== *)
(** * Python's [struct] module, as the sources use it

    Every wire format of the sources is written and read with [struct.pack],
    [struct.unpack] and [struct.unpack_from] on big-endian, unaligned formats
    (["!..."] and ["> ..."]).  A format is a list of codes; [vals f] is the
    tuple of values that the format takes.  Out-of-range integers and buffers
    of the wrong size raise [struct.error], as in Python 2.7. *)

From S2P Require Import Prelude.

Inductive code :=
  | uint (n : nat)   (* B, H, L/I, Q *)
  | sint (n : nat)   (* l, i *)
  | cs (n : nat)     (* <n>s *)
  | cx.              (* x *)

Notation "'cB'" := (uint 1) (at level 0) : pox_scope.
Notation "'cH'" := (uint 2) (at level 0) : pox_scope.
Notation "'cL'" := (uint 4) (at level 0) : pox_scope.
Notation "'cQ'" := (uint 8) (at level 0) : pox_scope.
Notation "'cl'" := (sint 4) (at level 0) : pox_scope.
Open Scope pox_scope.

Definition code_size (c : code) : nat :=
  match c with uint n => n | sint n => n | cs n => n | cx => 1 end.

(** [struct.calcsize]. *)
Fixpoint calcsize (f : list code) : nat :=
  match f with [] => 0%nat | c :: f' => (code_size c + calcsize f')%nat end.

Fixpoint vals (f : list code) : Type :=
  match f with
  | [] => unit
  | c :: f' =>
      match c with
      | uint _ => Z * vals f'
      | sint _ => Z * vals f'
      | cs _ => bytes * vals f'
      | cx => vals f'
      end
  end.

(** A string field is padded with NULs, or truncated. *)
Definition pack_s (n : nat) (s : bytes) : bytes := take n s ++ zeros (n - length s).

Definition uint_ok (n : nat) (z : Z) : Prop := 0 <= z < 256 ^ Z.of_nat n.
Definition sint_ok (n : nat) (z : Z) : Prop :=
  - (256 ^ Z.of_nat n / 2) <= z < 256 ^ Z.of_nat n / 2.
#[global] Instance uint_ok_dec n z : Decision (uint_ok n z).
Proof. unfold uint_ok. apply _. Defined.
#[global] Instance sint_ok_dec n z : Decision (sint_ok n z).
Proof. unfold sint_ok. apply _. Defined.

Definition pack_uint (n : nat) (z : Z) : result bytes :=
  if decide (uint_ok n z) then Ok (be_encode n z) else Err StructError.
Definition pack_sint (n : nat) (z : Z) : result bytes :=
  if decide (sint_ok n z) then Ok (be_encode n z) else Err StructError.

(** The two's-complement reading of [n] bytes. *)
Definition to_signed (n : nat) (z : Z) : Z :=
  if z <? 256 ^ Z.of_nat n / 2 then z else z - 256 ^ Z.of_nat n.

(** [struct.pack]. *)
Fixpoint pack (f : list code) : vals f -> result bytes :=
  match f return vals f -> result bytes with
  | [] => fun _ => Ok []
  | c :: f' =>
      match c return vals (c :: f') -> result bytes with
      | uint n => fun v => h ← pack_uint n (fst v); r ← pack f' (snd v); mret (h ++ r)
      | sint n => fun v => h ← pack_sint n (fst v); r ← pack f' (snd v); mret (h ++ r)
      | cs n => fun v => r ← pack f' (snd v); mret (pack_s n (fst v) ++ r)
      | cx => fun v => r ← pack f' v; mret (x00 :: r)
      end
  end.

(** The fields at the front of [b]; used on buffers that are long enough. *)
Fixpoint decode (f : list code) (b : bytes) : vals f :=
  match f return vals f with
  | [] => tt
  | c :: f' =>
      match c return vals (c :: f') with
      | uint n => (be_decode (take n b), decode f' (drop n b))
      | sint n => (to_signed n (be_decode (take n b)), decode f' (drop n b))
      | cs n => (take n b, decode f' (drop n b))
      | cx => decode f' (drop 1 b)
      end
  end.

(** [struct.unpack] and [struct.unpack_from]. *)
Definition unpack (f : list code) (b : bytes) : result (vals f) :=
  if (length b =? calcsize f)%nat then Ok (decode f b) else Err StructError.
Definition unpack_from (f : list code) (b : bytes) (off : Z) : result (vals f) :=
  if Z.of_nat (calcsize f) <=? blen b - off
  then Ok (decode f (drop (Z.to_nat off) b))
  else Err StructError.

(** ** What [pack] accepts and produces *)

Fixpoint packable (f : list code) : vals f -> Prop :=
  match f return vals f -> Prop with
  | [] => fun _ => True
  | c :: f' =>
      match c return vals (c :: f') -> Prop with
      | uint n => fun v => uint_ok n (fst v) /\ packable f' (snd v)
      | sint n => fun v => sint_ok n (fst v) /\ packable f' (snd v)
      | cs n => fun v => packable f' (snd v)
      | cx => fun v => packable f' v
      end
  end.

(** String fields that fill their field exactly. *)
Fixpoint exact (f : list code) : vals f -> Prop :=
  match f return vals f -> Prop with
  | [] => fun _ => True
  | c :: f' =>
      match c return vals (c :: f') -> Prop with
      | uint n => fun v => exact f' (snd v)
      | sint n => fun v => exact f' (snd v)
      | cs n => fun v => length (fst v) = n /\ exact f' (snd v)
      | cx => fun v => exact f' v
      end
  end.

#[global] Instance packable_dec f v : Decision (packable f v).
Proof. revert v. induction f as [|[n|n|n|] f IH]; intros v; simpl; apply _. Defined.
#[global] Instance exact_dec f v : Decision (exact f v).
Proof. revert v. induction f as [|[n|n|n|] f IH]; intros v; simpl; apply _. Defined.

Fixpoint encode (f : list code) : vals f -> bytes :=
  match f return vals f -> bytes with
  | [] => fun _ => []
  | c :: f' =>
      match c return vals (c :: f') -> bytes with
      | uint n => fun v => be_encode n (fst v) ++ encode f' (snd v)
      | sint n => fun v => be_encode n (fst v) ++ encode f' (snd v)
      | cs n => fun v => pack_s n (fst v) ++ encode f' (snd v)
      | cx => fun v => x00 :: encode f' v
      end
  end.

Lemma pack_s_length n s : length (pack_s n s) = n.
Proof. unfold pack_s, zeros. rewrite length_app, length_take, length_replicate. lia. Qed.

Lemma pack_s_exact n s : length s = n -> pack_s n s = s.
Proof.
  intros <-. unfold pack_s. rewrite Nat.sub_diag. simpl.
  by rewrite app_nil_r, firstn_all.
Qed.

(** A field shorter than its width is the field [s.ljust(n, '\0')]. *)
Lemma pack_s_ljust n s : (length s <= n)%nat -> pack_s n s = ljust0 n s.
Proof. intros. unfold pack_s, ljust0. by rewrite take_ge. Qed.

Lemma encode_length f v : length (encode f v) = calcsize f.
Proof.
  revert v. induction f as [|[n|n|n|] f IH]; intros v; simpl;
    rewrite ?length_app, ?be_encode_length, ?pack_s_length, ?IH; done.
Qed.

Lemma blen_encode f v : blen (encode f v) = Z.of_nat (calcsize f).
Proof. unfold blen. by rewrite encode_length. Qed.

(** [pack] is [encode], exactly when every integer is in its range. *)
Lemma pack_spec f v :
  pack f v = if decide (packable f v) then Ok (encode f v) else Err StructError.
Proof.
  revert v. induction f as [|[n|n|n|] f IH]; intros v; simpl; [done|..].
  - unfold pack_uint. rewrite IH.
    destruct (decide (uint_ok n v.1)), (decide (packable f v.2)); simpl;
      case_decide; first [done | tauto].
  - unfold pack_sint. rewrite IH.
    destruct (decide (sint_ok n v.1)), (decide (packable f v.2)); simpl;
      case_decide; first [done | tauto].
  - rewrite IH. destruct (decide (packable f v.2)); done.
  - rewrite IH. destruct (decide (packable f v)); done.
Qed.

Lemma pack_ok f v : packable f v -> pack f v = Ok (encode f v).
Proof. intros. rewrite pack_spec. by rewrite decide_True. Qed.

Lemma pack_Ok_inv f v b : pack f v = Ok b -> packable f v /\ b = encode f v.
Proof. rewrite pack_spec. case_decide; intros [=]; done. Qed.

Lemma to_signed_encode n z :
  (0 < n)%nat -> sint_ok n z -> to_signed n (be_decode (be_encode n z)) = z.
Proof.
  unfold sint_ok, to_signed. intros Hn Hz. rewrite be_decode_encode.
  destruct n as [|n]; [lia|]. pose proof (pow256_pos n) as Hp.
  rewrite pow256_S in *.
  assert (Hd : 256 ^ Z.of_nat n * 256 / 2 = 256 ^ Z.of_nat n * 128).
  { replace (256 ^ Z.of_nat n * 256) with (256 ^ Z.of_nat n * 128 * 2) by lia.
    apply Z.div_mul. lia. }
  rewrite Hd in *. set (p := 256 ^ Z.of_nat n) in *. clearbody p.
  destruct (Z.lt_ge_cases z 0) as [Hneg|Hpos].
  - assert (Hm : z mod (p * 256) = z + p * 256).
    { symmetry. apply (Z.mod_unique_pos _ _ (-1)); lia. }
    rewrite Hm. destruct (Z.ltb_spec (z + p * 256) (p * 128)); lia.
  - rewrite Z.mod_small by lia. destruct (Z.ltb_spec z (p * 128)); lia.
Qed.

Fixpoint no_sint0 (f : list code) : bool :=
  match f with [] => true | sint O :: _ => false | _ :: f' => no_sint0 f' end.

(** Round trip: the fields read back are the fields written. *)
Lemma decode_encode f v r :
  no_sint0 f = true -> packable f v -> exact f v -> decode f (encode f v ++ r) = v.
Proof.
  revert v. induction f as [|[n|n|n|] f IH]; intros v Hs Hp He; simpl in *.
  - by destruct v.
  - destruct v as [z v], Hp as [Hz Hp]; simpl in *. rewrite <-app_assoc.
    rewrite take_app_length', drop_app_length' by (by rewrite be_encode_length).
    rewrite be_decode_encode_small by done. f_equal. by apply IH.
  - destruct v as [z v], Hp as [Hz Hp]; simpl in *. rewrite <-app_assoc.
    rewrite take_app_length', drop_app_length' by (by rewrite be_encode_length).
    rewrite to_signed_encode by (destruct n; [done | lia || done]).
    f_equal. apply IH; try done. by destruct n.
  - destruct v as [s v], He as [Hl He]; simpl in *. rewrite <-app_assoc.
    rewrite take_app_length', drop_app_length' by (by rewrite pack_s_length).
    rewrite pack_s_exact by done. f_equal. by apply IH.
  - by apply IH.
Qed.

Lemma packable_decode f b :
  no_sint0 f = true -> (calcsize f <= length b)%nat -> packable f (decode f b).
Proof.
  revert b. induction f as [|[n|n|n|] f IH]; intros b Hs Hb; simpl in *; [done|..].
  - split.
    + pose proof (be_decode_range (take n b)) as H. unfold uint_ok, blen in *.
      rewrite length_take in H. by rewrite Nat.min_l in H by lia.
    + apply IH; [done|]. rewrite length_drop. lia.
  - split.
    + pose proof (be_decode_range (take n b)) as H. unfold sint_ok, to_signed, blen in *.
      rewrite length_take, Nat.min_l in H by lia.
      destruct n as [|n]; [done|]. rewrite pow256_S in *. pose proof (pow256_pos n).
      set (p := 256 ^ Z.of_nat n) in *. clearbody p.
      assert (p * 256 / 2 = p * 128) as ->.
      { replace (p * 256) with (p * 128 * 2) by lia. apply Z.div_mul. lia. }
      destruct (Z.ltb_spec (be_decode (take (S n) b)) (p * 128)); lia.
    + apply IH; [by destruct n|]. rewrite length_drop. lia.
  - apply IH; [done|]. rewrite length_drop. lia.
  - apply IH; [done|]. rewrite length_drop. lia.
Qed.

(** ** The forms used by the message codecs *)

(** [unpack_from] at the place where [pack] put the same format. *)
Lemma unpack_from_app f v (a r : bytes) off :
  off = blen a -> no_sint0 f = true -> packable f v -> exact f v ->
  unpack_from f (a ++ encode f v ++ r) off = Ok v.
Proof.
  intros -> Hs Hp He. unfold unpack_from. autorewrite with blen. rewrite blen_encode.
  destruct (Z.leb_spec (Z.of_nat (calcsize f)) (blen a + (Z.of_nat (calcsize f) + blen r) - blen a)) as [_|H];
    [|pose proof (blen_nonneg r); lia].
  unfold blen. rewrite Nat2Z.id, drop_app_length. by rewrite decode_encode.
Qed.

Lemma unpack_from_skip f (a b : bytes) off :
  blen a <= off -> unpack_from f (a ++ b) off = unpack_from f b (off - blen a).
Proof.
  intros H. pose proof (blen_nonneg a). unfold unpack_from. rewrite blen_app.
  replace (blen a + blen b - off) with (blen b - (off - blen a)) by lia.
  destruct (_ <=? _); [|done]. do 2 f_equal. unfold blen in *.
  rewrite drop_app_ge by lia. f_equal. lia.
Qed.

Lemma unpack_from_here f v r :
  no_sint0 f = true -> packable f v -> exact f v -> unpack_from f (encode f v ++ r) 0 = Ok v.
Proof. intros. by apply (unpack_from_app f v [] r 0). Qed.

Lemma unpack_encode f v :
  no_sint0 f = true -> packable f v -> exact f v -> unpack f (encode f v) = Ok v.
Proof.
  intros Hs Hp He. unfold unpack. rewrite encode_length, Nat.eqb_refl.
  f_equal. rewrite <-(app_nil_r (encode f v)). by apply decode_encode.
Qed.

Lemma unpack_from_fits f b off :
  Z.of_nat (calcsize f) <= blen b - off ->
  unpack_from f b off = Ok (decode f (drop (Z.to_nat off) b)).
Proof. intros H. unfold unpack_from. by destruct (Z.leb_spec (Z.of_nat (calcsize f)) (blen b - off)); [|lia]. Qed.

#[export] Hint Rewrite blen_encode : blen.

(** ** Reading a buffer that is a concatenation of known pieces

    [rd] evaluates the next read of a parser: it skips the pieces before the
    offset, then reads the piece written by the same format. *)

Lemma unpack_from_skip' f (a b : bytes) n off off' :
  blen a = n -> n <= off -> off - n = off' ->
  unpack_from f (a ++ b) off = unpack_from f b off'.
Proof. intros <- H <-. by apply unpack_from_skip. Qed.

Lemma pyslice_skip' {A} (a b : list A) n i j i' j' :
  blen a = n -> n <= i <= j -> i - n = i' -> j - n = j' -> pyslice (a ++ b) i j = pyslice b i' j'.
Proof. intros <- H <- <-. by apply pyslice_skip. Qed.

Lemma pyfrom_skip' {A} (a b : list A) n i i' :
  blen a = n -> n <= i -> i - n = i' -> pyfrom (a ++ b) i = pyfrom b i'.
Proof. intros <- H <-. by apply pyfrom_skip. Qed.

Lemma pyfrom_end {A} (a : list A) i : blen a = i -> pyfrom a i = [].
Proof. intros <-. apply pyfrom_ge. lia. Qed.

Lemma unpack_from_last f v :
  no_sint0 f = true -> packable f v -> exact f v -> unpack_from f (encode f v) 0 = Ok v.
Proof. intros. rewrite <-(app_nil_r (encode f v)). by apply unpack_from_here. Qed.

(** Close [blen a = ?n], instantiating [?n] with a numeral. *)
Ltac blen_eval :=
  first [ eassumption
        | rewrite blen_encode; cbn [calcsize code_size Nat.add Z.of_nat Pos.of_succ_nat Pos.succ]; reflexivity
        | rewrite blen_zeros; cbn; reflexivity
        | cbn; reflexivity ].

Ltac rd_arith := cbn; first [reflexivity | lia].

Ltac rd1 :=
  first
    [ rewrite unpack_from_here by (first [reflexivity | assumption | (cbn; tauto)])
    | rewrite unpack_from_last by (first [reflexivity | assumption | (cbn; tauto)])
    | erewrite unpack_from_skip'; [|blen_eval|rd_arith|rd_arith]
    | rewrite pyslice_here by (symmetry; blen_eval)
    | rewrite pyslice_all by (symmetry; blen_eval)
    | erewrite pyslice_skip'; [|blen_eval|rd_arith|rd_arith|rd_arith]
    | rewrite pyfrom_0
    | erewrite pyfrom_skip'; [|blen_eval|rd_arith|rd_arith]
    | rewrite pyfrom_end by blen_eval ].
Ltac rd := repeat rd1; cbn [mbind result_bind mret result_ret fst snd].

(** A length test that the buffer passes. *)
Ltac len_ok :=
  first [ rewrite (proj2 (Z.ltb_ge _ _)) by blen_solve
        | rewrite (proj2 (Z.leb_gt _ _)) by blen_solve ].
