(* ===== verification/Addresses.v ===== *)
(** * Ethernet and IPv4 addresses ([pox/lib/addresses.py])

    [EthAddr] keeps the raw string, [IPAddr] the signed value of the four
    network-order bytes read in the byte order of the host, taken to be
    little-endian (x86).  Text forms go through Python's [int], modelled by
    [py_int]; [socket.inet_aton] is a parameter of [parseCIDR]. *)

From S2P Require Import Prelude PyStruct.

(** ** Python's [int(s, base)] and ['%02x'] *)

Definition digit_val (b : byte) : option Z :=
  let c := byte_to_Z b in
  if (48 <=? c) && (c <=? 57) then Some (c - 48)
  else if (97 <=? c) && (c <=? 102) then Some (c - 87)
  else if (65 <=? c) && (c <=? 70) then Some (c - 55)
  else None.

Definition is_space (b : byte) : bool :=
  let c := byte_to_Z b in (c =? 32) || ((9 <=? c) && (c <=? 13)).

Fixpoint py_digits (base acc : Z) (s : bytes) : option Z :=
  match s with
  | [] => Some acc
  | b :: s' =>
      match digit_val b with
      | Some d => if d <? base then py_digits base (acc * base + d) s' else None
      | None => None
      end
  end.

Fixpoint lstrip (s : bytes) : bytes :=
  match s with b :: s' => if is_space b then lstrip s' else s | [] => [] end.
Definition strip (s : bytes) : bytes := reverse (lstrip (reverse (lstrip s))).

Definition py_nat (base : Z) (s : bytes) : option Z :=
  let s' := match s with
            | x30 :: x :: t => if (base =? 16) && bool_decide (x = x78 \/ x = x58) then t else s
            | _ => s
            end in
  match s' with [] => None | _ => py_digits base 0 s' end.

(** [int(s, base)]; [None] is [ValueError]. *)
Definition py_int (base : Z) (s : bytes) : option Z :=
  match strip s with
  | x2d :: t => Z.opp <$> py_nat base t
  | x2b :: t => py_nat base t
  | t => py_nat base t
  end.

Definition hex_digit (d : Z) : byte := byte_of_Z (if d <? 10 then 48 + d else 87 + d).

Fixpoint hex_digits (fuel : nat) (z : Z) : bytes :=
  match fuel with
  | O => []
  | S f => if z <? 16 then [hex_digit z] else hex_digits f (z / 16) ++ [hex_digit (z mod 16)]
  end.

(** [hex(z)[2:]] for [z >= 0]: one round per hexadecimal digit. *)
Definition py_hex (z : Z) : bytes := hex_digits (S (Z.to_nat (Z.log2 z))) z.

Definition fmt_02x (z : Z) : bytes :=
  if z <? 0 then x2d :: py_hex (- z)
  else if z <? 16 then x30 :: py_hex z else py_hex z.

(** [s.split(sep)] for a one-character separator. *)
Fixpoint split_on (sep : byte) (s : bytes) : list bytes :=
  match s with
  | [] => [[]]
  | b :: s' =>
      match split_on sep s' with
      | w :: ws => if decide (b = sep) then [] :: w :: ws else (b :: w) :: ws
      | [] => [[b]]
      end
  end.

Definition count_byte (c : byte) (s : bytes) : nat := length (filter (fun b => b = c) s).

(** [chr(z)]. *)
Definition py_chr (z : Z) : result byte :=
  if (0 <=? z) && (z <? 256) then Ok (byte_of_Z z) else Err ValueError.

(** Monadic map, left to right. *)
Fixpoint mapR {A B} (f : A -> result B) (l : list A) : result (list B) :=
  match l with
  | [] => mret []
  | a :: l' => b ← f a; bs ← mapR f l'; mret (b :: bs)
  end.

(** ** EthAddr *)

Record EthAddr := mkEth { eth_value : bytes }.

#[global] Instance EthAddr_eq_dec : EqDecision EthAddr.
Proof. solve_decision. Defined.
#[global] Program Instance EthAddr_countable : Countable EthAddr :=
  inj_countable' (fun a => byte_to_Z <$> eth_value a) (fun l => mkEth (byte_of_Z <$> l)) _.
Next Obligation.
  intros [v]. simpl. f_equal. rewrite <-list_fmap_compose.
  rewrite <-(list_fmap_id v) at 2. apply list_fmap_ext. intros i b _. apply byte_of_to_Z.
Qed.

(** The accepted arguments of the constructor. *)
Inductive eth_arg :=
  | EInt (z : Z)
  | EStr (s : bytes)
  | EAddr (a : EthAddr)
  | EList (l : list Z)    (* a list, of any length *)
  | ETuple (l : list Z)   (* a tuple or other sized iterable *)
  | ENone.

(** The loop that stores an integer as six bytes, least significant last. *)
Fixpoint eth_int_loop (n : nat) (addr : Z) (val : bytes) : bytes :=
  match n with
  | O => val
  | S n' => eth_int_loop n' (Z.shiftr addr 8) (byte_of_Z (Z.land addr 255) :: val)
  end.

(** The characters [s[2::3]] of a 17-character string. *)
Definition seps17 (s : bytes) : bytes :=
  omap (fun i => s !! i) [2; 5; 8; 11; 14]%nat.

Definition eth_of_hex12 (s : bytes) : result EthAddr :=
  v ← mapR (fun x => z ← need ValueError (py_int 16 (pyslice s (x * 2) (x * 2 + 2))); py_chr z)
        [0; 1; 2; 3; 4; 5];
  mret (mkEth v).

Definition eth_of_str (s : bytes) : result EthAddr :=
  if (blen s =? 17) || (blen s =? 12) || (Z.of_nat (count_byte x3a s) =? 5) then
    if blen s =? 17 then
      if bool_decide (seps17 s = str ":::::") || bool_decide (seps17 s = str "-----")
      then eth_of_hex12 (mjoin ((fun x => pyslice s (x * 3) (x * 3 + 2)) <$> [0; 1; 2; 3; 4; 5]))
      else Err RuntimeError
    else if blen s =? 12 then eth_of_hex12 s
    else
      parts ← mapR (fun x => z ← need ValueError (py_int 16 x); mret (fmt_02x z)) (split_on x3a s);
      eth_of_hex12 (mjoin parts)
  else if blen s =? 6 then Ok (mkEth s)
  else Err RuntimeError.

Definition EthAddr_init (addr : eth_arg) : result EthAddr :=
  match addr with
  | EInt z => Ok (mkEth (eth_int_loop 6 z []))
  | EStr s => eth_of_str s
  | EAddr a => Ok (mkEth (eth_value a))
  | EList l => v ← mapR py_chr l; mret (mkEth v)
  | ETuple l =>
      if blen l =? 6 then v ← mapR py_chr l; mret (mkEth v) else Err RuntimeError
  | ENone => Ok (mkEth (zeros 6))
  end.

(** [ord(self._value[i])]. *)
Definition eth_ord (a : EthAddr) (i : nat) : result Z :=
  b ← need IndexError (eth_value a !! i); mret (byte_to_Z b).

(** Python's short-circuiting [and]. *)
Definition and_then (a b : result bool) : result bool :=
  x ← a; if (x : bool) then b else mret false.

Definition isBridgeFiltered (a : EthAddr) : result bool :=
  let byte_is i v := x ← eth_ord a i; mret (x =? v) in
  and_then (byte_is 0%nat 0x01) (and_then (byte_is 1%nat 0x80) (and_then (byte_is 2%nat 0xC2)
    (and_then (byte_is 3%nat 0x00) (and_then (byte_is 4%nat 0x00)
      (x ← eth_ord a 5; mret (x <=? 0x0F)))))).

Definition isLocal (a : EthAddr) : result bool :=
  x ← eth_ord a 0; mret (negb (Z.land x 2 =? 0)).
Definition isGlobal (a : EthAddr) : result bool := b ← isLocal a; mret (negb b).
Definition isMulticast (a : EthAddr) : result bool :=
  x ← eth_ord a 0; mret (negb (Z.land x 1 =? 0)).

Definition eth_toRaw (a : EthAddr) : bytes := eth_value a.
Definition eth_len (a : EthAddr) : Z := 6.

(** [toInt]: the byte at index [i] is shifted by [8*(5-i)]. *)
Fixpoint eth_toInt_loop (i : Z) (s : bytes) (value : Z) : Z :=
  match s with
  | [] => value
  | b :: s' => eth_toInt_loop (i + 1) s' (value + Z.shiftl (byte_to_Z b) (8 * (5 - i)))
  end.
Definition eth_toInt (a : EthAddr) : Z := eth_toInt_loop 0 (eth_value a) 0.

Definition eth_toTuple (a : EthAddr) : list Z := byte_to_Z <$> eth_value a.

Fixpoint join (sep : bytes) (l : list bytes) : bytes :=
  match l with
  | [] => []
  | [x] => x
  | x :: l' => x ++ sep ++ join sep l'
  end.

Definition eth_toStr (a : EthAddr) (separator : bytes) : bytes :=
  join separator ((fun b => fmt_02x (byte_to_Z b)) <$> eth_value a).

(** Lexicographic [<] of Python strings. *)
Fixpoint bytes_ltb (s t : bytes) : bool :=
  match s, t with
  | _, [] => false
  | [], _ :: _ => true
  | b :: s', c :: t' =>
      (byte_to_Z b <? byte_to_Z c) || ((byte_to_Z b =? byte_to_Z c) && bytes_ltb s' t')
  end.

(** [__cmp__] against another address, as written: both orders give [-1]. *)
Definition eth_cmp (a b : EthAddr) : result Z :=
  if bool_decide (eth_value a = eth_value b) then Ok 0
  else if bytes_ltb (eth_value a) (eth_value b) then Ok (-1)
  else if bytes_ltb (eth_value b) (eth_value a) then Ok (-1)
  else Err RuntimeError.

Definition EMPTY_ETH : EthAddr := mkEth (zeros 6).

(** ** IPAddr *)

Record IPAddr := mkIP { ip_value : Z }.

#[global] Instance IPAddr_eq_dec : EqDecision IPAddr.
Proof. solve_decision. Defined.
#[global] Program Instance IPAddr_countable : Countable IPAddr :=
  inj_countable' ip_value mkIP _.
Next Obligation. by intros []. Qed.

(** Reversal of the four bytes of a 32-bit integer ([socket.htonl]). *)
Definition htonl (z : Z) : Z := be_decode (reverse (be_encode 4 z)).

(** [struct.unpack('i', b)[0]] and [struct.pack('i', v)] on the host. *)
Definition host_i (b : bytes) : Z := to_signed 4 (be_decode (reverse b)).
Definition host_pack_i (v : Z) : bytes := reverse (be_encode 4 v).

Definition IPAddr_of_int (addr : Z) (networkOrder : bool) : IPAddr :=
  let addr := Z.land addr 0xffffffff in
  mkIP (to_signed 4 (if networkOrder then addr else htonl addr)).

Definition IPAddr_of_raw (b : bytes) : result IPAddr :=
  if blen b =? 4 then Ok (mkIP (host_i b)) else Err StructError.

Definition ip_toUnsigned (a : IPAddr) (networkOrder : bool) : Z :=
  let v := Z.land (ip_value a) 0xffffffff in
  if networkOrder then v else htonl v.

Definition ip_toSigned (a : IPAddr) (networkOrder : bool) : Z :=
  if networkOrder then ip_value a
  else to_signed 4 (htonl (Z.land (ip_value a) 0xffffffff)).

Definition ip_toRaw (a : IPAddr) : bytes := host_pack_i (ip_value a).

(** [inNetwork((n, b))]; [b] wildcard bits, [b >= 0] in every caller. *)
Definition inNetwork (a n : IPAddr) (b : Z) : bool :=
  Z.land (ip_toUnsigned a false) (Z.lnot (Z.shiftl 1 b - 1)) =? ip_toUnsigned n false.

Definition ip_cmp (a b : IPAddr) : Z :=
  if ip_value a <? ip_value b then -1 else if ip_value b <? ip_value a then 1 else 0.

(** [inferNetMask]: the last [return 0] sits inside the class D branch, so a
    class E address falls off the end and yields [None]. *)
Definition inferNetMask (addr : IPAddr) : option Z :=
  let addr := ip_toUnsigned addr false in
  if addr =? 0 then Some 32
  else if Z.land addr (Z.shiftl 1 31) =? 0 then Some 24
  else if Z.land addr (Z.shiftl 3 30) =? Z.shiftl 2 30 then Some 16
  else if Z.land addr (Z.shiftl 7 29) =? Z.shiftl 6 29 then Some 8
  else if Z.land addr (Z.shiftl 15 28) =? Z.shiftl 14 28 then Some 0
  else None.

(** The loop [while m & (1<<31): b += 1; m <<= 1]; [None] is out of fuel. *)
Fixpoint netmask_loop (fuel : nat) (b m : Z) : option (Z * Z) :=
  match fuel with
  | O => None
  | S f => if negb (Z.land m (Z.shiftl 1 31) =? 0) then netmask_loop f (b + 1) (Z.shiftl m 1)
           else Some (b, m)
  end.

(** The wildcard bits of a dotted-quad netmask (33 rounds always suffice). *)
Definition netmask_wild (mask : IPAddr) : result Z :=
  match netmask_loop 33 0 (ip_toUnsigned mask false) with
  | Some (b, m) => if negb (Z.land m 0x7fffffff =? 0) then Err RuntimeError else Ok (32 - b)
  | None => Err RuntimeError
  end.

Definition cidr_check (r0 : IPAddr) (r1 : option Z) : result (IPAddr * Z) :=
  b ← need TypeError r1;
  if negb (Z.land (ip_toUnsigned r0 false) (Z.shiftl 1 b - 1) =? 0)
  then Err RuntimeError else Ok (r0, b).

Section parseCIDR.
(** [IPAddr(s)] on a string that is not four characters long: [inet_aton]. *)
Context (inet_aton : bytes -> result bytes).

Definition IPAddr_of_str (s : bytes) : result IPAddr :=
  if blen s =? 4 then Ok (mkIP (host_i s))
  else raw ← inet_aton s; IPAddr_of_raw raw.

Definition parseCIDR (addr : bytes) (infer : bool) : result (IPAddr * Z) :=
  match split_on x2f addr with
  | [a0] =>
      a ← IPAddr_of_str a0;
      if negb infer then mret (a, 0)
      else
        b ← need TypeError (inferNetMask a);
        if Z.land (ip_toUnsigned a false) (Z.shiftl 1 b - 1) =? 0
        then cidr_check a (Some b)
        else cidr_check a (Some 0)
  | a0 :: a1 :: _ =>
      match py_int 10 a1 with
      | Some n =>
          let wild := 32 - n in
          _ ← guard_ok ((0 <=? wild) && (wild <=? 32)) AssertionError;
          a ← IPAddr_of_str a0; cidr_check a (Some wild)
      | None =>
          m ← IPAddr_of_str a1;
          wild ← netmask_wild m;
          _ ← guard_ok ((0 <=? wild) && (wild <=? 32)) AssertionError;
          a ← IPAddr_of_str a0; cidr_check a (Some wild)
      end
  | [] => Err IndexError
  end.
End parseCIDR.

Definition IP_ANY : IPAddr := mkIP 0.

(** ** Lemmas on the bit operations *)

Lemma land_shiftl_r x m k :
  0 <= k -> Z.land x (Z.shiftl m k) = Z.shiftl (Z.land (Z.shiftr x k) m) k.
Proof.
  intros Hk. apply Z.bits_inj'. intros n Hn.
  rewrite Z.land_spec, !Z.shiftl_spec, Z.land_spec by lia.
  destruct (Z.lt_ge_cases n k).
  - rewrite !(Z.testbit_neg_r _ (n - k)) by lia. by rewrite !andb_false_r.
  - rewrite Z.shiftr_spec by lia. by replace (n - k + k) with n by lia.
Qed.

Lemma land_mask32 z : Z.land z 0xffffffff = z mod 2 ^ 32.
Proof. change 0xffffffff with (Z.ones 32). by rewrite Z.land_ones. Qed.

Lemma land_lnot_mask z b :
  0 <= b -> Z.land z (Z.lnot (Z.shiftl 1 b - 1)) = z / 2 ^ b * 2 ^ b.
Proof.
  intros Hb. rewrite Z.shiftl_1_l. replace (2 ^ b - 1) with (Z.ones b) by (rewrite Z.ones_equiv; lia).
  rewrite <-Z.ldiff_land, Z.ldiff_ones_r by lia.
  by rewrite Z.shiftl_mul_pow2, Z.shiftr_div_pow2 by lia.
Qed.

Lemma land_low_bits z b : 0 <= b -> Z.land z (Z.shiftl 1 b - 1) = z mod 2 ^ b.
Proof.
  intros Hb. rewrite Z.shiftl_1_l. replace (2 ^ b - 1) with (Z.ones b) by (rewrite Z.ones_equiv; lia).
  by apply Z.land_ones.
Qed.

(** ** Ethernet addresses *)

Lemma eth_int_loop_spec n z val : eth_int_loop n z val = be_encode n z ++ val.
Proof.
  revert z val. induction n as [|n IH]; intros z val; [done|].
  cbn [eth_int_loop]. rewrite IH. rewrite Z.shiftr_div_pow2 by lia.
  assert (Hs : byte_of_Z (Z.land z 255) = byte_of_Z z).
  { change 255 with (Z.ones 8). rewrite Z.land_ones by lia. apply byte_of_Z_mod. }
  rewrite Hs. clear IH Hs.
  replace (byte_of_Z z :: val) with ([byte_of_Z z] ++ val) by done.
  rewrite app_assoc. f_equal. change (2 ^ 8) with 256.
  revert z. induction n as [|n IH]; intros z.
  - cbn [be_encode app]. by rewrite Z.div_1_r.
  - cbn [be_encode app] in *. f_equal; [|apply IH].
    pose proof (pow256_pos n). rewrite pow256_S, Z.div_div by lia. by rewrite Z.mul_comm.
Qed.

Lemma eth_toInt_spec v : length v = 6%nat -> eth_toInt (mkEth v) = be_decode v.
Proof.
  intros H. do 6 (destruct v as [|? v]; [discriminate|]). destruct v; [|discriminate].
  unfold eth_toInt. cbn [eth_value eth_toInt_loop be_decode].
  rewrite !Z.shiftl_mul_pow2 by lia. unfold blen. cbn [length].
  change (256 ^ Z.of_nat 5) with (2 ^ 40). change (256 ^ Z.of_nat 4) with (2 ^ 32).
  change (256 ^ Z.of_nat 3) with (2 ^ 24). change (256 ^ Z.of_nat 2) with (2 ^ 16).
  change (256 ^ Z.of_nat 1) with (2 ^ 8). change (256 ^ Z.of_nat 0) with 1.
  simpl (8 * _). lia.
Qed.

Lemma fmt_02x_byte b :
  exists h l, fmt_02x (byte_to_Z b) = [h; l] /\ py_int 16 [h; l] = Some (byte_to_Z b).
Proof. destruct b; eexists _, _; split; reflexivity. Qed.

Lemma py_chr_byte b : py_chr (byte_to_Z b) = Ok b.
Proof.
  unfold py_chr. pose proof (byte_to_Z_range b).
  destruct (Z.leb_spec 0 (byte_to_Z b)); [|lia].
  destruct (Z.ltb_spec (byte_to_Z b) 256); [|lia]. simpl. by rewrite byte_of_to_Z.
Qed.

Lemma mapR_py_chr v : mapR py_chr (byte_to_Z <$> v) = Ok v.
Proof.
  induction v as [|b v IH]; [done|]. rewrite fmap_cons. cbn [mapR].
  rewrite py_chr_byte. cbn [mbind result_bind]. by rewrite IH.
Qed.

Lemma split_on_none c s : c ∉ s -> split_on c s = [s].
Proof.
  induction s as [|b s IH]; [done|]. rewrite not_elem_of_cons. intros [Hb Hs]. cbn [split_on]. rewrite IH by done.
  by rewrite decide_False by congruence.
Qed.

Lemma split_on_nonempty sep s : split_on sep s <> [].
Proof. induction s as [|b s IH]; [done|]. cbn [split_on]. destruct (split_on sep s); [done|]. by case_decide. Qed.
Lemma split_on_cons sep w rest : sep ∉ w -> split_on sep (w ++ sep :: rest) = w :: split_on sep rest.
Proof.
  induction w as [|b w IH]; intros Hw.
  - cbn [app split_on]. pose proof (split_on_nonempty sep rest). destruct (split_on sep rest); [done|]. by rewrite decide_True.
  - cbn [app split_on]. rewrite IH by set_solver. by rewrite decide_False by set_solver.
Qed.
Lemma split_join sep parts : parts <> [] -> Forall (fun w => sep ∉ w) parts -> split_on sep (join [sep] parts) = parts.
Proof.
  intros Hne H. induction H as [|w parts Hw H IH]; [done|]. cbn [join]. destruct parts as [|w' parts]; [by apply split_on_none|].
  cbn [app]. rewrite split_on_cons by done. by rewrite IH.
Qed.

Lemma eth_of_str_colons h l h0 l0 h1 l1 h2 l2 h3 l3 h4 l4 :
  eth_of_str [h; l; x3a; h0; l0; x3a; h1; l1; x3a; h2; l2; x3a; h3; l3; x3a; h4; l4] =
  eth_of_hex12 [h; l; h0; l0; h1; l1; h2; l2; h3; l3; h4; l4].
Proof. reflexivity. Qed.

Lemma eth_of_hex12_pairs h l h0 l0 h1 l1 h2 l2 h3 l3 h4 l4 b b0 b1 b2 b3 b4 :
  py_int 16 [h; l] = Some (byte_to_Z b) -> py_int 16 [h0; l0] = Some (byte_to_Z b0) ->
  py_int 16 [h1; l1] = Some (byte_to_Z b1) -> py_int 16 [h2; l2] = Some (byte_to_Z b2) ->
  py_int 16 [h3; l3] = Some (byte_to_Z b3) -> py_int 16 [h4; l4] = Some (byte_to_Z b4) ->
  eth_of_hex12 [h; l; h0; l0; h1; l1; h2; l2; h3; l3; h4; l4] = Ok (mkEth [b; b0; b1; b2; b3; b4]).
Proof.
  intros P P0 P1 P2 P3 P4. unfold eth_of_hex12. cbn [mapR].
  repeat match goal with |- context [pyslice ?x ?i ?j] =>
    let v := eval cbv in (pyslice x i j) in change (pyslice x i j) with v end.
  rewrite P, P0, P1, P2, P3, P4. cbn [need mbind result_bind].
  by rewrite !py_chr_byte.
Qed.

Lemma eth_of_str_toStr v :
  length v = 6%nat -> eth_of_str (eth_toStr (mkEth v) (str ":")) = Ok (mkEth v).
Proof.
  intros H. do 6 (destruct v as [|? v]; [discriminate|]). destruct v; [|discriminate].
  unfold eth_toStr. cbn [eth_value fmap list_fmap].
  repeat match goal with
  | |- context [fmt_02x (byte_to_Z ?b)] =>
      let h := fresh "h" in let l := fresh "l" in let E := fresh "E" in let P := fresh "P" in
      destruct (fmt_02x_byte b) as (h & l & E & P); rewrite E
  end.
  match goal with |- eth_of_str ?s = _ =>
    change s with [h; l; x3a; h0; l0; x3a; h1; l1; x3a; h2; l2; x3a; h3; l3; x3a; h4; l4]
  end.
  rewrite eth_of_str_colons. apply eth_of_hex12_pairs; done.
Qed.

(** ** IPv4 addresses *)

Lemma htonl_range z : 0 <= htonl z < 2 ^ 32.
Proof.
  unfold htonl. pose proof (be_decode_range (reverse (be_encode 4 z))) as H.
  unfold blen in H. rewrite length_reverse, be_encode_length in H. exact H.
Qed.

Lemma htonl_involutive z : 0 <= z < 2 ^ 32 -> htonl (htonl z) = z.
Proof.
  intros Hz. unfold htonl.
  assert (Hl : length (reverse (be_encode 4 z)) = 4%nat)
    by (by rewrite length_reverse, be_encode_length).
  rewrite <-Hl at 1. rewrite be_encode_decode, reverse_involutive.
  by apply be_decode_encode_small.
Qed.

Lemma to_signed_mod u : 0 <= u < 2 ^ 32 -> to_signed 4 u mod 2 ^ 32 = u.
Proof.
  intros Hu. unfold to_signed. change (256 ^ Z.of_nat 4) with (2 ^ 32).
  case_match; [by apply Z.mod_small|].
  replace (u - 2 ^ 32) with (u + (-1) * 2 ^ 32) by lia.
  rewrite Z.mod_add by lia. by apply Z.mod_small.
Qed.

Lemma to_signed_range u : 0 <= u < 2 ^ 32 -> - 2 ^ 31 <= to_signed 4 u < 2 ^ 31.
Proof.
  intros Hu. unfold to_signed. change (256 ^ Z.of_nat 4) with (2 ^ 32).
  change (2 ^ 32 / 2) with (2 ^ 31). destruct (Z.ltb_spec u (2 ^ 31)); lia.
Qed.

Lemma toUnsigned_of_int z : ip_toUnsigned (IPAddr_of_int z false) false = z mod 2 ^ 32.
Proof.
  unfold ip_toUnsigned, IPAddr_of_int. cbn [ip_value].
  rewrite !land_mask32, to_signed_mod by apply htonl_range.
  apply htonl_involutive. apply Z.mod_pos_bound. lia.
Qed.

Lemma ip_toUnsigned_range a n : 0 <= ip_toUnsigned a n < 2 ^ 32.
Proof.
  unfold ip_toUnsigned. destruct n; [|apply htonl_range].
  rewrite land_mask32. apply Z.mod_pos_bound. lia.
Qed.

(** An address whose value a constructor can have stored. *)
Definition ip_wf (a : IPAddr) : Prop := - 2 ^ 31 <= ip_value a < 2 ^ 31.

Lemma IPAddr_of_int_wf z n : ip_wf (IPAddr_of_int z n).
Proof.
  unfold ip_wf, IPAddr_of_int. cbn [ip_value]. apply to_signed_range.
  destruct n; [rewrite land_mask32; apply Z.mod_pos_bound; lia | apply htonl_range].
Qed.

Lemma to_signed_of_mod v : - 2 ^ 31 <= v < 2 ^ 31 -> to_signed 4 (v mod 2 ^ 32) = v.
Proof.
  intros Hv. unfold to_signed. change (256 ^ Z.of_nat 4) with (2 ^ 32).
  change (2 ^ 32 / 2) with (2 ^ 31).
  destruct (Z.lt_ge_cases v 0).
  - replace (v mod 2 ^ 32) with (v + 2 ^ 32)
      by (apply (Z.mod_unique_pos _ _ (-1)); lia).
    destruct (Z.ltb_spec (v + 2 ^ 32) (2 ^ 31)); lia.
  - rewrite Z.mod_small by lia. destruct (Z.ltb_spec v (2 ^ 31)); lia.
Qed.

Lemma of_int_toUnsigned a : ip_wf a -> IPAddr_of_int (ip_toUnsigned a false) false = a.
Proof.
  intros Ha. destruct a as [v]. unfold IPAddr_of_int, ip_toUnsigned, ip_wf in *.
  cbn [ip_value] in *. f_equal.
  rewrite !land_mask32, (Z.mod_small (htonl _)) by apply htonl_range.
  rewrite htonl_involutive by (apply Z.mod_pos_bound; lia).
  by apply to_signed_of_mod.
Qed.

Lemma inNetwork_spec a n b :
  0 <= b ->
  inNetwork a n b = bool_decide (ip_toUnsigned a false / 2 ^ b * 2 ^ b = ip_toUnsigned n false).
Proof.
  intros Hb. unfold inNetwork. rewrite land_lnot_mask by done.
  case_bool_decide; [by apply Z.eqb_eq | by apply Z.eqb_neq].
Qed.

Lemma ip_wf_unsigned_inj a b :
  ip_wf a -> ip_wf b -> ip_toUnsigned a false = ip_toUnsigned b false -> a = b.
Proof.
  intros Ha Hb E. rewrite <-(of_int_toUnsigned a), <-(of_int_toUnsigned b) by done.
  by rewrite E.
Qed.

Lemma host_i_pack v : - 2 ^ 31 <= v < 2 ^ 31 -> host_i (host_pack_i v) = v.
Proof.
  intros Hv. unfold host_i, host_pack_i. rewrite reverse_involutive, be_decode_encode.
  by apply to_signed_of_mod.
Qed.

Lemma blen_host_pack_i v : blen (host_pack_i v) = 4.
Proof. unfold blen, host_pack_i. by rewrite length_reverse, be_encode_length. Qed.

Lemma host_i_wf b : length b = 4%nat -> ip_wf (mkIP (host_i b)).
Proof.
  intros H. unfold ip_wf, host_i. cbn [ip_value]. apply to_signed_range.
  pose proof (be_decode_range (reverse b)) as Hr.
  unfold blen in Hr. by rewrite length_reverse, H in Hr.
Qed.

Lemma host_pack_i_inj v w :
  - 2 ^ 31 <= v < 2 ^ 31 -> - 2 ^ 31 <= w < 2 ^ 31 -> host_pack_i v = host_pack_i w -> v = w.
Proof. intros Hv Hw E. rewrite <-(host_i_pack v), <-(host_i_pack w) by done. by rewrite E. Qed.

(** ** Netmasks *)

Lemma test_bit_ge k u : 0 <= k -> (Z.land u (Z.shiftl 1 k) =? 0) = negb (Z.testbit u k).
Proof.
  intros Hk. rewrite Z.shiftl_1_l.
  destruct (Z.testbit u k) eqn:E; simpl.
  - apply Z.eqb_neq. intros H. apply (f_equal (fun z => Z.testbit z k)) in H.
    rewrite Z.land_spec, Z.pow2_bits_true, E, Z.bits_0 in H by lia. done.
  - apply Z.eqb_eq. apply Z.bits_inj'. intros n Hn. rewrite Z.land_spec, Z.bits_0.
    destruct (decide (n = k)) as [->|]; [by rewrite E|].
    rewrite Z.pow2_bits_false by lia. by rewrite andb_false_r.
Qed.

(** Bit 31 of the loop's value is bit [31 - i] of what is left. *)
Lemma netmask_top_bit i r :
  0 <= i < 32 -> 0 <= r < 2 ^ (32 - i) ->
  Z.testbit ((2 ^ 32 - 2 ^ (32 - i) + r) * 2 ^ i) 31 = (2 ^ (31 - i) <=? r).
Proof.
  intros Hi Hr.
  assert (Hp : 2 ^ (32 - i) = 2 * 2 ^ (31 - i)) by (rewrite <-Z.pow_succ_r by lia; f_equal; lia).
  rewrite Z.mul_pow2_bits by lia. rewrite Z.testbit_eqb by lia.
  assert (Hq : 2 ^ 32 - 2 ^ (32 - i) = (2 ^ i - 1) * 2 * 2 ^ (31 - i)).
  { rewrite Hp. assert (2 ^ 32 = 2 * 2 ^ i * 2 ^ (31 - i)); [|lia].
    rewrite <-Z.mul_assoc, <-Z.pow_add_r by lia. replace (i + (31 - i)) with 31 by lia. done. }
  assert (0 < 2 ^ (31 - i)) by (apply Z.pow_pos_nonneg; lia).
  rewrite Hq, (Z.add_comm _ r), Z.div_add by lia.
  rewrite Z.mod_add by lia.
  destruct (Z.leb_spec (2 ^ (31 - i)) r) as [Hle|Hlt].
  - assert (r / 2 ^ (31 - i) = 1) as -> by (symmetry; apply (Z.div_unique _ _ _ (r - 2 ^ (31 - i))); lia). done.
  - by rewrite Z.div_small by lia.
Qed.

(** Loop invariant: the [i] top bits of [u] are set and the rest is [r]. *)
Lemma netmask_loop_run fuel i r :
  0 <= i <= 32 -> 32 - i < Z.of_nat fuel -> 0 <= r < 2 ^ (32 - i) ->
  exists j r', i <= j <= 32 /\ 0 <= r' < 2 ^ (32 - j) /\
    (2 ^ 32 - 2 ^ (32 - i) + r = 2 ^ 32 - 2 ^ (32 - j) + r') /\
    (j = 32 \/ r' < 2 ^ (31 - j)) /\
    netmask_loop fuel i ((2 ^ 32 - 2 ^ (32 - i) + r) * 2 ^ i) =
      Some (j, (2 ^ 32 - 2 ^ (32 - j) + r') * 2 ^ j).
Proof.
  revert i r. induction fuel as [|f IH]; intros i r Hi Hf Hr; [lia|].
  cbn [netmask_loop]. rewrite test_bit_ge, negb_involutive by lia.
  set (u := 2 ^ 32 - 2 ^ (32 - i) + r) in *.
  assert (Hu : u * 2 ^ i = (2 ^ i - 1) * 2 ^ 32 + r * 2 ^ i).
  { unfold u. assert (2 ^ 32 = 2 ^ (32 - i) * 2 ^ i) by (rewrite <-Z.pow_add_r by lia; f_equal; lia). nia. }
  destruct (Z.eq_dec i 32) as [->|Hne].
  - exists 32, r. change (2 ^ (32 - 32)) with 1 in *. assert (r = 0) as -> by lia.
    assert (Z.testbit (u * 2 ^ 32) 31 = false) as ->.
    { rewrite Z.mul_pow2_bits_low by lia. done. }
    split; [lia|]. split; [lia|]. split; [done|]. split; [by left|done].
  - assert (Hp : 2 ^ (32 - i) = 2 * 2 ^ (31 - i)) by (rewrite <-Z.pow_succ_r by lia; f_equal; lia).
    replace (Z.testbit (u * 2 ^ i) 31) with (2 ^ (31 - i) <=? r)
      by (symmetry; apply netmask_top_bit; lia).
    destruct (Z.leb_spec (2 ^ (31 - i)) r) as [Hle|Hlt].
    + destruct (IH (i + 1) (r - 2 ^ (31 - i))) as (j & r' & Hj & Hr' & He & Hend & Hrun).
      * lia.
      * lia.
      * replace (32 - (i + 1)) with (31 - i) by lia. lia.
      * exists j, r'. replace (32 - (i + 1)) with (31 - i) in * by lia.
        assert (Hu' : 2 ^ 32 - 2 ^ (31 - i) + (r - 2 ^ (31 - i)) = u) by (unfold u; lia).
        rewrite Hu' in *. rewrite Z.shiftl_mul_pow2 by lia.
        rewrite <-Z.mul_assoc. change (2 ^ 1) with 2. rewrite (Z.mul_comm (2 ^ i)), <-Z.pow_succ_r by lia.
        rewrite <-Z.add_1_r. split; [lia|]. split; [lia|]. split; [lia|]. split; [exact Hend|].
        exact Hrun.
    + exists i, r. split; [lia|]. split; [lia|]. split; [done|]. split; [by right|done].
Qed.

Lemma netmask_wild_run u mask :
  ip_toUnsigned mask false = u ->
  exists j r', 0 <= j <= 32 /\ 0 <= r' /\ u = 2 ^ 32 - 2 ^ (32 - j) + r' /\
    (j = 32 /\ r' = 0 \/ j < 32 /\ r' < 2 ^ (31 - j)) /\
    netmask_wild mask = if r' =? 0 then Ok (32 - j) else Err RuntimeError.
Proof.
  intros Hu. pose proof (ip_toUnsigned_range mask false) as Hr. rewrite Hu in Hr.
  destruct (netmask_loop_run 33 0 u) as (j & r' & Hj & Hr' & He & Hend & Hrun);
    [lia|lia|exact Hr|].
  change (2 ^ 32 - 2 ^ (32 - 0) + u) with u in *. rewrite Z.mul_1_r in Hrun.
  exists j, r'. split; [lia|]. split; [lia|]. split; [lia|].
  unfold netmask_wild. rewrite Hu, Hrun.
  change 0x7fffffff with (Z.ones 31). rewrite Z.land_ones by lia.
  destruct (Z.eq_dec j 32) as [->|Hne].
  { change (2 ^ (32 - 32)) with 1 in *. assert (r' = 0) as -> by lia. split; [by left|]. done. }
  destruct Hend as [?|Hend]; [lia|]. split; [right; lia|].
  assert (Hsp : 2 ^ 32 = 2 ^ (32 - j) * 2 ^ j) by (rewrite <-Z.pow_add_r by lia; f_equal; lia).
  assert (Hs2 : 2 ^ 31 = 2 ^ (31 - j) * 2 ^ j) by (rewrite <-Z.pow_add_r by lia; f_equal; lia).
  assert (0 < 2 ^ j) by (apply Z.pow_pos_nonneg; lia).
  replace ((2 ^ 32 - 2 ^ (32 - j) + r') * 2 ^ j) with (r' * 2 ^ j + (2 ^ j - 1) * 2 * 2 ^ 31) by nia.
  rewrite Z.mod_add, Z.mod_small by nia.
  destruct (Z.eqb_spec r' 0) as [->|]; [done|].
  destruct (Z.eqb_spec (r' * 2 ^ j) 0); [nia|done].
Qed.

(** The constructor on a raw six-byte string. *)
Lemma eth_init_raw (v : bytes) :
  length v = 6%nat ->
  EthAddr_init (EStr v) =
    if decide (count_byte x3a v = 5%nat) then Err ValueError else Ok (mkEth v).
Proof.
  intros H. cbn [EthAddr_init].
  do 6 (destruct v as [|? v]; [discriminate|]). destruct v; [|discriminate]. clear H.
  unfold eth_of_str.
  assert (Hc : forall c s, count_byte c [] = 0%nat /\
    forall b, count_byte c (b :: s) = ((if decide (b = c) then 1 else 0) + count_byte c s)%nat).
  { intros c s. split; [done|]. intros b'. unfold count_byte. rewrite filter_cons.
    by destruct (decide (b' = c)). }
  rewrite !(proj2 (Hc x3a _)), (proj1 (Hc x3a [])).
  cbn [split_on].
  repeat match goal with |- context [decide (?x = x3a)] =>
    is_var x; destruct (decide (x = x3a)) as [->|?] end.
  all: try reflexivity.
  all: cbn [split_on mapR mbind result_bind need]; cbn -[py_int].
  all: try reflexivity.
  all: destruct (py_int 16 [_]); reflexivity.
Qed.

(** ** Properties *)

(** Every six-byte Ethernet address is recovered from its text form, its
    integer, its byte list and its tuple; an integer is stored modulo 2^48. *)
Theorem EthAddr_roundtrip (a : EthAddr) (z : Z) :
  length (eth_value a) = 6%nat ->
  EthAddr_init (EStr (eth_toStr a (str ":"))) = Ok a /\
  EthAddr_init (EInt (eth_toInt a)) = Ok a /\
  EthAddr_init (ETuple (eth_toTuple a)) = Ok a /\
  (eth_toInt <$> EthAddr_init (EInt z)) = Ok (z mod 2 ^ 48).
Proof.
  destruct a as [v]. cbn [eth_value]. intros H.
  split; [by apply eth_of_str_toStr|].
  split; [|split].
  - cbn [EthAddr_init]. rewrite eth_int_loop_spec, eth_toInt_spec, app_nil_r by done.
    f_equal. f_equal. rewrite <-H. apply be_encode_decode.
  - unfold EthAddr_init, eth_toTuple. cbn [eth_value].
    unfold blen. rewrite length_fmap, H. cbn [Z.eqb]. change (Z.of_nat 6 =? 6) with true.
    cbn [mbind result_bind]. rewrite mapR_py_chr. done.
  - cbn [EthAddr_init fmap result_fmap].
    rewrite eth_int_loop_spec, app_nil_r, eth_toInt_spec by apply be_encode_length.
    by rewrite be_decode_encode.
Qed.

Lemma EthAddr_roundtrip_witness :
  length (eth_value (mkEth (str "ABCDEF"))) = 6%nat /\
  EthAddr_init (EStr (str "41:42:43:44:45:46")) = Ok (mkEth (str "ABCDEF")).
Proof.
  split; [reflexivity|].
  exact (proj1 (EthAddr_roundtrip (mkEth (str "ABCDEF")) 0 eq_refl)).
Defined.

(** A raw six-byte string is read back as that address, except when five
    of the bytes are 0x3a (':'): those are taken for text and always raise
    [ValueError]. *)
Theorem EthAddr_raw (v : bytes) :
  length v = 6%nat ->
  EthAddr_init (EStr v) =
    if decide (count_byte x3a v = 5%nat) then Err ValueError else Ok (mkEth v).
Proof. apply eth_init_raw. Qed.

Lemma EthAddr_raw_witness :
  length (str ":::::A") = 6%nat /\ EthAddr_init (EStr (str ":::::A")) = Err ValueError.
Proof. split; [reflexivity|]. exact (EthAddr_raw (str ":::::A") eq_refl). Defined.

(** Every address value a constructor can store is recovered from its
    four raw bytes and from its integer in host or network order, and an
    integer is stored modulo 2^32. *)
Theorem IPAddr_roundtrip (a : IPAddr) (z : Z) :
  - 2 ^ 31 <= ip_value a < 2 ^ 31 ->
  IPAddr_of_raw (ip_toRaw a) = Ok a /\
  IPAddr_of_int (ip_toUnsigned a false) false = a /\
  IPAddr_of_int (ip_toUnsigned a true) true = a /\
  IPAddr_of_int (ip_toSigned a false) false = a /\
  ip_toUnsigned (IPAddr_of_int z false) false = z mod 2 ^ 32.
Proof.
  intros Ha. split; [|split; [|split; [|split]]].
  - unfold IPAddr_of_raw, ip_toRaw. rewrite blen_host_pack_i, host_i_pack by done.
    by destruct a.
  - by apply of_int_toUnsigned.
  - destruct a as [v]. cbn [ip_value] in Ha. unfold IPAddr_of_int, ip_toUnsigned. cbn [ip_value].
    rewrite !land_mask32, Z.mod_mod by lia. by rewrite to_signed_of_mod.
  - transitivity (IPAddr_of_int (ip_toUnsigned a false) false); [|by apply of_int_toUnsigned].
    assert (E : Z.land (ip_toSigned a false) 0xffffffff = Z.land (ip_toUnsigned a false) 0xffffffff).
    { unfold ip_toSigned, ip_toUnsigned. pose proof (htonl_range (Z.land (ip_value a) 0xffffffff)).
      rewrite (land_mask32 (to_signed _ _)), (land_mask32 (htonl _)), to_signed_mod by done.
      by rewrite Z.mod_small. }
    unfold IPAddr_of_int. by rewrite E.
  - apply toUnsigned_of_int.
Qed.

Lemma IPAddr_roundtrip_witness :
  - 2 ^ 31 <= ip_value (IPAddr_of_int 0x0a000001 false) < 2 ^ 31 /\
  IPAddr_of_raw (ip_toRaw (IPAddr_of_int 0x0a000001 false)) = Ok (IPAddr_of_int 0x0a000001 false).
Proof.
  split; [vm_compute; split; congruence|].
  apply (IPAddr_roundtrip (IPAddr_of_int 0x0a000001 false) 0). vm_compute; split; congruence.
Defined.

(** The netmask branch of [parseCIDR] accepts exactly the 33 contiguous
    masks, with the number of their zero bits, and rejects every other mask
    with [RuntimeError]. *)
Theorem netmask_wild_spec (mask : IPAddr) :
  (forall k, netmask_wild mask = Ok k <->
     0 <= k <= 32 /\ ip_toUnsigned mask false = 2 ^ 32 - 2 ^ k) /\
  ((forall k, 0 <= k <= 32 -> ip_toUnsigned mask false <> 2 ^ 32 - 2 ^ k) ->
     netmask_wild mask = Err RuntimeError).
Proof.
  destruct (netmask_wild_run _ mask eq_refl) as (j & r' & Hj & Hr' & Hu & Hend & ->).
  rewrite Hu. split.
  - intros k. destruct (Z.eqb_spec r' 0) as [->|Hne].
    + split.
      * intros [=<-]. split; [lia|]. lia.
      * intros [Hk He]. assert (2 ^ k = 2 ^ (32 - j)) as Hp by lia.
        apply Z.pow_inj_r in Hp; [by subst|lia..].
    + split; [done|]. intros [Hk He]. exfalso. destruct Hend as [[-> ->]|[Hlt Hlt']]; [done|].
      assert (Hsp : 2 ^ (32 - j) = 2 * 2 ^ (31 - j)) by (rewrite <-Z.pow_succ_r by lia; f_equal; lia).
      destruct (Z.lt_ge_cases k (32 - j)) as [Hc|Hc].
      * assert (2 ^ k <= 2 ^ (31 - j)) by (apply Z.pow_le_mono_r; lia). lia.
      * assert (2 ^ (32 - j) <= 2 ^ k) by (apply Z.pow_le_mono_r; lia). lia.
  - intros H. destruct (Z.eqb_spec r' 0) as [->|]; [|done].
    exfalso. apply (H (32 - j)); lia.
Qed.

Lemma shiftr28_class u k :
  0 <= u < 2 ^ 32 -> 28 <= k -> u / 2 ^ k = u / 2 ^ 28 / 2 ^ (k - 28).
Proof. intros Hu Hk. rewrite Z.div_div by lia. rewrite <-Z.pow_add_r by lia. do 2 f_equal. lia. Qed.

(** [inferNetMask] gives the class of an address: 32 for 0.0.0.0, 24, 16,
    8 and 0 for classes A to D, and no value at all for class E. *)
Theorem inferNetMask_spec (a : IPAddr) :
  let u := ip_toUnsigned a false in
  inferNetMask a =
    if u =? 0 then Some 32 else if u <? 2 ^ 31 then Some 24 else if u <? 3 * 2 ^ 30 then Some 16
    else if u <? 7 * 2 ^ 29 then Some 8 else if u <? 15 * 2 ^ 28 then Some 0 else None.
Proof.
  intros u. unfold inferNetMask. fold u.
  pose proof (ip_toUnsigned_range a false) as Hu. fold u in Hu. clearbody u.
  destruct (u =? 0); [done|].
  rewrite !land_shiftl_r by lia. rewrite !Z.shiftr_div_pow2 by lia.
  rewrite (shiftr28_class u 31), (shiftr28_class u 30), (shiftr28_class u 29) by lia.
  pose proof (Z.div_mod u (2 ^ 28) ltac:(lia)) as He.
  pose proof (Z.mod_pos_bound u (2 ^ 28) ltac:(lia)).
  assert (Hq : 0 <= u / 2 ^ 28 < 16) by (split; [apply Z.div_pos; lia | apply Z.div_lt_upper_bound; lia]).
  set (q := u / 2 ^ 28) in *. clearbody q.
  assert (Hc : In q [0;1;2;3;4;5;6;7;8;9;10;11;12;13;14;15]) by (simpl; lia).
  simpl in Hc.
  repeat (destruct Hc as [<-|Hc]); [..|done];
  repeat match goal with |- context [?b =? ?c] =>
    let v := eval vm_compute in (b =? c) in change (b =? c) with v end; cbv iota;
  repeat match goal with |- context [u <? ?c] =>
    destruct (Z.ltb_spec u c); try (exfalso; lia) end; reflexivity.
Qed.

Lemma cidr_check_inv r0 r1 a b :
  cidr_check r0 r1 = Ok (a, b) ->
  a = r0 /\ r1 = Some b /\ Z.land (ip_toUnsigned a false) (Z.shiftl 1 b - 1) = 0.
Proof.
  unfold cidr_check. intros H. destruct r1 as [b'|]; cbn in H; [|discriminate].
  destruct (_ =? 0) eqn:E; [|discriminate]. apply Z.eqb_eq in E.
  injection H as <- <-. done.
Qed.

Lemma inferNetMask_bound a b : inferNetMask a = Some b -> 0 <= b <= 32.
Proof.
  unfold inferNetMask. repeat (case_match; [intros [=<-]; lia|]). done.
Qed.

(** What [parseCIDR] returns on any input: a host address with no wildcard
    bits, or a pair that has passed [check]. *)
Lemma parseCIDR_inv inet_aton s infer a b :
  parseCIDR inet_aton s infer = Ok (a, b) ->
  0 <= b <= 32 /\ Z.land (ip_toUnsigned a false) (Z.shiftl 1 b - 1) = 0.
Proof.
  unfold parseCIDR. intros H.
  destruct (split_on x2f s) as [|a0 [|a1 l]]; [done|..].
  - inv_ok. destruct infer; cbn [negb] in H.
    + inv_ok. destruct (inferNetMask a1) as [b'|] eqn:Eb; [|discriminate].
      cbn in E0. injection E0 as ->. destruct (_ =? 0).
      all: apply cidr_check_inv in H as (-> & [= <-] & H); split; [|exact H].
      * by apply inferNetMask_bound in Eb.
      * lia.
    + injection H as <- <-. split; [lia|]. by rewrite Z.land_0_r.
  - destruct (py_int 10 a1) as [n|].
    + inv_ok. apply cidr_check_inv in H as (-> & [= <-] & H). split; [|exact H].
      apply andb_true_iff in E1 as [?%Z.leb_le ?%Z.leb_le]. lia.
    + inv_ok. apply cidr_check_inv in H as (-> & [= <-] & H). split; [|exact H].
      match goal with H : _ && _ = true |- _ => apply andb_true_iff in H as [?%Z.leb_le ?%Z.leb_le] end. lia.
Qed.

(** Whatever [parseCIDR] accepts is a real network: the wildcard count is
    in 0..32, the host part of the address is zero, and an address is
    [inNetwork] the result exactly when it agrees with it above the wildcard
    bits (for any [inet_aton]). *)
Theorem parseCIDR_network (inet_aton : bytes -> result bytes) (s : bytes) (infer : bool)
    (a : IPAddr) (b : Z) (x : IPAddr) :
  parseCIDR inet_aton s infer = Ok (a, b) ->
  0 <= b <= 32 /\ ip_toUnsigned a false mod 2 ^ b = 0 /\
  (inNetwork x a b = true <-> ip_toUnsigned x false / 2 ^ b = ip_toUnsigned a false / 2 ^ b).
Proof.
  intros [Hb Ha]%parseCIDR_inv. rewrite land_low_bits in Ha by lia.
  split; [done|]. split; [done|]. rewrite inNetwork_spec by lia. rewrite bool_decide_eq_true.
  assert (Hp : 0 < 2 ^ b) by (apply Z.pow_pos_nonneg; lia).
  pose proof (Z.div_mod (ip_toUnsigned a false) (2 ^ b) ltac:(lia)) as He. split.
  - intros E. rewrite <-E. by rewrite Z.div_mul by lia.
  - intros ->. lia.
Qed.

Lemma parseCIDR_network_witness :
  parseCIDR (fun _ => Ok [x0a; x01; x00; x00]) (str "10.1.0.0/16") true =
    Ok (IPAddr_of_int 0x0a010000 false, 16) /\
  (inNetwork (IPAddr_of_int 0x0a0102ff false) (IPAddr_of_int 0x0a010000 false) 16 = true <->
   0x0a0102ff / 2 ^ 16 = 0x0a010000 / 2 ^ 16).
Proof.
  split; [reflexivity|].
  apply (parseCIDR_network (fun _ => Ok [x0a; x01; x00; x00]) (str "10.1.0.0/16") true). reflexivity.
Defined.

(** A class E address makes the inferring [parseCIDR] raise [TypeError]:
    [1 << None]. *)
Lemma parseCIDR_class_E inet_aton s raw a :
  split_on x2f s = [s] -> blen s <> 4 -> inet_aton s = Ok raw -> IPAddr_of_raw raw = Ok a ->
  15 * 2 ^ 28 <= ip_toUnsigned a false -> inferNetMask a = None ->
  parseCIDR inet_aton s true = Err TypeError.
Proof.
  intros Hs Hl Hi Ha _ Hn. unfold parseCIDR, IPAddr_of_str. rewrite Hs.
  apply Z.eqb_neq in Hl. rewrite Hl, Hi. cbn [mbind result_bind]. rewrite Ha.
  cbn [mbind result_bind negb]. by rewrite Hn.
Qed.
