(* ===== verification/Numerals.v ===== *)
(** * Numbers as text

    Python's [int(text, base)] undoes [hex] and [str]. *)

From stdpp Require Import pretty.
From S2P Require Import Prelude Addresses.

(** A digit of the base. *)
Definition digit_of (base : Z) (b : byte) : Prop := exists d, digit_val b = Some d /\ 0 <= d < base.

(** Digits are neither blanks, nor signs, nor the [x] of a prefix, nor line
    ends. *)
Lemma digit_plain base b : base <= 16 -> digit_of base b ->
  is_space b = false /\ b <> x2d /\ b <> x2b /\ b <> x78 /\ b <> x58 /\ b <> x0a.
Proof. intros _ (d & Hd & _). destruct b; vm_compute in Hd; try discriminate; vm_compute; repeat split; congruence. Qed.

Lemma py_digits_app base acc s1 s2 :
  py_digits base acc (s1 ++ s2) = match py_digits base acc s1 with Some a => py_digits base a s2 | None => None end.
Proof.
  revert acc. induction s1 as [|b s1 IH]; intros acc; cbn [app py_digits]; [done|].
  destruct (digit_val b) as [d|]; [|done]. by destruct (d <? base).
Qed.

Lemma lstrip_plain s : Forall (fun b => is_space b = false) s -> lstrip s = s.
Proof. destruct 1 as [|b s Hb _]; [done|]. cbn [lstrip]. by rewrite Hb. Qed.
Lemma strip_plain s : Forall (fun b => is_space b = false) s -> strip s = s.
Proof.
  intros Hs. unfold strip. rewrite (lstrip_plain s Hs), lstrip_plain by by apply Forall_reverse. apply reverse_involutive.
Qed.

Lemma py_int_digits base s :
  base <= 16 -> Forall (digit_of base) s -> s <> [] -> py_int base s = py_digits base 0 s.
Proof.
  intros Hb Hs Hne. assert (Hp : Forall (fun b => is_space b = false /\ b <> x2d /\ b <> x2b /\ b <> x78 /\ b <> x58 /\ b <> x0a) s).
  { eapply Forall_impl; [exact Hs|]. intros b. by apply digit_plain. }
  unfold py_int. rewrite strip_plain by (eapply Forall_impl; [exact Hp|]; by intros b [? _]).
  assert (Hn : py_nat base s = py_digits base 0 s).
  { unfold py_nat. destruct Hp as [|b s (_ & _ & _ & _ & _ & _) Hp]; [done|]. destruct Hp as [|c s (_ & _ & _ & Hx & HX & _) _].
    - by destruct b.
    - rewrite (bool_decide_eq_false_2 (c = x78 \/ c = x58)) by naive_solver. rewrite andb_false_r. by destruct b. }
  destruct Hp as [|b s (_ & H1 & H2 & _) _]; [done|]. destruct b; first [exact Hn | by destruct H1 | by destruct H2].
Qed.

(** ** Hexadecimal *)

Lemma hex_digit_val d : 0 <= d < 16 -> digit_val (hex_digit d) = Some d.
Proof.
  intros Hd. assert (H : d ∈ seqZ 0 16) by (apply elem_of_seqZ; lia). revert d H Hd.
  apply (Forall_forall (fun d => 0 <= d < 16 -> digit_val (hex_digit d) = Some d)).
  repeat (apply Forall_cons_2; [intros _; vm_compute; reflexivity|]). constructor.
Qed.
Lemma hex_digit_of d : 0 <= d < 16 -> digit_of 16 (hex_digit d).
Proof. intros Hd. exists d. by rewrite hex_digit_val. Qed.

Lemma hex_digits_spec fuel z : 0 <= z < 16 ^ Z.of_nat fuel -> (0 < fuel)%nat ->
  Forall (digit_of 16) (hex_digits fuel z) /\ hex_digits fuel z <> [] /\ py_digits 16 0 (hex_digits fuel z) = Some z.
Proof.
  revert z. induction fuel as [|fuel IH]; intros z Hz Hf; [lia|]. cbn [hex_digits]. destruct (Z.ltb_spec z 16).
  - split; [apply Forall_singleton, hex_digit_of; lia|]. split; [done|]. cbn [py_digits]. rewrite hex_digit_val by lia.
    by rewrite (proj2 (Z.ltb_lt z 16)) by lia.
  - assert (Hm : 0 <= z mod 16 < 16) by (apply Z.mod_pos_bound; lia).
    assert (Hd : 0 <= z / 16 < 16 ^ Z.of_nat fuel).
    { split; [apply Z.div_pos; lia|]. apply Z.div_lt_upper_bound; [lia|]. rewrite Nat2Z.inj_succ, Z.pow_succ_r in Hz by lia. lia. }
    destruct fuel as [|fuel]; [cbn in Hd; assert (z / 16 <> 0) by (intros E; apply Z.div_small_iff in E; lia); lia|].
    destruct (IH (z / 16) Hd) as (H1 & _ & H3); [lia|]. split; [|split].
    + apply Forall_app. split; [done|]. by apply Forall_singleton, hex_digit_of.
    + by intros [_ ?]%app_eq_nil.
    + rewrite py_digits_app, H3. cbn [py_digits]. rewrite hex_digit_val by done.
      rewrite (proj2 (Z.ltb_lt (z mod 16) 16)) by lia. f_equal. rewrite (Z.div_mod z 16) at 3 by lia. lia.
Qed.

Lemma py_hex_spec z : 0 <= z ->
  Forall (digit_of 16) (py_hex z) /\ py_hex z <> [] /\ py_int 16 (py_hex z) = Some z.
Proof.
  intros Hz. unfold py_hex. destruct (hex_digits_spec (S (Z.to_nat (Z.log2 z))) z) as (H1 & H2 & H3); [|lia|].
  - split; [done|]. destruct (Z.eq_dec z 0) as [->|]; [by vm_compute|].
    pose proof (Z.log2_spec z ltac:(lia)) as [_ Hl]. pose proof (Z.log2_nonneg z).
    rewrite Nat2Z.inj_succ, Z2Nat.id by done. eapply Z.lt_le_trans; [exact Hl|]. apply Z.pow_le_mono_l. lia.
  - split; [done|]. split; [done|]. by rewrite py_int_digits.
Qed.

(** ** Decimal *)

Lemma decimal_char x : (x < 10)%N ->
  digit_val (Ascii.byte_of_ascii (pretty_N_char x)) = Some (Z.of_N x).
Proof.
  intros Hx. assert (x = 0 \/ x = 1 \/ x = 2 \/ x = 3 \/ x = 4 \/ x = 5 \/ x = 6 \/ x = 7 \/ x = 8 \/ x = 9)%N as H by lia.
  destruct_or! H; subst x; reflexivity.
Qed.

Lemma pretty_go_spec x s :
  Forall (digit_of 10) (str s) ->
  Forall (digit_of 10) (str (pretty_N_go x s)) /\ py_digits 10 0 (str (pretty_N_go x s)) = py_digits 10 (Z.of_N x) (str s).
Proof.
  revert s. induction (N.lt_wf_0 x) as [x _ IH]; intros s Hs. destruct (N.eq_dec x 0%N) as [->|Hx]; [done|].
  rewrite pretty_N_go_step by lia. assert (Hm : (x mod 10 < 10)%N) by (apply N.mod_lt; lia).
  assert (Hz : 0 <= Z.of_N (x mod 10) < 10) by (split; [apply N2Z.is_nonneg|exact (proj1 (N2Z.inj_lt _ _) Hm)]).
  assert (Hc : Forall (digit_of 10) (str (String (pretty_N_char (x mod 10)) s))).
  { constructor; [|exact Hs]. exists (Z.of_N (x mod 10)).
    rewrite decimal_char by done. by split. }
  destruct (IH (x / 10)%N) with (s := String (pretty_N_char (x mod 10)) s) as [H1 H2]; [apply N.div_lt; lia|done|].
  split; [done|]. rewrite H2.
  change (str (String (pretty_N_char (x mod 10)) s)) with (Ascii.byte_of_ascii (pretty_N_char (x mod 10)) :: str s).
  cbn [py_digits]. rewrite decimal_char by done.
  rewrite (proj2 (Z.ltb_lt _ _)) by apply Hz. f_equal. rewrite (N.div_mod x 10) at 3 by lia. rewrite N2Z.inj_add, N2Z.inj_mul. change (Z.of_N 10) with 10. lia.
Qed.

Lemma pretty_spec z : 0 <= z ->
  Forall (digit_of 10) (str (pretty z)) /\ str (pretty z) <> [] /\ py_int 10 (str (pretty z)) = Some z.
Proof.
  intros Hz. destruct z as [|p|p]; [|clear Hz|lia].
  - repeat split; try done. repeat constructor. by exists 0.
  - change (pretty (Z.pos p)) with (pretty (N.pos p)). unfold pretty, pretty_N. rewrite decide_False by lia.
    destruct (pretty_go_spec (N.pos p) "" ltac:(constructor)) as [H1 H2]. cbn [str String.list_byte_of_string py_digits] in H2.
    assert (Hne : str (pretty_N_go (N.pos p) "") <> []) by (intros E; rewrite E in H2; discriminate H2).
    split; [done|]. split; [done|]. by rewrite py_int_digits.
Qed.

(** ** Lengths *)

Lemma hex_digits_length fuel z : (length (hex_digits fuel z) <= fuel)%nat.
Proof.
  revert z. induction fuel as [|fuel IH]; intros z; cbn [hex_digits]; [done|]. destruct (_ <? _); [simpl; lia|].
  rewrite length_app. specialize (IH (z / 16)). simpl. lia.
Qed.
Lemma py_hex_length z k : z < 2 ^ k -> 0 < k -> blen (py_hex z) <= k.
Proof.
  intros Hz Hk. unfold py_hex, blen. pose proof (hex_digits_length (S (Z.to_nat (Z.log2 z))) z).
  destruct (Z.le_gt_cases z 0); [rewrite Z.log2_nonpos in * by done; lia|]. pose proof (Z.log2_nonneg z).
  enough (Z.log2 z < k) by lia. by apply Z.log2_lt_pow2.
Qed.

Lemma pretty_go_length k x s : (x < 10 ^ N.of_nat k)%N -> (String.length (pretty_N_go x s) <= k + String.length s)%nat.
Proof.
  revert x s. induction k as [|k IH]; intros x s Hx.
  - replace x with 0%N by (simpl in Hx; lia). by rewrite pretty_N_go_0.
  - destruct (N.eq_dec x 0%N) as [->|]; [rewrite pretty_N_go_0; lia|]. rewrite pretty_N_go_step by lia.
    etransitivity; [apply IH|simpl; lia]. apply N.Div0.div_lt_upper_bound. by rewrite <-N.pow_succ_r', <-Nat2N.inj_succ.
Qed.
Lemma length_str s : length (str s) = String.length s.
Proof. induction s as [|c s IH]; [done|]. simpl. by f_equal. Qed.
Lemma pretty_length z k : 0 <= z < 10 ^ Z.of_nat (S k) -> blen (str (pretty z)) <= Z.of_nat (S k).
Proof.
  intros Hz. unfold blen. rewrite length_str. destruct z as [|p|p]; [simpl; lia| |lia].
  change (pretty (Z.pos p)) with (pretty (N.pos p)). unfold pretty, pretty_N. rewrite decide_False by lia.
  pose proof (pretty_go_length (S k) (N.pos p) "" ltac:(zify; lia)). simpl in *. lia.
Qed.
