(* ===== verification/Revent.v ===== *)
(** * The event library ([pox/lib/revent/revent.py])

    A source keeps, for every type of event, a list of listeners; raising an
    event calls them in order.  Python iterates over the very list object that
    [addListener] appends to and sorts in place, while [removeListener] puts a
    new list in its place: so the lists are cells of a store.

    Weak listeners (whose removal the garbage collector triggers) and the
    message that is printed for an exception are left out. *)

From S2P Require Import Prelude.

(** What a handler returns, as far as [raiseEvent] looks at it. *)
Inductive reply := RNone | RBool (b : bool) | RTuple (l : list bool) | ROther.

Definition EventReturn (halt remove : bool) : reply := RTuple [halt; remove].
Definition EventContinue : reply := EventReturn false false.
Definition EventHalt : reply := EventReturn true false.
Definition EventRemove : reply := EventReturn false true.
Definition EventHaltAndRemove : reply := EventReturn true true.

(** The types of events are classes; a name stands for itself where a source
    accepts everything. *)
Inductive key (E : Type) := KClass (c : E) | KName (s : string).
Arguments KClass {E} c.
Arguments KName {E} s.

#[global] Instance key_eq_dec `{EqDecision E} : EqDecision (key E).
Proof. solve_decision. Defined.
#[global] Instance key_countable `{Countable E} : Countable (key E).
Proof.
  refine (inj_countable' (fun k => match k with KClass c => inl c | KName s => inr s end)
    (fun x => match x with inl c => KClass c | inr s => KName s end) _).
  by intros [].
Defined.

Record entry (H : Type) := mk_entry { e_priority : option Z; e_handler : H; e_once : bool; e_eid : Z }.
Arguments mk_entry {H} e_priority e_handler e_once e_eid.
Arguments e_priority {H} e.
Arguments e_handler {H} e.
Arguments e_once {H} e.
Arguments e_eid {H} e.

#[global] Instance entry_eq_dec `{EqDecision H} : EqDecision (entry H).
Proof. solve_decision. Defined.

Section revent.
Context {E H : Type} `{Countable E} `{EqDecision H}.
(** The name of a class. *)
Context (ename : E -> string).

(** [mx_events] is [_eventMixin_events], [None] for [True]; [mx_handlers] sends a
    type to its list object, [mx_lists] holds the list objects; [mx_next] is
    [_nextEventID]. *)
Record mixin := mk_mixin {
  mx_events : option (list (key E));
  mx_handlers : gmap (key E) nat;
  mx_lists : list (list (entry H));
  mx_next : Z
}.
Definition new_mixin (events : option (list (key E))) (n : Z) : mixin := mk_mixin events ∅ [] n.
Definition set_handlers (x : gmap (key E) nat) (m : mixin) : mixin := mk_mixin (mx_events m) x (mx_lists m) (mx_next m).
Definition set_lists (x : list (list (entry H))) (m : mixin) : mixin := mk_mixin (mx_events m) (mx_handlers m) x (mx_next m).

(** The listeners of a type. *)
Definition listeners (k : key E) (m : mixin) : list (entry H) :=
  match mx_handlers m !! k with Some l => default [] (mx_lists m !! l) | None => [] end.

Abbreviation X := (M mixin).

(** [_eventMixin_addEvent]. *)
Definition addEvent (k : key E) : X unit :=
  evs ← get mx_events;
  match evs with
  | None => lift (Err AssertionError)
  | Some l => modify (fun m => mk_mixin (Some (if decide (k ∈ l) then l else l ++ [k])) (mx_handlers m) (mx_lists m) (mx_next m))
  end.

(** A new list object for the type. *)
Definition put_list (k : key E) (l : list (entry H)) : X unit :=
  modify (fun m => mk_mixin (mx_events m) (<[k := length (mx_lists m)]> (mx_handlers m)) (mx_lists m ++ [l]) (mx_next m)).

(** *** [addListener] *)

(** Priorities as Python 2 orders them: [None] is below every number. *)
Definition prio_le (a b : option Z) : bool :=
  match a, b with None, _ => true | Some _, None => false | Some x, Some y => x <=? y end.

(** [sort(reverse = True, key = operator.itemgetter(0))], which is stable. *)
Fixpoint insert_entry (x : entry H) (l : list (entry H)) : list (entry H) :=
  match l with
  | [] => [x]
  | y :: l => if prio_le (e_priority y) (e_priority x) then x :: y :: l else y :: insert_entry x l
  end.
Definition sort_entries (l : list (entry H)) : list (entry H) := foldr insert_entry [] l.

(** The type that a name stands for. *)
Fixpoint find_event (evs : list (key E)) (k : key E) : result (key E) :=
  match evs with
  | [] => Err RuntimeError
  | KName _ :: _ => Err TypeError
  | KClass c :: evs => if bool_decide (k = KName (ename c)) then mret (KClass c) else find_event evs k
  end.
Definition event_type (k : key E) (byName : bool) (m : mixin) : result (key E) :=
  match mx_events m with
  | None => mret k
  | Some evs => if decide (k ∈ evs) then mret k else if byName then find_event evs k else Err RuntimeError
  end.

(** [_generateEventID]. *)
Definition generateEventID : X Z := fun m => (Ok (mx_next m + 1), mk_mixin (mx_events m) (mx_handlers m) (mx_lists m) (mx_next m + 1)).

Definition addListener (k : key E) (handler : H) (once : bool) (priority : option Z) (byName : bool) : X (key E * Z) :=
  k ← (fun m => (event_type k byName m, m));
  hs ← get mx_handlers;
  _ ← (if bool_decide (is_Some (hs !! k)) then mret tt else put_list k []);
  eid ← generateEventID;
  loc ← (fun m => (need KeyError (mx_handlers m !! k), m));
  _ ← modify (fun m => set_lists (alter (fun l => l ++ [mk_entry priority handler once eid]) loc (mx_lists m)) m);
  _ ← (if bool_decide (is_Some priority) then modify (fun m => set_lists (alter sort_entries loc (mx_lists m)) m) else mret tt);
  mret (k, eid).

(** *** [removeListener] *)

Inductive listener_ref := ByPair (k : key E) (eid : Z) | ByEID (eid : Z) | ByHandler (h : H).

(** The entries that stay; what is returned is whether any went. *)
Definition filter_list (keep : entry H -> bool) (k : key E) : X bool :=
  loc ← (fun m => (need KeyError (mx_handlers m !! k), m));
  l ← get (fun m => default [] (mx_lists m !! loc));
  _ ← put_list k (filter (fun x => keep x = true) l);
  mret (negb (length l =? length (filter (fun x => keep x = true) l))%nat).
Fixpoint filter_lists (keep : entry H -> bool) (ks : list (key E)) (altered : bool) : X bool :=
  match ks with
  | [] => mret altered
  | k :: ks => a ← filter_list keep k; filter_lists keep ks (altered || a)
  end.
Definition filter_all (keep : entry H -> bool) : X bool :=
  hs ← get mx_handlers; filter_lists keep (map_to_list hs).*1 false.

Definition not_eid (eid : Z) (x : entry H) : bool := negb (e_eid x =? eid).
Definition not_handler (h : H) (x : entry H) : bool := negb (bool_decide (e_handler x = h)).

(** With a number and a type, the source reads [handlers] before it is set. *)
Definition removeListener (r : listener_ref) (eventType : option (key E)) : X bool :=
  match r, eventType with
  | ByPair k eid, None => filter_list (not_eid eid) k
  | ByPair _ eid, Some k => filter_list (not_eid eid) k
  | ByEID eid, None => filter_all (not_eid eid)
  | ByEID _, Some _ => lift (Err UnboundLocalError)
  | ByHandler h, None => filter_all (not_handler h)
  | ByHandler h, Some k => filter_list (not_handler h) k
  end.
Fixpoint removeListeners (rs : list listener_ref) : X bool :=
  match rs with
  | [] => mret false
  | r :: rs => a ← removeListener r None; b ← removeListeners rs; mret (a || b)
  end.

Definition listener_count (m : mixin) : Z := foldr (fun k n => blen (listeners k m) + n) 0 (map_to_list (mx_handlers m)).*1.
Definition clearHandlers : X unit := modify (set_handlers ∅).
End revent.

Arguments mixin E H {_ _}.

(** ** Raising events

    Handlers run in a world [W] that holds the source, and may do anything to it.
    [invoke h ev] calls the handler with the event; [halted ev w] is [event.halt]. *)
Section raise.
Context {E H : Type} `{Countable E} `{EqDecision H}.
Context {W Ev : Type} (mx : W -> mixin E H) (set_mx : mixin E H -> W -> W).
Context (etype : Ev -> key E) (invoke : H -> Ev -> M W reply) (halted : Ev -> W -> bool).

Definition on_mx {A} (m : M (mixin E H) A) : M W A := fun w => let '(r, x) := m (mx w) in (r, set_mx x w).

(** One entry: whether the loop ends with it.  A handler that returns nothing
    goes on to the next one before [event.halt] is looked at. *)
Definition after_reply (eid : Z) (rv : reply) : M W bool :=
  match rv with
  | RNone => mret false
  | RBool true => mret true
  | RBool false => _ ← on_mx (removeListener (ByEID eid) None); mret false
  | RTuple [] => mret true
  | RTuple [h] => mret h
  | RTuple (h :: r :: _) => _ ← (if r : bool then on_mx (removeListener (ByEID eid) None) else mret false); mret h
  | ROther => mret false
  end.
Definition call_entry (ev : Ev) (x : entry H) : M W bool :=
  rv ← invoke (e_handler x) ev;
  _ ← (if e_once x then on_mx (removeListener (ByEID (e_eid x)) None) else mret false);
  stop ← after_reply (e_eid x) rv;
  h ← get (halted ev);
  mret (stop || match rv with RNone => false | _ => h end).

(** The loop over the list object, by index. *)
Fixpoint call_loop (fuel : nat) (loc i : nat) (ev : Ev) : M W unit :=
  match fuel with
  | O => lift (Err OutOfFuel)
  | S fuel =>
      l ← get (fun w => default [] (mx_lists (mx w) !! loc));
      match l !! i with
      | None => mret tt
      | Some x => stop ← call_entry ev x; if stop : bool then mret tt else call_loop fuel loc (S i) ev
      end
  end.

(** [raiseEvent] of an event. *)
Definition accepts (k : key E) (m : mixin E H) : bool :=
  match mx_events m with None => true | Some evs => bool_decide (k ∈ evs) end.
Definition raiseEvent (fuel : nat) (ev : Ev) : M W Ev :=
  m ← get mx;
  _ ← lift (guard_ok (accepts (etype ev) m) RuntimeError);
  match mx_handlers m !! etype ev with
  | None => mret ev
  | Some loc => _ ← call_loop fuel loc 0 ev; mret ev
  end.
(** Of a class: [make] is its constructor, which only runs when there are
    listeners. *)
Definition raiseEventClass (fuel : nat) (c : E) (make : M W Ev) : M W (option Ev) :=
  m ← get mx;
  if bool_decide (listeners (KClass c) m = []) then mret None else
  ev ← make;
  ev ← raiseEvent fuel ev;
  mret (Some ev).
(** [raiseEventNoErrors]: what the handlers did before an exception stays. *)
Definition no_errors {A} (m : M W (option A)) : M W (option A) := fun w =>
  match m w with (Ok r, w) => (Ok r, w) | (Err _, w) => (Ok None, w) end.
Definition raiseEventNoErrors (fuel : nat) (ev : Ev) : M W (option Ev) :=
  no_errors (ev ← raiseEvent fuel ev; mret (Some ev)).
End raise.

(** ** Automatic subscription *)
Section bind.
Context {E H : Type} `{Countable E} `{EqDecision H} (ename : E -> string).

Definition event_name (k : key E) : string := match k with KClass c => ename c | KName s => s end.

(** [autoBindEvents]: [sink] are the methods of the sink with their names, as
    [dir] lists them; names are strings.  Events of one name: the last counts. *)
Definition fix_prefix (prefix : string) : string :=
  if (0 <? String.length prefix)%nat && negb (String.prefix "_" prefix) then ("_" ++ prefix)%string else prefix.
Definition named_event (evs : list (key E)) (name : string) : option (key E) :=
  last (filter (fun k => event_name k = name) evs).
(** The event that a method handles, by its name. *)
Definition handled_name (prefix m : string) : option string :=
  let p := ("_handle" ++ prefix ++ "_")%string in
  if String.prefix p m then Some (String.substring (String.length p) (String.length m - String.length p) m) else None.
Definition bind_method (prefix : string) (evs : list (key E)) (priority : option Z) (m : string * H)
  : M (mixin E H) (list (key E * Z)) :=
  match handled_name prefix m.1 ≫= named_event evs with
  | Some k => r ← addListener ename k m.2 false priority false; mret [r]
  | None => mret []
  end.
Fixpoint bind_methods (prefix : string) (evs : list (key E)) (priority : option Z) (ms : list (string * H))
  : M (mixin E H) (list (key E * Z)) :=
  match ms with
  | [] => mret []
  | m :: ms => l ← bind_method prefix evs priority m; ls ← bind_methods prefix evs priority ms; mret (l ++ ls)
  end.
Definition autoBindEvents (sink : list (string * H)) (prefix : string) (priority : option Z)
  : M (mixin E H) (list (key E * Z)) :=
  evs ← get mx_events;
  evs ← lift (need TypeError evs);
  bind_methods (fix_prefix prefix) evs priority sink.
End bind.

(** ** The lists of listeners *)

(** Earlier in the list: of higher priority, or registered earlier. *)
Definition before {H} (a b : entry H) : Prop :=
  prio_le (e_priority a) (e_priority b) = false \/ (e_priority a = e_priority b /\ e_eid a < e_eid b).

Lemma prio_total a b : prio_le a b = true \/ prio_le b a = true.
Proof. destruct a as [x|], b as [y|]; cbn; auto. rewrite !Z.leb_le. lia. Qed.
Lemma prio_antisym a b : prio_le a b = true -> prio_le b a = true -> a = b.
Proof. destruct a as [x|], b as [y|]; cbn; try done. rewrite !Z.leb_le. intros. f_equal. lia. Qed.
Lemma prio_trans a b c : prio_le a b = true -> prio_le b c = true -> prio_le a c = true.
Proof. destruct a as [x|], b as [y|], c as [z|]; cbn; try done. rewrite !Z.leb_le. lia. Qed.
Lemma prio_refl a : prio_le a a = true.
Proof. by destruct (prio_total a a). Qed.
Lemma before_le {H} (a b : entry H) : before a b -> prio_le (e_priority b) (e_priority a) = true.
Proof. intros [Hp|[-> _]]; [|apply prio_refl]. destruct (prio_total (e_priority a) (e_priority b)); congruence. Qed.

Lemma list_alter_insert {A} (f : A -> A) i (l : list A) x : l !! i = Some x -> alter f i l = <[i := f x]> l.
Proof. intros Hx. rewrite list_insert_alter. apply list_alter_ext; [|done]. intros y Hy. by simplify_eq. Qed.

Section lists.
Context {E H : Type} `{Countable E} `{EqDecision H}.
Implicit Types m : mixin E H.

(** Sorting moves the entry that was appended to its place. *)
Lemma insert_first x (l : list (entry H)) : (forall y, y ∈ l -> prio_le (e_priority y) (e_priority x) = true) -> insert_entry x l = x :: l.
Proof. destruct l as [|y l]; [done|]. intros Hy. cbn [insert_entry]. by rewrite (Hy y) by left. Qed.

Lemma sort_snoc (l : list (entry H)) x :
  StronglySorted before l ->
  sort_entries (l ++ [x]) = filter (fun y => prio_le (e_priority x) (e_priority y) = true) l ++
    x :: filter (fun y => prio_le (e_priority x) (e_priority y) = false) l.
Proof.
  induction 1 as [|a l Hl IH Ha]; [done|]. change (sort_entries ((a :: l) ++ [x])) with (insert_entry a (sort_entries (l ++ [x]))).
  rewrite IH, !filter_cons. rewrite Forall_forall in Ha. destruct (prio_le (e_priority x) (e_priority a)) eqn:E1.
  - rewrite decide_True, decide_False by done. cbn [app]. apply insert_first.
    intros y [Hy|[->|Hy]%elem_of_cons]%elem_of_app; [| done |]; apply list_elem_of_filter in Hy as [_ Hy]; by apply before_le, Ha.
  - rewrite decide_False, decide_True by done.
    assert (El : filter (fun y => prio_le (e_priority x) (e_priority y) = true) l = []).
    { destruct (filter _ l) as [|y l'] eqn:Ef; [done|]. assert (Hy : y ∈ y :: l') by left. rewrite <-Ef in Hy.
      apply list_elem_of_filter in Hy as [Hp Hy%Ha%before_le]. by rewrite (prio_trans _ _ _ Hp Hy) in E1. }
    rewrite El. cbn [app insert_entry]. rewrite (insert_first a) by (intros y [_ Hy]%list_elem_of_filter; by apply before_le, Ha).
    by rewrite E1.
Qed.

(** The invariant of a source: types have list objects of their own, lists are in
    order, and numbers are given once. *)
Record mixin_ok m : Prop := mk_mixin_ok {
  ok_loc : forall k loc, mx_handlers m !! k = Some loc -> (loc < length (mx_lists m))%nat;
  ok_own : forall k1 k2 loc, mx_handlers m !! k1 = Some loc -> mx_handlers m !! k2 = Some loc -> k1 = k2;
  ok_order : forall k, StronglySorted before (listeners k m);
  ok_given : forall k x, x ∈ listeners k m -> e_eid x <= mx_next m;
  ok_once : forall k1 k2 x1 x2, x1 ∈ listeners k1 m -> x2 ∈ listeners k2 m -> e_eid x1 = e_eid x2 -> k1 = k2 /\ x1 = x2
}.

Lemma new_mixin_ok (events : option (list (key E))) (n : Z) : mixin_ok (new_mixin (H := H) events n).
Proof. constructor; try done; [constructor|by intros k x ?%elem_of_nil|by intros k1 k2 x1 x2 ?%elem_of_nil]. Qed.

Lemma listeners_put k l m k' :
  mixin_ok m -> listeners k' (mk_mixin (mx_events m) (<[k := length (mx_lists m)]> (mx_handlers m)) (mx_lists m ++ [l]) (mx_next m))
    = if decide (k = k') then l else listeners k' m.
Proof.
  intros Hm. unfold listeners. cbn [mx_handlers mx_lists]. rewrite lookup_insert. destruct (decide (k = k')) as [->|].
  - by rewrite lookup_app_r, Nat.sub_diag by done.
  - destruct (mx_handlers m !! k') as [loc|] eqn:El; [|done]. by rewrite lookup_app_l by by apply (ok_loc m Hm k').
Qed.

Lemma StronglySorted_filter {A} (R : A -> A -> Prop) (P : A -> Prop) `{!forall x, Decision (P x)} l :
  StronglySorted R l -> StronglySorted R (filter P l).
Proof.
  induction 1 as [|a l _ IH Ha]; [constructor|]. rewrite filter_cons. case_decide; [|done]. constructor; [done|].
  rewrite Forall_forall in *. intros y [_ Hy]%list_elem_of_filter. by apply Ha.
Qed.

(** Changes that only take entries away keep the invariant. *)
Lemma shrink_ok m m' :
  mixin_ok m -> mx_next m' = mx_next m ->
  (forall k loc, mx_handlers m' !! k = Some loc -> (loc < length (mx_lists m'))%nat) ->
  (forall k1 k2 loc, mx_handlers m' !! k1 = Some loc -> mx_handlers m' !! k2 = Some loc -> k1 = k2) ->
  (forall k, StronglySorted before (listeners k m')) -> (forall k, listeners k m' ⊆ listeners k m) -> mixin_ok m'.
Proof.
  intros [Hl Ho Hs Hg Hu] En Hl' Ho' Hs' Hsub. constructor; try done.
  - intros k x Hx. rewrite En. by eapply Hg, Hsub.
  - intros k1 k2 x1 x2 H1 H2. by apply Hu; apply Hsub.
Qed.

Lemma put_list_ok k l m :
  mixin_ok m -> StronglySorted before l -> l ⊆ listeners k m -> mixin_ok (snd (put_list k l m)).
Proof.
  intros Hm Hs Hsub. cbn [put_list modify snd]. apply (shrink_ok m); try done; cbn [mx_handlers mx_lists].
  - intros k' loc. rewrite length_app, lookup_insert. destruct (decide _); [intros [= <-]; cbn; lia|].
    intros Hk. pose proof (ok_loc m Hm _ _ Hk). lia.
  - intros k1 k2 loc. rewrite !lookup_insert. destruct (decide (k = k1)) as [<-|], (decide (k = k2)) as [<-|]; try done.
    + intros [= <-] Hk. pose proof (ok_loc m Hm _ _ Hk). lia.
    + intros Hk [= <-]. pose proof (ok_loc m Hm _ _ Hk). lia.
    + apply (ok_own m Hm).
  - intros k'. rewrite listeners_put by done. destruct (decide _); [done|by apply ok_order].
  - intros k'. rewrite listeners_put by done. destruct (decide (k = k')) as [<-|]; [done|done].
Qed.

Lemma filter_list_spec keep k m :
  mixin_ok m -> is_Some (mx_handlers m !! k) ->
  exists m', filter_list keep k m = (Ok (negb (length (listeners k m) =? length (filter (fun x => keep x = true) (listeners k m)))%nat), m') /\
    mixin_ok m' /\ mx_events m' = mx_events m /\ mx_next m' = mx_next m /\ mx_lists m `prefix_of` mx_lists m' /\
    dom (mx_handlers m') = dom (mx_handlers m) /\
    forall k', listeners k' m' = if decide (k = k') then filter (fun x => keep x = true) (listeners k m) else listeners k' m.
Proof.
  intros Hm [loc Hk]. set (l := filter (fun x => keep x = true) (listeners k m)).
  exists (snd (put_list k l m)). split; [|split; [|split_and!]].
  - unfold filter_list, need. rewrite M_bind_unfold, Hk, M_bind_unfold. cbn [get]. subst l. unfold listeners. by rewrite Hk.
  - apply put_list_ok; [done| |subst l; by intros x [_ Hx]%list_elem_of_filter]. subst l. by apply StronglySorted_filter, ok_order.
  - done.
  - done.
  - by eexists.
  - cbn. rewrite dom_insert_L. apply elem_of_dom_2 in Hk. set_solver.
  - intros k'. cbn [put_list modify snd]. by rewrite listeners_put.
Qed.

Lemma filter_lists_spec keep ks m a :
  mixin_ok m -> NoDup ks -> (forall k, k ∈ ks -> k ∈ dom (mx_handlers m)) ->
  exists b m', filter_lists keep ks a m = (Ok b, m') /\
    mixin_ok m' /\ mx_events m' = mx_events m /\ mx_next m' = mx_next m /\ mx_lists m `prefix_of` mx_lists m' /\
    dom (mx_handlers m') = dom (mx_handlers m) /\
    forall k, listeners k m' = if decide (k ∈ ks) then filter (fun x => keep x = true) (listeners k m) else listeners k m.
Proof.
  intros Hm Hn. revert m a Hm. induction Hn as [|k ks Hk Hn IH]; intros m a Hm Hin; [by exists a, m|].
  destruct (filter_list_spec keep k m) as (m1 & E1 & Hm1 & Ee & En & Ep & Ed & Hl); [done|by apply elem_of_dom, Hin; left|].
  destruct (IH m1 (a || negb (length (listeners k m) =? length (filter (fun x => keep x = true) (listeners k m)))%nat) Hm1)
    as (b & m2 & E2 & Hm2 & Fe & Fn & Fp & Fd & Hl2); [intros k' Hk'; rewrite Ed; apply Hin; by right|].
  exists b, m2. split; [cbn [filter_lists]; by rewrite M_bind_unfold, E1|]. split; [done|]. split; [congruence|]. split; [congruence|].
  split; [by etransitivity|]. split; [congruence|]. intros k'. rewrite Hl2, Hl.
  destruct (decide (k' ∈ ks)) as [H1|H1], (decide (k = k')) as [<-|Hne]; try done.
  - rewrite decide_True by by right. done.
  - rewrite decide_True by left. done.
  - rewrite decide_False; [done|]. rewrite elem_of_cons. intros [?|?]; congruence.
Qed.

Lemma filter_all_spec keep m :
  mixin_ok m -> exists b m', filter_all keep m = (Ok b, m') /\
    mixin_ok m' /\ mx_events m' = mx_events m /\ mx_next m' = mx_next m /\ mx_lists m `prefix_of` mx_lists m' /\
    dom (mx_handlers m') = dom (mx_handlers m) /\ forall k, listeners k m' = filter (fun x => keep x = true) (listeners k m).
Proof.
  intros Hm. destruct (filter_lists_spec keep (map_to_list (mx_handlers m)).*1 m false Hm) as (b & m' & E1 & H1 & H2 & H3 & H4 & H5 & Hl).
  - apply NoDup_fst_map_to_list.
  - intros k ([k' loc] & -> & Hk%elem_of_map_to_list)%list_elem_of_fmap. by apply elem_of_dom_2 in Hk.
  - exists b, m'. split_and!; try done. intros k. rewrite Hl. destruct (decide _) as [|Hk]; [done|]. unfold listeners.
    destruct (mx_handlers m !! k) as [loc|] eqn:Ek; [|done]. destruct Hk. apply list_elem_of_fmap. exists (k, loc).
    by rewrite elem_of_map_to_list.
Qed.

(** What a removal leaves out. *)
Definition keeps_of (r : @listener_ref E H) (x : entry H) : bool :=
  match r with ByPair _ eid | ByEID eid => not_eid eid x | ByHandler h => not_handler h x end.

Lemma removeListener_ok r et m : mixin_ok m -> mixin_ok (snd (removeListener r et m)).
Proof.
  intros Hm.
  assert (Hone : forall keep k, mixin_ok (snd (filter_list keep k m))).
  { intros keep k. destruct (mx_handlers m !! k) as [loc|] eqn:Ek.
    - by destruct (filter_list_spec keep k m Hm) as (m' & -> & Hm' & _); [eexists|].
    - unfold filter_list, need. rewrite M_bind_unfold, Ek. done. }
  assert (Hall : forall keep, mixin_ok (snd (filter_all keep m))).
  { intros keep. by destruct (filter_all_spec keep m Hm) as (b & m' & -> & Hm' & _). }
  destruct r, et; cbn [removeListener]; try apply Hone; try apply Hall. done.
Qed.

(** Where a new entry goes: behind those of its priority, in front of those of a
    lower one. *)
Definition place (x : entry H) (l : list (entry H)) : list (entry H) :=
  filter (fun y => prio_le (e_priority x) (e_priority y) = true) l ++
  x :: filter (fun y => prio_le (e_priority x) (e_priority y) = false) l.

Lemma place_none x l : e_priority x = None -> place x l = l ++ [x].
Proof.
  intros Hx. unfold place. rewrite Hx. f_equal; [|f_equal].
  - induction l as [|y l IH]; [done|]. rewrite filter_cons, decide_True by done. by rewrite IH.
  - induction l as [|y l IH]; [done|]. by rewrite filter_cons, decide_False by done.
Qed.

Lemma place_elem x l y : y ∈ place x l <-> y = x \/ y ∈ l.
Proof.
  unfold place. rewrite elem_of_app, elem_of_cons, !list_elem_of_filter. split; [naive_solver|].
  intros [->|Hy]; [tauto|]. destruct (prio_le (e_priority x) (e_priority y)) eqn:Ep; auto.
Qed.

Lemma place_sorted x l :
  StronglySorted before l -> (forall y, y ∈ l -> e_eid y < e_eid x) -> StronglySorted before (place x l).
Proof.
  intros Hs Hx. apply StronglySorted_app_2; [| |constructor]; try by apply StronglySorted_filter.
  - intros a b [Pa Ha]%list_elem_of_filter [->|[Pb Hb]%list_elem_of_filter]%elem_of_cons.
    + destruct (prio_le (e_priority a) (e_priority x)) eqn:E2; [|by left]. right. split; [by apply prio_antisym|by apply Hx].
    + left. destruct (prio_le (e_priority a) (e_priority b)) eqn:E2; [|done]. by rewrite (prio_trans _ _ _ Pa E2) in Pb.
  - apply Forall_forall. intros b [Pb Hb]%list_elem_of_filter. by left.
Qed.

Lemma addListener_effect ename k handler once priority byName m k' :
  mixin_ok m -> event_type ename k byName m = Ok k' ->
  let x := mk_entry priority handler once (mx_next m + 1) in
  exists m', addListener ename k handler once priority byName m = (Ok (k', mx_next m + 1), m') /\
    mixin_ok m' /\ mx_events m' = mx_events m /\ mx_next m' = mx_next m + 1 /\
    (is_Some (mx_handlers m !! k') -> mx_handlers m' = mx_handlers m) /\
    forall k2, listeners k2 m' = if decide (k' = k2) then place x (listeners k' m) else listeners k2 m.
Proof.
  intros Hm Ek x. unfold addListener. rewrite M_bind_unfold, Ek, M_bind_unfold. cbn [get].
  set (m1 := if bool_decide (is_Some (mx_handlers m !! k')) then m else snd (put_list k' [] m)).
  assert (E1 : (if bool_decide (is_Some (mx_handlers m !! k')) then mret tt else put_list k' [] : M (mixin E H) unit) m = (Ok tt, m1))
    by (subst m1; by destruct (bool_decide _)).
  assert (H1 : mixin_ok m1 /\ mx_events m1 = mx_events m /\ mx_next m1 = mx_next m /\ (forall k2, listeners k2 m1 = listeners k2 m) /\
    (is_Some (mx_handlers m !! k') -> mx_handlers m1 = mx_handlers m) /\ is_Some (mx_handlers m1 !! k')).
  { subst m1. case_bool_decide as Hs; [by split_and!|].
    assert (Hk : listeners k' m = []) by (unfold listeners; destruct (mx_handlers m !! k') eqn:Ex; [destruct Hs; by eexists|done]).
    split; [apply put_list_ok; [done|apply SSorted_nil|by intros ? ?%elem_of_nil]|]. split; [done|]. split; [done|]. split.
    - intros k2. cbn [put_list modify snd]. rewrite listeners_put by done. destruct (decide _) as [<-|]; [by rewrite Hk|done].
    - split; [done|]. cbn. rewrite lookup_insert, decide_True by done. by eexists. }
  rewrite M_bind_unfold, E1. clear E1. clearbody m1. destruct H1 as (Hm1 & Ee & En & El & Eh & [loc Hloc]).
  rewrite M_bind_unfold. unfold generateEventID. rewrite M_bind_unfold. cbn [mx_handlers]. rewrite Hloc. cbn [need].
  rewrite M_bind_unfold. cbn [modify]. rewrite M_bind_unfold. unfold set_lists. cbn [mx_events mx_handlers mx_lists mx_next].
  rewrite En. fold x.
  pose proof (ok_loc m1 Hm1 _ _ Hloc) as Hlt. destruct (lookup_lt_is_Some_2 _ _ Hlt) as [l Hl].
  assert (Hlist : listeners k' m = l) by (rewrite <-El; unfold listeners; by rewrite Hloc, Hl).
  set (m2 := mk_mixin (mx_events m1) (mx_handlers m1) (<[loc := place x l]> (mx_lists m1)) (mx_next m + 1)).
  assert (Hm2 : forall k2, listeners k2 m2 = if decide (k' = k2) then place x (listeners k' m) else listeners k2 m).
  { intros k2. unfold listeners at 1. cbn [m2 mx_handlers mx_lists]. destruct (decide (k' = k2)) as [<-|Hne].
    - rewrite Hloc, list_lookup_insert_eq, Hlist by done. done.
    - rewrite <-El. unfold listeners. destruct (mx_handlers m1 !! k2) as [loc2|] eqn:E2; [|done].
      rewrite list_lookup_insert_ne; [done|]. intros <-. apply Hne. by eapply (ok_own m1). }
  assert (E2 : (if bool_decide (is_Some priority)
      then modify (fun m => mk_mixin (mx_events m) (mx_handlers m) (alter sort_entries loc (mx_lists m)) (mx_next m)) else mret tt : M (mixin E H) unit)
      (mk_mixin (mx_events m1) (mx_handlers m1) (alter (fun l => l ++ [x]) loc (mx_lists m1)) (mx_next m + 1)) = (Ok tt, m2)).
  { subst m2. rewrite (list_alter_insert (fun l => l ++ [x]) _ _ _ Hl). case_bool_decide as Hp; unfold modify; cbn [mret M_ret mx_events mx_handlers mx_lists mx_next].
    - rewrite (list_alter_insert sort_entries _ _ (l ++ [x])) by by apply list_lookup_insert_eq. rewrite list_insert_insert_eq.
      rewrite sort_snoc; [done|]. rewrite <-Hlist. by apply ok_order.
    - rewrite place_none; [done|]. cbn. destruct priority; [destruct Hp; by eexists|done]. }
  rewrite E2. exists m2. split; [done|]. split; [|by split_and!].
  assert (Hold : forall k2 y, y ∈ listeners k2 m2 -> (k2 = k' /\ y = x) \/ y ∈ listeners k2 m).
  { intros k2 y. rewrite Hm2. destruct (decide (k' = k2)) as [<-|]; [|by right]. rewrite place_elem. naive_solver. }
  constructor.
  - intros k2 loc2. cbn. rewrite length_insert. apply (ok_loc m1 Hm1).
  - apply (ok_own m1 Hm1).
  - intros k2. rewrite Hm2. destruct (decide (k' = k2)) as [<-|]; [|by apply ok_order].
    apply place_sorted; [by apply ok_order|]. intros y Hy. apply (ok_given m Hm) in Hy. cbn. lia.
  - intros k2 y [[-> ->]|Hy]%Hold; cbn; [lia|]. apply (ok_given m Hm) in Hy. lia.
  - intros k1 k2 y1 y2 [[-> ->]|H1]%Hold [[-> ->]|H2]%Hold Ey.
    + done.
    + apply (ok_given m Hm) in H2. cbn in Ey. lia.
    + apply (ok_given m Hm) in H1. cbn in Ey. lia.
    + by eapply (ok_once m Hm).
Qed.
End lists.

(** ** Raising against a snapshot *)

Lemma filter_list_grows {E H} `{Countable E} `{EqDecision H} keep k (m : mixin E H) :
  mx_lists m `prefix_of` mx_lists (snd (filter_list keep k m)).
Proof.
  unfold filter_list. rewrite M_bind_unfold. destruct (mx_handlers m !! k); [|done]. by eexists.
Qed.
Lemma removeListener_grows {E H} `{Countable E} `{EqDecision H} r et (m : mixin E H) :
  mx_lists m `prefix_of` mx_lists (snd (removeListener r et m)).
Proof.
  assert (Hall : forall keep ks a (m : mixin E H), mx_lists m `prefix_of` mx_lists (snd (filter_lists keep ks a m))).
  { intros keep ks. induction ks as [|k ks IH]; intros a m'; [done|]. cbn [filter_lists]. rewrite M_bind_unfold.
    pose proof (filter_list_grows keep k m') as Hg. destruct (filter_list keep k m') as [[b|e] m2]; [|done].
    by etransitivity; [exact Hg|]. }
  destruct r, et; cbn [removeListener]; try apply filter_list_grows; try apply Hall. done.
Qed.

Section snapshot.
Context {E H : Type} `{Countable E} `{EqDecision H}.
Context {W Ev : Type} (mx : W -> mixin E H) (set_mx : mixin E H -> W -> W).
Context (mx_set : forall m w, mx (set_mx m w) = m).
Context (etype : Ev -> key E) (invoke : H -> Ev -> M W reply) (halted : Ev -> W -> bool).
Abbreviation call_entry := (call_entry mx set_mx invoke halted).

(** Raising as the documentation has it: over the listeners there are when it
    starts. *)
Fixpoint deliver (ev : Ev) (l : list (entry H)) : M W unit :=
  match l with
  | [] => mret tt
  | x :: l => stop ← call_entry ev x; if stop : bool then mret tt else deliver ev l
  end.

Definition keeps_list (loc : nat) (l : list (entry H)) (w : W) : Prop := mx_lists (mx w) !! loc = Some l.

Lemma on_mx_remove_keeps loc l r et : preserves (keeps_list loc l) (on_mx mx set_mx (removeListener r et)).
Proof.
  intros w Hw. unfold on_mx. pose proof (removeListener_grows r et (mx w)) as Hg.
  destruct (removeListener r et (mx w)) as [a m']. unfold keeps_list in *. cbn [snd] in *. rewrite mx_set.
  eapply prefix_lookup_Some; [exact Hw|exact Hg].
Qed.

Lemma call_entry_keeps ev loc l x :
  (forall h w, keeps_list loc l w -> keeps_list loc l (snd (invoke h ev w))) -> preserves (keeps_list loc l) (call_entry ev x).
Proof.
  intros Hi. unfold call_entry. apply preserves_bind; [intros w; apply Hi|]. intros rv.
  apply preserves_bind; [destruct (e_once x); [apply on_mx_remove_keeps|apply preserves_ret]|]. intros _.
  apply preserves_bind; [|intros; apply preserves_bind; [apply preserves_get|intros; apply preserves_ret]].
  destruct rv as [|[]|[|h [|[] ?]]|]; cbn [after_reply]; try apply preserves_ret;
    (apply preserves_bind; [first [apply on_mx_remove_keeps|apply preserves_ret]|intros; apply preserves_ret]).
Qed.

Lemma call_loop_deliver ev loc l fuel i w :
  (forall h w, keeps_list loc l w -> keeps_list loc l (snd (invoke h ev w))) ->
  keeps_list loc l w -> (i <= length l < i + fuel)%nat ->
  call_loop mx set_mx invoke halted fuel loc i ev w = deliver ev (drop i l) w.
Proof.
  intros Hi. revert i w. induction fuel as [|fuel IH]; intros i w Hw Hf.
  { lia. }
  cbn [call_loop]. rewrite M_bind_unfold. cbn [get]. rewrite Hw. cbn [default id].
  destruct (l !! i) as [x|] eqn:Ex; [|apply lookup_ge_None in Ex; by rewrite drop_ge by lia].
  rewrite (drop_S _ _ _ Ex). cbn [deliver]. rewrite !M_bind_unfold.
  pose proof (call_entry_keeps ev loc l x Hi w Hw) as Hk. destruct (call_entry ev x w) as [[[]|e] w']; [done| |done].
  apply lookup_lt_Some in Ex. apply IH; [done|lia].
Qed.
End snapshot.

Lemma raise_snapshot {E H : Type} `{Countable E} `{EqDecision H} {W Ev : Type}
    (mx : W -> mixin E H) (set_mx : mixin E H -> W -> W)
    (etype : Ev -> key E) (invoke : H -> Ev -> M W reply) (halted : Ev -> W -> bool) (ev : Ev) (w : W) (fuel : nat) :
  (forall m w, mx (set_mx m w) = m) -> mixin_ok (mx w) ->
  (forall h loc w', mx_handlers (mx w) !! etype ev = Some loc -> mx_lists (mx w') !! loc = mx_lists (mx w) !! loc ->
     mx_lists (mx (snd (invoke h ev w'))) !! loc = mx_lists (mx w) !! loc) ->
  accepts (etype ev) (mx w) = true -> (length (listeners (etype ev) (mx w)) < fuel)%nat ->
  raiseEvent mx set_mx etype invoke halted fuel ev w
    = (_ ← deliver mx set_mx invoke halted ev (listeners (etype ev) (mx w)); mret ev) w.
Proof.
  intros Hmx Hok Hi Ha Hf. unfold raiseEvent. rewrite M_bind_unfold. cbn [get]. rewrite Ha. cbn [guard_ok]. rewrite M_bind_lift_Ok.
  unfold listeners in *. destruct (mx_handlers (mx w) !! etype ev) as [loc|] eqn:El; [|done].
  destruct (lookup_lt_is_Some_2 _ _ (ok_loc _ Hok _ _ El)) as [l Hl]. rewrite Hl in *. cbn [default id] in *.
  rewrite !M_bind_unfold. rewrite (call_loop_deliver mx set_mx Hmx invoke halted ev loc l); [by rewrite drop_0| |exact Hl|lia].
  intros h w' Hw'. unfold keeps_list in *. rewrite <-Hl. apply Hi; [done|]. by rewrite Hw'.
Qed.

(** ** Handlers that leave the source alone

    The world is the source and a log of the handlers called; the reply of a
    handler depends on nothing else. *)
Section order.
Context {E H : Type} `{Countable E} `{EqDecision H} (rep : H -> reply).

Abbreviation world := (mixin E H * list H)%type.
Definition log_call (h : H) (ev : key E) : M world reply := fun w => (Ok (rep h), (w.1, w.2 ++ [h])).
Definition set_source (m : mixin E H) (w : world) : world := (m, w.2).

Definition stops (rv : reply) : bool :=
  match rv with RBool true | RTuple [] | RTuple (true :: _) => true | _ => false end.
Definition removes (rv : reply) : bool :=
  match rv with RBool false | RTuple (_ :: true :: _) => true | _ => false end.
(** The entries that are called, and those of them that do not stay. *)
Fixpoint called (l : list (entry H)) : list (entry H) :=
  match l with [] => [] | x :: l => x :: (if stops (rep (e_handler x)) then [] else called l) end.
Definition gone (x : entry H) : bool := e_once x || removes (rep (e_handler x)).

Definition without (xs : list (entry H)) (l : list (entry H)) : list (entry H) := filter (fun y => y ∉ xs) l.

Lemma without_nil l : without [] l = l.
Proof.
  induction l as [|y l IH]; [done|]. unfold without. rewrite filter_cons, decide_True by apply not_elem_of_nil. by f_equal.
Qed.
Lemma without_app xs ys l : without (xs ++ ys) l = without ys (without xs l).
Proof.
  unfold without. rewrite list_filter_filter. apply list_filter_iff. intros y. rewrite elem_of_app. tauto.
Qed.

Lemma filter_ext {A} (P Q : A -> Prop) `{!forall x, Decision (P x), !forall x, Decision (Q x)} (l : list A) :
  (forall x, x ∈ l -> P x <-> Q x) -> filter P l = filter Q l.
Proof.
  induction l as [|x l IH]; intros Hx; [done|]. rewrite !filter_cons, IH by (intros; apply Hx; by right).
  assert (Hd : P x <-> Q x) by (apply Hx; left). destruct (decide (P x)), (decide (Q x)); tauto || done.
Qed.

(** No other entry has the number of this one. *)
Definition alone (x : entry H) (m : mixin E H) : Prop := forall k y, y ∈ listeners k m -> e_eid y = e_eid x -> y = x.

Lemma alone_without x m m' xs : alone x m -> (forall k, listeners k m' = without xs (listeners k m)) -> alone x m'.
Proof. intros Hx Hl k y. rewrite Hl. intros [_ Hy]%list_elem_of_filter. exact (Hx k y Hy). Qed.

(** Removing an entry by its number removes it and nothing else. *)
Lemma remove_entry x (m : mixin E H) :
  mixin_ok m -> alone x m ->
  exists b m', removeListener (ByEID (e_eid x)) None m = (Ok b, m') /\ mixin_ok m' /\ mx_events m' = mx_events m /\
    forall k', listeners k' m' = without [x] (listeners k' m).
Proof.
  intros Hm Hx. cbn [removeListener]. destruct (filter_all_spec (not_eid (e_eid x)) m Hm) as (b & m' & E1 & H1 & H2 & _ & _ & _ & Hl).
  exists b, m'. split_and!; try done. intros k'. rewrite Hl. apply filter_ext. intros y Hy.
  unfold not_eid. rewrite negb_true_iff, Z.eqb_neq, list_elem_of_singleton.
  split; [intros Hne ->; done|]. intros Hne Heq. exact (Hne (Hx k' y Hy Heq)).
Qed.

Lemma without_again x l : without [x] (without [x] l) = without [x] l.
Proof. unfold without. by apply list_filter_filter_l. Qed.

(** [c] tells whether the entry is removed once more. *)
Lemma maybe_remove (c : bool) x (m : mixin E H) log :
  mixin_ok m -> alone x m ->
  exists b m', (if c then on_mx fst set_source (removeListener (ByEID (e_eid x)) None) else mret false : M world bool) (m, log)
      = (Ok b, (m', log)) /\ mixin_ok m' /\ mx_events m' = mx_events m /\
    forall k, listeners k m' = without (if c then [x] else []) (listeners k m).
Proof.
  intros Hm Hx. destruct c.
  - destruct (remove_entry x m Hm Hx) as (b & m' & Er & ? & ? & Hl). exists b, m'. split; [|by split_and!].
    unfold on_mx. cbn [fst]. by rewrite Er.
  - exists false, m. split_and!; try done. intros k. by rewrite without_nil.
Qed.

Lemma call_entry_effect ev x (m : mixin E H) log :
  mixin_ok m -> alone x m ->
  exists m', call_entry fst set_source log_call (fun _ _ => false) ev x (m, log)
      = (Ok (stops (rep (e_handler x))), (m', log ++ [e_handler x])) /\ mixin_ok m' /\ mx_events m' = mx_events m /\
    forall k, listeners k m' = without (if gone x then [x] else []) (listeners k m).
Proof.
  intros Hm Hx. unfold call_entry. rewrite M_bind_unfold. cbn [log_call fst snd]. rewrite M_bind_unfold.
  destruct (maybe_remove (e_once x) x m (log ++ [e_handler x]) Hm Hx) as (b & m1 & E1 & Hm1 & He1 & Hl1). rewrite E1.
  assert (Hx1 : alone x m1) by by eapply alone_without.
  destruct (maybe_remove (removes (rep (e_handler x))) x m1 (log ++ [e_handler x]) Hm1 Hx1) as (b2 & m2 & E2 & Hm2 & He2 & Hl2).
  assert (Ea : after_reply fst set_source (e_eid x) (rep (e_handler x)) (m1, log ++ [e_handler x])
    = (Ok (stops (rep (e_handler x))), (m2, log ++ [e_handler x]))).
  { revert E2. destruct (rep (e_handler x)) as [|[]|[|h [|[] ?]]|]; cbn [removes after_reply stops]; try (by intros [= _ <-]).
    - intros E2. by rewrite M_bind_unfold, E2.
    - intros [= _ <-]. by destruct h.
    - intros E2. rewrite M_bind_unfold, E2. by destruct h.
    - intros [= _ <-]. by destruct h. }
  rewrite M_bind_unfold, Ea. exists m2. split.
  { rewrite M_bind_unfold. cbn [get]. destruct (rep (e_handler x)); cbn [mret M_ret]; by rewrite orb_false_r. }
  split; [done|]. split; [congruence|]. intros k. rewrite Hl2, Hl1. unfold gone.
  destruct (e_once x), (removes _); cbn [orb]; rewrite ?without_nil; try done. apply without_again.
Qed.

Lemma deliver_effect ev l (m : mixin E H) log :
  mixin_ok m -> (forall x, x ∈ l -> alone x m) ->
  exists m', deliver fst set_source log_call (fun _ _ => false) ev l (m, log) = (Ok tt, (m', log ++ (e_handler <$> called l))) /\
    mixin_ok m' /\ mx_events m' = mx_events m /\
    forall k, listeners k m' = without (filter (fun x => gone x = true) (called l)) (listeners k m).
Proof.
  revert m log. induction l as [|x l IH]; intros m log Hm Hl.
  { exists m. split; [by rewrite app_nil_r|]. split_and!; try done. intros k. by rewrite without_nil. }
  cbn [deliver called]. destruct (call_entry_effect ev x m log Hm) as (m1 & E1 & Hm1 & He1 & Hl1); [apply Hl; left|].
  rewrite M_bind_unfold, E1. destruct (stops _).
  - exists m1. split_and!; try done. intros k. rewrite Hl1, filter_cons. by destruct (gone x).
  - destruct (IH m1 (log ++ [e_handler x]) Hm1) as (m2 & E2 & Hm2 & He2 & Hl2).
    { intros y Hy. eapply alone_without; [|exact Hl1]. apply Hl. by right. }
    rewrite E2. exists m2. split; [by rewrite <-app_assoc|]. split; [done|]. split; [congruence|].
    intros k. rewrite Hl2, Hl1, filter_cons. destruct (gone x); cbn [decide]; [|by rewrite without_nil].
    by rewrite <-without_app.
Qed.
End order.

(** ** A handler that adds a listener

    It registers [h2], for the type that is being raised and with a priority. *)
Section adding.
Context {E H : Type} `{Countable E} `{EqDecision H} (ename : E -> string) (h2 : H) (p : Z).

Definition adding (h : H) (ev : key E) : M (mixin E H) reply :=
  _ ← addListener ename ev h2 false (Some p) false; mret RNone.

Lemma adding_loop fuel k loc A x (m : mixin E H) :
  mixin_ok m -> accepts k m = true -> mx_handlers m !! k = Some loc -> mx_lists m !! loc = Some (A ++ [x]) ->
  Forall (fun y => e_priority y = Some p) A -> e_priority x = None -> e_once x = false ->
  exists m', call_loop id (fun m _ => m) adding (fun _ _ => false) fuel loc (length A) k m = (Err OutOfFuel, m').
Proof.
  revert A m. induction fuel as [|fuel IH]; intros A m Hm Ha Hk Hl HA Hp Ho; [by exists m|].
  cbn [call_loop]. rewrite M_bind_unfold. cbn [get id]. rewrite Hl. cbn [default id].
  rewrite lookup_app_r, Nat.sub_diag by lia. cbn [lookup list_lookup].
  assert (Hlist : listeners k m = A ++ [x]) by (unfold listeners; by rewrite Hk, Hl).
  destruct (addListener_effect ename k h2 false (Some p) false m k Hm) as (m1 & E1 & Hm1 & He1 & _ & Hh1 & Hl1).
  { unfold event_type, accepts in *. destruct (mx_events m) as [evs|]; [|done]. apply bool_decide_eq_true in Ha. by rewrite decide_True. }
  assert (Hk1 : mx_handlers m1 !! k = Some loc) by (rewrite Hh1 by (by eexists); done).
  specialize (Hl1 k). rewrite decide_True, Hlist in Hl1 by done. unfold listeners in Hl1. rewrite Hk1 in Hl1.
  set (y := mk_entry (Some p) h2 false (mx_next m + 1)) in *.
  assert (Epl : place y (A ++ [x]) = (A ++ [y]) ++ [x]).
  { unfold place. rewrite !filter_app, !filter_cons, Hp. cbn [prio_le e_priority y].
    rewrite decide_False, decide_True, !filter_nil, app_nil_r by done. rewrite <-app_assoc. f_equal.
    - clear -HA. induction HA as [|z A Hz _ IHA]; [done|]. rewrite filter_cons, Hz, decide_True by (cbn; by rewrite Z.leb_refl). by rewrite IHA.
    - cbn [app]. f_equal. replace (filter _ A) with (@nil (entry H)); [done|]. symmetry. clear -HA.
      induction HA as [|z A Hz _ IHA]; [done|]. by rewrite filter_cons, Hz, decide_False by (cbn; by rewrite Z.leb_refl). }
  rewrite Epl in Hl1. destruct (mx_lists m1 !! loc) as [l1|] eqn:El1; [|by destruct A]. cbn [default id] in Hl1. subst l1.
  destruct (IH (A ++ [y]) m1) as [m' Em']; try done.
  { unfold accepts in *. by rewrite He1. }
  { apply Forall_app. split; [done|]. by apply Forall_singleton. }
  exists m'. rewrite M_bind_unfold. unfold call_entry. rewrite M_bind_unfold. unfold adding at 1. rewrite M_bind_unfold, E1.
  rewrite Ho. cbn [mret M_ret mbind M_bind after_reply get orb]. rewrite length_app in Em'. cbn [length] in Em'.
  by rewrite Nat.add_1_r in Em'.
Qed.
End adding.

(** ** Properties *)

(** C27: raising an event is what it is documented to be, delivery to the
    listeners there are when it starts, although the code goes through the live
    list: it ends with that when no handler changes the list object in place
    (removing listeners does not; adding one of the same type does). *)
Theorem raise_is_delivery {E H : Type} `{Countable E} `{EqDecision H} {W Ev : Type}
    (mx : W -> mixin E H) (set_mx : mixin E H -> W -> W)
    (etype : Ev -> key E) (invoke : H -> Ev -> M W reply) (halted : Ev -> W -> bool) (ev : Ev) (w : W) (fuel : nat) :
  (forall m w, mx (set_mx m w) = m) -> mixin_ok (mx w) ->
  (forall h loc w', mx_handlers (mx w) !! etype ev = Some loc -> mx_lists (mx w') !! loc = mx_lists (mx w) !! loc ->
     mx_lists (mx (snd (invoke h ev w'))) !! loc = mx_lists (mx w) !! loc) ->
  accepts (etype ev) (mx w) = true -> (length (listeners (etype ev) (mx w)) < fuel)%nat ->
  raiseEvent mx set_mx etype invoke halted fuel ev w
    = (_ ← deliver mx set_mx invoke halted ev (listeners (etype ev) (mx w)); mret ev) w.
Proof. apply raise_snapshot. Qed.

(** C13: listeners hear an event in the order of their priorities, and of their
    registration where priorities are equal, each of them once, until one halts
    it; those that were to be called once or ask for it are then gone, and all
    others, of this type or another, are still there in their order. *)
Theorem raise_in_order {E H : Type} `{Countable E} `{EqDecision H} (rep : H -> reply) (k : key E) (m : mixin E H)
    (log : list H) (fuel : nat) :
  mixin_ok m -> accepts k m = true -> (length (listeners k m) < fuel)%nat ->
  StronglySorted before (listeners k m) /\
  exists m', raiseEvent fst set_source id (log_call rep) (fun _ _ => false) fuel k (m, log)
      = (Ok k, (m', log ++ (e_handler <$> called rep (listeners k m)))) /\ mixin_ok m' /\
    forall k', listeners k' m' = without (filter (fun x => gone rep x = true) (called rep (listeners k m))) (listeners k' m).
Proof.
  intros Hm Ha Hf. split; [by apply ok_order|].
  rewrite (raise_snapshot fst set_source id (log_call rep) (fun _ _ => false) k (m, log) fuel) by done.
  destruct (deliver_effect rep k (listeners k m) m log Hm) as (m' & Ed & Hm' & _ & Hl).
  { intros x Hx k' y Hy Heq. by destruct (ok_once m Hm k' k y x). }
  exists m'. split; [|by split]. rewrite M_bind_unfold. cbn [fst id]. by rewrite Ed.
Qed.

(** Raising may not end.  When the one listener of an event registers another
    one for the same event, with a priority, each time it is called, the new entry
    is sorted in front of it in the very list that is being gone through, so that
    it is next again: no number of rounds is enough. *)
Theorem adding_never_ends {E H : Type} `{Countable E} `{EqDecision H} (ename : E -> string) (h2 : H) (p : Z) (k : key E)
    (m : mixin E H) (x : entry H) (fuel : nat) :
  mixin_ok m -> accepts k m = true -> listeners k m = [x] -> e_priority x = None -> e_once x = false ->
  exists m', raiseEvent id (fun m _ => m) id (adding ename h2 p) (fun _ _ => false) fuel k m = (Err OutOfFuel, m').
Proof.
  intros Hm Ha Hl Hp Ho. unfold raiseEvent. rewrite M_bind_unfold. cbn [get id]. rewrite Ha. cbn [guard_ok]. rewrite M_bind_lift_Ok.
  unfold listeners in Hl. destruct (mx_handlers m !! k) as [loc|] eqn:Ek; [|done].
  destruct (mx_lists m !! loc) as [l|] eqn:El; [|done]. cbn [default id] in Hl. subst l.
  destruct (adding_loop ename h2 p fuel k loc [] x m) as [m' E']; try done. cbn [length] in E'. exists m'. by rewrite M_bind_unfold, E'.
Qed.

(** A new listener comes behind those of its priority and in front of those
    of lower ones, and gets a number no listener has; listeners of other types
    are not touched. *)
Theorem addListener_spec {E H : Type} `{Countable E} `{EqDecision H} (ename : E -> string) (k : key E) (handler : H)
    (once : bool) (priority : option Z) (byName : bool) (m : mixin E H) :
  mixin_ok m ->
  match event_type ename k byName m with
  | Err e => addListener ename k handler once priority byName m = (Err e, m)
  | Ok k' =>
      let x := mk_entry priority handler once (mx_next m + 1) in
      exists m' l1 l2, addListener ename k handler once priority byName m = (Ok (k', mx_next m + 1), m') /\ mixin_ok m' /\
        listeners k' m' = l1 ++ x :: l2 /\ l1 ++ l2 = listeners k' m /\
        Forall (fun y => prio_le priority (e_priority y) = true) l1 /\ Forall (fun y => prio_le priority (e_priority y) = false) l2 /\
        (forall k2 y, y ∈ listeners k2 m -> e_eid y <> e_eid x) /\
        forall k2, k2 <> k' -> listeners k2 m' = listeners k2 m
  end.
Proof.
  intros Hm. destruct (event_type ename k byName m) as [k'|e] eqn:Ek; [|unfold addListener; by rewrite M_bind_unfold, Ek].
  cbv zeta. destruct (addListener_effect ename k handler once priority byName m k' Hm Ek) as (m' & Ea & Hm' & _ & _ & _ & Hl).
  exists m', (filter (fun y => prio_le priority (e_priority y) = true) (listeners k' m)),
    (filter (fun y => prio_le priority (e_priority y) = false) (listeners k' m)).
  split; [exact Ea|]. split; [done|]. split; [by rewrite Hl, decide_True|]. split; [|split_and!].
  - pose proof (ok_order m Hm k') as Hs. clear -Hs. induction Hs as [|y l _ IH Hy]; [done|]. rewrite !filter_cons.
    destruct (prio_le priority (e_priority y)) eqn:E1; [by rewrite decide_True, decide_False, <-app_comm_cons, IH|].
    rewrite decide_False, decide_True by done. destruct (filter _ l) as [|z l'] eqn:Ef; [cbn in *; by rewrite IH|].
    assert (Hz : z ∈ z :: l') by left. rewrite <-Ef in Hz. apply list_elem_of_filter in Hz as [Hz Hin]. rewrite Forall_forall in Hy.
    apply Hy, before_le in Hin. by rewrite (prio_trans _ _ _ Hz Hin) in E1.
  - apply Forall_forall. by intros y [? _]%list_elem_of_filter.
  - apply Forall_forall. by intros y [? _]%list_elem_of_filter.
  - intros k2 y Hy%(ok_given m Hm). cbn. lia.
  - intros k2 Hne. rewrite Hl. by rewrite decide_False.
Qed.

(** What may happen to a source, from outside and from its handlers. *)
Inductive source_step {E H : Type} `{Countable E} `{EqDecision H} (ename : E -> string) (m : mixin E H) : mixin E H -> Prop :=
  | source_add k h once priority byName : source_step ename m (snd (addListener ename k h once priority byName m))
  | source_remove r et : source_step ename m (snd (removeListener r et m))
  | source_clear : source_step ename m (snd (clearHandlers m))
  | source_event k : source_step ename m (snd (addEvent k m)).

(** However listeners come and go, each list stays in order of priority and
    registration, each type has a list of its own, and no two listeners of a
    source have one number, so that removing by number removes one. *)
Theorem source_invariant {E H : Type} `{Countable E} `{EqDecision H} (ename : E -> string) (events : option (list (key E)))
    (n : Z) (m : mixin E H) :
  rtc (source_step ename) (new_mixin events n) m -> mixin_ok m.
Proof.
  apply (rtc_ind_r (fun m => mixin_ok m)).
  - apply new_mixin_ok.
  - intros m1 m2 _ Hs Hm. destruct Hs as [k h once priority byName|r et| |k].
    + destruct (event_type ename k byName m1) as [k'|e] eqn:Ek.
      * by destruct (addListener_effect ename k h once priority byName m1 k' Hm Ek) as (m' & -> & Hm' & _).
      * unfold addListener. by rewrite M_bind_unfold, Ek.
    + by apply removeListener_ok.
    + destruct Hm as [Hl Ho Hs Hg Hu]. constructor; try done; [constructor|by intros k x ?%elem_of_nil|by intros k1 k2 x1 x2 ?%elem_of_nil].
    + unfold addEvent. rewrite M_bind_unfold. cbn [get]. destruct (mx_events m1); [|done]. by destruct Hm.
Qed.

(** A sink listens to exactly the events that its methods are named after,
    in the order of the methods, and gets a reference for each. *)
Theorem autoBind_spec {E H : Type} `{Countable E} `{EqDecision H} (ename : E -> string) (sink : list (string * H))
    (prefix : string) (evs : list (key E)) (m : mixin E H) :
  mixin_ok m -> mx_events m = Some evs ->
  let handles ms := handled_name (fix_prefix prefix) ms.1 ≫= named_event ename evs in
  exists refs m', autoBindEvents ename sink prefix None m = (Ok refs, m') /\ mixin_ok m' /\
    refs.*1 = omap handles sink /\
    forall k, e_handler <$> listeners k m' = (e_handler <$> listeners k m) ++ (snd <$> filter (fun ms => handles ms = Some k) sink).
Proof.
  intros Hm He handles. unfold autoBindEvents. rewrite M_bind_unfold. cbn [get]. rewrite He. cbn [need]. rewrite M_bind_lift_Ok.
  revert m Hm He. induction sink as [|[name h] sink IH]; intros m Hm He.
  { exists [], m. split; [done|]. split; [done|]. split; [done|]. intros k. by rewrite app_nil_r. }
  cbn [bind_methods]. unfold bind_method. cbn [fst snd]. fold (handles (name, h)).
  assert (Eh : handles (name, h) = handled_name (fix_prefix prefix) name ≫= named_event ename evs) by done. rewrite <-Eh.
  destruct (handles (name, h)) as [k0|] eqn:Ek0.
  - destruct (addListener_effect ename k0 h false None false m k0 Hm) as (m1 & E1 & Hm1 & He1 & _ & _ & Hl1).
    { unfold event_type. rewrite He, decide_True; [done|]. clear Eh. apply bind_Some in Ek0 as (n' & _ & Hn).
      unfold named_event in Hn. apply last_Some_elem_of in Hn. by apply list_elem_of_filter in Hn as [_ Hn]. }
    destruct (IH m1) as (refs & m2 & E2 & Hm2 & Er & Hl2); [done|congruence|].
    rewrite M_bind_unfold, M_bind_unfold, E1. cbn [mret M_ret]. rewrite M_bind_unfold, E2. eexists _, m2. split; [reflexivity|].
    split; [done|]. split; [cbn; by rewrite Ek0, Er|]. intros k. rewrite Hl2, Hl1, filter_cons, Ek0.
    destruct (decide (k0 = k)) as [<-|Hne].
    + rewrite decide_True by done. rewrite place_none, fmap_app by done. by rewrite <-app_assoc.
    + rewrite decide_False by congruence. done.
  - destruct (IH m Hm He) as (refs & m2 & E2 & Hm2 & Er & Hl2). rewrite M_bind_unfold. cbn [mret M_ret]. rewrite M_bind_unfold, E2.
    eexists _, m2. split; [reflexivity|]. split; [done|]. split; [cbn; by rewrite Ek0, Er|]. intros k. rewrite Hl2, filter_cons, Ek0.
    by rewrite decide_False.
Qed.

(** ** Examples *)

(** Three listeners of one event: two with a priority, one of them for once. *)
Definition example_ename (e : Z) : string := if e =? 0 then "PacketIn" else "PortStatus".
Definition example_evs : list (key Z) := [KClass 0; KClass 1].
Definition example_start : mixin Z nat := new_mixin (Some example_evs) 10.
Definition example_source : mixin Z nat :=
  snd ((_ ← addListener example_ename (KName "PacketIn") 1%nat false None true;
        _ ← addListener example_ename (KClass 0) 2%nat false (Some 5) false;
        addListener example_ename (KClass 0) 3%nat true (Some 5) false) example_start).
Definition example_rep (h : nat) : reply := if (h =? 2)%nat then EventRemove else RNone.

Lemma source_invariant_witness : mixin_ok example_source.
Proof.
  apply (source_invariant example_ename (Some example_evs) 10).
  eapply rtc_l; [apply (source_add example_ename _ (KName "PacketIn") 1%nat false None true)|].
  eapply rtc_l; [apply (source_add example_ename _ (KClass 0) 2%nat false (Some 5) false)|].
  eapply rtc_l; [apply (source_add example_ename _ (KClass 0) 3%nat true (Some 5) false)|]. apply rtc_refl.
Defined.

Lemma example_source_ok : mixin_ok example_source.
Proof.
  assert (Hadd : forall k h o p b (m : mixin Z nat), mixin_ok m -> mixin_ok (snd (addListener example_ename k h o p b m))).
  { intros k h o p b m Hm. destruct (event_type example_ename k b m) as [k'|e] eqn:Ek.
    - by destruct (addListener_effect example_ename k h o p b m k' Hm Ek) as (m' & -> & Hm' & _).
    - unfold addListener. by rewrite M_bind_unfold, Ek. }
  assert (Hs : mixin_ok example_start).
  { constructor; try done; [constructor|by intros k x ?%elem_of_nil|by intros k1 k2 x1 x2 ?%elem_of_nil]. }
  exact (Hadd (KClass 0) 3%nat true (Some 5) false _ (Hadd (KClass 0) 2%nat false (Some 5) false _
    (Hadd (KName "PacketIn") 1%nat false None true _ Hs))).
Qed.

Lemma raise_in_order_witness :
  exists m', raiseEvent fst set_source id (log_call example_rep) (fun _ _ => false) 4 (KClass 0) (example_source, [])
      = (Ok (KClass 0), (m', [2; 3; 1]%nat)) /\ e_handler <$> listeners (KClass 0) m' = [1%nat].
Proof.
  destruct (raise_in_order example_rep (KClass 0) example_source [] 4 example_source_ok eq_refl) as (_ & m' & E & _ & Hl).
  - vm_compute. lia.
  - exists m'. split; [exact E|]. rewrite Hl. vm_compute. reflexivity.
Defined.

Lemma raise_is_delivery_witness :
  raiseEvent fst set_source id (log_call example_rep) (fun _ _ => false) 4 (KClass 0) (example_source, [])
    = (_ ← deliver fst set_source (log_call example_rep) (fun _ _ => false) (KClass 0) (listeners (KClass 0) example_source);
       mret (KClass 0)) (example_source, []).
Proof.
  apply (raise_is_delivery fst set_source id (log_call example_rep) (fun _ _ => false) (KClass 0) (example_source, []) 4).
  - done.
  - apply example_source_ok.
  - intros h loc w' _ Hw. exact Hw.
  - reflexivity.
  - vm_compute. lia.
Defined.

Definition example_single : mixin Z nat := snd (addListener example_ename (KClass 0) 1%nat false None false example_start).

Lemma adding_never_ends_witness :
  exists m', raiseEvent id (fun m _ => m) id (adding example_ename 2%nat 7) (fun _ _ => false) 100 (KClass 0) example_single
    = (Err OutOfFuel, m').
Proof.
  apply (adding_never_ends example_ename 2%nat 7 (KClass 0) example_single (mk_entry None 1%nat false 11) 100); try reflexivity.
  assert (Hs : mixin_ok example_start).
  { constructor; try done; [constructor|by intros k x ?%elem_of_nil|by intros k1 k2 x1 x2 ?%elem_of_nil]. }
  destruct (addListener_effect example_ename (KClass 0) 1%nat false None false example_start (KClass 0) Hs eq_refl) as (m' & E & Hm & _).
  unfold example_single. by rewrite E.
Defined.

Lemma addListener_spec_witness :
  exists m' l1 l2, addListener example_ename (KName "PacketIn") 9%nat false (Some 3) true example_source = (Ok (KClass 0, 14), m') /\
    listeners (KClass 0) m' = l1 ++ mk_entry (Some 3) 9%nat false 14 :: l2.
Proof.
  destruct (addListener_spec example_ename (KName "PacketIn") 9%nat false (Some 3) true example_source example_source_ok)
    as (m' & l1 & l2 & E & _ & Hl & _). exists m', l1, l2. split; [exact E|exact Hl].
Defined.

(** The methods of a component, the second with a prefix of its own. *)
Definition example_sink : list (string * nat) :=
  [("_handle_PacketIn", 4); ("_handle_openflow_PortStatus", 5); ("launch", 6); ("_handle_PortStatus", 7)]%nat.

Lemma autoBind_spec_witness :
  exists refs m', autoBindEvents example_ename example_sink "" None example_source = (Ok refs, m') /\
    refs.*1 = [KClass 0; KClass 1] /\ e_handler <$> listeners (KClass 1) m' = [7%nat].
Proof.
  destruct (autoBind_spec example_ename example_sink "" example_evs example_source example_source_ok eq_refl) as (refs & m' & E & _ & Er & Hl).
  exists refs, m'. split; [exact E|]. split; [rewrite Er; reflexivity|]. rewrite Hl. reflexivity.
Defined.
