(* ===== verification/Recoco.v ===== *)
(** * The cooperative scheduler ([pox/lib/recoco/recoco.py])

    Tasks are generators that run in turn; what a task yields says when it is to
    run again.  Two threads work on the state: the scheduler's, whose steps are
    [cycle], and that of the hub, which waits for sockets and times and whose
    steps are [hub_expire] and [hub_select].  Tasks, sockets and files are numbers; times are in
    nanoseconds.

    Arguments of the model: what a generator does when it is resumed, what
    sockets give, what [select] reports, and the order in which dictionaries are
    listed.  A comparison of a task with a number is true in Python 2, so that
    the loop that looks at priorities ends with its first task.  Printing, the
    locks of [Synchronizer] and the heap of sleepers, which is always empty, are
    left out. *)

From S2P Require Import Prelude PyStruct.

Definition CYCLE_MAXIMUM : Z := 2000000000.

(** ** What tasks yield and get *)

Inductive blocking :=
  | Exit
  | Sleep (t : option Z)
  | Select (r w x : list nat) (timeout : option Z)
  | Recv (fd : nat) (timeout : option Z)
  | Send (fd : nat) (data : bytes)
  | CallBlocking.
(** [Sleep(timeToWake, absoluteTime)]. *)
Definition new_Sleep (now : Z) (timeToWake : option Z) (absoluteTime : bool) : blocking :=
  Sleep (if absoluteTime then timeToWake else (fun t => t + now) <$> timeToWake).

(** A number of seconds, [None], [False], a blocking operation, or another value,
    with which the task is not heard of again. *)
Inductive yielded := YOp (o : blocking) | YFalse | YNumber (n : Z) | YNone | YOther.
Inductive outcome := Yields (y : yielded) | Stops | Raises.
(** What [send] gives to a generator. *)
Inductive value := VNone | VLists (r w x : list nat) | VData (o : option bytes) | VSent (n : Z) | VReturn (z : option Z).

(** Return functions, which are called instead when the task would be resumed. *)
Inductive return_function := RecvFunc (fd : nat) | SendFunc (fd : nat) (data : bytes) (sent : Z).

(** A request to the hub. *)
Record request := mk_request { rq_r : list nat; rq_w : list nat; rq_x : list nat; rq_timeout : option Z }.

(** ** State *)

(** [ready] is the scheduler's queue, [incoming] and [waiting] are the hub's queue
    and its dictionary, [calls] the tasks that wait for a blocking call in a thread,
    [rvs] and [rfs] what the next resumption gives; [wakers] are the
    [ScheduleTask]s with the tasks they are for. *)
Record world (U : Type) := mk_world {
  ready : list nat;
  hasQuit : bool;
  incoming : list (nat * request);
  waiting : gmap nat request;
  calls : list nat;
  rvs : gmap nat value;
  rfs : gmap nat return_function;
  wakers : gmap nat nat;
  nextTaskID : nat;
  user : U
}.
Arguments mk_world {U}. Arguments ready {U}. Arguments hasQuit {U}. Arguments incoming {U}. Arguments waiting {U}.
Arguments calls {U}. Arguments rvs {U}. Arguments rfs {U}. Arguments wakers {U}. Arguments nextTaskID {U}. Arguments user {U}.

Section recoco.
Context {U : Type}.
Abbreviation R := (M (world U)).

Definition set_ready (x : list nat) (w : world U) : world U :=
  mk_world x (hasQuit w) (incoming w) (waiting w) (calls w) (rvs w) (rfs w) (wakers w) (nextTaskID w) (user w).
Definition set_hasQuit (x : bool) (w : world U) : world U :=
  mk_world (ready w) x (incoming w) (waiting w) (calls w) (rvs w) (rfs w) (wakers w) (nextTaskID w) (user w).
Definition set_incoming (x : list (nat * request)) (w : world U) : world U :=
  mk_world (ready w) (hasQuit w) x (waiting w) (calls w) (rvs w) (rfs w) (wakers w) (nextTaskID w) (user w).
Definition set_waiting (x : gmap nat request) (w : world U) : world U :=
  mk_world (ready w) (hasQuit w) (incoming w) x (calls w) (rvs w) (rfs w) (wakers w) (nextTaskID w) (user w).
Definition set_calls (x : list nat) (w : world U) : world U :=
  mk_world (ready w) (hasQuit w) (incoming w) (waiting w) x (rvs w) (rfs w) (wakers w) (nextTaskID w) (user w).
Definition set_rvs (x : gmap nat value) (w : world U) : world U :=
  mk_world (ready w) (hasQuit w) (incoming w) (waiting w) (calls w) x (rfs w) (wakers w) (nextTaskID w) (user w).
Definition set_rfs (x : gmap nat return_function) (w : world U) : world U :=
  mk_world (ready w) (hasQuit w) (incoming w) (waiting w) (calls w) (rvs w) x (wakers w) (nextTaskID w) (user w).
Definition set_wakers (x : gmap nat nat) (w : world U) : world U :=
  mk_world (ready w) (hasQuit w) (incoming w) (waiting w) (calls w) (rvs w) (rfs w) x (nextTaskID w) (user w).
Definition set_nextTaskID (x : nat) (w : world U) : world U :=
  mk_world (ready w) (hasQuit w) (incoming w) (waiting w) (calls w) (rvs w) (rfs w) (wakers w) x (user w).
Definition set_user (x : U) (w : world U) : world U :=
  mk_world (ready w) (hasQuit w) (incoming w) (waiting w) (calls w) (rvs w) (rfs w) (wakers w) (nextTaskID w) x.

Definition rv_of (t : nat) (w : world U) : value := default VNone (rvs w !! t).

(** ** Scheduling *)

Definition fast_schedule (t : nat) (first : bool) : R unit :=
  r ← get ready;
  _ ← lift (guard_ok (bool_decide (t ∉ r)) AssertionError);
  modify (set_ready (if first then t :: r else r ++ [t])).
(** [schedule] on the scheduler's thread, and on another one. *)
Definition schedule (t : nat) (first : bool) : R bool :=
  r ← get ready;
  if bool_decide (t ∈ r) then mret false else _ ← fast_schedule t first; mret true.
Definition schedule_from_outside (t : nat) : R unit :=
  _ ← modify (fun w => set_nextTaskID (S (nextTaskID w)) w);
  st ← get nextTaskID;
  _ ← modify (fun w => set_wakers (<[st := t]> (wakers w)) w);
  fast_schedule st false.

Definition registerSelect (t : nat) (r w x : list nat) (timeout : option Z) : R unit :=
  modify (fun s => set_incoming (incoming s ++ [(t, mk_request r w x timeout)]) s).
Definition registerTimer (t : nat) (timeToWake : Z) : R unit := registerSelect t [] [] [] (Some timeToWake).
(** [_return]. *)
Definition return_to (t : nat) (v : value) : R unit :=
  _ ← modify (fun w => set_rvs (<[t := v]> (rvs w)) w); fast_schedule t false.

Section run.
Context (resume : nat -> value -> R outcome) (recv : nat -> world U -> option bytes).

(** ** Blocking operations *)

Definition execute_op (now : Z) (o : blocking) (t : nat) : R unit :=
  match o with
  | Exit => modify (set_hasQuit true)
  | Sleep None => mret tt
  | Sleep (Some z) => if (z =? 0) || (z <? now) then fast_schedule t false else registerTimer t z
  | Select r w x timeout => registerSelect t r w x ((fun z => z + now) <$> timeout)
  | Recv fd timeout =>
      _ ← modify (fun w => set_rfs (<[t := RecvFunc fd]> (rfs w)) w);
      registerSelect t [fd] [] [fd] ((fun z => z + now) <$> timeout)
  | Send fd data =>
      _ ← modify (fun w => set_rfs (<[t := SendFunc fd data 0]> (rfs w)) w);
      registerSelect t [] [fd] [fd] None
  | CallBlocking => modify (fun w => set_calls (calls w ++ [t]) w)
  end.

(** The return functions, [None] for [ABORT].  That of [Send] calls [send] of a
    list, which raises, and waits again. *)
Definition call_rf (f : return_function) (t : nat) : R (option value) :=
  v ← get (rv_of t);
  match v with
  | VLists r w x =>
      match f with
      | RecvFunc _ =>
          match x, r with
          | [], sock :: _ => o ← get (recv sock); mret (Some (VData o))
          | _, _ => mret (Some VNone)
          end
      | SendFunc fd data sent =>
          match x with
          | [] =>
              _ ← modify (fun w => set_rfs (<[t := SendFunc fd (if (1024 <? length data)%nat then drop 1024 data else data) sent]> (rfs w)) w);
              _ ← registerSelect t [] [fd] [fd] None;
              mret None
          | _ => mret (Some (VSent sent))
          end
      end
  | _ => lift (Err TypeError)
  end.

(** [ScheduleTask.run]. *)
Definition wake (t : nat) : R outcome :=
  r ← get ready;
  _ ← (if bool_decide (t ∈ r) then mret tt else fast_schedule t true);
  mret (Yields YFalse).

(** [execute]: an exception is an outcome. *)
Definition resume_task (t : nat) (v : value) : R outcome :=
  ws ← get wakers;
  match ws !! t with Some t' => wake t' | None => resume t v end.
Definition execute (t : nat) : R outcome :=
  fs ← get rfs;
  match fs !! t with
  | Some f =>
      v ← call_rf f t;
      _ ← modify (fun w => set_rvs (delete t (rvs w)) (set_rfs (delete t (rfs w)) w));
      match v with None => mret (Yields YFalse) | Some v => resume_task t v end
  | None =>
      v ← get (rv_of t);
      _ ← modify (fun w => set_rvs (delete t (rvs w)) w);
      resume_task t v
  end.

(** ** The scheduler's thread *)

(** An exception de-schedules the task. *)
Definition caught (m : R outcome) : R outcome := fun w => match m w with (Ok o, w) => (Ok o, w) | (Err _, w) => (Ok Raises, w) end.
Definition cycle (now : Z) : R bool :=
  r ← get ready;
  match r with
  | [] => mret false
  | t :: rest =>
      _ ← modify (set_ready rest);
      o ← caught (execute t);
      match o with
      | Yields (YOp o) => _ ← caught (_ ← execute_op now o t; mret Stops); mret true
      | Yields (YNumber n) =>
          _ ← (if n =? 0 then modify (fun w => set_ready (ready w ++ [t]) w) else registerTimer t (now + n));
          mret true
      | Yields YNone => lift (Err RuntimeError)
      | _ => mret true
      end
  end.
(** [run]: an exception ends it.  The clock is that of the number of the cycle. *)
Fixpoint run (n : nat) (clock : nat -> Z) : R unit :=
  match n with
  | O => mret tt
  | S n => fun w =>
      if hasQuit w then (Ok tt, w) else
      match cycle (clock n) w with
      | (Ok _, w) => run n clock w
      | (Err e, w) => (Err e, set_hasQuit true w)
      end
  end.

(** A thread of [CallBlocking] ends. *)
Definition call_done (t : nat) (v : value) : R unit :=
  _ ← modify (fun w => set_calls (filter (fun t' => t' <> t) (calls w)) w); return_to t v.
End run.

(** ** The hub's thread *)
Section hub.
Context (order : gmap nat request -> list nat) (shuffle : list nat -> list nat).

Definition is_due (now : Z) (q : request) : bool := match rq_timeout q with Some z => z <=? now | None => false end.
(** The task whose time is next: the first of the earliest. *)
Fixpoint next_timeout (ts : list (nat * request)) (best : option (nat * Z)) : option (nat * Z) :=
  match ts with
  | [] => best
  | (t, q) :: ts =>
      next_timeout ts (match rq_timeout q, best with
                       | Some z, None => Some (t, z)
                       | Some z, Some (_, b) => if z <? b then Some (t, z) else best
                       | None, _ => best
                       end)
  end.
(** [rl], [wl] and [xl]: for each file the task that waits for it, the last one. *)
Definition files (sel : request -> list nat) (ts : list (nat * request)) : gmap nat nat :=
  fold_left (fun m tq => fold_left (fun m fd => <[fd := tq.1]> m) (sel tq.2) m) ts ∅.

Definition listed (w : world U) : list (nat * request) :=
  omap (fun t => (fun q => (t, q)) <$> waiting w !! t) (order (waiting w)).
(** The requests whose time has come. *)
Definition give_back (t : nat) (v : value) : R unit := _ ← modify (fun w => set_waiting (delete t (waiting w)) w); return_to t v.
Definition hub_expire (now : Z) : R unit :=
  l ← get listed;
  for_each (filter (fun tq => is_due now tq.2 = true) l) (fun tq => give_back tq.1 (VLists [] [] [])).

(** New requests. *)
Fixpoint take_incoming (l : list (nat * request)) : R unit :=
  match l with
  | [] => mret tt
  | (t, q) :: l =>
      ws ← get waiting;
      _ ← lift (guard_ok (bool_decide (ws !! t = None)) AssertionError);
      _ ← modify (fun w => set_waiting (<[t := q]> (waiting w)) w);
      take_incoming l
  end.
(** What [select] reports: whether the hub is pinged, and files. *)
Definition for_task (m : gmap nat nat) (fds : list nat) (t : nat) : list nat := filter (fun fd => m !! fd = Some t) fds.
Definition hub_select (pinged : bool) (ro wo xo : list nat) : R unit :=
  l ← get listed;
  let rl := files rq_r l in let wl := files rq_w l in let xl := files rq_x l in
  match pinged, ro, wo, xo, next_timeout l None with
  | false, [], [], [], Some (t, _) => give_back t (VLists [] [] [])
  | _, _, _, _, _ =>
      _ ← (if pinged then i ← get incoming; _ ← modify (set_incoming []); take_incoming i else mret tt);
      let owners := omap (fun fd => rl !! fd) ro ++ omap (fun fd => wl !! fd) wo ++ omap (fun fd => xl !! fd) xo in
      for_each (shuffle (remove_dups owners)) (fun t => give_back t (VLists (for_task rl ro t) (for_task wl wo t) (for_task xl xo t)))
  end.
End hub.
End recoco.

(** ** Timers *)

(** [Timer]: whether its generator has begun, when it is next due, and, for the
    statements, when it called back. *)
Record timer := mk_timer {
  tm_begun : bool; tm_next : Z; tm_interval : Z; tm_recurring : bool; tm_self_stoppable : bool; tm_cancelled : bool; tm_fired : list Z
}.
Definition new_Timer (now timeToWake : Z) (absoluteTime recurring selfStoppable : bool) : result timer :=
  if absoluteTime && recurring then Err RuntimeError else
  mret (mk_timer false (if absoluteTime then timeToWake else timeToWake + now) (if recurring then timeToWake else 0) recurring selfStoppable false []).
Definition cancel (tm : timer) : timer :=
  mk_timer (tm_begun tm) (tm_next tm) (tm_interval tm) (tm_recurring tm) (tm_self_stoppable tm) true (tm_fired tm).
Definition begin (tm : timer) : timer :=
  mk_timer true (tm_next tm) (tm_interval tm) (tm_recurring tm) (tm_self_stoppable tm) (tm_cancelled tm) (tm_fired tm).
Definition fire (now : Z) (tm : timer) : timer :=
  mk_timer (tm_begun tm) (now + tm_interval tm) (tm_interval tm) (tm_recurring tm) (tm_self_stoppable tm) (tm_cancelled tm) (tm_fired tm ++ [now]).
(** [Timer.run] from one [yield] to the next: [callback] gives whether it returned
    [False], and may cancel the timer or raise. *)
Definition timer_sleeps (tm : timer) : outcome :=
  if tm_cancelled tm then Yields YFalse else Yields (YOp (Sleep (Some (tm_next tm)))).
Definition timer_resume (callback : timer -> result bool * timer) (now : Z) (tm : timer) : outcome * timer :=
  if negb (tm_begun tm) then (timer_sleeps tm, begin tm) else
  if tm_cancelled tm then (Yields YFalse, tm) else
  match callback (fire now tm) with
  | (Err _, tm) => (Raises, tm)
  | (Ok rv, tm) =>
      if (tm_self_stoppable tm && rv) || negb (tm_recurring tm) then (Yields YFalse, tm) else (timer_sleeps tm, tm)
  end.
(** Resumed at these times, for as long as it asks to be. *)
Fixpoint timer_run (callback : timer -> result bool * timer) (ns : list Z) (tm : timer) : outcome * timer :=
  match ns with
  | [] => (timer_sleeps tm, tm)
  | now :: ns =>
      match timer_resume callback now tm with
      | (Yields (YOp o), tm) => timer_run callback ns tm
      | r => r
      end
  end.

(** ** Where a task is *)

(** The places of tasks: the queue, the hub, and threads. *)
Definition hub_tasks {U} (w : world U) : list nat := (incoming w).*1 ++ (map_to_list (waiting w)).*1.
Definition places {U} (w : world U) : list nat := ready w ++ hub_tasks w ++ calls w.

(** Outcomes after which the task goes on. *)
Definition goes_on (now : Z) (o : outcome) : bool :=
  match o with
  | Yields (YOp (Exit | Sleep None)) => false
  | Yields (YOp _) | Yields (YNumber _) => true
  | _ => false
  end.

Section places.
Context {U : Type} (order : gmap nat request -> list nat) (Horder : forall m, order m ≡ₚ (map_to_list m).*1).
Implicit Types w : world U.

Lemma insert_keys (m : gmap nat request) t q : m !! t = None -> (map_to_list (<[t := q]> m)).*1 ≡ₚ t :: (map_to_list m).*1.
Proof. intros E. by rewrite map_to_list_insert. Qed.
Lemma delete_keys (m : gmap nat request) t : is_Some (m !! t) -> (map_to_list m).*1 ≡ₚ t :: (map_to_list (delete t m)).*1.
Proof. intros [q E]. rewrite <-(insert_delete_id m t q E) at 1. apply insert_keys, lookup_delete_eq. Qed.
Lemma elem_keys (m : gmap nat request) t : t ∈ (map_to_list m).*1 <-> is_Some (m !! t).
Proof.
  rewrite list_elem_of_fmap. split; [intros ([t' q] & -> & E%elem_of_map_to_list); by eexists|].
  intros [q E]. exists (t, q). split; [done|]. by apply elem_of_map_to_list.
Qed.

(** Giving a task back to the queue. *)
Lemma give_back_effect t v w :
  NoDup (places w) -> is_Some (waiting w !! t) ->
  exists w', give_back t v w = (Ok tt, w') /\ ready w' = ready w ++ [t] /\ waiting w' = delete t (waiting w) /\ incoming w' = incoming w /\
    calls w' = calls w /\ rvs w' = <[t := v]> (rvs w) /\ rfs w' = rfs w /\ user w' = user w /\ hasQuit w' = hasQuit w /\ wakers w' = wakers w /\
    places w' ≡ₚ places w.
Proof.
  intros Hn Ht. assert (Hr : t ∉ ready w).
  { intros Hin. apply NoDup_app in Hn as (_ & Hd & _). apply (Hd t Hin). apply elem_of_app. left. apply elem_of_app. right. by apply elem_keys. }
  unfold give_back, return_to, fast_schedule. do 3 (erewrite M_bind_run by reflexivity). cbn [ready set_rvs set_waiting].
  rewrite bool_decide_true by done. cbn [guard_ok]. rewrite M_bind_lift_Ok. eexists. split; [reflexivity|]. do 9 (split; [done|]).
  unfold places, hub_tasks. cbn [ready incoming waiting calls set_ready set_rvs set_waiting].
  rewrite (delete_keys _ _ Ht). solve_Permutation.
Qed.

Lemma give_back_all (f : nat -> value) ts : forall w,
  NoDup (places w) -> NoDup ts -> (forall t, t ∈ ts -> is_Some (waiting w !! t)) ->
  exists w', for_each ts (fun t => give_back t (f t)) w = (Ok tt, w') /\ ready w' = ready w ++ ts /\ incoming w' = incoming w /\
    (forall t, waiting w' !! t = if decide (t ∈ ts) then None else waiting w !! t) /\
    (forall t, rvs w' !! t = if decide (t ∈ ts) then Some (f t) else rvs w !! t) /\
    calls w' = calls w /\ rfs w' = rfs w /\ user w' = user w /\ hasQuit w' = hasQuit w /\ wakers w' = wakers w /\ places w' ≡ₚ places w.
Proof.
  induction ts as [|t ts IH]; intros w Hn Hnd Hw.
  { exists w. rewrite app_nil_r. split; [done|]. split; [done|]. split; [done|]. split; [intros t; by rewrite decide_False by set_solver|].
    split; [intros t; by rewrite decide_False by set_solver|]. by split_and!. }
  apply NoDup_cons in Hnd as [Ht Hnd]. cbn [for_each].
  destruct (give_back_effect t (f t) w Hn) as (w1 & E1 & Er & Ew & Ei & Ec & Ev & Ef & Eu & Eq & Ek & Hp); [apply Hw; by left|].
  destruct (IH w1) as (w2 & E2 & Er2 & Ei2 & Ew2 & Ev2 & Ec2 & Ef2 & Eu2 & Eq2 & Ek2 & Hp2); [by rewrite Hp|done| |].
  { intros t' Ht'. rewrite Ew, lookup_delete_ne by (intros ->; done). apply Hw. by right. }
  exists w2. split; [by rewrite (M_bind_run _ _ _ _ _ E1)|]. split; [rewrite Er2, Er; by rewrite <-app_assoc|]. split; [congruence|].
  split; [|split].
  - intros t'. rewrite Ew2, Ew. destruct (decide (t' ∈ ts)) as [Hin|Hin]; [by rewrite decide_True by by right|].
    destruct (decide (t' = t)) as [->|Hne]; [by rewrite lookup_delete_eq, decide_True by by left|].
    rewrite lookup_delete_ne, decide_False by done || set_solver. done.
  - intros t'. rewrite Ev2, Ev. destruct (decide (t' ∈ ts)) as [Hin|Hin]; [by rewrite decide_True by by right|].
    destruct (decide (t' = t)) as [->|Hne]; [by rewrite lookup_insert_eq, decide_True by by left|].
    rewrite lookup_insert_ne, decide_False by done || set_solver. done.
  - split_and!; try congruence. by rewrite Hp2.
Qed.

Lemma listed_keys w : (listed order w).*1 ≡ₚ (map_to_list (waiting w)).*1.
Proof.
  unfold listed. assert (H : forall ts, (forall t, t ∈ ts -> is_Some (waiting w !! t)) ->
    (omap (fun t => (fun q => (t, q)) <$> waiting w !! t) ts).*1 = ts).
  { induction ts as [|t ts IH]; intros Hts; [done|]. destruct (Hts t) as [q Eq]; [by left|]. cbn [omap list_omap]. rewrite Eq. cbn.
    f_equal. apply IH. intros t' Ht'. apply Hts. by right. }
  rewrite H; [apply Horder|]. intros t Ht. rewrite Horder in Ht. by apply elem_keys.
Qed.
Lemma listed_elem w t q : (t, q) ∈ listed order w <-> waiting w !! t = Some q.
Proof.
  unfold listed. rewrite list_elem_of_omap. split.
  - intros (t' & _ & E). destruct (waiting w !! t') as [q'|] eqn:Eq; [|done]. by injection E as <- <-.
  - intros E. exists t. rewrite E. split; [|done]. rewrite Horder. apply elem_keys. by eexists.
Qed.
Lemma listed_NoDup w : NoDup (listed order w).*1.
Proof. rewrite listed_keys. apply NoDup_fst_map_to_list. Qed.
Lemma for_each_fst {A B} (l : list (A * B)) (g : A -> M (world U) unit) : for_each l (fun p => g p.1) = for_each l.*1 g.
Proof. induction l as [|p l IH]; [done|]. cbn [for_each fmap list_fmap]. by rewrite IH. Qed.

(** The tasks that are due. *)
Definition due (now : Z) w : list nat := (filter (fun tq => is_due now tq.2 = true) (listed order w)).*1.
Lemma due_elem now w t : t ∈ due now w <-> exists q, waiting w !! t = Some q /\ is_due now q = true.
Proof.
  unfold due. rewrite list_elem_of_fmap. split.
  - intros ([t' q] & -> & [Hd Hq]%list_elem_of_filter). exists q. split; [by apply listed_elem|done].
  - intros (q & Eq & Hd). exists (t, q). split; [done|]. apply list_elem_of_filter. split; [done|]. by apply listed_elem.
Qed.
Lemma due_NoDup now w : NoDup (due now w).
Proof.
  unfold due. pose proof (listed_NoDup w) as H. induction (listed order w) as [|[t q] l IH]; [constructor|].
  rewrite filter_cons. apply NoDup_cons in H as [Ht H]. case_decide; [|by apply IH]. cbn [fmap list_fmap]. apply NoDup_cons. split; [|by apply IH].
  intros Hin. apply Ht. apply list_elem_of_fmap in Hin as (p & -> & [_ Hp]%list_elem_of_filter). apply list_elem_of_fmap. by exists p.
Qed.

Lemma hub_expire_effect now w :
  NoDup (places w) -> exists w', hub_expire order now w = (Ok tt, w') /\ ready w' = ready w ++ due now w /\ incoming w' = incoming w /\
    (forall t, waiting w' !! t = if decide (t ∈ due now w) then None else waiting w !! t) /\
    (forall t, rvs w' !! t = if decide (t ∈ due now w) then Some (VLists [] [] []) else rvs w !! t) /\
    calls w' = calls w /\ rfs w' = rfs w /\ user w' = user w /\ hasQuit w' = hasQuit w /\ wakers w' = wakers w /\ places w' ≡ₚ places w.
Proof.
  intros Hn. unfold hub_expire. erewrite M_bind_run by reflexivity. rewrite (for_each_fst _ (fun t => give_back t (VLists [] [] []))).
  apply (give_back_all (fun _ => VLists [] [] [])); [done|apply due_NoDup|]. intros t (q & Eq & _)%due_elem. by eexists.
Qed.

Lemma take_incoming_effect l : forall w, NoDup (ready w ++ (l.*1 ++ (map_to_list (waiting w)).*1) ++ calls w) -> incoming w = [] ->
  exists w', take_incoming l w = (Ok tt, w') /\ ready w' = ready w /\ incoming w' = [] /\ calls w' = calls w /\ rvs w' = rvs w /\ rfs w' = rfs w /\
    user w' = user w /\ hasQuit w' = hasQuit w /\ wakers w' = wakers w /\
    (forall t, is_Some (waiting w !! t) -> waiting w' !! t = waiting w !! t) /\ (forall t q, (t, q) ∈ l -> waiting w' !! t = Some q) /\
    places w' ≡ₚ ready w ++ (l.*1 ++ (map_to_list (waiting w)).*1) ++ calls w.
Proof.
  induction l as [|[t q] l IH]; intros w Hn Hi.
  { exists w. split; [done|]. do 8 (split; [done|]). split; [done|]. split; [by intros t q ?%elem_of_nil|]. unfold places, hub_tasks. by rewrite Hi. }
  assert (Ht : waiting w !! t = None).
  { apply eq_None_not_Some. intros Hs. apply NoDup_app in Hn as (_ & _ & Hn). apply NoDup_app in Hn as (Hn & _ & _).
    cbn [fmap list_fmap] in Hn. apply NoDup_app in Hn as (_ & Hd & _). apply (Hd t); [by left|]. by apply elem_keys. }
  cbn [take_incoming]. erewrite M_bind_run by reflexivity. rewrite Ht, bool_decide_true by done. cbn [guard_ok]. rewrite M_bind_lift_Ok.
  erewrite M_bind_run by reflexivity.
  assert (Hp : ready w ++ (l.*1 ++ (map_to_list (<[t := q]> (waiting w))).*1) ++ calls w ≡ₚ
    ready w ++ (((t, q) :: l).*1 ++ (map_to_list (waiting w)).*1) ++ calls w).
  { rewrite insert_keys by done. cbn [fmap list_fmap fst]. solve_Permutation. }
  destruct (IH (set_waiting (<[t := q]> (waiting w)) w)) as (w' & E & E1 & E2 & E3 & E4 & E5 & E6 & E7 & E8 & E9 & E10 & E11); [by cbn; rewrite Hp|done|].
  exists w'. split; [exact E|]. do 8 (split; [done|]). split; [|split].
  - intros t' Hs. destruct (decide (t = t')) as [<-|Hne]; [by destruct Hs as [? Hs]; rewrite Hs in Ht|].
    rewrite E9; [by apply lookup_insert_ne|]. cbn. by rewrite lookup_insert_ne.
  - intros t' q' [[= <- <-]|Hin]%elem_of_cons; [|by apply E10]. rewrite E9; [apply lookup_insert_eq|]. cbn. rewrite lookup_insert_eq. by eexists.
  - rewrite E11. cbn. exact Hp.
Qed.

(** The owner of a file is a task that waits. *)
Lemma files_owner sel ts fd t : files sel ts !! fd = Some t -> t ∈ ts.*1.
Proof.
  unfold files. assert (H : forall m : gmap nat nat, fold_left (fun m tq => fold_left (fun m fd => <[fd := tq.1]> m) (sel tq.2) m) ts m !! fd = Some t ->
    m !! fd = Some t \/ t ∈ ts.*1).
  { induction ts as [|[t' q] ts IH]; intros m Hm; [by left|]. cbn [fold_left fst snd] in Hm. destruct (IH _ Hm) as [Hf|Hin]; [|right; by right].
    assert (Hin : forall fds (m : gmap nat nat), fold_left (fun m fd => <[fd := t']> m) fds m !! fd = Some t -> m !! fd = Some t \/ t = t').
    { clear. induction fds as [|f fds IH]; intros m Hm; [by left|]. destruct (IH _ Hm) as [Hf|]; [|by right].
      destruct (decide (f = fd)) as [->|]; [rewrite lookup_insert_eq in Hf; right; congruence|rewrite lookup_insert_ne in Hf by done; by left]. }
    destruct (Hin _ _ Hf) as [?| ->]; [by left|right; by left]. }
  intros E. apply H in E as [E|E]; [by rewrite lookup_empty in E|done].
Qed.

Lemma next_timeout_elem ts b t z : next_timeout ts b = Some (t, z) -> b = Some (t, z) \/ exists q, (t, q) ∈ ts /\ rq_timeout q = Some z.
Proof.
  revert b. induction ts as [|[t' q] ts IH]; intros b E; [by left|]. cbn [next_timeout] in E. apply IH in E as [E|(q' & Hq & Ez)].
  - destruct (rq_timeout q) as [z'|] eqn:Eq; [|by left]. destruct b as [[tb zb]|].
    + destruct (z' <? zb); [|by left]. injection E as <- <-. right. exists q. split; [by left|done].
    + injection E as <- <-. right. exists q. split; [by left|done].
  - right. exists q'. split; [by right|done].
Qed.

Context (shuffle : list nat -> list nat) (Hshuffle : forall l, shuffle l ≡ₚ l).

Lemma hub_select_places pinged ro wo xo w :
  NoDup (places w) -> exists w', hub_select order shuffle pinged ro wo xo w = (Ok tt, w') /\ places w' ≡ₚ places w /\ user w' = user w /\
    wakers w' = wakers w.
Proof.
  intros Hn. unfold hub_select. erewrite M_bind_run by reflexivity. cbv zeta. set (l := listed order w).
  assert (Hother : exists w', (_ ← (if pinged then i ← get incoming; _ ← modify (set_incoming []); take_incoming i else mret tt);
      for_each (shuffle (remove_dups (omap (fun fd => files rq_r l !! fd) ro ++ omap (fun fd => files rq_w l !! fd) wo ++ omap (fun fd => files rq_x l !! fd) xo)))
        (fun t => give_back t (VLists (for_task (files rq_r l) ro t) (for_task (files rq_w l) wo t) (for_task (files rq_x l) xo t)))) w = (Ok tt, w') /\
    places w' ≡ₚ places w /\ user w' = user w /\ wakers w' = wakers w).
  { assert (H1 : exists w1, (if pinged then i ← get incoming; _ ← modify (set_incoming []); take_incoming i else mret tt) w = (Ok tt, w1) /\
      places w1 ≡ₚ places w /\ user w1 = user w /\ wakers w1 = wakers w /\ forall t, is_Some (waiting w !! t) -> waiting w1 !! t = waiting w !! t).
    { destruct pinged; [|by exists w]. do 2 (erewrite M_bind_run by reflexivity).
      destruct (take_incoming_effect (incoming w) (set_incoming [] w) Hn eq_refl) as (w1 & E & _ & _ & _ & _ & _ & Eu & _ & Ek & Ew & _ & Hp).
      exists w1. by split_and!. }
    destruct H1 as (w1 & E1 & Hp1 & Eu1 & Ek1 & Hw1). erewrite M_bind_run by exact E1. set (owners := shuffle _).
    destruct (give_back_all (fun t => VLists (for_task (files rq_r l) ro t) (for_task (files rq_w l) wo t) (for_task (files rq_x l) xo t)) owners w1)
      as (w2 & E2 & _ & _ & _ & _ & _ & _ & Eu2 & _ & Ek2 & Hp2).
    - by rewrite Hp1.
    - unfold owners. rewrite Hshuffle. apply NoDup_remove_dups.
    - intros t Ht. unfold owners in Ht. rewrite Hshuffle, elem_of_remove_dups in Ht.
      assert (Hl : t ∈ l.*1).
      { rewrite !elem_of_app, !list_elem_of_omap in Ht. destruct Ht as [(fd & _ & E)|[(fd & _ & E)|(fd & _ & E)]]; by apply files_owner in E. }
      unfold l in Hl. rewrite listed_keys in Hl. apply elem_keys in Hl. rewrite Hw1 by done. done.
    - exists w2. split; [exact E2|]. split; [by rewrite Hp2, Hp1|]. split; congruence. }
  assert (Hgive : forall t z, next_timeout l None = Some (t, z) -> exists w', give_back t (VLists [] [] []) w = (Ok tt, w') /\ places w' ≡ₚ places w /\ user w' = user w /\ wakers w' = wakers w).
  { intros t z E. apply next_timeout_elem in E as [|(q & Hq & _)]; [done|]. apply listed_elem in Hq.
    destruct (give_back_effect t (VLists [] [] []) w Hn) as (w' & E' & _ & _ & _ & _ & _ & _ & Eu & _ & Ek & Hp); [by eexists|]. by exists w'. }
  destruct pinged; [exact Hother|]. destruct ro; [|exact Hother]. destruct wo; [|exact Hother]. destruct xo; [|exact Hother].
  destruct (next_timeout l None) as [[t z]|] eqn:E; [by eapply Hgive|exact Hother].
Qed.

Context (resume : nat -> value -> M (world U) outcome) (recv : nat -> world U -> option bytes).
Context (Hresume : forall t v w, exists r u, resume t v w = (r, set_user u w)).

Definition same_places w w' : Prop :=
  ready w' = ready w /\ incoming w' = incoming w /\ waiting w' = waiting w /\ calls w' = calls w /\ wakers w' = wakers w.
Lemma same_places_eq w w' : same_places w w' -> places w' = places w.
Proof. intros (E1 & E2 & E3 & E4 & _). unfold places, hub_tasks. by rewrite E1, E2, E3, E4. Qed.

Lemma resume_same t v w : wakers w = ∅ -> exists r w', resume_task resume t v w = (r, w') /\ same_places w w'.
Proof.
  intros Ew. unfold resume_task. erewrite M_bind_run by reflexivity. rewrite Ew, lookup_empty.
  destruct (Hresume t v w) as (r & u & E). rewrite E. do 2 eexists. split; [done|]. done.
Qed.

(** A task that is resumed, or waits on because its function says so. *)
Lemma execute_effect t w : wakers w = ∅ ->
  exists r w', execute resume recv t w = (r, w') /\ wakers w' = ∅ /\
    (same_places w w' \/ (r = Ok (Yields YFalse) /\ places w' ≡ₚ t :: places w)).
Proof.
  intros Ew. unfold execute. erewrite M_bind_run by reflexivity. destruct (rfs w !! t) as [f|].
  2:{ do 2 (erewrite M_bind_run by reflexivity). destruct (resume_same t (rv_of t w) (set_rvs (delete t (rvs w)) w) Ew) as (r & w' & E & Hs).
      exists r, w'. split; [exact E|]. split; [destruct Hs as (_ & _ & _ & _ & Hk); by rewrite Hk|]. by left. }
  unfold call_rf. rewrite M_bind_unfold. erewrite (M_bind_run (get (rv_of t))) by reflexivity.
  destruct (rv_of t w) as [|r wl x| | |]; try (do 2 eexists; split; [reflexivity|]; split; [done|by left]).
  assert (Hgo : forall o w1, same_places w w1 -> exists r' w', (_ ← modify (fun w => set_rvs (delete t (rvs w)) (set_rfs (delete t (rfs w)) w));
      match Some o with None => mret (Yields YFalse) | Some v => resume_task resume t v end) w1 = (r', w') /\ wakers w' = ∅ /\ same_places w w').
  { intros o w1 Hs. erewrite M_bind_run by reflexivity.
    destruct (resume_same t o (set_rvs (delete t (rvs w1)) (set_rfs (delete t (rfs w1)) w1))) as (r' & w' & E & Hs').
    - destruct Hs as (_ & _ & _ & _ & Hk). cbn. by rewrite Hk.
    - exists r', w'. split; [exact E|]. destruct Hs as (E1 & E2 & E3 & E4 & E5), Hs' as (F1 & F2 & F3 & F4 & F5). cbn in *.
      split; [congruence|]. split_and!; congruence. }
  assert (Hsame : same_places w w) by by split_and!.
  assert (Hleft : forall o, exists r' w', (_ ← modify (fun w => set_rvs (delete t (rvs w)) (set_rfs (delete t (rfs w)) w));
      match Some o with None => mret (Yields YFalse) | Some v => resume_task resume t v end) w = (r', w') /\ wakers w' = ∅ /\
    (same_places w w' \/ (r' = Ok (Yields YFalse) /\ places w' ≡ₚ t :: places w))).
  { intros o. destruct (Hgo o w Hsame) as (r' & w' & E & Hk & Hs). exists r', w'. split; [exact E|]. split; [done|by left]. }
  destruct f as [fd|fd data sent].
  - destruct x as [|x0 x]; [destruct r as [|sock r]|]; cbv beta iota; try apply Hleft.
  - destruct x as [|x0 x]; [|cbv beta iota; apply Hleft].
    do 2 eexists. split; [reflexivity|]. split; [done|]. right. split; [done|]. unfold places, hub_tasks. cbn. rewrite fmap_app. cbn. solve_Permutation.
Qed.

Lemma execute_op_effect now o t w : t ∉ places w -> wakers w = ∅ ->
  exists r w', execute_op now o t w = (r, w') /\ wakers w' = ∅ /\ (places w' ≡ₚ places w \/ places w' ≡ₚ t :: places w).
Proof.
  intros Ht Hk. assert (Hreq : forall (w0 : world U) q, same_places w w0 -> places (set_incoming (incoming w0 ++ [(t, q)]) w0) ≡ₚ t :: places w).
  { intros w0 q Hs. rewrite <-(same_places_eq _ _ Hs). unfold places, hub_tasks. cbn. rewrite fmap_app. cbn. solve_Permutation. }
  assert (Hsame : same_places w w) by by split_and!.
  destruct o as [|z|r wl x timeout|fd timeout|fd data|]; cbn [execute_op].
  - do 2 eexists. split; [reflexivity|]. split; [done|]. by left.
  - destruct z as [z|]; [|do 2 eexists; split; [reflexivity|]; split; [done|]; by left].
    destruct (_ || _).
    + unfold fast_schedule. erewrite M_bind_run by reflexivity. rewrite bool_decide_true by (intros Hr; apply Ht, elem_of_app; by left).
      cbn [guard_ok]. rewrite M_bind_lift_Ok. do 2 eexists. split; [reflexivity|]. split; [done|]. right. unfold places, hub_tasks. cbn. solve_Permutation.
    + do 2 eexists. split; [reflexivity|]. split; [done|]. right. by apply Hreq.
  - do 2 eexists. split; [reflexivity|]. split; [done|]. right. by apply Hreq.
  - do 2 eexists. split; [reflexivity|]. split; [done|]. right. by apply (Hreq (set_rfs _ w)).
  - do 2 eexists. split; [reflexivity|]. split; [done|]. right. by apply (Hreq (set_rfs _ w)).
  - do 2 eexists. split; [reflexivity|]. split; [done|]. right. unfold places, hub_tasks. cbn. solve_Permutation.
Qed.

(** A cycle: the first task goes on somewhere, or is gone. *)
Lemma cycle_places now w : NoDup (places w) -> wakers w = ∅ ->
  exists r w', cycle resume recv now w = (r, w') /\ wakers w' = ∅ /\
    (places w' ≡ₚ places w \/ exists t, places w ≡ₚ t :: places w').
Proof.
  intros Hn Hk. unfold cycle. erewrite M_bind_run by reflexivity. destruct (ready w) as [|t rest] eqn:Er.
  { do 2 eexists. split; [reflexivity|]. split; [done|]. by left. }
  erewrite M_bind_run by reflexivity. set (w1 := set_ready rest w).
  assert (Hp : places w = t :: places w1) by (unfold places, hub_tasks; rewrite Er; done).
  rewrite Hp in Hn. apply NoDup_cons in Hn as [Ht Hn].
  destruct (execute_effect t w1 Hk) as (r & w2 & E & Hk2 & Hs).
  assert (Hgone : forall w', places w' ≡ₚ places w1 -> places w' ≡ₚ places w \/ exists t, places w ≡ₚ t :: places w').
  { intros w' Hp'. right. exists t. by rewrite Hp, Hp'. }
  assert (Hkept : forall w', places w' ≡ₚ t :: places w1 -> places w' ≡ₚ places w \/ exists t, places w ≡ₚ t :: places w').
  { intros w' Hp'. left. by rewrite Hp, Hp'. }
  destruct Hs as [Hs|[-> Hs]].
  2:{ erewrite M_bind_run by (unfold caught; rewrite E; reflexivity). do 2 eexists. split; [reflexivity|]. split; [done|]. by apply Hkept. }
  pose proof (same_places_eq _ _ Hs) as Ep.
  erewrite (M_bind_run (caught _) _ _ (match r with Ok o => o | Err _ => Raises end) w2) by (unfold caught; rewrite E; by destruct r).
  assert (Hstop : places w2 ≡ₚ places w \/ exists t, places w ≡ₚ t :: places w2) by (apply Hgone; by rewrite Ep).
  destruct r as [[y| |]|e]; try (do 2 eexists; split; [reflexivity|]; by split).
  destruct y as [o| |n| |]; try (do 2 eexists; split; [reflexivity|]; by split).
  - destruct (execute_op_effect now o t w2) as (r & w3 & E3 & Hk3 & Hp3); [by rewrite Ep|done|].
    exists (Ok true), w3. split; [|split; [done|]].
    + unfold caught. rewrite !M_bind_unfold, E3. by destruct r as [[]|].
    + destruct Hp3 as [Hp3|Hp3]; [apply Hgone|apply Hkept]; by rewrite Hp3, Ep.
  - destruct (n =? 0); (do 2 eexists; split; [reflexivity|]; split; [done|]; apply Hkept; rewrite <-Ep; unfold places, hub_tasks; cbn;
      rewrite ?fmap_app; cbn; solve_Permutation).
Qed.

Lemma call_done_places t v w : NoDup (places w) -> t ∈ calls w ->
  exists w', call_done t v w = (Ok tt, w') /\ places w' ≡ₚ places w /\ wakers w' = wakers w.
Proof.
  intros Hn Ht. assert (Hr : t ∉ ready w).
  { intros Hin. apply NoDup_app in Hn as (_ & Hd & _). apply (Hd t Hin). apply elem_of_app. by right. }
  unfold call_done, return_to, fast_schedule. do 3 (erewrite M_bind_run by reflexivity). cbn [ready set_rvs set_calls].
  rewrite bool_decide_true by done. cbn [guard_ok]. rewrite M_bind_lift_Ok. eexists. split; [reflexivity|]. split; [|done].
  assert (Hc : calls w ≡ₚ t :: filter (fun t' => t' <> t) (calls w)).
  { apply NoDup_app in Hn as (_ & _ & Hn). apply NoDup_app in Hn as (_ & _ & Hn). clear -Hn Ht.
    induction Hn as [|x l Hx Hn IH]; [by apply elem_of_nil in Ht|]. rewrite filter_cons. apply elem_of_cons in Ht as [->|Ht].
    - rewrite decide_False by tauto. f_equiv. clear -Hx. induction l as [|y l IH]; [done|]. rewrite filter_cons, decide_True by set_solver.
      f_equiv. apply IH. set_solver.
    - rewrite decide_True by (intros ->; done). rewrite (IH Ht) at 1. solve_Permutation. }
  unfold places, hub_tasks. cbn. rewrite Hc at 2. solve_Permutation.
Qed.
End places.

(** ** Properties *)

(** The steps of the two threads, and of threads that end. *)
Inductive sched_step {U} (resume : nat -> value -> M (world U) outcome) (recv : nat -> world U -> option bytes)
    (order : gmap nat request -> list nat) (shuffle : list nat -> list nat) (w : world U) : world U -> Prop :=
  | cycle_step now : sched_step resume recv order shuffle w (snd (cycle resume recv now w))
  | expire_step now : sched_step resume recv order shuffle w (snd (hub_expire order now w))
  | select_step pinged ro wo xo : sched_step resume recv order shuffle w (snd (hub_select order shuffle pinged ro wo xo w))
  | done_step t v : t ∈ calls w -> sched_step resume recv order shuffle w (snd (call_done t v w)).


(** Sleeping.  A round of the hub gives back exactly the tasks whose time has
    come, in the order in which they are listed and behind the tasks in the
    queue; a task whose time has not come, or that has none, stays. *)
Theorem sleepers_wake {U} (order : gmap nat request -> list nat) (now : Z) (w : world U) :
  (forall m, order m ≡ₚ (map_to_list m).*1) -> NoDup (places w) ->
  exists w' ts, hub_expire order now w = (Ok tt, w') /\ ready w' = ready w ++ ts /\ NoDup ts /\
    (forall t, t ∈ ts <-> exists q z, waiting w !! t = Some q /\ rq_timeout q = Some z /\ z <= now) /\
    (forall t, t ∈ ts -> waiting w' !! t = None /\ rv_of t w' = VLists [] [] []) /\
    (forall t, t ∉ ts -> waiting w' !! t = waiting w !! t).
Proof.
  intros Ho Hn. destruct (hub_expire_effect order Ho now w Hn) as (w' & E & Er & _ & Ew & Ev & _). exists w', (due order now w).
  split; [done|]. split; [done|]. split; [by apply due_NoDup|]. split; [|split].
  - intros t. rewrite (due_elem order Ho). unfold is_due. split.
    + intros (q & Eq & Hd). destruct (rq_timeout q) as [z|] eqn:Ez; [|done]. exists q, z. split; [done|]. split; [done|]. by apply Z.leb_le.
    + intros (q & z & Eq & Ez & Hz). exists q. split; [done|]. rewrite Ez. by apply Z.leb_le.
  - intros t Ht. unfold rv_of. by rewrite Ew, Ev, !decide_True.
  - intros t Ht. by rewrite Ew, decide_False.
Qed.

(** A task that yields nothing ends the scheduler, where one that raises only
    ends itself: the exception leaves [cycle] and [run], and what is in the queue
    never runs again.  (The generator of a [Task] with a target does yield
    nothing.) *)
Theorem none_ends_scheduler {U} (resume : nat -> value -> M (world U) outcome) (recv : nat -> world U -> option bytes)
    (n m : nat) (clock : nat -> Z) (t : nat) (rest : list nat) (w w1 : world U) :
  ready w = t :: rest -> hasQuit w = false -> wakers w = ∅ -> rfs w !! t = None ->
  resume t (rv_of t w) (set_rvs (delete t (rvs w)) (set_ready rest w)) = (Ok (Yields YNone), w1) ->
  run resume recv (S n) clock w = (Err RuntimeError, set_hasQuit true w1) /\
  run resume recv m clock (set_hasQuit true w1) = (Ok tt, set_hasQuit true w1).
Proof.
  intros Er Hq Hk Hf Hres. split; [|by destruct m].
  cbn [run]. rewrite Hq. unfold cycle. erewrite M_bind_run by reflexivity. rewrite Er. erewrite M_bind_run by reflexivity.
  assert (E : execute resume recv t (set_ready rest w) = (Ok (Yields YNone), w1)).
  { unfold execute. erewrite M_bind_run by reflexivity. cbn [rfs set_ready]. rewrite Hf. do 2 (erewrite M_bind_run by reflexivity).
    unfold resume_task. erewrite M_bind_run by reflexivity. cbn [wakers set_rvs set_ready]. rewrite Hk, lookup_empty. exact Hres. }
  erewrite M_bind_run by (unfold caught; rewrite E; reflexivity). done.
Qed.

(** Generators that note that they ran. *)
Definition noting (o : nat -> value -> outcome) (t : nat) (v : value) : M (world (list nat)) outcome :=
  fun w => (Ok (o t v), set_user (user w ++ [t]) w).
Definition quiet (o : outcome) : Prop := o <> Yields YNone /\ o <> Yields (YOp Exit).

(** What a turn leaves to the other tasks. *)
Definition turned {U} (t : nat) (w w' : world U) : Prop :=
  (exists more, ready w' = ready w ++ more) /\ user w' = user w /\ wakers w' = wakers w /\ hasQuit w' = hasQuit w /\
  forall t', t' <> t -> rfs w' !! t' = rfs w !! t' /\ rv_of t' w' = rv_of t' w.

Lemma op_turned {U} now o t (w : world U) : o <> Exit -> turned t w (snd (execute_op now o t w)).
Proof.
  intros Hx. assert (Hsame : forall l, turned t w (set_incoming l w)) by (intros l; split; [exists []; by rewrite app_nil_r|done]).
  assert (Hrf : forall l f, turned t w (set_incoming l (set_rfs (<[t := f]> (rfs w)) w))).
  { intros l f. split; [exists []; by rewrite app_nil_r|]. do 3 (split; [done|]). intros t' Hne. split; [|done]. cbn. by rewrite lookup_insert_ne. }
  destruct o as [|z|r wl x timeout|fd timeout|fd data|]; cbn [execute_op]; try done; try apply Hsame; try apply (Hrf _ _).
  - destruct z as [z|]; [|apply (Hsame (incoming w))]. destruct (_ || _); [|apply Hsame]. unfold fast_schedule. rewrite M_bind_unfold. cbn [get].
    case_bool_decide; cbn [guard_ok]; [|split; [exists []; by rewrite app_nil_r|done]]. rewrite M_bind_lift_Ok. split; [by exists [t]|done].
  - split; [exists []; by rewrite app_nil_r|done].
Qed.

Lemma cycle_turn (o : nat -> value -> outcome) recv now t rest (w : world (list nat)) :
  ready w = t :: rest -> wakers w = ∅ -> rfs w !! t = None -> quiet (o t (rv_of t w)) ->
  exists w', cycle (noting o) recv now w = (Ok true, w') /\
    turned t (set_user (user w ++ [t]) (set_ready rest w)) w'.
Proof.
  intros Er Hk Hf [Hq1 Hq2]. set (w2 := set_user (user w ++ [t]) (set_rvs (delete t (rvs w)) (set_ready rest w))).
  assert (E : execute (noting o) recv t (set_ready rest w) = (Ok (o t (rv_of t w)), w2)).
  { unfold execute. erewrite M_bind_run by reflexivity. cbn [rfs set_ready]. rewrite Hf. do 2 (erewrite M_bind_run by reflexivity).
    unfold resume_task. erewrite M_bind_run by reflexivity. cbn [wakers set_rvs set_ready]. by rewrite Hk, lookup_empty. }
  assert (Hrv : forall t', t' <> t -> rv_of t' w2 = rv_of t' w) by (intros t' Hne; unfold rv_of; cbn; by rewrite lookup_delete_ne).
  assert (Hw2 : forall w3, turned t w2 w3 -> turned t (set_user (user w ++ [t]) (set_ready rest w)) w3).
  { intros w3 (Hm & Hu & Hw & Hh & Ho). split; [exact Hm|]. do 3 (split; [done|]). intros t' Hne. destruct (Ho t' Hne) as [-> ->].
    split; [done|]. by apply Hrv. }
  assert (Hstay : turned t w2 w2) by (split; [exists []; by rewrite app_nil_r|done]).
  unfold cycle. erewrite M_bind_run by reflexivity. rewrite Er. erewrite M_bind_run by reflexivity.
  erewrite (M_bind_run (caught _) _ _ (o t (rv_of t w)) w2) by (unfold caught; by rewrite E).
  destruct (o t (rv_of t w)) as [y| |] eqn:Eo; try (eexists; split; [reflexivity|by apply Hw2]).
  destruct y as [op| |n| |]; try (eexists; split; [reflexivity|by apply Hw2]); [| |done].
  - pose proof (op_turned now op t w2 ltac:(by intros ->)) as Hop. destruct (execute_op now op t w2) as [r w3] eqn:E3. cbn [snd] in Hop.
    exists w3. split; [|by apply Hw2]. unfold caught. rewrite !M_bind_unfold, E3. by destruct r as [[]|].
  - destruct (n =? 0); (eexists; split; [erewrite M_bind_run by reflexivity; reflexivity|]; apply Hw2).
    + split; [by exists [t]|done].
    + split; [exists []; by rewrite app_nil_r|done].
Qed.


(** [Send] sends nothing.  When the file can be written to, the return function
    calls [send] of the list of files, hides the exception and waits again; as it
    is forgotten meanwhile, the next time the task gets the lists of [select]
    instead of the number of bytes, and nothing has been written. *)
Theorem send_gives_lists {U} (resume : nat -> value -> M (world U) outcome) (recv : nat -> world U -> option bytes) (now now2 : Z)
    (t fd : nat) (data : bytes) (rest rest2 : list nat) (wl2 : list nat) (w w2 : world U) :
  wakers w = ∅ -> ready w = t :: rest -> rfs w !! t = Some (SendFunc fd data 0) -> rv_of t w = VLists [] [fd] [] ->
  exists w1, cycle resume recv now w = (Ok true, w1) /\ user w1 = user w /\ rfs w1 !! t = None /\
    incoming w1 = incoming w ++ [(t, mk_request [] [fd] [fd] None)] /\
    (ready w2 = t :: rest2 -> wakers w2 = ∅ -> rfs w2 !! t = rfs w1 !! t -> rv_of t w2 = VLists [] wl2 [] ->
     execute resume recv t (set_ready rest2 w2) = resume t (VLists [] wl2 []) (set_rvs (delete t (rvs w2)) (set_ready rest2 w2))).
Proof.
  intros Hk Er Hf Hv. unfold cycle. erewrite M_bind_run by reflexivity. rewrite Er. erewrite M_bind_run by reflexivity.
  set (w0 := set_ready rest w).
  assert (E : exists w1, execute resume recv t w0 = (Ok (Yields YFalse), w1) /\ user w1 = user w /\ rfs w1 !! t = None /\
    incoming w1 = incoming w ++ [(t, mk_request [] [fd] [fd] None)]).
  { unfold execute. erewrite M_bind_run by reflexivity. cbn [rfs w0 set_ready]. rewrite Hf. unfold call_rf. rewrite M_bind_unfold.
    erewrite (M_bind_run (get _)) by reflexivity. change (rv_of t w0) with (rv_of t w). rewrite Hv.
    eexists. split; [reflexivity|]. split; [done|]. split; [|done]. cbn. apply lookup_delete_eq. }
  destruct E as (w1 & E & Hu & Hf1 & Hi). exists w1. split; [erewrite M_bind_run by (unfold caught; by rewrite E); done|].
  split; [done|]. split; [done|]. split; [done|]. intros Er2 Hk2 Hf2 Hv2.
  unfold execute. erewrite M_bind_run by reflexivity. cbn [rfs set_ready]. rewrite Hf2, Hf1. do 2 (erewrite M_bind_run by reflexivity).
  change (rv_of t (set_ready rest2 w2)) with (rv_of t w2). rewrite Hv2. unfold resume_task. erewrite M_bind_run by reflexivity.
  cbn [wakers set_rvs set_ready]. by rewrite Hk2, lookup_empty.
Qed.

(** Resumed no earlier than asked for. *)
Fixpoint in_time (callback : timer -> result bool * timer) (ns : list Z) (tm : timer) : Prop :=
  match ns with
  | [] => True
  | now :: ns =>
      (tm_begun tm = true -> tm_next tm <= now) /\
      match timer_resume callback now tm with (Yields (YOp _), tm) => in_time callback ns tm | _ => True end
  end.
Definition polite (callback : timer -> result bool * timer) : Prop :=
  forall tm, let tm' := snd (callback tm) in tm' = tm \/ tm' = cancel tm.


(** ** Examples *)

Definition list_order (m : gmap nat request) : list nat := (map_to_list m).*1.
Definition no_shuffle (l : list nat) : list nat := l.
Definition no_data (fd : nat) (w : world (list nat)) : option bytes := None.
(** Task 1 sleeps until 5, task 2 is at its turn, task 3 ends. *)
Definition example_program (t : nat) (v : value) : outcome :=
  if (t =? 1)%nat then Yields (YOp (Sleep (Some 5))) else if (t =? 2)%nat then Yields (YNumber 0) else Stops.
Definition example_start : world (list nat) := mk_world [1; 2; 3]%nat false [] ∅ [] ∅ ∅ ∅ 3 [].
Definition example_asleep : world (list nat) :=
  mk_world [3]%nat false [] {[1%nat := mk_request [] [] [] (Some 5); 2%nat := mk_request [] [] [] (Some 9)]} [] ∅ ∅ ∅ 3 [].


Lemma sleepers_wake_witness :
  exists w' ts, hub_expire list_order 7 example_asleep = (Ok tt, w') /\ ready w' = 3%nat :: ts /\ 1%nat ∈ ts /\
    waiting w' !! 2%nat = Some (mk_request [] [] [] (Some 9)).
Proof.
  destruct (sleepers_wake list_order 7 example_asleep) as (w' & ts & E & Er & _ & Hts & _ & Hw); [done|by apply (bool_decide_unpack _)|].
  exists w', ts. split; [done|]. split; [done|]. split.
  - apply Hts. exists (mk_request [] [] [] (Some 5)), 5. split; [by vm_compute|]. split; [done|lia].
  - rewrite Hw; [by vm_compute|]. intros (q & z & Eq & Ez & Hz)%Hts.
    assert (Some q = Some (mk_request [] [] [] (Some 9))) as [= ->] by (rewrite <-Eq; by vm_compute). cbn in Ez. injection Ez as <-. lia.
Defined.

Lemma none_ends_scheduler_witness :
  let w := mk_world [1; 2]%nat false [] ∅ [] ∅ ∅ ∅ 2 [] in
  exists w', run (noting (fun _ _ => Yields YNone)) no_data 2 (fun _ => 0) w = (Err RuntimeError, w') /\ user w' = [1%nat] /\ ready w' = [2%nat] /\
    run (noting (fun _ _ => Yields YNone)) no_data 9 (fun _ => 0) w' = (Ok tt, w').
Proof.
  intros w.
  destruct (none_ends_scheduler (noting (fun _ _ => Yields YNone)) no_data 1 9 (fun _ => 0) 1 [2%nat] w
    (snd (noting (fun _ _ => Yields YNone) 1 VNone (set_rvs (delete 1%nat (rvs w)) (set_ready [2%nat] w))))) as [E1 E2]; try reflexivity.
  eexists. split; [exact E1|]. split; [reflexivity|]. split; [reflexivity|exact E2].
Defined.


Lemma send_gives_lists_witness :
  let w := mk_world [1%nat] false [] ∅ [] {[1%nat := VLists [] [4%nat] []]} {[1%nat := SendFunc 4 (str "hello") 0]} ∅ 1 [] in
  exists w1, cycle (noting example_program) no_data 0 w = (Ok true, w1) /\ user w1 = [] /\ incoming w1 = [(1%nat, mk_request [] [4%nat] [4%nat] None)].
Proof.
  intros w. destruct (send_gives_lists (noting example_program) no_data 0 0 1 4 (str "hello") [] [] [] w w) as (w1 & E & Eu & _ & Ei & _); try reflexivity.
  exists w1. by split_and!.
Defined.

Definition keep_going (tm : timer) : result bool * timer := (Ok false, tm).
