(* ===== verification/Codec.v ===== *)
(** * The wire-structure interface

    Every structure of [libopenflow_01.py] has the same four methods: [pack],
    [unpack], [__len__] and [__eq__].  [WireStruct] is that interface, and
    [WireLaws] what a structure promises to the code that embeds it: a
    well-formed value packs to [len] bytes, and unpacking those bytes, in front
    of anything, gives an equal value and leaves the rest.  Theorems about
    lists of structures are proved against the interface. *)

From S2P Require Import Prelude PyStruct.

(** [ws_pack] returns [None] where the method does (a failed [_assert]);
    [ws_after] is the object once [pack] has been called on it; [ws_fresh a0 a]
    says that [a] may be unpacked into the object [a0] (for a union: that they
    are of the same class). *)
Class WireStruct (A : Type) := {
  ws_pack : A -> bool -> result (option bytes);
  ws_after : A -> A;
  ws_unpack : A -> bytes -> result (A * bytes);
  ws_len : A -> Z;
  ws_eq : A -> A -> bool;
  ws_wf : A -> Prop;
  ws_fresh : A -> A -> Prop
}.

Class WireLaws (A : Type) {W : WireStruct A} := {
  ws_law : forall a, ws_wf a -> exists bs,
    ws_pack a true = Ok (Some bs) /\ blen bs = ws_len a /\
    forall a0 r, ws_fresh a0 a ->
      exists a', ws_unpack a0 (bs ++ r) = Ok (a', r) /\ ws_eq a' (ws_after a) = true
}.

(** [packed += x] where [x] may be [None]. *)
Definition concat_pack (o : option bytes) : result bytes := need TypeError o.

(** [for i in l: packed += i.pack(assertstruct)]. *)
Fixpoint pack_all {A} `{WireStruct A} (l : list A) (assertstruct : bool) : result bytes :=
  match l with
  | [] => mret []
  | a :: l' =>
      o ← ws_pack a assertstruct; h ← concat_pack o;
      t ← pack_all l' assertstruct; mret (h ++ t)
  end.

(** [for i in l: n += len(i)]. *)
Definition len_all {A} `{WireStruct A} (l : list A) : Z := foldr (fun a n => ws_len a + n) 0 l.

(** Python's [==] on lists of structures. *)
Fixpoint eq_all {A} `{WireStruct A} (l l' : list A) : bool :=
  match l, l' with
  | [], [] => true
  | a :: l, b :: l' => ws_eq a b && eq_all l l'
  | _, _ => false
  end.

(** Reading [n] structures one after the other from fresh objects. *)
Fixpoint unpack_n {A} `{WireStruct A} (init : A) (n : nat) (b : bytes) : result (list A * bytes) :=
  match n with
  | O => mret ([], b)
  | S n' => '(a, b) ← ws_unpack init b; '(l, b) ← unpack_n init n' b; mret (a :: l, b)
  end.

Section laws.
Context {A : Type} `{HL : WireLaws A}.

Lemma pack_all_ok (l : list A) :
  Forall ws_wf l -> exists bs, pack_all l true = Ok bs /\ blen bs = len_all l.
Proof.
  induction 1 as [|a l Ha Hl (bs & E & Hb)]; [by exists []|].
  destruct (ws_law a Ha) as (h & Eh & Hh & _). exists (h ++ bs).
  split; [cbn; rewrite Eh; cbn; by rewrite E|]. rewrite blen_app. simpl. lia.
Qed.

(** A list of structures survives the wire. *)
Lemma unpack_n_pack_all (l : list A) (init : A) (r : bytes) :
  Forall ws_wf l -> Forall (ws_fresh init) l ->
  exists bs l', pack_all l true = Ok bs /\ blen bs = len_all l /\
    unpack_n init (length l) (bs ++ r) = Ok (l', r) /\ eq_all l' (map ws_after l) = true.
Proof.
  induction 1 as [|a l Ha Hl IH]; [by exists [], []|].
  intros [Hf Hfs]%Forall_cons. destruct (IH Hfs) as (bs & l' & E & Hb & Hu & He).
  destruct (ws_law a Ha) as (h & Eh & Hh & Hr).
  destruct (Hr init (bs ++ r) Hf) as (a' & Ea & Eq).
  exists (h ++ bs), (a' :: l'). split; [cbn; rewrite Eh; cbn; by rewrite E|].
  split; [rewrite blen_app; simpl; lia|].
  split.
  - cbn. rewrite <-app_assoc, Ea. cbn. by rewrite Hu.
  - simpl. by rewrite Eq, He.
Qed.
End laws.

(** ** Proving an instance *)

(** Goals [packable f v]. *)
Ltac uint_lia :=
  unfold uint_ok, sint_ok in *;
  change (256 ^ Z.of_nat 1) with 256 in *; change (256 ^ Z.of_nat 2) with 65536 in *;
  change (256 ^ Z.of_nat 4) with 4294967296 in *;
  change (256 ^ Z.of_nat 8) with 18446744073709551616 in *; lia.
Ltac packable_tac :=
  cbn [packable fst snd];
  repeat match goal with |- _ /\ _ => split end; first [assumption | done | uint_lia].

(** Replace each [pack] by the bytes it gives. *)
Ltac packs :=
  repeat match goal with
  | |- context [pack ?f ?v] =>
      rewrite (pack_ok f v) by packable_tac; cbn [mbind result_bind mret result_ret need]
  end.

(** Re-establish [packable] for the reads. *)
Ltac rd_pack :=
  repeat match goal with
  | |- context [encode ?f ?v] =>
      lazymatch goal with
      | _ : packable f v |- _ => fail
      | _ => assert (packable f v) by packable_tac
      end
  end.

(** Two 16-bit fields at the front of a buffer. *)
Lemma read_HH t l (r : bytes) :
  uint_ok 2 t -> uint_ok 2 l ->
  unpack_from [cH; cH] (be_encode 2 t ++ be_encode 2 l ++ r) 0 = Ok (t, (l, tt)).
Proof.
  intros Ht Hl. rewrite app_assoc.
  replace (be_encode 2 t ++ be_encode 2 l) with (encode [cH; cH] (t, (l, tt)))
    by (cbn [encode fst snd]; by rewrite app_nil_r).
  by apply unpack_from_here.
Qed.
