(* ===== verification/OfpMatch.v ===== *)
(** * Flow matches ([ofp_match] of [pox/openflow/libopenflow_01.py])

    The twelve fields and the wildcard word of an OpenFlow 1.0 match, the
    attribute access that hides a wildcarded field, the wire format, and the
    subsumption test [matches_with_wildcards] on which the flow table rests.

    A hardware address may be stored as a raw string or as an [EthAddr], an
    IP address as an integer or as an [IPAddr]; the comparisons between the
    two forms go through [__cmp__] of the address classes, as in Python 2. *)

From S2P Require Import Prelude PyStruct Addresses.

(** ** Constants *)

Definition OFPFW_IN_PORT : Z := 1.
Definition OFPFW_DL_VLAN : Z := 2.
Definition OFPFW_DL_SRC : Z := 4.
Definition OFPFW_DL_DST : Z := 8.
Definition OFPFW_DL_TYPE : Z := 16.
Definition OFPFW_NW_PROTO : Z := 32.
Definition OFPFW_TP_SRC : Z := 64.
Definition OFPFW_TP_DST : Z := 128.
Definition OFPFW_DL_VLAN_PCP : Z := 1048576.
Definition OFPFW_NW_TOS : Z := Z.shiftl 1 21.
Definition OFPFW_NW_SRC_SHIFT : Z := 8.
Definition OFPFW_NW_DST_SHIFT : Z := 14.
Definition OFPFW_NW_SRC_ALL : Z := 8192.
Definition OFPFW_NW_SRC_MASK : Z := 16128.
Definition OFPFW_NW_DST_ALL : Z := 524288.
Definition OFPFW_NW_DST_MASK : Z := 1032192.
Definition OFPFW_ALL : Z := Z.shiftl 1 22 - 1.
Definition OFP_VLAN_NONE : Z := 0xffff.

(** ** Data *)

(** The keys of [ofp_match_data], by the type of their value. *)
Inductive zfield :=
  | F_in_port | F_dl_vlan | F_dl_vlan_pcp | F_dl_type
  | F_nw_tos | F_nw_proto | F_tp_src | F_tp_dst.
Inductive hfield := F_dl_src | F_dl_dst.
Inductive nfield := F_nw_src | F_nw_dst.

#[global] Instance zfield_eq_dec : EqDecision zfield.
Proof. solve_decision. Defined.
#[global] Instance hfield_eq_dec : EqDecision hfield.
Proof. solve_decision. Defined.
#[global] Instance nfield_eq_dec : EqDecision nfield.
Proof. solve_decision. Defined.

Inductive hwaddr := HwRaw (b : bytes) | HwEth (a : EthAddr).
Inductive nwaddr := NwInt (z : Z) | NwIP (a : IPAddr).

#[global] Instance hwaddr_eq_dec : EqDecision hwaddr.
Proof. solve_decision. Defined.
#[global] Instance nwaddr_eq_dec : EqDecision nwaddr.
Proof. solve_decision. Defined.

Record ofp_match := mkMatch {
  wildcards : Z;
  m_in_port : Z;
  m_dl_src : hwaddr;
  m_dl_dst : hwaddr;
  m_dl_vlan : Z;
  m_dl_vlan_pcp : Z;
  m_dl_type : Z;
  m_nw_tos : Z;
  m_nw_proto : Z;
  m_nw_src : nwaddr;
  m_nw_dst : nwaddr;
  m_tp_src : Z;
  m_tp_dst : Z
}.

#[global] Instance ofp_match_eq_dec : EqDecision ofp_match.
Proof. solve_decision. Defined.

(** [ofp_match_data[name][1]]. *)
Definition zbit (f : zfield) : Z :=
  match f with
  | F_in_port => OFPFW_IN_PORT
  | F_dl_vlan => OFPFW_DL_VLAN
  | F_dl_vlan_pcp => OFPFW_DL_VLAN_PCP
  | F_dl_type => OFPFW_DL_TYPE
  | F_nw_tos => OFPFW_NW_TOS
  | F_nw_proto => OFPFW_NW_PROTO
  | F_tp_src => OFPFW_TP_SRC
  | F_tp_dst => OFPFW_TP_DST
  end.
Definition hbit (f : hfield) : Z :=
  match f with F_dl_src => OFPFW_DL_SRC | F_dl_dst => OFPFW_DL_DST end.
Definition nw_all (f : nfield) : Z :=
  match f with F_nw_src => OFPFW_NW_SRC_ALL | F_nw_dst => OFPFW_NW_DST_ALL end.
Definition nw_mask (f : nfield) : Z :=
  match f with F_nw_src => OFPFW_NW_SRC_MASK | F_nw_dst => OFPFW_NW_DST_MASK end.
Definition nw_shift (f : nfield) : Z :=
  match f with F_nw_src => OFPFW_NW_SRC_SHIFT | F_nw_dst => OFPFW_NW_DST_SHIFT end.

(** The underscored attributes: [self.__dict__['_' + name]]. *)
Definition zraw (m : ofp_match) (f : zfield) : Z :=
  match f with
  | F_in_port => m_in_port m
  | F_dl_vlan => m_dl_vlan m
  | F_dl_vlan_pcp => m_dl_vlan_pcp m
  | F_dl_type => m_dl_type m
  | F_nw_tos => m_nw_tos m
  | F_nw_proto => m_nw_proto m
  | F_tp_src => m_tp_src m
  | F_tp_dst => m_tp_dst m
  end.
Definition hraw (m : ofp_match) (f : hfield) : hwaddr :=
  match f with F_dl_src => m_dl_src m | F_dl_dst => m_dl_dst m end.
Definition nraw (m : ofp_match) (f : nfield) : nwaddr :=
  match f with F_nw_src => m_nw_src m | F_nw_dst => m_nw_dst m end.

Definition set_wildcards (m : ofp_match) (w : Z) : ofp_match :=
  match m with mkMatch _ a b c d e f g h i j k l => mkMatch w a b c d e f g h i j k l end.
Definition zput (m : ofp_match) (f : zfield) (v : Z) : ofp_match :=
  match m with
  | mkMatch w ip ds dd vl vp ty tos pr ns nd ts td =>
      match f with
      | F_in_port => mkMatch w v ds dd vl vp ty tos pr ns nd ts td
      | F_dl_vlan => mkMatch w ip ds dd v vp ty tos pr ns nd ts td
      | F_dl_vlan_pcp => mkMatch w ip ds dd vl v ty tos pr ns nd ts td
      | F_dl_type => mkMatch w ip ds dd vl vp v tos pr ns nd ts td
      | F_nw_tos => mkMatch w ip ds dd vl vp ty v pr ns nd ts td
      | F_nw_proto => mkMatch w ip ds dd vl vp ty tos v ns nd ts td
      | F_tp_src => mkMatch w ip ds dd vl vp ty tos pr ns nd v td
      | F_tp_dst => mkMatch w ip ds dd vl vp ty tos pr ns nd ts v
      end
  end.
Definition hput (m : ofp_match) (f : hfield) (v : hwaddr) : ofp_match :=
  match m with
  | mkMatch w ip ds dd vl vp ty tos pr ns nd ts td =>
      match f with
      | F_dl_src => mkMatch w ip v dd vl vp ty tos pr ns nd ts td
      | F_dl_dst => mkMatch w ip ds v vl vp ty tos pr ns nd ts td
      end
  end.
Definition nput (m : ofp_match) (f : nfield) (v : nwaddr) : ofp_match :=
  match m with
  | mkMatch w ip ds dd vl vp ty tos pr ns nd ts td =>
      match f with
      | F_nw_src => mkMatch w ip ds dd vl vp ty tos pr v nd ts td
      | F_nw_dst => mkMatch w ip ds dd vl vp ty tos pr ns v ts td
      end
  end.

(** ** Wildcard words *)

(** One of the two [if]s of [_normalize_wildcards]. *)
Definition normalize_nw (f : nfield) (w : Z) : Z :=
  if 32 <? Z.shiftr (Z.land w (nw_mask f)) (nw_shift f)
  then Z.lor (Z.land w (Z.lnot (nw_mask f))) (Z.shiftl 32 (nw_shift f))
  else w.
Definition normalize_wildcards (w : Z) : Z := normalize_nw F_nw_dst (normalize_nw F_nw_src w).

(** [ofp_match()]: everything wildcarded. *)
Definition new_match : ofp_match :=
  mkMatch (normalize_wildcards OFPFW_ALL)
    0 (HwEth EMPTY_ETH) (HwEth EMPTY_ETH) 0 0 0 0 0 (NwInt 0) (NwInt 0) 0 0.

(** ** Attribute access *)

(** [(w & bit) == bit]. *)
Definition has_bits (w bit : Z) : bool := Z.land w bit =? bit.

(** [__getattr__] on the scalar and hardware address fields. *)
Definition zget (m : ofp_match) (f : zfield) : option Z :=
  if has_bits (wildcards m) (zbit f) then None else Some (zraw m f).
Definition hget (m : ofp_match) (f : hfield) : option hwaddr :=
  if has_bits (wildcards m) (hbit f) then None else Some (hraw m f).

(** [get_nw_src] and [get_nw_dst]: the address and its prefix length. *)
Definition get_nw (m : ofp_match) (f : nfield) : option nwaddr * Z :=
  if has_bits (wildcards m) (nw_all f) then (None, 0)
  else
    let w := Z.shiftr (Z.land (wildcards m) (nw_mask f)) (nw_shift f) in
    (Some (nraw m f), if w <=? 32 then 32 - w else 0).

(** [__getattr__] on [nw_src] and [nw_dst]. *)
Definition nget (m : ofp_match) (f : nfield) : option nwaddr :=
  if has_bits (wildcards m) (nw_all f) then None else fst (get_nw m f).

(** [__setattr__] on the scalar and hardware address fields. *)
Definition zset (m : ofp_match) (f : zfield) (v : option Z) : ofp_match :=
  match v with
  | None => set_wildcards (zput m f 0) (Z.lor (wildcards m) (zbit f))
  | Some v => set_wildcards (zput m f v) (Z.land (wildcards m) (Z.lnot (zbit f)))
  end.
Definition hset (m : ofp_match) (f : hfield) (v : option hwaddr) : ofp_match :=
  match v with
  | None => set_wildcards (hput m f (HwEth EMPTY_ETH)) (Z.lor (wildcards m) (hbit f))
  | Some v => set_wildcards (hput m f v) (Z.land (wildcards m) (Z.lnot (hbit f)))
  end.

(** What may be assigned to [nw_src] and [nw_dst]. *)
Inductive nw_arg :=
  | ANone
  | AStr (s : bytes)
  | AAddr (a : IPAddr)
  | AInt (z : Z)
  | ATuple (ip : IPAddr) (bits : Z).

Definition clamp32 (b : Z) : Z := if 32 <? b then 32 else if b <? 0 then 0 else b.

Section set_nw.
Context (inet_aton : bytes -> result bytes).

(** [_make_addr]; a tuple argument ends up as the address itself, since the
    last [else] assigns [ip] again. *)
Definition make_addr (x : nw_arg) (bits : option Z) : result (option (nw_arg * Z)) :=
  match x with
  | ANone => mret None
  | ATuple _ tb => mret (Some (x, clamp32 (default tb bits)))
  | AStr s =>
      '(ip, b) ←
        (if negb (blen s =? 4) then
           match split_on x2f s with
           | s0 :: s1 :: _ => b ← need ValueError (py_int 10 s1); mret (s0, b)
           | _ => mret (s, 32)
           end
         else mret (s, 32) : result (bytes * Z));
      ip ← IPAddr_of_str inet_aton ip;
      mret (Some (AAddr ip, clamp32 (default b bits)))
  | AAddr _ | AInt _ => mret (Some (x, clamp32 (default 32 bits)))
  end.

(** [set_nw_src] and [set_nw_dst].  Both reset [_nw_src] when given [None].
    The source would store a tuple as it is, and fail with [AttributeError]
    at the first use of the field; the model fails at the assignment. *)
Definition set_nw (m : ofp_match) (f : nfield) (x : nw_arg) (bits : option Z) : result ofp_match :=
  a ← make_addr x bits;
  let w := Z.land (wildcards m) (Z.lnot (nw_mask f)) in
  match a with
  | None => mret (set_wildcards (nput m F_nw_src (NwInt 0)) (Z.lor w (nw_all f)))
  | Some (a0, a1) =>
      v ← match a0 with
          | AAddr ip => mret (NwIP ip)
          | AInt z => mret (NwInt z)
          | _ => Err AttributeError
          end;
      mret (set_wildcards (nput m f v) (Z.lor w (Z.shiftl (32 - a1) (nw_shift f))))
  end.
End set_nw.

(** Assigning an address object or an integer. *)
Definition set_nw_addr (m : ofp_match) (f : nfield) (v : nwaddr) (a1 : Z) : ofp_match :=
  set_wildcards (nput m f v)
    (Z.lor (Z.land (wildcards m) (Z.lnot (nw_mask f))) (Z.shiftl (32 - a1) (nw_shift f))).

(** ** Comparisons between the stored forms *)

(** [x == None] and [x != y] for hardware addresses: an [EthAddr] compares
    with [None] as with the zero address. *)
Definition hw_is_none (x : option hwaddr) : bool :=
  match x with
  | None => true
  | Some (HwRaw _) => false
  | Some (HwEth a) => bool_decide (eth_value a = zeros 6)
  end.
Definition hw_cmp_value (x : option hwaddr) : bytes :=
  match x with None => zeros 6 | Some (HwRaw b) => b | Some (HwEth a) => eth_value a end.
Definition hw_eq (x y : option hwaddr) : bool :=
  match x, y with
  | None, None => true
  | None, Some (HwRaw _) | Some (HwRaw _), None => false
  | _, _ => bool_decide (hw_cmp_value x = hw_cmp_value y)
  end.

(** [IPAddr(x)] on the stored forms. *)
Definition nw_ip (x : nwaddr) : IPAddr :=
  match x with NwInt z => IPAddr_of_int z false | NwIP a => a end.
Definition nw_eq (x y : option nwaddr) : bool :=
  match x, y with
  | None, None => true
  | None, Some _ | Some _, None => false
  | Some (NwInt a), Some (NwInt b) => a =? b
  | Some x, Some y => ip_value (nw_ip x) =? ip_value (nw_ip y)
  end.

Definition z_eq (x y : option Z) : bool := bool_decide (x = y).

(** [__eq__]. *)
Definition match_eq (a b : ofp_match) : bool :=
  (wildcards a =? wildcards b) &&
  z_eq (zget a F_in_port) (zget b F_in_port) &&
  hw_eq (hget a F_dl_src) (hget b F_dl_src) &&
  hw_eq (hget a F_dl_dst) (hget b F_dl_dst) &&
  z_eq (zget a F_dl_vlan) (zget b F_dl_vlan) &&
  z_eq (zget a F_dl_vlan_pcp) (zget b F_dl_vlan_pcp) &&
  z_eq (zget a F_dl_type) (zget b F_dl_type) &&
  z_eq (zget a F_nw_tos) (zget b F_nw_tos) &&
  z_eq (zget a F_nw_proto) (zget b F_nw_proto) &&
  nw_eq (nget a F_nw_src) (nget b F_nw_src) &&
  nw_eq (nget a F_nw_dst) (nget b F_nw_dst) &&
  z_eq (zget a F_tp_src) (zget b F_tp_src) &&
  z_eq (zget a F_tp_dst) (zget b F_tp_dst).

(** ** Subsumption *)

(** [match_fail(mine, others)], on scalar and on hardware address fields. *)
Definition zfail (a b : ofp_match) (f : zfield) : bool :=
  match zget a f with None => false | Some v => negb (z_eq (Some v) (zget b f)) end.
Definition hfail (a b : ofp_match) (f : hfield) : bool :=
  negb (hw_is_none (hget a f)) && negb (hw_eq (hget a f) (hget b f)).

(** The prefix comparison; a wildcarded field of the other match has no
    address, but then the comparison of the prefix lengths already fails. *)
Definition nfail (a b : ofp_match) (f : nfield) : bool :=
  match get_nw a f with
  | (None, _) => false
  | (Some s, sk) =>
      let '(o, ok) := get_nw b f in
      (ok <? sk) ||
      match o with
      | Some o => negb (inNetwork (nw_ip o) (nw_ip s) (32 - sk))
      | None => true
      end
  end.

Definition NW_MASKS : Z := Z.lor OFPFW_NW_SRC_MASK OFPFW_NW_DST_MASK.

Definition matches_with_wildcards (a b : ofp_match) (consider_other_wildcards : bool) : bool :=
  if match_eq a b then true
  else if consider_other_wildcards &&
       negb (Z.lor (Z.land (wildcards a) (Z.lnot NW_MASKS)) (Z.land (wildcards b) (Z.lnot NW_MASKS))
               =? Z.land (wildcards a) (Z.lnot NW_MASKS)) then false
  else if zfail a b F_in_port then false
  else if zfail a b F_dl_vlan then false
  else if hfail a b F_dl_src then false
  else if hfail a b F_dl_dst then false
  else if zfail a b F_dl_type then false
  else if zfail a b F_nw_proto then false
  else if zfail a b F_tp_src then false
  else if zfail a b F_tp_dst then false
  else if zfail a b F_dl_vlan_pcp then false
  else if zfail a b F_nw_tos then false
  else if nfail a b F_nw_src then false
  else if nfail a b F_nw_dst then false
  else true.

Definition is_wildcarded (m : ofp_match) : bool := negb (Z.land (wildcards m) OFPFW_ALL =? 0).
Definition is_exact (m : ofp_match) : bool := negb (is_wildcarded m).

(** ** Wire format *)

Definition or0 (o : option Z) : Z := default 0 o.
Definition hw_raw (h : hwaddr) : bytes := match h with HwRaw b => b | HwEth a => eth_toRaw a end.
Definition hw_len (h : hwaddr) : Z := match h with HwRaw b => blen b | HwEth a => eth_len a end.
Definition pack_hw (o : option hwaddr) : bytes :=
  if hw_is_none o then eth_toRaw EMPTY_ETH
  else match o with Some h => hw_raw h | None => eth_toRaw EMPTY_ETH end.

(** [fix(addr)]. *)
Definition fix_addr (o : option nwaddr) : Z :=
  match o with
  | None => 0
  | Some (NwInt z) => Z.land z 0xffffffff
  | Some (NwIP a) => ip_toUnsigned a false
  end.

Definition TP_BITS : Z := Z.lor OFPFW_TP_SRC OFPFW_TP_DST.
Definition ARP_BITS : Z := Z.lor (Z.lor OFPFW_NW_TOS OFPFW_TP_SRC) OFPFW_TP_DST.
Definition NW_BITS : Z :=
  Z.lor (Z.lor (Z.lor (Z.lor (Z.lor OFPFW_NW_TOS OFPFW_NW_PROTO) OFPFW_NW_SRC_MASK) OFPFW_NW_DST_MASK)
    OFPFW_TP_SRC) OFPFW_TP_DST.

(** [proto in (1, 6, 17)]. *)
Definition tp_proto (p : option Z) : bool := bool_decide (p = Some 1 \/ p = Some 6 \/ p = Some 17).

Definition wire_wildcards (m : ofp_match) (w : Z) : Z :=
  if z_eq (zget m F_dl_type) (Some 0x0800) then
    if negb (tp_proto (zget m F_nw_proto)) then Z.land w (Z.lnot TP_BITS) else w
  else if z_eq (zget m F_dl_type) (Some 0x0806) then Z.land w (Z.lnot ARP_BITS)
  else Z.land w (Z.lnot NW_BITS).

(** [_unwire_wildcards], on the raw attributes. *)
Definition unwire_wildcards (dl_type nw_proto w : Z) : Z :=
  if dl_type =? 0x0800 then
    if negb (tp_proto (Some nw_proto)) then Z.lor w TP_BITS else w
  else if dl_type =? 0x0806 then Z.lor w ARP_BITS
  else Z.lor w NW_BITS.

Definition match_pack (m : ofp_match) (assertstruct flow_mod : bool) : result bytes :=
  _ ← guard_ok (negb assertstruct || (hw_len (m_dl_dst m) =? 6)) RuntimeError;
  let ip := z_eq (zget m F_dl_type) (Some 0x0800) in
  let arp := z_eq (zget m F_dl_type) (Some 0x0806) in
  let check_ip v := if ip then v else 0 in
  let check_ip_or_arp v := if ip || arp then v else 0 in
  let check_tp v := if ip && tp_proto (zget m F_nw_proto) then v else 0 in
  p1 ← pack [cL; cH] (if flow_mod then wire_wildcards m (wildcards m) else wildcards m,
                      (or0 (zget m F_in_port), tt));
  p2 ← pack [cH; cB] (or0 (zget m F_dl_vlan), (or0 (zget m F_dl_vlan_pcp), tt));
  p3 ← pack [cH; cB; cB] (or0 (zget m F_dl_type), (check_ip (or0 (zget m F_nw_tos)),
                          (check_ip_or_arp (or0 (zget m F_nw_proto)), tt)));
  p4 ← pack [cL; cL; cH; cH] (check_ip_or_arp (fix_addr (nget m F_nw_src)),
                              (check_ip_or_arp (fix_addr (nget m F_nw_dst)),
                               (check_tp (or0 (zget m F_tp_src)), (check_tp (or0 (zget m F_tp_dst)), tt))));
  mret (p1 ++ pack_hw (hget m F_dl_src) ++ pack_hw (hget m F_dl_dst) ++ p2 ++ zeros 1 ++ p3 ++ zeros 2 ++ p4).

Definition match_len : Z := 40.

(** [EthAddr(struct.unpack_from("!BBBBBB", b, off))]. *)
Definition unpack_eth (b : bytes) (off : Z) : result EthAddr :=
  '(b0, (b1, (b2, (b3, (b4, (b5, _)))))) ← unpack_from [cB; cB; cB; cB; cB; cB] b off;
  EthAddr_init (ETuple [b0; b1; b2; b3; b4; b5]).

Definition match_unpack (m : ofp_match) (b : bytes) (flow_mod : bool) : result (ofp_match * bytes) :=
  if blen b <? match_len then mret (m, b) else
  '(w, (in_port, _)) ← unpack_from [cL; cH] b 0;
  dl_src ← unpack_eth b 6;
  dl_dst ← unpack_eth b 12;
  '(dl_vlan, (dl_vlan_pcp, _)) ← unpack_from [cH; cB] b 18;
  '(dl_type, (nw_tos, (nw_proto, _))) ← unpack_from [cH; cB; cB] b 22;
  '(nw_src, (nw_dst, (tp_src, (tp_dst, _)))) ← unpack_from [cL; cL; cH; cH] b 28;
  let w := normalize_wildcards (if flow_mod then unwire_wildcards dl_type nw_proto w else w) in
  mret (mkMatch w in_port (HwEth dl_src) (HwEth dl_dst) dl_vlan dl_vlan_pcp dl_type nw_tos nw_proto
          (NwIP (IPAddr_of_int nw_src false)) (NwIP (IPAddr_of_int nw_dst false)) tp_src tp_dst,
        pyfrom b match_len).

(** [hash_code]: the integers visible through the attributes, XORed. *)
Definition zhash (o : option Z) : Z := default 0 o.
Definition nhash (o : option nwaddr) : Z := match o with Some (NwInt z) => z | _ => 0 end.
Definition hash_code (m : ofp_match) : Z :=
  Z.land
    (foldl (fun h v => Z.lxor h v) (wildcards m)
      ([zhash (zget m F_in_port); zhash (zget m F_dl_vlan); zhash (zget m F_dl_vlan_pcp);
        zhash (zget m F_dl_type); zhash (zget m F_nw_tos); zhash (zget m F_nw_proto);
        nhash (nget m F_nw_src); nhash (nget m F_nw_dst);
        zhash (zget m F_tp_src); zhash (zget m F_tp_dst)]))
    0x7fffffff.

(** [clone]: every underscored attribute, then the wildcards. *)
Definition clone (m : ofp_match) : ofp_match :=
  set_wildcards
    (mkMatch (wildcards new_match) (m_in_port m) (m_dl_src m) (m_dl_dst m) (m_dl_vlan m)
       (m_dl_vlan_pcp m) (m_dl_type m) (m_nw_tos m) (m_nw_proto m) (m_nw_src m) (m_nw_dst m)
       (m_tp_src m) (m_tp_dst m))
    (wildcards m).

(** [optimize]; the misspelt [eelf] raises [NameError] for a known type other
    than IP and ARP, after the two address fields have been reset. *)
Definition optimize (m : ofp_match) : result ofp_match * ofp_match :=
  let m := if z_eq (zget m F_dl_vlan) (Some OFP_VLAN_NONE) then zset m F_dl_vlan_pcp (Some 0) else m in
  let zero_tp m := zset (zset m F_tp_src (Some 0)) F_tp_dst (Some 0) in
  let finish m :=
    let m' := set_wildcards m (normalize_wildcards (wildcards m)) in (Ok m', m') in
  match zget m F_dl_type with
  | None => finish m
  | Some t =>
      if negb (t =? 0x0800) then
        if negb (t =? 0x0806) then
          let m := set_nw_addr m F_nw_src (NwIP (IPAddr_of_int 0 false)) 32 in
          let m := set_nw_addr m F_nw_dst (NwIP (IPAddr_of_int 0 false)) 32 in
          (Err NameError, m)
        else finish (zero_tp (zset m F_nw_tos (Some 0)))
      else if negb (tp_proto (zget m F_nw_proto)) then finish (zero_tp m)
      else finish m
  end.

(** ** Bits of the wildcard word *)

Definition zpos (f : zfield) : Z :=
  match f with
  | F_in_port => 0 | F_dl_vlan => 1 | F_dl_vlan_pcp => 20 | F_dl_type => 4
  | F_nw_tos => 21 | F_nw_proto => 5 | F_tp_src => 6 | F_tp_dst => 7
  end.
Definition hpos (f : hfield) : Z := match f with F_dl_src => 2 | F_dl_dst => 3 end.

Lemma zbit_pow f : zbit f = 2 ^ zpos f.
Proof. by destruct f. Qed.
Lemma hbit_pow f : hbit f = 2 ^ hpos f.
Proof. by destruct f. Qed.
Lemma nw_all_pow f : nw_all f = 2 ^ (nw_shift f + 5).
Proof. by destruct f. Qed.
Lemma nw_mask_shift f : nw_mask f = Z.shiftl (Z.ones 6) (nw_shift f).
Proof. by destruct f. Qed.
Lemma zpos_nonneg f : 0 <= zpos f.
Proof. by destruct f. Qed.
Lemma hpos_nonneg f : 0 <= hpos f.
Proof. by destruct f. Qed.
Lemma nw_shift_nonneg f : 0 <= nw_shift f.
Proof. by destruct f. Qed.
#[local] Hint Resolve zpos_nonneg hpos_nonneg nw_shift_nonneg : core.

Lemma has_bits_bit w k : 0 <= k -> has_bits w (2 ^ k) = Z.testbit w k.
Proof.
  intros Hk. unfold has_bits.
  assert (H : Z.land w (2 ^ k) = if Z.testbit w k then 2 ^ k else 0).
  { apply Z.bits_inj'. intros n Hn. rewrite Z.land_spec.
    destruct (decide (k = n)) as [<-|Hne].
    - rewrite Z.pow2_bits_true by done. destruct (Z.testbit w k); [by rewrite Z.pow2_bits_true|by rewrite Z.bits_0].
    - rewrite Z.pow2_bits_false, andb_false_r by lia.
      destruct (Z.testbit w k); [by rewrite Z.pow2_bits_false by lia | by rewrite Z.bits_0]. }
  rewrite H. destruct (Z.testbit w k); [apply Z.eqb_refl|].
  apply Z.eqb_neq. pose proof (Z.pow_pos_nonneg 2 k). lia.
Qed.

Lemma testbit_clear w k j :
  0 <= k -> 0 <= j -> Z.testbit (Z.land w (Z.lnot (2 ^ k))) j = Z.testbit w j && negb (k =? j).
Proof.
  intros Hk Hj. rewrite Z.land_spec, Z.lnot_spec by lia. f_equal. f_equal.
  destruct (Z.eqb_spec k j) as [->|]; [by apply Z.pow2_bits_true | by apply Z.pow2_bits_false].
Qed.

Lemma testbit_set w k j :
  0 <= k -> 0 <= j -> Z.testbit (Z.lor w (2 ^ k)) j = Z.testbit w j || (k =? j).
Proof.
  intros Hk Hj. rewrite Z.lor_spec. f_equal.
  destruct (Z.eqb_spec k j) as [->|]; [by apply Z.pow2_bits_true | by apply Z.pow2_bits_false].
Qed.

Lemma testbit_mask f j :
  0 <= j -> Z.testbit (nw_mask f) j = (nw_shift f <=? j) && (j <? nw_shift f + 6).
Proof.
  intros Hj. rewrite nw_mask_shift, Z.shiftl_spec by lia.
  destruct (Z.leb_spec (nw_shift f) j); simpl.
  - destruct (Z.ltb_spec j (nw_shift f + 6)).
    + apply Z.ones_spec_low. lia.
    + apply Z.ones_spec_high. lia.
  - apply Z.testbit_neg_r. lia.
Qed.

(** The six bits of [w] that count the wildcarded address bits. *)
Definition nwbits (w : Z) (f : nfield) : Z := Z.shiftr (Z.land w (nw_mask f)) (nw_shift f).

Lemma nwbits_spec w f : nwbits w f = Z.land (Z.shiftr w (nw_shift f)) (Z.ones 6).
Proof.
  unfold nwbits. rewrite nw_mask_shift, land_shiftl_r by done.
  by rewrite Z.shiftr_shiftl_l, Z.sub_diag, Z.shiftl_0_r by done.
Qed.

Lemma nwbits_range w f : 0 <= nwbits w f < 64.
Proof. rewrite nwbits_spec, Z.land_ones by lia. apply Z.mod_pos_bound. lia. Qed.

Lemma nwbits_testbit w f j :
  0 <= j -> Z.testbit (nwbits w f) j = Z.testbit w (j + nw_shift f) && (j <? 6).
Proof.
  intros Hj. rewrite nwbits_spec, Z.land_spec, Z.shiftr_spec by done. f_equal.
  destruct (Z.ltb_spec j 6); [by apply Z.ones_spec_low | by apply Z.ones_spec_high].
Qed.

(** The top bit of the count says that it is at least 32. *)
Lemma nw_all_nwbits w f : has_bits w (nw_all f) = (32 <=? nwbits w f).
Proof.
  rewrite nw_all_pow, has_bits_bit by (pose proof (nw_shift_nonneg f); lia).
  pose proof (nwbits_range w f). pose proof (nwbits_testbit w f 5 ltac:(lia)) as H'.
  rewrite andb_true_r, (Z.add_comm 5) in H'. rewrite <-H'.
  set (x := nwbits w f) in *. clearbody x.
  rewrite Z.testbit_eqb by lia. change (2 ^ 5) with 32.
  destruct (Z.leb_spec 32 x).
  - assert (x / 32 = 1) as -> by (symmetry; apply (Z.div_unique _ _ _ (x - 32)); lia). reflexivity.
  - by rewrite Z.div_small by lia.
Qed.

Lemma normalize_nw_eq w f :
  normalize_nw f w = if 32 <? nwbits w f
    then Z.lor (Z.land w (Z.lnot (nw_mask f))) (Z.shiftl 32 (nw_shift f)) else w.
Proof. done. Qed.

(** Overwriting the count. *)
Lemma testbit_put_nw w f v j :
  0 <= v < 64 -> 0 <= j ->
  Z.testbit (Z.lor (Z.land w (Z.lnot (nw_mask f))) (Z.shiftl v (nw_shift f))) j =
  if (nw_shift f <=? j) && (j <? nw_shift f + 6) then Z.testbit v (j - nw_shift f)
  else Z.testbit w j.
Proof.
  intros Hv Hj. rewrite Z.lor_spec, Z.land_spec, Z.lnot_spec, testbit_mask, Z.shiftl_spec by done.
  destruct (Z.leb_spec (nw_shift f) j); simpl.
  - destruct (Z.ltb_spec j (nw_shift f + 6)); simpl; [by rewrite andb_false_r|].
    rewrite andb_true_r. assert (Z.testbit v (j - nw_shift f) = false) as ->; [|by rewrite orb_false_r].
    rewrite Z.testbit_eqb by lia. rewrite Z.div_small; [done|].
    split; [lia|]. apply Z.lt_le_trans with (2 ^ 6); [lia|]. apply Z.pow_le_mono_r; lia.
  - rewrite andb_true_r, (Z.testbit_neg_r v) by lia. by rewrite orb_false_r.
Qed.

Lemma nwbits_put w f g v :
  0 <= v < 64 ->
  nwbits (Z.lor (Z.land w (Z.lnot (nw_mask f))) (Z.shiftl v (nw_shift f))) g =
  if decide (f = g) then v else nwbits w g.
Proof.
  intros Hv. apply Z.bits_inj'. intros j Hj. rewrite nwbits_testbit by done.
  pose proof (nw_shift_nonneg f). pose proof (nw_shift_nonneg g).
  rewrite testbit_put_nw by lia.
  destruct (Z.ltb_spec j 6).
  - rewrite andb_true_r. destruct (decide (f = g)) as [->|Hne].
    + destruct (Z.leb_spec (nw_shift g) (j + nw_shift g)); [|lia].
      destruct (Z.ltb_spec (j + nw_shift g) (nw_shift g + 6)); [|lia].
      simpl. f_equal. lia.
    + rewrite nwbits_testbit by done. destruct (Z.ltb_spec j 6); [|lia]. rewrite andb_true_r.
      destruct f, g; try done; simpl; cbv [nw_shift OFPFW_NW_SRC_SHIFT OFPFW_NW_DST_SHIFT];
        repeat match goal with |- context [?a <=? ?b] => destruct (Z.leb_spec a b)
               | |- context [?a <? ?b] => destruct (Z.ltb_spec a b) end; try lia; done.
  - rewrite andb_false_r. destruct (decide (f = g)).
    + symmetry. rewrite Z.testbit_eqb by lia. rewrite Z.div_small; [done|].
      split; [lia|]. apply Z.lt_le_trans with (2 ^ 6); [lia|]. apply Z.pow_le_mono_r; lia.
    + rewrite nwbits_testbit by done. destruct (Z.ltb_spec j 6); [lia|]. by rewrite andb_false_r.
Qed.

(** A bit outside the two counts. *)
Definition flag_pos (j : Z) : Prop := 0 <= j /\ ~ (8 <= j < 20).

Lemma testbit_put_nw_flag w f v j :
  0 <= v < 64 -> flag_pos j ->
  Z.testbit (Z.lor (Z.land w (Z.lnot (nw_mask f))) (Z.shiftl v (nw_shift f))) j = Z.testbit w j.
Proof.
  intros Hv [Hj Hj']. rewrite testbit_put_nw by done.
  destruct f; cbv [nw_shift OFPFW_NW_SRC_SHIFT OFPFW_NW_DST_SHIFT];
    repeat match goal with |- context [?a <=? ?b] => destruct (Z.leb_spec a b)
           | |- context [?a <? ?b] => destruct (Z.ltb_spec a b) end; simpl; try lia; done.
Qed.

Lemma zpos_flag f : flag_pos (zpos f).
Proof. split; [done|]. destruct f; simpl; lia. Qed.
Lemma hpos_flag f : flag_pos (hpos f).
Proof. split; [done|]. destruct f; simpl; lia. Qed.
#[local] Hint Resolve zpos_flag hpos_flag : core.

Lemma nwbits_normalize_nw w f g :
  nwbits (normalize_nw f w) g = if decide (f = g) then Z.min 32 (nwbits w g) else nwbits w g.
Proof.
  rewrite normalize_nw_eq. destruct (Z.ltb_spec 32 (nwbits w f)) as [H|H].
  - rewrite nwbits_put by lia. destruct (decide (f = g)) as [->|]; [lia|done].
  - destruct (decide (f = g)) as [->|]; [lia|done].
Qed.

Lemma nwbits_normalize w g : nwbits (normalize_wildcards w) g = Z.min 32 (nwbits w g).
Proof.
  unfold normalize_wildcards. rewrite !nwbits_normalize_nw. by destruct g.
Qed.

Lemma testbit_normalize w j : flag_pos j -> Z.testbit (normalize_wildcards w) j = Z.testbit w j.
Proof.
  intros Hj. unfold normalize_wildcards. rewrite !normalize_nw_eq.
  repeat (case_match; rewrite ?testbit_put_nw_flag by (done || lia)); done.
Qed.

(** A word is determined by its flags and its two counts. *)
Lemma word_ext w w' :
  (forall j, flag_pos j -> Z.testbit w j = Z.testbit w' j) ->
  (forall f, nwbits w f = nwbits w' f) -> w = w'.
Proof.
  intros Hf Hn. apply Z.bits_inj'. intros j Hj.
  destruct (decide (8 <= j < 14)) as [H1|H1].
  { pose proof (f_equal (fun x => Z.testbit x (j - 8)) (Hn F_nw_src)) as E. simpl in E.
    rewrite !nwbits_testbit in E by lia. destruct (Z.ltb_spec (j - 8) 6); [|lia].
    rewrite !andb_true_r in E. cbv [nw_shift OFPFW_NW_SRC_SHIFT] in E.
    by replace (j - 8 + 8) with j in E by lia. }
  destruct (decide (14 <= j < 20)) as [H2|H2].
  { pose proof (f_equal (fun x => Z.testbit x (j - 14)) (Hn F_nw_dst)) as E. simpl in E.
    rewrite !nwbits_testbit in E by lia. destruct (Z.ltb_spec (j - 14) 6); [|lia].
    rewrite !andb_true_r in E. cbv [nw_shift OFPFW_NW_DST_SHIFT] in E.
    by replace (j - 14 + 14) with j in E by lia. }
  apply Hf. split; lia.
Qed.

(** The normal form: both counts at most 32. *)
Definition normal_word (w : Z) : Prop := forall f, nwbits w f <= 32.

Lemma normal_word_fix w : normal_word w -> normalize_wildcards w = w.
Proof.
  intros H. apply word_ext.
  - intros. by apply testbit_normalize.
  - intros f. rewrite nwbits_normalize. specialize (H f). lia.
Qed.

Lemma normalize_normal w : normal_word (normalize_wildcards w).
Proof. intros f. rewrite nwbits_normalize. lia. Qed.

(** ** The getters, in terms of bits *)

Lemma zget_bit m f : zget m f = if Z.testbit (wildcards m) (zpos f) then None else Some (zraw m f).
Proof. unfold zget. by rewrite zbit_pow, has_bits_bit. Qed.
Lemma hget_bit m f : hget m f = if Z.testbit (wildcards m) (hpos f) then None else Some (hraw m f).
Proof. unfold hget. by rewrite hbit_pow, has_bits_bit. Qed.

Lemma get_nw_bits m f :
  get_nw m f = if 32 <=? nwbits (wildcards m) f then (None, 0)
               else (Some (nraw m f), 32 - nwbits (wildcards m) f).
Proof.
  unfold get_nw. rewrite nw_all_nwbits. fold (nwbits (wildcards m) f).
  destruct (Z.leb_spec 32 (nwbits (wildcards m) f)); [done|].
  by destruct (Z.leb_spec (nwbits (wildcards m) f) 32); [|lia].
Qed.

Lemma nget_get_nw m f : nget m f = fst (get_nw m f).
Proof.
  unfold nget. destruct (has_bits _ _) eqn:E; [|done]. unfold get_nw. by rewrite E.
Qed.

(** The address in force and its prefix length. *)
Definition nview (m : ofp_match) (f : nfield) : option (IPAddr * Z) :=
  match get_nw m f with (Some x, k) => Some (nw_ip x, k) | (None, _) => None end.
(** The hardware address in force, as bytes. *)
Definition hview (m : ofp_match) (f : hfield) : option bytes := hw_raw <$> hget m f.

Lemma nview_bits m f :
  nview m f = if 32 <=? nwbits (wildcards m) f then None
              else Some (nw_ip (nraw m f), 32 - nwbits (wildcards m) f).
Proof. unfold nview. rewrite get_nw_bits. by destruct (_ <=? _). Qed.

Lemma nget_bits m f :
  nget m f = if 32 <=? nwbits (wildcards m) f then None else Some (nraw m f).
Proof. rewrite nget_get_nw, get_nw_bits. by destruct (_ <=? _). Qed.

(** The stored forms every constructor in the sources produces: hardware
    addresses as [EthAddr] objects, IP integers in 32 bits. *)
Definition hw_typed (h : hwaddr) : Prop :=
  match h with HwRaw _ => False | HwEth a => length (eth_value a) = 6%nat end.
Definition nw_typed (x : nwaddr) : Prop :=
  match x with NwInt z => 0 <= z < 2 ^ 32 | NwIP a => ip_wf a end.
Definition match_typed (m : ofp_match) : Prop :=
  (forall f, hw_typed (hraw m f)) /\ (forall f, nw_typed (nraw m f)).

(** ** Equality of matches as what they stand for *)

#[global] Instance match_equiv : Equiv ofp_match := fun a b =>
  wildcards a = wildcards b /\ (forall f, zget a f = zget b f) /\
  (forall f, hview a f = hview b f) /\ (forall f, nview a f = nview b f).

#[global] Instance match_equiv_equivalence : Equivalence (≡@{ofp_match}).
Proof.
  split.
  - done.
  - intros a b (? & ? & ? & ?). done.
  - intros a b c (H1 & H2 & H3 & H4) (H5 & H6 & H7 & H8). split; [congruence|].
    split; [|split]; intros f; etransitivity; eauto.
Qed.

#[global] Instance wildcards_proper : Proper ((≡) ==> (=)) wildcards.
Proof. by intros a b (? & _). Qed.
#[global] Instance zget_proper : Proper ((≡) ==> (=) ==> (=)) zget.
Proof. intros a b (_ & H & _) f _ <-. apply H. Qed.
#[global] Instance hview_proper : Proper ((≡) ==> (=) ==> (=)) hview.
Proof. intros a b (_ & _ & H & _) f _ <-. apply H. Qed.
#[global] Instance nview_proper : Proper ((≡) ==> (=) ==> (=)) nview.
Proof. intros a b (_ & _ & _ & H) f _ <-. apply H. Qed.
#[global] Instance is_exact_proper : Proper ((≡) ==> (=)) is_exact.
Proof. intros a b (H & _). unfold is_exact, is_wildcarded. by rewrite H. Qed.

Lemma of_int_inj y z :
  0 <= y < 2 ^ 32 -> 0 <= z < 2 ^ 32 -> IPAddr_of_int y false = IPAddr_of_int z false -> y = z.
Proof.
  intros Hy Hz E. apply (f_equal (fun a => ip_toUnsigned a false)) in E.
  rewrite !toUnsigned_of_int, !Z.mod_small in E by done. done.
Qed.

Lemma nw_eq_typed x y :
  nw_typed x -> nw_typed y -> nw_eq (Some x) (Some y) = bool_decide (nw_ip x = nw_ip y).
Proof.
  intros Hx Hy. symmetry.
  assert (Hip : forall a b, (ip_value a =? ip_value b) = bool_decide (a = b)).
  { intros [a] [b]. simpl. case_bool_decide as E; [injection E as ->; apply Z.eqb_refl|].
    apply Z.eqb_neq. congruence. }
  destruct x as [x|x], y as [y|y]; unfold nw_eq; rewrite ?Hip; try done.
  simpl in *. case_bool_decide as E.
  - apply of_int_inj in E; [|done..]. subst. symmetry. apply Z.eqb_refl.
  - symmetry. apply Z.eqb_neq. congruence.
Qed.

Lemma hget_hview_eq a b f :
  match_typed a -> match_typed b -> wildcards a = wildcards b ->
  hw_eq (hget a f) (hget b f) = bool_decide (hview a f = hview b f).
Proof.
  intros [Ha _] [Hb _] Hw. specialize (Ha f). specialize (Hb f). unfold hview.
  rewrite !hget_bit, Hw. destruct (Z.testbit _ _); [done|].
  destruct (hraw a f), (hraw b f); try done. simpl. unfold eth_toRaw.
  apply bool_decide_ext. split; [by intros ->|]. by intros [=].
Qed.

Lemma nget_nview_eq a b f :
  match_typed a -> match_typed b -> wildcards a = wildcards b ->
  nw_eq (nget a f) (nget b f) = bool_decide (nview a f = nview b f).
Proof.
  intros [_ Ha] [_ Hb] Hw. specialize (Ha f). specialize (Hb f).
  rewrite !nget_bits, !nview_bits, Hw. destruct (_ <=? _); [done|].
  rewrite nw_eq_typed by done. apply bool_decide_ext.
  split; [by intros ->|]. by intros [=].
Qed.

Lemma match_eq_equiv a b :
  match_typed a -> match_typed b -> match_eq a b = true <-> a ≡ b.
Proof.
  intros Ha Hb. unfold match_eq, z_eq. rewrite !andb_true_iff, Z.eqb_eq.
  split.
  - intros H. destruct_and!.
    rewrite !hget_hview_eq, !nget_nview_eq in * by done.
    repeat match goal with H : bool_decide _ = true |- _ => apply bool_decide_eq_true in H end.
    split; [done|]. split; [by intros []|]. split; by intros [].
  - intros (Hw & Hz & Hh & Hn).
    rewrite !hget_hview_eq, !nget_nview_eq by done.
    rewrite !bool_decide_eq_true. repeat split; auto.
Qed.

(** ** What [matches_with_wildcards] promises *)

(** [covers a b]: every constraint of [a] is met by [b].  A zero hardware
    address constrains nothing, as it compares equal to [None]. *)
Definition covers (a b : ofp_match) : Prop :=
  (forall f v, zget a f = Some v -> zget b f = Some v) /\
  (forall f v, hview a f = Some v -> v <> zeros 6 -> hview b f = Some v) /\
  (forall f x k, nview a f = Some (x, k) -> exists y l, nview b f = Some (y, l) /\ k <= l /\
     ip_toUnsigned y false / 2 ^ (32 - k) * 2 ^ (32 - k) = ip_toUnsigned x false).

(** Every flag of [b] is a flag of [a]. *)
Definition flags_subset (b a : Z) : Prop :=
  forall j, flag_pos j -> Z.testbit b j = true -> Z.testbit a j = true.

#[global] Instance covers_proper : Proper ((≡) ==> (≡) ==> iff) covers.
Proof.
  intros a a' Ha b b' Hb. unfold covers.
  setoid_rewrite Ha. setoid_rewrite Hb. done.
Qed.

Lemma zfail_spec a b f :
  zfail a b f = false <-> (forall v, zget a f = Some v -> zget b f = Some v).
Proof.
  unfold zfail, z_eq. destruct (zget a f) as [v|]; [|done].
  rewrite negb_false_iff, bool_decide_eq_true. split.
  - intros <- v' [=<-]. done.
  - intros H. symmetry. by apply H.
Qed.

Lemma hfail_spec a b f :
  match_typed a -> match_typed b ->
  hfail a b f = false <-> (forall v, hview a f = Some v -> v <> zeros 6 -> hview b f = Some v).
Proof.
  intros [Ha _] [Hb _]. specialize (Ha f). specialize (Hb f).
  unfold hfail, hview. rewrite !hget_bit.
  destruct (Z.testbit (wildcards a) _); [done|].
  destruct (hraw a f) as [|[va]]; [done|]. simpl. unfold eth_toRaw.
  rewrite andb_false_iff, !negb_false_iff.
  destruct (Z.testbit (wildcards b) _); simpl.
  - rewrite !bool_decide_eq_true. split.
    + intros [->| ->]; intros v [=<-] Hv; done.
    + intros H. destruct (decide (va = zeros 6)) as [->|Hne]; [by left|].
      by specialize (H va eq_refl Hne).
  - destruct (hraw b f) as [|[vb]]; [done|]. simpl. unfold eth_toRaw. simpl. rewrite !bool_decide_eq_true. split.
    + intros [->| ->]; intros v [=<-] Hv; done.
    + intros H. destruct (decide (va = zeros 6)) as [->|Hne]; [by left|].
      specialize (H va eq_refl Hne). right. by injection H as ->.
Qed.

Lemma nfail_spec a b f :
  nfail a b f = false <->
  (forall x k, nview a f = Some (x, k) -> exists y l, nview b f = Some (y, l) /\ k <= l /\
     ip_toUnsigned y false / 2 ^ (32 - k) * 2 ^ (32 - k) = ip_toUnsigned x false).
Proof.
  unfold nfail. rewrite !nview_bits, !get_nw_bits.
  pose proof (nwbits_range (wildcards a) f).
  destruct (Z.leb_spec 32 (nwbits (wildcards a) f)); [done|].
  destruct (Z.leb_spec 32 (nwbits (wildcards b) f)).
  - rewrite orb_true_r. split; [done|]. intros H'.
    destruct (H' _ _ eq_refl) as (y & l & [=] & _).
  - rewrite orb_false_iff, negb_false_iff, Z.ltb_ge, inNetwork_spec by lia.
    rewrite bool_decide_eq_true. split.
    + intros [Hk Hn] x k [=<- <-]. eexists _, _. split; [done|]. split; [done|exact Hn].
    + intros H'. destruct (H' _ _ eq_refl) as (y & l & [= <- <-] & Hk & Hn).
      split; [done|exact Hn].
Qed.

Lemma testbit_masked w j :
  0 <= j -> Z.testbit (Z.land w (Z.lnot NW_MASKS)) j = Z.testbit w j && negb ((8 <=? j) && (j <? 20)).
Proof.
  intros Hj. rewrite Z.land_spec, Z.lnot_spec by done. f_equal. f_equal.
  unfold NW_MASKS. rewrite Z.lor_spec.
  rewrite (testbit_mask F_nw_src), (testbit_mask F_nw_dst) by done.
  cbv [nw_shift OFPFW_NW_SRC_SHIFT OFPFW_NW_DST_SHIFT].
  repeat match goal with |- context [?a <=? ?b] => destruct (Z.leb_spec a b)
         | |- context [?a <? ?b] => destruct (Z.ltb_spec a b) end; simpl; try lia; done.
Qed.

Lemma flags_test_spec a b :
  (Z.lor (Z.land a (Z.lnot NW_MASKS)) (Z.land b (Z.lnot NW_MASKS)) =? Z.land a (Z.lnot NW_MASKS)) = true
  <-> flags_subset b a.
Proof.
  rewrite Z.eqb_eq. split.
  - intros E j [Hj Hj'] Hb. apply (f_equal (fun z => Z.testbit z j)) in E.
    rewrite Z.lor_spec, !testbit_masked, Hb in E by done.
    destruct (Z.leb_spec 8 j), (Z.ltb_spec j 20); try lia; simpl in E;
      rewrite ?andb_true_r, orb_true_r in E; done.
  - intros H. apply Z.bits_inj'. intros j Hj. rewrite Z.lor_spec, !testbit_masked by done.
    destruct (Z.testbit a j) eqn:Ea; [by destruct ((8 <=? j) && (j <? 20)), (Z.testbit b j)|].
    destruct (Z.testbit b j) eqn:Eb; [|done]. simpl.
    destruct (Z.leb_spec 8 j), (Z.ltb_spec j 20); simpl; try done.
    all: rewrite (H j) in Ea; [done| split; lia | done].
Qed.

Lemma mww_equiv_or_covers a b cw :
  match_typed a -> match_typed b ->
  matches_with_wildcards a b cw = true <->
  a ≡ b \/ ((cw = true -> flags_subset (wildcards b) (wildcards a)) /\ covers a b).
Proof.
  intros Ha Hb. rewrite <-match_eq_equiv by done. unfold matches_with_wildcards.
  destruct (match_eq a b); [by split; [left|]|].
  assert (Hcov : covers a b <->
    (forall f, zfail a b f = false) /\ (forall f, hfail a b f = false) /\ (forall f, nfail a b f = false)).
  { unfold covers. setoid_rewrite zfail_spec. setoid_rewrite nfail_spec.
    setoid_rewrite hfail_spec; [|done..]. done. }
  rewrite Hcov, <-flags_test_spec.
  set (t := Z.eqb (Z.lor _ _) _). clearbody t.
  transitivity (cw && negb t = false /\ zfail a b F_in_port = false /\ zfail a b F_dl_vlan = false /\
    hfail a b F_dl_src = false /\ hfail a b F_dl_dst = false /\ zfail a b F_dl_type = false /\
    zfail a b F_nw_proto = false /\ zfail a b F_tp_src = false /\ zfail a b F_tp_dst = false /\
    zfail a b F_dl_vlan_pcp = false /\ zfail a b F_nw_tos = false /\
    nfail a b F_nw_src = false /\ nfail a b F_nw_dst = false).
  - split.
    + intros H. repeat (case_match; [done|]). done.
    + intros H. destruct_and!. repeat match goal with H : _ = false |- _ => rewrite H; clear H end. done.
  - split.
    + intros H. destruct_and!. right. split; [|split; [|split]; by intros []].
      intros ->. by destruct t.
    + intros [|[Ht (Hz & Hh & Hn)]]; [done|]. rewrite !Hz, !Hh, !Hn.
      split; [|repeat split]. destruct cw; [by rewrite Ht|done].
Qed.

(** ** Composition of coverings *)

Lemma prefix_compose y x z j k :
  0 <= j <= k ->
  z / 2 ^ j * 2 ^ j = y -> y / 2 ^ k * 2 ^ k = x -> z / 2 ^ k * 2 ^ k = x.
Proof.
  intros Hjk <- <-. f_equal.
  assert (Hp : 2 ^ k = 2 ^ j * 2 ^ (k - j)) by (rewrite <-Z.pow_add_r by lia; f_equal; lia).
  assert (0 < 2 ^ j) by (apply Z.pow_pos_nonneg; lia).
  assert (0 < 2 ^ (k - j)) by (apply Z.pow_pos_nonneg; lia).
  rewrite Hp, <-!Z.div_div by lia. by rewrite Z.div_mul by lia.
Qed.

Lemma nview_range m f x k : nview m f = Some (x, k) -> 0 < k <= 32.
Proof.
  rewrite nview_bits. pose proof (nwbits_range (wildcards m) f).
  destruct (Z.leb_spec 32 (nwbits (wildcards m) f)); [done|]. intros [= <- <-]. lia.
Qed.

Lemma covers_trans a b c : covers a b -> covers b c -> covers a c.
Proof.
  intros (Hz & Hh & Hn) (Hz' & Hh' & Hn'). split; [|split].
  - eauto.
  - intros f v Hv Hne. eauto.
  - intros f x k Hx. destruct (Hn _ _ _ Hx) as (y & l & Hy & Hkl & Hxy).
    destruct (Hn' _ _ _ Hy) as (z & l' & Hz0 & Hll & Hyz).
    exists z, l'. split; [done|]. split; [lia|].
    apply nview_range in Hx, Hy. eapply prefix_compose; [|exact Hyz|exact Hxy]. lia.
Qed.

Lemma flags_subset_trans a b c : flags_subset a b -> flags_subset b c -> flags_subset a c.
Proof. unfold flags_subset. eauto. Qed.

(** ** The wire format *)

Lemma unpack_eth_here v r : length v = 6%nat -> unpack_eth (v ++ r) 0 = Ok (mkEth v).
Proof.
  intros H. unfold unpack_eth. do 6 (destruct v as [|? v]; [discriminate|]). destruct v; [|discriminate].
  rewrite unpack_from_fits.
  2: { pose proof (blen_nonneg r). autorewrite with blen. cbn. lia. }
  change (drop (Z.to_nat 0) ?x) with x.
  cbn [decode app take drop]. rewrite !be_decode_1. cbn [mbind result_bind].
  match goal with |- EthAddr_init (ETuple ?l) = Ok (mkEth ?v) => change l with (byte_to_Z <$> v) end.
  unfold EthAddr_init. change (blen _ =? 6) with true. cbv iota. by rewrite mapR_py_chr.
Qed.

Lemma unpack_eth_skip a b n off off' :
  blen a = n -> n <= off -> off - n = off' -> unpack_eth (a ++ b) off = unpack_eth b off'.
Proof. intros H1 H2 H3. unfold unpack_eth. by rewrite (unpack_from_skip' _ a b n off off'). Qed.

Ltac rd_eth :=
  repeat (erewrite unpack_eth_skip; [|blen_eval|rd_arith|rd_arith]);
  rewrite unpack_eth_here by assumption; cbn [mbind result_bind mret result_ret].

(** The scalar fields in the range of their wire width. *)
Definition zwidth (f : zfield) : nat :=
  match f with
  | F_in_port | F_dl_vlan | F_dl_type | F_tp_src | F_tp_dst => 2
  | F_dl_vlan_pcp | F_nw_tos | F_nw_proto => 1
  end.

(** A field that OpenFlow 1.0 gives no meaning under the match's Ethernet type
    and IP protocol must be wildcarded. *)
Definition prereq (m : ofp_match) : Prop :=
  if decide (zget m F_dl_type = Some 0x0800) then
    tp_proto (zget m F_nw_proto) = true \/ (zget m F_tp_src = None /\ zget m F_tp_dst = None)
  else
    zget m F_nw_tos = None /\ zget m F_tp_src = None /\ zget m F_tp_dst = None /\
    (zget m F_dl_type = Some 0x0806 \/
     (zget m F_nw_proto = None /\ nview m F_nw_src = None /\ nview m F_nw_dst = None)).

Definition match_wf (m : ofp_match) : Prop :=
  match_typed m /\ (forall f, uint_ok (zwidth f) (zraw m f)) /\
  0 <= wildcards m < 2 ^ 32 /\ normal_word (wildcards m) /\ prereq m.

Lemma or0_range m f : uint_ok (zwidth f) (zraw m f) -> uint_ok (zwidth f) (or0 (zget m f)).
Proof.
  intros H. rewrite zget_bit. destruct (Z.testbit _ _); [|done].
  unfold uint_ok. simpl. pose proof (pow256_pos (zwidth f)). lia.
Qed.

Lemma nw_ip_wf x : nw_typed x -> ip_wf (nw_ip x).
Proof. destruct x; [|done]. intros _. apply IPAddr_of_int_wf. Qed.

Lemma fix_addr_typed x : nw_typed x -> fix_addr (Some x) = ip_toUnsigned (nw_ip x) false.
Proof.
  destruct x as [z|a]; [|done]. cbn [fix_addr nw_ip nw_typed]. intros Hz.
  by rewrite toUnsigned_of_int, land_mask32.
Qed.

Lemma fix_addr_range m f : match_typed m -> 0 <= fix_addr (nget m f) < 2 ^ 32.
Proof.
  intros [_ H]. rewrite nget_bits. destruct (_ <=? _); [simpl; lia|].
  rewrite fix_addr_typed by apply H. apply ip_toUnsigned_range.
Qed.

Lemma pack_hw_length m f : match_typed m -> length (pack_hw (hget m f)) = 6%nat.
Proof.
  intros [H _]. specialize (H f). unfold pack_hw. destruct (hw_is_none _); [done|].
  rewrite hget_bit. destruct (Z.testbit _ _); [done|]. by destruct (hraw m f).
Qed.

Lemma pack_hw_value m f :
  match_typed m -> hview m f = None \/ hview m f = Some (pack_hw (hget m f)).
Proof.
  intros [H _]. specialize (H f). unfold pack_hw, hview. rewrite hget_bit.
  destruct (Z.testbit _ _); [by left|]. right. destruct (hraw m f) as [|a]; [done|]. simpl.
  unfold eth_toRaw. case_bool_decide as E; [by rewrite E|done].
Qed.

Lemma uint_ok_0 n : uint_ok n 0.
Proof. unfold uint_ok. pose proof (pow256_pos n). lia. Qed.

(** *** The wildcards survive the wire *)

Lemma testbit_of_zget m f : zget m f = None -> Z.testbit (wildcards m) (zpos f) = true.
Proof. rewrite zget_bit. by destruct (Z.testbit _ _). Qed.

Lemma nwbits_of_nview m f :
  normal_word (wildcards m) -> nview m f = None -> nwbits (wildcards m) f = 32.
Proof.
  intros Hn. rewrite nview_bits. specialize (Hn f).
  destruct (Z.leb_spec 32 (nwbits (wildcards m) f)); [lia|done].
Qed.

(** Clearing bits and setting them again. *)
Lemma testbit_lor_clear w c j :
  0 <= j -> Z.testbit (Z.lor (Z.land w (Z.lnot c)) c) j = Z.testbit w j || Z.testbit c j.
Proof.
  intros. rewrite Z.lor_spec, Z.land_spec, Z.lnot_spec by done.
  destruct (Z.testbit w j), (Z.testbit c j); done.
Qed.

Lemma lor_clear w c : Z.lor (Z.land w (Z.lnot c)) c = Z.lor w c.
Proof. apply Z.bits_inj'. intros j Hj. by rewrite testbit_lor_clear, Z.lor_spec. Qed.

Lemma nwbits_lor a b f : nwbits (Z.lor a b) f = Z.lor (nwbits a f) (nwbits b f).
Proof. unfold nwbits. by rewrite Z.land_lor_distr_l, Z.shiftr_lor. Qed.

(** Setting, then normalising, bits that are already in force. *)
Lemma normalize_lor w c :
  normal_word w ->
  (forall j, flag_pos j -> Z.testbit c j = true -> Z.testbit w j = true) ->
  (forall f, nwbits c f = 0 \/ nwbits c f = 63 /\ nwbits w f = 32) ->
  normalize_wildcards (Z.lor w c) = w.
Proof.
  intros Hw Hc Hn. apply word_ext.
  - intros j Hj. rewrite testbit_normalize, Z.lor_spec by done.
    destruct (Z.testbit c j) eqn:E; [|by rewrite orb_false_r].
    by rewrite (Hc j Hj E).
  - intros f. rewrite nwbits_normalize, nwbits_lor. specialize (Hw f).
    pose proof (nwbits_range w f).
    destruct (Hn f) as [->|[-> ->]]; [rewrite Z.lor_0_r; lia|done].
Qed.

Lemma testbit_pow2 k j : 0 <= k -> 0 <= j -> Z.testbit (2 ^ k) j = (k =? j).
Proof.
  intros. destruct (Z.eqb_spec k j) as [->|]; [by apply Z.pow2_bits_true | by apply Z.pow2_bits_false].
Qed.

Lemma testbit_TP j : 0 <= j -> Z.testbit TP_BITS j = true -> j = 6 \/ j = 7.
Proof.
  intros Hj. unfold TP_BITS. change OFPFW_TP_SRC with (2 ^ 6). change OFPFW_TP_DST with (2 ^ 7).
  rewrite Z.lor_spec, !testbit_pow2 by lia. rewrite orb_true_iff, !Z.eqb_eq. lia.
Qed.

Lemma testbit_ARP j : 0 <= j -> Z.testbit ARP_BITS j = true -> j = 6 \/ j = 7 \/ j = 21.
Proof.
  intros Hj. unfold ARP_BITS. change OFPFW_TP_SRC with (2 ^ 6). change OFPFW_TP_DST with (2 ^ 7).
  change OFPFW_NW_TOS with (2 ^ 21).
  rewrite !Z.lor_spec, !testbit_pow2 by lia. rewrite !orb_true_iff, !Z.eqb_eq. lia.
Qed.

Lemma testbit_NW j : flag_pos j -> Z.testbit NW_BITS j = true -> j = 5 \/ j = 6 \/ j = 7 \/ j = 21.
Proof.
  intros [Hj Hj']. unfold NW_BITS. change OFPFW_TP_SRC with (2 ^ 6). change OFPFW_TP_DST with (2 ^ 7).
  change OFPFW_NW_TOS with (2 ^ 21). change OFPFW_NW_PROTO with (2 ^ 5).
  rewrite !Z.lor_spec, (testbit_mask F_nw_src), (testbit_mask F_nw_dst), !testbit_pow2 by lia.
  cbv [nw_shift OFPFW_NW_SRC_SHIFT OFPFW_NW_DST_SHIFT].
  rewrite !orb_true_iff, !andb_true_iff, !Z.eqb_eq, !Z.leb_le, !Z.ltb_lt. lia.
Qed.

Lemma z_eq_or0 o t : t <> 0 -> z_eq o (Some t) = (or0 o =? t).
Proof.
  intros Ht. unfold z_eq. destruct o as [v|].
  - change (or0 (Some v)) with v. case_bool_decide as E; symmetry; [apply Z.eqb_eq | apply Z.eqb_neq]; congruence.
  - change (or0 None) with 0. rewrite bool_decide_eq_false_2 by done.
    symmetry. by apply Z.eqb_neq.
Qed.

Lemma tp_proto_or0 o : tp_proto (Some (or0 o)) = tp_proto o.
Proof.
  destruct o; reflexivity.
Qed.

(** The protocol number as [pack] writes it. *)
Definition wire_proto (m : ofp_match) : Z :=
  if z_eq (zget m F_dl_type) (Some 0x0800) || z_eq (zget m F_dl_type) (Some 0x0806)
  then or0 (zget m F_nw_proto) else 0.

Lemma wire_unwire m :
  normal_word (wildcards m) -> prereq m ->
  normalize_wildcards
    (unwire_wildcards (or0 (zget m F_dl_type)) (wire_proto m) (wire_wildcards m (wildcards m)))
  = wildcards m.
Proof.
  intros Hn Hp. unfold unwire_wildcards, wire_wildcards, wire_proto, prereq in *.
  rewrite !z_eq_or0 by done.
  destruct (decide (zget m F_dl_type = Some 0x0800)) as [Et|Et].
  - rewrite Et. simpl or0. rewrite Z.eqb_refl. cbv [orb]. rewrite tp_proto_or0.
    destruct Hp as [Hp|[H1 H2]].
    + rewrite Hp. by apply normal_word_fix.
    + destruct (tp_proto _); simpl; [by apply normal_word_fix|].
      rewrite lor_clear. apply normalize_lor; [done| |by left; destruct f].
      intros j [Hj _] Hc. apply (testbit_TP j Hj) in Hc as [-> | ->].
      * by apply (testbit_of_zget m F_tp_src).
      * by apply (testbit_of_zget m F_tp_dst).
  - destruct Hp as (H1 & H2 & H3 & H4).
    assert (E8 : (or0 (zget m F_dl_type) =? 0x0800) = false)
      by (rewrite <-z_eq_or0 by done; by apply bool_decide_eq_false).
    rewrite E8.
    destruct (Z.eqb_spec (or0 (zget m F_dl_type)) 0x0806) as [E6|E6].
    + rewrite lor_clear. apply normalize_lor; [done| |by left; destruct f].
      intros j [Hj _] Hc. apply (testbit_ARP j Hj) in Hc as [-> |[-> | ->]].
      * by apply (testbit_of_zget m F_tp_src).
      * by apply (testbit_of_zget m F_tp_dst).
      * by apply (testbit_of_zget m F_nw_tos).
    + destruct H4 as [H4|(H4 & H5 & H6)]; [by rewrite H4 in E6|].
      rewrite lor_clear. apply normalize_lor; [done| |].
      * intros j Hj Hc. apply (testbit_NW j Hj) in Hc as [-> |[-> |[-> | ->]]].
        -- by apply (testbit_of_zget m F_nw_proto).
        -- by apply (testbit_of_zget m F_tp_src).
        -- by apply (testbit_of_zget m F_tp_dst).
        -- by apply (testbit_of_zget m F_nw_tos).
      * intros f. right. split; [by destruct f|]. apply nwbits_of_nview; by destruct f.
Qed.

(** The values [pack] writes. *)
Definition wire_ip (m : ofp_match) (v : Z) : Z :=
  if z_eq (zget m F_dl_type) (Some 0x0800) then v else 0.
Definition wire_arp (m : ofp_match) (v : Z) : Z :=
  if z_eq (zget m F_dl_type) (Some 0x0800) || z_eq (zget m F_dl_type) (Some 0x0806) then v else 0.
Definition wire_tp (m : ofp_match) (v : Z) : Z :=
  if z_eq (zget m F_dl_type) (Some 0x0800) && tp_proto (zget m F_nw_proto) then v else 0.

Definition wv1 (m : ofp_match) (flow_mod : bool) : vals [cL; cH] :=
  (if flow_mod then wire_wildcards m (wildcards m) else wildcards m, (or0 (zget m F_in_port), tt)).
Definition wv2 (m : ofp_match) : vals [cH; cB] :=
  (or0 (zget m F_dl_vlan), (or0 (zget m F_dl_vlan_pcp), tt)).
Definition wv3 (m : ofp_match) : vals [cH; cB; cB] :=
  (or0 (zget m F_dl_type), (wire_ip m (or0 (zget m F_nw_tos)), (wire_proto m, tt))).
Definition wv4 (m : ofp_match) : vals [cL; cL; cH; cH] :=
  (wire_arp m (fix_addr (nget m F_nw_src)), (wire_arp m (fix_addr (nget m F_nw_dst)),
   (wire_tp m (or0 (zget m F_tp_src)), (wire_tp m (or0 (zget m F_tp_dst)), tt)))).

Definition match_bytes (m : ofp_match) (flow_mod : bool) : bytes :=
  encode [cL; cH] (wv1 m flow_mod) ++ pack_hw (hget m F_dl_src) ++ pack_hw (hget m F_dl_dst) ++
  encode [cH; cB] (wv2 m) ++ zeros 1 ++ encode [cH; cB; cB] (wv3 m) ++ zeros 2 ++
  encode [cL; cL; cH; cH] (wv4 m).

Lemma uint_ok_if n (b : bool) v : uint_ok n v -> uint_ok n (if b then v else 0).
Proof. destruct b; [done|]. intros _. apply uint_ok_0. Qed.

Lemma land_lnot_le w c : 0 <= w -> 0 <= Z.land w (Z.lnot c) <= w.
Proof.
  intros Hw. rewrite <-Z.ldiff_land. apply Z.ldiff_le; [done|].
  apply Z.bits_inj'. intros j Hj. rewrite !Z.ldiff_spec, Z.bits_0.
  by destruct (Z.testbit w j), (Z.testbit c j).
Qed.

Lemma wire_wildcards_range m w : 0 <= w < 2 ^ 32 -> 0 <= wire_wildcards m w < 2 ^ 32.
Proof.
  intros Hw. unfold wire_wildcards.
  repeat case_match; try done;
    match goal with |- context [Z.land w (Z.lnot ?c)] => pose proof (land_lnot_le w c) end; lia.
Qed.

Lemma wv_packable m fm :
  match_wf m -> packable [cL; cH] (wv1 m fm) /\ packable [cH; cB] (wv2 m) /\
                packable [cH; cB; cB] (wv3 m) /\ packable [cL; cL; cH; cH] (wv4 m).
Proof.
  intros (Ht & Hz & Hw & _ & _).
  assert (Ho : forall f, uint_ok (zwidth f) (or0 (zget m f))) by (intros; by apply or0_range).
  assert (Ha : forall f, uint_ok 4 (wire_arp m (fix_addr (nget m f)))).
  { intros f. apply uint_ok_if. by apply fix_addr_range. }
  pose proof (wire_wildcards_range m _ Hw).
  cbn [packable fst snd wv1 wv2 wv3 wv4]. split_and!; try done.
  all: repeat match goal with
    | |- uint_ok _ (wire_arp _ (fix_addr _)) => apply Ha
    | |- uint_ok _ (wire_ip _ _) => apply uint_ok_if
    | |- uint_ok _ (wire_tp _ _) => apply uint_ok_if
    | |- uint_ok _ (wire_proto _) => apply uint_ok_if
    end; first [by destruct fm | match goal with H : _ |- uint_ok _ (or0 (zget _ ?f)) => apply (H f) end].
Qed.

Lemma match_pack_bytes m fm : match_wf m -> match_pack m true fm = Ok (match_bytes m fm).
Proof.
  intros Hwf. pose proof (wv_packable m fm Hwf) as (H1 & H2 & H3 & H4).
  destruct Hwf as ([Hh _] & _). specialize (Hh F_dl_dst). simpl in Hh.
  unfold match_pack. assert ((hw_len (m_dl_dst m) =? 6) = true) as ->.
  { by destruct (m_dl_dst m). }
  cbn [negb orb guard_ok mbind result_bind].
  apply pack_ok in H1, H2, H3, H4.
  unfold wv1, wv2, wv3, wv4, wire_ip, wire_arp, wire_proto, wire_tp in *. cbv zeta.
  rewrite H1. cbn [mbind result_bind]. rewrite H2. cbn [mbind result_bind].
  rewrite H3. cbn [mbind result_bind]. rewrite H4. reflexivity.
Qed.

Lemma pack_hw_blen m f : match_typed m -> blen (pack_hw (hget m f)) = 6.
Proof. intros H. unfold blen. by rewrite pack_hw_length. Qed.

Lemma match_bytes_blen m fm : match_typed m -> blen (match_bytes m fm) = 40.
Proof.
  intros H. unfold match_bytes. autorewrite with blen. rewrite !pack_hw_blen by done.
  by cbn.
Qed.

(** What [unpack] makes of those bytes. *)
Definition match_read (m : ofp_match) (flow_mod : bool) : ofp_match :=
  mkMatch
    (normalize_wildcards
       (if flow_mod then unwire_wildcards (or0 (zget m F_dl_type)) (wire_proto m)
                           (wire_wildcards m (wildcards m))
        else wildcards m))
    (or0 (zget m F_in_port)) (HwEth (mkEth (pack_hw (hget m F_dl_src))))
    (HwEth (mkEth (pack_hw (hget m F_dl_dst)))) (or0 (zget m F_dl_vlan)) (or0 (zget m F_dl_vlan_pcp))
    (or0 (zget m F_dl_type)) (wire_ip m (or0 (zget m F_nw_tos))) (wire_proto m)
    (NwIP (IPAddr_of_int (wire_arp m (fix_addr (nget m F_nw_src))) false))
    (NwIP (IPAddr_of_int (wire_arp m (fix_addr (nget m F_nw_dst))) false))
    (wire_tp m (or0 (zget m F_tp_src))) (wire_tp m (or0 (zget m F_tp_dst))).

Lemma match_unpack_bytes m m0 fm r :
  match_wf m -> match_unpack m0 (match_bytes m fm ++ r) fm = Ok (match_read m fm, r).
Proof.
  intros Hwf. pose proof (wv_packable m fm Hwf) as (H1 & H2 & H3 & H4).
  destruct Hwf as (Ht & _).
  pose proof (pack_hw_length m F_dl_src Ht) as Ls. pose proof (pack_hw_length m F_dl_dst Ht) as Ld.
  pose proof (pack_hw_blen m F_dl_src Ht) as Bs. pose proof (pack_hw_blen m F_dl_dst Ht) as Bd.
  unfold match_unpack, match_len. pose proof (match_bytes_blen m fm Ht) as Hb.
  len_ok. rewrite (pyfrom_app _ r 40) by done.
  unfold match_bytes. rewrite <-!app_assoc.
  rd. cbn [wv1]. rd_eth. rd_eth. rd. cbn [wv2]. rd. cbn [wv3]. rd. cbn [wv4].
  by destruct fm.
Qed.

Lemma wire_ip_some m v : zget m F_dl_type = Some 0x0800 -> wire_ip m v = v.
Proof. intros H. unfold wire_ip. by rewrite H. Qed.

(** A scalar that [pack] writes as zero is wildcarded, under [prereq]. *)
Lemma match_read_scalar m fm f :
  match_wf m -> zget m f = None \/ zget m f = Some (zraw (match_read m fm) f).
Proof.
  intros (_ & _ & _ & _ & Hp).
  assert (Hor : forall f, zget m f = None \/ zget m f = Some (or0 (zget m f)))
    by (intros g; destruct (zget m g); [by right|by left]).
  unfold prereq in Hp. destruct f; cbn [zraw match_read m_in_port m_dl_vlan m_dl_vlan_pcp
    m_dl_type m_nw_tos m_nw_proto m_tp_src m_tp_dst]; try apply Hor;
    unfold wire_ip, wire_proto, wire_tp, z_eq;
    destruct (decide (zget m F_dl_type = Some 0x0800)) as [E|E];
    [rewrite E; cbn [andb orb] | rewrite (bool_decide_eq_false_2 _ E); cbn [andb orb]
    | rewrite E; cbn [andb orb] | rewrite (bool_decide_eq_false_2 _ E); cbn [andb orb]
    | rewrite E; cbn [andb orb] | rewrite (bool_decide_eq_false_2 _ E); cbn [andb orb]
    | rewrite E; cbn [andb orb] | rewrite (bool_decide_eq_false_2 _ E); cbn [andb orb]].
  - apply Hor.
  - left. tauto.
  - apply Hor.
  - destruct Hp as (_ & _ & _ & [Hp|Hp]); [|left; tauto]. rewrite Hp. apply Hor.
  - destruct Hp as [Hp|Hp]; [|left; tauto]. rewrite Hp. apply Hor.
  - left. tauto.
  - destruct Hp as [Hp|Hp]; [|left; tauto]. rewrite Hp. apply Hor.
  - left. tauto.
Qed.

Lemma match_read_addr m f :
  match_wf m ->
  nview m f = None \/
  nw_ip (nraw m f) = IPAddr_of_int (wire_arp m (fix_addr (nget m f))) false.
Proof.
  intros ([_ Ht] & _ & _ & Hn & Hp). specialize (Ht f).
  destruct (nview m f) as [[x k]|] eqn:Ev; [right|by left].
  assert (wire_arp m (fix_addr (nget m f)) = fix_addr (nget m f)) as ->.
  { unfold wire_arp, prereq in *. destruct (decide (zget m F_dl_type = Some 0x0800)) as [E|E].
    - by rewrite E.
    - destruct Hp as (_ & _ & _ & [Hp|(_ & H1 & H2)]); [by rewrite Hp|].
      destruct f; congruence. }
  rewrite nview_bits in Ev. rewrite nget_bits. destruct (_ <=? _); [done|].
  rewrite fix_addr_typed by done. by rewrite of_int_toUnsigned by (by apply nw_ip_wf).
Qed.

Lemma match_read_equiv m fm : match_wf m -> match_read m fm ≡ m.
Proof.
  intros Hwf. pose proof Hwf as (Ht & _ & _ & Hn & Hp).
  assert (Hw : wildcards (match_read m fm) = wildcards m).
  { simpl. destruct fm; [by apply wire_unwire | by apply normal_word_fix]. }
  split; [done|]. split; [|split]; intros f.
  - rewrite (zget_bit (match_read m fm)), Hw.
    destruct (match_read_scalar m fm f Hwf) as [E|E].
    + by rewrite (testbit_of_zget m f E).
    + rewrite E. rewrite zget_bit in E. by destruct (Z.testbit _ _).
  - unfold hview at 1. rewrite hget_bit, Hw.
    destruct (pack_hw_value m f Ht) as [E|E].
    + unfold hview in *. rewrite hget_bit in *. by destruct (Z.testbit _ _).
    + rewrite E. unfold hview in E. rewrite hget_bit in E. destruct (Z.testbit _ _) eqn:Eb; [done|].
      destruct f; simpl; unfold eth_toRaw; simpl; done.
  - rewrite !nview_bits, Hw. destruct (match_read_addr m f Hwf) as [E|E].
    + rewrite nview_bits in E. by destruct (_ <=? _).
    + rewrite E. by destruct f.
Qed.

Lemma match_read_typed m fm : match_typed m -> match_typed (match_read m fm).
Proof.
  intros H. split; intros []; simpl.
  - by apply pack_hw_length.
  - by apply pack_hw_length.
  - apply IPAddr_of_int_wf.
  - apply IPAddr_of_int_wf.
Qed.

(** What structures that embed a match rely on. *)
Lemma match_law m fm :
  match_wf m ->
  match_pack m true fm = Ok (match_bytes m fm) /\ blen (match_bytes m fm) = 40 /\
  (forall m0 r, match_unpack m0 (match_bytes m fm ++ r) fm = Ok (match_read m fm, r)) /\
  match_eq (match_read m fm) m = true.
Proof.
  intros H. pose proof H as [Ht _].
  split; [by apply match_pack_bytes|]. split; [by apply match_bytes_blen|].
  split; [intros; by apply match_unpack_bytes|].
  apply match_eq_equiv; [by apply match_read_typed|done|by apply match_read_equiv].
Qed.

(** ** Setters *)

Lemma zraw_zput m f v w g :
  zraw (set_wildcards (zput m f v) w) g = if decide (f = g) then v else zraw m g.
Proof. by destruct m, f, g. Qed.
Lemma hraw_zput m f v w g : hraw (set_wildcards (zput m f v) w) g = hraw m g.
Proof. by destruct m, f, g. Qed.
Lemma nraw_zput m f v w g : nraw (set_wildcards (zput m f v) w) g = nraw m g.
Proof. by destruct m, f, g. Qed.
Lemma zraw_hput m f v w g : zraw (set_wildcards (hput m f v) w) g = zraw m g.
Proof. by destruct m, f, g. Qed.
Lemma hraw_hput m f v w g :
  hraw (set_wildcards (hput m f v) w) g = if decide (f = g) then v else hraw m g.
Proof. by destruct m, f, g. Qed.
Lemma nraw_hput m f v w g : nraw (set_wildcards (hput m f v) w) g = nraw m g.
Proof. by destruct m, f, g. Qed.
Lemma zraw_nput m f v w g : zraw (set_wildcards (nput m f v) w) g = zraw m g.
Proof. by destruct m, f, g. Qed.
Lemma hraw_nput m f v w g : hraw (set_wildcards (nput m f v) w) g = hraw m g.
Proof. by destruct m, f, g. Qed.
Lemma nraw_nput m f v w g :
  nraw (set_wildcards (nput m f v) w) g = if decide (f = g) then v else nraw m g.
Proof. by destruct m, f, g. Qed.
Lemma wildcards_set m w : wildcards (set_wildcards m w) = w.
Proof. by destruct m. Qed.

Create Rewrite HintDb setters.
#[export] Hint Rewrite zraw_zput hraw_zput nraw_zput zraw_hput hraw_hput nraw_hput
  zraw_nput hraw_nput nraw_nput wildcards_set : setters.

Lemma zpos_inj f g : zpos f = zpos g <-> f = g.
Proof. split; [|by intros ->]. by destruct f, g. Qed.
Lemma hpos_inj f g : hpos f = hpos g <-> f = g.
Proof. split; [|by intros ->]. by destruct f, g. Qed.
Lemma zpos_hpos f g : zpos f <> hpos g.
Proof. by destruct f, g. Qed.

(** The counts do not see the flags. *)
Lemma nwbits_flag_ext w w' f :
  (forall j, 8 <= j < 20 -> Z.testbit w j = Z.testbit w' j) -> nwbits w f = nwbits w' f.
Proof.
  intros H. apply Z.bits_inj'. intros j Hj. rewrite !nwbits_testbit by done.
  destruct (Z.ltb_spec j 6); [|by rewrite !andb_false_r]. rewrite !andb_true_r. apply H.
  destruct f; cbv [nw_shift OFPFW_NW_SRC_SHIFT OFPFW_NW_DST_SHIFT]; lia.
Qed.

Lemma nwbits_clear w k f : flag_pos k -> nwbits (Z.land w (Z.lnot (2 ^ k))) f = nwbits w f.
Proof.
  intros [Hk Hk']. apply nwbits_flag_ext. intros j Hj. rewrite testbit_clear by lia.
  destruct (Z.eqb_spec k j); [lia|by rewrite andb_true_r].
Qed.
Lemma nwbits_setb w k f : flag_pos k -> nwbits (Z.lor w (2 ^ k)) f = nwbits w f.
Proof.
  intros [Hk Hk']. apply nwbits_flag_ext. intros j Hj. rewrite testbit_set by lia.
  destruct (Z.eqb_spec k j); [lia|by rewrite orb_false_r].
Qed.

Lemma get_nw_ext m m' f :
  nwbits (wildcards m') f = nwbits (wildcards m) f -> nraw m' f = nraw m f -> get_nw m' f = get_nw m f.
Proof. intros H1 H2. rewrite !get_nw_bits, H1, H2. done. Qed.

Lemma zset_frame m f o :
  (forall g, g <> f -> zget (zset m f o) g = zget m g) /\
  (forall g, hget (zset m f o) g = hget m g) /\ (forall g, get_nw (zset m f o) g = get_nw m g).
Proof.
  split; [|split]; intros g.
  - intros Hg. rewrite !zget_bit. unfold zset.
    destruct o; autorewrite with setters; rewrite zbit_pow, ?testbit_clear, ?testbit_set by done;
      (destruct (Z.eqb_spec (zpos f) (zpos g)) as [E|E]; [by apply zpos_inj in E as ->|]);
      rewrite ?andb_true_r, ?orb_false_r; by rewrite decide_False.
  - rewrite !hget_bit. unfold zset.
    destruct o; autorewrite with setters; rewrite zbit_pow, ?testbit_clear, ?testbit_set by done;
      (destruct (Z.eqb_spec (zpos f) (hpos g)) as [E|E]; [by apply zpos_hpos in E|]);
      by rewrite ?andb_true_r, ?orb_false_r.
  - apply get_nw_ext; unfold zset; destruct o; autorewrite with setters;
      rewrite ?zbit_pow, ?nwbits_clear, ?nwbits_setb by done; done.
Qed.

Lemma zset_get m f o : zget (zset m f o) f = o.
Proof.
  rewrite !zget_bit. unfold zset. destruct o; autorewrite with setters;
    rewrite zbit_pow, ?testbit_clear, ?testbit_set, Z.eqb_refl by done.
  - rewrite andb_false_r. by rewrite decide_True.
  - by rewrite orb_true_r.
Qed.

Lemma hset_frame m f o :
  (forall g, zget (hset m f o) g = zget m g) /\
  (forall g, g <> f -> hget (hset m f o) g = hget m g) /\ (forall g, get_nw (hset m f o) g = get_nw m g).
Proof.
  split; [|split]; intros g.
  - rewrite !zget_bit. unfold hset.
    destruct o; autorewrite with setters; rewrite hbit_pow, ?testbit_clear, ?testbit_set by done;
      (destruct (Z.eqb_spec (hpos f) (zpos g)) as [E|E]; [by symmetry in E; apply zpos_hpos in E|]);
      by rewrite ?andb_true_r, ?orb_false_r.
  - intros Hg. rewrite !hget_bit. unfold hset.
    destruct o; autorewrite with setters; rewrite hbit_pow, ?testbit_clear, ?testbit_set by done;
      (destruct (Z.eqb_spec (hpos f) (hpos g)) as [E|E]; [by apply hpos_inj in E as ->|]);
      rewrite ?andb_true_r, ?orb_false_r; by rewrite decide_False.
  - apply get_nw_ext; unfold hset; destruct o; autorewrite with setters;
      rewrite ?hbit_pow, ?nwbits_clear, ?nwbits_setb by done; done.
Qed.

Lemma hset_get m f o : hget (hset m f o) f = o.
Proof.
  rewrite !hget_bit. unfold hset. destruct o; autorewrite with setters;
    rewrite hbit_pow, ?testbit_clear, ?testbit_set, Z.eqb_refl by done.
  - rewrite andb_false_r. by rewrite decide_True.
  - by rewrite orb_true_r.
Qed.

Lemma set_nw_addr_frame m f v k :
  0 <= k <= 32 ->
  (forall g, zget (set_nw_addr m f v k) g = zget m g) /\
  (forall g, hget (set_nw_addr m f v k) g = hget m g) /\
  (forall g, g <> f -> get_nw (set_nw_addr m f v k) g = get_nw m g).
Proof.
  intros Hk. split; [|split]; intros g.
  - rewrite !zget_bit. unfold set_nw_addr. autorewrite with setters.
    by rewrite testbit_put_nw_flag by (done || lia).
  - rewrite !hget_bit. unfold set_nw_addr. autorewrite with setters.
    by rewrite testbit_put_nw_flag by (done || lia).
  - intros Hg. apply get_nw_ext; unfold set_nw_addr; autorewrite with setters.
    + rewrite nwbits_put by lia. by rewrite decide_False.
    + by rewrite decide_False.
Qed.

Lemma set_nw_addr_get m f v k :
  0 <= k <= 32 -> get_nw (set_nw_addr m f v k) f = if k =? 0 then (None, 0) else (Some v, k).
Proof.
  intros Hk. rewrite get_nw_bits. unfold set_nw_addr. autorewrite with setters.
  rewrite nwbits_put, !decide_True by (done || lia).
  destruct (Z.leb_spec 32 (32 - k)), (Z.eqb_spec k 0); try lia; [done|].
  f_equal. lia.
Qed.

Lemma clamp32_range b : 0 <= clamp32 b <= 32.
Proof. unfold clamp32. destruct (Z.ltb_spec 32 b), (Z.ltb_spec b 0); lia. Qed.

(** ** Properties *)


Definition web_match : ofp_match :=
  set_nw_addr (zset (zset new_match F_dl_type (Some 0x0800)) F_nw_proto (Some 6)) F_nw_dst
    (NwIP (IPAddr_of_int 0x0a000000 false)) 8.
Definition http_match : ofp_match :=
  zset (set_nw_addr web_match F_nw_dst (NwIP (IPAddr_of_int 0x0a010203 false)) 32) F_tp_dst (Some 80).

Lemma match_typed_examples : match_typed new_match /\ match_typed web_match /\ match_typed http_match.
Proof. repeat split; try (intros []; reflexivity); intros []; vm_compute; split; congruence. Defined.


(** Subsumption composes: what is subsumed by a subsumed match is subsumed
    by the larger one, so a packet match hit by the narrow entry is hit by the
    wide one. *)
Theorem matches_with_wildcards_trans (a b c : ofp_match) (cw : bool) :
  match_typed a -> match_typed b -> match_typed c ->
  matches_with_wildcards a b true = true -> matches_with_wildcards b c cw = true ->
  matches_with_wildcards a c cw = true.
Proof.
  intros Ha Hb Hc. rewrite !mww_equiv_or_covers by done.
  intros [E|[Hf Hab]] [E'|[Hf' Hbc]].
  - left. by rewrite E.
  - right. split; [by rewrite E|]. by rewrite E.
  - right. split; [by rewrite <-E'; auto|]. by rewrite <-E'.
  - right. split; [|by eapply covers_trans]. intros ->.
    eapply flags_subset_trans; [by apply Hf'|by apply Hf].
Qed.

Lemma matches_with_wildcards_trans_witness :
  match_typed new_match /\ matches_with_wildcards new_match web_match true = true /\
  matches_with_wildcards web_match http_match false = true /\
  matches_with_wildcards new_match http_match false = true.
Proof.
  split; [apply match_typed_examples|]. split; [reflexivity|]. split; [reflexivity|].
  apply (matches_with_wildcards_trans new_match web_match http_match false);
    first [apply match_typed_examples | reflexivity].
Defined.

(** [==] on matches holds exactly between matches that stand for the same
    thing, whichever form their addresses are stored in. *)
Theorem match_eq_spec (a b : ofp_match) :
  match_typed a -> match_typed b -> match_eq a b = true <-> a ≡ b.
Proof. apply match_eq_equiv. Qed.

Lemma match_eq_spec_witness :
  match_typed new_match /\ match_typed (clone new_match) /\ new_match ≡ clone new_match.
Proof.
  split; [apply match_typed_examples|]. split; [apply match_typed_examples|].
  apply (match_eq_spec new_match (clone new_match));
    first [apply match_typed_examples | reflexivity].
Defined.

(** [unpack] after [pack] gives back the match, as itself or inside a flow
    modification, in front of any further bytes; the 40 bytes are consumed and
    nothing else. *)
Theorem match_pack_unpack (m m0 : ofp_match) (flow_mod : bool) (rest : bytes) :
  match_wf m ->
  exists bs m', match_pack m true flow_mod = Ok bs /\ blen bs = match_len /\
    match_unpack m0 (bs ++ rest) flow_mod = Ok (m', rest) /\ m' ≡ m.
Proof.
  intros H. exists (match_bytes m flow_mod), (match_read m flow_mod).
  split; [by apply match_pack_bytes|]. split; [apply match_bytes_blen; apply H|].
  split; [by apply match_unpack_bytes | by apply match_read_equiv].
Qed.

Lemma new_match_typed : match_typed new_match.
Proof. split; intros []; first [reflexivity | split; vm_compute; congruence]. Qed.
Lemma match_wf_new : match_wf new_match.
Proof.
  split; [apply new_match_typed|].
  split; [intros []; vm_compute; split; congruence|].
  split; [vm_compute; split; congruence|].
  split; [intros []; vm_compute; congruence|]. vm_compute. tauto.
Qed.

Lemma match_wf_http : match_wf http_match.
Proof.
  split; [apply match_typed_examples|].
  split; [intros []; vm_compute; split; congruence|].
  split; [vm_compute; split; congruence|].
  split; [intros []; vm_compute; congruence|]. by left.
Defined.

Lemma match_pack_unpack_witness :
  match_wf http_match /\
  exists bs m', match_pack http_match true true = Ok bs /\ blen bs = match_len /\
    match_unpack new_match (bs ++ str "rest") true = Ok (m', str "rest") /\ m' ≡ http_match.
Proof.
  split; [exact match_wf_http|].
  exact (match_pack_unpack http_match new_match true (str "rest") match_wf_http).
Defined.

(** [_normalize_wildcards] changes nothing that [get_nw_src], [get_nw_dst]
    and the flag tests can see, leaves both counts at most 32, and is
    idempotent. *)
Theorem normalize_wildcards_spec (m : ofp_match) :
  let m' := set_wildcards m (normalize_wildcards (wildcards m)) in
  (forall f, zget m' f = zget m f) /\ (forall f, hget m' f = hget m f) /\
  (forall f, get_nw m' f = get_nw m f) /\
  (forall f, Z.shiftr (Z.land (wildcards m') (nw_mask f)) (nw_shift f) <= 32) /\
  normalize_wildcards (wildcards m') = wildcards m'.
Proof.
  intros m'. assert (Hw : wildcards m' = normalize_wildcards (wildcards m)) by apply wildcards_set.
  assert (Hr : zraw m' = zraw m /\ hraw m' = hraw m /\ nraw m' = nraw m)
    by (unfold m'; by destruct m).
  destruct Hr as (Hz & Hh & Hn).
  split; [|split; [|split; [|split]]].
  - intros f. by rewrite !zget_bit, Hw, testbit_normalize, Hz.
  - intros f. by rewrite !hget_bit, Hw, testbit_normalize, Hh.
  - intros f. rewrite !get_nw_bits, Hw, nwbits_normalize, Hn.
    destruct (Z.leb_spec 32 (nwbits (wildcards m) f)).
    + rewrite Z.min_l by lia. done.
    + rewrite Z.min_r by lia. by destruct (Z.leb_spec 32 (nwbits (wildcards m) f)); [lia|].
  - intros f. rewrite Hw. apply normalize_normal.
  - rewrite Hw. apply normal_word_fix, normalize_normal.
Qed.

(** Attribute assignment: the field assigned reads back as the value given
    ([None] wildcards it, a prefix of length 0 wildcards an address), and no
    other field changes. *)
Theorem match_set_get (m : ofp_match) :
  (forall f o, zget (zset m f o) f = o /\
     (forall g, g <> f -> zget (zset m f o) g = zget m g) /\
     (forall g, hget (zset m f o) g = hget m g) /\ (forall g, get_nw (zset m f o) g = get_nw m g)) /\
  (forall f o, hget (hset m f o) f = o /\
     (forall g, zget (hset m f o) g = zget m g) /\
     (forall g, g <> f -> hget (hset m f o) g = hget m g) /\
     (forall g, get_nw (hset m f o) g = get_nw m g)) /\
  (forall inet_aton f a bits, exists m', set_nw inet_aton m f (AAddr a) bits = Ok m' /\
     get_nw m' f = (let k := clamp32 (default 32 bits) in
                    if k =? 0 then (None, 0) else (Some (NwIP a), k)) /\
     (forall g, zget m' g = zget m g) /\ (forall g, hget m' g = hget m g) /\
     (forall g, g <> f -> get_nw m' g = get_nw m g)).
Proof.
  split; [|split].
  - intros f o. split; [apply zset_get|]. apply zset_frame.
  - intros f o. split; [apply hset_get|]. apply hset_frame.
  - intros inet f a bits. pose proof (clamp32_range (default 32 bits)).
    exists (set_nw_addr m f (NwIP a) (clamp32 (default 32 bits))).
    split; [done|]. split; [by apply set_nw_addr_get|]. by apply set_nw_addr_frame.
Qed.

(** Resetting the destination address with [None] also destroys the stored
    source address, which stays constrained: the match silently changes. *)
Theorem set_nw_dst_None_resets_src (inet_aton : bytes -> result bytes) (m : ofp_match) (a : IPAddr) (k : Z) :
  get_nw m F_nw_src = (Some (NwIP a), k) ->
  exists m', set_nw inet_aton m F_nw_dst ANone None = Ok m' /\
    get_nw m' F_nw_dst = (None, 0) /\ get_nw m' F_nw_src = (Some (NwInt 0), k).
Proof.
  intros H. eexists. split; [reflexivity|].
  assert (Hb : forall g, nwbits (Z.lor (Z.land (wildcards m) (Z.lnot (nw_mask F_nw_dst))) (nw_all F_nw_dst)) g
            = if decide (F_nw_dst = g) then 32 else nwbits (wildcards m) g)
    by (intros g; apply (nwbits_put (wildcards m) F_nw_dst g 32); lia).
  rewrite get_nw_bits in H. rewrite !get_nw_bits. autorewrite with setters. rewrite !Hb. simpl.
  split; [done|]. destruct (_ <=? _); [done|]. by injection H as _ <-.
Qed.

Lemma set_nw_dst_None_resets_src_witness :
  get_nw (set_nw_addr new_match F_nw_src (NwIP (IPAddr_of_int 5 false)) 32) F_nw_src
    = (Some (NwIP (IPAddr_of_int 5 false)), 32) /\
  exists m', set_nw (fun _ => Err ValueError)
      (set_nw_addr new_match F_nw_src (NwIP (IPAddr_of_int 5 false)) 32) F_nw_dst ANone None = Ok m' /\
    get_nw m' F_nw_dst = (None, 0) /\ get_nw m' F_nw_src = (Some (NwInt 0), 32).
Proof.
  split; [reflexivity|].
  exact (set_nw_dst_None_resets_src (fun _ => Err ValueError)
    (set_nw_addr new_match F_nw_src (NwIP (IPAddr_of_int 5 false)) 32) (IPAddr_of_int 5 false) 32 eq_refl).
Defined.
