(* ===== verification/OfpActions.v ===== *)
(** * Flow actions ([ofp_action_*] of [pox/openflow/libopenflow_01.py])

    One record per action class, its constructor defaults, [pack], [unpack],
    [__len__] and [__eq__]; the union of the classes that [_action_map] and the
    generic header give, and the parser [_unpack_actions].  A field that the
    constructor leaves at [None] is an [option]; packing it raises
    [struct.error]. *)

From S2P Require Import Prelude PyStruct Addresses Codec OfpMatch.

Definition OFPAT_OUTPUT : Z := 0.
Definition OFPAT_SET_VLAN_VID : Z := 1.
Definition OFPAT_SET_VLAN_PCP : Z := 2.
Definition OFPAT_STRIP_VLAN : Z := 3.
Definition OFPAT_SET_DL_SRC : Z := 4.
Definition OFPAT_SET_DL_DST : Z := 5.
Definition OFPAT_SET_NW_SRC : Z := 6.
Definition OFPAT_SET_NW_DST : Z := 7.
Definition OFPAT_SET_NW_TOS : Z := 8.
Definition OFPAT_SET_TP_SRC : Z := 9.
Definition OFPAT_SET_TP_DST : Z := 10.
Definition OFPAT_ENQUEUE : Z := 11.
Definition OFPAT_SET_MPLS_LABEL : Z := 13.
Definition OFPAT_SET_MPLS_TC : Z := 14.
Definition OFPAT_SET_MPLS_TTL : Z := 15.
Definition OFPAT_DEC_MPLS_TTL : Z := 16.
Definition OFPAT_PUSH_MPLS : Z := 19.
Definition OFPAT_POP_MPLS : Z := 20.
Definition OFPAT_RESUBMIT : Z := 21.
Definition OFPAT_VENDOR : Z := 65535.

Definition OFPP_MAX : Z := 65280.
Definition OFPP_IN_PORT : Z := 65528.
Definition OFPP_TABLE : Z := 65529.
Definition OFPP_NORMAL : Z := 65530.
Definition OFPP_FLOOD : Z := 65531.
Definition OFPP_ALL : Z := 65532.
Definition OFPP_CONTROLLER : Z := 65533.
Definition OFPP_LOCAL : Z := 65534.
Definition OFPP_NONE : Z := 65535.

(** ** The generic header, and the two classes that only fix its type *)

Record ofp_action_header := mk_action_header {
  ah_type : option Z;
  ah_length : Z;
  ah_data : bytes
}.

Definition new_action_header : ofp_action_header := mk_action_header None 8 [].
Definition new_action_mpls_dec_ttl : ofp_action_header := mk_action_header (Some OFPAT_DEC_MPLS_TTL) 8 [].
Definition new_action_resubmit : ofp_action_header := mk_action_header (Some OFPAT_RESUBMIT) 8 [].

Definition action_header_pack (a : ofp_action_header) (assertstruct : bool) : result (option bytes) :=
  t ← need StructError (ah_type a);
  p ← pack [cH; cH] (t, (ah_length a, tt));
  mret (Some (p ++ zeros 4)).

Definition action_header_unpack (a : ofp_action_header) (b : bytes) : result (ofp_action_header * bytes) :=
  if blen b <? 8 then mret (a, b) else
  '(t, (l, _)) ← unpack_from [cH; cH] b 0;
  if blen b <? l then mret (mk_action_header (Some t) l (ah_data a), b)
  else mret (mk_action_header (Some t) l (pyslice b 8 (8 + l)), pyfrom b l).

(** [__eq__] ignores the data. *)
Definition action_header_eq (a b : ofp_action_header) : bool :=
  bool_decide (ah_type a = ah_type b) && (ah_length a =? ah_length b).

(** ** Output *)

Record ofp_action_output := mk_action_output {
  ao_type : Z;
  ao_length : Z;
  ao_port : option Z;
  ao_max_len : Z
}.

Definition new_action_output : ofp_action_output := mk_action_output OFPAT_OUTPUT 8 None 0xffff.

(** What [pack] does to the object first: [max_len] only means something for
    the controller port. *)
Definition action_output_after (a : ofp_action_output) : ofp_action_output :=
  if bool_decide (ao_port a = Some OFPP_CONTROLLER) then a
  else mk_action_output (ao_type a) (ao_length a) (ao_port a) 0.

Definition action_output_pack (a : ofp_action_output) (assertstruct : bool) : result (option bytes) :=
  let a := action_output_after a in
  port ← need StructError (ao_port a);
  p ← pack [cH; cH; cH; cH] (ao_type a, (ao_length a, (port, (ao_max_len a, tt))));
  mret (Some p).

Definition action_output_unpack (a : ofp_action_output) (b : bytes) : result (ofp_action_output * bytes) :=
  if blen b <? 8 then mret (a, b) else
  '(t, (l, (port, (max_len, _)))) ← unpack_from [cH; cH; cH; cH] b 0;
  mret (mk_action_output t l (Some port) max_len, pyfrom b 8).

Definition action_output_eq (a b : ofp_action_output) : bool :=
  (ao_type a =? ao_type b) && (ao_length a =? ao_length b) &&
  bool_decide (ao_port a = ao_port b) && (ao_max_len a =? ao_max_len b).

(** ** Enqueue *)

Record ofp_action_enqueue := mk_action_enqueue {
  aq_type : Z;
  aq_length : Z;
  aq_port : Z;
  aq_queue_id : Z
}.

Definition new_action_enqueue : ofp_action_enqueue := mk_action_enqueue OFPAT_ENQUEUE 16 0 0.

Definition action_enqueue_pack (a : ofp_action_enqueue) (assertstruct : bool) : result (option bytes) :=
  p ← pack [cH; cH; cH] (aq_type a, (aq_length a, (aq_port a, tt)));
  q ← pack [cL] (aq_queue_id a, tt);
  mret (Some (p ++ zeros 6 ++ q)).

Definition action_enqueue_unpack (a : ofp_action_enqueue) (b : bytes) : result (ofp_action_enqueue * bytes) :=
  if blen b <? 16 then mret (a, b) else
  '(t, (l, (port, _))) ← unpack_from [cH; cH; cH] b 0;
  '(queue_id, _) ← unpack_from [cL] b 12;
  mret (mk_action_enqueue t l port queue_id, pyfrom b 16).

Definition action_enqueue_eq (a b : ofp_action_enqueue) : bool :=
  (aq_type a =? aq_type b) && (aq_length a =? aq_length b) &&
  (aq_port a =? aq_port b) && (aq_queue_id a =? aq_queue_id b).

(** ** Push MPLS *)

Record ofp_action_push_mpls := mk_action_push_mpls {
  apm_type : Z;
  apm_length : Z;
  apm_ethertype : Z
}.

Definition new_action_push_mpls : ofp_action_push_mpls := mk_action_push_mpls OFPAT_PUSH_MPLS 8 0x8847.

(** Without [assertstruct] the method returns [None]: its body is indented
    under the test. *)
Definition action_push_mpls_pack (a : ofp_action_push_mpls) (assertstruct : bool) : result (option bytes) :=
  if negb assertstruct then mret None
  else if negb (((apm_ethertype a =? 0x8847) || (apm_ethertype a =? 0x8848))) then mret None else
  p ← pack [cH; cH; cH; cx; cx] (apm_type a, (apm_length a, (apm_ethertype a, tt)));
  mret (Some p).

Definition action_push_mpls_unpack (a : ofp_action_push_mpls) (b : bytes) : result (ofp_action_push_mpls * bytes) :=
  if blen b <? 8 then mret (a, b) else
  '(t, (l, (v, _))) ← unpack_from [cH; cH; cH] b 0;
  mret (mk_action_push_mpls t l v, pyfrom b 8).

Definition action_push_mpls_eq (a b : ofp_action_push_mpls) : bool :=
  (apm_type a =? apm_type b) && (apm_length a =? apm_length b) && (apm_ethertype a =? apm_ethertype b).

(** ** Set MPLS label *)

Record ofp_action_mpls_label := mk_action_mpls_label {
  aml_type : Z;
  aml_length : Z;
  aml_mpls_label : Z
}.

Definition new_action_mpls_label : ofp_action_mpls_label := mk_action_mpls_label OFPAT_SET_MPLS_LABEL 8 0.

(** Without [assertstruct] the method returns [None]: its body is indented
    under the test. *)
Definition action_mpls_label_pack (a : ofp_action_mpls_label) (assertstruct : bool) : result (option bytes) :=
  if negb assertstruct then mret None else
  p ← pack [cH; cH; cL] (aml_type a, (aml_length a, (aml_mpls_label a, tt)));
  mret (Some p).

Definition action_mpls_label_unpack (a : ofp_action_mpls_label) (b : bytes) : result (ofp_action_mpls_label * bytes) :=
  if blen b <? 8 then mret (a, b) else
  '(t, (l, (v, _))) ← unpack_from [cH; cH; cL] b 0;
  mret (mk_action_mpls_label t l v, pyfrom b 8).

Definition action_mpls_label_eq (a b : ofp_action_mpls_label) : bool :=
  (aml_type a =? aml_type b) && (aml_length a =? aml_length b) && (aml_mpls_label a =? aml_mpls_label b).

(** ** Set MPLS traffic class *)

Record ofp_action_mpls_tc := mk_action_mpls_tc {
  amt_type : Z;
  amt_length : Z;
  amt_mpls_tc : Z
}.

Definition new_action_mpls_tc : ofp_action_mpls_tc := mk_action_mpls_tc OFPAT_SET_MPLS_TC 8 0.

(** Without [assertstruct] the method returns [None]: its body is indented
    under the test. *)
Definition action_mpls_tc_pack (a : ofp_action_mpls_tc) (assertstruct : bool) : result (option bytes) :=
  if negb assertstruct then mret None else
  p ← pack [cH; cH; cB; cx; cx; cx] (amt_type a, (amt_length a, (amt_mpls_tc a, tt)));
  mret (Some p).

Definition action_mpls_tc_unpack (a : ofp_action_mpls_tc) (b : bytes) : result (ofp_action_mpls_tc * bytes) :=
  if blen b <? 8 then mret (a, b) else
  '(t, (l, (v, _))) ← unpack_from [cH; cH; cB] b 0;
  mret (mk_action_mpls_tc t l v, pyfrom b 8).

Definition action_mpls_tc_eq (a b : ofp_action_mpls_tc) : bool :=
  (amt_type a =? amt_type b) && (amt_length a =? amt_length b) && (amt_mpls_tc a =? amt_mpls_tc b).

(** ** Set MPLS TTL *)

Record ofp_action_mpls_ttl := mk_action_mpls_ttl {
  amx_type : Z;
  amx_length : Z;
  amx_mpls_ttl : Z
}.

Definition new_action_mpls_ttl : ofp_action_mpls_ttl := mk_action_mpls_ttl OFPAT_SET_MPLS_TTL 8 0.

(** Without [assertstruct] the method returns [None]: its body is indented
    under the test. *)
Definition action_mpls_ttl_pack (a : ofp_action_mpls_ttl) (assertstruct : bool) : result (option bytes) :=
  if negb assertstruct then mret None else
  p ← pack [cH; cH; cB; cx; cx; cx] (amx_type a, (amx_length a, (amx_mpls_ttl a, tt)));
  mret (Some p).

Definition action_mpls_ttl_unpack (a : ofp_action_mpls_ttl) (b : bytes) : result (ofp_action_mpls_ttl * bytes) :=
  if blen b <? 8 then mret (a, b) else
  '(t, (l, (v, _))) ← unpack_from [cH; cH; cB] b 0;
  mret (mk_action_mpls_ttl t l v, pyfrom b 8).

Definition action_mpls_ttl_eq (a b : ofp_action_mpls_ttl) : bool :=
  (amx_type a =? amx_type b) && (amx_length a =? amx_length b) && (amx_mpls_ttl a =? amx_mpls_ttl b).

(** ** Pop MPLS *)

Record ofp_action_pop_mpls := mk_action_pop_mpls {
  app_type : Z;
  app_length : Z;
  app_ethertype : Z
}.

Definition new_action_pop_mpls : ofp_action_pop_mpls := mk_action_pop_mpls OFPAT_POP_MPLS 8 0.

(** Without [assertstruct] the method returns [None]: its body is indented
    under the test. *)
Definition action_pop_mpls_pack (a : ofp_action_pop_mpls) (assertstruct : bool) : result (option bytes) :=
  if negb assertstruct then mret None else
  p ← pack [cH; cH; cH; cx; cx] (app_type a, (app_length a, (app_ethertype a, tt)));
  mret (Some p).

Definition action_pop_mpls_unpack (a : ofp_action_pop_mpls) (b : bytes) : result (ofp_action_pop_mpls * bytes) :=
  if blen b <? 8 then mret (a, b) else
  '(t, (l, (v, _))) ← unpack_from [cH; cH; cH] b 0;
  mret (mk_action_pop_mpls t l v, pyfrom b 8).

Definition action_pop_mpls_eq (a b : ofp_action_pop_mpls) : bool :=
  (app_type a =? app_type b) && (app_length a =? app_length b) && (app_ethertype a =? app_ethertype b).

(** ** Set VLAN id *)

Record ofp_action_vlan_vid := mk_action_vlan_vid {
  avv_type : Z;
  avv_length : Z;
  avv_vlan_vid : Z
}.

Definition new_action_vlan_vid : ofp_action_vlan_vid := mk_action_vlan_vid OFPAT_SET_VLAN_VID 8 0.

Definition action_vlan_vid_pack (a : ofp_action_vlan_vid) (assertstruct : bool) : result (option bytes) :=
  p ← pack [cH; cH; cH] (avv_type a, (avv_length a, (avv_vlan_vid a, tt)));
  mret (Some (p ++ zeros 2)).

Definition action_vlan_vid_unpack (a : ofp_action_vlan_vid) (b : bytes) : result (ofp_action_vlan_vid * bytes) :=
  if blen b <? 8 then mret (a, b) else
  '(t, (l, (v, _))) ← unpack_from [cH; cH; cH] b 0;
  mret (mk_action_vlan_vid t l v, pyfrom b 8).

Definition action_vlan_vid_eq (a b : ofp_action_vlan_vid) : bool :=
  (avv_type a =? avv_type b) && (avv_length a =? avv_length b) && (avv_vlan_vid a =? avv_vlan_vid b).

(** ** Set VLAN priority *)

Record ofp_action_vlan_pcp := mk_action_vlan_pcp {
  avp_type : Z;
  avp_length : Z;
  avp_vlan_pcp : Z
}.

Definition new_action_vlan_pcp : ofp_action_vlan_pcp := mk_action_vlan_pcp OFPAT_SET_VLAN_PCP 8 0.

Definition action_vlan_pcp_pack (a : ofp_action_vlan_pcp) (assertstruct : bool) : result (option bytes) :=
  p ← pack [cH; cH; cB] (avp_type a, (avp_length a, (avp_vlan_pcp a, tt)));
  mret (Some (p ++ zeros 3)).

Definition action_vlan_pcp_unpack (a : ofp_action_vlan_pcp) (b : bytes) : result (ofp_action_vlan_pcp * bytes) :=
  if blen b <? 8 then mret (a, b) else
  '(t, (l, (v, _))) ← unpack_from [cH; cH; cB] b 0;
  mret (mk_action_vlan_pcp t l v, pyfrom b 8).

Definition action_vlan_pcp_eq (a b : ofp_action_vlan_pcp) : bool :=
  (avp_type a =? avp_type b) && (avp_length a =? avp_length b) && (avp_vlan_pcp a =? avp_vlan_pcp b).

(** ** Set IP TOS *)

Record ofp_action_nw_tos := mk_action_nw_tos {
  ant_type : Z;
  ant_length : Z;
  ant_nw_tos : Z
}.

Definition new_action_nw_tos : ofp_action_nw_tos := mk_action_nw_tos OFPAT_SET_NW_TOS 8 0.

Definition action_nw_tos_pack (a : ofp_action_nw_tos) (assertstruct : bool) : result (option bytes) :=
  p ← pack [cH; cH; cB] (ant_type a, (ant_length a, (ant_nw_tos a, tt)));
  mret (Some (p ++ zeros 3)).

Definition action_nw_tos_unpack (a : ofp_action_nw_tos) (b : bytes) : result (ofp_action_nw_tos * bytes) :=
  if blen b <? 8 then mret (a, b) else
  '(t, (l, (v, _))) ← unpack_from [cH; cH; cB] b 0;
  mret (mk_action_nw_tos t l v, pyfrom b 8).

Definition action_nw_tos_eq (a b : ofp_action_nw_tos) : bool :=
  (ant_type a =? ant_type b) && (ant_length a =? ant_length b) && (ant_nw_tos a =? ant_nw_tos b).

(** ** Set transport port *)

Record ofp_action_tp_port := mk_action_tp_port {
  atp_type : option Z;
  atp_length : Z;
  atp_tp_port : Z
}.

(** [type] is [OFPAT_SET_TP_SRC] or [OFPAT_SET_TP_DST]. *)
Definition new_action_tp_port (type : option Z) (tp_port : Z) : ofp_action_tp_port := mk_action_tp_port type 8 tp_port.

Definition action_tp_port_pack (a : ofp_action_tp_port) (assertstruct : bool) : result (option bytes) :=
  t ← need StructError (atp_type a);
  p ← pack [cH; cH; cH] (t, (atp_length a, (atp_tp_port a, tt)));
  mret (Some (p ++ zeros 2)).

Definition action_tp_port_unpack (a : ofp_action_tp_port) (b : bytes) : result (ofp_action_tp_port * bytes) :=
  if blen b <? 8 then mret (a, b) else
  '(t, (l, (v, _))) ← unpack_from [cH; cH; cH] b 0;
  mret (mk_action_tp_port (Some t) l v, pyfrom b 8).

Definition action_tp_port_eq (a b : ofp_action_tp_port) : bool :=
  bool_decide (atp_type a = atp_type b) && (atp_length a =? atp_length b) && (atp_tp_port a =? atp_tp_port b).

(** ** Vendor header *)

Record ofp_action_vendor_header := mk_action_vendor_header {
  avh_type : Z;
  avh_length : Z;
  avh_vendor : Z
}.

Definition new_action_vendor_header : ofp_action_vendor_header := mk_action_vendor_header OFPAT_VENDOR 8 0.

Definition action_vendor_header_pack (a : ofp_action_vendor_header) (assertstruct : bool) : result (option bytes) :=
  p ← pack [cH; cH; cL] (avh_type a, (avh_length a, (avh_vendor a, tt)));
  mret (Some p).

Definition action_vendor_header_unpack (a : ofp_action_vendor_header) (b : bytes) : result (ofp_action_vendor_header * bytes) :=
  if blen b <? 8 then mret (a, b) else
  '(t, (l, (v, _))) ← unpack_from [cH; cH; cL] b 0;
  mret (mk_action_vendor_header t l v, pyfrom b 8).

Definition action_vendor_header_eq (a b : ofp_action_vendor_header) : bool :=
  (avh_type a =? avh_type b) && (avh_length a =? avh_length b) && (avh_vendor a =? avh_vendor b).

(** ** Set Ethernet address *)

Record ofp_action_dl_addr := mk_action_dl_addr {
  adl_type : option Z;
  adl_length : Z;
  adl_dl_addr : hwaddr
}.

(** The constructor: an address given as an argument goes through [EthAddr]. *)
Definition new_action_dl_addr (type : option Z) (dl_addr : eth_arg) : result ofp_action_dl_addr :=
  match dl_addr with
  | ENone => mret (mk_action_dl_addr type 16 (HwEth EMPTY_ETH))
  | _ => a ← EthAddr_init dl_addr; mret (mk_action_dl_addr type 16 (HwEth a))
  end.
Definition dl_addr_set_dst (dl_addr : eth_arg) : result ofp_action_dl_addr :=
  new_action_dl_addr (Some OFPAT_SET_DL_DST) dl_addr.
Definition dl_addr_set_src (dl_addr : eth_arg) : result ofp_action_dl_addr :=
  new_action_dl_addr (Some OFPAT_SET_DL_SRC) dl_addr.

Definition action_dl_addr_assert (a : ofp_action_dl_addr) : bool :=
  match adl_dl_addr a with HwRaw b => blen b =? 6 | HwEth _ => true end.

Definition action_dl_addr_pack (a : ofp_action_dl_addr) (assertstruct : bool) : result (option bytes) :=
  if assertstruct && negb (action_dl_addr_assert a) then mret None else
  t ← need StructError (adl_type a);
  p ← pack [cH; cH] (t, (adl_length a, tt));
  mret (Some (p ++ hw_raw (adl_dl_addr a) ++ zeros 6)).

Definition action_dl_addr_unpack (a : ofp_action_dl_addr) (b : bytes) : result (ofp_action_dl_addr * bytes) :=
  if blen b <? 16 then mret (a, b) else
  '(t, (l, _)) ← unpack_from [cH; cH] b 0;
  e ← unpack_eth b 4;
  mret (mk_action_dl_addr (Some t) l (HwEth e), pyfrom b 16).

Definition action_dl_addr_eq (a b : ofp_action_dl_addr) : bool :=
  bool_decide (adl_type a = adl_type b) && (adl_length a =? adl_length b) &&
  hw_eq (Some (adl_dl_addr a)) (Some (adl_dl_addr b)).

(** ** Set IP address *)

Record ofp_action_nw_addr := mk_action_nw_addr {
  anw_type : option Z;
  anw_length : Z;
  anw_nw_addr : IPAddr
}.

Definition new_action_nw_addr (type : option Z) (nw_addr : option IPAddr) : ofp_action_nw_addr :=
  mk_action_nw_addr type 8 (default (IPAddr_of_int 0 false) nw_addr).
Definition nw_addr_set_dst (nw_addr : option IPAddr) : ofp_action_nw_addr :=
  new_action_nw_addr (Some OFPAT_SET_NW_DST) nw_addr.
Definition nw_addr_set_src (nw_addr : option IPAddr) : ofp_action_nw_addr :=
  new_action_nw_addr (Some OFPAT_SET_NW_SRC) nw_addr.

(** Written as a signed integer, read back as an unsigned one. *)
Definition action_nw_addr_pack (a : ofp_action_nw_addr) (assertstruct : bool) : result (option bytes) :=
  t ← need StructError (anw_type a);
  p ← pack [cH; cH; cl] (t, (anw_length a, (ip_toSigned (anw_nw_addr a) false, tt)));
  mret (Some p).

Definition action_nw_addr_unpack (a : ofp_action_nw_addr) (b : bytes) : result (ofp_action_nw_addr * bytes) :=
  if blen b <? 8 then mret (a, b) else
  '(t, (l, (v, _))) ← unpack_from [cH; cH; cL] b 0;
  mret (mk_action_nw_addr (Some t) l (IPAddr_of_int v false), pyfrom b 8).

Definition action_nw_addr_eq (a b : ofp_action_nw_addr) : bool :=
  bool_decide (anw_type a = anw_type b) && (anw_length a =? anw_length b) &&
  (ip_cmp (anw_nw_addr a) (anw_nw_addr b) =? 0).

(** ** The union of the classes *)

Inductive action :=
  | AHeader (a : ofp_action_header)
  | AOutput (a : ofp_action_output)
  | AEnqueue (a : ofp_action_enqueue)
  | APushMpls (a : ofp_action_push_mpls)
  | AMplsLabel (a : ofp_action_mpls_label)
  | AMplsTc (a : ofp_action_mpls_tc)
  | AMplsTtl (a : ofp_action_mpls_ttl)
  | APopMpls (a : ofp_action_pop_mpls)
  | AVlanVid (a : ofp_action_vlan_vid)
  | AVlanPcp (a : ofp_action_vlan_pcp)
  | ANwTos (a : ofp_action_nw_tos)
  | ATpPort (a : ofp_action_tp_port)
  | AVendor (a : ofp_action_vendor_header)
  | ADlAddr (a : ofp_action_dl_addr)
  | ANwAddr (a : ofp_action_nw_addr)
  | AMplsDecTtl (a : ofp_action_header)
  | AResubmit (a : ofp_action_header).

Definition action_pack (a : action) (assertstruct : bool) : result (option bytes) :=
  match a with
  | AHeader a => action_header_pack a assertstruct
  | AOutput a => action_output_pack a assertstruct
  | AEnqueue a => action_enqueue_pack a assertstruct
  | APushMpls a => action_push_mpls_pack a assertstruct
  | AMplsLabel a => action_mpls_label_pack a assertstruct
  | AMplsTc a => action_mpls_tc_pack a assertstruct
  | AMplsTtl a => action_mpls_ttl_pack a assertstruct
  | APopMpls a => action_pop_mpls_pack a assertstruct
  | AVlanVid a => action_vlan_vid_pack a assertstruct
  | AVlanPcp a => action_vlan_pcp_pack a assertstruct
  | ANwTos a => action_nw_tos_pack a assertstruct
  | ATpPort a => action_tp_port_pack a assertstruct
  | AVendor a => action_vendor_header_pack a assertstruct
  | ADlAddr a => action_dl_addr_pack a assertstruct
  | ANwAddr a => action_nw_addr_pack a assertstruct
  | AMplsDecTtl a => action_header_pack a assertstruct
  | AResubmit a => action_header_pack a assertstruct
  end.

(** The object after [pack]: only an output action changes. *)
Definition action_after (a : action) : action :=
  match a with AOutput a => AOutput (action_output_after a) | a => a end.

Definition action_unpack (a : action) (b : bytes) : result (action * bytes) :=
  match a with
  | AHeader a => '(a, r) ← action_header_unpack a b; mret (AHeader a, r)
  | AOutput a => '(a, r) ← action_output_unpack a b; mret (AOutput a, r)
  | AEnqueue a => '(a, r) ← action_enqueue_unpack a b; mret (AEnqueue a, r)
  | APushMpls a => '(a, r) ← action_push_mpls_unpack a b; mret (APushMpls a, r)
  | AMplsLabel a => '(a, r) ← action_mpls_label_unpack a b; mret (AMplsLabel a, r)
  | AMplsTc a => '(a, r) ← action_mpls_tc_unpack a b; mret (AMplsTc a, r)
  | AMplsTtl a => '(a, r) ← action_mpls_ttl_unpack a b; mret (AMplsTtl a, r)
  | APopMpls a => '(a, r) ← action_pop_mpls_unpack a b; mret (APopMpls a, r)
  | AVlanVid a => '(a, r) ← action_vlan_vid_unpack a b; mret (AVlanVid a, r)
  | AVlanPcp a => '(a, r) ← action_vlan_pcp_unpack a b; mret (AVlanPcp a, r)
  | ANwTos a => '(a, r) ← action_nw_tos_unpack a b; mret (ANwTos a, r)
  | ATpPort a => '(a, r) ← action_tp_port_unpack a b; mret (ATpPort a, r)
  | AVendor a => '(a, r) ← action_vendor_header_unpack a b; mret (AVendor a, r)
  | ADlAddr a => '(a, r) ← action_dl_addr_unpack a b; mret (ADlAddr a, r)
  | ANwAddr a => '(a, r) ← action_nw_addr_unpack a b; mret (ANwAddr a, r)
  | AMplsDecTtl a => '(a, r) ← action_header_unpack a b; mret (AMplsDecTtl a, r)
  | AResubmit a => '(a, r) ← action_header_unpack a b; mret (AResubmit a, r)
  end.

(** [__len__]: a constant, or the [length] field. *)
Definition action_len (a : action) : Z :=
  match a with
  | AHeader a => ah_length a
  | AOutput _ => 8
  | AEnqueue _ => 16
  | APushMpls a => apm_length a
  | AMplsLabel a => aml_length a
  | AMplsTc a => amt_length a
  | AMplsTtl a => amx_length a
  | APopMpls a => app_length a
  | AVlanVid _ => 8
  | AVlanPcp _ => 8
  | ANwTos _ => 8
  | ATpPort _ => 8
  | AVendor _ => 8
  | ADlAddr _ => 16
  | ANwAddr _ => 8
  | AMplsDecTtl a => ah_length a
  | AResubmit a => ah_length a
  end.

Definition action_eq (a b : action) : bool :=
  match a, b with
  | AHeader a, AHeader b => action_header_eq a b
  | AOutput a, AOutput b => action_output_eq a b
  | AEnqueue a, AEnqueue b => action_enqueue_eq a b
  | APushMpls a, APushMpls b => action_push_mpls_eq a b
  | AMplsLabel a, AMplsLabel b => action_mpls_label_eq a b
  | AMplsTc a, AMplsTc b => action_mpls_tc_eq a b
  | AMplsTtl a, AMplsTtl b => action_mpls_ttl_eq a b
  | APopMpls a, APopMpls b => action_pop_mpls_eq a b
  | AVlanVid a, AVlanVid b => action_vlan_vid_eq a b
  | AVlanPcp a, AVlanPcp b => action_vlan_pcp_eq a b
  | ANwTos a, ANwTos b => action_nw_tos_eq a b
  | ATpPort a, ATpPort b => action_tp_port_eq a b
  | AVendor a, AVendor b => action_vendor_header_eq a b
  | ADlAddr a, ADlAddr b => action_dl_addr_eq a b
  | ANwAddr a, ANwAddr b => action_nw_addr_eq a b
  | AMplsDecTtl a, AMplsDecTtl b => action_header_eq a b
  | AResubmit a, AResubmit b => action_header_eq a b
  | _, _ => false
  end.

(** ** [_unpack_actions] *)

(** The constructors of [_action_map], called without arguments; an unknown
    type gives the generic header. *)
Definition action_of_type (t : Z) : action :=
  if t =? OFPAT_OUTPUT then AOutput new_action_output
  else if t =? OFPAT_SET_VLAN_VID then AVlanVid new_action_vlan_vid
  else if t =? OFPAT_SET_VLAN_PCP then AVlanPcp new_action_vlan_pcp
  else if (t =? OFPAT_SET_DL_SRC) || (t =? OFPAT_SET_DL_DST) then
    ADlAddr (mk_action_dl_addr None 16 (HwEth EMPTY_ETH))
  else if (t =? OFPAT_SET_NW_SRC) || (t =? OFPAT_SET_NW_DST) then ANwAddr (new_action_nw_addr None None)
  else if t =? OFPAT_SET_NW_TOS then ANwTos new_action_nw_tos
  else if (t =? OFPAT_SET_TP_SRC) || (t =? OFPAT_SET_TP_DST) then ATpPort (new_action_tp_port None 0)
  else if t =? OFPAT_ENQUEUE then AEnqueue new_action_enqueue
  else if t =? OFPAT_PUSH_MPLS then APushMpls new_action_push_mpls
  else if t =? OFPAT_POP_MPLS then APopMpls new_action_pop_mpls
  else if t =? OFPAT_SET_MPLS_LABEL then AMplsLabel new_action_mpls_label
  else if t =? OFPAT_SET_MPLS_TC then AMplsTc new_action_mpls_tc
  else if t =? OFPAT_SET_MPLS_TTL then AMplsTtl new_action_mpls_ttl
  else if t =? OFPAT_DEC_MPLS_TTL then AMplsDecTtl new_action_mpls_dec_ttl
  else if t =? OFPAT_RESUBMIT then AResubmit new_action_resubmit
  else AHeader new_action_header.

(** The [while] loop; [None] is out of fuel. *)
Fixpoint unpack_actions_loop (fuel : nat) (b : bytes) (end_ offset : Z) (actions : list action)
  : option (result (list action * Z)) :=
  match fuel with
  | O => None
  | S fuel =>
      if offset <? end_ then
        match unpack_from [cH; cH] b offset with
        | Err e => Some (Err e)
        | Ok (t, (l, _)) =>
            if blen b - offset <? l then Some (Ok ([], offset))
            else
              match action_unpack (action_of_type t) (pyslice b offset (offset + l)) with
              | Err e => Some (Err e)
              | Ok (a, _) =>
                  if action_len a =? l
                  then unpack_actions_loop fuel b end_ (offset + l) (actions ++ [a])
                  else Some (Err AssertionError)
              end
        end
      else Some (Ok (actions, offset))
  end.

(** Every round consumes at least eight bytes, so one unit of fuel per byte is
    enough ([unpack_actions_total]). *)
Definition unpack_actions (b : bytes) (length_ offset : Z) : option (result (list action * Z)) :=
  if blen b - offset <? length_ then Some (Ok ([], offset))
  else unpack_actions_loop (S (length b)) b (length_ + offset) offset [].

(** ** Well-formed actions *)

Definition action_type (a : action) : option Z :=
  match a with
  | AHeader a | AMplsDecTtl a | AResubmit a => ah_type a
  | AOutput a => Some (ao_type a)
  | AEnqueue a => Some (aq_type a)
  | APushMpls a => Some (apm_type a)
  | AMplsLabel a => Some (aml_type a)
  | AMplsTc a => Some (amt_type a)
  | AMplsTtl a => Some (amx_type a)
  | APopMpls a => Some (app_type a)
  | AVlanVid a => Some (avv_type a)
  | AVlanPcp a => Some (avp_type a)
  | ANwTos a => Some (ant_type a)
  | ATpPort a => atp_type a
  | AVendor a => Some (avh_type a)
  | ADlAddr a => adl_type a
  | ANwAddr a => anw_type a
  end.

(** The [length] field, which [pack] writes. *)
Definition action_length (a : action) : Z :=
  match a with
  | AHeader a | AMplsDecTtl a | AResubmit a => ah_length a
  | AOutput a => ao_length a
  | AEnqueue a => aq_length a
  | APushMpls a => apm_length a
  | AMplsLabel a => aml_length a
  | AMplsTc a => amt_length a
  | AMplsTtl a => amx_length a
  | APopMpls a => app_length a
  | AVlanVid a => avv_length a
  | AVlanPcp a => avp_length a
  | ANwTos a => ant_length a
  | ATpPort a => atp_length a
  | AVendor a => avh_length a
  | ADlAddr a => adl_length a
  | ANwAddr a => anw_length a
  end.

(** [type(a) == type(b)]. *)
Definition same_class (a b : action) : bool :=
  match a, b with
  | AHeader _, AHeader _ | AOutput _, AOutput _ | AEnqueue _, AEnqueue _
  | APushMpls _, APushMpls _ | AMplsLabel _, AMplsLabel _ | AMplsTc _, AMplsTc _
  | AMplsTtl _, AMplsTtl _ | APopMpls _, APopMpls _ | AVlanVid _, AVlanVid _
  | AVlanPcp _, AVlanPcp _ | ANwTos _, ANwTos _ | ATpPort _, ATpPort _
  | AVendor _, AVendor _ | ADlAddr _, ADlAddr _ | ANwAddr _, ANwAddr _
  | AMplsDecTtl _, AMplsDecTtl _ | AResubmit _, AResubmit _ => true
  | _, _ => false
  end.

(** The arguments, in the range of their wire width. *)
Definition action_args_ok (a : action) : Prop :=
  match a with
  | AHeader _ | AMplsDecTtl _ | AResubmit _ => True
  | AOutput a => (exists p, ao_port a = Some p /\ uint_ok 2 p) /\ uint_ok 2 (ao_max_len a)
  | AEnqueue a => uint_ok 2 (aq_port a) /\ uint_ok 4 (aq_queue_id a)
  | APushMpls a => apm_ethertype a = 0x8847 \/ apm_ethertype a = 0x8848
  | AMplsLabel a => uint_ok 4 (aml_mpls_label a)
  | AMplsTc a => uint_ok 1 (amt_mpls_tc a)
  | AMplsTtl a => uint_ok 1 (amx_mpls_ttl a)
  | APopMpls a => uint_ok 2 (app_ethertype a)
  | AVlanVid a => uint_ok 2 (avv_vlan_vid a)
  | AVlanPcp a => uint_ok 1 (avp_vlan_pcp a)
  | ANwTos a => uint_ok 1 (ant_nw_tos a)
  | ATpPort a => uint_ok 2 (atp_tp_port a)
  | AVendor a => uint_ok 4 (avh_vendor a)
  | ADlAddr a => length (hw_raw (adl_dl_addr a)) = 6%nat
  | ANwAddr a => ip_wf (anw_nw_addr a)
  end.

(** The size of the class on the wire. *)
Definition action_size (a : action) : Z :=
  match a with AEnqueue _ | ADlAddr _ => 16 | _ => 8 end.

(** An action that the parser recognises as what it is. *)
Definition action_wf (a : action) : Prop :=
  (exists t, action_type a = Some t /\ uint_ok 2 t /\ same_class (action_of_type t) a = true) /\
  action_length a = action_size a /\ action_args_ok a.

#[global] Instance action_wire : WireStruct action := {
  ws_pack := action_pack;
  ws_after := action_after;
  ws_unpack := action_unpack;
  ws_len := action_len;
  ws_eq := action_eq;
  ws_wf := action_wf;
  ws_fresh a0 a := same_class a0 a = true
}.

Lemma hw_eq_raw h h' :
  hw_raw h = hw_raw h' -> hw_eq (Some h) (Some h') = true.
Proof. intros H. destruct h, h'; simpl in *; unfold eth_toRaw in *; by apply bool_decide_eq_true. Qed.

Lemma sint_toSigned a : ip_wf a -> sint_ok 4 (ip_toSigned a false).
Proof.
  intros Ha. unfold sint_ok. change (256 ^ Z.of_nat 4 / 2) with (2 ^ 31).
  unfold ip_toSigned. apply to_signed_range, htonl_range.
Qed.

Lemma be_encode_signed z : 0 <= z < 2 ^ 32 -> be_encode 4 (to_signed 4 z) = be_encode 4 z.
Proof.
  intros Hz. rewrite <-(be_encode_mod 4 (to_signed 4 z)).
  change (256 ^ Z.of_nat 4) with (2 ^ 32). by rewrite to_signed_mod.
Qed.

(** The four bytes are the same whether written signed or unsigned. *)
Lemma encode_signed_addr t l a :
  ip_wf a ->
  encode [cH; cH; cl] (t, (l, (ip_toSigned a false, tt))) =
  encode [cH; cH; cL] (t, (l, (ip_toUnsigned a false, tt))).
Proof.
  intros Ha. cbn [encode fst snd]. unfold ip_toSigned, ip_toUnsigned.
  by rewrite be_encode_signed by apply htonl_range.
Qed.

(** The type and the length are the first four bytes. *)
Definition starts_with_type (a : action) (bs : bytes) : Prop :=
  exists t rest, action_type a = Some t /\ bs = be_encode 2 t ++ be_encode 2 (action_length a) ++ rest.

(** Pad bytes inside a format, or after it. *)
Lemma encode_HHHxx t l v :
  encode [cH; cH; cH; cx; cx] (t, (l, (v, tt))) = encode [cH; cH; cH] (t, (l, (v, tt))) ++ zeros 2.
Proof. cbn [encode fst snd]. by rewrite <-!app_assoc. Qed.
Lemma encode_HHBxxx t l v :
  encode [cH; cH; cB; cx; cx; cx] (t, (l, (v, tt))) = encode [cH; cH; cB] (t, (l, (v, tt))) ++ zeros 3.
Proof. cbn [encode fst snd]. by rewrite <-!app_assoc. Qed.

(** Every [__eq__] is true of two objects with the same fields. *)
Ltac eq_fields :=
  repeat match goal with
  | |- _ && _ = true => apply andb_true_iff; split
  | |- (_ =? _) = true => apply Z.eqb_eq; reflexivity
  | |- bool_decide (_ = _) = true => apply bool_decide_eq_true; reflexivity
  | |- hw_eq (Some _) (Some _) = true => by apply hw_eq_raw
  end.

(** One class: pack, then read back into an object of the class. *)
Ltac action_case :=
  eexists; split;
  [ packs; reflexivity
  | split; [ rewrite ?encode_HHHxx, ?encode_HHBxxx; by (autorewrite with blen; cbn)
           | split; [ cbn [encode fst snd]; rewrite <-?app_assoc; eexists _, _; split; reflexivity |]]];
  intros a0 r Hs; destruct a0; try discriminate Hs;
  rewrite ?encode_HHHxx, ?encode_HHBxxx; rd_pack;
  cbn [action_unpack];
  cbv delta [action_header_unpack action_output_unpack action_enqueue_unpack action_push_mpls_unpack
    action_mpls_label_unpack action_mpls_tc_unpack action_mpls_ttl_unpack action_pop_mpls_unpack
    action_vlan_vid_unpack action_vlan_pcp_unpack action_nw_tos_unpack action_tp_port_unpack
    action_vendor_header_unpack] beta;
  len_ok; rewrite <-?app_assoc; rd; try (len_ok; rd);
  eexists; split; [reflexivity|];
  cbv [action_eq action_after action_header_eq action_output_eq action_enqueue_eq action_push_mpls_eq
    action_mpls_label_eq action_mpls_tc_eq action_mpls_ttl_eq action_pop_mpls_eq
    action_vlan_vid_eq action_vlan_pcp_eq action_nw_tos_eq action_tp_port_eq action_vendor_header_eq
    action_output_after];
  eq_fields.

Ltac unfold_packs :=
  cbv delta [action_header_pack action_output_pack action_enqueue_pack action_push_mpls_pack
    action_mpls_label_pack action_mpls_tc_pack action_mpls_ttl_pack action_pop_mpls_pack
    action_vlan_vid_pack action_vlan_pcp_pack action_nw_tos_pack action_tp_port_pack
    action_vendor_header_pack] beta; cbv beta iota zeta;
  cbn [need negb orb andb mbind result_bind ah_type ah_length aq_type aq_length aq_port aq_queue_id
    apm_type apm_length apm_ethertype aml_type aml_length aml_mpls_label amt_type amt_length amt_mpls_tc
    amx_type amx_length amx_mpls_ttl app_type app_length app_ethertype avv_type avv_length avv_vlan_vid
    avp_type avp_length avp_vlan_pcp ant_type ant_length ant_nw_tos atp_type atp_length atp_tp_port
    avh_type avh_length avh_vendor].

Lemma action_output_after_ok t p ml :
  uint_ok 2 ml ->
  exists m, action_output_after (mk_action_output t 8 (Some p) ml) = mk_action_output t 8 (Some p) m /\
    uint_ok 2 m.
Proof.
  intros H. unfold action_output_after. simpl. case_bool_decide; eexists; split; try done.
Qed.

Definition action_law_at (a : action) : Prop :=
  exists bs, action_pack a true = Ok (Some bs) /\ blen bs = action_len a /\
    starts_with_type a bs /\
    forall a0 r, same_class a0 a = true ->
      exists a', action_unpack a0 (bs ++ r) = Ok (a', r) /\ action_eq a' (action_after a) = true.

Lemma action_law_dl_addr t h :
  uint_ok 2 t -> length (hw_raw h) = 6%nat -> action_law_at (ADlAddr (mk_action_dl_addr (Some t) 16 h)).
Proof.
  intros Ht Hh. assert (Hb : blen (hw_raw h) = 6) by (unfold blen; by rewrite Hh).
  unfold action_law_at, starts_with_type. cbn [action_pack action_len action_type action_length].
  unfold action_dl_addr_pack, action_dl_addr_assert. cbn [adl_type adl_length adl_dl_addr].
  assert (match h with HwRaw b => blen b =? 6 | HwEth _ => true end = true) as ->
    by (destruct h; simpl in *; [by apply Z.eqb_eq|done]).
  cbn [andb negb need mbind result_bind].
  eexists; split; [packs; reflexivity|]. split; [autorewrite with blen; rewrite Hb; by cbn|].
  split; [cbn [encode fst snd]; rewrite <-?app_assoc; eexists _, _; split; reflexivity|].
  intros a0 r Hs. destruct a0; try discriminate Hs. rd_pack.
  cbn [action_unpack]. unfold action_dl_addr_unpack. len_ok. rewrite <-?app_assoc.
  rd. rd_eth. rd. eexists; split; [reflexivity|].
  cbv [action_eq action_after action_dl_addr_eq]. cbn [adl_type adl_length adl_dl_addr]. eq_fields.
Qed.

Lemma action_law_nw_addr t ip :
  uint_ok 2 t -> ip_wf ip -> action_law_at (ANwAddr (mk_action_nw_addr (Some t) 8 ip)).
Proof.
  intros Ht Hi. pose proof (sint_toSigned ip Hi) as Hs.
  pose proof (ip_toUnsigned_range ip false) as Hu.
  unfold action_law_at, starts_with_type. cbn [action_pack action_len action_type action_length].
  unfold action_nw_addr_pack. cbn [anw_type anw_length anw_nw_addr need mbind result_bind].
  eexists; split; [packs; reflexivity|]. split; [autorewrite with blen; by cbn|].
  split; [cbn [encode fst snd]; rewrite <-?app_assoc; eexists _, _; split; reflexivity|].
  intros a0 r H0. destruct a0; try discriminate H0. rewrite encode_signed_addr by done.
  assert (packable [cH; cH; cL] (t, (8, (ip_toUnsigned ip false, tt)))) by packable_tac.
  cbn [action_unpack]. unfold action_nw_addr_unpack. len_ok.
  rd. eexists; split; [reflexivity|].
  cbv [action_eq action_after action_nw_addr_eq]. cbn [anw_type anw_length anw_nw_addr].
  rewrite of_int_toUnsigned by done. eq_fields. unfold ip_cmp. by rewrite Z.ltb_irrefl.
Qed.

Lemma action_law a :
  action_wf a -> action_law_at a.
Proof.
  intros [(t & Ht & Hu & Hc) [Hl Ha]].
  destruct a as [[ty ln dat]|[ty ln po ml]|[ty ln po qi]|[ty ln v]|[ty ln v]|[ty ln v]|[ty ln v]|[ty ln v]
    |[ty ln v]|[ty ln v]|[ty ln v]|[ty ln v]|[ty ln v]|[ty ln h]|[ty ln ip]|[ty ln dat]|[ty ln dat]];
    simpl in Ht, Hl, Ha; try (injection Ht as ->); subst;
    try (unfold action_law_at, starts_with_type; cbn [action_pack action_type action_length action_len]).
  - unfold_packs. action_case.
  - destruct Ha as [(p & -> & Hp) Hm].
    destruct (action_output_after_ok t p ml Hm) as (m & E & Hm').
    cbn [action_after]. unfold action_output_pack. rewrite E. unfold_packs.
    cbn [ao_type ao_length ao_port ao_max_len need mbind result_bind]. action_case.
  - destruct Ha. unfold_packs. action_case.
  - unfold_packs. assert (((v =? 0x8847) || (v =? 0x8848)) = true) as -> by (destruct Ha as [-> | ->]; done).
    assert (uint_ok 2 v) by (destruct Ha as [-> | ->]; done). cbn [negb]. action_case.
  - unfold_packs. action_case.
  - unfold_packs. action_case.
  - unfold_packs. action_case.
  - unfold_packs. action_case.
  - unfold_packs. action_case.
  - unfold_packs. action_case.
  - unfold_packs. action_case.
  - unfold_packs. action_case.
  - unfold_packs. action_case.
  - apply action_law_dl_addr; done.
  - apply action_law_nw_addr; done.
  - unfold_packs. action_case.
  - unfold_packs. action_case.
Qed.

#[global] Instance action_wire_laws : WireLaws action.
Proof.
  constructor. intros a Ha. destruct (action_law a Ha) as (bs & H1 & H2 & _ & H3).
  exists bs. split; [exact H1|]. split; [exact H2|]. exact H3.
Qed.

(** ** The parser loop *)

Lemma action_wf_sizes a :
  action_wf a -> action_length a = action_size a /\ action_len a = action_size a.
Proof. intros (_ & Hl & _). split; [done|]. by destruct a; simpl in *. Qed.

Lemma action_size_bounds a : 8 <= action_size a <= 16.
Proof. destruct a; simpl; lia. Qed.

Lemma action_eq_len a b : action_eq a b = true -> action_len a = action_len b.
Proof.
  destruct a, b; try discriminate; simpl;
    cbv [action_header_eq action_push_mpls_eq action_mpls_label_eq action_mpls_tc_eq
      action_mpls_ttl_eq action_pop_mpls_eq]; try done;
    rewrite ?andb_true_iff, ?Z.eqb_eq; tauto.
Qed.

Lemma action_len_after a : action_len (action_after a) = action_len a.
Proof. by destruct a. Qed.

(** A fresh object has at least eight bytes, and ignores fewer. *)
Lemma action_of_type_len t : 8 <= action_len (action_of_type t).
Proof. unfold action_of_type. repeat case_match; simpl; lia. Qed.

Lemma action_unpack_short t s :
  blen s < 8 -> action_unpack (action_of_type t) s = Ok (action_of_type t, s).
Proof.
  intros H. unfold action_of_type.
  assert (H8 : (blen s <? 8) = true) by (by apply Z.ltb_lt).
  assert (H16 : (blen s <? 16) = true) by (apply Z.ltb_lt; lia).
  repeat case_match; cbn [action_unpack];
    cbv [action_header_unpack action_output_unpack action_enqueue_unpack action_push_mpls_unpack
    action_mpls_label_unpack action_mpls_tc_unpack action_mpls_ttl_unpack action_pop_mpls_unpack
    action_vlan_vid_unpack action_vlan_pcp_unpack action_nw_tos_unpack action_tp_port_unpack
    action_dl_addr_unpack action_nw_addr_unpack]; by rewrite ?H8, ?H16.
Qed.

(** An accepted action is at least eight bytes long: the loop progresses. *)
Lemma action_progress t b o l a r :
  0 <= o -> 0 <= l -> action_unpack (action_of_type t) (pyslice b o (o + l)) = Ok (a, r) ->
  action_len a = l -> 8 <= l.
Proof.
  intros Ho Hl E Ha. destruct (Z.lt_ge_cases l 8) as [H|H]; [exfalso|done].
  rewrite action_unpack_short in E.
  - injection E as <- <-. pose proof (action_of_type_len t). lia.
  - rewrite blen_pyslice by lia. lia.
Qed.

Lemma unpack_HH_nonneg b o t l : unpack_from [cH; cH] b o = Ok (t, (l, tt)) -> 0 <= l.
Proof.
  unfold unpack_from. destruct (_ <=? _) eqn:E; [|done]. intros [= _ <-].
  apply be_decode_range.
Qed.

Lemma unpack_actions_loop_total fuel b e o acc :
  0 <= o -> 0 < Z.of_nat fuel -> blen b - o < Z.of_nat fuel ->
  exists r, unpack_actions_loop fuel b e o acc = Some r.
Proof.
  revert o acc. induction fuel as [|fuel IH]; intros o acc Ho Hp Hf; [simpl in Hp; lia|].
  cbn [unpack_actions_loop]. destruct (o <? e); [|by eexists].
  destruct (unpack_from [cH; cH] b o) as [(t & l & [])|] eqn:Eu; [|by eexists].
  destruct (Z.ltb_spec (blen b - o) l); [by eexists|].
  destruct (action_unpack _ _) as [[a r]|] eqn:Ea; [|by eexists].
  destruct (Z.eqb_spec (action_len a) l) as [El|]; [|by eexists].
  pose proof (unpack_HH_nonneg _ _ _ _ Eu) as Hl0.
  pose proof (action_progress _ _ _ _ _ _ Ho Hl0 Ea El).
  apply IH; lia.
Qed.

Lemma unpack_actions_loop_roundtrip l pre post fuel acc :
  Forall action_wf l -> (length l < fuel)%nat ->
  exists bs l', pack_all l true = Ok bs /\ blen bs = len_all l /\
    eq_all l' (map action_after l) = true /\
    unpack_actions_loop fuel (pre ++ bs ++ post) (blen pre + blen bs) (blen pre) acc =
      Some (Ok (acc ++ l', blen pre + blen bs)).
Proof.
  intros Hl. revert pre fuel acc. induction Hl as [|a l Ha Hl IH]; intros pre fuel acc Hf.
  - exists [], []. destruct fuel; [simpl in Hf; lia|]. cbn [unpack_actions_loop].
    rewrite blen_nil, Z.add_0_r, Z.ltb_irrefl, app_nil_r. done.
  - destruct fuel as [|fuel]; [simpl in Hf; lia|]. simpl in Hf.
    destruct (action_law a Ha) as (h & Eh & Hh & (t & rest & Et & Er) & Hr).
    destruct (Hr (action_of_type t) []) as (a' & Ea & Eq).
    { destruct Ha as [(t' & Ht' & _ & Hc) _]. congruence. }
    destruct (IH (pre ++ h) fuel (acc ++ [a'])) as (bs & l' & E & Hb & He & Hloop); [lia|].
    exists (h ++ bs), (a' :: l'). split; [cbn; rewrite Eh; cbn; by rewrite E|].
    split; [rewrite blen_app; simpl; lia|].
    split; [simpl; by rewrite Eq, He|].
    destruct (action_wf_sizes a Ha) as [Hs1 Hs2]. pose proof (action_size_bounds a).
    assert (Hla : blen h = action_size a) by lia.
    cbn [unpack_actions_loop]. rewrite !blen_app.
    pose proof (blen_nonneg bs). pose proof (blen_nonneg post).
    destruct (Z.ltb_spec (blen pre) (blen pre + (blen h + blen bs))); [|lia].
    assert (Hut : uint_ok 2 t) by (destruct Ha as [(t' & Ht' & ? & _) _]; congruence).
    assert (Hul : uint_ok 2 (action_size a)) by (unfold uint_ok; change (256 ^ Z.of_nat 2) with 65536; lia).
    rewrite Hs1 in Er.
    assert (Eu : unpack_from [cH; cH] (pre ++ (h ++ bs) ++ post) (blen pre) = Ok (t, (action_size a, tt))).
    { rewrite (unpack_from_skip' _ pre _ (blen pre) (blen pre) 0) by lia.
      rewrite Er, <-!app_assoc. by apply read_HH. }
    rewrite Eu. destruct (Z.ltb_spec (blen pre + (blen h + blen bs + blen post) - blen pre) (action_size a)); [lia|].
    assert (Ep : pyslice (pre ++ (h ++ bs) ++ post) (blen pre) (blen pre + action_size a) = h).
    { rewrite <-!app_assoc. apply pyslice_app; lia. }
    rewrite Ep. rewrite app_nil_r in Ea. rewrite Ea.
    rewrite (action_eq_len _ _ Eq), action_len_after, Hs2, Z.eqb_refl.
    rewrite blen_app, <-!app_assoc in Hloop. rewrite <-Hla, <-!app_assoc.
    rewrite Z.add_assoc. exact Hloop.
Qed.

Lemma len_all_bound (l : list action) : Forall action_wf l -> Z.of_nat (length l) * 8 <= len_all l.
Proof.
  induction 1 as [|a l Ha Hl IH]; [done|]. simpl length. cbn [len_all foldr].
  change (foldr _ 0 l) with (len_all l).
  destruct (action_wf_sizes a Ha) as [_ Hs]. pose proof (action_size_bounds a).
  cbn [ws_len action_wire]. lia.
Qed.

(** The list round trip, for the structures that embed actions. *)
Lemma unpack_actions_pack_all (l : list action) (pre post : bytes) :
  Forall action_wf l ->
  exists bs l', pack_all l true = Ok bs /\ blen bs = len_all l /\
    unpack_actions (pre ++ bs ++ post) (blen bs) (blen pre) = Some (Ok (l', blen pre + blen bs)) /\
    eq_all l' (map action_after l) = true.
Proof.
  intros Hl. pose proof (len_all_bound l Hl) as Hn.
  assert (Hf : exists bs, pack_all l true = Ok bs /\ blen bs = len_all l) by (by apply pack_all_ok).
  destruct Hf as (bs & Eb & Hb).
  destruct (unpack_actions_loop_roundtrip l pre post (S (length (pre ++ bs ++ post))) [] Hl)
    as (bs' & l' & E & Hb' & He & Hloop).
  { rewrite !length_app. unfold blen in *. lia. }
  assert (bs' = bs) as -> by congruence.
  exists bs, l'. split; [done|]. split; [done|]. split; [|done].
  unfold unpack_actions. rewrite !blen_app.
  pose proof (blen_nonneg bs). pose proof (blen_nonneg post).
  destruct (Z.ltb_spec (blen pre + (blen bs + blen post) - blen pre) (blen bs)); [lia|].
  by rewrite (Z.add_comm (blen bs)).
Qed.

Lemma eq_all_len_after (l' l : list action) :
  eq_all l' (map action_after l) = true -> len_all l' = len_all l.
Proof.
  revert l'. induction l as [|a l IH]; intros [|a' l'] H; try done.
  simpl in H. apply andb_true_iff in H as [H1 H2]. apply action_eq_len in H1.
  rewrite action_len_after in H1. specialize (IH l' H2). unfold len_all in *. cbn [foldr].
  cbn [ws_len action_wire] in *. by rewrite H1, IH.
Qed.

(** ** Properties *)

(** [_unpack_actions] always terminates, whatever the buffer: a round
    either raises, stops, or consumes at least eight bytes. *)
Theorem unpack_actions_total (b : bytes) (length_ offset : Z) :
  0 <= offset -> exists r, unpack_actions b length_ offset = Some r.
Proof.
  intros Ho. unfold unpack_actions. destruct (_ <? _); [by eexists|].
  apply unpack_actions_loop_total; [done|lia|]. unfold blen. lia.
Qed.

Lemma unpack_actions_total_witness :
  0 <= 0 /\ exists r, unpack_actions [x00; x00; x00; x00] 4 0 = Some r.
Proof. split; [lia|]. apply (unpack_actions_total [x00; x00; x00; x00] 4 0). lia. Defined.

(** A list of well-formed actions of any classes survives the wire: the
    bytes [pack] concatenates are parsed by [_unpack_actions], at any place of
    a buffer, into equal actions, and the offset returned is their end. *)
Theorem unpack_actions_roundtrip (l : list action) (pre post : bytes) :
  Forall action_wf l ->
  exists bs l', pack_all l true = Ok bs /\ blen bs = len_all l /\
    unpack_actions (pre ++ bs ++ post) (blen bs) (blen pre) = Some (Ok (l', blen pre + blen bs)) /\
    eq_all l' (map action_after l) = true.
Proof. apply unpack_actions_pack_all. Qed.

Definition example_actions : list action :=
  [AVlanVid (mk_action_vlan_vid OFPAT_SET_VLAN_VID 8 7);
   ADlAddr (mk_action_dl_addr (Some OFPAT_SET_DL_DST) 16 (HwEth (mkEth (str "ABCDEF"))));
   ANwAddr (nw_addr_set_src (Some (IPAddr_of_int 0x0a000001 false)));
   AOutput (mk_action_output OFPAT_OUTPUT 8 (Some 3) 128)].

Lemma example_actions_wf : Forall action_wf example_actions.
Proof.
  unfold example_actions. repeat apply Forall_cons_2; [..|apply Forall_nil_2].
  all: split; [eexists; split; [reflexivity|split; [vm_compute; split; congruence|reflexivity]]
              |split; [reflexivity|]].
  - vm_compute; split; congruence.
  - reflexivity.
  - vm_compute; split; congruence.
  - split; [eexists; split; [reflexivity|]|]; vm_compute; split; congruence.
Defined.

Lemma unpack_actions_roundtrip_witness :
  Forall action_wf example_actions /\
  exists bs l', pack_all example_actions true = Ok bs /\ blen bs = len_all example_actions /\
    unpack_actions (str "header" ++ bs ++ str "tail") (blen bs) (blen (str "header"))
      = Some (Ok (l', blen (str "header") + blen bs)) /\
    eq_all l' (map action_after example_actions) = true.
Proof.
  split; [exact example_actions_wf|].
  exact (unpack_actions_roundtrip example_actions (str "header") (str "tail") example_actions_wf).
Defined.

(** An action list whose declared length exceeds the buffer, or one of
    whose actions runs past the end of it, is dropped without an error: the
    parser returns the empty list. *)
Theorem unpack_actions_truncated (b : bytes) (length_ offset t l : Z) :
  (blen b - offset < length_ -> unpack_actions b length_ offset = Some (Ok ([], offset))) /\
  (0 < length_ <= blen b - offset -> unpack_from [cH; cH] b offset = Ok (t, (l, tt)) ->
   blen b - offset < l -> unpack_actions b length_ offset = Some (Ok ([], offset))).
Proof.
  unfold unpack_actions. split.
  - intros H. by destruct (Z.ltb_spec (blen b - offset) length_); [|lia].
  - intros H Eu Hl. destruct (Z.ltb_spec (blen b - offset) length_); [lia|].
    cbn [unpack_actions_loop]. destruct (Z.ltb_spec offset (length_ + offset)); [|lia].
    rewrite Eu. by destruct (Z.ltb_spec (blen b - offset) l); [|lia].
Qed.

Lemma unpack_actions_truncated_witness :
  blen [x00] - 0 < 8 /\ unpack_actions [x00] 8 0 = Some (Ok ([], 0)).
Proof. split; [reflexivity|]. exact (proj1 (unpack_actions_truncated [x00] 8 0 0 0) eq_refl). Defined.
