(* ===== verification/OfpStructs.v ===== *)
(** * Fixed structures ([ofp_phy_port], queues and statistics of
    [pox/openflow/libopenflow_01.py])

    The structures that messages carry, each an instance of the
    wire-structure interface with its laws.  A MAC address is read back through
    [EthAddr(str)], so an address with five 0x3a bytes is excluded from the
    well-formed values (see [Addresses.EthAddr_raw]). *)

From S2P Require Import Prelude PyStruct Addresses Codec OfpMatch OfpActions.

Definition TABLE_ALL : Z := 0xff.

(** What a fixed-width name field gives back: no NUL, and it fits. *)
Definition name_ok (n : Z) (s : bytes) : Prop := no_nul s /\ blen s <= n.
(** A hardware address that [EthAddr(str)] reads back. *)
Definition raw_ok (h : hwaddr) : Prop :=
  length (hw_raw h) = 6%nat /\ count_byte x3a (hw_raw h) <> 5%nat.

(** ** Ports *)

Record ofp_phy_port := mk_ofp_phy_port {
  pp_port_no : Z;
  pp_hw_addr : hwaddr;
  pp_name : bytes;
  pp_config : Z;
  pp_state : Z;
  pp_curr : Z;
  pp_advertised : Z;
  pp_supported : Z;
  pp_peer : Z
}.

Definition new_phy_port : ofp_phy_port := mk_ofp_phy_port 0 (HwEth EMPTY_ETH) [] 0 0 0 0 0 0.

Definition phy_port_assert (a : ofp_phy_port) : bool :=
  (hw_len (pp_hw_addr a) =? 6) &&
  (blen (pp_name a) <=? 16).

Definition phy_port_pack (a : ofp_phy_port) (assertstruct : bool) : result (option bytes) :=
  if assertstruct && negb (phy_port_assert a) then mret None else
  p1 ← pack [cH] (pp_port_no a, tt);
  p2 ← pack [cL; cL; cL; cL; cL; cL] (pp_config a, (pp_state a, (pp_curr a, (pp_advertised a, (pp_supported a, (pp_peer a, tt))))));
  mret (Some (p1 ++ hw_raw (pp_hw_addr a) ++ ljust0 16 (pp_name a) ++ p2)).

Definition phy_port_unpack (a : ofp_phy_port) (b : bytes) : result (ofp_phy_port * bytes) :=
  if blen b <? 48 then mret (a, b) else
  '(port_no, _) ← unpack_from [cH] b 0;
  hw_addr ← EthAddr_init (EStr (pyslice b 2 8));
  '(config, (state, (curr, (advertised, (supported, (peer, _)))))) ← unpack_from [cL; cL; cL; cL; cL; cL] b 24;
  mret (mk_ofp_phy_port port_no (HwEth hw_addr) (strip0 (pyslice b 8 24)) config state curr advertised supported peer, pyfrom b 48).

Definition phy_port_eq (a b : ofp_phy_port) : bool :=
  (pp_port_no a =? pp_port_no b) && hw_eq (Some (pp_hw_addr a)) (Some (pp_hw_addr b)) && bool_decide (pp_name a = pp_name b) && (pp_config a =? pp_config b) && (pp_state a =? pp_state b) && (pp_curr a =? pp_curr b) && (pp_advertised a =? pp_advertised b) && (pp_supported a =? pp_supported b) && (pp_peer a =? pp_peer b).

Definition phy_port_wf (a : ofp_phy_port) : Prop :=
  uint_ok 2 (pp_port_no a) /\ raw_ok (pp_hw_addr a) /\ name_ok 16 (pp_name a) /\ uint_ok 4 (pp_config a) /\ uint_ok 4 (pp_state a) /\ uint_ok 4 (pp_curr a) /\ uint_ok 4 (pp_advertised a) /\ uint_ok 4 (pp_supported a) /\ uint_ok 4 (pp_peer a).

#[global] Instance phy_port_wire : WireStruct ofp_phy_port := {
  ws_pack := phy_port_pack; ws_after a := a; ws_unpack := phy_port_unpack; ws_len _ := 48;
  ws_eq := phy_port_eq; ws_wf := phy_port_wf; ws_fresh _ _ := True
}.

(** ** Queue properties *)

Record ofp_queue_prop_header := mk_ofp_queue_prop_header {
  qph_property : Z;
  qph_length : Z
}.

Definition new_queue_prop_header : ofp_queue_prop_header := mk_ofp_queue_prop_header 0 8.

Definition queue_prop_header_pack (a : ofp_queue_prop_header) (assertstruct : bool) : result (option bytes) :=
  p1 ← pack [cH; cH] (qph_property a, (qph_length a, tt));
  mret (Some (p1 ++ zeros 4)).

Definition queue_prop_header_unpack (a : ofp_queue_prop_header) (b : bytes) : result (ofp_queue_prop_header * bytes) :=
  if blen b <? 8 then mret (a, b) else
  '(property, (length, _)) ← unpack_from [cH; cH] b 0;
  mret (mk_ofp_queue_prop_header property length, pyfrom b 8).

Definition queue_prop_header_eq (a b : ofp_queue_prop_header) : bool :=
  (qph_property a =? qph_property b) && (qph_length a =? qph_length b).

Definition queue_prop_header_wf (a : ofp_queue_prop_header) : Prop :=
  uint_ok 2 (qph_property a) /\ uint_ok 2 (qph_length a).

#[global] Instance queue_prop_header_wire : WireStruct ofp_queue_prop_header := {
  ws_pack := queue_prop_header_pack; ws_after a := a; ws_unpack := queue_prop_header_unpack; ws_len _ := 8;
  ws_eq := queue_prop_header_eq; ws_wf := queue_prop_header_wf; ws_fresh _ _ := True
}.

Record ofp_queue_prop_min_rate := mk_ofp_queue_prop_min_rate {
  qmr_prop_header : ofp_queue_prop_header;
  qmr_rate : Z
}.

Definition new_queue_prop_min_rate : ofp_queue_prop_min_rate :=
  mk_ofp_queue_prop_min_rate new_queue_prop_header 0.

Definition queue_prop_min_rate_pack (a : ofp_queue_prop_min_rate) (assertstruct : bool)
  : result (option bytes) :=
  h ← queue_prop_header_pack (qmr_prop_header a) true; h ← concat_pack h;
  p ← pack [cH] (qmr_rate a, tt);
  mret (Some (h ++ p ++ zeros 6)).

Definition queue_prop_min_rate_unpack (a : ofp_queue_prop_min_rate) (b : bytes)
  : result (ofp_queue_prop_min_rate * bytes) :=
  if blen b <? 16 then mret (a, b) else
  '(h, _) ← queue_prop_header_unpack (qmr_prop_header a) (pyfrom b 0);
  '(rate, _) ← unpack_from [cH] b 8;
  mret (mk_ofp_queue_prop_min_rate h rate, pyfrom b 16).

Definition queue_prop_min_rate_eq (a b : ofp_queue_prop_min_rate) : bool :=
  queue_prop_header_eq (qmr_prop_header a) (qmr_prop_header b) && (qmr_rate a =? qmr_rate b).

Definition queue_prop_min_rate_wf (a : ofp_queue_prop_min_rate) : Prop :=
  queue_prop_header_wf (qmr_prop_header a) /\ uint_ok 2 (qmr_rate a).

#[global] Instance queue_prop_min_rate_wire : WireStruct ofp_queue_prop_min_rate := {
  ws_pack := queue_prop_min_rate_pack; ws_after a := a; ws_unpack := queue_prop_min_rate_unpack;
  ws_len _ := 16; ws_eq := queue_prop_min_rate_eq; ws_wf := queue_prop_min_rate_wf; ws_fresh _ _ := True
}.

(** A queue: its properties are written but never read. *)
Record ofp_packet_queue := mk_ofp_packet_queue {
  pq_queue_id : Z;
  pq_length : Z;
  pq_properties : list ofp_queue_prop_min_rate
}.

Definition new_packet_queue : ofp_packet_queue := mk_ofp_packet_queue 0 0 [].

Definition packet_queue_pack (a : ofp_packet_queue) (assertstruct : bool) : result (option bytes) :=
  p ← pack [cL; cH] (pq_queue_id a, (pq_length a, tt));
  q ← pack_all (pq_properties a) assertstruct;
  mret (Some (p ++ zeros 2 ++ q)).

Definition packet_queue_unpack (a : ofp_packet_queue) (b : bytes) : result (ofp_packet_queue * bytes) :=
  if blen b <? 8 then mret (a, b) else
  '(queue_id, (length_, _)) ← unpack_from [cL; cH] b 0;
  mret (mk_ofp_packet_queue queue_id length_ (pq_properties a), pyfrom b 8).

Definition packet_queue_len (a : ofp_packet_queue) : Z := 8 + len_all (pq_properties a).

Definition packet_queue_eq (a b : ofp_packet_queue) : bool :=
  (pq_queue_id a =? pq_queue_id b) && (pq_length a =? pq_length b) &&
  eq_all (pq_properties a) (pq_properties b).

(** ** Description statistics *)

Record ofp_desc_stats := mk_ofp_desc_stats {
  ds_mfr_desc : bytes;
  ds_hw_desc : bytes;
  ds_sw_desc : bytes;
  ds_serial_num : bytes;
  ds_dp_desc : bytes
}.

Definition new_desc_stats : ofp_desc_stats := mk_ofp_desc_stats [] [] [] [] [].

Definition desc_stats_assert (a : ofp_desc_stats) : bool :=
  (blen (ds_mfr_desc a) <=? 256) &&
  (blen (ds_hw_desc a) <=? 256) &&
  (blen (ds_sw_desc a) <=? 256) &&
  (blen (ds_serial_num a) <=? 32) &&
  (blen (ds_dp_desc a) <=? 256).

Definition desc_stats_pack (a : ofp_desc_stats) (assertstruct : bool) : result (option bytes) :=
  if assertstruct && negb (desc_stats_assert a) then mret None else
  mret (Some (ljust0 256 (ds_mfr_desc a) ++ ljust0 256 (ds_hw_desc a) ++ ljust0 256 (ds_sw_desc a) ++ ljust0 32 (ds_serial_num a) ++ ljust0 256 (ds_dp_desc a))).

Definition desc_stats_unpack (a : ofp_desc_stats) (b : bytes) : result (ofp_desc_stats * bytes) :=
  if blen b <? 1056 then mret (a, b) else
  mret (mk_ofp_desc_stats (strip0 (pyslice b 0 256)) (strip0 (pyslice b 256 512)) (strip0 (pyslice b 512 768)) (strip0 (pyslice b 768 800)) (strip0 (pyslice b 800 1056)), pyfrom b 1056).

Definition desc_stats_eq (a b : ofp_desc_stats) : bool :=
  bool_decide (ds_mfr_desc a = ds_mfr_desc b) && bool_decide (ds_hw_desc a = ds_hw_desc b) && bool_decide (ds_sw_desc a = ds_sw_desc b) && bool_decide (ds_serial_num a = ds_serial_num b) && bool_decide (ds_dp_desc a = ds_dp_desc b).

Definition desc_stats_wf (a : ofp_desc_stats) : Prop :=
  name_ok 256 (ds_mfr_desc a) /\ name_ok 256 (ds_hw_desc a) /\ name_ok 256 (ds_sw_desc a) /\ name_ok 32 (ds_serial_num a) /\ name_ok 256 (ds_dp_desc a).

#[global] Instance desc_stats_wire : WireStruct ofp_desc_stats := {
  ws_pack := desc_stats_pack; ws_after a := a; ws_unpack := desc_stats_unpack; ws_len _ := 1056;
  ws_eq := desc_stats_eq; ws_wf := desc_stats_wf; ws_fresh _ _ := True
}.

(** ** Aggregate statistics *)

Record ofp_aggregate_stats := mk_ofp_aggregate_stats {
  ags_packet_count : Z;
  ags_byte_count : Z;
  ags_flow_count : Z
}.

Definition new_aggregate_stats : ofp_aggregate_stats := mk_ofp_aggregate_stats 0 0 0.

Definition aggregate_stats_pack (a : ofp_aggregate_stats) (assertstruct : bool) : result (option bytes) :=
  p1 ← pack [cQ; cQ; cL] (ags_packet_count a, (ags_byte_count a, (ags_flow_count a, tt)));
  mret (Some (p1 ++ zeros 4)).

Definition aggregate_stats_unpack (a : ofp_aggregate_stats) (b : bytes) : result (ofp_aggregate_stats * bytes) :=
  if blen b <? 24 then mret (a, b) else
  '(packet_count, (byte_count, (flow_count, _))) ← unpack_from [cQ; cQ; cL] b 0;
  mret (mk_ofp_aggregate_stats packet_count byte_count flow_count, pyfrom b 24).

Definition aggregate_stats_eq (a b : ofp_aggregate_stats) : bool :=
  (ags_packet_count a =? ags_packet_count b) && (ags_byte_count a =? ags_byte_count b) && (ags_flow_count a =? ags_flow_count b).

Definition aggregate_stats_wf (a : ofp_aggregate_stats) : Prop :=
  uint_ok 8 (ags_packet_count a) /\ uint_ok 8 (ags_byte_count a) /\ uint_ok 4 (ags_flow_count a).

#[global] Instance aggregate_stats_wire : WireStruct ofp_aggregate_stats := {
  ws_pack := aggregate_stats_pack; ws_after a := a; ws_unpack := aggregate_stats_unpack; ws_len _ := 24;
  ws_eq := aggregate_stats_eq; ws_wf := aggregate_stats_wf; ws_fresh _ _ := True
}.

(** ** Table statistics *)

Record ofp_table_stats := mk_ofp_table_stats {
  ts_table_id : Z;
  ts_name : bytes;
  ts_wildcards : Z;
  ts_max_entries : Z;
  ts_active_count : Z;
  ts_lookup_count : Z;
  ts_matched_count : Z
}.

Definition new_table_stats : ofp_table_stats := mk_ofp_table_stats 0 [] 0 0 0 0 0.

Definition table_stats_assert (a : ofp_table_stats) : bool :=
  (blen (ts_name a) <=? 32).

Definition table_stats_pack (a : ofp_table_stats) (assertstruct : bool) : result (option bytes) :=
  if assertstruct && negb (table_stats_assert a) then mret None else
  p1 ← pack [cB] (ts_table_id a, tt);
  p2 ← pack [cL; cL; cL; cQ; cQ] (ts_wildcards a, (ts_max_entries a, (ts_active_count a, (ts_lookup_count a, (ts_matched_count a, tt)))));
  mret (Some (p1 ++ zeros 3 ++ ljust0 32 (ts_name a) ++ p2)).

Definition table_stats_unpack (a : ofp_table_stats) (b : bytes) : result (ofp_table_stats * bytes) :=
  if blen b <? 64 then mret (a, b) else
  '(table_id, _) ← unpack_from [cB] b 0;
  '(wildcards, (max_entries, (active_count, (lookup_count, (matched_count, _))))) ← unpack_from [cL; cL; cL; cQ; cQ] b 36;
  mret (mk_ofp_table_stats table_id (strip0 (pyslice b 4 36)) wildcards max_entries active_count lookup_count matched_count, pyfrom b 64).

Definition table_stats_eq (a b : ofp_table_stats) : bool :=
  (ts_table_id a =? ts_table_id b) && bool_decide (ts_name a = ts_name b) && (ts_wildcards a =? ts_wildcards b) && (ts_max_entries a =? ts_max_entries b) && (ts_active_count a =? ts_active_count b) && (ts_lookup_count a =? ts_lookup_count b) && (ts_matched_count a =? ts_matched_count b).

Definition table_stats_wf (a : ofp_table_stats) : Prop :=
  uint_ok 1 (ts_table_id a) /\ name_ok 32 (ts_name a) /\ uint_ok 4 (ts_wildcards a) /\ uint_ok 4 (ts_max_entries a) /\ uint_ok 4 (ts_active_count a) /\ uint_ok 8 (ts_lookup_count a) /\ uint_ok 8 (ts_matched_count a).

#[global] Instance table_stats_wire : WireStruct ofp_table_stats := {
  ws_pack := table_stats_pack; ws_after a := a; ws_unpack := table_stats_unpack; ws_len _ := 64;
  ws_eq := table_stats_eq; ws_wf := table_stats_wf; ws_fresh _ _ := True
}.

(** ** Port statistics request *)

Record ofp_port_stats_request := mk_ofp_port_stats_request {
  psr_port_no : Z
}.

Definition new_port_stats_request : ofp_port_stats_request := mk_ofp_port_stats_request 0.

Definition port_stats_request_pack (a : ofp_port_stats_request) (assertstruct : bool) : result (option bytes) :=
  p1 ← pack [cH] (psr_port_no a, tt);
  mret (Some (p1 ++ zeros 6)).

Definition port_stats_request_unpack (a : ofp_port_stats_request) (b : bytes) : result (ofp_port_stats_request * bytes) :=
  if blen b <? 8 then mret (a, b) else
  '(port_no, _) ← unpack_from [cH] b 0;
  mret (mk_ofp_port_stats_request port_no, pyfrom b 8).

Definition port_stats_request_eq (a b : ofp_port_stats_request) : bool :=
  (psr_port_no a =? psr_port_no b).

Definition port_stats_request_wf (a : ofp_port_stats_request) : Prop :=
  uint_ok 2 (psr_port_no a).

#[global] Instance port_stats_request_wire : WireStruct ofp_port_stats_request := {
  ws_pack := port_stats_request_pack; ws_after a := a; ws_unpack := port_stats_request_unpack; ws_len _ := 8;
  ws_eq := port_stats_request_eq; ws_wf := port_stats_request_wf; ws_fresh _ _ := True
}.

(** ** Port statistics *)

Record ofp_port_stats := mk_ofp_port_stats {
  ps_port_no : Z;
  ps_rx_packets : Z;
  ps_tx_packets : Z;
  ps_rx_bytes : Z;
  ps_tx_bytes : Z;
  ps_rx_dropped : Z;
  ps_tx_dropped : Z;
  ps_rx_errors : Z;
  ps_tx_errors : Z;
  ps_rx_frame_err : Z;
  ps_rx_over_err : Z;
  ps_rx_crc_err : Z;
  ps_collisions : Z
}.

Definition new_port_stats : ofp_port_stats := mk_ofp_port_stats 0 0 0 0 0 0 0 0 0 0 0 0 0.

Definition port_stats_pack (a : ofp_port_stats) (assertstruct : bool) : result (option bytes) :=
  p1 ← pack [cH] (ps_port_no a, tt);
  p2 ← pack [cQ; cQ; cQ; cQ; cQ; cQ; cQ; cQ; cQ; cQ; cQ; cQ] (ps_rx_packets a, (ps_tx_packets a, (ps_rx_bytes a, (ps_tx_bytes a, (ps_rx_dropped a, (ps_tx_dropped a, (ps_rx_errors a, (ps_tx_errors a, (ps_rx_frame_err a, (ps_rx_over_err a, (ps_rx_crc_err a, (ps_collisions a, tt))))))))))));
  mret (Some (p1 ++ zeros 6 ++ p2)).

Definition port_stats_unpack (a : ofp_port_stats) (b : bytes) : result (ofp_port_stats * bytes) :=
  if blen b <? 104 then mret (a, b) else
  '(port_no, _) ← unpack_from [cH] b 0;
  '(rx_packets, (tx_packets, (rx_bytes, (tx_bytes, (rx_dropped, (tx_dropped, (rx_errors, (tx_errors, (rx_frame_err, (rx_over_err, (rx_crc_err, (collisions, _)))))))))))) ← unpack_from [cQ; cQ; cQ; cQ; cQ; cQ; cQ; cQ; cQ; cQ; cQ; cQ] b 8;
  mret (mk_ofp_port_stats port_no rx_packets tx_packets rx_bytes tx_bytes rx_dropped tx_dropped rx_errors tx_errors rx_frame_err rx_over_err rx_crc_err collisions, pyfrom b 104).

Definition port_stats_eq (a b : ofp_port_stats) : bool :=
  (ps_port_no a =? ps_port_no b) && (ps_rx_packets a =? ps_rx_packets b) && (ps_tx_packets a =? ps_tx_packets b) && (ps_rx_bytes a =? ps_rx_bytes b) && (ps_tx_bytes a =? ps_tx_bytes b) && (ps_rx_dropped a =? ps_rx_dropped b) && (ps_tx_dropped a =? ps_tx_dropped b) && (ps_rx_errors a =? ps_rx_errors b) && (ps_tx_errors a =? ps_tx_errors b) && (ps_rx_frame_err a =? ps_rx_frame_err b) && (ps_rx_over_err a =? ps_rx_over_err b) && (ps_rx_crc_err a =? ps_rx_crc_err b) && (ps_collisions a =? ps_collisions b).

Definition port_stats_wf (a : ofp_port_stats) : Prop :=
  uint_ok 2 (ps_port_no a) /\ uint_ok 8 (ps_rx_packets a) /\ uint_ok 8 (ps_tx_packets a) /\ uint_ok 8 (ps_rx_bytes a) /\ uint_ok 8 (ps_tx_bytes a) /\ uint_ok 8 (ps_rx_dropped a) /\ uint_ok 8 (ps_tx_dropped a) /\ uint_ok 8 (ps_rx_errors a) /\ uint_ok 8 (ps_tx_errors a) /\ uint_ok 8 (ps_rx_frame_err a) /\ uint_ok 8 (ps_rx_over_err a) /\ uint_ok 8 (ps_rx_crc_err a) /\ uint_ok 8 (ps_collisions a).

#[global] Instance port_stats_wire : WireStruct ofp_port_stats := {
  ws_pack := port_stats_pack; ws_after a := a; ws_unpack := port_stats_unpack; ws_len _ := 104;
  ws_eq := port_stats_eq; ws_wf := port_stats_wf; ws_fresh _ _ := True
}.

(** [__add__]. *)
Definition port_stats_add (a b : ofp_port_stats) : ofp_port_stats :=
  mk_ofp_port_stats OFPP_NONE
    (ps_rx_packets a + ps_rx_packets b)
    (ps_tx_packets a + ps_tx_packets b)
    (ps_rx_bytes a + ps_rx_bytes b)
    (ps_tx_bytes a + ps_tx_bytes b)
    (ps_rx_dropped a + ps_rx_dropped b)
    (ps_tx_dropped a + ps_tx_dropped b)
    (ps_rx_errors a + ps_rx_errors b)
    (ps_tx_errors a + ps_tx_errors b)
    (ps_rx_frame_err a + ps_rx_frame_err b)
    (ps_rx_over_err a + ps_rx_over_err b)
    (ps_rx_crc_err a + ps_rx_crc_err b)
    (ps_collisions a + ps_collisions b).

(** ** Queue statistics request *)

Record ofp_queue_stats_request := mk_ofp_queue_stats_request {
  qsr_port_no : Z;
  qsr_queue_id : Z
}.

Definition new_queue_stats_request : ofp_queue_stats_request := mk_ofp_queue_stats_request 0 0.

Definition queue_stats_request_pack (a : ofp_queue_stats_request) (assertstruct : bool) : result (option bytes) :=
  p1 ← pack [cH] (qsr_port_no a, tt);
  p2 ← pack [cL] (qsr_queue_id a, tt);
  mret (Some (p1 ++ zeros 2 ++ p2)).

Definition queue_stats_request_unpack (a : ofp_queue_stats_request) (b : bytes) : result (ofp_queue_stats_request * bytes) :=
  if blen b <? 8 then mret (a, b) else
  '(port_no, _) ← unpack_from [cH] b 0;
  '(queue_id, _) ← unpack_from [cL] b 4;
  mret (mk_ofp_queue_stats_request port_no queue_id, pyfrom b 8).

Definition queue_stats_request_eq (a b : ofp_queue_stats_request) : bool :=
  (qsr_port_no a =? qsr_port_no b) && (qsr_queue_id a =? qsr_queue_id b).

Definition queue_stats_request_wf (a : ofp_queue_stats_request) : Prop :=
  uint_ok 2 (qsr_port_no a) /\ uint_ok 4 (qsr_queue_id a).

#[global] Instance queue_stats_request_wire : WireStruct ofp_queue_stats_request := {
  ws_pack := queue_stats_request_pack; ws_after a := a; ws_unpack := queue_stats_request_unpack; ws_len _ := 8;
  ws_eq := queue_stats_request_eq; ws_wf := queue_stats_request_wf; ws_fresh _ _ := True
}.

(** ** Queue statistics *)

Record ofp_queue_stats := mk_ofp_queue_stats {
  qs_port_no : Z;
  qs_queue_id : Z;
  qs_tx_bytes : Z;
  qs_tx_packets : Z;
  qs_tx_errors : Z
}.

Definition new_queue_stats : ofp_queue_stats := mk_ofp_queue_stats 0 0 0 0 0.

Definition queue_stats_pack (a : ofp_queue_stats) (assertstruct : bool) : result (option bytes) :=
  p1 ← pack [cH] (qs_port_no a, tt);
  p2 ← pack [cL; cQ; cQ; cQ] (qs_queue_id a, (qs_tx_bytes a, (qs_tx_packets a, (qs_tx_errors a, tt))));
  mret (Some (p1 ++ zeros 2 ++ p2)).

Definition queue_stats_unpack (a : ofp_queue_stats) (b : bytes) : result (ofp_queue_stats * bytes) :=
  if blen b <? 32 then mret (a, b) else
  '(port_no, _) ← unpack_from [cH] b 0;
  '(queue_id, (tx_bytes, (tx_packets, (tx_errors, _)))) ← unpack_from [cL; cQ; cQ; cQ] b 4;
  mret (mk_ofp_queue_stats port_no queue_id tx_bytes tx_packets tx_errors, pyfrom b 32).

Definition queue_stats_eq (a b : ofp_queue_stats) : bool :=
  (qs_port_no a =? qs_port_no b) && (qs_queue_id a =? qs_queue_id b) && (qs_tx_bytes a =? qs_tx_bytes b) && (qs_tx_packets a =? qs_tx_packets b) && (qs_tx_errors a =? qs_tx_errors b).

Definition queue_stats_wf (a : ofp_queue_stats) : Prop :=
  uint_ok 2 (qs_port_no a) /\ uint_ok 4 (qs_queue_id a) /\ uint_ok 8 (qs_tx_bytes a) /\ uint_ok 8 (qs_tx_packets a) /\ uint_ok 8 (qs_tx_errors a).

#[global] Instance queue_stats_wire : WireStruct ofp_queue_stats := {
  ws_pack := queue_stats_pack; ws_after a := a; ws_unpack := queue_stats_unpack; ws_len _ := 32;
  ws_eq := queue_stats_eq; ws_wf := queue_stats_wf; ws_fresh _ _ := True
}.

(** ** Requests and statistics that carry a match *)

Record ofp_flow_stats_request := mk_ofp_flow_stats_request {
  fsr_match : ofp_match;
  fsr_table_id : Z;
  fsr_out_port : Z
}.

Definition new_flow_stats_request : ofp_flow_stats_request :=
  mk_ofp_flow_stats_request new_match TABLE_ALL OFPP_NONE.

Definition flow_stats_request_pack (a : ofp_flow_stats_request) (assertstruct : bool)
  : result (option bytes) :=
  m ← match_pack (fsr_match a) true false;
  p ← pack [cB; cB; cH] (fsr_table_id a, (0, (fsr_out_port a, tt)));
  mret (Some (m ++ p)).

(** [return binaryString[len(self)]]: an index, not a slice. *)
Definition flow_stats_request_unpack (a : ofp_flow_stats_request) (b : bytes)
  : result (ofp_flow_stats_request * bytes) :=
  if blen b <? 44 then mret (a, b) else
  '(m, _) ← match_unpack (fsr_match a) (pyfrom b 0) false;
  '(table_id, (_, (out_port, _))) ← unpack_from [cB; cB; cH] b match_len;
  c ← need IndexError (b !! 44%nat);
  mret (mk_ofp_flow_stats_request m table_id out_port, [c]).

Definition flow_stats_request_eq (a b : ofp_flow_stats_request) : bool :=
  match_eq (fsr_match a) (fsr_match b) && (fsr_table_id a =? fsr_table_id b) &&
  (fsr_out_port a =? fsr_out_port b).

Record ofp_aggregate_stats_request := mk_ofp_aggregate_stats_request {
  asr_match : ofp_match;
  asr_table_id : Z;
  asr_out_port : Z
}.

Definition new_aggregate_stats_request : ofp_aggregate_stats_request :=
  mk_ofp_aggregate_stats_request new_match TABLE_ALL OFPP_NONE.

Definition aggregate_stats_request_pack (a : ofp_aggregate_stats_request) (assertstruct : bool)
  : result (option bytes) :=
  m ← match_pack (asr_match a) true false;
  p ← pack [cB; cB; cH] (asr_table_id a, (0, (asr_out_port a, tt)));
  mret (Some (m ++ p)).

Definition aggregate_stats_request_unpack (a : ofp_aggregate_stats_request) (b : bytes)
  : result (ofp_aggregate_stats_request * bytes) :=
  if blen b <? 4 + match_len then mret (a, b) else
  '(m, _) ← match_unpack (asr_match a) (pyfrom b 0) false;
  '(table_id, (_, (out_port, _))) ← unpack_from [cB; cB; cH] b match_len;
  mret (mk_ofp_aggregate_stats_request m table_id out_port, pyfrom b 44).

Definition aggregate_stats_request_eq (a b : ofp_aggregate_stats_request) : bool :=
  match_eq (asr_match a) (asr_match b) && (asr_table_id a =? asr_table_id b) &&
  (asr_out_port a =? asr_out_port b).

Definition aggregate_stats_request_wf (a : ofp_aggregate_stats_request) : Prop :=
  match_wf (asr_match a) /\ uint_ok 1 (asr_table_id a) /\ uint_ok 2 (asr_out_port a).

#[global] Instance aggregate_stats_request_wire : WireStruct ofp_aggregate_stats_request := {
  ws_pack := aggregate_stats_request_pack; ws_after a := a; ws_unpack := aggregate_stats_request_unpack;
  ws_len _ := 44; ws_eq := aggregate_stats_request_eq; ws_wf := aggregate_stats_request_wf;
  ws_fresh _ _ := True
}.

Record ofp_flow_stats := mk_ofp_flow_stats {
  fs_length : Z;
  fs_table_id : Z;
  fs_match : ofp_match;
  fs_duration_sec : Z;
  fs_duration_nsec : Z;
  fs_priority : Z;
  fs_idle_timeout : Z;
  fs_hard_timeout : Z;
  fs_cookie : Z;
  fs_packet_count : Z;
  fs_byte_count : Z;
  fs_actions : list action
}.

Definition OFP_DEFAULT_PRIORITY : Z := 0x8000.

Definition new_flow_stats : ofp_flow_stats :=
  mk_ofp_flow_stats 0 0 new_match 0 0 OFP_DEFAULT_PRIORITY 0 0 0 0 0 [].

Definition flow_stats_len (a : ofp_flow_stats) : Z := 48 + match_len + len_all (fs_actions a).

Definition flow_stats_pack (a : ofp_flow_stats) (assertstruct : bool) : result (option bytes) :=
  p1 ← pack [cH; cB; cB] (fs_length a, (fs_table_id a, (0, tt)));
  m ← match_pack (fs_match a) true false;
  p2 ← pack [cL; cL; cH; cH; cH] (fs_duration_sec a, (fs_duration_nsec a, (fs_priority a,
         (fs_idle_timeout a, (fs_hard_timeout a, tt)))));
  p3 ← pack [cQ; cQ; cQ] (fs_cookie a, (fs_packet_count a, (fs_byte_count a, tt)));
  acts ← pack_all (fs_actions a) assertstruct;
  mret (Some (p1 ++ m ++ p2 ++ zeros 6 ++ p3 ++ acts)).

(** The parser of the embedded actions never runs out of fuel. *)
Definition run_actions (o : option (result (list action * Z))) : result (list action * Z) :=
  match o with Some r => r | None => Err RuntimeError end.

Definition flow_stats_unpack (a : ofp_flow_stats) (b : bytes) : result (ofp_flow_stats * bytes) :=
  if blen b <? 48 + match_len then mret (a, b) else
  '(length_, (table_id, (_, _))) ← unpack_from [cH; cB; cB] b 0;
  '(m, _) ← match_unpack (fs_match a) (pyfrom b 4) false;
  '(dsec, (dnsec, (priority, (idle, (hard, _))))) ← unpack_from [cL; cL; cH; cH; cH] b (4 + match_len);
  '(cookie, (packets, (byte_count, _))) ← unpack_from [cQ; cQ; cQ] b (24 + match_len);
  '(actions, offset) ←
    run_actions (unpack_actions b (length_ - (48 + match_len)) (48 + match_len));
  let a := mk_ofp_flow_stats length_ table_id m dsec dnsec priority idle hard cookie packets byte_count actions in
  _ ← guard_ok (offset =? length_) AssertionError;
  _ ← guard_ok (length_ =? flow_stats_len a) AssertionError;
  mret (a, pyfrom b offset).

Definition flow_stats_eq (a b : ofp_flow_stats) : bool :=
  (fs_length a =? fs_length b) && (fs_table_id a =? fs_table_id b) &&
  match_eq (fs_match a) (fs_match b) && (fs_duration_sec a =? fs_duration_sec b) &&
  (fs_duration_nsec a =? fs_duration_nsec b) && (fs_priority a =? fs_priority b) &&
  (fs_idle_timeout a =? fs_idle_timeout b) && (fs_hard_timeout a =? fs_hard_timeout b) &&
  (fs_cookie a =? fs_cookie b) && (fs_packet_count a =? fs_packet_count b) &&
  (fs_byte_count a =? fs_byte_count b) && eq_all (fs_actions a) (fs_actions b).

(** The sender must have set [length]: [pack] does not. *)
Definition flow_stats_wf (a : ofp_flow_stats) : Prop :=
  fs_length a = flow_stats_len a /\ uint_ok 2 (fs_length a) /\ uint_ok 1 (fs_table_id a) /\
  match_wf (fs_match a) /\ uint_ok 4 (fs_duration_sec a) /\ uint_ok 4 (fs_duration_nsec a) /\
  uint_ok 2 (fs_priority a) /\ uint_ok 2 (fs_idle_timeout a) /\ uint_ok 2 (fs_hard_timeout a) /\
  uint_ok 8 (fs_cookie a) /\ uint_ok 8 (fs_packet_count a) /\ uint_ok 8 (fs_byte_count a) /\
  Forall action_wf (fs_actions a).

Definition flow_stats_after (a : ofp_flow_stats) : ofp_flow_stats :=
  mk_ofp_flow_stats (fs_length a) (fs_table_id a) (fs_match a) (fs_duration_sec a) (fs_duration_nsec a)
    (fs_priority a) (fs_idle_timeout a) (fs_hard_timeout a) (fs_cookie a) (fs_packet_count a)
    (fs_byte_count a) (map action_after (fs_actions a)).

#[global] Instance flow_stats_wire : WireStruct ofp_flow_stats := {
  ws_pack := flow_stats_pack; ws_after := flow_stats_after; ws_unpack := flow_stats_unpack;
  ws_len := flow_stats_len; ws_eq := flow_stats_eq; ws_wf := flow_stats_wf; ws_fresh _ _ := True
}.

(** ** Laws *)

Lemma eth_init_ok h : raw_ok h -> EthAddr_init (EStr (hw_raw h)) = Ok (mkEth (hw_raw h)).
Proof. intros [H1 H2]. rewrite eth_init_raw by done. by rewrite decide_False. Qed.

Lemma raw_ok_blen h : raw_ok h -> blen (hw_raw h) = 6.
Proof. intros [H _]. unfold blen. by rewrite H. Qed.

Lemma raw_ok_len h : raw_ok h -> (hw_len h =? 6) = true.
Proof. intros H. apply raw_ok_blen in H. apply Z.eqb_eq. by destruct h. Qed.

Lemma name_ok_blen n s : name_ok (Z.of_nat n) s -> blen (ljust0 n s) = Z.of_nat n.
Proof. intros [_ H]. by apply blen_ljust0. Qed.

Lemma name_ok_strip n m s : name_ok m s -> strip0 (ljust0 n s) = s.
Proof. intros [H _]. by apply strip0_ljust0. Qed.

Lemma name_ok_test n s : name_ok n s -> (blen s <=? n) = true.
Proof. intros [_ H]. by apply Z.leb_le. Qed.

(** The lengths of the variable pieces, as hypotheses for the reads. *)
Ltac piece_lengths :=
  repeat match goal with
  | H : raw_ok ?h |- _ =>
      lazymatch goal with _ : blen (hw_raw h) = 6 |- _ => fail | _ => pose proof (raw_ok_blen h H) end
  end;
  repeat match goal with
  | |- context [ljust0 ?n ?s] =>
      lazymatch goal with
      | _ : blen (ljust0 n s) = _ |- _ => fail
      | H : name_ok _ s |- _ =>
          let E := fresh "E" in pose proof (name_ok_blen n s H) as E; simpl Z.of_nat in E
      end
  end.

Ltac tests_pass :=
  repeat match goal with
  | H : name_ok ?n ?s |- context [blen ?s <=? ?n] => rewrite (name_ok_test n s H)
  | H : raw_ok ?h |- context [hw_len ?h =? 6] => rewrite (raw_ok_len h H)
  end; cbn [andb negb].

Ltac struct_law :=
  tests_pass; eexists; split; [packs; reflexivity|]; rd_pack; piece_lengths;
  split;
  [ autorewrite with blen; repeat match goal with H : blen _ = _ |- _ => rewrite H end;
    cbn [calcsize code_size]; simpl Z.of_nat; lia
  | intros a0 r _; len_ok; rewrite <-?app_assoc; rd;
    repeat (first [rewrite eth_init_ok by assumption | erewrite name_ok_strip by eassumption]; rd);
    eexists; split; [reflexivity|]; eq_fields ].

#[global] Instance phy_port_laws : WireLaws ofp_phy_port.
Proof.
  constructor. intros a Ha. cbn [ws_wf phy_port_wire] in Ha. unfold phy_port_wf in Ha.
  destruct_and?. cbn [ws_pack ws_after ws_len ws_unpack ws_eq ws_fresh phy_port_wire].
  unfold phy_port_pack, phy_port_unpack, phy_port_eq, phy_port_assert.
  struct_law.
Qed.

#[global] Instance queue_prop_header_laws : WireLaws ofp_queue_prop_header.
Proof.
  constructor. intros a Ha. cbn [ws_wf queue_prop_header_wire] in Ha. unfold queue_prop_header_wf in Ha.
  destruct_and?. cbn [ws_pack ws_after ws_len ws_unpack ws_eq ws_fresh queue_prop_header_wire].
  unfold queue_prop_header_pack, queue_prop_header_unpack, queue_prop_header_eq.
  struct_law.
Qed.

#[global] Instance desc_stats_laws : WireLaws ofp_desc_stats.
Proof.
  constructor. intros a Ha. cbn [ws_wf desc_stats_wire] in Ha. unfold desc_stats_wf in Ha.
  destruct_and?. cbn [ws_pack ws_after ws_len ws_unpack ws_eq ws_fresh desc_stats_wire].
  unfold desc_stats_pack, desc_stats_unpack, desc_stats_eq, desc_stats_assert.
  struct_law.
Qed.

#[global] Instance aggregate_stats_laws : WireLaws ofp_aggregate_stats.
Proof.
  constructor. intros a Ha. cbn [ws_wf aggregate_stats_wire] in Ha. unfold aggregate_stats_wf in Ha.
  destruct_and?. cbn [ws_pack ws_after ws_len ws_unpack ws_eq ws_fresh aggregate_stats_wire].
  unfold aggregate_stats_pack, aggregate_stats_unpack, aggregate_stats_eq.
  struct_law.
Qed.

#[global] Instance table_stats_laws : WireLaws ofp_table_stats.
Proof.
  constructor. intros a Ha. cbn [ws_wf table_stats_wire] in Ha. unfold table_stats_wf in Ha.
  destruct_and?. cbn [ws_pack ws_after ws_len ws_unpack ws_eq ws_fresh table_stats_wire].
  unfold table_stats_pack, table_stats_unpack, table_stats_eq, table_stats_assert.
  struct_law.
Qed.

#[global] Instance port_stats_request_laws : WireLaws ofp_port_stats_request.
Proof.
  constructor. intros a Ha. cbn [ws_wf port_stats_request_wire] in Ha. unfold port_stats_request_wf in Ha.
  destruct_and?. cbn [ws_pack ws_after ws_len ws_unpack ws_eq ws_fresh port_stats_request_wire].
  unfold port_stats_request_pack, port_stats_request_unpack, port_stats_request_eq.
  struct_law.
Qed.

#[global] Instance port_stats_laws : WireLaws ofp_port_stats.
Proof.
  constructor. intros a Ha. cbn [ws_wf port_stats_wire] in Ha. unfold port_stats_wf in Ha.
  destruct_and?. cbn [ws_pack ws_after ws_len ws_unpack ws_eq ws_fresh port_stats_wire].
  unfold port_stats_pack, port_stats_unpack, port_stats_eq.
  struct_law.
Qed.

#[global] Instance queue_stats_request_laws : WireLaws ofp_queue_stats_request.
Proof.
  constructor. intros a Ha. cbn [ws_wf queue_stats_request_wire] in Ha. unfold queue_stats_request_wf in Ha.
  destruct_and?. cbn [ws_pack ws_after ws_len ws_unpack ws_eq ws_fresh queue_stats_request_wire].
  unfold queue_stats_request_pack, queue_stats_request_unpack, queue_stats_request_eq.
  struct_law.
Qed.

#[global] Instance queue_stats_laws : WireLaws ofp_queue_stats.
Proof.
  constructor. intros a Ha. cbn [ws_wf queue_stats_wire] in Ha. unfold queue_stats_wf in Ha.
  destruct_and?. cbn [ws_pack ws_after ws_len ws_unpack ws_eq ws_fresh queue_stats_wire].
  unfold queue_stats_pack, queue_stats_unpack, queue_stats_eq.
  struct_law.
Qed.

#[global] Instance queue_prop_min_rate_laws : WireLaws ofp_queue_prop_min_rate.
Proof.
  constructor. intros [h rate] [Hh Hr]. cbn [qmr_prop_header qmr_rate] in *.
  destruct (ws_law h) as (bs & E & Hb & Hu); [exact Hh|].
  cbn [ws_pack ws_after ws_len ws_unpack ws_eq ws_fresh queue_prop_min_rate_wire queue_prop_header_wire] in *.
  unfold queue_prop_min_rate_pack, queue_prop_min_rate_unpack, queue_prop_min_rate_eq.
  cbn [qmr_prop_header qmr_rate]. rewrite E. cbn [mbind result_bind concat_pack need].
  eexists; split; [packs; reflexivity|]. rd_pack.
  split; [autorewrite with blen; rewrite Hb; cbn [calcsize code_size]; simpl Z.of_nat; lia|].
  intros a0 r _. len_ok. rewrite <-?app_assoc, pyfrom_0.
  match goal with |- context [queue_prop_header_unpack (qmr_prop_header a0) (bs ++ ?t)] =>
    destruct (Hu (qmr_prop_header a0) t I) as (h' & Eh & Eq) end.
  rewrite Eh. cbn [mbind result_bind]. rd. eexists; split; [reflexivity|].
  cbn [qmr_prop_header qmr_rate]. by rewrite Eq, Z.eqb_refl.
Qed.

#[global] Instance aggregate_stats_request_laws : WireLaws ofp_aggregate_stats_request.
Proof.
  constructor. intros [m t o] (Hm & Ht & Ho). cbn [asr_match asr_table_id asr_out_port] in *.
  destruct (match_law m false Hm) as (E & Hb & Hu & Eq).
  cbn [ws_pack ws_after ws_len ws_unpack ws_eq ws_fresh aggregate_stats_request_wire].
  unfold aggregate_stats_request_pack, aggregate_stats_request_unpack, aggregate_stats_request_eq, match_len.
  cbn [asr_match asr_table_id asr_out_port]. rewrite E. cbn [mbind result_bind].
  eexists; split; [packs; reflexivity|]. rd_pack.
  split; [autorewrite with blen; rewrite Hb; cbn [calcsize code_size]; simpl Z.of_nat; lia|].
  intros a0 r _. len_ok. rewrite <-?app_assoc, pyfrom_0, Hu. cbn [mbind result_bind]. rd.
  eexists; split; [reflexivity|]. cbn [asr_match asr_table_id asr_out_port].
  by rewrite Eq, !Z.eqb_refl.
Qed.

Lemma run_actions_roundtrip l (bs pre post : bytes) n o :
  Forall action_wf l -> pack_all l true = Ok bs -> n = blen bs -> o = blen pre ->
  exists l', run_actions (unpack_actions (pre ++ bs ++ post) n o) = Ok (l', o + n) /\
    eq_all l' (map action_after l) = true /\ len_all l' = len_all l.
Proof.
  intros Hl E -> ->. destruct (unpack_actions_pack_all l pre post Hl) as (bs' & l' & E' & _ & Eu & Eq).
  assert (bs' = bs) as -> by congruence. exists l'. rewrite Eu. split; [done|]. split; [done|].
  by apply eq_all_len_after.
Qed.

(** The structure, seen as a fixed part and the actions after it. *)
#[global] Instance flow_stats_laws : WireLaws ofp_flow_stats.
Proof.
  constructor. intros a Ha. cbn [ws_wf flow_stats_wire] in Ha. unfold flow_stats_wf in Ha. destruct_and!.
  destruct (match_law (fs_match a) false) as (E & Hb & Hu & Eq); [done|].
  destruct (pack_all_ok (fs_actions a)) as (acts & Ea & Hacts); [done|].
  cbn [ws_pack ws_after ws_len ws_unpack ws_eq ws_fresh flow_stats_wire].
  assert (0 <= len_all (fs_actions a)) by (rewrite <-Hacts; apply blen_nonneg).
  assert (Hlen : flow_stats_len a = 88 + len_all (fs_actions a)) by (unfold flow_stats_len, match_len; lia).
  unfold flow_stats_pack, flow_stats_unpack, flow_stats_eq, flow_stats_after, match_len.
  rewrite E, Ea. eexists; split; [packs; reflexivity|]. rd_pack.
  split; [autorewrite with blen; rewrite Hb; cbn [calcsize code_size]; simpl Z.of_nat; lia|].
  intros a0 r _. len_ok. rewrite <-?app_assoc. rd. rewrite Hu. cbn [mbind result_bind]. rd.
  rewrite <-Hacts in Hlen.
  match goal with |- context [unpack_actions ?b ?n ?o] =>
    match b with ?b1 ++ ?b2 ++ ?b3 ++ ?b4 ++ ?b5 ++ acts ++ r =>
      destruct (run_actions_roundtrip (fs_actions a) acts (b1 ++ b2 ++ b3 ++ b4 ++ b5) r n o)
        as (l' & El & Eq' & Hl'); [done|done|lia|..];
      [ rewrite !blen_app, Hb, !blen_encode, blen_zeros; cbn [calcsize code_size]; simpl Z.of_nat; lia |];
      rewrite <-!app_assoc in El; rewrite El
    end
  end.
  cbn [mbind result_bind]. unfold flow_stats_len, match_len. cbn [fs_actions].
  rewrite Hl', <-Hacts.
  rewrite (proj2 (Z.eqb_eq _ _)) by lia. cbn [guard_ok mbind result_bind].
  rewrite (proj2 (Z.eqb_eq _ _)) by lia. cbn [guard_ok mbind result_bind].
  eexists. split.
  { rewrite !app_assoc, pyfrom_app; [reflexivity|].
    rewrite !blen_app, Hb, !blen_encode, blen_zeros. cbn [calcsize code_size]. simpl Z.of_nat. lia. }
  cbn [fs_length fs_table_id fs_match fs_duration_sec fs_duration_nsec fs_priority fs_idle_timeout
    fs_hard_timeout fs_cookie fs_packet_count fs_byte_count fs_actions].
  rewrite Eq, Eq', !Z.eqb_refl. done.
Qed.

(** ** Properties *)

(** A port description survives the wire: 48 bytes, read back as an equal
    port in front of any bytes, for every name of at most 16 characters without
    NUL and every address the parser can read. *)
Theorem phy_port_roundtrip (a a0 : ofp_phy_port) (rest : bytes) :
  phy_port_wf a ->
  exists bs a', phy_port_pack a true = Ok (Some bs) /\ blen bs = 48 /\
    phy_port_unpack a0 (bs ++ rest) = Ok (a', rest) /\ phy_port_eq a' a = true.
Proof.
  intros H. destruct (ws_law a) as (bs & E & Hb & Hu); [exact H|].
  destruct (Hu a0 rest I) as (a' & Eu & Eq). by exists bs, a'.
Qed.

Definition example_port : ofp_phy_port :=
  mk_ofp_phy_port 1 (HwEth (mkEth [x00; x1b; x3a; x3a; x3a; x3a])) (str "eth0") 0 1 2 3 4 5.

Lemma phy_port_roundtrip_witness :
  phy_port_wf example_port /\
  exists bs a', phy_port_pack example_port true = Ok (Some bs) /\ blen bs = 48 /\
    phy_port_unpack new_phy_port (bs ++ str "x") = Ok (a', str "x") /\ phy_port_eq a' example_port = true.
Proof.
  assert (H : phy_port_wf example_port).
  { unfold phy_port_wf. split_and!; try (vm_compute; split; congruence).
    split; [|by vm_compute]. repeat constructor; discriminate. }
  split; [exact H|]. exact (phy_port_roundtrip example_port new_phy_port (str "x") H).
Defined.

(** Flow statistics with any list of actions survive the wire, the parser's
    two assertions on the length included. *)
Theorem flow_stats_roundtrip (a a0 : ofp_flow_stats) (rest : bytes) :
  flow_stats_wf a ->
  exists bs a', flow_stats_pack a true = Ok (Some bs) /\ blen bs = flow_stats_len a /\
    flow_stats_unpack a0 (bs ++ rest) = Ok (a', rest) /\ flow_stats_eq a' (flow_stats_after a) = true.
Proof.
  intros H. destruct (ws_law a) as (bs & E & Hb & Hu); [exact H|].
  destruct (Hu a0 rest I) as (a' & Eu & Eq). by exists bs, a'.
Qed.

Definition example_flow_stats : ofp_flow_stats :=
  mk_ofp_flow_stats 128 0 http_match 10 500 100 5 0 0xdeadbeef 7 700 example_actions.

Lemma example_flow_stats_wf : flow_stats_wf example_flow_stats.
Proof.
  split; [reflexivity|]. do 2 (split; [vm_compute; split; congruence|]).
  split; [exact match_wf_http|].
  do 8 (split; [vm_compute; split; congruence|]). exact example_actions_wf.
Defined.

Lemma flow_stats_roundtrip_witness :
  flow_stats_wf example_flow_stats /\
  exists bs a', flow_stats_pack example_flow_stats true = Ok (Some bs) /\
    blen bs = flow_stats_len example_flow_stats /\
    flow_stats_unpack new_flow_stats (bs ++ []) = Ok (a', []) /\
    flow_stats_eq a' (flow_stats_after example_flow_stats) = true.
Proof.
  split; [exact example_flow_stats_wf|].
  exact (flow_stats_roundtrip example_flow_stats new_flow_stats [] example_flow_stats_wf).
Defined.

(** A flow statistics request cannot read back its own 44 bytes: [unpack]
    ends in an index instead of a slice and raises [IndexError]; followed by
    one more byte it returns that byte. *)
Theorem flow_stats_request_index (a a0 : ofp_flow_stats_request) (c : byte) (rest : bytes) :
  match_wf (fsr_match a) -> uint_ok 1 (fsr_table_id a) -> uint_ok 2 (fsr_out_port a) ->
  exists bs, flow_stats_request_pack a true = Ok (Some bs) /\
    flow_stats_request_unpack a0 bs = Err IndexError /\
    exists a', flow_stats_request_unpack a0 (bs ++ c :: rest) = Ok (a', [c]).
Proof.
  intros Hm Ht Ho. destruct (match_law (fsr_match a) false Hm) as (E & Hb & Hu & Eq).
  unfold flow_stats_request_pack. rewrite E. cbn [mbind result_bind].
  eexists; split; [packs; reflexivity|]. rd_pack.
  set (mb := match_bytes (fsr_match a) false) in *.
  set (tl := encode _ _).
  assert (Hl : blen (mb ++ tl) = 44).
  { rewrite blen_app, Hb. unfold tl. by rewrite blen_encode. }
  assert (Hn : length (mb ++ tl) = 44%nat) by (unfold blen in Hl; lia).
  unfold flow_stats_request_unpack, match_len. split; [|eexists].
  - len_ok. rewrite pyfrom_0, Hu. cbn [mbind result_bind]. unfold tl. rd. fold tl.
    rewrite (lookup_ge_None_2 _ 44) by lia. done.
  - rewrite (proj2 (Z.ltb_ge _ _)) by (rewrite blen_app, blen_cons, Hl; pose proof (blen_nonneg rest); lia).
    rewrite pyfrom_0, <-app_assoc, Hu. cbn [mbind result_bind]. unfold tl. rd. fold tl.
    rewrite app_assoc, lookup_app_r by lia. rewrite Hn. reflexivity.
Qed.

Lemma flow_stats_request_index_witness :
  match_wf http_match /\
  exists bs, flow_stats_request_pack (mk_ofp_flow_stats_request http_match 0xff OFPP_NONE) true = Ok (Some bs) /\
    flow_stats_request_unpack new_flow_stats_request bs = Err IndexError /\
    exists a', flow_stats_request_unpack new_flow_stats_request (bs ++ [x41]) = Ok (a', [x41]).
Proof.
  split; [exact match_wf_http|].
  apply (flow_stats_request_index (mk_ofp_flow_stats_request http_match 0xff OFPP_NONE)
           new_flow_stats_request x41 []); [exact match_wf_http|..];
    vm_compute; split; congruence.
Defined.
