(* ===== verification/OfpMessages.v ===== *)
(** * OpenFlow messages ([ofp_header] and its subclasses,
    [pox/openflow/libopenflow_01.py])

    A message is a header and the fields of its class.  Packing may draw a
    transaction id from the module global [_nextXID], so [pack] runs in the
    state monad over that counter, and returns the bytes ([None] where the
    method returns [None]) with the object as it is afterwards: the id is
    stored, several classes also set [length]. *)

From S2P Require Import Prelude PyStruct Addresses Codec OfpMatch OfpActions OfpStructs.

Definition OFP_VERSION : Z := 0x01.
Definition OFPT_HELLO : Z := 0.
Definition OFPT_ERROR : Z := 1.
Definition OFPT_ECHO_REQUEST : Z := 2.
Definition OFPT_ECHO_REPLY : Z := 3.
Definition OFPT_VENDOR : Z := 4.
Definition OFPT_FEATURES_REQUEST : Z := 5.
Definition OFPT_FEATURES_REPLY : Z := 6.
Definition OFPT_GET_CONFIG_REQUEST : Z := 7.
Definition OFPT_GET_CONFIG_REPLY : Z := 8.
Definition OFPT_SET_CONFIG : Z := 9.
Definition OFPT_PACKET_IN : Z := 10.
Definition OFPT_FLOW_REMOVED : Z := 11.
Definition OFPT_PORT_STATUS : Z := 12.
Definition OFPT_PACKET_OUT : Z := 13.
Definition OFPT_FLOW_MOD : Z := 14.
Definition OFPT_PORT_MOD : Z := 15.
Definition OFPT_STATS_REQUEST : Z := 16.
Definition OFPT_STATS_REPLY : Z := 17.
Definition OFPT_BARRIER_REQUEST : Z := 18.
Definition OFPT_BARRIER_REPLY : Z := 19.
Definition OFPT_QUEUE_GET_CONFIG_REQUEST : Z := 20.
Definition OFPT_QUEUE_GET_CONFIG_REPLY : Z := 21.

Definition OFP_DEFAULT_MISS_SEND_LEN : Z := 128.
Definition OFP_PHY_PORT_BYTES : Z := 48.
Definition OFPFC_ADD : Z := 0.
Definition OFPFC_MODIFY : Z := 1.
Definition OFPFC_MODIFY_STRICT : Z := 2.
Definition OFPFC_DELETE : Z := 3.
Definition OFPFC_DELETE_STRICT : Z := 4.
Definition OFPFF_SEND_FLOW_REM : Z := 1.
Definition OFPFF_CHECK_OVERLAP : Z := 2.
Definition OFPFF_EMERG : Z := 4.
Definition OFPST_DESC : Z := 0.
Definition OFPST_FLOW : Z := 1.
Definition OFPST_AGGREGATE : Z := 2.

(** ** Transaction ids *)

Definition MAX_XID : Z := 0x7fffffff.

(** [generateXID]: the counter is incremented twice. *)
Definition generateXID : M Z Z := fun nextXID =>
  (Ok nextXID, (nextXID + 1 + 1) mod (MAX_XID + 1)).

(** The first [n] values of [xid_generator(start)]. *)
Fixpoint xid_gen (n : nat) (cur : Z) : list Z :=
  match n with O => [] | S n => cur :: xid_gen n ((cur + 1) mod (MAX_XID + 1)) end.
Definition xid_generator (n : nat) (start : Z) : list Z := xid_gen n (start mod (MAX_XID + 1)).

(** ** The header *)

Record ofp_header := mk_header {
  version : Z;
  header_type : Z;
  h_length : Z;
  xid : option Z
}.

Definition new_header (t : Z) : ofp_header := mk_header OFP_VERSION t 8 None.
Definition with_length (h : ofp_header) (l : Z) : ofp_header :=
  mk_header (version h) (header_type h) l (xid h).
Definition with_xid (h : ofp_header) (x : Z) : ofp_header :=
  mk_header (version h) (header_type h) (h_length h) (Some x).

(** [header_type in ofp_type_map]. *)
Definition header_assert (h : ofp_header) : bool := (0 <=? header_type h) && (header_type h <=? 21).

(** [ofp_header.pack]: the id is drawn before the assertion. *)
Definition header_pack (h : ofp_header) : M Z (bytes * ofp_header) :=
  x ← match xid h with Some x => mret x | None => generateXID end;
  _ ← lift (guard_ok (header_assert h) RuntimeError);
  p ← lift (pack [cB; cB; cH; cL] (version h, (header_type h, (h_length h, (x, tt)))));
  mret (p, with_xid h x).

Definition header_unpack (h : ofp_header) (b : bytes) : result (ofp_header * bytes) :=
  if blen b <? 8 then mret (h, b) else
  '(v, (t, (l, (x, _)))) ← unpack_from [cB; cB; cH; cL] b 0;
  mret (mk_header v t l (Some x), pyfrom b 8).

Definition header_eq (a b : ofp_header) : bool :=
  (version a =? version b) && (header_type a =? header_type b) && (h_length a =? h_length b) &&
  bool_decide (xid a = xid b).

(** The header, then a body that does not touch the counter. *)
Definition pack_with (h : ofp_header) (body : result bytes) : M Z (bytes * ofp_header) :=
  '(p, h) ← header_pack h; b ← lift body; mret (p ++ b, h).

(** ** Hello *)

Record ofp_hello := mk_ofp_hello {
  he_hdr : ofp_header
}.

Definition new_hello : ofp_hello := mk_ofp_hello (new_header OFPT_HELLO).

Definition hello_pack (a : ofp_hello) (assertstruct : bool) : M Z (option bytes * ofp_hello) :=
  '(p, h) ← pack_with (he_hdr a) (mret []);
  mret (Some p, mk_ofp_hello h).

Definition hello_unpack (a : ofp_hello) (b : bytes) : result (ofp_hello * bytes) :=
  if blen b <? 8 then mret (a, b) else
  '(h, _) ← header_unpack (he_hdr a) (pyfrom b 0);
  mret (mk_ofp_hello h, pyfrom b 8).

Definition hello_eq (a b : ofp_hello) : bool :=
  header_eq (he_hdr a) (he_hdr b).

(** ** Features request *)

Record ofp_features_request := mk_ofp_features_request {
  frq_hdr : ofp_header
}.

Definition new_features_request : ofp_features_request := mk_ofp_features_request (new_header OFPT_FEATURES_REQUEST).

Definition features_request_pack (a : ofp_features_request) (assertstruct : bool) : M Z (option bytes * ofp_features_request) :=
  '(p, h) ← pack_with (frq_hdr a) (mret []);
  mret (Some p, mk_ofp_features_request h).

Definition features_request_unpack (a : ofp_features_request) (b : bytes) : result (ofp_features_request * bytes) :=
  if blen b <? 8 then mret (a, b) else
  '(h, _) ← header_unpack (frq_hdr a) (pyfrom b 0);
  mret (mk_ofp_features_request h, pyfrom b 8).

Definition features_request_eq (a b : ofp_features_request) : bool :=
  header_eq (frq_hdr a) (frq_hdr b).

(** ** Configuration request *)

Record ofp_get_config_request := mk_ofp_get_config_request {
  gcq_hdr : ofp_header
}.

Definition new_get_config_request : ofp_get_config_request := mk_ofp_get_config_request (new_header OFPT_GET_CONFIG_REQUEST).

Definition get_config_request_pack (a : ofp_get_config_request) (assertstruct : bool) : M Z (option bytes * ofp_get_config_request) :=
  '(p, h) ← pack_with (gcq_hdr a) (mret []);
  mret (Some p, mk_ofp_get_config_request h).

Definition get_config_request_unpack (a : ofp_get_config_request) (b : bytes) : result (ofp_get_config_request * bytes) :=
  if blen b <? 8 then mret (a, b) else
  '(h, _) ← header_unpack (gcq_hdr a) (pyfrom b 0);
  mret (mk_ofp_get_config_request h, pyfrom b 8).

Definition get_config_request_eq (a b : ofp_get_config_request) : bool :=
  header_eq (gcq_hdr a) (gcq_hdr b).

(** ** Barrier request *)

Record ofp_barrier_request := mk_ofp_barrier_request {
  brq_hdr : ofp_header
}.

Definition new_barrier_request : ofp_barrier_request := mk_ofp_barrier_request (new_header OFPT_BARRIER_REQUEST).

Definition barrier_request_pack (a : ofp_barrier_request) (assertstruct : bool) : M Z (option bytes * ofp_barrier_request) :=
  '(p, h) ← pack_with (brq_hdr a) (mret []);
  mret (Some p, mk_ofp_barrier_request h).

Definition barrier_request_unpack (a : ofp_barrier_request) (b : bytes) : result (ofp_barrier_request * bytes) :=
  if blen b <? 8 then mret (a, b) else
  '(h, _) ← header_unpack (brq_hdr a) (pyfrom b 0);
  mret (mk_ofp_barrier_request h, pyfrom b 8).

Definition barrier_request_eq (a b : ofp_barrier_request) : bool :=
  header_eq (brq_hdr a) (brq_hdr b).

(** ** Barrier reply *)

Record ofp_barrier_reply := mk_ofp_barrier_reply {
  brp_hdr : ofp_header
}.

Definition new_barrier_reply : ofp_barrier_reply := mk_ofp_barrier_reply (new_header OFPT_BARRIER_REPLY).

Definition barrier_reply_pack (a : ofp_barrier_reply) (assertstruct : bool) : M Z (option bytes * ofp_barrier_reply) :=
  '(p, h) ← pack_with (brp_hdr a) (mret []);
  mret (Some p, mk_ofp_barrier_reply h).

Definition barrier_reply_unpack (a : ofp_barrier_reply) (b : bytes) : result (ofp_barrier_reply * bytes) :=
  if blen b <? 8 then mret (a, b) else
  '(h, _) ← header_unpack (brp_hdr a) (pyfrom b 0);
  mret (mk_ofp_barrier_reply h, pyfrom b 8).

Definition barrier_reply_eq (a b : ofp_barrier_reply) : bool :=
  header_eq (brp_hdr a) (brp_hdr b).

(** ** Switch configuration *)

Record ofp_switch_config := mk_ofp_switch_config {
  sc_hdr : ofp_header;
  sc_flags : Z;
  sc_miss_send_len : Z
}.

Definition new_switch_config : ofp_switch_config := mk_ofp_switch_config (with_length (new_header OFPT_SET_CONFIG) 12) 0 OFP_DEFAULT_MISS_SEND_LEN.

Definition switch_config_body (a : ofp_switch_config) : result bytes :=
  p1 ← pack [cH; cH] (sc_flags a, (sc_miss_send_len a, tt));
  mret (p1).

Definition switch_config_pack (a : ofp_switch_config) (assertstruct : bool) : M Z (option bytes * ofp_switch_config) :=
  '(p, h) ← pack_with (sc_hdr a) (switch_config_body a);
  mret (Some p, mk_ofp_switch_config h (sc_flags a) (sc_miss_send_len a)).

Definition switch_config_unpack (a : ofp_switch_config) (b : bytes) : result (ofp_switch_config * bytes) :=
  if blen b <? 12 then mret (a, b) else
  '(h, _) ← header_unpack (sc_hdr a) (pyfrom b 0);
  '(flags, (miss_send_len, _)) ← unpack_from [cH; cH] b 8;
  mret (mk_ofp_switch_config h flags miss_send_len, pyfrom b 12).

Definition switch_config_eq (a b : ofp_switch_config) : bool :=
  header_eq (sc_hdr a) (sc_hdr b) && (sc_flags a =? sc_flags b) && (sc_miss_send_len a =? sc_miss_send_len b).

(** ** Set configuration *)

Record ofp_set_config := mk_ofp_set_config {
  stc_hdr : ofp_header;
  stc_flags : Z;
  stc_miss_send_len : Z
}.

Definition new_set_config : ofp_set_config := mk_ofp_set_config (with_length (new_header OFPT_SET_CONFIG) 12) 0 OFP_DEFAULT_MISS_SEND_LEN.

Definition set_config_body (a : ofp_set_config) : result bytes :=
  p1 ← pack [cH; cH] (stc_flags a, (stc_miss_send_len a, tt));
  mret (p1).

Definition set_config_pack (a : ofp_set_config) (assertstruct : bool) : M Z (option bytes * ofp_set_config) :=
  '(p, h) ← pack_with (stc_hdr a) (set_config_body a);
  mret (Some p, mk_ofp_set_config h (stc_flags a) (stc_miss_send_len a)).

Definition set_config_unpack (a : ofp_set_config) (b : bytes) : result (ofp_set_config * bytes) :=
  if blen b <? 12 then mret (a, b) else
  '(h, _) ← header_unpack (stc_hdr a) (pyfrom b 0);
  '(flags, (miss_send_len, _)) ← unpack_from [cH; cH] b 8;
  mret (mk_ofp_set_config h flags miss_send_len, pyfrom b 12).

Definition set_config_eq (a b : ofp_set_config) : bool :=
  header_eq (stc_hdr a) (stc_hdr b) && (stc_flags a =? stc_flags b) && (stc_miss_send_len a =? stc_miss_send_len b).

(** ** Configuration reply *)

Record ofp_get_config_reply := mk_ofp_get_config_reply {
  gcr_hdr : ofp_header;
  gcr_flags : Z;
  gcr_miss_send_len : Z
}.

Definition new_get_config_reply : ofp_get_config_reply := mk_ofp_get_config_reply (with_length (new_header OFPT_GET_CONFIG_REPLY) 12) 0 OFP_DEFAULT_MISS_SEND_LEN.

Definition get_config_reply_body (a : ofp_get_config_reply) : result bytes :=
  p1 ← pack [cH; cH] (gcr_flags a, (gcr_miss_send_len a, tt));
  mret (p1).

Definition get_config_reply_pack (a : ofp_get_config_reply) (assertstruct : bool) : M Z (option bytes * ofp_get_config_reply) :=
  '(p, h) ← pack_with (gcr_hdr a) (get_config_reply_body a);
  mret (Some p, mk_ofp_get_config_reply h (gcr_flags a) (gcr_miss_send_len a)).

Definition get_config_reply_unpack (a : ofp_get_config_reply) (b : bytes) : result (ofp_get_config_reply * bytes) :=
  if blen b <? 12 then mret (a, b) else
  '(h, _) ← header_unpack (gcr_hdr a) (pyfrom b 0);
  '(flags, (miss_send_len, _)) ← unpack_from [cH; cH] b 8;
  mret (mk_ofp_get_config_reply h flags miss_send_len, pyfrom b 12).

Definition get_config_reply_eq (a b : ofp_get_config_reply) : bool :=
  header_eq (gcr_hdr a) (gcr_hdr b) && (gcr_flags a =? gcr_flags b) && (gcr_miss_send_len a =? gcr_miss_send_len b).

(** ** Port modification *)

Record ofp_port_mod := mk_ofp_port_mod {
  pm_hdr : ofp_header;
  pm_port_no : Z;
  pm_hw_addr : hwaddr;
  pm_config : Z;
  pm_mask : Z;
  pm_advertise : Z
}.

Definition new_port_mod : ofp_port_mod := mk_ofp_port_mod (with_length (new_header OFPT_PORT_MOD) 32) 0 (HwEth EMPTY_ETH) 0 0 0.

Definition port_mod_assert (a : ofp_port_mod) : bool := (hw_len (pm_hw_addr a) =? 6).

Definition port_mod_body (a : ofp_port_mod) : result bytes :=
  p1 ← pack [cH] (pm_port_no a, tt);
  p2 ← pack [cL; cL; cL] (pm_config a, (pm_mask a, (pm_advertise a, tt)));
  mret (p1 ++ hw_raw (pm_hw_addr a) ++ p2 ++ zeros 4).

Definition port_mod_pack (a : ofp_port_mod) (assertstruct : bool) : M Z (option bytes * ofp_port_mod) :=
  if assertstruct && negb (port_mod_assert a) then mret (None, a) else
  '(p, h) ← pack_with (pm_hdr a) (port_mod_body a);
  mret (Some p, mk_ofp_port_mod h (pm_port_no a) (pm_hw_addr a) (pm_config a) (pm_mask a) (pm_advertise a)).

Definition port_mod_unpack (a : ofp_port_mod) (b : bytes) : result (ofp_port_mod * bytes) :=
  if blen b <? 32 then mret (a, b) else
  '(h, _) ← header_unpack (pm_hdr a) (pyfrom b 0);
  '(port_no, _) ← unpack_from [cH] b 8;
  hw_addr ← EthAddr_init (EStr (pyslice b 10 16));
  '(config, (mask, (advertise, _))) ← unpack_from [cL; cL; cL] b 16;
  mret (mk_ofp_port_mod h port_no (HwEth hw_addr) config mask advertise, pyfrom b 32).

Definition port_mod_eq (a b : ofp_port_mod) : bool :=
  header_eq (pm_hdr a) (pm_hdr b) && (pm_port_no a =? pm_port_no b) && hw_eq (Some (pm_hw_addr a)) (Some (pm_hw_addr b)) && (pm_config a =? pm_config b) && (pm_mask a =? pm_mask b) && (pm_advertise a =? pm_advertise b).

(** ** Queue configuration request *)

Record ofp_queue_get_config_request := mk_ofp_queue_get_config_request {
  qgq_hdr : ofp_header;
  qgq_port : Z
}.

Definition new_queue_get_config_request : ofp_queue_get_config_request := mk_ofp_queue_get_config_request (with_length (new_header OFPT_QUEUE_GET_CONFIG_REQUEST) 12) 0.

Definition queue_get_config_request_body (a : ofp_queue_get_config_request) : result bytes :=
  p1 ← pack [cH] (qgq_port a, tt);
  mret (p1 ++ zeros 2).

Definition queue_get_config_request_pack (a : ofp_queue_get_config_request) (assertstruct : bool) : M Z (option bytes * ofp_queue_get_config_request) :=
  '(p, h) ← pack_with (qgq_hdr a) (queue_get_config_request_body a);
  mret (Some p, mk_ofp_queue_get_config_request h (qgq_port a)).

Definition queue_get_config_request_unpack (a : ofp_queue_get_config_request) (b : bytes) : result (ofp_queue_get_config_request * bytes) :=
  if blen b <? 12 then mret (a, b) else
  '(h, _) ← header_unpack (qgq_hdr a) (pyfrom b 0);
  '(port, _) ← unpack_from [cH] b 8;
  mret (mk_ofp_queue_get_config_request h port, pyfrom b 12).

Definition queue_get_config_request_eq (a b : ofp_queue_get_config_request) : bool :=
  header_eq (qgq_hdr a) (qgq_hdr b) && (qgq_port a =? qgq_port b).

(** ** Flow removed *)

Record ofp_flow_removed := mk_ofp_flow_removed {
  fr_hdr : ofp_header;
  fr_match : ofp_match;
  fr_cookie : Z;
  fr_priority : Z;
  fr_reason : Z;
  fr_duration_sec : Z;
  fr_duration_nsec : Z;
  fr_idle_timeout : Z;
  fr_packet_count : Z;
  fr_byte_count : Z
}.

Definition new_flow_removed : ofp_flow_removed := mk_ofp_flow_removed (with_length (new_header OFPT_FLOW_REMOVED) 88) new_match 0 0 0 0 0 0 0 0.

Definition flow_removed_body (a : ofp_flow_removed) : result bytes :=
  m ← match_pack (fr_match a) true false;
  p1 ← pack [cQ; cH; cB] (fr_cookie a, (fr_priority a, (fr_reason a, tt)));
  p2 ← pack [cL; cL; cH] (fr_duration_sec a, (fr_duration_nsec a, (fr_idle_timeout a, tt)));
  p3 ← pack [cQ; cQ] (fr_packet_count a, (fr_byte_count a, tt));
  mret (m ++ p1 ++ zeros 1 ++ p2 ++ zeros 2 ++ p3).

Definition flow_removed_pack (a : ofp_flow_removed) (assertstruct : bool) : M Z (option bytes * ofp_flow_removed) :=
  '(p, h) ← pack_with (fr_hdr a) (flow_removed_body a);
  mret (Some p, mk_ofp_flow_removed h (fr_match a) (fr_cookie a) (fr_priority a) (fr_reason a) (fr_duration_sec a) (fr_duration_nsec a) (fr_idle_timeout a) (fr_packet_count a) (fr_byte_count a)).

Definition flow_removed_unpack (a : ofp_flow_removed) (b : bytes) : result (ofp_flow_removed * bytes) :=
  if blen b <? 88 then mret (a, b) else
  '(h, _) ← header_unpack (fr_hdr a) (pyfrom b 0);
  '(m, _) ← match_unpack (fr_match a) (pyfrom b 8) false;
  '(cookie, (priority, (reason, _))) ← unpack_from [cQ; cH; cB] b 48;
  '(duration_sec, (duration_nsec, (idle_timeout, _))) ← unpack_from [cL; cL; cH] b 60;
  '(packet_count, (byte_count, _)) ← unpack_from [cQ; cQ] b 72;
  mret (mk_ofp_flow_removed h m cookie priority reason duration_sec duration_nsec idle_timeout packet_count byte_count, pyfrom b 88).

Definition flow_removed_eq (a b : ofp_flow_removed) : bool :=
  header_eq (fr_hdr a) (fr_hdr b) && match_eq (fr_match a) (fr_match b) && (fr_cookie a =? fr_cookie b) && (fr_priority a =? fr_priority b) && (fr_reason a =? fr_reason b) && (fr_duration_sec a =? fr_duration_sec b) && (fr_duration_nsec a =? fr_duration_nsec b) && (fr_idle_timeout a =? fr_idle_timeout b) && (fr_packet_count a =? fr_packet_count b) && (fr_byte_count a =? fr_byte_count b).

(** ** Port status *)

Definition OFPPR_ADD : Z := 0.
Definition OFPPR_DELETE : Z := 1.
Definition OFPPR_MODIFY : Z := 2.
Definition OFPRR_IDLE_TIMEOUT : Z := 0.
Definition OFPRR_HARD_TIMEOUT : Z := 1.
Definition OFPRR_DELETE : Z := 2.
Definition OFPBRC_BAD_TYPE : Z := 1.
Definition OFPET_BAD_REQUEST : Z := 1.

Record ofp_port_status := mk_ofp_port_status {
  pst_hdr : ofp_header;
  pst_reason : Z;
  pst_desc : ofp_phy_port
}.

Definition new_port_status : ofp_port_status := mk_ofp_port_status (with_length (new_header OFPT_PORT_STATUS) 64) 0 new_phy_port.

Definition port_status_body (a : ofp_port_status) : result bytes :=
  p1 ← pack [cB] (pst_reason a, tt);
  d ← phy_port_pack (pst_desc a) true; d ← concat_pack d;
  mret (p1 ++ zeros 7 ++ d).

Definition port_status_pack (a : ofp_port_status) (assertstruct : bool) : M Z (option bytes * ofp_port_status) :=
  '(p, h) ← pack_with (pst_hdr a) (port_status_body a);
  mret (Some p, mk_ofp_port_status h (pst_reason a) (pst_desc a)).

Definition port_status_unpack (a : ofp_port_status) (b : bytes) : result (ofp_port_status * bytes) :=
  if blen b <? 64 then mret (a, b) else
  '(h, _) ← header_unpack (pst_hdr a) (pyfrom b 0);
  '(reason, _) ← unpack_from [cB] b 8;
  '(d, _) ← phy_port_unpack (pst_desc a) (pyfrom b 16);
  mret (mk_ofp_port_status h reason d, pyfrom b 64).

Definition port_status_eq (a b : ofp_port_status) : bool :=
  header_eq (pst_hdr a) (pst_hdr b) && (pst_reason a =? pst_reason b) && phy_port_eq (pst_desc a) (pst_desc b).

(** ** Vendor header *)

Record ofp_vendor_header := mk_ofp_vendor_header {
  vh_hdr : ofp_header;
  vh_vendor : Z
}.

Definition new_vendor_header : ofp_vendor_header := mk_ofp_vendor_header (new_header OFPT_VENDOR) 0.

Definition vendor_header_body (a : ofp_vendor_header) : result bytes :=
  p1 ← pack [cL] (vh_vendor a, tt);
  mret (p1).

Definition vendor_header_pack (a : ofp_vendor_header) (assertstruct : bool) : M Z (option bytes * ofp_vendor_header) :=
  '(p, h) ← pack_with (vh_hdr a) (vendor_header_body a);
  mret (Some p, mk_ofp_vendor_header h (vh_vendor a)).

Definition vendor_header_unpack (a : ofp_vendor_header) (b : bytes) : result (ofp_vendor_header * bytes) :=
  if blen b <? 12 then mret (a, b) else
  '(h, _) ← header_unpack (vh_hdr a) (pyfrom b 0);
  '(vendor, _) ← unpack_from [cL] b 8;
  mret (mk_ofp_vendor_header h vendor, pyfrom b 12).

Definition vendor_header_eq (a b : ofp_vendor_header) : bool :=
  header_eq (vh_hdr a) (vh_hdr b) && (vh_vendor a =? vh_vendor b).

(** ** The message interface *)

Definition xid_ok (s : Z) : Prop := 0 <= s <= MAX_XID.

(** A header that packs, of the given type. *)
Definition header_wf (t : Z) (h : ofp_header) : Prop :=
  header_type h = t /\ 0 <= t <= 21 /\ uint_ok 1 (version h) /\
  match xid h with Some x => uint_ok 4 x | None => True end.

Definition header_vals (h : ofp_header) (x : Z) : vals [cB; cB; cH; cL] :=
  (version h, (header_type h, (h_length h, (x, tt)))).
Definition header_bytes (h : ofp_header) (x : Z) : bytes := encode [cB; cB; cH; cL] (header_vals h x).

Class WireMsg (A : Type) := {
  wm_pack : A -> bool -> M Z (option bytes * A);
  wm_unpack : A -> bytes -> result (A * bytes);
  wm_header : A -> ofp_header;
  wm_eq : A -> A -> bool;
  wm_wf : A -> Prop;
  wm_fresh : A -> A -> Prop
}.

(** What a message class promises to the transport: a well-formed message
    packs, whatever the counter, to as many bytes as its length field says,
    the header first; read in front of anything, those bytes give back the
    object as [pack] left it, and leave the rest. *)
Class MsgLaws (A : Type) {W : WireMsg A} := {
  msg_law : forall a s, wm_wf a -> xid_ok s -> exists h x body a' s',
    wm_pack a true s = (Ok (Some (header_bytes h x ++ body), a'), s') /\ xid_ok s' /\
    (version h, header_type h) = (version (wm_header a), header_type (wm_header a)) /\ wm_header a' = with_xid h x /\
    packable [cB; cB; cH; cL] (header_vals h x) /\
    blen (header_bytes h x ++ body) = h_length h /\
    forall a0 r, wm_fresh a0 a -> exists a'',
      wm_unpack a0 ((header_bytes h x ++ body) ++ r) = Ok (a'', r) /\ wm_eq a'' a' = true
}.

Lemma generateXID_ok s : xid_ok s -> exists s', generateXID s = (Ok s, s') /\ xid_ok s'.
Proof.
  intros Hs. eexists. split; [reflexivity|]. unfold xid_ok, MAX_XID in *.
  pose proof (Z.mod_pos_bound (s + 1 + 1) (0x7fffffff + 1)). lia.
Qed.

Lemma header_pack_ok t h s :
  header_wf t h -> uint_ok 2 (h_length h) -> xid_ok s -> exists x s',
    header_pack h s = (Ok (header_bytes h x, with_xid h x), s') /\ xid_ok s' /\
    packable [cB; cB; cH; cL] (header_vals h x).
Proof.
  intros (Ht & Hr & Hv & Hx) Hl Hs.
  assert (Hg : exists x s', (match xid h with Some x => mret x | None => generateXID end : M Z Z) s
                 = (Ok x, s') /\ xid_ok s' /\ uint_ok 4 x).
  { destruct (xid h) as [x|].
    - by exists x, s.
    - destruct (generateXID_ok s Hs) as (s' & E & Hs'). exists s, s'. split; [done|]. split; [done|].
      unfold xid_ok, MAX_XID, uint_ok in *. change (256 ^ Z.of_nat 4) with 4294967296. lia. }
  destruct Hg as (x & s' & E & Hs' & Hx'). exists x, s'.
  assert (Hp : packable [cB; cB; cH; cL] (header_vals h x)).
  { unfold header_vals. cbn [packable fst snd]. split_and!; try done.
    unfold uint_ok. change (256 ^ Z.of_nat 1) with 256. lia. }
  split; [|done]. unfold header_pack. rewrite M_bind_unfold, E. cbv beta iota.
  assert (header_assert h = true) as -> by (unfold header_assert; lia).
  rewrite M_bind_unfold. cbn [lift guard_ok]. rewrite M_bind_unfold. unfold lift at 1.
  fold (header_vals h x). rewrite (pack_ok _ _ Hp). reflexivity.
Qed.

Lemma header_unpack_ok h h0 x r :
  packable [cB; cB; cH; cL] (header_vals h x) ->
  header_unpack h0 (header_bytes h x ++ r) = Ok (with_xid h x, r).
Proof.
  intros Hp. unfold header_unpack, header_bytes. len_ok. rd. reflexivity.
Qed.

Lemma header_bytes_blen h x : blen (header_bytes h x) = 8.
Proof. unfold header_bytes. by rewrite blen_encode. Qed.

Lemma header_eq_refl h : header_eq h h = true.
Proof. unfold header_eq. rewrite !Z.eqb_refl. by rewrite bool_decide_true. Qed.

Lemma pack_with_ok t h b s :
  header_wf t h -> uint_ok 2 (h_length h) -> xid_ok s -> exists x s',
    pack_with h (Ok b) s = (Ok (header_bytes h x ++ b, with_xid h x), s') /\ xid_ok s' /\
    packable [cB; cB; cH; cL] (header_vals h x).
Proof.
  intros Hh Hl Hs. destruct (header_pack_ok t h s Hh Hl Hs) as (x & s' & E & Hs' & Hp).
  exists x, s'. split; [|done]. unfold pack_with. rewrite M_bind_unfold, E. reflexivity.
Qed.

(** Read a header at the front of a buffer, then what follows it. *)
Ltac rd_header :=
  rewrite ?pyfrom_0;
  rewrite header_unpack_ok by assumption; cbn [mbind result_bind].

Ltac hdr_len :=
  match goal with
  | H : h_length ?h = ?n |- uint_ok 2 (h_length ?h) => rewrite H; vm_compute; split; congruence
  end.

Lemma msg_law_intro {A} `{WireMsg A} :
  (forall a, wm_wf a -> (exists t, header_wf t (wm_header a)) /\ forall s, xid_ok s ->
    exists h x body a' s',
    wm_pack a true s = (Ok (Some (header_bytes h x ++ body), a'), s') /\ xid_ok s' /\
    (version h, header_type h) = (version (wm_header a), header_type (wm_header a)) /\ wm_header a' = with_xid h x /\
    packable [cB; cB; cH; cL] (header_vals h x) /\
    blen (header_bytes h x ++ body) = h_length h /\
    forall a0 r, wm_fresh a0 a -> exists a'',
      wm_unpack a0 ((header_bytes h x ++ body) ++ r) = Ok (a'', r) /\ wm_eq a'' a' = true) ->
  MsgLaws A.
Proof. intros Hl. constructor. intros a s Ha Hs. by apply Hl. Qed.

Ltac msg_eq :=
  repeat match goal with
  | |- _ && _ = true => apply andb_true_iff; split
  | |- header_eq _ _ = true => apply header_eq_refl
  | |- (_ =? _) = true => apply Z.eqb_eq; reflexivity
  | |- bool_decide (_ = _) = true => apply bool_decide_eq_true; reflexivity
  | |- hw_eq (Some _) (Some _) = true => by apply hw_eq_raw
  | H : _ = true |- _ = true => exact H
  end.

(** Pack with the header lemma, compare the lengths, then read everything. *)
Ltac msg_law_pack :=
  packs;
  repeat match goal with
  | |- context [pack_with ?h (mret ?b)] => change (pack_with h (mret b)) with (pack_with h (Ok b))
  end;
  lazymatch goal with
  | Hh : header_wf _ ?h, Hs : xid_ok ?s |- context [pack_with ?h (Ok ?b)] =>
      let x := fresh "x" in let s' := fresh "s'" in let E := fresh "Epack" in
      destruct (pack_with_ok _ h b s Hh ltac:(hdr_len) Hs) as (x & s' & E & Hs' & Hp);
      eexists h, x, b, _, s';
      split; [rewrite M_bind_unfold, E; reflexivity|];
      split; [exact Hs'|]; split; [reflexivity|]; split; [reflexivity|]; split; [exact Hp|];
      pose proof (header_bytes_blen h x)
  end; rd_pack; piece_lengths.
Ltac msg_law_len :=
  repeat match goal with H : h_length _ = _ |- _ => rewrite H end;
  autorewrite with blen; repeat match goal with H : blen _ = _ |- _ => rewrite H end;
  cbn [calcsize code_size]; simpl Z.of_nat; lia.
Ltac msg_law_read :=
  len_ok; rewrite <-?app_assoc; rd_header; rd;
  repeat (first [ rewrite eth_init_ok by assumption
                | match goal with
                  | H : forall m0 r, match_unpack m0 _ _ = _ |- _ => rewrite H
                  | H : forall a0 r, True -> exists a', phy_port_unpack a0 (?bs ++ r) = _ /\ _
                    |- context [phy_port_unpack ?a0 (?bs ++ ?r)] =>
                      let d := fresh "d" in let Ed := fresh "Ed" in let Eq := fresh "Eq" in
                      destruct (H a0 r I) as (d & Ed & Eq); rewrite Ed; clear H
                  end ]; cbn [mbind result_bind]; rd);
  eexists; split; [reflexivity|]; msg_eq.
Ltac msg_law :=
  tests_pass;
  repeat match goal with
  | H : match_wf ?m |- context [match_pack ?m true ?f] =>
      let E := fresh "E" in
      destruct (match_law m f H) as (E & ? & ? & ?); rewrite E; cbn [mbind result_bind]
  | H : phy_port_wf ?d |- context [phy_port_pack ?d true] =>
      let bs := fresh "bs" in let E := fresh "E" in
      destruct (ws_law d) as (bs & E & ? & ?); [exact H|]; cbn [ws_pack ws_len ws_unpack ws_eq ws_after ws_fresh phy_port_wire] in *;
      rewrite E; cbn [mbind result_bind concat_pack need]
  end;
  msg_law_pack; split; [msg_law_len | intros a0 r _; msg_law_read].

Definition hello_wf (a : ofp_hello) : Prop :=
  header_wf OFPT_HELLO (he_hdr a) /\ h_length (he_hdr a) = 8.

#[global] Instance hello_msg : WireMsg ofp_hello := {
  wm_pack := hello_pack; wm_unpack := hello_unpack; wm_header := he_hdr;
  wm_eq := hello_eq; wm_wf := hello_wf; wm_fresh _ _ := True
}.

#[global] Instance hello_msg_laws : MsgLaws ofp_hello.
Proof.
  apply msg_law_intro. intros a (Hh & Ha). cbn [wm_header hello_msg] in *.
  split; [exact (ex_intro _ OFPT_HELLO Hh)|]. intros s Hs.
  destruct_and?. cbn [wm_pack wm_unpack wm_eq wm_fresh hello_msg].
  unfold hello_pack, hello_unpack, hello_eq.
  msg_law.
Qed.

Definition features_request_wf (a : ofp_features_request) : Prop :=
  header_wf OFPT_FEATURES_REQUEST (frq_hdr a) /\ h_length (frq_hdr a) = 8.

#[global] Instance features_request_msg : WireMsg ofp_features_request := {
  wm_pack := features_request_pack; wm_unpack := features_request_unpack; wm_header := frq_hdr;
  wm_eq := features_request_eq; wm_wf := features_request_wf; wm_fresh _ _ := True
}.

#[global] Instance features_request_msg_laws : MsgLaws ofp_features_request.
Proof.
  apply msg_law_intro. intros a (Hh & Ha). cbn [wm_header features_request_msg] in *.
  split; [exact (ex_intro _ OFPT_FEATURES_REQUEST Hh)|]. intros s Hs.
  destruct_and?. cbn [wm_pack wm_unpack wm_eq wm_fresh features_request_msg].
  unfold features_request_pack, features_request_unpack, features_request_eq.
  msg_law.
Qed.

Definition get_config_request_wf (a : ofp_get_config_request) : Prop :=
  header_wf OFPT_GET_CONFIG_REQUEST (gcq_hdr a) /\ h_length (gcq_hdr a) = 8.

#[global] Instance get_config_request_msg : WireMsg ofp_get_config_request := {
  wm_pack := get_config_request_pack; wm_unpack := get_config_request_unpack; wm_header := gcq_hdr;
  wm_eq := get_config_request_eq; wm_wf := get_config_request_wf; wm_fresh _ _ := True
}.

#[global] Instance get_config_request_msg_laws : MsgLaws ofp_get_config_request.
Proof.
  apply msg_law_intro. intros a (Hh & Ha). cbn [wm_header get_config_request_msg] in *.
  split; [exact (ex_intro _ OFPT_GET_CONFIG_REQUEST Hh)|]. intros s Hs.
  destruct_and?. cbn [wm_pack wm_unpack wm_eq wm_fresh get_config_request_msg].
  unfold get_config_request_pack, get_config_request_unpack, get_config_request_eq.
  msg_law.
Qed.

Definition barrier_request_wf (a : ofp_barrier_request) : Prop :=
  header_wf OFPT_BARRIER_REQUEST (brq_hdr a) /\ h_length (brq_hdr a) = 8.

#[global] Instance barrier_request_msg : WireMsg ofp_barrier_request := {
  wm_pack := barrier_request_pack; wm_unpack := barrier_request_unpack; wm_header := brq_hdr;
  wm_eq := barrier_request_eq; wm_wf := barrier_request_wf; wm_fresh _ _ := True
}.

#[global] Instance barrier_request_msg_laws : MsgLaws ofp_barrier_request.
Proof.
  apply msg_law_intro. intros a (Hh & Ha). cbn [wm_header barrier_request_msg] in *.
  split; [exact (ex_intro _ OFPT_BARRIER_REQUEST Hh)|]. intros s Hs.
  destruct_and?. cbn [wm_pack wm_unpack wm_eq wm_fresh barrier_request_msg].
  unfold barrier_request_pack, barrier_request_unpack, barrier_request_eq.
  msg_law.
Qed.

Definition barrier_reply_wf (a : ofp_barrier_reply) : Prop :=
  header_wf OFPT_BARRIER_REPLY (brp_hdr a) /\ h_length (brp_hdr a) = 8.

#[global] Instance barrier_reply_msg : WireMsg ofp_barrier_reply := {
  wm_pack := barrier_reply_pack; wm_unpack := barrier_reply_unpack; wm_header := brp_hdr;
  wm_eq := barrier_reply_eq; wm_wf := barrier_reply_wf; wm_fresh _ _ := True
}.

#[global] Instance barrier_reply_msg_laws : MsgLaws ofp_barrier_reply.
Proof.
  apply msg_law_intro. intros a (Hh & Ha). cbn [wm_header barrier_reply_msg] in *.
  split; [exact (ex_intro _ OFPT_BARRIER_REPLY Hh)|]. intros s Hs.
  destruct_and?. cbn [wm_pack wm_unpack wm_eq wm_fresh barrier_reply_msg].
  unfold barrier_reply_pack, barrier_reply_unpack, barrier_reply_eq.
  msg_law.
Qed.

Definition switch_config_wf (a : ofp_switch_config) : Prop :=
  header_wf OFPT_SET_CONFIG (sc_hdr a) /\ h_length (sc_hdr a) = 12 /\ uint_ok 2 (sc_flags a) /\ uint_ok 2 (sc_miss_send_len a).

#[global] Instance switch_config_msg : WireMsg ofp_switch_config := {
  wm_pack := switch_config_pack; wm_unpack := switch_config_unpack; wm_header := sc_hdr;
  wm_eq := switch_config_eq; wm_wf := switch_config_wf; wm_fresh _ _ := True
}.

#[global] Instance switch_config_msg_laws : MsgLaws ofp_switch_config.
Proof.
  apply msg_law_intro. intros a (Hh & Ha). cbn [wm_header switch_config_msg] in *.
  split; [exact (ex_intro _ OFPT_SET_CONFIG Hh)|]. intros s Hs.
  destruct_and?. cbn [wm_pack wm_unpack wm_eq wm_fresh switch_config_msg].
  unfold switch_config_pack, switch_config_unpack, switch_config_eq, switch_config_body.
  msg_law.
Qed.

Definition set_config_wf (a : ofp_set_config) : Prop :=
  header_wf OFPT_SET_CONFIG (stc_hdr a) /\ h_length (stc_hdr a) = 12 /\ uint_ok 2 (stc_flags a) /\ uint_ok 2 (stc_miss_send_len a).

#[global] Instance set_config_msg : WireMsg ofp_set_config := {
  wm_pack := set_config_pack; wm_unpack := set_config_unpack; wm_header := stc_hdr;
  wm_eq := set_config_eq; wm_wf := set_config_wf; wm_fresh _ _ := True
}.

#[global] Instance set_config_msg_laws : MsgLaws ofp_set_config.
Proof.
  apply msg_law_intro. intros a (Hh & Ha). cbn [wm_header set_config_msg] in *.
  split; [exact (ex_intro _ OFPT_SET_CONFIG Hh)|]. intros s Hs.
  destruct_and?. cbn [wm_pack wm_unpack wm_eq wm_fresh set_config_msg].
  unfold set_config_pack, set_config_unpack, set_config_eq, set_config_body.
  msg_law.
Qed.

Definition get_config_reply_wf (a : ofp_get_config_reply) : Prop :=
  header_wf OFPT_GET_CONFIG_REPLY (gcr_hdr a) /\ h_length (gcr_hdr a) = 12 /\ uint_ok 2 (gcr_flags a) /\ uint_ok 2 (gcr_miss_send_len a).

#[global] Instance get_config_reply_msg : WireMsg ofp_get_config_reply := {
  wm_pack := get_config_reply_pack; wm_unpack := get_config_reply_unpack; wm_header := gcr_hdr;
  wm_eq := get_config_reply_eq; wm_wf := get_config_reply_wf; wm_fresh _ _ := True
}.

#[global] Instance get_config_reply_msg_laws : MsgLaws ofp_get_config_reply.
Proof.
  apply msg_law_intro. intros a (Hh & Ha). cbn [wm_header get_config_reply_msg] in *.
  split; [exact (ex_intro _ OFPT_GET_CONFIG_REPLY Hh)|]. intros s Hs.
  destruct_and?. cbn [wm_pack wm_unpack wm_eq wm_fresh get_config_reply_msg].
  unfold get_config_reply_pack, get_config_reply_unpack, get_config_reply_eq, get_config_reply_body.
  msg_law.
Qed.

Definition port_mod_wf (a : ofp_port_mod) : Prop :=
  header_wf OFPT_PORT_MOD (pm_hdr a) /\ h_length (pm_hdr a) = 32 /\ uint_ok 2 (pm_port_no a) /\ raw_ok (pm_hw_addr a) /\ uint_ok 4 (pm_config a) /\ uint_ok 4 (pm_mask a) /\ uint_ok 4 (pm_advertise a).

#[global] Instance port_mod_msg : WireMsg ofp_port_mod := {
  wm_pack := port_mod_pack; wm_unpack := port_mod_unpack; wm_header := pm_hdr;
  wm_eq := port_mod_eq; wm_wf := port_mod_wf; wm_fresh _ _ := True
}.

#[global] Instance port_mod_msg_laws : MsgLaws ofp_port_mod.
Proof.
  apply msg_law_intro. intros a (Hh & Ha). cbn [wm_header port_mod_msg] in *.
  split; [exact (ex_intro _ OFPT_PORT_MOD Hh)|]. intros s Hs.
  destruct_and?. cbn [wm_pack wm_unpack wm_eq wm_fresh port_mod_msg].
  unfold port_mod_pack, port_mod_unpack, port_mod_eq, port_mod_body, port_mod_assert.
  msg_law.
Qed.

Definition queue_get_config_request_wf (a : ofp_queue_get_config_request) : Prop :=
  header_wf OFPT_QUEUE_GET_CONFIG_REQUEST (qgq_hdr a) /\ h_length (qgq_hdr a) = 12 /\ uint_ok 2 (qgq_port a).

#[global] Instance queue_get_config_request_msg : WireMsg ofp_queue_get_config_request := {
  wm_pack := queue_get_config_request_pack; wm_unpack := queue_get_config_request_unpack; wm_header := qgq_hdr;
  wm_eq := queue_get_config_request_eq; wm_wf := queue_get_config_request_wf; wm_fresh _ _ := True
}.

#[global] Instance queue_get_config_request_msg_laws : MsgLaws ofp_queue_get_config_request.
Proof.
  apply msg_law_intro. intros a (Hh & Ha). cbn [wm_header queue_get_config_request_msg] in *.
  split; [exact (ex_intro _ OFPT_QUEUE_GET_CONFIG_REQUEST Hh)|]. intros s Hs.
  destruct_and?. cbn [wm_pack wm_unpack wm_eq wm_fresh queue_get_config_request_msg].
  unfold queue_get_config_request_pack, queue_get_config_request_unpack, queue_get_config_request_eq, queue_get_config_request_body.
  msg_law.
Qed.

Definition flow_removed_wf (a : ofp_flow_removed) : Prop :=
  header_wf OFPT_FLOW_REMOVED (fr_hdr a) /\ h_length (fr_hdr a) = 88 /\ match_wf (fr_match a) /\ uint_ok 8 (fr_cookie a) /\ uint_ok 2 (fr_priority a) /\ uint_ok 1 (fr_reason a) /\ uint_ok 4 (fr_duration_sec a) /\ uint_ok 4 (fr_duration_nsec a) /\ uint_ok 2 (fr_idle_timeout a) /\ uint_ok 8 (fr_packet_count a) /\ uint_ok 8 (fr_byte_count a).

#[global] Instance flow_removed_msg : WireMsg ofp_flow_removed := {
  wm_pack := flow_removed_pack; wm_unpack := flow_removed_unpack; wm_header := fr_hdr;
  wm_eq := flow_removed_eq; wm_wf := flow_removed_wf; wm_fresh _ _ := True
}.

#[global] Instance flow_removed_msg_laws : MsgLaws ofp_flow_removed.
Proof.
  apply msg_law_intro. intros a (Hh & Ha). cbn [wm_header flow_removed_msg] in *.
  split; [exact (ex_intro _ OFPT_FLOW_REMOVED Hh)|]. intros s Hs.
  destruct_and?. cbn [wm_pack wm_unpack wm_eq wm_fresh flow_removed_msg].
  unfold flow_removed_pack, flow_removed_unpack, flow_removed_eq, flow_removed_body.
  msg_law.
Qed.

Definition port_status_wf (a : ofp_port_status) : Prop :=
  header_wf OFPT_PORT_STATUS (pst_hdr a) /\ h_length (pst_hdr a) = 64 /\ uint_ok 1 (pst_reason a) /\ phy_port_wf (pst_desc a).

#[global] Instance port_status_msg : WireMsg ofp_port_status := {
  wm_pack := port_status_pack; wm_unpack := port_status_unpack; wm_header := pst_hdr;
  wm_eq := port_status_eq; wm_wf := port_status_wf; wm_fresh _ _ := True
}.

#[global] Instance port_status_msg_laws : MsgLaws ofp_port_status.
Proof.
  apply msg_law_intro. intros a (Hh & Ha). cbn [wm_header port_status_msg] in *.
  split; [exact (ex_intro _ OFPT_PORT_STATUS Hh)|]. intros s Hs.
  destruct_and?. cbn [wm_pack wm_unpack wm_eq wm_fresh port_status_msg].
  unfold port_status_pack, port_status_unpack, port_status_eq, port_status_body.
  msg_law.
Qed.

Definition vendor_header_wf (a : ofp_vendor_header) : Prop :=
  header_wf OFPT_VENDOR (vh_hdr a) /\ h_length (vh_hdr a) = 12 /\ uint_ok 4 (vh_vendor a).

#[global] Instance vendor_header_msg : WireMsg ofp_vendor_header := {
  wm_pack := vendor_header_pack; wm_unpack := vendor_header_unpack; wm_header := vh_hdr;
  wm_eq := vendor_header_eq; wm_wf := vendor_header_wf; wm_fresh _ _ := True
}.

#[global] Instance vendor_header_msg_laws : MsgLaws ofp_vendor_header.
Proof.
  apply msg_law_intro. intros a (Hh & Ha). cbn [wm_header vendor_header_msg] in *.
  split; [exact (ex_intro _ OFPT_VENDOR Hh)|]. intros s Hs.
  destruct_and?. cbn [wm_pack wm_unpack wm_eq wm_fresh vendor_header_msg].
  unfold vendor_header_pack, vendor_header_unpack, vendor_header_eq, vendor_header_body.
  msg_law.
Qed.

(** ** Properties of the transaction ids *)

(** [n] draws from the counter. *)
Fixpoint draws (n : nat) : M Z (list Z) :=
  match n with O => mret [] | S n => x ← generateXID; l ← draws n; mret (x :: l) end.

Lemma draws_nth n : forall s i, xid_ok s -> (i < n)%nat ->
  exists l s', draws n s = (Ok l, s') /\ length l = n /\ l !! i = Some ((s + 2 * Z.of_nat i) mod 2 ^ 31).
Proof.
  change (2 ^ 31) with 2147483648.
  induction n as [|n IH]; intros s i Hs Hi; [lia|]. unfold xid_ok, MAX_XID in Hs.
  set (s1 := (s + 1 + 1) mod (0x7fffffff + 1)).
  assert (Hs1 : xid_ok s1) by (subst s1; unfold xid_ok, MAX_XID; pose proof (Z.mod_pos_bound (s + 1 + 1) (0x7fffffff + 1)); lia).
  assert (G : exists l s', draws n s1 = (Ok l, s') /\ length l = n /\
            forall j, i = S j -> l !! j = Some ((s1 + 2 * Z.of_nat j) mod 2147483648)).
  { destruct n as [|n]; [exists [], s1; split; [done|split; [done|lia]]|].
    destruct i as [|j].
    - destruct (IH s1 O Hs1) as (l & s' & E & Hl & _); [lia|]. exists l, s'. split; [done|split; [done|discriminate]].
    - destruct (IH s1 j Hs1) as (l & s' & E & Hl & Hj); [lia|]. exists l, s'. split; [done|]. split; [done|].
      by intros j' [= <-]. }
  destruct G as (l & s' & E & Hl & Hj). exists (s :: l), s'.
  change (draws (S n)) with (x ← generateXID; l ← draws n; mret (x :: l)).
  rewrite M_bind_unfold. cbn [generateXID]. fold s1. rewrite M_bind_unfold. unfold MAX_XID. fold s1. rewrite E.
  split; [done|]. split; [simpl; lia|]. destruct i as [|j]; [simpl; rewrite Z.mod_small by lia; f_equal; lia|].
  simpl. rewrite (Hj j eq_refl). f_equal. subst s1. change (0x7fffffff + 1) with 2147483648.
  rewrite Zplus_mod_idemp_l. f_equal. lia.
Qed.

(** Transaction ids advance by two and stay below 2^31: [n] draws from a
    counter in range give [start + 2 i] modulo 2^31, so that any 2^30
    consecutive draws are pairwise different, and only half of the ids are ever
    used. *)
Theorem generateXID_sequence (n : nat) (s : Z) (i j : nat)
    (Hs : xid_ok s) (Hij : (i < j)%nat) (Hj : (j < n)%nat) (Hn : Z.of_nat n <= 2 ^ 30) :
  exists l s' x y, draws n s = (Ok l, s') /\ length l = n /\ l !! i = Some x /\ l !! j = Some y /\
    x = (s + 2 * Z.of_nat i) mod 2 ^ 31 /\ xid_ok x /\ x mod 2 = s mod 2 /\ x <> y.
Proof.
  destruct (draws_nth n s i Hs) as (l & s' & E & Hl & Hi); [lia|].
  destruct (draws_nth n s j Hs Hj) as (l' & s'' & E' & _ & Hj'). rewrite E in E'. injection E' as <- <-.
  exists l, s'. do 2 eexists. split; [done|]. split; [done|]. split; [exact Hi|]. split; [exact Hj'|].
  split; [done|]. change (2 ^ 31) with 2147483648. change (2 ^ 30) with 1073741824 in Hn.
  unfold xid_ok, MAX_XID in *.
  pose proof (Z.mod_pos_bound (s + 2 * Z.of_nat i) 2147483648 ltac:(lia)).
  split; [lia|]. split; [Z.to_euclidean_division_equations; lia|].
  intros Ee. Z.to_euclidean_division_equations. lia.
Qed.

Lemma generateXID_sequence_witness :
  xid_ok 1 /\ exists l s' x y, draws 5 1 = (Ok l, s') /\ length l = 5%nat /\ l !! 0%nat = Some x /\
    l !! 4%nat = Some y /\ x = (1 + 2 * 0) mod 2 ^ 31 /\ xid_ok x /\ x mod 2 = 1 mod 2 /\ x <> y.
Proof.
  split; [vm_compute; split; congruence|].
  apply (generateXID_sequence 5 1 0 4); [vm_compute; split; congruence|lia|lia|lia].
Defined.
