(* ===== verification/OfpVarMessages.v ===== *)
(** * OpenFlow messages of variable length

    The classes whose size depends on a list or a byte string: features and
    queue replies, flow modifications, packets in and out, statistics, errors,
    echoes and vendor messages.  Same interface as [OfpMessages]; the laws are
    proved for the classes that keep their promise, and the others have a
    theorem that says what is lost. *)

From S2P Require Import Prelude PyStruct Addresses Codec OfpMatch OfpActions OfpStructs OfpMessages.

(** ** Features reply *)

Record ofp_features_reply := mk_ofp_features_reply {
  fp_hdr : ofp_header;
  fp_datapath_id : Z;
  fp_n_buffers : Z;
  fp_n_tables : Z;
  fp_capabilities : Z;
  fp_actions : Z;
  fp_ports : list ofp_phy_port
}.

Definition features_reply_len (a : ofp_features_reply) : Z := 32 + 48 * blen (fp_ports a).

(** The constructor sets [length] from the ports it is given. *)
Definition new_features_reply (dpid n_buffers n_tables capabilities actions : Z)
    (ports : list ofp_phy_port) : ofp_features_reply :=
  mk_ofp_features_reply (with_length (new_header OFPT_FEATURES_REPLY) (32 + 48 * blen ports))
    dpid n_buffers n_tables capabilities actions ports.

Definition features_reply_body (a : ofp_features_reply) (assertstruct : bool) : result bytes :=
  p1 ← pack [cQ; cL; cB] (fp_datapath_id a, (fp_n_buffers a, (fp_n_tables a, tt)));
  p2 ← pack [cL; cL] (fp_capabilities a, (fp_actions a, tt));
  ports ← pack_all (fp_ports a) assertstruct;
  mret (p1 ++ zeros 3 ++ p2 ++ ports).

Definition features_reply_pack (a : ofp_features_reply) (assertstruct : bool)
  : M Z (option bytes * ofp_features_reply) :=
  '(p, h) ← pack_with (fp_hdr a) (features_reply_body a assertstruct);
  mret (Some p, mk_ofp_features_reply h (fp_datapath_id a) (fp_n_buffers a) (fp_n_tables a)
                  (fp_capabilities a) (fp_actions a) (fp_ports a)).

(** The loop [for i in xrange(0, portCount)]; each port is read from its own
    offset. *)
Fixpoint unpack_ports (n : nat) (b : bytes) (off : Z) : result (list ofp_phy_port) :=
  match n with
  | O => mret []
  | S n =>
      '(p, _) ← phy_port_unpack new_phy_port (pyfrom b off);
      ps ← unpack_ports n b (off + OFP_PHY_PORT_BYTES);
      mret (p :: ps)
  end.

Definition features_reply_unpack (a : ofp_features_reply) (b : bytes) : result (ofp_features_reply * bytes) :=
  if blen b <? 32 then mret (a, b) else
  '(h, _) ← header_unpack (fp_hdr a) (pyfrom b 0);
  '(dpid, (n_buffers, (n_tables, _))) ← unpack_from [cQ; cL; cB] b 8;
  '(capabilities, (actions, _)) ← unpack_from [cL; cL] b 24;
  let portCount := (h_length h - 32) / OFP_PHY_PORT_BYTES in
  ports ← unpack_ports (Z.to_nat portCount) b 32;
  mret (mk_ofp_features_reply h dpid n_buffers n_tables capabilities actions ports, pyfrom b (h_length h)).

Definition features_reply_eq (a b : ofp_features_reply) : bool :=
  header_eq (fp_hdr a) (fp_hdr b) && (fp_datapath_id a =? fp_datapath_id b) &&
  (fp_n_buffers a =? fp_n_buffers b) && (fp_n_tables a =? fp_n_tables b) &&
  (fp_capabilities a =? fp_capabilities b) && (fp_actions a =? fp_actions b) &&
  eq_all (fp_ports a) (fp_ports b).

Definition features_reply_wf (a : ofp_features_reply) : Prop :=
  header_wf OFPT_FEATURES_REPLY (fp_hdr a) /\ h_length (fp_hdr a) = features_reply_len a /\
  uint_ok 2 (features_reply_len a) /\ uint_ok 8 (fp_datapath_id a) /\ uint_ok 4 (fp_n_buffers a) /\
  uint_ok 1 (fp_n_tables a) /\ uint_ok 4 (fp_capabilities a) /\ uint_ok 4 (fp_actions a) /\
  Forall phy_port_wf (fp_ports a).

(** ** Flow modification *)

Record ofp_flow_mod := mk_ofp_flow_mod {
  fm_hdr : ofp_header;
  fm_match : ofp_match;
  fm_cookie : Z;
  fm_command : Z;
  fm_idle_timeout : Z;
  fm_hard_timeout : Z;
  fm_priority : Z;
  fm_buffer_id : Z;
  fm_out_port : Z;
  fm_flags : Z;
  fm_actions : list action
}.

Definition new_flow_mod : ofp_flow_mod :=
  mk_ofp_flow_mod (new_header OFPT_FLOW_MOD) new_match 0 OFPFC_ADD 0 0 OFP_DEFAULT_PRIORITY (-1)
    OFPP_NONE 0 [].

Definition flow_mod_len (a : ofp_flow_mod) : Z := 32 + match_len + len_all (fm_actions a).

Definition flow_mod_body (a : ofp_flow_mod) (assertstruct : bool) : result bytes :=
  m ← match_pack (fm_match a) true true;
  p ← pack [cQ; cH; cH; cH; cH; cL; cH; cH] (fm_cookie a, (fm_command a, (fm_idle_timeout a,
        (fm_hard_timeout a, (fm_priority a, (Z.land (fm_buffer_id a) 0xffffffff,
        (fm_out_port a, (fm_flags a, tt))))))));
  acts ← pack_all (fm_actions a) assertstruct;
  mret (m ++ p ++ acts).

Definition flow_mod_pack (a : ofp_flow_mod) (assertstruct : bool) : M Z (option bytes * ofp_flow_mod) :=
  '(p, h) ← pack_with (with_length (fm_hdr a) (flow_mod_len a)) (flow_mod_body a assertstruct);
  mret (Some p, mk_ofp_flow_mod h (fm_match a) (fm_cookie a) (fm_command a) (fm_idle_timeout a)
                  (fm_hard_timeout a) (fm_priority a) (fm_buffer_id a) (fm_out_port a) (fm_flags a)
                  (map action_after (fm_actions a))).

(** A buffer id of all ones is read as -1. *)
Definition read_buffer_id (z : Z) : Z := if z =? 0xffffffff then -1 else z.

Definition flow_mod_unpack (a : ofp_flow_mod) (b : bytes) : result (ofp_flow_mod * bytes) :=
  if blen b <? 72 then mret (a, b) else
  '(h, _) ← header_unpack (fm_hdr a) (pyfrom b 0);
  '(m, _) ← match_unpack (fm_match a) (pyfrom b 8) true;
  '(cookie, (command, (idle, (hard, (priority, (buffer_id, (out_port, (flags, _)))))))) ←
    unpack_from [cQ; cH; cH; cH; cH; cL; cH; cH] b (8 + match_len);
  '(actions, offset) ←
    run_actions (unpack_actions b (h_length h - (32 + match_len)) (32 + match_len));
  _ ← guard_ok (offset =? h_length h) AssertionError;
  mret (mk_ofp_flow_mod h m cookie command idle hard priority (read_buffer_id buffer_id) out_port flags actions,
        pyfrom b offset).

Definition flow_mod_eq (a b : ofp_flow_mod) : bool :=
  header_eq (fm_hdr a) (fm_hdr b) && match_eq (fm_match a) (fm_match b) &&
  (fm_cookie a =? fm_cookie b) && (fm_command a =? fm_command b) &&
  (fm_idle_timeout a =? fm_idle_timeout b) && (fm_hard_timeout a =? fm_hard_timeout b) &&
  (fm_priority a =? fm_priority b) && (fm_buffer_id a =? fm_buffer_id b) &&
  (fm_out_port a =? fm_out_port b) && (fm_flags a =? fm_flags b) &&
  eq_all (fm_actions a) (fm_actions b).

(** -1, or any id but the all-ones one. *)
Definition buffer_id_ok (z : Z) : Prop := -1 <= z < 0xffffffff.

Definition flow_mod_wf (a : ofp_flow_mod) : Prop :=
  header_wf OFPT_FLOW_MOD (fm_hdr a) /\ uint_ok 2 (flow_mod_len a) /\ match_wf (fm_match a) /\
  uint_ok 8 (fm_cookie a) /\ uint_ok 2 (fm_command a) /\ uint_ok 2 (fm_idle_timeout a) /\
  uint_ok 2 (fm_hard_timeout a) /\ uint_ok 2 (fm_priority a) /\ buffer_id_ok (fm_buffer_id a) /\
  uint_ok 2 (fm_out_port a) /\ uint_ok 2 (fm_flags a) /\ Forall action_wf (fm_actions a).

(** ** Packet out *)

Record ofp_packet_out := mk_ofp_packet_out {
  po_hdr : ofp_header;
  po_buffer_id : Z;
  po_in_port : Z;
  po_actions : list action;
  po_data : bytes
}.

Definition new_packet_out : ofp_packet_out :=
  mk_ofp_packet_out (new_header OFPT_PACKET_OUT) (-1) OFPP_NONE [] [].

(** [_set_data]: [None] stands for no data. *)
Definition set_data (d : option bytes) : bytes := default [] d.

Definition packet_out_assert (a : ofp_packet_out) : bool :=
  negb (negb (po_buffer_id a =? -1) && negb (bool_decide (po_data a = []))).

(** The actions are packed before the header. *)
Definition packet_out_pack (a : ofp_packet_out) (assertstruct : bool) : M Z (option bytes * ofp_packet_out) :=
  _ ← lift (guard_ok (negb assertstruct || packet_out_assert a) RuntimeError);
  acts ← lift (pack_all (po_actions a) assertstruct);
  let hdr := with_length (po_hdr a) (16 + blen acts + blen (po_data a)) in
  '(p, h) ← pack_with hdr
    (p ← pack [cL; cH; cH] (Z.land (po_buffer_id a) 0xffffffff, (po_in_port a, (blen acts, tt)));
     mret (p ++ acts ++ po_data a));
  mret (Some p, mk_ofp_packet_out h (po_buffer_id a) (po_in_port a) (map action_after (po_actions a)) (po_data a)).

Definition packet_out_unpack (a : ofp_packet_out) (b : bytes) : result (ofp_packet_out * bytes) :=
  if blen b <? 16 then mret (a, b) else
  '(h, _) ← header_unpack (po_hdr a) (pyfrom b 0);
  '(buffer_id, (in_port, (actions_len, _))) ← unpack_from [cL; cH; cH] b 8;
  '(actions, offset) ← run_actions (unpack_actions b actions_len 16);
  let data := set_data (if offset <? h_length h then Some (pyslice b offset (h_length h)) else None) in
  mret (mk_ofp_packet_out h (read_buffer_id buffer_id) in_port actions data, pyfrom b (h_length h)).

(** [__eq__] compares everything but the data. *)
Definition packet_out_eq (a b : ofp_packet_out) : bool :=
  header_eq (po_hdr a) (po_hdr b) && (po_buffer_id a =? po_buffer_id b) &&
  (po_in_port a =? po_in_port b) && eq_all (po_actions a) (po_actions b).

Definition packet_out_wf (a : ofp_packet_out) : Prop :=
  header_wf OFPT_PACKET_OUT (po_hdr a) /\
  uint_ok 2 (16 + len_all (po_actions a) + blen (po_data a)) /\
  buffer_id_ok (po_buffer_id a) /\ (po_buffer_id a = -1 \/ po_data a = []) /\
  uint_ok 2 (po_in_port a) /\ Forall action_wf (po_actions a).

(** ** Packet in *)

Record ofp_packet_in := mk_ofp_packet_in {
  pi_hdr : ofp_header;
  pi_in_port : Z;
  pi_buffer_id : Z;
  pi_reason : Z;
  pi_data : bytes;
  pi_total_len : Z
}.

Definition new_packet_in : ofp_packet_in :=
  mk_ofp_packet_in (new_header OFPT_PACKET_IN) OFPP_NONE (-1) 0 (set_data None) 0.

Definition packet_in_len (a : ofp_packet_in) : Z := 18 + blen (pi_data a).

Definition packet_in_pack (a : ofp_packet_in) (assertstruct : bool) : M Z (option bytes * ofp_packet_in) :=
  let l := packet_in_len a in
  '(p, h) ← pack_with (with_length (pi_hdr a) l)
    (p ← pack [cL; cH; cH; cB; cB] (Z.land (pi_buffer_id a) 0xffffffff, (l, (pi_in_port a, (pi_reason a, (0, tt)))));
     mret (p ++ pi_data a));
  mret (Some p, mk_ofp_packet_in h (pi_in_port a) (pi_buffer_id a) (pi_reason a) (pi_data a) l).

Definition packet_in_unpack (a : ofp_packet_in) (b : bytes) : result (ofp_packet_in * bytes) :=
  if blen b <? 18 then mret (a, b) else
  '(h, _) ← header_unpack (pi_hdr a) (pyfrom b 0);
  '(buffer_id, (total_len, (in_port, (reason, (_, _))))) ← unpack_from [cL; cH; cH; cB; cB] b 8;
  let a := mk_ofp_packet_in h in_port (read_buffer_id buffer_id) reason (pi_data a) total_len in
  if blen b <? h_length h then mret (a, b) else
  mret (mk_ofp_packet_in h in_port (read_buffer_id buffer_id) reason (pyslice b 18 (h_length h)) total_len,
        pyfrom b (h_length h)).

Definition packet_in_eq (a b : ofp_packet_in) : bool :=
  header_eq (pi_hdr a) (pi_hdr b) && (pi_buffer_id a =? pi_buffer_id b) &&
  (pi_total_len a =? pi_total_len b) && (pi_in_port a =? pi_in_port b) &&
  (pi_reason a =? pi_reason b) && bool_decide (pi_data a = pi_data b).

Definition packet_in_wf (a : ofp_packet_in) : Prop :=
  header_wf OFPT_PACKET_IN (pi_hdr a) /\ uint_ok 2 (packet_in_len a) /\ buffer_id_ok (pi_buffer_id a) /\
  uint_ok 2 (pi_in_port a) /\ uint_ok 1 (pi_reason a).

(** ** Queue configuration reply: the queues are never read *)

Record ofp_queue_get_config_reply := mk_ofp_queue_get_config_reply {
  qgr_hdr : ofp_header;
  qgr_port : Z;
  qgr_queues : list ofp_packet_queue
}.

Definition new_queue_get_config_reply : ofp_queue_get_config_reply :=
  mk_ofp_queue_get_config_reply (with_length (new_header OFPT_QUEUE_GET_CONFIG_REPLY) 16) 0 [].

Fixpoint pack_queues (l : list ofp_packet_queue) (assertstruct : bool) : result bytes :=
  match l with
  | [] => mret []
  | q :: l => o ← packet_queue_pack q assertstruct; h ← concat_pack o; t ← pack_queues l assertstruct; mret (h ++ t)
  end.

Definition queue_get_config_reply_body (a : ofp_queue_get_config_reply) (assertstruct : bool) : result bytes :=
  p ← pack [cH] (qgr_port a, tt);
  qs ← pack_queues (qgr_queues a) assertstruct;
  mret (p ++ zeros 6 ++ qs).

Definition queue_get_config_reply_pack (a : ofp_queue_get_config_reply) (assertstruct : bool)
  : M Z (option bytes * ofp_queue_get_config_reply) :=
  '(p, h) ← pack_with (qgr_hdr a) (queue_get_config_reply_body a assertstruct);
  mret (Some p, mk_ofp_queue_get_config_reply h (qgr_port a) (qgr_queues a)).

Definition queue_get_config_reply_unpack (a : ofp_queue_get_config_reply) (b : bytes)
  : result (ofp_queue_get_config_reply * bytes) :=
  if blen b <? 16 then mret (a, b) else
  '(h, _) ← header_unpack (qgr_hdr a) (pyfrom b 0);
  '(port, _) ← unpack_from [cH] b 8;
  mret (mk_ofp_queue_get_config_reply h port (qgr_queues a), pyfrom b 16).

Fixpoint queues_eq (l l' : list ofp_packet_queue) : bool :=
  match l, l' with
  | [], [] => true
  | a :: l, b :: l' => packet_queue_eq a b && queues_eq l l'
  | _, _ => false
  end.

Definition queue_get_config_reply_eq (a b : ofp_queue_get_config_reply) : bool :=
  header_eq (qgr_hdr a) (qgr_hdr b) && (qgr_port a =? qgr_port b) && queues_eq (qgr_queues a) (qgr_queues b).

(** ** Statistics request and reply *)

(** The objects a request body may be, besides a byte string. *)
Inductive stats_req_body :=
  | RBytes (b : bytes)
  | RFlow (r : ofp_flow_stats_request)
  | RAggregate (r : ofp_aggregate_stats_request)
  | RPort (r : ofp_port_stats_request)
  | RQueue (r : ofp_queue_stats_request).

Record ofp_stats_request := mk_ofp_stats_request {
  srq_hdr : ofp_header;
  srq_type : option Z;
  srq_flags : Z;
  srq_body : stats_req_body
}.

Definition new_stats_request : ofp_stats_request :=
  mk_ofp_stats_request (new_header OFPT_STATS_REQUEST) None 0 (RBytes []).

(** [body_data]; a body whose [pack] gives [None] makes [len] fail. *)
Definition req_body_data (b : stats_req_body) : result bytes :=
  match b with
  | RBytes b => mret b
  | RFlow r => o ← flow_stats_request_pack r true; need TypeError o
  | RAggregate r => o ← aggregate_stats_request_pack r true; need TypeError o
  | RPort r => o ← port_stats_request_pack r true; need TypeError o
  | RQueue r => o ← queue_stats_request_pack r true; need TypeError o
  end.

(** The type is guessed from the body when it is not given; other objects
    leave it [None], which [struct] then refuses. *)
Definition guess_type (t : option Z) (b : stats_req_body) (data : bytes) : option Z :=
  match t with
  | Some t => Some t
  | None =>
      match b with
      | RFlow _ => Some OFPST_FLOW
      | RAggregate _ => Some OFPST_AGGREGATE
      | _ => if bool_decide (data = []) then Some OFPST_DESC else None
      end
  end.

Definition stats_request_pack (a : ofp_stats_request) (assertstruct : bool) : M Z (option bytes * ofp_stats_request) :=
  data ← lift (req_body_data (srq_body a));
  let t := guess_type (srq_type a) (srq_body a) data in
  '(p, h) ← pack_with (with_length (srq_hdr a) (12 + blen data))
    (t ← need StructError t; p ← pack [cH; cH] (t, (srq_flags a, tt)); mret (p ++ data));
  mret (Some p, mk_ofp_stats_request h t (srq_flags a) (srq_body a)).

Definition stats_request_unpack (a : ofp_stats_request) (b : bytes) : result (ofp_stats_request * bytes) :=
  if blen b <? 12 then mret (a, b) else
  '(h, _) ← header_unpack (srq_hdr a) (pyfrom b 0);
  '(t, (flags, _)) ← unpack_from [cH; cH] b 8;
  let body := pyslice b 12 (h_length h) in
  _ ← guard_ok (h_length h =? 12 + blen body) AssertionError;
  mret (mk_ofp_stats_request h (Some t) flags (RBytes body), pyfrom b (h_length h)).

Definition stats_request_eq (a b : ofp_stats_request) : bool :=
  header_eq (srq_hdr a) (srq_hdr b) && bool_decide (srq_type a = srq_type b) &&
  (srq_flags a =? srq_flags b) &&
  match req_body_data (srq_body a), req_body_data (srq_body b) with
  | Ok x, Ok y => bool_decide (x = y)
  | _, _ => false
  end.

Definition stats_request_wf (a : ofp_stats_request) : Prop :=
  header_wf OFPT_STATS_REQUEST (srq_hdr a) /\ uint_ok 2 (srq_flags a) /\
  exists data t, req_body_data (srq_body a) = Ok data /\ uint_ok 2 (12 + blen data) /\
    guess_type (srq_type a) (srq_body a) data = Some t /\ uint_ok 2 t.

(** The bodies of a reply: bytes, one structure, or a list of structures. *)
Inductive stats_struct :=
  | SDesc (s : ofp_desc_stats)
  | SFlow (s : ofp_flow_stats)
  | SAggregate (s : ofp_aggregate_stats)
  | STable (s : ofp_table_stats)
  | SPort (s : ofp_port_stats)
  | SQueue (s : ofp_queue_stats).

Inductive stats_rep_body :=
  | SBytes (b : bytes)
  | SOne (s : stats_struct)
  | SList (l : list stats_struct).

Definition stats_struct_pack (s : stats_struct) : result (option bytes) :=
  match s with
  | SDesc s => desc_stats_pack s true
  | SFlow s => flow_stats_pack s true
  | SAggregate s => aggregate_stats_pack s true
  | STable s => table_stats_pack s true
  | SPort s => port_stats_pack s true
  | SQueue s => queue_stats_pack s true
  end.

Definition stats_struct_len (s : stats_struct) : Z :=
  match s with
  | SDesc _ => 1056
  | SFlow s => flow_stats_len s
  | SAggregate _ => 24
  | STable _ => 64
  | SPort _ => 104
  | SQueue _ => 32
  end.

Record ofp_stats_reply := mk_ofp_stats_reply {
  srp_hdr : ofp_header;
  srp_type : Z;
  srp_flags : Z;
  srp_body : stats_rep_body
}.

Definition new_stats_reply : ofp_stats_reply :=
  mk_ofp_stats_reply (new_header OFPT_STATS_REPLY) 0 0 (SBytes []).

Fixpoint pack_stats (l : list stats_struct) : result bytes :=
  match l with
  | [] => mret []
  | s :: l => o ← stats_struct_pack s; h ← concat_pack o; t ← pack_stats l; mret (h ++ t)
  end.

Definition rep_body_data (b : stats_rep_body) : result bytes :=
  match b with
  | SBytes b => mret b
  | SOne s => o ← stats_struct_pack s; need TypeError o
  | SList l => pack_stats l
  end.

(** [__len__] counts the elements of a list body, not its bytes. *)
Definition stats_reply_len (a : ofp_stats_reply) : Z :=
  12 + match srp_body a with SBytes b => blen b | SOne s => stats_struct_len s | SList l => blen l end.

(** The test that would infer [type] reads the builtin [type], never true. *)
Definition stats_reply_pack (a : ofp_stats_reply) (assertstruct : bool) : M Z (option bytes * ofp_stats_reply) :=
  '(p, h) ← pack_with (with_length (srp_hdr a) (stats_reply_len a))
    (p ← pack [cH; cH] (srp_type a, (srp_flags a, tt)); data ← rep_body_data (srp_body a); mret (p ++ data));
  mret (Some p, mk_ofp_stats_reply h (srp_type a) (srp_flags a) (srp_body a)).

Definition stats_reply_unpack (a : ofp_stats_reply) (b : bytes) : result (ofp_stats_reply * bytes) :=
  if blen b <? 12 then mret (a, b) else
  '(h, _) ← header_unpack (srp_hdr a) (pyfrom b 0);
  '(t, (flags, _)) ← unpack_from [cH; cH] b 8;
  mret (mk_ofp_stats_reply h t flags (SBytes (pyslice b 12 (h_length h))), pyfrom b (h_length h)).

(** ** Error, echo, vendor *)

Record ofp_error := mk_ofp_error {
  er_hdr : ofp_header;
  er_type : Z;
  er_code : Z;
  er_data : list Z
}.

Definition new_error : ofp_error := mk_ofp_error (new_header OFPT_ERROR) 0 0 [].

Fixpoint pack_bytes (l : list Z) : result bytes :=
  match l with
  | [] => mret []
  | z :: l => h ← pack [cB] (z, tt); t ← pack_bytes l; mret (h ++ t)
  end.

Definition error_pack (a : ofp_error) (assertstruct : bool) : M Z (option bytes * ofp_error) :=
  '(p, h) ← pack_with (with_length (er_hdr a) (12 + blen (er_data a)))
    (p ← pack [cH; cH] (er_type a, (er_code a, tt)); d ← pack_bytes (er_data a); mret (p ++ d));
  mret (Some p, mk_ofp_error h (er_type a) (er_code a) (er_data a)).

(** The data is not read, and not skipped. *)
Definition error_unpack (a : ofp_error) (b : bytes) : result (ofp_error * bytes) :=
  if blen b <? 12 then mret (a, b) else
  '(h, _) ← header_unpack (er_hdr a) (pyfrom b 0);
  '(t, (c, _)) ← unpack_from [cH; cH] b 8;
  mret (mk_ofp_error h t c (er_data a), pyfrom b 12).

Definition error_eq (a b : ofp_error) : bool :=
  header_eq (er_hdr a) (er_hdr b) && (er_type a =? er_type b) && (er_code a =? er_code b) &&
  bool_decide (er_data a = er_data b).

(** [ofp_echo_request] and [ofp_echo_reply] differ in their type only.
    Neither updates [length] when it packs. *)
Record ofp_echo := mk_ofp_echo {
  ec_hdr : ofp_header;
  ec_body : bytes
}.

Definition new_echo_request : ofp_echo := mk_ofp_echo (new_header OFPT_ECHO_REQUEST) [].
Definition new_echo_reply : ofp_echo := mk_ofp_echo (new_header OFPT_ECHO_REPLY) [].

Definition echo_pack (a : ofp_echo) (assertstruct : bool) : M Z (option bytes * ofp_echo) :=
  '(p, h) ← pack_with (ec_hdr a) (mret (ec_body a));
  mret (Some p, mk_ofp_echo h (ec_body a)).

Definition echo_unpack (a : ofp_echo) (b : bytes) : result (ofp_echo * bytes) :=
  if blen b <? 8 then mret (a, b) else
  '(h, _) ← header_unpack (ec_hdr a) (pyfrom b 0);
  if blen b <? h_length h then mret (mk_ofp_echo h (ec_body a), b) else
  let l := h_length h - 8 in
  mret (mk_ofp_echo h (pyslice b 8 (8 + l)), pyfrom b (8 + l)).

Definition echo_eq (a b : ofp_echo) : bool :=
  header_eq (ec_hdr a) (ec_hdr b) && bool_decide (ec_body a = ec_body b).

Definition echo_wf (a : ofp_echo) : Prop :=
  (header_wf OFPT_ECHO_REQUEST (ec_hdr a) \/ header_wf OFPT_ECHO_REPLY (ec_hdr a)) /\
  h_length (ec_hdr a) = 8 + blen (ec_body a) /\ uint_ok 2 (8 + blen (ec_body a)).

Record ofp_vendor := mk_ofp_vendor {
  ve_hdr : ofp_header;
  ve_vendor : Z;
  ve_data : bytes
}.

Definition new_vendor : ofp_vendor := mk_ofp_vendor (with_length (new_header OFPT_VENDOR) 12) 0 [].

Definition vendor_pack (a : ofp_vendor) (assertstruct : bool) : M Z (option bytes * ofp_vendor) :=
  '(p, h) ← pack_with (with_length (ve_hdr a) (12 + blen (ve_data a)))
    (p ← pack [cL] (ve_vendor a, tt); mret (p ++ ve_data a));
  mret (Some p, mk_ofp_vendor h (ve_vendor a) (ve_data a)).

Definition vendor_unpack (a : ofp_vendor) (b : bytes) : result (ofp_vendor * bytes) :=
  if blen b <? 12 then mret (a, b) else
  '(h, _) ← header_unpack (ve_hdr a) (pyfrom b 0);
  '(v, _) ← unpack_from [cL] b 8;
  if blen b <? h_length h then mret (mk_ofp_vendor h v (ve_data a), b) else
  mret (mk_ofp_vendor h v (pyslice b 12 (h_length h)), pyfrom b (h_length h)).

Definition vendor_eq (a b : ofp_vendor) : bool :=
  header_eq (ve_hdr a) (ve_hdr b) && (ve_vendor a =? ve_vendor b) && bool_decide (ve_data a = ve_data b).

Definition vendor_wf (a : ofp_vendor) : Prop :=
  header_wf OFPT_VENDOR (ve_hdr a) /\ uint_ok 2 (12 + blen (ve_data a)) /\ uint_ok 4 (ve_vendor a).

(** ** Laws *)

Lemma header_wf_length t h l : header_wf t h -> header_wf t (with_length h l).
Proof. done. Qed.
#[local] Hint Resolve header_wf_length : core.

Lemma read_buffer_id_ok z :
  buffer_id_ok z -> uint_ok 4 (Z.land z 0xffffffff) /\ read_buffer_id (Z.land z 0xffffffff) = z.
Proof.
  unfold buffer_id_ok, read_buffer_id. intros Hz. rewrite land_mask32. change (2 ^ 32) with 4294967296.
  split.
  - unfold uint_ok. change (256 ^ Z.of_nat 4) with 4294967296. apply Z.mod_pos_bound. lia.
  - destruct (Z.eq_dec z (-1)) as [->|]; [done|]. rewrite Z.mod_small by lia.
    destruct (Z.eqb_spec z 0xffffffff); [lia|done].
Qed.

(** Pack with the header lemma, for a header of any length. *)
Ltac var_pack Hh Hl Hs :=
  packs;
  repeat match goal with
  | |- context [pack_with ?h (mret ?b)] => change (pack_with h (mret b)) with (pack_with h (Ok b))
  end;
  lazymatch type of Hs with xid_ok ?s0 =>
  lazymatch goal with
  | |- context [pack_with ?h (Ok ?b)] =>
      let x := fresh "x" in let s' := fresh "s'" in let E := fresh "Epack" in
      let Hs' := fresh "Hs'" in let Hp := fresh "Hp" in
      destruct (pack_with_ok _ h b s0 Hh Hl Hs) as (x & s' & E & Hs' & Hp);
      eexists h, x, b, _, s';
      split; [rewrite ?M_bind_unfold; cbn [lift guard_ok]; rewrite ?E; cbn; rewrite ?E; reflexivity|];
      split; [exact Hs'|]; split; [reflexivity|]; split; [reflexivity|]; split; [exact Hp|];
      pose proof (header_bytes_blen h x)
  end end; rd_pack.

Ltac var_len :=
  cbn [h_length with_length];
  autorewrite with blen; repeat match goal with H : blen _ = _ |- _ => rewrite H end;
  cbn [calcsize code_size]; simpl Z.of_nat; lia.

Lemma pyslice_front {A} (d r : list A) i j : i = 0 -> j = blen d -> pyslice (d ++ r) i j = d.
Proof. intros -> ->. by apply pyslice_here. Qed.

Lemma pyfrom_zero {A} (r : list A) n : n = 0 -> pyfrom r n = r.
Proof. intros ->. apply pyfrom_0. Qed.

(** Reads whose bounds depend on the length of a variable piece. *)
Ltac rd_var :=
  rd; repeat (first
    [ rewrite pyslice_front by (cbn; lia)
    | rewrite pyfrom_app by (cbn; lia)
    | rewrite pyfrom_zero by (cbn; lia)
    | rewrite (proj2 (Z.ltb_ge _ _)) by (autorewrite with blen; cbn [calcsize code_size]; simpl Z.of_nat; lia)
    | match goal with H : blen _ = _ |- context [blen (_ ++ _) <? _] =>
        rewrite (proj2 (Z.ltb_ge _ _)) by (rewrite ?blen_app, ?blen_encode; cbn [calcsize code_size]; simpl Z.of_nat; lia) end ]; rd).

Ltac var_read :=
  len_ok; rewrite <-?app_assoc; rd_header; cbn [h_length with_xid with_length].

#[global] Instance packet_in_msg : WireMsg ofp_packet_in := {
  wm_pack := packet_in_pack; wm_unpack := packet_in_unpack; wm_header := pi_hdr;
  wm_eq := packet_in_eq; wm_wf := packet_in_wf; wm_fresh _ _ := True
}.

#[global] Instance packet_in_msg_laws : MsgLaws ofp_packet_in.
Proof.
  apply msg_law_intro. intros a (Hh & Hl & Hb & Hi & Hr). cbn [wm_header packet_in_msg] in *.
  split; [by eexists|]. intros s Hs. destruct (read_buffer_id_ok _ Hb) as [Hb1 Hb2].
  cbn [wm_pack wm_unpack wm_eq wm_fresh packet_in_msg].
  unfold packet_in_pack, packet_in_unpack, packet_in_eq.
  var_pack (header_wf_length _ _ (packet_in_len a) Hh) Hl Hs.
  pose proof (blen_nonneg (pi_data a)). pose proof (eq_refl : packet_in_len a = 18 + blen (pi_data a)) as El.
  split; [var_len|]. intros a0 r _. pose proof (blen_nonneg r).
  var_read. rd_var. rewrite Hb2. eexists; split; [reflexivity|]. msg_eq.
Qed.

#[global] Instance echo_msg : WireMsg ofp_echo := {
  wm_pack := echo_pack; wm_unpack := echo_unpack; wm_header := ec_hdr;
  wm_eq := echo_eq; wm_wf := echo_wf; wm_fresh _ _ := True
}.

#[global] Instance echo_msg_laws : MsgLaws ofp_echo.
Proof.
  apply msg_law_intro. intros a (Ht & Hlen & Hl). cbn [wm_header echo_msg] in *.
  assert (Hh : exists t, header_wf t (ec_hdr a)) by (destruct Ht; by eexists).
  split; [done|]. destruct Hh as [t Hh]. intros s Hs. rewrite <-Hlen in Hl.
  cbn [wm_pack wm_unpack wm_eq wm_fresh echo_msg].
  unfold echo_pack, echo_unpack, echo_eq.
  var_pack Hh Hl Hs. pose proof (blen_nonneg (ec_body a)).
  split; [var_len|]. intros a0 r _. pose proof (blen_nonneg r).
  var_read. rd_var. eexists; split; [reflexivity|]. msg_eq.
Qed.

#[global] Instance vendor_msg : WireMsg ofp_vendor := {
  wm_pack := vendor_pack; wm_unpack := vendor_unpack; wm_header := ve_hdr;
  wm_eq := vendor_eq; wm_wf := vendor_wf; wm_fresh _ _ := True
}.

#[global] Instance vendor_msg_laws : MsgLaws ofp_vendor.
Proof.
  apply msg_law_intro. intros a (Hh & Hl & Hv). cbn [wm_header vendor_msg] in *.
  split; [by eexists|]. intros s Hs. cbn [wm_pack wm_unpack wm_eq wm_fresh vendor_msg].
  unfold vendor_pack, vendor_unpack, vendor_eq.
  var_pack (header_wf_length _ _ (12 + blen (ve_data a)) Hh) Hl Hs.
  pose proof (blen_nonneg (ve_data a)).
  split; [var_len|]. intros a0 r _. pose proof (blen_nonneg r).
  var_read. rd_var. eexists; split; [reflexivity|]. msg_eq.
Qed.

#[global] Instance stats_request_msg : WireMsg ofp_stats_request := {
  wm_pack := stats_request_pack; wm_unpack := stats_request_unpack; wm_header := srq_hdr;
  wm_eq := stats_request_eq; wm_wf := stats_request_wf; wm_fresh _ _ := True
}.

#[global] Instance stats_request_msg_laws : MsgLaws ofp_stats_request.
Proof.
  apply msg_law_intro. intros a (Hh & Hf & data & t & Hd & Hl & Hg & Ht). cbn [wm_header stats_request_msg] in *.
  split; [by eexists|]. intros s Hs. cbn [wm_pack wm_unpack wm_eq wm_fresh stats_request_msg].
  unfold stats_request_pack, stats_request_unpack, stats_request_eq.
  rewrite Hd, M_bind_lift_Ok, Hg. cbn [need mbind result_bind].
  var_pack (header_wf_length _ _ (12 + blen data) Hh) Hl Hs.
  pose proof (blen_nonneg data).
  split; [var_len|]. intros a0 r _. pose proof (blen_nonneg r).
  var_read. rd_var. rewrite Z.eqb_refl. cbn [guard_ok mbind result_bind].
  eexists; split; [reflexivity|]. cbn [srq_hdr srq_type srq_flags srq_body req_body_data mret result_ret].
  rewrite Hd. rewrite (bool_decide_eq_true_2 (data = data)) by done.
  rewrite header_eq_refl, Z.eqb_refl. by rewrite bool_decide_eq_true_2.
Qed.

(** A parsed reply carries its body as bytes. *)
Definition stats_reply_wf (a : ofp_stats_reply) : Prop :=
  header_wf OFPT_STATS_REPLY (srp_hdr a) /\ uint_ok 2 (srp_type a) /\ uint_ok 2 (srp_flags a) /\
  uint_ok 2 (stats_reply_len a) /\
  exists data, rep_body_data (srp_body a) = Ok data /\ stats_reply_len a = 12 + blen data.

(** Equality of replies whose bodies are compared as the bytes they give. *)
Definition stats_reply_eq (a b : ofp_stats_reply) : bool :=
  header_eq (srp_hdr a) (srp_hdr b) && (srp_type a =? srp_type b) && (srp_flags a =? srp_flags b) &&
  bool_decide (rep_body_data (srp_body a) = rep_body_data (srp_body b)).

#[global] Instance stats_reply_msg : WireMsg ofp_stats_reply := {
  wm_pack := stats_reply_pack; wm_unpack := stats_reply_unpack; wm_header := srp_hdr;
  wm_eq := stats_reply_eq; wm_wf := stats_reply_wf; wm_fresh _ _ := True
}.

#[global] Instance stats_reply_msg_laws : MsgLaws ofp_stats_reply.
Proof.
  apply msg_law_intro. intros a (Hh & Ht & Hf & Hl & data & Hd & Hlen). cbn [wm_header stats_reply_msg] in *.
  split; [by eexists|]. intros s Hs. cbn [wm_pack wm_unpack wm_eq wm_fresh stats_reply_msg].
  unfold stats_reply_pack, stats_reply_unpack, stats_reply_eq. rewrite Hd.
  var_pack (header_wf_length _ _ (stats_reply_len a) Hh) Hl Hs.
  pose proof (blen_nonneg data).
  split; [var_len|]. intros a0 r _. pose proof (blen_nonneg r).
  var_read. rd_var. eexists; split; [reflexivity|].
  cbn [srp_hdr srp_type srp_flags srp_body]. rewrite Hd. cbn [rep_body_data]. msg_eq.
Qed.

Lemma phy_ports_len (l : list ofp_phy_port) : len_all l = 48 * blen l.
Proof.
  induction l as [|p l IH]; [done|]. cbn [len_all foldr].
  change (foldr _ 0 l) with (len_all l). rewrite IH, blen_cons. cbn [ws_len phy_port_wire]. lia.
Qed.

Lemma unpack_ports_ok (l : list ofp_phy_port) (pre r : bytes) :
  Forall phy_port_wf l -> exists bs l', pack_all l true = Ok bs /\ blen bs = 48 * blen l /\
    unpack_ports (length l) (pre ++ bs ++ r) (blen pre) = Ok l' /\ eq_all l' l = true.
Proof.
  intros Hl. revert pre. induction Hl as [|p l Hp Hl IH]; intros pre; [by exists [], []|].
  destruct (ws_law p) as (h & E & Hh & Hu); [exact Hp|].
  cbn [ws_pack ws_len ws_unpack ws_eq ws_after ws_fresh phy_port_wire] in *.
  destruct (IH (pre ++ h)) as (bs & l' & Eb & Hb & Eu & Eq).
  destruct (Hu new_phy_port (bs ++ r) I) as (p' & Ep & Eqp).
  exists (h ++ bs), (p' :: l'). split.
  { cbn [pack_all ws_pack phy_port_wire]. rewrite E. cbn [mbind result_bind concat_pack need]. by rewrite Eb. }
  split; [rewrite blen_app, blen_cons; lia|]. split.
  - cbn [unpack_ports length]. rewrite pyfrom_app by done. rewrite <-app_assoc, Ep.
    cbn [mbind result_bind]. unfold OFP_PHY_PORT_BYTES.
    replace (blen pre + 48) with (blen (pre ++ h)) by (rewrite blen_app; lia).
    rewrite <-app_assoc in Eu. by rewrite Eu.
  - simpl. by rewrite Eqp, Eq.
Qed.

#[global] Instance features_reply_msg : WireMsg ofp_features_reply := {
  wm_pack := features_reply_pack; wm_unpack := features_reply_unpack; wm_header := fp_hdr;
  wm_eq := features_reply_eq; wm_wf := features_reply_wf; wm_fresh _ _ := True
}.

#[global] Instance features_reply_msg_laws : MsgLaws ofp_features_reply.
Proof.
  apply msg_law_intro. intros a (Hh & Hlen & Hl & Hw). cbn [wm_header features_reply_msg] in *.
  split; [by eexists|]. intros s Hs. destruct_and!. rewrite <-Hlen in Hl.
  unfold features_reply_len in Hlen.
  cbn [wm_pack wm_unpack wm_eq wm_fresh features_reply_msg].
  unfold features_reply_pack, features_reply_unpack, features_reply_eq, features_reply_body.
  destruct (pack_all_ok (fp_ports a)) as (bs & Eb & Hb); [done|]. rewrite phy_ports_len in Hb.
  rewrite Eb. var_pack Hh Hl Hs.
  pose proof (blen_nonneg (fp_ports a)).
  split; [var_len|]. intros a0 r _. pose proof (blen_nonneg r).
  var_read. rd.
  match goal with |- context [unpack_ports ?n (?h ++ ?e1 ++ ?z ++ ?e2 ++ bs ++ r) 32] =>
    destruct (unpack_ports_ok (fp_ports a) (h ++ e1 ++ z ++ e2) r) as (bs' & l' & Eb' & _ & Eu & Eq); [done|];
    assert (blen (h ++ e1 ++ z ++ e2) = 32) as H32
      by (rewrite !blen_app, !blen_encode, blen_zeros; cbn [calcsize code_size]; simpl Z.of_nat; lia);
    replace n with (length (fp_ports a))
  end.
  2: { rewrite Hlen. unfold OFP_PHY_PORT_BYTES. replace (32 + 48 * blen (fp_ports a) - 32) with (blen (fp_ports a) * 48) by lia.
       rewrite Z.div_mul by lia. unfold blen. lia. }
  assert (bs' = bs) as -> by congruence. rewrite H32, <-!app_assoc in Eu. rewrite Eu.
  cbn [mbind result_bind]. rewrite pyfrom_zero by lia.
  eexists; split; [reflexivity|]. msg_eq.
Qed.

#[global] Instance flow_mod_msg : WireMsg ofp_flow_mod := {
  wm_pack := flow_mod_pack; wm_unpack := flow_mod_unpack; wm_header := fm_hdr;
  wm_eq := flow_mod_eq; wm_wf := flow_mod_wf; wm_fresh _ _ := True
}.

#[global] Instance flow_mod_msg_laws : MsgLaws ofp_flow_mod.
Proof.
  apply msg_law_intro. intros a (Hh & Hl & Hm & Hw). cbn [wm_header flow_mod_msg] in *.
  split; [by eexists|]. intros s Hs. destruct_and!.
  match goal with H : buffer_id_ok _ |- _ => destruct (read_buffer_id_ok _ H) as [Hb1 Hb2] end.
  cbn [wm_pack wm_unpack wm_eq wm_fresh flow_mod_msg].
  unfold flow_mod_pack, flow_mod_unpack, flow_mod_eq, flow_mod_body, match_len.
  destruct (match_law (fm_match a) true Hm) as (Em & Hbm & Hum & Eqm). rewrite Em.
  destruct (pack_all_ok (fm_actions a)) as (acts & Ea & Hacts); [done|]. rewrite Ea.
  assert (Hlen : flow_mod_len a = 72 + blen acts) by (unfold flow_mod_len, match_len; lia).
  var_pack (header_wf_length _ _ (flow_mod_len a) Hh) Hl Hs. pose proof (blen_nonneg acts).
  split; [var_len|]. intros a0 r _. pose proof (blen_nonneg r).
  var_read. rd. rewrite Hum. cbn [mbind result_bind]. rd.
  match goal with |- context [unpack_actions (?h ++ ?m ++ ?e ++ acts ++ r) ?n ?o] =>
    destruct (run_actions_roundtrip (fm_actions a) acts (h ++ m ++ e) r n o)
      as (l' & El & Eq' & Hl'); [done|done|lia|..];
    [ rewrite !blen_app, Hbm, !blen_encode; cbn [calcsize code_size]; simpl Z.of_nat; lia |]
  end.
  rewrite <-!app_assoc in El. rewrite El. cbn [mbind result_bind].
  rewrite (proj2 (Z.eqb_eq _ _)) by lia. cbn [guard_ok mbind result_bind].
  rewrite Hb2. rd_var. eexists; split; [reflexivity|]. msg_eq.
Qed.

#[global] Instance packet_out_msg : WireMsg ofp_packet_out := {
  wm_pack := packet_out_pack; wm_unpack := packet_out_unpack; wm_header := po_hdr;
  wm_eq := packet_out_eq; wm_wf := packet_out_wf; wm_fresh _ _ := True
}.

(** The data too comes back, although [__eq__] does not look at it. *)
Lemma packet_out_law a s :
  packet_out_wf a -> xid_ok s -> exists h x body a' s',
    packet_out_pack a true s = (Ok (Some (header_bytes h x ++ body), a'), s') /\ xid_ok s' /\
    (version h, header_type h) = (version (po_hdr a), header_type (po_hdr a)) /\ po_hdr a' = with_xid h x /\
    packable [cB; cB; cH; cL] (header_vals h x) /\
    blen (header_bytes h x ++ body) = h_length h /\
    h_length h = 16 + len_all (po_actions a) + blen (po_data a) /\
    forall a0 r, exists a'',
      packet_out_unpack a0 ((header_bytes h x ++ body) ++ r) = Ok (a'', r) /\
      packet_out_eq a'' a' = true /\ po_data a'' = po_data a.
Proof.
  intros (Hh & Hl & Hb & Hd & Hi & Ha) Hs. destruct (read_buffer_id_ok _ Hb) as [Hb1 Hb2].
  unfold packet_out_pack, packet_out_unpack, packet_out_eq.
  assert (packet_out_assert a = true) as ->.
  { unfold packet_out_assert. destruct Hd as [-> | ->]; [done|]. rewrite (bool_decide_eq_true_2 ([] = [])) by done.
    by destruct (_ =? _). }
  destruct (pack_all_ok (po_actions a)) as (acts & Ea & Hacts); [done|]. rewrite Ea.
  cbn [negb orb guard_ok]. rewrite !M_bind_lift_Ok.
  rewrite <-Hacts in Hl. pose proof (blen_nonneg acts). pose proof (blen_nonneg (po_data a)).
  assert (uint_ok 2 (blen acts)) by (unfold uint_ok in *; lia).
  var_pack (header_wf_length _ _ (16 + blen acts + blen (po_data a)) Hh) Hl Hs.
  split; [var_len|]. split; [cbn [h_length with_length]; lia|]. intros a0 r. pose proof (blen_nonneg r).
  var_read. rd.
  match goal with |- context [unpack_actions (?h ++ ?e ++ acts ++ ?d ++ r) ?n ?o] =>
    destruct (run_actions_roundtrip (po_actions a) acts (h ++ e) (d ++ r) n o)
      as (l' & El & Eq' & Hl'); [done|done|done|..];
    [ rewrite !blen_app, !blen_encode; cbn [calcsize code_size]; simpl Z.of_nat; lia |]
  end.
  rewrite <-!app_assoc in El. rewrite El. cbn [mbind result_bind]. rewrite Hb2.
  destruct (Z.ltb_spec (16 + blen acts) (16 + blen acts + blen (po_data a))).
  - rd_var. eexists; split; [reflexivity|]. split; [msg_eq|done].
  - rewrite (blen_0_inv (po_data a)) by lia. rd_var.
    eexists; split; [reflexivity|]. split; [msg_eq|done].
Qed.

#[global] Instance packet_out_msg_laws : MsgLaws ofp_packet_out.
Proof.
  constructor. intros a s Ha Hs.
  destruct (packet_out_law a s Ha Hs) as (h & x & body & a' & s' & H1 & H2 & H3 & H4 & H5 & H6 & _ & H7).
  exists h, x, body, a', s'. do 6 (split; [assumption|]). intros a0 r _.
  destruct (H7 a0 r) as (a'' & E & Eq & _). by exists a''.
Qed.

(** Errors and queue replies keep their promise when they carry nothing. *)
Definition error_wf (a : ofp_error) : Prop :=
  header_wf OFPT_ERROR (er_hdr a) /\ uint_ok 2 (er_type a) /\ uint_ok 2 (er_code a) /\ er_data a = [].

#[global] Instance error_msg : WireMsg ofp_error := {
  wm_pack := error_pack; wm_unpack := error_unpack; wm_header := er_hdr;
  wm_eq := error_eq; wm_wf := error_wf; wm_fresh a0 _ := er_data a0 = []
}.

#[global] Instance error_msg_laws : MsgLaws ofp_error.
Proof.
  apply msg_law_intro. intros a (Hh & Ht & Hc & Hd). cbn [wm_header error_msg] in *.
  split; [by eexists|]. intros s Hs. cbn [wm_pack wm_unpack wm_eq wm_fresh error_msg].
  unfold error_pack, error_unpack, error_eq. rewrite Hd. cbn [pack_bytes].
  change (12 + blen (@nil Z)) with 12.
  assert (Hl : uint_ok 2 12) by (vm_compute; split; congruence).
  var_pack (header_wf_length _ _ 12 Hh) Hl Hs.
  split; [var_len|]. intros a0 r Ha0. pose proof (blen_nonneg r).
  var_read. rd_var. rewrite Ha0. eexists; split; [reflexivity|]. msg_eq.
Qed.

Definition queue_get_config_reply_wf (a : ofp_queue_get_config_reply) : Prop :=
  header_wf OFPT_QUEUE_GET_CONFIG_REPLY (qgr_hdr a) /\ h_length (qgr_hdr a) = 16 /\
  uint_ok 2 (qgr_port a) /\ qgr_queues a = [].

#[global] Instance queue_get_config_reply_msg : WireMsg ofp_queue_get_config_reply := {
  wm_pack := queue_get_config_reply_pack; wm_unpack := queue_get_config_reply_unpack;
  wm_header := qgr_hdr; wm_eq := queue_get_config_reply_eq; wm_wf := queue_get_config_reply_wf;
  wm_fresh a0 _ := qgr_queues a0 = []
}.

#[global] Instance queue_get_config_reply_msg_laws : MsgLaws ofp_queue_get_config_reply.
Proof.
  apply msg_law_intro. intros a (Hh & Hlen & Hp & Hq). cbn [wm_header queue_get_config_reply_msg] in *.
  split; [by eexists|]. intros s Hs. cbn [wm_pack wm_unpack wm_eq wm_fresh queue_get_config_reply_msg].
  unfold queue_get_config_reply_pack, queue_get_config_reply_unpack, queue_get_config_reply_eq,
    queue_get_config_reply_body.
  rewrite Hq. cbn [pack_queues].
  assert (Hl : uint_ok 2 (h_length (qgr_hdr a))) by (rewrite Hlen; vm_compute; split; congruence).
  var_pack Hh Hl Hs. split; [var_len|]. intros a0 r Ha0. pose proof (blen_nonneg r).
  var_read. rd_var. rewrite Ha0. eexists; split; [reflexivity|]. msg_eq. reflexivity.
Qed.

(** ** Properties *)

(** A packet-out survives the wire, its data included: the buffer id (with
    -1 for none), the port, the actions and the payload that the switch reads
    are those that were sent, whatever follows in the buffer.  ([__eq__] does
    not compare the data, so equality of the objects would not say so.) *)
Theorem packet_out_roundtrip (a : ofp_packet_out) (s : Z) (Ha : packet_out_wf a) (Hs : xid_ok s) :
  exists bs a' s', packet_out_pack a true s = (Ok (Some bs, a'), s') /\
    blen bs = 16 + len_all (po_actions a) + blen (po_data a) /\ h_length (po_hdr a') = blen bs /\
    forall a0 r, exists a'', packet_out_unpack a0 (bs ++ r) = Ok (a'', r) /\
      packet_out_eq a'' a' = true /\ po_data a'' = po_data a.
Proof.
  destruct (packet_out_law a s Ha Hs) as (h & x & body & a' & s' & E & _ & _ & Hhd & _ & Hl & Hlen & Hr).
  exists (header_bytes h x ++ body), a', s'. rewrite Hhd. split; [exact E|].
  split; [by rewrite Hl|]. split; [by rewrite Hl|]. exact Hr.
Qed.

(** A ping sent back out of port 3. *)
Definition example_packet_out : ofp_packet_out :=
  mk_ofp_packet_out (new_header OFPT_PACKET_OUT) (-1) OFPP_NONE example_actions (str "ping").

Lemma packet_out_roundtrip_witness :
  packet_out_wf example_packet_out /\ xid_ok 9 /\
  exists bs a' s', packet_out_pack example_packet_out true 9 = (Ok (Some bs, a'), s') /\
    exists a'', packet_out_unpack new_packet_out (bs ++ str "next") = Ok (a'', str "next") /\
      po_data a'' = str "ping".
Proof.
  assert (H : packet_out_wf example_packet_out).
  { unfold packet_out_wf. split; [repeat split; vm_compute; congruence|].
    split; [split; vm_compute; congruence|]. split; [split; vm_compute; congruence|].
    split; [by left|]. split; [split; vm_compute; congruence|]. exact example_actions_wf. }
  split; [exact H|]. assert (Hs : xid_ok 9) by (split; vm_compute; congruence). split; [exact Hs|].
  destruct (packet_out_roundtrip example_packet_out 9 H Hs) as (bs & a' & s' & E & _ & _ & Hr).
  exists bs, a', s'. split; [exact E|]. destruct (Hr new_packet_out (str "next")) as (a'' & Eu & _ & Hd).
  by exists a''.
Defined.

Lemma pack_bytes_ok l : Forall (uint_ok 1) l ->
  exists d, pack_bytes l = Ok d /\ blen d = blen l /\ map byte_to_Z d = l.
Proof.
  induction 1 as [|z l Hz Hl (d & E & Hb & Hm)]; [by exists []|].
  cbn [pack_bytes]. assert (Hp : packable [cB] (z, tt)) by (by split).
  rewrite (pack_ok _ _ Hp), E. cbn [mbind result_bind mret result_ret]. eexists. split; [reflexivity|].
  cbn [encode fst snd be_encode app]. split; [by rewrite !blen_cons, Hb|].
  cbn [map]. rewrite Hm. f_equal. rewrite byte_to_of_Z. change (256 ^ Z.of_nat 0) with 1. rewrite Z.div_1_r.
  by apply Z.mod_small.
Qed.

(** The data of an error message is packed, counted in the length, and
    lost by [unpack]: the receiver gets type and code with no data, and the
    data is what [unpack] returns as the rest of the buffer. *)
Theorem error_unpack_drops_data (a : ofp_error) (s : Z) (Hs : xid_ok s)
    (Hh : header_wf OFPT_ERROR (er_hdr a)) (Ht : uint_ok 2 (er_type a)) (Hc : uint_ok 2 (er_code a))
    (Hl : uint_ok 2 (12 + blen (er_data a))) (Hd : Forall (uint_ok 1) (er_data a)) :
  exists bs d a' s', error_pack a true s = (Ok (Some bs, a'), s') /\ h_length (er_hdr a') = blen bs /\
    map byte_to_Z d = er_data a /\
    forall r, error_unpack new_error (bs ++ r) = Ok (mk_ofp_error (er_hdr a') (er_type a) (er_code a) [], d ++ r).
Proof.
  destruct (pack_bytes_ok _ Hd) as (d & Ed & Hbd & Hm).
  assert (Hp : packable [cH; cH] (er_type a, (er_code a, tt))) by (by repeat split; try apply Ht; try apply Hc).
  destruct (pack_with_ok _ (with_length (er_hdr a) (12 + blen (er_data a))) (encode [cH; cH] (er_type a, (er_code a, tt)) ++ d) s
    (header_wf_length _ _ _ Hh) Hl Hs) as (x & s' & E & _ & Hpk).
  eexists _, d, _, s'. split.
  { unfold error_pack. rewrite (pack_ok _ _ Hp), Ed. cbn [mbind result_bind]. rewrite M_bind_unfold.
    change (mret (?p ++ ?q)) with (Ok (p ++ q)). rewrite E. reflexivity. }
  cbn [er_hdr with_xid with_length h_length]. pose proof (blen_nonneg d).
  split; [rewrite !blen_app, header_bytes_blen, blen_encode; cbn [calcsize code_size]; simpl Z.of_nat; lia|].
  split; [done|]. intros r. pose proof (blen_nonneg r). unfold error_unpack.
  rewrite <-!app_assoc. rewrite (proj2 (Z.ltb_ge _ _))
    by (rewrite !blen_app, header_bytes_blen, blen_encode; cbn [calcsize code_size]; simpl Z.of_nat; lia).
  rd_header. rd_var. rewrite pyfrom_skip, pyfrom_app; [done|..];
    rewrite ?header_bytes_blen, ?blen_encode; cbn [calcsize code_size]; simpl Z.of_nat; lia.
Qed.

Lemma error_unpack_drops_data_witness :
  exists bs d a' s', error_pack (mk_ofp_error (new_header OFPT_ERROR) 1 6 [1; 2; 3]) true 1 = (Ok (Some bs, a'), s') /\
    error_unpack new_error (bs ++ []) = Ok (mk_ofp_error (er_hdr a') 1 6 [], d ++ []) /\ map byte_to_Z d = [1; 2; 3].
Proof.
  destruct (error_unpack_drops_data (mk_ofp_error (new_header OFPT_ERROR) 1 6 [1; 2; 3]) 1)
    as (bs & d & a' & s' & E & _ & Hm & Hr);
    [split; vm_compute; congruence|repeat split; vm_compute; congruence|split; vm_compute; congruence..| |].
  - repeat constructor; vm_compute; congruence.
  - exists bs, d, a', s'. split; [exact E|]. split; [exact (Hr [])|exact Hm].
Defined.

(** A statistics reply built from a list of structures announces the number
    of structures where the number of bytes is meant, so the receiver keeps
    that many bytes of the body and the rest is read as the next message. *)
Theorem stats_reply_list_length (a : ofp_stats_reply) (l : list stats_struct) (data : bytes) (s : Z)
    (Hs : xid_ok s) (Hh : header_wf OFPT_STATS_REPLY (srp_hdr a)) (Ht : uint_ok 2 (srp_type a))
    (Hf : uint_ok 2 (srp_flags a)) (Hb : srp_body a = SList l) (Hd : rep_body_data (SList l) = Ok data)
    (Hl : uint_ok 2 (12 + blen l)) (Hlt : blen l < blen data) :
  exists bs a' s', stats_reply_pack a true s = (Ok (Some bs, a'), s') /\
    blen bs = 12 + blen data /\ h_length (srp_hdr a') = 12 + blen l /\
    forall r, stats_reply_unpack new_stats_reply (bs ++ r)
      = Ok (mk_ofp_stats_reply (srp_hdr a') (srp_type a) (srp_flags a) (SBytes (take (length l) data)),
            drop (length l) data ++ r).
Proof.
  assert (Hp : packable [cH; cH] (srp_type a, (srp_flags a, tt))) by (by repeat split; try apply Ht; try apply Hf).
  set (e := encode [cH; cH] (srp_type a, (srp_flags a, tt))).
  assert (He : blen e = 4) by (subst e; by rewrite blen_encode).
  destruct (pack_with_ok _ (with_length (srp_hdr a) (12 + blen l)) (e ++ data) s
    (header_wf_length _ _ _ Hh) Hl Hs) as (x & s' & E & _ & Hpk).
  eexists _, _, s'. split.
  { unfold stats_reply_pack, stats_reply_len. rewrite Hb, (pack_ok _ _ Hp), Hd. cbn [mbind result_bind].
    rewrite M_bind_unfold. change (mret (?p ++ ?q)) with (Ok (p ++ q)). fold e. rewrite E. reflexivity. }
  cbn [srp_hdr with_xid with_length h_length]. pose proof (blen_nonneg l).
  split; [rewrite !blen_app, header_bytes_blen; lia|]. split; [done|].
  intros r. pose proof (blen_nonneg r). unfold stats_reply_unpack.
  rewrite <-!app_assoc. rewrite (proj2 (Z.ltb_ge _ _)) by (rewrite !blen_app, header_bytes_blen; lia).
  rd_header. rewrite unpack_from_skip, header_bytes_blen by (rewrite header_bytes_blen; lia).
  change (8 - 8) with 0. subst e. pose proof (unpack_from_app [cH; cH] _ [] (data ++ r) 0 eq_refl eq_refl Hp I) as Eu.
  cbn [app] in Eu. rewrite Eu. cbn [mbind result_bind h_length with_xid with_length].
  set (e := encode _ _) in *.
  rewrite pyslice_skip, pyslice_skip, pyfrom_skip, pyfrom_skip by (rewrite ?header_bytes_blen, ?He; lia).
  rewrite !header_bytes_blen, He, pyslice_pos, pyfrom_pos by lia.
  replace (12 - 8 - 4) with 0 by lia. replace (12 + blen l - 8 - 4 - 0) with (blen l) by lia.
  replace (12 + blen l - 8 - 4) with (blen l) by lia. unfold blen in *. rewrite Nat2Z.id, drop_0.
  rewrite take_app_le, drop_app_le by lia. done.
Qed.

Lemma stats_reply_list_length_witness :
  exists bs a' s', stats_reply_pack (mk_ofp_stats_reply (new_header OFPT_STATS_REPLY) 5 0 (SList [SQueue new_queue_stats]))
      true 1 = (Ok (Some bs, a'), s') /\ blen bs = 44 /\ h_length (srp_hdr a') = 13.
Proof.
  destruct (stats_reply_list_length
    (mk_ofp_stats_reply (new_header OFPT_STATS_REPLY) 5 0 (SList [SQueue new_queue_stats]))
    [SQueue new_queue_stats] (zeros 32) 1) as (bs & a' & s' & E & H1 & H2 & _);
    [split; vm_compute; congruence|repeat split; vm_compute; congruence|split; vm_compute; congruence
    |split; vm_compute; congruence|reflexivity|reflexivity|split; vm_compute; congruence|reflexivity|].
  exists bs, a', s'. split; [exact E|]. split; [exact H1|exact H2].
Defined.
