(* ===== verification/OfpStream.v ===== *)
(** * The message stream of a connection ([pox/openflow/of_01.py],
    [pox/openflow/util.py])

    The union of the message classes, the table from a wire type to a class,
    and the loops that cut a byte stream into messages: [Connection.read], the
    capture socket's, the parser of statistics bodies; the aggregation of
    multi-part statistics replies and the slicing of deferred data.  Sockets
    and handlers are outside: a read is a chunk of bytes, a delivered message
    an element of the result. *)

From S2P Require Import Prelude PyStruct Addresses Codec OfpMatch OfpActions OfpStructs OfpMessages.
From S2P Require Import OfpVarMessages.

(** ** The union of the classes *)

Inductive message :=
  | MHello (m : ofp_hello)
  | MError (m : ofp_error)
  | MEchoRequest (m : ofp_echo)
  | MEchoReply (m : ofp_echo)
  | MVendor (m : ofp_vendor)
  | MFeaturesRequest (m : ofp_features_request)
  | MFeaturesReply (m : ofp_features_reply)
  | MGetConfigRequest (m : ofp_get_config_request)
  | MGetConfigReply (m : ofp_get_config_reply)
  | MSetConfig (m : ofp_set_config)
  | MPacketIn (m : ofp_packet_in)
  | MFlowRemoved (m : ofp_flow_removed)
  | MPortStatus (m : ofp_port_status)
  | MPacketOut (m : ofp_packet_out)
  | MFlowMod (m : ofp_flow_mod)
  | MPortMod (m : ofp_port_mod)
  | MStatsRequest (m : ofp_stats_request)
  | MStatsReply (m : ofp_stats_reply)
  | MBarrierRequest (m : ofp_barrier_request)
  | MBarrierReply (m : ofp_barrier_reply)
  | MQueueGetConfigRequest (m : ofp_queue_get_config_request)
  | MQueueGetConfigReply (m : ofp_queue_get_config_reply).

(** Apply [wrap] to the object that [pack] leaves. *)
Definition pack_as {A} (wrap : A -> message) (p : M Z (option bytes * A)) : M Z (option bytes * message) :=
  '(o, a) ← p; mret (o, wrap a).
Definition unpack_as {A} (wrap : A -> message) (p : result (A * bytes)) : result (message * bytes) :=
  '(a, r) ← p; mret (wrap a, r).

Definition message_pack (m : message) (assertstruct : bool) : M Z (option bytes * message) :=
  match m with
  | MHello m => pack_as MHello (hello_pack m assertstruct)
  | MError m => pack_as MError (error_pack m assertstruct)
  | MEchoRequest m => pack_as MEchoRequest (echo_pack m assertstruct)
  | MEchoReply m => pack_as MEchoReply (echo_pack m assertstruct)
  | MVendor m => pack_as MVendor (vendor_pack m assertstruct)
  | MFeaturesRequest m => pack_as MFeaturesRequest (features_request_pack m assertstruct)
  | MFeaturesReply m => pack_as MFeaturesReply (features_reply_pack m assertstruct)
  | MGetConfigRequest m => pack_as MGetConfigRequest (get_config_request_pack m assertstruct)
  | MGetConfigReply m => pack_as MGetConfigReply (get_config_reply_pack m assertstruct)
  | MSetConfig m => pack_as MSetConfig (set_config_pack m assertstruct)
  | MPacketIn m => pack_as MPacketIn (packet_in_pack m assertstruct)
  | MFlowRemoved m => pack_as MFlowRemoved (flow_removed_pack m assertstruct)
  | MPortStatus m => pack_as MPortStatus (port_status_pack m assertstruct)
  | MPacketOut m => pack_as MPacketOut (packet_out_pack m assertstruct)
  | MFlowMod m => pack_as MFlowMod (flow_mod_pack m assertstruct)
  | MPortMod m => pack_as MPortMod (port_mod_pack m assertstruct)
  | MStatsRequest m => pack_as MStatsRequest (stats_request_pack m assertstruct)
  | MStatsReply m => pack_as MStatsReply (stats_reply_pack m assertstruct)
  | MBarrierRequest m => pack_as MBarrierRequest (barrier_request_pack m assertstruct)
  | MBarrierReply m => pack_as MBarrierReply (barrier_reply_pack m assertstruct)
  | MQueueGetConfigRequest m => pack_as MQueueGetConfigRequest (queue_get_config_request_pack m assertstruct)
  | MQueueGetConfigReply m => pack_as MQueueGetConfigReply (queue_get_config_reply_pack m assertstruct)
  end.

Definition message_unpack (m : message) (b : bytes) : result (message * bytes) :=
  match m with
  | MHello m => unpack_as MHello (hello_unpack m b)
  | MError m => unpack_as MError (error_unpack m b)
  | MEchoRequest m => unpack_as MEchoRequest (echo_unpack m b)
  | MEchoReply m => unpack_as MEchoReply (echo_unpack m b)
  | MVendor m => unpack_as MVendor (vendor_unpack m b)
  | MFeaturesRequest m => unpack_as MFeaturesRequest (features_request_unpack m b)
  | MFeaturesReply m => unpack_as MFeaturesReply (features_reply_unpack m b)
  | MGetConfigRequest m => unpack_as MGetConfigRequest (get_config_request_unpack m b)
  | MGetConfigReply m => unpack_as MGetConfigReply (get_config_reply_unpack m b)
  | MSetConfig m => unpack_as MSetConfig (set_config_unpack m b)
  | MPacketIn m => unpack_as MPacketIn (packet_in_unpack m b)
  | MFlowRemoved m => unpack_as MFlowRemoved (flow_removed_unpack m b)
  | MPortStatus m => unpack_as MPortStatus (port_status_unpack m b)
  | MPacketOut m => unpack_as MPacketOut (packet_out_unpack m b)
  | MFlowMod m => unpack_as MFlowMod (flow_mod_unpack m b)
  | MPortMod m => unpack_as MPortMod (port_mod_unpack m b)
  | MStatsRequest m => unpack_as MStatsRequest (stats_request_unpack m b)
  | MStatsReply m => unpack_as MStatsReply (stats_reply_unpack m b)
  | MBarrierRequest m => unpack_as MBarrierRequest (barrier_request_unpack m b)
  | MBarrierReply m => unpack_as MBarrierReply (barrier_reply_unpack m b)
  | MQueueGetConfigRequest m => unpack_as MQueueGetConfigRequest (queue_get_config_request_unpack m b)
  | MQueueGetConfigReply m => unpack_as MQueueGetConfigReply (queue_get_config_reply_unpack m b)
  end.

Definition message_header (m : message) : ofp_header :=
  match m with
  | MHello m => he_hdr m
  | MError m => er_hdr m
  | MEchoRequest m => ec_hdr m
  | MEchoReply m => ec_hdr m
  | MVendor m => ve_hdr m
  | MFeaturesRequest m => frq_hdr m
  | MFeaturesReply m => fp_hdr m
  | MGetConfigRequest m => gcq_hdr m
  | MGetConfigReply m => gcr_hdr m
  | MSetConfig m => stc_hdr m
  | MPacketIn m => pi_hdr m
  | MFlowRemoved m => fr_hdr m
  | MPortStatus m => pst_hdr m
  | MPacketOut m => po_hdr m
  | MFlowMod m => fm_hdr m
  | MPortMod m => pm_hdr m
  | MStatsRequest m => srq_hdr m
  | MStatsReply m => srp_hdr m
  | MBarrierRequest m => brq_hdr m
  | MBarrierReply m => brp_hdr m
  | MQueueGetConfigRequest m => qgq_hdr m
  | MQueueGetConfigReply m => qgr_hdr m
  end.

Definition message_eq (a b : message) : bool :=
  match a, b with
  | MHello a, MHello b => hello_eq a b
  | MError a, MError b => error_eq a b
  | MEchoRequest a, MEchoRequest b => echo_eq a b
  | MEchoReply a, MEchoReply b => echo_eq a b
  | MVendor a, MVendor b => vendor_eq a b
  | MFeaturesRequest a, MFeaturesRequest b => features_request_eq a b
  | MFeaturesReply a, MFeaturesReply b => features_reply_eq a b
  | MGetConfigRequest a, MGetConfigRequest b => get_config_request_eq a b
  | MGetConfigReply a, MGetConfigReply b => get_config_reply_eq a b
  | MSetConfig a, MSetConfig b => set_config_eq a b
  | MPacketIn a, MPacketIn b => packet_in_eq a b
  | MFlowRemoved a, MFlowRemoved b => flow_removed_eq a b
  | MPortStatus a, MPortStatus b => port_status_eq a b
  | MPacketOut a, MPacketOut b => packet_out_eq a b
  | MFlowMod a, MFlowMod b => flow_mod_eq a b
  | MPortMod a, MPortMod b => port_mod_eq a b
  | MStatsRequest a, MStatsRequest b => stats_request_eq a b
  | MStatsReply a, MStatsReply b => stats_reply_eq a b
  | MBarrierRequest a, MBarrierRequest b => barrier_request_eq a b
  | MBarrierReply a, MBarrierReply b => barrier_reply_eq a b
  | MQueueGetConfigRequest a, MQueueGetConfigRequest b => queue_get_config_request_eq a b
  | MQueueGetConfigReply a, MQueueGetConfigReply b => queue_get_config_reply_eq a b
  | _, _ => false
  end.

(** [make_type_to_class_table]: one class per message type, called without
    arguments.  The list is built by [range(0, max)], so the class of the
    highest type, the queue configuration reply, is left out. *)
Definition all_classes : list message :=
  [MHello new_hello;
   MError new_error;
   MEchoRequest new_echo_request;
   MEchoReply new_echo_reply;
   MVendor new_vendor;
   MFeaturesRequest new_features_request;
   MFeaturesReply (new_features_reply 0 0 0 0 0 []);
   MGetConfigRequest new_get_config_request;
   MGetConfigReply new_get_config_reply;
   MSetConfig new_set_config;
   MPacketIn new_packet_in;
   MFlowRemoved new_flow_removed;
   MPortStatus new_port_status;
   MPacketOut new_packet_out;
   MFlowMod new_flow_mod;
   MPortMod new_port_mod;
   MStatsRequest new_stats_request;
   MStatsReply new_stats_reply;
   MBarrierRequest new_barrier_request;
   MBarrierReply new_barrier_reply;
   MQueueGetConfigRequest new_queue_get_config_request;
   MQueueGetConfigReply new_queue_get_config_reply].

Definition make_type_to_class_table (classes : list message) : list message :=
  take (length classes - 1) classes.
Definition classes : list message := make_type_to_class_table all_classes.

(** [classes[t]()]. *)
Definition message_of_type (t : Z) : option message := classes !! Z.to_nat t.

(** ** [Connection.read] *)

(** The value returned, or the exception that escapes. *)
Inductive read_end :=
  | ReadOk       (* True *)
  | ReadClosed   (* False *)
  | ReadRaise (e : exn).

(** The [while] loop: the buffer left and the messages given to the handlers,
    in order; [None] is out of fuel.  Handler exceptions are caught there. *)
Fixpoint read_loop (fuel : nat) (buf : bytes) (msgs : list message)
  : option (read_end * bytes * list message) :=
  match fuel with
  | O => None
  | S fuel =>
      match buf with
      | b0 :: b1 :: b2 :: b3 :: _ :: _ =>
          if negb (byte_to_Z b0 =? OFP_VERSION) then Some (ReadClosed, buf, msgs)
          else
            let packet_length := Z.lor (Z.shiftl (byte_to_Z b2) 8) (byte_to_Z b3) in
            if blen buf <? packet_length then Some (ReadOk, buf, msgs)
            else
              match message_of_type (byte_to_Z b1) with
              | None => Some (ReadRaise IndexError, buf, msgs)
              | Some m =>
                  match message_unpack m buf with
                  | Err e => Some (ReadRaise e, buf, msgs)
                  | Ok (m, _) => read_loop fuel (pyfrom buf packet_length) (msgs ++ [m])
                  end
              end
      | _ => Some (ReadOk, buf, msgs)
      end
  end.

(** One call of [read] with the bytes [d] received. *)
Definition conn_read (fuel : nat) (buf d : bytes) : option (read_end * bytes * list message) :=
  match d with
  | [] => Some (ReadClosed, buf, [])
  | _ => read_loop fuel (buf ++ d) []
  end.

(** Successive reads, until one of them does not return [True]. *)
Fixpoint conn_reads (fuel : nat) (buf : bytes) (ds : list bytes)
  : option (read_end * bytes * list message) :=
  match ds with
  | [] => Some (ReadOk, buf, [])
  | d :: ds =>
      match conn_read fuel buf d with
      | Some (ReadOk, buf, ms) =>
          match conn_reads fuel buf ds with
          | Some (e, buf, ms') => Some (e, buf, ms ++ ms')
          | None => None
          end
      | r => r
      end
  end.

(** [Connection.send] of message objects one after the other: the bytes sent,
    with the objects as [pack] leaves them; [None] cannot be sent. *)
Fixpoint send_all (ms : list message) : M Z (list (bytes * message)) :=
  match ms with
  | [] => mret []
  | m :: ms =>
      '(o, m) ← message_pack m true;
      f ← lift (need TypeError o);
      rest ← send_all ms;
      mret ((f, m) :: rest)
  end.

(** ** [OFCaptureSocket]: the frames written to the trace *)

Fixpoint capture_loop (fuel : nat) (buf : bytes) (out : list bytes) : option (bool * bytes * list bytes) :=
  match fuel with
  | O => None
  | S fuel =>
      match buf with
      | b0 :: _ :: b2 :: b3 :: _ :: _ =>
          if negb (byte_to_Z b0 =? OFP_VERSION) then Some (false, buf, out)
          else
            let packet_length := Z.lor (Z.shiftl (byte_to_Z b2) 8) (byte_to_Z b3) in
            if blen buf <? packet_length then Some (true, buf, out)
            else capture_loop fuel (pyfrom buf packet_length) (out ++ [pyupto buf packet_length])
      | _ => Some (true, buf, out)
      end
  end.

(** ** Statistics *)

(** [_processStatsBody]: unpack structures until the body is exhausted; each
    must consume something. *)
Fixpoint process_stats_body {A} `{WireStruct A} (fuel : nat) (init : A) (body : bytes) (r : list A)
  : option (result (list A)) :=
  match fuel with
  | O => None
  | S fuel =>
      match body with
      | [] => Some (Ok r)
      | _ =>
          match ws_unpack init body with
          | Err e => Some (Err e)
          | Ok (obj, body') =>
              if blen body' <? blen body then process_stats_body fuel init body' (r ++ [obj])
              else Some (Err AssertionError)
          end
      end
  end.

(** [handle_OFPST_FLOW] and the handlers of tables, ports and queues: the
    structures of all the parts, in one list; the parts come from the wire, so
    their bodies are bytes. *)
Fixpoint handle_stats_parts {A} `{WireStruct A} (init : A) (parts : list bytes) : option (result (list A)) :=
  match parts with
  | [] => Some (Ok [])
  | b :: parts =>
      match process_stats_body (S (length b)) init b [] with
      | Some (Ok l) =>
          match handle_stats_parts init parts with
          | Some (Ok l') => Some (Ok (l ++ l'))
          | r => r
          end
      | r => r
      end
  end.

(** [handle_ECHO_REQUEST]: the request is sent back under the other type. *)
Definition handle_echo_request (msg : ofp_echo) : M Z (option bytes * ofp_echo) :=
  echo_pack (mk_ofp_echo (mk_header (version (ec_hdr msg)) OFPT_ECHO_REPLY (h_length (ec_hdr msg)) (xid (ec_hdr msg)))
    (ec_body msg)) true.

(** [_incoming_stats_reply]: [prev] is [_previous_stats]; the result is the
    new list with the parts given to a handler, if any.  The branch that
    reports an interleaved reply names [_previous_stats_reply], which does not
    exist, and the one without a handler indexes the list it just emptied. *)
Definition stats_known (t : Z) : bool := (0 <=? t) && (t <=? 5).

Definition incoming_stats_reply (prev : list ofp_stats_reply) (ofp : ofp_stats_reply)
  : result (option (list ofp_stats_reply)) * list ofp_stats_reply :=
  let more := negb (Z.land (srp_flags ofp) 1 =? 0) in
  if more && negb (bool_decide (srp_type ofp ∈ [1; 3; 4; 5])) then (Ok None, [])
  else
    let r := match prev with
             | p0 :: _ =>
                 if bool_decide (xid (srp_hdr ofp) = xid (srp_hdr p0)) && (srp_type ofp =? srp_type p0)
                 then Ok (prev ++ [ofp]) else Err AttributeError
             | [] => Ok [ofp]
             end in
    match r with
    | Err e => (Err e, prev)
    | Ok l =>
        if more then (Ok None, l)
        else
          match l with
          | p0 :: _ => if stats_known (srp_type p0) then (Ok (Some l), []) else (Err IndexError, [])
          | [] => (Err IndexError, l)
          end
    end.

(** The replies a connection receives, one after the other. *)
Fixpoint incoming_all (prev : list ofp_stats_reply) (l : list ofp_stats_reply)
  : list (result (option (list ofp_stats_reply))) * list ofp_stats_reply :=
  match l with
  | [] => ([], prev)
  | ofp :: l =>
      let '(r, prev) := incoming_stats_reply prev ofp in
      let '(rs, prev) := incoming_all prev l in (r :: rs, prev)
  end.

(** ** [DeferredSender._sliceup] *)

Section sliceup.
Context (PIPE_BUF : nat).

Fixpoint sliceup_loop (fuel : nat) (data : bytes) (out : list bytes) : option (list bytes) :=
  match fuel with
  | O => None
  | S fuel =>
      if (PIPE_BUF <? length data)%nat
      then sliceup_loop fuel (drop PIPE_BUF data) (out ++ [take PIPE_BUF data])
      else Some (if (0 <? length data)%nat then out ++ [data] else out)
  end.
Definition sliceup (data : bytes) : option (list bytes) := sliceup_loop (S (length data)) data [].
End sliceup.

(** ** Laws of the union *)

Definition message_wf (m : message) : Prop :=
  match m with
  | MHello m => hello_wf m
  | MError m => error_wf m
  | MEchoRequest m => echo_wf m /\ header_type (ec_hdr m) = OFPT_ECHO_REQUEST
  | MEchoReply m => echo_wf m /\ header_type (ec_hdr m) = OFPT_ECHO_REPLY
  | MVendor m => vendor_wf m
  | MFeaturesRequest m => features_request_wf m
  | MFeaturesReply m => features_reply_wf m
  | MGetConfigRequest m => get_config_request_wf m
  | MGetConfigReply m => get_config_reply_wf m
  | MSetConfig m => set_config_wf m
  | MPacketIn m => packet_in_wf m
  | MFlowRemoved m => flow_removed_wf m
  | MPortStatus m => port_status_wf m
  | MPacketOut m => packet_out_wf m
  | MFlowMod m => flow_mod_wf m
  | MPortMod m => port_mod_wf m
  | MStatsRequest m => stats_request_wf m
  | MStatsReply m => stats_reply_wf m
  | MBarrierRequest m => barrier_request_wf m
  | MBarrierReply m => barrier_reply_wf m
  | MQueueGetConfigRequest m => queue_get_config_request_wf m
  | MQueueGetConfigReply m => queue_get_config_reply_wf m
  end.

(** An object of the class, as the table creates it. *)
Definition message_fresh (a0 a : message) : Prop :=
  match a0, a with
  | MHello _, MHello _ => True
  | MError a0, MError _ => er_data a0 = []
  | MEchoRequest _, MEchoRequest _ => True
  | MEchoReply _, MEchoReply _ => True
  | MVendor _, MVendor _ => True
  | MFeaturesRequest _, MFeaturesRequest _ => True
  | MFeaturesReply _, MFeaturesReply _ => True
  | MGetConfigRequest _, MGetConfigRequest _ => True
  | MGetConfigReply _, MGetConfigReply _ => True
  | MSetConfig _, MSetConfig _ => True
  | MPacketIn _, MPacketIn _ => True
  | MFlowRemoved _, MFlowRemoved _ => True
  | MPortStatus _, MPortStatus _ => True
  | MPacketOut _, MPacketOut _ => True
  | MFlowMod _, MFlowMod _ => True
  | MPortMod _, MPortMod _ => True
  | MStatsRequest _, MStatsRequest _ => True
  | MStatsReply _, MStatsReply _ => True
  | MBarrierRequest _, MBarrierRequest _ => True
  | MBarrierReply _, MBarrierReply _ => True
  | MQueueGetConfigRequest _, MQueueGetConfigRequest _ => True
  | MQueueGetConfigReply a0, MQueueGetConfigReply _ => qgr_queues a0 = []
  | _, _ => False
  end.

#[global] Instance message_msg : WireMsg message := {
  wm_pack := message_pack; wm_unpack := message_unpack; wm_header := message_header;
  wm_eq := message_eq; wm_wf := message_wf; wm_fresh := message_fresh
}.

(** A class of the union keeps its laws. *)
Lemma message_law_of {A} `{HL : MsgLaws A} (wrap : A -> message) (m : A) s :
  (forall a, message_pack (wrap a) true = pack_as wrap (wm_pack a true)) ->
  (forall a b, message_unpack (wrap a) b = unpack_as wrap (wm_unpack a b)) ->
  (forall a, message_header (wrap a) = wm_header a) ->
  (forall a b, message_eq (wrap a) (wrap b) = wm_eq a b) ->
  (forall a0 a, message_fresh a0 (wrap a) -> exists b, a0 = wrap b /\ wm_fresh b a) ->
  wm_wf m -> xid_ok s -> exists h x body a' s',
    message_pack (wrap m) true s = (Ok (Some (header_bytes h x ++ body), a'), s') /\ xid_ok s' /\
    (version h, header_type h) = (version (message_header (wrap m)), header_type (message_header (wrap m))) /\ message_header a' = with_xid h x /\
    packable [cB; cB; cH; cL] (header_vals h x) /\
    blen (header_bytes h x ++ body) = h_length h /\
    forall a0 r, message_fresh a0 (wrap m) -> exists a'',
      message_unpack a0 ((header_bytes h x ++ body) ++ r) = Ok (a'', r) /\ message_eq a'' a' = true.
Proof.
  intros Hp Hu Hh He Hf Hm Hs.
  destruct (msg_law m s Hm Hs) as (h & x & body & a' & s' & E & Hs' & Ht & Hhd & Hpk & Hl & Hr).
  exists h, x, body, (wrap a'), s'. rewrite Hp, !Hh.
  split; [unfold pack_as; by rewrite M_bind_unfold, E|]. do 5 (split; [done|]).
  intros a0 r Hfr. destruct (Hf _ _ Hfr) as (b & -> & Hb).
  destruct (Hr b r Hb) as (a'' & Ea & Eq). exists (wrap a''). rewrite Hu, Ea, He. done.
Qed.

#[global] Instance message_laws : MsgLaws message.
Proof.
  constructor. intros m s Hm Hs. cbn [wm_wf wm_pack wm_unpack wm_header wm_eq wm_fresh message_msg] in *.
  destruct m as [m|m|m|m|m|m|m|m|m|m|m|m|m|m|m|m|m|m|m|m|m|m];
    cbn [message_wf] in Hm.
  all: match goal with |- context [message_pack (?w ?x)] => apply (message_law_of w x) end;
    first [done | exact (proj1 Hm) | (intros [] a Hf; try done; by eexists)].
Qed.

(** ** Frames *)

Lemma lor_shift8 a b : 0 <= a -> 0 <= b < 256 -> Z.lor (Z.shiftl a 8) b = a * 256 + b.
Proof.
  intros Ha Hb.
  assert (Hz : Z.land (Z.shiftl a 8) b = 0).
  { apply Z.bits_inj'. intros n Hn. rewrite Z.land_spec, Z.bits_0, Z.shiftl_spec by done.
    destruct (Z.lt_ge_cases n 8); [by rewrite Z.testbit_neg_r by lia|].
    assert (Z.testbit b n = false) as ->; [|by rewrite andb_false_r].
    rewrite Z.testbit_eqb by lia. rewrite Z.div_small; [done|].
    split; [lia|]. apply Z.lt_le_trans with (2 ^ 8); [lia|]. apply Z.pow_le_mono_r; lia. }
  rewrite <-Z.lxor_lor, <-Z.add_nocarry_lxor by done. by rewrite Z.shiftl_mul_pow2 by lia.
Qed.

(** The first four bytes of a packed header. *)
Lemma header_bytes_front h x :
  packable [cB; cB; cH; cL] (header_vals h x) ->
  exists b0 b1 b2 b3 b4 t, header_bytes h x = b0 :: b1 :: b2 :: b3 :: b4 :: t /\
    byte_to_Z b0 = version h /\ byte_to_Z b1 = header_type h /\
    Z.lor (Z.shiftl (byte_to_Z b2) 8) (byte_to_Z b3) = h_length h.
Proof.
  unfold header_vals. cbn [packable fst snd]. intros (Hv & Ht & Hl & Hx & _).
  unfold uint_ok in *. change (256 ^ Z.of_nat 1) with 256 in *. change (256 ^ Z.of_nat 2) with 65536 in *.
  unfold header_bytes, header_vals. cbn [encode fst snd be_encode app].
  eexists _, _, _, _, _, _. split; [reflexivity|].
  rewrite !byte_to_of_Z. change (256 ^ Z.of_nat 0) with 1. change (256 ^ Z.of_nat 1) with 256.
  rewrite !Z.div_1_r.
  split; [by apply Z.mod_small|]. split; [by apply Z.mod_small|].
  rewrite (Z.mod_small (h_length h / 256)) by (split; [apply Z.div_pos; lia | apply Z.div_lt_upper_bound; lia]).
  rewrite lor_shift8; [|apply Z.div_pos; lia|apply Z.mod_pos_bound; lia].
  rewrite (Z.div_mod (h_length h) 256) at 3 by lia. lia.
Qed.

(** A message on the wire: bytes that [read] takes for [m]. *)
Definition frame (f : bytes) (m : message) : Prop :=
  exists b0 b1 b2 b3 b4 t m0, f = b0 :: b1 :: b2 :: b3 :: b4 :: t /\
    byte_to_Z b0 = OFP_VERSION /\ message_of_type (byte_to_Z b1) = Some m0 /\
    Z.lor (Z.shiftl (byte_to_Z b2) 8) (byte_to_Z b3) = blen f /\
    forall r, exists m', message_unpack m0 (f ++ r) = Ok (m', r) /\ message_eq m' m = true.

(** The type a class writes is its place in the table. *)
Definition message_ty (m : message) : Z := header_type (message_header m).

Lemma message_of_type_fresh m :
  message_wf m -> message_ty m < 21 ->
  exists m0, message_of_type (message_ty m) = Some m0 /\ message_fresh m0 m.
Proof.
  unfold message_ty. intros Hm Hlt.
  destruct m; cbn [message_wf message_header] in *;
    cbv delta [hello_wf error_wf vendor_wf features_request_wf features_reply_wf get_config_request_wf get_config_reply_wf set_config_wf packet_in_wf flow_removed_wf port_status_wf packet_out_wf flow_mod_wf port_mod_wf stats_request_wf stats_reply_wf barrier_request_wf barrier_reply_wf queue_get_config_request_wf queue_get_config_reply_wf] beta in Hm;
    repeat match goal with H : _ /\ _ |- _ => destruct H end;
    repeat match goal with H : header_wf _ _ |- _ => unfold header_wf in H end;
    repeat match goal with H : _ /\ _ |- _ => destruct H end;
    match goal with H : header_type ?h = ?t |- context [message_of_type (header_type ?h)] => rewrite H in * end;
    first [ exfalso; unfold OFPT_QUEUE_GET_CONFIG_REPLY in *; lia
          | eexists; split; [reflexivity|]; done ].
Qed.

Lemma message_frame m s :
  message_wf m -> xid_ok s -> version (message_header m) = OFP_VERSION -> message_ty m < 21 ->
  exists f m' s', message_pack m true s = (Ok (Some f, m'), s') /\ xid_ok s' /\ frame f m'.
Proof.
  intros Hm Hs Hv Hlt. destruct (msg_law m s) as (h & x & body & a' & s' & E & Hs' & Ht & Hhd & Hp & Hl & Hr);
    [exact Hm|exact Hs|].
  cbn [wm_pack wm_header wm_unpack wm_eq wm_fresh message_msg] in *.
  destruct (message_of_type_fresh m Hm Hlt) as (m0 & E0 & Hf).
  eexists _, a', s'. split; [exact E|]. split; [done|].
  destruct (header_bytes_front h x Hp) as (b0 & b1 & b2 & b3 & b4 & t & Eb & H0 & H1 & H23).
  injection Ht as Hvh Ht. rewrite Hv in Hvh.
  exists b0, b1, b2, b3, b4, (t ++ body), m0. rewrite Hl, Eb.
  split; [done|]. split; [congruence|]. split; [by rewrite H1, Ht|]. split; [done|].
  intros r. rewrite Eb in Hr. by apply Hr.
Qed.

(** ** Reading frames *)

Lemma read_loop_frame fuel f m r msgs :
  frame f m -> exists m', message_eq m' m = true /\
    read_loop (S fuel) (f ++ r) msgs = read_loop fuel r (msgs ++ [m']).
Proof.
  intros (b0 & b1 & b2 & b3 & b4 & t & m0 & Ef & H0 & H1 & Hl & Hr).
  destruct (Hr r) as (m' & Eu & Eq). exists m'. split; [done|].
  assert (Hb : (blen (f ++ r) <? blen f) = false)
    by (apply Z.ltb_ge; rewrite blen_app; pose proof (blen_nonneg r); lia).
  assert (Hd : pyfrom (f ++ r) (blen f) = r) by (by apply pyfrom_app).
  rewrite Ef in *. cbn [read_loop app]. rewrite H0. cbn [Z.eqb negb]. rewrite Hl.
  change (b0 :: b1 :: b2 :: b3 :: b4 :: t ++ r) with ((b0 :: b1 :: b2 :: b3 :: b4 :: t) ++ r).
  change (negb (OFP_VERSION =? OFP_VERSION)) with false. cbv iota.
  by rewrite Hb, H1, Eu, Hd.
Qed.

Lemma read_loop_partial fuel f m p q msgs :
  frame f m -> f = p ++ q -> q <> [] -> read_loop (S fuel) p msgs = Some (ReadOk, p, msgs).
Proof.
  intros (b0 & b1 & b2 & b3 & b4 & t & m0 & Ef & H0 & H1 & Hl & Hr) Epq Hq.
  destruct p as [|p0 [|p1 [|p2 [|p3 [|p4 p]]]]]; try done.
  rewrite Ef in Epq. cbn [app] in Epq. injection Epq as <- <- <- <- <- Et.
  cbn [read_loop]. rewrite H0, Hl. change (negb (OFP_VERSION =? OFP_VERSION)) with false. cbv iota.
  assert (Hlt : (blen (b0 :: b1 :: b2 :: b3 :: b4 :: p) <? blen f) = true).
  { apply Z.ltb_lt. rewrite Ef, Et. rewrite !blen_cons, blen_app.
    destruct q as [|c q]; [done|]. rewrite blen_cons. pose proof (blen_nonneg q). lia. }
  by rewrite Hlt.
Qed.

Lemma frame_nonempty f m : frame f m -> f <> [].
Proof. by intros (? & ? & ? & ? & ? & ? & ? & -> & _). Qed.

(** Cut a prefix of a concatenation at a piece. *)
Lemma app_cut {A} (b rest f x : list A) :
  b ++ rest = f ++ x ->
  (exists b', b = f ++ b' /\ b' ++ rest = x) \/ (exists q, q <> [] /\ f = b ++ q).
Proof.
  intros E. destruct (decide (length f <= length b)%nat) as [Hl|Hl].
  - left. assert (Hf : take (length f) b = f).
    { pose proof (f_equal (take (length f)) E) as E'.
      rewrite take_app_le, take_app_length in E' by lia. done. }
    exists (drop (length f) b). split; [by rewrite <-Hf at 1; rewrite take_drop|].
    apply (app_inv_head f). rewrite <-E, app_assoc. f_equal. by rewrite <-Hf at 1; rewrite take_drop.
  - right. exists (drop (length b) f). split.
    + intros H. apply (f_equal length) in H. rewrite length_drop in H. simpl in H. lia.
    + pose proof (f_equal (take (length b)) E) as E'.
      rewrite take_app_length, take_app_le in E' by lia. rewrite E' at 1. by rewrite take_drop.
Qed.

Definition frames_ok (fs : list (bytes * message)) : Prop := Forall (fun p => frame p.1 p.2) fs.
Definition delivered (ms : list message) (fs : list (bytes * message)) : Prop :=
  Forall2 (fun m p => message_eq m p.2 = true) ms fs.
(** The buffer between two reads: less than the next frame. *)
Definition pending (b : bytes) (fs : list (bytes * message)) : Prop :=
  match fs with [] => True | (f, _) :: _ => blen b < blen f end.

Lemma read_loop_stream fs : forall fuel b rest msgs,
  frames_ok fs -> b ++ rest = mjoin (fst <$> fs) -> (length fs < fuel)%nat ->
  exists fs1 fs2 b' ms, fs = fs1 ++ fs2 /\ b' ++ rest = mjoin (fst <$> fs2) /\
    read_loop fuel b msgs = Some (ReadOk, b', msgs ++ ms) /\ delivered ms fs1 /\ pending b' fs2.
Proof.
  induction fs as [|[f m] fs IH]; intros fuel b rest msgs Hok E Hf.
  - apply app_eq_nil in E as [-> ->]. destruct fuel; [simpl in Hf; lia|].
    exists [], [], [], []. simpl. rewrite app_nil_r. repeat split; constructor.
  - apply Forall_cons in Hok as [Hfr Hok]. simpl in Hfr.
    destruct fuel as [|fuel]; [simpl in Hf; lia|]. simpl in Hf.
    change (mjoin (fst <$> (f, m) :: fs)) with (f ++ mjoin (fst <$> fs)) in E.
    destruct (app_cut _ _ _ _ E) as [(b1 & -> & E1)|(q & Hq & Ef)].
    + destruct (read_loop_frame fuel f m b1 msgs Hfr) as (m' & Eq & Er).
      destruct (IH fuel b1 rest (msgs ++ [m']) Hok E1) as (fs1 & fs2 & b' & ms & -> & E2 & El & Hd & Hp); [lia|].
      exists ((f, m) :: fs1), fs2, b', (m' :: ms). rewrite Er, El, <-app_assoc.
      split; [done|]. split; [done|]. split; [done|]. split; [by constructor|done].
    + exists [], ((f, m) :: fs), b, []. rewrite (read_loop_partial fuel f m b q msgs Hfr Ef Hq), app_nil_r.
      split; [done|]. split; [done|]. split; [done|]. split; [constructor|].
      simpl. rewrite Ef, blen_app. destruct q; [done|]. rewrite blen_cons. pose proof (blen_nonneg q). lia.
Qed.

Lemma conn_reads_stream ds : forall fuel b fs,
  Forall (fun d => d <> []) ds -> frames_ok fs -> pending b fs ->
  b ++ mjoin ds = mjoin (fst <$> fs) -> (length fs < fuel)%nat ->
  exists ms, conn_reads fuel b ds = Some (ReadOk, [], ms) /\ delivered ms fs.
Proof.
  induction ds as [|d ds IH]; intros fuel b fs Hd Hok Hp E Hf.
  - cbn [mjoin list_join] in E. rewrite app_nil_r in E. destruct fs as [|[f m] fs].
    + simpl in E. subst. exists []. split; [done|constructor].
    + exfalso. simpl in Hp. change (mjoin (fst <$> (f, m) :: fs)) with (f ++ mjoin (fst <$> fs)) in E.
      rewrite E, blen_app in Hp. pose proof (blen_nonneg (mjoin (fst <$> fs))). lia.
  - apply Forall_cons in Hd as [Hd Hds].
    change (mjoin (d :: ds)) with (d ++ mjoin ds) in E. rewrite app_assoc in E.
    destruct (read_loop_stream fs fuel (b ++ d) (mjoin ds) [] Hok E Hf)
      as (fs1 & fs2 & b' & ms & -> & E2 & El & Hdl & Hp').
    apply Forall_app in Hok as [Hok1 Hok2].
    destruct (IH fuel b' fs2 Hds Hok2 Hp' E2) as (ms' & Er & Hdl'); [rewrite length_app in Hf; lia|].
    exists (ms ++ ms'). split; [|by apply Forall2_app].
    cbn [conn_reads]. unfold conn_read. destruct d as [|c d]; [done|].
    rewrite El. cbn [app]. by rewrite Er.
Qed.

Lemma send_all_frames ms : forall s,
  Forall (fun m => message_wf m /\ version (message_header m) = OFP_VERSION /\ message_ty m < 21) ms ->
  xid_ok s ->
  exists out s', send_all ms s = (Ok out, s') /\ xid_ok s' /\ frames_ok out /\ length out = length ms.
Proof.
  induction ms as [|m ms IH]; intros s Hms Hs; [by exists [], s; repeat split; try apply Hs; constructor|].
  apply Forall_cons in Hms as [(Hm & Hv & Ht) Hms].
  destruct (message_frame m s Hm Hs Hv Ht) as (f & m' & s1 & E & Hs1 & Hf).
  destruct (IH s1 Hms Hs1) as (out & s2 & Eo & Hs2 & Hok & Hl).
  exists ((f, m') :: out), s2. cbn [send_all]. rewrite M_bind_unfold, E.
  cbn [need]. rewrite M_bind_lift_Ok, M_bind_unfold, Eo.
  split; [done|]. split; [done|]. split; [by constructor|simpl; lia].
Qed.

(** ** Examples *)

(** A flow modification that forwards web traffic out of port 2, and a ping. *)
Definition example_flow_mod : ofp_flow_mod :=
  mk_ofp_flow_mod (new_header OFPT_FLOW_MOD) http_match 0x1234 OFPFC_ADD 10 30 OFP_DEFAULT_PRIORITY (-1)
    OFPP_NONE OFPFF_SEND_FLOW_REM example_actions.
Definition example_messages : list message :=
  [MHello new_hello; MFeaturesRequest new_features_request; MFlowMod example_flow_mod;
   MBarrierRequest new_barrier_request].

Definition sendable (m : message) : Prop :=
  message_wf m /\ version (message_header m) = OFP_VERSION /\ message_ty m < 21.

Lemma header_sendable t : 0 <= t < 21 -> header_wf t (new_header t).
Proof. intros Ht. split; [done|]. split; [lia|]. by split. Qed.
Lemma flow_mod_pack_keeps a x o m x' :
  message_pack (MFlowMod a) true x = (Ok (o, m), x') -> exists h, m = MFlowMod (mk_ofp_flow_mod h (fm_match a)
    (fm_cookie a) (fm_command a) (fm_idle_timeout a) (fm_hard_timeout a) (fm_priority a) (fm_buffer_id a) (fm_out_port a)
    (fm_flags a) (map action_after (fm_actions a))).
Proof.
  cbn [message_pack]. unfold pack_as, flow_mod_pack. rewrite !M_bind_unfold.
  destruct (pack_with _ _ _) as [[[p h]|] y]; [|done]. intros [= <- <- <-]. by exists h.
Qed.

(** Evaluate the conjuncts of a closed well-formedness statement. *)
Ltac wf_closed := repeat split; vm_compute; try done; intros; discriminate.

Lemma example_flow_mod_wf : flow_mod_wf example_flow_mod.
Proof.
  unfold flow_mod_wf. split; [wf_closed|]. split; [wf_closed|]. split; [exact match_wf_http|].
  do 8 (split; [wf_closed|]). exact example_actions_wf.
Qed.

Lemma example_messages_sendable : Forall sendable example_messages.
Proof.
  unfold example_messages. repeat apply Forall_cons_2; [..|apply Forall_nil_2].
  all: split; [|by split]; first [exact example_flow_mod_wf | wf_closed].
Qed.

(** ** Properties of the stream *)

(** C12: whatever the chunks in which the bytes of well-formed messages sent
    over a connection arrive, [read] accepts every chunk, delivers equal
    messages in the order they were sent, once each, and leaves nothing in the
    buffer. *)
Theorem read_stream (ms : list message) (s : Z) (Hms : Forall sendable ms) (Hs : xid_ok s) :
  exists out s', send_all ms s = (Ok out, s') /\ length out = length ms /\
    forall ds, Forall (fun d => d <> []) ds -> mjoin ds = mjoin (fst <$> out) ->
      exists ms', conn_reads (S (length ms)) [] ds = Some (ReadOk, [], ms') /\ delivered ms' out.
Proof.
  destruct (send_all_frames ms s Hms Hs) as (out & s' & E & _ & Hok & Hl).
  exists out, s'. split; [done|]. split; [done|]. intros ds Hds Ej.
  apply conn_reads_stream; [done|done| |done|lia].
  destruct out as [|[f m] out]; [done|]. simpl. apply Forall_cons in Hok as [Hf _].
  apply frame_nonempty in Hf. simpl in Hf. destruct f; [done|]. rewrite blen_cons, blen_nil.
  pose proof (blen_nonneg f). lia.
Qed.

(** The stream of the example messages, one byte at a time. *)
Lemma read_stream_witness :
  Forall sendable example_messages /\ xid_ok 1 /\
  exists out s', send_all example_messages 1 = (Ok out, s') /\
    exists ms', conn_reads 5 [] ((fun b => [b]) <$> mjoin (fst <$> out)) = Some (ReadOk, [], ms') /\
      delivered ms' out.
Proof.
  split; [exact example_messages_sendable|]. split; [wf_closed|].
  destruct (read_stream example_messages 1 example_messages_sendable) as (out & s' & E & _ & Hr);
    [wf_closed|].
  exists out, s'. split; [done|].
  destruct (Hr ((fun b => [b]) <$> mjoin (fst <$> out))) as (ms' & Er & Hd).
  - apply Forall_fmap, Forall_true. done.
  - generalize (mjoin (fst <$> out)) as l. induction l as [|b l IH]; [done|]. cbn [fmap list_fmap mjoin list_join].
    cbn [app]. f_equal. exact IH.
  - by exists ms'.
Defined.



(** A header that announces length 0 stops nothing and consumes nothing:
    [read] delivers the same greeting for ever and never returns, whatever
    follows in the buffer. *)
Theorem read_loop_zero_length (fuel : nat) (c : byte) (rest : bytes) (msgs : list message) :
  read_loop fuel (x01 :: x00 :: x00 :: x00 :: c :: rest) msgs = None.
Proof.
  revert msgs. induction fuel as [|fuel IH]; intros msgs; [done|].
  set (buf := x01 :: x00 :: x00 :: x00 :: c :: rest) in *.
  assert (Hu : exists m, message_unpack (MHello new_hello) buf = Ok (MHello m, pyfrom buf 8)
                 \/ message_unpack (MHello new_hello) buf = Ok (MHello m, buf)).
  { unfold message_unpack, hello_unpack, header_unpack, unpack_as. rewrite pyfrom_0.
    destruct (Z.ltb_spec (blen buf) 8); [eexists; by right|].
    unfold unpack_from. change (Z.of_nat (calcsize _)) with 8. rewrite Z.sub_0_r.
    destruct (Z.leb_spec 8 (blen buf)); [|lia]. destruct (decode _ _) as (v & t & l & x & u).
    eexists. by left. }
  unfold buf at 1. cbn [read_loop].
  change (byte_to_Z x01 =? OFP_VERSION) with true. change (Z.lor (Z.shiftl (byte_to_Z x00) 8) (byte_to_Z x00)) with 0.
  cbn [negb]. fold buf. destruct (Z.ltb_spec (blen buf) 0); [pose proof (blen_nonneg buf); lia|].
  change (message_of_type (byte_to_Z x00)) with (Some (MHello new_hello)). cbv iota.
  destruct Hu as (m & [-> | ->]); rewrite pyfrom_0; apply IH.
Qed.

(** The table of classes ends before the highest type: a complete message
    of type 21 (queue configuration reply) or above raises [IndexError] out of
    [read], delivers nothing, and stays at the front of the buffer, so that
    every later read of the connection raises it again. *)
Theorem read_loop_unknown_type (fuel : nat) (t l1 l2 c : byte) (rest d : bytes) (msgs : list message)
    (Ht : 21 <= byte_to_Z t)
    (Hl : byte_to_Z l1 * 256 + byte_to_Z l2 <= 5 + blen rest) :
  let buf := x01 :: t :: l1 :: l2 :: c :: rest in
  read_loop (S fuel) buf msgs = Some (ReadRaise IndexError, buf, msgs) /\
  read_loop (S fuel) (buf ++ d) [] = Some (ReadRaise IndexError, buf ++ d, []).
Proof.
  assert (Hn : message_of_type (byte_to_Z t) = None).
  { unfold message_of_type. apply lookup_ge_None_2. change (length classes) with 21%nat. lia. }
  assert (Hg : forall r m, blen rest <= blen r ->
    read_loop (S fuel) (x01 :: t :: l1 :: l2 :: c :: r) m
    = Some (ReadRaise IndexError, x01 :: t :: l1 :: l2 :: c :: r, m)).
  { intros r m Hr. cbn [read_loop]. change (byte_to_Z x01 =? OFP_VERSION) with true. cbn [negb].
    pose proof (byte_to_Z_range l1). rewrite lor_shift8; [|lia|apply byte_to_Z_range].
    destruct (Z.ltb_spec (blen (x01 :: t :: l1 :: l2 :: c :: r)) (byte_to_Z l1 * 256 + byte_to_Z l2)) as [Hlt|_].
    - rewrite !blen_cons in Hlt. lia.
    - by rewrite Hn. }
  split; [by apply Hg|]. apply (Hg (rest ++ d)). rewrite blen_app. pose proof (blen_nonneg d). lia.
Qed.

Lemma read_loop_unknown_type_witness :
  read_loop 1 [x01; x15; x00; x10; x00; x00; x00; x05; x00; x00; x00; x00; x00; x00; x00; x00] []
  = Some (ReadRaise IndexError, [x01; x15; x00; x10; x00; x00; x00; x05; x00; x00; x00; x00; x00; x00; x00; x00], []).
Proof.
  refine (proj1 (read_loop_unknown_type 0 x15 x00 x10 x00
    [x00; x00; x05; x00; x00; x00; x00; x00; x00; x00; x00] [] [] _ _)); vm_compute; congruence.
Defined.

(** The trace of the capture socket is exactly the list of frames that were
    received, each written once and whole. *)
Theorem capture_loop_frames (fs : list (bytes * message)) (out : list bytes) (Hok : frames_ok fs) :
  capture_loop (S (length fs)) (mjoin (fst <$> fs)) out = Some (true, [], out ++ (fst <$> fs)).
Proof.
  revert out. induction Hok as [|[f m] fs Hf Hok IH]; intros out; [by rewrite app_nil_r|].
  change (mjoin (fst <$> (f, m) :: fs)) with (f ++ mjoin (fst <$> fs)). simpl length.
  destruct Hf as (b0 & b1 & b2 & b3 & b4 & t & m0 & Ef & H0 & _ & Hl & _). simpl in Ef, Hl.
  set (r := mjoin (fst <$> fs)) in *. remember (S (length fs)) as fuel.
  assert (Hb : (blen (f ++ r) <? blen f) = false)
    by (apply Z.ltb_ge; rewrite blen_app; pose proof (blen_nonneg r); lia).
  assert (Hd : pyfrom (f ++ r) (blen f) = r) by (by apply pyfrom_app).
  assert (Hu : pyupto (f ++ r) (blen f) = f) by (by apply pyslice_here).
  rewrite Ef in Hb, Hd, Hu, Hl |- *. cbn [capture_loop app] in *. rewrite H0, Hl.
  change (negb (OFP_VERSION =? OFP_VERSION)) with false. cbv iota.
  rewrite Hb, Hd, Hu. rewrite (IH (out ++ [b0 :: b1 :: b2 :: b3 :: b4 :: t])).
  rewrite <-app_assoc. done.
Qed.

(** The frames of the example messages, in the trace. *)
Lemma capture_loop_frames_witness :
  exists out s', send_all example_messages 1 = (Ok out, s') /\ frames_ok out /\
    capture_loop (S (length out)) (mjoin (fst <$> out)) [] = Some (true, [], [] ++ (fst <$> out)).
Proof.
  destruct (send_all_frames example_messages 1 example_messages_sendable) as (out & s' & E & _ & Hok & _);
    [wf_closed|].
  exists out, s'. split; [exact E|]. split; [exact Hok|]. exact (capture_loop_frames out [] Hok).
Defined.

(** ** Echoes *)

Definition echo_header (v t l x : Z) : ofp_header := mk_header v t l (Some x).
Definition echo_bytes (v t l x : Z) (body : bytes) : bytes := header_bytes (echo_header v t l x) x ++ body.

Lemma header_pack_given v t l x s :
  uint_ok 1 v -> 0 <= t <= 21 -> uint_ok 2 l -> uint_ok 4 x ->
  header_pack (echo_header v t l x) s = (Ok (header_bytes (echo_header v t l x) x, echo_header v t l x), s) /\
  packable [cB; cB; cH; cL] (header_vals (echo_header v t l x) x).
Proof.
  intros Hv Ht Hl Hx.
  assert (Hp : packable [cB; cB; cH; cL] (header_vals (echo_header v t l x) x)).
  { unfold header_vals, echo_header. cbn [packable fst snd version header_type h_length xid].
    split_and!; try done. unfold uint_ok. change (256 ^ Z.of_nat 1) with 256. lia. }
  split; [|done]. unfold header_pack.
  assert (header_assert (echo_header v t l x) = true) as -> by (unfold header_assert; cbn; lia).
  fold (header_vals (echo_header v t l x) x).
  rewrite M_bind_unfold. change (xid (echo_header v t l x)) with (Some x). cbv iota.
  cbn [mret M_ret guard_ok]. rewrite M_bind_lift_Ok, M_bind_unfold. unfold lift.
  change (version _, _) with (header_vals (echo_header v t l x) x).
  by rewrite (pack_ok _ _ Hp).
Qed.

Lemma echo_unpack_ok a0 v t l x body r :
  packable [cB; cB; cH; cL] (header_vals (echo_header v t l x) x) -> 8 <= l <= 8 + blen body ->
  echo_unpack a0 (echo_bytes v t l x body ++ r)
  = Ok (mk_ofp_echo (echo_header v t l x) (pyupto body (l - 8)), pyfrom (body ++ r) (l - 8)).
Proof.
  intros Hp Hl. unfold echo_unpack, echo_bytes.
  assert (Hh : blen (header_bytes (echo_header v t l x) x) = 8)
    by apply header_bytes_blen.
  pose proof (blen_nonneg body). pose proof (blen_nonneg r).
  rewrite !blen_app, Hh. destruct (Z.ltb_spec (8 + blen body + blen r) 8); [lia|].
  rewrite <-!app_assoc. rd_header. cbn [with_xid echo_header version header_type h_length xid].
  destruct (Z.ltb_spec (8 + blen body + blen r) l); [lia|].
  replace (8 + (l - 8)) with l by lia.
  rewrite pyslice_skip, pyfrom_skip, Hh by lia. replace (8 - 8) with 0 by lia.
  unfold pyupto. rewrite !pyslice_pos by lia. rewrite !drop_0.
  rewrite take_app_le; [done|]. unfold blen in *. lia.
Qed.

(** The answer to an echo request carries the bytes of the request, with
    only the type changed, and draws no transaction id. *)
Theorem echo_answer (v x s : Z) (body : bytes)
    (Hv : uint_ok 1 v) (Hx : uint_ok 4 x) (Hl : uint_ok 2 (8 + blen body)) :
  exists m, echo_unpack new_echo_request (echo_bytes v OFPT_ECHO_REQUEST (8 + blen body) x body) = Ok (m, []) /\
    exists m', handle_echo_request m s
      = (Ok (Some (echo_bytes v OFPT_ECHO_REPLY (8 + blen body) x body), m'), s).
Proof.
  pose proof (blen_nonneg body).
  destruct (header_pack_given v OFPT_ECHO_REQUEST _ x s Hv ltac:(done) Hl Hx) as [_ Hp].
  pose proof (echo_unpack_ok new_echo_request _ _ _ _ body [] Hp ltac:(lia)) as Eu.
  rewrite !app_nil_r in Eu. replace (8 + blen body - 8) with (blen body) in Eu by lia.
  unfold pyupto in Eu. rewrite pyslice_all, pyfrom_ge in Eu by lia.
  eexists. split; [exact Eu|]. eexists. unfold handle_echo_request, echo_pack, pack_with.
  cbn [ec_hdr ec_body echo_header version h_length xid].
  fold (echo_header v OFPT_ECHO_REPLY (8 + blen body) x).
  destruct (header_pack_given v OFPT_ECHO_REPLY _ x s Hv ltac:(done) Hl Hx) as [E _].
  rewrite M_bind_unfold, M_bind_unfold, E. reflexivity.
Qed.

Lemma echo_answer_witness :
  exists m, echo_unpack new_echo_request (echo_bytes 1 2 12 77 (str "ping")) = Ok (m, []) /\
    exists m', handle_echo_request m 5 = (Ok (Some (echo_bytes 1 3 12 77 (str "ping")), m'), 5).
Proof. apply (echo_answer 1 77 5 (str "ping")); vm_compute; split; congruence. Defined.

(** An echo request built with a body announces only its header, because
    [pack] does not update the length: the reader takes an empty echo and then
    parses the body as the start of the next message. *)
Theorem echo_stale_length (body : bytes) (s : Z) (Hs : xid_ok s) :
  exists bs m' s', echo_pack (mk_ofp_echo (new_header OFPT_ECHO_REQUEST) body) true s = (Ok (Some bs, m'), s') /\
    blen bs = 8 + blen body /\
    forall fuel msgs, read_loop (S fuel) bs msgs
      = read_loop fuel body (msgs ++ [MEchoRequest (mk_ofp_echo (echo_header OFP_VERSION OFPT_ECHO_REQUEST 8 s) [])]).
Proof.
  pose proof (blen_nonneg body).
  assert (Hx : uint_ok 4 s).
  { unfold xid_ok, MAX_XID, uint_ok in *. change (256 ^ Z.of_nat 4) with 4294967296. lia. }
  destruct (header_pack_given OFP_VERSION OFPT_ECHO_REQUEST 8 s 0) as [_ Hp]; try done.
  set (h := echo_header OFP_VERSION OFPT_ECHO_REQUEST 8 s) in *.
  pose proof (header_bytes_blen h s) as Hh.
  exists (header_bytes h s ++ body). do 2 eexists. split.
  { unfold echo_pack, pack_with, header_pack. cbn [ec_hdr ec_body new_header xid].
    rewrite !M_bind_unfold. cbn [generateXID]. cbn [lift guard_ok]. rewrite !M_bind_unfold. cbn [lift guard_ok].
    change (version _, _) with (header_vals h s). rewrite (pack_ok _ _ Hp). reflexivity. }
  split; [by rewrite blen_app, Hh|]. intros fuel msgs.
  destruct (header_bytes_front h s Hp) as (b0 & b1 & b2 & b3 & b4 & t & Eb & H0 & H1 & H23).
  pose proof (echo_unpack_ok new_echo_request _ _ _ _ body [] Hp ltac:(cbn; lia)) as Eu.
  unfold echo_bytes in Eu. fold h in Eu. rewrite !app_nil_r in Eu. change (8 - 8) with 0 in Eu. rewrite pyfrom_0 in Eu.
  assert (Hlt : (blen (header_bytes h s ++ body) <? 8) = false) by (rewrite blen_app, Hh; apply Z.ltb_ge; lia).
  assert (Hd : pyfrom (header_bytes h s ++ body) 8 = body) by (by apply pyfrom_app).
  rewrite Eb in *. cbn [app] in *. cbn [read_loop]. rewrite H0, H1, H23.
  change (negb _) with false. cbv iota. change (h_length h) with 8. rewrite Hlt, Hd.
  change (message_of_type (header_type h)) with (Some (MEchoRequest new_echo_request)). cbv iota.
  cbn [message_unpack]. rewrite Eu. unfold pyupto. rewrite pyslice_pos by lia. done.
Qed.

Lemma echo_stale_length_witness :
  xid_ok 1 /\
  exists bs m' s', echo_pack (mk_ofp_echo (new_header OFPT_ECHO_REQUEST) (str "ping")) true 1
    = (Ok (Some bs, m'), s') /\ blen bs = 12.
Proof.
  split; [wf_closed|]. destruct (echo_stale_length (str "ping") 1) as (bs & m' & s' & E & Hb & _); [wf_closed|].
  by exists bs, m', s'.
Defined.

(** ** Statistics *)

Lemma process_stats_body_total {A} `{WireStruct A} (init : A) : forall fuel body r,
  (length body < fuel)%nat -> exists o, process_stats_body fuel init body r = Some o.
Proof.
  induction fuel as [|fuel IH]; intros body r Hf; [lia|]. cbn [process_stats_body].
  destruct body as [|b body]; [by eexists|].
  destruct (ws_unpack init (b :: body)) as [[obj body']|e]; [|by eexists].
  destruct (Z.ltb_spec (blen body') (blen (b :: body))); [|by eexists].
  apply IH. unfold blen in *. lia.
Qed.

Lemma process_stats_body_list {A} `{HL : WireLaws A} (init : A) (l : list A) : forall fuel bs r,
  Forall ws_wf l -> Forall (ws_fresh init) l -> Forall (fun a => 0 < ws_len a) l ->
  pack_all l true = Ok bs -> (length bs < fuel)%nat ->
  exists l', process_stats_body fuel init bs r = Some (Ok (r ++ l')) /\ eq_all l' (map ws_after l) = true.
Proof.
  induction l as [|a l IH]; intros fuel bs r Hw Hf Hp E Hl.
  - injection E as <-. destruct fuel; [lia|]. exists []. by rewrite app_nil_r.
  - apply Forall_cons in Hw as [Ha Hw]. apply Forall_cons in Hf as [Hfa Hf]. apply Forall_cons in Hp as [Hpa Hp].
    destruct (ws_law a Ha) as (h & Eh & Hh & Hr). cbn [pack_all] in E. rewrite Eh in E.
    cbn [mbind result_bind concat_pack need] in E.
    destruct (pack_all l true) as [t|e] eqn:Et; [|discriminate]. injection E as <-.
    destruct (Hr init t Hfa) as (a' & Eu & Eq). destruct fuel as [|fuel]; [lia|]. cbn [process_stats_body].
    destruct h as [|b h]; [rewrite blen_nil in Hh; lia|]. cbn [app] in *. rewrite Eu.
    destruct (Z.ltb_spec (blen t) (blen (b :: h ++ t))) as [_|Hn];
      [|rewrite blen_cons, blen_app in Hn; pose proof (blen_nonneg h); lia].
    simpl in Hl. rewrite length_app in Hl.
    destruct (IH fuel t (r ++ [a'])) as (l' & El & Eql); [done|done|done|done|lia|].
    exists (a' :: l'). rewrite El, <-app_assoc. split; [done|]. cbn. by rewrite Eq.
Qed.

(** The statistics handlers return the structures of all the parts of a
    reply, in order and in one list, and the parser of a part always ends: on
    any body it returns a list or raises. *)
Theorem handle_stats_parts_spec {A} `{HL : WireLaws A} (init : A) (parts : list (list A))
    (Hw : Forall (Forall (fun a => ws_wf a /\ ws_fresh init a /\ 0 < ws_len a)) parts) :
  (exists bodies ls, Forall2 (fun l b => pack_all l true = Ok b) parts bodies /\
     handle_stats_parts init bodies = Some (Ok ls) /\ eq_all ls (map ws_after (mjoin parts)) = true) /\
  (forall body r, exists o, process_stats_body (S (length body)) init body r = Some o).
Proof.
  split; [|intros; apply process_stats_body_total; lia].
  induction Hw as [|l parts Hl _ (bodies & ls & Hp & Eh & Eq)]; [by exists [], []; repeat split; constructor|].
  rewrite !Forall_and in Hl. destruct Hl as (Hwl & Hfl & Hpl).
  destruct (pack_all_ok l Hwl) as (bs & E & _).
  destruct (process_stats_body_list init l (S (length bs)) bs [] Hwl Hfl Hpl E) as (l' & El & Eql); [lia|].
  exists (bs :: bodies), (l' ++ ls). split; [by constructor|]. cbn [handle_stats_parts].
  rewrite El, Eh. split; [done|]. change (mjoin (l :: parts)) with (l ++ mjoin parts). rewrite map_app.
  clear -Eq Eql. revert l' Eql. induction (map ws_after l) as [|x m IH]; intros [|y l']; cbn; try done.
  intros [-> ?]%andb_true_iff. by rewrite IH.
Qed.

Definition example_queue_stats : ofp_queue_stats := mk_ofp_queue_stats 3 7 1500 12 0.

Lemma handle_stats_parts_spec_witness :
  exists bodies ls, handle_stats_parts new_queue_stats bodies = Some (Ok ls) /\
    eq_all ls [example_queue_stats; example_queue_stats; example_queue_stats] = true.
Proof.
  destruct (handle_stats_parts_spec new_queue_stats
    [[example_queue_stats; example_queue_stats]; [example_queue_stats]]) as [(bodies & ls & _ & E & Eq) _].
  - repeat constructor; wf_closed.
  - by exists bodies, ls.
Defined.

(** The parts of one reply: same transaction and type, [more] on all but the
    last. *)
Definition part_of (p0 p : ofp_stats_reply) : Prop :=
  xid (srp_hdr p) = xid (srp_hdr p0) /\ srp_type p = srp_type p0.
Definition has_more (p : ofp_stats_reply) : bool := negb (Z.land (srp_flags p) 1 =? 0).

Lemma incoming_more p0 acc p :
  srp_type p0 ∈ [1; 3; 4; 5] -> (acc = [] \/ head acc = Some p0) -> part_of p0 p -> has_more p = true ->
  incoming_stats_reply acc p = (Ok None, acc ++ [p]).
Proof.
  unfold incoming_stats_reply, has_more, part_of. intros Ht Hacc [Hx Hy] ->.
  rewrite Hy, bool_decide_eq_true_2 by done. cbn [andb negb].
  destruct acc as [|a acc]; [done|]. destruct Hacc as [?|[= ->]]; [done|].
  by rewrite Hx, bool_decide_eq_true_2, Z.eqb_refl.
Qed.

Lemma incoming_last p0 acc p :
  stats_known (srp_type p0) = true -> (acc = [] /\ p = p0 \/ head acc = Some p0) -> part_of p0 p -> has_more p = false ->
  incoming_stats_reply acc p = (Ok (Some (acc ++ [p])), []).
Proof.
  unfold incoming_stats_reply, has_more, part_of. intros Ht Hacc [Hx Hy] ->. cbn [andb].
  destruct acc as [|a acc]; [destruct Hacc as [[_ ->]|?]; [by rewrite Ht|done]|].
  destruct Hacc as [[? _]|[= ->]]; [done|].
  rewrite Hx, bool_decide_eq_true_2, Hy, Z.eqb_refl by done. cbn [andb app]. by rewrite Ht.
Qed.

(** The parts of a statistics reply that arrive in order, with nothing in
    between, are handed to the handler together, in order, when the last one
    arrives and not before; nothing is remembered afterwards. *)
Theorem incoming_all_assembles (parts : list ofp_stats_reply) (p0 last : ofp_stats_reply)
    (Ht : srp_type p0 ∈ [1; 3; 4; 5]) (Hhd : head (parts ++ [last]) = Some p0)
    (Hp : Forall (fun p => part_of p0 p /\ has_more p = true) parts)
    (Hl : part_of p0 last) (Hm : has_more last = false) :
  incoming_all [] (parts ++ [last])
  = (replicate (length parts) (Ok None) ++ [Ok (Some (parts ++ [last]))], []).
Proof.
  assert (Hk : stats_known (srp_type p0) = true).
  { repeat (apply elem_of_cons in Ht as [-> | Ht]; [done|]). by apply not_elem_of_nil in Ht. }
  assert (G : forall qs acc, acc ++ qs = parts ->
    incoming_all acc (qs ++ [last]) = (replicate (length qs) (Ok None) ++ [Ok (Some (parts ++ [last]))], [])).
  2: { by apply G. }
  induction qs as [|q qs IH]; intros acc E.
  - rewrite app_nil_r in E. subst acc. cbn [app incoming_all replicate length].
    rewrite (incoming_last p0); [done|done| |done|done].
    destruct parts as [|a parts]; [left|by right]. by injection Hhd as ->.
  - assert (Hq : part_of p0 q /\ has_more q = true).
    { rewrite Forall_forall in Hp. apply Hp. rewrite <-E. apply elem_of_app. right. apply list_elem_of_here. }
    cbn [app incoming_all replicate length].
    rewrite (incoming_more p0); [|done| |apply Hq|apply Hq].
    + rewrite (IH (acc ++ [q])); [done|]. by rewrite <-app_assoc.
    + destruct acc as [|a acc]; [by left|right]. rewrite <-E in Hhd. by injection Hhd as ->.
Qed.

Definition example_stats_part (fl : Z) : ofp_stats_reply :=
  mk_ofp_stats_reply (with_xid (new_header OFPT_STATS_REPLY) 9) 5 fl (SBytes (zeros 32)).

Lemma incoming_all_assembles_witness :
  incoming_all [] [example_stats_part 1; example_stats_part 1; example_stats_part 0]
  = ([Ok None; Ok None; Ok (Some [example_stats_part 1; example_stats_part 1; example_stats_part 0])], []).
Proof.
  apply (incoming_all_assembles [example_stats_part 1; example_stats_part 1] (example_stats_part 1) (example_stats_part 0)).
  - set_solver.
  - reflexivity.
  - repeat constructor.
  - by split.
  - reflexivity.
Defined.

(** When a part is missing its end (the switch never sent it), every later
    reply of another request raises [AttributeError], because the error branch
    names a field that does not exist; nothing is delivered and the stale parts
    are kept, so the connection never assembles statistics again. *)
Theorem incoming_all_wedged (l : list ofp_stats_reply) (p0 : ofp_stats_reply) (prev : list ofp_stats_reply)
    (Hl : Forall (fun p => xid (srp_hdr p) <> xid (srp_hdr p0) /\
                           (has_more p = true -> srp_type p ∈ [1; 3; 4; 5])) l) :
  incoming_all (p0 :: prev) l = (replicate (length l) (Err AttributeError), p0 :: prev).
Proof.
  induction Hl as [|p l [Hx Hm] _ IH]; [done|]. cbn [incoming_all replicate length].
  assert (E : incoming_stats_reply (p0 :: prev) p = (Err AttributeError, p0 :: prev)).
  { unfold incoming_stats_reply. fold (has_more p).
    rewrite (bool_decide_eq_false_2 (xid (srp_hdr p) = xid (srp_hdr p0))) by done. cbn [andb].
    destruct (has_more p) eqn:E; [|done]. rewrite bool_decide_eq_true_2 by auto. done. }
  by rewrite E, IH.
Qed.

Lemma incoming_all_wedged_witness :
  incoming_all [example_stats_part 1] [new_stats_reply; new_stats_reply]
  = ([Err AttributeError; Err AttributeError], [example_stats_part 1]).
Proof.
  apply (incoming_all_wedged [new_stats_reply; new_stats_reply] (example_stats_part 1) []).
  repeat constructor; discriminate.
Defined.

(** ** Sending *)

Lemma sliceup_loop_spec (P : nat) (HP : (0 < P)%nat) : forall fuel data out,
  (length data < fuel)%nat -> exists l, sliceup_loop P fuel data out = Some (out ++ l) /\
    mjoin l = data /\ Forall (fun c => 0 < length c <= P)%nat l /\
    forall i c, l !! i = Some c -> (S i < length l)%nat -> length c = P.
Proof.
  induction fuel as [|fuel IH]; intros data out Hf; [lia|]. cbn [sliceup_loop].
  destruct (Nat.ltb_spec P (length data)) as [Hlt|Hle].
  - destruct (IH (drop P data) (out ++ [take P data])) as (l & E & Hj & Hall & Hfull).
    { rewrite length_drop. lia. }
    exists (take P data :: l). rewrite E, <-app_assoc. split; [done|].
    change (mjoin (take P data :: l)) with (take P data ++ mjoin l). rewrite Hj, take_drop.
    split; [done|]. split.
    + constructor; [rewrite length_take; lia|done].
    + intros [|i] c Hc Hi; [injection Hc as <-; rewrite length_take; lia|].
      apply (Hfull i c Hc). simpl in Hi. lia.
  - destruct (Nat.ltb_spec 0 (length data)) as [Hpos|Hz].
    + exists [data]. split; [done|]. split; [apply app_nil_r|]. split; [by repeat constructor|].
      intros i c Hc Hi. simpl in Hi. lia.
    + exists []. rewrite app_nil_r. split; [done|]. destruct data; [|simpl in Hz; lia].
      split; [done|]. split; [constructor|]. intros i c Hc. by rewrite lookup_nil in Hc.
Qed.

(** Deferred data is cut into slices that lose and reorder nothing: the
    slices concatenate to the data, none is empty or longer than [PIPE_BUF],
    and all but the last are exactly that long. *)
Theorem sliceup_spec (PIPE_BUF : nat) (data : bytes) (HP : (0 < PIPE_BUF)%nat) :
  exists l, sliceup PIPE_BUF data = Some l /\ mjoin l = data /\
    Forall (fun c => 0 < length c <= PIPE_BUF)%nat l /\
    forall i c, l !! i = Some c -> (S i < length l)%nat -> length c = PIPE_BUF.
Proof. apply (sliceup_loop_spec PIPE_BUF HP (S (length data)) data []). lia. Qed.

Lemma sliceup_spec_witness :
  exists l, sliceup 4 (str "0123456789") = Some l /\ mjoin l = str "0123456789".
Proof.
  destruct (sliceup_spec 4 (str "0123456789")) as (l & E & Hj & _); [lia|]. by exists l.
Defined.
