(* ===== verification/Connection.v ===== *)
(** * Connections of switches ([pox/openflow/of_01.py], [connection_arbiter.py],
    [pox/openflow/__init__.py])

    The controller's side: the handshake, the handlers of messages and the events
    they raise, the nexus that knows the connections by datapath, and the loop
    over sockets.  Events go to the listeners of [Revent.v]; the listeners that
    the handshake adds are closures, whose variables are cells of a store.

    Arguments of the model: the clock, whether sending on a socket fails, which
    connections the arbiter gives to the nexus, and the listeners of
    applications.  Logging is left out. *)

From S2P Require Import Prelude PyStruct Addresses Revent Codec OfpMatch OfpActions OfpStructs OfpMessages OfpVarMessages OfpStream.

(** ** Events *)

Inductive evty :=
  | ConnectionUp | ConnectionDown | PortStatus | FlowRemoved | PacketInE | ErrorIn | BarrierIn | RawStatsReply
  | SwitchDescReceived | FlowStatsReceived | AggregateFlowStatsReceived | TableStatsReceived | PortStatsReceived
  | QueueStatsReceived.

#[global] Instance evty_eq_dec : EqDecision evty.
Proof. solve_decision. Defined.

Definition all_evty : list evty :=
  [ConnectionUp; ConnectionDown; PortStatus; FlowRemoved; PacketInE; ErrorIn; BarrierIn; RawStatsReply; SwitchDescReceived;
   FlowStatsReceived; AggregateFlowStatsReceived; TableStatsReceived; PortStatsReceived; QueueStatsReceived].
Definition evty_num (e : evty) : nat :=
  match e with
  | ConnectionUp => 0 | ConnectionDown => 1 | PortStatus => 2 | FlowRemoved => 3 | PacketInE => 4 | ErrorIn => 5 | BarrierIn => 6
  | RawStatsReply => 7 | SwitchDescReceived => 8 | FlowStatsReceived => 9 | AggregateFlowStatsReceived => 10
  | TableStatsReceived => 11 | PortStatsReceived => 12 | QueueStatsReceived => 13
  end.

#[global] Instance evty_countable : Countable evty.
Proof. refine (inj_countable evty_num (fun n => all_evty !! n) _). by intros []. Defined.

Definition evty_name (e : evty) : string :=
  match e with
  | ConnectionUp => "ConnectionUp" | ConnectionDown => "ConnectionDown" | PortStatus => "PortStatus" | FlowRemoved => "FlowRemoved"
  | PacketInE => "PacketIn" | ErrorIn => "ErrorIn" | BarrierIn => "BarrierIn" | RawStatsReply => "RawStatsReply"
  | SwitchDescReceived => "SwitchDescReceived" | FlowStatsReceived => "FlowStatsReceived"
  | AggregateFlowStatsReceived => "AggregateFlowStatsReceived" | TableStatsReceived => "TableStatsReceived"
  | PortStatsReceived => "PortStatsReceived" | QueueStatsReceived => "QueueStatsReceived"
  end.

(** An event: its connection, the datapath that the connection had when it was
    made (for the types that keep it), its messages and processed statistics. *)
Record of_event := mk_event {
  oe_type : evty;
  oe_con : nat;
  oe_dpid : option Z;
  oe_ofp : list message;
  oe_stats : list stats_struct
}.
Definition oe_key (ev : of_event) : key evty := KClass (oe_type ev).
Definition has_dpid (t : evty) : bool :=
  match t with ConnectionUp | ConnectionDown | PortStatus | FlowRemoved | PacketInE | BarrierIn => true | _ => false end.
Definition new_event (t : evty) (con : nat) (dpid : option Z) (ofp : list message) (stats : list stats_struct) : of_event :=
  mk_event t con (if has_dpid t then dpid else None) ofp stats.
(** [ofp.xid]. *)
Definition oe_xid (ev : of_event) : option Z := match oe_ofp ev with [m] => xid (message_header m) | _ => None end.

(** The attributes of [PortStatus] and [FlowRemoved]. *)
Definition port_modified (m : ofp_port_status) : bool := pst_reason m =? OFPPR_MODIFY.
Definition port_added (m : ofp_port_status) : bool := pst_reason m =? OFPPR_ADD.
Definition port_deleted (m : ofp_port_status) : bool := pst_reason m =? OFPPR_DELETE.
Record removed_flags := mk_removed_flags { idleTimeout : bool; hardTimeout : bool; deleted : bool; timeout : bool }.
Definition flow_removed_flags (reason : Z) : removed_flags :=
  if reason =? OFPRR_IDLE_TIMEOUT then mk_removed_flags true false false true
  else if reason =? OFPRR_HARD_TIMEOUT then mk_removed_flags false true false true
  else if reason =? OFPRR_DELETE then mk_removed_flags false false true false
  else mk_removed_flags false false false false.

(** ** State *)

(** [finish_connecting] and [also_finish_connecting] of a handshake, or a
    listener of an application. *)
Inductive handler := FinishConnecting (h : nat) | AlsoFinish (h : nat) | App (n : nat).
#[global] Instance handler_eq_dec : EqDecision handler.
Proof. solve_decision. Defined.

(** Numbers of listeners come from a counter of each source here, where the code
    has one for all: they are only compared within a source.

    [c_nexus] tells whether [ofnexus] is the nexus or the dummy; [c_sent] are the
    bytes handed to the socket with the message they are of; [c_open] the socket. *)
Record connection := mk_connection {
  c_nexus : bool;
  c_buf : bytes;
  c_dpid : option Z;
  c_features : option ofp_features_reply;
  c_disconnected : bool;
  c_connect_time : option Z;
  c_previous_stats : list ofp_stats_reply;
  c_mixin : mixin evty handler;
  c_sent : list (bytes * message);
  c_open : bool
}.
Definition connection_events : list (key evty) := KClass <$> all_evty.
Definition new_connection : connection :=
  mk_connection false [] None None false None [] (new_mixin (Some connection_events) 0) [] true.

Definition set_nexus (x : bool) (c : connection) : connection :=
  mk_connection x (c_buf c) (c_dpid c) (c_features c) (c_disconnected c) (c_connect_time c) (c_previous_stats c) (c_mixin c) (c_sent c) (c_open c).
Definition set_buf (x : bytes) (c : connection) : connection :=
  mk_connection (c_nexus c) x (c_dpid c) (c_features c) (c_disconnected c) (c_connect_time c) (c_previous_stats c) (c_mixin c) (c_sent c) (c_open c).
Definition set_dpid (x : option Z) (c : connection) : connection :=
  mk_connection (c_nexus c) (c_buf c) x (c_features c) (c_disconnected c) (c_connect_time c) (c_previous_stats c) (c_mixin c) (c_sent c) (c_open c).
Definition set_features (x : option ofp_features_reply) (c : connection) : connection :=
  mk_connection (c_nexus c) (c_buf c) (c_dpid c) x (c_disconnected c) (c_connect_time c) (c_previous_stats c) (c_mixin c) (c_sent c) (c_open c).
Definition set_disconnected (c : connection) : connection :=
  mk_connection (c_nexus c) (c_buf c) (c_dpid c) (c_features c) true (c_connect_time c) (c_previous_stats c) (c_mixin c) (c_sent c) (c_open c).
Definition set_connect_time (x : Z) (c : connection) : connection :=
  mk_connection (c_nexus c) (c_buf c) (c_dpid c) (c_features c) (c_disconnected c) (Some x) (c_previous_stats c) (c_mixin c) (c_sent c) (c_open c).
Definition set_previous_stats (x : list ofp_stats_reply) (c : connection) : connection :=
  mk_connection (c_nexus c) (c_buf c) (c_dpid c) (c_features c) (c_disconnected c) (c_connect_time c) x (c_mixin c) (c_sent c) (c_open c).
Definition set_mixin (x : mixin evty handler) (c : connection) : connection :=
  mk_connection (c_nexus c) (c_buf c) (c_dpid c) (c_features c) (c_disconnected c) (c_connect_time c) (c_previous_stats c) x (c_sent c) (c_open c).
Definition add_sent (x : bytes * message) (c : connection) : connection :=
  mk_connection (c_nexus c) (c_buf c) (c_dpid c) (c_features c) (c_disconnected c) (c_connect_time c) (c_previous_stats c) (c_mixin c) (c_sent c ++ [x]) (c_open c).
Definition shut (c : connection) : connection :=
  mk_connection (c_nexus c) (c_buf c) (c_dpid c) (c_features c) (c_disconnected c) (c_connect_time c) (c_previous_stats c) (c_mixin c) (c_sent c) false.

(** The variables of a handshake: [con], [msg], [barrier.xid] and [listeners]. *)
Record handshake := mk_handshake {
  hs_con : nat;
  hs_msg : ofp_features_reply;
  hs_barrier : option Z;
  hs_listeners : list (@listener_ref evty handler)
}.

(** [cons] are the connections by their [ID], of which [last_ID] is the last;
    [conns] is [OpenFlowNexus._connections]; [sockets] what the task selects on,
    with [None] for the listener.  [heard] is the history of the application
    listeners called, for the statements only: nothing reads it. *)
Record world := mk_world {
  cons : gmap nat connection;
  last_ID : nat;
  handshakes : list handshake;
  conns : gmap Z nat;
  nexus : mixin evty handler;
  miss_send_len : option Z;
  clear_flows_on_connect : bool;
  xid_count : Z;
  sockets : list (option nat);
  heard : list (nat * of_event)
}.
Definition nexus_events : list (key evty) := KClass <$> filter (fun e => e <> ErrorIn) all_evty.
Definition new_world (x : Z) : world :=
  mk_world ∅ 0 [] ∅ (new_mixin (Some nexus_events) 0) (Some OFP_DEFAULT_MISS_SEND_LEN) true x [None] [].

Definition set_cons (x : gmap nat connection) (w : world) : world :=
  mk_world x (last_ID w) (handshakes w) (conns w) (nexus w) (miss_send_len w) (clear_flows_on_connect w) (xid_count w) (sockets w) (heard w).
Definition set_last_ID (x : nat) (w : world) : world :=
  mk_world (cons w) x (handshakes w) (conns w) (nexus w) (miss_send_len w) (clear_flows_on_connect w) (xid_count w) (sockets w) (heard w).
Definition set_handshakes (x : list handshake) (w : world) : world :=
  mk_world (cons w) (last_ID w) x (conns w) (nexus w) (miss_send_len w) (clear_flows_on_connect w) (xid_count w) (sockets w) (heard w).
Definition set_conns (x : gmap Z nat) (w : world) : world :=
  mk_world (cons w) (last_ID w) (handshakes w) x (nexus w) (miss_send_len w) (clear_flows_on_connect w) (xid_count w) (sockets w) (heard w).
Definition set_nexus_mixin (x : mixin evty handler) (w : world) : world :=
  mk_world (cons w) (last_ID w) (handshakes w) (conns w) x (miss_send_len w) (clear_flows_on_connect w) (xid_count w) (sockets w) (heard w).
Definition set_xid_count (x : Z) (w : world) : world :=
  mk_world (cons w) (last_ID w) (handshakes w) (conns w) (nexus w) (miss_send_len w) (clear_flows_on_connect w) x (sockets w) (heard w).
Definition set_sockets (x : list (option nat)) (w : world) : world :=
  mk_world (cons w) (last_ID w) (handshakes w) (conns w) (nexus w) (miss_send_len w) (clear_flows_on_connect w) (xid_count w) x (heard w).
Definition add_heard (x : list (nat * of_event)) (w : world) : world :=
  mk_world (cons w) (last_ID w) (handshakes w) (conns w) (nexus w) (miss_send_len w) (clear_flows_on_connect w) (xid_count w) (sockets w) (heard w ++ x).

Abbreviation N := (M world).

Definition con_of (w : world) (i : nat) : connection := default new_connection (cons w !! i).
Definition put_con (i : nat) (c : connection) (w : world) : world := set_cons (<[i := c]> (cons w)) w.
Definition change_con (i : nat) (f : connection -> connection) : N unit := modify (fun w => put_con i (f (con_of w i)) w).
Definition con_mixin (i : nat) (w : world) : mixin evty handler := c_mixin (con_of w i).
Definition set_con_mixin (i : nat) (m : mixin evty handler) (w : world) : world := put_con i (set_mixin m (con_of w i)) w.
Definition on_xids {A} (m : M Z A) : N A := fun w => let '(r, x) := m (xid_count w) in (r, set_xid_count x w).
(** Code in a [try] whose handler passes. *)
Definition attempt (m : N unit) : N unit := fun w => let '(_, w) := m w in (Ok tt, w).

(** ** Operations *)
Section connection.
Context (now : world -> Z) (fails : nat -> bytes -> world -> bool) (found : nat -> world -> bool).
Context (app : nat -> of_event -> N reply) (halted : of_event -> world -> bool) (fuel : nat).

(** Raising on the nexus and on a connection, with the listeners called by
    [inv]; the constructor of the event reads the connection. *)
Section events.
Context (inv : handler -> of_event -> N reply).

Definition make_event (t : evty) (i : nat) (ofp : list message) (stats : list stats_struct) : N of_event :=
  fun w => (Ok (new_event t i (c_dpid (con_of w i)) ofp stats), w).
Definition nexus_raise (t : evty) (i : nat) (ofp : list message) (stats : list stats_struct) : N unit :=
  _ ← no_errors (raiseEventClass nexus set_nexus_mixin oe_key inv halted fuel t (make_event t i ofp stats)); mret tt.
Definition con_raise (t : evty) (i : nat) (ofp : list message) (stats : list stats_struct) : N unit :=
  _ ← no_errors (raiseEventClass (con_mixin i) (set_con_mixin i) oe_key inv halted fuel t (make_event t i ofp stats)); mret tt.
(** [con.ofnexus.raiseEventNoErrors], which only logs on the dummy, and then
    [con.raiseEventNoErrors]. *)
Definition both_raise (t : evty) (i : nat) (ofp : list message) (stats : list stats_struct) : N unit :=
  c ← get (fun w => con_of w i);
  _ ← (if c_nexus c then nexus_raise t i ofp stats else mret tt);
  con_raise t i ofp stats.

(** [OpenFlowNexus._connect] and [_disconnect]. *)
Definition nexus_connect (i : nat) : N unit :=
  c ← get (fun w => con_of w i);
  dpid ← lift (need TypeError (c_dpid c));
  modify (fun w => set_conns (<[dpid := i]> (conns w)) w).
Definition nexus_disconnect (dpid : option Z) : N unit :=
  a ← get conns;
  dpid ← lift (need KeyError dpid);
  _ ← lift (guard_ok (bool_decide (is_Some (a !! dpid))) KeyError);
  modify (set_conns (delete dpid a)).

(** [Connection.disconnect]. *)
Definition disconnect (i : nat) : N unit :=
  _ ← change_con i set_disconnected;
  c ← get (fun w => con_of w i);
  _ ← attempt (if c_nexus c then nexus_disconnect (c_dpid c) else mret tt);
  _ ← (if c_nexus c && bool_decide (is_Some (c_dpid c))
       then _ ← raiseEventNoErrors nexus set_nexus_mixin oe_key inv halted fuel (new_event ConnectionDown i (c_dpid c) [] []); mret tt
       else mret tt);
  change_con i shut.

(** [Connection.close]. *)
Definition close (i : nat) : N unit := change_con i shut.

(** [Connection.send] of bytes, and of a message. *)
Definition send_data (i : nat) (f : bytes) (m : message) : N unit :=
  c ← get (fun w => con_of w i);
  if c_disconnected c then mret tt else
  failed ← get (fails i f);
  if failed : bool then disconnect i else change_con i (add_sent (f, m)).
Definition pack_message (m : message) : N (bytes * message) :=
  '(o, m) ← on_xids (message_pack m true);
  f ← lift (need TypeError o);
  mret (f, m).
Definition send (i : nat) (m : message) : N message :=
  c ← get (fun w => con_of w i);
  if c_disconnected c then mret m else
  '(f, m) ← pack_message m;
  _ ← send_data i f m;
  mret m.

(** [finish_connecting]. *)
Definition hs_of (w : world) (h : nat) : handshake :=
  default (mk_handshake 0 (mk_ofp_features_reply (new_header OFPT_FEATURES_REPLY) 0 0 0 0 0 []) None []) (handshakes w !! h).
Definition finish_connecting (h : nat) (ev : of_event) : N unit :=
  hs ← get (fun w => hs_of w h);
  let i := hs_con hs in
  _ ← (if bool_decide (oe_xid ev <> hs_barrier hs)
       then _ ← change_con i (set_dpid None); disconnect i
       else
         t ← get now;
         _ ← change_con i (set_connect_time t);
         both_raise ConnectionUp i [MFeaturesReply (hs_msg hs)] [] : N unit);
  _ ← (fun w => let '(r, x) := removeListeners (hs_listeners hs) (con_mixin i w) in (r, set_con_mixin i x w)) : N bool;
  mret tt.

(** [also_finish_connecting]. *)
Definition also_finish_connecting (h : nat) (ev : of_event) : N unit :=
  hs ← get (fun w => hs_of w h);
  if bool_decide (oe_xid ev <> hs_barrier hs) then mret tt else
  match oe_ofp ev with
  | [MError e] =>
      if negb (er_type e =? OFPET_BAD_REQUEST) || negb (er_code e =? OFPBRC_BAD_TYPE) then mret tt
      else finish_connecting h ev
  | _ => lift (Err AttributeError)
  end.
End events.

(** The listeners, nested to the depth [d] of events raised while others are. *)
Fixpoint invoke (d : nat) (l : handler) (ev : of_event) : N reply :=
  match l with
  | App n => _ ← modify (add_heard [(n, ev)]); app n ev
  | FinishConnecting h =>
      match d with O => lift (Err OutOfFuel) | S d => _ ← finish_connecting (invoke d) h ev; mret RNone end
  | AlsoFinish h =>
      match d with O => lift (Err OutOfFuel) | S d => _ ← also_finish_connecting (invoke d) h ev; mret RNone end
  end.

Section handlers.
Context (d : nat).
Abbreviation inv := (invoke d).

Definition listen (i : nat) (t : evty) (l : handler) : N (key evty * Z) := fun w =>
  let '(r, x) := addListener evty_name (KClass t) l false None false (con_mixin i w) in (r, set_con_mixin i x w).
Definition change_hs (h : nat) (f : handshake -> handshake) : N unit := modify (fun w => set_handshakes (alter f h (handshakes w)) w).
Definition hs_listen (h i : nat) (t : evty) (l : handler) : N unit :=
  r ← listen i t l;
  change_hs h (fun s => mk_handshake (hs_con s) (hs_msg s) (hs_barrier s) (hs_listeners s ++ [ByPair r.1 r.2])).

Definition clear_flows_message : message :=
  MFlowMod (mk_ofp_flow_mod (new_header OFPT_FLOW_MOD) new_match 0 OFPFC_DELETE 0 0 OFP_DEFAULT_PRIORITY (-1) OFPP_NONE 0 []).
Definition set_config_message (miss_send_len : Z) : message :=
  MSetConfig (mk_ofp_set_config (with_length (new_header OFPT_SET_CONFIG) 12) 0 miss_send_len).

(** [handle_FEATURES_REPLY]. *)
Definition handle_FEATURES_REPLY (i : nat) (msg : ofp_features_reply) : N unit :=
  c ← get (fun w => con_of w i);
  let connecting := bool_decide (c_connect_time c = None) in
  _ ← change_con i (fun c => set_dpid (Some (fp_datapath_id msg)) (set_features (Some msg) c));
  if negb connecting then (if c_nexus c then nexus_connect i else lift (Err AttributeError)) else
  ok ← get (found i);
  if negb ok then disconnect inv i else
  _ ← change_con i (set_nexus true);
  _ ← nexus_connect i;
  h ← get (fun w => length (handshakes w));
  _ ← modify (fun w => set_handshakes (handshakes w ++ [mk_handshake i msg None []]) w);
  _ ← hs_listen h i BarrierIn (FinishConnecting h);
  _ ← hs_listen h i ErrorIn (AlsoFinish h);
  w ← get id;
  _ ← (match miss_send_len w with
       | Some n => _ ← send inv i (set_config_message n); mret tt
       | None => mret tt
       end);
  _ ← (if clear_flows_on_connect w then _ ← send inv i clear_flows_message; mret tt else mret tt);
  b ← send inv i (MBarrierRequest new_barrier_request);
  change_hs h (fun s => mk_handshake (hs_con s) (hs_msg s) (xid (message_header b)) (hs_listeners s)).

(** The handlers of statistics replies, by type: the structures of all parts. *)
Definition body_of (m : ofp_stats_reply) : bytes := match srp_body m with SBytes b => b | _ => [] end.
Definition parts_of {A} `{WireStruct A} (wrap : A -> stats_struct) (init : A) (parts : list ofp_stats_reply)
  : result (list stats_struct) :=
  match handle_stats_parts init (body_of <$> parts) with
  | Some r => l ← r; mret (map wrap l)
  | None => Err OutOfFuel
  end.
Definition first_of {A} (wrap : A -> stats_struct) (unpack : bytes -> result (A * bytes)) (parts : list ofp_stats_reply)
  : result (list stats_struct) :=
  p ← need IndexError (head parts); '(a, _) ← unpack (body_of p); mret [wrap a].
Definition process_stats (t : Z) (parts : list ofp_stats_reply) : result (evty * list ofp_stats_reply * list stats_struct) :=
  if t =? 0 then l ← first_of SDesc (desc_stats_unpack new_desc_stats) parts; mret (SwitchDescReceived, take 1 parts, l)
  else if t =? 1 then l ← parts_of SFlow new_flow_stats parts; mret (FlowStatsReceived, parts, l)
  else if t =? 2 then
    l ← first_of SAggregate (aggregate_stats_unpack new_aggregate_stats) parts; mret (AggregateFlowStatsReceived, take 1 parts, l)
  else if t =? 3 then l ← parts_of STable new_table_stats parts; mret (TableStatsReceived, parts, l)
  else if t =? 4 then l ← parts_of SPort new_port_stats parts; mret (PortStatsReceived, parts, l)
  else l ← parts_of SQueue new_queue_stats parts; mret (QueueStatsReceived, parts, l).

(** [_incoming_stats_reply]. *)
Definition incoming_stats (i : nat) (m : ofp_stats_reply) : N unit :=
  c ← get (fun w => con_of w i);
  let '(r, prev) := incoming_stats_reply (c_previous_stats c) m in
  _ ← change_con i (set_previous_stats prev);
  o ← lift r;
  match o with
  | Some ((p :: _) as parts) =>
      '(t, ofp, stats) ← lift (process_stats (srp_type p) parts);
      both_raise inv t i (MStatsReply <$> ofp) stats
  | _ => mret tt
  end.

(** The message handlers; the others have no entry in [handlerMap]. *)
Definition handle (i : nat) (m : message) : N unit :=
  match m with
  | MHello _ => '(f, m) ← pack_message (MFeaturesRequest new_features_request); send_data inv i f m
  | MEchoRequest m =>
      '(o, m) ← on_xids (handle_echo_request m); f ← lift (need TypeError o); send_data inv i f (MEchoReply m)
  | MFlowRemoved _ => both_raise inv FlowRemoved i [m] []
  | MFeaturesReply m => handle_FEATURES_REPLY i m
  | MStatsReply s => _ ← both_raise inv RawStatsReply i [m] []; incoming_stats i s
  | MPortStatus _ => both_raise inv PortStatus i [m] []
  | MPacketIn _ => both_raise inv PacketInE i [m] []
  | MError _ => both_raise inv ErrorIn i [m] []
  | MBarrierReply _ => both_raise inv BarrierIn i [m] []
  | _ => lift (Err TypeError)
  end.

(** [Connection.read] of the bytes received: exceptions of handlers are caught. *)
Definition con_read (i : nat) (data : bytes) : N bool :=
  c ← get (fun w => con_of w i);
  match conn_read (S (length (c_buf c ++ data))) (c_buf c) data with
  | None => lift (Err OutOfFuel)
  | Some (e, buf, ms) =>
      _ ← change_con i (set_buf buf);
      _ ← for_each ms (fun m => attempt (handle i m));
      match e with ReadOk => mret true | ReadClosed => mret false | ReadRaise e => lift (Err e) end
  end.

(** [Connection.__init__] for a new socket. *)
Definition accept : N nat :=
  _ ← modify (fun w => set_last_ID (S (last_ID w)) w);
  i ← get last_ID;
  _ ← modify (put_con i new_connection);
  _ ← send inv i (MHello new_hello);
  mret i.

(** ** The task *)

(** What [select] reports: the sockets with an error, and those to read from,
    with what [recv] gives. *)
Inductive ready := RListener | RCon (i : nat) (data : result bytes).
Definition remove_socket (i : nat) : N unit := modify (fun w => set_sockets (filter (fun s => s <> Some i) (sockets w)) w).
Definition drop_con (i : nat) : N unit := _ ← close i; remove_socket i.
Definition serve (r : ready) : N unit :=
  match r with
  | RListener => i ← accept; modify (fun w => set_sockets (sockets w ++ [Some i]) w)
  | RCon i data => data ← lift data; ok ← con_read i data; if ok : bool then mret tt else drop_con i
  end.
(** One round: an exception ends it, and costs the connection it came from. *)
Fixpoint serve_all (rlist : list ready) : N bool :=
  match rlist with
  | [] => mret true
  | r :: rlist => fun w =>
      match serve r w with
      | (Ok _, w) => serve_all rlist w
      | (Err _, w) => match r with RListener => (Ok false, w) | RCon i _ => (_ ← drop_con i; mret true) w end
      end
  end.
Fixpoint drop_all (elist : list (option nat)) : N bool :=
  match elist with
  | [] => mret true
  | None :: _ => mret false
  | Some i :: elist => _ ← drop_con i; drop_all elist
  end.
Definition task_round (elist : list (option nat)) (rlist : list ready) : N bool :=
  go ← drop_all elist; if go : bool then serve_all rlist else mret false.

(** ** The nexus *)

Definition getConnection (dpid : Z) (w : world) : option nat := conns w !! dpid.
Definition sendToDPID (dpid : Z) (f : bytes) (m : message) : N bool :=
  o ← get (getConnection dpid);
  match o with Some i => _ ← send_data inv i f m; mret true | None => mret false end.
(** [_handle_DownEvent]: [order] is the order of the values of the dictionary. *)
Definition handle_DownEvent (order : gmap Z nat -> list nat) : N unit :=
  a ← get conns; for_each (order a) (fun i => attempt (disconnect inv i)).
End handlers.
End connection.

(** ** Listeners of applications *)

Lemma con_of_put i c w j : con_of (put_con i c w) j = if decide (i = j) then c else con_of w j.
Proof. unfold con_of, put_con. cbn [cons set_cons]. rewrite lookup_insert. by destruct (decide (i = j)). Qed.
Lemma con_of_same i c w : con_of (put_con i c w) i = c.
Proof. by rewrite con_of_put, decide_True. Qed.
Lemma put_put i c c' w : put_con i c (put_con i c' w) = put_con i c w.
Proof. unfold put_con, set_cons. cbn. by rewrite insert_insert_eq. Qed.
Lemma con_mixin_set i m w : con_mixin i (set_con_mixin i m w) = m.
Proof. unfold con_mixin, set_con_mixin. by rewrite con_of_same. Qed.
Lemma add_heard_nil w : add_heard [] w = w.
Proof. destruct w. unfold add_heard. cbn. by rewrite app_nil_r. Qed.
Lemma add_heard_app x y w : add_heard y (add_heard x w) = add_heard (x ++ y) w.
Proof. destruct w. unfold add_heard. cbn. by rewrite app_assoc. Qed.

(** The listeners that hear an event, with it. *)
Definition app_names (l : list (entry handler)) : list nat :=
  omap (fun x => match e_handler x with App n => Some n | _ => None end) l.
Definition hears (l : list (entry handler)) (ev : of_event) : list (nat * of_event) := (fun n => (n, ev)) <$> app_names l.
Definition apps (l : list (entry handler)) : Prop := Forall (fun x => exists n, e_handler x = App n /\ e_once x = false) l.

Section quiet.
Context (now : world -> Z) (fails : nat -> bytes -> world -> bool) (found : nat -> world -> bool).
Context (app : nat -> of_event -> N reply) (halted : of_event -> world -> bool) (fuel : nat).
Context (Hquiet : forall n ev w, app n ev w = (Ok RNone, w)).

Abbreviation inv := (invoke now app halted fuel).

Lemma deliver_apps (mx : world -> mixin evty handler) set_mx d ev l w :
  apps l -> deliver mx set_mx (inv d) halted ev l w = (Ok tt, add_heard (hears l ev) w).
Proof.
  intros Hl. revert w. induction Hl as [|x l (n & Hn & Ho) _ IH]; intros w; [by rewrite add_heard_nil|].
  cbn [deliver]. rewrite M_bind_unfold. unfold call_entry. rewrite M_bind_unfold, Hn.
  assert (Ei : inv d (App n) ev w = (Ok RNone, add_heard [(n, ev)] w)) by (destruct d; cbn [invoke]; rewrite M_bind_unfold; cbn [modify]; apply Hquiet).
  rewrite Ei, M_bind_unfold, Ho. cbn [mret M_ret]. rewrite M_bind_unfold. cbn [after_reply mret M_ret]. rewrite M_bind_unfold.
  cbn [get mret M_ret orb]. rewrite IH, add_heard_app. unfold hears, app_names. cbn [omap list_omap]. by rewrite Hn.
Qed.

(** A source whose listeners of a type are applications'. *)
Definition source_quiet (t : evty) (m : mixin evty handler) : Prop :=
  mixin_ok m /\ accepts (KClass t) m = true /\ apps (listeners (KClass t) m) /\ (length (listeners (KClass t) m) < fuel)%nat.

Lemma raise_apps (mx : world -> mixin evty handler) set_mx d ev w :
  (forall x w, mx (add_heard x w) = mx w) -> source_quiet (oe_type ev) (mx w) ->
  raiseEvent mx set_mx oe_key (inv d) halted fuel ev w = (Ok ev, add_heard (hears (listeners (oe_key ev) (mx w)) ev) w).
Proof.
  intros Hheard (Hok & Ha & Hl & Hf). unfold raiseEvent. rewrite M_bind_unfold. cbn [get]. fold (oe_key ev) in Ha. rewrite Ha. cbn [guard_ok].
  rewrite M_bind_lift_Ok. unfold listeners, oe_key in Hl, Hf |- *.
  destruct (mx_handlers (mx w) !! KClass (oe_type ev)) as [loc|] eqn:El; [|by rewrite add_heard_nil].
  destruct (lookup_lt_is_Some_2 _ _ (ok_loc _ Hok _ _ El)) as [l Hll]. rewrite Hll in *. cbn [default id] in *.
  assert (Eloop : forall rest done_ k, l = done_ ++ rest -> (length rest < k)%nat ->
    forall w', mx w' = mx w -> call_loop mx set_mx (inv d) halted k loc (length done_) ev w' = deliver mx set_mx (inv d) halted ev rest w').
  { induction rest as [|x rest IH]; intros done_ k Edone Hk w' Hw'; (destruct k as [|k]; [simpl in Hk; lia|]);
      cbn [call_loop deliver]; rewrite M_bind_unfold; cbn [get]; rewrite Hw', Hll; cbn [default id].
    - rewrite lookup_ge_None_2; [done|]. by rewrite Edone, app_nil_r.
    - assert (Ex : l !! length done_ = Some x) by (rewrite Edone; by apply list_lookup_middle). rewrite Ex.
      rewrite !(M_bind_unfold (call_entry mx set_mx (inv d) halted ev x)).
      assert (Hx : apps [x]).
      { unfold apps in *. rewrite Edone in Hl. apply Forall_app in Hl as [_ Hl]. apply Forall_cons in Hl as [Hx _]. by apply Forall_singleton. }
      pose proof (deliver_apps mx set_mx d ev [x] w' Hx) as Ed. cbn [deliver] in Ed. rewrite M_bind_unfold in Ed.
      destruct (call_entry mx set_mx (inv d) halted ev x w') as [[[]|e] w2]; [done|injection Ed as Ed|done].
      subst w2. rewrite <-(IH (done_ ++ [x]) k); [by rewrite length_app, Nat.add_1_r|by rewrite <-app_assoc|simpl in Hk; lia|].
      by rewrite Hheard. }
  rewrite M_bind_unfold, (Eloop l [] fuel) by done. by rewrite deliver_apps.
Qed.

Lemma raise_class_apps (mx : world -> mixin evty handler) set_mx d t i ofp stats w :
  (forall x w, mx (add_heard x w) = mx w) -> source_quiet t (mx w) ->
  exists o, no_errors (raiseEventClass mx set_mx oe_key (inv d) halted fuel t (make_event t i ofp stats)) w
    = (Ok o, add_heard (hears (listeners (KClass t) (mx w)) (new_event t i (c_dpid (con_of w i)) ofp stats)) w).
Proof.
  intros Hheard Hs. unfold no_errors, raiseEventClass. rewrite M_bind_unfold. cbn [get].
  case_bool_decide as Hn; [exists None; by rewrite Hn, add_heard_nil|]. rewrite M_bind_unfold. cbn [make_event].
  rewrite M_bind_unfold, raise_apps by done. by eexists.
Qed.

Lemma nexus_raise_apps d t i ofp stats w :
  source_quiet t (nexus w) ->
  nexus_raise halted fuel (inv d) t i ofp stats w
    = (Ok tt, add_heard (hears (listeners (KClass t) (nexus w)) (new_event t i (c_dpid (con_of w i)) ofp stats)) w).
Proof.
  intros Hs. unfold nexus_raise. rewrite M_bind_unfold.
  by destruct (raise_class_apps nexus set_nexus_mixin d t i ofp stats w) as [o ->].
Qed.
Lemma con_raise_apps d t i ofp stats w :
  source_quiet t (con_mixin i w) ->
  con_raise halted fuel (inv d) t i ofp stats w
    = (Ok tt, add_heard (hears (listeners (KClass t) (con_mixin i w)) (new_event t i (c_dpid (con_of w i)) ofp stats)) w).
Proof.
  intros Hs. unfold con_raise. rewrite M_bind_unfold.
  by destruct (raise_class_apps (con_mixin i) (set_con_mixin i) d t i ofp stats w) as [o ->].
Qed.
End quiet.

(** ** The handshake *)

Lemma set_config_sendable n : uint_ok 2 n -> sendable (set_config_message n).
Proof. intros Hn. split; [|by split]. cbn. unfold set_config_wf. cbn. split_and!; try done; by vm_compute. Qed.
Lemma clear_flows_sendable : sendable clear_flows_message.
Proof.
  split; [|by split]. cbn [clear_flows_message message_wf]. unfold flow_mod_wf, flow_mod_len. cbn.
  split; [by apply header_sendable|]. split_and!; try exact match_wf_new; try constructor; try done; by vm_compute.
Qed.
Lemma barrier_sendable : sendable (MBarrierRequest new_barrier_request).
Proof. split; [|by split]. split; [by apply header_sendable|done]. Qed.

Lemma events_accepted t (m : mixin evty handler) : mx_events m = Some connection_events -> accepts (KClass t) m = true.
Proof.
  intros E. unfold accepts. rewrite E. apply bool_decide_true, list_elem_of_fmap. exists t. split; [done|].
  destruct t; unfold all_evty; set_solver.
Qed.

Section handshake.
Context (now : world -> Z) (fails : nat -> bytes -> world -> bool) (found : nat -> world -> bool).
Context (app : nat -> of_event -> N reply) (halted : of_event -> world -> bool) (fuel : nat).
Context (Hsend : forall i f w, fails i f w = false).

(** A message sent: its bytes are a frame that reads back. *)
Definition packs (m : message) (x : Z) (f : bytes) (m' : message) (x' : Z) : Prop :=
  message_pack m true x = (Ok (Some f, m'), x') /\ frame f m'.

Lemma send_sends inv i m w :
  sendable m -> xid_ok (xid_count w) -> c_disconnected (con_of w i) = false ->
  exists f m' x', packs m (xid_count w) f m' x' /\ xid_ok x' /\
    send fails halted fuel inv i m w = (Ok m', put_con i (add_sent (f, m') (con_of w i)) (set_xid_count x' w)).
Proof.
  intros (Hw & Hv & Ht) Hx Hd. destruct (message_frame m _ Hw Hx Hv Ht) as (f & m' & x' & E & Hx' & Hf).
  exists f, m', x'. split; [by split|]. split; [done|]. unfold send. rewrite M_bind_unfold. cbn [get]. rewrite Hd.
  unfold pack_message, on_xids, send_data. rewrite !M_bind_unfold, E. cbn [need]. rewrite M_bind_lift_Ok. cbn [mret M_ret].
  rewrite !M_bind_unfold. cbn [get]. change (con_of (set_xid_count x' w) i) with (con_of w i). rewrite Hd, M_bind_unfold.
  cbn [get]. by rewrite Hsend.
Qed.

(** A connection before its handshake. *)
Record ready_to_connect (i : nat) (w : world) : Prop := mk_ready_to_connect {
  rc_time : c_connect_time (con_of w i) = None;
  rc_open : c_disconnected (con_of w i) = false;
  rc_mixin : mixin_ok (con_mixin i w);
  rc_events : mx_events (con_mixin i w) = Some connection_events;
  rc_barrier : listeners (KClass BarrierIn) (con_mixin i w) = [];
  rc_error : listeners (KClass ErrorIn) (con_mixin i w) = []
}.

(** The connection and the world behind a features reply: [h] is the number of
    the handshake and [e] the one that the last listener had got. *)
Definition greeted (f : ofp_features_reply) (mx : mixin evty handler) (l : list (bytes * message)) (c : connection) : connection :=
  mk_connection true (c_buf c) (Some (fp_datapath_id f)) (Some f) false None (c_previous_stats c) mx (c_sent c ++ l) (c_open c).
Definition listening (e : Z) (h : nat) (mx mx' : mixin evty handler) : Prop :=
  mixin_ok mx' /\ mx_events mx' = Some connection_events /\
  forall k, listeners k mx' = if decide (k = KClass BarrierIn) then [mk_entry None (FinishConnecting h) false (e + 1)]
    else if decide (k = KClass ErrorIn) then [mk_entry None (AlsoFinish h) false (e + 2)] else listeners k mx.
Definition waiting (i : nat) (dpid : Z) (hs : handshake) (c : connection) (x : Z) (w : world) : world :=
  mk_world (<[i := c]> (cons w)) (last_ID w) (handshakes w ++ [hs]) (<[dpid := i]> (conns w)) (nexus w) (miss_send_len w)
    (clear_flows_on_connect w) x (sockets w) (heard w).
Definition refs_of (e : Z) : list (@listener_ref evty handler) := [ByPair (KClass BarrierIn) (e + 1); ByPair (KClass ErrorIn) (e + 2)].

Lemma waiting_con i dpid hs c x w : con_of (waiting i dpid hs c x w) i = c.
Proof. unfold con_of. cbn. by rewrite lookup_insert_eq. Qed.
Lemma waiting_put i dpid hs c c' x w : put_con i c' (waiting i dpid hs c x w) = waiting i dpid hs c' x w.
Proof. unfold put_con, set_cons, waiting. cbn. by rewrite insert_insert_eq. Qed.
Lemma alter_last {A} (f : A -> A) (l : list A) x : alter f (length l) (l ++ [x]) = l ++ [f x].
Proof. rewrite (list_alter_insert _ _ _ x) by by rewrite lookup_app_r, Nat.sub_diag. by rewrite insert_app_r_alt, Nat.sub_diag by lia. Qed.
Lemma waiting_hs g i dpid hs c x w : change_hs (length (handshakes w)) g (waiting i dpid hs c x w) = (Ok tt, waiting i dpid (g hs) c x w).
Proof. unfold change_hs, modify, set_handshakes, waiting. cbn. by rewrite alter_last. Qed.
Lemma waiting_listen i dpid hs c x w t l e mx :
  addListener evty_name (KClass t) l false None false (c_mixin c) = (Ok (KClass t, e), mx) ->
  hs_listen (length (handshakes w)) i t l (waiting i dpid hs c x w)
    = (Ok tt, waiting i dpid (mk_handshake (hs_con hs) (hs_msg hs) (hs_barrier hs) (hs_listeners hs ++ [ByPair (KClass t) e])) (set_mixin mx c) x w).
Proof.
  intros E. unfold hs_listen, listen. rewrite M_bind_unfold. unfold con_mixin, set_con_mixin. rewrite waiting_con, E, waiting_put.
  apply waiting_hs.
Qed.
Lemma waiting_send inv i dpid hs c x w m :
  sendable m -> xid_ok x -> c_disconnected c = false ->
  exists f m' x', packs m x f m' x' /\ xid_ok x' /\
    send fails halted fuel inv i m (waiting i dpid hs c x w) = (Ok m', waiting i dpid hs (add_sent (f, m') c) x' w).
Proof.
  intros Hm Hx Hd. destruct (send_sends inv i m (waiting i dpid hs c x w) Hm Hx) as (f & m' & x' & Hp & Hx' & E); [by rewrite waiting_con|].
  exists f, m', x'. split; [done|]. split; [done|]. rewrite E. rewrite waiting_con.
  change (set_xid_count x' (waiting i dpid hs c x w)) with (waiting i dpid hs c x' w). by rewrite waiting_put.
Qed.

Lemma listens_twice h m :
  mixin_ok m -> mx_events m = Some connection_events ->
  listeners (KClass BarrierIn) m = [] -> listeners (KClass ErrorIn) m = [] ->
  exists m1 m2, addListener evty_name (KClass BarrierIn) (FinishConnecting h) false None false m
      = (Ok (KClass BarrierIn, mx_next m + 1), m1) /\
    addListener evty_name (KClass ErrorIn) (AlsoFinish h) false None false m1 = (Ok (KClass ErrorIn, mx_next m + 2), m2) /\
    listening (mx_next m) h m m2.
Proof.
  intros Hm He Hb Hr.
  assert (Hk : forall t (m' : mixin evty handler), mx_events m' = Some connection_events -> event_type evty_name (KClass t) false m' = Ok (KClass t)).
  { intros t m' E'. unfold event_type. rewrite E', decide_True; [done|]. apply list_elem_of_fmap. exists t. split; [done|].
    destruct t; unfold all_evty; set_solver. }
  destruct (addListener_effect evty_name (KClass BarrierIn) (FinishConnecting h) false None false m (KClass BarrierIn) Hm (Hk _ _ He))
    as (m1 & E1 & Hm1 & Ee1 & En1 & _ & Hl1).
  destruct (addListener_effect evty_name (KClass ErrorIn) (AlsoFinish h) false None false m1 (KClass ErrorIn) Hm1)
    as (m2 & E2 & Hm2 & Ee2 & En2 & _ & Hl2); [apply Hk; congruence|].
  exists m1, m2. split; [done|]. replace (mx_next m + 2) with (mx_next m1 + 1) by lia. split; [done|].
  split; [done|]. split; [congruence|]. intros k. rewrite Hl2, !Hl1. rewrite !place_none by done. rewrite Hb, Hr, En1.
  destruct (decide (k = KClass BarrierIn)) as [->|]; [done|]. destruct (decide (k = KClass ErrorIn)) as [->|].
  - rewrite !decide_True by done. cbn [Datatypes.app]. by replace (mx_next m + 1 + 1) with (mx_next m + 2) by lia.
  - by rewrite !decide_False by done.
Qed.

(** What the code does with a features reply on a new connection. *)
Lemma features_effect d i f n w :
  (forall i w, found i w = true) ->
  ready_to_connect i w -> xid_ok (xid_count w) -> miss_send_len w = Some n -> uint_ok 2 n -> clear_flows_on_connect w = true ->
  exists f1 m1 x1 f2 m2 x2 f3 m3 x3 mx,
    packs (set_config_message n) (xid_count w) f1 m1 x1 /\ packs clear_flows_message x1 f2 m2 x2 /\
    packs (MBarrierRequest new_barrier_request) x2 f3 m3 x3 /\ xid_ok x3 /\
    listening (mx_next (con_mixin i w)) (length (handshakes w)) (con_mixin i w) mx /\
    handle now fails found app halted fuel d i (MFeaturesReply f) w
      = (Ok tt, waiting i (fp_datapath_id f) (mk_handshake i f (xid (message_header m3)) (refs_of (mx_next (con_mixin i w))))
                  (greeted f mx [(f1, m1); (f2, m2); (f3, m3)] (con_of w i)) x3 w).
Proof.
  intros Hf [Ht Hd Hm He Hb Hr] Hx Hn Hu Hc. cbn [handle]. unfold handle_FEATURES_REPLY.
  destruct (listens_twice (length (handshakes w)) _ Hm He Hb Hr) as (mx1 & mx2 & E1 & E2 & Hl).
  set (dpid := fp_datapath_id f). set (hs b l := mk_handshake i f b l).
  set (c1 := set_nexus true (set_dpid (Some dpid) (set_features (Some f) (con_of w i)))).
  destruct (waiting_send (invoke now app halted fuel d) i dpid (hs None (refs_of (mx_next (con_mixin i w)))) (set_mixin mx2 c1) _ w
    _ (set_config_sendable n Hu) Hx Hd) as (f1 & m1 & x1 & P1 & Hx1 & S1).
  destruct (waiting_send (invoke now app halted fuel d) i dpid (hs None (refs_of (mx_next (con_mixin i w))))
    (add_sent (f1, m1) (set_mixin mx2 c1)) _ w _ clear_flows_sendable Hx1 Hd) as (f2 & m2 & x2 & P2 & Hx2 & S2).
  destruct (waiting_send (invoke now app halted fuel d) i dpid (hs None (refs_of (mx_next (con_mixin i w))))
    (add_sent (f2, m2) (add_sent (f1, m1) (set_mixin mx2 c1))) _ w _ barrier_sendable Hx2 Hd) as (f3 & m3 & x3 & P3 & Hx3 & S3).
  exists f1, m1, x1, f2, m2, x2, f3, m3, x3, mx2. do 5 (split; [done|]).
  rewrite M_bind_unfold. cbn [get]. rewrite Ht, bool_decide_true by done. cbn [negb].
  erewrite M_bind_run by reflexivity. rewrite M_bind_unfold. cbn [get]. rewrite Hf. cbn [negb].
  erewrite M_bind_run by reflexivity. rewrite con_of_same, put_put. fold dpid c1.
  erewrite (M_bind_run (nexus_connect i)); [|unfold nexus_connect; erewrite M_bind_run by reflexivity; rewrite con_of_same; reflexivity].
  erewrite M_bind_run by reflexivity. erewrite M_bind_run by reflexivity.
  change (set_handshakes _ _) with (waiting i dpid (hs None []) c1 (xid_count w) w). cbn [put_con set_cons set_conns handshakes].
  erewrite M_bind_run by by apply waiting_listen.
  erewrite M_bind_run by by apply waiting_listen.
  erewrite M_bind_run by reflexivity. cbn [id waiting miss_send_len clear_flows_on_connect]. rewrite Hn, Hc.
  erewrite (M_bind_run (send _ _ _ _ _ _ ≫= _)) by (erewrite M_bind_run by exact S1; reflexivity).
  erewrite (M_bind_run (send _ _ _ _ _ _ ≫= _)) by (erewrite M_bind_run by exact S2; reflexivity).
  erewrite M_bind_run by exact S3. rewrite waiting_hs. do 2 f_equal. unfold c1, add_sent, set_mixin, set_nexus, set_dpid, set_features, greeted.
  cbn [c_sent c_buf c_dpid c_features c_disconnected c_connect_time c_previous_stats c_mixin c_nexus c_open].
  by rewrite <-!app_assoc, Hd, Ht.
Qed.

(** *** The answer to the barrier *)

Context (Hquiet : forall n ev w, app n ev w = (Ok RNone, w)).

(** Where a handshake waits: its connection, and the listeners for the answers. *)
Record awaiting (i h : nat) (hs : handshake) (e : Z) (w : world) : Prop := mk_awaiting {
  aw_hs : hs_of w h = hs;
  aw_con : hs_con hs = i;
  aw_refs : hs_listeners hs = refs_of e;
  aw_nexus : c_nexus (con_of w i) = true;
  aw_mixin : mixin_ok (con_mixin i w);
  aw_events : mx_events (con_mixin i w) = Some connection_events;
  aw_barrier : listeners (KClass BarrierIn) (con_mixin i w) = [mk_entry None (FinishConnecting h) false (e + 1)];
  aw_error : listeners (KClass ErrorIn) (con_mixin i w) = [mk_entry None (AlsoFinish h) false (e + 2)]
}.

Lemma refs_removed e (m : mixin evty handler) h1 h2 :
  mixin_ok m -> listeners (KClass BarrierIn) m = [mk_entry None h1 false (e + 1)] ->
  listeners (KClass ErrorIn) m = [mk_entry None h2 false (e + 2)] ->
  exists b m', removeListeners (refs_of e) m = (Ok b, m') /\ mixin_ok m' /\ mx_events m' = mx_events m /\ mx_lists m `prefix_of` mx_lists m' /\
    forall k, listeners k m' = if decide (k = KClass BarrierIn \/ k = KClass ErrorIn) then [] else listeners k m.
Proof.
  intros Hm Hb He.
  assert (Hs : forall k (m : mixin evty handler), listeners k m <> [] -> is_Some (mx_handlers m !! k)).
  { intros k m0. unfold listeners. destruct (mx_handlers m0 !! k); [by eexists|done]. }
  destruct (filter_list_spec (not_eid (e + 1)) (KClass BarrierIn) m Hm) as (m1 & E1 & Hm1 & Ee1 & _ & Hp1 & _ & Hl1); [apply Hs; by rewrite Hb|].
  destruct (filter_list_spec (not_eid (e + 2)) (KClass ErrorIn) m1 Hm1) as (m2 & E2 & Hm2 & Ee2 & _ & Hp2 & _ & Hl2).
  { apply Hs. rewrite Hl1, decide_False, He by done. done. }
  eexists _, m2. split; [unfold refs_of; cbn [removeListeners removeListener]; erewrite M_bind_run by exact E1;
    erewrite M_bind_run by (erewrite M_bind_run by exact E2; reflexivity); reflexivity|].
  split; [done|]. split; [congruence|]. split; [by etransitivity|]. intros k. rewrite Hl2, !Hl1, Hb, He.
  assert (Hf : forall h e', filter (fun x => not_eid e' x = true) [@mk_entry handler None h false e'] = []).
  { intros h e'. unfold not_eid. rewrite filter_cons. cbn [e_eid]. by rewrite Z.eqb_refl. }
  rewrite (decide_False (P := KClass BarrierIn = KClass ErrorIn)), !Hf by done.
  destruct (decide (KClass ErrorIn = k)) as [<-|]; [by rewrite (decide_True (P := _ \/ _)) by by right|].
  destruct (decide (KClass BarrierIn = k)) as [<-|]; [by rewrite decide_True by by left|]. rewrite decide_False; [done|]. by intros [|].
Qed.

Lemma con_raise_single inv t i ofp stats x w w' :
  mixin_ok (con_mixin i w) -> accepts (KClass t) (con_mixin i w) = true -> listeners (KClass t) (con_mixin i w) = [x] -> e_once x = false ->
  (2 <= fuel)%nat -> inv (e_handler x) (new_event t i (c_dpid (con_of w i)) ofp stats) w = (Ok RNone, w') ->
  mx_lists (con_mixin i w) `prefix_of` mx_lists (con_mixin i w') ->
  con_raise halted fuel inv t i ofp stats w = (Ok tt, w').
Proof.
  intros Hm Ha Hl Ho Hfu Hi [tl Ht]. unfold con_raise, no_errors, raiseEventClass.
  assert (Eloop : forall loc, mx_lists (con_mixin i w) !! loc = Some [x] ->
    call_loop (con_mixin i) (set_con_mixin i) inv halted fuel loc 0 (new_event t i (c_dpid (con_of w i)) ofp stats) w = (Ok tt, w')).
  { intros loc Eloc. destruct fuel as [|[|n]]; [lia|lia|]. cbn [call_loop]. erewrite M_bind_run by reflexivity. rewrite Eloc.
    cbn [default id lookup list_lookup]. erewrite (M_bind_run (call_entry _ _ _ _ _ _)).
    2:{ unfold call_entry. erewrite M_bind_run by exact Hi. rewrite Ho. do 3 (erewrite M_bind_run by reflexivity). reflexivity. }
    cbn [orb]. erewrite M_bind_run by reflexivity. rewrite Ht, lookup_app, Eloc. done. }
  erewrite M_bind_run; [reflexivity|]. erewrite (M_bind_run (get _)) by reflexivity.
  rewrite Hl. rewrite bool_decide_false by done. unfold listeners in Hl.
  destruct (mx_handlers (con_mixin i w) !! KClass t) as [loc|] eqn:El; [|done].
  destruct (lookup_lt_is_Some_2 _ _ (ok_loc _ Hm _ _ El)) as [l Hll]. rewrite Hll in Hl. cbn in Hl. subst l.
  erewrite M_bind_run by reflexivity. unfold raiseEvent.
  erewrite M_bind_run; [reflexivity|]. erewrite M_bind_run by reflexivity.
  change (oe_key _) with (@KClass evty t). rewrite Ha. cbn [guard_ok]. rewrite M_bind_lift_Ok, El. erewrite M_bind_run by by apply Eloop. reflexivity.
Qed.

(** The connection when it is up, and when the handshake failed. *)
Definition up (t : Z) (mx : mixin evty handler) (c : connection) : connection := set_mixin mx (set_connect_time t c).
Definition refused (mx : mixin evty handler) (c : connection) : connection :=
  mk_connection (c_nexus c) (c_buf c) None (c_features c) true (c_connect_time c) (c_previous_stats c) mx (c_sent c) false.
Definition up_heard (i : nat) (f : ofp_features_reply) (w : world) : list (nat * of_event) :=
  let ev := new_event ConnectionUp i (c_dpid (con_of w i)) [MFeaturesReply f] [] in
  hears (listeners (KClass ConnectionUp) (nexus w)) ev ++ hears (listeners (KClass ConnectionUp) (con_mixin i w)) ev.
(** Without the listeners of the handshake. *)
Definition released (m m' : mixin evty handler) : Prop :=
  mixin_ok m' /\ mx_lists m `prefix_of` mx_lists m' /\
  forall k, listeners k m' = if decide (k = KClass BarrierIn \/ k = KClass ErrorIn) then [] else listeners k m.

Lemma both_raise_apps d t i ofp stats w :
  c_nexus (con_of w i) = true -> source_quiet fuel t (nexus w) -> source_quiet fuel t (con_mixin i w) ->
  let ev := new_event t i (c_dpid (con_of w i)) ofp stats in
  both_raise halted fuel (invoke now app halted fuel d) t i ofp stats w
    = (Ok tt, add_heard (hears (listeners (KClass t) (nexus w)) ev ++ hears (listeners (KClass t) (con_mixin i w)) ev) w).
Proof.
  intros Hx Hn Hc ev. unfold both_raise. erewrite M_bind_run by reflexivity. rewrite Hx.
  erewrite M_bind_run by by apply nexus_raise_apps. rewrite con_raise_apps by done. by rewrite add_heard_app.
Qed.

Lemma finish_up d i h hs e ev w :
  awaiting i h hs e w -> oe_xid ev = hs_barrier hs ->
  source_quiet fuel ConnectionUp (nexus w) -> source_quiet fuel ConnectionUp (con_mixin i w) ->
  exists mx', released (con_mixin i w) mx' /\
    finish_connecting now halted fuel (invoke now app halted fuel d) h ev w
      = (Ok tt, put_con i (up (now w) mx' (con_of w i)) (add_heard (up_heard i (hs_msg hs) w) w)).
Proof.
  intros [Eh Ei Er Hx Hm He Hb Hr] Eb Hn Hc.
  destruct (refs_removed e _ _ _ Hm Hb Hr) as (b & mx' & Erm & Hm' & _ & Hp & Hl). exists mx'. split; [by split_and!|].
  unfold finish_connecting. erewrite M_bind_run by reflexivity. rewrite Eh, Ei, Er, Eb, bool_decide_false by tauto.
  erewrite (M_bind_run (get now ≫= _)).
  2:{ erewrite M_bind_run by reflexivity. erewrite M_bind_run by reflexivity. apply both_raise_apps.
      - by rewrite con_of_same.
      - done.
      - unfold con_mixin. by rewrite con_of_same. }
  erewrite M_bind_run.
  2:{ unfold con_mixin at 1. change (con_of (add_heard ?l ?v) i) with (con_of v i). rewrite con_of_same.
      cbn [c_mixin set_connect_time]. change (c_mixin (con_of w i)) with (con_mixin i w). rewrite Erm. reflexivity. }
  cbn [mret M_ret]. do 2 f_equal. unfold set_con_mixin. change (con_of (add_heard ?l ?v) i) with (con_of v i). rewrite con_of_same.
  unfold up, up_heard, con_mixin. rewrite con_of_same. cbn [c_dpid set_connect_time c_mixin].
  unfold add_heard, put_con, set_cons. cbn. by rewrite insert_insert_eq.
Qed.

(** What [disconnect] does. *)
Definition cut (c : connection) : connection := shut (set_disconnected c).
Definition forgotten (c : connection) (a : gmap Z nat) : gmap Z nat :=
  if c_nexus c then match c_dpid c with Some dpid => delete dpid a | None => a end else a.
Definition down_heard (i : nat) (w : world) : list (nat * of_event) :=
  let c := con_of w i in
  if c_nexus c && bool_decide (is_Some (c_dpid c))
  then hears (listeners (KClass ConnectionDown) (nexus w)) (new_event ConnectionDown i (c_dpid c) [] []) else [].
Lemma disconnect_effect d i w :
  source_quiet fuel ConnectionDown (nexus w) ->
  disconnect halted fuel (invoke now app halted fuel d) i w
    = (Ok tt, put_con i (cut (con_of w i)) (set_conns (forgotten (con_of w i) (conns w)) (add_heard (down_heard i w) w))).
Proof.
  intros Hq. unfold disconnect. do 2 (erewrite M_bind_run by reflexivity). rewrite con_of_same. cbn [c_nexus c_dpid set_disconnected].
  set (w1 := put_con i (set_disconnected (con_of w i)) w).
  set (w2 := set_conns (forgotten (con_of w i) (conns w)) w1).
  erewrite (M_bind_run (attempt _) _ _ tt w2).
  2:{ unfold w2, w1, attempt, forgotten, nexus_disconnect. destruct (c_nexus (con_of w i)); [|by destruct w].
      erewrite M_bind_run by reflexivity. destruct (c_dpid (con_of w i)) as [dpid|]; [|by destruct w].
      cbn [need]. rewrite M_bind_lift_Ok. case_bool_decide as Hs; cbn [guard_ok]; [by rewrite M_bind_lift_Ok|].
      change (conns (put_con i (set_disconnected (con_of w i)) w)) with (conns w) in *. apply eq_None_not_Some in Hs.
      rewrite M_bind_unfold, (delete_id _ _ Hs). by destruct w. }
  erewrite (M_bind_run _ _ w2 tt (add_heard (down_heard i w) w2)).
  2:{ unfold down_heard. destruct (c_nexus (con_of w i) && _) eqn:Eb; [|by rewrite add_heard_nil].
      unfold raiseEventNoErrors, no_errors. erewrite M_bind_run; [reflexivity|].
      erewrite M_bind_run by by apply raise_apps. reflexivity. }
  unfold change_con, modify. apply (f_equal (pair _)). unfold w2, w1, cut, con_of, put_con, set_cons, set_conns, add_heard. cbn.
  by rewrite lookup_insert_eq, insert_insert_eq.
Qed.

Lemma finish_refused d i h hs e ev w :
  awaiting i h hs e w -> oe_xid ev <> hs_barrier hs -> source_quiet fuel ConnectionDown (nexus w) ->
  exists mx', released (con_mixin i w) mx' /\
    finish_connecting now halted fuel (invoke now app halted fuel d) h ev w = (Ok tt, put_con i (refused mx' (con_of w i)) w).
Proof.
  intros [Eh Ei Er Hx Hm He Hb Hr] Eb Hq.
  destruct (refs_removed e _ _ _ Hm Hb Hr) as (b & mx' & Erm & Hm' & _ & Hp & Hl). exists mx'. split; [by split_and!|].
  unfold finish_connecting. erewrite M_bind_run by reflexivity. rewrite Eh, Ei, Er, bool_decide_true by done.
  erewrite (M_bind_run (change_con _ _ ≫= _)) by (erewrite M_bind_run by reflexivity; by apply disconnect_effect).
  unfold down_heard, forgotten. rewrite con_of_same. cbn [c_dpid set_dpid c_nexus]. rewrite bool_decide_false by by intros [? ?].
  rewrite andb_false_r, add_heard_nil.
  assert (E1 : forall v, set_conns (if c_nexus (con_of w i) then conns v else conns v) v = v) by (intros []; by destruct (c_nexus _)).
  rewrite E1, put_put.
  erewrite M_bind_run.
  2:{ unfold con_mixin at 1. rewrite con_of_same. cbn [c_mixin cut shut set_disconnected set_dpid].
      change (c_mixin (con_of w i)) with (con_mixin i w). rewrite Erm. reflexivity. }
  cbn [mret M_ret]. do 2 f_equal. unfold set_con_mixin. by rewrite con_of_same, put_put.
Qed.

Definition barrier_heard (i : nat) (b : ofp_barrier_reply) (w : world) : list (nat * of_event) :=
  hears (listeners (KClass BarrierIn) (nexus w)) (new_event BarrierIn i (c_dpid (con_of w i)) [MBarrierReply b] []).

(** The barrier reply reaches the handshake behind the listeners of the nexus. *)
Lemma barrier_reaches d i h hs e b w w' :
  awaiting i h hs e w -> source_quiet fuel BarrierIn (nexus w) -> (2 <= fuel)%nat ->
  mx_lists (con_mixin i w) `prefix_of` mx_lists (con_mixin i w') ->
  finish_connecting now halted fuel (invoke now app halted fuel d) h
    (new_event BarrierIn i (c_dpid (con_of w i)) [MBarrierReply b] []) (add_heard (barrier_heard i b w) w) = (Ok tt, w') ->
  handle now fails found app halted fuel (S d) i (MBarrierReply b) w = (Ok tt, w').
Proof.
  intros [Eh Ei Er Hx Hm He Hb Hr] Hq Hf Hp Hfin. cbn [handle]. unfold both_raise. erewrite M_bind_run by reflexivity. rewrite Hx.
  erewrite M_bind_run by by apply nexus_raise_apps. eapply con_raise_single; try done; [by apply events_accepted|].
  cbn [invoke e_handler]. erewrite M_bind_run; [reflexivity|]. exact Hfin.
Qed.

Lemma barrier_up d i h hs e b w :
  awaiting i h hs e w -> xid (message_header (MBarrierReply b)) = hs_barrier hs -> (2 <= fuel)%nat ->
  source_quiet fuel BarrierIn (nexus w) -> source_quiet fuel ConnectionUp (nexus w) -> source_quiet fuel ConnectionUp (con_mixin i w) ->
  exists mx' t, released (con_mixin i w) mx' /\
    handle now fails found app halted fuel (S d) i (MBarrierReply b) w
      = (Ok tt, put_con i (up t mx' (con_of w i)) (add_heard (barrier_heard i b w ++ up_heard i (hs_msg hs) w) w)).
Proof.
  intros Haw Eb Hf Hq Hn Hc. set (w1 := add_heard (barrier_heard i b w) w).
  destruct (finish_up d i h hs e (new_event BarrierIn i (c_dpid (con_of w i)) [MBarrierReply b] []) w1) as (mx' & Hrel & E);
    [by destruct Haw|done|done|done|].
  exists mx', (now w1). split; [done|]. rewrite <-add_heard_app. eapply barrier_reaches; [done|done|done| |exact E].
  unfold con_mixin at 2. rewrite con_of_same. cbn. by destruct Hrel as (_ & ? & _).
Qed.

Lemma barrier_refused d i h hs e b w :
  awaiting i h hs e w -> xid (message_header (MBarrierReply b)) <> hs_barrier hs -> (2 <= fuel)%nat ->
  source_quiet fuel BarrierIn (nexus w) -> source_quiet fuel ConnectionDown (nexus w) ->
  exists mx', released (con_mixin i w) mx' /\
    handle now fails found app halted fuel (S d) i (MBarrierReply b) w
      = (Ok tt, put_con i (refused mx' (con_of w i)) (add_heard (barrier_heard i b w) w)).
Proof.
  intros Haw Eb Hf Hq Hd. set (w1 := add_heard (barrier_heard i b w) w).
  destruct (finish_refused d i h hs e (new_event BarrierIn i (c_dpid (con_of w i)) [MBarrierReply b] []) w1) as (mx' & Hrel & E);
    [by destruct Haw|done|done|].
  exists mx'. split; [done|]. eapply barrier_reaches; [done|done|done| |exact E].
  unfold con_mixin at 2. rewrite con_of_same. cbn. by destruct Hrel as (_ & ? & _).
Qed.

(** The world behind a features reply awaits the barrier. *)
Lemma waiting_awaits i f b e c l mx x w :
  listening e (length (handshakes w)) (con_mixin i w) mx ->
  awaiting i (length (handshakes w)) (mk_handshake i f b (refs_of e)) e
    (waiting i (fp_datapath_id f) (mk_handshake i f b (refs_of e)) (greeted f mx l c) x w).
Proof.
  intros (Hm & He & Hl).
  constructor; unfold con_mixin; rewrite ?waiting_con; cbn [c_mixin greeted]; try done.
  - unfold hs_of, waiting. cbn [handshakes]. by rewrite lookup_app_r, Nat.sub_diag by done.
Qed.
End handshake.

(** ** Properties *)


(** A failed handshake.  A barrier reply with another transaction id closes
    the connection and takes its datapath away first, so that nothing is heard of
    it, neither ConnectionUp nor ConnectionDown, and the nexus goes on believing
    that the datapath is connected: [sendToDPID] returns true and sends nothing. *)
Theorem handshake_refused (now : world -> Z) (fails : nat -> bytes -> world -> bool) (found : nat -> world -> bool)
    (app : nat -> of_event -> N reply) (halted : of_event -> world -> bool) (fuel d i : nat) (f : ofp_features_reply) (n : Z) (w : world) :
  (forall i f w, fails i f w = false) -> (forall i w, found i w = true) -> (forall n ev w, app n ev w = (Ok RNone, w)) ->
  (2 <= fuel)%nat -> ready_to_connect i w -> xid_ok (xid_count w) -> miss_send_len w = Some n -> uint_ok 2 n ->
  clear_flows_on_connect w = true -> source_quiet fuel BarrierIn (nexus w) -> source_quiet fuel ConnectionDown (nexus w) ->
  exists w1 xb, handle now fails found app halted fuel (S d) i (MFeaturesReply f) w = (Ok tt, w1) /\
    forall b, xid (message_header (MBarrierReply b)) <> xb -> exists w2,
      handle now fails found app halted fuel (S d) i (MBarrierReply b) w1 = (Ok tt, w2) /\
      c_disconnected (con_of w2 i) = true /\ c_open (con_of w2 i) = false /\ c_connect_time (con_of w2 i) = None /\
      heard w2 = heard w ++ hears (listeners (KClass BarrierIn) (nexus w))
        (new_event BarrierIn i (Some (fp_datapath_id f)) [MBarrierReply b] []) /\
      getConnection (fp_datapath_id f) w2 = Some i /\
      forall g m, sendToDPID now fails app halted fuel d (fp_datapath_id f) g m w2 = (Ok true, w2).
Proof.
  intros Hs Hfd Hq Hf Hr Hx Hn Hu Hc Hq1 Hq2.
  destruct (features_effect now fails found app halted fuel Hs (S d) i f n w) as (f1 & m1 & x1 & f2 & m2 & x2 & f3 & m3 & x3 & mx &
    _ & _ & _ & _ & Hl & E); [done..|].
  eexists _, (xid (message_header m3)). split; [exact E|]. intros b Eb.
  pose proof (waiting_awaits i f (xid (message_header m3)) _ (con_of w i) [(f1, m1); (f2, m2); (f3, m3)] mx x3 w Hl) as Haw.
  match type of Haw with awaiting _ _ _ _ ?v => set (w1 := v) in * end.
  destruct (barrier_refused now fails found app halted fuel Hq d i _ _ _ b w1 Haw Eb Hf Hq1 Hq2) as (mx' & _ & E').
  eexists. split; [exact E'|]. rewrite !con_of_same.
  assert (Eg : getConnection (fp_datapath_id f) (put_con i (refused mx' (con_of w1 i)) (add_heard (barrier_heard i b w1) w1)) = Some i)
    by (apply lookup_insert_eq).
  split; [done|]. split; [done|]. split; [unfold w1; by rewrite waiting_con|]. split; [|split; [done|]].
  - cbn [heard put_con set_cons add_heard]. unfold barrier_heard, w1. by rewrite waiting_con.
  - intros g m. unfold sendToDPID. erewrite M_bind_run by reflexivity. rewrite Eg.
    erewrite M_bind_run; [reflexivity|]. unfold send_data. erewrite M_bind_run by reflexivity. by rewrite con_of_same.
Qed.

(** C35: what a disconnection takes away is the registration of its datapath,
    whichever connection made it.  When a switch has connected again before its
    old connection is found dead, disconnecting the old one unregisters the new
    one, and the applications hear that the datapath is down although the new
    connection is up and stays so. *)
Theorem stale_disconnect (now : world -> Z) (app : nat -> of_event -> N reply) (halted : of_event -> world -> bool)
    (fuel d old new : nat) (dpid : Z) (w : world) :
  (forall n ev w, app n ev w = (Ok RNone, w)) -> source_quiet fuel ConnectionDown (nexus w) ->
  old <> new -> c_nexus (con_of w old) = true -> c_dpid (con_of w old) = Some dpid -> getConnection dpid w = Some new ->
  exists w', disconnect halted fuel (invoke now app halted fuel d) old w = (Ok tt, w') /\
    getConnection dpid w' = None /\ con_of w' new = con_of w new /\
    (forall dpid', dpid' <> dpid -> getConnection dpid' w' = getConnection dpid' w) /\
    heard w' = heard w ++ hears (listeners (KClass ConnectionDown) (nexus w)) (new_event ConnectionDown old (Some dpid) [] []).
Proof.
  intros Hq Hn Hne Hx Hd Hg. rewrite disconnect_effect by done. eexists. split; [done|].
  rewrite con_of_put, decide_False by done. unfold getConnection, forgotten, down_heard. rewrite Hx, Hd. cbn.
  split; [apply lookup_delete_eq|]. split; [done|]. split; [|done]. intros dpid' Hne'. by apply lookup_delete_ne.
Qed.

(** An end of file costs the controller nothing but a socket.  The task
    closes the connection and selects on it no longer, but never disconnects it:
    it is not marked, no application hears ConnectionDown, and its datapath stays
    registered. *)
Theorem eof_goes_unnoticed (now : world -> Z) (fails : nat -> bytes -> world -> bool) (found : nat -> world -> bool)
    (app : nat -> of_event -> N reply) (halted : of_event -> world -> bool) (fuel d i : nat) (w : world) :
  exists w', task_round now fails found app halted fuel d [] [RCon i (Ok [])] w = (Ok true, w') /\
    c_open (con_of w' i) = false /\ c_disconnected (con_of w' i) = c_disconnected (con_of w i) /\
    c_dpid (con_of w' i) = c_dpid (con_of w i) /\ ~ (Some i ∈ sockets w') /\ conns w' = conns w /\ heard w' = heard w /\
    forall j, j <> i -> con_of w' j = con_of w j /\ (Some j ∈ sockets w' <-> Some j ∈ sockets w).
Proof.
  assert (E : con_read now fails found app halted fuel d i [] w = (Ok false, put_con i (set_buf (c_buf (con_of w i)) (con_of w i)) w)).
  { unfold con_read. by erewrite M_bind_run by reflexivity. }
  unfold task_round. erewrite M_bind_run by reflexivity. cbn [serve_all serve].
  erewrite (M_bind_run (lift (Ok []))) by reflexivity. erewrite M_bind_run by exact E. eexists. split; [reflexivity|].
  assert (Ec : forall l j, con_of (set_sockets l (put_con i (shut (con_of (put_con i (set_buf (c_buf (con_of w i)) (con_of w i)) w) i))
      (put_con i (set_buf (c_buf (con_of w i)) (con_of w i)) w))) j
    = if decide (i = j) then shut (set_buf (c_buf (con_of w i)) (con_of w i)) else con_of w j).
  { intros l j. change (con_of (set_sockets l ?v) j) with (con_of v j). rewrite con_of_put, con_of_same, con_of_put. by destruct (decide (i = j)). }
  rewrite !Ec, !decide_True by done. split; [done|]. split; [done|]. split; [done|]. split.
  { cbn. by intros [? _]%list_elem_of_filter. }
  split; [done|]. split; [done|]. intros j Hj. split; [by rewrite Ec, decide_False|]. cbn. rewrite list_elem_of_filter. naive_solver.
Qed.

(** ** Examples *)

(** Application 7 listens to barriers and to connections going up and down. *)
Definition example_nexus : mixin evty handler :=
  fold_left (fun m t => snd (addListener evty_name (KClass t) (App 7) false None false m)) [ConnectionUp; ConnectionDown; BarrierIn]
    (new_mixin (Some nexus_events) 0).
Definition no_app (n : nat) (ev : of_event) : N reply := mret RNone.
Definition no_halt (ev : of_event) (w : world) : bool := false.
Definition all_found (i : nat) (w : world) : bool := true.
Definition never_fails (i : nat) (f : bytes) (w : world) : bool := false.
Definition noon (w : world) : Z := 43200.
Definition example_world : world :=
  snd (accept noon never_fails no_app no_halt 5 1 (set_nexus_mixin example_nexus (new_world 1))).
Definition example_features : ofp_features_reply := new_features_reply 0x2a 0 0 0 0 [].

Lemma add_app_ok t (m : mixin evty handler) :
  mixin_ok m -> mixin_ok (snd (addListener evty_name (KClass t) (App 7) false None false m)).
Proof.
  intros Hm. destruct (event_type evty_name (KClass t) false m) as [k|e] eqn:Ek; [|unfold addListener; by rewrite M_bind_unfold, Ek].
  by destruct (addListener_effect _ _ (App 7) false None false _ _ Hm Ek) as (m' & -> & Hm' & _).
Qed.
Lemma example_quiet t : t <> ErrorIn -> source_quiet 5 t example_nexus.
Proof.
  intros Ht. split; [do 3 apply add_app_ok; apply new_mixin_ok|]. split; [by destruct t|].
  split; [|by destruct t; vm_compute; lia]. destruct t; try apply Forall_nil_2; apply Forall_singleton; by exists 7%nat.
Qed.
Lemma example_connection_quiet t : source_quiet 5 t (new_mixin (Some connection_events) 0).
Proof. split; [apply new_mixin_ok|]. split; [by destruct t|]. split; [apply Forall_nil_2|vm_compute; lia]. Qed.
Lemma example_ready : ready_to_connect 1 example_world.
Proof. constructor; try reflexivity. exact (new_mixin_ok (Some connection_events) 0). Qed.


Lemma handshake_refused_witness :
  exists w1 b w2, handle noon never_fails all_found no_app no_halt 5 2 1 (MFeaturesReply example_features) example_world = (Ok tt, w1) /\
    handle noon never_fails all_found no_app no_halt 5 2 1 (MBarrierReply b) w1 = (Ok tt, w2) /\
    c_disconnected (con_of w2 1) = true /\ length (heard w2) = 1%nat /\ getConnection 0x2a w2 = Some 1%nat /\
    forall g m, sendToDPID noon never_fails no_app no_halt 5 1 0x2a g m w2 = (Ok true, w2).
Proof.
  destruct (handshake_refused noon never_fails all_found no_app no_halt 5 1 1 example_features OFP_DEFAULT_MISS_SEND_LEN example_world)
    as (w1 & xb & E & Hb); try done; try lia.
  - exact example_ready.
  - by apply (example_quiet BarrierIn).
  - by apply (example_quiet ConnectionDown).
  - destruct (decide (xb = None)) as [->|Hx].
    + destruct (Hb (mk_ofp_barrier_reply (with_xid (new_header OFPT_BARRIER_REPLY) 1))) as (w2 & E2 & Hd & _ & _ & Eh & Eg & Hs); [done|].
      eexists w1, _, w2. split; [exact E|]. split; [exact E2|]. rewrite Eh. by split_and!.
    + destruct (Hb new_barrier_reply) as (w2 & E2 & Hd & _ & _ & Eh & Eg & Hs); [by intros <-|].
      eexists w1, _, w2. split; [exact E|]. split; [exact E2|]. rewrite Eh. by split_and!.
Defined.

(** Connection 2 has registered datapath 42 behind connection 1. *)
Definition example_twice : world :=
  let up := set_nexus true (set_dpid (Some 0x2a) new_connection) in
  put_con 1 up (put_con 2 up (set_conns {[0x2a := 2%nat]} (set_nexus_mixin example_nexus (new_world 1)))).

Lemma stale_disconnect_witness :
  exists w', disconnect no_halt 5 (invoke noon no_app no_halt 5 0) 1 example_twice = (Ok tt, w') /\
    getConnection 0x2a w' = None /\ c_disconnected (con_of w' 2) = false /\ length (heard w') = 1%nat.
Proof.
  destruct (stale_disconnect noon no_app no_halt 5 0 1 2 0x2a example_twice) as (w' & E & Hg & Hc & _ & Hh); try done.
  - by apply (example_quiet ConnectionDown).
  - exists w'. rewrite Hc, Hh. by split_and!.
Defined.
