(* ===== verification/Sender.v ===== *)
(** * Deferred sending ([Connection.send] and [DeferredSender] of [of_01.py])

    Bytes that a socket does not take go to a thread that keeps them for later,
    cut into slices.  While it keeps any, everything sent over any connection
    goes through it.  The lock makes each of its steps one step here.

    Arguments of the model: [PIPE_BUF], what the sockets answer, and what the
    listeners of a disconnection do.  [out] is a
    history. *)

From S2P Require Import Prelude PyStruct OfpStream.

(** What [sock.send] answers: the number of bytes it took, [EAGAIN], another
    socket error, or another exception. *)
Inductive answer := Took (n : nat) | Again | Broken | Failed.

(** [pend] is [_dataForConnection], whose lists are those the thread goes
    through; [gone] are the connections that are disconnected; [calls] counts the
    calls of sockets, and [out] the bytes that each socket took. *)
Record deferred := mk_sender {
  pend : gmap nat (list bytes);
  sending : bool;
  gone : gset nat;
  calls : nat;
  out : gmap nat bytes
}.
Definition new_sender : deferred := mk_sender ∅ false ∅ 0 ∅.
Definition set_pend (x : gmap nat (list bytes)) (s : deferred) : deferred := mk_sender x (sending s) (gone s) (calls s) (out s).
Definition set_sending (x : bool) (s : deferred) : deferred := mk_sender (pend s) x (gone s) (calls s) (out s).
Definition set_gone (x : gset nat) (s : deferred) : deferred := mk_sender (pend s) (sending s) x (calls s) (out s).
Definition note_call (con : nat) (b : bytes) (s : deferred) : deferred :=
  mk_sender (pend s) (sending s) (gone s) (S (calls s)) (<[con := default [] (out s !! con) ++ b]> (out s)).

Abbreviation W := (M deferred).

(** What happens: data is sent over a connection, or the thread has a round. *)
Inductive op := Send (con : nat) (data : bytes) | Round (wlist elist : list nat).

Section deferred.
Context (PIPE_BUF : nat) (answers : nat -> nat -> bytes -> answer) (on_down : nat -> W unit).

(** [con.sock.send(data)]. *)
Definition sock_send (con : nat) (data : bytes) : W answer := fun s =>
  let a := answers (calls s) con data in
  (Ok a, note_call con (match a with Took n => take n data | _ => [] end) s).

(** [con.disconnect()]. *)
Definition disconnect_con (con : nat) : W unit := _ ← modify (fun s => set_gone ({[con]} ∪ gone s) s); on_down con.

(** [DeferredSender.send] and [kill]. *)
Definition deferred_send (con : nat) (data : bytes) : W unit :=
  _ ← modify (set_sending true);
  l ← lift (need OutOfFuel (sliceup PIPE_BUF data));
  modify (fun s => set_pend (<[con := default [] (pend s !! con) ++ l]> (pend s)) s).
Definition kill (con : nat) : W unit := modify (fun s => set_pend (delete con (pend s)) s).

(** [Connection.send] of bytes: an exception that is no socket error goes to the
    caller. *)
Definition con_send (con : nat) (data : bytes) : W unit :=
  s ← get id;
  if bool_decide (con ∈ gone s) then mret tt else
  if sending s then deferred_send con data else
  a ← sock_send con data;
  match a with
  | Took n => if (n =? length data)%nat then mret tt else deferred_send con (drop n data)
  | Again => deferred_send con data
  | Broken => disconnect_con con
  | Failed => lift (Err RuntimeError)
  end.

(** [while len(alldata)]: the slices of a connection, until one is not taken. *)
Definition put_slices (con : nat) (l : list bytes) : W unit := modify (fun s => set_pend (<[con := l]> (pend s)) s).
Fixpoint send_slices (con : nat) (alldata : list bytes) : W unit :=
  match alldata with
  | [] => mret tt
  | data :: rest =>
      a ← sock_send con data;
      match a with
      | Took n =>
          if (n =? length data)%nat then _ ← put_slices con rest; send_slices con rest
          else put_slices con (drop n data :: rest)
      | Again => mret tt
      | Broken => _ ← disconnect_con con; kill con
      | Failed => mret tt
      end
  end.

(** The loop over the sockets that can be written to; it ends where nothing is
    left for any. *)
Fixpoint write_all (wlist : list nat) : W unit :=
  match wlist with
  | [] => mret tt
  | con :: wlist =>
      o ← get (fun s => pend s !! con);
      match o with
      | None => write_all wlist
      | Some alldata =>
          _ ← send_slices con alldata;
          left ← get (fun s => pend s !! con);
          if bool_decide (left = Some []) then
            _ ← kill con;
            p ← get pend;
            if bool_decide (p = ∅) then modify (set_sending false) else write_all wlist
          else write_all wlist
      end
  end.

(** One round of the thread, with what [select] reports. *)
Definition sender_round (wlist elist : list nat) : W unit :=
  _ ← for_each elist kill; write_all wlist.
Definition sender_step (o : op) : W unit := match o with Send con data => con_send con data | Round wlist elist => sender_round wlist elist end.
Definition sender_run (ops : list op) (s : deferred) : deferred := fold_left (fun s o => snd (sender_step o s)) ops s.
End deferred.

(** ** Nothing is lost or reordered *)

Definition at_con (m : gmap nat bytes) (con : nat) : bytes := default [] (m !! con).
Definition kept (s : deferred) (con : nat) : bytes := mjoin (default [] (pend s !! con)).
(** The thread is used while it keeps anything, and its slices fit a pipe. *)
Record sender_ok (P : nat) (s : deferred) : Prop := mk_sender_ok {
  so_used : pend s <> ∅ -> sending s = true;
  so_slices : forall con l, pend s !! con = Some l -> Forall (fun b => length b <= P)%nat l
}.

Section order.
Context (PIPE_BUF : nat) (answers : nat -> nat -> bytes -> answer) (on_down : nat -> W unit) (con : nat).
Context (HP : (0 < PIPE_BUF)%nat).
Context (Htook : forall k c b n, answers k c b = Took n -> (n <= length b)%nat).
Context (Hcon : forall k b, answers k con b <> Broken /\ answers k con b <> Failed).
Context (Hdown : forall c s, on_down c s = (Ok tt, s)).

(** The connection has sent [D], which its socket took or the thread keeps. *)
Definition good (D : bytes) (s : deferred) : Prop :=
  sender_ok PIPE_BUF s /\ ~ (con ∈ gone s) /\ at_con (out s) con ++ kept s con = D.

Lemma sliceup_parts data : exists l, sliceup PIPE_BUF data = Some l /\ mjoin l = data /\ Forall (fun b => length b <= PIPE_BUF)%nat l.
Proof.
  destruct (sliceup_loop_spec PIPE_BUF HP (S (length data)) data []) as (l & E & Hj & Hl & _); [lia|].
  exists l. split; [done|]. split; [done|]. eapply Forall_impl; [exact Hl|]. cbn. lia.
Qed.

Lemma at_con_insert m c b c' : at_con (<[c := b]> m) c' = if decide (c = c') then b else at_con m c'.
Proof. unfold at_con. rewrite lookup_insert. by destruct (decide (c = c')). Qed.
Lemma kept_insert s c l c' : kept (set_pend (<[c := l]> (pend s)) s) c' = if decide (c = c') then mjoin l else kept s c'.
Proof. unfold kept. cbn. rewrite lookup_insert. by destruct (decide (c = c')). Qed.
Lemma mjoin_snoc {A} (l l' : list (list A)) : mjoin (l ++ l') = mjoin l ++ mjoin l'.
Proof. apply join_app. Qed.

Lemma deferred_send_effect c data s :
  sender_ok PIPE_BUF s -> exists s', deferred_send PIPE_BUF c data s = (Ok tt, s') /\ sender_ok PIPE_BUF s' /\
    out s' = out s /\ gone s' = gone s /\ calls s' = calls s /\ sending s' = true /\
    forall c', kept s' c' = kept s c' ++ if decide (c = c') then data else [].
Proof.
  intros [Hu Hs]. destruct (sliceup_parts data) as (l & E & Hj & Hl). unfold deferred_send.
  erewrite M_bind_run by reflexivity. rewrite E. cbn [need]. rewrite M_bind_lift_Ok. eexists. split; [reflexivity|].
  split; [|do 4 (split; [done|])].
  - constructor; [done|]. cbn. intros c' l'. rewrite lookup_insert. destruct (decide (c = c')) as [<-|]; [|by apply Hs].
    intros [= <-]. apply Forall_app. split; [|done]. destruct (pend s !! c) eqn:Ec; [by eapply Hs|constructor].
  - intros c'. rewrite kept_insert. destruct (decide (c = c')) as [<-|]; [|by rewrite app_nil_r]. by rewrite mjoin_snoc, Hj.
Qed.

Lemma kept_nil s c : pend s = ∅ -> kept s c = [].
Proof. unfold kept. by intros ->. Qed.

Lemma con_send_good D c data s : good D s -> good (D ++ if decide (c = con) then data else []) (snd (con_send PIPE_BUF answers on_down c data s)).
Proof.
  intros (Hok & Hg & HD). unfold con_send. erewrite M_bind_run by reflexivity. cbn [id].
  case_bool_decide as Hc; [destruct (decide (c = con)) as [->|]; [done|by rewrite app_nil_r]|].
  assert (Hdef : forall s0 b, sender_ok PIPE_BUF s0 -> con ∉ gone s0 -> at_con (out s0) con ++ kept s0 con ++ (if decide (c = con) then b else []) =
      D ++ (if decide (c = con) then data else []) ->
    good (D ++ if decide (c = con) then data else []) (snd (deferred_send PIPE_BUF c b s0))).
  { intros s0 b Hok0 Hg0 E0. destruct (deferred_send_effect c b s0 Hok0) as (s' & -> & Hok' & Eo & Eg & _ & _ & Ek).
    split; [done|]. cbn [snd]. split; [by rewrite Eg|]. by rewrite Eo, Ek. }
  destruct (sending s) eqn:Es; [apply Hdef; [done|done|]; by rewrite app_assoc, HD|].
  assert (Hp : pend s = ∅) by (destruct (decide (pend s = ∅)) as [|Hn]; [done|]; by rewrite (so_used _ _ Hok Hn) in Es).
  rewrite (kept_nil _ _ Hp), app_nil_r in HD.
  set (b := match answers (calls s) c data with Took n => take n data | _ => [] end).
  erewrite (M_bind_run (sock_send answers c data) _ _ _ (note_call c b s)) by reflexivity.
  assert (Hok1 : sender_ok PIPE_BUF (note_call c b s)) by (destruct Hok; by constructor).
  assert (Hk1 : kept (note_call c b s) con = []) by by apply kept_nil.
  assert (Ho1 : at_con (out (note_call c b s)) con = D ++ if decide (c = con) then b else []).
  { cbn. rewrite at_con_insert. destruct (decide (c = con)) as [->|]; [by rewrite <-HD|by rewrite app_nil_r]. }
  destruct (answers (calls s) c data) as [n| | |] eqn:Ea.
  - pose proof (Htook _ _ _ _ Ea) as Hn. destruct (Nat.eqb_spec n (length data)) as [->|Hne].
    + split; [done|]. split; [done|]. cbn [snd mret M_ret]. rewrite Ho1, Hk1, app_nil_r. subst b. by rewrite firstn_all.
    + apply Hdef; [done|done|]. rewrite Ho1, Hk1. cbn [app]. rewrite <-app_assoc. f_equal. destruct (decide _); [|done]. subst b. by rewrite take_drop.
  - apply Hdef; [done|done|]. rewrite Ho1, Hk1. cbn [app]. rewrite <-app_assoc. f_equal. by destruct (decide _).
  - unfold disconnect_con. erewrite M_bind_run by reflexivity. rewrite Hdown.
    destruct (decide (c = con)) as [->|Hne]; [by destruct (Hcon (calls s) data)|].
    split; [by destruct Hok1|]. split; [cbn; set_solver|]. cbn [snd]. rewrite app_nil_r. change (at_con (out (note_call c b s)) con ++ kept (note_call c b s) con = D).
    by rewrite Ho1, Hk1, !app_nil_r.
  - destruct (decide (c = con)) as [->|Hne]; [by destruct (Hcon (calls s) data)|].
    change (good (D ++ []) (note_call c b s)). split; [done|]. split; [done|]. by rewrite Ho1, Hk1, !app_nil_r.
Qed.

Lemma sending_of s c l : sender_ok PIPE_BUF s -> pend s !! c = Some l -> sending s = true.
Proof. intros Hok E. apply (so_used _ _ Hok). intros Hp. by rewrite Hp, lookup_empty in E. Qed.

(** A socket takes a part of the first slice. *)
Lemma note_put_good D c b l l' s :
  pend s !! c = Some l -> mjoin l = b ++ mjoin l' -> Forall (fun b => length b <= PIPE_BUF)%nat l' -> good D s ->
  good D (set_pend (<[c := l']> (pend s)) (note_call c b s)).
Proof.
  intros El Ej Hl (Hok & Hg & HD). split; [|split; [done|]].
  - pose proof (sending_of _ _ _ Hok El). constructor; [done|]. cbn. intros c' x. rewrite lookup_insert.
    destruct (decide (c = c')) as [<-|]; [by intros [= <-]|by apply Hok].
  - change (pend s) with (pend (note_call c b s)). rewrite kept_insert. cbn [out set_pend note_call]. rewrite at_con_insert.
    destruct (decide (c = con)) as [->|]; [|done]. change (default [] (out s !! con)) with (at_con (out s) con).
    rewrite <-app_assoc, <-Ej, <-HD. unfold kept. by rewrite El.
Qed.
Lemma put_same c l s : pend s !! c = Some l -> set_pend (<[c := l]> (pend s)) s = s.
Proof. intros E. destruct s. unfold set_pend. cbn in *. by rewrite insert_id. Qed.

Lemma kill_good D c s : c <> con \/ pend s !! c = Some [] -> good D s -> good D (set_pend (delete c (pend s)) s).
Proof.
  intros Hc (Hok & Hg & HD). split; [|split; [done|]].
  - constructor; cbn.
    + intros Hp. apply (so_used _ _ Hok). intros E. by rewrite E, delete_empty in Hp.
    + intros c' l. rewrite lookup_delete_Some. intros [_ Hl]. by eapply Hok.
  - rewrite <-HD. cbn [out set_pend]. f_equal. unfold kept. cbn. destruct (decide (c = con)) as [->|Hne]; [|by rewrite lookup_delete_ne].
    destruct Hc as [|Hc]; [done|]. by rewrite lookup_delete_eq, Hc.
Qed.

Lemma send_slices_good D c alldata : forall s,
  pend s !! c = Some alldata -> good D s -> exists s', send_slices answers on_down c alldata s = (Ok tt, s') /\ good D s'.
Proof.
  induction alldata as [|data rest IH]; intros s E HG; [by exists s|]. cbn [send_slices].
  assert (Hl : Forall (fun b => length b <= PIPE_BUF)%nat (data :: rest)) by (destruct HG as [Hok _]; by apply (so_slices _ _ Hok c)).
  apply Forall_cons in Hl as [Hd Hrest].
  set (b := match answers (calls s) c data with Took n => take n data | _ => [] end).
  erewrite (M_bind_run (sock_send answers c data) _ _ _ (note_call c b s)) by reflexivity.
  assert (Hsame : b = [] -> good D (note_call c b s)).
  { intros Eb. pose proof (note_put_good D c b _ (data :: rest) s E) as HG1. change (pend s) with (pend (note_call c b s)) in HG1.
    rewrite put_same in HG1 by done. apply HG1; [by rewrite Eb|by constructor|done]. }
  destruct (answers (calls s) c data) as [n| | |] eqn:Ea.
  - pose proof (Htook _ _ _ _ Ea) as Hn. destruct (Nat.eqb_spec n (length data)) as [->|Hne].
    + unfold put_slices. erewrite M_bind_run by reflexivity. apply IH; [apply lookup_insert_eq|].
      apply (note_put_good D c b (data :: rest) _ s); [done| |done|done]. subst b. by rewrite firstn_all.
    + eexists. split; [reflexivity|]. apply (note_put_good D c b (data :: rest) _ s); [done| |constructor; [|done]|done].
      * subst b. change (mjoin (data :: rest)) with (data ++ mjoin rest). change (mjoin (?x :: rest)) with (x ++ mjoin rest).
        by rewrite app_assoc, take_drop.
      * rewrite length_drop. lia.
  - eexists. split; [reflexivity|]. by apply Hsame.
  - assert (Hne : c <> con) by (intros ->; by destruct (Hcon (calls s) data)).
    unfold disconnect_con. erewrite M_bind_run by (erewrite M_bind_run by reflexivity; apply Hdown). eexists. split; [reflexivity|].
    apply (kill_good D c (set_gone _ _)); [by left|]. destruct (Hsame eq_refl) as ([Hu Hs] & Hg & HD). split; [by constructor|].
    split; [cbn in *; set_solver|exact HD].
  - eexists. split; [reflexivity|]. by apply Hsame.
Qed.

Lemma write_all_good D wlist : forall s, good D s -> exists s', write_all answers on_down wlist s = (Ok tt, s') /\ good D s'.
Proof.
  induction wlist as [|c wlist IH]; intros s HG; [by exists s|]. cbn [write_all]. erewrite M_bind_run by reflexivity.
  destruct (pend s !! c) as [l|] eqn:El; [|by apply IH].
  destruct (send_slices_good D c l s El HG) as (s1 & E1 & HG1). erewrite M_bind_run by exact E1.
  erewrite M_bind_run by reflexivity. case_bool_decide as Hl; [|by apply IH].
  erewrite M_bind_run by reflexivity. pose proof (kill_good D c s1 (or_intror Hl) HG1) as HG2.
  erewrite M_bind_run by reflexivity. case_bool_decide as Hp; [|by apply IH].
  eexists. split; [reflexivity|]. destruct HG2 as ([Hu Hs] & Hg & HD). split; [by constructor|done].
Qed.
End order.

(** ** Nothing stays when the sockets take everything *)
Section drain.
Context (answers : nat -> nat -> bytes -> answer) (on_down : nat -> W unit).
Context (Hall : forall k c b, answers k c b = Took (length b)).

Lemma drain_slices c alldata : forall s, pend s !! c = Some alldata ->
  exists s', send_slices answers on_down c alldata s = (Ok tt, s') /\ pend s' = <[c := []]> (pend s) /\ sending s' = sending s /\
    gone s' = gone s /\ forall c', at_con (out s') c' = at_con (out s) c' ++ if decide (c = c') then mjoin alldata else [].
Proof.
  induction alldata as [|data rest IH]; intros s E.
  - exists s. split; [done|]. rewrite insert_id by done. do 3 (split; [done|]). intros c'. destruct (decide _); by rewrite app_nil_r.
  - cbn [send_slices]. erewrite (M_bind_run (sock_send answers c data) _ _ (Took (length data)) (note_call c data s)).
    2:{ unfold sock_send. by rewrite Hall, firstn_all. }
    rewrite Nat.eqb_refl. unfold put_slices. erewrite M_bind_run by reflexivity.
    destruct (IH (set_pend (<[c := rest]> (pend s)) (note_call c data s))) as (s' & E' & Ep & Es & Eg & Eo); [apply lookup_insert_eq|].
    exists s'. split; [exact E'|]. rewrite Ep. cbn [pend set_pend note_call]. rewrite insert_insert_eq. split; [done|].
    split; [done|]. split; [done|]. intros c'. rewrite Eo. cbn [out set_pend note_call]. rewrite at_con_insert.
    destruct (decide (c = c')) as [<-|]; [|done]. change (mjoin (data :: rest)) with (data ++ mjoin rest). by rewrite app_assoc.
Qed.

Lemma drain_all wlist : forall s, pend s <> ∅ -> (forall c, c ∈ dom (pend s) -> c ∈ wlist) ->
  exists s', write_all answers on_down wlist s = (Ok tt, s') /\ pend s' = ∅ /\ sending s' = false /\ gone s' = gone s /\
    forall c, at_con (out s') c = at_con (out s) c ++ kept s c.
Proof.
  induction wlist as [|c wlist IH]; intros s Hp Hin.
  { destruct Hp. apply dom_empty_iff_L. apply elem_of_equiv_empty_L. intros c Hc. by apply Hin, elem_of_nil in Hc. }
  cbn [write_all]. erewrite M_bind_run by reflexivity. destruct (pend s !! c) as [l|] eqn:El.
  2:{ apply IH; [done|]. intros c' Hc'. pose proof (Hin c' Hc') as [->|?]%elem_of_cons; [|done]. by apply not_elem_of_dom in El. }
  destruct (drain_slices c l s El) as (s1 & E1 & Ep1 & _ & Eg1 & Eo1). erewrite M_bind_run by exact E1.
  erewrite M_bind_run by reflexivity. rewrite Ep1, lookup_insert_eq, bool_decide_true by done.
  set (s2 := set_pend (delete c (pend s)) s1).
  erewrite (M_bind_run (kill c) _ _ tt s2).
  2:{ unfold kill, modify, s2. by rewrite Ep1, delete_insert_eq. }
  assert (Eo2 : forall c', at_con (out s2) c' ++ kept s2 c' = at_con (out s) c' ++ kept s c').
  { intros c'. cbn [out s2 set_pend]. rewrite Eo1, <-app_assoc. f_equal. unfold kept. cbn [pend s2 set_pend].
    destruct (decide (c = c')) as [<-|]; [by rewrite lookup_delete_eq, El, app_nil_r|by rewrite lookup_delete_ne]. }
  erewrite M_bind_run by reflexivity. case_bool_decide as Hd.
  - eexists. split; [reflexivity|]. split; [done|]. split; [done|]. split; [done|]. intros c'. rewrite <-Eo2, (kept_nil s2) by done.
    by rewrite app_nil_r.
  - destruct (IH s2) as (s3 & E3 & Ep3 & Es3 & Eg3 & Eo3); [done| |].
    + intros c' Hc'. cbn in Hc'. rewrite dom_delete_L in Hc'. apply elem_of_difference in Hc' as [Hc' Hne].
      pose proof (Hin c' Hc') as [->|?]%elem_of_cons; [set_solver|done].
    + exists s3. split; [done|]. split; [done|]. split; [done|]. split; [by rewrite Eg3|]. intros c'. by rewrite Eo3, Eo2.
Qed.
End drain.

(** ** Slices, whatever the sockets answer *)
Section bounded.
Context (PIPE_BUF : nat) (answers : nat -> nat -> bytes -> answer) (on_down : nat -> W unit).
Context (HP : (0 < PIPE_BUF)%nat) (Hdown : forall c, preserves (sender_ok PIPE_BUF) (on_down c)).

Lemma put_ok c l s : pend s <> ∅ -> Forall (fun b => length b <= PIPE_BUF)%nat l -> sender_ok PIPE_BUF s ->
  sender_ok PIPE_BUF (set_pend (<[c := l]> (pend s)) s).
Proof.
  intros Hp Hl [Hu Hs]. constructor; [intros _; by apply Hu|]. cbn. intros c' l'. rewrite lookup_insert.
  destruct (decide (c = c')) as [<-|]; [by intros [= <-]|apply Hs].
Qed.
Lemma kill_ok c s : sender_ok PIPE_BUF s -> sender_ok PIPE_BUF (set_pend (delete c (pend s)) s).
Proof.
  intros [Hu Hs]. constructor; cbn.
  - intros Hp. apply Hu. intros E. by rewrite E, delete_empty in Hp.
  - intros c' l. rewrite lookup_delete_Some. intros [_ ?]. by eapply Hs.
Qed.
Lemma disconnect_ok c : preserves (sender_ok PIPE_BUF) (disconnect_con on_down c).
Proof. intros s [Hu Hs]. unfold disconnect_con. erewrite M_bind_run by reflexivity. apply Hdown. by constructor. Qed.

Lemma slices_ok c alldata : forall s, pend s <> ∅ -> Forall (fun b => length b <= PIPE_BUF)%nat alldata -> sender_ok PIPE_BUF s ->
  sender_ok PIPE_BUF (snd (send_slices answers on_down c alldata s)).
Proof.
  induction alldata as [|data rest IH]; intros s Hp Hl Hok; [done|]. apply Forall_cons in Hl as [Hd Hr]. cbn [send_slices].
  set (b := match answers (calls s) c data with Took n => take n data | _ => [] end).
  erewrite (M_bind_run (sock_send answers c data) _ _ _ (note_call c b s)) by reflexivity.
  assert (Hok1 : sender_ok PIPE_BUF (note_call c b s)) by (destruct Hok; by constructor).
  destruct (answers (calls s) c data) as [n| | |]; [|done| |done].
  - destruct (Nat.eqb_spec n (length data)).
    + unfold put_slices. erewrite M_bind_run by reflexivity. apply IH; [apply insert_non_empty|done|]. by apply (put_ok c rest (note_call c b s)).
    + apply (put_ok c _ (note_call c b s)); [done| |done]. constructor; [rewrite length_drop; lia|done].
  - pose proof (disconnect_ok c _ Hok1) as Hd'. rewrite M_bind_unfold. destruct (disconnect_con on_down c _) as [[[]|e] s1]; [|done].
    by apply kill_ok.
Qed.

Lemma write_ok wlist : preserves (sender_ok PIPE_BUF) (write_all answers on_down wlist).
Proof.
  induction wlist as [|c wlist IH]; intros s Hok; [done|]. cbn [write_all]. erewrite M_bind_run by reflexivity.
  destruct (pend s !! c) as [l|] eqn:El; [|by apply IH].
  assert (H1 : sender_ok PIPE_BUF (snd (send_slices answers on_down c l s))).
  { apply slices_ok; [intros E; by rewrite E, lookup_empty in El|by eapply Hok|done]. }
  rewrite M_bind_unfold. destruct (send_slices _ _ _ _ _) as [[[]|e] s1]; [|done].
  erewrite M_bind_run by reflexivity. case_bool_decide; [|by apply IH]. erewrite M_bind_run by reflexivity.
  pose proof (kill_ok c _ H1) as H2. erewrite M_bind_run by reflexivity. case_bool_decide as Hp; [|by apply IH].
  destruct H2. by constructor.
Qed.

Lemma step_ok o : preserves (sender_ok PIPE_BUF) (sender_step PIPE_BUF answers on_down o).
Proof.
  destruct o as [c data|wlist elist]; intros s Hok.
  - cbn [sender_step]. unfold con_send. erewrite M_bind_run by reflexivity. cbn [id]. case_bool_decide; [done|].
    assert (Hdef : forall b s, sender_ok PIPE_BUF s -> sender_ok PIPE_BUF (snd (deferred_send PIPE_BUF c b s))).
    { intros b s0 H0. by destruct (deferred_send_effect PIPE_BUF HP c b s0 H0) as (s' & -> & ? & _). }
    destruct (sending s); [by apply Hdef|].
    set (b := match answers (calls s) c data with Took n => take n data | _ => [] end).
    erewrite (M_bind_run (sock_send answers c data) _ _ _ (note_call c b s)) by reflexivity.
    assert (Hok1 : sender_ok PIPE_BUF (note_call c b s)) by (destruct Hok; by constructor).
    destruct (answers (calls s) c data) as [n| | |]; [|by apply Hdef|by apply disconnect_ok|done].
    destruct (n =? length data)%nat; [done|by apply Hdef].
  - cbn [sender_step]. unfold sender_round.
    assert (He : forall s, sender_ok PIPE_BUF s -> exists s', for_each elist kill s = (Ok tt, s') /\ sender_ok PIPE_BUF s').
    { clear s Hok. induction elist as [|c elist IH]; intros s Hok; [by exists s|]. cbn [for_each]. erewrite M_bind_run by reflexivity.
      by apply IH, kill_ok. }
    destruct (He s Hok) as (s' & E & Hok'). erewrite M_bind_run by exact E. by apply write_ok.
Qed.
End bounded.

(** ** Properties *)

Definition sent_over (con : nat) (ops : list op) : bytes :=
  mjoin ((fun o => match o with Send c data => if decide (c = con) then data else [] | Round _ _ => [] end) <$> ops).
Definition no_error (con : nat) (o : op) : Prop := match o with Send _ _ => True | Round _ elist => con ∉ elist end.

(** C8: whatever parts of the data the sockets take, and whenever the thread
    runs, the bytes that a connection's socket has taken and those the thread
    keeps for it are, in order, exactly the bytes that were sent over it, as long
    as its own socket reports no error; errors of other connections do no harm. *)
Theorem deferred_in_order (PIPE_BUF : nat) (answers : nat -> nat -> bytes -> answer) (on_down : nat -> W unit) (con : nat) (ops : list op) :
  (0 < PIPE_BUF)%nat -> (forall k c b n, answers k c b = Took n -> (n <= length b)%nat) ->
  (forall k b, answers k con b <> Broken /\ answers k con b <> Failed) -> (forall c s, on_down c s = (Ok tt, s)) ->
  Forall (no_error con) ops ->
  let s := sender_run PIPE_BUF answers on_down ops new_sender in
  at_con (out s) con ++ kept s con = sent_over con ops.
Proof.
  intros HP Ht Hc Hd Hops.
  assert (H : forall D s, good PIPE_BUF con D s -> good PIPE_BUF con (D ++ sent_over con ops) (sender_run PIPE_BUF answers on_down ops s)).
  { clear -HP Ht Hc Hd Hops. unfold sender_run. induction Hops as [|o ops Ho Hops IH]; intros D s HG; [by rewrite app_nil_r|]. cbn [fold_left].
    replace (D ++ sent_over con (o :: ops)) with ((D ++ sent_over con [o]) ++ sent_over con ops)
      by (unfold sent_over; cbn; by rewrite app_nil_r, app_assoc).
    apply IH. unfold sent_over. cbn [fmap list_fmap mjoin list_join]. rewrite app_nil_r. destruct o as [c data|wlist elist]; cbn [sender_step].
    - by apply con_send_good.
    - rewrite app_nil_r. unfold sender_round.
      assert (He : forall s, good PIPE_BUF con D s -> exists s', for_each elist kill s = (Ok tt, s') /\ good PIPE_BUF con D s').
      { clear s HG. cbn in Ho. induction elist as [|c elist IHe]; intros s HG; [by exists s|]. cbn [for_each].
        erewrite M_bind_run by reflexivity. apply IHe; [set_solver|]. apply kill_good; [left; set_solver|done]. }
      destruct (He s HG) as (s' & E & HG'). erewrite M_bind_run by exact E.
      by destruct (write_all_good PIPE_BUF answers on_down con HP Ht Hc Hd D wlist s' HG') as (s2 & -> & HG2). }
  destruct (H [] new_sender) as (_ & _ & E); [|exact E]. split; [by constructor|]. done.
Qed.

(** C40: whatever the sockets answer and report, the thread never hands a socket
    more than a pipe can take at once, and everything goes through the thread
    while it keeps anything, so that nothing overtakes what is kept. *)
Theorem deferred_bounded (PIPE_BUF : nat) (answers : nat -> nat -> bytes -> answer) (on_down : nat -> W unit) (ops : list op) :
  (0 < PIPE_BUF)%nat -> (forall c, preserves (sender_ok PIPE_BUF) (on_down c)) ->
  let s := sender_run PIPE_BUF answers on_down ops new_sender in
  (forall con l data, pend s !! con = Some l -> data ∈ l -> (length data <= PIPE_BUF)%nat) /\ (pend s <> ∅ -> sending s = true).
Proof.
  intros HP Hd s. assert (H : sender_ok PIPE_BUF s).
  { subst s. unfold sender_run. assert (H0 : sender_ok PIPE_BUF new_sender) by by constructor. revert H0. generalize new_sender.
    induction ops as [|o ops IH]; intros s Hs; [done|]. cbn [fold_left]. by apply IH, step_ok. }
  split; [|by apply H]. intros con l data Hl Hin. pose proof (so_slices _ _ H _ _ Hl) as Ha. rewrite Forall_forall in Ha. by apply Ha.
Qed.

(** When the sockets take everything, one round over the connections that
    have something kept sends all of it, in order, and the next send goes to its
    socket directly. *)
Theorem deferred_drains (PIPE_BUF : nat) (answers : nat -> nat -> bytes -> answer) (on_down : nat -> W unit) (wlist : list nat)
    (s : deferred) (con : nat) (data : bytes) :
  (forall k c b, answers k c b = Took (length b)) -> pend s <> ∅ -> (forall c, c ∈ dom (pend s) -> c ∈ wlist) -> con ∉ gone s ->
  exists s' s2, sender_round answers on_down wlist [] s = (Ok tt, s') /\ pend s' = ∅ /\
    (forall c, at_con (out s') c = at_con (out s) c ++ kept s c) /\
    con_send PIPE_BUF answers on_down con data s' = (Ok tt, s2) /\ pend s2 = ∅ /\ at_con (out s2) con = at_con (out s') con ++ data.
Proof.
  intros Ha Hp Hw Hg. destruct (drain_all answers on_down Ha wlist s Hp Hw) as (s' & E & Ep & Es & Eg & Eo).
  eexists s', (note_call con data s'). split; [unfold sender_round; by erewrite M_bind_run by reflexivity|]. split; [done|]. split; [done|].
  unfold con_send. erewrite M_bind_run by reflexivity. cbn [id]. rewrite bool_decide_false by by rewrite Eg. rewrite Es.
  erewrite (M_bind_run (sock_send answers con data) _ _ (Took (length data)) (note_call con data s')).
  2:{ unfold sock_send. by rewrite Ha, firstn_all. }
  rewrite Nat.eqb_refl. split; [done|]. split; [done|]. cbn. by rewrite at_con_insert, decide_True.
Qed.

(** ** Examples *)

(** The sockets take three bytes at a time; that of connection 2 is broken. *)
Definition example_answers (k con : nat) (b : bytes) : answer := if (con =? 2)%nat then Broken else Took (Nat.min 3 (length b)).
Definition no_listener (con : nat) : W unit := mret tt.
Definition example_ops : list op :=
  [Send 1 (str "0123456789"); Send 2 (str "abc"); Send 1 (str "xy"); Round [1; 2]%nat []; Round [] [2]%nat].

Lemma example_takes k c b n : example_answers k c b = Took n -> (n <= length b)%nat.
Proof. unfold example_answers. destruct (c =? 2)%nat; [done|]. intros E. assert (Nat.min 3 (length b) = n) as <- by congruence. apply Nat.le_min_r. Qed.

Lemma deferred_in_order_witness :
  let s := sender_run 4 example_answers no_listener example_ops new_sender in
  at_con (out s) 1 ++ kept s 1 = str "0123456789xy" /\ at_con (out s) 1 = str "012345" /\ 2%nat ∈ gone s.
Proof.
  split; [|split; [by vm_compute|apply (bool_decide_unpack _); by vm_compute]].
  rewrite (deferred_in_order 4 example_answers no_listener 1 example_ops); [done|lia|exact example_takes|done|done|].
  repeat apply Forall_cons_2; try apply Forall_nil_2; try done; cbn; set_solver.
Defined.

Lemma deferred_bounded_witness :
  let s := sender_run 4 example_answers no_listener example_ops new_sender in
  pend s <> ∅ /\ sending s = true.
Proof.
  assert (Hp : pend (sender_run 4 example_answers no_listener example_ops new_sender) <> ∅) by by vm_compute.
  split; [exact Hp|]. apply (deferred_bounded 4 example_answers no_listener example_ops); [lia|by intros c s|exact Hp].
Defined.

Definition example_kept : deferred := mk_sender {[1%nat := [str "abcd"; str "ef"]]} true ∅ 0 ∅.

Lemma deferred_drains_witness :
  exists s' s2, sender_round (fun _ _ b => Took (length b)) no_listener [2; 1]%nat [] example_kept = (Ok tt, s') /\ pend s' = ∅ /\
    con_send 4 (fun _ _ b => Took (length b)) no_listener 1 (str "gh") s' = (Ok tt, s2) /\
    at_con (out s2) 1 = str "abcdefgh".
Proof.
  destruct (deferred_drains 4 (fun _ _ b => Took (length b)) no_listener [2; 1]%nat example_kept 1 (str "gh"))
    as (s' & s2 & E & Ep & Eo & E2 & _ & Eo2).
  - done.
  - by vm_compute.
  - cbn. intros c. rewrite dom_singleton_L. set_solver.
  - done.
  - exists s', s2. split; [done|]. split; [done|]. split; [done|]. by rewrite Eo2, Eo.
Defined.
