(* ===== verification/Packet.v ===== *)
(** * Packet objects and the match of a packet ([pox/lib/packet],
    [ofp_match.from_packet])

    The headers a packet object carries, from the Ethernet one inwards, and the
    exact match that the flow table looks up.  Objects of the other classes of
    [pox/lib/packet] are kept only as such: [from_packet] does not look at
    them.  Building headers from bytes and back is not part of this file. *)

From S2P Require Import Prelude PyStruct Addresses Codec OfpMatch.

(** ** Headers *)

(** [v_c] is the attribute [c], which only [parse] creates. *)
Record vlan := mk_vlan { v_pcp : Z; v_cfi : Z; v_c : option Z; v_id : Z; v_eth_type : Z }.
Definition new_vlan : vlan := mk_vlan 0 0 None 0 0.

(** Addresses are integers until [parse] has accepted the header. *)
Record ipv4 := mk_ipv4 {
  i_v : Z; i_hl : Z; i_tos : Z; i_iplen : Z; i_id : Z; i_flags : Z; i_frag : Z; i_ttl : Z;
  i_protocol : Z; i_csum : Z; i_srcip : nwaddr; i_dstip : nwaddr
}.
(** A new header, with the identification it was given. *)
Definition new_ipv4 (id : Z) : ipv4 := mk_ipv4 4 5 0 20 id 0 0 64 0 0 (NwIP IP_ANY) (NwIP IP_ANY).

Record arp := mk_arp {
  a_hwtype : Z; a_prototype : Z; a_hwsrc : hwaddr; a_hwdst : hwaddr; a_hwlen : Z; a_opcode : Z;
  a_protolen : Z; a_protosrc : nwaddr; a_protodst : nwaddr
}.
Definition new_arp : arp := mk_arp 1 0x0800 (HwEth EMPTY_ETH) (HwEth EMPTY_ETH) 6 0 4 (NwIP IP_ANY) (NwIP IP_ANY).

Record udp := mk_udp { u_srcport : Z; u_dstport : Z; u_len : Z; u_csum : Z }.
Definition new_udp : udp := mk_udp 0 0 8 0.

(** [tcp_opt], by its type. *)
Inductive tcp_opt :=
  | OEol | ONop | OMss (v : Z) | OWs (v : Z) | OSackPerm | OSack (l : list (Z * Z)) | OTs (a b : Z)
  | OUnknown (t : Z) (v : bytes).

Record tcp := mk_tcp {
  t_srcport : Z; t_dstport : Z; t_seq : Z; t_ack : Z; t_off : Z; t_res : Z; t_flags : Z; t_win : Z;
  t_csum : Z; t_urg : Z; t_options : list tcp_opt
}.
Definition new_tcp : tcp := mk_tcp 0 0 0 0 0 0 0 0 0 0 [].

Record icmp := mk_icmp { ic_type : Z; ic_code : Z; ic_csum : Z }.
Definition new_icmp : icmp := mk_icmp 0 0 0.
Record echo := mk_echo { ee_id : Z; ee_seq : Z }.
Record unreach := mk_unreach { ur_unused : Z; ur_next_mtu : Z }.
Record mpls := mk_mpls { l_label : Z; l_tc : Z; l_s : Z; l_ttl : Z }.
Definition new_mpls : mpls := mk_mpls 0 0 0 0.

(** The classes whose insides are not part of this file. *)
Inductive app_class := Lldp | Eapol | Dhcp | Dns.

(** An object of one of those is known by what its packing gives. *)
Inductive header :=
  | HVlan (h : vlan) | HIpv4 (h : ipv4) | HArp (h : arp) | HUdp (h : udp) | HTcp (h : tcp)
  | HIcmp (h : icmp) | HEcho (h : echo) | HUnreach (h : unreach) | HMpls (h : mpls)
  | HApp (k : app_class) (packed : result bytes).

(** What an object's [next] may be; [PMissing] when there is no such attribute
    ([icmp] and [unreach] do not call the constructor of their base class).
    A header object has its [parsed] flag. *)
Inductive payload :=
  | PNone
  | PMissing
  | PBytes (b : bytes)
  | PHdr (parsed : bool) (h : header) (next : payload).

Record ethernet := mk_ethernet {
  e_parsed : bool;
  e_dst : hwaddr;
  e_src : hwaddr;
  e_type : Z;
  e_next : payload
}.

Definition new_ethernet : ethernet := mk_ethernet false (HwEth EMPTY_ETH) (HwEth EMPTY_ETH) 0 (PBytes []).

(** ** The match of a packet *)

Definition set_tp (m : ofp_match) (s d : Z) : ofp_match := zset (zset m F_tp_src (Some s)) F_tp_dst (Some d).
Definition set_addrs (m : ofp_match) (s d : nwaddr) : ofp_match :=
  set_nw_addr (set_nw_addr m F_nw_src s 32) F_nw_dst d 32.

Definition from_packet (packet : ethernet) (in_port : option Z) : ofp_match :=
  let m := new_match in
  let m := match in_port with Some p => zset m F_in_port (Some p) | None => m end in
  let m := hset m F_dl_src (Some (e_src packet)) in
  let m := hset m F_dl_dst (Some (e_dst packet)) in
  let m := zset m F_dl_type (Some (e_type packet)) in
  let '(m, p) :=
    match e_next packet with
    | PHdr _ (HVlan v) p =>
        let m := zset m F_dl_type (Some (v_eth_type v)) in
        let m := zset m F_dl_vlan (Some (v_id v)) in
        (zset m F_dl_vlan_pcp (Some (v_pcp v)), p)
    | p => (zset (zset m F_dl_vlan (Some OFP_VLAN_NONE)) F_dl_vlan_pcp (Some 0), p)
    end in
  match p with
  | PHdr _ (HIpv4 h) p =>
      let m := set_addrs m (i_srcip h) (i_dstip h) in
      let m := zset m F_nw_proto (Some (i_protocol h)) in
      let m := zset m F_nw_tos (Some (i_tos h)) in
      match p with
      | PHdr _ (HUdp h) _ => set_tp m (u_srcport h) (u_dstport h)
      | PHdr _ (HTcp h) _ => set_tp m (t_srcport h) (t_dstport h)
      | PHdr _ (HIcmp h) _ => set_tp m (ic_type h) (ic_code h)
      | _ => m
      end
  | PHdr _ (HArp h) _ =>
      if a_opcode h <=? 255
      then set_addrs (zset m F_nw_proto (Some (a_opcode h))) (a_protosrc h) (a_protodst h)
      else m
  | _ => m
  end.

(** ** What the match should contain, field by field *)

(** The network header: that of the tagged frame if there is a tag. *)
Definition network (p : ethernet) : payload :=
  match e_next p with PHdr _ (HVlan _) p => p | p => p end.
Definition tag (p : ethernet) : option vlan :=
  match e_next p with PHdr _ (HVlan v) _ => Some v | _ => None end.

Definition packet_ports (p : payload) : option (Z * Z) :=
  match p with
  | PHdr _ (HUdp h) _ => Some (u_srcport h, u_dstport h)
  | PHdr _ (HTcp h) _ => Some (t_srcport h, t_dstport h)
  | PHdr _ (HIcmp h) _ => Some (ic_type h, ic_code h)
  | _ => None
  end.

(** The scalar field [f] of a packet, [None] where the packet has no such
    field. *)
Definition packet_field (p : ethernet) (in_port : option Z) (f : zfield) : option Z :=
  match f with
  | F_in_port => in_port
  | F_dl_type => Some (match tag p with Some v => v_eth_type v | None => e_type p end)
  | F_dl_vlan => Some (match tag p with Some v => v_id v | None => OFP_VLAN_NONE end)
  | F_dl_vlan_pcp => Some (match tag p with Some v => v_pcp v | None => 0 end)
  | F_nw_proto =>
      match network p with
      | PHdr _ (HIpv4 h) _ => Some (i_protocol h)
      | PHdr _ (HArp h) _ => if a_opcode h <=? 255 then Some (a_opcode h) else None
      | _ => None
      end
  | F_nw_tos => match network p with PHdr _ (HIpv4 h) _ => Some (i_tos h) | _ => None end
  | F_tp_src => match network p with PHdr _ (HIpv4 _) t => fst <$> packet_ports t | _ => None end
  | F_tp_dst => match network p with PHdr _ (HIpv4 _) t => snd <$> packet_ports t | _ => None end
  end.
Definition packet_hw (p : ethernet) (f : hfield) : hwaddr :=
  match f with F_dl_src => e_src p | F_dl_dst => e_dst p end.
Definition packet_nw (p : ethernet) (f : nfield) : option nwaddr :=
  match network p with
  | PHdr _ (HIpv4 h) _ => Some (match f with F_nw_src => i_srcip h | F_nw_dst => i_dstip h end)
  | PHdr _ (HArp h) _ =>
      if a_opcode h <=? 255
      then Some (match f with F_nw_src => a_protosrc h | F_nw_dst => a_protodst h end)
      else None
  | _ => None
  end.

(** ** Evaluation of a chain of assignments *)

Lemma zget_zset m f g o : zget (zset m f o) g = if decide (g = f) then o else zget m g.
Proof.
  destruct (decide (g = f)) as [->|H]; [apply zset_get|]. by apply zset_frame.
Qed.
Lemma zget_hset m f g o : zget (hset m f o) g = zget m g.
Proof. by apply hset_frame. Qed.
Lemma zget_set_nw m f g v : zget (set_nw_addr m f v 32) g = zget m g.
Proof. by apply set_nw_addr_frame. Qed.
Lemma hget_zset m f g o : hget (zset m f o) g = hget m g.
Proof. by apply zset_frame. Qed.
Lemma hget_hset m f g o : hget (hset m f o) g = if decide (g = f) then o else hget m g.
Proof.
  destruct (decide (g = f)) as [->|H]; [apply hset_get|]. by apply hset_frame.
Qed.
Lemma hget_set_nw m f g v : hget (set_nw_addr m f v 32) g = hget m g.
Proof. by apply set_nw_addr_frame. Qed.
Lemma get_nw_zset m f g o : get_nw (zset m f o) g = get_nw m g.
Proof. by apply zset_frame. Qed.
Lemma get_nw_hset m f g o : get_nw (hset m f o) g = get_nw m g.
Proof. by apply hset_frame. Qed.
Lemma get_nw_set_nw m f g v :
  get_nw (set_nw_addr m f v 32) g = if decide (g = f) then (Some v, 32) else get_nw m g.
Proof.
  destruct (decide (g = f)) as [->|H]; [by rewrite set_nw_addr_get by lia|]. by apply set_nw_addr_frame.
Qed.

Create Rewrite HintDb assign.
#[export] Hint Rewrite zget_zset zget_hset zget_set_nw hget_zset hget_hset hget_set_nw
  get_nw_zset get_nw_hset get_nw_set_nw : assign.

(** The stored forms of what [from_packet] assigns. *)
Definition packet_typed (p : ethernet) : Prop :=
  (forall f, hw_typed (packet_hw p f)) /\ (forall f x, packet_nw p f = Some x -> nw_typed x).

Lemma hraw_zset m f o g : hraw (zset m f o) g = hraw m g.
Proof. unfold zset. destruct o; apply hraw_zput. Qed.
Lemma nraw_zset m f o g : nraw (zset m f o) g = nraw m g.
Proof. unfold zset. destruct o; apply nraw_zput. Qed.
Lemma hraw_hset m f v g : hraw (hset m f (Some v)) g = if decide (f = g) then v else hraw m g.
Proof. apply hraw_hput. Qed.
Lemma nraw_hset m f v g : nraw (hset m f (Some v)) g = nraw m g.
Proof. apply nraw_hput. Qed.
Lemma hraw_set_nw m f v g : hraw (set_nw_addr m f v 32) g = hraw m g.
Proof. apply hraw_nput. Qed.
Lemma nraw_set_nw m f v g : nraw (set_nw_addr m f v 32) g = if decide (f = g) then v else nraw m g.
Proof. apply nraw_nput. Qed.

Create Rewrite HintDb raws.
#[export] Hint Rewrite hraw_zset nraw_zset hraw_hset nraw_hset hraw_set_nw nraw_set_nw : raws.

(** One goal per shape of the packet that [from_packet] distinguishes. *)
Ltac packet_cases p :=
  unfold from_packet, packet_field, packet_nw, network, tag, packet_ports, set_addrs, set_tp;
  destruct (e_next p) as [| | |? [] next]; try destruct (_ <=? 255);
  repeat match goal with
  | |- context [match ?q with PNone => _ | _ => _ end] => destruct q
  | |- context [match ?q with HVlan _ => _ | _ => _ end] => destruct q
  | |- context [?a <=? 255] => destruct (a <=? 255)
  end.

Lemma from_packet_zget p ip f : zget (from_packet p ip) f = packet_field p ip f.
Proof.
  packet_cases p; destruct ip; autorewrite with assign; by destruct f.
Qed.

Lemma from_packet_hget p ip f : hget (from_packet p ip) f = Some (packet_hw p f).
Proof.
  packet_cases p; destruct ip; autorewrite with assign; by destruct f.
Qed.

Lemma from_packet_get_nw p ip f :
  get_nw (from_packet p ip) f = match packet_nw p f with Some x => (Some x, 32) | None => (None, 0) end.
Proof.
  packet_cases p; destruct ip; autorewrite with assign; by destruct f.
Qed.

Lemma from_packet_typed p ip : packet_typed p -> match_typed (from_packet p ip).
Proof.
  intros [Hh Hn]. split.
  - intros f. specialize (Hh f). revert Hh. unfold packet_hw.
    packet_cases p; destruct ip; autorewrite with raws; by destruct f.
  - intros f. specialize (Hn f). revert Hn.
    packet_cases p; destruct ip; autorewrite with raws; destruct f; simpl; intros Hn;
      first [by apply Hn | split; vm_compute; congruence].
Qed.

(** ** Properties *)

(** The match of a packet holds, field by field, what the packet's headers
    say: the tag and the type behind it if the frame is tagged, addresses and
    protocol of an IP or ARP header, ports of UDP, TCP and ICMP; every other
    field is wildcarded, and no address is shortened to a prefix. *)
Theorem from_packet_spec (p : ethernet) (in_port : option Z) :
  (forall f, zget (from_packet p in_port) f = packet_field p in_port f) /\
  (forall f, hget (from_packet p in_port) f = Some (packet_hw p f)) /\
  (forall f, get_nw (from_packet p in_port) f
     = match packet_nw p f with Some x => (Some x, 32) | None => (None, 0) end).
Proof.
  split; [apply from_packet_zget|]. split; [apply from_packet_hget|apply from_packet_get_nw].
Qed.

(** A web request from port 1, and the same frame under a tag. *)
Definition example_ip : ipv4 :=
  mk_ipv4 4 5 0 40 7 0 0 64 6 0 (NwIP (IPAddr_of_int 0x0a000001 false)) (NwIP (IPAddr_of_int 0x0a010203 false)).
Definition example_packet : ethernet :=
  mk_ethernet true (HwEth (mkEth [x02; x00; x00; x00; x00; x02])) (HwEth (mkEth [x02; x00; x00; x00; x00; x01])) 0x0800
    (PHdr true (HIpv4 example_ip)
      (PHdr true (HTcp (mk_tcp 4242 80 1000 0 7 0 2 512 0 0 [OMss 1460; ONop; OWs 7])) (PBytes (str "GET /")))).

Lemma example_packet_typed : packet_typed example_packet.
Proof.
  split; [by intros []|]. intros [] x [= <-]; vm_compute; split; congruence.
Defined.
