(* ===== verification/FlowTable.v ===== *)
(** * Flow tables ([pox/openflow/flow_table.py])

    Entries, the table sorted by priority, and the switch's reaction to a flow
    modification.  An entry is an object with an identity ([te_id]): Python's
    [list.remove] looks for the object, as [TableEntry] has no [__eq__].  The
    clock is an argument, in nanoseconds; timeouts are in seconds.  The events
    a table raises are returned next to its new contents. *)

From S2P Require Import Prelude PyStruct Addresses Codec OfpMatch OfpActions OfpStructs OfpMessages.
From S2P Require Import OfpVarMessages Packet.

(** ** Entries *)

Record counters := mk_counters {
  created : Z;
  last_touched : Z;
  c_bytes : Z;
  c_packets : Z
}.

Record TableEntry := mk_TableEntry {
  te_id : nat;
  te_counters : counters;
  te_priority : Z;
  te_cookie : Z;
  te_idle_timeout : Z;
  te_hard_timeout : Z;
  te_match : ofp_match;
  te_actions : list action;
  te_buffer_id : option Z
}.

(** [from_flow_mod], with the identity of the new object and the time. *)
Definition from_flow_mod (id : nat) (now : Z) (fm : ofp_flow_mod) : TableEntry :=
  mk_TableEntry id (mk_counters now now 0 0) (fm_priority fm) (fm_cookie fm) (fm_idle_timeout fm)
    (fm_hard_timeout fm) (fm_match fm) (fm_actions fm) (Some (fm_buffer_id fm)).

Definition set_actions (e : TableEntry) (l : list action) : TableEntry :=
  mk_TableEntry (te_id e) (te_counters e) (te_priority e) (te_cookie e) (te_idle_timeout e)
    (te_hard_timeout e) (te_match e) l (te_buffer_id e).

(** [isinstance(a, ofp_action_output) and a.port == out_port]. *)
Definition outputs_to (p : Z) (a : action) : bool :=
  match a with AOutput a => bool_decide (ao_port a = Some p) | _ => false end.
Definition check_port (e : TableEntry) (out_port : option Z) : bool :=
  match out_port with None => true | Some p => existsb (outputs_to p) (te_actions e) end.

Definition is_matched_by (e : TableEntry) (m : ofp_match) (priority : option Z) (strict : bool)
    (out_port : option Z) : bool :=
  if strict
  then match_eq (te_match e) m && bool_decide (Some (te_priority e) = priority) && check_port e out_port
  else matches_with_wildcards m (te_match e) true && check_port e out_port.

Definition touch_packet (e : TableEntry) (byte_count now : Z) : TableEntry :=
  let c := te_counters e in
  mk_TableEntry (te_id e) (mk_counters (created c) now (c_bytes c + byte_count) (c_packets c + 1))
    (te_priority e) (te_cookie e) (te_idle_timeout e) (te_hard_timeout e) (te_match e) (te_actions e)
    (te_buffer_id e).

Definition second : Z := 1000000000.

Definition is_expired (e : TableEntry) (now : Z) : bool :=
  ((0 <? te_hard_timeout e) && (te_hard_timeout e * second <? now - created (te_counters e))) ||
  ((0 <? te_idle_timeout e) && (te_idle_timeout e * second <? now - last_touched (te_counters e))).

(** [flow_stats] of an entry; the byte count reported is the time of the last
    packet, and the nanoseconds are those of the whole duration. *)
Definition entry_flow_stats (e : TableEntry) (now : Z) : ofp_flow_stats :=
  let duration := now - created (te_counters e) in
  mk_ofp_flow_stats 0 0 (te_match e) (Z.quot duration second) duration (te_priority e) (te_idle_timeout e)
    (te_hard_timeout e) (te_cookie e) (c_packets (te_counters e)) (last_touched (te_counters e)) (te_actions e).

(** ** The table *)

Record FlowTableModification := mk_modification { added : list TableEntry; removed : list TableEntry }.

(** The sort key: exact matches go first. *)
Definition sort_key (e : TableEntry) : Z :=
  if is_wildcarded (te_match e) then te_priority e else Z.shiftl 1 16 + 1.

(** [l.sort(key=..., reverse=True)]: stable, also in reverse. *)
Fixpoint insert_desc (e : TableEntry) (l : list TableEntry) : list TableEntry :=
  match l with
  | [] => [e]
  | e' :: l' => if sort_key e <? sort_key e' then e' :: insert_desc e l' else e :: l
  end.
Definition sort_desc (l : list TableEntry) : list TableEntry := foldr insert_desc [] l.

Definition add_entry (t : list TableEntry) (e : TableEntry) : list TableEntry * FlowTableModification :=
  (sort_desc (t ++ [e]), mk_modification [e] []).

(** [self._table.remove(entry)]. *)
Fixpoint list_remove (id : nat) (l : list TableEntry) : result (list TableEntry) :=
  match l with
  | [] => Err ValueError
  | e :: l => if (te_id e =? id)%nat then mret l else l ← list_remove id l; mret (e :: l)
  end.
Fixpoint remove_all (flows t : list TableEntry) : result (list TableEntry) :=
  match flows with
  | [] => mret t
  | e :: flows => t ← list_remove (te_id e) t; remove_all flows t
  end.

Definition remove_entry (t : list TableEntry) (e : TableEntry)
  : result (list TableEntry * FlowTableModification) :=
  t ← list_remove (te_id e) t; mret (t, mk_modification [] [e]).

(** [entries_for_port]: an output port is a number, which has no [port_no]. *)
Definition entries_for_port (t : list TableEntry) (port_no : Z) : result (list TableEntry) :=
  if existsb (fun e => match last (te_actions e) with Some (AOutput _) => true | _ => false end) t
  then Err AttributeError else mret [].

Definition matching_entries (t : list TableEntry) (m : ofp_match) (priority : Z) (strict : bool)
    (out_port : option Z) : list TableEntry :=
  filter (fun e => is_matched_by e m (Some priority) strict out_port = true) t.

Definition table_flow_stats (t : list TableEntry) (m : ofp_match) (out_port : option Z) (now : Z)
  : list ofp_flow_stats :=
  (fun e => entry_flow_stats e now) <$> matching_entries t m 0 false out_port.

Definition expired_entries (t : list TableEntry) (now : Z) : list TableEntry :=
  filter (fun e => is_expired e now = true) t.

Definition remove_expired_entries (t : list TableEntry) (now : Z)
  : result (list TableEntry * FlowTableModification) :=
  let flows := expired_entries t now in
  t ← remove_all flows t; mret (t, mk_modification [] flows).

Definition remove_matching_entries (t : list TableEntry) (m : ofp_match) (priority : Z) (strict : bool)
  : result (list TableEntry * FlowTableModification) :=
  let flows := matching_entries t m priority strict None in
  t ← remove_all flows t; mret (t, mk_modification [] flows).

Fixpoint entry_for_match (t : list TableEntry) (packet_match : ofp_match) : option TableEntry :=
  match t with
  | [] => None
  | e :: t =>
      if matches_with_wildcards (te_match e) packet_match false then Some e
      else entry_for_match t packet_match
  end.
Definition entry_for_packet (t : list TableEntry) (packet : ethernet) (in_port : Z) : option TableEntry :=
  entry_for_match t (from_packet packet (Some in_port)).

(** ** The switch's table *)

(** [next] is the identity of the next entry object. *)
Record SwitchFlowTable := mk_switch_table { entries : list TableEntry; next : nat }.
Definition empty_table : SwitchFlowTable := mk_switch_table [] 0.

Inductive fm_result := FmAdded | FmModified (l : list TableEntry) | FmRemoved (l : list TableEntry).

(** [self.add_entry(TableEntry.from_flow_mod(flow_mod))]. *)
Definition add_flow (now : Z) (fm : ofp_flow_mod) (t : list TableEntry) (next : nat)
  : SwitchFlowTable * FlowTableModification :=
  let '(t, ev) := add_entry t (from_flow_mod next now fm) in (mk_switch_table t (S next), ev).

(** [process_flow_mod]: the result with the events raised, and the table
    afterwards.  [DELETE] too removes with [strict=True]. *)
Definition process_flow_mod (now : Z) (fm : ofp_flow_mod) (t : SwitchFlowTable)
  : result (fm_result * list FlowTableModification) * SwitchFlowTable :=
  if negb (Z.land (fm_flags fm) OFPFF_CHECK_OVERLAP =? 0) then (Err NotImplementedError, t)
  else if negb (fm_out_port fm =? OFPP_NONE) then (Err NotImplementedError, t)
  else if fm_command fm =? OFPFC_ADD then
    match remove_matching_entries (entries t) (fm_match fm) (fm_priority fm) true with
    | Err e => (Err e, t)
    | Ok (l, ev) =>
        let '(t, ev') := add_flow now fm l (next t) in (Ok (FmAdded, [ev; ev']), t)
    end
  else if (fm_command fm =? OFPFC_MODIFY) || (fm_command fm =? OFPFC_MODIFY_STRICT) then
    let is_strict := fm_command fm =? OFPFC_MODIFY_STRICT in
    let hit e := is_matched_by e (fm_match fm) (Some (fm_priority fm)) is_strict None in
    let update e := if hit e then set_actions e (fm_actions fm) else e in
    match filter (fun e => hit e = true) (entries t) with
    | [] => let '(t, ev) := add_flow now fm (entries t) (next t) in (Ok (FmAdded, [ev]), t)
    | modified => (Ok (FmModified (update <$> modified), []), mk_switch_table (update <$> entries t) (next t))
    end
  else if (fm_command fm =? OFPFC_DELETE) || (fm_command fm =? OFPFC_DELETE_STRICT) then
    match remove_matching_entries (entries t) (fm_match fm) (fm_priority fm) true with
    | Err e => (Err e, t)
    | Ok (l, ev) => (Ok (FmRemoved (removed ev), [ev]), mk_switch_table l (next t))
    end
  else (Err AttributeError, t).

(** ** Sorting *)

Definition key_ge (a b : TableEntry) : Prop := sort_key b <= sort_key a.
Definition sorted (t : list TableEntry) : Prop := StronglySorted key_ge t.

#[global] Instance key_ge_trans : Transitive key_ge.
Proof. unfold key_ge. intros a b c. lia. Qed.

(** The entries that stay in front of [e], and those that go behind it. *)
Definition before (e : TableEntry) (t : list TableEntry) : list TableEntry :=
  filter (fun x => sort_key e <= sort_key x) t.
Definition behind (e : TableEntry) (t : list TableEntry) : list TableEntry :=
  filter (fun x => sort_key x < sort_key e) t.

Lemma Forall_filter (Q P : TableEntry -> Prop) `{!forall x, Decision (P x)} t :
  Forall Q t -> Forall Q (filter P t).
Proof. rewrite !Forall_forall. intros HQ x [_ Hx]%list_elem_of_filter. auto. Qed.

Lemma insert_desc_head e t : Forall (key_ge e) t -> insert_desc e t = e :: t.
Proof.
  unfold key_ge. destruct 1 as [|e' t He _]; [done|]. simpl.
  by destruct (Z.ltb_spec (sort_key e) (sort_key e')); [lia|].
Qed.

Lemma sort_desc_snoc t e : sorted t -> sort_desc (t ++ [e]) = before e t ++ e :: behind e t.
Proof.
  unfold sort_desc, before, behind. rewrite foldr_app. cbn [foldr insert_desc].
  induction 1 as [|a t Ht IH Ha]; [done|]. cbn [foldr]. rewrite IH.
  destruct (decide (sort_key e <= sort_key a)) as [H|H].
  - rewrite (filter_cons_True _ a) by done. rewrite (filter_cons_False _ a) by lia.
    rewrite insert_desc_head; [done|]. rewrite Forall_app, Forall_cons. split_and!.
    + by apply Forall_filter.
    + done.
    + by apply Forall_filter.
  - rewrite (filter_cons_False _ a) by done. rewrite (filter_cons_True _ a) by lia.
    assert (Hlt : Forall (fun x => sort_key x < sort_key e) t).
    { eapply Forall_impl; [exact Ha|]. unfold key_ge. simpl. lia. }
    assert (Hnone : filter (fun x => sort_key e <= sort_key x) t = []).
    { clear -Hlt. induction Hlt; [done|]. rewrite filter_cons_False by lia. done. }
    rewrite Hnone. cbn [app insert_desc]. destruct (Z.ltb_spec (sort_key a) (sort_key e)); [|lia].
    f_equal. apply insert_desc_head. by apply Forall_filter.
Qed.

Lemma elem_of_before_behind e t x : x ∈ before e t ++ e :: behind e t <-> x = e \/ x ∈ t.
Proof.
  unfold before, behind. rewrite elem_of_app, elem_of_cons, !list_elem_of_filter.
  destruct (decide (sort_key e <= sort_key x)); split; intros H; destruct_or?; destruct_and?; auto; lia || tauto || idtac.
  all: right; right; split; [lia|done].
Qed.

Lemma before_behind_perm e t : before e t ++ e :: behind e t ≡ₚ e :: t.
Proof.
  unfold before, behind. rewrite <-Permutation_middle. f_equiv.
  induction t as [|a t IH]; [done|].
  destruct (decide (sort_key e <= sort_key a)) as [H|H].
  - rewrite filter_cons_True, filter_cons_False by (done || lia). cbn [app]. by rewrite IH.
  - rewrite filter_cons_False, filter_cons_True by (done || lia). rewrite <-Permutation_middle. by rewrite IH.
Qed.

Lemma StronglySorted_app_key l1 l2 :
  sorted l1 -> sorted l2 -> (forall a b, a ∈ l1 -> b ∈ l2 -> key_ge a b) -> sorted (l1 ++ l2).
Proof.
  intros H1 H2 H. induction H1 as [|a l1 Hl1 IH Ha]; [done|]. cbn [app]. constructor.
  - apply IH. intros x y Hx Hy. apply H; [by right|done].
  - apply Forall_app. split; [done|]. apply Forall_forall. intros b Hb. apply H; [by left|done].
Qed.

Lemma sorted_filter (P : TableEntry -> Prop) `{!forall x, Decision (P x)} t : sorted t -> sorted (filter P t).
Proof.
  induction 1 as [|a t Ht IH Ha]; [constructor|]. rewrite filter_cons.
  destruct (decide (P a)); [|done]. constructor; [done|]. by apply Forall_filter.
Qed.

Lemma sorted_before_behind e t : sorted t -> sorted (before e t ++ e :: behind e t).
Proof.
  intros Ht. apply StronglySorted_app_key.
  - by apply sorted_filter.
  - constructor; [by apply sorted_filter|]. apply Forall_forall. unfold behind, key_ge.
    intros x [H _]%list_elem_of_filter. lia.
  - unfold before, behind, key_ge. intros a b [Ha _]%list_elem_of_filter.
    intros [->|[Hb _]%list_elem_of_filter]%elem_of_cons; lia.
Qed.

(** ** Removing *)

Lemma list_remove_middle l0 e l :
  te_id e ∉ te_id <$> l0 -> list_remove (te_id e) (l0 ++ e :: l) = Ok (l0 ++ l).
Proof.
  induction l0 as [|a l0 IH]; intros H; cbn [app list_remove].
  - by rewrite Nat.eqb_refl.
  - rewrite fmap_cons, not_elem_of_cons in H. destruct H as [H1 H2].
    destruct (Nat.eqb_spec (te_id a) (te_id e)); [congruence|]. by rewrite IH.
Qed.

Lemma remove_all_filter (f : TableEntry -> bool) t :
  NoDup (te_id <$> t) ->
  remove_all (filter (fun e => f e = true) t) t = Ok (filter (fun e => f e = false) t).
Proof.
  intros Hd. enough (G : forall l l0, NoDup (te_id <$> (l0 ++ l)) ->
    remove_all (filter (fun e => f e = true) l) (l0 ++ l) = Ok (l0 ++ filter (fun e => f e = false) l))
    by by apply (G t []).
  induction l as [|a l IH]; intros l0 Hn; [done|].
  destruct (f a) eqn:E.
  - rewrite (filter_cons_True _ a) by done. rewrite (filter_cons_False _ a) by congruence.
    cbn [remove_all]. rewrite list_remove_middle.
    + cbn [mbind result_bind]. apply IH. rewrite fmap_app in *. cbn [fmap list_fmap] in Hn.
      apply NoDup_app in Hn as (H1 & H2 & H3). apply NoDup_cons in H3 as [H3 H4].
      apply NoDup_app. split; [done|]. split; [|done]. intros x Hx Hx'. apply (H2 x Hx). by right.
    + rewrite fmap_app in Hn. apply NoDup_app in Hn as (_ & H2 & _). intros Hin.
      apply (H2 _ Hin). by left.
  - rewrite (filter_cons_False _ a) by congruence. rewrite (filter_cons_True _ a) by done.
    specialize (IH (l0 ++ [a])). rewrite <-!app_assoc in IH. by apply IH.
Qed.

(** ** The invariant of the switch's table *)

(** What an entry of the table and a flow modification must look like. *)
Definition entry_typed (e : TableEntry) : Prop := match_typed (te_match e).

(** Sorted by key, every object once, no object newer than the counter, and no
    two entries for the same match at the same priority. *)
Definition table_ok (t : SwitchFlowTable) : Prop :=
  sorted (entries t) /\ NoDup (te_id <$> entries t) /\
  Forall (fun e => (te_id e < next t)%nat) (entries t) /\ Forall entry_typed (entries t) /\
  (forall e e', e ∈ entries t -> e' ∈ entries t ->
     te_match e ≡ te_match e' -> te_priority e = te_priority e' -> te_id e = te_id e').

Lemma table_ok_empty : table_ok empty_table.
Proof.
  split; [constructor|]. split; [constructor|]. split; [constructor|]. split; [constructor|].
  intros e e' He. by apply not_elem_of_nil in He.
Qed.

(** Dropping entries keeps it. *)
Lemma table_ok_filter (P : TableEntry -> Prop) `{!forall x, Decision (P x)} t :
  table_ok t -> table_ok (mk_switch_table (filter P (entries t)) (next t)).
Proof.
  intros (H1 & H2 & H3 & H4 & H5). split; [by apply sorted_filter|]. split.
  { cbn [entries]. eapply sublist_NoDup; [exact H2|]. apply fmap_sublist, sublist_filter. }
  split; [by apply Forall_filter|]. split; [by apply Forall_filter|].
  intros e e' [_ He]%list_elem_of_filter [_ He']%list_elem_of_filter. by apply H5.
Qed.

(** So does changing what neither the key nor the identity depends on. *)
Definition same_flow (g : TableEntry -> TableEntry) : Prop :=
  forall e, te_id (g e) = te_id e /\ te_match (g e) = te_match e /\ te_priority (g e) = te_priority e.

Lemma same_flow_key g e : same_flow g -> sort_key (g e) = sort_key e.
Proof. intros Hg. destruct (Hg e) as (_ & H1 & H2). unfold sort_key. by rewrite H1, H2. Qed.

Lemma sorted_fmap g t : same_flow g -> sorted t -> sorted (g <$> t).
Proof.
  intros Hg. induction 1 as [|a t Ht IH Ha]; [constructor|]. cbn [fmap list_fmap]. constructor; [exact IH|].
  apply Forall_fmap. eapply Forall_impl; [exact Ha|]. unfold key_ge, compose. intros x.
  by rewrite !same_flow_key.
Qed.

Lemma table_ok_fmap g t :
  same_flow g -> table_ok t -> table_ok (mk_switch_table (g <$> entries t) (next t)).
Proof.
  intros Hg (H1 & H2 & H3 & H4 & H5). unfold table_ok. cbn [entries next].
  split; [by apply sorted_fmap|]. split; [|split; [|split]].
  - rewrite <-list_fmap_compose. erewrite list_fmap_ext; [exact H2|]. intros i e _. apply Hg.
  - apply Forall_fmap. eapply Forall_impl; [exact H3|]. intros e. unfold compose. by destruct (Hg e) as (-> & _).
  - apply Forall_fmap. eapply Forall_impl; [exact H4|]. intros e. unfold compose, entry_typed.
    by destruct (Hg e) as (_ & -> & _).
  - intros e e' (a & -> & Ha)%list_elem_of_fmap (b & -> & Hb)%list_elem_of_fmap.
    destruct (Hg a) as (-> & -> & ->), (Hg b) as (-> & -> & ->). by apply H5.
Qed.

(** And adding a flow that no entry has yet. *)
Lemma table_ok_add now fm t :
  table_ok t -> match_typed (fm_match fm) ->
  (forall e, e ∈ entries t -> te_match e ≡ fm_match fm -> te_priority e <> fm_priority fm) ->
  table_ok (fst (add_flow now fm (entries t) (next t))).
Proof.
  intros (H1 & H2 & H3 & H4 & H5) Hm Hnew. unfold add_flow, add_entry. cbn [fst entries next].
  set (e := from_flow_mod (next t) now fm). rewrite sort_desc_snoc by done. unfold table_ok. cbn [entries next].
  split; [by apply sorted_before_behind|]. pose proof (before_behind_perm e (entries t)) as Hp.
  rewrite Forall_forall in H3. split; [|split; [|split]].
  - rewrite Hp. cbn [fmap list_fmap]. apply NoDup_cons. split; [|done].
    intros (x & Hx & Hin)%list_elem_of_fmap. specialize (H3 x Hin). cbn in Hx. lia.
  - rewrite Hp, Forall_cons. cbn. split; [lia|]. apply Forall_forall. intros x Hx. specialize (H3 x Hx). lia.
  - rewrite Hp, Forall_cons. done.
  - intros a b. rewrite !elem_of_before_behind. intros [->|Ha] [->|Hb] Em Ep; [done| | |by apply H5].
    + exfalso. by apply (Hnew b Hb).
    + exfalso. by apply (Hnew a Ha).
Qed.

(** ** What the commands select *)

Definition same_slot (fm : ofp_flow_mod) (e : TableEntry) : bool :=
  match_eq (te_match e) (fm_match fm) && (te_priority e =? fm_priority fm).

Lemma strict_same_slot fm e : is_matched_by e (fm_match fm) (Some (fm_priority fm)) true None = same_slot fm e.
Proof.
  unfold is_matched_by, same_slot, check_port. rewrite andb_true_r. f_equal.
  apply eq_bool_prop_intro. rewrite bool_decide_spec, Is_true_true, Z.eqb_eq. by split; [intros [=]|intros ->].
Qed.

Lemma same_slot_spec fm e :
  entry_typed e -> match_typed (fm_match fm) ->
  same_slot fm e = true <-> te_match e ≡ fm_match fm /\ te_priority e = fm_priority fm.
Proof. intros He Hm. unfold same_slot. by rewrite andb_true_iff, match_eq_equiv, Z.eqb_eq by done. Qed.

Lemma matching_strict t fm :
  matching_entries t (fm_match fm) (fm_priority fm) true None = filter (fun e => same_slot fm e = true) t.
Proof. unfold matching_entries. apply list_filter_iff. intros e. by rewrite strict_same_slot. Qed.

Lemma remove_matching_strict t fm :
  NoDup (te_id <$> t) ->
  remove_matching_entries t (fm_match fm) (fm_priority fm) true
  = Ok (filter (fun e => same_slot fm e = false) t,
        mk_modification [] (filter (fun e => same_slot fm e = true) t)).
Proof.
  intros Hd. unfold remove_matching_entries. rewrite matching_strict, remove_all_filter by done. done.
Qed.

(** The checks at the head of [process_flow_mod]. *)
Definition accepted (fm : ofp_flow_mod) : Prop :=
  Z.land (fm_flags fm) OFPFF_CHECK_OVERLAP = 0 /\ fm_out_port fm = OFPP_NONE.
#[global] Instance accepted_dec fm : Decision (accepted fm).
Proof. unfold accepted. apply _. Defined.

(** Pass the two checks of an accepted message. *)
Ltac pass_checks Ha :=
  let H1 := fresh in let H2 := fresh in
  pose proof Ha as [H1 H2]; unfold process_flow_mod; rewrite H1, H2, !Z.eqb_refl; cbn [negb]; clear H1 H2.

Lemma rejected_unchanged now fm t : ~ accepted fm -> process_flow_mod now fm t = (Err NotImplementedError, t).
Proof.
  unfold accepted, process_flow_mod. intros H.
  destruct (Z.eqb_spec (Z.land (fm_flags fm) OFPFF_CHECK_OVERLAP) 0); [|done].
  destruct (Z.eqb_spec (fm_out_port fm) OFPP_NONE); [|done]. by destruct H.
Qed.

Lemma filter_nil_none (P : TableEntry -> Prop) `{!forall x, Decision (P x)} t e :
  filter P t = [] -> e ∈ t -> ~ P e.
Proof.
  intros Hf He HP. assert (Hin : e ∈ filter P t) by by apply list_elem_of_filter.
  rewrite Hf in Hin. by apply not_elem_of_nil in Hin.
Qed.

Lemma matches_refl_equiv a b :
  match_typed a -> match_typed b -> a ≡ b -> matches_with_wildcards a b true = true.
Proof. intros Ha Hb E. unfold matches_with_wildcards. by rewrite (proj2 (match_eq_equiv a b Ha Hb) E). Qed.

(** An entry for the same match at the same priority is selected by [MODIFY],
    strict or not. *)
Lemma modify_selects_slot fm e strict :
  entry_typed e -> match_typed (fm_match fm) -> te_match e ≡ fm_match fm -> te_priority e = fm_priority fm ->
  is_matched_by e (fm_match fm) (Some (fm_priority fm)) strict None = true.
Proof.
  intros He Hm E Ep. destruct strict.
  - rewrite strict_same_slot. by apply same_slot_spec.
  - unfold is_matched_by, check_port. rewrite andb_true_r. by apply matches_refl_equiv.
Qed.

(** ** Properties of the switch's table *)

(** The invariant, for the properties and for the switch that owns the table. *)
Lemma flow_mod_table_ok (now : Z) (fm : ofp_flow_mod) (t : SwitchFlowTable)
    (Hm : match_typed (fm_match fm)) (Ht : table_ok t) :
  table_ok (snd (process_flow_mod now fm t)).
Proof.
  destruct (decide (accepted fm)) as [Ha|Ha]; [|by rewrite rejected_unchanged].
  pass_checks Ha. pose proof Ht as (_ & Hd & _ & Hty & _).
  rewrite Forall_forall in Hty. rewrite !remove_matching_strict by done.
  destruct (_ =? OFPFC_ADD).
  - pose proof (table_ok_add now fm _ (table_ok_filter (fun e => same_slot fm e = false) t Ht) Hm) as Hadd.
    cbn [entries next] in Hadd. destruct (add_flow _ _ _ _) as [t' ev]. cbn [snd fst] in *. apply Hadd.
    intros e [Hs He]%list_elem_of_filter E Ep. apply not_true_iff_false in Hs. apply Hs, same_slot_spec; auto.
  - destruct (_ || _).
    + cbv zeta. match goal with |- context [match filter ?P ?l with [] => _ | _ => _ end] => destruct (filter P l) as [|x l0] eqn:E end.
      * pose proof (table_ok_add now fm t Ht Hm) as Hadd.
        destruct (add_flow _ _ _ _) as [t' ev]. cbn [snd fst] in *. apply Hadd.
        intros e He Ee Ep. apply (filter_nil_none _ _ e E He). apply modify_selects_slot; auto.
      * cbn [snd]. apply table_ok_fmap; [|done]. intros e. by destruct (is_matched_by _ _ _ _ _).
    + destruct (_ || _); [|done]. by apply table_ok_filter.
Qed.

(** C26: every flow modification, whatever its command, flags and outcome, keeps
    the table sorted by priority with exact matches first, free of duplicate
    objects, and with at most one entry per match and priority. *)
Theorem process_flow_mod_invariant (now : Z) (fm : ofp_flow_mod) (t : SwitchFlowTable)
    (Hm : match_typed (fm_match fm)) (Ht : table_ok t) :
  table_ok (snd (process_flow_mod now fm t)).
Proof. by apply flow_mod_table_ok. Qed.

Definition example_flow : ofp_flow_mod :=
  mk_ofp_flow_mod (new_header OFPT_FLOW_MOD) http_match 7 OFPFC_ADD 10 30 100 (-1) OFPP_NONE 0 example_actions.

Lemma process_flow_mod_invariant_witness :
  match_typed (fm_match example_flow) /\ table_ok empty_table /\
  table_ok (snd (process_flow_mod 5 example_flow empty_table)).
Proof.
  split; [apply match_typed_examples|]. split; [exact table_ok_empty|].
  exact (process_flow_mod_invariant 5 example_flow empty_table (proj2 (proj2 match_typed_examples)) table_ok_empty).
Defined.

(** The effect of [ADD]. *)
Lemma flow_add_effect (now : Z) (fm : ofp_flow_mod) (t : SwitchFlowTable)
    (Ha : accepted fm) (Hc : fm_command fm = OFPFC_ADD) (Ht : table_ok t) :
  let e := from_flow_mod (next t) now fm in
  let kept := filter (fun x => same_slot fm x = false) (entries t) in
  process_flow_mod now fm t =
    (Ok (FmAdded, [mk_modification [] (filter (fun x => same_slot fm x = true) (entries t));
                   mk_modification [e] []]),
     mk_switch_table (before e kept ++ e :: behind e kept) (S (next t))).
Proof.
  destruct Ht as (Hs & Hd & _). intros e kept. pass_checks Ha. rewrite Hc.
  change (OFPFC_ADD =? OFPFC_ADD) with true. cbv iota. rewrite remove_matching_strict by done.
  unfold add_flow, add_entry. fold e kept. rewrite sort_desc_snoc by by apply sorted_filter. done.
Qed.

(** [ADD] replaces: the entries for the same match and priority are removed
    and reported, and one entry with fresh counters and the message's actions
    is put behind the entries of the same key and in front of those below it;
    all other entries stay, in order. *)
Theorem flow_add_spec (now : Z) (fm : ofp_flow_mod) (t : SwitchFlowTable)
    (Ha : accepted fm) (Hc : fm_command fm = OFPFC_ADD) (Ht : table_ok t) :
  let e := from_flow_mod (next t) now fm in
  let kept := filter (fun x => same_slot fm x = false) (entries t) in
  process_flow_mod now fm t =
    (Ok (FmAdded, [mk_modification [] (filter (fun x => same_slot fm x = true) (entries t));
                   mk_modification [e] []]),
     mk_switch_table (before e kept ++ e :: behind e kept) (S (next t))).
Proof. by apply flow_add_effect. Qed.

Lemma flow_add_spec_witness :
  accepted example_flow /\ table_ok empty_table /\
  process_flow_mod 5 example_flow empty_table =
    (Ok (FmAdded, [mk_modification [] []; mk_modification [from_flow_mod 0 5 example_flow] []]),
     mk_switch_table [from_flow_mod 0 5 example_flow] 1).
Proof.
  split; [by split|]. split; [exact table_ok_empty|].
  refine (flow_add_spec 5 example_flow empty_table _ _ table_ok_empty); [by split|done].
Defined.

(** [MODIFY] gives the message's actions to the entries it selects (for the
    strict form the one with this match and priority, otherwise all whose match
    is subsumed) and changes nothing else of them, counters and order included;
    when it selects none, it adds the flow as [ADD] would. *)
Theorem flow_modify_spec (now : Z) (fm : ofp_flow_mod) (t : SwitchFlowTable) (strict : bool)
    (Ha : accepted fm) (Hc : fm_command fm = if strict then OFPFC_MODIFY_STRICT else OFPFC_MODIFY)
    (Ht : table_ok t) :
  let hit e := if strict then same_slot fm e else matches_with_wildcards (fm_match fm) (te_match e) true in
  let update e := if hit e then set_actions e (fm_actions fm) else e in
  ((exists e, e ∈ entries t /\ hit e = true) ->
     process_flow_mod now fm t =
       (Ok (FmModified ((fun e => set_actions e (fm_actions fm)) <$> filter (fun e => hit e = true) (entries t)), []),
        mk_switch_table (update <$> entries t) (next t))) /\
  ((forall e, e ∈ entries t -> hit e = false) ->
     let e := from_flow_mod (next t) now fm in
     process_flow_mod now fm t =
       (Ok (FmAdded, [mk_modification [e] []]),
        mk_switch_table (before e (entries t) ++ e :: behind e (entries t)) (S (next t)))) /\
  (forall e, let e' := set_actions e (fm_actions fm) in
     te_actions e' = fm_actions fm /\ te_counters e' = te_counters e /\ te_match e' = te_match e /\
     (te_id e', te_priority e', te_cookie e', te_idle_timeout e', te_hard_timeout e', te_buffer_id e')
     = (te_id e, te_priority e, te_cookie e, te_idle_timeout e, te_hard_timeout e, te_buffer_id e)).
Proof.
  intros hit update. apply and_assoc. split; [|done]. pass_checks Ha. rewrite Hc.
  assert (Hhit : forall e, is_matched_by e (fm_match fm) (Some (fm_priority fm)) strict None = hit e).
  { intros e. unfold hit. destruct strict; [apply strict_same_slot|].
    unfold is_matched_by, check_port. by rewrite andb_true_r. }
  assert (Hcmd : ((if strict then OFPFC_MODIFY_STRICT else OFPFC_MODIFY) =? OFPFC_ADD) = false /\
    (((if strict then OFPFC_MODIFY_STRICT else OFPFC_MODIFY) =? OFPFC_MODIFY) ||
     ((if strict then OFPFC_MODIFY_STRICT else OFPFC_MODIFY) =? OFPFC_MODIFY_STRICT)) = true /\
    ((if strict then OFPFC_MODIFY_STRICT else OFPFC_MODIFY) =? OFPFC_MODIFY_STRICT) = strict) by by destruct strict.
  destruct Hcmd as (-> & -> & ->). cbv zeta.
  rewrite (list_filter_iff _ (fun e => hit e = true)) by (intros; by rewrite Hhit).
  assert (Hmap : (fun e => if is_matched_by e (fm_match fm) (Some (fm_priority fm)) strict None
                           then set_actions e (fm_actions fm) else e) <$> entries t = update <$> entries t).
  { apply list_fmap_ext. intros i e _. unfold update. by rewrite Hhit. }
  split.
  - intros (e & He & Eh). destruct (filter _ (entries t)) as [|x l] eqn:E.
    { exfalso. by apply (filter_nil_none _ _ e E He). }
    rewrite <-E, Hmap. f_equal. f_equal. f_equal. f_equal.
    apply list_fmap_ext. intros i y Hy. apply list_elem_of_lookup_2, list_elem_of_filter in Hy as [Hy _].
    by rewrite Hhit, Hy.
  - intros Hn. destruct (filter _ (entries t)) as [|x l] eqn:E.
    + unfold add_flow, add_entry. rewrite sort_desc_snoc by apply Ht. done.
    + exfalso. assert (Hx : x ∈ filter (fun e => hit e = true) (entries t)) by (rewrite E; by left).
      apply list_elem_of_filter in Hx as [Hx He]. rewrite (Hn x He) in Hx. done.
Qed.

(** [DELETE] is treated as [DELETE_STRICT]: either command removes exactly
    the entry with this match and priority, and reports it; entries that the
    match merely subsumes stay. *)
Theorem flow_delete_spec (now : Z) (fm : ofp_flow_mod) (t : SwitchFlowTable)
    (Ha : accepted fm) (Hc : fm_command fm = OFPFC_DELETE \/ fm_command fm = OFPFC_DELETE_STRICT)
    (Ht : table_ok t) :
  let gone := filter (fun e => same_slot fm e = true) (entries t) in
  process_flow_mod now fm t =
    (Ok (FmRemoved gone, [mk_modification [] gone]),
     mk_switch_table (filter (fun e => same_slot fm e = false) (entries t)) (next t)).
Proof.
  destruct Ht as (_ & Hd & _). intros gone. pass_checks Ha.
  rewrite remove_matching_strict by done. by destruct Hc as [-> | ->].
Qed.

Definition example_table : SwitchFlowTable := snd (process_flow_mod 5 example_flow empty_table).

Lemma example_table_ok : table_ok example_table.
Proof.
  unfold example_table. split; [repeat constructor|]. split; [repeat constructor; set_solver|].
  split; [repeat constructor|]. split; [constructor; [apply match_typed_examples|constructor]|].
  intros e e' ->%list_elem_of_singleton ->%list_elem_of_singleton _ _. done.
Defined.

Definition with_command (c : Z) (m : ofp_match) (fm : ofp_flow_mod) : ofp_flow_mod :=
  mk_ofp_flow_mod (fm_hdr fm) m (fm_cookie fm) c (fm_idle_timeout fm) (fm_hard_timeout fm) (fm_priority fm)
    (fm_buffer_id fm) (fm_out_port fm) (fm_flags fm) (fm_actions fm).

(** A wildcard [MODIFY] reaches the entry; a wildcard [DELETE] does not. *)
Lemma flow_modify_spec_witness :
  process_flow_mod 6 (with_command OFPFC_MODIFY web_match example_flow) example_table =
    (Ok (FmModified ((fun e => set_actions e example_actions) <$> entries example_table), []), example_table).
Proof.
  refine (proj1 (flow_modify_spec 6 (with_command OFPFC_MODIFY web_match example_flow) example_table false _ _ example_table_ok) _).
  - by split.
  - done.
  - exists (from_flow_mod 0 5 example_flow). split; [by left|reflexivity].
Defined.

Lemma flow_delete_spec_witness :
  process_flow_mod 6 (with_command OFPFC_DELETE web_match example_flow) example_table =
    (Ok (FmRemoved [], [mk_modification [] []]), example_table).
Proof.
  refine (flow_delete_spec 6 (with_command OFPFC_DELETE web_match example_flow) example_table _ _ example_table_ok).
  - by split.
  - by left.
Defined.

(** ** Lookup *)

Lemma entry_for_match_Some t m e :
  entry_for_match t m = Some e ->
  exists t1 t2, t = t1 ++ e :: t2 /\ matches_with_wildcards (te_match e) m false = true /\
    Forall (fun x => matches_with_wildcards (te_match x) m false = false) t1.
Proof.
  induction t as [|a t IH]; [done|]. cbn [entry_for_match].
  destruct (matches_with_wildcards (te_match a) m false) eqn:E.
  - intros [= <-]. by exists [], t.
  - intros (t1 & t2 & -> & He & Hf)%IH. exists (a :: t1), t2. split; [done|]. split; [done|]. by constructor.
Qed.

Lemma entry_for_match_None t m :
  entry_for_match t m = None -> Forall (fun x => matches_with_wildcards (te_match x) m false = false) t.
Proof.
  induction t as [|a t IH]; [constructor|]. cbn [entry_for_match].
  destruct (matches_with_wildcards (te_match a) m false) eqn:E; [done|]. intros H. constructor; auto.
Qed.

(** What it is for an entry to apply to a packet. *)
Definition applies (e : TableEntry) (packet : ethernet) (in_port : Z) : Prop :=
  let m := from_packet packet (Some in_port) in te_match e ≡ m \/ covers (te_match e) m.

Lemma applies_spec e packet in_port :
  entry_typed e -> packet_typed packet ->
  matches_with_wildcards (te_match e) (from_packet packet (Some in_port)) false = true <-> applies e packet in_port.
Proof.
  intros He Hp. rewrite mww_equiv_or_covers by (done || by apply from_packet_typed). unfold applies.
  split; intros [E|E]; [by left|by right; apply E|by left|by right].
Qed.

(** The lookup of a packet returns an entry whose match the packet meets,
    of the highest key among all such entries (an exact match before any
    priority), the oldest place in the table among equals; it returns nothing
    only when no entry applies. *)
Theorem entry_for_packet_spec (t : SwitchFlowTable) (packet : ethernet) (in_port : Z)
    (Ht : table_ok t) (Hp : packet_typed packet) :
  match entry_for_packet (entries t) packet in_port with
  | Some e => e ∈ entries t /\ applies e packet in_port /\
      forall i j e', entries t !! i = Some e -> entries t !! j = Some e' -> applies e' packet in_port ->
        sort_key e' <= sort_key e /\ (e' <> e -> sort_key e' = sort_key e -> (i < j)%nat)
  | None => forall e, e ∈ entries t -> ~ applies e packet in_port
  end.
Proof.
  destruct Ht as (Hs & Hd & _ & Hty & _). rewrite Forall_forall in Hty. unfold entry_for_packet.
  destruct (entry_for_match _ _) as [e|] eqn:E.
  - apply entry_for_match_Some in E as (t1 & t2 & E & Hm & Hf).
    assert (He : e ∈ entries t) by (rewrite E; apply elem_of_app; right; by left).
    split; [done|]. split; [by apply applies_spec; auto|].
    intros i j e' Hi Hj Hap. pose proof (list_elem_of_lookup_2 _ _ _ Hj) as He'.
    apply applies_spec in Hap; [|auto|done]. apply NoDup_fmap_1 in Hd as Hd'.
    assert (Hi' : i = length t1).
    { eapply NoDup_lookup; [exact Hd'|exact Hi|]. rewrite E. by apply list_lookup_middle. }
    rewrite E in Hj. apply lookup_app_Some in Hj as [Hj|[Hge Hj]].
    + exfalso. apply list_elem_of_lookup_2 in Hj. rewrite Forall_forall in Hf. rewrite (Hf _ Hj) in Hap. done.
    + destruct (j - length t1)%nat as [|k] eqn:Ek; [injection Hj as <-; done|].
      assert (Hk : sort_key e' <= sort_key e).
      { clear -Hs E Hj. rewrite E in Hs. clear E. induction t1 as [|a t1 IH]; cbn [app] in Hs.
        - apply StronglySorted_inv in Hs as [_ Hs]. rewrite Forall_forall in Hs. apply Hs.
          by eapply list_elem_of_lookup_2.
        - apply StronglySorted_inv in Hs as [Hs _]. auto. }
      split; [done|]. intros _ _. lia.
  - apply entry_for_match_None in E. rewrite Forall_forall in E. intros e He Hap.
    apply applies_spec in Hap; [|auto|done]. rewrite (E e He) in Hap. done.
Qed.

Lemma entry_for_packet_spec_witness :
  table_ok example_table /\ packet_typed example_packet /\
  entry_for_packet (entries example_table) example_packet 1 = Some (from_flow_mod 0 5 example_flow) /\
  applies (from_flow_mod 0 5 example_flow) example_packet 1.
Proof.
  split; [exact example_table_ok|]. split; [exact example_packet_typed|].
  pose proof (entry_for_packet_spec example_table example_packet 1 example_table_ok example_packet_typed) as H.
  assert (E : entry_for_packet (entries example_table) example_packet 1 = Some (from_flow_mod 0 5 example_flow))
    by (vm_compute; reflexivity).
  split; [exact E|]. rewrite E in H. exact (proj1 (proj2 H)).
Defined.

(** ** Expiry and counters *)

(** Expiry removes exactly the entries that have outlived their hard timeout
    since creation or their idle timeout since their last packet (a zero
    timeout never expires), keeps the others in order, and reports what it
    removed; a packet that touches an entry restarts its idle timeout only. *)
Theorem remove_expired_spec (t : SwitchFlowTable) (now : Z) (Ht : table_ok t) :
  let expired e := (0 < te_hard_timeout e /\ te_hard_timeout e * second < now - created (te_counters e)) \/
                   (0 < te_idle_timeout e /\ te_idle_timeout e * second < now - last_touched (te_counters e)) in
  exists l gone, remove_expired_entries (entries t) now = Ok (l, mk_modification [] gone) /\
    entries t ≡ₚ gone ++ l /\ l `sublist_of` entries t /\ Forall expired gone /\ Forall (fun e => ~ expired e) l /\
    (forall e n, te_hard_timeout e = 0 -> 0 <= te_idle_timeout e -> ~ is_expired (touch_packet e n now) now = true).
Proof.
  intros expired.
  assert (Hx : forall e, is_expired e now = true <-> expired e).
  { intros e. unfold is_expired, expired. rewrite orb_true_iff, !andb_true_iff, !Z.ltb_lt. done. }
  exists (filter (fun e => is_expired e now = false) (entries t)), (expired_entries (entries t) now).
  destruct Ht as (_ & Hd & _). unfold remove_expired_entries, expired_entries. rewrite remove_all_filter by done.
  split; [done|]. split; [|split; [|split; [|split]]].
  - clear Hd. induction (entries t) as [|a l IH]; [done|]. destruct (is_expired a now) eqn:E.
    + rewrite (filter_cons_True _ a), (filter_cons_False _ a) by congruence. cbn [app]. by rewrite <-IH.
    + rewrite (filter_cons_False _ a) by congruence. rewrite (filter_cons_True _ a) by done.
      rewrite <-Permutation_middle. by rewrite <-IH.
  - apply sublist_filter.
  - apply Forall_forall. intros e [He _]%list_elem_of_filter. by apply Hx.
  - apply Forall_forall. intros e [He _]%list_elem_of_filter. rewrite <-Hx, He. done.
  - intros e n Hh Hi. unfold is_expired, touch_packet. cbn [te_hard_timeout te_idle_timeout te_counters created last_touched].
    rewrite Hh, Z.sub_diag. cbn [Z.ltb]. rewrite orb_true_iff, !andb_true_iff, !Z.ltb_lt. unfold second. lia.
Qed.

(** After 35 seconds the example entry is gone. *)
Lemma remove_expired_spec_witness :
  table_ok example_table /\
  remove_expired_entries (entries example_table) (35 * second) = Ok ([], mk_modification [] (entries example_table)).
Proof.
  split; [exact example_table_ok|].
  destruct (remove_expired_spec example_table (35 * second) example_table_ok) as (l & gone & E & _).
  vm_compute. reflexivity.
Defined.
