(* ===== verification/NomFlowTable.v ===== *)
(** * The network object model's flow table ([NOMFlowTable] of
    [pox/openflow/flow_table.py])

    A copy of a switch's table kept by the controller: changes are sent with a
    barrier behind them and made in the copy when the barrier is answered.  The
    switch object is three members of the state: whether it is connected, its
    generator of transaction ids, and the messages handed to its [send], which
    packs them at once.  The copy itself is a [FlowTable], to whose own events
    nothing listens. *)

From S2P Require Import Prelude PyStruct Addresses OfpMatch OfpActions OfpStructs OfpMessages OfpVarMessages OfpStream FlowTable.

(** A command and an entry. *)
Definition op : Type := Z * TableEntry.
(** Tuples are equal, as dictionary keys too, when the commands are and the
    entries are the same object. *)
Definition op_key (o : op) : Z * nat := (o.1, te_id o.2).

Definition nom_ADD : Z := OFPFC_ADD.
Definition nom_REMOVE : Z := OFPFC_DELETE.
Definition nom_REMOVE_STRICT : Z := OFPFC_DELETE_STRICT.

Record nom := mk_nom {
  flow_table : list TableEntry;
  nom_pending : list op;
  pending_barrier_to_ops : gmap Z (list op);
  pending_op_to_barrier : gmap (Z * nat) (Z * Z);
  nom_connected : bool;                (* [switch.connected] *)
  nom_next_xid : Z;                    (* [switch.xid_generator] *)
  nom_sent : list message;             (* [switch.send] *)
  nom_events : list FlowTableModification
}.
Definition new_nom (connected : bool) (xid : Z) : nom := mk_nom [] [] ∅ ∅ connected xid [] [].

Definition set_flow_table t (n : nom) : nom :=
  mk_nom t (nom_pending n) (pending_barrier_to_ops n) (pending_op_to_barrier n) (nom_connected n) (nom_next_xid n) (nom_sent n) (nom_events n).
Definition set_pending l (n : nom) : nom :=
  mk_nom (flow_table n) l (pending_barrier_to_ops n) (pending_op_to_barrier n) (nom_connected n) (nom_next_xid n) (nom_sent n) (nom_events n).
Definition set_barriers b o (n : nom) : nom :=
  mk_nom (flow_table n) (nom_pending n) b o (nom_connected n) (nom_next_xid n) (nom_sent n) (nom_events n).
Definition set_connected c (n : nom) : nom :=
  mk_nom (flow_table n) (nom_pending n) (pending_barrier_to_ops n) (pending_op_to_barrier n) c (nom_next_xid n) (nom_sent n) (nom_events n).
Definition add_sent m (n : nom) : nom :=
  mk_nom (flow_table n) (nom_pending n) (pending_barrier_to_ops n) (pending_op_to_barrier n) (nom_connected n) (nom_next_xid n) (nom_sent n ++ [m]) (nom_events n).
Definition add_event e (n : nom) : nom :=
  mk_nom (flow_table n) (nom_pending n) (pending_barrier_to_ops n) (pending_op_to_barrier n) (nom_connected n) (nom_next_xid n) (nom_sent n) (nom_events n ++ [e]).

(** [self.switch.xid_generator.next()]. *)
Definition next_xid : M nom Z := fun n =>
  (Ok (nom_next_xid n), mk_nom (flow_table n) (nom_pending n) (pending_barrier_to_ops n) (pending_op_to_barrier n) (nom_connected n)
    ((nom_next_xid n + 1) mod (MAX_XID + 1)) (nom_sent n) (nom_events n)).

Definition header_xid (t : Z) (x : option Z) : ofp_header := mk_header OFP_VERSION t 8 x.
(** [to_flow_mod(xid=..., command=...)]; packing raises when the entry has no
    buffer id. *)
Definition to_flow_mod (e : TableEntry) (xid command buffer_id : Z) : ofp_flow_mod :=
  mk_ofp_flow_mod (header_xid OFPT_FLOW_MOD (Some xid)) (te_match e) (te_cookie e) command (te_idle_timeout e) (te_hard_timeout e)
    (te_priority e) buffer_id OFPP_NONE 0 (te_actions e).
Definition send_op (o : op) : M nom unit :=
  x ← next_xid;
  b ← lift (need TypeError (te_buffer_id o.2));
  modify (add_sent (MFlowMod (to_flow_mod o.2 x o.1 b))).
Definition barrier_message (x : option Z) : message := MBarrierRequest (mk_ofp_barrier_request (header_xid OFPT_BARRIER_REQUEST x)).
Definition delete_all : message := MFlowMod (mk_ofp_flow_mod (new_header OFPT_FLOW_MOD) new_match 0 OFPFC_DELETE 0 0 OFP_DEFAULT_PRIORITY (-1) OFPP_NONE 0 []).

(** [_sync_pending]: the age of a pending operation is compared with the function
    [time.time] and not with the time, and every number is less than a function,
    so every pending operation is to be done. *)
Definition number_less_than_function (x : Z) : bool := true.
Definition TIME_OUT : Z := 2.
Definition to_do (n : nom) : list op :=
  filter (fun o => match pending_op_to_barrier n !! op_key o with
                   | None => true
                   | Some (_, time) => number_less_than_function (time + TIME_OUT * second)
                   end = true) (nom_pending n).

(** The messages for the operations [todo], and the barrier. *)
Definition sync_ops (now : Z) (todo : list op) : M nom unit :=
  _ ← for_each todo send_op;
  x ← next_xid;
  _ ← modify (add_sent (barrier_message (Some x)));
  modify (fun n => set_barriers (<[x := todo]> (pending_barrier_to_ops n))
    (foldl (fun m o => <[op_key o := (x, now)]> m) (pending_op_to_barrier n) todo) n).

Definition sync_pending (now : Z) (clear : bool) : M nom unit :=
  connected ← get nom_connected;
  if negb connected then mret tt else
  if clear then
    _ ← modify (set_barriers ∅ ∅);
    _ ← modify (fun n => set_pending (filter (fun o => o.1 = nom_ADD) (nom_pending n)) n);
    _ ← modify (add_sent delete_all);
    _ ← modify (add_sent (barrier_message None));
    todo ← get (fun n => ((fun e => (nom_ADD, e)) <$> flow_table n) ++ nom_pending n);
    sync_ops now todo
  else
    todo ← get to_do;
    sync_ops now todo.

(** [_mod]: an entry has no [matches_with_wildcards]. *)
Definition mod_one (command : Z) (e : TableEntry) : M nom unit :=
  pending ← get nom_pending;
  _ ← (if command =? nom_REMOVE then
         lift (guard_ok (forallb (fun o => negb (o.1 =? nom_ADD)) pending) AttributeError)
       else if command =? nom_REMOVE_STRICT then
         modify (set_pending (filter (fun o => ~ (o.1 = nom_ADD /\ te_id o.2 = te_id e)) pending))
       else mret tt);
  modify (fun n => set_pending (nom_pending n ++ [(command, e)]) n).
Definition nom_mod (now : Z) (entries : list TableEntry) (command : Z) : M nom unit :=
  _ ← for_each entries (mod_one command); sync_pending now false.
Definition install (now : Z) (entries : list TableEntry) : M nom unit := nom_mod now entries nom_ADD.
Definition remove_with_wildcards (now : Z) (entries : list TableEntry) : M nom unit := nom_mod now entries nom_REMOVE.
Definition remove_strict (now : Z) (entries : list TableEntry) : M nom unit := nom_mod now entries nom_REMOVE_STRICT.

Definition handle_SwitchConnectionUp (now : Z) : M nom unit := sync_pending now true.
Definition handle_SwitchConnectionDown : M nom unit := modify (set_barriers ∅ ∅).

(** [self.pending.remove(op)]. *)
Fixpoint remove_op (o : op) (l : list op) : result (list op) :=
  match l with
  | [] => Err ValueError
  | o' :: l => if decide (op_key o' = op_key o) then mret l else l ← remove_op o l; mret (o' :: l)
  end.

(** One operation confirmed: what it added and removed. *)
Definition confirm (o : op) : M nom (list TableEntry * list TableEntry) :=
  let '(command, entry) := o in
  t ← get flow_table;
  r ← (if command =? nom_ADD then
         _ ← modify (set_flow_table (fst (FlowTable.add_entry t entry))); mret ([entry], [])
       else
         '(t, ev) ← lift (remove_matching_entries t (te_match entry) (te_priority entry) (command =? nom_REMOVE_STRICT));
         _ ← modify (set_flow_table t); mret ([], removed ev));
  pending ← get nom_pending;
  pending ← lift (remove_op o pending);
  _ ← modify (set_pending pending);
  mret r.
Fixpoint confirm_all (l : list op) : M nom (list TableEntry * list TableEntry) :=
  match l with
  | [] => mret ([], [])
  | o :: l => '(a, r) ← confirm o; '(a', r') ← confirm_all l; mret (a ++ a', r ++ r')
  end.

(** [_handle_BarrierIn]; the result is whether the event is halted. *)
Definition handle_BarrierIn (xid : Z) : M nom bool :=
  barriers ← get pending_barrier_to_ops;
  match barriers !! xid with
  | None => mret false
  | Some todo =>
      '(a, r) ← confirm_all todo;
      _ ← modify (fun n => set_barriers (delete xid (pending_barrier_to_ops n)) (pending_op_to_barrier n) n);
      _ ← modify (add_event (mk_modification a r));
      mret true
  end.

(** [_handle_FlowRemoved]. *)
Fixpoint flow_of (m : ofp_match) (priority : Z) (t : list TableEntry) : option TableEntry :=
  match t with
  | [] => None
  | e :: t => if match_eq m (te_match e) && (priority =? te_priority e) then Some e else flow_of m priority t
  end.
Definition handle_FlowRemoved (m : ofp_match) (priority : Z) : M nom bool :=
  t ← get flow_table;
  match flow_of m priority t with
  | None => mret false
  | Some e =>
      '(t, _) ← lift (FlowTable.remove_entry t e);
      _ ← modify (set_flow_table t);
      _ ← modify (add_event (mk_modification [] [e]));
      mret true
  end.

(** ** What an exchange does *)

Definition xid_after (x : Z) : Z := (x + 1) mod (MAX_XID + 1).
Definition op_message (o : op) (x b : Z) : message := MFlowMod (to_flow_mod o.2 x o.1 b).

Lemma to_do_all n : to_do n = nom_pending n.
Proof.
  unfold to_do. induction (nom_pending n) as [|o l IH]; [done|]. rewrite filter_cons_True; [by rewrite IH|].
  by destruct (pending_op_to_barrier n !! op_key o) as [[]|].
Qed.

(** Sending operations changes the generator and what was sent only. *)
Definition sent_ops (x : Z) (l : list message) (n : nom) : nom :=
  mk_nom (flow_table n) (nom_pending n) (pending_barrier_to_ops n) (pending_op_to_barrier n) (nom_connected n) x (nom_sent n ++ l) (nom_events n).
Fixpoint op_messages (x : Z) (l : list op) : list message :=
  match l with
  | [] => []
  | o :: l => op_message o x (default 0 (te_buffer_id o.2)) :: op_messages (xid_after x) l
  end.
Lemma send_ops_ok l : forall n, Forall (fun o : op => te_buffer_id o.2 <> None) l ->
  for_each l send_op n = (Ok tt, sent_ops (Nat.iter (length l) xid_after (nom_next_xid n)) (op_messages (nom_next_xid n) l) n).
Proof.
  induction l as [|o l IH]; intros n H; [destruct n; unfold sent_ops; cbn; by rewrite app_nil_r|]. apply Forall_cons in H as [Ho H]. cbn [for_each]. rewrite M_bind_unfold.
  unfold send_op at 1. rewrite M_bind_unfold. cbn [next_xid]. destruct (te_buffer_id o.2) as [b|] eqn:Eb; [|done]. cbn [need]. rewrite M_bind_lift_Ok. cbn [modify].
  rewrite IH by done. unfold sent_ops. cbn [length op_messages add_sent flow_table nom_pending pending_barrier_to_ops pending_op_to_barrier nom_connected nom_next_xid nom_sent nom_events].
  rewrite Eb, Nat.iter_succ_r. cbn [default]. by rewrite <-app_assoc.
Qed.

Definition with_barrier (now : Z) (todo : list op) (x : Z) (n : nom) : nom :=
  set_barriers (<[x := todo]> (pending_barrier_to_ops n)) (foldl (fun m o => <[op_key o := (x, now)]> m) (pending_op_to_barrier n) todo) n.
Lemma sync_ops_ok now todo n : Forall (fun o : op => te_buffer_id o.2 <> None) todo ->
  let x := Nat.iter (length todo) xid_after (nom_next_xid n) in
  sync_ops now todo n = (Ok tt, with_barrier now todo x (sent_ops (xid_after x) (op_messages (nom_next_xid n) todo ++ [barrier_message (Some x)]) n)).
Proof.
  intros H x. unfold sync_ops. rewrite (M_bind_run _ _ _ _ _ (send_ops_ok todo n H)). rewrite M_bind_unfold. cbn [next_xid].
  rewrite M_bind_unfold. cbn [modify]. unfold with_barrier, sent_ops, add_sent, set_barriers. cbn. by rewrite <-app_assoc.
Qed.

Lemma confirm_add e n : 
  confirm (nom_ADD, e) n = match remove_op (nom_ADD, e) (nom_pending n) with
    | Ok l => (Ok ([e], []), set_pending l (set_flow_table (fst (FlowTable.add_entry (flow_table n) e)) n))
    | Err x => (Err x, set_flow_table (fst (FlowTable.add_entry (flow_table n) e)) n)
    end.
Proof.
  unfold confirm. rewrite Z.eqb_refl. unfold mbind, M_bind, mret, M_ret, get, modify, lift. cbn [nom_pending set_flow_table]. by destruct (remove_op _ _).
Qed.

Lemma confirm_remove command e n t' ev : command <> nom_ADD ->
  remove_matching_entries (flow_table n) (te_match e) (te_priority e) (command =? nom_REMOVE_STRICT) = Ok (t', ev) ->
  confirm (command, e) n = match remove_op (command, e) (nom_pending n) with
    | Ok l => (Ok ([], removed ev), set_pending l (set_flow_table t' n))
    | Err x => (Err x, set_flow_table t' n)
    end.
Proof.
  intros Hc E. unfold confirm. rewrite (proj2 (Z.eqb_neq _ _) Hc). unfold mbind, M_bind, mret, M_ret, get, modify, lift. rewrite E.
  cbn [nom_pending set_flow_table]. by destruct (remove_op _ _).
Qed.

(** Adding entries to the pending ones. *)
Lemma add_pending es n : for_each es (mod_one nom_ADD) n = (Ok tt, set_pending (nom_pending n ++ ((fun e => (nom_ADD, e)) <$> es)) n).
Proof.
  revert n. induction es as [|e es IH]; intros n; [destruct n; unfold set_pending; cbn; by rewrite app_nil_r|]. cbn [for_each]. rewrite M_bind_unfold.
  change (mod_one nom_ADD e n) with (Ok tt : result unit, set_pending (nom_pending n ++ [(nom_ADD, e)]) n). cbv iota beta. rewrite IH. unfold set_pending. cbn. by rewrite <-app_assoc.
Qed.

(** An operation of a copy that waits for nothing, and its barrier's number. *)
Lemma install_ok now es n : nom_connected n = true -> Forall (fun o : op => te_buffer_id o.2 <> None) (nom_pending n) -> Forall (fun e => te_buffer_id e <> None) es ->
  let todo := nom_pending n ++ ((fun e => (nom_ADD, e)) <$> es) in
  let x := Nat.iter (length todo) xid_after (nom_next_xid n) in
  install now es n = (Ok tt, with_barrier now todo x (sent_ops (xid_after x) (op_messages (nom_next_xid n) todo ++ [barrier_message (Some x)]) (set_pending todo n))).
Proof.
  intros Hc Hp He todo x. unfold install, nom_mod. rewrite (M_bind_run _ _ _ _ _ (add_pending es n)). unfold sync_pending. rewrite M_bind_unfold. cbn [get nom_connected set_pending].
  rewrite Hc. cbn [negb]. rewrite M_bind_unfold. unfold get at 1. rewrite to_do_all. cbn [set_pending nom_pending].
  refine (sync_ops_ok now todo (set_pending todo n) _). apply Forall_app. split; [done|]. by apply Forall_fmap.
Qed.

(** ** The copy and a switch *)

(** The same flow, whatever the objects and their counters. *)
Definition same_flow_entry (e e' : TableEntry) : Prop :=
  te_match e = te_match e' /\ te_priority e = te_priority e' /\ te_cookie e = te_cookie e' /\ te_idle_timeout e = te_idle_timeout e' /\
  te_hard_timeout e = te_hard_timeout e' /\ te_actions e = te_actions e'.

Lemma same_flow_sort_key e e' : same_flow_entry e e' -> sort_key e = sort_key e'.
Proof. intros (H1 & H2 & _). unfold sort_key. by rewrite H1, H2. Qed.
Lemma insert_desc_same e e' l l' : same_flow_entry e e' -> Forall2 same_flow_entry l l' -> Forall2 same_flow_entry (insert_desc e l) (insert_desc e' l').
Proof.
  intros He H. induction H as [|a a' l l' Ha Hl IH]; [by constructor|]. cbn [insert_desc]. rewrite (same_flow_sort_key _ _ He), (same_flow_sort_key _ _ Ha).
  destruct (_ <? _); (constructor; [done|]); [done|by constructor].
Qed.
Lemma sort_desc_same l l' : Forall2 same_flow_entry l l' -> Forall2 same_flow_entry (sort_desc l) (sort_desc l').
Proof. induction 1 as [|a a' l l' Ha Hl IH]; [constructor|]. by apply insert_desc_same. Qed.
Lemma add_entry_same e e' l l' : same_flow_entry e e' -> Forall2 same_flow_entry l l' ->
  Forall2 same_flow_entry (fst (FlowTable.add_entry l e)) (fst (FlowTable.add_entry l' e')).
Proof. intros He Hl. cbn. apply sort_desc_same. apply Forall2_app; [done|]. by constructor. Qed.
Lemma filter_slot_same fm b l l' : Forall2 same_flow_entry l l' ->
  Forall2 same_flow_entry (filter (fun e => same_slot fm e = b) l) (filter (fun e => same_slot fm e = b) l').
Proof.
  induction 1 as [|a a' l l' Ha Hl IH]; [done|]. assert (E : same_slot fm a = same_slot fm a') by (unfold same_slot; destruct Ha as (-> & -> & _); done).
  rewrite !filter_cons, E. destruct (decide (same_slot fm a' = b)); [by constructor|done].
Qed.

(** A switch gets messages: flow modifications are processed, others are not of
    the table's concern. *)
Definition switch_gets (now : Z) (l : list message) (s : SwitchFlowTable) : SwitchFlowTable :=
  foldl (fun s m => match m with MFlowMod fm => snd (process_flow_mod now fm s) | _ => s end) s l.

(** The copy waits for nothing and has the switch's flows, in the same order. *)
Definition mirrored (n : nom) (s : SwitchFlowTable) : Prop :=
  nom_connected n = true /\ nom_pending n = [] /\ NoDup (te_id <$> flow_table n) /\ Forall2 same_flow_entry (flow_table n) (entries s) /\ table_ok s.

(** An operation that is confirmed before the next one: installing a flow for
    which there is none, or removing one. *)
Definition exchange_ok (command : Z) (e : TableEntry) (t : list TableEntry) : Prop :=
  te_buffer_id e <> None /\ entry_typed e /\
  (command = nom_ADD /\ (te_id e ∉ te_id <$> t) /\ (forall f, f ∈ t -> te_match f ≡ te_match e -> te_priority f <> te_priority e) \/
   command = nom_REMOVE_STRICT).

Lemma exchange_messages now command e n : nom_connected n = true -> nom_pending n = [] -> te_buffer_id e <> None -> command = nom_ADD \/ command = nom_REMOVE_STRICT ->
  let x := xid_after (nom_next_xid n) in
  nom_mod now [e] command n = (Ok tt, with_barrier now [(command, e)] x (sent_ops (xid_after x) (op_messages (nom_next_xid n) [(command, e)] ++ [barrier_message (Some x)]) (set_pending [(command, e)] n))).
Proof.
  intros Hc Hp Hb Hcmd x. unfold nom_mod.
  assert (E : for_each [e] (mod_one command) n = (Ok tt, set_pending [(command, e)] n)).
  { destruct n as [t l b ob c nx sn ev]. cbn in Hp. subst l. by destruct Hcmd as [-> | ->]. }
  rewrite (M_bind_run _ _ _ _ _ E). unfold sync_pending. rewrite M_bind_unfold. cbn [get nom_connected set_pending]. rewrite Hc. cbn [negb].
  rewrite M_bind_unfold. unfold get at 1. rewrite to_do_all. cbn [set_pending nom_pending]. refine (sync_ops_ok now [(command, e)] (set_pending [(command, e)] n) _).
  by apply Forall_singleton.
Qed.

Lemma filter_keeps {A} (P : A -> Prop) `{!forall x, Decision (P x)} l : Forall P l -> filter P l = l.
Proof. induction 1 as [|a l Ha _ IH]; [done|]. rewrite filter_cons_True by done. by rewrite IH. Qed.
Lemma mirrored_slot n s (f : TableEntry) : mirrored n s -> f ∈ entries s -> exists f0, f0 ∈ flow_table n /\ te_match f0 = te_match f /\ te_priority f0 = te_priority f.
Proof.
  intros (_ & _ & _ & H & _) Hf. apply list_elem_of_lookup in Hf as [i Hi]. destruct (Forall2_lookup_r _ _ _ _ _ H Hi) as (f0 & Hi0 & E1 & E2 & _).
  exists f0. split; [by apply list_elem_of_lookup_2 in Hi0|done].
Qed.

Lemma mirrored_add now e x b n s : mirrored n s -> exchange_ok nom_ADD e (flow_table n) ->
  let fm := to_flow_mod e x nom_ADD b in
  exists t, snd (process_flow_mod now fm s) = t /\ table_ok t /\ Forall2 same_flow_entry (fst (FlowTable.add_entry (flow_table n) e)) (entries t).
Proof.
  intros Hm (Hb & Ht & [(_ & Hid & Hslot)|?]) fm; [|done]. pose proof Hm as (_ & _ & _ & Hf & Hok).
  assert (Hnew : forall f, f ∈ entries s -> te_match f ≡ fm_match fm -> te_priority f <> fm_priority fm).
  { intros f Hin Em. destruct (mirrored_slot n s f Hm Hin) as (f0 & Hin0 & E1 & E2). rewrite <-E2. apply Hslot; [done|]. by rewrite E1. }
  pose proof Hok as (_ & Hd & _ & Hty & _).
  assert (Hkeep : filter (fun f => same_slot fm f = false) (entries s) = entries s).
  { apply filter_keeps, Forall_forall. intros f Hin. apply not_true_is_false. rewrite same_slot_spec; [|by rewrite Forall_forall in Hty; apply Hty|done]. intros [E1 E2]. by apply (Hnew f). }
  assert (Ha : accepted fm) by done. eexists. split; [reflexivity|]. pass_checks Ha. change (fm_command fm =? OFPFC_ADD) with true. cbv iota.
  rewrite remove_matching_strict by done. rewrite Hkeep. pose proof (table_ok_add now fm s Hok Ht Hnew) as Hadd. unfold add_flow in *. cbn [FlowTable.add_entry fst snd entries] in *.
  split; [exact Hadd|]. by apply add_entry_same.
Qed.

Lemma sort_desc_perm l : sort_desc l ≡ₚ l.
Proof.
  induction l as [|e l IH]; [done|]. change (sort_desc (e :: l)) with (insert_desc e (sort_desc l)). rewrite <-IH at 2. generalize (sort_desc l). clear. intros l.
  induction l as [|a l IH]; [done|]. cbn [insert_desc]. destruct (_ <? _); [|done]. rewrite IH. constructor.
Qed.

(** The answer to the one barrier that matters. *)
Lemma exchange_confirmed now command e n n1 x : nom_pending n = [] ->
  n1 = with_barrier now [(command, e)] x (sent_ops (xid_after x) (op_messages (nom_next_xid n) [(command, e)] ++ [barrier_message (Some x)]) (set_pending [(command, e)] n)) ->
  forall t a r, (confirm (command, e) n1 = (Ok (a, r), set_pending [] (set_flow_table t n1))) ->
  exists n2, handle_BarrierIn x n1 = (Ok true, n2) /\ flow_table n2 = t /\ nom_pending n2 = [] /\ nom_connected n2 = nom_connected n /\
    nom_events n2 = nom_events n ++ [mk_modification a r] /\ nom_sent n2 = nom_sent n1.
Proof.
  intros Hp -> t a r E. eexists. split.
  - unfold handle_BarrierIn. rewrite M_bind_unfold. unfold get at 1. cbn [pending_barrier_to_ops with_barrier set_barriers]. rewrite lookup_insert_eq.
    assert (Ea : forall n', confirm (command, e) n' = (Ok (a, r), set_pending [] (set_flow_table t n')) -> confirm_all [(command, e)] n' = (Ok (a ++ [], r ++ []), set_pending [] (set_flow_table t n'))).
    { intros n' E'. cbn [confirm_all]. by rewrite (M_bind_run _ _ _ _ _ E'). }
    rewrite (M_bind_run _ _ _ _ _ (Ea _ E)). rewrite !app_nil_r. reflexivity.
  - by destruct n.
Qed.

Lemma barrier_runs x todo n : pending_barrier_to_ops n !! x = Some todo ->
  handle_BarrierIn x n = match confirm_all todo n with
    | (Ok (a, r), n') => (Ok true, add_event (mk_modification a r) (set_barriers (delete x (pending_barrier_to_ops n')) (pending_op_to_barrier n') n'))
    | (Err e, n') => (Err e, n')
    end.
Proof. intros E. unfold handle_BarrierIn. rewrite M_bind_unfold. unfold get at 1. rewrite E, M_bind_unfold. by destruct (confirm_all todo n) as [[[a r]|e] n']. Qed.
Lemma confirm_add_head e l n : (Ok ([e], []), set_pending l (set_flow_table (fst (FlowTable.add_entry (flow_table n) e)) n)) = confirm (nom_ADD, e) n <->
  remove_op (nom_ADD, e) (nom_pending n) = Ok l.
Proof.
  rewrite confirm_add. destruct (remove_op _ _) as [l'|x]; [|by split]. split; [|by intros [= ->]]. intros E. injection E. by intros ->.
Qed.
Lemma xid_after_differ x : 0 <= x <= MAX_XID -> xid_after (xid_after (xid_after x)) <> x.
Proof. unfold xid_after, MAX_XID. intros H. Z.div_mod_to_equations. lia. Qed.
Lemma xid_after_range x : 0 <= xid_after x <= MAX_XID.
Proof. unfold xid_after, MAX_XID. Z.div_mod_to_equations. lia. Qed.

(** ** Properties *)

(** C11: when every operation is confirmed before the next one, and flows are
    installed for which there is none, the copy has the switch's flows, in the
    switch's order, after each: what the copy sent is what makes it so. *)
Theorem nom_mirrors_switch (now command : Z) (e : TableEntry) (n : nom) (s : SwitchFlowTable) :
  mirrored n s -> exchange_ok command e (flow_table n) ->
  exists n1 n2 x l, nom_mod now [e] command n = (Ok tt, n1) /\ nom_sent n1 = nom_sent n ++ l ++ [barrier_message (Some x)] /\
    handle_BarrierIn x n1 = (Ok true, n2) /\ mirrored n2 (switch_gets now (l ++ [barrier_message (Some x)]) s) /\
    flow_table n1 = flow_table n /\ nom_sent n2 = nom_sent n1 /\
    exists ev, nom_events n2 = nom_events n ++ [ev] /\ (command = nom_ADD -> added ev = [e] /\ removed ev = []).
Proof.
  intros Hm He. pose proof Hm as (Hc & Hp & Hd & Hf & Hok). pose proof He as (Hb & Ht & Hcase).
  set (x := xid_after (nom_next_xid n)). assert (Hcmd : command = nom_ADD \/ command = nom_REMOVE_STRICT) by tauto.
  pose proof (exchange_messages now command e n Hc Hp Hb Hcmd) as Emod. cbv zeta in Emod. fold x in Emod.
  destruct (te_buffer_id e) as [b|] eqn:Eb; [|done].
  set (n1 := with_barrier now [(command, e)] x (sent_ops (xid_after x) (op_messages (nom_next_xid n) [(command, e)] ++ [barrier_message (Some x)]) (set_pending [(command, e)] n))) in *.
  assert (Hconf : exists t a r, confirm (command, e) n1 = (Ok (a, r), set_pending [] (set_flow_table t n1)) /\ (command = nom_ADD -> a = [e] /\ r = []) /\
    NoDup (te_id <$> t) /\ exists s', snd (process_flow_mod now (to_flow_mod e (nom_next_xid n) command b) s) = s' /\ table_ok s' /\ Forall2 same_flow_entry t (entries s')).
  { assert (Hrem : remove_op (command, e) (nom_pending n1) = Ok []) by (subst n1; cbn; by rewrite decide_True).
    destruct Hcase as [(-> & Hid & Hslot)| ->].
    - eexists _, _, _. split; [rewrite confirm_add, Hrem; reflexivity|]. split; [done|]. split.
      + cbn. rewrite sort_desc_perm, fmap_app. apply NoDup_app. split; [exact Hd|]. split; [|apply NoDup_singleton]. intros i Hi ->%list_elem_of_singleton. by apply Hid.
      + by apply (mirrored_add now e (nom_next_xid n) b n s Hm).
    - set (fm := to_flow_mod e (nom_next_xid n) nom_REMOVE_STRICT b). eexists _, _, _. split.
      + assert (Hne : nom_REMOVE_STRICT <> nom_ADD) by done.
        rewrite (confirm_remove nom_REMOVE_STRICT e n1 _ _ Hne (remove_matching_strict (flow_table n) fm Hd)). rewrite Hrem. reflexivity.
      + split; [done|]. split; [eapply sublist_NoDup; [exact Hd|]; apply fmap_sublist, sublist_filter|].
        assert (Ha : accepted fm) by done. eexists. split; [reflexivity|]. pass_checks Ha. cbn [fm_command fm to_flow_mod]. cbv [nom_REMOVE_STRICT OFPFC_DELETE_STRICT OFPFC_ADD OFPFC_MODIFY OFPFC_MODIFY_STRICT OFPFC_DELETE]. cbn [Z.eqb Pos.eqb orb].
        rewrite remove_matching_strict by apply Hok. cbn [snd entries]. split; [by apply table_ok_filter|by apply filter_slot_same]. }
  destruct Hconf as (t & a & r & E & Hadd & Hnd & s' & Es & Hs' & Hf').
  destruct (exchange_confirmed now command e n n1 x Hp eq_refl t a r E) as (n2 & E2 & T1 & T2 & T3 & T4 & T5).
  exists n1, n2, x, (op_messages (nom_next_xid n) [(command, e)]). split; [exact Emod|]. split; [done|]. split; [exact E2|]. split.
  - unfold mirrored. rewrite T1, T2, T3. split; [done|]. split; [done|]. split; [done|]. cbn [op_messages app]. unfold switch_gets. cbn [foldl op_message barrier_message fst snd].
    rewrite Eb. cbn [default from_option]. unfold id. rewrite Es. done.
  - split; [done|]. split; [done|]. exists (mk_modification a r). split; [done|]. exact Hadd.
Qed.

(** Two installations in a row break the copy: the second sends the first
    flow again, whose second confirmation puts it into the table twice and then
    raises, so the second flow is never in the copy. *)
Theorem nom_double_install (now : Z) (e1 e2 : TableEntry) (n : nom) :
  nom_connected n = true -> nom_pending n = [] -> 0 <= nom_next_xid n <= MAX_XID -> te_id e1 <> te_id e2 -> te_buffer_id e1 <> None -> te_buffer_id e2 <> None ->
  exists x1 x2 n2 n3 n4, (_ ← install now [e1]; install now [e2]) n = (Ok tt, n2) /\
    nom_sent n2 = nom_sent n ++ op_messages (nom_next_xid n) [(nom_ADD, e1)] ++ [barrier_message (Some x1)] ++
      op_messages (xid_after x1) [(nom_ADD, e1); (nom_ADD, e2)] ++ [barrier_message (Some x2)] /\
    handle_BarrierIn x1 n2 = (Ok true, n3) /\ flow_table n3 = fst (FlowTable.add_entry (flow_table n) e1) /\
    handle_BarrierIn x2 n3 = (Err ValueError, n4) /\
    flow_table n4 = fst (FlowTable.add_entry (flow_table n3) e1) /\ nom_pending n4 = [(nom_ADD, e2)] /\ nom_events n4 = nom_events n3.
Proof.
  intros Hc Hp Hx Hid B1 B2. set (o1 := (nom_ADD, e1) : op). set (o2 := (nom_ADD, e2) : op). set (x1 := xid_after (nom_next_xid n)). set (x2 := xid_after (xid_after (xid_after x1))).
  assert (Hx12 : x2 <> x1) by (apply xid_after_differ, xid_after_range).
  pose proof (install_ok now [e1] n Hc ltac:(rewrite Hp; constructor) ltac:(by apply Forall_singleton)) as E1. cbv zeta in E1. rewrite Hp in E1. cbn [fmap list_fmap app length Nat.iter] in E1. fold o1 x1 in E1.
  set (n1 := with_barrier _ _ _ _) in E1.
  pose proof (install_ok now [e2] n1 Hc ltac:(by apply Forall_singleton) ltac:(by apply Forall_singleton)) as E2. cbv zeta in E2. change (nom_pending n1) with [o1] in E2.
  change (nom_next_xid n1) with (xid_after x1) in E2. cbn [fmap list_fmap app length Nat.iter] in E2. fold o2 x2 in E2. set (n2 := with_barrier _ _ _ _) in E2.
  assert (R1 : remove_op o1 (nom_pending n2) = Ok [o2]) by (cbn; by rewrite decide_True).
  assert (L1 : pending_barrier_to_ops n2 !! x1 = Some [o1]) by (cbn; rewrite lookup_insert_ne by done; apply lookup_insert_eq).
  pose proof (barrier_runs x1 [o1] n2 L1) as E3. cbn [confirm_all] in E3. rewrite (M_bind_run _ _ _ _ _ (eq_sym (proj2 (confirm_add_head e1 [o2] n2) R1))) in E3. cbv iota beta in E3.
  unfold mbind, M_bind, mret, M_ret in E3. cbv iota beta in E3. set (n3 := add_event _ _) in E3.
  assert (L2 : pending_barrier_to_ops n3 !! x2 = Some [o1; o2]) by (cbn; rewrite lookup_delete_ne by done; apply lookup_insert_eq).
  assert (R2 : remove_op o1 (nom_pending n3) = Err ValueError) by (cbn; rewrite decide_False; [done|]; by intros [= ?]).
  pose proof (barrier_runs x2 [o1; o2] n3 L2) as E4. cbn [confirm_all] in E4. unfold mbind, M_bind in E4. unfold o1 at 1 in E4. rewrite confirm_add in E4. fold o1 in E4. rewrite R2 in E4.
  exists x1, x2, n2, n3. eexists. split; [unfold mbind, M_bind; rewrite E1; exact E2|]. split; [cbn; by rewrite <-app_assoc|]. split; [exact E3|]. split; [done|]. split; [exact E4|]. done.
Qed.

(** After a reconnection the copy sends its flows and the additions it still
    waits for again; the answer puts the first flow into the copy twice and
    raises, so that no addition is ever confirmed by it. *)
Theorem nom_resync_raises (now : Z) (e : TableEntry) (t : list TableEntry) (n : nom) :
  nom_connected n = true -> flow_table n = e :: t -> Forall (fun f => te_buffer_id f <> None) (flow_table n) ->
  Forall (fun o : op => te_buffer_id o.2 <> None /\ te_id o.2 <> te_id e) (nom_pending n) ->
  let todo := ((fun f => (nom_ADD, f)) <$> flow_table n) ++ filter (fun o => o.1 = nom_ADD) (nom_pending n) in
  exists x n1 n2, (_ ← handle_SwitchConnectionDown; handle_SwitchConnectionUp now) n = (Ok tt, n1) /\
    nom_sent n1 = nom_sent n ++ [delete_all; barrier_message None] ++ op_messages (nom_next_xid n) todo ++ [barrier_message (Some x)] /\
    handle_BarrierIn x n1 = (Err ValueError, n2) /\ flow_table n2 = fst (FlowTable.add_entry (e :: t) e) /\
    nom_pending n2 = filter (fun o => o.1 = nom_ADD) (nom_pending n) /\ nom_events n2 = nom_events n.
Proof.
  intros Hc Et Hb Hp todo. set (adds := filter (fun o : op => o.1 = nom_ADD) (nom_pending n)).
  set (n0 := add_sent (barrier_message None) (add_sent delete_all (set_pending adds (set_barriers ∅ ∅ n)))).
  assert (Hadds : Forall (fun o : op => te_buffer_id o.2 <> None /\ te_id o.2 <> te_id e) adds).
  { apply Forall_forall. intros o [_ Ho]%list_elem_of_filter. rewrite Forall_forall in Hp. by apply Hp. }
  assert (Hall : Forall (fun o : op => te_buffer_id o.2 <> None) todo).
  { apply Forall_app. split; [by apply Forall_fmap|]. apply (Forall_impl _ _ _ Hadds). by intros o [Ho _]. }
  pose proof (sync_ops_ok now todo n0 Hall) as E. cbv zeta in E. set (x := Nat.iter _ _ _) in E. set (n1 := with_barrier _ _ _ _) in E.
  assert (Hrun : (_ ← handle_SwitchConnectionDown; handle_SwitchConnectionUp now) n = (Ok tt, n1)).
  { unfold handle_SwitchConnectionDown, handle_SwitchConnectionUp, sync_pending, mbind, M_bind, get, modify. cbn [nom_connected set_barriers]. rewrite Hc. exact E. }
  assert (L : pending_barrier_to_ops n1 !! x = Some todo) by apply lookup_insert_eq.
  pose proof (barrier_runs x todo n1 L) as E2. subst todo. rewrite Et in E2. cbn [fmap list_fmap app confirm_all] in E2. unfold mbind, M_bind in E2. rewrite confirm_add in E2.
  assert (R : remove_op (nom_ADD, e) (nom_pending n1) = Err ValueError).
  { change (nom_pending n1) with adds. clear -Hadds. induction Hadds as [|o l [_ Ho] _ IH]; [done|]. cbn [remove_op]. rewrite decide_False by (intros [= ? ?]; by apply Ho). by rewrite IH. }
  rewrite R in E2. exists x, n1. eexists. split; [exact Hrun|]. split; [cbn; by rewrite <-!app_assoc|]. split; [exact E2|]. cbn. by rewrite Et.
Qed.

(** ** Instances of the properties *)
Module NomExamples.
Definition flow (id : nat) (priority : Z) : TableEntry :=
  mk_TableEntry id (mk_counters 0 0 0 0) priority 0 0 0 new_match [AOutput (mk_action_output OFPAT_OUTPUT 8 (Some 3) 0)] (Some (-1)).
Definition holding (l : list TableEntry) : nom := mk_nom l [] ∅ ∅ true 1 [] [].
Definition switch_with (l : list TableEntry) : SwitchFlowTable := mk_switch_table l 10.
End NomExamples.

Lemma nom_mirrors_switch_witness :
  exists n1 n2 x l, nom_mod 0 [NomExamples.flow 2 7] nom_ADD (NomExamples.holding [NomExamples.flow 1 5]) = (Ok tt, n1) /\
    handle_BarrierIn x n1 = (Ok true, n2) /\ mirrored n2 (switch_gets 0 (l ++ [barrier_message (Some x)]) (NomExamples.switch_with [NomExamples.flow 9 5])) /\
    nom_sent n1 = l ++ [barrier_message (Some x)].
Proof.
  assert (Hm : mirrored (NomExamples.holding [NomExamples.flow 1 5]) (NomExamples.switch_with [NomExamples.flow 9 5])).
  { split; [done|]. split; [done|]. split; [apply NoDup_singleton|]. split; [repeat constructor|]. split; [repeat constructor|]. split; [apply NoDup_singleton|].
    split; [repeat constructor; cbn; lia|]. split; [by repeat constructor; apply match_typed_examples|]. intros a b Ha Hb. apply list_elem_of_singleton in Ha, Hb. by subst. }
  destruct (nom_mirrors_switch 0 nom_ADD (NomExamples.flow 2 7) _ _ Hm) as (n1 & n2 & x & l & E1 & E2 & E3 & E4 & _).
  - split; [done|]. split; [by apply match_typed_examples|]. left. split; [done|]. split; [cbn; by intros [= ?]%list_elem_of_singleton|].
    by intros f ->%list_elem_of_singleton.
  - exists n1, n2, x, l. done.
Defined.

Lemma nom_double_install_witness :
  exists x1 x2 n2 n3 n4, (_ ← install 0 [NomExamples.flow 1 5]; install 0 [NomExamples.flow 2 7]) (NomExamples.holding []) = (Ok tt, n2) /\
    handle_BarrierIn x1 n2 = (Ok true, n3) /\ handle_BarrierIn x2 n3 = (Err ValueError, n4) /\
    flow_table n4 = [NomExamples.flow 1 5; NomExamples.flow 1 5] /\ nom_pending n4 = [(nom_ADD, NomExamples.flow 2 7)].
Proof.
  destruct (nom_double_install 0 (NomExamples.flow 1 5) (NomExamples.flow 2 7) (NomExamples.holding [])) as (x1 & x2 & n2 & n3 & n4 & E1 & _ & E3 & E4 & E5 & E6 & E7 & _); try done.
  exists x1, x2, n2, n3, n4. split; [exact E1|]. split; [exact E3|]. split; [exact E5|]. split; [|exact E7]. rewrite E6, E4. by vm_compute.
Defined.

Lemma nom_resync_raises_witness :
  exists x n1 n2, (_ ← handle_SwitchConnectionDown; handle_SwitchConnectionUp 0) (NomExamples.holding [NomExamples.flow 1 5]) = (Ok tt, n1) /\
    handle_BarrierIn x n1 = (Err ValueError, n2) /\ flow_table n2 = [NomExamples.flow 1 5; NomExamples.flow 1 5].
Proof.
  destruct (nom_resync_raises 0 (NomExamples.flow 1 5) [] (NomExamples.holding [NomExamples.flow 1 5])) as (x & n1 & n2 & E1 & _ & E2 & E3 & _); [done|done|by repeat constructor|constructor|].
  exists x, n1, n2. split; [exact E1|]. split; [exact E2|]. rewrite E3. by vm_compute.
Defined.
