(* ===== verification/Topology.v ===== *)
(** * The topology ([pox/topology/topology.py]) and its OpenFlow side
    ([pox/openflow/topology.py])

    Entities have numbers, given or drawn; an entity is named by its number,
    since no two objects ever get the same one.  [world] has the class members of
    [Entity], the entities of the [Topology], the [OpenFlowSwitch] objects by
    their number, those that have left too, each with its copy of the switch's
    flow table ([NomFlowTable]), which is the one listener of its events, and the
    events raised, in order.  Host entities and pickling are left out. *)

From S2P Require Import Prelude PyStruct Addresses Codec OfpMatch OfpActions OfpStructs OfpMessages OfpVarMessages OfpStream FlowTable NomFlowTable.

(** ** Entities *)

(** [OpenFlowPort]; the ports that a switch has exist. *)
Record OpenFlowPort := mk_OpenFlowPort {
  pt_id : Z; pt_number : Z; pt_name : bytes; pt_hwAddr : EthAddr; pt_isController : bool; pt_config : Z; pt_state : Z; pt_entities : gset Z
}.
(** [OpenFlowSwitch]; a connection is a number, the timer the time at
    which it is due, and the switch listens to connections. *)
Record OpenFlowSwitch := mk_OpenFlowSwitch {
  sw_ports : gmap Z OpenFlowPort; sw_flow_table : nom; sw_capabilities : Z; sw_connection : option nat; sw_listening : list nat; sw_reconnectTimeout : option Z
}.

Inductive entity_kind := KindSwitch | KindHost | KindOther.
#[global] Instance entity_kind_eq_dec : EqDecision entity_kind.
Proof. solve_decision. Defined.

Inductive topo_event :=
  | Join (k : entity_kind) (id : Z)          (* [SwitchJoin], [HostJoin], [EntityJoin] of the topology *)
  | Leave (k : entity_kind) (id : Z)
  | Update
  | OfSwitch (id : Z) (what : string).       (* events of the switch object *)

Record topo := mk_topo {
  next_id : Z; all_ids : gset Z;              (* [Entity._next_id], [_all_ids] *)
  entities : gmap Z entity_kind;              (* [_entities] *)
  of_switches : gmap Z OpenFlowSwitch;
  topo_events : list topo_event
}.
Definition new_topo : topo := mk_topo 101 ∅ ∅ ∅ [].

Definition set_ids n ids (t : topo) : topo := mk_topo n ids (entities t) (of_switches t) (topo_events t).
Definition set_entities es (t : topo) : topo := mk_topo (next_id t) (all_ids t) es (of_switches t) (topo_events t).
Definition set_switch id s (t : topo) : topo := mk_topo (next_id t) (all_ids t) (entities t) (<[id := s]> (of_switches t)) (topo_events t).
Definition raise_topo es (t : topo) : topo := mk_topo (next_id t) (all_ids t) (entities t) (of_switches t) (topo_events t ++ es).

(** [Entity.__init__] with a number, which is not 0. *)
Definition entity_with_id (id : Z) : M topo unit :=
  ids ← get all_ids;
  if decide (id ∈ ids) then lift (Err PlainException) else modify (fun t => set_ids (next_id t) ({[id]} ∪ ids) t).
(** And without: at most [size ids] numbers are taken. *)
Fixpoint free_id (fuel : nat) (ids : gset Z) (n : Z) : Z :=
  match fuel with O => n | S fuel => if decide (n ∈ ids) then free_id fuel ids (n + 1) else n end.
Definition entity_without_id : M topo Z := fun t =>
  let n := free_id (size (all_ids t)) (all_ids t) (next_id t) in (Ok n, set_ids n ({[n]} ∪ all_ids t) t).

(** ** The topology *)

Definition addEntity (id : Z) (k : entity_kind) : M topo unit :=
  es ← get entities;
  match es !! id with
  | Some _ => lift (Err RuntimeError)
  | None => _ ← modify (set_entities (<[id := k]> es)); modify (raise_topo [Join k id; Update])
  end.
Definition removeEntity (id : Z) : M topo unit :=
  es ← get entities;
  match es !! id with
  | None => lift (Err KeyError)
  | Some k => _ ← modify (set_entities (delete id es)); modify (raise_topo [Leave k id; Update])
  end.
Definition getEntityByID (id : Z) : M topo (option entity_kind) := get (fun t => entities t !! id).
(** [_fulfill_SwitchJoin_promise]: what a listener that comes late is told;
    [items] is the order of the dictionary. *)
Definition fulfill_SwitchJoin_promise (items : gmap Z entity_kind -> list (Z * entity_kind)) (t : topo) : list topo_event :=
  (fun e => Join KindSwitch e.1) <$> filter (fun e => e.2 = KindSwitch) (items (entities t)).

(** ** Switches *)

Definition RECONNECT_TIMEOUT : Z := 30.

Definition hw_addr (h : hwaddr) : result EthAddr := EthAddr_init (match h with HwEth a => EAddr a | HwRaw b => EStr b end).
Definition port_update (p : ofp_phy_port) (o : OpenFlowPort) : result OpenFlowPort :=
  _ ← guard_ok (bool_decide (pt_name o = pp_name p)) AssertionError;
  _ ← guard_ok (pt_number o =? pp_port_no p) AssertionError;
  a ← hw_addr (pp_hw_addr p);
  mret (mk_OpenFlowPort (pt_id o) (pt_number o) (pt_name o) a (pt_isController o) (pp_config p) (pp_state p) (pt_entities o)).
Definition new_OpenFlowPort (p : ofp_phy_port) : M topo OpenFlowPort :=
  id ← entity_without_id;
  a ← lift (hw_addr (pp_hw_addr p));
  lift (port_update p (mk_OpenFlowPort id (pp_port_no p) (pp_name p) a (pp_port_no p =? OFPP_CONTROLLER) 0 0 ∅)).
Definition port_addEntity (e : Z) (single : bool) (o : OpenFlowPort) : OpenFlowPort :=
  mk_OpenFlowPort (pt_id o) (pt_number o) (pt_name o) (pt_hwAddr o) (pt_isController o) (pt_config o) (pt_state o) (if single then {[e]} else {[e]} ∪ pt_entities o).
Definition port_discard (e : Z) (o : OpenFlowPort) : OpenFlowPort :=
  mk_OpenFlowPort (pt_id o) (pt_number o) (pt_name o) (pt_hwAddr o) (pt_isController o) (pt_config o) (pt_state o) (pt_entities o ∖ {[e]}).

Definition set_ports ps (s : OpenFlowSwitch) : OpenFlowSwitch :=
  mk_OpenFlowSwitch ps (sw_flow_table s) (sw_capabilities s) (sw_connection s) (sw_listening s) (sw_reconnectTimeout s).
Definition set_nom n (s : OpenFlowSwitch) : OpenFlowSwitch :=
  mk_OpenFlowSwitch (sw_ports s) n (sw_capabilities s) (sw_connection s) (sw_listening s) (sw_reconnectTimeout s).
Definition set_capabilities c (s : OpenFlowSwitch) : OpenFlowSwitch :=
  mk_OpenFlowSwitch (sw_ports s) (sw_flow_table s) c (sw_connection s) (sw_listening s) (sw_reconnectTimeout s).
(** [self._connection]; [connected] is computed from it. *)
Definition set_connection c (s : OpenFlowSwitch) : OpenFlowSwitch :=
  mk_OpenFlowSwitch (sw_ports s) (set_connected (bool_decide (is_Some c)) (sw_flow_table s)) (sw_capabilities s) c (sw_listening s) (sw_reconnectTimeout s).
Definition set_listening l (s : OpenFlowSwitch) : OpenFlowSwitch :=
  mk_OpenFlowSwitch (sw_ports s) (sw_flow_table s) (sw_capabilities s) (sw_connection s) l (sw_reconnectTimeout s).
Definition set_timer d (s : OpenFlowSwitch) : OpenFlowSwitch :=
  mk_OpenFlowSwitch (sw_ports s) (sw_flow_table s) (sw_capabilities s) (sw_connection s) (sw_listening s) d.

(** [OpenFlowSwitch(dpid)]. *)
Definition new_switch (dpid : Z) : OpenFlowSwitch :=
  mk_OpenFlowSwitch ∅ (new_nom false ((Z.shiftl (Z.land dpid 0x7fff) 16 + 1) mod (MAX_XID + 1))) 0 None [] None.
Definition new_OpenFlowSwitch (dpid : Z) : M topo unit :=
  _ ← lift (guard_ok (negb (dpid =? 0)) AssertionError);
  _ ← entity_with_id dpid;
  modify (set_switch dpid (new_switch dpid)).

(** The object of a number. *)
Definition the_switch (dpid : Z) : M topo OpenFlowSwitch := s ← get (fun t => of_switches t !! dpid); lift (need AttributeError s).
Definition change_switch (dpid : Z) (f : OpenFlowSwitch -> OpenFlowSwitch) : M topo unit := s ← the_switch dpid; modify (set_switch dpid (f s)).
(** An event of the switch that its flow table handles. *)
Definition on_flow_table {A} (dpid : Z) (m : M nom A) : M topo A := fun t =>
  match of_switches t !! dpid with
  | None => (Err AttributeError, t)
  | Some s => let '(r, n) := m (sw_flow_table s) in (r, set_switch dpid (set_nom n s) t)
  end.

Section switch.
Context (dpid now : Z).

(** The ports of a features reply; the result are the numbers left over. *)
Fixpoint update_ports (ps : list ofp_phy_port) (untouched : gset Z) : M topo (gset Z) :=
  match ps with
  | [] => mret untouched
  | p :: ps =>
      s ← the_switch dpid;
      untouched ← match sw_ports s !! pp_port_no p with
        | Some o =>
            o ← lift (port_update p o);
            _ ← change_switch dpid (fun s => set_ports (<[pp_port_no p := o]> (sw_ports s)) s);
            _ ← lift (guard_ok (bool_decide (pp_port_no p ∈ untouched)) KeyError);
            mret (untouched ∖ {[pp_port_no p]})
        | None =>
            o ← new_OpenFlowPort p;
            _ ← change_switch dpid (fun s => set_ports (<[pp_port_no p := o]> (sw_ports s)) s);
            mret untouched
        end;
      update_ports ps untouched
  end.
Definition update_features (ofp : ofp_features_reply) : M topo unit :=
  _ ← change_switch dpid (set_capabilities (fp_capabilities ofp));
  s ← the_switch dpid;
  untouched ← update_ports (fp_ports ofp) (dom (sw_ports s));
  change_switch dpid (fun s => set_ports (filter (fun p => p.1 ∉ untouched) (sw_ports s)) s).

(** [_setConnection]. *)
Definition setConnection (connection : option nat) (ofp : option ofp_features_reply) : M topo unit :=
  _ ← change_switch dpid (fun s => match sw_connection s with
        | Some c => set_listening (filter (fun c' => c' <> c) (sw_listening s)) s
        | None => s
        end);
  _ ← change_switch dpid (set_connection connection);
  _ ← change_switch dpid (set_timer (match connection with None => Some (now + RECONNECT_TIMEOUT * second) | Some _ => None end));
  _ ← match ofp with Some ofp => update_features ofp | None => mret tt end;
  match connection with
  | Some c =>
      _ ← change_switch dpid (fun s => set_listening (sw_listening s ++ [c]) s);
      _ ← modify (raise_topo [OfSwitch dpid "SwitchConnectionUp"]);
      on_flow_table dpid (handle_SwitchConnectionUp now)
  | None =>
      _ ← modify (raise_topo [OfSwitch dpid "SwitchConnectionDown"]);
      on_flow_table dpid handle_SwitchConnectionDown
  end.

(** [_timer_ReconnectTimeout]. *)
Definition timer_ReconnectTimeout : M topo unit :=
  _ ← change_switch dpid (set_timer None);
  _ ← removeEntity dpid;
  modify (raise_topo [OfSwitch dpid "SwitchLeave"]).

Definition handle_con_PortStatus (reason : Z) (p : ofp_phy_port) : M topo unit :=
  s ← the_switch dpid;
  _ ← (if reason =? OFPPR_DELETE then change_switch dpid (fun s => set_ports (delete (pp_port_no p) (sw_ports s)) s)
       else if reason =? OFPPR_MODIFY then
         o ← lift (need KeyError (sw_ports s !! pp_port_no p));
         o ← lift (port_update p o);
         change_switch dpid (fun s => set_ports (<[pp_port_no p := o]> (sw_ports s)) s)
       else
         _ ← lift (guard_ok (reason =? OFPPR_ADD) AssertionError);
         _ ← lift (guard_ok (bool_decide (sw_ports s !! pp_port_no p = None)) AssertionError);
         o ← new_OpenFlowPort p;
         change_switch dpid (fun s => set_ports (<[pp_port_no p := o]> (sw_ports s)) s));
  modify (raise_topo [OfSwitch dpid "PortStatus"]).
Definition handle_con_ConnectionDown : M topo unit := setConnection None None.
Definition handle_con_PacketIn : M topo unit := modify (raise_topo [OfSwitch dpid "PacketIn"]).
Definition handle_con_BarrierIn (xid : Z) : M topo unit :=
  _ ← modify (raise_topo [OfSwitch dpid "BarrierIn"]);
  _ ← on_flow_table dpid (handle_BarrierIn xid); mret tt.
(** A switch has no [flowTable]. *)
Definition handle_con_FlowRemoved (m : ofp_match) (priority : Z) : M topo unit :=
  _ ← modify (raise_topo [OfSwitch dpid "FlowRemoved"]);
  _ ← on_flow_table dpid (handle_FlowRemoved m priority);
  lift (Err AttributeError).

(** ** The events of the OpenFlow side ([OpenFlowTopology]) *)

Definition handle_openflow_ConnectionUp (connection : nat) (ofp : ofp_features_reply) : M topo unit :=
  sw ← getEntityByID dpid;
  _ ← match sw with None => new_OpenFlowSwitch dpid | Some _ => mret tt end;
  _ ← setConnection (Some connection) (Some ofp);
  match sw with
  | None => _ ← addEntity dpid KindSwitch; modify (raise_topo [OfSwitch dpid "SwitchJoin"])
  | Some _ => mret tt
  end.
Definition handle_openflow_ConnectionDown : M topo unit :=
  sw ← getEntityByID dpid;
  match sw with None => mret tt | Some _ => change_switch dpid (set_connection None) end.
End switch.

(** [_handle_openflow_discovery_LinkEvent]. *)
Definition change_port (dpid port : Z) (f : OpenFlowPort -> OpenFlowPort) : M topo unit :=
  change_switch dpid (fun s => set_ports (alter f port (sw_ports s)) s).
Definition handle_LinkEvent (added : bool) (dpid1 port1 dpid2 port2 : Z) : M topo unit :=
  e1 ← getEntityByID dpid1; e2 ← getEntityByID dpid2;
  match e1, e2 with
  | Some _, Some _ =>
      s1 ← the_switch dpid1; s2 ← the_switch dpid2;
      if bool_decide (sw_ports s1 !! port1 = None) || bool_decide (sw_ports s2 !! port2 = None) then mret tt else
      if added then _ ← change_port dpid1 port1 (port_addEntity dpid2 true); change_port dpid2 port2 (port_addEntity dpid1 true)
      else _ ← change_port dpid1 port1 (port_discard dpid2); change_port dpid2 port2 (port_discard dpid1)
  | _, _ => mret tt
  end.

(** [findPortForEntity], in the order of the ports given. *)
Definition findPortForEntity (ports : list OpenFlowPort) (e : Z) : option OpenFlowPort :=
  find (fun o => bool_decide (e ∈ pt_entities o)) ports.
(** [installFlow]: [TableEntry] is not imported. *)
Definition installFlow (dpid : Z) : M topo unit := lift (Err NameError).

(** ** Runs *)

(** The events of the switches' connections, of discovery and of the timers; a
    timer fires when it is set and due. *)
Inductive of_event :=
  | EvUp (dpid : Z) (connection : nat) (ofp : ofp_features_reply)
  | EvDown (dpid : Z)
  | EvLink (added : bool) (dpid1 port1 dpid2 port2 : Z)
  | EvPortStatus (dpid reason : Z) (p : ofp_phy_port)
  | EvPacketIn (dpid : Z)
  | EvBarrierIn (dpid xid : Z)
  | EvFlowRemoved (dpid : Z) (m : ofp_match) (priority : Z)
  | EvConDown (dpid : Z)
  | EvTimer (dpid : Z).
Definition topo_step (now : Z) (e : of_event) : M topo unit :=
  match e with
  | EvUp dpid c ofp => handle_openflow_ConnectionUp dpid now c ofp
  | EvDown dpid => handle_openflow_ConnectionDown dpid
  | EvLink added d1 p1 d2 p2 => handle_LinkEvent added d1 p1 d2 p2
  | EvPortStatus dpid reason p => handle_con_PortStatus dpid reason p
  | EvPacketIn dpid => handle_con_PacketIn dpid
  | EvBarrierIn dpid xid => handle_con_BarrierIn dpid xid
  | EvFlowRemoved dpid m priority => handle_con_FlowRemoved dpid m priority
  | EvConDown dpid => handle_con_ConnectionDown dpid now
  | EvTimer dpid => fun t =>
      match of_switches t !! dpid with
      | Some s => match sw_reconnectTimeout s with
                  | Some due => if due <=? now then timer_ReconnectTimeout dpid t else (Ok tt, t)
                  | None => (Ok tt, t)
                  end
      | None => (Ok tt, t)
      end
  end.
(** An exception ends the handling of its event only. *)
Definition topo_run (l : list (Z * of_event)) (t : topo) : topo := foldl (fun t e => snd (topo_step e.1 e.2 t)) t l.

Lemma topo_run_invariant (I : topo -> Prop) (P : of_event -> Prop) l t : (forall now e, P e -> preserves I (topo_step now e)) -> Forall (fun e => P e.2) l -> I t -> I (topo_run l t).
Proof. intros H Hl. revert t. induction Hl as [|[now e] l He _ IH]; intros t Ht; [done|]. cbn. by apply IH, H. Qed.

(** ** What changes what *)

(** A property of the numbers and entities is kept by what touches switch objects
    only. *)
Section keeps.
Context (I : gset Z -> gmap Z entity_kind -> Prop) (Hgrow : forall ids ids' es, ids ⊆ ids' -> I ids es -> I ids' es).
Definition about_ids (t : topo) : Prop := I (all_ids t) (entities t).

Lemma keep_change_switch dpid f : preserves about_ids (change_switch dpid f).
Proof. unfold change_switch, the_switch. keep. apply preserves_modify. by intros []. Qed.
Lemma keep_the_switch dpid : preserves about_ids (the_switch dpid).
Proof. unfold the_switch. keep. Qed.
Lemma keep_raise es : preserves about_ids (modify (raise_topo es)).
Proof. apply preserves_modify. by intros []. Qed.
Lemma keep_on_flow_table {A} dpid (m : M nom A) : preserves about_ids (on_flow_table dpid m).
Proof. intros t Ht. unfold on_flow_table. destruct (of_switches t !! dpid) as [s|]; [|exact Ht]. destruct (m (sw_flow_table s)) as [r n]. exact Ht. Qed.
Lemma keep_entity_with_id id : preserves about_ids (entity_with_id id).
Proof.
  intros t Ht. unfold entity_with_id. rewrite M_bind_unfold. unfold get at 1. destruct (decide (id ∈ all_ids t)); [exact Ht|].
  apply (Hgrow (all_ids t)); [apply union_subseteq_r|exact Ht].
Qed.
Lemma keep_entity_without_id : preserves about_ids entity_without_id.
Proof. intros t Ht. apply (Hgrow (all_ids t)); [apply union_subseteq_r|exact Ht]. Qed.
#[local] Hint Resolve keep_change_switch keep_the_switch keep_raise keep_on_flow_table keep_entity_with_id keep_entity_without_id : keeps.

Lemma keep_new_OpenFlowPort p : preserves about_ids (new_OpenFlowPort p).
Proof. unfold new_OpenFlowPort. keep. Qed.
#[local] Hint Resolve keep_new_OpenFlowPort : keeps.
Lemma keep_update_ports dpid ps : forall u, preserves about_ids (update_ports dpid ps u).
Proof. induction ps as [|p ps IH]; intros u; cbn [update_ports]; keep. Qed.
#[local] Hint Resolve keep_update_ports : keeps.
Lemma keep_setConnection dpid now c ofp : preserves about_ids (setConnection dpid now c ofp).
Proof. unfold setConnection, update_features. keep. Qed.
#[local] Hint Resolve keep_setConnection : keeps.
Lemma keep_new_OpenFlowSwitch dpid : preserves about_ids (new_OpenFlowSwitch dpid).
Proof. unfold new_OpenFlowSwitch. keep. apply preserves_modify. by intros []. Qed.
Lemma keep_port_status dpid reason p : preserves about_ids (handle_con_PortStatus dpid reason p).
Proof. unfold handle_con_PortStatus. keep. Qed.
Lemma keep_down dpid : preserves about_ids (handle_openflow_ConnectionDown dpid).
Proof. unfold handle_openflow_ConnectionDown, getEntityByID. keep. Qed.
Lemma keep_link added d1 p1 d2 p2 : preserves about_ids (handle_LinkEvent added d1 p1 d2 p2).
Proof. unfold handle_LinkEvent, getEntityByID, change_port. keep. all: repeat match goal with a : option entity_kind |- _ => destruct a end; keep. Qed.
Lemma keep_barrier dpid xid : preserves about_ids (handle_con_BarrierIn dpid xid).
Proof. unfold handle_con_BarrierIn. keep. Qed.
Lemma keep_flow_removed dpid m p : preserves about_ids (handle_con_FlowRemoved dpid m p).
Proof. unfold handle_con_FlowRemoved. keep. Qed.
End keeps.

(** The three handlers that change what entities there are. *)
Lemma removeEntity_other (I : gset Z -> gmap Z entity_kind -> Prop) id : (forall ids es, I ids es -> I ids (delete id es)) -> preserves (about_ids I) (removeEntity id).
Proof.
  intros Hdel t Ht. unfold removeEntity. rewrite M_bind_unfold. unfold get at 1. destruct (entities t !! id); [|exact Ht]. apply (Hdel _ _ Ht).
Qed.
Lemma addEntity_other (I : gset Z -> gmap Z entity_kind -> Prop) id k : (forall ids es, es !! id = None -> I ids es -> I ids (<[id := k]> es)) -> preserves (about_ids I) (addEntity id k).
Proof.
  intros Hadd t Ht. unfold addEntity. rewrite M_bind_unfold. unfold get at 1. destruct (entities t !! id) eqn:E; [exact Ht|]. by apply (Hadd _ _ E Ht).
Qed.

(** A number once taken is taken for ever: a new switch of it is refused. *)
Lemma taken_refused dpid now c ofp t : dpid <> 0 -> dpid ∈ all_ids t -> entities t !! dpid = None ->
  handle_openflow_ConnectionUp dpid now c ofp t = (Err PlainException, t).
Proof.
  intros H0 Hin Hno. unfold handle_openflow_ConnectionUp, getEntityByID, new_OpenFlowSwitch, entity_with_id, mbind, M_bind, get, lift. rewrite Hno.
  rewrite (proj2 (Z.eqb_neq _ _) H0). cbn [negb guard_ok]. by rewrite decide_True.
Qed.

Definition gone (dpid : Z) (ids : gset Z) (es : gmap Z entity_kind) : Prop := dpid ∈ ids /\ es !! dpid = None.
Lemma gone_step dpid now e : dpid <> 0 -> preserves (about_ids (gone dpid)) (topo_step now e).
Proof.
  intros H0. assert (Hgrow : forall ids ids' es, ids ⊆ ids' -> gone dpid ids es -> gone dpid ids' es) by (intros ids ids' es Hs [H1 H2]; split; [by apply Hs|done]).
  destruct e as [d c ofp|d|added d1 p1 d2 p2|d r p|d|d x|d m p|d|d]; cbn [topo_step].
  - intros t [H1 H2]. destruct (decide (d = dpid)) as [->|Hne]; [by rewrite taken_refused|].
    assert (Hp : preserves (about_ids (gone dpid)) (handle_openflow_ConnectionUp d now c ofp)); [|by apply Hp].
    unfold handle_openflow_ConnectionUp, getEntityByID.
    assert (Ha : preserves (about_ids (gone dpid)) (addEntity d KindSwitch)) by (apply addEntity_other; intros ids es _ [G1 G2]; split; [done|by rewrite lookup_insert_ne]).
    pose proof (keep_new_OpenFlowSwitch _ Hgrow d). pose proof (keep_setConnection _ Hgrow d now). pose proof (keep_raise (gone dpid)). keep.
  - by apply keep_down.
  - by apply keep_link.
  - by apply keep_port_status.
  - apply keep_raise.
  - by apply keep_barrier.
  - by apply keep_flow_removed.
  - by apply keep_setConnection.
  - intros t Ht. destruct (of_switches t !! d) as [s|]; [|exact Ht]. destruct (sw_reconnectTimeout s) as [due|]; [|exact Ht]. destruct (due <=? now); [|exact Ht].
    assert (Hp : preserves (about_ids (gone dpid)) (timer_ReconnectTimeout d)); [|by apply Hp]. unfold timer_ReconnectTimeout.
    assert (Hr : preserves (about_ids (gone dpid)) (removeEntity d)).
    { apply removeEntity_other. intros ids es [G1 G2]. split; [done|]. destruct (decide (d = dpid)) as [->|]; [apply lookup_delete_eq|by rewrite lookup_delete_ne]. }
    pose proof (keep_raise (gone dpid)). pose proof (keep_change_switch (gone dpid) d). keep.
Qed.

(** Switch objects without timers, and an entity that is there. *)
Definition no_timers (t : topo) : Prop := forall d s, of_switches t !! d = Some s -> sw_reconnectTimeout s = None.
Definition calm_with (E : gmap Z entity_kind -> Prop) (t : topo) : Prop := no_timers t /\ E (entities t).
Definition calm (dpid : Z) (k : entity_kind) : topo -> Prop := calm_with (fun es => es !! dpid = Some k).

Section calm.
Context (E : gmap Z entity_kind -> Prop) (Hgrow : forall d k es, es !! d = None -> E es -> E (<[d := k]> es)).
Lemma calm_change d f : (forall s, sw_reconnectTimeout s = None -> sw_reconnectTimeout (f s) = None) -> preserves (calm_with E) (change_switch d f).
Proof.
  intros Hf t [H1 H2]. unfold change_switch, the_switch, mbind, M_bind, get, lift. destruct (of_switches t !! d) as [s|] eqn:Es; [|done]. split; [|exact H2].
  intros d' s'. cbn. rewrite lookup_insert_Some. intros [[<- <-]|[_ Hs]]; [by apply Hf, (H1 d)|by apply (H1 d')].
Qed.
Lemma calm_the_switch d : preserves (calm_with E) (the_switch d).
Proof. unfold the_switch. keep. Qed.
Lemma calm_raise es : preserves (calm_with E) (modify (raise_topo es)).
Proof. apply preserves_modify. by intros []. Qed.
Lemma calm_on_flow_table {A} d (m : M nom A) : preserves (calm_with E) (on_flow_table d m).
Proof.
  intros t [H1 H2]. unfold on_flow_table. destruct (of_switches t !! d) as [s|] eqn:Es; [|done]. destruct (m (sw_flow_table s)) as [r n]. split; [|exact H2].
  intros d' s'. cbn. rewrite lookup_insert_Some. intros [[<- <-]|[_ Hs]]; [exact (H1 d s Es)|by apply (H1 d')].
Qed.
Lemma calm_entity_without_id : preserves (calm_with E) entity_without_id.
Proof. by intros t []. Qed.
Lemma calm_new_OpenFlowSwitch d : preserves (calm_with E) (new_OpenFlowSwitch d).
Proof.
  unfold new_OpenFlowSwitch, entity_with_id. keep; apply preserves_modify; intros t [H1 H2]; (split; [|exact H2]); [exact H1|].
  intros d' s'. cbn. rewrite lookup_insert_Some. intros [[<- <-]|[_ Hs]]; [done|by apply (H1 d')].
Qed.
#[local] Hint Resolve calm_the_switch calm_raise calm_on_flow_table calm_entity_without_id calm_new_OpenFlowSwitch : keeps.
#[local] Hint Extern 3 (preserves (calm_with E) (change_switch _ _)) => apply calm_change; let H := fresh in intros ? H; repeat case_match; first [exact H | reflexivity] : keeps.

Lemma calm_update_ports d ps : forall u, preserves (calm_with E) (update_ports d ps u).
Proof. induction ps as [|p ps IH]; intros u; cbn [update_ports]; unfold new_OpenFlowPort; keep. Qed.
#[local] Hint Resolve calm_update_ports : keeps.
Lemma calm_setConnection d now c ofp : preserves (calm_with E) (setConnection d now (Some c) ofp).
Proof. unfold setConnection, update_features. keep. Qed.
#[local] Hint Resolve calm_setConnection : keeps.
Lemma calm_addEntity d k' : preserves (calm_with E) (addEntity d k').
Proof.
  intros t [H1 H2]. unfold addEntity. rewrite M_bind_unfold. unfold get at 1. destruct (entities t !! d) eqn:Ed; [done|]. split; [exact H1|]. by apply Hgrow.
Qed.
#[local] Hint Resolve calm_addEntity : keeps.

Lemma calm_step now e : (forall d, e <> EvConDown d) -> preserves (calm_with E) (topo_step now e).
Proof.
  intros He. destruct e as [d c ofp|d|added d1 p1 d2 p2|d r p|d|d x|d m p|d|d]; cbn [topo_step].
  - unfold handle_openflow_ConnectionUp, getEntityByID. keep.
  - unfold handle_openflow_ConnectionDown, getEntityByID. keep.
  - unfold handle_LinkEvent, getEntityByID, change_port. keep. all: repeat match goal with a : option entity_kind |- _ => destruct a end; keep.
  - unfold handle_con_PortStatus, new_OpenFlowPort. keep.
  - apply calm_raise.
  - unfold handle_con_BarrierIn. keep.
  - unfold handle_con_FlowRemoved. keep.
  - by destruct (He d).
  - intros t Ht. destruct (of_switches t !! d) as [s|] eqn:Es; [|exact Ht]. destruct Ht as [H1 H2]. by rewrite (H1 d s Es).
Qed.
End calm.

Lemma no_timers_step now e : (forall d, e <> EvConDown d) -> preserves no_timers (topo_step now e).
Proof. intros He t Ht. by apply (calm_step (fun _ => True) (fun _ _ _ _ H => H) now e He t). Qed.
Lemma calm_keeps dpid k now e : (forall d, e <> EvConDown d) -> preserves (calm dpid k) (topo_step now e).
Proof. intros He. apply calm_step; [|done]. intros d k' es Hd Hk. rewrite lookup_insert_ne; [done|congruence]. Qed.

(** ** Numbers are given once *)

Definition same_port (o o' : OpenFlowPort) : Prop := pt_id o = pt_id o' /\ pt_number o = pt_number o'.
Definition has_port (t : topo) (d p : Z) (o : OpenFlowPort) : Prop := exists s, of_switches t !! d = Some s /\ sw_ports s !! p = Some o.
(** Switches and ports have numbers that are taken, each its own; the entities of
    the topology are switches. *)
Definition ids_ok (t : topo) : Prop :=
  (forall d, is_Some (entities t !! d) -> is_Some (of_switches t !! d)) /\ (forall d, is_Some (of_switches t !! d) -> d ∈ all_ids t) /\
  (forall d p o, has_port t d p o -> pt_number o = p /\ pt_id o ∈ all_ids t /\ of_switches t !! pt_id o = None) /\
  (forall d p o d' p' o', has_port t d p o -> has_port t d' p' o' -> pt_id o = pt_id o' -> d = d' /\ p = p').
Definition ids_ok_with (X : gset Z) (t : topo) : Prop := ids_ok t /\ forall d, d ∈ X -> is_Some (of_switches t !! d).

Lemma free_id_spec fuel ids n : exists m, n <= m /\ free_id fuel ids n = m /\ (forall i, n <= i < m -> i ∈ ids) /\ (m ∈ ids -> m = n + Z.of_nat fuel).
Proof.
  revert n. induction fuel as [|fuel IH]; intros n; cbn [free_id]; [exists n; split_and!; try lia; done|].
  destruct (decide (n ∈ ids)) as [Hn|Hn]; [|exists n; split_and!; try lia; done]. destruct (IH (n + 1)) as (m & H1 & H2 & H3 & H4). exists m.
  split; [lia|]. split; [done|]. split; [|intros Hm; rewrite (H4 Hm); lia]. intros i Hi. destruct (decide (i = n)) as [->|]; [done|]. apply H3. lia.
Qed.
Lemma free_id_fresh ids n : free_id (size ids) ids n ∉ ids.
Proof.
  destruct (free_id_spec (size ids) ids n) as (m & H1 & -> & H3 & H4). intros Hm. assert (Hall : forall i, n <= i < n + Z.of_nat (S (size ids)) -> i ∈ ids).
  { intros i Hi. destruct (decide (i = m)) as [->|]; [done|]. apply H3. rewrite (H4 Hm) in *. lia. }
  set (l := (fun j => n + Z.of_nat j) <$> seq 0 (S (size ids))).
  assert (Hnd : NoDup l) by (apply NoDup_fmap_2; [intros i j; lia|apply NoDup_seq]).
  assert (Hsub : list_to_set l ⊆ ids).
  { intros i. rewrite elem_of_list_to_set. intros (j & -> & Hj)%list_elem_of_fmap. apply elem_of_seq in Hj. apply Hall. lia. }
  apply subseteq_size in Hsub. rewrite size_list_to_set in Hsub by done. subst l. rewrite length_fmap, length_seq in Hsub. lia.
Qed.

Section ids.
Context (X : gset Z).
Abbreviation I := (ids_ok_with X).

Lemma ids_set t d s s' : I t -> of_switches t !! d = Some s ->
  (forall p o, sw_ports s' !! p = Some o -> exists o0, sw_ports s !! p = Some o0 /\ same_port o o0) -> I (set_switch d s' t).
Proof.
  intros [(H1 & H2 & H3 & H4) H5] Hs Hp.
  assert (Hold : forall d' p o, has_port (set_switch d s' t) d' p o -> exists o0, has_port t d' p o0 /\ same_port o o0).
  { intros d' p o (s1 & Hs1 & Ho). cbn in Hs1. rewrite lookup_insert_Some in Hs1. destruct Hs1 as [[<- <-]|[_ Hs1]].
    - destruct (Hp p o Ho) as (o0 & ? & ?). exists o0. split; [by exists s|done].
    - exists o. split; [by exists s1|done]. }
  assert (Hdom : forall d', is_Some (<[d := s']> (of_switches t) !! d') <-> is_Some (of_switches t !! d')).
  { intros d'. destruct (decide (d = d')) as [<-|]; [rewrite lookup_insert_eq, Hs; by split|by rewrite lookup_insert_ne]. }
  split; [|intros d' Hd'; cbn; apply Hdom; by apply H5]. split; [|split; [|split]]; cbn.
  - intros d' Hd'. apply Hdom. by apply H1.
  - intros d' Hd'. apply H2. by apply Hdom.
  - intros d' p o (o0 & Ho0 & E1 & E2)%Hold. destruct (H3 _ _ _ Ho0) as (? & ? & Hnone). rewrite E1, E2. split; [done|]. split; [done|].
    destruct (decide (d = pt_id o0)) as [->|]; [congruence|by rewrite lookup_insert_ne].
  - intros d1 p1 o1 d2 p2 o2 (o1' & Ho1 & E1 & _)%Hold (o2' & Ho2 & E2 & _)%Hold E. apply (H4 _ _ _ _ _ _ Ho1 Ho2). congruence.
Qed.

Lemma ids_change d f : (forall s p o, sw_ports (f s) !! p = Some o -> exists o0, sw_ports s !! p = Some o0 /\ same_port o o0) -> preserves I (change_switch d f).
Proof.
  intros Hf t Ht. unfold change_switch, the_switch, mbind, M_bind, get, lift. destruct (of_switches t !! d) as [s|] eqn:E; [|exact Ht].
  apply (ids_set t d s _ Ht E). apply Hf.
Qed.
Lemma ids_change_same d f : (forall s, sw_ports (f s) = sw_ports s) -> preserves I (change_switch d f).
Proof. intros Hf. apply ids_change. intros s p o. rewrite Hf. by exists o. Qed.
Lemma ids_the_switch d : preserves I (the_switch d).
Proof. unfold the_switch. keep. Qed.
Lemma ids_raise es : preserves I (modify (raise_topo es)).
Proof. apply preserves_modify. by intros []. Qed.
Lemma ids_on_flow_table {A} d (m : M nom A) : preserves I (on_flow_table d m).
Proof.
  intros t Ht. unfold on_flow_table. destruct (of_switches t !! d) as [s|] eqn:E; [|exact Ht]. destruct (m (sw_flow_table s)) as [r n].
  apply (ids_set t d s _ Ht E). intros p o Ho. by exists o.
Qed.

(** Drawing a number, and giving it to a port. *)
Lemma ids_grow t n ids : I t -> all_ids t ⊆ ids -> I (set_ids n ids t).
Proof.
  intros [(H1 & H2 & H3 & H4) H5] Hs. split; [|exact H5]. split; [exact H1|]. split; [|split; [|exact H4]].
  - intros d Hd. cbn. apply Hs. by apply H2.
  - intros d p o Ho. destruct (H3 d p o Ho) as (? & ? & ?). split; [done|]. split; [cbn; by apply Hs|done].
Qed.
Lemma ids_new_port t d s p o n0 : I t -> of_switches t !! d = Some s -> pt_number o = p -> pt_id o ∉ all_ids t ->
  I (set_switch d (set_ports (<[p := o]> (sw_ports s)) s) (set_ids n0 ({[pt_id o]} ∪ all_ids t) t)).
Proof.
  intros Ht Hs Hn Hfresh. pose proof (ids_grow t n0 ({[pt_id o]} ∪ all_ids t) Ht (union_subseteq_r _ _)) as Hg.
  destruct Ht as [(H1 & H2 & H3 & H4) H5]. destruct Hg as [(G1 & G2 & G3 & G4) G5].
  set (t' := set_ids n0 ({[pt_id o]} ∪ all_ids t) t) in *. set (t'' := set_switch _ _ t').
  assert (Hold : forall d' p' o', has_port t'' d' p' o' -> (d' = d /\ p' = p /\ o' = o) \/ has_port t d' p' o').
  { intros d' p' o' (s1 & Hs1 & Ho). cbn in Hs1. rewrite lookup_insert_Some in Hs1. destruct Hs1 as [[<- <-]|[_ Hs1]]; [|right; by exists s1].
    cbn in Ho. rewrite lookup_insert_Some in Ho. destruct Ho as [[<- <-]|[_ Ho]]; [by left|right; by exists s]. }
  assert (Hdom : forall d', is_Some (of_switches t'' !! d') <-> is_Some (of_switches t !! d')).
  { intros d'. cbn. destruct (decide (d = d')) as [<-|]; [rewrite lookup_insert_eq, Hs; by split|by rewrite lookup_insert_ne]. }
  assert (Hnone : forall i, of_switches t !! i = None -> of_switches t'' !! i = None).
  { intros i Hi. apply eq_None_not_Some. rewrite Hdom, Hi. by intros []. }
  split; [|intros d' Hd'; apply Hdom; by apply H5]. split; [|split; [|split]].
  - intros d' Hd'. apply Hdom. by apply H1.
  - intros d' Hd'%Hdom. by apply G2.
  - intros d' p' o' [(-> & -> & ->)|Ho]%Hold.
    + split; [done|]. split; [cbn; set_solver|]. apply Hnone. apply eq_None_not_Some. by intros Hi%H2.
    + destruct (G3 d' p' o' Ho) as (? & ? & ?). split; [done|]. split; [done|]. by apply Hnone.
  - intros d1 p1 o1 d2 p2 o2 [(-> & -> & ->)|Ho1]%Hold [(-> & -> & ->)|Ho2]%Hold E; [done| | |by apply (H4 _ _ _ _ _ _ Ho1 Ho2)].
    + destruct (H3 _ _ _ Ho2) as (_ & Hin & _). by rewrite <-E in Hin.
    + destruct (H3 _ _ _ Ho1) as (_ & Hin & _). by rewrite E in Hin.
Qed.

Lemma port_update_same p o o' : port_update p o = Ok o' -> same_port o' o.
Proof. unfold port_update. intros H. inv_ok. by subst o'. Qed.
Lemma new_port_run p t : exists n r, n ∉ all_ids t /\ new_OpenFlowPort p t = (r, set_ids n ({[n]} ∪ all_ids t) t) /\
  forall o, r = Ok o -> pt_id o = n /\ pt_number o = pp_port_no p.
Proof.
  unfold new_OpenFlowPort, entity_without_id, mbind, M_bind, lift. pose proof (free_id_fresh (all_ids t) (next_id t)) as Hn. revert Hn. generalize (free_id (size (all_ids t)) (all_ids t) (next_id t)). intros n Hn.
  exists n. destruct (hw_addr (pp_hw_addr p)) as [a|e]; [|by eexists]. eexists. split; [done|]. split; [done|]. intros o Ho%port_update_same. exact Ho.
Qed.

Lemma ids_add_port d p : preserves I (o ← new_OpenFlowPort p; change_switch d (fun s => set_ports (<[pp_port_no p := o]> (sw_ports s)) s)).
Proof.
  intros t Ht. destruct (new_port_run p t) as (n & r & Hn & E & Hr). rewrite M_bind_unfold, E. destruct r as [o|e]; [|apply ids_grow; [done|apply union_subseteq_r]].
  destruct (Hr o eq_refl) as [E1 E2]. unfold change_switch, the_switch, mbind, M_bind, get, lift. cbn [of_switches set_ids].
  destruct (of_switches t !! d) as [s|] eqn:Es; [|apply ids_grow; [done|apply union_subseteq_r]]. cbn [need modify snd]. subst n. by apply (ids_new_port t d s).
Qed.
(** A port that is there is written again. *)
Lemma ids_write_port t d s p o o' : I t -> of_switches t !! d = Some s -> sw_ports s !! p = Some o -> same_port o' o ->
  I (snd (change_switch d (fun s => set_ports (<[p := o']> (sw_ports s)) s) t)).
Proof.
  intros Ht Es Eo Hs. unfold change_switch, the_switch, mbind, M_bind, get, lift. rewrite Es. cbn [need modify snd]. apply (ids_set t d s _ Ht Es).
  intros p' o1. cbn. rewrite lookup_insert_Some. intros [[<- <-]|[_ H]]; [by exists o|by exists o1].
Qed.

Lemma ids_update_ports d ps : forall u, preserves I (update_ports d ps u).
Proof.
  induction ps as [|p ps IH]; intros u; cbn [update_ports]; [keep|]. intros t Ht. rewrite M_bind_unfold. unfold the_switch, mbind at 1, M_bind at 1, get, lift at 1.
  destruct (of_switches t !! d) as [s|] eqn:Es; [|exact Ht]. cbn [need]. destruct (sw_ports s !! pp_port_no p) as [o|] eqn:Eo.
  - rewrite M_bind_unfold. destruct (port_update p o) as [o'|e] eqn:Eu; [|exact Ht]. rewrite M_bind_lift_Ok. rewrite M_bind_unfold.
    pose proof (ids_write_port t d s _ o o' Ht Es Eo (port_update_same _ _ _ Eu)) as Hw. destruct (change_switch d _ t) as [[[]|e] t1]; [|exact Hw]. cbn [snd] in Hw.
    unfold lift, mbind, M_bind. destruct (guard_ok _ _); [|exact Hw]. by apply IH.
  - pose proof (ids_add_port d p t Ht) as Ha. rewrite !M_bind_unfold in *. destruct (new_OpenFlowPort p t) as [[o|e] t1]; [|exact Ha].
    rewrite M_bind_unfold. destruct (change_switch d _ t1) as [[[]|e] t2]; [|exact Ha]. by apply IH.
Qed.

#[local] Hint Resolve ids_the_switch ids_raise ids_on_flow_table ids_update_ports : keeps.
#[local] Hint Extern 3 (preserves I (change_switch _ _)) => apply ids_change_same; intros ?; repeat case_match; reflexivity : keeps.
Lemma ids_update_features d ofp : preserves I (update_features d ofp).
Proof.
  assert (Hf : forall u : gset Z, preserves I (change_switch d (fun s => set_ports (filter (fun p => p.1 ∉ u) (sw_ports s)) s))).
  { intros u. apply ids_change. intros s p o. cbn. rewrite map_lookup_filter_Some. intros [H _]. by exists o. }
  unfold update_features. keep.
Qed.
#[local] Hint Resolve ids_update_features : keeps.
Lemma ids_setConnection d now c ofp : preserves I (setConnection d now c ofp).
Proof. unfold setConnection. keep. Qed.
Lemma ids_removeEntity d : preserves I (removeEntity d).
Proof.
  intros t Ht. unfold removeEntity. rewrite M_bind_unfold. unfold get at 1. destruct (entities t !! d); [|exact Ht]. destruct Ht as [(H1 & H2 & H3 & H4) H5].
  split; [|exact H5]. split; [|split; [exact H2|split; [exact H3|exact H4]]]. intros d' [k Hk]. change (delete d (entities t) !! d' = Some k) in Hk.
  apply lookup_delete_Some in Hk as [_ Hk]. by apply H1.
Qed.
Lemma ids_port_status d reason p : preserves I (handle_con_PortStatus d reason p).
Proof.
  unfold handle_con_PortStatus. intros t Ht. rewrite M_bind_unfold. unfold the_switch, mbind at 1, M_bind at 1, get, lift at 1.
  destruct (of_switches t !! d) as [s|] eqn:Es; [|exact Ht]. cbn [need].
  match goal with |- I (snd ((?m ≫= _) t)) => assert (Hm : I (snd (m t))); [|revert Hm; rewrite M_bind_unfold; by destruct (m t) as [[[]|e] t1]] end.
  destruct (reason =? OFPPR_DELETE); [|destruct (reason =? OFPPR_MODIFY)].
  - apply ids_change; [|exact Ht]. intros s' p' o. cbn. rewrite lookup_delete_Some. intros [_ H]. by exists o.
  - destruct (sw_ports s !! pp_port_no p) as [o|] eqn:Eo; [|exact Ht]. cbn [need]. rewrite M_bind_lift_Ok. destruct (port_update p o) as [o'|e] eqn:Eu; [|exact Ht].
    rewrite M_bind_lift_Ok. apply (ids_write_port t d s _ o o' Ht Es Eo). by apply port_update_same in Eu.
  - destruct (reason =? OFPPR_ADD); [|exact Ht]. cbn [guard_ok]. rewrite M_bind_lift_Ok. destruct (bool_decide (sw_ports s !! pp_port_no p = None)); [|exact Ht].
    cbn [guard_ok]. rewrite M_bind_lift_Ok. by apply ids_add_port.
Qed.
Lemma ids_link added d1 p1 d2 p2 : preserves I (handle_LinkEvent added d1 p1 d2 p2).
Proof.
  assert (Hc : forall d p f, (forall o, same_port (f o) o) -> preserves I (change_port d p f)).
  { intros d p f Hf. apply ids_change. intros s p' o. cbn. rewrite lookup_alter_Some. intros [(-> & o0 & Ho & ->)|[_ Ho]]; [by exists o0|by exists o]. }
  assert (Ha : forall d p e b, preserves I (change_port d p (port_addEntity e b))) by (intros; by apply Hc).
  assert (Hd : forall d p e, preserves I (change_port d p (port_discard e))) by (intros; by apply Hc).
  unfold handle_LinkEvent, getEntityByID. keep. all: repeat match goal with a : option entity_kind |- _ => destruct a end; keep.
Qed.
End ids.

Lemma ids_new_switch d t : ids_ok_with ∅ t -> d ∉ all_ids t -> ids_ok_with {[d]} (set_switch d (new_switch d) (set_ids (next_id t) ({[d]} ∪ all_ids t) t)).
Proof.
  intros [(H1 & H2 & H3 & H4) _] Hd. set (t' := set_switch _ _ _). assert (Hnone : of_switches t !! d = None) by (apply eq_None_not_Some; by intros ?%H2).
  assert (Hold : forall d' p o, has_port t' d' p o -> has_port t d' p o).
  { intros d' p o (s & Hs & Ho). cbn in Hs. rewrite lookup_insert_Some in Hs. destruct Hs as [[<- <-]|[_ Hs]]; [exfalso; exact (lookup_empty_Some p o Ho)|by exists s]. }
  assert (Hdom : forall d', is_Some (of_switches t' !! d') <-> d' = d \/ is_Some (of_switches t !! d')).
  { intros d'. cbn. destruct (decide (d = d')) as [<-|]; [rewrite lookup_insert_eq; split; [by left|done]|rewrite lookup_insert_ne by done; split; [by right|by intros [->|?]]]. }
  split; [|intros d' ->%elem_of_singleton; apply Hdom; by left]. split; [|split; [|split]].
  - intros d' Hd'. apply Hdom. right. by apply H1.
  - intros d' [->|Hd']%Hdom; cbn; [set_solver|]. apply H2 in Hd'. set_solver.
  - intros d' p o Ho%Hold. destruct (H3 _ _ _ Ho) as (? & Hin & Hno). split; [done|]. split; [cbn; set_solver|]. apply eq_None_not_Some. rewrite Hdom. intros [E|Hs]; [by rewrite E in Hin|].
    rewrite Hno in Hs. by destruct Hs.
  - intros d1 p1 o1 d2 p2 o2 Ho1%Hold Ho2%Hold. by apply (H4 _ _ _ _ _ _ Ho1 Ho2).
Qed.
Lemma ids_weaken X t : ids_ok_with X t -> ids_ok_with ∅ t.
Proof. intros [H _]. split; [exact H|]. intros d. set_solver. Qed.

Lemma ids_up d now c ofp : preserves (ids_ok_with ∅) (handle_openflow_ConnectionUp d now c ofp).
Proof.
  intros t Ht. unfold handle_openflow_ConnectionUp, getEntityByID. rewrite M_bind_unfold. unfold get at 1. destruct (entities t !! d) as [k|] eqn:Ek.
  { rewrite M_bind_unfold. unfold mret at 1, M_ret at 1. pose proof (ids_setConnection ∅ d now (Some c) (Some ofp) t Ht) as H. rewrite M_bind_unfold.
    by destruct (setConnection d now (Some c) (Some ofp) t) as [[[]|e] t1]. }
  rewrite M_bind_unfold. unfold new_OpenFlowSwitch at 1, entity_with_id. unfold mbind at 1, M_bind at 1, lift at 1. destruct (guard_ok _ _); [|exact Ht].
  rewrite !M_bind_unfold. unfold get at 1. destruct (decide (d ∈ all_ids t)) as [|Hd]; [exact Ht|]. cbn [modify].
  pose proof (ids_new_switch d t Ht Hd) as Hn. set (t1 := set_switch _ _ _) in *. rewrite M_bind_unfold.
  pose proof (ids_setConnection {[d]} d now (Some c) (Some ofp) t1 Hn) as H. destruct (setConnection d now (Some c) (Some ofp) t1) as [[[]|e] t2]; [|by apply (ids_weaken {[d]})].
  cbn [snd] in H. rewrite M_bind_unfold. unfold addEntity. rewrite M_bind_unfold. unfold get at 1. destruct (entities t2 !! d) eqn:E2; [by apply (ids_weaken {[d]})|].
  destruct H as [(H1 & H2 & H3 & H4) H5]. split; [|intros d'; set_solver]. split; [|done]. intros d' Hd'.
  change (is_Some (<[d := KindSwitch]> (entities t2) !! d')) in Hd'. change (is_Some (of_switches t2 !! d')).
  destruct (decide (d = d')) as [<-|Hne]; [apply H5; set_solver|]. rewrite lookup_insert_ne in Hd' by done. by apply H1.
Qed.

Lemma the_switch_run d t s : of_switches t !! d = Some s -> the_switch d t = (Ok s, t).
Proof. intros E. unfold the_switch, mbind, M_bind, get, lift. by rewrite E. Qed.
Lemma change_switch_run d f t s : of_switches t !! d = Some s -> change_switch d f t = (Ok tt, set_switch d (f s) t).
Proof. intros E. unfold change_switch. by rewrite (M_bind_run _ _ _ _ _ (the_switch_run d t s E)). Qed.

(** ** Ports after a features reply *)

(** What a port is for an entry of the reply; a port that was there keeps its
    number and the entities it leads to. *)
Definition port_shows (p : ofp_phy_port) (old : option OpenFlowPort) (o : OpenFlowPort) : Prop :=
  pt_number o = pp_port_no p /\ pt_name o = pp_name p /\ HwEth (pt_hwAddr o) = pp_hw_addr p /\ pt_config o = pp_config p /\ pt_state o = pp_state p /\
  match old with Some o0 => pt_id o = pt_id o0 /\ pt_entities o = pt_entities o0 | None => pt_entities o = ∅ end.
Definition eth_port (p : ofp_phy_port) : Prop := exists a, pp_hw_addr p = HwEth a.

Lemma hw_addr_eth p a : pp_hw_addr p = HwEth a -> hw_addr (pp_hw_addr p) = Ok a.
Proof. intros ->. by destruct a. Qed.
Lemma port_update_shows p o : eth_port p -> pt_name o = pp_name p -> pt_number o = pp_port_no p -> exists o', port_update p o = Ok o' /\ port_shows p (Some o) o'.
Proof.
  intros [a Ha] Hn Hp. unfold port_update. rewrite bool_decide_eq_true_2, Hp, Z.eqb_refl by done. cbn [guard_ok mbind result_bind]. rewrite (hw_addr_eth p a Ha). eexists. split; [reflexivity|].
  by unfold port_shows.
Qed.
Lemma new_port_shows p t : eth_port p -> exists o n, new_OpenFlowPort p t = (Ok o, set_ids n ({[n]} ∪ all_ids t) t) /\ port_shows p None o.
Proof.
  intros Hp. pose proof Hp as [a Ha]. unfold new_OpenFlowPort, entity_without_id, mbind, M_bind, lift. rewrite (hw_addr_eth p a Ha). set (n := free_id _ _ _).
  destruct (port_update_shows p (mk_OpenFlowPort n (pp_port_no p) (pp_name p) a (pp_port_no p =? OFPP_CONTROLLER) 0 0 ∅) Hp) as (o & -> & H1 & H2 & H3 & H4 & H5 & _ & H6); [done|done|].
  exists o, n. split; [done|]. by unfold port_shows.
Qed.

Lemma update_ports_follow d ps : forall u t s, NoDup (pp_port_no <$> ps) -> Forall eth_port ps -> of_switches t !! d = Some s ->
  (forall p o, p ∈ ps -> sw_ports s !! pp_port_no p = Some o -> pt_name o = pp_name p /\ pt_number o = pp_port_no p /\ pp_port_no p ∈ u) ->
  u ⊆ dom (sw_ports s) ->
  exists t' P, update_ports d ps u t = (Ok (u ∖ list_to_set (pp_port_no <$> ps)), t') /\ of_switches t' !! d = Some (set_ports P s) /\
    (forall n, n ∉ pp_port_no <$> ps -> P !! n = sw_ports s !! n) /\
    (forall p, p ∈ ps -> exists o, P !! pp_port_no p = Some o /\ port_shows p (sw_ports s !! pp_port_no p) o).
Proof.
  induction ps as [|p ps IH]; intros u t s Hnd He Es Hold Hu.
  { exists t, (sw_ports s). cbn. split; [by rewrite difference_empty_L|]. split; [by destruct s|]. split; [done|]. intros p Hp. by apply elem_of_nil in Hp. }
  rewrite fmap_cons in Hnd. apply NoDup_cons in Hnd as [Hp Hnd]. apply Forall_cons in He as [Hep He].
  (* One port, then the others. *)
  assert (Hone : exists t1 o, port_shows p (sw_ports s !! pp_port_no p) o /\ of_switches t1 !! d = Some (set_ports (<[pp_port_no p := o]> (sw_ports s)) s) /\
    update_ports d (p :: ps) u t = update_ports d ps (u ∖ {[pp_port_no p]}) t1).
  { cbn [update_ports]. unfold the_switch, mbind, M_bind, get, lift. rewrite Es. cbn [need]. destruct (sw_ports s !! pp_port_no p) as [o|] eqn:Eo.
    - destruct (Hold p o (list_elem_of_here _ _) Eo) as (H1 & H2 & H3). destruct (port_update_shows p o Hep H1 H2) as (o' & -> & Ho').
      unfold change_switch, the_switch, mbind, M_bind, get, lift. rewrite Es. cbn [need modify]. rewrite bool_decide_eq_true_2 by done. cbn [guard_ok].
      exists (set_switch d (set_ports (<[pp_port_no p := o']> (sw_ports s)) s) t), o'. split; [exact Ho'|]. split; [apply lookup_insert_eq|]. done.
    - destruct (new_port_shows p t Hep) as (o & n & -> & Ho). unfold change_switch, the_switch, mbind, M_bind, get, lift. cbn [of_switches set_ids]. rewrite Es. cbn [need modify].
      assert (Hnot : u ∖ {[pp_port_no p]} = u).
      { apply set_eq. intros i. rewrite elem_of_difference, elem_of_singleton. split; [by intros []|]. intros Hi. split; [done|]. intros ->. apply Hu, elem_of_dom in Hi. rewrite Eo in Hi. by destruct Hi. }
      rewrite Hnot. exists (set_switch d (set_ports (<[pp_port_no p := o]> (sw_ports s)) s) (set_ids n ({[n]} ∪ all_ids t) t)), o. split; [exact Ho|].
      split; [apply lookup_insert_eq|]. done. }
  destruct Hone as (t1 & o & Ho & E1 & ->). destruct (IH (u ∖ {[pp_port_no p]}) t1 _ Hnd He E1) as (t' & P & E & E' & HP1 & HP2).
  - intros q o' Hq. cbn. rewrite lookup_insert_ne by (intros Eq; apply Hp; rewrite Eq; by apply list_elem_of_fmap_2). intros Hq'.
    destruct (Hold q o' (list_elem_of_further _ _ _ Hq) Hq') as (? & ? & ?). split; [done|]. split; [done|]. apply elem_of_difference. split; [done|].
    intros Eq%elem_of_singleton. apply Hp. rewrite <-Eq. by apply list_elem_of_fmap_2.
  - cbn. rewrite dom_insert. set_solver.
  - exists t', P. split; [rewrite E; do 2 f_equal; rewrite fmap_cons; cbn; set_solver|]. split; [exact E'|]. cbn [sw_ports set_ports] in HP1, HP2. split.
    + intros n Hn. rewrite fmap_cons, not_elem_of_cons in Hn. destruct Hn as [Hn1 Hn2]. by rewrite HP1, lookup_insert_ne.
    + intros q [->|Hq]%elem_of_cons; [exists o; split; [by rewrite HP1, lookup_insert_eq|done]|]. destruct (HP2 q Hq) as (o' & H1 & H2). exists o'. split; [done|].
      rewrite lookup_insert_ne in H2; [done|]. intros Eq. apply Hp. rewrite Eq. by apply list_elem_of_fmap_2.
Qed.

(** ** Properties *)

(** After a features reply with ports of different numbers, names unchanged
    for those that were there, a switch has exactly the reply's ports, with their
    addresses, configurations and states; those that stay lead where they led. *)
Theorem ports_follow_features (d : Z) (ofp : ofp_features_reply) (t : topo) (s : OpenFlowSwitch) :
  of_switches t !! d = Some s -> NoDup (pp_port_no <$> fp_ports ofp) -> Forall eth_port (fp_ports ofp) ->
  (forall p o, p ∈ fp_ports ofp -> sw_ports s !! pp_port_no p = Some o -> pt_name o = pp_name p /\ pt_number o = pp_port_no p) ->
  exists t' s', update_features d ofp t = (Ok tt, t') /\ of_switches t' !! d = Some s' /\ sw_capabilities s' = fp_capabilities ofp /\
    (forall n, is_Some (sw_ports s' !! n) <-> n ∈ pp_port_no <$> fp_ports ofp) /\
    forall p, p ∈ fp_ports ofp -> exists o, sw_ports s' !! pp_port_no p = Some o /\ port_shows p (sw_ports s !! pp_port_no p) o.
Proof.
  intros Es Hnd He Hold. unfold update_features. rewrite (M_bind_run _ _ _ _ _ (change_switch_run d _ t s Es)).
  set (t1 := set_switch d (set_capabilities (fp_capabilities ofp) s) t).
  destruct (update_ports_follow d (fp_ports ofp) (dom (sw_ports s)) t1 (set_capabilities (fp_capabilities ofp) s) Hnd He) as (t' & P & E & E' & HP1 & HP2).
  - apply lookup_insert_eq.
  - intros p o Hp Ho. destruct (Hold p o Hp Ho) as [H1 H2]. split; [done|]. split; [done|]. apply elem_of_dom. by exists o.
  - done.
  - change (set_switch d (set_capabilities (fp_capabilities ofp) s) t) with t1. assert (E1 : of_switches t1 !! d = Some (set_capabilities (fp_capabilities ofp) s)) by apply lookup_insert_eq.
    rewrite (M_bind_run _ _ _ _ _ (the_switch_run d t1 _ E1)). change (sw_ports (set_capabilities (fp_capabilities ofp) s)) with (sw_ports s). rewrite (M_bind_run _ _ _ _ _ E).
    rewrite (change_switch_run d _ _ _ E').
    eexists _, _. split; [reflexivity|]. split; [apply lookup_insert_eq|]. split; [done|]. cbn [sw_ports set_ports set_capabilities] in *.
    assert (Hleft : forall n o, filter (fun p => p.1 ∉ dom (sw_ports s) ∖ list_to_set (pp_port_no <$> fp_ports ofp)) P !! n = Some o <-> P !! n = Some o /\ n ∈ pp_port_no <$> fp_ports ofp).
    { intros n o. rewrite map_lookup_filter_Some. cbn [fst]. split; [intros [H Hn]; split; [done|]|intros [H Hn]; split; [done|]; rewrite elem_of_difference, elem_of_list_to_set; tauto].
      destruct (decide (n ∈ pp_port_no <$> fp_ports ofp)) as [|Hno]; [done|]. exfalso. apply Hn, elem_of_difference. rewrite elem_of_list_to_set. split; [|done].
      apply elem_of_dom. rewrite <-HP1 by done. by exists o. }
    split.
    + intros n. split; [intros [o Ho%Hleft]; apply Ho|]. intros Hn. pose proof Hn as (p & -> & Hp)%list_elem_of_fmap. destruct (HP2 p Hp) as (o & Ho & _). exists o. by apply Hleft.
    + intros p Hp. destruct (HP2 p Hp) as (o & Ho & Hs). exists o. split; [|exact Hs]. apply Hleft. split; [done|]. by apply list_elem_of_fmap_2.
Qed.

(** C25: whatever comes in, entities, switches and ports each have a number of
    their own; and a switch whose number a port has got is refused when it
    connects. *)
Theorem entity_numbers_unique (l : list (Z * of_event)) :
  let t := topo_run l new_topo in
  ids_ok t /\
  forall d p o now c ofp, has_port t d p o -> pt_id o <> 0 -> topo_step now (EvUp (pt_id o) c ofp) t = (Err PlainException, t).
Proof.
  intros t. assert (Hok : ids_ok_with ∅ t).
  { subst t. apply (topo_run_invariant _ (fun _ => True)); [|by apply Forall_true|].
    - intros now [d c ofp|d|added d1 p1 d2 p2|d r p|d|d x|d m p|d|d] _; cbn [topo_step].
      + apply ids_up.
      + unfold handle_openflow_ConnectionDown, getEntityByID. assert (preserves (ids_ok_with ∅) (change_switch d (set_connection None))) by by apply ids_change_same. keep.
      + apply ids_link.
      + apply ids_port_status.
      + apply ids_raise.
      + unfold handle_con_BarrierIn. pose proof (@ids_on_flow_table ∅ bool d). pose proof (ids_raise ∅). keep.
      + unfold handle_con_FlowRemoved. pose proof (@ids_on_flow_table ∅ bool d). pose proof (ids_raise ∅). keep.
      + apply ids_setConnection.
      + intros t Ht. destruct (of_switches t !! d) as [s|]; [|exact Ht]. destruct (sw_reconnectTimeout s) as [due|]; [|exact Ht]. destruct (due <=? now); [|exact Ht].
        assert (Hp : preserves (ids_ok_with ∅) (timer_ReconnectTimeout d)); [|by apply Hp]. unfold timer_ReconnectTimeout.
        assert (preserves (ids_ok_with ∅) (change_switch d (set_timer None))) by by apply ids_change_same. pose proof (ids_removeEntity ∅ d). pose proof (ids_raise ∅). keep.
    - split; [|intros d; set_solver]. split; [|split; [|split]]; cbn.
      + intros d [k H]. exfalso. exact (lookup_empty_Some d k H).
      + intros d [s H]. exfalso. exact (lookup_empty_Some d s H).
      + intros d p o (s & H & _). exfalso. exact (lookup_empty_Some d s H).
      + intros d p o d' p' o' (s & H & _). exfalso. exact (lookup_empty_Some d s H). }
  destruct Hok as [Hok _]. split; [exact Hok|]. intros d p o now c ofp Ho H0. destruct Hok as (H1 & _ & H3 & _). destruct (H3 d p o Ho) as (_ & Hin & Hno).
  apply taken_refused; [done|done|]. apply eq_None_not_Some. intros Hs%H1. rewrite Hno in Hs. by destruct Hs.
Qed.

(** As long as nothing raises a connection's own [ConnectionDown], and
    [of_01] raises none, an entity stays in the topology: no timer is ever set. *)
Theorem switches_stay (l1 l2 : list (Z * of_event)) (d : Z) (k : entity_kind) :
  Forall (fun e => forall d, e.2 <> EvConDown d) (l1 ++ l2) -> entities (topo_run l1 new_topo) !! d = Some k ->
  entities (topo_run (l1 ++ l2) new_topo) !! d = Some k /\ forall d' s, of_switches (topo_run (l1 ++ l2) new_topo) !! d' = Some s -> sw_reconnectTimeout s = None.
Proof.
  intros Hl Hk. apply Forall_app in Hl as [Hl1 Hl2].
  assert (Hcalm : calm d k (topo_run l1 new_topo)).
  { split; [|exact Hk]. assert (H : no_timers (topo_run l1 new_topo)); [|exact H]. apply (topo_run_invariant no_timers (fun e => forall d, e <> EvConDown d)); [|done|intros d' s H; exfalso; exact (lookup_empty_Some d' s H)].
    intros now e He. by apply no_timers_step. }
  assert (Hend : calm d k (topo_run (l1 ++ l2) new_topo)).
  { unfold topo_run. rewrite foldl_app. fold (topo_run l1 new_topo). fold (topo_run l2 (topo_run l1 new_topo)).
    apply (topo_run_invariant (calm d k) (fun e => forall d, e <> EvConDown d)); [|done|exact Hcalm]. intros now e He. by apply calm_keeps. }
  destruct Hend as [H1 H2]. split; [exact H2|exact H1].
Qed.

(** A switch that is away for thirty seconds after its connection said so
    leaves the topology and never comes back: its number stays taken, and every
    later connection of it is refused. *)
Theorem late_switch_refused (d : Z) (k : entity_kind) (s : OpenFlowSwitch) (now1 now2 now3 : Z) (l : list (Z * of_event)) (c : nat) (ofp : ofp_features_reply) (t : topo) :
  d <> 0 -> d ∈ all_ids t -> entities t !! d = Some k -> of_switches t !! d = Some s -> now1 + RECONNECT_TIMEOUT * second <= now2 ->
  let t1 := topo_run [(now1, EvConDown d); (now2, EvTimer d)] t in
  entities t1 !! d = None /\ topo_step now3 (EvUp d c ofp) (topo_run l t1) = (Err PlainException, topo_run l t1).
Proof.
  intros H0 Hin Hk Hs Hdue t1. assert (Hdown : exists t0 s0, topo_step now1 (EvConDown d) t = (Ok tt, t0) /\ of_switches t0 !! d = Some s0 /\
    sw_reconnectTimeout s0 = Some (now1 + RECONNECT_TIMEOUT * second) /\ all_ids t0 = all_ids t /\ entities t0 = entities t).
  { cbn [topo_step]. unfold handle_con_ConnectionDown, setConnection. rewrite (M_bind_run _ _ _ _ _ (change_switch_run d _ t s Hs)).
    rewrite (M_bind_run _ _ _ _ _ (change_switch_run d _ _ _ (lookup_insert_eq _ _ _))). rewrite (M_bind_run _ _ _ _ _ (change_switch_run d _ _ _ (lookup_insert_eq _ _ _))).
    rewrite M_bind_unfold. unfold mret at 1, M_ret at 1. rewrite M_bind_unfold. cbn [modify]. unfold on_flow_table. cbn [of_switches raise_topo set_switch]. rewrite lookup_insert_eq.
    eexists _, _. split; [reflexivity|]. split; [apply lookup_insert_eq|]. by destruct (sw_connection s). }
  destruct Hdown as (t0 & s0 & E0 & Hs0 & Ht0 & Hids & Hents).
  assert (Hgone : about_ids (gone d) t1).
  { subst t1. cbn [topo_run foldl fst snd]. rewrite E0. cbn [snd topo_step]. rewrite Hs0, Ht0, (proj2 (Z.leb_le _ _) Hdue). unfold timer_ReconnectTimeout.
    rewrite (M_bind_run _ _ _ _ _ (change_switch_run d _ t0 s0 Hs0)). rewrite M_bind_unfold. unfold removeEntity. rewrite M_bind_unfold. unfold get at 1. cbn [entities set_switch]. rewrite Hents, Hk.
    split; [change (d ∈ all_ids t0); by rewrite Hids|]. exact (lookup_delete_eq _ _). }
  split; [apply Hgone|]. assert (Hrun : about_ids (gone d) (topo_run l t1)).
  { apply (topo_run_invariant (about_ids (gone d)) (fun _ => True)); [|by apply Forall_true|exact Hgone]. intros now e _. by apply gone_step. }
  destruct Hrun as [R1 R2]. by apply taken_refused.
Qed.

(** ** Instances of the properties *)
Module TopoExamples.
Definition port (n : Z) (name : bytes) : ofp_phy_port := mk_ofp_phy_port n (HwEth (mkEth (zeros 6))) name 0 0 0 0 0 0.
Definition features_of (ps : list ofp_phy_port) : ofp_features_reply := mk_ofp_features_reply (new_header OFPT_FEATURES_REPLY) 5 0 0 7 0 ps.
Definition ports : list ofp_phy_port := [port 1 (str "eth1"); port 2 (str "eth2")].
Definition history : list (Z * of_event) := [(0, EvUp 5 1 (features_of ports))].
Definition up : topo := topo_run history new_topo.
Definition the_up : OpenFlowSwitch := default (new_switch 5) (of_switches up !! 5).
Definition port_one : OpenFlowPort := mk_OpenFlowPort 101 1 (str "eth1") (mkEth (zeros 6)) false 0 0 ∅.
Lemma up_switch : of_switches up !! 5 = Some the_up.
Proof. by vm_compute. Qed.
End TopoExamples.

(** The port that goes away and the one that is new. *)
Lemma ports_follow_features_witness :
  exists t' s', update_features 5 (TopoExamples.features_of [TopoExamples.port 2 (str "eth2"); TopoExamples.port 3 (str "eth3")]) TopoExamples.up = (Ok tt, t') /\
    of_switches t' !! 5 = Some s' /\ forall n, is_Some (sw_ports s' !! n) <-> n ∈ [2; 3].
Proof.
  destruct (ports_follow_features 5 (TopoExamples.features_of [TopoExamples.port 2 (str "eth2"); TopoExamples.port 3 (str "eth3")]) TopoExamples.up TopoExamples.the_up)
    as (t' & s' & E & Es & _ & H & _).
  - apply TopoExamples.up_switch.
  - apply (bool_decide_unpack _). by vm_compute.
  - repeat (constructor; [by eexists|]). constructor.
  - intros p o Hp. cbn [fp_ports TopoExamples.features_of] in Hp. rewrite !elem_of_cons, elem_of_nil in Hp. destruct Hp as [->|[->|[]]]; intros Ho; vm_compute in Ho; [by injection Ho as <-|done].
  - exists t', s'. split; [exact E|]. split; [exact Es|]. exact H.
Defined.

Lemma entity_numbers_unique_witness :
  topo_step 1 (EvUp 101 2 (TopoExamples.features_of [])) TopoExamples.up = (Err PlainException, TopoExamples.up).
Proof.
  apply (proj2 (entity_numbers_unique TopoExamples.history) 5 1 TopoExamples.port_one 1 2%nat (TopoExamples.features_of [])); [|done].
  exists TopoExamples.the_up. split; [apply TopoExamples.up_switch|by vm_compute].
Defined.

Lemma switches_stay_witness :
  entities (topo_run (TopoExamples.history ++ [(1, EvDown 5); (100000000000, EvTimer 5)]) new_topo) !! 5 = Some KindSwitch.
Proof.
  apply (switches_stay TopoExamples.history [(1, EvDown 5); (100000000000, EvTimer 5)] 5 KindSwitch).
  - repeat (constructor; [by intros ? [=]|]). constructor.
  - by vm_compute.
Defined.

Lemma late_switch_refused_witness :
  let t1 := topo_run [(1, EvConDown 5); (100000000000, EvTimer 5)] TopoExamples.up in
  entities t1 !! 5 = None /\ topo_step 200000000000 (EvUp 5 2 (TopoExamples.features_of TopoExamples.ports)) (topo_run [] t1) = (Err PlainException, topo_run [] t1).
Proof.
  apply (late_switch_refused 5 KindSwitch TopoExamples.the_up 1 100000000000 200000000000 [] 2 (TopoExamples.features_of TopoExamples.ports) TopoExamples.up).
  - done.
  - apply (bool_decide_unpack _). by vm_compute.
  - by vm_compute.
  - apply TopoExamples.up_switch.
  - by vm_compute.
Defined.
