(* ===== verification/PacketWire.v ===== *)
(** * Packets on the wire ([pox/lib/packet])

    [parse] and [hdr] of the packet classes, [packet_base.pack], and the
    Internet checksum.  A constructor call may draw from two globals, the IP
    identification counter and the random generator, so parsing runs in the
    state monad over them.  Packing returns the object as [pack] leaves it:
    lengths and checksums are stored on the way.

    The parsers of LLDP, EAPOL, DHCP and DNS are an argument, [app_parse], which
    [Apps.v] fills. *)

From S2P Require Import Prelude PyStruct Addresses Codec OfpMatch OfpStructs Packet.

(** ** The Internet checksum ([packet_utils.checksum]) *)

(** [array.array('H', data)] on the (little-endian) host, without an odd last
    byte. *)
Fixpoint words_le (b : bytes) : list Z :=
  match b with
  | b0 :: b1 :: b => byte_to_Z b0 + 256 * byte_to_Z b1 :: words_le b
  | _ => []
  end.
Fixpoint sum_words (i : nat) (skip_word : option nat) (l : list Z) : Z :=
  match l with
  | [] => 0
  | w :: l => (if bool_decide (skip_word = Some i) then 0 else w) + sum_words (S i) skip_word l
  end.
Definition ntohs (z : Z) : Z := Z.land z 255 * 256 + Z.shiftr z 8.

Definition checksum (data : bytes) (start : Z) (skip_word : option nat) : Z :=
  let start := start + sum_words 0 skip_word (words_le data) in
  let start := if blen data mod 2 =? 0 then start else
    match last data with Some b => start + byte_to_Z b | None => start end in
  let start := Z.shiftr start 16 + Z.land start 0xffff in
  let start := start + Z.shiftr start 16 in
  ntohs (Z.land (Z.lnot start) 0xffff).

(** ** Globals *)

(** [ipv4.ip_id] and the number of calls made to [random.randint]. *)
Record gen := mk_gen { ip_id : Z; draws : nat }.
Abbreviation P := (M gen).

Definition next_ip_id : P Z := fun g =>
  let id := Z.land (ip_id g + 1) 0xffff in (Ok id, mk_gen id (draws g)).

(** ** Parsing *)

Inductive kind := KVlan | KArp | KIpv4 | KUdp | KTcp | KIcmp | KEcho | KUnreach | KMpls | KApp (k : app_class).

(** [ethernet.type_parsers]. *)
Definition type_parsers (t : Z) : option kind :=
  if t =? 0x8100 then Some KVlan
  else if (t =? 0x0806) || (t =? 0x8035) then Some KArp
  else if t =? 0x0800 then Some KIpv4
  else if t =? 0x88cc then Some (KApp Lldp)
  else if t =? 0x888e then Some (KApp Eapol)
  else if (t =? 0x8847) || (t =? 0x8848) then Some KMpls
  else None.

(** A header that could not be parsed, or one that was. *)
Definition unparsed (h : header) (next : payload) : P payload := mret (PHdr false h next).
Definition parsed (h : header) (next : payload) : P payload := mret (PHdr true h next).

(** [tcp.parse_options], for an option of type [t] and length [l] followed by
    [rest]; the raw value of an unknown option is cut two bytes too far. *)
Definition parse_option (t l : Z) (rest : bytes) : result tcp_opt :=
  if t =? 2 then
    _ ← guard_ok (l =? 4) RuntimeError;
    '(v, _) ← unpack [cH] (pyupto rest 2); mret (OMss v)
  else if t =? 3 then
    _ ← guard_ok (l =? 3) RuntimeError;
    b ← need IndexError (head rest); mret (OWs (byte_to_Z b))
  else if t =? 4 then
    _ ← guard_ok (l =? 2) RuntimeError; mret OSackPerm
  else if t =? 5 then
    _ ← guard_ok ((2 <=? l) && ((l - 2) mod 8 =? 0)) RuntimeError;
    _ ← guard_ok (blen rest =? l - 2) StructError;
    mret (OSack ((fun i => (be_decode (pyslice rest (8 * Z.of_nat i) (8 * Z.of_nat i + 4)),
                            be_decode (pyslice rest (8 * Z.of_nat i + 4) (8 * Z.of_nat i + 8))))
                 <$> seq 0 (Z.to_nat ((l - 2) / 8))))
  else if t =? 8 then
    _ ← guard_ok (l =? 10) RuntimeError;
    '(a, (b, _)) ← unpack [cL; cL] (pyupto rest 8); mret (OTs a b)
  else mret (OUnknown t (pyupto rest l)).

(** The loop over [raw] from index [i]; the options read so far are kept when
    an exception is raised. *)
Fixpoint options_loop (fuel : nat) (raw : bytes) (hdr_len i : Z) (acc : list tcp_opt)
  : result unit * list tcp_opt :=
  match fuel with
  | O => (Err OutOfFuel, acc)
  | S fuel =>
      if hdr_len <=? i then (Ok tt, acc) else
      match pyfrom raw i with
      | [] => (Err IndexError, acc)
      | b0 :: rest =>
          let t := byte_to_Z b0 in
          if t =? 0 then (Ok tt, acc)
          else if t =? 1 then options_loop fuel raw hdr_len (i + 1) (acc ++ [ONop])
          else
            match rest with
            | [] => (Err RuntimeError, acc)
            | b1 :: rest =>
                let l := byte_to_Z b1 in
                if blen raw <? i + l then (Err RuntimeError, acc)
                else if l <? 2 then (Err RuntimeError, acc)
                else
                  match parse_option t l rest with
                  | Err e => (Err e, acc)
                  | Ok o => options_loop fuel raw hdr_len (i + l) (acc ++ [o])
                  end
            end
      end
  end.
Definition parse_options (raw : bytes) (hdr_len : Z) : result unit * list tcp_opt :=
  options_loop (S (Z.to_nat (hdr_len - 20))) raw hdr_len 20 [].

Definition parse_tcp (raw : bytes) : P payload :=
  if blen raw <? 20 then unparsed (HTcp new_tcp) (PBytes []) else
  '(sp, (dp, (sq, (ack, (offres, (flags, (win, (csum, (urg, _))))))))) ←
    lift (unpack [cH; cH; cL; cL; cB; cB; cH; cH; cH] (pyupto raw 20));
  let off := Z.shiftr offres 4 in
  let h opts := HTcp (mk_tcp sp dp sq ack off (Z.land offres 0x0f) flags win csum urg opts) in
  if (off * 4 <? 20) || (blen raw <? off * 4) then unparsed (h []) (PBytes []) else
  match parse_options raw (off * 4) with
  | (Err _, opts) => unparsed (h opts) (PBytes [])
  | (Ok _, opts) => parsed (h opts) (PBytes (pyfrom raw (off * 4)))
  end.

Definition parse_mpls (raw : bytes) : P payload :=
  if blen raw <? 4 then unparsed (HMpls new_mpls) PNone else
  '(label_high, (low, (ttl, _))) ← lift (unpack [cH; cB; cB] (pyupto raw 4));
  parsed (HMpls (mk_mpls (Z.lor (Z.shiftl label_high 4) (Z.shiftr low 4)) (Z.shiftr (Z.land low 0xf) 1)
    (Z.land low 1) ttl)) (PBytes (pyfrom raw 4)).

Definition parse_arp (raw : bytes) : P payload :=
  if blen raw <? 28 then unparsed (HArp new_arp) (PBytes []) else
  '(hwtype, (prototype, (hwlen, (protolen, (opcode, _))))) ←
    lift (unpack [cH; cH; cB; cB; cH] (pyupto raw 8));
  '(hwsrc, hwdst) ←
    (if negb (hwlen =? 6) then mret (HwEth EMPTY_ETH, HwEth EMPTY_ETH) else
     s ← lift (EthAddr_init (EStr (pyslice raw 8 14)));
     d ← lift (EthAddr_init (EStr (pyslice raw 18 24)));
     mret (HwEth s, HwEth d));
  '(psrc, pdst) ←
    (if negb (protolen =? 4) then mret (NwIP IP_ANY, NwIP IP_ANY) else
     '(s, _) ← lift (unpack [cL] (pyslice raw 14 18));
     '(d, _) ← lift (unpack [cL] (pyslice raw 24 28));
     mret (NwIP (IPAddr_of_int s false), NwIP (IPAddr_of_int d false)));
  parsed (HArp (mk_arp hwtype prototype hwsrc hwdst hwlen opcode protolen psrc pdst)) (PBytes (pyfrom raw 28)).

Section parse.
Context (randint : nat -> Z).
Context (app_parse : app_class -> bytes -> P payload).

(** [random.randint(0, 65535)]. *)
Definition random_id : P Z := fun g => (Ok (randint (draws g)), mk_gen (ip_id g) (S (draws g))).

Definition parse_echo (raw : bytes) : P payload :=
  id ← random_id;
  if blen raw <? 4 then unparsed (HEcho (mk_echo id 0)) PNone else
  '(id, (seq, _)) ← lift (unpack [cH; cH] (pyupto raw 4));
  parsed (HEcho (mk_echo id seq)) (PBytes (pyfrom raw 4)).

Definition parse_udp (raw : bytes) : P payload :=
  if blen raw <? 8 then unparsed (HUdp new_udp) PNone else
  '(sp, (dp, (len, (csum, _)))) ← lift (unpack [cH; cH; cH; cH] (pyupto raw 8));
  let h := HUdp (mk_udp sp dp len csum) in
  if len <? 8 then parsed h PNone
  else if (dp =? 67) || (dp =? 68) then next ← app_parse Dhcp (pyfrom raw 8); parsed h next
  else if (dp =? 53) || (sp =? 53) then next ← app_parse Dns (pyfrom raw 8); parsed h next
  else if blen raw <? len then parsed h PNone
  else parsed h (PBytes (pyfrom raw 8)).

(** The parsers that call another one take it as an argument. *)
Section nested.
Context (rec : kind -> bytes -> P payload).

Definition parse_unreach (raw : bytes) : P payload :=
  if blen raw <? 4 then unparsed (HUnreach (mk_unreach 0 0)) PMissing else
  '(unused, (mtu, _)) ← lift (unpack [cH; cH] (pyupto raw 4));
  next ← (if 28 <=? blen raw then rec KIpv4 (pyfrom raw 4) else mret (PBytes (pyfrom raw 4)));
  parsed (HUnreach (mk_unreach unused mtu)) next.

Definition parse_icmp (raw : bytes) : P payload :=
  if blen raw <? 4 then unparsed (HIcmp new_icmp) PMissing else
  '(t, (code, (csum, _))) ← lift (unpack [cB; cB; cH] (pyupto raw 4));
  next ← (if (t =? 8) || (t =? 0) then rec KEcho (pyfrom raw 4)
          else if t =? 3 then rec KUnreach (pyfrom raw 4)
          else mret (PBytes (pyfrom raw 4)));
  parsed (HIcmp (mk_icmp t code csum)) next.

(** [isinstance(self.next, packet_base) and not self.next.parsed]. *)
Definition is_unparsed (p : payload) : result bool :=
  match p with
  | PHdr false _ PMissing => Err AttributeError
  | PHdr p _ _ => mret (negb p)
  | _ => mret false
  end.

Definition parse_ipv4 (raw : bytes) : P payload :=
  id ← next_ip_id;
  let dlen := blen raw in
  if dlen <? 20 then unparsed (HIpv4 (new_ipv4 id)) (PBytes []) else
  '(vhl, (tos, (iplen, (id, (frag, (ttl, (protocol, (csum, (srcip, (dstip, _)))))))))) ←
    lift (unpack [cB; cB; cH; cH; cH; cB; cB; cH; cL; cL] (pyupto raw 20));
  let v := Z.shiftr vhl 4 in
  let hl := Z.land vhl 0x0f in
  let h s d := HIpv4 (mk_ipv4 v hl tos iplen id (Z.shiftr frag 13) (Z.land frag 0x1fff) ttl protocol csum s d) in
  if negb (v =? 4) || (hl <? 5) || (iplen <? 20) || ((iplen <=? hl * 4) || (dlen <? hl * 4))
  then unparsed (h (NwInt srcip) (NwInt dstip)) (PBytes []) else
  let body := pyslice raw (hl * 4) (Z.min iplen dlen) in
  next ← (if protocol =? 17 then rec KUdp body
          else if protocol =? 6 then rec KTcp body
          else if protocol =? 1 then rec KIcmp body
          else mret (PBytes (if dlen <? iplen then [] else body)));
  bad ← lift (is_unparsed next);
  parsed (h (NwIP (IPAddr_of_int srcip false)) (NwIP (IPAddr_of_int dstip false)))
    (if bad : bool then PBytes body else next).

(** The payload of an unknown type is not kept. *)
Definition parse_vlan (raw : bytes) : P payload :=
  if blen raw <? 4 then unparsed (HVlan new_vlan) PNone else
  '(pcpid, (eth_type, _)) ← lift (unpack [cH; cH] (pyupto raw 4));
  let h := HVlan (mk_vlan (Z.shiftr pcpid 13) 0 (Some (Z.land pcpid 0x1000)) (Z.land pcpid 0x0fff) eth_type) in
  _ ← lift (guard_ok (negb (eth_type =? 0x8100)) AssertionError);
  match type_parsers eth_type with
  | Some k => next ← rec k (pyfrom raw 4); parsed h next
  | None => parsed h PNone
  end.

Definition parse_step (k : kind) (raw : bytes) : P payload :=
  match k with
  | KVlan => parse_vlan raw
  | KArp => parse_arp raw
  | KIpv4 => parse_ipv4 raw
  | KUdp => parse_udp raw
  | KTcp => parse_tcp raw
  | KIcmp => parse_icmp raw
  | KEcho => parse_echo raw
  | KUnreach => parse_unreach raw
  | KMpls => parse_mpls raw
  | KApp k => app_parse k raw
  end.
End nested.

(** Every parser calls the next one on a shorter string. *)
Fixpoint parse (fuel : nat) (k : kind) (raw : bytes) : P payload :=
  match fuel with
  | O => lift (Err OutOfFuel)
  | S fuel => parse_step (parse fuel) k raw
  end.

(** [ethernet(raw)]. *)
Definition parse_ethernet (raw : bytes) : P ethernet :=
  if blen raw <? 14 then mret new_ethernet else
  dst ← lift (EthAddr_init (EStr (pyupto raw 6)));
  src ← lift (EthAddr_init (EStr (pyslice raw 6 12)));
  '(t, _) ← lift (unpack [cH] (pyslice raw 12 14));
  next ← match type_parsers t with
         | Some k => parse (S (length raw)) k (pyfrom raw 14)
         | None => mret (PBytes (pyfrom raw 14))
         end;
  mret (mk_ethernet true (HwEth dst) (HwEth src) t next).

End parse.

(** ** Packing *)

(** [addr.toUnsigned()], which integers do not have. *)
Definition to_unsigned (a : nwaddr) : result Z :=
  match a with NwIP a => mret (ip_toUnsigned a false) | NwInt _ => Err AttributeError end.

Definition vlan_hdr (h : vlan) (rest : bytes) : result (bytes * vlan) :=
  c ← need AttributeError (v_c h);
  b ← pack [cH; cH] (Z.lor (Z.lor (Z.shiftl (v_pcp h) 13) (Z.shiftl c 12)) (v_id h), (v_eth_type h, tt));
  mret (b, h).

Definition mpls_hdr (h : mpls) (rest : bytes) : result (bytes * mpls) :=
  let label := Z.land (l_label h) 0xfffff in
  b ← pack [cH; cB; cB] (Z.shiftr label 4,
        (Z.lor (Z.lor (Z.shiftl (Z.land label 0xf) 4) (Z.shiftl (Z.land (l_tc h) 7) 1)) (Z.land (l_s h) 1),
         (Z.land (l_ttl h) 0xff, tt)));
  mret (b, h).

Definition arp_addr (a : nwaddr) : Z :=
  match a with NwIP a => ip_toUnsigned a false | NwInt z => z end.
Definition arp_hdr (h : arp) (rest : bytes) : result (bytes * arp) :=
  b ← pack [cH; cH; cB; cB; cH] (a_hwtype h, (a_prototype h, (a_hwlen h, (a_protolen h, (a_opcode h, tt)))));
  s ← pack [cL] (arp_addr (a_protosrc h), tt);
  d ← pack [cL] (arp_addr (a_protodst h), tt);
  mret (b ++ hw_raw (a_hwsrc h) ++ s ++ hw_raw (a_hwdst h) ++ d, h).

Definition set_ip_len_csum (h : ipv4) (len csum : Z) : ipv4 :=
  mk_ipv4 (i_v h) (i_hl h) (i_tos h) len (i_id h) (i_flags h) (i_frag h) (i_ttl h) (i_protocol h) csum
    (i_srcip h) (i_dstip h).
(** The twenty bytes of the header with a given checksum. *)
Definition ipv4_bytes (h : ipv4) (csum : Z) : result bytes :=
  s ← to_unsigned (i_srcip h); d ← to_unsigned (i_dstip h);
  pack [cB; cB; cH; cH; cH; cB; cB; cH; cL; cL]
    (Z.shiftl (i_v h) 4 + i_hl h, (i_tos h, (i_iplen h, (i_id h, (Z.lor (Z.shiftl (i_flags h) 13) (i_frag h),
     (i_ttl h, (i_protocol h, (csum, (s, (d, tt)))))))))).
(** [hdr] sets the length and the checksum; options are not written. *)
Definition ipv4_hdr (h : ipv4) (rest : bytes) : result (bytes * ipv4) :=
  let h := set_ip_len_csum h (i_hl h * 4 + blen rest) (i_csum h) in
  data ← ipv4_bytes h 0;
  let csum := checksum data 0 None in
  b ← ipv4_bytes h csum;
  mret (b, set_ip_len_csum h (i_iplen h) csum).

(** The pseudo-header of UDP and TCP, from the enclosing IP header. *)
Definition pseudo (ip : ipv4) (len : Z) : result bytes :=
  s ← to_unsigned (i_srcip ip); d ← to_unsigned (i_dstip ip);
  pack [cL; cL; cB; cB; cH] (s, (d, (0, (i_protocol ip, (len, tt))))).

(** [prev] is the enclosing IP header, if the previous object is one. *)
Definition udp_checksum (prev : option ipv4) (h : udp) (rest : bytes) : result Z :=
  match prev with
  | None => mret 0
  | Some ip =>
      let len := 8 + blen rest in
      p ← pseudo ip len;
      my ← pack [cH; cH; cH; cH] (u_srcport h, (u_dstport h, (len, (0, tt))));
      let r := checksum (p ++ my ++ rest) 0 (Some 9%nat) in
      mret (if r =? 0 then 0xffff else r)
  end.
Definition set_udp_len_csum (h : udp) (len csum : Z) : udp := mk_udp (u_srcport h) (u_dstport h) len csum.
Definition udp_hdr (prev : option ipv4) (h : udp) (rest : bytes) : result (bytes * udp) :=
  let len := blen rest + 8 in
  csum ← udp_checksum prev h rest;
  b ← pack [cH; cH; cH; cH] (u_srcport h, (u_dstport h, (len, (csum, tt))));
  mret (b, set_udp_len_csum h len csum).

(** [tcp_opt.to_bytes]; a SACK option is written without its type and length,
    an unknown one not at all. *)
Fixpoint sack_bytes (l : list (Z * Z)) : result bytes :=
  match l with
  | [] => mret []
  | (a, b) :: l => h ← pack [cL; cL] (a, (b, tt)); t ← sack_bytes l; mret (h ++ t)
  end.
Definition to_bytes (o : tcp_opt) : result bytes :=
  match o with
  | OEol => pack [cB] (0, tt)
  | ONop => pack [cB] (1, tt)
  | OMss v => pack [cB; cB; cH] (2, (4, (v, tt)))
  | OWs v => pack [cB; cB; cB] (3, (3, (v, tt)))
  | OSackPerm => pack [cB; cB] (4, (2, tt))
  | OSack l => sack_bytes l
  | OTs a b => pack [cB; cB; cL; cL] (8, (10, (a, (b, tt))))
  | OUnknown _ _ => mret []
  end.
Fixpoint options_bytes (l : list tcp_opt) : result bytes :=
  match l with
  | [] => mret []
  | o :: l => h ← to_bytes o; t ← options_bytes l; mret (h ++ t)
  end.
Definition tcp_bytes (h : tcp) (csum : Z) : result bytes :=
  b ← pack [cH; cH; cL; cL; cB; cB; cH; cH; cH]
    (t_srcport h, (t_dstport h, (t_seq h, (t_ack h, (Z.lor (Z.shiftl (t_off h) 4) (t_res h),
     (t_flags h, (t_win h, (csum, (t_urg h, tt)))))))));
  o ← options_bytes (t_options h);
  mret (b ++ o).
Definition tcp_checksum (prev : option ipv4) (h : tcp) (rest : bytes) : result Z :=
  match prev with
  | None => mret 0
  | Some ip =>
      my ← tcp_bytes h 0;
      p ← pseudo ip (blen (my ++ rest));
      mret (checksum (p ++ my ++ rest) 0 (Some 14%nat))
  end.
Definition set_tcp_csum (h : tcp) (c : Z) : tcp :=
  mk_tcp (t_srcport h) (t_dstport h) (t_seq h) (t_ack h) (t_off h) (t_res h) (t_flags h) (t_win h) c (t_urg h)
    (t_options h).
Definition tcp_hdr (prev : option ipv4) (h : tcp) (rest : bytes) : result (bytes * tcp) :=
  csum ← tcp_checksum prev h rest;
  b ← tcp_bytes h csum;
  mret (b, set_tcp_csum h csum).

Definition set_icmp_csum (h : icmp) (c : Z) : icmp := mk_icmp (ic_type h) (ic_code h) c.
Definition icmp_hdr (h : icmp) (rest : bytes) : result (bytes * icmp) :=
  b ← pack [cB; cB; cH] (ic_type h, (ic_code h, (0, tt)));
  let csum := checksum (b ++ rest) 0 None in
  b ← pack [cB; cB; cH] (ic_type h, (ic_code h, (csum, tt)));
  mret (b, set_icmp_csum h csum).
Definition echo_hdr (h : echo) (rest : bytes) : result (bytes * echo) :=
  b ← pack [cH; cH] (ee_id h, (ee_seq h, tt)); mret (b, h).
Definition unreach_hdr (h : unreach) (rest : bytes) : result (bytes * unreach) :=
  b ← pack [cH; cH] (ur_unused h, (ur_next_mtu h, tt)); mret (b, h).

Definition wrap {A} (f : A -> header) (r : result (bytes * A)) : result (bytes * header) :=
  '(b, a) ← r; mret (b, f a).
Definition hdr (prev : option ipv4) (h : header) (rest : bytes) : result (bytes * header) :=
  match h with
  | HVlan h => wrap HVlan (vlan_hdr h rest)
  | HIpv4 h => wrap HIpv4 (ipv4_hdr h rest)
  | HArp h => wrap HArp (arp_hdr h rest)
  | HUdp h => wrap HUdp (udp_hdr prev h rest)
  | HTcp h => wrap HTcp (tcp_hdr prev h rest)
  | HIcmp h => wrap HIcmp (icmp_hdr h rest)
  | HEcho h => wrap HEcho (echo_hdr h rest)
  | HUnreach h => wrap HUnreach (unreach_hdr h rest)
  | HMpls h => wrap HMpls (mpls_hdr h rest)
  | HApp k p => b ← p; mret (b, HApp k p)
  end.

(** [packet_base.pack]: the payload first, then the header in front of it. *)
Definition as_prev (h : header) : option ipv4 := match h with HIpv4 h => Some h | _ => None end.
Fixpoint pack_payload (prev : option ipv4) (p : payload) : result (bytes * payload) :=
  match p with
  | PNone => mret ([], PNone)
  | PMissing => Err AttributeError
  | PBytes b => mret (b, PBytes b)
  | PHdr f h next =>
      '(rest, next) ← pack_payload (as_prev h) next;
      '(b, h) ← hdr prev h rest;
      mret (b ++ rest, PHdr f h next)
  end.

Definition pack_ethernet (e : ethernet) : result (bytes * ethernet) :=
  '(rest, next) ← pack_payload None (e_next e);
  b ← pack [cs 6; cs 6; cH] (hw_raw (e_dst e), (hw_raw (e_src e), (e_type e, tt)));
  mret (b ++ rest, mk_ethernet (e_parsed e) (e_dst e) (e_src e) (e_type e) next).

(** ** What the checksum is *)

(** The sum of the big-endian words, an odd last byte being padded. *)
Fixpoint be_sum (b : bytes) : Z :=
  match b with
  | b0 :: b1 :: b => byte_to_Z b0 * 256 + byte_to_Z b1 + be_sum b
  | [b0] => byte_to_Z b0 * 256
  | [] => 0
  end.
Fixpoint le_sum (b : bytes) : Z :=
  match b with
  | b0 :: b1 :: b => byte_to_Z b0 + 256 * byte_to_Z b1 + le_sum b
  | [b0] => byte_to_Z b0
  | [] => 0
  end.

Lemma bytes_ind2 (Q : bytes -> Prop) :
  Q [] -> (forall b0, Q [b0]) -> (forall b0 b1 b, Q b -> Q (b0 :: b1 :: b)) -> forall b, Q b.
Proof.
  intros H0 H1 H2. fix IH 1. intros [|b0 [|b1 b]]; [exact H0|apply H1|apply H2, IH].
Qed.

Lemma sum_words_shift i l : sum_words i None l = sum_words 0 None l.
Proof. revert i. induction l as [|w l IH]; intros i; [done|]. simpl. by rewrite (IH (S i)), (IH 1%nat). Qed.

Lemma le_sum_start b :
  (let s := sum_words 0 None (words_le b) in
   if blen b mod 2 =? 0 then s else match last b with Some c => s + byte_to_Z c | None => s end) = le_sum b.
Proof.
  cbv zeta. induction b as [|b0|b0 b1 b IH] using bytes_ind2; [done|simpl; lia|].
  cbn [le_sum words_le sum_words]. rewrite sum_words_shift, <-IH.
  rewrite !blen_cons. replace (1 + (1 + blen b)) with (blen b + 1 * 2) by lia. rewrite Z.mod_add by lia.
  rewrite bool_decide_eq_false_2 by done. destruct (blen b mod 2 =? 0) eqn:E; [lia|].
  destruct b as [|c b]; [done|]. rewrite (last_cons_cons b0 b1). change (last (b1 :: c :: b)) with (last (c :: b)).
  destruct (last (c :: b)); lia.
Qed.

Lemma le_sum_range b : 0 <= le_sum b /\ 2 * le_sum b <= 65535 * (blen b + 1).
Proof.
  induction b as [|b0|b0 b1 b IH] using bytes_ind2; [simpl; unfold blen; simpl; lia| |].
  - simpl. pose proof (byte_to_Z_range b0). unfold blen. simpl. lia.
  - cbn [le_sum]. rewrite !blen_cons. pose proof (byte_to_Z_range b0). pose proof (byte_to_Z_range b1). lia.
Qed.

(** Exchanging the bytes of every word multiplies by 256 modulo 65535. *)
Lemma be_le_sum b : (256 * le_sum b) mod 65535 = be_sum b mod 65535.
Proof.
  induction b as [|b0|b0 b1 b IH] using bytes_ind2; [done|simpl; f_equal; lia|].
  cbn [le_sum be_sum].
  replace (256 * (byte_to_Z b0 + 256 * byte_to_Z b1 + le_sum b))
    with (256 * le_sum b + (byte_to_Z b0 * 256 + byte_to_Z b1) + byte_to_Z b1 * 65535) by lia.
  rewrite Z.mod_add by lia. rewrite Z.add_mod, IH, <-Z.add_mod by lia. f_equal. lia.
Qed.

Lemma ntohs_swap z : 0 <= z < 65536 -> 0 <= ntohs z < 65536 /\ (ntohs z - 256 * z) mod 65535 = 0.
Proof.
  intros Hz. unfold ntohs. change 255 with (Z.ones 8). rewrite Z.land_ones, Z.shiftr_div_pow2 by lia.
  change (2 ^ 8) with 256. Z.to_euclidean_division_equations. nia.
Qed.

Lemma land_ffff x : Z.land x 0xffff = x mod 65536.
Proof. change 0xffff with (Z.ones 16). by rewrite Z.land_ones by lia. Qed.
Lemma shiftr_16 x : Z.shiftr x 16 = x / 65536.
Proof. by rewrite Z.shiftr_div_pow2 by lia. Qed.

(** Two folds of a 32-bit sum, complemented. *)
Lemma fold_complement s :
  0 <= s < 2 ^ 32 ->
  let s1 := Z.shiftr s 16 + Z.land s 0xffff in let s2 := s1 + Z.shiftr s1 16 in
  let c := Z.land (Z.lnot s2) 0xffff in 0 <= c < 65536 /\ (s + c) mod 65535 = 0.
Proof.
  cbv zeta. intros Hs. rewrite !land_ffff, !shiftr_16. change (2 ^ 32) with 4294967296 in Hs.
  assert (H1 : 0 <= s / 65536 + s mod 65536 <= 131070 /\ exists k, s = s / 65536 + s mod 65536 + k * 65535).
  { split; [Z.to_euclidean_division_equations; lia|]. exists (s / 65536).
    Z.to_euclidean_division_equations; lia. }
  destruct H1 as [H1 [k Hk]]. generalize dependent (s / 65536 + s mod 65536). intros s1 H1 ->.
  unfold Z.lnot, Z.pred. split; [apply Z.mod_pos_bound; lia|].
  set (c := (- (s1 + s1 / 65536) + -1) mod 65536).
  assert (Hc : exists j, s1 + c = j * 65535).
  { subst c. destruct (Z.le_gt_cases 65536 s1).
    - exists 2. Z.to_euclidean_division_equations; lia.
    - exists 1. Z.to_euclidean_division_equations; lia. }
  destruct Hc as [j Hj]. replace (s1 + k * 65535 + c) with ((j + k) * 65535) by lia. by apply Z.mod_mul.
Qed.

Lemma checksum_spec b :
  blen b <= 131070 -> 0 <= checksum b 0 None < 65536 /\ (be_sum b + checksum b 0 None) mod 65535 = 0.
Proof.
  intros Hb. unfold checksum. cbv zeta. rewrite Z.add_0_l. pose proof (le_sum_start b) as Hs. cbv zeta in Hs. rewrite Hs. clear Hs.
  pose proof (le_sum_range b) as [Hr1 Hr2].
  assert (Hs : 0 <= le_sum b < 2 ^ 32) by (change (2 ^ 32) with 4294967296; lia).
  destruct (fold_complement _ Hs) as [Hc1 Hc2].
  set (c := Z.land (Z.lnot _) 0xffff) in *. destruct (ntohs_swap c Hc1) as [Hn1 Hn2]. split; [done|].
  pose proof (be_le_sum b) as Hbl. rewrite <-Z.add_mod_idemp_l, <-Hbl, Z.add_mod_idemp_l by lia.
  replace (256 * le_sum b + ntohs c) with (256 * (le_sum b + c) + (ntohs c - 256 * c)) by lia.
  rewrite Z.add_mod, Hn2 by lia. rewrite <-Z.mul_mod_idemp_r, Hc2 by lia. done.
Qed.

(** ** Reading what was packed *)

Lemma split_hi k a b : 0 <= k -> 0 <= b < 2 ^ k -> Z.shiftr (a * 2 ^ k + b) k = a.
Proof. intros Hk Hb. rewrite Z.shiftr_div_pow2 by done. rewrite Z.div_add_l by lia. rewrite Z.div_small; lia. Qed.
Lemma split_lo k a b : 0 <= k -> 0 <= b < 2 ^ k -> Z.land (a * 2 ^ k + b) (Z.ones k) = b.
Proof. intros Hk Hb. rewrite Z.land_ones by done. rewrite Z.add_comm, Z.mod_add by lia. by apply Z.mod_small. Qed.

Lemma unpack_upto f v r n :
  n = Z.of_nat (calcsize f) -> no_sint0 f = true -> packable f v -> exact f v ->
  unpack f (pyupto (encode f v ++ r) n) = Ok v.
Proof.
  intros -> Hs Hp He. unfold pyupto. rewrite pyslice_here by (by rewrite blen_encode). by apply unpack_encode.
Qed.

(** Evaluate the size of a format. *)
Lemma blen_encode_eval f v n : Z.of_nat (calcsize f) = n -> blen (encode f v) = n.
Proof. intros <-. apply blen_encode. Qed.

(** [parse_step rec k raw] gives the object [p] in any state. *)
Definition gives (m : P payload) (p : payload) : Prop := forall g, exists g', m g = (Ok p, g').

Lemma gives_ret p : gives (mret p) p.
Proof. intros g. by exists g. Qed.
Lemma gives_bind {A} (m : P A) (a : A) (f : A -> P payload) p :
  (forall g, exists g', m g = (Ok a, g')) -> gives (f a) p -> gives (m ≫= f) p.
Proof. intros Hm Hf g. destruct (Hm g) as [g1 E]. rewrite M_bind_unfold, E. apply Hf. Qed.
(** A draw from the globals whose value is not used. *)
Lemma gives_draw {A} (m : P A) (f : A -> P payload) p :
  (forall g, exists a g', m g = (Ok a, g')) -> (forall a, gives (f a) p) -> gives (m ≫= f) p.
Proof. intros Hm Hf g. destruct (Hm g) as (a & g1 & E). rewrite M_bind_unfold, E. apply Hf. Qed.
Lemma gives_lift {A} (r : result A) (a : A) (f : A -> P payload) p :
  r = Ok a -> gives (f a) p -> gives (lift r ≫= f) p.
Proof. intros ->. by rewrite M_bind_lift_Ok. Qed.

(** Test a length known to [lia]. *)
Ltac not_short := rewrite (proj2 (Z.ltb_ge _ _)) by (rewrite ?blen_app, ?blen_encode; cbn [calcsize code_size]; simpl Z.of_nat; lia).

(** Read the fields of format [f] at the front, which [Hp] says were packed. *)
Ltac read_front f Hp := eapply gives_lift; [exact (unpack_upto f _ _ _ eq_refl eq_refl Hp I)|]; cbn iota beta.

Section roundtrip.
Context (randint : nat -> Z) (app_parse : app_class -> bytes -> P payload) (rec : kind -> bytes -> P payload).

Definition mpls_wf (h : mpls) : Prop := 0 <= l_label h < 2 ^ 20 /\ 0 <= l_tc h < 8 /\ 0 <= l_s h < 2 /\ uint_ok 1 (l_ttl h).

Lemma mpls_roundtrip h rest :
  mpls_wf h -> exists b, mpls_hdr h rest = Ok (b, h) /\ blen b = 4 /\
    gives (parse_mpls (b ++ rest)) (PHdr true (HMpls h) (PBytes rest)).
Proof.
  clear randint app_parse rec. destruct h as [label tc s ttl]. intros (Hl & Ht & Hs & Httl). unfold uint_ok in Httl. simpl in *.
  change (2 ^ 20) with 1048576 in Hl. unfold mpls_hdr. cbn [l_label l_tc l_s l_ttl].
  change 0xfffff with (Z.ones 20). change 0xff with (Z.ones 8). change 0xf with (Z.ones 4).
  change 7 with (Z.ones 3). change (Z.land s 1) with (Z.land s (Z.ones 1)). rewrite !Z.land_ones by lia.
  change (2 ^ 20) with 1048576. change (2 ^ 8) with 256. change (2 ^ 3) with 8. change (2 ^ 1) with 2. change (2 ^ 4) with 16.
  rewrite !(Z.mod_small label), !(Z.mod_small tc), !(Z.mod_small s), !(Z.mod_small ttl) by lia.
  assert (Hlo : Z.lor (Z.lor (Z.shiftl (label mod 16) 4) (Z.shiftl tc 1)) s = (label mod 16 * 8 + tc) * 2 ^ 1 + s).
  { pose proof (Z.mod_pos_bound label 16 ltac:(lia)). rewrite lor_shiftl_add by (rewrite ?Z.shiftl_mul_pow2; lia).
    rewrite Z.shiftl_mul_pow2 by lia.
    replace (label mod 16 * 2 ^ 4 + tc * 2 ^ 1) with ((label mod 16 * 8 + tc) * 2 ^ 1) by lia.
    rewrite <-Z.shiftl_mul_pow2 by lia. rewrite lor_shiftl_add by lia. by rewrite Z.shiftl_mul_pow2 by lia. }
  rewrite Hlo. set (lo := (label mod 16 * 8 + tc) * 2 ^ 1 + s).
  assert (Hlo2 : 0 <= lo < 256) by (subst lo; pose proof (Z.mod_pos_bound label 16); lia).
  assert (Hp : packable [cH; cB; cB] (Z.shiftr label 4, (lo, (ttl, tt)))).
  { cbn [packable fst snd]. unfold uint_ok. rewrite Z.shiftr_div_pow2 by lia. change (256 ^ Z.of_nat 2) with 65536.
    change (256 ^ Z.of_nat 1) with 256 in *.
    split; [split; [apply Z.div_pos; lia|apply Z.div_lt_upper_bound; lia]|]. split; [lia|]. by split; [lia|]. }
  rewrite (pack_ok _ _ Hp). eexists. split; [reflexivity|]. split; [by apply blen_encode_eval|].
  unfold parse_mpls. pose proof (blen_nonneg rest). not_short.
  read_front [cH; cB; cB] Hp.
  rewrite pyfrom_app by (by rewrite (blen_encode_eval _ _ 4)).
  replace (Z.shiftr lo 4) with (label mod 16).
  2: { subst lo. rewrite Z.shiftr_div_pow2 by lia. pose proof (Z.mod_pos_bound label 16 ltac:(lia)). Z.to_euclidean_division_equations. lia. }
  rewrite Z.shiftr_div_pow2, lor_shiftl_add by (try apply Z.div_pos; try apply Z.mod_pos_bound; lia).
  change 0xf with (Z.ones 4). change (Z.land lo 1) with (Z.land lo (Z.ones 1)).
  rewrite !Z.land_ones, Z.shiftr_div_pow2 by lia.
  replace (label / 2 ^ 4 * 2 ^ 4 + label mod 16) with label by (Z.to_euclidean_division_equations; lia).
  replace (lo mod 2 ^ 4 / 2 ^ 1) with tc by (subst lo; Z.to_euclidean_division_equations; lia).
  replace (lo mod 2 ^ 1) with s by (subst lo; Z.to_euclidean_division_equations; lia).
  apply gives_ret.
Qed.

Definition echo_wf (h : echo) : Prop := uint_ok 2 (ee_id h) /\ uint_ok 2 (ee_seq h).

Lemma echo_roundtrip h rest :
  echo_wf h -> exists b, echo_hdr h rest = Ok (b, h) /\ blen b = 4 /\
    gives (parse_echo randint (b ++ rest)) (PHdr true (HEcho h) (PBytes rest)).
Proof.
  destruct h as [id seq]. intros [Hi Hs]. unfold echo_hdr. cbn [ee_id ee_seq] in *.
  assert (Hp : packable [cH; cH] (id, (seq, tt))) by done. rewrite (pack_ok _ _ Hp).
  eexists. split; [reflexivity|]. split; [by apply blen_encode_eval|]. unfold parse_echo.
  apply gives_draw; [intros g; by do 2 eexists|]. intros id0. pose proof (blen_nonneg rest). not_short.
  read_front [cH; cH] Hp. rewrite pyfrom_app by (by rewrite (blen_encode_eval _ _ 4)). apply gives_ret.
Qed.

Definition unreach_wf (h : unreach) : Prop := uint_ok 2 (ur_unused h) /\ uint_ok 2 (ur_next_mtu h).

(** A datagram is read as one if it may hold an IP header and eight bytes. *)
Definition unreach_next (raw : bytes) (p : payload) : Prop :=
  if 24 <=? blen raw then gives (rec KIpv4 raw) p else p = PBytes raw.

Lemma unreach_roundtrip h rest p :
  unreach_wf h -> unreach_next rest p -> exists b, unreach_hdr h rest = Ok (b, h) /\ blen b = 4 /\
    gives (parse_unreach rec (b ++ rest)) (PHdr true (HUnreach h) p).
Proof.
  destruct h as [u m]. intros [Hu Hm] Hn. unfold unreach_hdr. cbn [ur_unused ur_next_mtu] in *.
  assert (Hp : packable [cH; cH] (u, (m, tt))) by done. rewrite (pack_ok _ _ Hp).
  eexists. split; [reflexivity|]. split; [by apply blen_encode_eval|]. unfold parse_unreach.
  pose proof (blen_nonneg rest). not_short. read_front [cH; cH] Hp.
  rewrite pyfrom_app by (by rewrite (blen_encode_eval _ _ 4)).
  rewrite blen_app, (blen_encode_eval _ _ 4) by done. unfold unreach_next in Hn.
  replace (28 <=? 4 + blen rest) with (24 <=? blen rest)
    by (destruct (Z.leb_spec 24 (blen rest)), (Z.leb_spec 28 (4 + blen rest)); lia || done).
  destruct (24 <=? blen rest).
  - apply gives_bind with p; [exact Hn|]. apply gives_ret.
  - subst p. apply gives_ret.
Qed.

(** Checksums fit their field. *)
Lemma checksum_ok b start skip : uint_ok 2 (checksum b start skip).
Proof.
  unfold checksum. cbv zeta. rewrite land_ffff.
  match goal with |- context [ntohs (?x mod 65536)] => destruct (ntohs_swap (x mod 65536)) as [H _]; [|exact H] end.
  by apply Z.mod_pos_bound.
Qed.

(** The parser of what follows an ICMP header. *)
Definition icmp_next (t : Z) (raw : bytes) (p : payload) : Prop :=
  if (t =? 8) || (t =? 0) then gives (rec KEcho raw) p
  else if t =? 3 then gives (rec KUnreach raw) p
  else p = PBytes raw.

Lemma icmp_roundtrip h rest p :
  uint_ok 1 (ic_type h) -> uint_ok 1 (ic_code h) -> icmp_next (ic_type h) rest p ->
  exists b csum, icmp_hdr h rest = Ok (b, set_icmp_csum h csum) /\ blen b = 4 /\
    gives (parse_icmp rec (b ++ rest)) (PHdr true (HIcmp (set_icmp_csum h csum)) p).
Proof.
  destruct h as [t c k]. intros Ht Hc Hn. unfold icmp_hdr. cbn [ic_type ic_code] in *.
  assert (H0 : packable [cB; cB; cH] (t, (c, (0, tt)))) by (cbn; by split_and!; try done; vm_compute).
  rewrite (pack_ok _ _ H0). cbn [mbind result_bind]. set (csum := checksum _ 0 None).
  assert (Hk : uint_ok 2 csum) by apply checksum_ok.
  assert (Hp : packable [cB; cB; cH] (t, (c, (csum, tt)))) by done. rewrite (pack_ok _ _ Hp).
  do 2 eexists. split; [reflexivity|]. split; [by apply blen_encode_eval|]. unfold parse_icmp.
  pose proof (blen_nonneg rest). not_short. read_front [cB; cB; cH] Hp.
  rewrite !pyfrom_app by (by rewrite (blen_encode_eval _ _ 4)). unfold icmp_next in Hn.
  destruct (_ || _); [|destruct (t =? 3)]; [apply gives_bind with p; [exact Hn|apply gives_ret]..|].
  subst p. apply gives_ret.
Qed.

(** ** UDP and TCP inside IP *)

Definition ip_addr_ok (a : nwaddr) : Prop := match a with NwIP a => ip_wf a | NwInt _ => False end.

Lemma to_unsigned_ok a :
  ip_addr_ok a -> exists z, to_unsigned a = Ok z /\ uint_ok 4 z /\ NwIP (IPAddr_of_int z false) = a.
Proof.
  destruct a as [|a]; [done|]. intros Ha. exists (ip_toUnsigned a false). split; [done|].
  split; [apply ip_toUnsigned_range|]. by rewrite of_int_toUnsigned.
Qed.

Definition prev_ok (ip : ipv4) : Prop :=
  ip_addr_ok (i_srcip ip) /\ ip_addr_ok (i_dstip ip) /\ uint_ok 1 (i_protocol ip).

Lemma pseudo_ok ip len : prev_ok ip -> uint_ok 2 len -> exists b, pseudo ip len = Ok b.
Proof.
  intros (Hs & Hd & Hp) Hl. unfold pseudo. destruct (to_unsigned_ok _ Hs) as (s & -> & Hs' & _).
  destruct (to_unsigned_ok _ Hd) as (d & -> & Hd' & _). cbn [mbind result_bind].
  eexists. apply pack_ok. cbn [packable fst snd]. split_and!; try done; by vm_compute.
Qed.

Definition udp_wf (h : udp) : Prop :=
  uint_ok 2 (u_srcport h) /\ uint_ok 2 (u_dstport h) /\ u_srcport h <> 53 /\
  u_dstport h <> 53 /\ u_dstport h <> 67 /\ u_dstport h <> 68.

Lemma udp_roundtrip ip h rest :
  prev_ok ip -> udp_wf h -> uint_ok 2 (blen rest + 8) ->
  exists b len csum, udp_hdr (Some ip) h rest = Ok (b, set_udp_len_csum h len csum) /\ blen b = 8 /\
    gives (parse_udp app_parse (b ++ rest)) (PHdr true (HUdp (set_udp_len_csum h len csum)) (PBytes rest)).
Proof.
  destruct h as [sp dp len k]. intros Hip (Hs & Hd & N1 & N2 & N3 & N4) Hl. unfold udp_hdr, udp_checksum.
  cbn [u_srcport u_dstport] in *. destruct (pseudo_ok ip (8 + blen rest) Hip) as [ps ->]; [by rewrite Z.add_comm|].
  assert (H0 : packable [cH; cH; cH; cH] (sp, (dp, (8 + blen rest, (0, tt)))))
    by (cbn [packable fst snd]; rewrite Z.add_comm; split_and!; try done; by vm_compute).
  cbn [mbind result_bind]. rewrite (pack_ok _ _ H0). cbn [mbind result_bind mret result_ret].
  set (csum := if _ =? 0 then _ else _).
  assert (Hk : uint_ok 2 csum).
  { subst csum. destruct (_ =? 0); [split; by vm_compute|]. apply checksum_ok. }
  assert (Hp : packable [cH; cH; cH; cH] (sp, (dp, (blen rest + 8, (csum, tt))))) by done.
  rewrite (pack_ok _ _ Hp). do 3 eexists. split; [reflexivity|]. split; [by apply blen_encode_eval|].
  unfold parse_udp. pose proof (blen_nonneg rest). not_short. read_front [cH; cH; cH; cH] Hp.
  rewrite (proj2 (Z.ltb_ge _ _)) by lia.
  rewrite !(proj2 (Z.eqb_neq _ _)) by done. cbn [orb].
  rewrite blen_app, (blen_encode_eval _ _ 8), (proj2 (Z.ltb_ge _ _)) by (done || lia).
  rewrite pyfrom_app by (by rewrite (blen_encode_eval _ _ 8)). apply gives_ret.
Qed.

(** The options that come back as they were written. *)
Definition opt_wf (o : tcp_opt) : Prop :=
  match o with
  | ONop | OSackPerm => True
  | OMss v => uint_ok 2 v
  | OWs v => uint_ok 1 v
  | OTs a b => uint_ok 4 a /\ uint_ok 4 b
  | _ => False
  end.
Definition opt_size (o : tcp_opt) : Z :=
  match o with ONop => 1 | OMss _ => 4 | OWs _ => 3 | OSackPerm => 2 | OTs _ _ => 10 | _ => 0 end.

(** One turn of the loop, on an option with a length. *)
Lemma options_step fuel pre bt bl body post hdr_len acc o :
  blen pre < hdr_len -> 2 <= byte_to_Z bt -> byte_to_Z bl = 2 + blen body ->
  parse_option (byte_to_Z bt) (byte_to_Z bl) (body ++ post) = Ok o ->
  options_loop (S fuel) (pre ++ (bt :: bl :: body) ++ post) hdr_len (blen pre) acc
  = options_loop fuel (pre ++ (bt :: bl :: body) ++ post) hdr_len (blen pre + (2 + blen body)) (acc ++ [o]).
Proof.
  intros Hlt Ht Hl Ho. cbn [options_loop]. rewrite (proj2 (Z.leb_gt _ _)) by done.
  rewrite pyfrom_app by done. cbn [app]. rewrite !(proj2 (Z.eqb_neq _ _)) by lia.
  rewrite Ho, Hl. pose proof (blen_nonneg body). pose proof (blen_nonneg post).
  rewrite (proj2 (Z.ltb_ge _ _)) by (rewrite blen_app, !blen_cons, blen_app; lia).
  by rewrite (proj2 (Z.ltb_ge _ _)) by lia.
Qed.

Lemma encode_H v : be_encode 2 v = encode [cH] (v, tt).
Proof. cbn [encode fst snd]. by rewrite app_nil_r. Qed.

(** An option, as the bytes it is written to, is read back. *)
Definition option_reads (o : tcp_opt) (b : bytes) : Prop :=
  blen b = opt_size o /\ forall fuel pre post hdr_len acc, blen pre < hdr_len ->
    options_loop (S fuel) (pre ++ b ++ post) hdr_len (blen pre) acc
    = options_loop fuel (pre ++ b ++ post) hdr_len (blen pre + opt_size o) (acc ++ [o]).

Lemma option_reads_body o bt bl body :
  2 <= byte_to_Z bt -> byte_to_Z bl = 2 + blen body -> opt_size o = 2 + blen body ->
  (forall post, parse_option (byte_to_Z bt) (byte_to_Z bl) (body ++ post) = Ok o) ->
  option_reads o (bt :: bl :: body).
Proof.
  intros Ht Hl Hs Hp. split; [rewrite !blen_cons; lia|]. intros fuel pre post hdr_len acc Hlt.
  rewrite Hs. by apply options_step.
Qed.

Lemma to_bytes_ok o : opt_wf o -> exists b, to_bytes o = Ok b /\ option_reads o b.
Proof.
  destruct o as [| |v|v| |l|a b|]; try done; intros Ho; cbn [to_bytes].
  - exists [x01]. split; [reflexivity|]. split; [done|]. intros fuel pre post hdr_len acc Hlt.
    cbn [options_loop]. rewrite (proj2 (Z.leb_gt _ _)) by done. by rewrite pyfrom_app by done.
  - exists (x02 :: x04 :: encode [cH] (v, tt)).
    assert (Hp : packable [cH] (v, tt)) by by split.
    split; [by apply (pack_ok [cB; cB; cH] (2, (4, (v, tt)))); repeat split; try apply Ho|].
    apply option_reads_body; [vm_compute; congruence|by rewrite blen_encode|by rewrite blen_encode|]. intros post.
    change (parse_option _ _ _) with ('(v, _) ← unpack [cH] (pyupto (encode [cH] (v, tt) ++ post) 2); mret (OMss v) : result tcp_opt).
    by rewrite (unpack_upto [cH] (v, tt) post 2 eq_refl eq_refl Hp I).
  - exists (x03 :: x03 :: [byte_of_Z v]). unfold opt_wf, uint_ok in Ho. change (256 ^ Z.of_nat 1) with 256 in Ho.
    split; [rewrite (pack_ok [cB; cB; cB] (3, (3, (v, tt)))); [|by repeat split; try apply Ho]; by rewrite <-(Z.div_1_r v) at 2|].
    apply option_reads_body; [vm_compute; congruence|done|done|]. intros post.
    change (parse_option _ _ _) with (Ok (OWs (byte_to_Z (byte_of_Z v)))). by rewrite byte_to_of_Z, Z.mod_small.
  - exists [x04; x02]. split; [reflexivity|]. apply option_reads_body; [vm_compute; congruence|done..].
  - exists (x08 :: x0a :: encode [cL; cL] (a, (b, tt))). destruct Ho as [Ha Hb].
    assert (Hp : packable [cL; cL] (a, (b, tt))) by by split.
    split; [by apply (pack_ok [cB; cB; cL; cL] (8, (10, (a, (b, tt))))); repeat split; try apply Ha; try apply Hb|].
    apply option_reads_body; [vm_compute; congruence|by rewrite blen_encode|by rewrite blen_encode|]. intros post.
    change (parse_option _ _ _) with ('(a, (b, _)) ← unpack [cL; cL] (pyupto (encode [cL; cL] (a, (b, tt)) ++ post) 8); mret (OTs a b) : result tcp_opt).
    by rewrite (unpack_upto [cL; cL] (a, (b, tt)) post 8 eq_refl eq_refl Hp I).
Qed.

Definition opts_size (l : list tcp_opt) : Z := foldr (fun o n => opt_size o + n) 0 l.

Lemma opt_size_pos o : opt_wf o -> 1 <= opt_size o.
Proof. by destruct o. Qed.

Lemma options_roundtrip l :
  Forall opt_wf l -> exists b, options_bytes l = Ok b /\ blen b = opts_size l /\
    forall fuel pre post acc, blen b < Z.of_nat fuel ->
      options_loop fuel (pre ++ b ++ post) (blen pre + blen b) (blen pre) acc = (Ok tt, acc ++ l).
Proof.
  induction 1 as [|o l Ho Hl (b & E & Hb & Hr)].
  - exists []. split; [done|]. split; [done|]. intros fuel pre post acc Hf. rewrite blen_nil in *.
    destruct fuel; [lia|]. cbn [options_loop]. rewrite (proj2 (Z.leb_le _ _)) by lia. by rewrite app_nil_r.
  - destruct (to_bytes_ok o Ho) as (h & Eh & Hh & Hs). exists (h ++ b). cbn [options_bytes]. rewrite Eh, E.
    split; [done|]. pose proof (opt_size_pos o Ho). pose proof (blen_nonneg b).
    split; [rewrite blen_app; simpl; lia|]. intros fuel pre post acc Hf. rewrite blen_app in *.
    destruct fuel as [|fuel]; [lia|]. rewrite <-app_assoc, Hs by lia.
    specialize (Hr fuel (pre ++ h) post (acc ++ [o])). rewrite <-!app_assoc, blen_app, Hh in Hr.
    replace (blen pre + (blen h + blen b)) with (blen pre + opt_size o + blen b) by lia.
    rewrite Hr by lia. done.
Qed.

Definition tcp_wf (h : tcp) : Prop :=
  uint_ok 2 (t_srcport h) /\ uint_ok 2 (t_dstport h) /\ uint_ok 4 (t_seq h) /\ uint_ok 4 (t_ack h) /\
  t_off h <= 15 /\ 0 <= t_res h < 16 /\ uint_ok 1 (t_flags h) /\ uint_ok 2 (t_win h) /\ uint_ok 2 (t_urg h) /\
  Forall opt_wf (t_options h) /\ t_off h * 4 = 20 + opts_size (t_options h).

Definition tcp_vals (h : tcp) (csum : Z) : vals [cH; cH; cL; cL; cB; cB; cH; cH; cH] :=
  (t_srcport h, (t_dstport h, (t_seq h, (t_ack h, (Z.lor (Z.shiftl (t_off h) 4) (t_res h),
   (t_flags h, (t_win h, (csum, (t_urg h, tt))))))))).

Lemma opts_size_nonneg l : Forall opt_wf l -> 0 <= opts_size l.
Proof. induction 1 as [|o l Ho _ IH]; simpl; [lia|]. pose proof (opt_size_pos o Ho). lia. Qed.

Lemma tcp_offres h : tcp_wf h ->
  Z.lor (Z.shiftl (t_off h) 4) (t_res h) = t_off h * 2 ^ 4 + t_res h /\ 5 <= t_off h <= 15.
Proof.
  intros (_ & _ & _ & _ & Ho & Hr & _ & _ & _ & Hopt & Hs). pose proof (opts_size_nonneg _ Hopt).
  split; [|lia]. apply lor_shiftl_add; [lia|lia|exact Hr].
Qed.

Lemma tcp_packable h csum : tcp_wf h -> uint_ok 2 csum -> packable [cH; cH; cL; cL; cB; cB; cH; cH; cH] (tcp_vals h csum).
Proof.
  intros Hh Hc. destruct (tcp_offres h Hh) as [E Hoff].
  destruct Hh as (H1 & H2 & H3 & H4 & _ & Hr & H5 & H6 & H7 & _). unfold tcp_vals. rewrite E.
  cbn [packable fst snd]. do 4 (split; [assumption|]).
  split; [unfold uint_ok; change (256 ^ Z.of_nat 1) with 256; lia|]. by do 4 (split; [assumption|]).
Qed.

Lemma tcp_bytes_ok h csum :
  tcp_wf h -> uint_ok 2 csum ->
  exists ob, options_bytes (t_options h) = Ok ob /\ blen ob = opts_size (t_options h) /\
    tcp_bytes h csum = Ok (encode [cH; cH; cL; cL; cB; cB; cH; cH; cH] (tcp_vals h csum) ++ ob).
Proof.
  intros Hh Hc. pose proof (tcp_packable h csum Hh Hc) as Hp.
  destruct Hh as (_ & _ & _ & _ & _ & _ & _ & _ & _ & Hopt & _).
  destruct (options_roundtrip _ Hopt) as (ob & E & Hb & _). exists ob. split; [done|]. split; [done|].
  unfold tcp_bytes. fold (tcp_vals h csum). by rewrite (pack_ok _ _ Hp), E.
Qed.

Lemma tcp_parse_ok h csum ob rest :
  tcp_wf h -> uint_ok 2 csum -> options_bytes (t_options h) = Ok ob ->
  gives (parse_tcp ((encode [cH; cH; cL; cL; cB; cB; cH; cH; cH] (tcp_vals h csum) ++ ob) ++ rest))
    (PHdr true (HTcp (set_tcp_csum h csum)) (PBytes rest)).
Proof.
  intros Hh Hc Eo. pose proof (tcp_packable h csum Hh Hc) as Hp. destruct (tcp_offres h Hh) as [E Hoff].
  destruct Hh as (_ & _ & _ & _ & _ & Hres & _ & _ & _ & Hopt & Hsz).
  destruct (options_roundtrip _ Hopt) as (ob' & Eo' & Hb & Hr). rewrite Eo in Eo'. injection Eo' as <-.
  set (front := encode _ (tcp_vals h csum)) in *.
  assert (Hf : blen front = 20) by by apply blen_encode_eval.
  pose proof (blen_nonneg ob). pose proof (blen_nonneg rest). rewrite <-app_assoc. unfold parse_tcp.
  rewrite (proj2 (Z.ltb_ge _ _)) by (rewrite !blen_app; lia).
  read_front [cH; cH; cL; cL; cB; cB; cH; cH; cH] Hp. unfold tcp_vals at 1. rewrite E.
  rewrite split_hi by (exact Hres || lia). change 0x0f with (Z.ones 4). rewrite split_lo by (exact Hres || lia).
  rewrite (proj2 (Z.ltb_ge _ _)) by lia.
  rewrite (proj2 (Z.ltb_ge _ _)) by (rewrite !blen_app; lia). cbn [orb].
  unfold parse_options. specialize (Hr (S (Z.to_nat (t_off h * 4 - 20))) front rest []).
  replace (blen front + blen ob) with (t_off h * 4) in Hr by lia. rewrite Hf in Hr. rewrite Hr by lia.
  rewrite app_assoc, pyfrom_app by (rewrite blen_app; lia). apply gives_ret.
Qed.

Lemma tcp_roundtrip ip h rest :
  prev_ok ip -> tcp_wf h -> uint_ok 2 (t_off h * 4 + blen rest) ->
  exists b csum, tcp_hdr (Some ip) h rest = Ok (b, set_tcp_csum h csum) /\ blen b = t_off h * 4 /\
    gives (parse_tcp (b ++ rest)) (PHdr true (HTcp (set_tcp_csum h csum)) (PBytes rest)).
Proof.
  intros Hip Hh Hl. unfold tcp_hdr, tcp_checksum.
  assert (H0 : uint_ok 2 0) by (split; by vm_compute).
  destruct (tcp_bytes_ok h 0 Hh H0) as (ob & Eo & Hb & E0). rewrite E0. cbn [mbind result_bind].
  assert (Hsz : t_off h * 4 = 20 + opts_size (t_options h)) by apply Hh.
  destruct (pseudo_ok ip (blen ((encode [cH; cH; cL; cL; cB; cB; cH; cH; cH] (tcp_vals h 0) ++ ob) ++ rest)) Hip) as [ps ->].
  { rewrite !blen_app, (blen_encode_eval _ _ 20), Hb by done. by rewrite <-Hsz. }
  cbn [mbind result_bind mret result_ret]. set (csum := checksum _ 0 _).
  assert (Hk : uint_ok 2 csum) by apply checksum_ok.
  destruct (tcp_bytes_ok h csum Hh Hk) as (ob' & Eo' & _ & E1). rewrite Eo in Eo'. injection Eo' as <-.
  rewrite E1. do 2 eexists. split; [reflexivity|].
  split; [rewrite blen_app, (blen_encode_eval _ _ 20), Hb; done|]. by apply tcp_parse_ok.
Qed.
(** ** ARP, IP and VLAN *)

Definition eth_ok (h : hwaddr) : Prop := match h with HwEth _ => raw_ok h | HwRaw _ => False end.

Lemma eth_ok_init h : eth_ok h -> exists a, EthAddr_init (EStr (hw_raw h)) = Ok a /\ HwEth a = h.
Proof.
  destruct h as [|a]; [done|]. intros Ha. exists (mkEth (hw_raw (HwEth a))).
  split; [by apply eth_init_ok|]. by destruct a.
Qed.

Definition arp_wf (h : arp) : Prop :=
  uint_ok 2 (a_hwtype h) /\ uint_ok 2 (a_prototype h) /\ a_hwlen h = 6 /\ a_protolen h = 4 /\
  uint_ok 2 (a_opcode h) /\ eth_ok (a_hwsrc h) /\ eth_ok (a_hwdst h) /\
  ip_addr_ok (a_protosrc h) /\ ip_addr_ok (a_protodst h).

Lemma arp_addr_ok a :
  ip_addr_ok a -> uint_ok 4 (arp_addr a) /\ NwIP (IPAddr_of_int (arp_addr a) false) = a.
Proof.
  intros Ha. destruct (to_unsigned_ok a Ha) as (z & E & Hz & Ez). destruct a as [|a]; [done|].
  injection E as <-. by split.
Qed.

Lemma eth_ok_blen h : eth_ok h -> blen (hw_raw h) = 6.
Proof. destruct h; [done|]. apply raw_ok_blen. Qed.

Lemma arp_roundtrip h rest :
  arp_wf h -> exists b, arp_hdr h rest = Ok (b, h) /\ blen b = 28 /\
    gives (parse_arp (b ++ rest)) (PHdr true (HArp h) (PBytes rest)).
Proof.
  destruct h as [ht pt hs hd hl op pl ps pd]. intros (H1 & H2 & H3 & H4 & H5 & Hs & Hd & Hps & Hpd).
  cbn [a_hwtype a_prototype a_hwsrc a_hwdst a_hwlen a_opcode a_protolen a_protosrc a_protodst] in *. subst hl pl.
  destruct (arp_addr_ok _ Hps) as [Us Es]. destruct (arp_addr_ok _ Hpd) as [Ud Ed].
  assert (Hp : packable [cH; cH; cB; cB; cH] (ht, (pt, (6, (4, (op, tt)))))).
  { cbn [packable fst snd]. split_and!; try done; by vm_compute. }
  assert (Ps : packable [cL] (arp_addr ps, tt)) by done. assert (Pd : packable [cL] (arp_addr pd, tt)) by done.
  unfold arp_hdr. cbn [a_hwtype a_prototype a_hwsrc a_hwdst a_hwlen a_opcode a_protolen a_protosrc a_protodst].
  rewrite (pack_ok _ _ Hp), (pack_ok _ _ Ps), (pack_ok _ _ Pd).
  pose proof (eth_ok_blen _ Hs) as Ls. pose proof (eth_ok_blen _ Hd) as Ld.
  destruct (eth_ok_init _ Hs) as (s' & Is & <-). destruct (eth_ok_init _ Hd) as (d' & Id & <-).
  eexists. split; [reflexivity|]. split; [rewrite !blen_app, !blen_encode, Ls, Ld; done|].
  pose proof (blen_nonneg rest). unfold parse_arp. rewrite <-!app_assoc.
  rewrite (proj2 (Z.ltb_ge _ _)) by (rewrite !blen_app, !blen_encode, Ls, Ld; simpl; lia).
  read_front [cH; cH; cB; cB; cH] Hp. change (negb (6 =? 6)) with false. change (negb (4 =? 4)) with false. cbn iota.
  set (f := encode [cH; cH; cB; cB; cH] _). set (bs := encode [cL] (arp_addr ps, tt)). set (bd := encode [cL] (arp_addr pd, tt)).
  assert (Lf : blen f = 8) by by apply blen_encode_eval.
  assert (Lbs : blen bs = 4) by by apply blen_encode_eval. assert (Lbd : blen bd = 4) by by apply blen_encode_eval.
  rewrite (pyslice_app f (hw_raw _) _ 8 14) by lia. rewrite (app_assoc f), (pyslice_app _ bs _ 14 18) by (rewrite blen_app; lia).
  rewrite (app_assoc (f ++ _)), (pyslice_app _ (hw_raw (HwEth d')) _ 18 24) by (rewrite !blen_app; lia).
  rewrite (app_assoc ((f ++ _) ++ _)), (pyslice_app _ bd _ 24 28) by (rewrite !blen_app; lia).
  rewrite (app_assoc (((f ++ _) ++ _) ++ _)), pyfrom_app by (rewrite !blen_app; lia).
  rewrite Is, Id. unfold bs, bd. rewrite (unpack_encode [cL] _ eq_refl Ps I), (unpack_encode [cL] _ eq_refl Pd I).
  apply gives_bind with (HwEth s', HwEth d'); [intros g; by exists g|].
  apply gives_bind with (NwIP (IPAddr_of_int (arp_addr ps) false), NwIP (IPAddr_of_int (arp_addr pd) false)).
  { intros g. by exists g. }
  rewrite Es, Ed. apply gives_ret.
Qed.

Definition ipv4_wf (h : ipv4) : Prop :=
  i_v h = 4 /\ i_hl h = 5 /\ uint_ok 1 (i_tos h) /\ uint_ok 2 (i_id h) /\ 0 <= i_flags h < 8 /\
  0 <= i_frag h < 2 ^ 13 /\ uint_ok 1 (i_ttl h) /\ prev_ok h.

Definition ipv4_vals (h : ipv4) (csum s d : Z) : vals [cB; cB; cH; cH; cH; cB; cB; cH; cL; cL] :=
  (i_v h * 2 ^ 4 + i_hl h, (i_tos h, (i_iplen h, (i_id h, (i_flags h * 2 ^ 13 + i_frag h,
     (i_ttl h, (i_protocol h, (csum, (s, (d, tt)))))))))).

Lemma ipv4_packable h csum s d :
  ipv4_wf h -> uint_ok 2 (i_iplen h) -> uint_ok 2 csum -> uint_ok 4 s -> uint_ok 4 d ->
  packable [cB; cB; cH; cH; cH; cB; cB; cH; cL; cL] (ipv4_vals h csum s d).
Proof.
  intros (Hv & Hl & Ht & Hi & Hf & Hg & Httl & _ & _ & Hpr) Hlen Hc Hs Hd. unfold ipv4_vals. rewrite Hv, Hl.
  cbn [packable fst snd]. split; [split; by vm_compute|]. do 3 (split; [assumption|]).
  split; [unfold uint_ok; change (256 ^ Z.of_nat 2) with 65536; lia|]. by do 5 (split; [assumption|]).
Qed.

Lemma ipv4_bytes_ok h csum :
  ipv4_wf h -> uint_ok 2 (i_iplen h) -> uint_ok 2 csum ->
  ipv4_bytes h csum = Ok (encode [cB; cB; cH; cH; cH; cB; cB; cH; cL; cL]
    (ipv4_vals h csum (arp_addr (i_srcip h)) (arp_addr (i_dstip h)))).
Proof.
  intros Hh Hlen Hc. pose proof Hh as (Hv & Hl & _ & _ & Hf & Hg & _ & Hs & Hd & _).
  destruct (arp_addr_ok _ Hs) as [Us _]. destruct (arp_addr_ok _ Hd) as [Ud _]. unfold ipv4_bytes.
  replace (to_unsigned (i_srcip h)) with (Ok (arp_addr (i_srcip h)) : result Z) by (by destruct (i_srcip h)).
  replace (to_unsigned (i_dstip h)) with (Ok (arp_addr (i_dstip h)) : result Z) by (by destruct (i_dstip h)).
  cbn [mbind result_bind]. rewrite lor_shiftl_add by (done || lia). rewrite Z.shiftl_mul_pow2 by done.
  by apply pack_ok, ipv4_packable.
Qed.

(** The parser of what follows an IP header. *)
Definition ip_next (proto : Z) (raw : bytes) (p : payload) : Prop :=
  if proto =? 17 then gives (rec KUdp raw) p
  else if proto =? 6 then gives (rec KTcp raw) p
  else if proto =? 1 then gives (rec KIcmp raw) p
  else p = PBytes raw.

Lemma ipv4_roundtrip h rest p :
  ipv4_wf h -> 0 < blen rest -> 20 + blen rest < 2 ^ 16 -> ip_next (i_protocol h) rest p -> is_unparsed p = Ok false ->
  exists b len csum, ipv4_hdr h rest = Ok (b, set_ip_len_csum h len csum) /\ blen b = 20 /\
    gives (parse_ipv4 rec (b ++ rest)) (PHdr true (HIpv4 (set_ip_len_csum h len csum)) p).
Proof.
  intros Hh Hpos Hmax Hn Hu. unfold ipv4_hdr. set (h1 := set_ip_len_csum h _ (i_csum h)).
  pose proof Hh as (Hv & Hl & _ & _ & Hf & Hg & _ & Hs & Hd & _).
  assert (Hh1 : ipv4_wf h1) by exact Hh.
  assert (Elen : i_iplen h1 = 20 + blen rest) by (subst h1; cbn [i_iplen set_ip_len_csum]; rewrite Hl; done).
  assert (Hlen : uint_ok 2 (i_iplen h1)).
  { rewrite Elen. unfold uint_ok. change (256 ^ Z.of_nat 2) with (2 ^ 16). lia. }
  rewrite ipv4_bytes_ok by (done || by split; vm_compute). cbn [mbind result_bind].
  set (csum := checksum _ 0 None). assert (Hk : uint_ok 2 csum) by apply checksum_ok.
  rewrite ipv4_bytes_ok by done. cbn [mbind result_bind mret result_ret].
  exists (encode [cB; cB; cH; cH; cH; cB; cB; cH; cL; cL] (ipv4_vals h1 csum (arp_addr (i_srcip h1)) (arp_addr (i_dstip h1)))), (i_iplen h1), csum.
  destruct (arp_addr_ok _ Hs) as [Us Es]. destruct (arp_addr_ok _ Hd) as [Ud Ed].
  pose proof (ipv4_packable h1 csum _ _ Hh1 Hlen Hk Us Ud) as Hp.
  change (i_srcip h1) with (i_srcip h) in *. change (i_dstip h1) with (i_dstip h) in *.
  split; [reflexivity|]. split; [by apply blen_encode_eval|].
  set (b := encode _ _). assert (Lb : blen b = 20) by by apply blen_encode_eval.
  unfold parse_ipv4. apply gives_draw; [intros g; by do 2 eexists|]. intros id0. cbv zeta.
  rewrite (proj2 (Z.ltb_ge _ _)) by (rewrite blen_app; lia).
  read_front [cB; cB; cH; cH; cH; cB; cB; cH; cL; cL] Hp. unfold ipv4_vals at 1.
  assert (Hl16 : 0 <= i_hl h1 < 2 ^ 4) by (change (i_hl h1) with (i_hl h); lia).
  change 0x0f with (Z.ones 4). change 0x1fff with (Z.ones 13). rewrite !split_hi, !split_lo by (done || lia).
  change (i_v h1) with (i_v h). change (i_hl h1) with (i_hl h). rewrite Hv, Hl, Elen, blen_app, Lb.
  change (negb (4 =? 4)) with false. change (5 <? 5) with false. change (5 * 4) with 20.
  rewrite !(proj2 (Z.ltb_ge _ _)), (proj2 (Z.leb_gt _ _)) by lia. cbn [orb].
  replace (pyslice (b ++ rest) 20 (Z.min (20 + blen rest) (20 + blen rest))) with rest.
  2: { rewrite Z.min_id, <-(app_nil_r (b ++ rest)), <-app_assoc. symmetry. apply pyslice_app; lia. }
  apply gives_bind with p.
  { unfold ip_next in Hn. change (i_protocol h1) with (i_protocol h).
    destruct (_ =? 17); [exact Hn|]. destruct (_ =? 6); [exact Hn|]. destruct (_ =? 1); [exact Hn|]. subst p. apply gives_ret. }
  apply gives_lift with false; [done|]. rewrite Es, Ed.
  rewrite <-Elen, <-Hv, <-Hl. apply gives_ret.
Qed.

(** The parser leaves [cfi] alone and keeps the bit in [c], unshifted; it is
    lost on the way back unless clear. *)
Definition vlan_wf (h : vlan) : Prop :=
  0 <= v_pcp h < 8 /\ v_cfi h = 0 /\ v_c h = Some 0 /\ 0 <= v_id h < 2 ^ 12 /\
  uint_ok 2 (v_eth_type h) /\ v_eth_type h <> 0x8100.

Definition vlan_next (t : Z) (raw : bytes) (p : payload) : Prop :=
  match type_parsers t with Some k => gives (rec k raw) p | None => p = PNone end.

Lemma vlan_roundtrip h rest p :
  vlan_wf h -> vlan_next (v_eth_type h) rest p ->
  exists b, vlan_hdr h rest = Ok (b, h) /\ blen b = 4 /\
    gives (parse_vlan rec (b ++ rest)) (PHdr true (HVlan h) p).
Proof.
  clear randint app_parse. destruct h as [pcp cfi c id t]. intros (Hp & Hf & Hc & Hi & Ht & Hn8) Hn.
  cbn [v_pcp v_cfi v_c v_id v_eth_type] in *. subst cfi c.
  unfold vlan_hdr. cbn [v_pcp v_cfi v_c v_id v_eth_type need mbind result_bind].
  rewrite Z.shiftl_0_l, Z.lor_0_r, lor_shiftl_add by lia.
  replace (pcp * 2 ^ 13 + id) with ((pcp * 2) * 2 ^ 12 + id) by lia.
  assert (Hpk : packable [cH; cH] ((pcp * 2) * 2 ^ 12 + id, (t, tt))).
  { cbn [packable fst snd]. split; [|by split]. unfold uint_ok. change (256 ^ Z.of_nat 2) with 65536. lia. }
  rewrite (pack_ok _ _ Hpk). eexists. split; [reflexivity|]. split; [by apply blen_encode_eval|].
  unfold parse_vlan. pose proof (blen_nonneg rest). not_short. read_front [cH; cH] Hpk.
  rewrite pyfrom_app by (by rewrite (blen_encode_eval _ _ 4)). rewrite (proj2 (Z.eqb_neq _ _)) by done.
  change 0x0fff with (Z.ones 12). rewrite split_lo by (done || lia).
  replace (Z.shiftr ((pcp * 2) * 2 ^ 12 + id) 13) with pcp.
  2: { rewrite Z.shiftr_div_pow2 by lia. Z.to_euclidean_division_equations. lia. }
  replace (Z.land ((pcp * 2) * 2 ^ 12 + id) 0x1000) with 0.
  2: { symmetry. apply Z.bits_inj'. intros n Hnn. rewrite Z.land_spec, Z.bits_0.
       change 0x1000 with (2 ^ 12). rewrite Z.pow2_bits_eqb by lia. destruct (Z.eqb_spec 12 n) as [<-|]; [|apply andb_false_r].
       rewrite andb_true_r. apply Z.testbit_false; [lia|]. Z.to_euclidean_division_equations. lia. }
  apply gives_lift with tt; [done|]. unfold vlan_next in Hn. destruct (type_parsers t).
  - apply gives_bind with p; [exact Hn|]. apply gives_ret.
  - subst p. apply gives_ret.
Qed.
End roundtrip.

(** ** A whole packet *)

(** A payload without what packing computes: lengths and checksums. *)
Definition erase_header (h : header) : header :=
  match h with
  | HIpv4 h => HIpv4 (set_ip_len_csum h 0 0)
  | HUdp h => HUdp (set_udp_len_csum h 0 0)
  | HTcp h => HTcp (set_tcp_csum h 0)
  | HIcmp h => HIcmp (set_icmp_csum h 0)
  | h => h
  end.
Fixpoint erase (p : payload) : payload :=
  match p with PHdr f h next => PHdr f (erase_header h) (erase next) | p => p end.

Definition header_size (h : header) : Z :=
  match h with
  | HIpv4 _ => 20 | HArp _ => 28 | HUdp _ => 8 | HTcp h => t_off h * 4 | HApp _ p => match p with Ok b => blen b | Err _ => 0 end | _ => 4
  end.
Fixpoint size (p : payload) : Z :=
  match p with PHdr _ h next => header_size h + size next | PBytes b => blen b | _ => 0 end.
Fixpoint depth (p : payload) : nat := match p with PHdr _ _ next => S (depth next) | _ => 0 end.

Definition is_bytes (p : payload) : Prop := match p with PBytes _ => True | _ => False end.

(** Which parser reads what is behind a header. *)
Definition unreach_kind (n : Z) : option kind := if 24 <=? n then Some KIpv4 else None.
Definition icmp_kind (t : Z) : option kind :=
  if (t =? 8) || (t =? 0) then Some KEcho else if t =? 3 then Some KUnreach else None.
Definition ip_kind (proto : Z) : option kind :=
  if proto =? 17 then Some KUdp else if proto =? 6 then Some KTcp else if proto =? 1 then Some KIcmp else None.

(** The payloads that come back: [ip] is the enclosing IP header. *)
Fixpoint payload_wf (ip : option ipv4) (k : kind) (p : payload) : Prop :=
  match p with
  | PHdr true h next =>
      match k, h with
      | KMpls, HMpls h => mpls_wf h /\ is_bytes next
      | KArp, HArp h => arp_wf h /\ is_bytes next
      | KEcho, HEcho h => echo_wf h /\ is_bytes next
      | KUdp, HUdp h => udp_wf h /\ is_bytes next /\ size next + 8 < 2 ^ 16 /\ from_option prev_ok False ip
      | KTcp, HTcp h =>
          tcp_wf h /\ is_bytes next /\ t_off h * 4 + size next < 2 ^ 16 /\ from_option prev_ok False ip
      | KUnreach, HUnreach h =>
          unreach_wf h /\ match unreach_kind (size next) with Some k => payload_wf None k next | None => is_bytes next end
      | KIcmp, HIcmp h =>
          uint_ok 1 (ic_type h) /\ uint_ok 1 (ic_code h) /\
          match icmp_kind (ic_type h) with Some k => payload_wf None k next | None => is_bytes next end
      | KIpv4, HIpv4 h =>
          ipv4_wf h /\ 0 < size next /\ 20 + size next < 2 ^ 16 /\
          match ip_kind (i_protocol h) with Some k => payload_wf (Some h) k next | None => is_bytes next end
      | KVlan, HVlan h =>
          vlan_wf h /\
          match type_parsers (v_eth_type h) with Some k => payload_wf None k next | None => next = PNone end
      | _, _ => False
      end
  | _ => False
  end.

Definition ethernet_wf (e : ethernet) : Prop :=
  e_parsed e = true /\ eth_ok (e_dst e) /\ eth_ok (e_src e) /\ uint_ok 2 (e_type e) /\
  match type_parsers (e_type e) with Some k => payload_wf None k (e_next e) | None => is_bytes (e_next e) end.

Section whole.
Context (randint : nat -> Z) (app_parse : app_class -> bytes -> P payload).

Definition comes_back (ip : option ipv4) (k : kind) (p : payload) : Prop :=
  exists bs p', pack_payload ip p = Ok (bs, p') /\ blen bs = size p /\ erase p' = erase p /\ is_unparsed p' = Ok false /\
    forall fuel, (depth p <= fuel)%nat -> gives (parse randint app_parse fuel k bs) p'.

Lemma comes_back_layer ip k h next rest next' b h' :
  pack_payload (as_prev h) next = Ok (rest, next') -> blen rest = size next -> erase next' = erase next ->
  hdr ip h rest = Ok (b, h') -> blen b = header_size h -> erase_header h' = erase_header h ->
  (forall fuel, (depth next <= fuel)%nat ->
     gives (parse_step randint app_parse (parse randint app_parse fuel) k (b ++ rest)) (PHdr true h' next')) ->
  comes_back ip k (PHdr true h next).
Proof.
  intros Hn Ln En Hh Lh Eh Hp. exists (b ++ rest), (PHdr true h' next'). cbn [pack_payload]. rewrite Hn.
  cbn [mbind result_bind]. rewrite Hh. split; [done|]. split; [by rewrite blen_app, Lh, Ln|].
  split; [simpl; by rewrite Eh, En|]. split; [by destruct next'|].
  intros [|fuel] Hf; simpl in Hf; [lia|]. apply Hp. lia.
Qed.

Lemma comes_back_bytes ip k h next :
  is_bytes next ->
  (forall rest, next = PBytes rest -> exists b h',
     hdr ip h rest = Ok (b, h') /\ blen b = header_size h /\ erase_header h' = erase_header h /\
     forall rec, gives (parse_step randint app_parse rec k (b ++ rest)) (PHdr true h' (PBytes rest))) ->
  comes_back ip k (PHdr true h next).
Proof.
  intros Hb H. destruct next as [| |rest|]; try done. destruct (H rest eq_refl) as (b & h' & E & L & Eh & Hp).
  by apply comes_back_layer with rest (PBytes rest) b h'.
Qed.

(** One lemma per class. *)
Lemma mpls_comes_back h next : mpls_wf h -> is_bytes next -> comes_back None KMpls (PHdr true (HMpls h) next).
Proof.
  intros Hh Hb. apply comes_back_bytes; [done|]. intros rest ->.
  destruct (mpls_roundtrip h rest Hh) as (b & E & L & Hp). exists b, (HMpls h). simpl hdr. by rewrite E.
Qed.

Lemma arp_comes_back h next : arp_wf h -> is_bytes next -> comes_back None KArp (PHdr true (HArp h) next).
Proof.
  intros Hh Hb. apply comes_back_bytes; [done|]. intros rest ->.
  destruct (arp_roundtrip h rest Hh) as (b & E & L & Hp). exists b, (HArp h). simpl hdr. by rewrite E.
Qed.

Lemma echo_comes_back ip h next : echo_wf h -> is_bytes next -> comes_back ip KEcho (PHdr true (HEcho h) next).
Proof.
  intros Hh Hb. apply comes_back_bytes; [done|]. intros rest ->.
  destruct (echo_roundtrip randint h rest Hh) as (b & E & L & Hp). exists b, (HEcho h). simpl hdr. by rewrite E.
Qed.

Lemma udp_comes_back ip h next :
  udp_wf h -> is_bytes next -> size next + 8 < 2 ^ 16 -> prev_ok ip ->
  comes_back (Some ip) KUdp (PHdr true (HUdp h) next).
Proof.
  intros Hh Hb Hl Hip. apply comes_back_bytes; [done|]. intros rest ->. simpl size in Hl.
  pose proof (blen_nonneg rest).
  destruct (udp_roundtrip app_parse ip h rest Hip Hh) as (b & len & k & E & L & Hp).
  { unfold uint_ok. change (256 ^ Z.of_nat 2) with (2 ^ 16). lia. }
  exists b, (HUdp (set_udp_len_csum h len k)). simpl hdr. by rewrite E.
Qed.

Lemma tcp_comes_back ip h next :
  tcp_wf h -> is_bytes next -> t_off h * 4 + size next < 2 ^ 16 -> prev_ok ip ->
  comes_back (Some ip) KTcp (PHdr true (HTcp h) next).
Proof.
  intros Hh Hb Hl Hip. apply comes_back_bytes; [done|]. intros rest ->. simpl size in Hl.
  pose proof (blen_nonneg rest). destruct (tcp_offres h Hh) as [_ Hoff].
  destruct (tcp_roundtrip ip h rest Hip Hh) as (b & k & E & L & Hp).
  { unfold uint_ok. change (256 ^ Z.of_nat 2) with (2 ^ 16). lia. }
  exists b, (HTcp (set_tcp_csum h k)). simpl hdr. by rewrite E.
Qed.

(** The payload of a header, read back by the parser of kind [k] if there is
    one, and as bytes otherwise. *)
Definition next_back (ip : option ipv4) (o : option kind) (next : payload) : Prop :=
  match o with Some k => comes_back ip k next | None => is_bytes next end.
Definition reads (fuel : nat) (o : option kind) (raw : bytes) (p : payload) : Prop :=
  match o with Some k => gives (parse randint app_parse fuel k raw) p | None => p = PBytes raw end.

Lemma next_back_reads ip o next :
  next_back ip o next -> exists rest p, pack_payload ip next = Ok (rest, p) /\ blen rest = size next /\
    erase p = erase next /\ is_unparsed p = Ok false /\
    forall fuel, (depth next <= fuel)%nat -> reads fuel o rest p.
Proof.
  destruct o as [k|]; [done|]. destruct next as [| |rest|]; try done. intros _. by exists rest, (PBytes rest).
Qed.

Lemma unreach_comes_back ip h next :
  unreach_wf h -> next_back None (unreach_kind (size next)) next ->
  comes_back ip KUnreach (PHdr true (HUnreach h) next).
Proof.
  intros Hh Hn. destruct (next_back_reads _ _ _ Hn) as (rest & p & E & L & Ep & Hu & Hr).
  assert (H : forall fuel, (depth next <= fuel)%nat -> unreach_next (parse randint app_parse fuel) rest p).
  { intros fuel Hf. specialize (Hr fuel Hf). unfold unreach_next. rewrite L. unfold unreach_kind in Hr.
    by destruct (24 <=? size next). }
  destruct (unreach_roundtrip _ h rest p Hh (H _ (le_n _))) as (b & Eb & Lb & _).
  apply comes_back_layer with rest p b (HUnreach h); [done..| |done|done|].
  { simpl hdr. by rewrite Eb. }
  intros fuel Hf. destruct (unreach_roundtrip _ h rest p Hh (H fuel Hf)) as (b' & Eb' & _ & Hp).
  rewrite Eb in Eb'. by injection Eb' as <-.
Qed.

Lemma icmp_comes_back ip h next :
  uint_ok 1 (ic_type h) -> uint_ok 1 (ic_code h) -> next_back None (icmp_kind (ic_type h)) next ->
  comes_back ip KIcmp (PHdr true (HIcmp h) next).
Proof.
  intros Ht Hc Hn. destruct (next_back_reads _ _ _ Hn) as (rest & p & E & L & Ep & Hu & Hr).
  assert (H : forall fuel, (depth next <= fuel)%nat -> icmp_next (parse randint app_parse fuel) (ic_type h) rest p).
  { intros fuel Hf. specialize (Hr fuel Hf). unfold icmp_next. unfold icmp_kind in Hr.
    destruct (_ || _); [done|]. by destruct (_ =? 3). }
  destruct (icmp_roundtrip _ h rest p Ht Hc (H _ (le_n _))) as (b & k & Eb & Lb & _).
  apply comes_back_layer with rest p b (HIcmp (set_icmp_csum h k)); [done..| |done|done|].
  { simpl hdr. by rewrite Eb. }
  intros fuel Hf. destruct (icmp_roundtrip _ h rest p Ht Hc (H fuel Hf)) as (b' & k' & Eb' & _ & Hp).
  rewrite Eb in Eb'. injection Eb' as <- Ek. unfold parse_step, set_icmp_csum. by rewrite Ek.
Qed.

Lemma ipv4_comes_back ip h next :
  ipv4_wf h -> 0 < size next -> 20 + size next < 2 ^ 16 -> next_back (Some h) (ip_kind (i_protocol h)) next ->
  comes_back ip KIpv4 (PHdr true (HIpv4 h) next).
Proof.
  intros Hh Hpos Hmax Hn. destruct (next_back_reads _ _ _ Hn) as (rest & p & E & L & Ep & Hu & Hr).
  rewrite <-L in Hpos, Hmax.
  assert (H : forall fuel, (depth next <= fuel)%nat -> ip_next (parse randint app_parse fuel) (i_protocol h) rest p).
  { intros fuel Hf. specialize (Hr fuel Hf). unfold ip_next. unfold ip_kind in Hr.
    destruct (_ =? 17); [done|]. destruct (_ =? 6); [done|]. by destruct (_ =? 1). }
  destruct (ipv4_roundtrip _ h rest p Hh Hpos Hmax (H _ (le_n _)) Hu) as (b & len & k & Eb & Lb & _).
  apply comes_back_layer with rest p b (HIpv4 (set_ip_len_csum h len k)); [done..| |done|done|].
  { simpl hdr. by rewrite Eb. }
  intros fuel Hf. destruct (ipv4_roundtrip _ h rest p Hh Hpos Hmax (H fuel Hf) Hu) as (b' & len' & k' & Eb' & _ & Hp).
  rewrite Eb in Eb'. injection Eb' as <- El Ek. unfold parse_step, set_ip_len_csum. by rewrite El, Ek.
Qed.

(** Behind a tag of an unknown type there must be nothing. *)
Definition vlan_back (t : Z) (next : payload) : Prop :=
  match type_parsers t with Some k => comes_back None k next | None => next = PNone end.

Lemma vlan_comes_back ip h next :
  vlan_wf h -> vlan_back (v_eth_type h) next -> comes_back ip KVlan (PHdr true (HVlan h) next).
Proof.
  intros Hh Hn.
  assert (H : exists rest p, pack_payload None next = Ok (rest, p) /\ blen rest = size next /\ erase p = erase next /\
    forall fuel, (depth next <= fuel)%nat -> vlan_next (parse randint app_parse fuel) (v_eth_type h) rest p).
  { unfold vlan_back, vlan_next in *. destruct (type_parsers _) as [k|].
    - destruct Hn as (rest & p & E & L & Ep & _ & Hr). by exists rest, p.
    - subst next. by exists [], PNone. }
  destruct H as (rest & p & E & L & Ep & H).
  destruct (vlan_roundtrip _ h rest p Hh (H _ (le_n _))) as (b & Eb & Lb & _).
  apply comes_back_layer with rest p b (HVlan h); [done..| |done|done|].
  { simpl hdr. by rewrite Eb. }
  intros fuel Hf. destruct (vlan_roundtrip _ h rest p Hh (H fuel Hf)) as (b' & Eb' & _ & Hp).
  rewrite Eb in Eb'. by injection Eb' as <-.
Qed.

Lemma payload_comes_back ip k p : payload_wf ip k p -> comes_back ip k p.
Proof.
  revert ip k. induction p as [| | |f h next IH]; intros ip k; try done.
  destruct f; [|done]. destruct k, h; try done; cbn [payload_wf]; intros H; destruct_and?.
  - apply vlan_comes_back; [done|]. unfold vlan_back. destruct (type_parsers _); [by apply IH|done].
  - by apply arp_comes_back.
  - apply ipv4_comes_back; [done..|]. destruct (ip_kind _); [by apply IH|done].
  - destruct ip; [|done]. by apply udp_comes_back.
  - destruct ip; [|done]. by apply tcp_comes_back.
  - apply icmp_comes_back; [done..|]. destruct (icmp_kind _); [by apply IH|done].
  - by apply echo_comes_back.
  - apply unreach_comes_back; [done..|]. destruct (unreach_kind _); [by apply IH|done].
  - by apply mpls_comes_back.
Qed.

Lemma payload_depth ip k p : payload_wf ip k p -> Z.of_nat (depth p) <= size p.
Proof.
  revert ip k. induction p as [| |b|f h next IH]; intros ip k; try done.
  destruct f; [|done]. intros H.
  assert (Hn : Z.of_nat (depth next) <= size next /\ 1 <= header_size h).
  { assert (Hb : is_bytes next -> Z.of_nat (depth next) <= size next).
    { destruct next; try done. intros _. apply blen_nonneg. }
    destruct k, h; try done; cbn [payload_wf] in H; destruct_and?; (split; [|try done]);
      repeat match goal with H : match ?o with Some _ => _ | None => _ end |- _ => destruct o end;
      eauto; try (by subst next).
    destruct (tcp_offres h) as [_ Hoff]; [done|]. simpl. lia. }
  simpl. lia.
Qed.
End whole.

(** ** Checksums verify *)

Lemma be_sum_app a b : blen a mod 2 = 0 -> be_sum (a ++ b) = be_sum a + be_sum b.
Proof.
  induction a as [|b0|b0 b1 a IH] using bytes_ind2; intros Ha; [done|done|].
  cbn [be_sum app]. rewrite IH; [lia|]. rewrite !blen_cons in Ha.
  replace (1 + (1 + blen a)) with (blen a + 1 * 2) in Ha by lia. by rewrite Z.mod_add in Ha by lia.
Qed.

Lemma be_sum_2 z : uint_ok 2 z -> be_sum (be_encode 2 z) = z.
Proof.
  intros Hz. rewrite <-(be_decode_encode_small 2 z Hz) at 2. cbn [be_encode be_sum be_decode].
  unfold blen. cbn [length Z.of_nat Pos.of_succ_nat]. change (256 ^ 1) with 256. change (256 ^ 0) with 1. lia.
Qed.

(** Skipping a word that is zero changes nothing. *)
Lemma sum_words_skip l i j : (i <= j)%nat -> l !! (j - i)%nat = Some 0 -> sum_words i (Some j) l = sum_words i None l.
Proof.
  revert i. induction l as [|w l IH]; intros i Hij Hl; [done|]. cbn [sum_words].
  rewrite (bool_decide_eq_false_2 (None = Some i)) by congruence. case_bool_decide as Hd.
  - injection Hd as ->. rewrite Nat.sub_diag in Hl. injection Hl as ->. f_equal.
    clear. assert (H : forall k, (i < k)%nat -> sum_words k (Some i) l = sum_words k None l); [|apply H; lia].
    induction l as [|w l IH]; intros k Hk; [done|]. cbn [sum_words].
    rewrite !bool_decide_eq_false_2 by (intros [=]; lia). f_equal. apply IH; lia.
  - assert (i <> j) by congruence. f_equal. apply IH; [lia|]. replace (j - i)%nat with (S (j - S i)) in Hl by lia. exact Hl.
Qed.

Lemma words_le_zero a b n : blen a = 2 * Z.of_nat n -> words_le (a ++ x00 :: x00 :: b) !! n = Some 0.
Proof.
  revert n. induction a as [|b0|b0 b1 a IH] using bytes_ind2; intros n Ha.
  - rewrite blen_nil in Ha. by destruct n; [|lia].
  - unfold blen in Ha. simpl in Ha. lia.
  - rewrite !blen_cons in Ha. destruct n as [|n]; [pose proof (blen_nonneg a); lia|]. cbn [app words_le].
    apply IH. lia.
Qed.

Lemma checksum_skip a b n :
  blen a = 2 * Z.of_nat n -> checksum (a ++ x00 :: x00 :: b) 0 (Some n) = checksum (a ++ x00 :: x00 :: b) 0 None.
Proof.
  intros Ha. unfold checksum. rewrite sum_words_skip; [done|lia|]. rewrite Nat.sub_0_r. by apply words_le_zero.
Qed.

(** A checksum over bytes with a zero field, put into that field, makes them
    sum to zero. *)
Lemma checksum_fills a b c :
  blen a mod 2 = 0 -> blen (a ++ b) <= 131068 ->
  let k := checksum (a ++ x00 :: x00 :: b) 0 None in
  c = k \/ k = 0 /\ c = 0xffff ->
  be_sum (a ++ be_encode 2 c ++ b) mod 65535 = 0.
Proof.
  cbv zeta. intros Ha Hb Hc. set (k := checksum _ 0 None) in *.
  assert (Hk : uint_ok 2 k) by apply checksum_ok.
  assert (Hc2 : uint_ok 2 c) by (destruct Hc as [->|[_ ->]]; [done|by split; vm_compute]).
  destruct (checksum_spec (a ++ x00 :: x00 :: b)) as [_ H].
  { rewrite blen_app, !blen_cons. rewrite blen_app in Hb. lia. }
  fold k in H. rewrite be_sum_app in H |- * by done. cbn [be_sum] in H.
  rewrite be_sum_app by done. rewrite be_sum_2 by done.
  change (byte_to_Z x00) with 0 in H. destruct Hc as [->|[E ->]].
  - rewrite <-H. f_equal. lia.
  - rewrite E in H. replace (be_sum a + (65535 + be_sum b)) with (be_sum a + be_sum b + 1 * 65535) by lia.
    rewrite Z.mod_add by lia. rewrite <-H. f_equal. lia.
Qed.

(** The formats with a checksum, around that field. *)
Ltac split_encode := cbn [encode fst snd]; rewrite <-!app_assoc, ?app_nil_r, ?app_nil_l; reflexivity.

Lemma Ok_inj {A} (a b : A) : (Ok a : result A) = Ok b -> a = b.
Proof. congruence. Qed.

Lemma ipv4_hdr_sums h rest b h' : ipv4_hdr h rest = Ok (b, h') -> be_sum b mod 65535 = 0.
Proof.
  unfold ipv4_hdr. set (h1 := set_ip_len_csum h _ _). unfold ipv4_bytes.
  destruct (to_unsigned (i_srcip h1)) as [s|]; [|done]. destruct (to_unsigned (i_dstip h1)) as [d|]; [|done].
  cbn [mbind result_bind]. set (fragw := Z.lor _ _).
  assert (E : forall c : Z, encode [cB; cB; cH; cH; cH; cB; cB; cH; cL; cL]
      (Z.shiftl (i_v h1) 4 + i_hl h1, (i_tos h1, (i_iplen h1, (i_id h1, (fragw, (i_ttl h1, (i_protocol h1, (c, (s, (d, tt))))))))))
    = encode [cB; cB; cH; cH; cH; cB; cB] (Z.shiftl (i_v h1) 4 + i_hl h1, (i_tos h1, (i_iplen h1, (i_id h1, (fragw, (i_ttl h1, (i_protocol h1, tt)))))))
      ++ be_encode 2 c ++ encode [cL; cL] (s, (d, tt))) by (intros c; split_encode).
  intros H. apply bind_Ok in H as (data & Hd & H). apply bind_Ok in H as (b' & Hb & [= <- _]).
  apply pack_Ok_inv in Hd as [_ ->]. apply pack_Ok_inv in Hb as [_ ->]. rewrite !E.
  apply checksum_fills; [by rewrite blen_encode|by rewrite blen_app, !blen_encode|by left].
Qed.

Lemma icmp_hdr_sums h rest b h' :
  icmp_hdr h rest = Ok (b, h') -> blen rest <= 65536 -> be_sum (b ++ rest) mod 65535 = 0.
Proof.
  unfold icmp_hdr. intros H Hr. apply bind_Ok in H as (data & Hd & H). apply bind_Ok in H as (b' & Hb & [= <- _]).
  apply pack_Ok_inv in Hd as [_ ->]. apply pack_Ok_inv in Hb as [_ ->].
  assert (E : forall c : Z, encode [cB; cB; cH] (ic_type h, (ic_code h, (c, tt))) ++ rest
    = encode [cB; cB] (ic_type h, (ic_code h, tt)) ++ be_encode 2 c ++ rest) by (intros c; split_encode).
  rewrite !E. apply checksum_fills; [by rewrite blen_encode| |by left].
  rewrite blen_app, blen_encode. simpl. lia.
Qed.

Lemma pseudo_Ok ip len p : pseudo ip len = Ok p -> blen p = 12 /\ uint_ok 2 len.
Proof.
  unfold pseudo. intros H. apply bind_Ok in H as (s & _ & H). apply bind_Ok in H as (d & _ & H).
  apply pack_Ok_inv in H as [H ->]. split; [by rewrite blen_encode|]. apply H.
Qed.

Lemma udp_hdr_sums ip h rest b h' :
  udp_hdr (Some ip) h rest = Ok (b, h') ->
  exists p, pseudo ip (8 + blen rest) = Ok p /\ be_sum (p ++ b ++ rest) mod 65535 = 0.
Proof.
  unfold udp_hdr, udp_checksum. destruct (pseudo ip (8 + blen rest)) as [p|] eqn:Ep; [|done].
  cbn [mbind result_bind]. intros H. exists p. split; [done|]. destruct (pseudo_Ok _ _ _ Ep) as [Lp Hl].
  apply bind_Ok in H as (csum & Hc & H). apply bind_Ok in H as (b' & Hb & [= <- _]).
  apply bind_Ok in Hc as (my & Hm & Hc). apply Ok_inj in Hc as <-. apply pack_Ok_inv in Hm as [_ ->]. apply pack_Ok_inv in Hb as [_ ->].
  set (A := p ++ encode [cH; cH; cH] (u_srcport h, (u_dstport h, (8 + blen rest, tt)))).
  rewrite (Z.add_comm (blen rest)).
  assert (E : forall c : Z, p ++ encode [cH; cH; cH; cH] (u_srcport h, (u_dstport h, (8 + blen rest, (c, tt)))) ++ rest
    = A ++ be_encode 2 c ++ rest) by (intros c; subst A; split_encode).
  rewrite !E. change (be_encode 2 0 ++ rest) with (x00 :: x00 :: rest).
  assert (LA : blen A = 18) by (subst A; by rewrite blen_app, Lp, blen_encode).
  rewrite checksum_skip by (by rewrite LA). unfold uint_ok in Hl. change (256 ^ Z.of_nat 2) with 65536 in Hl.
  apply checksum_fills; [by rewrite LA|rewrite blen_app, LA; lia|].
  destruct (Z.eqb_spec (checksum (A ++ x00 :: x00 :: rest) 0 None) 0); [by right|by left].
Qed.

Lemma tcp_hdr_sums ip h rest b h' :
  tcp_hdr (Some ip) h rest = Ok (b, h') ->
  exists p, pseudo ip (blen (b ++ rest)) = Ok p /\ be_sum (p ++ b ++ rest) mod 65535 = 0.
Proof.
  unfold tcp_hdr, tcp_checksum, tcp_bytes. destruct (options_bytes (t_options h)) as [ob|].
  2: { intros H. apply bind_Ok in H as (? & H & _). apply bind_Ok in H as (? & H & _). by apply bind_Ok in H as (? & _ & H). }
  set (offres := Z.lor _ _). cbn [mbind result_bind mret result_ret]. intros H.
  apply bind_Ok in H as (csum & Hc & H). apply bind_Ok in H as (b' & Hb & [= <- _]).
  apply bind_Ok in Hb as (b1 & Hb & [= <-]). apply bind_Ok in Hc as (my & Hm & Hc).
  apply bind_Ok in Hm as (b0 & Hm & [= <-]). apply pack_Ok_inv in Hm as [_ ->]. apply pack_Ok_inv in Hb as [_ ->].
  apply bind_Ok in Hc as (p & Ep & Hc). apply Ok_inj in Hc as <-. rewrite !blen_app, !blen_encode in Ep |- *.
  exists p. split; [exact Ep|]. destruct (pseudo_Ok _ _ _ Ep) as [Lp Hl].
  set (A := p ++ encode [cH; cH; cL; cL; cB; cB; cH] (t_srcport h, (t_dstport h, (t_seq h, (t_ack h, (offres, (t_flags h, (t_win h, tt)))))))).
  set (B := encode [cH] (t_urg h, tt) ++ ob ++ rest).
  assert (E : forall c : Z, p ++ (encode [cH; cH; cL; cL; cB; cB; cH; cH; cH]
       (t_srcport h, (t_dstport h, (t_seq h, (t_ack h, (offres, (t_flags h, (t_win h, (c, (t_urg h, tt)))))))))
       ++ ob) ++ rest = A ++ be_encode 2 c ++ B) by (intros c; subst A B; split_encode).
  rewrite !E. change (be_encode 2 0 ++ B) with (x00 :: x00 :: B).
  assert (LA : blen A = 28) by (subst A; by rewrite blen_app, Lp, blen_encode).
  rewrite checksum_skip by (by rewrite LA). unfold uint_ok in Hl. change (256 ^ Z.of_nat 2) with 65536 in Hl.
  change (Z.of_nat (calcsize [cH; cH; cL; cL; cB; cB; cH; cH; cH])) with 20 in Hl.
  apply checksum_fills; [by rewrite LA| |by left].
  unfold B. rewrite blen_app, LA, !blen_app, blen_encode. change (Z.of_nat (calcsize [cH])) with 2. lia.
Qed.

(** ** Which exceptions leave the parsers *)

(** A colliding MAC address, a VLAN tag in another one, and an ICMP header cut
    short inside an IP packet. *)
Definition parse_exn (e : exn) : Prop := e = ValueError \/ e = AssertionError \/ e = AttributeError.

(** Those, and what the application parsers raise. *)
Section exceptions.
Context (X : exn -> Prop).
Definition safe {A} (m : P A) : Prop := forall g e g', m g = (Err e, g') -> parse_exn e \/ X e.

Lemma safe_ret {A} (a : A) : safe (mret a).
Proof. intros g e g' [=]. Qed.
Lemma safe_bind {A B} (m : P A) (f : A -> P B) : safe m -> (forall a, safe (f a)) -> safe (m ≫= f).
Proof.
  intros Hm Hf g e g'. rewrite M_bind_unfold. destruct (m g) as [[a|x] g1] eqn:E.
  - apply Hf.
  - intros [= <- <-]. by eapply Hm.
Qed.
Lemma safe_lift_Ok {A} (r : result A) a : r = Ok a -> safe (lift r).
Proof. intros -> g e g' [=]. Qed.
Lemma safe_lift_Err {A} e : parse_exn e -> safe (lift (Err e) : P A).
Proof. intros He g e' g' [= <- <-]. by left. Qed.
Lemma safe_lift_unpack f (b : bytes) : length b = calcsize f -> safe (lift (unpack f b)).
Proof. intros H. apply (safe_lift_Ok _ (decode f b)). unfold unpack. by rewrite H, Nat.eqb_refl. Qed.
Lemma safe_lift_eth (b : bytes) : length b = 6%nat -> safe (lift (EthAddr_init (EStr b))).
Proof.
  intros H. rewrite eth_init_raw by done. case_decide.
  - apply safe_lift_Err. by left.
  - intros g e g' [=].
Qed.

Lemma length_pyupto {A} (b : list A) n : 0 <= n <= blen b -> length (pyupto b n) = Z.to_nat n.
Proof. intros H. unfold pyupto. pose proof (blen_pyslice b 0 n ltac:(lia)). unfold blen in *. lia. Qed.
Lemma length_pyslice {A} (b : list A) i j : 0 <= i <= j -> j <= blen b -> length (pyslice b i j) = Z.to_nat (j - i).
Proof. intros H Hj. pose proof (blen_pyslice b i j ltac:(lia)). unfold blen in *. lia. Qed.

#[local] Ltac slice_length := first [rewrite length_pyupto by lia | rewrite length_pyslice by lia]; reflexivity.
#[local] Ltac safe_step :=
  match goal with
  | |- safe (mret _) => apply safe_ret
  | |- safe (unparsed _ _) => apply safe_ret
  | |- safe (parsed _ _) => apply safe_ret
  | |- safe (lift (unpack ?f ?b)) => apply (safe_lift_unpack f b); slice_length
  | |- safe (lift (EthAddr_init _)) => apply safe_lift_eth; slice_length
  | |- safe (_ ≫= _) => apply safe_bind
  | |- safe (if ?b then _ else _) => let E := fresh "E" in destruct b eqn:E
  | |- safe (match ?x with _ => _ end) => let E := fresh "E" in destruct x eqn:E
  | |- forall _, _ => intros ?
  | H : (_ <? _) = false |- _ => apply Z.ltb_ge in H
  end.

Lemma parse_tcp_safe raw : safe (parse_tcp raw).
Proof. unfold parse_tcp. repeat safe_step. Qed.
Lemma parse_mpls_safe raw : safe (parse_mpls raw).
Proof. unfold parse_mpls. repeat safe_step. Qed.
Lemma parse_arp_safe raw : safe (parse_arp raw).
Proof. unfold parse_arp. repeat safe_step. Qed.

Section safe.
Context (randint : nat -> Z) (app_parse : app_class -> bytes -> P payload).
Context (app_safe : forall k raw, safe (app_parse k raw)).

Lemma parse_echo_safe raw : safe (parse_echo randint raw).
Proof. unfold parse_echo. apply safe_bind; [by intros g e g' [=]|]. repeat safe_step. Qed.
Lemma parse_udp_safe raw : safe (parse_udp app_parse raw).
Proof. unfold parse_udp. repeat first [safe_step | apply app_safe]. Qed.

(** Every call made by a parser is on a shorter string. *)
Section shorter.
Context (rec : kind -> bytes -> P payload) (raw : bytes).
Context (rec_safe : forall k b, (length b < length raw)%nat -> safe (rec k b)).

Lemma rec_from k n : 0 < n -> n <= blen raw -> safe (rec k (pyfrom raw n)).
Proof. intros Hn Hr. apply rec_safe. pose proof (blen_pyfrom raw n ltac:(lia)). unfold blen in *. lia. Qed.

#[local] Ltac safe_rec := first [safe_step | apply rec_from; lia].

Lemma parse_unreach_safe : safe (parse_unreach rec raw).
Proof. unfold parse_unreach. repeat safe_rec. Qed.
Lemma parse_icmp_safe : safe (parse_icmp rec raw).
Proof. unfold parse_icmp. repeat safe_rec. Qed.
Lemma parse_vlan_safe : safe (parse_vlan rec raw).
Proof.
  unfold parse_vlan. repeat safe_rec.
  unfold guard_ok. destruct (negb _); [apply safe_ret|]. apply safe_lift_Err. by right; left.
Qed.

Lemma is_unparsed_safe p : safe (lift (is_unparsed p)).
Proof.
  destruct p as [| | |[] h []]; cbn [is_unparsed]; try apply safe_ret. apply safe_lift_Err. by right; right.
Qed.

Lemma parse_ipv4_safe : safe (parse_ipv4 rec raw).
Proof.
  unfold parse_ipv4. apply safe_bind; [by intros g e g' [=]|]. intros id.
  repeat first [apply is_unparsed_safe | safe_rec].
  all: cbv zeta; repeat first [apply is_unparsed_safe | safe_step]; apply rec_safe.
  all: repeat match goal with H : (_ || _) = false |- _ => apply orb_false_elim in H as [? ?] end.
  all: repeat match goal with H : (_ <? _) = false |- _ => apply Z.ltb_ge in H | H : (_ <=? _) = false |- _ => apply Z.leb_gt in H end.
  all: match goal with |- context [pyslice raw ?i ?j] => pose proof (blen_pyslice raw i j ltac:(lia)) end.
  all: unfold blen in *; lia.
Qed.

Lemma parse_step_safe k : safe (parse_step randint app_parse rec k raw).
Proof.
  destruct k; [apply parse_vlan_safe|apply parse_arp_safe|apply parse_ipv4_safe|apply parse_udp_safe|
    apply parse_tcp_safe|apply parse_icmp_safe|apply parse_echo_safe|apply parse_unreach_safe|
    apply parse_mpls_safe|apply app_safe].
Qed.
End shorter.

(** A fuel beyond the length is enough. *)
Lemma parse_safe fuel k raw : (length raw < fuel)%nat -> safe (parse randint app_parse fuel k raw).
Proof.
  revert k raw. induction fuel as [|fuel IH]; intros k raw Hf; [lia|]. apply parse_step_safe.
  intros k' b Hb. apply IH. lia.
Qed.
Lemma parse_ethernet_safe raw : safe (parse_ethernet randint app_parse raw).
Proof.
  unfold parse_ethernet. repeat safe_step. apply parse_safe.
  pose proof (blen_pyfrom raw 14 ltac:(lia)). unfold blen in *. lia.
Qed.
End safe.
End exceptions.

(** The loop over TCP options ends: every turn moves on. *)
Lemma parse_option_fuel t l rest : parse_option t l rest <> Err OutOfFuel.
Proof.
  unfold parse_option, guard_ok, need, unpack.
  repeat match goal with
  | |- context [if ?b then _ else _] => destruct b
  | |- context [match ?o with Some _ => _ | None => _ end] => destruct o
  end; cbn [mbind result_bind mret result_ret]; try done; by repeat match goal with |- context [let '(_, _) := ?x in _] => destruct x end.
Qed.

Lemma options_loop_fuel fuel raw hdr_len i acc :
  Z.max 0 (hdr_len - i) < Z.of_nat fuel -> fst (options_loop fuel raw hdr_len i acc) <> Err OutOfFuel.
Proof.
  revert i acc. induction fuel as [|fuel IH]; intros i acc Hf; cbn [options_loop].
  { lia. }
  destruct (Z.leb_spec hdr_len i); [done|]. destruct (pyfrom raw i) as [|b0 rest]; [done|].
  destruct (_ =? 0); [done|]. destruct (_ =? 1); [apply IH; lia|]. destruct rest as [|b1 rest]; [done|].
  destruct (_ <? _); [done|]. destruct (Z.ltb_spec (byte_to_Z b1) 2); [done|].
  pose proof (parse_option_fuel (byte_to_Z b0) (byte_to_Z b1) rest).
  destruct (parse_option _ _ _); [apply IH; lia|]. simpl. congruence.
Qed.

(** ** Properties *)

Definition erase_ethernet (e : ethernet) : ethernet :=
  mk_ethernet (e_parsed e) (e_dst e) (e_src e) (e_type e) (erase (e_next e)).

(** A frame around any payload that is read back. *)
Lemma ethernet_reads (randint : nat -> Z) (app_parse : app_class -> bytes -> P payload) d s t rest p :
  eth_ok d -> eth_ok s -> uint_ok 2 t ->
  (forall fuel, (length rest < fuel)%nat -> reads randint app_parse fuel (type_parsers t) rest p) ->
  exists b, blen b = 14 /\
    (forall f next p', pack_payload None next = Ok (rest, p') ->
       pack_ethernet (mk_ethernet f d s t next) = Ok (b ++ rest, mk_ethernet f d s t p')) /\
    forall g, exists g', parse_ethernet randint app_parse (b ++ rest) g = (Ok (mk_ethernet true d s t p), g').
Proof.
  intros Hd Hs Ht Hr. destruct (eth_ok_init _ Hd) as (d' & Id & Ed). destruct (eth_ok_init _ Hs) as (s' & Is & Es).
  pose proof (eth_ok_blen _ Hd) as Ld. pose proof (eth_ok_blen _ Hs) as Ls. pose proof (blen_nonneg rest).
  exists (hw_raw d ++ hw_raw s ++ encode [cH] (t, tt)).
  split; [by rewrite !blen_app, blen_encode, Ld, Ls|]. split.
  - intros f next p' E. unfold pack_ethernet. cbn [e_parsed e_dst e_src e_type e_next]. rewrite E. cbn [mbind result_bind].
    assert (Hp : packable [cs 6; cs 6; cH] (hw_raw d, (hw_raw s, (t, tt)))) by done. rewrite (pack_ok _ _ Hp).
    cbn [encode fst snd]. rewrite !pack_s_exact by (unfold blen in *; lia). done.
  - intros g. unfold parse_ethernet. rewrite <-!app_assoc.
    rewrite (proj2 (Z.ltb_ge _ _)) by (rewrite !blen_app, blen_encode, Ld, Ls; simpl; lia).
    unfold pyupto. rewrite (pyslice_here (hw_raw d) _ 6) by lia. rewrite (pyslice_app (hw_raw d) (hw_raw s) _ 6 12) by lia.
    rewrite (app_assoc (hw_raw d)), (pyslice_app (hw_raw d ++ hw_raw s) (encode [cH] (t, tt)) _ 12 14)
      by (rewrite blen_app, ?blen_encode; simpl; lia).
    rewrite (app_assoc (hw_raw d ++ hw_raw s)), pyfrom_app by (rewrite !blen_app, blen_encode; simpl; lia).
    assert (Pt : packable [cH] (t, tt)) by done. rewrite (unpack_encode [cH] _ eq_refl Pt I), Id, Is, !M_bind_lift_Ok.
    specialize (Hr (S (length (((hw_raw d ++ hw_raw s) ++ encode [cH] (t, tt)) ++ rest))) ltac:(rewrite !length_app; lia)).
    rewrite M_bind_unfold. unfold reads in Hr. destruct (type_parsers t) as [k|].
    + destruct (Hr g) as [g' ->]. exists g'. by rewrite Ed, Es.
    + subst p. exists g. by rewrite Ed, Es.
Qed.

Lemma ethernet_comes_back (randint : nat -> Z) (app_parse : app_class -> bytes -> P payload) (e : ethernet) :
  ethernet_wf e ->
  exists bs e', pack_ethernet e = Ok (bs, e') /\ blen bs = 14 + size (e_next e) /\
    erase_ethernet e' = erase_ethernet e /\
    forall g, exists g', parse_ethernet randint app_parse bs g = (Ok e', g').
Proof.
  destruct e as [f d s t next]. intros (Hf & Hd & Hs & Ht & Hn). cbn [e_parsed e_dst e_src e_type e_next] in *. subst f.
  assert (Hb : next_back randint app_parse None (type_parsers t) next /\
    Z.of_nat (depth next) <= size next).
  { unfold next_back. destruct (type_parsers t) as [k|].
    - split; [by apply payload_comes_back|by apply payload_depth in Hn].
    - split; [done|]. destruct next; try done. apply blen_nonneg. }
  destruct Hb as [Hb Hdep]. destruct (next_back_reads _ _ _ _ _ Hb) as (rest & p & E & L & Ep & _ & Hr).
  destruct (ethernet_reads randint app_parse d s t rest p Hd Hs Ht) as (b & Lb & Hpack & Hparse).
  { intros fuel Hfuel. apply Hr. unfold blen in L. lia. }
  do 2 eexists. split; [by apply Hpack|]. split; [rewrite blen_app, Lb, L; done|].
  split; [unfold erase_ethernet; cbn [e_parsed e_dst e_src e_type e_next]; by rewrite Ep|exact Hparse].
Qed.

(** C1: A well-formed packet, of any of the layers Ethernet, VLAN, ARP, IPv4,
    UDP, TCP with options, ICMP (with the datagram an unreachable message
    quotes) and MPLS, packs; parsing the bytes gives back the object packing
    left behind, which is the packet with its lengths and checksums filled in. *)
Theorem ethernet_roundtrip (randint : nat -> Z) (app_parse : app_class -> bytes -> P payload) (e : ethernet) :
  ethernet_wf e ->
  exists bs e', pack_ethernet e = Ok (bs, e') /\ blen bs = 14 + size (e_next e) /\
    erase_ethernet e' = erase_ethernet e /\
    forall g, exists g', parse_ethernet randint app_parse bs g = (Ok e', g').
Proof. apply ethernet_comes_back. Qed.

(** A tagged ICMP message that quotes a UDP datagram. *)
Definition example_quoted : payload :=
  PHdr true (HIpv4 (mk_ipv4 4 5 0 0 9 2 0 63 17 0 (NwIP (IPAddr_of_int 0x0a010203 false)) (NwIP (IPAddr_of_int 0x0a000001 false))))
    (PHdr true (HUdp (mk_udp 4000 5000 0 0)) (PBytes (str "hello"))).
Definition example_unreachable : ethernet :=
  mk_ethernet true (HwEth (mkEth [x02; x00; x00; x00; x00; x02])) (HwEth (mkEth [x02; x00; x00; x00; x00; x01])) 0x8100
    (PHdr true (HVlan (mk_vlan 3 0 (Some 0) 42 0x0800))
      (PHdr true (HIpv4 (mk_ipv4 4 5 0 0 8 0 0 64 1 0 (NwIP (IPAddr_of_int 0x0a000001 false)) (NwIP (IPAddr_of_int 0x0a010203 false))))
        (PHdr true (HIcmp (mk_icmp 3 1 0))
          (PHdr true (HUnreach (mk_unreach 0 1500)) example_quoted)))).

Lemma ethernet_roundtrip_witness :
  exists bs e', pack_ethernet example_unreachable = Ok (bs, e') /\ blen bs = 14 + 65 /\
    erase_ethernet e' = erase_ethernet example_unreachable /\
    forall g, exists g', parse_ethernet (fun _ => 0) (fun k b => mret (PHdr true (HApp k (Ok b)) (PBytes []))) bs g = (Ok e', g').
Proof.
  apply (ethernet_roundtrip (fun _ => 0) (fun k b => mret (PHdr true (HApp k (Ok b)) (PBytes []))) example_unreachable).
  repeat split; try (vm_compute; congruence).
Defined.

(** What the packers call a checksum is one.  The bytes of an IP header,
    of an ICMP message, and of a UDP or TCP segment together with its
    pseudo-header, sum to zero in one's complement arithmetic (as 16-bit
    words, an odd byte padded). *)
Theorem checksums_verify :
  (forall h rest b h', ipv4_hdr h rest = Ok (b, h') -> be_sum b mod 65535 = 0) /\
  (forall h rest b h', icmp_hdr h rest = Ok (b, h') -> blen rest <= 65536 -> be_sum (b ++ rest) mod 65535 = 0) /\
  (forall ip h rest b h', udp_hdr (Some ip) h rest = Ok (b, h') ->
     exists p, pseudo ip (8 + blen rest) = Ok p /\ be_sum (p ++ b ++ rest) mod 65535 = 0) /\
  (forall ip h rest b h', tcp_hdr (Some ip) h rest = Ok (b, h') ->
     exists p, pseudo ip (blen (b ++ rest)) = Ok p /\ be_sum (p ++ b ++ rest) mod 65535 = 0).
Proof.
  split; [exact ipv4_hdr_sums|]. split; [exact icmp_hdr_sums|]. split; [exact udp_hdr_sums|exact tcp_hdr_sums].
Qed.

Definition example_tcp : tcp := mk_tcp 4242 80 1000 0 6 0 2 512 0 0 [OMss 1460].

Lemma checksums_verify_witness :
  exists b1 h1 b2 h2 b3 h3 b4 h4,
    (ipv4_hdr example_ip (str "payload") = Ok (b1, h1) /\ be_sum b1 mod 65535 = 0) /\
    (icmp_hdr (mk_icmp 8 0 0) (str "ping") = Ok (b2, h2) /\ be_sum (b2 ++ str "ping") mod 65535 = 0) /\
    (udp_hdr (Some example_ip) (mk_udp 4000 5000 0 0) (str "hello") = Ok (b3, h3) /\
       exists p, pseudo example_ip (8 + blen (str "hello")) = Ok p /\ be_sum (p ++ b3 ++ str "hello") mod 65535 = 0) /\
    (tcp_hdr (Some example_ip) example_tcp (str "GET /") = Ok (b4, h4) /\
       exists p, pseudo example_ip (blen (b4 ++ str "GET /")) = Ok p /\ be_sum (p ++ b4 ++ str "GET /") mod 65535 = 0).
Proof.
  destruct checksums_verify as (H1 & H2 & H3 & H4). do 8 eexists.
  split; [split; [vm_compute; reflexivity|eapply (H1 example_ip (str "payload")); vm_compute; reflexivity]|].
  split; [split; [vm_compute; reflexivity|
    eapply (H2 (mk_icmp 8 0 0) (str "ping")); [vm_compute; reflexivity|vm_compute; congruence]]|].
  split; [split; [vm_compute; reflexivity|
    eapply (H3 example_ip (mk_udp 4000 5000 0 0) (str "hello")); vm_compute; reflexivity]|].
  split; [vm_compute; reflexivity|eapply (H4 example_ip example_tcp (str "GET /")); vm_compute; reflexivity].
Defined.

(** Whatever bytes arrive, [ethernet(raw)] returns, and raises nothing but
    [ValueError] (a MAC address with five bytes 0x3a), [AssertionError] (a tag
    behind a tag), [AttributeError] (an ICMP header cut short) or what the
    application parsers raise; the loop over TCP options always ends. *)
Theorem parse_ethernet_errors (X : exn -> Prop) (randint : nat -> Z) (app_parse : app_class -> bytes -> P payload)
    (raw : bytes) (hdr_len : Z) :
  (forall k raw, safe X (app_parse k raw)) ->
  safe X (parse_ethernet randint app_parse raw) /\ fst (parse_options raw hdr_len) <> Err OutOfFuel.
Proof. intros Happ. split; [by apply parse_ethernet_safe|apply options_loop_fuel; lia]. Qed.

Lemma parse_ethernet_errors_witness :
  safe (fun _ => False) (parse_ethernet (fun _ => 0) (fun _ b => mret (PBytes b)) (str "truncated IP frame")) /\
  fst (parse_options (str "truncated option list: 3") 24) <> Err OutOfFuel.
Proof.
  destruct (parse_ethernet_errors (fun _ => False) (fun _ => 0) (fun _ b => mret (PBytes b)) (str "truncated IP frame") 24) as [H _].
  { intros k raw g e g' [=]. }
  split; [exact H|].
  apply (parse_ethernet_errors (fun _ => False) (fun _ => 0) (fun _ b => mret (PBytes b)) (str "truncated option list: 3") 24).
  intros k raw g e g' [=].
Defined.

(** A word with a bit above the sixteenth does not fit. *)
Lemma uint2_high x n : 16 <= n -> Z.testbit x n = true -> ~ uint_ok 2 x.
Proof.
  intros Hn Hb [H0 H1]. change (256 ^ Z.of_nat 2) with (2 ^ 16) in H1.
  assert (Hs : x < 2 ^ n) by (pose proof (Z.pow_le_mono_r 2 16 n); lia).
  apply Z.testbit_true in Hb; [|lia]. by rewrite Z.div_small in Hb by lia.
Qed.

Lemma land_bit x n : 0 <= n -> Z.land x (2 ^ n) = if Z.testbit x n then 2 ^ n else 0.
Proof.
  intros Hn. apply Z.bits_inj'. intros m Hm. rewrite Z.land_spec, Z.pow2_bits_eqb by lia.
  destruct (Z.eqb_spec n m) as [<-|Hne].
  - rewrite andb_true_r. destruct (Z.testbit x n) eqn:E; [by rewrite Z.pow2_bits_true|by rewrite Z.bits_0].
  - rewrite andb_false_r. destruct (Z.testbit x n); [by rewrite Z.pow2_bits_false by lia|by rewrite Z.bits_0].
Qed.

(** The first word of a tag, put together again from its fields. *)
Lemma vlan_word x :
  uint_ok 2 x -> Z.testbit x 12 = false ->
  Z.lor (Z.lor (Z.shiftl (Z.shiftr x 13) 13) (Z.shiftl 0 12)) (Z.land x 0x0fff) = x.
Proof.
  intros [H0 H1] Hb. change (256 ^ Z.of_nat 2) with 65536 in H1.
  rewrite Z.shiftl_0_l, Z.lor_0_r. change 0x0fff with (Z.ones 12). rewrite Z.land_ones, Z.shiftr_div_pow2 by lia.
  rewrite lor_shiftl_add; [|lia|apply Z.div_pos; lia|pose proof (Z.mod_pos_bound x (2 ^ 12)); lia].
  apply Z.testbit_false in Hb; [|lia]. Z.to_euclidean_division_equations. lia.
Qed.

(** Behind a VLAN tag, a payload of a type the library does not know is
    not kept: the packet packs to the tag alone; and if the tag's CFI bit is
    set it does not pack at all, since [parse] stores the bit unshifted and
    [hdr] shifts it again. *)
Theorem vlan_unknown_type (rec : kind -> bytes -> P payload) (word t : Z) (rest : bytes) (g : gen) :
  uint_ok 2 word -> uint_ok 2 t -> t <> 0x8100 -> type_parsers t = None ->
  exists h, parse_vlan rec (encode [cH; cH] (word, (t, tt)) ++ rest) g = (Ok (PHdr true (HVlan h) PNone), g) /\
    pack_payload None (PHdr true (HVlan h) PNone)
    = if Z.testbit word 12 then Err StructError
      else Ok (encode [cH; cH] (word, (t, tt)), PHdr true (HVlan h) PNone).
Proof.
  intros Hw Ht Hn Hk. exists (mk_vlan (Z.shiftr word 13) 0 (Some (Z.land word 0x1000)) (Z.land word 0x0fff) t).
  assert (Hp : packable [cH; cH] (word, (t, tt))) by done. split.
  - unfold parse_vlan. pose proof (blen_nonneg rest). not_short.
    rewrite (unpack_upto [cH; cH] (word, (t, tt)) rest 4 eq_refl eq_refl Hp I), M_bind_lift_Ok. cbn beta iota.
    rewrite (proj2 (Z.eqb_neq _ _)) by done. by rewrite Hk.
  - cbn [pack_payload mbind result_bind hdr wrap as_prev]. unfold vlan_hdr, need. cbn [v_c v_pcp v_id v_eth_type mbind result_bind].
    change 0x1000 with (2 ^ 12). rewrite land_bit by lia. destruct (Z.testbit word 12) eqn:E.
    + rewrite pack_spec, decide_False; [done|]. intros [H _]. revert H. apply (uint2_high _ 24); [lia|].
      cbn [fst]. by rewrite !Z.lor_spec, (Z.shiftl_spec (2 ^ 12)), !Z.pow2_bits_eqb, orb_true_r by lia.
    + rewrite vlan_word by done. rewrite (pack_ok _ _ Hp). cbn [mbind result_bind mret result_ret]. done.
Qed.

Lemma vlan_unknown_type_witness :
  exists h, parse_vlan (fun _ b => mret (PBytes b)) (encode [cH; cH] (0x102a, (0x86dd, tt)) ++ str "an IPv6 packet") (mk_gen 0 0)
      = (Ok (PHdr true (HVlan h) PNone), mk_gen 0 0) /\
    pack_payload None (PHdr true (HVlan h) PNone) = Err StructError.
Proof.
  apply (vlan_unknown_type (fun _ b => mret (PBytes b)) 0x102a 0x86dd (str "an IPv6 packet") (mk_gen 0 0));
    try reflexivity; try (vm_compute; split; congruence); vm_compute; congruence.
Defined.
