(* ===== verification/Epoll.v ===== *)
(** * [select] on top of [epoll] ([pox/lib/epoll_select.py])

    The class keeps what the kernel has been told, and tells it the differences
    between one call and the next.  The kernel's part ([interest], the
    descriptors that are watched) follows epoll(7): a descriptor is registered
    once, changed and removed only when it is there, and closing a file removes
    it.  What [poll] reports is an argument of a call, and so is the order in
    which a dictionary is walked through. *)

From S2P Require Import Prelude.

(** ** Constants of the [select] module *)
Definition EPOLLIN : Z := 1.
Definition EPOLLPRI : Z := 2.
Definition EPOLLOUT : Z := 4.
Definition EPOLLERR : Z := 8.
Definition EPOLLHUP : Z := 16.
Definition EPOLLRDNORM : Z := 64.
Definition EPOLLRDBAND : Z := 128.
Definition EPOLLWRNORM : Z := 256.
Definition EPOLLWRBAND : Z := 512.
Definition ENOENT : Z := 2.
Definition EEXIST : Z := 17.

(** ** The object *)

(** What may be given to [select]: a descriptor, or an object with [fileno]. *)
Inductive waitable := RawFd (fd : Z) | Obj (o : nat).
#[global] Instance waitable_eq_dec : EqDecision waitable.
Proof. solve_decision. Defined.

Record epoll_select := mk_epoll_select {
  interest : gmap Z Z;               (* the kernel's side of [self.epoll] *)
  fd_to_obj : gmap Z waitable;
  registered_fds : gmap Z Z;         (* [registered] *)
  lastrl : list waitable; lastrl_set : gset Z;
  lastwl : list waitable; lastwl_set : gset Z
}.
Definition new_epoll_select : epoll_select := mk_epoll_select ∅ ∅ ∅ [] ∅ [] ∅.

Definition set_interest m (s : epoll_select) : epoll_select := mk_epoll_select m (fd_to_obj s) (registered_fds s) (lastrl s) (lastrl_set s) (lastwl s) (lastwl_set s).
Definition set_fd_to_obj m (s : epoll_select) : epoll_select := mk_epoll_select (interest s) m (registered_fds s) (lastrl s) (lastrl_set s) (lastwl s) (lastwl_set s).
Definition set_registered_fds m (s : epoll_select) : epoll_select := mk_epoll_select (interest s) (fd_to_obj s) m (lastrl s) (lastrl_set s) (lastwl s) (lastwl_set s).
Definition set_lastrl l x (s : epoll_select) : epoll_select := mk_epoll_select (interest s) (fd_to_obj s) (registered_fds s) l x (lastwl s) (lastwl_set s).
Definition set_lastwl l x (s : epoll_select) : epoll_select := mk_epoll_select (interest s) (fd_to_obj s) (registered_fds s) (lastrl s) (lastrl_set s) l x.

(** ** The kernel *)
Definition epoll_register (fd mask : Z) : M epoll_select unit :=
  known ← get (fun s => interest s !! fd);
  match known with Some _ => lift (Err (IOError EEXIST)) | None => modify (fun s => set_interest (<[fd := mask]> (interest s)) s) end.
Definition epoll_modify (fd mask : Z) : M epoll_select unit :=
  known ← get (fun s => interest s !! fd);
  match known with None => lift (Err (IOError ENOENT)) | Some _ => modify (fun s => set_interest (<[fd := mask]> (interest s)) s) end.
Definition epoll_unregister (fd : Z) : M epoll_select unit :=
  known ← get (fun s => interest s !! fd);
  match known with None => lift (Err (IOError ENOENT)) | Some _ => modify (fun s => set_interest (delete fd (interest s)) s) end.
(** A program closes a file, and another one may get its number. *)
Definition file_closed (fd : Z) (s : epoll_select) : epoll_select := set_interest (delete fd (interest s)) s.

Section epoll.
Context (fileno : nat -> Z).

Definition fd_of (o : waitable) : Z := match o with RawFd fd => fd | Obj o => fileno o end.
Definition fds (l : list waitable) : gset Z := list_to_set (fd_of <$> l).
Definition note_objects (l : list waitable) (m : gmap Z waitable) : gmap Z waitable := foldl (fun m o => <[fd_of o := o]> m) m l.

(** The two loops of [modify_table]: a descriptor that is not in the table yet
    comes in with what it is registered for. *)
Definition change_masks (registered : gmap Z Z) (f : Z -> Z) (l : list Z) (modify : gmap Z Z) : gmap Z Z :=
  foldl (fun m fd => <[fd := f (default (default 0 (registered !! fd)) (m !! fd))]> m) modify l.
Definition modify_table (registered : gmap Z Z) (current : list waitable) (old : gset Z) (op : Z) (modify : gmap Z Z) : gmap Z Z :=
  let modify := change_masks registered (fun mask => Z.lor mask op) (elements (fds current ∖ old)) modify in
  change_masks registered (fun mask => Z.land mask (Z.lnot op)) (elements (old ∖ fds current)) modify.

Definition READ : Z := Z.lor EPOLLIN EPOLLPRI.
Definition table_rl (rl : list waitable) : M epoll_select (gmap Z Z) :=
  s ← get id;
  if decide (rl <> lastrl s) then
    _ ← modify (set_fd_to_obj (note_objects rl (fd_to_obj s)));
    _ ← modify (set_lastrl rl (fds rl));
    mret (modify_table (registered_fds s) rl (lastrl_set s) READ ∅)
  else mret ∅.
Definition table_wl (wl : list waitable) (m : gmap Z Z) : M epoll_select (gmap Z Z) :=
  s ← get id;
  if decide (wl <> lastwl s) then
    _ ← modify (set_fd_to_obj (note_objects wl (fd_to_obj s)));
    _ ← modify (set_lastwl wl (fds wl));
    mret (modify_table (registered_fds s) wl (lastwl_set s) EPOLLOUT m)
  else mret m.

(** One turn of the loop that tells the kernel. *)
Definition apply_mask (fd mask : Z) : M epoll_select unit :=
  known ← get (fun s => registered_fds s !! fd);
  match known with
  | Some _ =>
      if mask =? 0 then _ ← epoll_unregister fd; modify (fun s => set_registered_fds (delete fd (registered_fds s)) s)
      else _ ← epoll_modify fd mask; modify (fun s => set_registered_fds (<[fd := mask]> (registered_fds s)) s)
  | None =>
      if mask =? 0 then lift (Err AssertionError)
      else _ ← epoll_register fd mask; modify (fun s => set_registered_fds (<[fd := mask]> (registered_fds s)) s)
  end.

(** The events of [poll], as three lists. *)
Definition has (event mask : Z) : bool := negb (Z.land event mask =? 0).
Definition READABLE : Z := Z.lor EPOLLIN (Z.lor EPOLLPRI (Z.lor EPOLLRDNORM EPOLLRDBAND)).
Definition WRITABLE : Z := Z.lor EPOLLOUT (Z.lor EPOLLWRNORM EPOLLWRBAND).
Definition BROKEN : Z := Z.lor EPOLLERR EPOLLHUP.
Definition objects_with (mask : Z) (events : list (Z * Z)) : M epoll_select (list waitable) :=
  m ← get fd_to_obj;
  lift (mapM (fun e : Z * Z => need KeyError (m !! e.1)) (base.filter (fun e => has e.2 mask = true) events)).

Definition table (rl wl : list waitable) : M epoll_select (gmap Z Z) := m ← table_rl rl; table_wl wl m.
Definition select (order : gmap Z Z -> list (Z * Z)) (rl wl : list waitable) (events : list (Z * Z)) : M epoll_select (list waitable * list waitable * list waitable) :=
  m ← table rl wl;
  _ ← for_each (order m) (fun e => apply_mask e.1 e.2);
  retrl ← objects_with READABLE events;
  retwl ← objects_with WRITABLE events;
  retxl ← objects_with BROKEN events;
  mret (retrl, retwl, retxl).

(** ** What the kernel is to be told *)

Definition wanted (R W : gset Z) (fd : Z) : option Z :=
  if decide (fd ∈ R) then Some (if decide (fd ∈ W) then Z.lor READ EPOLLOUT else READ) else if decide (fd ∈ W) then Some EPOLLOUT else None.

(** [U] are the objects in use; two of them do not have the same descriptor. *)
Record epoll_ok (U : list waitable) (s : epoll_select) : Prop := {
  ok_interest : interest s = registered_fds s;
  ok_registered : forall fd, registered_fds s !! fd = wanted (lastrl_set s) (lastwl_set s) fd;
  ok_rl : lastrl_set s = fds (lastrl s);
  ok_wl : lastwl_set s = fds (lastwl s);
  ok_objects : forall o, o ∈ lastrl s ++ lastwl s -> is_Some (fd_to_obj s !! fd_of o);
  ok_used : forall fd o, fd_to_obj s !! fd = Some o -> o ∈ U /\ fd_of o = fd
}.

(** *** The table of changes *)

Lemma change_masks_lookup reg f l m fd : NoDup l ->
  change_masks reg f l m !! fd = if decide (fd ∈ l) then Some (f (default (default 0 (reg !! fd)) (m !! fd))) else m !! fd.
Proof.
  unfold change_masks. revert m. induction l as [|x l IH]; intros m Hl; [done|]. apply NoDup_cons in Hl as [Hx Hl]. cbn [foldl]. rewrite IH by done.
  destruct (decide (x = fd)) as [->|Hne].
  - rewrite decide_False by done. rewrite lookup_insert_eq. by rewrite decide_True by (by left).
  - rewrite lookup_insert_ne by done. destruct (decide (fd ∈ l)); [by rewrite decide_True by (by right)|]. rewrite decide_False; [done|]. rewrite elem_of_cons. by intros [->|].
Qed.

Lemma modify_table_lookup reg l old op m fd :
  modify_table reg l old op m !! fd =
    let x := default (default 0 (reg !! fd)) (m !! fd) in
    if decide (fd ∈ fds l) then (if decide (fd ∈ old) then m !! fd else Some (Z.lor x op))
    else (if decide (fd ∈ old) then Some (Z.land x (Z.lnot op)) else m !! fd).
Proof.
  unfold modify_table. rewrite !change_masks_lookup by apply NoDup_elements. cbn zeta. destruct (decide (fd ∈ fds l)), (decide (fd ∈ old)).
  all: rewrite ?decide_False by set_solver; rewrite ?decide_True by set_solver; rewrite ?decide_False by set_solver; try done.
Qed.

(** A table says of every descriptor what is wanted, or leaves it as it is. *)
Definition changes_to (R W R' W' : gset Z) (m : gmap Z Z) : Prop := forall fd,
  match m !! fd with
  | Some mask => mask = default 0 (wanted R' W' fd) /\ is_Some (if mask =? 0 then wanted R W fd else Some mask)
  | None => wanted R' W' fd = wanted R W fd
  end.

Lemma tables_change reg R W rl wl : (forall fd, reg !! fd = wanted R W fd) ->
  changes_to R W (fds rl) (fds wl) (modify_table reg wl W EPOLLOUT (modify_table reg rl R READ ∅)).
Proof.
  intros Hreg fd. rewrite modify_table_lookup, modify_table_lookup, Hreg, lookup_empty. unfold wanted, default. cbn zeta.
  destruct (decide (fd ∈ R)), (decide (fd ∈ W)), (decide (fd ∈ fds rl)), (decide (fd ∈ fds wl)); vm_compute; eauto.
Qed.

Lemma modify_table_same reg l op m : modify_table reg l (fds l) op m = m.
Proof. unfold modify_table. rewrite difference_diag_L, elements_empty. done. Qed.

(** *** Telling the kernel *)

Definition updated (g : gmap Z Z) (e : Z * Z) : gmap Z Z := if e.2 =? 0 then delete e.1 g else <[e.1 := e.2]> g.
Definition set_told g (s : epoll_select) : epoll_select := set_interest g (set_registered_fds g s).

Lemma apply_mask_ok fd mask s : interest s = registered_fds s -> is_Some (if mask =? 0 then registered_fds s !! fd else Some mask) ->
  apply_mask fd mask s = (Ok tt, set_told (updated (registered_fds s) (fd, mask)) s).
Proof.
  intros Hs Hz. unfold apply_mask, updated. cbn [fst snd]. rewrite M_bind_unfold. unfold get at 1.
  destruct (mask =? 0), (registered_fds s !! fd) as [x|] eqn:E; try by destruct Hz.
  all: unfold epoll_unregister, epoll_modify, epoll_register, mbind, M_bind, get; rewrite Hs, E; cbn; rewrite ?Hs; reflexivity.
Qed.

Lemma apply_masks_ok l : NoDup l.*1 -> forall s, interest s = registered_fds s ->
  (forall fd mask, (fd, mask) ∈ l -> is_Some (if mask =? 0 then registered_fds s !! fd else Some mask)) ->
  for_each l (fun e => apply_mask e.1 e.2) s = (Ok tt, set_told (foldl updated (registered_fds s) l) s).
Proof.
  induction l as [|[fd mask] l IH]; intros Hl s Hs Hz; cbn [for_each].
  { destruct s. cbn in *. by rewrite Hs. }
  apply NoDup_cons in Hl as [Hfd Hl]. erewrite M_bind_run by (apply apply_mask_ok; [done|apply Hz; left]). rewrite IH; [done|done|done|].
  intros fd' mask' Hin. specialize (Hz fd' mask' ltac:(by right)). destruct (mask' =? 0); [|done]. cbn [registered_fds set_told set_interest set_registered_fds]. unfold updated. cbn [fst snd].
  assert (fd <> fd') by (intros ->; apply Hfd; apply list_elem_of_fmap; by exists (fd', mask')). destruct (mask =? 0); [rewrite lookup_delete_ne by done|rewrite lookup_insert_ne by done]; exact Hz.
Qed.

Lemma foldl_updated_lookup l g fd : NoDup l.*1 ->
  foldl updated g l !! fd = match (list_to_map l : gmap Z Z) !! fd with Some mask => (if mask =? 0 then None else Some mask) | None => g !! fd end.
Proof.
  revert g. induction l as [|[k v] l IH]; intros g Hl; cbn [foldl list_to_map foldr fst snd]; [by rewrite lookup_empty|]. apply NoDup_cons in Hl as [Hk Hl]. rewrite IH by done.
  unfold list_to_map in *. cbn [foldr fst snd]. destruct (decide (k = fd)) as [->|Hne].
  - rewrite lookup_insert_eq. change (foldr _ ∅ l) with (list_to_map (M := gmap Z Z) l). rewrite (not_elem_of_list_to_map_1 l fd Hk). unfold updated. cbn [fst snd].
    destruct (v =? 0); [apply lookup_delete_eq|apply lookup_insert_eq].
  - rewrite lookup_insert_ne by done. destruct (foldr _ ∅ l !! fd); [done|]. unfold updated. cbn [fst snd]. destruct (v =? 0); [by rewrite lookup_delete_ne|by rewrite lookup_insert_ne].
Qed.

(** *** A call *)

Lemma elem_of_app_l {A} (x : A) l k : x ∈ l -> x ∈ l ++ k.
Proof. intros. apply elem_of_app. by left. Qed.
Lemma elem_of_app_r {A} (x : A) l k : x ∈ k -> x ∈ l ++ k.
Proof. intros. apply elem_of_app. by right. Qed.

Lemma note_objects_keep l m fd : is_Some (m !! fd) -> is_Some (note_objects l m !! fd).
Proof.
  unfold note_objects. revert m. induction l as [|x l IH]; intros m Hm; [done|]. cbn [foldl]. apply IH.
  destruct (decide (fd_of x = fd)) as [<-|Hne]; [rewrite lookup_insert_eq; by eexists|by rewrite lookup_insert_ne].
Qed.
Lemma note_objects_in l m o : o ∈ l -> is_Some (note_objects l m !! fd_of o).
Proof.
  revert m. induction l as [|x l IH]; intros m Ho; [by apply elem_of_nil in Ho|]. apply elem_of_cons in Ho as [<-|Ho]; [|by apply IH].
  apply (note_objects_keep l). rewrite lookup_insert_eq. by eexists.
Qed.
Lemma note_objects_used U l m : l ⊆ U -> (forall fd o, m !! fd = Some o -> o ∈ U /\ fd_of o = fd) -> forall fd o, note_objects l m !! fd = Some o -> o ∈ U /\ fd_of o = fd.
Proof.
  unfold note_objects. revert m. induction l as [|x l IH]; intros m Hl Hm; [done|]. cbn [foldl]. apply IH; [set_solver|]. intros fd o.
  destruct (decide (fd_of x = fd)) as [<-|Hne]; [rewrite lookup_insert_eq; intros [= <-]; split; [set_solver|done]|rewrite lookup_insert_ne by done; apply Hm].
Qed.

Lemma table_ok U rl wl s : rl ⊆ U -> wl ⊆ U -> epoll_ok U s -> exists m o,
  table rl wl s = (Ok m, mk_epoll_select (interest s) o (registered_fds s) rl (fds rl) wl (fds wl)) /\
  changes_to (lastrl_set s) (lastwl_set s) (fds rl) (fds wl) m /\ (forall x, x ∈ rl ++ wl -> is_Some (o !! fd_of x)) /\ (forall fd x, o !! fd = Some x -> x ∈ U /\ fd_of x = fd).
Proof.
  intros HrU HwU [_ Hreg Hr Hw Ho Hu]. destruct s as [i o g r R w W]. cbn in *. subst R W.
  pose proof (tables_change g (fds r) (fds w) rl wl Hreg) as Hc.
  unfold table, table_rl, mbind, M_bind, get, id, modify. cbn [lastrl]. destruct (decide (rl <> r)) as [Hne|He]; [|apply dec_stable in He; subst r].
  all: cbn; unfold table_wl, mbind, M_bind, get, id, modify; cbn [lastwl set_lastrl set_fd_to_obj]; destruct (decide (wl <> w)) as [Hne'|He']; [|apply dec_stable in He'; subst w].
  all: rewrite ?modify_table_same in Hc; cbn; do 2 eexists; (split; [reflexivity|]); (split; [exact Hc|]).
  all: cbn [fd_to_obj set_fd_to_obj set_lastrl set_lastwl]; split; [intros x Hx; apply elem_of_app in Hx as [Hx|Hx]|].
  all: eauto 6 using note_objects_in, note_objects_keep, note_objects_used, elem_of_app_l, elem_of_app_r.
Qed.

(** What epoll(7) says of the events that [poll] reports: one for a descriptor,
    and of the kinds asked for, besides errors. *)
Definition kernel_reports (told : Z -> option Z) (events : list (Z * Z)) : Prop :=
  NoDup events.*1 /\ forall fd ev, (fd, ev) ∈ events -> exists mask, told fd = Some mask /\ Z.land ev (Z.lnot (Z.lor mask BROKEN)) = 0.

Lemma has_within ev M k : Z.land ev (Z.lnot M) = 0 -> Z.land M k = 0 -> has ev k = false.
Proof.
  intros Hev Hk. assert (Z.land ev k = 0) as E; [|unfold has; by rewrite E]. apply Z.bits_inj'. intros n Hn. rewrite Z.land_spec, Z.bits_0.
  apply (f_equal (fun z => Z.testbit z n)) in Hev, Hk. rewrite Z.land_spec, Z.lnot_spec, Z.bits_0 in Hev by done. rewrite Z.land_spec, Z.bits_0 in Hk.
  by destruct (Z.testbit ev n), (Z.testbit M n), (Z.testbit k n).
Qed.

Lemma elem_of_fds fd l : fd ∈ fds l <-> exists o, o ∈ l /\ fd_of o = fd.
Proof. unfold fds. rewrite elem_of_list_to_set, list_elem_of_fmap. firstorder. Qed.

Section objects.
Context (U : list waitable) (HU : forall o o', o ∈ U -> o' ∈ U -> fd_of o = fd_of o' -> o = o').

(** The objects with events of a kind. *)
Lemma objects_with_ok l k events s :
  l ⊆ U -> (forall fd o, fd_to_obj s !! fd = Some o -> o ∈ U /\ fd_of o = fd) -> (forall o, o ∈ l -> is_Some (fd_to_obj s !! fd_of o)) ->
  (forall fd ev, (fd, ev) ∈ events -> has ev k = true -> fd ∈ fds l) ->
  exists r, objects_with k events s = (Ok r, s) /\ forall o, o ∈ r <-> o ∈ l /\ exists ev, (fd_of o, ev) ∈ events /\ has ev k = true.
Proof.
  intros Hl Hu Ho Hin. unfold objects_with. rewrite M_bind_unfold. unfold get at 1, lift. induction events as [|[fd ev] events IH].
  { exists []. split; [reflexivity|]. intros o. split; [by intros ?%elem_of_nil|intros (_ & ev & ?%elem_of_nil & _); done]. }
  destruct IH as (r & Er & Hr); [intros; eapply Hin; [by right|done]|]. rewrite filter_cons. cbn [fst snd]. destruct (decide (has ev k = true)) as [Hev|Hev].
  - assert (fd ∈ fds l) as (o & Hol & <-)%elem_of_fds by (eapply Hin; [by left|done]). destruct (Ho o Hol) as [o' Eo]. destruct (Hu _ _ Eo) as [HoU Hfd].
    assert (o' = o) as -> by (apply HU; auto). exists (o :: r). cbn [mapM fst]. rewrite Eo. cbn. injection Er as ->. split; [done|].
    intros x. rewrite elem_of_cons, Hr. setoid_rewrite elem_of_cons. split; [intros [->|(Hx & e & He & Hk)]; eauto 6|].
    intros (Hx & e & [[= Efd ->]|He] & Hk); [left; apply HU; auto|right; eauto].
  - exists r. split; [exact Er|]. intros x. rewrite Hr. setoid_rewrite elem_of_cons. split; [intros (Hx & e & He & Hk); eauto 6|].
    intros (Hx & e & [[= Efd ->]|He] & Hk); [done|eauto].
Qed.

Lemma reported_in told rl wl events : (forall fd, told fd = wanted (fds rl) (fds wl) fd) -> kernel_reports told events -> forall fd ev, (fd, ev) ∈ events ->
  (has ev READABLE = true -> fd ∈ fds rl) /\ (has ev WRITABLE = true -> fd ∈ fds wl) /\ (has ev BROKEN = true -> fd ∈ fds (rl ++ wl)).
Proof.
  intros Ht [_ Hk] fd ev Hin. destruct (Hk fd ev Hin) as (mask & Hm & Hev). rewrite Ht in Hm. unfold wanted in Hm.
  assert (Hrw : fd ∈ fds rl \/ fd ∈ fds wl -> fd ∈ fds (rl ++ wl)). { rewrite !elem_of_fds. setoid_rewrite elem_of_app. firstorder. }
  destruct (decide (fd ∈ fds rl)) as [Hr|Hr], (decide (fd ∈ fds wl)) as [Hw|Hw]; simplify_eq; repeat split; try tauto.
  all: intros H; rewrite (has_within _ _ _ Hev) in H by reflexivity; done.
Qed.

Lemma select_ok order rl wl events s : (forall m, order m ≡ₚ map_to_list m) -> rl ⊆ U -> wl ⊆ U -> epoll_ok U s ->
  kernel_reports (wanted (fds rl) (fds wl)) events ->
  exists a b c s', select order rl wl events s = (Ok (a, b, c), s') /\ epoll_ok U s' /\ (forall fd, interest s' !! fd = wanted (fds rl) (fds wl) fd) /\
    (forall o, o ∈ a <-> o ∈ rl /\ exists ev, (fd_of o, ev) ∈ events /\ has ev READABLE = true) /\
    (forall o, o ∈ b <-> o ∈ wl /\ exists ev, (fd_of o, ev) ∈ events /\ has ev WRITABLE = true) /\
    (forall o, o ∈ c <-> o ∈ rl ++ wl /\ exists ev, (fd_of o, ev) ∈ events /\ has ev BROKEN = true).
Proof.
  intros Horder Hrl Hwl Hok Hk. destruct (table_ok U rl wl s Hrl Hwl Hok) as (m & o & Et & Hm & Ho & Hu). destruct Hok as [Hint Hreg _ _ _ _].
  unfold select. erewrite M_bind_run by exact Et. set (s1 := mk_epoll_select _ _ _ _ _ _ _).
  assert (Hnd : NoDup (order m).*1) by (rewrite (Horder m); apply NoDup_fst_map_to_list).
  erewrite M_bind_run; [|apply apply_masks_ok; [done|done|]].
  2:{ intros fd mask Hin. rewrite Horder in Hin. apply elem_of_map_to_list in Hin. specialize (Hm fd). rewrite Hin in Hm. cbn [registered_fds s1]. rewrite Hreg. apply Hm. }
  set (s2 := set_told _ s1). assert (Hg : forall fd, registered_fds s2 !! fd = wanted (fds rl) (fds wl) fd).
  { intros fd. cbn [registered_fds s2 set_told set_interest set_registered_fds]. rewrite foldl_updated_lookup by done. rewrite (list_to_map_proper (M := gmap Z) _ _ Hnd (Horder m)), list_to_map_to_list.
    specialize (Hm fd). destruct (m !! fd) as [mask|]; [|by rewrite Hm, <-Hreg]. destruct Hm as [-> _]. unfold wanted. destruct (decide _), (decide _); reflexivity. }
  assert (Hrep := reported_in (wanted (fds rl) (fds wl)) rl wl events (fun _ => eq_refl) Hk).
  assert (Ho' : forall l, l ⊆ rl ++ wl -> forall x, x ∈ l -> is_Some (fd_to_obj s2 !! fd_of x)) by (intros l Hl x Hx; apply Ho, Hl, Hx).
  destruct (objects_with_ok rl READABLE events s2) as (a & Ea & Ha); [done|exact Hu|apply Ho'; set_solver|intros fd ev Hin; apply (Hrep fd ev Hin)|].
  destruct (objects_with_ok wl WRITABLE events s2) as (b & Eb & Hb); [done|exact Hu|apply Ho'; set_solver|intros fd ev Hin; apply (Hrep fd ev Hin)|].
  destruct (objects_with_ok (rl ++ wl) BROKEN events s2) as (c & Ec & Hc); [set_solver|exact Hu|apply Ho'; set_solver|intros fd ev Hin; apply (Hrep fd ev Hin)|].
  exists a, b, c, s2. erewrite M_bind_run by exact Ea. erewrite M_bind_run by exact Eb. erewrite M_bind_run by exact Ec. split; [reflexivity|].
  split; [|split; [exact Hg|done]]. split; [done|exact Hg|done|done|exact Ho|exact Hu].
Qed.

(** A history of calls; the kernel may have reported anything that it may. *)
Inductive called (order : gmap Z Z -> list (Z * Z)) : epoll_select -> Prop :=
  | CalledNone : called order new_epoll_select
  | CalledOnce rl wl events s : called order s -> rl ⊆ U -> wl ⊆ U -> kernel_reports (wanted (fds rl) (fds wl)) events -> called order (snd (select order rl wl events s)).

Lemma called_ok order s : (forall m, order m ≡ₚ map_to_list m) -> called order s -> epoll_ok U s.
Proof.
  intros Horder H. induction H as [|rl wl events s _ IH Hr Hw Hk].
  - split; cbn; try done; try (intros fd; by rewrite lookup_empty). all: by intros o ?%elem_of_nil.
  - destruct (select_ok order rl wl events s Horder Hr Hw IH Hk) as (a & b & c & s' & -> & Hok & _). exact Hok.
Qed.
End objects.


(** When a file is closed between two calls and another one that gets its
    number takes its place in the list, the kernel is not told: nothing is
    ever reported of the new file. *)
Theorem reused_descriptor_deaf (order : gmap Z Z -> list (Z * Z)) (s : epoll_select) (rl : list waitable) (fd : Z) (events : list (Z * Z)) :
  (forall m, order m ≡ₚ map_to_list m) -> fds rl = lastrl_set s -> fd ∈ fds rl ->
  interest (snd (select order rl (lastwl s) events (file_closed fd s))) !! fd = None.
Proof.
  intros Horder Hrl Hin. assert (Ht : exists m s', table rl (lastwl s) (file_closed fd s) = (Ok m, s') /\ m = ∅ /\ interest s' !! fd = None).
  { destruct s as [i o g r R w W]. cbn in Hrl. subst R. unfold table, table_rl, mbind, M_bind, get, id. cbn [lastrl file_closed set_interest]. destruct (decide (rl <> r)); cbn.
    all: unfold table_wl, mbind, M_bind, get, id; cbn; rewrite decide_False by tauto; cbn; rewrite ?modify_table_same; do 2 eexists; (split; [reflexivity|]); (split; [reflexivity|]); apply lookup_delete_eq. }
  destruct Ht as (m & s' & E & -> & Hfd). unfold select. erewrite M_bind_run by exact E. assert (order ∅ = []) as ->; [|cbn [for_each]].
  { apply Permutation_nil_r. rewrite Horder. by rewrite map_to_list_empty. }
  rewrite M_bind_unfold. cbn [mret M_ret]. unfold objects_with, mbind at 1 2 3 4 5 6, M_bind, get, lift. repeat destruct (mapM _ _); exact Hfd.
Qed.
End epoll.

(** Two sockets of one number, one after the other. *)
Definition two_sockets (o : nat) : Z := 5.
Definition one_socket (o : nat) : Z := Z.of_nat o + 4.
Definition first_call : epoll_select := snd (select two_sockets map_to_list [Obj 0] [] [] new_epoll_select).


Lemma reused_descriptor_deaf_witness : interest (snd (select two_sockets map_to_list [Obj 1] [] [] (file_closed 5 first_call))) !! 5 = None.
Proof. apply (reused_descriptor_deaf two_sockets map_to_list first_call [Obj 1] 5 []); [done|vm_compute; reflexivity|vm_compute; reflexivity]. Defined.
