(* ===== verification/IoWorker.v ===== *)
(** * Input and output workers ([pox/lib/ioworker/io_worker.py]) and the mock
    sockets that stand for their connections ([pox/lib/mock_socket.py])

    A worker has two buffers; the task [RecocoIOLoop] moves bytes between them and
    sockets, and runs the commands that other threads put into its queue.  A
    worker is a number; what [select] reports and what sockets give and take are
    arguments of an iteration; the [trace] has what clients and sockets did with
    the bytes, in order.  [on_data] is the handler of received data. *)

From S2P Require Import Prelude PyStruct.

(** ** Workers *)

Record io_worker := mk_io_worker { send_buf : bytes; receive_buf : bytes; w_socket : nat }.
Definition new_io_worker (socket : nat) : io_worker := mk_io_worker [] [] socket.

Inductive command := CmdAdd (w : nat) | CmdClose (w : nat).
Inductive io_event :=
  | Asked (w : nat) (data : bytes)      (* [send] *)
  | Took (w : nat) (data : bytes)       (* what the socket's [send] took *)
  | Got (w : nat) (data : bytes)        (* what the socket's [recv] gave *)
  | Consumed (w : nat) (data : bytes)   (* [consume_receive_buf] *)
  | SocketClosed (socket : nat).

(** [workers_of] are the objects, [registered] the loop's [_workers]. *)
Record io_loop := mk_io_loop {
  workers_of : gmap nat io_worker; registered : gset nat; pending_commands : list command; pings : Z; io_running : bool; trace : list io_event
}.
Definition new_io_loop : io_loop := mk_io_loop ∅ ∅ [] 0 false [].

Definition set_worker w x (s : io_loop) : io_loop := mk_io_loop (<[w := x]> (workers_of s)) (registered s) (pending_commands s) (pings s) (io_running s) (trace s).
Definition set_registered r (s : io_loop) : io_loop := mk_io_loop (workers_of s) r (pending_commands s) (pings s) (io_running s) (trace s).
Definition set_commands c (s : io_loop) : io_loop := mk_io_loop (workers_of s) (registered s) c (pings s) (io_running s) (trace s).
Definition set_pings p (s : io_loop) : io_loop := mk_io_loop (workers_of s) (registered s) (pending_commands s) p (io_running s) (trace s).
Definition set_running b (s : io_loop) : io_loop := mk_io_loop (workers_of s) (registered s) (pending_commands s) (pings s) b (trace s).
Definition note e (s : io_loop) : io_loop := mk_io_loop (workers_of s) (registered s) (pending_commands s) (pings s) (io_running s) (trace s ++ [e]).

Definition the_worker (w : nat) : M io_loop io_worker := x ← get (fun s => workers_of s !! w); lift (need AttributeError x).
Definition ping : M io_loop unit := modify (fun s => set_pings (pings s + 1) s).
Definition put_command (c : command) : M io_loop unit := modify (fun s => set_commands (pending_commands s ++ [c]) s).

(** [create_worker_for_socket], for a new object [w]. *)
Definition create_worker_for_socket (w socket : nat) : M io_loop unit :=
  _ ← modify (set_worker w (new_io_worker socket));
  _ ← put_command (CmdAdd w);
  ping.
(** [RecocoIOWorker.send]. *)
Definition io_send (w : nat) (data : bytes) : M io_loop unit :=
  x ← the_worker w;
  _ ← modify (fun s => note (Asked w data) (set_worker w (mk_io_worker (send_buf x ++ data) (receive_buf x) (w_socket x)) s));
  ping.
(** [RecocoIOWorker.close]. *)
Definition io_close (w : nat) : M io_loop unit := _ ← put_command (CmdClose w); ping.
Definition peek_receive_buf (w : nat) : M io_loop bytes := x ← the_worker w; mret (receive_buf x).
Definition consume_receive_buf (w : nat) (l : nat) : M io_loop unit :=
  x ← the_worker w;
  _ ← lift (guard_ok (l <=? length (receive_buf x))%nat AssertionError);
  modify (fun s => note (Consumed w (take l (receive_buf x))) (set_worker w (mk_io_worker (send_buf x) (drop l (receive_buf x)) (w_socket x)) s)).
Definition ready_to_send (x : io_worker) : bool := 0 <? blen (send_buf x).

(** ** The loop *)
Section loop.
Context (on_data : nat -> M io_loop unit).

(** [_push_receive_data], of data just received. *)
Definition push_receive_data (w : nat) (new_data : bytes) : M io_loop unit :=
  x ← the_worker w;
  _ ← modify (fun s => note (Got w new_data) (set_worker w (mk_io_worker (send_buf x) (receive_buf x ++ new_data) (w_socket x)) s));
  on_data w.
(** [_consume_send_buf], of data just taken. *)
Definition consume_send_buf (w : nat) (l : nat) : M io_loop unit :=
  x ← the_worker w;
  _ ← lift (guard_ok (l <=? length (send_buf x))%nat AssertionError);
  modify (fun s => note (Took w (take l (send_buf x))) (set_worker w (mk_io_worker (drop l (send_buf x)) (receive_buf x) (w_socket x)) s)).

Definition run_command (c : command) : M io_loop unit :=
  match c with
  | CmdAdd w => modify (fun s => set_registered ({[w]} ∪ registered s) s)
  | CmdClose w => x ← the_worker w; modify (fun s => note (SocketClosed (w_socket x)) (set_registered (registered s ∖ {[w]}) s))
  end.
(** A command leaves the queue before it runs; none puts another one there. *)
Fixpoint run_commands (l : list command) : M io_loop unit :=
  match l with [] => mret tt | c :: l => _ ← modify (set_commands l); _ ← run_command c; run_commands l end.

Definition drop_worker (w : nat) : M io_loop unit := _ ← io_close w; modify (fun s => set_registered (registered s ∖ {[w]}) s).
Definition EAGAIN : Z := 11.
(** What a call on a socket comes to: an error has a number. *)
Inductive socket_outcome (A : Type) := Did (a : A) | Failed (errno : Z).
#[global] Arguments Did {A} a.
#[global] Arguments Failed {A} errno.

Definition read_one (w : nat) (o : socket_outcome bytes) : M io_loop unit :=
  match o with
  | Failed _ => drop_worker w
  | Did data => fun s =>
      match push_receive_data w data s with
      | (Err (SocketError _), s) => drop_worker w s
      | r => r
      end
  end.
Definition write_one (w : nat) (o : socket_outcome nat) : M io_loop unit :=
  match o with
  | Did l => if (0 <? l)%nat then consume_send_buf w l else mret tt
  | Failed e => if negb (e =? EAGAIN) then drop_worker w else mret tt
  end.

(** An iteration: [pinged] tells whether the pinger is readable; [pongAll] reads
    1024 bytes. *)
Record report := mk_report { pinged : bool; errors : list nat; readable : list (nat * socket_outcome bytes); writable : list (nat * socket_outcome nat) }.
(** Other threads may act while the loop waits in [select]. *)
Definition before_select : M io_loop unit := cs ← get pending_commands; run_commands cs.
Definition after_select (r : report) : M io_loop unit :=
  _ ← (if pinged r then modify (fun s => set_pings (Z.max 0 (pings s - 1024)) s) else mret tt);
  _ ← for_each (errors r) drop_worker;
  _ ← for_each (readable r) (fun e => read_one e.1 e.2);
  for_each (writable r) (fun e => write_one e.1 e.2).
Definition iterate (r : report) : M io_loop unit := _ ← before_select; after_select r.
(** What is given to [select]: readers, writers. *)
Definition select_lists (s : io_loop) : gset nat * gset nat :=
  (registered s, filter (fun w => match workers_of s !! w with Some x => ready_to_send x | None => false end = true) (registered s)).
Definition io_stop : M io_loop unit := _ ← modify (set_running false); ping.
End loop.

(** ** No byte is lost or made up *)

Definition asked (w : nat) (e : io_event) : bytes := match e with Asked w' d => if decide (w' = w) then d else [] | _ => [] end.
Definition took (w : nat) (e : io_event) : bytes := match e with Took w' d => if decide (w' = w) then d else [] | _ => [] end.
Definition got (w : nat) (e : io_event) : bytes := match e with Got w' d => if decide (w' = w) then d else [] | _ => [] end.
Definition consumed (w : nat) (e : io_event) : bytes := match e with Consumed w' d => if decide (w' = w) then d else [] | _ => [] end.
Definition stream (f : nat -> io_event -> bytes) (w : nat) (l : list io_event) : bytes := concat (f w <$> l).

(** What a worker's socket took is the beginning of what its client sent, and the
    rest is in its buffer; and the same the other way. *)
Definition streams_ok (s : io_loop) : Prop := forall w,
  match workers_of s !! w with
  | Some x => stream asked w (trace s) = stream took w (trace s) ++ send_buf x /\ stream got w (trace s) = stream consumed w (trace s) ++ receive_buf x
  | None => stream asked w (trace s) = [] /\ stream took w (trace s) = [] /\ stream got w (trace s) = [] /\ stream consumed w (trace s) = []
  end.

Lemma stream_snoc f w l e : stream f w (l ++ [e]) = stream f w l ++ f w e.
Proof. unfold stream. rewrite fmap_app, concat_app. cbn. by rewrite app_nil_r. Qed.

(** A worker's buffers change together with what the trace says of it. *)
Lemma streams_change s w x x' e : streams_ok s -> workers_of s !! w = Some x ->
  (forall w', w' <> w -> asked w' e = [] /\ took w' e = [] /\ got w' e = [] /\ consumed w' e = []) ->
  send_buf x ++ asked w e = took w e ++ send_buf x' -> receive_buf x ++ got w e = consumed w e ++ receive_buf x' ->
  streams_ok (note e (set_worker w x' s)).
Proof.
  intros Hs Hx He H1 H2 w'. cbn [workers_of note set_worker trace]. rewrite !stream_snoc. specialize (Hs w'). destruct (decide (w = w')) as [<-|Hne].
  - rewrite lookup_insert_eq. rewrite Hx in Hs. destruct Hs as [-> ->]. rewrite <-!app_assoc, H1, H2. by rewrite !app_assoc.
  - rewrite lookup_insert_ne by done. destruct (He w' ltac:(done)) as (-> & -> & -> & ->). rewrite !app_nil_r. exact Hs.
Qed.

Lemma streams_worker (w : nat) (f : io_worker -> M io_loop unit) :
  (forall s x, streams_ok s -> workers_of s !! w = Some x -> streams_ok (snd (f x s))) -> preserves streams_ok (x ← the_worker w; f x).
Proof.
  intros Hf s Hs. unfold the_worker, mbind, M_bind, get, lift. destruct (workers_of s !! w) as [x|] eqn:E; [|exact Hs]. cbn [need]. exact (Hf s x Hs E).
Qed.
Lemma streams_modify f : (forall s, workers_of (f s) = workers_of s /\ trace (f s) = trace s) -> preserves streams_ok (modify f).
Proof. intros Hf. apply preserves_modify. intros s Hs w. destruct (Hf s) as [-> ->]. apply Hs. Qed.
#[local] Hint Extern 3 (preserves streams_ok (modify _)) => apply streams_modify; intros ?; split; reflexivity : keeps.

Lemma streams_ping : preserves streams_ok ping.
Proof. unfold ping. keep. Qed.
Lemma streams_put c : preserves streams_ok (put_command c).
Proof. unfold put_command. keep. Qed.
#[local] Hint Resolve streams_ping streams_put : keeps.
Lemma streams_close w : preserves streams_ok (io_close w).
Proof. unfold io_close. keep. Qed.
#[local] Hint Resolve streams_close : keeps.
Lemma streams_drop_worker w : preserves streams_ok (drop_worker w).
Proof. unfold drop_worker. keep. Qed.
#[local] Hint Resolve streams_drop_worker : keeps.

(** The trace of one worker only. *)
Ltac others := let w' := fresh in let H := fresh in intros w' H; cbn; rewrite ?decide_False by congruence; done.
Lemma streams_send w d : preserves streams_ok (io_send w d).
Proof.
  unfold io_send. apply streams_worker. intros s x Hs Hx. rewrite M_bind_unfold. cbn [modify]. apply streams_ping.
  apply (streams_change s w x); [done|done|others|cbn; by rewrite decide_True|cbn; by rewrite app_nil_r].
Qed.
Lemma streams_consume w l : preserves streams_ok (consume_receive_buf w l).
Proof.
  unfold consume_receive_buf. apply streams_worker. intros s x Hs Hx. destruct (l <=? length (receive_buf x))%nat; [|exact Hs]. cbn [guard_ok]. rewrite M_bind_lift_Ok. cbn [modify snd].
  apply (streams_change s w x); [done|done|others|cbn; by rewrite app_nil_r|cbn; by rewrite decide_True, app_nil_r, take_drop].
Qed.
Lemma streams_consume_send w l : preserves streams_ok (consume_send_buf w l).
Proof.
  unfold consume_send_buf. apply streams_worker. intros s x Hs Hx. destruct (l <=? length (send_buf x))%nat; [|exact Hs]. cbn [guard_ok]. rewrite M_bind_lift_Ok. cbn [modify snd].
  apply (streams_change s w x); [done|done|others|cbn; by rewrite decide_True, app_nil_r, take_drop|cbn; by rewrite app_nil_r].
Qed.
Lemma streams_create w k s : streams_ok s -> workers_of s !! w = None -> streams_ok (snd (create_worker_for_socket w k s)).
Proof.
  intros Hs Hw. assert (H1 : streams_ok (set_worker w (new_io_worker k) s)).
  { intros w'. cbn [workers_of set_worker trace]. specialize (Hs w'). destruct (decide (w = w')) as [<-|]; [|by rewrite lookup_insert_ne]. rewrite lookup_insert_eq, Hw in *.
    destruct Hs as (-> & -> & -> & ->). done. }
  unfold create_worker_for_socket. rewrite M_bind_unfold. cbn [modify]. assert (Hp : preserves streams_ok (_ ← put_command (CmdAdd w); ping)) by keep. by apply Hp.
Qed.

Section loop_streams.
Context (on_data : nat -> M io_loop unit) (Hdata : forall w, preserves streams_ok (on_data w)).

Lemma streams_push w d : preserves streams_ok (push_receive_data on_data w d).
Proof.
  unfold push_receive_data. apply streams_worker. intros s x Hs Hx. rewrite M_bind_unfold. cbn [modify]. apply Hdata.
  apply (streams_change s w x); [done|done|others|cbn; by rewrite app_nil_r|cbn; by rewrite decide_True].
Qed.
Lemma streams_command c : preserves streams_ok (run_command c).
Proof.
  destruct c as [w|w]; cbn [run_command]; [keep|]. apply streams_worker. intros s x Hs Hx. cbn [modify snd]. intros w'. specialize (Hs w').
  cbn [workers_of note set_registered trace]. rewrite !stream_snoc. cbn. rewrite !app_nil_r. exact Hs.
Qed.
Lemma streams_before : preserves streams_ok before_select.
Proof.
  assert (Hc : forall l, preserves streams_ok (run_commands l)).
  { induction l as [|c l IH]; cbn [run_commands]; [keep|]. pose proof (streams_command c). keep. }
  unfold before_select. keep.
Qed.
Lemma streams_after r : preserves streams_ok (after_select on_data r).
Proof.
  assert (Hr : forall w o, preserves streams_ok (read_one on_data w o)).
  { intros w [d|e]; cbn [read_one]; [|keep]. intros s Hs. pose proof (streams_push w d s Hs) as H. destruct (push_receive_data on_data w d s) as [[[]|[]] s']; exact H. }
  assert (Hw : forall w o, preserves streams_ok (write_one w o)).
  { intros w [l|e]; cbn [write_one]; [|keep]. pose proof (streams_consume_send w l). keep. }
  unfold after_select. keep.
Qed.
End loop_streams.

(** What happens to a loop and its workers: a new object has a new number. *)
Inductive io_step (on_data : nat -> M io_loop unit) : io_loop -> io_loop -> Prop :=
  | StepCreate w k s : workers_of s !! w = None -> io_step on_data s (snd (create_worker_for_socket w k s))
  | StepSend w d s : io_step on_data s (snd (io_send w d s))
  | StepConsume w l s : io_step on_data s (snd (consume_receive_buf w l s))
  | StepClose w s : io_step on_data s (snd (io_close w s))
  | StepBefore s : io_step on_data s (snd (before_select s))
  | StepAfter r s : io_step on_data s (snd (after_select on_data r s)).


(** A socket whose other end is closed gives nothing for ever: the worker stays
    with the loop, its handler is called, and nothing else happens. *)
Theorem eof_keeps_worker (on_data : nat -> M io_loop unit) (w : nat) (x : io_worker) (s : io_loop) :
  workers_of s !! w = Some x -> w ∈ registered s -> pending_commands s = [] ->
  (forall w s, on_data w s = (Ok tt, s)) ->
  exists s', iterate on_data (mk_report false [] [(w, Did [])] []) s = (Ok tt, s') /\ w ∈ registered s' /\ pending_commands s' = [] /\ workers_of s' !! w = Some x /\
    trace s' = trace s ++ [Got w []].
Proof.
  intros Hx Hw Hc Hdata. unfold iterate, before_select. rewrite M_bind_unfold, M_bind_unfold. unfold get at 1. rewrite Hc. cbn [run_commands]. unfold mret at 1, M_ret at 1. unfold after_select. cbn [pinged].
  rewrite M_bind_unfold. unfold mret at 1, M_ret at 1. cbn [errors for_each]. rewrite M_bind_unfold. unfold mret at 1, M_ret at 1. rewrite M_bind_unfold. cbn [readable for_each fst snd]. rewrite M_bind_unfold.
  cbn [read_one]. unfold push_receive_data, the_worker, mbind, M_bind, get, lift. rewrite Hx. cbn [need modify]. rewrite Hdata.
  eexists. split; [reflexivity|]. split; [exact Hw|]. split; [exact Hc|]. split; [|done]. cbn. rewrite lookup_insert_eq. rewrite app_nil_r. by destruct x.
Qed.

Definition a_request : bytes := str "hi".
Definition an_on_data (w : nat) : M io_loop unit := mret tt.
(** A worker is made, sends, receives, and its client takes a byte. *)
Definition a_loop : io_loop :=
  snd ((_ ← create_worker_for_socket 1 7; _ ← io_send 1 a_request; _ ← iterate an_on_data (mk_report true [] [(1%nat, Did a_request)] [(1%nat, Did 1%nat)]); consume_receive_buf 1 1) new_io_loop).


Lemma eof_keeps_worker_witness : exists s', iterate an_on_data (mk_report false [] [(1%nat, Did [])] []) a_loop = (Ok tt, s') /\ 1%nat ∈ registered s' /\ pending_commands s' = [] /\
  workers_of s' !! 1%nat = Some (mk_io_worker (drop 1 a_request) (drop 1 a_request) 7) /\ trace s' = trace a_loop ++ [Got 1 []].
Proof. apply (eof_keeps_worker an_on_data 1 (mk_io_worker (drop 1 a_request) (drop 1 a_request) 7) a_loop); [reflexivity|reflexivity|reflexivity|reflexivity]. Defined.

(** * Mock sockets: a message channel

    A channel is a buffer and a handler that is told of data; the handler may
    read and may send, and a handler that runs is not called again. *)
Record channel := mk_channel { buffer : bytes; on_data_running : bool; pending_on_datas : Z }.
Definition new_channel : channel := mk_channel [] false 0.
Definition set_channel_buffer b (c : channel) : channel := mk_channel b (on_data_running c) (pending_on_datas c).
Definition set_on_data_running r (c : channel) : channel := mk_channel (buffer c) r (pending_on_datas c).
Definition add_pending n (c : channel) : channel := mk_channel (buffer c) (on_data_running c) (pending_on_datas c + n).

(** [recv]; [max_size] of [None] and of 0 are no limit. *)
Definition recv (max_size : option nat) : M channel bytes :=
  b ← get buffer;
  match max_size with
  | Some n => if (0 <? n)%nat && (n <? length b)%nat then _ ← modify (set_channel_buffer (drop n b)); mret (take n b) else _ ← modify (set_channel_buffer []); mret b
  | None => _ ← modify (set_channel_buffer []); mret b
  end.
Definition is_empty (c : channel) : bool := match buffer c with [] => true | _ => false end.
Definition is_full (c : channel) : bool := false.

Section channel.
Context (on_data : option (Z -> M channel unit)).

(** The loop of [_trigger_on_data]: [None] when it has not ended within [fuel]
    turns.  An exception of the handler leaves it marked as running. *)
Fixpoint on_datas (fuel : nat) (c : channel) : option ((unit + exn) * channel) :=
  if (0 <? pending_on_datas c) && negb (is_empty c) then
    match fuel with
    | O => None
    | S fuel =>
        let c := add_pending (-1) c in
        match on_data with
        | None => Some (inl tt, c)
        | Some f =>
            match f (blen (buffer c)) (set_on_data_running true c) with
            | (Ok _, c) => on_datas fuel (set_on_data_running false c)
            | (Err e, c) => Some (inr e, c)
            end
        end
    end
  else Some (inl tt, c).
Definition trigger_on_data (fuel : nat) (c : channel) : option ((unit + exn) * channel) :=
  let c := add_pending 1 c in if on_data_running c then Some (inl tt, c) else on_datas fuel c.
Definition channel_send (fuel : nat) (msg : bytes) (c : channel) : option ((Z + exn) * channel) :=
  match trigger_on_data fuel (set_channel_buffer (buffer c ++ msg) c) with
  | Some (inl _, c) => Some (inl (blen msg), c)
  | Some (inr e, c) => Some (inr e, c)
  | None => None
  end.

(** A handler that does not send: the loop ends, whatever it reads. *)
Definition only_reads (f : Z -> M channel unit) : Prop := forall n c, pending_on_datas (snd (f n c)) = pending_on_datas c.

Lemma on_datas_end fuel c : (forall f, on_data = Some f -> only_reads f) -> (Z.to_nat (pending_on_datas c) <= fuel)%nat -> is_Some (on_datas fuel c).
Proof.
  intros Hf. revert c. induction fuel as [|fuel IH]; intros c Hc; cbn [on_datas]; (destruct (Z.ltb_spec 0 (pending_on_datas c)) as [H|H]; [cbn [andb]|by eexists]); [lia|].
  destruct (negb (is_empty c)); [|by eexists]. destruct on_data as [f|] eqn:E; [|by eexists]. specialize (Hf f eq_refl (blen (buffer (add_pending (-1) c))) (set_on_data_running true (add_pending (-1) c))).
  destruct (f _ _) as [[[]|e] c'] eqn:Ef; [|by eexists]. apply IH. cbn [snd] in Hf. cbn in *. lia.
Qed.
End channel.

(** With a handler that only reads, every message is sent: [send] returns, or
    raises what the handler raised. *)
Theorem send_ends (f : Z -> M channel unit) (msg : bytes) (c : channel) :
  only_reads f -> is_Some (channel_send (Some f) (Z.to_nat (pending_on_datas c + 1)) msg c).
Proof.
  intros Hf. unfold channel_send, trigger_on_data. set (c' := add_pending 1 _). destruct (on_data_running c'); [by eexists|].
  destruct (on_datas_end (Some f) (Z.to_nat (pending_on_datas c + 1)) c') as [[[[]|e] c''] ->]; [by intros ? [= <-]|done|by eexists|by eexists].
Qed.

Definition read_all (n : Z) : M channel unit := _ ← recv None; mret tt.
Lemma send_ends_witness : is_Some (channel_send (Some read_all) 1 a_request new_channel).
Proof. apply (send_ends read_all a_request new_channel). intros n c. reflexivity. Defined.

(** Sends into a channel, one after the other; the first exception ends them. *)
Fixpoint sends (on_data : option (Z -> M channel unit)) (fuel : nat) (msgs : list bytes) (c : channel) : option ((unit + exn) * channel) :=
  match msgs with
  | [] => Some (inl tt, c)
  | m :: msgs => match channel_send on_data fuel m c with Some (inl _, c) => sends on_data fuel msgs c | Some (inr e, c) => Some (inr e, c) | None => None end
  end.

Lemma send_running on_data fuel msg c : on_data_running c = true -> channel_send on_data fuel msg c = Some (inl (blen msg), mk_channel (buffer c ++ msg) true (pending_on_datas c + 1)).
Proof. destruct c as [b r p]. cbn [on_data_running]. intros ->. reflexivity. Qed.
Lemma sends_running on_data fuel msgs c : on_data_running c = true ->
  sends on_data fuel msgs c = Some (inl tt, mk_channel (buffer c ++ concat msgs) true (pending_on_datas c + Z.of_nat (length msgs))).
Proof.
  revert c. induction msgs as [|m msgs IH]; intros [b r p]; cbn [on_data_running]; intros ->; cbn [sends].
  - cbn. by rewrite app_nil_r, Z.add_0_r.
  - rewrite send_running by done. rewrite IH by done. cbn [buffer pending_on_datas concat length]. rewrite <-app_assoc. do 3 f_equal. lia.
Qed.
Lemma on_datas_raised f fuel c e c' : (forall n c, on_data_running (snd (f n c)) = on_data_running c) -> on_datas (Some f) fuel c = Some (inr e, c') -> on_data_running c' = true.
Proof.
  intros Hf. revert c. induction fuel as [|fuel IH]; intros c; cbn [on_datas]; (destruct (_ && _); [|by intros [=]]); [by intros [=]|].
  specialize (Hf (blen (buffer (add_pending (-1) c))) (set_on_data_running true (add_pending (-1) c))). destruct (f _ _) as [[[]|e'] c1]; [by apply IH|]. by intros [= -> ->].
Qed.

(** When the handler raises, the channel never calls it again: later sends
    succeed, and their bytes pile up in the buffer. *)
Theorem raised_channel_is_silent (f : Z -> M channel unit) (fuel : nat) (msg : bytes) (c c' : channel) (e : exn) (msgs : list bytes) :
  (forall n c, on_data_running (snd (f n c)) = on_data_running c) -> channel_send (Some f) fuel msg c = Some (inr e, c') ->
  sends (Some f) fuel msgs c' = Some (inl tt, mk_channel (buffer c' ++ concat msgs) true (pending_on_datas c' + Z.of_nat (length msgs))).
Proof.
  intros Hf H. apply sends_running. unfold channel_send, trigger_on_data in H. destruct (on_data_running _); [done|].
  destruct (on_datas _ _ _) as [[[[]|e'] c1]|] eqn:E; simplify_eq. by eapply on_datas_raised.
Qed.

Definition raises (n : Z) : M channel unit := fun c => (Err ValueError, c).
Lemma raised_channel_is_silent_witness :
  sends (Some raises) 5 [a_request; a_request] (mk_channel a_request true 0) = Some (inl tt, mk_channel (a_request ++ concat [a_request; a_request]) true 2).
Proof. apply (raised_channel_is_silent raises 5 a_request new_channel (mk_channel a_request true 0) ValueError [a_request; a_request]); [done|reflexivity]. Defined.

(** Ends of a channel that use it in any order; [transfer] collects what is read. *)
Inductive use := Put (msg : bytes) | Take_ (max_size : option nat).
Fixpoint transfer (l : list use) (c : channel) : option (bytes * channel) :=
  match l with
  | [] => Some ([], c)
  | Put m :: l => match channel_send None 1 m c with Some (_, c) => transfer l c | None => None end
  | Take_ n :: l =>
      match recv n c with
      | (Ok b, c) => match transfer l c with Some (bs, c) => Some (b ++ bs, c) | None => None end
      | (Err _, _) => None
      end
  end.
Definition put_bytes (u : use) : bytes := match u with Put m => m | Take_ _ => [] end.

Lemma recv_split n c : exists b c', recv n c = (Ok b, c') /\ buffer c = b ++ buffer c' /\ on_data_running c' = on_data_running c /\ pending_on_datas c' = pending_on_datas c.
Proof.
  destruct n as [n|]; [|do 2 eexists; split; [reflexivity|]; cbn; by rewrite app_nil_r]. unfold recv. unfold mbind at 1, M_bind at 1, get at 1. cbv beta iota.
  destruct (_ && _); do 2 eexists; (split; [reflexivity|]); cbn; [by rewrite take_drop|by rewrite app_nil_r].
Qed.
Lemma send_no_handler m c : on_data_running c = false -> exists p, channel_send None 1 m c = Some (inl (blen m), mk_channel (buffer c ++ m) false p).
Proof. destruct c as [b r p]. cbn. intros ->. unfold channel_send, trigger_on_data. cbn. destruct (_ && _); cbn; by eexists. Qed.

(** A channel is a reliable stream of bytes: whatever the pieces it is written
    and read in, what was read and what is left is what was written, in order. *)
Theorem channel_in_order (l : list use) (c : channel) : on_data_running c = false ->
  exists got c', transfer l c = Some (got, c') /\ buffer c ++ concat (put_bytes <$> l) = got ++ buffer c'.
Proof.
  revert c. induction l as [|[m|n] l IH]; intros c Hc; cbn [transfer fmap list_fmap put_bytes concat].
  - do 2 eexists. split; [reflexivity|]. apply app_nil_r.
  - destruct (send_no_handler m c Hc) as [p ->]. destruct (IH (mk_channel (buffer c ++ m) false p)) as (got & c' & -> & E); [done|]. do 2 eexists. split; [reflexivity|]. cbn [buffer] in E. by rewrite app_assoc.
  - destruct (recv_split n c) as (b & c1 & -> & Hb & Hr & _). destruct (IH c1) as (got & c' & -> & E); [by rewrite Hr|]. do 2 eexists. split; [reflexivity|].
    rewrite Hb, <-!app_assoc. f_equal. exact E.
Qed.
Lemma channel_in_order_witness : exists got c', transfer [Put a_request; Take_ (Some 1%nat); Put a_request; Take_ None] new_channel = Some (got, c') /\
  buffer new_channel ++ concat (put_bytes <$> [Put a_request; Take_ (Some 1%nat); Put a_request; Take_ None]) = got ++ buffer c'.
Proof. apply channel_in_order. reflexivity. Defined.
