(* ===== verification/Core.v ===== *)
(** * The core object ([POXCore] of [pox/core.py])

    Components registered by name, and a component that waits for others
    ([listenToDependencies]); going up and down.  A component is a number, the
    identity of the object.  [world] has the core and one component that waits,
    which listens to the core until its dependencies are there, as
    [OpenFlowTopology] does.  Logging, version texts and the calls handed to the
    scheduler's thread are left out. *)

From S2P Require Import Prelude.

Inductive core_event := GoingUpEvent | UpEvent | GoingDownEvent | DownEvent | ComponentRegistered (name : bytes) (component : nat).

(** What a component that waits has: the names it still wants, its attributes,
    and what it listens to, in order. *)
Record sink := mk_sink { wanted : gset bytes; attributes : gmap bytes (option nat); listens : list (bytes * nat) }.

Record core := mk_core { core_running : bool; components : gmap bytes nat; core_events : list core_event }.
Definition new_core : core := mk_core true ∅ [].

Definition hasComponent (name : bytes) (c : core) : bool := bool_decide (is_Some (components c !! name)).
(** [__getattr__]. *)
Definition core_getattr (name : bytes) (c : core) : result nat := need AttributeError (components c !! name).

Section core.
(** Iteration over a set. *)
Context (elements_of : gset bytes -> list bytes).

(** One name of [listenToDependencies]; the result is whether it is there. *)
Definition depend_on (c : core) (s : sink) (name : bytes) : sink :=
  match components c !! name with
  | Some o => mk_sink (wanted s) (<[name := Some o]> (attributes s)) (listens s ++ [(name, o)])
  | None => mk_sink (wanted s) (<[name := None]> (attributes s)) (listens s)
  end.
Definition listenToDependencies (c : core) (s : sink) : bool * sink :=
  if bool_decide (wanted s = ∅) then (true, s) else
  let s := foldl (depend_on c) s (elements_of (wanted s)) in
  let left := filter (fun n => components c !! n = None) (wanted s) in
  (bool_decide (left = ∅), mk_sink left (attributes s) (listens s)).

(** [waiting]: the component has a handler for [ComponentRegistered]. *)
Record world := mk_world { the_core : core; the_sink : sink; waiting : bool }.

Definition raise_core (e : core_event) (c : core) : core := mk_core (core_running c) (components c) (core_events c ++ [e]).

(** The component is made. *)
Definition boot (w : world) : world :=
  let '(ready, s) := listenToDependencies (the_core w) (the_sink w) in mk_world (the_core w) s (negb ready).
(** [register], with the handler of the component that waits. *)
Definition register (name : bytes) (component : nat) (w : world) : world :=
  let c := the_core w in
  let c := raise_core (ComponentRegistered name component) (mk_core (core_running c) (<[name := component]> (components c)) (core_events c)) in
  if waiting w then
    let '(ready, s) := listenToDependencies c (the_sink w) in mk_world c s (negb ready)
  else mk_world c (the_sink w) false.
(** [registerNew]: the name of the class, or the object's [_core_name]. *)
Definition registerNew (class_name : bytes) (core_name : option bytes) (component : nat) (w : world) : world :=
  register (default class_name core_name) component w.
End core.

Definition goUp (c : core) : core := raise_core UpEvent (raise_core GoingUpEvent c).
Definition quit (c : core) : core :=
  if core_running c then raise_core DownEvent (raise_core GoingDownEvent (mk_core false (components c) (core_events c))) else c.

(** ** The component gets what it wants *)
Section properties.
Context (elements_of : gset bytes -> list bytes) (Helements : forall X, elements_of X ≡ₚ elements X).

Definition listens_to (c : core) (l : list bytes) : list (bytes * nat) :=
  omap (fun n => (fun o => (n, o)) <$> components c !! n) l.

Lemma depend_on_all c l : forall s, listens (foldl (depend_on c) s l) = listens s ++ listens_to c l /\ wanted (foldl (depend_on c) s l) = wanted s /\
  (forall n, n ∉ l -> attributes (foldl (depend_on c) s l) !! n = attributes s !! n) /\
  (forall n, n ∈ l -> NoDup l -> attributes (foldl (depend_on c) s l) !! n = Some (components c !! n)).
Proof.
  induction l as [|n l IH]; intros s; cbn [foldl]. { split; [by rewrite app_nil_r|]. split; [done|]. split; [done|]. intros n Hn. by apply elem_of_nil in Hn. }
  destruct (IH (depend_on c s n)) as (H1 & H2 & H3 & H4). rewrite H1, H2. unfold listens_to. cbn [omap list_omap].
  assert (Ha : forall m, m <> n -> attributes (depend_on c s n) !! m = attributes s !! m) by (intros m Hm; unfold depend_on; destruct (components c !! n); cbn; by rewrite lookup_insert_ne).
  assert (Hn : attributes (depend_on c s n) !! n = Some (components c !! n)) by (unfold depend_on; destruct (components c !! n); cbn; by rewrite lookup_insert_eq).
  split; [unfold depend_on; destruct (components c !! n) as [o|]; cbn; [by rewrite <-app_assoc|done]|]. split; [unfold depend_on; by destruct (components c !! n)|]. split.
  - intros m [Hm Hm']%not_elem_of_cons. rewrite H3 by done. by apply Ha.
  - intros m Hm [Hn1 Hn2]%NoDup_cons. destruct (decide (m = n)) as [->|Hne]; [by rewrite H3|]. apply elem_of_cons in Hm as [?|Hm]; [done|]. by apply H4.
Qed.

(** The component, once made, wants what is not there, listens once to what is,
    and waits as long as it wants something. *)
Definition settled (W : gset bytes) (w : world) : Prop :=
  let cs := components (the_core w) in
  wanted (the_sink w) = filter (fun n => cs !! n = None) W /\
  NoDup (listens (the_sink w)).*1 /\ (forall n, n ∈ (listens (the_sink w)).*1 <-> n ∈ W /\ is_Some (cs !! n)) /\
  waiting w = negb (bool_decide (wanted (the_sink w) = ∅)) /\
  (forall n o, (n, o) ∈ listens (the_sink w) -> attributes (the_sink w) !! n = Some (Some o)) /\
  (forall n, n ∈ wanted (the_sink w) -> attributes (the_sink w) !! n = Some None).

Lemma listens_to_names c l : (listens_to c l).*1 = filter (fun n => is_Some (components c !! n)) l.
Proof.
  unfold listens_to. induction l as [|n l IH]; [done|]. rewrite filter_cons, <-IH. cbn [omap list_omap].
  destruct (components c !! n) as [o|]; [rewrite decide_True by done|rewrite decide_False by (by intros [? ?])]; done.
Qed.

Lemma filter_nothing (P : bytes -> Prop) `{!forall n, Decision (P n)} (X : gset bytes) : (forall n, n ∈ X -> ~ P n) -> filter P X = ∅.
Proof. intros HP. apply set_eq. intros n. rewrite elem_of_filter. set_solver. Qed.

Lemma listen_settles c s W : (forall n, n ∈ W -> (n ∈ wanted s) \/ n ∈ (listens s).*1) -> wanted s ⊆ W ->
  NoDup (listens s).*1 -> (forall n, n ∈ (listens s).*1 -> n ∈ W /\ (n ∉ wanted s) /\ is_Some (components c !! n)) ->
  (forall n o, (n, o) ∈ listens s -> attributes s !! n = Some (Some o)) ->
  let '(ready, s') := listenToDependencies elements_of c s in settled W (mk_world c s' (negb ready)).
Proof.
  intros Hw Hsub Hnd Hl Hattr. unfold listenToDependencies. destruct (bool_decide_reflect (wanted s = ∅)) as [He|Hne].
  - unfold settled. cbn [the_core the_sink waiting]. rewrite He, bool_decide_eq_true_2 by done. split; [|split; [done|split; [|split; [done|split; [done|set_solver]]]]].
    + symmetry. apply filter_nothing. intros n Hn E. destruct (Hw n Hn) as [H|H]; [by rewrite He in H; apply not_elem_of_empty in H|]. destruct (Hl n H) as (_ & _ & [o Eo]). congruence.
    + intros n. split; [intros H; destruct (Hl n H) as (? & _ & ?); done|]. intros [Hn _]. destruct (Hw n Hn) as [H|H]; [by rewrite He in H; apply not_elem_of_empty in H|done].
  - destruct (depend_on_all c (elements_of (wanted s)) s) as (H1 & H2 & H3 & H4). unfold settled. cbn [the_core the_sink waiting wanted listens attributes]. rewrite H1, H2, fmap_app, listens_to_names.
    assert (Hin : forall n, n ∈ elements_of (wanted s) <-> n ∈ wanted s) by (intros n; rewrite (Helements (wanted s)); apply elem_of_elements).
    assert (Hnd' : NoDup (elements_of (wanted s))) by (rewrite (Helements (wanted s)); apply NoDup_elements).
    split; [|split; [|split; [|split; [done|split]]]].
    + apply set_eq. intros n. rewrite !elem_of_filter. split; [intros [E Hn]; split; [done|]; by apply Hsub|]. intros [E Hn]. split; [done|]. destruct (Hw n Hn) as [H|H]; [done|]. destruct (Hl n H) as (_ & _ & [o Eo]). congruence.
    + apply NoDup_app. split; [done|]. split; [intros n H1' [_ H2']%list_elem_of_filter; apply Hin in H2'; by destruct (Hl n H1') as (_ & ? & _)|].
      by apply NoDup_filter.
    + intros n. rewrite elem_of_app, list_elem_of_filter, Hin. split; [intros [H|[Hs Hn]]; [destruct (Hl n H) as (? & _ & ?); done|split; [by apply Hsub|done]]|].
      intros [Hn Hs]. destruct (Hw n Hn) as [H|H]; [by right|by left].
    + intros n o. rewrite elem_of_app. intros [H|H].
      * rewrite H3; [by apply Hattr|]. intros Hn%Hin. by destruct (Hl n (list_elem_of_fmap_2 fst _ _ H)) as (_ & ? & _).
      * apply list_elem_of_omap in H as (m & Hm & E). destruct (components c !! m) as [o'|] eqn:E'; [|done]. injection E as -> ->. by rewrite H4, E'.
    + intros n [E Hn]%elem_of_filter. rewrite H4, E by (done || by apply Hin). done.
Qed.

Lemma register_settled W name o w : settled W w -> settled W (register elements_of name o w).
Proof.
  intros (H1 & H2 & H3 & H4 & H5 & H6). unfold register. destruct (waiting w) eqn:Ew.
  - match goal with |- context [listenToDependencies _ ?c ?s] => pose proof (listen_settles c s W) as HL; destruct (listenToDependencies elements_of c s) as [ready s'] end.
    apply HL; clear HL.
    + intros n Hn. destruct (components (the_core w) !! n) eqn:E; [right; apply H3; by rewrite E|left]. rewrite H1. by apply elem_of_filter.
    + rewrite H1. intros n. rewrite elem_of_filter. by intros [_ ?].
    + done.
    + intros n Hn%H3. destruct Hn as [Hn Hs]. split; [done|]. split; [rewrite H1, elem_of_filter; intros [E _]; rewrite E in Hs; by destruct Hs|].
      cbn. destruct (decide (name = n)) as [->|]; [by rewrite lookup_insert_eq|by rewrite lookup_insert_ne].
    + done.
  - symmetry in H4. apply negb_false_iff in H4. rewrite bool_decide_eq_true in H4. unfold settled. cbn [the_core the_sink waiting raise_core components].
    assert (Hall : forall n, n ∈ W -> is_Some (components (the_core w) !! n)).
    { intros n Hn. destruct (components (the_core w) !! n) eqn:E; [done|]. assert (n ∈ wanted (the_sink w)) as H by (rewrite H1; by apply elem_of_filter). rewrite H4 in H. by apply not_elem_of_empty in H. }
    assert (Hsome : forall n, is_Some (components (the_core w) !! n) -> is_Some (<[name:=o]> (components (the_core w)) !! n)).
    { intros n Hn. destruct (decide (name = n)) as [->|]; [by rewrite lookup_insert_eq|by rewrite lookup_insert_ne]. }
    rewrite H4, bool_decide_eq_true_2 by done. split; [|split; [done|split; [|split; [done|split; [done|set_solver]]]]].
    + symmetry. apply filter_nothing. intros n Hn E. destruct (Hsome n (Hall n Hn)) as [? E']. congruence.
    + intros n. rewrite H3. split; [intros [? ?]; auto|]. intros [Hn _]. auto.
Qed.

Lemma boot_settled W c : settled W (boot elements_of (mk_world c (mk_sink W ∅ []) false)).
Proof.
  unfold boot. cbn [the_core the_sink]. match goal with |- context [listenToDependencies _ ?c ?s] => pose proof (listen_settles c s W) as HL; destruct (listenToDependencies elements_of c s) as [ready s'] end.
  apply HL; clear HL; cbn; [by left|done|constructor|set_solver|set_solver].
Qed.

(** Whatever is registered before and after a component is made, and in
    whatever order, the component stops waiting exactly when all it depends on is
    there; it listens once to each dependency that is, and has it as an
    attribute, and [None] for the others. *)
Theorem dependencies_found (W : gset bytes) (c : core) (registrations : list (bytes * nat)) :
  let w := foldl (fun w '(name, o) => register elements_of name o w) (boot elements_of (mk_world c (mk_sink W ∅ []) false)) registrations in
  (waiting w = false <-> forall n, n ∈ W -> hasComponent n (the_core w) = true) /\ NoDup (listens (the_sink w)).*1 /\
  forall n, n ∈ W -> if hasComponent n (the_core w) then exists o, (n, o) ∈ listens (the_sink w) /\ attributes (the_sink w) !! n = Some (Some o)
    else n ∉ (listens (the_sink w)).*1 /\ attributes (the_sink w) !! n = Some None.
Proof.
  intros w. assert (Hs : settled W w).
  { subst w. pose proof (boot_settled W c) as H. revert H. generalize (boot elements_of (mk_world c (mk_sink W ∅ []) false)). induction registrations as [|[name o] l IH]; intros w H; [done|].
    cbn [foldl]. by apply IH, register_settled. }
  destruct Hs as (H1 & H2 & H3 & H4 & H5 & H6). unfold hasComponent. split; [|split; [done|]].
  - rewrite H4, negb_false_iff, bool_decide_eq_true, H1. split.
    + intros He n Hn. apply bool_decide_eq_true. destruct (components (the_core w) !! n) eqn:E; [done|]. assert (n ∈ (∅ : gset bytes)) by (rewrite <-He; by apply elem_of_filter). set_solver.
    + intros H. apply filter_nothing. intros n Hn E. apply H in Hn. rewrite bool_decide_eq_true, E in Hn. by destruct Hn.
  - intros n Hn. destruct (bool_decide_reflect (is_Some (components (the_core w) !! n))) as [Hc|Hc].
    + assert (Hl : n ∈ (listens (the_sink w)).*1) by by apply H3. apply list_elem_of_fmap in Hl as ([m o] & -> & Hl). exists o. split; [done|]. by apply H5.
    + split; [by intros [_ ?]%H3|]. apply H6. rewrite H1. apply elem_of_filter. split; [|done]. by apply eq_None_not_Some.
Qed.
End properties.

Lemma dependencies_found_witness :
  let w := foldl (fun w '(name, o) => register elements name o w) (boot elements (mk_world new_core (mk_sink {[str "openflow"; str "topology"]} ∅ []) false))
    [(str "topology", 1); (str "other", 2); (str "openflow", 3); (str "topology", 4)]%nat in
  waiting w = false /\ NoDup (listens (the_sink w)).*1.
Proof.
  intros w. destruct (dependencies_found elements (fun X => reflexivity _) {[str "openflow"; str "topology"]} new_core
    [(str "topology", 1); (str "other", 2); (str "openflow", 3); (str "topology", 4)]%nat) as (H1 & H2 & _).
  split; [by vm_compute|exact H2].
Defined.
