(* ===== verification/Vns.v ===== *)
(** * The VNS protocol ([pox_module/CSE425/VNSProtocol.py]) and the framing it uses
    ([ltprotocol/ltprotocol/ltprotocol.py], both beside [pox])

    A message on the wire is a length, a type and a body.  [LTProtocol] packs
    messages and finds them in what a connection receives; the VNS messages are
    between a virtual router and the controller.  Twisted's transports are
    outside; the address functions of [socket] are arguments. *)

From S2P Require Import Prelude PyStruct.

(** ** Messages *)

(** [if_mac], [if_ip] and [if_mask] are raw bytes. *)
Record VNSInterface := mk_VNSInterface { if_name : bytes; if_mac : bytes; if_ip : bytes; if_mask : bytes }.
Definition new_VNSInterface (name mac ip mask : bytes) : result VNSInterface :=
  _ ← guard_ok (blen mac =? 6) VNSProtocolException;
  _ ← guard_ok (blen ip =? 4) VNSProtocolException;
  _ ← guard_ok (blen mask =? 4) VNSProtocolException;
  mret (mk_VNSInterface name mac ip mask).

Definition HWINTERFACE : Z := 1.
Definition HWSPEED : Z := 2.
Definition HWSUBNET : Z := 4.
Definition HWETHER : Z := 32.
Definition HWETHIP : Z := 64.
Definition HWMASK : Z := 128.
Definition interface_fmt : list code := [cL; cs 32; cL; cL; cs 28; cL; cs 32; cL; cs 4; cs 28; cL; cL; cs 28; cL; cs 4; cs 28].
Definition interface_pack (i : VNSInterface) : result bytes :=
  pack interface_fmt (HWINTERFACE, (if_name i, (HWSPEED, (0, ([], (HWETHER, (if_mac i, (HWETHIP, (if_ip i, ([],
    (HWSUBNET, (0, ([], (HWMASK, (if_mask i, ([], tt)))))))))))))))).

Inductive vns_message :=
  | VNSOpen (topo_id : Z) (vhost user pw : bytes)
  | VNSClose (msg : bytes)
  | VNSPacket (intf_name ethernet_frame : bytes)
  | VNSBanner (msg : bytes)
  | VNSHardwareInfo (interfaces : list VNSInterface)
  | VNSRtable (vrhost rtable : bytes)
  | VNSOpenTemplate (template_name vrhost : bytes) (src_filters : list (bytes * Z))
  | VNSAuthRequest (salt : bytes)
  | VNSAuthReply (username ssp : bytes)
  | VNSAuthStatus (auth_ok : bool) (msg : bytes).

#[global] Instance VNSInterface_eq_dec : EqDecision VNSInterface.
Proof. solve_decision. Defined.
#[global] Instance vns_message_eq_dec : EqDecision vns_message.
Proof. solve_decision. Defined.

Definition vns_type (m : vns_message) : Z :=
  match m with
  | VNSOpen _ _ _ _ => 1 | VNSClose _ => 2 | VNSPacket _ _ => 4 | VNSBanner _ => 8 | VNSHardwareInfo _ => 16 | VNSRtable _ _ => 32
  | VNSOpenTemplate _ _ _ => 64 | VNSAuthRequest _ => 128 | VNSAuthReply _ _ => 256 | VNSAuthStatus _ _ => 512
  end.

(** An empty list of filters stands for a filter that lets all pass. *)
Definition NO_SRC_FILTERS : list (bytes * Z) := [(str "0.0.0.0", 0)].
Definition new_VNSOpenTemplate (template_name vrhost : bytes) (src_filters : list (bytes * Z)) : vns_message :=
  VNSOpenTemplate template_name vrhost (match src_filters with [] => NO_SRC_FILTERS | _ => src_filters end).

(** [get_banners] and [get_banners_and_close]: [len(msg) / 255 + 1] pieces. *)
Definition piece (msg : bytes) (i : nat) : bytes := pyslice msg (Z.of_nat i * 255) ((Z.of_nat i + 1) * 255).
Definition get_banners (msg : bytes) : list vns_message :=
  let n := S (Z.to_nat (blen msg / 255)) in
  (fun i => VNSBanner (piece msg i)) <$> seq 0 n.
Definition get_banners_and_close (msg : bytes) : list vns_message :=
  let n := S (Z.to_nat (blen msg / 255)) in
  (fun i => if (i + 1 <? n)%nat then VNSBanner (piece msg i) else VNSClose (piece msg i)) <$> seq 0 n.

Section messages.
Context (inet_aton : bytes -> result bytes) (inet_ntoa : bytes -> bytes).

Fixpoint filters_pack (l : list (bytes * Z)) : result bytes :=
  match l with
  | [] => mret []
  | (ip, mask) :: l => a ← inet_aton ip; m ← pack [cB] (mask, tt); rest ← filters_pack l; mret (a ++ m ++ rest)
  end.
Fixpoint interfaces_pack (l : list VNSInterface) : result bytes :=
  match l with [] => mret [] | i :: l => b ← interface_pack i; rest ← interfaces_pack l; mret (b ++ rest) end.

Definition vns_pack (m : vns_message) : result bytes :=
  match m with
  | VNSOpen topo_id vhost user pw => pack [cH; cH; cs 32; cs 32; cs 32] (topo_id, (0, (vhost, (user, (pw, tt)))))
  | VNSClose msg | VNSBanner msg => pack [cs 256] (msg, tt)
  | VNSPacket intf_name frame => h ← pack [cs 16] (intf_name, tt); mret (h ++ frame)
  | VNSHardwareInfo l => interfaces_pack l
  | VNSRtable vrhost rtable => h ← pack [cs 32] (vrhost, tt); mret (h ++ rtable)
  | VNSOpenTemplate name vrhost filters =>
      body ← filters_pack filters; h ← pack [cs 30; cs 32] (name, (vrhost, tt)); mret (h ++ body)
  | VNSAuthRequest salt => mret salt
  | VNSAuthReply username ssp => n ← pack [cL] (blen username, tt); mret (n ++ username ++ ssp)
  | VNSAuthStatus auth_ok msg => b ← pack [cB] ((if auth_ok then 1 else 0), tt); mret (b ++ msg)
  end.

(** [length]; two classes disagree with what they pack. *)
Definition vns_length (m : vns_message) : Z :=
  match m with
  | VNSOpen _ _ _ _ => 100 | VNSClose _ | VNSBanner _ => 256 | VNSPacket _ frame => 16 + blen frame
  | VNSHardwareInfo l => blen l * Z.of_nat (calcsize interface_fmt) | VNSRtable _ rtable => 32 + blen rtable
  | VNSOpenTemplate _ _ filters => 62 + 30 + 5 * blen filters | VNSAuthRequest salt => blen salt
  | VNSAuthReply username ssp => blen username + blen ssp | VNSAuthStatus _ msg => 1 + blen msg
  end.

Fixpoint filters_unpack (n : nat) (i : Z) (sf_bytes : bytes) : result (list (bytes * Z)) :=
  match n with
  | O => mret []
  | S n =>
      let ip := inet_ntoa (pyslice sf_bytes (i * 5) (i * 5 + 4)) in
      mask ← byte_at sf_bytes (i * 5 + 4);
      _ ← guard_ok (mask <=? 32) VNSProtocolException;
      rest ← filters_unpack n (i + 1) sf_bytes;
      mret ((ip, mask) :: rest)
  end.

(** The [unpack] of the class for a type: [VNSHardwareInfo] inherits one that
    returns [None]. *)
Definition vns_unpack (t : Z) (body : bytes) : result (option vns_message) :=
  if t =? 1 then
    '(topo_id, (_, (vhost, (user, (pw, _))))) ← unpack [cH; cH; cs 32; cs 32; cs 32] body;
    mret (Some (VNSOpen topo_id (strip0 vhost) (strip0 user) (strip0 pw)))
  else if t =? 2 then '(msg, _) ← unpack [cs 256] body; mret (Some (VNSClose (strip0 msg)))
  else if t =? 4 then
    '(name, _) ← unpack [cs 16] (pyupto body 16);
    mret (Some (VNSPacket (strip0 name) (pyfrom body 16)))
  else if t =? 8 then '(msg, _) ← unpack [cs 256] body; mret (Some (VNSBanner (strip0 msg)))
  else if t =? 32 then mret (Some (VNSRtable (strip0 (pyupto body 32)) (pyfrom body 32)))
  else if t =? 64 then
    '(name, (vrhost, _)) ← unpack [cs 30; cs 32] (pyupto body 62);
    let sf_bytes := pyfrom body 62 in
    filters ← filters_unpack (Z.to_nat (blen sf_bytes / 5)) 0 sf_bytes;
    mret (Some (new_VNSOpenTemplate (strip0 name) (strip0 vrhost) filters))
  else if t =? 128 then mret (Some (VNSAuthRequest body))
  else if t =? 256 then
    '(n, _) ← unpack [cL] (pyupto body 4);
    let body := pyfrom body 4 in
    mret (Some (VNSAuthReply (pyupto body n) (pyfrom body n)))
  else if t =? 512 then
    '(ok, _) ← unpack [cB] (pyupto body 1);
    mret (Some (VNSAuthStatus (negb (ok =? 0)) (pyfrom body 1)))
  else mret None.
End messages.

(** ** Framing *)
Section lt.
Context {Msg W : Type} (len_size type_size : nat).
Context (get_type : Msg -> Z) (pack_body : Msg -> result bytes) (unpack_body : Z -> bytes -> result (option Msg)).
Let header : nat := len_size + type_size.

Definition pack_with_header (m : Msg) : result bytes :=
  body ← pack_body m;
  h ← pack [uint len_size; uint type_size] (Z.of_nat header + blen body, (get_type m, tt));
  mret (h ++ body).

(** A connection: [packet] and [plen]. *)
Record lt_conn := mk_lt_conn { lt_packet : bytes; lt_plen : Z }.
Definition new_lt_conn : lt_conn := mk_lt_conn [] 0.

(** [dataReceived]: [recv_callback] works on the rest of the world. *)
Context (recv_callback : option Msg -> M W unit).
Fixpoint receive_loop (fuel : nat) : M (lt_conn * W) unit :=
  match fuel with
  | O => lift (Err OutOfFuel)
  | S fuel => fun s =>
      let '(c, w) := s in
      if lt_plen c <? Z.of_nat len_size then (Ok tt, s) else
      match unpack [uint len_size] (pyslice (lt_packet c) 0 (Z.of_nat len_size)) with
      | Err e => (Err e, s)
      | Ok (lenNeeded, _) =>
          if lt_plen c <? lenNeeded then (Ok tt, s) else
          let buf := pyslice (lt_packet c) 0 lenNeeded in
          let c := mk_lt_conn (pyfrom (lt_packet c) lenNeeded) (lt_plen c - lenNeeded) in
          match (t ← unpack [uint type_size] (pyslice buf (Z.of_nat len_size) (Z.of_nat header));
                 unpack_body (fst t) (pyfrom buf (Z.of_nat header))) with
          | Err e => (Err e, (c, w))
          | Ok m =>
              let '(r, w) := recv_callback m w in
              match r with
              | Err e => (Err e, (c, w))
              | Ok _ => receive_loop fuel (c, w)
              end
          end
      end
  end.
Definition dataReceived (data : bytes) : M (lt_conn * W) unit := fun s =>
  let c := mk_lt_conn (lt_packet (fst s) ++ data) (lt_plen (fst s) + blen data) in
  receive_loop (S (length (lt_packet c))) (c, snd s).
End lt.

(** [LTProtocol(VNS_MESSAGES, 'I', 'I')]. *)
Definition vns_frame (inet_aton : bytes -> result bytes) (m : vns_message) : result bytes :=
  pack_with_header 4 4 vns_type (vns_pack inet_aton) m.
Definition vns_received {W} (inet_ntoa : bytes -> bytes) (recv_callback : option vns_message -> M W unit) (data : bytes) : M (lt_conn * W) unit :=
  dataReceived 4 4 (vns_unpack inet_ntoa) recv_callback data.

(** ** Bodies come back *)

Definition text_ok (n : nat) (s : bytes) : Prop := no_nul s /\ (length s <= n)%nat.
#[global] Instance text_ok_dec n s : Decision (text_ok n s).
Proof. unfold text_ok. apply _. Defined.

Lemma text_back n s : text_ok n s -> strip0 (pack_s n s) = s.
Proof. intros [Hn Hl]. rewrite pack_s_ljust by done. by apply strip0_ljust0. Qed.

(** String fields come back padded. *)
Fixpoint padded (f : list code) : vals f -> vals f :=
  match f return vals f -> vals f with
  | [] => fun v => v
  | c :: f' =>
      match c return vals (c :: f') -> vals (c :: f') with
      | uint n => fun v => (fst v, padded f' (snd v))
      | sint n => fun v => (fst v, padded f' (snd v))
      | cs n => fun v => (pack_s n (fst v), padded f' (snd v))
      | cx => fun v => padded f' v
      end
  end.
Lemma unpack_padded f v : no_sint0 f = true -> packable f v -> unpack f (encode f v) = Ok (padded f v).
Proof.
  intros Hs Hp. assert (H : encode f v = encode f (padded f v) /\ packable f (padded f v) /\ exact f (padded f v)).
  { clear Hs. induction f as [|[n|n|n|] f IH]; cbn in *; [done|..].
    - destruct Hp as [H1 H2]. destruct (IH (snd v) H2) as (E & ? & ?). split_and!; try done. exact (f_equal _ E).
    - destruct Hp as [H1 H2]. destruct (IH (snd v) H2) as (E & ? & ?). split_and!; try done. exact (f_equal _ E).
    - destruct (IH (snd v) Hp) as (E & ? & ?). pose proof (pack_s_length n (fst v)) as Hl. rewrite (pack_s_exact n (pack_s n _)) by done.
      split_and!; try done. exact (f_equal _ E).
    - destruct (IH v Hp) as (E & ? & ?). split_and!; try done. exact (f_equal _ E). }
  destruct H as (-> & H1 & H2). by apply unpack_encode.
Qed.

(** Evaluate comparisons of numerals. *)
Ltac numerals :=
  repeat match goal with |- context [Z.eqb (Zpos ?a) (Zpos ?b)] => let r := eval vm_compute in (Z.eqb (Zpos a) (Zpos b)) in change (Z.eqb (Zpos a) (Zpos b)) with r end;
  cbv iota.

Section bodies.
Context (inet_aton : bytes -> result bytes) (inet_ntoa : bytes -> bytes).
Context (Haton : forall b, length b = 4%nat -> inet_aton (inet_ntoa b) = Ok b).

Definition filter_ok (f : bytes * Z) : Prop := (exists b, length b = 4%nat /\ f.1 = inet_ntoa b) /\ 0 <= f.2 <= 32.
Definition vns_wf (m : vns_message) : Prop :=
  match m with
  | VNSOpen topo_id vhost user pw => uint_ok 2 topo_id /\ text_ok 32 vhost /\ text_ok 32 user /\ text_ok 32 pw
  | VNSClose msg | VNSBanner msg => text_ok 256 msg
  | VNSPacket name _ => text_ok 16 name
  | VNSHardwareInfo _ => True
  | VNSRtable vrhost _ => text_ok 32 vrhost
  | VNSOpenTemplate name vrhost filters => text_ok 30 name /\ text_ok 32 vrhost /\ filters <> [] /\ Forall filter_ok filters
  | VNSAuthRequest _ | VNSAuthStatus _ _ => True
  | VNSAuthReply username _ => uint_ok 4 (blen username)
  end.
(** What the receiver gets: nothing for hardware information. *)
Definition vns_seen (m : vns_message) : option vns_message := match m with VNSHardwareInfo _ => None | _ => Some m end.

Lemma filters_back l : Forall filter_ok l -> exists b, filters_pack inet_aton l = Ok b /\ blen b = 5 * blen l /\
  forall pre, filters_unpack inet_ntoa (length l) (blen pre / 5) (pre ++ b) = Ok l \/ blen pre mod 5 <> 0.
Proof.
  induction 1 as [|[ip mask] l ((raw & Hl & Hip) & Hm) _ (b & Eb & Lb & Hb)]; cbn [fst snd] in *.
  { exists []. split; [done|]. split; [done|]. by left. }
  subst ip. cbn [filters_pack]. rewrite Haton by done. cbn [mbind result_bind].
  assert (Hp : uint_ok 1 mask) by (unfold uint_ok; cbn; lia).
  rewrite (pack_ok [cB] (mask, tt)) by (by split). cbn [mbind result_bind]. rewrite Eb. eexists. split; [reflexivity|].
  assert (Lr : blen raw = 4) by (unfold blen; by rewrite Hl).
  split. { rewrite !blen_app, blen_encode, Lb, Lr, blen_cons. cbn. lia. }
  intros pre. destruct (decide (blen pre mod 5 = 0)) as [Hmod|]; [left|by right].
  assert (Hpre : blen pre / 5 * 5 = blen pre) by (pose proof (Z.div_mod (blen pre) 5); lia).
  cbn [length filters_unpack]. rewrite Hpre.
  replace (pyslice _ (blen pre) (blen pre + 4)) with raw by (symmetry; apply pyslice_app; lia).
  replace (byte_at _ (blen pre + 4)) with (Ok mask).
  2:{ rewrite app_assoc. assert (E : encode [cB] (mask, tt) = [byte_of_Z mask]) by (cbn; by rewrite Z.div_1_r). rewrite E. cbn [app].
      rewrite byte_at_app by (rewrite blen_app; lia). rewrite byte_to_of_Z, Z.mod_small; [done|lia]. }
  cbn [mbind result_bind]. rewrite (proj2 (Z.leb_le _ _)) by lia. cbn [guard_ok mbind result_bind].
  set (p := pre ++ raw ++ encode [cB] (mask, tt)). assert (Lp : blen p = blen pre + 5) by (subst p; rewrite !blen_app, blen_encode, Lr; cbn; lia).
  replace (pre ++ raw ++ encode [cB] (mask, tt) ++ b) with (p ++ b) by (subst p; by rewrite <-!app_assoc).
  replace (blen pre / 5 + 1) with (blen p / 5) by (rewrite Lp; replace (blen pre + 5) with (blen pre + 1 * 5) by lia; by rewrite Z.div_add).
  destruct (Hb p) as [-> | Hne]; [done|]. exfalso. apply Hne. rewrite Lp. replace (blen pre + 5) with (blen pre + 1 * 5) by lia. by rewrite Z.mod_add.
Qed.

Lemma interfaces_pack_ok l : exists b, interfaces_pack l = Ok b /\ blen b = blen l * Z.of_nat (calcsize interface_fmt).
Proof.
  induction l as [|i l (b & Eb & Lb)]; [by exists []|]. cbn [interfaces_pack]. unfold interface_pack at 1.
  rewrite pack_ok by (split_and!; try done; by vm_compute). cbn [mbind result_bind]. rewrite Eb. eexists. split; [reflexivity|].
  rewrite blen_app, blen_encode, Lb, blen_cons. lia.
Qed.

(** How much longer a body is than [length] says. *)
Definition length_slip (m : vns_message) : Z := match m with VNSOpenTemplate _ _ _ => -30 | VNSAuthReply _ _ => 4 | _ => 0 end.
Definition body_back (m : vns_message) : Prop :=
  exists b, vns_pack inet_aton m = Ok b /\ vns_unpack inet_ntoa (vns_type m) b = Ok (vns_seen m) /\ blen b = vns_length m + length_slip m.

(** A front of a fixed format, and what follows it. *)
Lemma front_reads f v n rest : n = Z.of_nat (calcsize f) -> no_sint0 f = true -> packable f v ->
  pack f v = Ok (encode f v) /\ unpack f (pyupto (encode f v ++ rest) n) = Ok (padded f v) /\ pyfrom (encode f v ++ rest) n = rest /\
  blen (encode f v ++ rest) = n + blen rest.
Proof.
  intros -> Hs Hp. split; [by apply pack_ok|]. split; [|split; [by apply pyfrom_app; rewrite blen_encode|by rewrite blen_app, blen_encode]].
  unfold pyupto. rewrite pyslice_here by (by rewrite blen_encode). by apply unpack_padded.
Qed.

Lemma open_back topo_id vhost user pw : vns_wf (VNSOpen topo_id vhost user pw) -> body_back (VNSOpen topo_id vhost user pw).
Proof.
  intros (Ht & Hv & Hu & Hp). unfold body_back, vns_unpack. cbn [vns_pack vns_type vns_length length_slip vns_seen].
  rewrite pack_ok by (by split_and!). eexists. split; [reflexivity|]. split; [|by rewrite blen_encode].
  numerals. rewrite unpack_padded by (done || by split_and!). cbn [padded fst snd mbind result_bind]. by rewrite !text_back.
Qed.
Lemma text_body_back m msg : m = VNSClose msg \/ m = VNSBanner msg -> text_ok 256 msg -> body_back m.
Proof.
  intros Hm Ht. unfold body_back, vns_unpack. destruct Hm as [-> | ->]; cbn [vns_pack vns_type vns_length length_slip vns_seen];
    (rewrite pack_ok by done; eexists; split; [reflexivity|]; split; [|by rewrite blen_encode];
     numerals; rewrite unpack_padded by done; cbn [padded fst snd mbind result_bind]; by rewrite text_back).
Qed.
Lemma packet_back name frame : text_ok 16 name -> body_back (VNSPacket name frame).
Proof.
  intros Hm. unfold body_back, vns_unpack. cbn [vns_pack vns_type vns_length length_slip vns_seen].
  destruct (front_reads [cs 16] (name, tt) 16 frame) as (-> & Hu & Hf & Hl); [done..|]. cbn [mbind result_bind]. eexists. split; [reflexivity|].
  numerals. rewrite Hu, Hf, Hl. cbn [padded fst snd mbind result_bind]. rewrite text_back by done. split; [done|lia].
Qed.
Lemma rtable_back vrhost rtable : text_ok 32 vrhost -> body_back (VNSRtable vrhost rtable).
Proof.
  intros Hm. unfold body_back, vns_unpack. cbn [vns_pack vns_type vns_length length_slip vns_seen].
  destruct (front_reads [cs 32] (vrhost, tt) 32 rtable) as (-> & Hu & Hf & Hl); [done..|]. cbn [mbind result_bind]. eexists. split; [reflexivity|].
  numerals. rewrite Hf, Hl. split; [|lia]. unfold pyupto. cbn [encode fst snd]. rewrite app_nil_r.
  rewrite pyslice_here by (unfold blen; by rewrite pack_s_length). by rewrite text_back.
Qed.
Lemma template_back name vrhost filters : vns_wf (VNSOpenTemplate name vrhost filters) -> body_back (VNSOpenTemplate name vrhost filters).
Proof.
  intros (Hn & Hv & Hne & Hf). unfold body_back, vns_unpack. cbn [vns_pack vns_type vns_length length_slip vns_seen].
  destruct (filters_back filters Hf) as (b & -> & Lb & Hb). cbn [mbind result_bind].
  destruct (front_reads [cs 30; cs 32] (name, (vrhost, tt)) 62 b) as (-> & Hu & Hr & Hl); [done..|]. cbn [mbind result_bind]. eexists. split; [reflexivity|].
  numerals. rewrite Hu, Hr, Hl. cbn [padded fst snd mbind result_bind]. split; [|lia].
  rewrite Lb. replace (5 * blen filters) with (blen filters * 5) by lia. rewrite Z.div_mul by lia. unfold blen at 1. rewrite Nat2Z.id.
  destruct (Hb []) as [Hg|Hg]; [|done]. change (blen [] / 5) with 0 in Hg. cbn [app] in Hg. rewrite Hg. cbn [mbind result_bind]. rewrite !text_back by done.
  unfold new_VNSOpenTemplate. by destruct filters.
Qed.
Lemma auth_reply_back username ssp : uint_ok 4 (blen username) -> body_back (VNSAuthReply username ssp).
Proof.
  intros Hu. unfold body_back, vns_unpack. cbn [vns_pack vns_type vns_length length_slip vns_seen].
  destruct (front_reads [cL] (blen username, tt) 4 (username ++ ssp)) as (-> & He & Hr & Hl); [done|done|by split|]. cbn [mbind result_bind].
  eexists. split; [reflexivity|]. numerals. rewrite He, Hr, Hl. cbn [padded fst snd mbind result_bind]. rewrite pyfrom_app by done.
  unfold pyupto. rewrite pyslice_here by done. split; [done|]. rewrite blen_app. lia.
Qed.
Lemma auth_status_back auth_ok msg : body_back (VNSAuthStatus auth_ok msg).
Proof.
  unfold body_back, vns_unpack. cbn [vns_pack vns_type vns_length length_slip vns_seen].
  destruct (front_reads [cB] ((if auth_ok then 1 else 0), tt) 1 msg) as (-> & He & Hr & Hl); [done|done|by destruct auth_ok|]. cbn [mbind result_bind].
  eexists. split; [reflexivity|]. numerals. rewrite He, Hr, Hl. cbn [padded fst snd mbind result_bind]. split; [by destruct auth_ok|lia].
Qed.

Lemma vns_back m : vns_wf m -> body_back m.
Proof.
  intros H. destruct m; cbn [vns_wf] in H.
  - by apply open_back.
  - apply (text_body_back _ msg); [by left|done].
  - by apply packet_back.
  - apply (text_body_back _ msg); [by right|done].
  - unfold body_back. destruct (interfaces_pack_ok interfaces) as (b & E & Lb). exists b. cbn [vns_pack vns_length length_slip]. split; [done|]. split; [done|]. lia.
  - by apply rtable_back.
  - by apply template_back.
  - eexists. split; [reflexivity|]. split; [done|]. cbn. lia.
  - by apply auth_reply_back.
  - apply auth_status_back.
Qed.
End bodies.

(** ** Frames come back *)

Section stream.
Context {W : Type} (len_size type_size : nat) {Msg : Type} (unpack_body : Z -> bytes -> result (option Msg)).
Context (recv_callback : option Msg -> M W unit) (Hsize : (0 < len_size)%nat).
Let header : Z := Z.of_nat (len_size + type_size).
Let lt_fmt : list code := [uint len_size; uint type_size].
Abbreviation loop := (receive_loop len_size type_size unpack_body recv_callback).

(** A type and a body. *)
Definition frame_ok (f : Z * bytes) : Prop := uint_ok len_size (header + blen f.2) /\ uint_ok type_size f.1.
Definition frame_bytes (f : Z * bytes) : bytes := encode lt_fmt (header + blen f.2, (f.1, tt)) ++ f.2.
Definition whole (b : bytes) : lt_conn := mk_lt_conn b (blen b).
(** What the application sees of a list of frames. *)
Definition deliver (fs : list (Z * bytes)) : M W unit := for_each fs (fun f => m ← lift (unpack_body f.1 f.2); recv_callback m).
(** The beginning of a frame. *)
Definition incomplete (b : bytes) : Prop :=
  blen b < Z.of_nat len_size \/ exists n, unpack [uint len_size] (pyslice b 0 (Z.of_nat len_size)) = Ok (n, tt) /\ blen b < n.

Lemma frame_bytes_len f : blen (frame_bytes f) = header + blen f.2.
Proof. unfold frame_bytes. rewrite blen_app, blen_encode. unfold header, lt_fmt. cbn [calcsize code_size]. by rewrite Nat.add_0_r. Qed.

Lemma frame_head f rest : frame_ok f ->
  unpack [uint len_size] (pyslice (frame_bytes f ++ rest) 0 (Z.of_nat len_size)) = Ok (header + blen f.2, tt).
Proof.
  intros [Hn Ht]. set (n := header + blen f.2). assert (E : frame_bytes f = encode [uint len_size] (n, tt) ++ encode [uint type_size] (f.1, tt) ++ f.2).
  { unfold frame_bytes. unfold lt_fmt; subst n. cbn [encode fst snd]. rewrite !app_nil_r. by rewrite <-app_assoc. }
  rewrite E, <-!app_assoc. rewrite pyslice_here by (rewrite blen_encode; cbn [calcsize code_size]; by rewrite Nat.add_0_r).
  apply unpack_encode; [done|by split|done].
Qed.

Lemma loop_frame fuel f rest w : frame_ok f ->
  loop (S fuel) (whole (frame_bytes f ++ rest), w)
  = match unpack_body f.1 f.2 with
    | Err e => (Err e, (whole rest, w))
    | Ok m => let '(r, w) := recv_callback m w in match r with Err e => (Err e, (whole rest, w)) | Ok _ => loop fuel (whole rest, w) end
    end.
Proof.
  intros Hf. pose proof (blen_nonneg rest). pose proof (blen_nonneg f.2). cbn [receive_loop lt_plen lt_packet whole].
  assert (L : blen (frame_bytes f ++ rest) = header + blen f.2 + blen rest) by (rewrite blen_app, frame_bytes_len; lia).
  rewrite (proj2 (Z.ltb_ge _ _)) by (rewrite L; unfold header in *; lia). rewrite (frame_head f rest Hf).
  rewrite (proj2 (Z.ltb_ge _ _)) by lia. pose proof (frame_bytes_len f) as Lf. rewrite <-Lf.
  rewrite pyslice_here, pyfrom_app by done. unfold whole at 1. rewrite L, <-Lf. replace (blen (frame_bytes f) + blen rest - blen (frame_bytes f)) with (blen rest) by lia.
  fold (whole rest).
  assert (E : pyslice (frame_bytes f) (Z.of_nat len_size) (Z.of_nat (len_size + type_size)) = encode [uint type_size] (f.1, tt)).
  { unfold frame_bytes. unfold lt_fmt. cbn [encode fst snd]. rewrite !app_nil_r, <-app_assoc. apply pyslice_app; unfold blen; rewrite !be_encode_length; lia. }
  rewrite E, unpack_encode by (done || (split; [apply Hf|done])). cbn [mbind result_bind fst].
  assert (E2 : pyfrom (frame_bytes f) (Z.of_nat (len_size + type_size)) = f.2).
  { unfold frame_bytes. apply pyfrom_app. rewrite blen_encode. unfold lt_fmt. cbn [calcsize code_size]. by rewrite Nat.add_0_r. }
  rewrite E2. by destruct (unpack_body f.1 f.2).
Qed.

Lemma loop_incomplete fuel b w : incomplete b -> loop (S fuel) (whole b, w) = (Ok tt, (whole b, w)).
Proof.
  intros Hb. cbn [receive_loop lt_plen lt_packet whole]. destruct (Z.ltb_spec (blen b) (Z.of_nat len_size)); [done|].
  destruct Hb as [|(n & E & Hn)]; [lia|]. rewrite E. by rewrite (proj2 (Z.ltb_lt _ _)).
Qed.

Lemma loop_frames fs rest w w' fuel : Forall frame_ok fs -> incomplete rest -> (length fs < fuel)%nat -> deliver fs w = (Ok tt, w') ->
  loop fuel (whole (concat (frame_bytes <$> fs) ++ rest), w) = (Ok tt, (whole rest, w')).
Proof.
  intros Hfs Hr. revert w fuel. induction Hfs as [|f fs Hf _ IH]; intros w [|fuel] Hfuel Hd; cbn [length] in Hfuel; try lia.
  - injection Hd as <-. by apply loop_incomplete.
  - cbn [fmap list_fmap concat]. rewrite <-app_assoc, loop_frame by done. unfold deliver in Hd. cbn [for_each] in Hd. rewrite !M_bind_unfold in Hd. unfold lift in Hd.
    destruct (unpack_body f.1 f.2) as [m|e]; [|done]. destruct (recv_callback m w) as [[[]|e] w1]; [|done]. apply IH; [lia|exact Hd].
Qed.

Lemma incomplete_prefix p q : incomplete (p ++ q) -> incomplete p.
Proof.
  intros H. destruct (Z.lt_ge_cases (blen p) (Z.of_nat len_size)) as [|Hge]; [by left|right]. pose proof (blen_nonneg q).
  destruct H as [H|(n & E & Hn)]; [rewrite blen_app in H; lia|]. rewrite blen_app in Hn. exists n. split; [|lia]. rewrite <-E. f_equal.
  rewrite !pyslice_pos by lia. rewrite !drop_0. symmetry. apply take_app_le. unfold blen in Hge. lia.
Qed.

(** Where a piece of a stream ends. *)
Lemma stream_split fs rest p q : Forall frame_ok fs -> incomplete rest -> p ++ q = concat (frame_bytes <$> fs) ++ rest ->
  exists fs1 fs2 r, fs = fs1 ++ fs2 /\ p = concat (frame_bytes <$> fs1) ++ r /\ incomplete r /\ r ++ q = concat (frame_bytes <$> fs2) ++ rest.
Proof.
  intros Hfs Hr. revert p. induction Hfs as [|f fs Hf _ IH]; intros p E.
  - exists [], [], p. split; [done|]. split; [done|]. split; [|done]. apply (incomplete_prefix p q). by rewrite E.
  - cbn [fmap list_fmap concat] in E. rewrite <-app_assoc in E. destruct (decide (length (frame_bytes f) <= length p)%nat) as [Hle|Hgt].
    + assert (E1 : p = frame_bytes f ++ drop (length (frame_bytes f)) p).
      { rewrite <-(take_drop (length (frame_bytes f)) p) at 1. f_equal. apply (f_equal (take (length (frame_bytes f)))) in E.
        rewrite take_app_le in E by done. by rewrite take_app_length in E. }
      rewrite E1, <-app_assoc in E. apply app_inv_head in E. destruct (IH _ E) as (fs1 & fs2 & r & -> & Ep & Hi & Eq).
      exists (f :: fs1), fs2, r. split; [done|]. split; [|done]. cbn [fmap list_fmap concat]. rewrite <-app_assoc, <-Ep. exact E1.
    + exists [], (f :: fs), p. split; [done|]. split; [done|]. split; [|cbn [fmap list_fmap concat]; by rewrite <-app_assoc].
      destruct (Z.lt_ge_cases (blen p) (Z.of_nat len_size)) as [|Hge]; [by left|right]. exists (header + blen f.2).
      split; [|rewrite <-frame_bytes_len; unfold blen; lia]. rewrite <-(frame_head f (concat (frame_bytes <$> fs) ++ rest) Hf), <-E. f_equal.
      rewrite !pyslice_pos by lia. rewrite !drop_0. symmetry. apply take_app_le. unfold blen in Hge. lia.
Qed.

Lemma frames_length fs : (length fs <= length (concat (frame_bytes <$> fs)))%nat.
Proof.
  induction fs as [|f fs IH]; [done|]. cbn [fmap list_fmap concat length]. rewrite length_app.
  pose proof (frame_bytes_len f) as H. pose proof (blen_nonneg f.2). unfold header in *. unfold blen in *. lia.
Qed.

Lemma received_stream chunks : forall fs rest b w w', Forall frame_ok fs -> incomplete rest -> incomplete b ->
  b ++ concat chunks = concat (frame_bytes <$> fs) ++ rest -> deliver fs w = (Ok tt, w') ->
  for_each chunks (dataReceived len_size type_size unpack_body recv_callback) (whole b, w) = (Ok tt, (whole rest, w')).
Proof.
  induction chunks as [|d chunks IH]; intros fs rest b w w' Hfs Hr Hb E Hd.
  - cbn [concat] in E. rewrite app_nil_r in E. destruct fs as [|f fs].
    + injection Hd as <-. cbn [fmap list_fmap concat app] in E. by subst b.
    + exfalso. apply Forall_cons in Hfs as [Hf _]. cbn [fmap list_fmap concat] in E. rewrite <-app_assoc in E. subst b.
      destruct Hb as [Hb|(n & En & Hb)]; rewrite blen_app, frame_bytes_len in Hb; pose proof (blen_nonneg (concat (frame_bytes <$> fs) ++ rest)); pose proof (blen_nonneg f.2).
      * unfold header in *. lia.
      * rewrite (frame_head f _ Hf) in En. injection En as <-. lia.
  - cbn [concat] in E. rewrite app_assoc in E. destruct (stream_split fs rest (b ++ d) (concat chunks) Hfs Hr E) as (fs1 & fs2 & r & -> & Ep & Hi & Eq).
    apply Forall_app in Hfs as [Hf1 Hf2].
    assert (Hsplit : exists w1, deliver fs1 w = (Ok tt, w1) /\ deliver fs2 w1 = (Ok tt, w')).
    { clear -Hd. revert w Hd. unfold deliver. induction fs1 as [|f fs1 IH]; intros w Hd; [by exists w|]. cbn [app for_each] in *. rewrite M_bind_unfold in *.
      destruct ((m ← lift (unpack_body f.1 f.2); recv_callback m) w) as [[u|e] w1]; [|done]. destruct (IH w1 Hd) as (w2 & H1 & H2). by exists w2. }
    destruct Hsplit as (w1 & D1 & D2). cbn [for_each].
    assert (Es : dataReceived len_size type_size unpack_body recv_callback d (whole b, w) = (Ok tt, (whole r, w1))).
    { unfold dataReceived. cbn [fst snd lt_packet lt_plen whole]. rewrite <-blen_app. fold (whole (b ++ d)). rewrite Ep.
      apply loop_frames; try done. rewrite length_app. pose proof (frames_length fs1). lia. }
    rewrite (M_bind_run _ _ _ _ _ Es). by apply (IH fs2).
Qed.
End stream.

(** ** Banners *)

Definition text_of (m : vns_message) : bytes := match m with VNSBanner t | VNSClose t => t | _ => [] end.

Lemma piece_take msg i : piece msg i = take 255 (drop (255 * i) msg).
Proof. unfold piece. rewrite pyslice_pos by lia. f_equal; [lia|]. f_equal. lia. Qed.
Lemma pieces_concat msg n : concat (piece msg <$> seq 0 n) = take (255 * n) msg.
Proof.
  induction n as [|n IH]; [done|]. rewrite seq_S, fmap_app, concat_app, IH. cbn [Nat.add fmap list_fmap concat]. rewrite app_nil_r, piece_take.
  rewrite take_take_drop. f_equal. lia.
Qed.
Lemma pieces_all msg : concat (piece msg <$> seq 0 (S (Z.to_nat (blen msg / 255)))) = msg.
Proof.
  rewrite pieces_concat. apply take_ge. pose proof (Z.div_mod (blen msg) 255). pose proof (Z.mod_pos_bound (blen msg) 255).
  pose proof (blen_nonneg msg). assert (0 <= blen msg / 255) by (apply Z.div_pos; lia). unfold blen in *. lia.
Qed.

(** ** Properties *)
Section properties.
Context (inet_aton : bytes -> result bytes) (inet_ntoa : bytes -> bytes).

(** Every message but the hardware information, which its class cannot
    unpack, comes back from its body; and the body is as long as [length] says
    but for templates and authentication replies, where [length] is wrong by 30
    and by 4. *)
Theorem vns_roundtrip (m : vns_message) :
  (forall b, length b = 4%nat -> inet_aton (inet_ntoa b) = Ok b) -> vns_wf inet_ntoa m ->
  exists b, vns_pack inet_aton m = Ok b /\
    vns_unpack inet_ntoa (vns_type m) b = Ok (match m with VNSHardwareInfo _ => None | _ => Some m end) /\
    blen b = vns_length m + match m with VNSOpenTemplate _ _ _ => -30 | VNSAuthReply _ _ => 4 | _ => 0 end.
Proof. intros H Hm. by apply vns_back. Qed.

Definition noted (m : option vns_message) : M (list (option vns_message)) unit := fun w => (Ok tt, w ++ [m]).

Lemma vns_frame_ok m p : vns_wf inet_ntoa m -> (forall b, length b = 4%nat -> inet_aton (inet_ntoa b) = Ok b) -> vns_frame inet_aton m = Ok p ->
  exists b, vns_unpack inet_ntoa (vns_type m) b = Ok (vns_seen m) /\ frame_ok 4 4 (vns_type m, b) /\ p = frame_bytes 4 4 (vns_type m, b).
Proof.
  intros Hm H E. destruct (vns_back inet_aton inet_ntoa H m Hm) as (b & Eb & Hu & _). exists b. split; [exact Hu|].
  unfold vns_frame, pack_with_header in E. rewrite Eb in E. cbn [mbind result_bind] in E. destruct (pack _ _) as [h|] eqn:Eh; [|done]. injection E as <-.
  apply pack_Ok_inv in Eh as [(H1 & H2 & _) ->]. split; [|done]. by split.
Qed.

Lemma vns_frames_ok ms packets : (forall b, length b = 4%nat -> inet_aton (inet_ntoa b) = Ok b) -> Forall (vns_wf inet_ntoa) ms ->
  Forall2 (fun m p => vns_frame inet_aton m = Ok p) ms packets ->
  exists fs, Forall (frame_ok 4 4) fs /\ packets = frame_bytes 4 4 <$> fs /\ Forall2 (fun f v => vns_unpack inet_ntoa f.1 f.2 = Ok v) fs (vns_seen <$> ms).
Proof.
  intros H Hms Hp. induction Hp as [|m p ms packets Hmp _ IH]; [by exists []|]. apply Forall_cons in Hms as [Hm Hms]. destruct (IH Hms) as (fs & H1 & -> & H3).
  destruct (vns_frame_ok m p Hm H Hmp) as (b & Hu & Hok & ->). exists ((vns_type m, b) :: fs). split; [by constructor|]. split; [done|]. by constructor.
Qed.

Lemma deliver_unpacked {W} (f : option vns_message -> M W unit) fs vs : Forall2 (fun f v => vns_unpack inet_ntoa f.1 f.2 = Ok v) fs vs ->
  forall w, deliver (vns_unpack inet_ntoa) f fs w = for_each vs f w.
Proof.
  induction 1 as [|x v fs vs Hx _ IH]; intros w; [done|]. unfold deliver in *. cbn [for_each]. rewrite !M_bind_unfold. unfold lift. rewrite Hx.
  destruct (f v w) as [[[]|e] w']; [apply IH|done].
Qed.

Lemma noted_all vs w : for_each vs noted w = (Ok tt, w ++ vs).
Proof. revert w. induction vs as [|v vs IH]; intros w; [by rewrite app_nil_r|]. cbn [for_each]. rewrite M_bind_unfold. cbn [noted]. rewrite IH. by rewrite <-app_assoc. Qed.

(** C20: whatever pieces a stream of messages is cut into, each message is handed
    to the callback once, in order, and the beginning of the next one is kept. *)
Theorem vns_stream (ms : list vns_message) (packets chunks : list bytes) (tail : bytes) :
  (forall b, length b = 4%nat -> inet_aton (inet_ntoa b) = Ok b) -> Forall (vns_wf inet_ntoa) ms ->
  Forall2 (fun m p => vns_frame inet_aton m = Ok p) ms packets -> incomplete 4 tail -> concat chunks = concat packets ++ tail ->
  for_each chunks (vns_received inet_ntoa noted) (new_lt_conn, []) = (Ok tt, (mk_lt_conn tail (blen tail), vns_seen <$> ms)).
Proof.
  intros H Hms Hp Ht E. destruct (vns_frames_ok ms packets H Hms Hp) as (fs & H1 & -> & H3).
  apply (received_stream 4 4 (vns_unpack inet_ntoa) noted ltac:(lia) chunks fs tail [] [] _ H1 Ht); [by left|by rewrite E|]. rewrite (deliver_unpacked _ _ _ H3). apply noted_all.
Qed.

(** A length that does not even cover the header raises, and a length of zero
    leaves it where it is: the connection never gets past it, whatever comes in
    later. *)
Theorem short_length_wedges {W} (recv_callback : option vns_message -> M W unit) (data : bytes) (n : Z) (w : W) :
  unpack [cL] (pyslice data 0 4) = Ok (n, tt) -> 0 <= n < 8 -> n <= blen data -> 4 <= blen data ->
  vns_received inet_ntoa recv_callback data (new_lt_conn, w) = (Err StructError, (whole (pyfrom data n), w)) /\
  (n = 0 -> forall more, vns_received inet_ntoa recv_callback more (whole data, w) = (Err StructError, (whole (data ++ more), w))).
Proof.
  intros Hn Hr Hl H4.
  assert (Hloop : forall fuel b, unpack [cL] (pyslice b 0 4) = Ok (n, tt) -> n <= blen b -> 4 <= blen b ->
    receive_loop 4 4 (vns_unpack inet_ntoa) recv_callback (S fuel) (whole b, w) = (Err StructError, (whole (pyfrom b n), w))).
  { intros fuel b Eb Hb Hb4. cbn [receive_loop lt_plen lt_packet whole]. change (Z.of_nat 4) with 4. change (Z.of_nat (4 + 4)) with 8.
    rewrite (proj2 (Z.ltb_ge _ _)) by lia. rewrite Eb. rewrite (proj2 (Z.ltb_ge _ _)) by lia.
    assert (Es : unpack [uint 4] (pyslice (pyslice b 0 n) 4 8) = Err StructError).
    { unfold unpack. assert (L : blen (pyslice (pyslice b 0 n) 4 8) < 4) by (rewrite !blen_pyslice by lia; lia).
      destruct (Nat.eqb_spec (length (pyslice (pyslice b 0 n) 4 8)) (calcsize [uint 4])) as [E|]; [|done]. unfold blen in L. cbn in E. lia. }
    rewrite Es. cbn [mbind result_bind]. unfold whole. do 3 f_equal. rewrite blen_pyfrom by lia. lia. }
  split.
  - unfold vns_received, dataReceived. cbn [fst snd new_lt_conn lt_packet lt_plen app]. replace (0 + blen data) with (blen data) by lia.
    fold (whole data). by apply Hloop.
  - intros -> more. unfold vns_received, dataReceived. cbn [fst snd whole lt_packet lt_plen]. rewrite <-blen_app. fold (whole (data ++ more)).
    pose proof (blen_nonneg more). rewrite Hloop; [by rewrite pyfrom_0| |rewrite blen_app; lia|rewrite blen_app; lia].
    rewrite <-Hn. f_equal. rewrite !pyslice_pos by lia. rewrite !drop_0. apply take_app_le. unfold blen in H4. lia.
Qed.

(** A text cut into banners, or into banners and a close at the end, is that
    text, each piece short enough to be ended by a zero byte in its field; the
    last piece is empty when the length is a multiple of 255. *)
Theorem banners_carry (msg : bytes) :
  concat (text_of <$> get_banners msg) = msg /\ concat (text_of <$> get_banners_and_close msg) = msg /\
  Forall (fun m => blen (text_of m) <= 255) (get_banners msg ++ get_banners_and_close msg) /\
  (exists ms t, get_banners_and_close msg = ms ++ [VNSClose t] /\ Forall (fun m => exists t, m = VNSBanner t) ms) /\
  (blen msg mod 255 = 0 -> last (get_banners msg) = Some (VNSBanner [])).
Proof.
  set (n := S (Z.to_nat (blen msg / 255))). assert (Hc : get_banners_and_close msg = (VNSBanner <$> (piece msg <$> seq 0 (pred n))) ++ [VNSClose (piece msg (pred n))]).
  { unfold get_banners_and_close. fold n. subst n. cbn [pred]. rewrite seq_S, fmap_app. cbn [Nat.add fmap list_fmap]. f_equal.
    - rewrite <-list_fmap_compose. apply list_fmap_ext. intros i x Hx%lookup_seq. unfold compose. by rewrite (proj2 (Nat.ltb_lt (x + 1) _)) by lia.
    - by rewrite (proj2 (Nat.ltb_ge (_ + 1) _)) by lia. }
  assert (Hb : get_banners msg = VNSBanner <$> (piece msg <$> seq 0 n)) by (unfold get_banners; fold n; by rewrite <-list_fmap_compose).
  assert (Hshort : forall i, blen (piece msg i) <= 255) by (intros i; rewrite piece_take; unfold blen; rewrite length_take; lia).
  assert (Ht : forall l : list bytes, text_of <$> (VNSBanner <$> l) = l) by (intros l; rewrite <-list_fmap_compose; by apply list_fmap_id).
  split; [rewrite Hb, Ht; apply pieces_all|]. split.
  { rewrite Hc, fmap_app, Ht. cbn [fmap list_fmap text_of]. rewrite <-(pieces_all msg) at 3. fold n. subst n. cbn [pred]. rewrite seq_S, fmap_app. done. }
  split.
  { apply Forall_app. rewrite Hb, Hc. split; [|apply Forall_app; split; [|apply Forall_singleton; apply Hshort]];
      apply Forall_fmap, Forall_fmap, Forall_forall; intros i _; apply Hshort. }
  split.
  { exists (VNSBanner <$> (piece msg <$> seq 0 (pred n))), (piece msg (pred n)). split; [exact Hc|]. apply Forall_fmap, Forall_forall. intros t _. by exists t. }
  intros Hm. rewrite Hb. subst n. rewrite seq_S, !fmap_app. cbn [Nat.add fmap list_fmap]. rewrite last_snoc. do 2 f_equal. rewrite piece_take.
  rewrite drop_ge; [by rewrite take_nil|]. pose proof (Z.div_mod (blen msg) 255). pose proof (blen_nonneg msg). assert (0 <= blen msg / 255) by (apply Z.div_pos; lia).
  unfold blen in *. lia.
Qed.
End properties.

(** ** Instances of the properties *)
Module Examples.
Definition aton (s : bytes) : result bytes := if (length s =? 4)%nat then Ok s else Err (SocketError 22).
Definition ntoa (b : bytes) : bytes := b.
Lemma aton_ntoa b : length b = 4%nat -> aton (ntoa b) = Ok b.
Proof. intros H. unfold aton, ntoa. by rewrite H. Qed.

Definition template : vns_message := VNSOpenTemplate (str "router") (str "r1") [(str "abcd", 24); (str "efgh", 32)].
Definition open_msg : vns_message := VNSOpen 7 (str "r1") (str "user") (str "pw").
Definition hw : vns_message := VNSHardwareInfo [mk_VNSInterface (str "eth0") (str "macmac") (str "1234") (str "mask")].
Definition messages : list vns_message := [open_msg; hw; VNSPacket (str "eth0") (str "frame"); template].
Lemma messages_wf : Forall (vns_wf ntoa) messages.
Proof.
  assert (Hd : forall n s, bool_decide (text_ok n s) = true -> text_ok n s) by (intros n s; by apply bool_decide_eq_true).
  assert (Hf : forall ip mask, length ip = 4%nat -> 0 <= mask <= 32 -> filter_ok ntoa (ip, mask)) by (intros ip mask H1 H2; split; [by exists ip|done]).
  unfold messages, open_msg, hw, template. rewrite !Forall_cons, Forall_nil. cbn [vns_wf]. split_and!; try done; try (apply Hd; by vm_compute).
  rewrite !Forall_cons, Forall_nil. split_and!; try done; by apply Hf.
Qed.

Definition framed (m : vns_message) : bytes := match vns_frame aton m with Ok p => p | Err _ => [] end.
End Examples.

Lemma vns_roundtrip_witness :
  exists b, vns_pack Examples.aton Examples.template = Ok b /\
    vns_unpack Examples.ntoa 64 b = Ok (Some Examples.template) /\ blen b = vns_length Examples.template + -30.
Proof.
  apply (vns_roundtrip Examples.aton Examples.ntoa Examples.template); [apply Examples.aton_ntoa|].
  pose proof Examples.messages_wf as H. unfold Examples.messages in H. apply Forall_cons in H as [_ H]. do 2 apply Forall_cons in H as [_ H].
  by apply Forall_cons in H as [H _].
Defined.

(** Four messages arrive in pieces of seven bytes, and the beginning of a fifth. *)
Lemma vns_stream_witness :
  let stream := concat (Examples.framed <$> Examples.messages) ++ str "abc" in
  let chunks := (fun i => take 7 (drop (7 * i) stream)) <$> seq 0 100 in
  for_each chunks (vns_received Examples.ntoa noted) (new_lt_conn, []) = (Ok tt, (mk_lt_conn (str "abc") 3, vns_seen <$> Examples.messages)).
Proof.
  intros stream chunks.
  apply (vns_stream Examples.aton Examples.ntoa Examples.messages (Examples.framed <$> Examples.messages) chunks (str "abc")).
  - apply Examples.aton_ntoa.
  - apply Examples.messages_wf.
  - repeat (constructor; [by vm_compute|]). constructor.
  - by left.
  - by vm_compute.
Defined.

(** A length of zero. *)
Lemma short_length_wedges_witness :
  vns_received Examples.ntoa noted (repeat Byte.x00 4) (new_lt_conn, []) = (Err StructError, (whole (repeat Byte.x00 4), [])).
Proof. refine (proj1 (short_length_wedges Examples.ntoa noted (repeat Byte.x00 4) 0 [] _ _ _ _)); [by vm_compute|lia|by vm_compute|by vm_compute]. Defined.
