(* ===== verification/Paths.v ===== *)
(** * Shortest paths between switches ([pox/forwarding/l2_multi.py])

    [_calc_paths] (an all-pairs shortest path computation in the style of Floyd
    and Warshall), [_get_raw_path] and [_get_path].  A switch is known by its
    datapath id.  [adjacency] is a dictionary of dictionaries; its default
    entries, created by reads, hold [None] and stand for absence.  [path_map]
    is indexed by pairs. *)

From S2P Require Import Prelude.

(** ** The code *)

(** [adjacency[sw1][sw2]] is the port of [sw1] that leads to [sw2]. *)
Abbreviation adjacency := (gmap Z (gmap Z Z)).
Definition ports_of (adj : adjacency) (sw : Z) : gmap Z Z := adj !!! sw.
Definition port_to (adj : adjacency) (sw1 sw2 : Z) : option Z := ports_of adj sw1 !! sw2.

(** [path_map[i][j]]: distance and intermediate switch; no entry is the
    default [(None, None)]. *)
Abbreviation path_map := (gmap (Z * Z) (Z * option Z)).
Definition dist (pm : path_map) (i j : Z) : option Z := fst <$> pm !! (i, j).

(** The first loop, for one switch. *)
Definition init_switch (adj : adjacency) (pm : path_map) (k : Z) : path_map :=
  let pm := foldl (fun pm (jp : Z * Z) => <[(k, jp.1) := (1, None)]> pm) pm (map_to_list (ports_of adj k)) in
  <[(k, k) := (0, None)]> pm.

(** The body of the triple loop. *)
Definition relax (k i : Z) (pm : path_map) (j : Z) : path_map :=
  match dist pm i k, dist pm k j with
  | Some ik, Some kj =>
      let ikj_dist := ik + kj in
      if match dist pm i j with None => true | Some d => ikj_dist <? d end
      then <[(i, j) := (ikj_dist, Some k)]> pm else pm
  | _, _ => pm
  end.

Definition calc_paths (sws : list Z) (adj : adjacency) : path_map :=
  let pm := foldl (init_switch adj) ∅ sws in
  foldl (fun pm k => foldl (fun pm i => foldl (relax k i) pm sws) pm sws) pm sws.

(** [_get_raw_path] on a map that has been computed; [None] is Python's. *)
Fixpoint get_raw_path (fuel : nat) (pm : path_map) (src dst : Z) : result (option (list Z)) :=
  match fuel with
  | O => Err OutOfFuel
  | S fuel =>
      if src =? dst then mret (Some []) else
      match pm !! (src, dst) with
      | None => mret None
      | Some (_, None) => mret (Some [])
      | Some (_, Some intermediate) =>
          l ← get_raw_path fuel pm src intermediate; l ← need TypeError l;
          r ← get_raw_path fuel pm intermediate dst; r ← need TypeError r;
          mret (Some (l ++ [intermediate] ++ r))
      end
  end.

(** [_check_path]. *)
Fixpoint check_path (adj : adjacency) (p : list (Z * option Z)) : bool :=
  match p with
  | a :: (b :: _) as p' => bool_decide (port_to adj a.1 b.1 = a.2) && check_path adj p'
  | _ => true
  end.

(** [zip(path[:-1], path[1:])], with the ports. *)
Fixpoint hops (adj : adjacency) (path : list Z) : list (Z * option Z) :=
  match path with
  | s1 :: (s2 :: _) as path' => (s1, port_to adj s1 s2) :: hops adj path'
  | _ => []
  end.

(** The distance bounds the recursion. *)
Definition path_fuel (pm : path_map) (src dst : Z) : nat := S (Z.to_nat (default 0 (dist pm src dst))).

(** [_get_path], with the path map it leaves. *)
Definition get_path (sws : list Z) (adj : adjacency) (pm : path_map) (src dst final_port : Z)
  : result (option (list (Z * option Z))) * path_map :=
  let finish path :=
    let r := hops adj path ++ [(dst, Some final_port)] in
    _ ← guard_ok (check_path adj r) AssertionError; mret (Some r) in
  if src =? dst then (finish [src], pm) else
  let pm := if decide (pm = ∅) then calc_paths sws adj else pm in
  (path ← get_raw_path (path_fuel pm src dst) pm src dst;
   match path with
   | None => mret None
   | Some path => finish ([src] ++ path ++ [dst])
   end, pm).

(** ** Walks *)

Section walks.
Context (adj : adjacency).

Inductive walk : Z -> Z -> nat -> Prop :=
  | walk_here i : walk i i 0
  | walk_hop i v j n : is_Some (port_to adj i v) -> walk v j n -> walk i j (S n).

(** A walk with at least one hop, all of whose inner switches are in [K]. *)
Inductive walk_in (K : list Z) : Z -> Z -> nat -> Prop :=
  | walk_in_one i j : is_Some (port_to adj i j) -> walk_in K i j 1
  | walk_in_hop i v j n : is_Some (port_to adj i v) -> v ∈ K -> walk_in K v j n -> walk_in K i j (S n).

Lemma walk_trans i k j n m : walk i k n -> walk k j m -> walk i j (n + m).
Proof. induction 1 as [|i v k n Hv _ IH]; [done|]. intros H. simpl. eapply walk_hop; eauto. Qed.

(** At [k], a walk splits into two that do not visit it inside. *)
Lemma walk_in_split k K i j n :
  walk_in (k :: K) i j n ->
  walk_in K i j n \/ exists n1 n2, walk_in K i k n1 /\ walk_in K k j n2 /\ (n1 + n2 <= n)%nat.
Proof.
  induction 1 as [i j Hij|i v j n Hv Hin _ IH]; [left; by constructor|].
  apply elem_of_cons in Hin as [->|Hin].
  - right. destruct IH as [IH|(n1 & n2 & _ & IH & Hn)]; [exists 1%nat, n|exists 1%nat, n2].
    all: split_and!; [by constructor|done|lia].
  - destruct IH as [IH|(n1 & n2 & IH1 & IH2 & Hn)]; [left; by eapply walk_in_hop|].
    right. exists (S n1), n2. split_and!; [by eapply walk_in_hop|done|lia].
Qed.

Lemma walk_in_nil i j n : walk_in [] i j n -> n = 1%nat /\ is_Some (port_to adj i j).
Proof. destruct 1 as [|i v j n _ Hin]; [done|]. by apply elem_of_nil in Hin. Qed.

(** All switches are known. *)
Definition closed (sws : list Z) : Prop := forall i j, is_Some (port_to adj i j) -> i ∈ sws /\ j ∈ sws.

Lemma walk_walk_in sws i j n : closed sws -> walk i j (S n) -> walk_in sws i j (S n).
Proof.
  intros Hc. revert i. induction n as [|n IH]; intros i H; inversion H as [|? v ? ? Hv Hw]; subst.
  - inversion Hw. subst. by constructor.
  - apply walk_in_hop with v; [done| |by apply IH]. by apply (Hc i v).
Qed.
End walks.

(** ** Folds that improve a map *)

(** [pm] has a distance of at most [n] from [i] to [j]. *)
Definition dle (pm : path_map) (i j n : Z) : Prop := exists d, dist pm i j = Some d /\ d <= n.
Definition improves (pm pm' : path_map) : Prop := forall i j n, dle pm i j n -> dle pm' i j n.

#[global] Instance improves_refl : Reflexive improves.
Proof. intros pm i j n H. exact H. Qed.
#[global] Instance improves_trans : Transitive improves.
Proof. intros a b c Hab Hbc i j n H. by apply Hbc, Hab. Qed.

Lemma dle_le pm i j n m : dle pm i j n -> n <= m -> dle pm i j m.
Proof. intros (d & H & Hd) Hm. exists d. split; [done|lia]. Qed.

Lemma dist_insert pm i j d o i' j' :
  dist (<[(i, j) := (d, o)]> pm) i' j' = if decide ((i, j) = (i', j')) then Some d else dist pm i' j'.
Proof. unfold dist. rewrite lookup_insert. by destruct (decide _). Qed.

Section fold.
Context {A : Type} (f : path_map -> A -> path_map).
Context (f_improves : forall pm x, improves pm (f pm x)).

Lemma foldl_improves l pm : improves pm (foldl f pm l).
Proof. revert pm. induction l as [|x l IH]; intros pm; [done|]. simpl. transitivity (f pm x); auto. Qed.

(** What one step establishes, and improvement keeps, holds in the end. *)
Lemma foldl_establishes (G : path_map -> Prop) l x pm0 pm :
  improves pm0 pm -> x ∈ l -> (forall pm, improves pm0 pm -> G (f pm x)) ->
  (forall pm pm', improves pm pm' -> G pm -> G pm') -> G (foldl f pm l).
Proof.
  intros H0 Hx Hf HG. revert pm H0. induction Hx as [x l|x y l Hx IH]; intros pm H0; simpl.
  - apply (HG (f pm x)); [apply foldl_improves|by apply Hf].
  - apply IH; [done|]. transitivity pm; [done|apply f_improves].
Qed.
End fold.

Lemma foldl_preserves {A B} (I : A -> Prop) (f : A -> B -> A) l a :
  (forall a x, x ∈ l -> I a -> I (f a x)) -> I a -> I (foldl f a l).
Proof.
  revert a. induction l as [|x l IH]; intros a Hf Ha; [done|]. simpl. apply IH.
  - intros b y Hy. apply Hf. by right.
  - apply Hf; [by left|done].
Qed.

(** The three ways the body of the loop can go. *)
Lemma relax_cases k i pm j :
  relax k i pm j = pm /\
    (forall a b, dist pm i k = Some a -> dist pm k j = Some b -> exists d, dist pm i j = Some d /\ d <= a + b) \/
  exists a b, dist pm i k = Some a /\ dist pm k j = Some b /\
    relax k i pm j = <[(i, j) := (a + b, Some k)]> pm /\ forall d, dist pm i j = Some d -> a + b < d.
Proof.
  unfold relax. destruct (dist pm i k) as [a|]; [|by left]. destruct (dist pm k j) as [b|]; [|by left].
  destruct (dist pm i j) as [d|] eqn:E.
  - destruct (Z.ltb_spec (a + b) d).
    + right. exists a, b. split_and!; [done..|]. intros d' [= <-]. done.
    + left. split; [done|]. intros a' b' [= <-] [= <-]. by exists d.
  - right. exists a, b. by split_and!.
Qed.

Lemma relax_improves k i pm j : improves pm (relax k i pm j).
Proof.
  destruct (relax_cases k i pm j) as [[-> _]|(a & b & _ & _ & -> & Hlt)]; [done|].
  intros i' j' n (d & Hd & Hn). unfold dle. rewrite dist_insert. destruct (decide _) as [[= <- <-]|].
  - exists (a + b). split; [done|]. specialize (Hlt d Hd). lia.
  - by exists d.
Qed.

Lemma relax_establishes k i pm j a b : dle pm i k a -> dle pm k j b -> dle (relax k i pm j) i j (a + b).
Proof.
  intros (a' & Ha & Hla) (b' & Hb & Hlb).
  destruct (relax_cases k i pm j) as [[-> H]|(a2 & b2 & Ha2 & Hb2 & -> & _)].
  - destruct (H a' b' Ha Hb) as (d & Hd & Hle). exists d. split; [done|lia].
  - exists (a2 + b2). rewrite dist_insert, decide_True by done. split; [done|]. simplify_eq. lia.
Qed.

Definition relax_row (sws : list Z) (k : Z) (pm : path_map) (i : Z) : path_map := foldl (relax k i) pm sws.
Definition relax_all (sws : list Z) (pm : path_map) (k : Z) : path_map := foldl (relax_row sws k) pm sws.

Lemma relax_row_improves sws k pm i : improves pm (relax_row sws k pm i).
Proof. apply foldl_improves. intros. apply relax_improves. Qed.
Lemma relax_all_improves sws pm k : improves pm (relax_all sws pm k).
Proof. apply foldl_improves. intros. apply relax_row_improves. Qed.

Lemma relax_all_establishes sws pm k i j a b :
  i ∈ sws -> j ∈ sws -> dle pm i k a -> dle pm k j b -> dle (relax_all sws pm k) i j (a + b).
Proof.
  intros Hi Hj Ha Hb. unfold relax_all.
  apply (foldl_establishes (relax_row sws k) (relax_row_improves sws k) (fun pm => dle pm i j (a + b)) sws i pm pm); [done|done| |by auto].
  intros pm1 H1. unfold relax_row.
  apply (foldl_establishes (relax k i) (relax_improves k i) (fun pm => dle pm i j (a + b)) sws j pm pm1); [done|done| |by auto].
  intros pm2 H2. apply relax_establishes; auto.
Qed.

Lemma relax_all_preserves (I : path_map -> Prop) sws pm k :
  (forall pm i j, i ∈ sws -> j ∈ sws -> I pm -> I (relax k i pm j)) -> I pm -> I (relax_all sws pm k).
Proof.
  intros H Hp. unfold relax_all. apply foldl_preserves; [|done]. intros pm1 i Hi H1.
  unfold relax_row. apply foldl_preserves; [|done].
  intros pm2 j Hj H2. by apply H.
Qed.

Lemma calc_paths_eq sws adj : calc_paths sws adj = foldl (relax_all sws) (foldl (init_switch adj) ∅ sws) sws.
Proof. done. Qed.

(** ** What the loops keep *)

Section calc.
Context (adj : adjacency) (sws : list Z).

Record paths_inv (pm : path_map) : Prop := mk_paths_inv {
  inv_diag k : k ∈ sws -> pm !! (k, k) = Some (0, None);
  inv_walk i j d o : pm !! (i, j) = Some (d, o) -> exists n, d = Z.of_nat n /\ walk adj i j n;
  inv_direct i j d : pm !! (i, j) = Some (d, None) -> i <> j -> d = 1 /\ is_Some (port_to adj i j);
  inv_via i j d k : pm !! (i, j) = Some (d, Some k) ->
    k ∈ sws /\ i <> j /\ i <> k /\ k <> j /\ exists a b, dle pm i k a /\ dle pm k j b /\ a + b <= d
}.

Lemma dist_Some pm i j d : dist pm i j = Some d <-> exists o, pm !! (i, j) = Some (d, o).
Proof.
  unfold dist. split.
  - intros ([d' o] & H & ->)%fmap_Some. by exists o.
  - intros (o & ->). done.
Qed.

Lemma relax_inv k i j pm : k ∈ sws -> i ∈ sws -> j ∈ sws -> paths_inv pm -> paths_inv (relax k i pm j).
Proof.
  intros Hk Hi Hj Hpm. pose proof (relax_improves k i pm j) as Himp.
  destruct (relax_cases k i pm j) as [[-> _]|(a & b & Ha & Hb & E & Hlt)]; [done|]. rewrite E in Himp |- *.
  pose proof Ha as [oa Ea]%dist_Some. pose proof Hb as [ob Eb]%dist_Some.
  destruct (inv_walk _ Hpm _ _ _ _ Ea) as (na & -> & Wa). destruct (inv_walk _ Hpm _ _ _ _ Eb) as (nb & -> & Wb).
  assert (Hne : i <> j /\ i <> k /\ k <> j).
  { split_and!; intros ->.
    - assert (H : dist pm j j = Some 0) by (unfold dist; by rewrite (inv_diag _ Hpm)). specialize (Hlt 0 H). lia.
    - specialize (Hlt (Z.of_nat nb) Hb). lia.
    - specialize (Hlt (Z.of_nat na) Ha). lia. }
  destruct Hne as (Hij & Hik & Hkj). constructor.
  - intros k' Hk'. rewrite lookup_insert_ne by (intros [=]; congruence). by apply Hpm.
  - intros i' j' d o. rewrite lookup_insert. destruct (decide _) as [[= <- <-]|]; [|by apply Hpm].
    intros [= <- <-]. exists (na + nb)%nat. split; [lia|]. by apply walk_trans with k.
  - intros i' j' d. rewrite lookup_insert. destruct (decide _) as [[= <- <-]|]; [done|]. by apply Hpm.
  - intros i' j' d k'. rewrite lookup_insert. destruct (decide _) as [[= <- <-]|].
    + intros [= <- <-]. split_and!; [done..|]. exists (Z.of_nat na), (Z.of_nat nb).
      split; [apply Himp; by exists (Z.of_nat na)|]. split; [apply Himp; by exists (Z.of_nat nb)|]. lia.
    + intros (H1 & H2 & H3 & H4 & a' & b' & H5 & H6 & H7)%(inv_via _ Hpm). split_and!; [done..|].
      exists a', b'. split_and!; [by apply Himp|by apply Himp|done].
Qed.

(** The first loop. *)
Lemma init_ports_lookup (k : Z) (l : list (Z * Z)) (pm : path_map) (i j : Z) :
  foldl (fun pm (jp : Z * Z) => <[(k, jp.1) := (1, None)]> pm) pm l !! (i, j)
  = if decide (i = k /\ j ∈ l.*1) then Some (1, None) else pm !! (i, j).
Proof.
  revert pm. induction l as [|[j' p] l IH]; intros pm; simpl.
  - by rewrite decide_False by (rewrite elem_of_nil; tauto).
  - rewrite IH, lookup_insert. repeat case_decide; simplify_eq; try done; set_solver.
Qed.

Lemma elem_of_ports k j : j ∈ (map_to_list (ports_of adj k)).*1 <-> is_Some (port_to adj k j).
Proof.
  unfold port_to, is_Some. rewrite list_elem_of_fmap. split.
  - intros ([j' p] & -> & H%elem_of_map_to_list). by exists p.
  - intros [p H]. exists (j, p). split; [done|]. by apply elem_of_map_to_list.
Qed.

Lemma init_switch_lookup pm k i j :
  init_switch adj pm k !! (i, j)
  = if decide (i = k) then
      if decide (j = k) then Some (0, None)
      else if decide (is_Some (port_to adj k j)) then Some (1, None) else pm !! (i, j)
    else pm !! (i, j).
Proof.
  unfold init_switch. rewrite lookup_insert, init_ports_lookup.
  repeat match goal with |- context [decide ?P] => destruct (decide P) as [?|?] end; simplify_eq; try done;
    rewrite ?elem_of_ports in *; tauto.
Qed.

Lemma init_lookup l i j :
  foldl (init_switch adj) ∅ l !! (i, j)
  = if decide (i ∈ l) then
      if decide (i = j) then Some (0, None)
      else if decide (is_Some (port_to adj i j)) then Some (1, None) else None
    else None.
Proof.
  induction l as [|k l IH] using rev_ind; [done|]. rewrite foldl_app. cbn [foldl].
  rewrite init_switch_lookup, IH.
  repeat match goal with |- context [decide ?P] => destruct (decide P) as [?|?] end; simplify_eq; try done; set_solver.
Qed.

Lemma init_inv : paths_inv (foldl (init_switch adj) ∅ sws).
Proof.
  constructor.
  - intros k Hk. by rewrite init_lookup, !decide_True.
  - intros i j d o. rewrite init_lookup. repeat case_decide; intros [= <- <-].
    + subst j. exists 0%nat. split; [done|constructor].
    + exists 1%nat. split; [done|]. by apply walk_hop with j; [|constructor].
  - intros i j d. rewrite init_lookup. repeat case_decide; intros [= <-]; [done|]. by split.
  - intros i j d k. rewrite init_lookup. by repeat case_decide; intros [=].
Qed.

Lemma calc_inv : paths_inv (calc_paths sws adj).
Proof.
  rewrite calc_paths_eq. apply foldl_preserves; [|apply init_inv]. intros pm k Hk H.
  apply relax_all_preserves; [|done]. intros. by apply relax_inv.
Qed.

Lemma dle_diag pm k : paths_inv pm -> k ∈ sws -> dle pm k k 0.
Proof. intros Hpm Hk. exists 0. unfold dist. by rewrite (inv_diag _ Hpm). Qed.

(** Once the switches of [K] have been tried, every walk through them is
    matched. *)
Definition complete (K : list Z) (pm : path_map) : Prop :=
  forall i j n, i ∈ sws -> j ∈ sws -> walk_in adj K i j n -> dle pm i j (Z.of_nat n).

Lemma complete_improves K pm pm' : improves pm pm' -> complete K pm -> complete K pm'.
Proof. intros H Hc i j n Hi Hj Hw. apply H. by apply Hc. Qed.

Lemma init_complete : complete [] (foldl (init_switch adj) ∅ sws).
Proof.
  intros i j n Hi Hj [-> Hp]%walk_in_nil. unfold dle, dist. rewrite init_lookup, decide_True by done.
  destruct (decide (i = j)); [by exists 0|]. rewrite decide_True by done. by exists 1.
Qed.

Lemma relax_all_complete k K pm : k ∈ sws -> complete K pm -> complete (k :: K) (relax_all sws pm k).
Proof.
  intros Hk Hc i j n Hi Hj [Hw|(n1 & n2 & H1 & H2 & Hn)]%walk_in_split.
  - apply relax_all_improves. by apply Hc.
  - apply dle_le with (Z.of_nat n1 + Z.of_nat n2); [|lia]. apply relax_all_establishes; [done..| |]; by apply Hc.
Qed.

Lemma walk_in_mono K K' i j n : (forall x, x ∈ K -> x ∈ K') -> walk_in adj K i j n -> walk_in adj K' i j n.
Proof. intros HK. induction 1; [by constructor|eapply walk_in_hop; eauto]. Qed.

Lemma calc_complete : complete sws (calc_paths sws adj).
Proof.
  rewrite calc_paths_eq.
  assert (H : forall l K pm, (forall k, k ∈ l -> k ∈ sws) -> complete K pm ->
    complete (rev l ++ K) (foldl (relax_all sws) pm l)).
  { induction l as [|k l IH]; intros K pm Hl Hc; [done|]. simpl. rewrite <-app_assoc. apply (IH (k :: K)).
    - intros x Hx. apply Hl. by right.
    - apply relax_all_complete; [|done]. apply Hl. by left. }
  intros i j n Hi Hj Hw. apply (H sws [] _ (fun _ Hk => Hk) init_complete i j n Hi Hj).
  revert Hw. apply walk_in_mono. intros x Hx. rewrite app_nil_r.
  apply list_elem_of_In, in_rev. rewrite rev_involutive. by apply list_elem_of_In.
Qed.
End calc.

(** ** Results *)

Section results.
Context (adj : adjacency) (sws : list Z).
Context (adj_closed : closed adj sws).

Definition shortest (i j : Z) (n : nat) : Prop := walk adj i j n /\ forall m, walk adj i j m -> (n <= m)%nat.

Lemma walk_dle i j n : i ∈ sws -> j ∈ sws -> walk adj i j n -> dle (calc_paths sws adj) i j (Z.of_nat n).
Proof.
  intros Hi Hj Hw. destruct n as [|n].
  - inversion Hw. subst. by apply (dle_diag adj sws); [apply calc_inv|].
  - apply calc_complete; [done..|]. by apply walk_walk_in.
Qed.

Lemma calc_dist i j : i ∈ sws -> j ∈ sws ->
  match dist (calc_paths sws adj) i j with
  | Some d => exists n, d = Z.of_nat n /\ shortest i j n
  | None => forall n, ~ walk adj i j n
  end.
Proof.
  intros Hi Hj. destruct (dist _ i j) as [d|] eqn:E.
  - apply dist_Some in E as [o E']. destruct (inv_walk _ _ _ (calc_inv adj sws) _ _ _ _ E') as (n & -> & Hw).
    exists n. split; [done|]. split; [done|]. intros m Hm.
    destruct (walk_dle i j m Hi Hj Hm) as (d & Ed & Hd). unfold dist in Ed. rewrite E' in Ed. injection Ed as <-. lia.
  - intros n Hw. destruct (walk_dle i j n Hi Hj Hw) as (d & Ed & _). congruence.
Qed.

(** A chain of adjacent switches from [i] to [j], with those in between. *)
Fixpoint chain (i : Z) (l : list Z) (j : Z) : Prop :=
  match l with
  | [] => is_Some (port_to adj i j)
  | k :: l => is_Some (port_to adj i k) /\ chain k l j
  end.

Lemma chain_app i l k r j : chain i l k -> chain k r j -> chain i (l ++ k :: r) j.
Proof.
  revert i. induction l as [|x l IH]; intros i; simpl; [by split|]. intros [Hx Hl] Hr. split; [done|]. by apply IH.
Qed.

(** The two halves of a shortest path found through [k]. *)
Lemma via_exact i j d k : i ∈ sws -> j ∈ sws -> calc_paths sws adj !! (i, j) = Some (d, Some k) ->
  k ∈ sws /\ i <> k /\ k <> j /\ exists a b, dist (calc_paths sws adj) i k = Some a /\
    dist (calc_paths sws adj) k j = Some b /\ a + b = d /\ 0 < a /\ 0 < b.
Proof.
  intros Hi Hj E. pose proof (calc_inv adj sws) as Hinv.
  destruct (inv_via _ _ _ Hinv _ _ _ _ E) as (Hk & _ & Hik & Hkj & a & b & (a' & Ea & La) & (b' & Eb & Lb) & Hab).
  split_and!; [done..|]. exists a', b'. split_and!; [done..| | |].
  - pose proof (calc_dist i j Hi Hj) as H. unfold dist in H at 1. rewrite E in H. destruct H as (n & Hn & _ & Hmin).
    pose proof (calc_dist i k Hi Hk) as H1. rewrite Ea in H1. destruct H1 as (na & -> & Wa & _).
    pose proof (calc_dist k j Hk Hj) as H2. rewrite Eb in H2. destruct H2 as (nb & -> & Wb & _).
    pose proof (Hmin _ (walk_trans _ _ _ _ _ _ Wa Wb)). simpl in Hn. lia.
  - pose proof (calc_dist i k Hi Hk) as H1. rewrite Ea in H1. destruct H1 as (na & -> & Wa & _).
    destruct na; [by inversion Wa|lia].
  - pose proof (calc_dist k j Hk Hj) as H2. rewrite Eb in H2. destruct H2 as (nb & -> & Wb & _).
    destruct nb; [by inversion Wb|lia].
Qed.

Lemma raw_path_ok fuel i j d :
  i ∈ sws -> j ∈ sws -> i <> j -> dist (calc_paths sws adj) i j = Some d -> d < Z.of_nat fuel ->
  exists l, get_raw_path fuel (calc_paths sws adj) i j = Ok (Some l) /\ chain i l j /\ blen l + 1 = d.
Proof.
  revert i j d. induction fuel as [|fuel IH]; intros i j d Hi Hj Hij Hd Hf.
  { pose proof (calc_dist i j Hi Hj) as H. rewrite Hd in H. destruct H as (n & -> & _). lia. }
  cbn [get_raw_path]. rewrite (proj2 (Z.eqb_neq i j)) by done. apply dist_Some in Hd as [[k|] E]; rewrite E.
  - destruct (via_exact i j d k Hi Hj E) as (Hk & Hik & Hkj & a & b & Ea & Eb & Hab & Ha & Hb).
    destruct (IH i k a Hi Hk Hik Ea ltac:(lia)) as (l & -> & Cl & Ll).
    destruct (IH k j b Hk Hj Hkj Eb ltac:(lia)) as (r & Er & Cr & Lr).
    cbn [mbind result_bind need]. rewrite Er. exists (l ++ [k] ++ r). split; [done|]. split; [by apply chain_app|].
    rewrite !blen_app. unfold blen in *. simpl. lia.
  - destruct (inv_direct _ _ _ (calc_inv adj sws) _ _ _ E Hij) as [-> Hp]. by exists [].
Qed.

Lemma raw_path_none fuel i j :
  i <> j -> dist (calc_paths sws adj) i j = None -> get_raw_path (S fuel) (calc_paths sws adj) i j = Ok None.
Proof.
  intros Hij Hd. cbn [get_raw_path]. rewrite (proj2 (Z.eqb_neq i j)) by done. unfold dist in Hd.
  by destruct (calc_paths sws adj !! (i, j)).
Qed.
End results.

(** [r] leads from [src] to [dst] along ports to adjacent switches, and out of
    [final_port]. *)
Fixpoint route (adj : adjacency) (src dst final_port : Z) (r : list (Z * option Z)) : Prop :=
  match r with
  | [] => False
  | (s, p) :: r' =>
      s = src /\
      match r' with
      | [] => s = dst /\ p = Some final_port
      | (s', _) :: _ => is_Some p /\ port_to adj s s' = p /\ route adj s' dst final_port r'
      end
  end.

Lemma hops_route adj src l dst fp :
  chain adj src l dst -> route adj src dst fp (hops adj (src :: l ++ [dst]) ++ [(dst, Some fp)]).
Proof.
  revert src. induction l as [|k l IH]; intros src; simpl.
  - intros H. by split_and!.
  - intros [Hk Hl]. specialize (IH k Hl). split; [done|]. destruct l; exact (conj Hk (conj eq_refl IH)).
Qed.

Lemma length_hops adj src l : length (hops adj (src :: l)) = length l.
Proof. revert src. induction l as [|k l IH]; intros src; [done|]. exact (f_equal S (IH k)). Qed.

(** [assert _check_path(r)] holds. *)
Lemma route_check adj src dst fp r : route adj src dst fp r -> check_path adj r = true.
Proof.
  revert src. induction r as [|[s p] r IH]; intros src; [done|]. destruct r as [|[s' p'] r]; [done|].
  intros (_ & _ & Hp & Hr). change (bool_decide (port_to adj s s' = p) && check_path adj ((s', p') :: r) = true).
  rewrite (IH _ Hr), andb_true_r. by apply bool_decide_eq_true.
Qed.

(** The path map is empty or that of the present adjacency, for the switches
    known at some time. *)
Definition paths_ok (sws : list Z) (adj : adjacency) (pm : path_map) : Prop :=
  pm = ∅ \/ exists sws', (forall s, s ∈ sws' -> s ∈ sws) /\ closed adj sws' /\ pm = calc_paths sws' adj.

Lemma walk_closed adj sws i j n : closed adj sws -> walk adj i j (S n) -> i ∈ sws /\ j ∈ sws.
Proof.
  intros Hc. revert i. induction n as [|n IH]; intros i H; inversion H as [|? v ? ? Hv Hw]; subst.
  - inversion Hw. subst. by apply (Hc i j).
  - split; [by apply (Hc i v)|]. by apply (IH v).
Qed.

Lemma outside_none adj sws i j :
  closed adj sws -> i <> j -> ~ (i ∈ sws /\ j ∈ sws) ->
  dist (calc_paths sws adj) i j = None /\ forall n, ~ walk adj i j n.
Proof.
  intros Hc Hij Hout.
  assert (Hw : forall n, ~ walk adj i j n).
  { intros [|n] Hw; [by inversion Hw|]. by apply Hout, (walk_closed adj sws i j n). }
  split; [|done]. destruct (dist _ i j) as [d|] eqn:E; [|done].
  apply dist_Some in E as [o E]. destruct (inv_walk _ _ _ (calc_inv adj sws) _ _ _ _ E) as (n & _ & H).
  by apply Hw in H.
Qed.

(** What a search in a computed map finds. *)
Definition path_found (adj : adjacency) (src dst fp : Z) (o : option (list (Z * option Z))) : Prop :=
  match o with
  | Some r => route adj src dst fp r /\ exists n, shortest adj src dst n /\ length r = S n
  | None => forall n, ~ walk adj src dst n
  end.

Lemma get_path_computed adj sws src dst fp :
  closed adj sws -> src <> dst -> exists o,
    (path ← get_raw_path (path_fuel (calc_paths sws adj) src dst) (calc_paths sws adj) src dst;
     match path with
     | None => mret None
     | Some path =>
         let r := hops adj ([src] ++ path ++ [dst]) ++ [(dst, Some fp)] in
         _ ← guard_ok (check_path adj r) AssertionError; mret (Some r)
     end) = Ok o /\ path_found adj src dst fp o.
Proof.
  intros Hc Hne. unfold path_fuel. destruct (dist (calc_paths sws adj) src dst) as [d|] eqn:E.
  - destruct (decide (src ∈ sws /\ dst ∈ sws)) as [[Hs Hd]|Hout].
    2: { apply (outside_none adj) in Hout as [E' _]; [congruence|done..]. }
    pose proof (calc_dist adj sws Hc src dst Hs Hd) as Hn. rewrite E in Hn. destruct Hn as (n & -> & Hn).
    destruct (raw_path_ok adj sws Hc (S (Z.to_nat (Z.of_nat n))) src dst _ Hs Hd Hne E ltac:(lia)) as (l & El & Cl & Ll).
    cbn [default from_option id]. rewrite El. cbn [mbind result_bind]. cbv zeta.
    change ([src] ++ l ++ [dst]) with (src :: l ++ [dst]).
    pose proof (hops_route adj src l dst fp Cl) as Hr. rewrite (route_check _ _ _ _ _ Hr). eexists. split; [reflexivity|].
    split; [exact Hr|]. exists n. split; [done|]. cbn [app]. rewrite length_app, length_hops, length_app. unfold blen in Ll.
    simpl. lia.
  - rewrite raw_path_none by done. exists None. split; [done|]. intros n.
    destruct (decide (src ∈ sws /\ dst ∈ sws)) as [[Hs Hd]|Hout].
    + pose proof (calc_dist adj sws Hc src dst Hs Hd) as Hn. rewrite E in Hn. apply Hn.
    + by apply (outside_none adj sws).
Qed.

(** ** Properties *)

(** C31: [_calc_paths] computes hop distances: for any two known switches the
    map holds the length of a shortest chain of adjacent switches, and nothing
    exactly when there is no chain. *)
Theorem calc_paths_spec (adj : adjacency) (sws : list Z) (i j : Z) :
  closed adj sws -> i ∈ sws -> j ∈ sws ->
  match dist (calc_paths sws adj) i j with
  | Some d => exists n, d = Z.of_nat n /\ shortest adj i j n
  | None => forall n, ~ walk adj i j n
  end.
Proof. intros. by apply calc_dist. Qed.

(** [_get_path] returns a route: every hop leaves by the port to the next
    switch, the last one by the port asked for, and no route has fewer hops;
    [None] exactly when the switches are not connected.  It never fails: the
    recursion over intermediate switches ends and the assertion holds.  The map
    it leaves is again one of the present adjacency. *)
Theorem get_path_spec (sws : list Z) (adj : adjacency) (pm : path_map) (src dst final_port : Z) :
  closed adj sws -> paths_ok sws adj pm ->
  exists o pm', get_path sws adj pm src dst final_port = (Ok o, pm') /\ paths_ok sws adj pm' /\
    path_found adj src dst final_port o.
Proof.
  intros Hc Hpm. unfold get_path. destruct (Z.eqb_spec src dst) as [->|Hne].
  - exists (Some [(dst, Some final_port)]), pm. split; [done|]. split; [done|]. split; [done|].
    exists 0%nat. split; [|done]. split; [constructor|lia].
  - assert (H : exists sws', (forall s, s ∈ sws' -> s ∈ sws) /\ closed adj sws' /\
      (if decide (pm = ∅) then calc_paths sws adj else pm) = calc_paths sws' adj).
    { destruct (decide (pm = ∅)) as [->|Hn]; [by exists sws|]. by destruct Hpm as [->|H]. }
    destruct H as (sws' & Hsub & Hc' & ->).
    destruct (get_path_computed adj sws' src dst final_port Hc' Hne) as (o & Ho & Hf).
    exists o, (calc_paths sws' adj). cbv zeta in Ho |- *. rewrite Ho. split; [done|]. split; [|done]. right. by exists sws'.
Qed.

(** Five switches: a ring of four, and one on its own. *)
Definition example_sws : list Z := [1; 2; 3; 4; 5].
Definition example_adjacency : adjacency :=
  {[ 1 := {[ 2 := 1; 4 := 2 ]}; 2 := {[ 1 := 1; 3 := 2 ]}; 3 := {[ 2 := 1; 4 := 2 ]}; 4 := {[ 3 := 1; 1 := 2 ]} ]}.

Lemma example_closed : closed example_adjacency example_sws.
Proof.
  intros i j [p H]. unfold port_to, ports_of in H.
  assert (Hm : map_Forall (fun i m => i ∈ example_sws /\ map_Forall (fun j _ => j ∈ example_sws) m) example_adjacency)
    by (apply (bool_decide_unpack _); vm_compute; exact I).
  unfold lookup_total, map_lookup_total in H. destruct (example_adjacency !! i) as [m|] eqn:E.
  - destruct (Hm _ _ E) as [Hi Hj]. split; [done|]. by eapply Hj.
  - done.
Defined.

Lemma calc_paths_spec_witness :
  (dist (calc_paths example_sws example_adjacency) 1 3 = Some 2 /\
   dist (calc_paths example_sws example_adjacency) 1 5 = None) /\
  match dist (calc_paths example_sws example_adjacency) 1 3 with
  | Some d => exists n, d = Z.of_nat n /\ shortest example_adjacency 1 3 n
  | None => forall n, ~ walk example_adjacency 1 3 n
  end.
Proof.
  split; [split; vm_compute; reflexivity|].
  apply (calc_paths_spec example_adjacency example_sws 1 3 example_closed);
    apply (bool_decide_unpack _); vm_compute; exact I.
Defined.

Lemma get_path_spec_witness :
  fst (get_path example_sws example_adjacency ∅ 1 3 7) = Ok (Some [(1, Some 1); (2, Some 2); (3, Some 7)]) /\
  exists o pm', get_path example_sws example_adjacency ∅ 1 3 7 = (Ok o, pm') /\
    paths_ok example_sws example_adjacency pm' /\ path_found example_adjacency 1 3 7 o.
Proof.
  split; [vm_compute; reflexivity|].
  apply (get_path_spec example_sws example_adjacency ∅ 1 3 7 example_closed). by left.
Defined.
