(* ===== verification/Controller.v ===== *)
(** * What the controller applications share

    The packet-in event of [pox/openflow/__init__.py] and the messages an
    application sends.  An application is a function from its state and an
    event to a new state and the messages it sends, in order; a message is the
    object handed to [Connection.send]. *)

From stdpp Require Import pretty.
From S2P Require Import Prelude PyStruct Addresses Codec OfpMatch OfpActions OfpStructs OfpMessages OfpVarMessages OfpStream.
From S2P Require Import Packet.

(** [PacketIn]: where the packet came from, the outcome of parsing it, the
    buffer the switch keeps it in (or -1), and its bytes. *)
Record PacketIn := mk_PacketIn {
  ev_dpid : Z;
  ev_port : Z;
  ev_parsed : result ethernet;
  ev_buffer_id : Z;
  ev_data : bytes
}.

(** The addresses of a parsed frame are [EthAddr] objects. *)
Definition eth_of (h : hwaddr) : result EthAddr :=
  match h with HwEth a => mret a | HwRaw _ => Err AttributeError end.

(** [of.ofp_action_output(port=port)]. *)
Definition output (port : Z) : action := AOutput (mk_action_output OFPAT_OUTPUT 8 (Some port) 0xffff).

(** [msg = of.ofp_flow_mod()] with the fields the applications set. *)
Definition flow_mod (m : ofp_match) (idle hard buffer_id : Z) (actions : list action) : message :=
  MFlowMod (mk_ofp_flow_mod (new_header OFPT_FLOW_MOD) m 0 OFPFC_ADD idle hard OFP_DEFAULT_PRIORITY buffer_id
    OFPP_NONE 0 actions).

(** [msg = of.ofp_packet_out()] with the fields the applications set. *)
Definition packet_out (buffer_id in_port : Z) (actions : list action) (data : bytes) : message :=
  MPacketOut (mk_ofp_packet_out (new_header OFPT_PACKET_OUT) buffer_id in_port actions data).

(** Run a handler over a sequence of events; an exception ends the handling of
    its event only, as [raiseEventNoErrors] catches it. *)
Fixpoint run {S E O} (step : S -> E -> result (list O) * S) (s : S) (evs : list E) : list (result (list O)) * S :=
  match evs with
  | [] => ([], s)
  | e :: evs => let '(o, s) := step s e in let '(os, s) := run step s evs in (o :: os, s)
  end.

Lemma run_app {S E O} (step : S -> E -> result (list O) * S) s e1 e2 :
  run step s (e1 ++ e2)
  = let '(o1, s1) := run step s e1 in let '(o2, s2) := run step s1 e2 in (o1 ++ o2, s2).
Proof.
  revert s. induction e1 as [|e e1 IH]; intros s; simpl; [by destruct (run step s e2)|].
  destruct (step s e) as [o s']. rewrite IH. destruct (run step s' e1) as [o1 s1]. by destruct (run step s1 e2).
Qed.

Lemma run_snoc {S E O} (step : S -> E -> result (list O) * S) s h e :
  snd (run step s (h ++ [e])) = snd (step (snd (run step s h)) e).
Proof.
  rewrite run_app. destruct (run step s h) as [o1 s1]. cbn [run snd]. by destruct (step s1 e).
Qed.

(** [dpidToStr] of a number: six bytes in hexadecimal, and the upper two in
    decimal unless they are zero. *)
Definition dpidToStr (dpid : Z) (alwaysLong : bool) : result bytes :=
  d ← pack [cQ] (dpid, tt);
  let r := join (str "-") ((fun b => fmt_02x (byte_to_Z b)) <$> pyfrom d 2) in
  if alwaysLong || negb (bool_decide (pyslice d 0 2 = [x00; x00]))
  then mret (r ++ str "|" ++ str (pretty (be_decode (pyslice d 0 2)))) else mret r.

(** [packet.find('ipv4')] below the Ethernet header: the first parsed IP
    header, looking through parsed headers only ([packet_base] objects are true
    when parsed). *)
Fixpoint find_ipv4 (p : payload) : option (ipv4 * payload) :=
  match p with
  | PHdr true (HIpv4 h) next => Some (h, next)
  | PHdr true _ next => find_ipv4 next
  | _ => None
  end.

(** What an output to a port other than the controller is at the other end: its
    maximum length is cleared when it is packed. *)
Lemma output_after q l :
  q <= OFPP_MAX -> eq_all l (map action_after [output q]) = true ->
  l = [AOutput (mk_action_output OFPAT_OUTPUT 8 (Some q) 0)].
Proof.
  intros Hq. cbn [map action_after output]. unfold action_output_after. cbn [ao_port ao_type ao_length].
  rewrite bool_decide_eq_false_2 by (unfold OFPP_CONTROLLER, OFPP_MAX in *; intros [= ->]; lia).
  destruct l as [|a [|]]; cbn; rewrite ?andb_false_r; try done. rewrite andb_true_r.
  destruct a as [|[t l o ml]| | | | | | | | | | | | | | |]; try done. cbn. unfold action_output_eq. cbn.
  rewrite !andb_true_iff, !Z.eqb_eq, bool_decide_eq_true. by intros [[[-> ->] ->] ->].
Qed.
