(* ===== verification/Router.v ===== *)
(** * The software router's bridge ([pox_module/CSE425/srhandler.py] and
    [ofhandler.py], beside [pox])

    Frames a switch sends to the controller go to every client of the VNS server
    (a router written by a student), and frames a client sends go out by the
    switch.  [router] is the state of the two components: the server's clients
    and tables, the listeners made for the switches, each client's unread bytes,
    and what was done to the outside, in order: bytes written to a client's
    transport, a transport told to close, messages handed to a switch's
    connection.  [raiseEvent] calls the listeners in the order they registered;
    the server is the only one of the OpenFlow side's events and every switch
    handler is one of the server's.  Next to it are the bytes each client's
    connection has not used yet.  The OpenFlow side and Twisted run in two
    threads; a handler is taken as one step here. *)

From stdpp Require Import pretty.
From S2P Require Import Prelude PyStruct Addresses Codec OfpMatch OfpActions OfpStructs OfpMessages OfpVarMessages OfpStream.
From S2P Require Import Packet Controller Numerals Vns.

(** ** Settings ([get_ip_setting]) *)

(** [line.split()]. *)
Fixpoint split_space (s : bytes) : list bytes :=
  match s with
  | [] => []
  | b :: s' =>
      if is_space b then split_space s' else
      match s' with
      | [] => [[b]]
      | b' :: _ => if is_space b' then [b] :: split_space s' else
          match split_space s' with w :: ws => (b :: w) :: ws | [] => [[b]] end
      end
  end.

(** [IP_SETTING], [RTABLE] and [ROUTER_IP]. *)
Record settings := mk_settings { IP_SETTING : gmap bytes bytes; RTABLE : list (bytes * bytes * bytes * bytes); ROUTER_IP : gmap bytes bytes }.
Definition new_settings : settings := mk_settings ∅ [] ∅.

Definition read_setting (line : bytes) : M settings bool :=
  match split_space line with
  | [] => mret true
  | [name; ip] =>
      if decide (ip = str "<ELASTIC_IP>") then lift (Err (SystemExit 2)) else
      _ ← modify (fun s => mk_settings (<[name := ip]> (IP_SETTING s)) (RTABLE s) (ROUTER_IP s)); mret false
  | _ => lift (Err ValueError)
  end.
Fixpoint read_settings (lines : list bytes) : M settings unit :=
  match lines with
  | [] => mret tt
  | l :: lines => stop ← read_setting l; if stop : bool then mret tt else read_settings lines
  end.

Definition setting (name : string) : M settings bytes := s ← get IP_SETTING; lift (need KeyError (s !! str name)).
Definition add_route (name intf : string) : M settings unit :=
  ip ← setting name; gw ← setting name;
  modify (fun s => mk_settings (IP_SETTING s) (RTABLE s ++ [(ip, gw, str "255.255.255.255", str intf)]) (ROUTER_IP s)).
Definition add_router_ip (intf name : string) : M settings unit :=
  ip ← setting name; modify (fun s => mk_settings (IP_SETTING s) (RTABLE s) (<[str intf := ip]> (ROUTER_IP s))).

(** [None]: there is no such file. *)
Definition get_ip_setting (file : option (list bytes)) : M settings Z :=
  match file with
  | None => mret (-1)
  | Some lines =>
      _ ← read_settings lines;
      _ ← add_route "client" "eth3"; _ ← add_route "server1" "eth1"; _ ← add_route "server2" "eth2";
      _ ← add_router_ip "eth1" "sw0-eth1"; _ ← add_router_ip "eth2" "sw0-eth2"; _ ← add_router_ip "eth3" "sw0-eth3";
      mret 0
  end.

(** [launch()] of [ofhandler], after registering the component. *)
Definition launch (file : option (list bytes)) : M settings unit :=
  r ← get_ip_setting file; if r =? -1 then lift (Err (SystemExit 2)) else mret tt.

(** ** State *)
Inductive deed :=
  | Written (client : nat) (frame : bytes)
  | LoseConnection (client : nat)
  | SentConfig (switch : nat) (m : ofp_switch_config)
  | Sent (switch : nat) (m : message).

Record router := mk_router {
  srclients : list nat;
  intfname_to_port : gmap bytes Z;
  port_to_intfname : gmap Z bytes;
  interfaces : option (list VNSInterface);   (* no attribute before the first [RouterInfo] *)
  handlers : list nat;                       (* the connections of the [OFHandler]s *)
  effects : list deed
}.
Definition new_router : router := mk_router [] ∅ ∅ None [] [].

Definition set_srclients l (r : router) : router :=
  mk_router l (intfname_to_port r) (port_to_intfname r) (interfaces r) (handlers r) (effects r).
Definition map_interface (intf : bytes) (port : Z) (r : router) : router :=
  mk_router (srclients r) (<[intf := port]> (intfname_to_port r)) (<[port := intf]> (port_to_intfname r)) (interfaces r) (handlers r) (effects r).
Definition set_interfaces l (r : router) : router :=
  mk_router (srclients r) (intfname_to_port r) (port_to_intfname r) (Some l) (handlers r) (effects r).
Definition add_handler s (r : router) : router :=
  mk_router (srclients r) (intfname_to_port r) (port_to_intfname r) (interfaces r) (handlers r ++ [s]) (effects r).
Definition add_effects l (r : router) : router :=
  mk_router (srclients r) (intfname_to_port r) (port_to_intfname r) (interfaces r) (handlers r) (effects r ++ l).
Definition record (e : deed) : M router unit := modify (add_effects [e]).

(** ** Addresses as text ([srhandler.py]) *)
Definition pack_octet (base : Z) (s : bytes) : result byte := z ← need ValueError (py_int base s); py_chr z.
Definition pack_mac (macaddr : bytes) : result bytes := mapR (pack_octet 16) (split_on x3a macaddr).
Definition pack_ip (ipaddr : bytes) : result bytes := mapR (pack_octet 10) (split_on x2e ipaddr).

(** ** The VNS server ([SRServerListener]) *)

(** What [conn.send] is given: a message, or a plain string, which has no
    [pack]. *)
Inductive outgoing := Msg (m : vns_message) | Text (s : bytes).

Section server.
(** [socket]'s address functions, [str(conn)], [dict.items()] of a switch's
    interfaces, and the text of a frame, [str(ethernet(pkt))], which is printed. *)
Context (inet_aton : bytes -> result bytes) (inet_ntoa : bytes -> bytes) (peer : nat -> bytes).
Context (items : gmap bytes (bytes * bytes * Z) -> list (bytes * (bytes * bytes * Z))).
Context (frame_str : bytes -> result bytes).

Definition conn_send (conn : nat) (m : outgoing) : M router unit :=
  match m with
  | Msg m => p ← lift (vns_frame inet_aton m); record (Written conn p)
  | Text _ => lift (Err AttributeError)
  end.
Definition loseConnection (conn : nat) : M router unit := record (LoseConnection conn).

Definition broadcast (m : vns_message) : M router unit :=
  clients ← get srclients; for_each clients (fun c => conn_send c (Msg m)).

Definition handle_SRPacketIn (pkt : bytes) (port : Z) : M router unit :=
  names ← get port_to_intfname;
  match names !! port with
  | None => mret tt
  | Some intfname => _ ← lift (frame_str pkt); broadcast (VNSPacket intfname pkt)
  end.

Fixpoint add_interfaces (info : list (bytes * (bytes * bytes * Z))) : M router (list VNSInterface) :=
  match info with
  | [] => mret []
  | (intf, (ip, mac, port)) :: info =>
      ip ← lift (pack_ip ip);
      mac ← lift (pack_mac mac);
      mask ← lift (pack_ip (str "255.255.255.255"));
      i ← lift (new_VNSInterface intf mac ip mask);
      _ ← modify (map_interface intf port);
      l ← add_interfaces info;
      mret (i :: l)
  end.
Definition handle_RouterInfo (info : gmap bytes (bytes * bytes * Z)) : M router unit :=
  l ← add_interfaces (items info); modify (set_interfaces l).

Definition handle_auth_reply (conn : nat) : M router unit :=
  conn_send conn (Msg (VNSAuthStatus true (str "authenticated " ++ peer conn ++ str " as user"))).
Definition handle_new_client (conn : nat) (salt : bytes) : M router unit :=
  _ ← modify (fun r => set_srclients (srclients r ++ [conn]) r);
  conn_send conn (Msg (VNSAuthRequest salt)).
Definition handle_client_disconnected (conn : nat) : M router unit := loseConnection conn.

(** The exception of a failed [send], or of the missing attribute, is caught. *)
Definition handle_open_msg (conn : nat) : M router unit := fun r =>
  match (l ← lift (need AttributeError (interfaces r)); conn_send conn (Msg (VNSHardwareInfo l))) r with
  | (_, r) => (Ok tt, r)
  end.
Definition handle_close_msg (conn : nat) : M router unit :=
  _ ← conn_send conn (Text (str "Goodbyte!")); loseConnection conn.

(** [_handle_SRPacketOut] of every [OFHandler]. *)
Definition handle_SRPacketOut (pkt : bytes) (port : Z) (switch : nat) : M router unit :=
  record (Sent switch (packet_out (-1) OFPP_NONE [output port] pkt)).
Definition raise_SRPacketOut (pkt : bytes) (port : Z) : M router unit :=
  l ← get handlers; for_each l (handle_SRPacketOut pkt port).

(** The message of the missing interface names [out_port], which is not bound. *)
Definition handle_packet_msg (intf_name ethernet_frame : bytes) : M router unit :=
  ports ← get intfname_to_port;
  match ports !! intf_name with
  | None => lift (Err UnboundLocalError)
  | Some out_port => raise_SRPacketOut ethernet_frame out_port
  end.

(** There is no [_handle_open_template_msg]. *)
Definition handle_recv_msg (conn : nat) (m : option vns_message) : M router unit :=
  match m with
  | None => handle_close_msg conn
  | Some (VNSAuthReply _ _) => handle_auth_reply conn
  | Some (VNSOpen _ _ _ _) => handle_open_msg conn
  | Some (VNSClose _) => handle_close_msg conn
  | Some (VNSPacket intf_name frame) => handle_packet_msg intf_name frame
  | Some (VNSOpenTemplate _ _ _) => lift (Err AttributeError)
  | Some _ => mret tt
  end.

(** A connection is made ([connectionMade]), and gets data: each has its own
    unread bytes. *)
Definition connectionMade (conn : nat) (salt : bytes) : M (gmap nat lt_conn * router) unit := fun '(conns, r) =>
  let '(res, r) := handle_new_client conn salt r in (res, (<[conn := new_lt_conn]> conns, r)).
Definition client_data (conn : nat) (data : bytes) : M (gmap nat lt_conn * router) unit := fun '(conns, r) =>
  match conns !! conn with
  | None => (Ok tt, (conns, r))
  | Some k => let '(res, (k, r)) := vns_received inet_ntoa (handle_recv_msg conn) data (k, r) in (res, (<[conn := k]> conns, r))
  end.

(** ** Switches ([OFHandler]) *)

Definition hw_toStr (h : hwaddr) : result bytes := match h with HwEth a => mret (eth_toStr a (str ":")) | HwRaw _ => Err AttributeError end.
(** [sw_info] from the ports of a switch. *)
Fixpoint switch_info (router_ip : gmap bytes bytes) (ports : list ofp_phy_port) (sw_info : gmap bytes (bytes * bytes * Z)) : result (gmap bytes (bytes * bytes * Z)) :=
  match ports with
  | [] => mret sw_info
  | p :: ports =>
      match split_on x2d (pp_name p) with
      | _ :: intf_name :: _ =>
          match router_ip !! intf_name with
          | Some ip => mac ← hw_toStr (pp_hw_addr p); switch_info router_ip ports (<[intf_name := (ip, mac, pp_port_no p)]> sw_info)
          | None => switch_info router_ip ports sw_info
          end
      | _ => switch_info router_ip ports sw_info
      end
  end.
Definition of_switch_config (miss_send_len : Z) : ofp_switch_config :=
  mk_ofp_switch_config (with_length (new_header OFPT_SET_CONFIG) 12) 0 miss_send_len.

(** [OFHandler.__init__], for [_handle_ConnectionUp]. *)
Definition handle_ConnectionUp (router_ip : gmap bytes bytes) (switch : nat) (ports : list ofp_phy_port) : M router unit :=
  _ ← record (SentConfig switch (of_switch_config 65535));
  info ← lift (switch_info router_ip ports ∅);
  _ ← modify (add_handler switch);
  handle_RouterInfo info.

(** [_handle_PacketIn]: [pkt.raw] is the frame that was parsed. *)
Definition handle_PacketIn (switch : nat) (event : PacketIn) : M router unit :=
  _ ← lift (ev_parsed event);
  _ ← handle_SRPacketIn (ev_data event) (ev_port event);
  record (Sent switch (packet_out (ev_buffer_id event) (ev_port event) [] [])).
End server.

(** ** Lemmas *)

Lemma add_effects_app l1 l2 r : add_effects l2 (add_effects l1 r) = add_effects (l1 ++ l2) r.
Proof. unfold add_effects. cbn. by rewrite <-app_assoc. Qed.
Lemma add_no_effects r : add_effects [] r = r.
Proof. destruct r. unfold add_effects. cbn. by rewrite app_nil_r. Qed.

Lemma for_each_record {A} (l : list A) (f : A -> deed) r :
  for_each l (fun a => record (f a)) r = (Ok tt, add_effects (f <$> l) r).
Proof.
  revert r. induction l as [|a l IH]; intros r; [by rewrite add_no_effects|].
  cbn [for_each]. rewrite M_bind_unfold. cbn [record modify]. by rewrite IH, add_effects_app.
Qed.
Lemma for_each_ext {S A} (l : list A) (f g : A -> M S unit) s :
  (forall a s, f a s = g a s) -> for_each l f s = for_each l g s.
Proof.
  intros H. revert s. induction l as [|a l IH]; intros s; [done|]. cbn [for_each]. rewrite !M_bind_unfold, H.
  by destruct (g a s) as [[[]|e] s'].
Qed.

Section lemmas.
Context (inet_aton : bytes -> result bytes) (inet_ntoa : bytes -> bytes) (peer : nat -> bytes).
Context (items : gmap bytes (bytes * bytes * Z) -> list (bytes * (bytes * bytes * Z))).
Context (frame_str : bytes -> result bytes).

Lemma broadcast_ok m p r : vns_frame inet_aton m = Ok p ->
  broadcast inet_aton m r = (Ok tt, add_effects ((fun c => Written c p) <$> srclients r) r).
Proof.
  intros E. unfold broadcast. rewrite M_bind_unfold. cbn [get]. rewrite (for_each_ext _ _ (fun c => record (Written c p))); [apply for_each_record|].
  intros c s. cbn [conn_send]. by rewrite E.
Qed.
Lemma raise_SRPacketOut_ok pkt port r :
  raise_SRPacketOut pkt port r = (Ok tt, add_effects ((fun s => Sent s (packet_out (-1) OFPP_NONE [output port] pkt)) <$> handlers r) r).
Proof. unfold raise_SRPacketOut. rewrite M_bind_unfold. cbn [get]. apply for_each_record. Qed.

(** The frame of a packet message. *)
Lemma packet_frame intf data : text_ok 16 intf -> uint_ok 4 (24 + blen data) ->
  exists f, frame_ok 4 4 f /\ vns_frame inet_aton (VNSPacket intf data) = Ok (frame_bytes 4 4 f) /\
    vns_unpack inet_ntoa f.1 f.2 = Ok (Some (VNSPacket intf data)).
Proof.
  intros Hi Hl. destruct (packet_back inet_aton inet_ntoa intf data Hi) as (b & Eb & Hu & Lb). exists (4, b). cbn [fst snd]. cbn [vns_length length_slip] in Lb.
  assert (Hok : frame_ok 4 4 (4, b)). { split; [|done]. cbn [snd]. rewrite Lb. by replace (Z.of_nat (4 + 4) + (16 + blen data + 0)) with (24 + blen data) by lia. }
  split; [done|]. split; [|exact Hu]. unfold vns_frame, pack_with_header. rewrite Eb. cbn [mbind result_bind vns_type]. rewrite pack_ok; [done|]. destruct Hok. by split_and!.
Qed.

Definition packets_out (hs : list nat) (out_port : bytes -> Z) (f : bytes * bytes) : list deed :=
  (fun s => Sent s (packet_out (-1) OFPP_NONE [output (out_port f.1)] f.2)) <$> hs.
Lemma packets_leave conn out_port frames : forall r, Forall (fun f => intfname_to_port r !! f.1 = Some (out_port f.1)) frames ->
  for_each (vns_seen <$> ((fun f => VNSPacket f.1 f.2) <$> frames)) (handle_recv_msg inet_aton peer conn) r
  = (Ok tt, add_effects (concat (packets_out (handlers r) out_port <$> frames)) r).
Proof.
  induction frames as [|f frames IH]; intros r Hf; [by rewrite add_no_effects|]. apply Forall_cons in Hf as [Hf Hfs].
  rewrite !fmap_cons. cbn [for_each]. rewrite M_bind_unfold. cbn [vns_seen handle_recv_msg]. unfold handle_packet_msg at 1. rewrite M_bind_unfold. cbn [get]. rewrite Hf.
  rewrite raise_SRPacketOut_ok, IH by done. by rewrite add_effects_app.
Qed.

(** Pieces of a stream, one after the other, are the stream's frames handled one
    after the other. *)
Lemma client_chunks conn chunks : forall conns k r,
  conns !! conn = Some k ->
  for_each chunks (client_data inet_aton inet_ntoa peer conn) (conns, r)
  = let '(res, (k, r)) := for_each chunks (vns_received inet_ntoa (handle_recv_msg inet_aton peer conn)) (k, r) in (res, (<[conn := k]> conns, r)).
Proof.
  induction chunks as [|d chunks IH]; intros conns k r E; [cbn; by rewrite insert_id|]. cbn [for_each]. rewrite !M_bind_unfold.
  unfold client_data at 1. rewrite E. destruct (vns_received _ _ d (k, r)) as [[[]|e] [k1 r1]]; [|done].
  rewrite (IH _ k1) by apply lookup_insert_eq. destruct (for_each chunks _ (k1, r1)) as [res [k2 r2]]. by rewrite insert_insert_eq.
Qed.

Lemma client_messages conn ms packets chunks tail conns r r' :
  (forall b, length b = 4%nat -> inet_aton (inet_ntoa b) = Ok b) -> Forall (vns_wf inet_ntoa) ms ->
  Forall2 (fun m p => vns_frame inet_aton m = Ok p) ms packets -> incomplete 4 tail -> concat chunks = concat packets ++ tail ->
  conns !! conn = Some new_lt_conn -> for_each (vns_seen <$> ms) (handle_recv_msg inet_aton peer conn) r = (Ok tt, r') ->
  for_each chunks (client_data inet_aton inet_ntoa peer conn) (conns, r) = (Ok tt, (<[conn := whole tail]> conns, r')).
Proof.
  intros H Hms Hp Ht E Hc Hd. destruct (vns_frames_ok inet_aton inet_ntoa ms packets H Hms Hp) as (fs & H1 & -> & H3).
  rewrite (client_chunks conn chunks conns _ r Hc).
  assert (Hr : for_each chunks (vns_received inet_ntoa (handle_recv_msg inet_aton peer conn)) (new_lt_conn, r) = (Ok tt, (whole tail, r'))); [|by rewrite Hr].
  apply (received_stream 4 4 (vns_unpack inet_ntoa) (handle_recv_msg inet_aton peer conn) ltac:(lia) chunks fs tail [] r r' H1 Ht); [by left|by rewrite E|].
  by rewrite (deliver_unpacked _ _ _ _ H3).
Qed.
End lemmas.

(** *** Text of addresses *)

Lemma pack_octets base f v : (forall b, py_int base (f b) = Some (byte_to_Z b)) -> mapR (pack_octet base) (f <$> v) = Ok v.
Proof.
  intros Hf. assert (Ho : forall b, pack_octet base (f b) = Ok b) by (intros b; unfold pack_octet; rewrite Hf; apply py_chr_byte).
  induction v as [|b v IH]; [done|]. rewrite fmap_cons. cbn [mapR]. rewrite Ho. cbn [mbind result_bind]. by rewrite IH.
Qed.

Lemma pack_mac_toStr a : eth_value a <> [] -> pack_mac (eth_toStr a (str ":")) = Ok (eth_value a).
Proof.
  intros Hne. unfold pack_mac, eth_toStr. change (str ":") with [x3a]. rewrite split_join.
  - apply pack_octets. intros b. destruct (fmt_02x_byte b) as (h & l & -> & E). exact E.
  - by destruct (eth_value a).
  - apply Forall_fmap, Forall_forall. intros b _. cbn. assert (Hb : bool_decide (x3a ∉ fmt_02x (byte_to_Z b)) = true) by (by destruct b).
    by apply bool_decide_eq_true in Hb.
Qed.

(** A dotted quad. *)
Definition dotted (v : bytes) : bytes := join (str ".") ((fun b => str (pretty (byte_to_Z b))) <$> v).
Lemma pack_ip_dotted v : v <> [] -> pack_ip (dotted v) = Ok v.
Proof.
  intros Hne. unfold pack_ip, dotted. change (str ".") with [x2e]. rewrite split_join.
  - apply pack_octets. intros b. apply pretty_spec. apply byte_to_Z_range.
  - by destruct v.
  - apply Forall_fmap, Forall_forall. intros b _. cbn. destruct (pretty_spec (byte_to_Z b)) as (H & _); [apply byte_to_Z_range|].
    intros Hin. rewrite Forall_forall in H. destruct (H _ Hin) as (d & Hd & _). by vm_compute in Hd.
Qed.

(** *** The interfaces of a switch *)

(** The interface a port's name tells: what is between its first two dashes. *)
Definition intf_of (p : ofp_phy_port) : option bytes := match split_on x2d (pp_name p) with _ :: i :: _ => Some i | _ => None end.
(** What [sw_info] has for a port. *)
Definition info_of (ip : bytes) (p : ofp_phy_port) : bytes * bytes * Z := (ip, eth_toStr (mkEth (hw_raw (pp_hw_addr p))) (str ":"), pp_port_no p).
Definition hw_ok (h : hwaddr) : Prop := exists v, h = HwEth (mkEth v) /\ length v = 6%nat.

Lemma hw_ok_toStr h : hw_ok h -> hw_toStr h = Ok (eth_toStr (mkEth (hw_raw h)) (str ":")) /\ length (hw_raw h) = 6%nat.
Proof. by intros (v & -> & Hv). Qed.

Section switch_info.
Context (router_ip : gmap bytes bytes).
(** An entry of [sw_info] is about one of the ports. *)
Definition entry_of (ports : list ofp_phy_port) (intf : bytes) (v : bytes * bytes * Z) : Prop :=
  exists p ip, p ∈ ports /\ intf_of p = Some intf /\ router_ip !! intf = Some ip /\ v = info_of ip p.

Lemma switch_info_ok ports : forall m, Forall (fun p => hw_ok (pp_hw_addr p)) ports ->
  exists m', switch_info router_ip ports m = Ok m' /\
    (forall intf v, m' !! intf = Some v -> m !! intf = Some v \/ entry_of ports intf v) /\
    (forall intf, (forall p, p ∈ ports -> intf_of p <> Some intf) -> m' !! intf = m !! intf) /\
    (forall intf ip, router_ip !! intf = Some ip -> (exists p, p ∈ ports /\ intf_of p = Some intf) -> exists v, m' !! intf = Some v /\ entry_of ports intf v).
Proof.
  induction ports as [|p ports IH]; intros m Hp.
  { exists m. split; [done|]. split; [by left|]. split; [done|]. intros intf ip _ (p & Hin & _). by apply elem_of_nil in Hin. }
  apply Forall_cons in Hp as [Hp Hports]. apply hw_ok_toStr in Hp as [Hs _].
  assert (Hskip : forall intf v, entry_of ports intf v -> entry_of (p :: ports) intf v) by (intros intf v (q & ip & Hq & ?); exists q, ip; split; [by right|done]).
  assert (Hno : (forall i, intf_of p = Some i -> router_ip !! i = None) -> switch_info router_ip (p :: ports) m = switch_info router_ip ports m).
  { intros Hn. cbn [switch_info]. unfold intf_of in Hn. destruct (split_on x2d (pp_name p)) as [|? [|i ?]]; try done. by rewrite (Hn i eq_refl). }
  assert (Hcase : (exists i ip, intf_of p = Some i /\ router_ip !! i = Some ip) \/ forall i, intf_of p = Some i -> router_ip !! i = None).
  { destruct (intf_of p) as [i|]; [|by right]. destruct (router_ip !! i) as [ip|] eqn:E; [left; by exists i, ip|right]. by intros ? [= <-]. }
  destruct Hcase as [(i & ip & Ei & Eip)|Hn'].
  - assert (E : switch_info router_ip (p :: ports) m = switch_info router_ip ports (<[i := info_of ip p]> m)).
    { cbn [switch_info]. unfold intf_of in Ei. destruct (split_on x2d (pp_name p)) as [|? [|i' ?]]; try done. injection Ei as ->. by rewrite Eip, Hs. }
    rewrite E. destruct (IH (<[i := info_of ip p]> m) Hports) as (m' & -> & H1 & H2 & H3). exists m'. split; [done|].
    assert (He : entry_of (p :: ports) i (info_of ip p)) by (exists p, ip; by split_and!; [left| | |]).
    split; [|split].
    + intros intf v [Hv|Hv]%H1; [|right; by apply Hskip]. apply lookup_insert_Some in Hv as [[<- <-]|[_ Hv]]; [by right|by left].
    + intros intf Hn. rewrite H2 by (intros q Hq; apply Hn; by right). apply lookup_insert_ne. intros <-. by apply (Hn p); [left|].
    + intros intf ip' Hip (q & Hq & Eq). destruct (decide (Exists (fun q => intf_of q = Some intf) ports)) as [Hex|Hnex].
      * apply Exists_exists in Hex as (q' & Hq' & Eq'). destruct (H3 intf ip' Hip) as (v & Hv & Hev); [by exists q'|]. exists v. split; [done|]. by apply Hskip.
      * assert (Hn : forall q, q ∈ ports -> intf_of q <> Some intf) by (intros q' Hq' E'; apply Hnex, Exists_exists; by exists q').
        apply elem_of_cons in Hq as [->|Hq]; [|by apply Hn in Hq]. rewrite Ei in Eq. injection Eq as <-. rewrite H2 by done. exists (info_of ip p).
        split; [apply lookup_insert_eq|done].
  - rewrite (Hno Hn'). destruct (IH m Hports) as (m' & -> & H1 & H2 & H3). exists m'. split; [done|]. split; [|split].
    + intros intf v [Hv|Hv]%H1; [by left|right; by apply Hskip].
    + intros intf Hq. apply H2. intros q Hq'. apply Hq. by right.
    + intros intf ip' Hip (q & Hq & Eq). apply elem_of_cons in Hq as [->|Hq]; [apply Hn' in Eq; congruence|].
      destruct (H3 intf ip' Hip) as (v & Hv & Hev); [by exists q|]. exists v. split; [done|]. by apply Hskip.
Qed.
End switch_info.

Section router_info.
Context (items : gmap bytes (bytes * bytes * Z) -> list (bytes * (bytes * bytes * Z))) (Hitems : forall m, items m ≡ₚ map_to_list m).

(** An interface the server keeps for an entry of [sw_info]. *)
Definition kept (e : bytes * (bytes * bytes * Z)) (i : VNSInterface) : Prop :=
  if_name i = e.1 /\ pack_ip e.2.1.1 = Ok (if_ip i) /\ pack_mac e.2.1.2 = Ok (if_mac i) /\ if_mask i = repeat xff 4.
Definition entry_ok (e : bytes * (bytes * bytes * Z)) : Prop :=
  (exists raw, pack_ip e.2.1.1 = Ok raw /\ length raw = 4%nat) /\ exists raw, pack_mac e.2.1.2 = Ok raw /\ length raw = 6%nat.
Definition map_all (l : list (bytes * (bytes * bytes * Z))) (r : router) : router := foldl (fun r e => map_interface e.1 e.2.2 r) r l.

Lemma add_interfaces_ok l r : Forall entry_ok l -> exists ifs, add_interfaces l r = (Ok ifs, map_all l r) /\ Forall2 kept l ifs.
Proof.
  intros H. revert r. induction H as [|[intf [[ip mac] port]] l [(rip & Eip & Lip) (rmac & Emac & Lmac)] _ IH]; intros r; [by exists []|]. cbn [fst snd] in *.
  cbn [add_interfaces]. rewrite Eip, Emac, !M_bind_lift_Ok. assert (Em : pack_ip (str "255.255.255.255") = Ok (repeat xff 4)) by (by vm_compute).
  assert (Ei : new_VNSInterface intf rmac rip (repeat xff 4) = Ok (mk_VNSInterface intf rmac rip (repeat xff 4))) by (unfold new_VNSInterface, blen; by rewrite Lip, Lmac).
  rewrite Em, M_bind_lift_Ok, Ei.
  rewrite M_bind_lift_Ok. rewrite M_bind_unfold. cbn [modify]. destruct (IH (map_interface intf port r)) as (ifs & E & Hk). rewrite (M_bind_run _ _ _ _ _ E).
  eexists. split; [reflexivity|]. constructor; [|done]. by unfold kept.
Qed.

Lemma map_all_lookup l r intf v : NoDup l.*1 -> NoDup l.*2.*2 -> (intf, v) ∈ l ->
  intfname_to_port (map_all l r) !! intf = Some v.2 /\ port_to_intfname (map_all l r) !! v.2 = Some intf.
Proof.
  assert (Hkeep : forall l r n p, n ∉ l.*1 -> p ∉ l.*2.*2 -> intfname_to_port r !! n = Some p -> port_to_intfname r !! p = Some n ->
    intfname_to_port (map_all l r) !! n = Some p /\ port_to_intfname (map_all l r) !! p = Some n).
  { clear. induction l as [|[i w] l IH]; intros r n p Hn Hp E1 E2; [done|]. cbn [map_all foldl fst snd] in *. rewrite !fmap_cons, !not_elem_of_cons in *. cbn [fst snd] in *.
    destruct Hn as [Hn1 Hn2], Hp as [Hp1 Hp2]. apply IH; try done; cbn; by rewrite lookup_insert_ne by congruence. }
  revert r. induction l as [|[i w] l IH]; intros r H1 H2 Hin; [by apply elem_of_nil in Hin|]. rewrite !fmap_cons in *. apply NoDup_cons in H1 as [H1 H1'], H2 as [H2 H2'].
  apply elem_of_cons in Hin as [[= -> ->]|Hin]; [|by apply IH]. cbn [map_all foldl fst snd] in *. apply Hkeep; try done; cbn; apply lookup_insert_eq.
Qed.
Lemma map_all_others l r : srclients (map_all l r) = srclients r /\ handlers (map_all l r) = handlers r /\ effects (map_all l r) = effects r.
Proof. revert r. induction l as [|e l IH]; intros r; [done|]. exact (IH (map_interface e.1 e.2.2 r)). Qed.
End router_info.

Lemma NoDup_fmap_inj {A B} (f : A -> B) l x y : NoDup (f <$> l) -> x ∈ l -> y ∈ l -> f x = f y -> x = y.
Proof.
  intros Hn [i Hx]%list_elem_of_lookup [j Hy]%list_elem_of_lookup E.
  assert (i = j) as -> by (apply (NoDup_lookup _ _ _ (f x) Hn); rewrite list_lookup_fmap; [by rewrite Hx|by rewrite Hy, E]). congruence.
Qed.

(** ** Properties *)
Section properties.
Context (inet_aton : bytes -> result bytes) (inet_ntoa : bytes -> bytes) (peer : nat -> bytes).
Context (items : gmap bytes (bytes * bytes * Z) -> list (bytes * (bytes * bytes * Z))).
Context (frame_str : bytes -> result bytes).

(** When a switch comes up, every one of its ports whose name has an
    interface of the settings, and no other port has it, is known both ways, and
    the server has the interface with the port's address and the address of the
    settings, in raw bytes. *)
Theorem router_learns_interfaces (router_ip : gmap bytes bytes) (switch : nat) (ports : list ofp_phy_port) (r : router) :
  (forall m, items m ≡ₚ map_to_list m) -> Forall (fun p => hw_ok (pp_hw_addr p)) ports -> NoDup (pp_port_no <$> ports) ->
  map_Forall (fun _ ip => exists v, length v = 4%nat /\ ip = dotted v) router_ip ->
  exists l r', handle_ConnectionUp items router_ip switch ports r = (Ok tt, r') /\
    handlers r' = handlers r ++ [switch] /\ srclients r' = srclients r /\
    effects r' = effects r ++ [SentConfig switch (of_switch_config 65535)] /\ interfaces r' = Some l /\
    forall p intf ip, p ∈ ports -> intf_of p = Some intf -> router_ip !! intf = Some (dotted ip) -> length ip = 4%nat ->
      (forall q, q ∈ ports -> intf_of q = Some intf -> q = p) ->
      intfname_to_port r' !! intf = Some (pp_port_no p) /\ port_to_intfname r' !! pp_port_no p = Some intf /\
      mk_VNSInterface intf (hw_raw (pp_hw_addr p)) ip (repeat xff 4) ∈ l.
Proof.
  intros Hitems Hp Hno Hip. destruct (switch_info_ok router_ip ports ∅ Hp) as (m & Em & H1 & _ & H3).
  assert (Hent : forall intf v, m !! intf = Some v -> entry_of router_ip ports intf v) by (intros intf v [Hv|Hv]%H1; [by rewrite lookup_empty in Hv|done]).
  assert (Hdot : forall v, length v = 4%nat -> pack_ip (dotted v) = Ok v) by (intros v Hv; apply pack_ip_dotted; by destruct v).
  assert (Hmac : forall p, p ∈ ports -> pack_mac (eth_toStr (mkEth (hw_raw (pp_hw_addr p))) (str ":")) = Ok (hw_raw (pp_hw_addr p)) /\ length (hw_raw (pp_hw_addr p)) = 6%nat).
  { intros p Hin. rewrite Forall_forall in Hp. destruct (hw_ok_toStr _ (Hp p Hin)) as [_ L]. split; [|done]. apply (pack_mac_toStr (mkEth _)). cbn. intros E. by rewrite E in L. }
  assert (Hin : forall e, e ∈ items m <-> m !! e.1 = Some e.2) by (intros [i v]; rewrite (Hitems m); apply elem_of_map_to_list).
  destruct (add_interfaces_ok (items m) (add_handler switch (add_effects [SentConfig switch (of_switch_config 65535)] r))) as (l & El & Hk).
  { apply Forall_forall. intros [i v] He%Hin. cbn [fst snd] in He. apply Hent in He as (p & ip & Hpin & _ & Eip & ->). destruct (Hip _ _ Eip) as (w & Hw & ->).
    destruct (Hmac p Hpin) as [Em1 Lm]. split; [exists w; split; [exact (Hdot w Hw)|done]|]. eexists. split; [exact Em1|done]. }
  eexists l, _. split.
  { unfold handle_ConnectionUp. rewrite M_bind_unfold. cbn [record modify]. rewrite Em, M_bind_lift_Ok, M_bind_unfold. cbn [modify]. unfold handle_RouterInfo.
    rewrite (M_bind_run _ _ _ _ _ El). reflexivity. }
  destruct (map_all_others (items m) (add_handler switch (add_effects [SentConfig switch (of_switch_config 65535)] r))) as (S1 & S2 & S3).
  split; [exact S2|]. split; [exact S1|]. split; [exact S3|]. split; [done|].
  intros p intf ip Hpin Ei Eip Lip Huniq. destruct (H3 intf _ Eip) as (v & Hv & Hev); [by exists p|].
  destruct Hev as (q & ip' & Hq & Eq & Eip' & ->). rewrite (Huniq q Hq Eq) in *. rewrite Eip in Eip'. injection Eip' as <-.
  assert (He : (intf, info_of (dotted ip) p) ∈ items m) by by apply Hin.
  destruct (map_all_lookup (items m) (add_handler switch (add_effects [SentConfig switch (of_switch_config 65535)] r)) intf (info_of (dotted ip) p)) as [L1 L2]; try done.
  - rewrite (Hitems m). apply NoDup_fst_map_to_list.
  - rewrite <-list_fmap_compose. apply NoDup_fmap_2_strong; [|rewrite (Hitems m); apply NoDup_map_to_list].
    intros [i1 v1] [i2 v2] He1 He2 E. cbn in E. apply Hin in He1, He2. cbn [fst snd] in *. destruct (Hent _ _ He1) as (p1 & ip1 & Hp1 & Ei1 & _ & ->), (Hent _ _ He2) as (p2 & ip2 & Hp2 & Ei2 & _ & ->).
    cbn [snd info_of] in E. assert (p1 = p2) as -> by exact (NoDup_fmap_inj _ _ _ _ Hno Hp1 Hp2 E).
    rewrite Ei2 in Ei1. injection Ei1 as <-. rewrite He1 in He2. injection He2 as He2. by rewrite He2.
  - split; [exact L1|]. split; [exact L2|]. apply list_elem_of_lookup in He as [n He]. destruct (Forall2_lookup_l _ _ _ _ _ Hk He) as ([nm mac ip' mask] & Hn & Hkn).
    destruct Hkn as (K1 & K2 & K3 & K4). cbn [fst snd info_of if_name if_mac if_ip if_mask] in *. rewrite Hdot in K2 by done. destruct (Hmac p Hpin) as [Em1 _]. rewrite Em1 in K3.
    injection K2 as <-. injection K3 as <-. subst. by apply list_elem_of_lookup_2 in Hn.
Qed.

(** C22: a frame the switch hands over on a known port is written to every client,
    in order, and each reads back the interface's name and the very bytes,
    however the transport cuts them; then the switch is told to forget its
    buffer. *)
Theorem frames_reach_clients (switch : nat) (event : PacketIn) (intf text : bytes) (e : ethernet) (r : router) :
  port_to_intfname r !! ev_port event = Some intf -> text_ok 16 intf -> uint_ok 4 (24 + blen (ev_data event)) ->
  ev_parsed event = Ok e -> frame_str (ev_data event) = Ok text ->
  exists p, handle_PacketIn inet_aton frame_str switch event r
    = (Ok tt, add_effects (((fun c => Written c p) <$> srclients r) ++ [Sent switch (packet_out (ev_buffer_id event) (ev_port event) [] [])]) r) /\
  forall chunks, concat chunks = p ->
    for_each chunks (vns_received inet_ntoa noted) (new_lt_conn, []) = (Ok tt, (new_lt_conn, [Some (VNSPacket intf (ev_data event))])).
Proof.
  intros Hport Hintf Hlen Hparsed Htext. destruct (packet_frame inet_aton inet_ntoa intf (ev_data event) Hintf Hlen) as (f & Hf & E & Hu).
  exists (frame_bytes 4 4 f). split.
  - unfold handle_PacketIn. rewrite Hparsed, M_bind_lift_Ok, M_bind_unfold. unfold handle_SRPacketIn at 1. rewrite M_bind_unfold. cbn [get]. rewrite Hport, Htext, M_bind_lift_Ok.
    rewrite (broadcast_ok _ _ _ _ E). unfold record, modify. by rewrite add_effects_app.
  - intros chunks Hc. apply (received_stream 4 4 (vns_unpack inet_ntoa) noted ltac:(lia) chunks [f] [] [] [] [Some (VNSPacket intf (ev_data event))]); try (by left).
    + by apply Forall_singleton.
    + rewrite Hc. cbn [fmap list_fmap concat app]. by rewrite !app_nil_r.
    + unfold deliver. cbn [for_each]. rewrite Hu, M_bind_lift_Ok. reflexivity.
Qed.

(** C21: a client's frames, however the transport cuts them, leave by the ports of
    their interfaces in the order they were sent, each by every switch that ever
    came up. *)
Theorem client_frames_leave (conn : nat) (frames : list (bytes * bytes)) (out_port : bytes -> Z) (packets chunks : list bytes) (tail : bytes)
    (conns : gmap nat lt_conn) (r : router) :
  (forall b, length b = 4%nat -> inet_aton (inet_ntoa b) = Ok b) ->
  Forall (fun f => text_ok 16 f.1 /\ intfname_to_port r !! f.1 = Some (out_port f.1)) frames ->
  Forall2 (fun f p => vns_frame inet_aton (VNSPacket f.1 f.2) = Ok p) frames packets -> incomplete 4 tail -> concat chunks = concat packets ++ tail ->
  conns !! conn = Some new_lt_conn ->
  for_each chunks (client_data inet_aton inet_ntoa peer conn) (conns, r)
  = (Ok tt, (<[conn := whole tail]> conns,
      add_effects (concat (packets_out (handlers r) out_port <$> frames)) r)).
Proof.
  intros H Hf Hp Ht E Hc. apply (client_messages inet_aton inet_ntoa peer conn ((fun f => VNSPacket f.1 f.2) <$> frames) packets); try done.
  - apply Forall_fmap. apply (Forall_impl _ _ _ Hf). by intros f [Hf1 _].
  - by apply Forall2_fmap_l.
  - apply packets_leave. apply (Forall_impl _ _ _ Hf). by intros f [_ Hf2].
Qed.

(** A client that connects, answers and opens gets the challenge, the status
    and the interfaces, in this order; when no switch has come up yet it gets no
    interfaces, and nothing tells it so. *)
Theorem client_logs_in (conn : nat) (salt username ssp : bytes) (topo_id : Z) (vhost user pw : bytes) (packets chunks : list bytes) (tail q s : bytes)
    (conns : gmap nat lt_conn) (r : router) :
  (forall b, length b = 4%nat -> inet_aton (inet_ntoa b) = Ok b) ->
  let ms := [VNSAuthReply username ssp; VNSOpen topo_id vhost user pw] in
  Forall (vns_wf inet_ntoa) ms -> Forall2 (fun m p => vns_frame inet_aton m = Ok p) ms packets -> incomplete 4 tail -> concat chunks = concat packets ++ tail ->
  vns_frame inet_aton (VNSAuthRequest salt) = Ok q ->
  vns_frame inet_aton (VNSAuthStatus true (str "authenticated " ++ peer conn ++ str " as user")) = Ok s ->
  (_ ← connectionMade inet_aton conn salt; for_each chunks (client_data inet_aton inet_ntoa peer conn)) (conns, r)
  = (Ok tt, (<[conn := whole tail]> conns,
      add_effects ([Written conn q; Written conn s] ++
        match interfaces r with
        | Some l => match vns_frame inet_aton (VNSHardwareInfo l) with Ok p => [Written conn p] | Err _ => [] end
        | None => []
        end) (set_srclients (srclients r ++ [conn]) r))).
Proof.
  intros H ms Hms Hp Ht E Hq Hs. rewrite M_bind_unfold. unfold connectionMade, handle_new_client. rewrite M_bind_unfold. cbn [modify conn_send]. rewrite Hq, M_bind_lift_Ok. cbn [record modify].
  erewrite (client_messages inet_aton inet_ntoa peer conn ms packets chunks tail); [|done..|by apply lookup_insert_eq|].
  - by rewrite insert_insert_eq.
  - subst ms. cbn [fmap list_fmap vns_seen for_each]. rewrite M_bind_unfold. cbn [handle_recv_msg]. unfold handle_auth_reply. cbn [conn_send]. rewrite Hs, M_bind_lift_Ok. cbn [record modify].
    rewrite M_bind_unfold. cbn [handle_recv_msg]. unfold handle_open_msg. rewrite M_bind_unfold. unfold lift at 1. cbn [interfaces add_effects set_srclients].
    destruct (interfaces r) as [l|]; cbn [need conn_send]; [destruct (vns_frame inet_aton (VNSHardwareInfo l)) as [p|x]|];
      rewrite ?M_bind_lift_Ok; unfold mret, M_ret, record, modify; rewrite ?add_effects_app; done.
Qed.

(** A close, hardware information, a template, or a frame for an interface
    that is not known, ends the handling of what was received with an exception:
    nothing is done, in particular no transport is closed, and the rest of the
    bytes is kept. *)
Theorem bad_messages_raise (conn : nat) (m : vns_message) (p rest : bytes) (conns : gmap nat lt_conn) (r : router) :
  (forall b, length b = 4%nat -> inet_aton (inet_ntoa b) = Ok b) -> vns_wf inet_ntoa m -> vns_frame inet_aton m = Ok p ->
  match m with
  | VNSClose _ | VNSHardwareInfo _ | VNSOpenTemplate _ _ _ => True
  | VNSPacket intf _ => intfname_to_port r !! intf = None
  | _ => False
  end ->
  conns !! conn = Some new_lt_conn ->
  client_data inet_aton inet_ntoa peer conn (p ++ rest) (conns, r)
  = (Err (match m with VNSPacket _ _ => UnboundLocalError | _ => AttributeError end), (<[conn := whole rest]> conns, r)).
Proof.
  intros H Hwf Hp Hm Hc. destruct (vns_frame_ok inet_aton inet_ntoa m p Hwf H Hp) as (b & Hu & Hok & ->). unfold client_data. rewrite Hc.
  unfold vns_received, dataReceived. cbn [fst snd new_lt_conn lt_packet lt_plen app]. replace (0 + blen (frame_bytes 4 4 (vns_type m, b) ++ rest)) with (blen (frame_bytes 4 4 (vns_type m, b) ++ rest)) by lia.
  fold (whole (frame_bytes 4 4 (vns_type m, b) ++ rest)). rewrite loop_frame by (done || lia). cbn [fst snd]. rewrite Hu.
  destruct m as [| |intf frame| | | | | | |]; try done. cbn [vns_seen handle_recv_msg]. unfold handle_packet_msg. rewrite M_bind_unfold. cbn [get]. by rewrite Hm.
Qed.
End properties.

(** ** Instances of the properties *)
Module RouterExamples.
Definition port (n : Z) (name : bytes) (last : byte) : ofp_phy_port :=
  mk_ofp_phy_port n (HwEth (mkEth [x02; x00; x00; x00; x00; last])) name 0 0 0 0 0 0.
Definition port1 : ofp_phy_port := port 1 (str "sw0-eth1") x01.
Definition ports : list ofp_phy_port := [port1; port 2 (str "sw0-eth2") x02; port 65534 (str "sw0") x03].
Definition ip1 : bytes := [xc0; xa8; x02; x01].
Definition ips : gmap bytes bytes := {[ str "eth1" := dotted ip1; str "eth2" := dotted [xac; x40; x03; x01] ]}.
Definition peer (c : nat) : bytes := str "127.0.0.1".
Definition show (pkt : bytes) : result bytes := Ok (str "frame").
Definition up : router := snd (handle_ConnectionUp map_to_list ips 7 ports new_router).
Definition conns : gmap nat lt_conn := {[ 3%nat := new_lt_conn ]}.
Definition clients : router := set_srclients [3; 4]%nat up.
Definition event : PacketIn := mk_PacketIn 1 1 (Ok new_ethernet) 99 (str "a frame of fourteen bytes or more").
End RouterExamples.

Lemma router_learns_interfaces_witness :
  interfaces RouterExamples.up <> None /\ intfname_to_port RouterExamples.up !! str "eth1" = Some 1 /\ port_to_intfname RouterExamples.up !! 1 = Some (str "eth1").
Proof.
  assert (Hp : Forall (fun p => hw_ok (pp_hw_addr p)) RouterExamples.ports) by (repeat (constructor; [by eexists|]); constructor).
  destruct (router_learns_interfaces map_to_list RouterExamples.ips 7 RouterExamples.ports new_router) as (l & r' & E & _ & _ & _ & Hl & H); [done|exact Hp|..].
  - apply (bool_decide_unpack _). by vm_compute.
  - intros i ip Hi. unfold RouterExamples.ips in Hi. apply lookup_insert_Some in Hi as [[_ <-]|[_ Hi]]; [by exists RouterExamples.ip1|].
    apply lookup_singleton_Some in Hi as [_ <-]. by exists [xac; x40; x03; x01].
  - unfold RouterExamples.up. rewrite E. cbn [snd]. rewrite Hl. split; [done|].
    destruct (H RouterExamples.port1 (str "eth1") RouterExamples.ip1) as (H1 & H2 & _); [by left|by vm_compute|by vm_compute|done| |by split].
    unfold RouterExamples.ports. intros q Hq E1. rewrite !elem_of_cons, elem_of_nil in Hq. destruct Hq as [->|[->|[->|[]]]]; [done|exfalso; by vm_compute in E1..].
Defined.

Lemma frames_reach_clients_witness :
  exists p, handle_PacketIn Examples.aton RouterExamples.show 7 RouterExamples.event RouterExamples.clients
    = (Ok tt, add_effects ([Written 3 p; Written 4 p] ++ [Sent 7 (packet_out 99 1 [] [])]) RouterExamples.clients) /\
  for_each [take 10 p; drop 10 p] (vns_received Examples.ntoa noted) (new_lt_conn, [])
    = (Ok tt, (new_lt_conn, [Some (VNSPacket (str "eth1") (ev_data RouterExamples.event))])).
Proof.
  destruct (frames_reach_clients Examples.aton Examples.ntoa RouterExamples.show 7 RouterExamples.event (str "eth1") (str "frame") new_ethernet RouterExamples.clients)
    as (p & E & H); [by vm_compute|apply (bool_decide_unpack _); by vm_compute|by vm_compute|done|done|].
  exists p. split; [exact E|]. apply H. cbn [concat]. rewrite app_nil_r. apply take_drop.
Defined.

(** Two frames, cut in the middle of the first one's length. *)
Lemma client_frames_leave_witness :
  let frames := [(str "eth2", str "one"); (str "eth1", str "two")] in
  let stream := concat ((fun f => Examples.framed (VNSPacket f.1 f.2)) <$> frames) in
  for_each [take 2 stream; drop 2 stream] (client_data Examples.aton Examples.ntoa RouterExamples.peer 3) (RouterExamples.conns, RouterExamples.clients)
  = (Ok tt, (<[3%nat := new_lt_conn]> RouterExamples.conns,
      add_effects [Sent 7 (packet_out (-1) OFPP_NONE [output 2] (str "one")); Sent 7 (packet_out (-1) OFPP_NONE [output 1] (str "two"))] RouterExamples.clients)).
Proof.
  intros frames stream.
  refine (eq_trans (client_frames_leave Examples.aton Examples.ntoa RouterExamples.peer 3 frames (fun i => if decide (i = str "eth1") then 1 else 2)
    ((fun f => Examples.framed (VNSPacket f.1 f.2)) <$> frames) _ [] RouterExamples.conns RouterExamples.clients _ _ _ _ _ _) _).
  - apply Examples.aton_ntoa.
  - repeat (constructor; [split; [apply (bool_decide_unpack _); by vm_compute|by vm_compute]|]). constructor.
  - repeat (constructor; [by vm_compute|]). constructor.
  - by left.
  - cbn [concat]. by rewrite !app_nil_r, take_drop.
  - done.
  - by vm_compute.
Defined.

(** Before any switch: no interfaces are sent. *)
Lemma client_logs_in_witness :
  let stream := concat (Examples.framed <$> [VNSAuthReply (str "user") (str "x"); Examples.open_msg]) in
  (_ ← connectionMade Examples.aton 3 (str "salt"); for_each [stream] (client_data Examples.aton Examples.ntoa RouterExamples.peer 3)) (∅, new_router)
  = (Ok tt, (<[3%nat := new_lt_conn]> ∅, add_effects [Written 3 (Examples.framed (VNSAuthRequest (str "salt")));
      Written 3 (Examples.framed (VNSAuthStatus true (str "authenticated 127.0.0.1 as user")))] (set_srclients [3%nat] new_router))).
Proof.
  intros stream.
  apply (client_logs_in Examples.aton Examples.ntoa RouterExamples.peer 3 (str "salt") (str "user") (str "x") 7 (str "r1") (str "user") (str "pw")
    (Examples.framed <$> [VNSAuthReply (str "user") (str "x"); Examples.open_msg]) [stream] [] _ _ ∅ new_router).
  - apply Examples.aton_ntoa.
  - constructor; [by vm_compute|]. pose proof Examples.messages_wf as H. apply Forall_cons in H as [H _]. by constructor.
  - repeat (constructor; [by vm_compute|]). constructor.
  - by left.
  - by rewrite app_nil_r.
  - by vm_compute.
  - by vm_compute.
Defined.

Lemma bad_messages_raise_witness :
  client_data Examples.aton Examples.ntoa RouterExamples.peer 3 (Examples.framed (VNSClose (str "bye")) ++ str "rest") (RouterExamples.conns, RouterExamples.clients)
  = (Err AttributeError, (<[3%nat := whole (str "rest")]> RouterExamples.conns, RouterExamples.clients)).
Proof.
  apply (bad_messages_raise Examples.aton Examples.ntoa RouterExamples.peer 3 (VNSClose (str "bye")) (Examples.framed (VNSClose (str "bye"))) (str "rest") RouterExamples.conns RouterExamples.clients).
  - apply Examples.aton_ntoa.
  - apply (bool_decide_unpack _). by vm_compute.
  - by vm_compute.
  - done.
  - done.
Defined.
