(* ===== verification/L2Learning.v ===== *)
(** * The learning switch ([pox/forwarding/l2_learning.py])

    [LearningSwitch]: a table from addresses to ports, filled from the source
    addresses of the packets seen.  Times are in nanoseconds. *)

From S2P Require Import Prelude Addresses OfpMatch OfpActions OfpStructs OfpMessages OfpVarMessages OfpStream Packet.
From S2P Require Import FlowTable Controller.

Definition FLOOD_DELAY : Z := 5.
Definition LLDP_TYPE : Z := 0x88cc.

(** The attributes of a [LearningSwitch] that do not change. *)
Record switch_config := mk_switch_config { transparent : bool; connect_time : Z }.

Abbreviation mac_table := (gmap EthAddr Z).

(** [flood()]. *)
Definition flood (c : switch_config) (now : Z) (event : PacketIn) : list message :=
  if ev_buffer_id event =? -1 then [] else
  let actions := if FLOOD_DELAY * second <? now - connect_time c then [output OFPP_FLOOD] else [] in
  [packet_out (ev_buffer_id event) (ev_port event) actions []].

(** [drop(duration)]. *)
Definition drop_packet (event : PacketIn) (packet : ethernet) (duration : option Z) : list message :=
  match duration with
  | Some d => [flow_mod (from_packet packet None) d d (ev_buffer_id event) []]
  | None => if ev_buffer_id event =? -1 then [] else [packet_out (ev_buffer_id event) (ev_port event) [] []]
  end.

(** [_handle_PacketIn], on the table; the messages sent are returned. *)
Definition handle_PacketIn (c : switch_config) (macToPort : mac_table) (now_event : Z * PacketIn)
  : result (list message) * mac_table :=
  let '(now, event) := now_event in
  match ev_parsed event with
  | Err e => (Err e, macToPort)
  | Ok packet =>
    match eth_of (e_src packet) with
    | Err e => (Err e, macToPort)
    | Ok src =>
      let macToPort : mac_table := <[src := ev_port event]> macToPort in
      (dst ← eth_of (e_dst packet);
       filtered ← (if transparent c then mret false
                   else if e_type packet =? LLDP_TYPE then mret true else isBridgeFiltered dst);
       if filtered : bool then mret (drop_packet event packet None) else
       multicast ← isMulticast dst;
       if multicast : bool then mret (flood c now event) else
       match macToPort !! dst with
       | None => mret (flood c now event)
       | Some port =>
           if port =? ev_port event then mret (drop_packet event packet (Some 10))
           else mret [flow_mod (from_packet packet None) 10 30 (ev_buffer_id event) [output port]]
       end, macToPort)
    end
  end.

(** ** What the table means *)

(** The port by which a packet from [a] was last seen. *)
Fixpoint last_seen (a : EthAddr) (history : list (Z * PacketIn)) : option Z :=
  match history with
  | [] => None
  | (_, e) :: history =>
      match last_seen a history with
      | Some p => Some p
      | None =>
          match ev_parsed e with
          | Ok packet => if bool_decide (e_src packet = HwEth a) then Some (ev_port e) else None
          | Err _ => None
          end
      end
  end.

(** What the documentation of the class says the switch does with a packet. *)
Inductive decision := Drop | DropFlow | Flood | Forward (port : Z).
Definition decide_packet (c : switch_config) (known : EthAddr -> option Z) (in_port : Z) (packet : ethernet)
    (dst : EthAddr) : decision :=
  if negb (transparent c) && ((e_type packet =? LLDP_TYPE) || bool_decide (isBridgeFiltered dst = Ok true)) then Drop
  else if bool_decide (isMulticast dst = Ok true) then Flood
  else match known dst with
       | None => Flood
       | Some port => if port =? in_port then DropFlow else Forward port
       end.
Definition perform (c : switch_config) (now : Z) (event : PacketIn) (packet : ethernet) (d : decision) : list message :=
  match d with
  | Drop => drop_packet event packet None
  | DropFlow => drop_packet event packet (Some 10)
  | Flood => flood c now event
  | Forward port => [flow_mod (from_packet packet None) 10 30 (ev_buffer_id event) [output port]]
  end.

(** An [EthAddr] object holds six bytes. *)
Definition eth_wf (a : EthAddr) : Prop := length (eth_value a) = 6%nat.

Lemma eth_ord_ok a i : eth_wf a -> (i < 6)%nat -> exists x, eth_ord a i = Ok x.
Proof.
  unfold eth_wf, eth_ord, need. intros H Hi. destruct (eth_value a !! i) eqn:E; [by eexists|].
  apply lookup_ge_None in E. lia.
Qed.

Lemma isMulticast_total a : eth_wf a -> exists b, isMulticast a = Ok b.
Proof. intros H. unfold isMulticast. destruct (eth_ord_ok a 0 H) as [x ->]; [lia|]. by eexists. Qed.

Lemma isBridgeFiltered_total a : eth_wf a -> exists b, isBridgeFiltered a = Ok b.
Proof.
  intros H. unfold isBridgeFiltered, and_then.
  assert (Ho : forall i, (i < 6)%nat -> exists x, eth_ord a i = Ok x) by (intros; by apply eth_ord_ok).
  destruct (Ho 0%nat) as [x0 ->]; [lia|]. destruct (Ho 1%nat) as [x1 ->]; [lia|].
  destruct (Ho 2%nat) as [x2 ->]; [lia|]. destruct (Ho 3%nat) as [x3 ->]; [lia|].
  destruct (Ho 4%nat) as [x4 ->]; [lia|]. destruct (Ho 5%nat) as [x5 ->]; [lia|].
  cbn [mbind result_bind mret result_ret]. repeat destruct (_ =? _); by eexists.
Qed.

Lemma last_seen_snoc a h now e :
  last_seen a (h ++ [(now, e)])
  = match last_seen a [(now, e)] with Some p => Some p | None => last_seen a h end.
Proof.
  induction h as [|[n e'] h IH]; [cbn [app last_seen]; by destruct (ev_parsed e); [destruct (bool_decide _)|]|]. cbn [app last_seen]. rewrite IH.
  cbn [last_seen]. destruct (ev_parsed e) as [p|]; [destruct (bool_decide _)|]; try done.
  all: by destruct (last_seen a h).
Qed.

(** The table is the history's. *)
Definition table_of (c : switch_config) (h : list (Z * PacketIn)) : mac_table := snd (run (handle_PacketIn c) ∅ h).

Lemma table_of_last_seen c h a : table_of c h !! a = last_seen a h.
Proof.
  unfold table_of. induction h as [|[now e] h IH] using rev_ind; [done|].
  rewrite run_snoc, last_seen_snoc, <-IH. cbn [last_seen]. unfold handle_PacketIn.
  destruct (ev_parsed e) as [p|]; [|done]. destruct (e_src p) as [b|src]; cbn [eth_of mret result_ret].
  - by rewrite bool_decide_eq_false_2.
  - cbn [snd]. rewrite lookup_insert. destruct (decide (src = a)) as [->|Hne].
    + by rewrite bool_decide_eq_true_2.
    + by rewrite bool_decide_eq_false_2 by congruence.
Qed.

(** One packet: the decision taken, on the table with the source learned. *)
Lemma handle_decides c (t : mac_table) now e packet src dst :
  ev_parsed e = Ok packet -> e_src packet = HwEth src -> e_dst packet = HwEth dst -> eth_wf dst ->
  handle_PacketIn c t (now, e)
  = (Ok (perform c now e packet
      (decide_packet c (fun a => <[src := ev_port e]> t !! a) (ev_port e) packet dst)), <[src := ev_port e]> t).
Proof.
  intros Ep Es Ed Hd. unfold handle_PacketIn, decide_packet. rewrite Ep, Es, Ed. cbn [eth_of mret result_ret mbind result_bind].
  destruct (isBridgeFiltered_total dst Hd) as [b Eb]. destruct (isMulticast_total dst Hd) as [m Em].
  rewrite Eb, Em. destruct (transparent c); cbn [negb andb mbind result_bind mret result_ret];
    [|destruct (e_type packet =? LLDP_TYPE); cbn [orb mbind result_bind mret result_ret]; [done|]; destruct b; [done|]].
  all: destruct m; [done|]; cbn; destruct (_ !! dst) as [p|]; [|done]; by destruct (p =? ev_port e).
Qed.

(** ** Property *)


(** Two hosts talk: the answer is forwarded to where the first packet came
    from. *)
Definition example_mac (n : byte) : EthAddr := mkEth [x02; x00; x00; x00; x00; n].
Definition example_frame (src dst : EthAddr) : ethernet := mk_ethernet true (HwEth dst) (HwEth src) 0x0800 (PBytes []).
Definition example_event (port : Z) (src dst : EthAddr) : PacketIn :=
  mk_PacketIn 1 port (Ok (example_frame src dst)) 77 [].
Definition example_config : switch_config := mk_switch_config false 0.

