(* ===== verification/L3Learning.v ===== *)
(** * The layer-three switch ([pox/forwarding/l3_learning.py])

    [l3_switch]: for every switch a table from IP addresses to a port and a
    hardware address, stocked from IP and ARP packets; ARP requests are answered
    from it while fresh, and IP packets to a known address get a rule.  Times
    are in nanoseconds. *)

From S2P Require Import Prelude PyStruct Addresses OfpMatch OfpActions OfpStructs OfpMessages OfpVarMessages OfpStream.
From S2P Require Import Packet FlowTable PacketWire Controller L2Learning.

Definition FLOW_IDLE_TIMEOUT : Z := 10.
Definition ARP_TIMEOUT : Z := 60 * 2.
Definition OFP_FLOW_PERMANENT : Z := 0.

Record Entry := mk_Entry { en_timeout : Z; en_port : Z; en_mac : hwaddr }.
Definition new_Entry (now port : Z) (mac : hwaddr) : Entry := mk_Entry (now + ARP_TIMEOUT * second) port mac.
Definition isExpired (now : Z) (e : Entry) : bool := en_timeout e <? now.

(** An address as a dictionary key: a number (of a header that was not parsed)
    is the same key as an [IPAddr] object if their hashes are equal, and so are
    they. *)
Definition ip_key (a : nwaddr) : IPAddr + Z :=
  match a with
  | NwIP a => inl a
  | NwInt z => if ip_value (IPAddr_of_int z false) =? z then inl (IPAddr_of_int z false) else inr z
  end.
Abbreviation arp_table := (gmap (IPAddr + Z) Entry).
(** [a != 0]. *)
Definition nonzero (a : nwaddr) : bool :=
  match a with NwIP a => negb (ip_value a =? 0) | NwInt z => negb (z =? 0) end.

Definition learn_ip (t : arp_table) (now port : Z) (a : nwaddr) (mac : hwaddr) : arp_table :=
  <[ip_key a := new_Entry now port mac]> t.

(** The reply to the request [a] that came in a frame of type [ethertype]. *)
Definition arp_reply (ethertype : Z) (a : arp) (mac : hwaddr) : ethernet :=
  mk_ethernet false (a_hwsrc a) mac ethertype
    (PHdr false (HArp (mk_arp (a_hwtype a) (a_prototype a) mac (a_hwsrc a) (a_hwlen a) 2 (a_protolen a) (a_protodst a) (a_protosrc a)))
      (PBytes [])).

(** The ARP message is flooded; the test for an unbuffered packet compares
    identities of integers and never holds. *)
Definition flood_arp (event : PacketIn) : list message :=
  [packet_out (ev_buffer_id event) (ev_port event) [output OFPP_FLOOD] []].

(** An IP packet, on the switch's table. *)
Definition handle_ip (t : arp_table) (now : Z) (event : PacketIn) (packet : ethernet) (h : ipv4) : arp_table * list message :=
  let t := learn_ip t now (ev_port event) (i_srcip h) (e_src packet) in
  (t, match t !! ip_key (i_dstip h) with
      | None => []
      | Some e =>
          if en_port e =? ev_port event then []
          else [flow_mod (from_packet packet (Some (ev_port event))) FLOW_IDLE_TIMEOUT OFP_FLOW_PERMANENT
                  (ev_buffer_id event) [output (en_port e)]]
      end).

(** An ARP message; an answer that cannot be packed raises. *)
Definition handle_arp (t : arp_table) (now : Z) (event : PacketIn) (packet : ethernet) (a : arp)
  : arp_table * result (list message) :=
  if (a_prototype a =? 0x0800) && (a_hwtype a =? 1) && nonzero (a_protosrc a) then
    let t := learn_ip t now (ev_port event) (a_protosrc a) (e_src packet) in
    match (if a_opcode a =? 1 then t !! ip_key (a_protodst a) else None) with
    | Some e =>
        if isExpired now e then (t, mret (flood_arp event)) else
        (t, '(data, _) ← pack_ethernet (arp_reply (e_type packet) a (en_mac e));
            mret [packet_out (-1) (ev_port event) [output OFPP_IN_PORT] data])
    | None => (t, mret (flood_arp event))
    end
  else (t, mret (flood_arp event)).

(** [_handle_PacketIn], on the tables of all switches. *)
Definition handle_packet_in (arpTable : gmap Z arp_table) (now_event : Z * PacketIn)
  : result (list message) * gmap Z arp_table :=
  let '(now, event) := now_event in
  match ev_parsed event with
  | Err e => (Err e, arpTable)
  | Ok packet =>
      if negb (e_parsed packet) then (mret [], arpTable) else
      let dpid := ev_dpid event in
      let t := arpTable !!! dpid in
      if e_type packet =? LLDP_TYPE then (mret [], <[dpid := t]> arpTable) else
      match e_next packet with
      | PHdr _ (HIpv4 h) _ => let '(t, ms) := handle_ip t now event packet h in (mret ms, <[dpid := t]> arpTable)
      | PHdr _ (HArp a) _ => let '(t, ms) := handle_arp t now event packet a in (ms, <[dpid := t]> arpTable)
      | _ => (mret [], <[dpid := t]> arpTable)
      end
  end.

(** ** What the tables mean *)

(** The sender of an IP packet or of an ARP message over Ethernet. *)
Definition sender (packet : ethernet) : option nwaddr :=
  if negb (e_parsed packet) || (e_type packet =? LLDP_TYPE) then None else
  match e_next packet with
  | PHdr _ (HIpv4 h) _ => Some (i_srcip h)
  | PHdr _ (HArp a) _ =>
      if (a_prototype a =? 0x0800) && (a_hwtype a =? 1) && nonzero (a_protosrc a) then Some (a_protosrc a) else None
  | _ => None
  end.

(** The last packet of a switch's history that came from an address. *)
Definition claims (dpid : Z) (k : IPAddr + Z) (now_event : Z * PacketIn) : option Entry :=
  let '(now, event) := now_event in
  match ev_parsed event with
  | Ok packet =>
      if bool_decide (ev_dpid event = dpid /\ ip_key <$> sender packet = Some k)
      then Some (new_Entry now (ev_port event) (e_src packet)) else None
  | Err _ => None
  end.
Fixpoint last_claim (dpid : Z) (k : IPAddr + Z) (history : list (Z * PacketIn)) : option Entry :=
  match history with
  | [] => None
  | e :: history => match last_claim dpid k history with Some c => Some c | None => claims dpid k e end
  end.

Lemma last_claim_snoc dpid k h e :
  last_claim dpid k (h ++ [e]) = match claims dpid k e with Some c => Some c | None => last_claim dpid k h end.
Proof.
  induction h as [|x h IH]; cbn [app last_claim]; [by destruct (claims dpid k e)|].
  rewrite IH. by destruct (claims dpid k e).
Qed.

Definition tables_of (h : list (Z * PacketIn)) : gmap Z arp_table := snd (run handle_packet_in ∅ h).

Lemma handle_arp_table t now event packet a :
  (handle_arp t now event packet a).1
  = if (a_prototype a =? 0x0800) && (a_hwtype a =? 1) && nonzero (a_protosrc a)
    then learn_ip t now (ev_port event) (a_protosrc a) (e_src packet) else t.
Proof.
  unfold handle_arp. destruct (_ && nonzero _); [|done]. cbn zeta.
  destruct (a_opcode a =? 1); [|done]. destruct (_ !! _) as [e|]; [|done]. by destruct (isExpired now e).
Qed.

(** One packet learns at most its sender. *)
Lemma handle_packet_in_table ts e dpid k :
  ((handle_packet_in ts e).2 !!! dpid) !! k
  = match claims dpid k e with Some c => Some c | None => (ts !!! dpid) !! k end.
Proof.
  destruct e as [now event]. unfold handle_packet_in, claims, sender.
  destruct (ev_parsed event) as [packet|]; [|done].
  destruct (e_parsed packet); cbn [negb orb snd]; [|by rewrite bool_decide_eq_false_2 by naive_solver].
  assert (Hsame : (<[ev_dpid event := ts !!! ev_dpid event]> ts !!! dpid) = ts !!! dpid).
  { rewrite lookup_total_insert. by destruct (decide _) as [<-|]. }
  destruct (e_type packet =? LLDP_TYPE); [cbn [snd]; by rewrite Hsame, bool_decide_eq_false_2 by naive_solver|].
  assert (Hlearn : forall a, ((<[ev_dpid event := learn_ip (ts !!! ev_dpid event) now (ev_port event) a (e_src packet)]> ts) !!! dpid) !! k
    = match (if bool_decide (ev_dpid event = dpid /\ ip_key <$> Some a = Some k)
             then Some (new_Entry now (ev_port event) (e_src packet)) else None) with
      | Some c => Some c | None => (ts !!! dpid) !! k end).
  { intros a. rewrite lookup_total_insert. unfold learn_ip. cbn [fmap option_fmap option_map].
    destruct (decide (ev_dpid event = dpid)) as [<-|N]; [|by rewrite bool_decide_eq_false_2 by naive_solver].
    rewrite lookup_insert. destruct (decide (ip_key a = k)) as [->|]; [by rewrite bool_decide_eq_true_2|].
    by rewrite bool_decide_eq_false_2 by naive_solver. }
  destruct (e_next packet) as [| | |f [] next]; cbn [snd];
    try (by rewrite Hsame, bool_decide_eq_false_2 by naive_solver).
  - exact (Hlearn _).
  - destruct (handle_arp _ _ _ _ _) as [t' ms] eqn:E. cbn [snd]. pose proof (f_equal fst E) as Et.
    rewrite handle_arp_table in Et. cbn [fst] in Et. subst t'. destruct (_ && nonzero _); [exact (Hlearn _)|].
    by rewrite Hsame, bool_decide_eq_false_2 by naive_solver.
Qed.

Lemma tables_of_last_claim h dpid k : (tables_of h !!! dpid) !! k = last_claim dpid k h.
Proof.
  induction h as [|e h IH] using rev_ind; [by vm_compute|]. unfold tables_of in *.
  by rewrite run_snoc, handle_packet_in_table, last_claim_snoc, IH.
Qed.

(** The frame [arp_reply] packs to, as its receiver sees it. *)
Definition received_reply (a : arp) (mac : hwaddr) : ethernet :=
  mk_ethernet true (a_hwsrc a) mac 0x0806
    (PHdr true (HArp (mk_arp (a_hwtype a) (a_prototype a) mac (a_hwsrc a) 6 2 4 (a_protodst a) (a_protosrc a)))
      (PBytes [])).

Lemma reply_bytes a mac rest e :
  a_hwlen a = 6 -> a_protolen a = 4 -> pack_ethernet (received_reply a mac) = Ok (rest, e) ->
  exists e', pack_ethernet (arp_reply 0x0806 a mac) = Ok (rest, e').
Proof.
  destruct a as [ht pt hs hd hl op pl ps pd]. cbn [a_hwlen a_protolen]. intros -> -> H. unfold pack_ethernet, received_reply, arp_reply in *.
  cbn [e_next e_dst e_src e_type e_parsed a_hwtype a_prototype a_hwsrc a_hwlen a_protolen a_protosrc a_protodst pack_payload] in *.
  unfold mbind, result_bind, mret, result_ret in *. destruct (hdr _ _ _) as [[b h]|]; [|done].
  destruct (pack _ _) as [f|]; [|done]. injection H as <- _. by eexists.
Qed.

(** An Ethernet/IPv4 request whose addresses fit their fields. *)
Definition request_wf (a : arp) : Prop :=
  a_hwtype a = 1 /\ a_prototype a = 0x0800 /\ a_opcode a = 1 /\ a_hwlen a = 6 /\ a_protolen a = 4 /\
  eth_ok (a_hwsrc a) /\ ip_addr_ok (a_protosrc a) /\ ip_addr_ok (a_protodst a) /\ nonzero (a_protosrc a) = true.

Lemma arp_reply_parses a mac randint app_parse :
  request_wf a -> eth_ok mac ->
  exists data e, pack_ethernet (arp_reply 0x0806 a mac) = Ok (data, e) /\
    forall g, exists g', parse_ethernet randint app_parse data g = (Ok (received_reply a mac), g').
Proof.
  intros (H1 & H2 & H3 & H4 & H5 & Hs & Hps & Hpd & _) Hm.
  destruct (ethernet_comes_back randint app_parse (received_reply a mac)) as (data & e & E & _ & Er & Hp).
  { unfold ethernet_wf, received_reply. cbn [e_parsed e_dst e_src e_type e_next type_parsers Z.eqb Pos.eqb payload_wf].
    split_and!; try done. unfold type_parsers. cbn [Z.eqb Pos.eqb payload_wf]. split; [|done].
    unfold arp_wf. cbn [a_hwtype a_prototype a_hwsrc a_hwdst a_hwlen a_opcode a_protolen a_protosrc a_protodst].
    rewrite H1, H2. by split_and!. }
  destruct (reply_bytes a mac data e H4 H5 E) as [e' E']. exists data, e'. split; [done|]. intros g.
  destruct (Hp g) as [g' Hg]. exists g'. rewrite Hg. do 2 f_equal.
  destruct e as [f d s t n]. unfold erase_ethernet, received_reply in *. cbn in Er. injection Er as -> -> -> -> Hn.
  destruct n as [| | |f h n]; try done. cbn in Hn. injection Hn as -> Hh Hn.
  assert (h = HArp (mk_arp (a_hwtype a) (a_prototype a) mac (a_hwsrc a) 6 2 4 (a_protodst a) (a_protosrc a))) as ->
    by (destruct h; cbn in Hh; congruence).
  destruct n; cbn in Hn; congruence.
Qed.

(** ** Properties *)

(** After any history of packets, the tables hold for every switch and
    address the port and hardware address of the last packet that came from
    it, with two minutes to live; and an IP packet, its own sender learned
    first, gets a rule out of the port its destination is known by, nothing if
    that is the port it came in by or the destination is unknown. *)
Theorem l3_forwarding_spec (h : list (Z * PacketIn)) (now : Z) (event : PacketIn) (packet : ethernet) (f : bool) (ip : ipv4) (next : payload) :
  ev_parsed event = Ok packet -> e_parsed packet = true -> e_type packet <> LLDP_TYPE ->
  e_next packet = PHdr f (HIpv4 ip) next ->
  (forall dpid k, (tables_of h !!! dpid) !! k = last_claim dpid k h) /\
  fst (handle_packet_in (tables_of h) (now, event))
  = Ok (match last_claim (ev_dpid event) (ip_key (i_dstip ip)) (h ++ [(now, event)]) with
        | Some e =>
            if en_port e =? ev_port event then []
            else [flow_mod (from_packet packet (Some (ev_port event))) 10 0 (ev_buffer_id event) [output (en_port e)]]
        | None => []
        end).
Proof.
  intros Ep Ef Et En. split; [intros; apply tables_of_last_claim|].
  assert (Hs : sender packet = Some (i_srcip ip)).
  { unfold sender. by rewrite Ef, (proj2 (Z.eqb_neq _ _) Et), En. }
  rewrite last_claim_snoc, <-tables_of_last_claim. unfold handle_packet_in, claims.
  rewrite Ep, Hs, Ef, (proj2 (Z.eqb_neq _ _) Et), En. cbn [negb]. unfold handle_ip, learn_ip. cbn [fst].
  rewrite lookup_insert. cbn [fmap option_fmap option_map].
  destruct (decide (ip_key (i_srcip ip) = ip_key (i_dstip ip))) as [E|E].
  - by rewrite bool_decide_eq_true_2 by (by rewrite E).
  - rewrite bool_decide_eq_false_2 by naive_solver. by destruct (_ !! _) as [e|].
Qed.

Definition example_ip (src dst : Z) : payload :=
  PHdr true (HIpv4 (mk_ipv4 4 5 0 20 0 0 0 64 200 0 (NwIP (IPAddr_of_int src false)) (NwIP (IPAddr_of_int dst false))))
    (PBytes []).
Definition example_ip_frame (src dst : byte) (ip : payload) : ethernet :=
  mk_ethernet true (HwEth (example_mac dst)) (HwEth (example_mac src)) 0x0800 ip.
Definition example_ip_event (port : Z) (src dst : byte) : PacketIn :=
  mk_PacketIn 7 port (Ok (example_ip_frame src dst (example_ip (byte_to_Z src) (byte_to_Z dst)))) 55 [].

Lemma l3_forwarding_spec_witness :
  let h := [(second, example_ip_event 3 x01 x02)] in
  let event := example_ip_event 4 x02 x01 in
  let packet := example_ip_frame x02 x01 (example_ip 2 1) in
  fst (handle_packet_in (tables_of h) (2 * second, event))
  = Ok [flow_mod (from_packet packet (Some 4)) 10 0 55 [output 3]].
Proof.
  cbv zeta. destruct (l3_forwarding_spec [(second, example_ip_event 3 x01 x02)] (2 * second) (example_ip_event 4 x02 x01)
    (example_ip_frame x02 x01 (example_ip 2 1)) true
    (mk_ipv4 4 5 0 20 0 0 0 64 200 0 (NwIP (IPAddr_of_int 2 false)) (NwIP (IPAddr_of_int 1 false))) (PBytes [])) as [_ ->];
    [reflexivity..|discriminate|reflexivity|]. vm_compute. reflexivity.
Defined.

(** C36: A well-formed ARP request for an address learned less than two minutes
    ago is answered at the port it came in by, and the bytes sent are a frame
    that the receiver parses as the answer: addressed to the one who asked,
    with the hardware address that the last packet from the requested address
    had, and the requested address as its sender. *)
Theorem arp_answer_spec (randint : nat -> Z) (app_parse : app_class -> bytes -> P payload)
    (h : list (Z * PacketIn)) (now : Z) (event : PacketIn) (packet : ethernet) (f : bool) (a : arp) (next : payload) (e : Entry) :
  ev_parsed event = Ok packet -> e_parsed packet = true -> e_type packet = 0x0806 ->
  e_next packet = PHdr f (HArp a) next -> request_wf a ->
  last_claim (ev_dpid event) (ip_key (a_protodst a)) (h ++ [(now, event)]) = Some e ->
  now <= en_timeout e -> eth_ok (en_mac e) ->
  exists data,
    fst (handle_packet_in (tables_of h) (now, event))
    = Ok [packet_out (-1) (ev_port event) [output OFPP_IN_PORT] data] /\
    forall g, exists g', parse_ethernet randint app_parse data g = (Ok (received_reply a (en_mac e)), g').
Proof.
  intros Ep Ef Et En Ha Hl Hnow Hm.
  destruct (arp_reply_parses a (en_mac e) randint app_parse Ha Hm) as (data & e' & E & Hp). exists data. split; [|exact Hp].
  destruct Ha as (H1 & H2 & H3 & _ & _ & _ & _ & _ & H9).
  assert (Hs : sender packet = Some (a_protosrc a)).
  { unfold sender. by rewrite Ef, Et, En, H1, H2, H9. }
  rewrite last_claim_snoc, <-tables_of_last_claim in Hl. unfold claims in Hl. rewrite Ep, Hs in Hl.
  unfold handle_packet_in. rewrite Ep, Ef, Et, En. cbn [negb]. change (0x0806 =? LLDP_TYPE) with false. cbv iota.
  unfold handle_arp. rewrite H1, H2, H3, H9. cbn [Z.eqb Pos.eqb andb]. unfold learn_ip. rewrite lookup_insert.
  assert (He : (if decide (ip_key (a_protosrc a) = ip_key (a_protodst a))
                then Some (new_Entry now (ev_port event) (e_src packet))
                else (tables_of h !!! ev_dpid event) !! ip_key (a_protodst a)) = Some e).
  { rewrite <-Hl. cbn [fmap option_fmap option_map]. destruct (decide _) as [E1|E1].
    - by rewrite bool_decide_eq_true_2 by (by rewrite E1).
    - by rewrite bool_decide_eq_false_2 by naive_solver. }
  rewrite He. unfold isExpired. rewrite (proj2 (Z.ltb_ge _ _) Hnow), Et, E. done.
Qed.

(** Host 1 asks for host 2, which has been heard at port 4. *)
Definition example_request : arp :=
  mk_arp 1 0x0800 (HwEth (example_mac x01)) (HwEth EMPTY_ETH) 6 1 4 (NwIP (IPAddr_of_int 1 false)) (NwIP (IPAddr_of_int 2 false)).
Definition example_request_event (buffer : Z) : PacketIn :=
  mk_PacketIn 7 3 (Ok (mk_ethernet true (HwEth (mkEth (replicate 6 xff))) (HwEth (example_mac x01)) 0x0806
    (PHdr true (HArp example_request) (PBytes [])))) buffer (str "the frame").

Lemma arp_answer_spec_witness :
  exists data,
    fst (handle_packet_in (tables_of [(second, example_ip_event 4 x02 x01)]) (9 * second, example_request_event 5))
    = Ok [packet_out (-1) 3 [output OFPP_IN_PORT] data] /\
    forall g, exists g', parse_ethernet (fun _ => 0) (fun k b => mret (PHdr true (HApp k (Ok b)) (PBytes []))) data g
      = (Ok (received_reply example_request (HwEth (example_mac x02))), g').
Proof.
  apply (arp_answer_spec (fun _ => 0) (fun k b => mret (PHdr true (HApp k (Ok b)) (PBytes [])))
    [(second, example_ip_event 4 x02 x01)] (9 * second) (example_request_event 5)
    (mk_ethernet true (HwEth (mkEth (replicate 6 xff))) (HwEth (example_mac x01)) 0x0806
      (PHdr true (HArp example_request) (PBytes []))) true example_request (PBytes [])
    (new_Entry second 4 (HwEth (example_mac x02)))); try reflexivity.
  - repeat split; try (vm_compute; congruence).
  - vm_compute. congruence.
  - repeat split; vm_compute; congruence.
Defined.

(** An ARP message from a host that is nowhere buffered at the switch
    (buffer -1, which is what reading NO_BUFFER from the wire gives) and cannot
    be answered is flooded with neither its data nor a buffer: the test for the
    missing buffer does not notice, so the message sent carries no packet. *)
Theorem arp_flood_unbuffered (t : arp_table) (now : Z) (event : PacketIn) (packet : ethernet) (a : arp) :
  ev_buffer_id event = -1 ->
  match t !! ip_key (a_protodst a) with Some e => isExpired now e = true | None => True end ->
  ip_key (a_protosrc a) <> ip_key (a_protodst a) ->
  exists t', handle_arp t now event packet a
  = (t', Ok [packet_out (-1) (ev_port event) [output OFPP_FLOOD] []]).
Proof.
  intros Hb Ht Hne. unfold handle_arp, flood_arp. rewrite Hb. destruct (_ && nonzero _); [|by eexists]. cbn zeta.
  destruct (a_opcode a =? 1); [|by eexists]. unfold learn_ip. rewrite lookup_insert, decide_False by done.
  destruct (_ !! _) as [e|]; [rewrite Ht|]; by eexists.
Qed.

Lemma arp_flood_unbuffered_witness :
  exists t', handle_arp ∅ 0 (example_request_event (-1)) new_ethernet example_request
  = (t', Ok [packet_out (-1) 3 [output OFPP_FLOOD] []]).
Proof. apply (arp_flood_unbuffered ∅ 0 (example_request_event (-1)) new_ethernet example_request); [reflexivity|exact I|vm_compute; congruence]. Defined.
