(* ===== verification/L2Multi.v ===== *)
(** * Forwarding along shortest paths ([pox/forwarding/l2_multi.py])

    The events [l2_multi] and its [Switch] objects handle, on the module's
    state: the switches known, which of them are connected, the adjacency, the
    path map, and where addresses were learned.  The paths are those of
    [Paths.v].  A message is recorded when it is handed to a connection, so the
    record survives an exception later in the handler. *)

From S2P Require Import Prelude PyStruct Addresses OfpMatch OfpActions OfpStructs OfpMessages OfpVarMessages OfpStream.
From S2P Require Import Packet PacketWire L2Learning Paths Controller.

(** [Discovery.Link]. *)
Record Link := mk_Link { dpid1 : Z; port1 : Z; dpid2 : Z; port2 : Z }.
#[global] Instance Link_eq_dec : EqDecision Link.
Proof. solve_decision. Defined.
Definition flip (l : Link) : Link := mk_Link (dpid2 l) (port2 l) (dpid1 l) (port1 l).

(** [switches] in the order of the dictionary; [connected] holds those whose
    [connection] is not [None]. *)
Record l2_multi := mk_l2_multi {
  switches : list Z;
  connected : list Z;
  adj : adjacency;
  paths : path_map;
  mac_map : gmap EthAddr (Z * Z);
  ids : gen;
  sent : list (Z * message)
}.
Definition set_connected (s : l2_multi) x := mk_l2_multi (switches s) x (adj s) (paths s) (mac_map s) (ids s) (sent s).
Definition set_switches (s : l2_multi) x := mk_l2_multi x (connected s) (adj s) (paths s) (mac_map s) (ids s) (sent s).
Definition set_adj (s : l2_multi) x := mk_l2_multi (switches s) (connected s) x (paths s) (mac_map s) (ids s) (sent s).
Definition set_paths (s : l2_multi) x := mk_l2_multi (switches s) (connected s) (adj s) x (mac_map s) (ids s) (sent s).
Definition set_mac_map (s : l2_multi) x := mk_l2_multi (switches s) (connected s) (adj s) (paths s) x (ids s) (sent s).
Definition set_ids (s : l2_multi) x := mk_l2_multi (switches s) (connected s) (adj s) (paths s) (mac_map s) x (sent s).
Definition set_sent (s : l2_multi) x := mk_l2_multi (switches s) (connected s) (adj s) (paths s) (mac_map s) (ids s) x.

Abbreviation L := (M l2_multi).
(** [sw.connection.send(msg)]. *)
Definition send (sw : Z) (msg : message) : L unit :=
  on ← get connected;
  if decide (sw ∈ on) then modify (fun s => set_sent s (sent s ++ [(sw, msg)])) else lift (Err AttributeError).

(** ** Paths *)

Definition out_to (port : option Z) : action := AOutput (mk_action_output OFPAT_OUTPUT 8 port 0xffff).

(** [_install]. *)
Definition install (m : ofp_match) (buf : Z) (hop : Z * option Z) : L unit :=
  send hop.1 (flow_mod m 10 30 buf [out_to hop.2]).

(** [_install_path]: the switch that has the packet comes last. *)
Definition install_hops (p : list (Z * option Z)) (m : ofp_match) (buffer_id : Z) : L unit :=
  match p with
  | [] => lift (Err IndexError)
  | first :: rest => _ ← for_each rest (install m (-1)); install m buffer_id first
  end.

(** The answer to an IP packet that cannot be delivered. *)
Definition dest_unreachable (self : Z) (m : ofp_match) (event : PacketIn) (orig_ip : ipv4) (orig_next : payload) : L unit :=
  dpid ← lift (dpidToStr self false);
  src ← lift (EthAddr_init (EStr dpid));
  dst ← lift (need AttributeError (hget m F_dl_src));
  g ← get ids;
  let '(id, g) := next_ip_id g in
  _ ← modify (fun s => set_ids s g);
  id ← lift id;
  '(d, _) ← lift (pack_payload None (PHdr true (HIpv4 orig_ip) orig_next));
  let d := pyupto d (i_hl orig_ip * 4 + 8) in
  srcip ← lift (need AttributeError (nget m F_nw_dst));
  dstip ← lift (need AttributeError (nget m F_nw_src));
  zero ← lift (pack [cH; cH] (0, (0, tt)));
  let icmp := PHdr false (HIcmp (mk_icmp 3 1 0)) (PBytes (zero ++ d)) in
  let ipp := PHdr false (HIpv4 (mk_ipv4 4 5 0 20 id 0 0 64 1 0 srcip dstip)) icmp in
  '(data, _) ← lift (pack_ethernet (mk_ethernet false dst (HwEth src) 0x0800 ipp));
  send self (packet_out (-1) OFPP_NONE [output (ev_port event)] data).

(** [install_path]. *)
Definition install_path (self dst_sw last_port : Z) (m : ofp_match) (event : PacketIn) (packet : ethernet) : L unit :=
  s ← get id;
  let '(r, pm) := get_path (switches s) (adj s) (paths s) self dst_sw last_port in
  _ ← modify (fun s => set_paths s pm);
  p ← lift r;
  match p with
  | Some p => install_hops p m (ev_buffer_id event)
  | None =>
      match find_ipv4 (e_next packet) with
      | Some (orig_ip, next) =>
          if bool_decide (zget m F_dl_type = Some 0x0800) then dest_unreachable self m event orig_ip next else mret tt
      | None => mret tt
      end
  end.

(** ** Packets *)

Definition flood_packet (self : Z) (event : PacketIn) : L unit :=
  send self (packet_out (ev_buffer_id event) (ev_port event) [output OFPP_FLOOD] []).
Definition drop_buffer (self : Z) (event : PacketIn) : L unit :=
  if ev_buffer_id event =? -1 then mret tt else send self (packet_out (ev_buffer_id event) (ev_port event) [] []).

(** [port in adjacency[sw].values()]. *)
Definition is_link_port (a : adjacency) (sw port : Z) : bool :=
  existsb (fun jp => jp.2 =? port) (map_to_list (ports_of a sw)).

Definition learn (src : EthAddr) (loc : Z * Z) : L unit :=
  multicast ← lift (isMulticast src);
  if multicast : bool then mret tt else modify (fun s => set_mac_map s (<[src := loc]> (mac_map s))).

(** [dpidToStr(sw.connection.dpid)], for the log. *)
Definition connection_dpid (sw : Z) : L bytes :=
  on ← get connected; _ ← lift (guard_ok (bool_decide (sw ∈ on)) AttributeError); lift (dpidToStr sw false).

(** [Switch._handle_PacketIn], of the switch [self]. *)
Definition handle_packet (self : Z) (event : PacketIn) : L unit :=
  packet ← lift (ev_parsed event);
  src ← lift (eth_of (e_src packet));
  s ← get id;
  let loc := (self, ev_port event) in
  if e_type packet =? LLDP_TYPE then drop_buffer self event else
  dst ← lift (eth_of (e_dst packet));
  _ ← match mac_map s !! src with
      | None => learn src loc
      | Some oldloc =>
          if decide (oldloc = loc) then mret tt
          else if negb (is_link_port (adj s) self (ev_port event)) then
            _ ← connection_dpid oldloc.1; _ ← connection_dpid self; learn src loc
          else
            multicast ← lift (isMulticast dst);
            if multicast : bool then mret tt else _ ← lift (dpidToStr self false); mret tt
      end;
  multicast ← lift (isMulticast dst);
  if multicast : bool then flood_packet self event else
  s ← get id;
  match mac_map s !! dst with
  | None => flood_packet self event
  | Some dest => install_path self dest.1 dest.2 (from_packet packet None) event packet
  end.

(** ** Links and connections *)

(** [of.ofp_flow_mod(match=of.ofp_match(), command=of.OFPFC_DELETE)]. *)
Definition clear_flows : message :=
  MFlowMod (mk_ofp_flow_mod (new_header OFPT_FLOW_MOD) new_match 0 OFPFC_DELETE 0 0 OFP_DEFAULT_PRIORITY (-1)
    OFPP_NONE 0 []).

Definition connect_switches (a : adjacency) (sw1 p1 sw2 p2 : Z) : adjacency :=
  let a := <[sw1 := <[sw2 := p1]> (ports_of a sw1)]> a in
  <[sw2 := <[sw1 := p2]> (ports_of a sw2)]> a.
Definition disconnect_switches (a : adjacency) (sw1 sw2 : Z) : adjacency :=
  let a := <[sw1 := delete sw2 (ports_of a sw1)]> a in
  <[sw2 := delete sw1 (ports_of a sw2)]> a.

(** Another link between the two switches, in both directions. *)
Definition other_link (discovered : list Link) (l : Link) : option Link :=
  List.find (fun ll => (dpid1 ll =? dpid1 l) && (dpid2 ll =? dpid2 l) && bool_decide (flip ll ∈ discovered)) discovered.

(** What a link removal does to the adjacency. *)
Definition remove_link (discovered : list Link) (l : Link) (a : adjacency) : adjacency :=
  let a := disconnect_switches a (dpid1 l) (dpid2 l) in
  match other_link discovered l with
  | Some ll => connect_switches a (dpid1 l) (port1 ll) (dpid2 l) (port2 ll)
  | None => a
  end.
(** And a link that comes up. *)
Definition add_link (discovered : list Link) (l : Link) (a : adjacency) : adjacency :=
  match port_to a (dpid1 l) (dpid2 l) with
  | Some _ => a
  | None =>
      if decide (flip l ∈ discovered) then connect_switches a (dpid1 l) (port1 l) (dpid2 l) (port2 l) else a
  end.

(** The addresses learned at an end of the link are forgotten. *)
Definition at_link (l : Link) (loc : Z * Z) : bool :=
  bool_decide (loc = (dpid1 l, port1 l)) || bool_decide (loc = (dpid2 l, port2 l)).
Definition unlearn (l : Link) (macs : gmap EthAddr (Z * Z)) : gmap EthAddr (Z * Z) :=
  filter (fun ml => at_link l ml.2 = false) macs.

(** [l2_multi._handle_LinkEvent]; [discovered] is [core.openflow_discovery.adjacency]. *)
Definition handle_LinkEvent (discovered : list Link) (l : Link) (removed : bool) : L unit :=
  sws ← get switches;
  _ ← lift (guard_ok (bool_decide (dpid1 l ∈ sws)) KeyError);
  _ ← lift (guard_ok (bool_decide (dpid2 l ∈ sws)) KeyError);
  _ ← for_each sws (fun sw => send sw clear_flows);
  _ ← modify (fun s => set_paths s ∅);
  if removed then modify (fun s => set_adj s (remove_link discovered l (adj s)))
  else
    _ ← modify (fun s => set_adj s (add_link discovered l (adj s)));
    modify (fun s => set_mac_map s (unlearn l (mac_map s))).

(** [l2_multi._handle_ConnectionUp] and [Switch._handle_ConnectionDown]. *)
Definition handle_ConnectionUp (dpid : Z) : L unit :=
  _ ← modify (fun s => if decide (dpid ∈ switches s) then s else set_switches s (switches s ++ [dpid]));
  modify (fun s => if decide (dpid ∈ connected s) then s else set_connected s (connected s ++ [dpid])).
Definition handle_ConnectionDown (dpid : Z) : L unit :=
  modify (fun s => set_connected s (filter (fun d => d <> dpid) (connected s))).

(** ** What the handlers keep *)

(** The switches of the adjacency are known, and the path map is its own. *)
Definition l2_ok (s : l2_multi) : Prop :=
  closed (adj s) (switches s) /\ paths_ok (switches s) (adj s) (paths s) /\
  (forall sw, sw ∈ connected s -> sw ∈ switches s).

Lemma send_ok sw msg : preserves l2_ok (send sw msg).
Proof. unfold send. keep. by apply preserves_modify. Qed.
#[export] Hint Resolve send_ok : keeps.

Lemma install_hops_ok p m b : preserves l2_ok (install_hops p m b).
Proof. unfold install_hops, install. keep. Qed.
Lemma dest_unreachable_ok self m e h n : preserves l2_ok (dest_unreachable self m e h n).
Proof. unfold dest_unreachable. keep. by apply preserves_modify. Qed.
#[export] Hint Resolve install_hops_ok dest_unreachable_ok : keeps.

Lemma install_path_ok self dst_sw port m e p : preserves l2_ok (install_path self dst_sw port m e p).
Proof.
  intros s (Hc & Hp & Hon). unfold install_path. rewrite M_bind_unfold. cbn [get id].
  destruct (get_path_spec (switches s) (adj s) (paths s) self dst_sw port Hc Hp) as (o & pm & E & Hp' & _).
  rewrite E. rewrite M_bind_unfold. cbn [modify]. rewrite M_bind_lift_Ok.
  assert (Hs : l2_ok (set_paths s pm)) by by split_and!.
  revert Hs. generalize (set_paths s pm). change (preserves l2_ok (match o with
    | Some p => install_hops p m (ev_buffer_id e)
    | None => match find_ipv4 (e_next p) with
      | Some (orig_ip, next) =>
          if bool_decide (zget m F_dl_type = Some 0x0800) then dest_unreachable self m e orig_ip next else mret tt
      | None => mret tt end end)). keep.
Qed.

#[export] Hint Resolve install_path_ok : keeps.

Lemma ports_of_insert (a : adjacency) sw m sw' :
  ports_of (<[sw := m]> a) sw' = if decide (sw = sw') then m else ports_of a sw'.
Proof. unfold ports_of. rewrite lookup_total_insert. by destruct (decide _). Qed.

Lemma port_to_connect a s1 p1 s2 p2 i j :
  port_to (connect_switches a s1 p1 s2 p2) i j
  = if decide (i = s2 /\ j = s1) then Some p2 else if decide (i = s1 /\ j = s2) then Some p1 else port_to a i j.
Proof.
  unfold port_to, connect_switches. rewrite ports_of_insert.
  destruct (decide (s2 = i)) as [<-|H2]; [rewrite lookup_insert; destruct (decide (s1 = j)) as [<-|H1]|].
  - by rewrite decide_True.
  - rewrite decide_False by naive_solver. rewrite ports_of_insert. destruct (decide (s1 = s2)) as [->|]; [rewrite lookup_insert|].
    + destruct (decide (s2 = j)); [done|]. by rewrite decide_False by naive_solver.
    + by rewrite decide_False by naive_solver.
  - rewrite decide_False by naive_solver. rewrite ports_of_insert.
    destruct (decide (s1 = i)) as [<-|]; [rewrite lookup_insert; destruct (decide (s2 = j)) as [<-|]|].
    + by rewrite decide_True.
    + by rewrite decide_False by naive_solver.
    + by rewrite decide_False by naive_solver.
Qed.

Lemma port_to_disconnect a s1 s2 i j :
  port_to (disconnect_switches a s1 s2) i j
  = if decide (i = s1 /\ j = s2 \/ i = s2 /\ j = s1) then None else port_to a i j.
Proof.
  unfold port_to, disconnect_switches. rewrite ports_of_insert.
  destruct (decide (s2 = i)) as [<-|H2].
  - rewrite lookup_delete. destruct (decide (s1 = j)) as [<-|H1]; [by rewrite decide_True by naive_solver|].
    rewrite ports_of_insert. destruct (decide (s1 = s2)) as [->|].
    + rewrite lookup_delete. by destruct (decide (s2 = j)); rewrite ?decide_True by naive_solver; rewrite ?decide_False by naive_solver.
    + by rewrite decide_False by naive_solver.
  - rewrite ports_of_insert. destruct (decide (s1 = i)) as [<-|].
    + rewrite lookup_delete. by destruct (decide (s2 = j)); rewrite ?decide_True by naive_solver; rewrite ?decide_False by naive_solver.
    + by rewrite decide_False by naive_solver.
Qed.

Lemma closed_connect a sws s1 p1 s2 p2 :
  closed a sws -> s1 ∈ sws -> s2 ∈ sws -> closed (connect_switches a s1 p1 s2 p2) sws.
Proof.
  intros Hc H1 H2 i j. rewrite port_to_connect. destruct (decide _) as [[-> ->]|_]; [done|].
  destruct (decide _) as [[-> ->]|_]; [done|]. apply Hc.
Qed.
Lemma closed_disconnect a sws s1 s2 : closed a sws -> closed (disconnect_switches a s1 s2) sws.
Proof. intros Hc i j. rewrite port_to_disconnect. destruct (decide _); [by intros []|apply Hc]. Qed.

Lemma closed_remove d l a sws :
  closed a sws -> dpid1 l ∈ sws -> dpid2 l ∈ sws -> closed (remove_link d l a) sws.
Proof.
  intros Hc H1 H2. unfold remove_link. pose proof (closed_disconnect a sws (dpid1 l) (dpid2 l) Hc).
  destruct (other_link d l); [by apply closed_connect|done].
Qed.
Lemma closed_add d l a sws : closed a sws -> dpid1 l ∈ sws -> dpid2 l ∈ sws -> closed (add_link d l a) sws.
Proof.
  intros Hc H1 H2. unfold add_link. destruct (port_to _ _ _); [done|].
  destruct (decide _); [by apply closed_connect|done].
Qed.

Lemma handle_packet_ok self e : preserves l2_ok (handle_packet self e).
Proof.
  unfold handle_packet, learn, connection_dpid, drop_buffer, flood_packet. keep; by apply preserves_modify.
Qed.

(** Sending changes nothing but the record. *)
Lemma clear_all_frame sws s :
  exists r m, for_each sws (fun sw => send sw clear_flows) s = (r, set_sent s m) /\
    (r = Ok tt <-> forall sw, sw ∈ sws -> sw ∈ connected s) /\ (r = Ok tt \/ r = Err AttributeError).
Proof.
  revert s. induction sws as [|sw sws IH]; intros s.
  - exists (Ok tt), (sent s). split; [by destruct s|]. split; [|by left]. split; [|done]. intros _ sw H. by apply elem_of_nil in H.
  - cbn [for_each]. rewrite M_bind_unfold. unfold send at 1. rewrite M_bind_unfold. cbn [get].
    destruct (decide (sw ∈ connected s)) as [Hin|Hout].
    + cbn [modify]. destruct (IH (set_sent s (sent s ++ [(sw, clear_flows)]))) as (r & m & -> & Hr & Hc).
      exists r, m. split; [done|]. split; [|done]. rewrite Hr. cbn [connected set_sent].
      split; intros H x Hx; [apply elem_of_cons in Hx as [->|]; auto|apply H; by right].
    + cbn [lift]. exists (Err AttributeError), (sent s). split; [by destruct s|]. split; [|by right].
      split; [done|]. intros H. exfalso. apply Hout, H. by left.
Qed.

Lemma handle_LinkEvent_ok d l removed : preserves l2_ok (handle_LinkEvent d l removed).
Proof.
  intros s Hs. unfold handle_LinkEvent. rewrite M_bind_unfold. cbn [get]. unfold guard_ok.
  destruct (bool_decide (dpid1 l ∈ _)) eqn:E1; [|exact Hs]. rewrite M_bind_lift_Ok.
  destruct (bool_decide (dpid2 l ∈ _)) eqn:E2; [|exact Hs]. rewrite M_bind_lift_Ok.
  apply bool_decide_eq_true in E1, E2. rewrite M_bind_unfold.
  destruct (clear_all_frame (switches s) s) as (r & m & -> & _).
  destruct Hs as (Hc & Hp & Hon). destruct r as [[]|e]; [|by split_and!].
  rewrite M_bind_unfold. cbn [modify]. destruct removed.
  - split_and!; [by apply closed_remove|by left|done].
  - rewrite M_bind_unfold. split_and!; [by apply closed_add|by left|done].
Qed.

Lemma handle_ConnectionUp_ok dpid : preserves l2_ok (handle_ConnectionUp dpid).
Proof.
  unfold handle_ConnectionUp. intros s (Hc & Hp & Hon). rewrite M_bind_unfold. cbn [modify snd].
  set (s1 := if decide (dpid ∈ switches s) then s else _).
  assert (Hs1 : l2_ok s1 /\ dpid ∈ switches s1).
  { subst s1. destruct (decide (dpid ∈ switches s)) as [|Hn]; [by split_and!|].
    assert (Hsub : forall x, x ∈ switches s -> x ∈ switches s ++ [dpid]) by set_solver.
    split; [|simpl; set_solver]. split_and!; simpl; [|destruct Hp as [->|(sws' & H1 & H2 & ->)]; [by left|]|by auto].
    - intros i j H. destruct (Hc i j H). auto.
    - right. exists sws'. by auto. }
  destruct Hs1 as [(Hc1 & Hp1 & Hon1) Hin]. destruct (decide (dpid ∈ connected s1)); [by split_and!|].
  split_and!; [done|done|]. simpl. set_solver.
Qed.

Lemma handle_ConnectionDown_ok dpid : preserves l2_ok (handle_ConnectionDown dpid).
Proof.
  apply preserves_modify. intros s (Hc & Hp & Hon). split_and!; [done|done|]. simpl.
  intros sw [_ H]%list_elem_of_filter. auto.
Qed.

(** ** The adjacency and the links discovered *)

(** Two switches are adjacent, by the ports of one link, exactly when a link
    between them was discovered in both directions. *)
Definition agrees (d : list Link) (a : adjacency) : Prop :=
  (forall s1 s2 p, s1 <> s2 -> port_to a s1 s2 = Some p ->
     exists p', port_to a s2 s1 = Some p' /\ mk_Link s1 p s2 p' ∈ d /\ mk_Link s2 p' s1 p ∈ d) /\
  (forall l, l ∈ d -> flip l ∈ d -> dpid1 l <> dpid2 l -> is_Some (port_to a (dpid1 l) (dpid2 l))).

Lemma flip_flip l : flip (flip l) = l.
Proof. by destruct l. Qed.

(** Connecting two switches by a link there is in both directions. *)
Lemma connect_agrees d a l :
  l ∈ d -> flip l ∈ d ->
  (forall s1 s2 p, s1 <> s2 -> ~ (s1 = dpid1 l /\ s2 = dpid2 l) -> ~ (s1 = dpid2 l /\ s2 = dpid1 l) ->
     port_to a s1 s2 = Some p ->
     exists p', port_to a s2 s1 = Some p' /\ mk_Link s1 p s2 p' ∈ d /\ mk_Link s2 p' s1 p ∈ d) ->
  (forall k, k ∈ d -> flip k ∈ d -> dpid1 k <> dpid2 k ->
     ~ (dpid1 k = dpid1 l /\ dpid2 k = dpid2 l) -> ~ (dpid1 k = dpid2 l /\ dpid2 k = dpid1 l) ->
     is_Some (port_to a (dpid1 k) (dpid2 k))) ->
  agrees d (connect_switches a (dpid1 l) (port1 l) (dpid2 l) (port2 l)).
Proof.
  destruct l as [d1 p1 d2 p2]. unfold flip. simpl. intros Hl Hf Hs Hc. split.
  - intros s1 s2 p Hne. rewrite !port_to_connect.
    destruct (decide (s1 = d2 /\ s2 = d1)) as [[-> ->]|N1].
    + intros [= <-]. rewrite decide_False by naive_solver. rewrite decide_True by done. by exists p1.
    + destruct (decide (s1 = d1 /\ s2 = d2)) as [[-> ->]|N2].
      * intros [= <-]. rewrite decide_True by done. by exists p2.
      * intros H. rewrite !decide_False by naive_solver. by apply Hs.
  - intros k Hk Hfk Hne. rewrite port_to_connect. repeat destruct (decide _); [done|done|]. by apply Hc.
Qed.

Lemma add_agrees d a l : agrees d a -> agrees (d ++ [l]) (add_link (d ++ [l]) l a).
Proof.
  intros [Hs Hc]. assert (Hsub : forall k, k ∈ d -> k ∈ d ++ [l]) by set_solver.
  assert (Hin : l ∈ d ++ [l]) by set_solver.
  assert (Hs' : forall s1 s2 p, s1 <> s2 -> port_to a s1 s2 = Some p ->
     exists p', port_to a s2 s1 = Some p' /\ mk_Link s1 p s2 p' ∈ d ++ [l] /\ mk_Link s2 p' s1 p ∈ d ++ [l]).
  { intros s1 s2 p Hne H. destruct (Hs s1 s2 p Hne H) as (p' & H1 & H2 & H3). exists p'. auto. }
  assert (Hc' : forall k, k ∈ d ++ [l] -> flip k ∈ d ++ [l] -> dpid1 k <> dpid2 k ->
     ~ (dpid1 k = dpid1 l /\ dpid2 k = dpid2 l) -> ~ (dpid1 k = dpid2 l /\ dpid2 k = dpid1 l) ->
     is_Some (port_to a (dpid1 k) (dpid2 k))).
  { intros k Hk Hf Hne N1 N2. apply Hc; [| |done].
    - apply elem_of_app in Hk as [Hk|Hk%list_elem_of_singleton]; [done|]. subst k. by destruct N1.
    - apply elem_of_app in Hf as [Hf|Hf%list_elem_of_singleton]; [done|]. rewrite <-Hf in N2. by destruct N2. }
  unfold add_link. destruct (port_to a (dpid1 l) (dpid2 l)) as [p|] eqn:E.
  - split; [done|]. intros k Hk Hf Hne.
    destruct (decide (dpid1 k = dpid1 l /\ dpid2 k = dpid2 l)) as [[-> ->]|N1]; [by rewrite E|].
    destruct (decide (dpid1 k = dpid2 l /\ dpid2 k = dpid1 l)) as [[E1 E2]|N2]; [|by apply Hc'].
    destruct (Hs' (dpid1 l) (dpid2 l) p) as (p' & Ep & _); [congruence|done|]. by rewrite E1, E2, Ep.
  - destruct (decide (flip l ∈ d ++ [l])) as [Hf|Hf]; [apply connect_agrees; eauto|].
    split; [done|]. intros k Hk Hfk Hne.
    assert (Hkl : k <> l) by (intros ->; done). assert (Hkf : flip k <> l) by (intros <-; rewrite flip_flip in Hf; done).
    apply Hc; [set_solver|set_solver|done].
Qed.

Lemma other_link_Some d l ll : other_link d l = Some ll ->
  ll ∈ d /\ flip ll ∈ d /\ dpid1 ll = dpid1 l /\ dpid2 ll = dpid2 l.
Proof.
  intros [H1 H2]%find_some. apply andb_true_iff in H2 as [[H2 H3]%andb_true_iff H4%bool_decide_eq_true].
  split_and!; [by apply list_elem_of_In|done|lia|lia].
Qed.
Lemma other_link_None d l ll :
  other_link d l = None -> ll ∈ d -> flip ll ∈ d -> ~ (dpid1 ll = dpid1 l /\ dpid2 ll = dpid2 l).
Proof.
  intros H Hin Hf [E1 E2]. pose proof (find_none _ _ H ll (proj1 (list_elem_of_In _ _) Hin)) as Hn. simpl in Hn.
  rewrite E1, E2, !Z.eqb_refl, bool_decide_eq_true_2 in Hn by done. done.
Qed.

Lemma remove_agrees d a l : agrees d a -> agrees (filter (fun k => k <> l) d) (remove_link (filter (fun k => k <> l) d) l a).
Proof.
  intros [Hs Hc]. set (d' := filter _ d). assert (Hd' : forall k, k ∈ d' <-> k <> l /\ k ∈ d) by (intros k; unfold d'; by rewrite list_elem_of_filter).
  set (a' := disconnect_switches a (dpid1 l) (dpid2 l)).
  assert (Hs' : forall s1 s2 p, s1 <> s2 -> port_to a' s1 s2 = Some p ->
     exists p', port_to a' s2 s1 = Some p' /\ mk_Link s1 p s2 p' ∈ d' /\ mk_Link s2 p' s1 p ∈ d').
  { intros s1 s2 p Hne. subst a'. rewrite !port_to_disconnect. destruct (decide _) as [|N]; [done|]. intros H.
    destruct (Hs s1 s2 p Hne H) as (p' & H1 & H2 & H3). exists p'. rewrite decide_False by naive_solver.
    rewrite !Hd'. split_and!; [done| |done| |done]; intros <-; apply N; simpl; auto. }
  assert (Hc' : forall k, k ∈ d' -> flip k ∈ d' -> dpid1 k <> dpid2 k ->
     ~ (dpid1 k = dpid1 l /\ dpid2 k = dpid2 l) -> ~ (dpid1 k = dpid2 l /\ dpid2 k = dpid1 l) ->
     is_Some (port_to a' (dpid1 k) (dpid2 k))).
  { intros k [_ Hk]%Hd' [_ Hf]%Hd' Hne N1 N2. subst a'. rewrite port_to_disconnect, decide_False by naive_solver.
    by apply Hc. }
  unfold remove_link. fold a'. destruct (other_link d' l) as [ll|] eqn:E.
  - destruct (other_link_Some _ _ _ E) as (H1 & H2 & H3 & H4). rewrite <-H3, <-H4. apply connect_agrees; [done|done| |].
    + intros s1 s2 p Hne _ _. by apply Hs'.
    + rewrite H3, H4. done.
  - split; [done|]. intros k Hk Hf Hne. apply Hc'; [done|done|done|by apply (other_link_None d')|].
    intros [E1 E2]. apply (other_link_None d' l (flip k)); [done|done|by rewrite flip_flip|done].
Qed.

(** ** The system *)

Inductive l2_event :=
  | EvPacket (self : Z) (event : PacketIn)
  | EvLink (discovered : list Link) (l : Link) (removed : bool)
  | EvUp (dpid : Z)
  | EvDown (dpid : Z).
Definition handle (ev : l2_event) : L unit :=
  match ev with
  | EvPacket self event => handle_packet self event
  | EvLink d l removed => handle_LinkEvent d l removed
  | EvUp dpid => handle_ConnectionUp dpid
  | EvDown dpid => handle_ConnectionDown dpid
  end.

(** Whatever a handler returned or raised, the next event finds the state it
    left. *)
Inductive reachable : l2_multi -> Prop :=
  | reach_start g : reachable (mk_l2_multi [] [] ∅ ∅ ∅ g [])
  | reach_step s ev : reachable s -> reachable (snd (handle ev s)).

Lemma reachable_ok s : reachable s -> l2_ok s.
Proof.
  induction 1 as [g|s ev _ IH].
  - split_and!; [|by left|done]. intros i j [p Hp]. done.
  - destruct ev; [by apply handle_packet_ok|by apply handle_LinkEvent_ok|by apply handle_ConnectionUp_ok|
      by apply handle_ConnectionDown_ok].
Qed.

(** C2: No sequence of packets, link changes, connections and disconnections,
    exceptions in handlers included, leaves a stale path map behind: in every
    reachable state the search for a path returns, and gives a shortest route in
    the present adjacency, or nothing exactly when there is none. *)
Theorem multi_paths_safe (s : l2_multi) (src dst final_port : Z) :
  reachable s ->
  exists o, fst (get_path (switches s) (adj s) (paths s) src dst final_port) = Ok o /\
    path_found (adj s) src dst final_port o.
Proof.
  intros Hs. destruct (reachable_ok s Hs) as (Hc & Hp & _).
  destruct (get_path_spec (switches s) (adj s) (paths s) src dst final_port Hc Hp) as (o & pm & E & _ & Ho).
  exists o. by rewrite E.
Qed.

Lemma for_each_send_ok (l : list (Z * option Z)) m b s :
  (forall h, h ∈ l -> h.1 ∈ connected s) ->
  for_each l (install m b) s = (Ok tt, set_sent s (sent s ++ ((fun h => (h.1, flow_mod m 10 30 b [out_to h.2])) <$> l))).
Proof.
  revert s. induction l as [|h l IH]; intros s Hl.
  - cbn. rewrite app_nil_r. by destruct s.
  - cbn [for_each]. rewrite M_bind_unfold. unfold install at 1, send. rewrite M_bind_unfold. cbn [get].
    rewrite decide_True by (apply Hl; by left). cbn [modify]. rewrite IH.
    + cbn [sent set_sent]. rewrite <-app_assoc. by destruct s.
    + intros x Hx. apply Hl. by right.
Qed.

Lemma route_known a sws src dst fp r h :
  closed a sws -> src ∈ sws -> route a src dst fp r -> h ∈ r -> h.1 ∈ sws.
Proof.
  intros Hc. revert src. induction r as [|[s p] r IH]; intros src Hs Hr Hh; [done|].
  destruct Hr as [-> Hr]. apply elem_of_cons in Hh as [->|Hh]; [done|]. destruct r as [|[s' p'] r]; [by apply elem_of_nil in Hh|].
  destruct Hr as ([q ->] & Hp & Hr). apply (IH s'); [|done|done]. apply (Hc src s'). by exists q.
Qed.


(** While every switch is connected, the adjacency follows discovery: after
    each link event two switches are adjacent exactly when some link between
    them is discovered in both directions, and the two ports are the ends of
    one link. *)
Theorem multi_adjacency (s : l2_multi) (d : list Link) (l : Link) (removed : bool) :
  (forall sw, sw ∈ switches s -> sw ∈ connected s) -> dpid1 l ∈ switches s -> dpid2 l ∈ switches s ->
  agrees d (adj s) ->
  let d' := if removed then filter (fun k => k <> l) d else d ++ [l] in
  fst (handle_LinkEvent d' l removed s) = Ok tt /\ agrees d' (adj (snd (handle_LinkEvent d' l removed s))).
Proof.
  cbv zeta. intros Hall H1 H2 Ha. unfold handle_LinkEvent. rewrite !M_bind_unfold. cbn [get]. unfold guard_ok.
  rewrite !bool_decide_eq_true_2, !M_bind_lift_Ok, M_bind_unfold by done.
  destruct (clear_all_frame (switches s) s) as (r & m & -> & [_ Hr] & _). rewrite (Hr Hall), M_bind_unfold. cbn [modify].
  destruct removed; [by split; [|apply remove_agrees]|]. rewrite M_bind_unfold. by split; [|apply add_agrees].
Qed.

(** A link event while some known switch is disconnected fails before it
    has changed anything: the handler raises on the missing connection, and the
    adjacency, the path map and the learned addresses stay as they were, the
    link that went away included. *)
Theorem link_event_disconnected (s : l2_multi) (d : list Link) (l : Link) (removed : bool) (sw : Z) :
  dpid1 l ∈ switches s -> dpid2 l ∈ switches s -> sw ∈ switches s -> sw ∉ connected s ->
  exists m, handle_LinkEvent d l removed s = (Err AttributeError, set_sent s m).
Proof.
  intros H1 H2 Hsw Hout. unfold handle_LinkEvent. rewrite !M_bind_unfold. cbn [get]. unfold guard_ok.
  rewrite !bool_decide_eq_true_2, !M_bind_lift_Ok, M_bind_unfold by done.
  destruct (clear_all_frame (switches s) s) as (r & m & -> & [Hr _] & [->| ->]); [|by exists m].
  exfalso. by apply Hout, Hr.
Qed.

(** Two switches, a link between them in both directions, a host on each. *)
Definition example_link : Link := mk_Link 1 3 2 4.
Definition example_started : l2_multi :=
  snd (handle (EvLink [example_link; flip example_link] example_link false)
    (snd (handle (EvUp 2) (snd (handle (EvUp 1) (mk_l2_multi [] [] ∅ ∅ ∅ (mk_gen 0 0) [])))))).
Definition example_hosts : l2_multi :=
  snd (handle (EvPacket 2 (example_event 1 (example_mac x02) (example_mac x01)))
    (snd (handle (EvPacket 1 (example_event 1 (example_mac x01) (example_mac x02))) example_started))).

Lemma example_reachable : reachable example_hosts.
Proof. apply reach_step, reach_step, reach_step, reach_step, reach_step, reach_start. Defined.

Lemma multi_paths_safe_witness :
  exists o, fst (get_path (switches example_hosts) (adj example_hosts) (paths example_hosts) 1 2 9) = Ok o /\
    path_found (adj example_hosts) 1 2 9 o.
Proof. apply (multi_paths_safe example_hosts 1 2 9 example_reachable). Defined.

Lemma example_shortest : shortest (adj example_hosts) 1 2 1.
Proof.
  split.
  - apply walk_hop with 2; [|constructor]. apply (bool_decide_unpack _). vm_compute. exact I.
  - intros [|m] H; [by inversion H|lia].
Defined.


Lemma multi_adjacency_witness :
  agrees [] (adj (mk_l2_multi [1; 2] [1; 2] ∅ ∅ ∅ (mk_gen 0 0) [])) /\
  agrees ([] ++ [example_link])
    (adj (snd (handle_LinkEvent ([] ++ [example_link]) example_link false (mk_l2_multi [1; 2] [1; 2] ∅ ∅ ∅ (mk_gen 0 0) [])))).
Proof.
  assert (H : agrees [] (adj (mk_l2_multi [1; 2] [1; 2] ∅ ∅ ∅ (mk_gen 0 0) []))).
  { split; [intros s1 s2 p _ Hp; done|]. intros l Hl. by apply elem_of_nil in Hl. }
  split; [exact H|].
  apply (multi_adjacency (mk_l2_multi [1; 2] [1; 2] ∅ ∅ ∅ (mk_gen 0 0) []) [] example_link false); [auto| | |exact H];
    apply (bool_decide_unpack _); vm_compute; exact I.
Defined.

Lemma link_event_disconnected_witness :
  exists m, handle_LinkEvent [] example_link true (snd (handle (EvDown 2) example_hosts))
    = (Err AttributeError, set_sent (snd (handle (EvDown 2) example_hosts)) m).
Proof.
  apply (link_event_disconnected (snd (handle (EvDown 2) example_hosts)) [] example_link true 2);
    apply (bool_decide_unpack _); vm_compute; exact I.
Defined.
