(* ===== verification/SpanningTree.v ===== *)
(** * The spanning tree ([pox/openflow/spanning_tree.py])

    [_calc_spanning_tree]: the discovered links are culled to one link, in both
    directions, between any two switches; a search over the switches then
    collects the ports that may flood.  The orders in which Python iterates over
    a set and over a dictionary are arguments ([elems], [items]). *)

From S2P Require Import Prelude Addresses OfpMatch OfpActions OfpStructs OfpMessages OfpStream Paths L2Multi.

(** ** The code *)

(** [adj[s1][s2]]: the links from [s1] to [s2], or the port once culled. *)
Abbreviation entry := (list Link + Z)%type.
Abbreviation link_table := (gmap Z (gmap Z entry)).
Definition entry_at (t : link_table) (s1 s2 : Z) : option entry := (t !!! s1) !! s2.
Definition set_entry (t : link_table) (s1 s2 : Z) (e : entry) : link_table := <[s1 := <[s2 := e]> (t !!! s1)]> t.
Definition del_entry (t : link_table) (s1 s2 : Z) : link_table := <[s1 := delete s2 (t !!! s1)]> t.

Definition add_to_table (t : link_table) (l : Link) : link_table :=
  let old := match entry_at t (dpid1 l) (dpid2 l) with Some (inl ls) => ls | _ => [] end in
  set_entry t (dpid1 l) (dpid2 l) (inl (old ++ [l])).
Definition link_switches (links : list Link) : gset Z :=
  list_to_set (flat_map (fun l => [dpid1 l; dpid2 l]) links).

(** The body of the loop over all pairs of switches. *)
Definition cull_pair (links : list Link) (s1 s2 : Z) (t : link_table) : result link_table :=
  match entry_at t s1 s2 with
  | None | Some (inr _) => mret t
  | Some (inl ls) =>
      _ ← guard_ok (negb (s1 =? s2)) AssertionError;
      match List.find (fun l => bool_decide (flip l ∈ links)) ls with
      | Some l => mret (set_entry (set_entry t s1 s2 (inr (port1 l))) s2 s1 (inr (port2 l)))
      | None => mret (del_entry (del_entry t s1 s2) s2 s1)
      end
  end.

Fixpoint foldR {A B} (f : B -> A -> result A) (l : list B) (a : A) : result A :=
  match l with [] => mret a | b :: l => a ← f b a; foldR f l a end.

(** [tree]: for a switch, the pairs of a neighbour and the port towards it. *)
Abbreviation tree := (gmap Z (gset (Z * Z))).
Definition tree_add (t : tree) (v : Z) (wp : Z * Z) : tree := <[v := t !!! v ∪ {[wp]}]> t.

Section order.
Context (elems : gset Z -> list Z) (items : gmap Z entry -> list (Z * entry)).

Definition cull (links : list Link) : result link_table :=
  let sws := elems (link_switches links) in
  let t := foldl add_to_table ∅ links in
  foldR (fun s1 t => foldR (fun s2 t => cull_pair links s1 s2 t) sws t) sws t.

(** The loop over the neighbours of [v]; a port that is not a number cannot be
    put in a set. *)
Definition visit_neighbour (a : link_table) (v : Z) (wp : Z * entry) (st : gset Z * tree) : result (gset Z * tree) :=
  let '(more, t) := st in
  let '(w, p) := wp in
  if decide (is_Some (t !! w)) then mret (more, t) else
  match p, entry_at a w v with
  | inr p, Some (inr q) => mret ({[w]} ∪ more, tree_add (tree_add t v (w, p)) w (v, q))
  | _, _ => Err TypeError
  end.

(** [while True]; [q] already has [more] in front. *)
Fixpoint search (fuel : nat) (a : link_table) (q : list Z) (done : gset Z) (t : tree) : result tree :=
  match fuel with
  | O => Err OutOfFuel
  | S fuel =>
      match q with
      | [] => mret t
      | v :: q =>
          if decide (v ∈ done) then search fuel a q done t else
          '(more, t) ← foldR (visit_neighbour a v) (items (a !!! v)) (∅, t);
          search fuel a (merge_sort Z.le (elements more) ++ q) ({[v]} ∪ done) t
      end
  end.

(** [_calc_spanning_tree]; a switch is put in [q] twice at most. *)
Definition calc_spanning_tree (links : list Link) : result tree :=
  a ← cull links;
  let sws := link_switches links in
  search (S (size sws + size sws)) a (merge_sort Z.le (elements sws)) ∅ ∅.
End order.

(** ** Telling the switches *)

(** [Discovery.isSwitchOnlyPort]. *)
Definition isSwitchOnlyPort (links : list Link) (dpid port : Z) : bool :=
  existsb (fun l => ((dpid1 l =? dpid) && (port1 l =? port)) || ((dpid2 l =? dpid) && (port2 l =? port))) links.

(** Whether a port should flood. *)
Definition should_flood (links : list Link) (t : tree) (sw port : Z) : bool :=
  bool_decide (port ∈ snd <$> elements (t !!! sw)) || negb (isSwitchOnlyPort links sw port).

Definition OFPPC_NO_FLOOD : Z := 16.
Definition port_mod (p : ofp_phy_port) (flood : bool) : message :=
  MPortMod (mk_ofp_port_mod (with_length (new_header OFPT_PORT_MOD) 32) (pp_port_no p) (pp_hw_addr p)
    (if flood then 0 else OFPPC_NO_FLOOD) OFPPC_NO_FLOOD 0).

(** One port of [_handle]; [prev] is [_prev[sw]]. *)
Definition push_port (links : list Link) (t : tree) (sw : Z) (st : gmap Z bool * list message) (p : ofp_phy_port)
  : gmap Z bool * list message :=
  let '(prev, msgs) := st in
  if pp_port_no p <? OFPP_MAX then
    let flood := should_flood links t sw (pp_port_no p) in
    if bool_decide (prev !! pp_port_no p = Some flood) then (prev, msgs)
    else (<[pp_port_no p := flood]> prev, msgs ++ [port_mod p flood])
  else (prev, msgs).

(** One switch; [con] is its list of ports if it is connected. *)
Definition push_switch (links : list Link) (t : tree) (con : Z -> option (list ofp_phy_port))
    (st : gmap Z (gmap Z bool) * list (Z * message)) (sw : Z) : gmap Z (gmap Z bool) * list (Z * message) :=
  match con sw with
  | None => st
  | Some ps =>
      let '(prev, msgs) := foldl (push_port links t sw) (st.1 !!! sw, []) ps in
      (<[sw := prev]> st.1, st.2 ++ ((fun m => (sw, m)) <$> msgs))
  end.

(** [_handle]: the new [_prev] and the messages; [keys] is the order of the
    tree's switches. *)
Definition handle_link_event (elems : gset Z -> list Z) (items : gmap Z entry -> list (Z * entry))
    (keys : tree -> list Z) (con : Z -> option (list ofp_phy_port)) (links : list Link) (prev : gmap Z (gmap Z bool))
  : result (gmap Z (gmap Z bool) * list (Z * message)) :=
  t ← calc_spanning_tree elems items links;
  mret (foldl (push_switch links t con) (prev, []) (keys t)).

(** ** Forests *)

Section forests.
Context {A : Type} `{Countable A}.

(** Edges added one by one, each bringing a new node. *)
Inductive forest : list (A * A) -> Prop :=
  | forest_nil : forest []
  | forest_leaf v w e : forest e -> v <> w -> (forall x y, (x, y) ∈ e -> x <> w /\ y <> w) -> forest ((v, w) :: e).

Definition edge (e : list (A * A)) (x y : A) : Prop := (x, y) ∈ e \/ (y, x) ∈ e.
Definition conn (e : list (A * A)) : A -> A -> Prop := rtc (edge e).

(** No closed walk but those that turn back on themselves. *)
Definition acyclic (R : A -> A -> Prop) : Prop :=
  forall n (c : nat -> A), (0 < n)%nat -> (forall i, c (i + n)%nat = c i) -> (forall i, R (c i) (c (S i))) ->
    exists i, c i = c (S (S i)).

Lemma forest_acyclic e : forest e -> acyclic (edge e).
Proof.
  induction 1 as [|v w e He IH Hvw Hnew]; intros n c Hn Hper Hedge.
  - by destruct (Hedge 0%nat) as [[]%elem_of_nil|[]%elem_of_nil].
  - assert (Hleaf : forall x, edge ((v, w) :: e) w x \/ edge ((v, w) :: e) x w -> x = v).
    { unfold edge. intros x Hx. rewrite !elem_of_cons in Hx.
      destruct_or!; simplify_eq; try done; apply Hnew in Hx; naive_solver. }
    destruct (decide (Exists (fun i => c i = w) (seq 0 n))) as [(i & _ & Hi)%Exists_exists|Hno].
    + exists (i + n - 1)%nat. rewrite (Hleaf (c (i + n - 1)%nat)), (Hleaf (c (S (S (i + n - 1))))); [done|left|right].
      * specialize (Hedge (S (i + n - 1))). replace (S (i + n - 1)) with (i + n)%nat in Hedge |- * by lia.
        rewrite Hper, Hi in Hedge. exact Hedge.
      * specialize (Hedge (i + n - 1)%nat). replace (S (i + n - 1)) with (i + n)%nat in Hedge by lia.
        rewrite Hper, Hi in Hedge. exact Hedge.
    + assert (Hnw : forall i, c i <> w).
      { intros i Hi. apply Hno, Exists_exists. exists (i mod n)%nat.
        split; [apply elem_of_seq; pose proof (Nat.mod_upper_bound i n); lia|]. rewrite <-Hi.
        rewrite (Nat.div_mod_eq i n) at 2. generalize (i / n)%nat. intros k. induction k as [|k IHk]; [by rewrite Nat.mul_0_r|].
        replace (n * S k + i mod n)%nat with (n * k + i mod n + n)%nat by lia. by rewrite Hper. }
      apply (IH n c Hn Hper). intros i. destruct (Hedge i) as [E|E]; apply elem_of_cons in E as [[=]|E]; try (by exfalso; eapply Hnw; eauto); [by left|by right].
Qed.

Lemma edge_sym e x y : edge e x y -> edge e y x.
Proof. unfold edge. tauto. Qed.
#[global] Instance conn_sym e : Symmetric (conn e).
Proof. intros x y H1. induction H1 as [|x y z E _ IH]; [done|]. etransitivity; [exact IH|]. by apply rtc_once, edge_sym. Qed.
#[global] Instance conn_trans e : Transitive (conn e).
Proof. unfold conn. apply _. Qed.

Lemma conn_mono e e' x y : (forall p, p ∈ e -> p ∈ e') -> conn e x y -> conn e' x y.
Proof.
  intros Hsub. induction 1 as [|x y z E _ IH]; [reflexivity|]. eapply rtc_l; [|exact IH]. destruct E; [left|right]; auto.
Qed.
End forests.

(** ** Culling *)

(** A fold that keeps [I]; an element establishes some of the [G], which are
    kept too. *)
Lemma foldR_all {A B C} (f : B -> A -> result A) (I : A -> Prop) (G : C -> A -> Prop) (est : B -> C -> Prop) l a :
  (forall b a, b ∈ l -> I a -> exists a', f b a = Ok a' /\ I a' /\ (forall c, est b c -> G c a') /\
     forall c, G c a -> G c a') ->
  I a -> exists a', foldR f l a = Ok a' /\ I a' /\ (forall b c, b ∈ l -> est b c -> G c a') /\
    forall c, G c a -> G c a'.
Proof.
  revert a. induction l as [|b l IH]; intros a Hf Ha.
  - exists a. split_and!; [done|done| |done]. intros b c Hb. by apply elem_of_nil in Hb.
  - destruct (Hf b a) as (a1 & E1 & I1 & G1 & P1); [by left|done|].
    destruct (IH a1) as (a2 & E2 & I2 & G2 & P2); [|done|].
    { intros c x Hc. apply Hf. by right. }
    exists a2. cbn [foldR]. rewrite E1. split_and!; [done|done| |by auto].
    intros x c [->|Hx]%elem_of_cons; eauto.
Qed.

Lemma entry_at_set t s1 s2 e i j :
  entry_at (set_entry t s1 s2 e) i j = if decide (i = s1 /\ j = s2) then Some e else entry_at t i j.
Proof.
  unfold entry_at, set_entry. rewrite lookup_total_insert. destruct (decide (s1 = i)) as [<-|].
  - rewrite lookup_insert. destruct (decide (s2 = j)) as [<-|]; [by rewrite decide_True|by rewrite decide_False by naive_solver].
  - by rewrite decide_False by naive_solver.
Qed.
Lemma entry_at_del t s1 s2 i j :
  entry_at (del_entry t s1 s2) i j = if decide (i = s1 /\ j = s2) then None else entry_at t i j.
Proof.
  unfold entry_at, del_entry. rewrite lookup_total_insert. destruct (decide (s1 = i)) as [<-|].
  - rewrite lookup_delete. destruct (decide (s2 = j)) as [<-|]; [by rewrite decide_True|by rewrite decide_False by naive_solver].
  - by rewrite decide_False by naive_solver.
Qed.

Definition between (links : list Link) (s1 s2 : Z) : list Link :=
  filter (fun l => dpid1 l = s1 /\ dpid2 l = s2) links.

Lemma table_entry links i j :
  entry_at (foldl add_to_table ∅ links) i j
  = match between links i j with [] => None | ls => Some (inl ls) end.
Proof.
  induction links as [|l links IH] using rev_ind; [done|]. rewrite foldl_app. cbn [foldl].
  unfold add_to_table at 1. rewrite entry_at_set. unfold between. rewrite filter_app. cbn [filter list_filter].
  destruct (decide (i = dpid1 l /\ j = dpid2 l)) as [[-> ->]|N].
  - rewrite decide_True by done. rewrite IH. fold (between links (dpid1 l) (dpid2 l)).
    by destruct (between links (dpid1 l) (dpid2 l)).
  - rewrite decide_False by naive_solver. by rewrite app_nil_r, IH.
Qed.

Section cull.
Context (links : list Link).

Definition both_ways (l : Link) : Prop := l ∈ links /\ flip l ∈ links.

Record cull_inv (t : link_table) : Prop := mk_cull_inv {
  inv_list i j ls : entry_at t i j = Some (inl ls) -> ls = between links i j /\ ls <> [];
  inv_port i j p : entry_at t i j = Some (inr p) ->
    i <> j /\ exists q, entry_at t j i = Some (inr q) /\ both_ways (mk_Link i p j q);
  inv_none l : entry_at t (dpid1 l) (dpid2 l) = None -> ~ both_ways l
}.
Definition settled (t : link_table) (i j : Z) : Prop := forall ls, entry_at t i j <> Some (inl ls).

Lemma table_inv : cull_inv (foldl add_to_table ∅ links).
Proof.
  constructor.
  - intros i j ls. rewrite table_entry. destruct (between links i j) eqn:E; [done|]. intros [= <-]. by split.
  - intros i j p. rewrite table_entry. by destruct (between links i j).
  - intros l. rewrite table_entry. destruct (between _ _ _) eqn:E; [|done]. intros _ [Hl _].
    assert (H : l ∈ between links (dpid1 l) (dpid2 l)) by (unfold between; by rewrite list_elem_of_filter). rewrite E in H.
    by apply elem_of_nil in H.
Qed.

Lemma both_ways_flip l : both_ways l -> both_ways (flip l).
Proof. intros [H1 H2]. split; [done|]. by rewrite flip_flip. Qed.

Lemma elem_of_between i j l : l ∈ between links i j <-> (dpid1 l = i /\ dpid2 l = j) /\ l ∈ links.
Proof. unfold between. by rewrite list_elem_of_filter. Qed.

Lemma set_both_inv l t :
  both_ways l -> dpid1 l <> dpid2 l -> cull_inv t ->
  cull_inv (set_entry (set_entry t (dpid1 l) (dpid2 l) (inr (port1 l))) (dpid2 l) (dpid1 l) (inr (port2 l))).
Proof.
  destruct l as [i p j q]. simpl. intros Hb Hij Ht. constructor.
  - intros x y ls. rewrite !entry_at_set. repeat destruct (decide _); [done|done|]. by apply Ht.
  - intros x y r. rewrite !entry_at_set. destruct (decide (x = j /\ y = i)) as [[-> ->]|N1].
    + intros [= <-]. split; [done|]. exists p. rewrite decide_False by naive_solver. rewrite decide_True by done.
      split; [done|]. by apply both_ways_flip in Hb.
    + destruct (decide (x = i /\ y = j)) as [[-> ->]|N2].
      * intros [= <-]. split; [done|]. exists q. by rewrite decide_True.
      * intros H. destruct (inv_port t Ht _ _ _ H) as (Hxy & r' & H1 & H2). split; [done|]. exists r'.
        by rewrite !decide_False by naive_solver.
  - intros k. rewrite !entry_at_set. repeat destruct (decide _); [done|done|]. by apply Ht.
Qed.

Lemma del_both_inv i j t :
  (forall l, l ∈ between links i j -> flip l ∉ links) -> (forall p, entry_at t i j <> Some (inr p)) ->
  cull_inv t -> cull_inv (del_entry (del_entry t i j) j i).
Proof.
  intros Hno Hnp Ht. constructor.
  - intros x y ls. rewrite !entry_at_del. repeat destruct (decide _); [done|done|]. by apply Ht.
  - intros x y r. rewrite !entry_at_del. destruct (decide (x = j /\ y = i)) as [|N1]; [done|].
    destruct (decide (x = i /\ y = j)) as [|N2]; [done|]. intros H.
    destruct (inv_port t Ht _ _ _ H) as (Hxy & r' & H1 & H2). split; [done|]. exists r'.
    by rewrite !decide_False by naive_solver.
  - intros k. rewrite !entry_at_del. intros H [Hk Hf].
    destruct (decide (dpid1 k = j /\ dpid2 k = i)) as [[E1 E2]|N1].
    + apply (Hno (flip k)); [|by rewrite flip_flip]. apply elem_of_between. by split.
    + destruct (decide (dpid1 k = i /\ dpid2 k = j)) as [Eij|N2]; [|by apply (inv_none t Ht k)].
      by apply (Hno k); [apply elem_of_between|].
Qed.

Lemma cull_pair_inv i j t :
  (forall l, l ∈ links -> dpid1 l <> dpid2 l) -> cull_inv t ->
  exists t', cull_pair links i j t = Ok t' /\ cull_inv t' /\ settled t' i j /\
    forall x y, settled t x y -> settled t' x y.
Proof.
  intros Hself Ht. unfold cull_pair. destruct (entry_at t i j) as [[ls|p]|] eqn:E.
  2, 3: exists t; split_and!; [done|done|intros ls Hls; congruence|done].
  pose proof (inv_list t Ht i j ls E) as [-> Hne].
  assert (Hij : i <> j).
  { intros ->. destruct (between links j j) as [|l rest] eqn:Eb; [done|].
    assert (Hl : l ∈ between links j j) by (rewrite Eb; by left).
    apply elem_of_between in Hl as [[H1 H2] Hl]. apply (Hself l Hl). congruence. }
  rewrite (proj2 (Z.eqb_neq i j)) by done. cbn [guard_ok negb mbind result_bind].
  destruct (List.find _ _) as [l|] eqn:F.
  - apply find_some in F as [Hin Hf%bool_decide_eq_true]. apply list_elem_of_In, elem_of_between in Hin as [[<- <-] Hl].
    eexists. split; [reflexivity|]. split; [by apply set_both_inv|]. split.
    + intros ls. rewrite !entry_at_set. rewrite decide_False by naive_solver. by rewrite decide_True.
    + intros x y Hs ls. rewrite !entry_at_set. repeat destruct (decide _); [done|done|]. apply Hs.
  - eexists. split; [reflexivity|]. split.
    { apply del_both_inv; [|congruence|done]. intros l Hl Hf. apply list_elem_of_In in Hl.
      pose proof (find_none _ _ F l Hl) as Hn. simpl in Hn. by rewrite bool_decide_eq_true_2 in Hn. }
    split.
    + intros ls. rewrite !entry_at_del. by repeat destruct (decide _); try naive_solver.
    + intros x y Hs ls. rewrite !entry_at_del. repeat destruct (decide _); [done|done|]. apply Hs.
Qed.

(** No lists are left. *)
Definition culled (sws : list Z) (t : link_table) : Prop :=
  cull_inv t /\ forall i j, i ∈ sws -> j ∈ sws -> settled t i j.

Lemma cull_ok elems sws :
  elems (link_switches links) = sws -> (forall l, l ∈ links -> dpid1 l <> dpid2 l) ->
  exists t, cull elems links = Ok t /\ culled sws t.
Proof.
  intros Es Hself. unfold cull. rewrite Es. set (G := fun (ij : Z * Z) t => settled t ij.1 ij.2).
  destruct (foldR_all (fun s1 t => foldR (fun s2 t => cull_pair links s1 s2 t) sws t) cull_inv G
    (fun i ij => ij.1 = i /\ ij.2 ∈ sws) sws (foldl add_to_table ∅ links)) as (t & E & Ht & Hs & _).
  - intros i t Hi Ht.
    destruct (foldR_all (fun s2 t => cull_pair links i s2 t) cull_inv G (fun j ij => ij = (i, j)) sws t)
      as (t' & E & Ht' & Hs & Hp); [|done|].
    { intros j t1 Hj Ht1. destruct (cull_pair_inv i j t1 Hself Ht1) as (t2 & E2 & I2 & S2 & P2).
      exists t2. split_and!; [done|done|by intros ? ->|]. intros c. apply P2. }
    exists t'. split_and!; [done|done| |done]. intros [x y] [Hx Hy]. simpl in Hx, Hy. subst x. by apply (Hs y).
  - apply table_inv.
  - exists t. split; [exact E|]. split; [done|]. intros i j Hi Hj. apply (Hs i (i, j) Hi). done.
Qed.
End cull.

(** ** The search *)

Section search.
Context (a : link_table) (nodes : gset Z).
Context (items : gmap Z entry -> list (Z * entry)).
Context (items_perm : forall m, items m ≡ₚ map_to_list m).
(** The table is a symmetric map of ports between the nodes. *)
Context (ports : forall v w e, entry_at a v w = Some e ->
  v <> w /\ w ∈ nodes /\ exists p q, e = inr p /\ entry_at a w v = Some (inr q)).

Definition has_node (e : list (Z * Z)) (x : Z) : Prop := exists y, edge e x y.
(** The tree holds the edges [e], each from both ends and with its ports. *)
Definition tree_ok (e : list (Z * Z)) (t : tree) : Prop :=
  ((forall v w p, (w, p) ∈ t !!! v <-> edge e v w /\ entry_at a v w = Some (inr p)) /\
   (forall v w, edge e v w -> exists p, entry_at a v w = Some (inr p))) /\
  (forall x, is_Some (t !! x) <-> has_node e x).

Lemma edge_cons (v w : Z) (e : list (Z * Z)) (x y : Z) : edge ((v, w) :: e) x y <-> x = v /\ y = w \/ x = w /\ y = v \/ edge e x y.
Proof. unfold edge. rewrite !elem_of_cons. naive_solver. Qed.

Lemma tree_add_total t v wp x y p :
  (y, p) ∈ tree_add t v wp !!! x <-> x = v /\ (y, p) = wp \/ (y, p) ∈ t !!! x.
Proof.
  unfold tree_add. rewrite lookup_total_insert. destruct (decide (v = x)) as [->|].
  - rewrite elem_of_union, elem_of_singleton. naive_solver.
  - naive_solver.
Qed.
Lemma tree_add_dom t v wp x : is_Some (tree_add t v wp !! x) <-> x = v \/ is_Some (t !! x).
Proof.
  unfold tree_add. rewrite lookup_insert. destruct (decide (v = x)) as [->|]; [naive_solver|]. naive_solver.
Qed.

Lemma tree_ok_add e t v w p q :
  tree_ok e t -> entry_at a v w = Some (inr p) -> entry_at a w v = Some (inr q) ->
  tree_ok ((v, w) :: e) (tree_add (tree_add t v (w, p)) w (v, q)).
Proof.
  intros [[Hm Hc] Hd] Hp Hq. split; [split|].
  - intros x y r. rewrite !tree_add_total, Hm, edge_cons. naive_solver.
  - intros x y. rewrite edge_cons. naive_solver.
  - intros x. rewrite !tree_add_dom, Hd. unfold has_node. setoid_rewrite edge_cons. naive_solver.
Qed.

(** The neighbours visited from [v], on top of the edges [e0]. *)
Definition visited (v : Z) (e0 : list (Z * Z)) (st : gset Z * tree) : Prop :=
  exists e, forest e /\ tree_ok e st.2 /\ (forall x, x ∈ e0 -> x ∈ e) /\
    (forall x, x ∈ st.1 -> edge e v x /\ x ∈ nodes /\ ~ has_node e0 x) /\
    (forall x y, edge e x y -> edge e0 x y \/ x = v /\ y ∈ st.1 \/ y = v /\ x ∈ st.1).

Lemma visit_ok v e0 w e st :
  entry_at a v w = Some e -> visited v e0 st ->
  exists st', visit_neighbour a v (w, e) st = Ok st' /\ visited v e0 st' /\ is_Some (st'.2 !! w) /\
    forall x, is_Some (st.2 !! x) -> is_Some (st'.2 !! x).
Proof.
  intros He (es & Hf & Ht & Hsub & Hmore & Hnew). destruct st as [more t]. cbn [fst snd] in *.
  unfold visit_neighbour. destruct (decide (is_Some (t !! w))) as [Hw|Hw].
  { exists (more, t). split_and!; [done| |done|done]. by exists es. }
  destruct (ports v w e He) as (Hvw & Hin & p & q & -> & Hq). rewrite Hq. eexists. split; [reflexivity|].
  cbn [fst snd]. split.
  2: { split; [rewrite !tree_add_dom; tauto|]. intros x. rewrite !tree_add_dom. tauto. }
  assert (Hno : ~ has_node es w) by (by rewrite <-(proj2 Ht)). exists ((v, w) :: es). split.
  { constructor; [done|done|]. intros x y Hxy. split; intros ->; apply Hno; [exists y; by left|exists x; by right]. }
  split; [by apply tree_ok_add|]. split; [intros x Hx; right; auto|]. cbn [fst]. split.
  - intros x. rewrite elem_of_union, elem_of_singleton, edge_cons. intros [->|Hx].
    + split_and!; [by left|done|]. intros [y Hy]. apply Hno. exists y. unfold edge in *. naive_solver.
    + destruct (Hmore x Hx) as (H1 & H2 & H3). auto.
  - intros x y. rewrite edge_cons. intros [[-> ->]|[[-> ->]|Hxy]]; [set_solver|set_solver|].
    destruct (Hnew x y Hxy) as [H|[[-> H]|[-> H]]]; set_solver.
Qed.

Lemma elem_of_items v w e : (w, e) ∈ items (a !!! v) <-> entry_at a v w = Some e.
Proof. rewrite items_perm. apply elem_of_map_to_list. Qed.

(** All neighbours of [v]. *)
Lemma visit_all_ok v e0 t :
  forest e0 -> tree_ok e0 t ->
  exists more t', foldR (visit_neighbour a v) (items (a !!! v)) (∅, t) = Ok (more, t') /\
    visited v e0 (more, t') /\ forall w e, entry_at a v w = Some e -> is_Some (t' !! w).
Proof.
  intros Hf Ht.
  destruct (foldR_all (visit_neighbour a v) (visited v e0) (fun (w : Z) (st : gset Z * tree) => is_Some (st.2 !! w))
    (fun (we : Z * entry) w => we.1 = w) (items (a !!! v)) (∅, t)) as ([more t'] & E & Hv & Hg & _).
  - intros [w e] st Hin Hst. apply elem_of_items in Hin.
    destruct (visit_ok v e0 w e st Hin Hst) as (st' & E & Hv & Hw & Hk). exists st'.
    split_and!; [done|done| |done]. by intros ? <-.
  - exists e0. split_and!; [done|done|done|set_solver|by left].
  - exists more, t'. split_and!; [done|done|]. intros w e He. apply (Hg (w, e)); [by apply elem_of_items|done].
Qed.

(** [q] is [front ++ back]: the front is what the current component still has
    to visit. *)
Definition search_inv (front back : list Z) (done : gset Z) (e : list (Z * Z)) (t : tree) : Prop :=
  forest e /\ tree_ok e t /\
  (forall x y n, x ∈ done -> entry_at a x y = Some n -> conn e x y) /\
  (forall x y, x ∈ front -> y ∈ front -> conn e x y) /\
  (forall x, has_node e x -> x ∈ done \/ x ∈ front) /\
  (forall x, x ∈ nodes -> x ∈ done \/ x ∈ back).

(** The switches not yet in the tree. *)
Definition outside (t : tree) : gset Z := filter (fun x : Z => t !! x = None) nodes.

Lemma search_step v front back done e t f1 :
  (front = v :: f1 \/ front = [] /\ f1 = []) ->
  search_inv front back done e t -> v ∉ done ->
  exists more t' e', foldR (visit_neighbour a v) (items (a !!! v)) (∅, t) = Ok (more, t') /\
    search_inv (merge_sort Z.le (elements more) ++ f1) (filter (fun x => x <> v) back) ({[v]} ∪ done) e' t' /\
    (size more + size (outside t') <= size (outside t))%nat.
Proof.
  intros Hfront (Hf & Ht & Hdone & Hcomp & Hseen & Hall) Hv.
  destruct (visit_all_ok v e t Hf Ht) as (more & t' & E & (e' & Hf' & Ht' & Hsub & Hmore & Hnew) & Hvis).
  cbn [fst snd] in *. exists more, t', e'. split; [done|].
  assert (Hfc : forall x, x ∈ front -> conn e v x).
  { intros x Hx. destruct Hfront as [->|[-> _]]; [apply Hcomp; [by left|done]|by apply elem_of_nil in Hx]. }
  assert (Hf1 : forall x, x ∈ f1 -> x ∈ front).
  { intros x Hx. destruct Hfront as [->|[_ ->]]; [by right|by apply elem_of_nil in Hx]. }
  assert (Hms : forall x, x ∈ merge_sort Z.le (elements more) <-> x ∈ more).
  { intros x. rewrite (merge_sort_Permutation Z.le (elements more)). by rewrite elem_of_elements. }
  split; [|].
  - split_and!; [done|done| | | |].
    + intros x y n Hx Hn. apply elem_of_union in Hx as [->%elem_of_singleton|Hx].
      2: { apply (conn_mono e); [done|]. by apply (Hdone x y n). }
      destruct (ports v y n Hn) as (Hvy & _ & p & q & _ & Hyv).
      destruct (decide (y ∈ more)) as [Hy|Hy]; [apply rtc_once; by apply Hmore|].
      destruct (proj1 (proj2 Ht' y) (Hvis y n Hn)) as [z Hz].
      apply (conn_mono e); [done|]. destruct (Hnew y z Hz) as [H0|[[-> _]|[_ H]]]; [|done|done].
      destruct (Hseen y (ex_intro _ z H0)) as [Hyd|Hyf]; [|by apply Hfc].
      symmetry. by apply (Hdone y v (inr q)).
    + assert (Hvc : forall x, x ∈ merge_sort Z.le (elements more) ++ f1 -> conn e' v x).
      { intros x Hx. apply elem_of_app in Hx as [Hx%Hms|Hx]; [apply rtc_once; by apply Hmore|].
        apply (conn_mono e); [done|]. auto. }
      intros x y Hx Hy. transitivity v; [symmetry|]; auto.
    + intros x [y Hy]. destruct (Hnew x y Hy) as [H0|[[-> _]|[_ H]]].
      * destruct (Hseen x (ex_intro _ y H0)) as [Hd|Hx]; [left; set_solver|].
        destruct Hfront as [->|[-> _]]; [|by apply elem_of_nil in Hx].
        apply elem_of_cons in Hx as [->|Hx]; [left; set_solver|right; apply elem_of_app; by right].
      * left. set_solver.
      * right. apply elem_of_app. left. by apply Hms.
    + intros x Hx. destruct (decide (x = v)) as [->|Hne]; [left; set_solver|].
      destruct (Hall x Hx) as [|Hb]; [left; set_solver|right; by apply list_elem_of_filter].
  - rewrite <-size_union.
    + apply subseteq_size. intros x. unfold outside. rewrite elem_of_union, !elem_of_filter. intros [Hx|[Hx Hn]].
      * destruct (Hmore x Hx) as (_ & H2 & H3). split; [|done]. apply eq_None_not_Some. by rewrite (proj2 Ht).
      * split; [|done]. apply eq_None_not_Some. apply eq_None_not_Some in Hx. rewrite (proj2 Ht') in Hx.
        rewrite (proj2 Ht). intros [y Hy]. apply Hx. exists y. unfold edge in *. naive_solver.
    + intros x Hx [Hn _]%elem_of_filter. destruct (Hmore x Hx) as (H1 & _ & _).
      apply eq_None_not_Some in Hn. apply Hn, (proj2 Ht'). exists v. by apply edge_sym.
Qed.

Lemma search_inv_back f b b' d e t :
  (forall x, x ∈ b -> x ∈ b' \/ x ∈ d) -> search_inv f b d e t -> search_inv f b' d e t.
Proof.
  intros Hb (H1 & H2 & H3 & H4 & H5 & H6). split_and!; try done. intros x Hx. destruct (H6 x Hx); [by left|].
  destruct (Hb x); auto.
Qed.

Lemma search_inv_skip v f b d e t : v ∈ d -> search_inv (v :: f) b d e t -> search_inv f b d e t.
Proof.
  intros Hv (H1 & H2 & H3 & H4 & H5 & H6). split_and!; try done.
  - intros x y Hx Hy. apply H4; by right.
  - intros x Hx. destruct (H5 x Hx) as [|H]; [by left|]. apply elem_of_cons in H as [->|]; auto.
Qed.

Lemma search_ok fuel front back done e t :
  search_inv front back done e t -> (length (front ++ back) + size (outside t) < fuel)%nat ->
  exists t' e' done', search items fuel a (front ++ back) done t = Ok t' /\ search_inv [] [] done' e' t'.
Proof.
  revert front back done e t. induction fuel as [|fuel IH]; intros front back done e t Hinv Hfuel; [lia|].
  cbn [search]. destruct front as [|v f]; [destruct back as [|v b]; cbn [app]|cbn [app]].
  - by exists t, e, done.
  - destruct (decide (v ∈ done)) as [Hv|Hv].
    + apply (IH [] b done e); [|simpl in *; lia]. revert Hinv. apply search_inv_back.
      intros x [->|Hx]%elem_of_cons; auto.
    + destruct (search_step v [] (v :: b) done e t []) as (more & t' & e' & E & Hinv' & Hsz); [by right|done|done|].
      rewrite E. cbn [mbind result_bind]. rewrite app_nil_r in Hinv'. eapply IH.
      * eapply search_inv_back; [|exact Hinv']. intros x [Hx [->|Hb]%elem_of_cons]%list_elem_of_filter; auto. done.
      * rewrite length_app. rewrite (Permutation_length (merge_sort_Permutation Z.le (elements more))).
        change (length (elements more)) with (size more). simpl in Hfuel. lia.
  - destruct (decide (v ∈ done)) as [Hv|Hv].
    + apply (IH f back done e); [|simpl in *; lia]. by apply search_inv_skip with v.
    + destruct (search_step v (v :: f) back done e t f) as (more & t' & e' & E & Hinv' & Hsz); [by left|done|done|].
      rewrite E. cbn [mbind result_bind]. rewrite app_assoc. eapply IH.
      * eapply search_inv_back; [|exact Hinv']. intros x [_ Hx]%list_elem_of_filter. by left.
      * rewrite <-app_assoc, length_app. rewrite (Permutation_length (merge_sort_Permutation Z.le (elements more))).
        change (length (elements more)) with (size more). simpl in Hfuel. lia.
Qed.
End search.

(** ** Properties *)

(** [v] and [w] are joined by the tree, through port [p] of [v]. *)
Definition joins (t : tree) (v p w : Z) : Prop := (w, p) ∈ t !!! v.

(** C5: When no link connects a switch to itself, the calculation returns, and
    what it returns is a spanning forest of the network of links discovered in
    both directions: a tree port leads along such a link, whose other end is a
    tree port too; there is no loop; and any two switches with such a link
    between them are connected by tree ports.  This is so whatever the orders
    of iteration over sets and dictionaries. *)
Theorem spanning_tree_spec (elems : gset Z -> list Z) (items : gmap Z entry -> list (Z * entry)) (links : list Link) :
  (forall s, elems s ≡ₚ elements s) -> (forall m, items m ≡ₚ map_to_list m) ->
  (forall l, l ∈ links -> dpid1 l <> dpid2 l) ->
  exists t, calc_spanning_tree elems items links = Ok t /\
    (forall v p w, joins t v p w -> exists q, joins t w q v /\ both_ways links (mk_Link v p w q)) /\
    acyclic (fun v w => exists p, joins t v p w) /\
    (forall l, both_ways links l -> rtc (fun v w => exists p, joins t v p w) (dpid1 l) (dpid2 l)).
Proof.
  intros Helems Hitems Hself. unfold calc_spanning_tree. set (nodes := link_switches links).
  destruct (cull_ok links elems (elems nodes) eq_refl Hself) as (a & E & Hinv & Hset).
  rewrite E. cbn [mbind result_bind].
  assert (Hin : forall x, x ∈ elems nodes <-> x ∈ nodes) by (intros x; by rewrite Helems, elem_of_elements).
  assert (Hends : forall l, l ∈ links -> dpid1 l ∈ nodes /\ dpid2 l ∈ nodes).
  { intros l Hl. unfold nodes, link_switches. rewrite !elem_of_list_to_set.
    split; apply list_elem_of_In, in_flat_map; exists l; (split; [by apply list_elem_of_In|simpl; auto]). }
  assert (Hports : forall v w e, entry_at a v w = Some e -> v <> w /\ w ∈ nodes /\
      exists p q, e = inr p /\ entry_at a w v = Some (inr q)).
  { intros v w e He. destruct e as [ls|p].
    - exfalso. destruct (inv_list _ _ Hinv _ _ _ He) as [-> Hne]. destruct (between links v w) as [|l rest] eqn:Eb; [done|].
      assert (Hl : l ∈ between links v w) by (rewrite Eb; by left).
      apply elem_of_between in Hl as [[<- <-] Hl]. destruct (Hends l Hl) as [H1 H2].
      exact (Hset _ _ (proj2 (Hin _) H1) (proj2 (Hin _) H2) _ He).
    - destruct (inv_port _ _ Hinv _ _ _ He) as (Hvw & q & Hq & [Hl _]). split; [done|].
      split; [apply (Hends _ Hl)|]. by exists p, q. }
  destruct (search_ok a nodes items Hitems Hports (S (size nodes + size nodes)) [] (merge_sort Z.le (elements nodes)) ∅ [] ∅)
    as (t & e & dn & Es & Hs).
  - split_and!; [constructor| |by intros x y n Hx%not_elem_of_empty| | |].
    + assert (Hn : forall x y : Z, ~ edge [] x y) by (intros x y [H|H]; by apply elem_of_nil in H).
      split; [split; [intros v w p; split; [|by intros [?%Hn _]]|by intros v w ?%Hn]|].
      { intros H. rewrite lookup_total_empty in H. by apply (not_elem_of_empty (C := gset (Z * Z))) in H. }
      intros x. split; [by intros [? ?]|by intros [y ?%Hn]].
    + intros x y Hx. by apply elem_of_nil in Hx.
    + intros x [y [H|H]]; by apply elem_of_nil in H.
    + intros x Hx. right. rewrite (merge_sort_Permutation Z.le). by apply elem_of_elements.
  - cbn [app]. rewrite (Permutation_length (merge_sort_Permutation Z.le (elements nodes))).
    change (length (elements nodes)) with (size nodes).
    pose proof (subseteq_size (outside nodes ∅) nodes ltac:(intros x [_ Hx]%elem_of_filter; done)). lia.
  - exists t. split; [exact Es|]. destruct Hs as (Hf & [Hm Hd] & Hdone & _ & _ & Hall).
    destruct Hm as [Hm Hc].
    assert (Hedge : forall v w, (exists p, joins t v p w) <-> edge e v w).
    { intros v w. unfold joins. setoid_rewrite Hm. split; [by intros (p & H & _)|]. intros H.
      destruct (Hc v w H) as [p Hp]. by exists p. }
    split_and!.
    + intros v p w [He Hp]%Hm. destruct (inv_port _ _ Hinv _ _ _ Hp) as (_ & q & Hq & Hb). exists q. split; [|done].
      apply Hm. split; [by apply edge_sym|done].
    + intros n c Hn Hper Hc'. apply (forest_acyclic e Hf n c Hn Hper). intros i. by apply Hedge.
    + intros l Hl. destruct (Hends l (proj1 Hl)) as [H1 H2].
      assert (Hd1 : dpid1 l ∈ dn) by (destruct (Hall _ H1) as [|Hx]; [done|by apply elem_of_nil in Hx]).
      destruct (entry_at a (dpid1 l) (dpid2 l)) as [n|] eqn:En; [|by apply (inv_none _ _ Hinv) in En].
      specialize (Hdone _ _ n Hd1 En). revert Hdone. apply rtc_subrel. intros x y. by rewrite Hedge.
Qed.

(** A triangle; one link is known in one direction only. *)
Definition example_links : list Link :=
  [mk_Link 1 1 2 1; mk_Link 2 1 1 1; mk_Link 2 2 3 1; mk_Link 3 1 2 2; mk_Link 1 2 3 2; mk_Link 3 2 1 2; mk_Link 3 3 4 1].

Lemma spanning_tree_spec_witness :
  (fun t : tree => (bool_decide ((2, 1) ∈ t !!! 1), bool_decide ((3, 2) ∈ t !!! 1), bool_decide ((3, 2) ∈ t !!! 2)))
    <$> calc_spanning_tree elements map_to_list example_links = Ok (true, true, false) /\
  exists t, calc_spanning_tree elements map_to_list example_links = Ok t /\
    (forall v p w, joins t v p w -> exists q, joins t w q v /\ both_ways example_links (mk_Link v p w q)) /\
    acyclic (fun v w => exists p, joins t v p w) /\
    (forall l, both_ways example_links l -> rtc (fun v w => exists p, joins t v p w) (dpid1 l) (dpid2 l)).
Proof.
  split.
  - vm_compute. reflexivity.
  - apply (spanning_tree_spec elements map_to_list example_links); [reflexivity|reflexivity|].
    apply Forall_forall. apply (bool_decide_unpack _). vm_compute. exact I.
Defined.

(** ** The ports of the switches *)

Section push.
Context (links : list Link) (t : tree) (con : Z -> option (list ofp_phy_port)).

(** The ports [_handle] looks at. *)
Definition managed (ps : list ofp_phy_port) (n : Z) : Prop := n < OFPP_MAX /\ exists p, p ∈ ps /\ pp_port_no p = n.

Lemma push_ports_prev sw ps st n :
  (foldl (push_port links t sw) st ps).1 !! n = Some (should_flood links t sw n) \/
  (foldl (push_port links t sw) st ps).1 !! n = st.1 !! n /\ ~ managed ps n.
Proof.
  revert st. induction ps as [|p ps IH]; intros [prev msgs]; cbn [foldl].
  - right. split; [done|]. by intros (_ & p & []%elem_of_nil & _).
  - destruct (IH (push_port links t sw (prev, msgs) p)) as [H|[H Hm]]; [by left|]. rewrite H.
    unfold push_port, managed in *. destruct (Z.ltb_spec (pp_port_no p) OFPP_MAX) as [Hlt|Hge].
    + case_bool_decide as Hp; cbn [fst].
      * destruct (decide (pp_port_no p = n)) as [<-|Hne]; [by left|]. right. split; [done|].
        intros (Hn & q & [->|Hq]%elem_of_cons & Hqn); [done|]. apply Hm. eauto.
      * rewrite lookup_insert. destruct (decide (pp_port_no p = n)) as [<-|Hne]; [by left|]. right. split; [done|].
        intros (Hn & q & [->|Hq]%elem_of_cons & Hqn); [done|]. apply Hm. eauto.
    + cbn [fst]. right. split; [done|]. intros (Hn & q & [->|Hq]%elem_of_cons & Hqn); [lia|]. apply Hm. eauto.
Qed.

Lemma push_ports_quiet sw ps prev msgs :
  (forall n, managed ps n -> prev !! n = Some (should_flood links t sw n)) ->
  foldl (push_port links t sw) (prev, msgs) ps = (prev, msgs).
Proof.
  intros H. induction ps as [|p ps IH]; [done|]. cbn [foldl]. unfold push_port at 2.
  assert (Hp : (if pp_port_no p <? OFPP_MAX
      then if bool_decide (prev !! pp_port_no p = Some (should_flood links t sw (pp_port_no p))) then (prev, msgs)
           else (<[pp_port_no p:=should_flood links t sw (pp_port_no p)]> prev, msgs ++ [port_mod p (should_flood links t sw (pp_port_no p))])
      else (prev, msgs)) = (prev, msgs)).
  { destruct (Z.ltb_spec (pp_port_no p) OFPP_MAX) as [Hlt|]; [|done]. rewrite bool_decide_eq_true_2; [done|].
    apply H. split; [done|]. exists p. split; [by left|done]. }
  rewrite Hp. apply IH. intros n (Hn & q & Hq & E). apply H. split; [done|]. exists q. split; [by right|done].
Qed.

Lemma push_switch_prev st sw sw' n :
  ((push_switch links t con st sw).1 !!! sw') !! n = ((st.1 !!! sw') !! n : option bool) \/
  sw' = sw /\ ((push_switch links t con st sw).1 !!! sw') !! n = Some (should_flood links t sw n).
Proof.
  unfold push_switch. destruct (con sw) as [ps|]; [|by left].
  destruct (foldl (push_port links t sw) (st.1 !!! sw, []) ps) as [pv ms] eqn:E. cbn [fst].
  rewrite lookup_total_insert. destruct (decide (sw = sw')) as [<-|]; [|by left].
  destruct (push_ports_prev sw ps (st.1 !!! sw, []) n) as [H|[H _]]; rewrite E in H; [by right|by left].
Qed.

Lemma push_switch_managed st sw ps n :
  con sw = Some ps -> managed ps n -> ((push_switch links t con st sw).1 !!! sw) !! n = Some (should_flood links t sw n).
Proof.
  intros Hc Hn. unfold push_switch. rewrite Hc.
  destruct (foldl (push_port links t sw) (st.1 !!! sw, []) ps) as [pv ms] eqn:E. cbn [fst].
  rewrite lookup_total_insert, decide_True by done.
  destruct (push_ports_prev sw ps (st.1 !!! sw, []) n) as [H|[_ H]]; [by rewrite E in H|done].
Qed.

Lemma push_switches_managed sws st sw ps n :
  sw ∈ sws -> con sw = Some ps -> managed ps n ->
  ((foldl (push_switch links t con) st sws).1 !!! sw) !! n = Some (should_flood links t sw n).
Proof.
  intros Hsw Hc Hn. induction sws as [|x sws IH] using rev_ind; [by apply elem_of_nil in Hsw|].
  rewrite foldl_app. cbn [foldl]. destruct (decide (sw = x)) as [<-|Hne]; [by apply push_switch_managed with ps|].
  apply elem_of_app in Hsw as [Hsw|Hsw%list_elem_of_singleton]; [|done].
  destruct (push_switch_prev (foldl (push_switch links t con) st sws) x sw n) as [H|[H _]]; [|done].
  rewrite H. by apply IH.
Qed.

Lemma push_switches_quiet sws (prev : gmap Z (gmap Z bool)) :
  (forall sw ps n, sw ∈ sws -> con sw = Some ps -> managed ps n -> (prev !!! sw) !! n = Some (should_flood links t sw n)) ->
  forall (prev' : gmap Z (gmap Z bool)) msgs, (forall sw, prev' !!! sw = (prev !!! sw : gmap Z bool)) ->
  (foldl (push_switch links t con) (prev', msgs) sws).2 = msgs.
Proof.
  induction sws as [|sw sws IH]; intros H prev' msgs Hp; [done|]. cbn [foldl]. unfold push_switch at 2.
  destruct (con sw) as [ps|] eqn:Ec; [|apply IH; [intros; eapply H; eauto; by right|done]].
  cbn [fst snd]. rewrite push_ports_quiet.
  2: { intros n Hn. rewrite Hp. apply (H sw ps n); [by left|done..]. }
  cbn [fmap list_fmap]. rewrite app_nil_r. apply IH; [intros; eapply H; eauto; by right|].
  intros x. rewrite lookup_total_insert. destruct (decide (sw = x)) as [<-|]; by rewrite Hp.
Qed.
End push.

(** After a link event every port of a connected switch of the tree has
    been told to flood exactly if it is a tree port or leads to no switch; and
    the event that follows sends nothing while the links stay the same. *)
Theorem flood_ports_spec (elems : gset Z -> list Z) (items : gmap Z entry -> list (Z * entry)) (keys : tree -> list Z)
    (con : Z -> option (list ofp_phy_port)) (links : list Link) (prev prev' : gmap Z (gmap Z bool))
    (msgs : list (Z * message)) (t : tree) :
  calc_spanning_tree elems items links = Ok t ->
  handle_link_event elems items keys con links prev = Ok (prev', msgs) ->
  (forall sw ps n, sw ∈ keys t -> con sw = Some ps -> managed ps n ->
     (prev' !!! sw) !! n = Some (should_flood links t sw n)) /\
  exists prev'', handle_link_event elems items keys con links prev' = Ok (prev'', []).
Proof.
  intros Et. unfold handle_link_event. rewrite Et. cbn [mbind result_bind mret result_ret]. intros [= E].
  assert (Hm : forall sw ps n, sw ∈ keys t -> con sw = Some ps -> managed ps n ->
     (prev' !!! sw) !! n = Some (should_flood links t sw n)).
  { intros sw ps n Hsw Hc Hn. pose proof (push_switches_managed links t con (keys t) (prev, []) sw ps n Hsw Hc Hn) as H.
    by rewrite E in H. }
  split; [exact Hm|]. pose proof (push_switches_quiet links t con (keys t) prev' Hm prev' [] (fun _ => eq_refl)) as Hq.
  destruct (foldl _ (prev', []) _) as [p m]. simpl in Hq. subst m. by exists p.
Qed.

Definition example_port_no (n : Z) : ofp_phy_port := mk_ofp_phy_port n (HwEth EMPTY_ETH) [] 0 0 0 0 0 0.
Definition example_con (sw : Z) : option (list ofp_phy_port) := Some (example_port_no <$> [1; 2; 3; 7]).
Definition example_keys (t : tree) : list Z := fst <$> map_to_list t.
(** The tree of the triangle, and what the first event remembers and sends. *)
Definition example_tree : tree :=
  match calc_spanning_tree elements map_to_list example_links with Ok t => t | Err _ => ∅ end.
Definition example_sent : gmap Z (gmap Z bool) * list (Z * message) :=
  match handle_link_event elements map_to_list example_keys example_con example_links ∅ with Ok r => r | Err _ => (∅, []) end.

Lemma flood_ports_spec_witness :
  ((fst example_sent !!! 2) !! 2, (fst example_sent !!! 2) !! 1, (fst example_sent !!! 2) !! 7) = (Some false, Some true, Some true) /\
  (forall sw ps n, sw ∈ example_keys example_tree -> example_con sw = Some ps -> managed ps n ->
     (fst example_sent !!! sw) !! n = Some (should_flood example_links example_tree sw n)) /\
  exists prev'', handle_link_event elements map_to_list example_keys example_con example_links (fst example_sent) = Ok (prev'', []).
Proof.
  split; [vm_compute; reflexivity|].
  apply (flood_ports_spec elements map_to_list example_keys example_con example_links ∅ (fst example_sent) (snd example_sent) example_tree);
    vm_compute; reflexivity.
Defined.
