(* ===== verification/HostTracker.v ===== *)
(** * Host tracking ([pox/host_tracker/host_tracker.py])

    Where hosts are: an entry for each hardware address with the port it was
    seen at and its IP addresses, stocked from packets and kept alive by ARP
    pings that a timer sends.  Times are in nanoseconds; within one handler the
    clock stands still.

    Arguments of the model: the links that discovery knows, which datapaths the
    nexus is connected to, and the order in which dictionaries are listed.
    Logging is left out, except where its arguments raise. *)

From S2P Require Import Prelude PyStruct Addresses OfpMatch OfpActions OfpStructs OfpMessages OfpVarMessages OfpStream.
From S2P Require Import Packet FlowTable PacketWire Controller L2Learning L3Learning L2Multi SpanningTree.

Definition arpAware : Z := 60 * 2.
Definition arpSilent : Z := 60 * 20.
Definition arpReply : Z := 4.
Definition entryMove : Z := 60.
Definition pingLim : Z := 3.

(** ** Entries *)

(** [Alive]. *)
Record alive := mk_alive { lastTimeSeen : Z; interval : Z }.
Definition expired (now : Z) (a : alive) : bool := lastTimeSeen a + interval a * second <? now.
Definition refresh (now : Z) (a : alive) : alive := mk_alive now (interval a).

(** [PingCtrl]; its time to wait for a reply is never looked at. *)
Record pings := mk_pings { pg_alive : alive; pending : Z }.
Definition new_pings (now : Z) : pings := mk_pings (mk_alive now arpReply) 0.
Definition ping_sent (now : Z) (p : pings) : pings := mk_pings (refresh now (pg_alive p)) (pending p + 1).
Definition ping_failed (p : pings) : bool := pingLim <? pending p.
Definition ping_received (p : pings) : pings := mk_pings (pg_alive p) 0.

(** [IpEntry], with the object that is its key. *)
Record ip_entry := mk_ip_entry { ie_key : nwaddr; ie_alive : alive; ie_hasARP : bool; ie_pings : pings }.
Definition new_ip_entry (now : Z) (key : nwaddr) (hasARP : bool) : ip_entry :=
  mk_ip_entry key (mk_alive now (if hasARP then arpAware else arpSilent)) hasARP (new_pings now).
Definition set_ie_alive (x : alive) (e : ip_entry) : ip_entry := mk_ip_entry (ie_key e) x (ie_hasARP e) (ie_pings e).
Definition set_ie_pings (x : pings) (e : ip_entry) : ip_entry := mk_ip_entry (ie_key e) (ie_alive e) (ie_hasARP e) x.

(** [MacEntry]; [me_inport] is an attribute that the handler of packets makes. *)
Abbreviation ip_table := (gmap (IPAddr + Z) ip_entry).
Record mac_entry := mk_mac_entry {
  me_alive : alive;
  me_dpid : Z;
  me_port : Z;
  me_macaddr : EthAddr;
  me_ipAddrs : ip_table;
  me_inport : option Z
}.
Definition new_mac_entry (now dpid port : Z) (mac : EthAddr) : mac_entry := mk_mac_entry (mk_alive now arpAware) dpid port mac ∅ None.
Definition set_me_alive (x : alive) (e : mac_entry) : mac_entry :=
  mk_mac_entry x (me_dpid e) (me_port e) (me_macaddr e) (me_ipAddrs e) (me_inport e).
Definition set_me_ips (x : ip_table) (e : mac_entry) : mac_entry :=
  mk_mac_entry (me_alive e) (me_dpid e) (me_port e) (me_macaddr e) x (me_inport e).
Definition moved_to (dpid inport : Z) (e : mac_entry) : mac_entry :=
  mk_mac_entry (me_alive e) dpid (me_port e) (me_macaddr e) (me_ipAddrs e) (Some inport).
(** [MacEntry.__eq__] with a tuple. *)
Definition at_place (dpid port : Z) (mac : EthAddr) (e : mac_entry) : bool :=
  (me_dpid e =? dpid) && (me_port e =? port) && bool_decide (me_macaddr e = mac).

(** [entryByMAC], and the messages handed to [sendToDPID]. *)
Record tracker := mk_tracker { entryByMAC : gmap EthAddr mac_entry; pinged : list (Z * message) }.
Definition set_entries (x : gmap EthAddr mac_entry) (t : tracker) : tracker := mk_tracker x (pinged t).
Definition add_ping (x : Z * message) (t : tracker) : tracker := mk_tracker (entryByMAC t) (pinged t ++ [x]).
Abbreviation T := (M tracker).

Definition put_entry (e : mac_entry) : T unit := modify (fun t => set_entries (<[me_macaddr e := e]> (entryByMAC t)) t).
Definition change_entry (mac : EthAddr) (f : mac_entry -> mac_entry) : T unit := modify (fun t => set_entries (alter f mac (entryByMAC t)) t).
Definition change_ip (mac : EthAddr) (k : IPAddr + Z) (f : ip_entry -> ip_entry) : T unit :=
  change_entry mac (fun e => set_me_ips (alter f k (me_ipAddrs e)) e).
Definition del_ip (mac : EthAddr) (k : IPAddr + Z) : T unit :=
  change_entry mac (fun e => set_me_ips (delete k (me_ipAddrs e)) e).
Definition getMacEntry (mac : EthAddr) (t : tracker) : option mac_entry := entryByMAC t !! mac.

(** ** Packets *)

Definition getSrcIPandARP (p : payload) : option (nwaddr * bool) :=
  match p with
  | PHdr _ (HIpv4 h) _ => Some (i_srcip h, false)
  | PHdr _ (HArp h) _ =>
      if (a_hwtype h =? 1) && (a_prototype h =? 0x0800) && nonzero (a_protosrc h) then Some (a_protosrc h, true) else None
  | _ => None
  end.

(** [updateIPInfo] on the table of an entry. *)
Definition updateIPInfo (now : Z) (srcip : nwaddr) (hasARP : bool) (ips : ip_table) : ip_table :=
  let e := match ips !! ip_key srcip with
           | Some e => set_ie_alive (refresh now (ie_alive e)) e
           | None => new_ip_entry now srcip hasARP
           end in
  <[ip_key srcip := if hasARP then set_ie_pings (ping_received (ie_pings e)) e else e]> ips.

Definition handle_PacketIn (links : list Link) (now : Z) (event : PacketIn) : T unit :=
  let dpid := ev_dpid event in
  let inport := ev_port event in
  packet ← lift (ev_parsed event);
  if negb (e_parsed packet) then mret tt else
  if e_type packet =? LLDP_TYPE then mret tt else
  if isSwitchOnlyPort links dpid inport then mret tt else
  src ← lift (eth_of (e_src packet));
  o ← get (getMacEntry src);
  _ ← (match o with
       | None => put_entry (new_mac_entry now dpid inport src)
       | Some e =>
           if at_place dpid inport src e then mret tt
           else if now - lastTimeSeen (me_alive e) <? entryMove * second then lift (Err TypeError)
           else change_entry src (moved_to dpid inport)
       end);
  _ ← change_entry src (fun e => set_me_alive (refresh now (me_alive e)) e);
  match getSrcIPandARP (e_next packet) with
  | Some (ip, hasARP) => change_entry src (fun e => set_me_ips (updateIPInfo now ip hasARP (me_ipAddrs e)) e)
  | None => mret tt
  end.

(** ** The timer *)
Section timer.
Context (connected : Z -> bool).
Context (macs : gmap EthAddr mac_entry -> list EthAddr) (ips : ip_table -> list (IPAddr + Z)).

(** The ARP request to a host about one of its addresses. *)
Definition ping_message (e : mac_entry) (ip : nwaddr) : result message :=
  let r := mk_arp 1 0x0800 (HwEth EMPTY_ETH) (HwEth (me_macaddr e)) 6 1 4 (NwIP IP_ANY) ip in
  '(data, _) ← pack_ethernet (mk_ethernet false (HwEth (me_macaddr e)) (HwEth EMPTY_ETH) 0x0806 (PHdr false (HArp r) (PBytes [])));
  mret (packet_out (-1) OFPP_NONE [output (me_port e)] data).
Definition sendPing (now : Z) (e : mac_entry) (k : IPAddr + Z) (ip : nwaddr) : T unit :=
  m ← lift (ping_message e ip);
  _ ← modify (add_ping (me_dpid e, m));
  if connected (me_dpid e) then change_ip (me_macaddr e) k (fun x => set_ie_pings (ping_sent now (ie_pings x)) x)
  else del_ip (me_macaddr e) k.

Definition find_ip (mac : EthAddr) (k : IPAddr + Z) (t : tracker) : option (mac_entry * ip_entry) :=
  match getMacEntry mac t with
  | Some e => match me_ipAddrs e !! k with Some x => Some (e, x) | None => None end
  | None => None
  end.

(** The addresses of an entry: whether any was pinged. *)
Fixpoint check_ips (now : Z) (mac : EthAddr) (ks : list (IPAddr + Z)) (pinged : bool) : T bool :=
  match ks with
  | [] => mret pinged
  | k :: ks =>
      o ← get (find_ip mac k);
      '(e, x) ← lift (need KeyError o);
      if expired now (ie_alive x) then
        if ping_failed (ie_pings x) then _ ← del_ip mac k; check_ips now mac ks pinged
        else
          _ ← sendPing now e k (ie_key x);
          _ ← change_ip mac k (fun x => set_ie_pings (ping_sent now (ie_pings x)) x);
          check_ips now mac ks true
      else check_ips now mac ks pinged
  end.

(** The addresses left are to go, but it is the last one of the list before that
    is deleted each time. *)
Fixpoint drop_left (mac : EthAddr) (rest : list (IPAddr + Z)) (last : option (IPAddr + Z)) : T unit :=
  match rest with
  | [] => mret tt
  | _ :: rest =>
      k ← lift (need UnboundLocalError last);
      e ← get (getMacEntry mac);
      _ ← lift (guard_ok (bool_decide (is_Some (e ≫= fun e => me_ipAddrs e !! k))) KeyError);
      _ ← del_ip mac k;
      drop_left mac rest last
  end.
Definition ips_of (mac : EthAddr) (t : tracker) : ip_table :=
  match getMacEntry mac t with Some e => me_ipAddrs e | None => ∅ end.
Definition check_entry (now : Z) (mac : EthAddr) : T unit :=
  items ← get (fun t => ips (ips_of mac t));
  entryPinged ← check_ips now mac items false;
  o ← get (getMacEntry mac);
  e ← lift (need KeyError o);
  if expired now (me_alive e) && negb entryPinged then
    _ ← drop_left mac (ips (me_ipAddrs e)) (last items);
    modify (fun t => set_entries (delete mac (entryByMAC t)) t)
  else mret tt.
Definition check_timeouts (now : Z) : T unit :=
  ms ← get (fun t => macs (entryByMAC t));
  for_each ms (check_entry now).
End timer.

(** ** Packets *)

(** A frame of a host: parsed, no LLDP, and not from a port between switches. *)
Record host_frame (links : list Link) (event : PacketIn) (packet : ethernet) (src : EthAddr) : Prop := mk_host_frame {
  hf_parsed : ev_parsed event = Ok packet;
  hf_ok : e_parsed packet = true;
  hf_type : (e_type packet =? LLDP_TYPE) = false;
  hf_port : isSwitchOnlyPort links (ev_dpid event) (ev_port event) = false;
  hf_src : e_src packet = HwEth src
}.

(** The addresses of an entry behind a frame. *)
Definition learned_ips (now : Z) (p : payload) (ips : ip_table) : ip_table :=
  match getSrcIPandARP p with Some (ip, hasARP) => updateIPInfo now ip hasARP ips | None => ips end.
Definition heard_from (now : Z) (p : payload) (e : mac_entry) : mac_entry :=
  set_me_ips (learned_ips now p (me_ipAddrs e)) (set_me_alive (refresh now (me_alive e)) e).

Lemma alter_insert {K A} `{Countable K} (f : A -> A) (k : K) (a : A) (m : gmap K A) : alter f k (<[k := a]> m) = <[k := f a]> m.
Proof. apply map_eq. intros k'. destruct (decide (k = k')) as [<-|]; [by rewrite lookup_alter, decide_True, !lookup_insert_eq|].
  by rewrite lookup_alter_ne, !lookup_insert_ne. Qed.
Lemma alter_some {K A} `{Countable K} (f : A -> A) (k : K) (a : A) (m : gmap K A) : m !! k = Some a -> alter f k m = <[k := f a]> m.
Proof. intros E. rewrite <-(insert_id m k a E) at 1. apply alter_insert. Qed.

Lemma frame_heard links now event packet src t :
  host_frame links event packet src ->
  handle_PacketIn links now event t =
    match getMacEntry src t with
    | Some e =>
        if at_place (ev_dpid event) (ev_port event) src e
        then (Ok tt, set_entries (<[src := heard_from now (e_next packet) e]> (entryByMAC t)) t)
        else if now - lastTimeSeen (me_alive e) <? entryMove * second then (Err TypeError, t)
        else (Ok tt, set_entries (<[src := heard_from now (e_next packet) (moved_to (ev_dpid event) (ev_port event) e)]> (entryByMAC t)) t)
    | None => (Ok tt, set_entries (<[src := heard_from now (e_next packet) (new_mac_entry now (ev_dpid event) (ev_port event) src)]> (entryByMAC t)) t)
    end.
Proof.
  intros [Ep Ok_ Ht Hp Es]. unfold handle_PacketIn. rewrite Ep, M_bind_lift_Ok, Ok_, Ht, Hp, Es. cbn [negb eth_of]. rewrite M_bind_lift_Ok.
  erewrite M_bind_run by reflexivity.
  assert (Hrest : forall e t1, entryByMAC t1 !! src = Some e -> pinged t1 = pinged t ->
    (_ ← change_entry src (fun e => set_me_alive (refresh now (me_alive e)) e);
     match getSrcIPandARP (e_next packet) with
     | Some (ip, hasARP) => change_entry src (fun e => set_me_ips (updateIPInfo now ip hasARP (me_ipAddrs e)) e)
     | None => mret tt
     end) t1 = (Ok tt, set_entries (<[src := heard_from now (e_next packet) e]> (entryByMAC t1)) t)).
  { intros e t1 E1 E2. erewrite M_bind_run by reflexivity. unfold set_entries. rewrite (alter_some _ _ _ _ E1).
    unfold heard_from, learned_ips. destruct (getSrcIPandARP (e_next packet)) as [[ip hasARP]|].
    - unfold change_entry, modify, set_entries. cbn [entryByMAC pinged]. by rewrite alter_insert, E2.
    - cbn [mret M_ret]. by rewrite E2. }
  destruct (getMacEntry src t) as [e|] eqn:Ee.
  - destruct (at_place _ _ _ e).
    + erewrite M_bind_run by reflexivity. by apply Hrest.
    + destruct (_ <? _); [done|]. erewrite M_bind_run by reflexivity.
      unfold set_entries at 1. rewrite (alter_some _ _ e) by exact Ee.
      erewrite Hrest; [|apply lookup_insert_eq|done]. cbn [entryByMAC]. by rewrite insert_insert_eq.
  - erewrite M_bind_run by reflexivity. erewrite Hrest; [|apply lookup_insert_eq|done]. cbn [entryByMAC set_entries me_macaddr new_mac_entry].
    by rewrite insert_insert_eq.
Qed.

(** ** The timer *)

(** What a round of the timer keeps of the entries: place and time. *)
Definition same_place (e e' : mac_entry) : Prop :=
  me_dpid e' = me_dpid e /\ me_port e' = me_port e /\ me_macaddr e' = me_macaddr e /\ me_alive e' = me_alive e.
Definition places_from (t0 t : tracker) : Prop :=
  forall mac e', getMacEntry mac t = Some e' -> exists e, getMacEntry mac t0 = Some e /\ same_place e e'.

Lemma change_places t0 mac f : (forall e, same_place e (f e)) -> preserves (places_from t0) (change_entry mac f).
Proof.
  intros Hf. apply preserves_modify. intros t Ht mac' e'. unfold getMacEntry. cbn. rewrite lookup_alter.
  destruct (decide (mac = mac')) as [<-|]; [|apply Ht]. destruct (entryByMAC t !! mac) as [e|] eqn:Ee; [|done]. intros [= <-].
  destruct (Ht _ _ Ee) as (e0 & E0 & H1 & H2 & H3 & H4). exists e0. split; [done|]. destruct (Hf e) as (F1 & F2 & F3 & F4).
  split; [|split; [|split]]; congruence.
Qed.

Section timer.
Context (connected : Z -> bool) (macs : gmap EthAddr mac_entry -> list EthAddr) (ips : ip_table -> list (IPAddr + Z)).

Lemma check_timeouts_places t0 now : preserves (places_from t0) (check_timeouts connected macs ips now).
Proof.
  assert (Hdel : forall mac k, preserves (places_from t0) (del_ip mac k)) by (intros; by apply change_places).
  assert (Hchg : forall mac k f, preserves (places_from t0) (change_ip mac k f)) by (intros; by apply change_places).
  assert (Hping : forall e k ip, preserves (places_from t0) (sendPing connected now e k ip)).
  { intros e k ip. unfold sendPing. apply preserves_bind; [apply preserves_lift|]. intros m.
    apply preserves_bind; [by apply preserves_modify|]. intros []. by destruct (connected _). }
  assert (Hips : forall mac ks b, preserves (places_from t0) (check_ips connected now mac ks b)).
  { intros mac ks. induction ks as [|k ks IH]; intros b; [apply preserves_ret|]. cbn [check_ips].
    apply preserves_bind; [apply preserves_get|]. intros o. apply preserves_bind; [apply preserves_lift|]. intros [e x].
    destruct (expired _ _); [|apply IH]. destruct (ping_failed _).
    - apply preserves_bind; [apply Hdel|]. intros _. apply IH.
    - apply preserves_bind; [apply Hping|]. intros _. apply preserves_bind; [apply Hchg|]. intros _. apply IH. }
  assert (Hleft : forall mac l k, preserves (places_from t0) (drop_left mac l k)).
  { intros mac l k. induction l as [|x l IH]; [apply preserves_ret|]. cbn [drop_left]. keep. }
  unfold check_timeouts. apply preserves_bind; [apply preserves_get|]. intros ms. apply preserves_for_each. intros mac. unfold check_entry.
  apply preserves_bind; [apply preserves_get|]. intros its. apply preserves_bind; [apply Hips|]. intros p.
  apply preserves_bind; [apply preserves_get|]. intros o. apply preserves_bind; [apply preserves_lift|]. intros e.
  destruct (_ && _); [|apply preserves_ret]. apply preserves_bind; [apply Hleft|]. intros _. apply preserves_modify.
  intros t Ht mac' e'. unfold getMacEntry. cbn. rewrite lookup_delete_Some. intros [_ E]. by apply Ht.
Qed.

Context (Hips : forall m, ips m ≡ₚ (map_to_list m).*1).

Lemma check_ips_quiet now mac e ks b t :
  getMacEntry mac t = Some e ->
  (forall k, k ∈ ks -> exists x, me_ipAddrs e !! k = Some x /\ expired now (ie_alive x) = false) ->
  check_ips connected now mac ks b t = (Ok b, t).
Proof.
  intros Ee. induction ks as [|k ks IH]; intros Hk; [done|]. cbn [check_ips]. erewrite M_bind_run by reflexivity. unfold find_ip. rewrite Ee.
  destruct (Hk k) as (x & Ex & Hx); [by left|]. rewrite Ex. cbn [need]. rewrite M_bind_lift_Ok, Hx. apply IH. intros k' Hk'. apply Hk. by right.
Qed.

Lemma ips_elem m k : k ∈ ips m <-> is_Some (m !! k).
Proof.
  rewrite Hips, list_elem_of_fmap. split.
  - intros ([k' x] & -> & Hx%elem_of_map_to_list). by eexists.
  - intros [x Hx]. exists (k, x). split; [done|]. by apply elem_of_map_to_list.
Qed.
Lemma ips_length m : length (ips m) = base.size m.
Proof. by rewrite Hips, length_fmap, length_map_to_list. Qed.
Lemma ips_empty : ips ∅ = [].
Proof. apply length_zero_iff_nil. by rewrite ips_length, map_size_empty. Qed.
Lemma ips_single k x : ips {[k := x]} = [k].
Proof.
  pose proof (ips_length {[k := x]}) as Hl. rewrite map_size_singleton in Hl. destruct (ips {[k := x]}) as [|k' [|]] eqn:E; try done.
  assert (Hk : k' ∈ ips {[k := x]}) by (rewrite E; by left). apply ips_elem in Hk as [y Hy]. apply lookup_singleton_Some in Hy as [-> _]. done.
Qed.

(** A ping of the only address of an entry. *)
Lemma check_pings now mac e k x m t :
  getMacEntry mac t = Some e -> me_macaddr e = mac -> me_ipAddrs e = {[k := x]} ->
  expired now (ie_alive x) = true -> ping_failed (ie_pings x) = false -> connected (me_dpid e) = true ->
  ping_message e (ie_key x) = Ok m ->
  exists x', check_entry connected ips now mac t
      = (Ok tt, mk_tracker (<[mac := set_me_ips {[k := x']} e]> (entryByMAC t)) (pinged t ++ [(me_dpid e, m)])) /\
    ie_alive x' = ie_alive x /\ ie_key x' = ie_key x /\ pending (ie_pings x') = pending (ie_pings x) + 2.
Proof.
  intros Ee Em Ei Hx Hp Hc Hm. exists (set_ie_pings (ping_sent now (ping_sent now (ie_pings x))) x).
  split; [|split; [done|split; [done|cbn; lia]]].
  unfold check_entry. erewrite M_bind_run by reflexivity. unfold ips_of. rewrite Ee, Ei, ips_single.
  set (t2 := mk_tracker (<[mac := set_me_ips {[k := set_ie_pings (ping_sent now (ping_sent now (ie_pings x))) x]} e]> (entryByMAC t))
    (pinged t ++ [(me_dpid e, m)])).
  erewrite (M_bind_run (check_ips _ _ _ _ _) _ _ true t2).
  2:{ cbn [check_ips]. erewrite M_bind_run by reflexivity. unfold find_ip. rewrite Ee, Ei, lookup_singleton_eq. cbn [need].
      rewrite M_bind_lift_Ok, Hx, Hp. unfold sendPing. rewrite Hm. erewrite M_bind_run.
      2:{ rewrite M_bind_lift_Ok. erewrite M_bind_run by reflexivity. rewrite Hc, Em. reflexivity. }
      erewrite M_bind_run by reflexivity. cbn [mret M_ret]. unfold set_entries, add_ping, t2. cbn [entryByMAC pinged]. do 2 f_equal.
      rewrite (alter_some _ mac e (entryByMAC t)) by exact Ee. rewrite alter_insert. f_equal. unfold set_me_ips. cbn. rewrite Ei.
      f_equal. rewrite !alter_singleton_eq. done. }
  erewrite M_bind_run by reflexivity. unfold getMacEntry. cbn [entryByMAC t2]. rewrite lookup_insert_eq. cbn [need]. rewrite M_bind_lift_Ok.
  by rewrite andb_false_r.
Qed.

(** The last look at an address that did not answer, and at its host. *)
Lemma check_gives_up now mac e k x t :
  getMacEntry mac t = Some e -> me_ipAddrs e = {[k := x]} -> expired now (ie_alive x) = true -> ping_failed (ie_pings x) = true ->
  expired now (me_alive e) = true ->
  check_entry connected ips now mac t = (Ok tt, set_entries (delete mac (entryByMAC t)) t).
Proof.
  intros Ee Ei Hx Hp He. unfold check_entry. erewrite M_bind_run by reflexivity. unfold ips_of. rewrite Ee, Ei, ips_single.
  set (t2 := set_entries (<[mac := set_me_ips ∅ e]> (entryByMAC t)) t).
  erewrite (M_bind_run (check_ips _ _ _ _ _) _ _ false t2).
  2:{ cbn [check_ips]. erewrite M_bind_run by reflexivity. unfold find_ip. rewrite Ee, Ei, lookup_singleton_eq. cbn [need].
      rewrite M_bind_lift_Ok, Hx, Hp. erewrite M_bind_run by reflexivity. cbn [mret M_ret]. unfold t2. do 2 f_equal.
      rewrite (alter_some _ mac e (entryByMAC t)) by exact Ee. do 2 f_equal. by rewrite Ei, delete_singleton_eq. }
  erewrite M_bind_run by reflexivity. unfold getMacEntry at 1. cbn [entryByMAC t2 set_entries]. rewrite lookup_insert_eq. cbn [need]. rewrite M_bind_lift_Ok.
  cbn [me_alive set_me_ips me_ipAddrs]. rewrite He, ips_empty. cbn [negb andb drop_left].
  erewrite M_bind_run by reflexivity. unfold modify, t2, set_entries. cbn [entryByMAC pinged]. by rewrite delete_insert_eq.
Qed.
End timer.

(** ** Properties *)


(** What happens to the tracker. *)
Inductive tracker_step (links : list Link) (connected : Z -> bool) (macs : gmap EthAddr mac_entry -> list EthAddr)
    (ips : ip_table -> list (IPAddr + Z)) (t : tracker) : tracker -> Prop :=
  | frame_step now event packet src : host_frame links event packet src ->
      tracker_step links connected macs ips t (snd (handle_PacketIn links now event t))
  | timer_step now : tracker_step links connected macs ips t (snd (check_timeouts connected macs ips now t)).

(** The port that is recorded for a host is that of its first frame for as
    long as its entry lives: neither a frame from elsewhere nor the timer ever
    changes it. *)
Theorem host_port_stays (links : list Link) (connected : Z -> bool) (macs : gmap EthAddr mac_entry -> list EthAddr)
    (ips : ip_table -> list (IPAddr + Z)) (t t' : tracker) (mac : EthAddr) (e e' : mac_entry) :
  tracker_step links connected macs ips t t' -> getMacEntry mac t = Some e -> getMacEntry mac t' = Some e' -> me_port e' = me_port e.
Proof.
  intros [now event packet src Hf|now] He He'.
  - rewrite (frame_heard _ _ _ _ _ _ Hf) in He'. destruct (decide (mac = src)) as [->|Hne].
    + rewrite He in He'. destruct (at_place _ _ _ e); [|destruct (_ <? _); [cbn in He'; congruence|]];
        unfold getMacEntry in He'; cbn in He'; rewrite lookup_insert_eq in He'; by injection He' as <-.
    + assert (Hsame : forall e2, getMacEntry mac (set_entries (<[src := e2]> (entryByMAC t)) t) = Some e).
      { intros e2. unfold getMacEntry. cbn. by rewrite lookup_insert_ne. }
      destruct (getMacEntry src t) as [e0|]; [destruct (at_place _ _ _ e0); [|destruct (_ <? _)]|]; cbn [snd] in He';
        try rewrite Hsame in He'; congruence.
  - assert (H0 : places_from t t) by (intros m x Hx; by exists x).
    destruct (check_timeouts_places connected macs ips t now t H0 mac e' He') as (e0 & E0 & _ & Hp & _). congruence.
Qed.

(** A silent address is given up after two pings, although three attempts are
    meant to be made: each round of the timer counts its ping twice.  At the round
    after that, the address and its host, silent too by then, are forgotten. *)
Theorem silent_host_forgotten (connected : Z -> bool) (ips : ip_table -> list (IPAddr + Z)) (n1 n2 n3 : Z) (mac : EthAddr)
    (e : mac_entry) (k : IPAddr + Z) (x : ip_entry) (m : message) (t : tracker) :
  (forall m, ips m ≡ₚ (map_to_list m).*1) ->
  getMacEntry mac t = Some e -> me_macaddr e = mac -> me_ipAddrs e = {[k := x]} -> pending (ie_pings x) = 0 ->
  connected (me_dpid e) = true -> ping_message e (ie_key x) = Ok m ->
  expired n1 (ie_alive x) = true -> n1 <= n2 <= n3 -> expired n3 (me_alive e) = true ->
  exists t1 t2 t3, check_entry connected ips n1 mac t = (Ok tt, t1) /\ check_entry connected ips n2 mac t1 = (Ok tt, t2) /\
    check_entry connected ips n3 mac t2 = (Ok tt, t3) /\
    pinged t1 = pinged t ++ [(me_dpid e, m)] /\ pinged t2 = pinged t1 ++ [(me_dpid e, m)] /\ pinged t3 = pinged t2 /\
    entryByMAC t3 = delete mac (entryByMAC t).
Proof.
  intros Hips Ee Em Ei Hp Hc Hm Hx Hn He.
  assert (Hlater : forall a n n', n <= n' -> expired n a = true -> expired n' a = true) by (intros [l i] n n'; unfold expired; rewrite !Z.ltb_lt; lia).
  destruct (check_pings connected ips Hips n1 mac e k x m t) as (x1 & E1 & Ha1 & Hk1 & Hp1); try done; [unfold ping_failed; by rewrite Hp|].
  match type of E1 with _ = (_, ?t') => set (t1 := t') in * end. set (e1 := set_me_ips {[k := x1]} e).
  destruct (check_pings connected ips Hips n2 mac e1 k x1 m t1) as (x2 & E2 & Ha2 & Hk2 & Hp2); try done.
  { apply lookup_insert_eq. }
  { rewrite Ha1. eapply Hlater; [|exact Hx]. lia. }
  { unfold ping_failed. by rewrite Hp1, Hp. }
  { by rewrite Hk1. }
  match type of E2 with _ = (_, ?t') => set (t2 := t') in * end. set (e2 := set_me_ips {[k := x2]} e1).
  eexists t1, t2, _. split; [exact E1|]. split; [exact E2|]. split; [apply (check_gives_up connected ips Hips n3 mac e2 k x2 t2)|]; try done.
  - apply lookup_insert_eq.
  - rewrite Ha2, Ha1. eapply Hlater; [|exact Hx]. lia.
  - unfold ping_failed. by rewrite Hp2, Hp1, Hp.
  - split; [done|]. split; [done|]. split; [done|]. cbn. by rewrite !delete_insert_eq.
Qed.

(** A host that falls silent while two of its addresses are not due yet (those
    learned from IP packets last ten times longer) cannot be forgotten: what
    should delete the addresses left deletes the same one twice, and raises out
    of the timer, whose task the scheduler then drops. *)
Theorem silent_host_raises (connected : Z -> bool) (ips : ip_table -> list (IPAddr + Z)) (now : Z) (mac : EthAddr) (e : mac_entry) (t : tracker) :
  (forall m, ips m ≡ₚ (map_to_list m).*1) ->
  getMacEntry mac t = Some e -> expired now (me_alive e) = true -> (2 <= base.size (me_ipAddrs e))%nat ->
  (forall k x, me_ipAddrs e !! k = Some x -> expired now (ie_alive x) = false) ->
  exists t' e', check_entry connected ips now mac t = (Err KeyError, t') /\ getMacEntry mac t' = Some e' /\
    S (base.size (me_ipAddrs e')) = base.size (me_ipAddrs e).
Proof.
  intros Hips Ee He Hs Hx. unfold check_entry. erewrite M_bind_run by reflexivity. unfold ips_of. rewrite Ee.
  erewrite (M_bind_run (check_ips _ _ _ _ _)).
  2:{ apply (check_ips_quiet connected now mac e); [done|]. intros k Hk%(ips_elem ips Hips). destruct Hk as [x Ek]. exists x. split; [done|]. by eapply Hx. }
  erewrite M_bind_run by reflexivity. rewrite Ee. cbn [need]. rewrite M_bind_lift_Ok, He. cbn [negb andb].
  pose proof (ips_length ips Hips (me_ipAddrs e)) as Hl. destruct (ips (me_ipAddrs e)) as [|k1 [|k2 l]] eqn:El; [cbn in Hl; lia|cbn in Hl; lia|].
  destruct (last (k1 :: k2 :: l)) as [k|] eqn:Ela; [|by apply last_None in Ela].
  assert (Hk : is_Some (me_ipAddrs e !! k)).
  { apply (ips_elem ips Hips). rewrite El. apply last_Some in Ela as [l' ->]. rewrite elem_of_app. right. by left. }
  set (e' := set_me_ips (delete k (me_ipAddrs e)) e). set (t' := set_entries (<[mac := e']> (entryByMAC t)) t).
  exists t', e'. split; [|split].
  - rewrite M_bind_unfold. cbn [drop_left need]. rewrite M_bind_lift_Ok. rewrite (M_bind_run (get _) _ _ _ _ eq_refl). rewrite Ee.
    cbn [mbind option_bind]. rewrite bool_decide_true by done. cbn [guard_ok].
    rewrite (M_bind_run (lift (Ok tt)) _ _ _ _ eq_refl). erewrite (M_bind_run (del_ip mac k) _ _ tt t').
    2:{ unfold del_ip, change_entry, modify, t'. do 2 f_equal. by rewrite (alter_some _ mac e (entryByMAC t)) by exact Ee. }
    rewrite M_bind_lift_Ok. rewrite (M_bind_run (get _) _ _ _ _ eq_refl). unfold getMacEntry. cbn [entryByMAC t' set_entries].
    rewrite lookup_insert_eq. cbn [mbind option_bind me_ipAddrs e' set_me_ips]. rewrite lookup_delete_eq, bool_decide_false by by intros [? ?]. done.
  - apply lookup_insert_eq.
  - cbn [me_ipAddrs e' set_me_ips]. destruct Hk as [x Ek]. rewrite <-(insert_delete_id _ _ _ Ek) at 2.
    by rewrite map_size_insert_None by apply lookup_delete_eq.
Qed.

(** The timer leaves hosts alone that have been heard of in time: when nothing
    has expired, no ping is sent and nothing changes. *)
Theorem lively_hosts_kept (connected : Z -> bool) (macs : gmap EthAddr mac_entry -> list EthAddr) (ips : ip_table -> list (IPAddr + Z))
    (now : Z) (t : tracker) :
  (forall m, ips m ≡ₚ (map_to_list m).*1) -> (forall m, macs m ≡ₚ (map_to_list m).*1) ->
  (forall mac e, getMacEntry mac t = Some e -> expired now (me_alive e) = false /\
     forall k x, me_ipAddrs e !! k = Some x -> expired now (ie_alive x) = false) ->
  check_timeouts connected macs ips now t = (Ok tt, t).
Proof.
  intros Hips Hmacs Hall. unfold check_timeouts. erewrite M_bind_run by reflexivity.
  assert (Hin : forall mac, mac ∈ macs (entryByMAC t) -> is_Some (getMacEntry mac t)).
  { intros mac. rewrite Hmacs, list_elem_of_fmap. intros ([mac' e] & -> & He%elem_of_map_to_list). by exists e. }
  revert Hin. generalize (macs (entryByMAC t)) as ms. induction ms as [|mac ms IH]; intros Hin; [done|]. cbn [for_each].
  destruct (Hin mac) as [e Ee]; [by left|]. destruct (Hall _ _ Ee) as [He Hx].
  erewrite M_bind_run; [apply IH; intros m Hm; apply Hin; by right|]. unfold check_entry. erewrite M_bind_run by reflexivity. unfold ips_of. rewrite Ee.
  erewrite (M_bind_run (check_ips _ _ _ _ _)).
  2:{ apply (check_ips_quiet connected now mac e); [done|]. intros k Hk%(ips_elem ips Hips). destruct Hk as [x Ek]. exists x. split; [done|]. by eapply Hx. }
  erewrite M_bind_run by reflexivity. rewrite Ee. cbn [need]. rewrite M_bind_lift_Ok, He. done.
Qed.

(** ** Examples *)

Definition example_host_mac : EthAddr := mkEth [x02; x00; x00; x00; x00; x01].
Definition example_addr (n : Z) : IPAddr := IPAddr_of_int (0x0a000000 + n) false.
Definition example_host_data (port : Z) : ethernet :=
  mk_ethernet true (HwEth EMPTY_ETH) (HwEth example_host_mac) 0x0800
    (PHdr true (HIpv4 (mk_ipv4 4 5 0 20 1 0 0 64 0 0 (NwIP (example_addr 1)) (NwIP (example_addr 2)))) (PBytes [])).
Definition example_in (port : Z) : PacketIn := mk_PacketIn 5 port (Ok (example_host_data port)) (-1) [].
Definition list_ips (m : ip_table) : list (IPAddr + Z) := (map_to_list m).*1.
Definition list_macs (m : gmap EthAddr mac_entry) : list EthAddr := (map_to_list m).*1.
(** A host with the addresses [l], learned at time 0 from IP packets. *)
Definition example_host (l : list Z) : mac_entry :=
  set_me_ips (list_to_map ((fun n => (inl (example_addr n), new_ip_entry 0 (NwIP (example_addr n)) false)) <$> l)) (new_mac_entry 0 5 1 example_host_mac).
Definition example_tracker (l : list Z) : tracker := mk_tracker {[example_host_mac := example_host l]} [].

Lemma example_host_frame port : host_frame [] (example_in port) (example_host_data port) example_host_mac.
Proof. by constructor. Qed.


(** After ninety seconds the move is noticed, and the old port kept. *)
Lemma host_port_stays_witness :
  exists e, getMacEntry example_host_mac (snd (handle_PacketIn [] (90 * second) (example_in 2) (example_tracker [1]))) = Some e /\ me_port e = 1.
Proof.
  destruct (getMacEntry example_host_mac (snd (handle_PacketIn [] (90 * second) (example_in 2) (example_tracker [1])))) as [e|] eqn:E; [|by vm_compute in E].
  exists e. split; [done|].
  apply (host_port_stays [] (fun _ => true) list_macs list_ips (example_tracker [1])
    (snd (handle_PacketIn [] (90 * second) (example_in 2) (example_tracker [1]))) example_host_mac (example_host [1]) e); [|done|exact E].
  exact (frame_step [] (fun _ => true) list_macs list_ips (example_tracker [1]) (90 * second) (example_in 2) (example_host_data 2) example_host_mac (example_host_frame 2)).
Defined.

Lemma silent_host_forgotten_witness :
  exists m t1 t2 t3, check_entry (fun _ => true) list_ips (1201 * second) example_host_mac (example_tracker [1]) = (Ok tt, t1) /\
    check_entry (fun _ => true) list_ips (1206 * second) example_host_mac t1 = (Ok tt, t2) /\
    check_entry (fun _ => true) list_ips (1211 * second) example_host_mac t2 = (Ok tt, t3) /\
    pinged t3 = [(5, m); (5, m)] /\ entryByMAC t3 = ∅.
Proof.
  destruct (ping_message (example_host [1]) (NwIP (example_addr 1))) as [m|] eqn:Em; [|by vm_compute in Em].
  destruct (silent_host_forgotten (fun _ => true) list_ips (1201 * second) (1206 * second) (1211 * second) example_host_mac (example_host [1])
    (inl (example_addr 1)) (new_ip_entry 0 (NwIP (example_addr 1)) false) m (example_tracker [1]))
    as (t1 & t2 & t3 & E1 & E2 & E3 & P1 & P2 & P3 & Ed);
    [by intros|apply lookup_singleton_eq|reflexivity|reflexivity|reflexivity|reflexivity|exact Em|reflexivity|unfold second; lia|reflexivity|].
  exists m, t1, t2, t3. split; [done|]. split; [done|]. split; [done|]. split; [by rewrite P3, P2, P1|].
  rewrite Ed. cbn [entryByMAC example_tracker]. apply delete_singleton_eq.
Defined.

Lemma example_addresses l now : (1200 * second <? now) = false ->
  forall k x, me_ipAddrs (example_host l) !! k = Some x -> expired now (ie_alive x) = false.
Proof.
  intros Hn k x Hx. apply elem_of_list_to_map_2, list_elem_of_fmap in Hx as (n & Hx & _). apply (f_equal snd) in Hx. cbn [snd] in Hx.
  rewrite Hx. exact Hn.
Qed.

Lemma silent_host_raises_witness :
  exists t' e', check_entry (fun _ => true) list_ips (200 * second) example_host_mac (example_tracker [1; 2]) = (Err KeyError, t') /\
    getMacEntry example_host_mac t' = Some e' /\ base.size (me_ipAddrs e') = 1%nat.
Proof.
  assert (E2 : base.size (me_ipAddrs (example_host [1; 2])) = 2%nat) by (vm_compute; reflexivity).
  destruct (silent_host_raises (fun _ => true) list_ips (200 * second) example_host_mac (example_host [1; 2]) (example_tracker [1; 2]))
    as (t' & e' & E & Ee & Es); [by intros|apply lookup_singleton_eq|reflexivity| | |].
  - rewrite E2. lia.
  - exact (example_addresses [1; 2] (200 * second) eq_refl).
  - exists t', e'. split; [done|]. split; [done|]. rewrite E2 in Es. lia.
Defined.

Lemma lively_hosts_kept_witness :
  check_timeouts (fun _ => true) list_macs list_ips (100 * second) (example_tracker [1]) = (Ok tt, example_tracker [1]).
Proof.
  apply lively_hosts_kept; [done|done|]. intros mac e He. unfold getMacEntry in He. cbn [entryByMAC example_tracker] in He.
  apply lookup_singleton_Some in He as [<- <-]. split; [reflexivity|].
  exact (example_addresses [1] (100 * second) eq_refl).
Defined.
