(* ===== verification/Switch.v ===== *)
(** * The software switch ([pox/openflow/switch_impl.py])

    [SwitchImpl]: a flow table, ports, and a buffer of packets that wait for the
    controller.  A frame is an object that the buffer, the events raised and the
    actions share: [frames] is the store, and an action changes the object in
    place.  Where a message goes is the business of the channel ([Channel]), as
    the Nicira variant of the switch distributes messages over several
    controllers.  A frame raised as an event is recorded as it is at that moment.
    What a failed [pack] already wrote into a frame (lengths and checksums, which
    the next [pack] computes again) is not recorded.  Logging is left out. *)

From stdpp Require Import pretty.
From S2P Require Import Prelude PyStruct Addresses Codec OfpMatch OfpActions OfpStructs OfpMessages OfpVarMessages OfpStream.
From S2P Require Import Packet FlowTable PacketWire.

Definition OFPR_NO_MATCH : Z := 0.
Definition OFPR_ACTION : Z := 1.
Definition OFPBRC_BAD_VENDOR : Z := 3.

(** ** Capabilities *)

Record SwitchCapabilities := mk_capabilities {
  cap_flow_stats : bool; cap_table_stats : bool; cap_port_stats : bool; cap_stp : bool;
  cap_multi_phy_tx : bool; cap_ip_resam : bool;
  act_output : bool; act_set_vlan_vid : bool; act_set_vlan_pcp : bool; act_strip_vlan : bool;
  act_set_dl_src : bool; act_set_dl_dst : bool; act_set_nw_src : bool; act_set_nw_dst : bool;
  act_set_tp_src : bool; act_set_tp_dst : bool
}.
Definition new_capabilities : SwitchCapabilities :=
  mk_capabilities false false false false false false true true true true true true true true true true.

(** [OFPC_MULTI_PHY_TX] is not in the map. *)
Definition get_capabilities (c : SwitchCapabilities) : result Z :=
  let flag (b : bool) (v : Z) := if b then v else 0 in
  let value := flag (cap_flow_stats c) 1 + flag (cap_table_stats c) 2 + flag (cap_port_stats c) 4 + flag (cap_stp c) 8 in
  _ ← guard_ok (negb (cap_multi_phy_tx c)) KeyError;
  mret (value + flag (cap_ip_resam c) 32).
(** The bit of an action is one above its number. *)
Definition get_actions (c : SwitchCapabilities) : Z :=
  let flag (b : bool) (t : Z) := if b then Z.shiftl 1 (t + 1) else 0 in
  flag (act_output c) OFPAT_OUTPUT + flag (act_set_vlan_vid c) OFPAT_SET_VLAN_VID +
  flag (act_set_vlan_pcp c) OFPAT_SET_VLAN_PCP + flag (act_strip_vlan c) OFPAT_STRIP_VLAN +
  flag (act_set_dl_src c) OFPAT_SET_DL_SRC + flag (act_set_dl_dst c) OFPAT_SET_DL_DST +
  flag (act_set_nw_src c) OFPAT_SET_NW_SRC + flag (act_set_nw_dst c) OFPAT_SET_NW_DST +
  flag (act_set_tp_src c) OFPAT_SET_TP_SRC + flag (act_set_tp_dst c) OFPAT_SET_TP_DST.

(** ** State *)

(** The way to the controllers. *)
Class Channel (C : Type) := channel_send : message -> C -> C.

Record switch (C : Type) := mk_switch {
  dpid : Z;
  n_buffers : Z;
  n_tables : Z;
  capabilities : SwitchCapabilities;
  table : SwitchFlowTable;
  frames : list ethernet;
  packet_buffer : list (option (nat * Z));
  xid_count : Z;
  ports : gmap Z ofp_phy_port;
  ids : gen;
  dp_out : list (ethernet * ofp_phy_port);
  channel : C
}.
Arguments mk_switch {C}.
Arguments dpid {C}. Arguments n_buffers {C}. Arguments n_tables {C}. Arguments capabilities {C}.
Arguments table {C}. Arguments frames {C}. Arguments packet_buffer {C}. Arguments xid_count {C}.
Arguments ports {C}. Arguments ids {C}. Arguments dp_out {C}. Arguments channel {C}.

Definition set_table {C} (x : SwitchFlowTable) (s : switch C) : switch C :=
  mk_switch (dpid s) (n_buffers s) (n_tables s) (capabilities s) x (frames s) (packet_buffer s) (xid_count s) (ports s) (ids s) (dp_out s) (channel s).
Definition set_frames {C} (x : list ethernet) (s : switch C) : switch C :=
  mk_switch (dpid s) (n_buffers s) (n_tables s) (capabilities s) (table s) x (packet_buffer s) (xid_count s) (ports s) (ids s) (dp_out s) (channel s).
Definition set_buffer {C} (x : list (option (nat * Z))) (s : switch C) : switch C :=
  mk_switch (dpid s) (n_buffers s) (n_tables s) (capabilities s) (table s) (frames s) x (xid_count s) (ports s) (ids s) (dp_out s) (channel s).
Definition set_xid_count {C} (x : Z) (s : switch C) : switch C :=
  mk_switch (dpid s) (n_buffers s) (n_tables s) (capabilities s) (table s) (frames s) (packet_buffer s) x (ports s) (ids s) (dp_out s) (channel s).
Definition set_ports {C} (x : gmap Z ofp_phy_port) (s : switch C) : switch C :=
  mk_switch (dpid s) (n_buffers s) (n_tables s) (capabilities s) (table s) (frames s) (packet_buffer s) (xid_count s) x (ids s) (dp_out s) (channel s).
Definition set_ids {C} (x : gen) (s : switch C) : switch C :=
  mk_switch (dpid s) (n_buffers s) (n_tables s) (capabilities s) (table s) (frames s) (packet_buffer s) (xid_count s) (ports s) x (dp_out s) (channel s).
Definition set_dp_out {C} (x : list (ethernet * ofp_phy_port)) (s : switch C) : switch C :=
  mk_switch (dpid s) (n_buffers s) (n_tables s) (capabilities s) (table s) (frames s) (packet_buffer s) (xid_count s) (ports s) (ids s) x (channel s).
Definition set_channel {C} (x : C) (s : switch C) : switch C :=
  mk_switch (dpid s) (n_buffers s) (n_tables s) (capabilities s) (table s) (frames s) (packet_buffer s) (xid_count s) (ports s) (ids s) (dp_out s) x.

(** ** Frames *)

Definition with_next (e : ethernet) (p : payload) : ethernet := mk_ethernet (e_parsed e) (e_dst e) (e_src e) (e_type e) p.
Definition with_type (e : ethernet) (t : Z) : ethernet := mk_ethernet (e_parsed e) (e_dst e) (e_src e) t (e_next e).
Definition with_src (e : ethernet) (a : hwaddr) : ethernet := mk_ethernet (e_parsed e) (e_dst e) a (e_type e) (e_next e).
Definition with_dst (e : ethernet) (a : hwaddr) : ethernet := mk_ethernet (e_parsed e) a (e_src e) (e_type e) (e_next e).

Definition is_vlan (p : payload) : bool := match p with PHdr _ (HVlan _) _ => true | _ => false end.

(** A tag put on an untagged frame; the payload becomes the tag's [prev] and is
    not packed any more. *)
Definition tag_frame (e : ethernet) : ethernet :=
  if is_vlan (e_next e) then e
  else with_type (with_next e (PHdr false (HVlan (mk_vlan 0 0 None 0 (e_type e))) PNone)) 0x8100.
Definition strip_tag (e : ethernet) : ethernet :=
  match e_next e with PHdr _ (HVlan v) next => with_next (with_type e (v_eth_type v)) next | _ => e end.

Definition set_tos (e : ethernet) (tos : Z) : ethernet :=
  match e_next e with
  | PHdr f (HIpv4 h) next =>
      with_next e (PHdr f (HIpv4 (mk_ipv4 (i_v h) (i_hl h) tos (i_iplen h) (i_id h) (i_flags h) (i_frag h) (i_ttl h)
        (i_protocol h) (i_csum h) (i_srcip h) (i_dstip h))) next)
  | _ => e
  end.

(** The ports of a transport header directly behind the Ethernet one. *)
Definition is_transport (e : ethernet) : bool :=
  match e_next e with PHdr _ (HUdp _) _ | PHdr _ (HTcp _) _ => true | _ => false end.
Definition set_ports_of (e : ethernet) (src dst : Z -> Z) : ethernet :=
  match e_next e with
  | PHdr f (HUdp h) next => with_next e (PHdr f (HUdp (mk_udp (src (u_srcport h)) (dst (u_dstport h)) (u_len h) (u_csum h))) next)
  | PHdr f (HTcp h) next =>
      with_next e (PHdr f (HTcp (mk_tcp (src (t_srcport h)) (dst (t_dstport h)) (t_seq h) (t_ack h) (t_off h) (t_res h)
        (t_flags h) (t_win h) (t_csum h) (t_urg h) (t_options h))) next)
  | _ => e
  end.

Definition is_mpls (e : ethernet) : bool := match e_next e with PHdr _ (HMpls _) _ => true | _ => false end.
Definition map_mpls (f : mpls -> mpls) (e : ethernet) : ethernet :=
  match e_next e with PHdr b (HMpls h) next => with_next e (PHdr b (HMpls (f h)) next) | _ => e end.

(** ** Reading the attribute of an action *)

Definition attr {A} (o : option A) : result A := need AttributeError o.
Definition attr_port (a : action) : option (option Z) :=
  match a with AOutput a => Some (ao_port a) | AEnqueue a => Some (Some (aq_port a)) | _ => None end.
Definition attr_vlan_pcp (a : action) : option Z := match a with AVlanPcp a => Some (avp_vlan_pcp a) | _ => None end.
Definition attr_dl_addr (a : action) : option hwaddr := match a with ADlAddr a => Some (adl_dl_addr a) | _ => None end.
Definition attr_nw_addr (a : action) : option IPAddr := match a with ANwAddr a => Some (anw_nw_addr a) | _ => None end.
Definition attr_nw_tos (a : action) : option Z := match a with ANwTos a => Some (ant_nw_tos a) | _ => None end.
Definition attr_tp_port (a : action) : option Z := match a with ATpPort a => Some (atp_tp_port a) | _ => None end.
Definition attr_ethertype (a : action) : option Z :=
  match a with APushMpls a => Some (apm_ethertype a) | APopMpls a => Some (app_ethertype a) | _ => None end.
Definition attr_mpls_label (a : action) : option Z := match a with AMplsLabel a => Some (aml_mpls_label a) | _ => None end.
Definition attr_mpls_tc (a : action) : option Z := match a with AMplsTc a => Some (amt_mpls_tc a) | _ => None end.
Definition attr_mpls_ttl (a : action) : option Z := match a with AMplsTtl a => Some (amx_mpls_ttl a) | _ => None end.

(** [l[i]] and where it is: a negative index counts from the end. *)
Definition py_index {A} (l : list A) (i : Z) : result nat :=
  let j := if i <? 0 then i + blen l else i in
  if (0 <=? j) && (j <? blen l) then mret (Z.to_nat j) else Err IndexError.

(** The first free slot. *)
Fixpoint first_free {A} (l : list (option A)) : option nat :=
  match l with [] => None | None :: _ => Some 0%nat | Some _ :: l => S <$> first_free l end.

Section switch.
Context (randint : nat -> Z) (app_parse : app_class -> bytes -> P payload).
Context (items : gmap Z ofp_phy_port -> list (Z * ofp_phy_port)).
Context {C : Type} `{Channel C}.

Abbreviation SW := (M (switch C)).

(** ** Frames and messages *)

Definition frame (r : nat) : SW ethernet := fs ← get frames; mret (default new_ethernet (fs !! r)).
Definition set_frame (r : nat) (e : ethernet) : SW unit := modify (fun s => set_frames (<[r := e]> (frames s)) s).
Definition new_frame (e : ethernet) : SW nat :=
  fs ← get frames; _ ← modify (set_frames (fs ++ [e])); mret (length fs).
(** [packet.pack()]. *)
Definition pack_frame (r : nat) : SW bytes :=
  e ← frame r; '(b, e) ← lift (pack_ethernet e); _ ← set_frame r e; mret b.
Definition on_ids {A} (m : P A) : SW A := fun s => let '(r, g) := m (ids s) in (r, set_ids g s).

Definition send (m : message) : SW unit := modify (fun s => set_channel (channel_send m (channel s)) s).
(** [self.xid_count.next()]. *)
Definition next_xid : SW Z :=
  x ← get xid_count; _ ← modify (set_xid_count ((x + 1) mod (MAX_XID + 1))); mret x.
Definition header_for (t : Z) (x : option Z) : ofp_header := mk_header OFP_VERSION t 8 x.

Definition send_packet_in (in_port : Z) (buffer_id : option Z) (r : nat) (xid : option Z) (reason : option Z) : SW unit :=
  let reason := default OFPR_NO_MATCH reason in
  let buffer_id := default 0xffffffff buffer_id in
  xid ← match xid with Some x => mret x | None => next_xid end;
  data ← pack_frame r;
  send (MPacketIn (mk_ofp_packet_in (header_for OFPT_PACKET_IN (Some xid)) in_port buffer_id reason data 0)).
Definition send_hello : SW unit := send (MHello new_hello).
Definition send_echo : SW unit := send (MEchoRequest new_echo_request).
Definition send_port_status (port : ofp_phy_port) (reason : Z) : SW unit :=
  _ ← lift (guard_ok ((0 <=? reason) && (reason <=? 2)) AssertionError);
  send (MPortStatus (mk_ofp_port_status (with_length (new_header OFPT_PORT_STATUS) 64) reason port)).

(** ** Output *)

(** [_buffer_packet]. *)
Definition buffer_packet (r : nat) (in_port : Z) : SW Z :=
  buf ← get packet_buffer;
  match first_free buf with
  | Some i => _ ← modify (set_buffer (<[i := Some (r, in_port)]> buf)); mret (Z.of_nat i + 1)
  | None => _ ← modify (set_buffer (buf ++ [Some (r, in_port)])); mret (blen buf + 1)
  end.

(** [real_send]: without a number the message of the exception cannot be
    formatted. *)
Definition real_send (r : nat) (port_no : option Z) : SW unit :=
  port_no ← lift (need TypeError port_no);
  ps ← get ports;
  port ← lift (need RuntimeError (ps !! port_no));
  e ← frame r;
  modify (fun s => set_dp_out (dp_out s ++ [(e, port)]) s).

(** [_output_packet]; Python orders [None] before the numbers, and a string
    cannot be raised. *)
Definition output_packet (r : nat) (out_port : option Z) (in_port : Z) : SW unit :=
  match out_port with
  | None => real_send r None
  | Some out_port =>
      if out_port <? OFPP_MAX then real_send r (Some out_port)
      else if out_port =? OFPP_IN_PORT then real_send r (Some in_port)
      else if (out_port =? OFPP_FLOOD) || (out_port =? OFPP_ALL) then
        ps ← get ports;
        for_each (items ps) (fun np => if np.1 =? in_port then mret tt else real_send r (Some (pp_port_no np.2)))
      else if out_port =? OFPP_CONTROLLER then
        buffer_id ← buffer_packet r in_port;
        xid ← next_xid;
        send_packet_in in_port (Some buffer_id) r (Some xid) (Some OFPR_ACTION)
      else lift (Err TypeError)
  end.

(** ** Actions *)

(** [push_mpls_tag]: the payload becomes the label's [prev]. *)
Definition push_mpls_tag (r : nat) (ethertype : result Z) : SW unit :=
  e ← frame r;
  _ ← pack_frame r;
  let label := mk_mpls 0 0 (if is_mpls e then 1 else 0) 0 in
  e ← frame r;
  _ ← set_frame r (with_next e (PHdr false (HMpls label) PNone));
  t ← lift ethertype;
  e ← frame r;
  set_frame r (with_type e t).

(** [pop_mpls_tag]; the type of the frame stays what it was. *)
Definition pop_mpls_tag (r : nat) (a : action) : SW unit :=
  e ← frame r;
  match e_next e with
  | PHdr f (HMpls h) next =>
      raw ← match next with
            | PBytes b => mret b
            | PNone | PMissing => lift (Err AttributeError)
            | PHdr _ _ _ =>
                '(b, _) ← lift (pack_payload None next);
                _ ← set_frame r (with_next e (PHdr f (HMpls h) (PBytes b))); mret b
            end;
      t ← lift (attr (attr_ethertype a));
      next ← match type_parsers t with
             | Some k => on_ids (parse randint app_parse (S (length raw)) k raw)
             | None => mret (PBytes raw)
             end;
      e ← frame r;
      set_frame r (with_next e next)
  | _ => mret tt
  end.

(** The label of a frame that has none is pushed first. *)
Definition set_mpls (r : nat) (f : result (mpls -> mpls)) : SW unit :=
  e ← frame r;
  _ ← (if is_mpls e then mret tt else push_mpls_tag r (mret (apm_ethertype new_action_push_mpls)));
  f ← lift f;
  e ← frame r;
  set_frame r (map_mpls f e).

Definition rewrite_frame (r : nat) (f : ethernet -> result ethernet) : SW unit :=
  e ← frame r; e ← lift (f e); set_frame r e.

(** [handler_map[action.type](action, packet)].  No class of actions has a
    [vlan_id], and the other VLAN and network address actions set attributes of
    the frame that no header has.  An unknown type is a [TypeError], as the
    message is formatted with the builtin [type]; a resubmit action is one of
    them, because its type is compared with its class. *)
Definition apply_action (a : action) (r : nat) (in_port : Z) : SW unit :=
  match action_type a with
  | None => lift (Err TypeError)
  | Some t =>
      if t =? OFPAT_OUTPUT then p ← lift (attr (attr_port a)); output_packet r p in_port
      else if t =? OFPAT_SET_VLAN_VID then
        _ ← rewrite_frame r (fun e => mret (tag_frame e)); lift (Err AttributeError)
      else if t =? OFPAT_SET_VLAN_PCP then
        _ ← rewrite_frame r (fun e => mret (tag_frame e)); _ ← lift (attr (attr_vlan_pcp a)); mret tt
      else if t =? OFPAT_STRIP_VLAN then rewrite_frame r (fun e => mret (strip_tag e))
      else if t =? OFPAT_SET_DL_SRC then rewrite_frame r (fun e => x ← attr (attr_dl_addr a); mret (with_src e x))
      else if t =? OFPAT_SET_DL_DST then rewrite_frame r (fun e => x ← attr (attr_dl_addr a); mret (with_dst e x))
      else if (t =? OFPAT_SET_NW_SRC) || (t =? OFPAT_SET_NW_DST) then
        rewrite_frame r (fun e =>
          match e_next e with PHdr _ (HIpv4 _) _ => _ ← attr (attr_nw_addr a); mret e | _ => mret e end)
      else if t =? OFPAT_SET_NW_TOS then
        rewrite_frame r (fun e =>
          match e_next e with PHdr _ (HIpv4 _) _ => x ← attr (attr_nw_tos a); mret (set_tos e x) | _ => mret e end)
      else if t =? OFPAT_SET_TP_SRC then
        rewrite_frame r (fun e =>
          if is_transport e then x ← attr (attr_tp_port a); mret (set_ports_of e (fun _ => x) id) else mret e)
      else if t =? OFPAT_SET_TP_DST then
        rewrite_frame r (fun e =>
          if is_transport e then x ← attr (attr_tp_port a); mret (set_ports_of e id (fun _ => x)) else mret e)
      else if t =? OFPAT_ENQUEUE then lift (Err AttributeError)
      else if t =? OFPAT_PUSH_MPLS then push_mpls_tag r (attr (attr_ethertype a))
      else if t =? OFPAT_POP_MPLS then pop_mpls_tag r a
      else if t =? OFPAT_SET_MPLS_LABEL then
        set_mpls r (x ← attr (attr_mpls_label a); mret (fun h => mk_mpls x (l_tc h) (l_s h) (l_ttl h)))
      else if t =? OFPAT_SET_MPLS_TC then
        set_mpls r (x ← attr (attr_mpls_tc a); mret (fun h => mk_mpls (l_label h) x (l_s h) (l_ttl h)))
      else if t =? OFPAT_SET_MPLS_TTL then
        set_mpls r (x ← attr (attr_mpls_ttl a); mret (fun h => mk_mpls (l_label h) (l_tc h) (l_s h) x))
      else if t =? OFPAT_DEC_MPLS_TTL then
        rewrite_frame r (fun e => mret (map_mpls (fun h => mk_mpls (l_label h) (l_tc h) (l_s h) (l_ttl h - 1)) e))
      else lift (Err TypeError)
  end.

(** [_process_actions_for_packet], of a frame object. *)
Definition process_actions (l : list action) (r : nat) (in_port : Z) : SW unit :=
  for_each l (fun a => apply_action a r in_port).
(** And of bytes, which are parsed first. *)
Definition process_actions_on_data (l : list action) (data : bytes) (in_port : Z) : SW unit :=
  e ← on_ids (parse_ethernet randint app_parse data);
  r ← new_frame e;
  process_actions l r in_port.

(** [_process_actions_for_packet_from_buffer]; an id that is one too large is
    not noticed by the test. *)
Definition process_actions_from_buffer (l : list action) (buffer_id : Z) : SW unit :=
  let buffer_id := buffer_id - 1 in
  buf ← get packet_buffer;
  if blen buf <? buffer_id then mret tt else
  i ← lift (py_index buf buffer_id);
  match buf !! i with
  | Some (Some (r, in_port)) =>
      _ ← process_actions l r in_port;
      buf ← get packet_buffer;
      i ← lift (py_index buf buffer_id);
      modify (set_buffer (<[i := None]> buf))
  | _ => mret tt
  end.

(** ** Packets that arrive *)

Definition touch (e : TableEntry) (n now : Z) : SW unit :=
  modify (fun s => set_table (mk_switch_table
    ((fun e' => if (te_id e' =? te_id e)%nat then touch_packet e' n now else e') <$> entries (table s))
    (next (table s))) s).

(** [process_packet]: [len(packet)] packs it. *)
Definition process_packet (now : Z) (r : nat) (in_port : Z) : SW unit :=
  e ← frame r;
  t ← get table;
  match entry_for_packet (entries t) e in_port with
  | Some entry =>
      data ← pack_frame r;
      _ ← touch entry (blen data) now;
      process_actions (te_actions entry) r in_port
  | None =>
      buffer_id ← buffer_packet r in_port;
      xid ← next_xid;
      send_packet_in in_port (Some buffer_id) r (Some xid) (Some OFPR_NO_MATCH)
  end.

Definition take_port_down (port : ofp_phy_port) : SW unit :=
  ps ← get ports;
  _ ← lift (guard_ok (bool_decide (is_Some (ps !! pp_port_no port))) RuntimeError);
  _ ← modify (set_ports (delete (pp_port_no port) ps));
  send_port_status port OFPPR_DELETE.
Definition bring_port_up (port : ofp_phy_port) : SW unit :=
  ps ← get ports;
  _ ← lift (guard_ok (bool_decide (ps !! pp_port_no port = None)) RuntimeError);
  _ ← modify (set_ports (<[pp_port_no port := port]> ps));
  send_port_status port OFPPR_ADD.

(** ** Messages from the controller *)

Definition receive_echo (m : ofp_echo) : SW unit :=
  send (MEchoReply (mk_ofp_echo (header_for OFPT_ECHO_REPLY (xid (ec_hdr m))) (ec_body new_echo_reply))).

Definition receive_features_request (m : ofp_features_request) : SW unit :=
  s ← get id;
  c ← lift (get_capabilities (capabilities s));
  let ps := (items (ports s)).*2 in
  let hdr := mk_header OFP_VERSION OFPT_FEATURES_REPLY (32 + 48 * blen ps) (xid (frq_hdr m)) in
  send (MFeaturesReply (mk_ofp_features_reply hdr (dpid s) (n_buffers s) (n_tables s) c (get_actions (capabilities s)) ps)).

Definition receive_flow_mod (now : Z) (m : ofp_flow_mod) : SW unit :=
  t ← get table;
  let '(res, t) := process_flow_mod now m t in
  _ ← modify (set_table t);
  _ ← lift res;
  if 0 <? fm_buffer_id m then process_actions_from_buffer (fm_actions m) (fm_buffer_id m) else mret tt.

Definition receive_packet_out (m : ofp_packet_out) : SW unit :=
  if negb (bool_decide (po_data m = [])) then process_actions_on_data (po_actions m) (po_data m) (po_in_port m)
  else if 0 <? po_buffer_id m then process_actions_from_buffer (po_actions m) (po_buffer_id m)
  else mret tt.

Definition receive_barrier_request (m : ofp_barrier_request) : SW unit :=
  send (MBarrierReply (mk_ofp_barrier_reply (header_for OFPT_BARRIER_REPLY (xid (brq_hdr m))))).
Definition receive_get_config_request (m : ofp_get_config_request) : SW unit :=
  send (MGetConfigReply (mk_ofp_get_config_reply (mk_header OFP_VERSION OFPT_GET_CONFIG_REPLY 12 (xid (gcq_hdr m)))
    0 OFP_DEFAULT_MISS_SEND_LEN)).

(** The description of the switch. *)
Definition desc_stats (dpid : Z) : ofp_desc_stats :=
  mk_ofp_desc_stats (str "BadAssEmulatedPoxSwitch(TM)") (str "your finest emulated asics")
    (str "pox. reliable, fast, stable. Choose 0 (or more?)") (str (pretty dpid))
    (str "high performance emuswitch. Several packets per second have been observed (but not by reliable witnesses)").

(** [_receive_stats_request]: [unpack] does not return the request, the switch
    has no [table_id] and the table no statistics, so only the description is
    ever sent. *)
Definition receive_stats_request (m : ofp_stats_request) : SW unit :=
  t ← lift (need TypeError (srq_type m));
  if t =? 0 then
    d ← get dpid;
    send (MStatsReply (mk_ofp_stats_reply (header_for OFPT_STATS_REPLY (xid (srq_hdr m))) 0 0 (SOne (SDesc (desc_stats d)))))
  else
    let body := match srq_body m with RBytes b => Ok b | _ => Err TypeError end in
    _ ← lift (if t =? 1 then b ← body; _ ← flow_stats_request_unpack new_flow_stats_request b; mret tt
              else if t =? 2 then b ← body; _ ← aggregate_stats_request_unpack new_aggregate_stats_request b; mret tt
              else if t =? 4 then b ← body; _ ← port_stats_request_unpack new_port_stats_request b; mret tt
              else mret tt);
    lift (Err AttributeError).

(** [SwitchImpl._receive_vendor]. *)
Definition receive_vendor (m : ofp_vendor) : SW unit :=
  send (MError (mk_ofp_error (er_hdr new_error) OFPET_BAD_REQUEST OFPBRC_BAD_VENDOR [])).

(** [ofp_handlers]; [vendor] is the method the class has for vendor messages. *)
Definition receive (vendor : ofp_vendor -> SW unit) (now : Z) (m : message) : SW unit :=
  match m with
  | MHello _ => send_hello
  | MEchoRequest m => receive_echo m
  | MFeaturesRequest m => receive_features_request m
  | MFlowMod m => receive_flow_mod now m
  | MPacketOut m => receive_packet_out m
  | MBarrierRequest m => receive_barrier_request m
  | MGetConfigRequest m => receive_get_config_request m
  | MSetConfig _ => mret tt
  | MStatsRequest m => receive_stats_request m
  | MVendor m => vendor m
  | MEchoReply _ => mret tt
  | _ => lift (Err RuntimeError)
  end.
End switch.

(** ** A new switch *)

(** ["%2x"]. *)
Definition fmt_2x (z : Z) : bytes := if z <? 16 then x20 :: py_hex z else py_hex z.

(** [_default_port_list]. *)
Definition default_port (prefix i : Z) : result ofp_phy_port :=
  a ← EthAddr_init (EStr (str "00:00:00:00:" ++ fmt_2x (prefix mod 255) ++ str ":" ++ fmt_2x i));
  mret (mk_ofp_phy_port i (HwEth a) [] 0 0 0 0 0 0).
Definition default_port_list (num_ports prefix : Z) : result (list ofp_phy_port) :=
  mapR (default_port prefix) ((fun n => Z.of_nat n) <$> seq 1 (Z.to_nat num_ports)).

(** [SwitchImpl.__init__], with a list of ports. *)
Definition new_switch {C} (dpid : Z) (caps : SwitchCapabilities) (ps : list ofp_phy_port) (g : gen) (c : C) : switch C :=
  mk_switch dpid 100 1 caps empty_table [] [] 1 (foldl (fun m p => <[pp_port_no p := p]> m) ∅ ps) g [] c.

(** The plain switch has at most one connection; without one a message is
    dropped. *)
Record plain_channel := mk_plain { connected : bool; sent : list message }.
#[global] Instance plain_send : Channel plain_channel := fun m c =>
  if connected c then mk_plain true (sent c ++ [m]) else c.

(** ** The invariant *)

(** Buffered packets exist, ports are filed under their numbers, and the table
    is in order. *)
Definition switch_ok {C} (s : switch C) : Prop :=
  Forall (fun x => match x with Some (r, _) => (r < length (frames s))%nat | None => True end) (packet_buffer s) /\
  (forall n p, ports s !! n = Some p -> pp_port_no p = n) /\
  table_ok (table s).

Section invariant.
Context (randint : nat -> Z) (app_parse : app_class -> bytes -> P payload).
Context (items : gmap Z ofp_phy_port -> list (Z * ofp_phy_port)).
Context {C : Type} `{Channel C}.

Abbreviation SW := (M (switch C)).
Abbreviation keeps_ok := (preserves (switch_ok (C:=C))).

(** The reference [r] stays valid as well. *)
Definition with_frame (r : nat) (s : switch C) : Prop := switch_ok s /\ (r < length (frames s))%nat.

Lemma frame_keeps r I : preserves I (frame r : SW ethernet).
Proof. unfold frame. keep. Qed.
#[local] Hint Resolve frame_keeps : keeps.

Lemma set_frame_ok r r' e : preserves (with_frame r) (set_frame r' e : SW unit).
Proof.
  apply preserves_modify. intros s [(H1 & H2 & H3) Hr]. unfold with_frame, switch_ok. cbn. rewrite length_insert. done.
Qed.
#[local] Hint Resolve set_frame_ok : keeps.
Lemma pack_frame_ok r r' : preserves (with_frame r) (pack_frame r' : SW bytes).
Proof. unfold pack_frame. keep. Qed.
Lemma on_ids_ok {A} r (m : P A) : preserves (with_frame r) (on_ids m : SW A).
Proof. intros s Hs. unfold on_ids. by destruct (m (ids s)). Qed.
Lemma send_keeps_ok r m : preserves (with_frame r) (send m : SW unit).
Proof. by apply preserves_modify. Qed.
Lemma next_xid_ok r : preserves (with_frame r) (next_xid : SW Z).
Proof. unfold next_xid. keep. by apply preserves_modify. Qed.
#[local] Hint Resolve pack_frame_ok on_ids_ok send_keeps_ok next_xid_ok : keeps.

Lemma send_packet_in_ok r p b r' x y : preserves (with_frame r) (send_packet_in p b r' x y : SW unit).
Proof. unfold send_packet_in. keep. Qed.
Lemma real_send_ok r r' p : preserves (with_frame r) (real_send r' p : SW unit).
Proof. unfold real_send. keep. by apply preserves_modify. Qed.
#[local] Hint Resolve send_packet_in_ok real_send_ok : keeps.

Lemma buffer_packet_ok r p : preserves (with_frame r) (buffer_packet r p : SW Z).
Proof.
  intros s [(H1 & H2 & H3) Hr]. unfold buffer_packet. rewrite M_bind_unfold. cbn [get].
  destruct (first_free (packet_buffer s)) as [i|]; rewrite M_bind_unfold; cbn [modify mret M_ret snd];
    (split; [split; [|done]|done]); cbn [frames packet_buffer set_buffer].
  - by apply Forall_insert.
  - by apply Forall_app_2; [|apply Forall_singleton].
Qed.
#[local] Hint Resolve buffer_packet_ok : keeps.
Lemma output_packet_ok r p q : preserves (with_frame r) (output_packet items r p q : SW unit).
Proof. unfold output_packet. keep. Qed.
#[local] Hint Resolve output_packet_ok : keeps.

Lemma push_mpls_tag_ok r t : preserves (with_frame r) (push_mpls_tag r t : SW unit).
Proof. unfold push_mpls_tag. keep. Qed.
Lemma pop_mpls_tag_ok r a : preserves (with_frame r) (pop_mpls_tag randint app_parse r a : SW unit).
Proof. unfold pop_mpls_tag. keep. Qed.
#[local] Hint Resolve push_mpls_tag_ok pop_mpls_tag_ok : keeps.
Lemma set_mpls_ok r f : preserves (with_frame r) (set_mpls r f : SW unit).
Proof. unfold set_mpls. keep. Qed.
Lemma rewrite_frame_ok r f : preserves (with_frame r) (rewrite_frame r f : SW unit).
Proof. unfold rewrite_frame. keep. Qed.
#[local] Hint Resolve set_mpls_ok rewrite_frame_ok : keeps.

Lemma apply_action_ok r a p : preserves (with_frame r) (apply_action randint app_parse items a r p : SW unit).
Proof. unfold apply_action. keep. Qed.
Lemma process_actions_ok r l p : preserves (with_frame r) (process_actions randint app_parse items l r p : SW unit).
Proof. unfold process_actions. apply preserves_for_each. intros a. apply apply_action_ok. Qed.

(** Without a frame in hand. *)
Lemma forget_frame {A} r (m : SW A) s : preserves (with_frame r) m -> with_frame r s -> switch_ok (snd (m s)).
Proof. intros Hm Hs. apply (Hm s Hs). Qed.

Lemma py_index_lt {A} (l : list A) i j : py_index l i = Ok j -> (j < length l)%nat.
Proof.
  unfold py_index. destruct (0 <=? _) eqn:E1; [|done]. destruct (_ <? blen l) eqn:E2; [|done].
  intros [= <-]. unfold blen in *. lia.
Qed.

Lemma set_buffer_None_ok r i s :
  with_frame r s -> with_frame r (set_buffer (<[i := None]> (packet_buffer s)) s).
Proof. intros [(H1 & H2) Hr]. split; [split; [|done]|done]. cbn. by apply Forall_insert. Qed.

Lemma process_actions_from_buffer_ok l b : keeps_ok (process_actions_from_buffer randint app_parse items l b).
Proof.
  intros s Hs. unfold process_actions_from_buffer. rewrite M_bind_unfold. cbn [get].
  destruct (_ <? _); [done|]. destruct (py_index _ _) as [i|e]; [|done]. rewrite M_bind_lift_Ok.
  destruct (packet_buffer s !! i) as [[[r p]|]|] eqn:E; [|done..].
  assert (Hr : with_frame r s).
  { split; [done|]. destruct Hs as [Hb _]. rewrite Forall_lookup in Hb. exact (Hb _ _ E). }
  eapply forget_frame; [|exact Hr]. apply preserves_bind; [apply process_actions_ok|]. intros _.
  intros s' Hs'. rewrite M_bind_unfold. cbn [get]. destruct (py_index _ _) as [j|]; [|done].
  rewrite M_bind_lift_Ok. cbn [modify snd]. by apply set_buffer_None_ok.
Qed.

Lemma process_actions_on_data_ok l d p : keeps_ok (process_actions_on_data randint app_parse items l d p).
Proof.
  intros s (H1 & H2 & H3). unfold process_actions_on_data, on_ids. rewrite M_bind_unfold.
  destruct (parse_ethernet _ _ _ _) as [[e|e] g]; [|done]. unfold new_frame. rewrite !M_bind_unfold.
  cbn [get modify mret M_ret]. eapply forget_frame; [apply process_actions_ok|].
  assert (Hlen : (length (frames s) <= length (frames s ++ [e]))%nat) by (rewrite length_app; lia).
  split; [split; [|done]|]; cbn.
  - eapply Forall_impl; [exact H1|]. intros [[r q]|]; lia || done.
  - rewrite length_app. simpl. lia.
Qed.

(** Every event of the switch keeps the invariant. *)
Lemma process_packet_ok now r p : preserves (with_frame r) (process_packet randint app_parse items now r p : SW unit).
Proof.
  unfold process_packet. apply preserves_bind; [apply frame_keeps|]. intros e.
  apply preserves_bind; [auto with keeps|]. intros t. destruct (entry_for_packet _ _ _) as [entry|].
  - apply preserves_bind; [auto with keeps|]. intros b. apply preserves_bind.
    + apply preserves_modify. intros s [(H1 & H2 & H3) Hr]. split; [split; [done|split; [done|]]|done].
      apply table_ok_fmap; [|done]. intros x. by destruct (_ =? _)%nat.
    + intros _. apply process_actions_ok.
  - keep.
Qed.

Lemma receive_flow_mod_ok now m :
  match_typed (fm_match m) -> keeps_ok (receive_flow_mod randint app_parse items now m).
Proof.
  intros Hm s Hs. unfold receive_flow_mod. rewrite M_bind_unfold. cbn [get].
  destruct (process_flow_mod now m (table s)) as [res t] eqn:E. rewrite M_bind_unfold. cbn [modify].
  assert (Hs' : switch_ok (set_table t s)).
  { destruct Hs as (H1 & H2 & H3). split; [done|]. split; [done|].
    pose proof (flow_mod_table_ok now m (table s) Hm H3) as Ht. by rewrite E in Ht. }
  destruct res as [x|e]; [rewrite M_bind_lift_Ok|done].
  destruct (_ <? _); [by apply process_actions_from_buffer_ok|done].
Qed.
End invariant.

(** ** What the switch does to its channel: it sends *)

Section channel_invariant.
Context (randint : nat -> Z) (app_parse : app_class -> bytes -> P payload).
Context (items : gmap Z ofp_phy_port -> list (Z * ofp_phy_port)).
Context {C : Type} `{Channel C} (J : C -> Prop) (Hsend : forall m c, J c -> J (channel_send m c)).

Abbreviation SW := (M (switch C)).
Definition on_chan (s : switch C) : Prop := J (channel s).

Lemma chan_modify (f : switch C -> switch C) : (forall s, channel (f s) = channel s) -> preserves on_chan (modify f).
Proof. intros Hf. apply preserves_modify. unfold on_chan. intros s. by rewrite Hf. Qed.
Ltac chan := keep; try (by apply chan_modify).

Lemma chan_frame r : preserves on_chan (frame r : SW ethernet).
Proof. unfold frame. chan. Qed.
Lemma chan_set_frame r e : preserves on_chan (set_frame r e : SW unit).
Proof. unfold set_frame. chan. Qed.
Lemma chan_send m : preserves on_chan (send m : SW unit).
Proof. apply preserves_modify. intros s Hs. by apply Hsend. Qed.
Lemma chan_on_ids {A} (m : P A) : preserves on_chan (on_ids m : SW A).
Proof. intros s Hs. unfold on_ids. by destruct (m (ids s)). Qed.
Lemma chan_next_xid : preserves on_chan (next_xid : SW Z).
Proof. unfold next_xid. chan. Qed.
#[local] Hint Resolve chan_frame chan_set_frame chan_send chan_on_ids chan_next_xid : keeps.
Lemma chan_pack_frame r : preserves on_chan (pack_frame r : SW bytes).
Proof. unfold pack_frame. chan. Qed.
#[local] Hint Resolve chan_pack_frame : keeps.
Lemma chan_send_packet_in p b r x y : preserves on_chan (send_packet_in p b r x y : SW unit).
Proof. unfold send_packet_in. chan. Qed.
Lemma chan_buffer_packet r p : preserves on_chan (buffer_packet r p : SW Z).
Proof. unfold buffer_packet. chan. Qed.
Lemma chan_real_send r p : preserves on_chan (real_send r p : SW unit).
Proof. unfold real_send. chan. Qed.
#[local] Hint Resolve chan_send_packet_in chan_buffer_packet chan_real_send : keeps.
Lemma chan_output_packet r p q : preserves on_chan (output_packet items r p q : SW unit).
Proof. unfold output_packet. chan. Qed.
Lemma chan_push_mpls_tag r t : preserves on_chan (push_mpls_tag r t : SW unit).
Proof. unfold push_mpls_tag. chan. Qed.
Lemma chan_pop_mpls_tag r a : preserves on_chan (pop_mpls_tag randint app_parse r a : SW unit).
Proof. unfold pop_mpls_tag. chan. Qed.
Lemma chan_rewrite_frame r f : preserves on_chan (rewrite_frame r f : SW unit).
Proof. unfold rewrite_frame. chan. Qed.
#[local] Hint Resolve chan_output_packet chan_push_mpls_tag chan_pop_mpls_tag chan_rewrite_frame : keeps.
Lemma chan_set_mpls r f : preserves on_chan (set_mpls r f : SW unit).
Proof. unfold set_mpls. chan. Qed.
#[local] Hint Resolve chan_set_mpls : keeps.
Lemma chan_process_actions l r p : preserves on_chan (process_actions randint app_parse items l r p : SW unit).
Proof. unfold process_actions, apply_action. chan. Qed.
#[local] Hint Resolve chan_process_actions : keeps.
Lemma chan_from_buffer l b : preserves on_chan (process_actions_from_buffer randint app_parse items l b : SW unit).
Proof. unfold process_actions_from_buffer. chan. Qed.
Lemma chan_on_data l d p : preserves on_chan (process_actions_on_data randint app_parse items l d p : SW unit).
Proof. unfold process_actions_on_data, new_frame. chan. Qed.
#[local] Hint Resolve chan_from_buffer chan_on_data : keeps.

Lemma chan_process_packet now r p : preserves on_chan (process_packet randint app_parse items now r p : SW unit).
Proof. unfold process_packet, touch. chan. Qed.
Lemma chan_new_frame e : preserves on_chan (new_frame e : SW nat).
Proof. unfold new_frame. chan. Qed.
Lemma chan_receive vendor now m :
  (forall v, preserves on_chan (vendor v : SW unit)) -> preserves on_chan (receive randint app_parse items vendor now m).
Proof.
  intros Hv. destruct m; cbn [receive]; unfold send_hello, receive_echo, receive_features_request, receive_packet_out,
    receive_flow_mod, receive_barrier_request, receive_get_config_request, receive_stats_request; chan.
Qed.
End channel_invariant.

(** ** What the operations do *)

Definition free_slot {A} (buf : list (option A)) : nat := default (length buf) (first_free buf).
Definition put_slot {A} (buf : list (option A)) (x : A) : list (option A) :=
  match first_free buf with Some i => <[i := Some x]> buf | None => buf ++ [Some x] end.

Lemma first_free_Some {A} (l : list (option A)) i : first_free l = Some i -> l !! i = Some None.
Proof.
  revert i. induction l as [|[x|] l IH]; intros i; cbn; [done| |by intros [= <-]].
  destruct (first_free l); intros [= <-]. by apply IH.
Qed.

(** A slot is taken that holds nothing, and the others stay. *)
Lemma put_slot_lookup {A} (buf : list (option A)) x j :
  put_slot buf x !! j = if decide (j = free_slot buf) then Some (Some x) else buf !! j.
Proof.
  unfold put_slot, free_slot. destruct (first_free buf) as [i|] eqn:E; cbn [default from_option id].
  - pose proof (lookup_lt_Some _ _ _ (first_free_Some _ _ E)) as Hi.
    destruct (decide (j = i)) as [->|]; [by apply list_lookup_insert_eq|by apply list_lookup_insert_ne].
  - destruct (decide (j = length buf)) as [->|Hj]; [by rewrite list_lookup_middle|].
    destruct (decide (j < length buf)%nat); [by rewrite lookup_app_l|].
    rewrite !lookup_ge_None_2; [done|lia|rewrite length_app; simpl; lia].
Qed.
Lemma free_slot_free {A} (buf : list (option A)) x : buf !! free_slot buf <> Some (Some x).
Proof.
  unfold free_slot. destruct (first_free buf) as [i|] eqn:E; cbn [default from_option id].
  - by rewrite (first_free_Some _ _ E).
  - by rewrite lookup_ge_None_2.
Qed.
Lemma free_slot_le {A} (buf : list (option A)) : (free_slot buf <= length buf)%nat.
Proof.
  unfold free_slot. destruct (first_free buf) as [i|] eqn:E; cbn; [|lia].
  pose proof (lookup_lt_Some _ _ _ (first_free_Some _ _ E)). lia.
Qed.

Lemma py_index_nat {A} (l : list A) i : (i < length l)%nat -> py_index l (Z.of_nat i) = Ok i.
Proof.
  intros Hi. unfold py_index, blen. rewrite (proj2 (Z.ltb_ge _ _)) by lia.
  rewrite (proj2 (Z.leb_le _ _)), (proj2 (Z.ltb_lt _ _)) by lia. cbn. by rewrite Nat2Z.id.
Qed.

(** The actions that only rewrite the frame, and the plain output action. *)
Definition rewrite_of (a : action) : option (ethernet -> ethernet) :=
  match a with
  | ADlAddr a =>
      if decide (adl_type a = Some OFPAT_SET_DL_SRC) then Some (fun e => with_src e (adl_dl_addr a))
      else if decide (adl_type a = Some OFPAT_SET_DL_DST) then Some (fun e => with_dst e (adl_dl_addr a)) else None
  | ANwTos a => if decide (ant_type a = OFPAT_SET_NW_TOS) then Some (fun e => set_tos e (ant_nw_tos a)) else None
  | ANwAddr a =>
      if decide (anw_type a = Some OFPAT_SET_NW_SRC \/ anw_type a = Some OFPAT_SET_NW_DST) then Some id else None
  | AVlanPcp a => if decide (avp_type a = OFPAT_SET_VLAN_PCP) then Some tag_frame else None
  | AHeader a => if decide (ah_type a = Some OFPAT_STRIP_VLAN) then Some strip_tag else None
  | AMplsDecTtl a =>
      if decide (ah_type a = Some OFPAT_DEC_MPLS_TTL)
      then Some (map_mpls (fun h => mk_mpls (l_label h) (l_tc h) (l_s h) (l_ttl h - 1))) else None
  | _ => None
  end.
Definition output_of (ports : gmap Z ofp_phy_port) (a : action) : option ofp_phy_port :=
  match a with
  | AOutput a =>
      if decide (ao_type a = OFPAT_OUTPUT) then
        p ← ao_port a; if p <? OFPP_MAX then ports !! p else None
      else None
  | _ => None
  end.

(** What a list of such actions does to a frame: the frame left, and what goes
    out where. *)
Fixpoint forward (ports : gmap Z ofp_phy_port) (l : list action) (e : ethernet)
  : option (ethernet * list (ethernet * ofp_phy_port)) :=
  match l with
  | [] => Some (e, [])
  | a :: l =>
      match rewrite_of a with
      | Some f => forward ports l (f e)
      | None =>
          match output_of ports a with
          | Some p => '(e', out) ← forward ports l e; Some (e', (e, p) :: out)
          | None => None
          end
      end
  end.

Section effects.
Context (randint : nat -> Z) (app_parse : app_class -> bytes -> P payload).
Context (items : gmap Z ofp_phy_port -> list (Z * ofp_phy_port)).
Context {C : Type} `{Channel C}.

Abbreviation SW := (M (switch C)).
Abbreviation frame_of s r := (default new_ethernet (frames s !! r)).

Lemma frame_run r (s : switch C) : frame r s = (Ok (frame_of s r), s).
Proof. done. Qed.
Lemma next_xid_run (s : switch C) : next_xid s = (Ok (xid_count s), set_xid_count ((xid_count s + 1) mod (MAX_XID + 1)) s).
Proof. done. Qed.

Lemma rewrite_frame_run r f (s : switch C) e :
  f (frame_of s r) = Ok e -> rewrite_frame r f s = (Ok tt, set_frames (<[r := e]> (frames s)) s).
Proof. intros E. unfold rewrite_frame, frame. rewrite !M_bind_unfold. cbn [get mret M_ret]. by rewrite E. Qed.

Lemma rewrite_of_run a f r p (s : switch C) :
  rewrite_of a = Some f ->
  apply_action randint app_parse items a r p s = (Ok tt, set_frames (<[r := f (frame_of s r)]> (frames s)) s).
Proof.
  unfold rewrite_of, apply_action. destruct a; try done; repeat case_decide; destruct_or?; intros [= <-]; cbn [action_type].
  all: repeat match goal with E : _ = _ |- _ => rewrite E end; cbn.
  all: try (by apply rewrite_frame_run).
  - rewrite M_bind_unfold, (rewrite_frame_run r _ s (tag_frame (frame_of s r))); done.
  - apply rewrite_frame_run. unfold set_tos, frame. by destruct (e_next _) as [| | |b [] next].
  - apply rewrite_frame_run. unfold id. by destruct (e_next _) as [| | |b [] next].
  - apply rewrite_frame_run. unfold id. by destruct (e_next _) as [| | |b [] next].
Qed.

Lemma real_send_run r n port (s : switch C) :
  ports s !! n = Some port -> real_send r (Some n) s = (Ok tt, set_dp_out (dp_out s ++ [(frame_of s r, port)]) s).
Proof. intros E. unfold real_send, frame. cbn [need]. rewrite M_bind_lift_Ok, M_bind_unfold. cbn [get]. by rewrite E. Qed.

Lemma output_of_run a r p port (s : switch C) :
  output_of (ports s) a = Some port ->
  apply_action randint app_parse items a r p s = (Ok tt, set_dp_out (dp_out s ++ [(frame_of s r, port)]) s).
Proof.
  unfold output_of, apply_action. destruct a as [|a| | | | | | | | | | | | | | |]; try done. case_decide as E; [|done].
  destruct (ao_port a) as [q|] eqn:Eq; [|done]. cbn [mbind option_bind]. destruct (q <? OFPP_MAX) eqn:Elt; [|done].
  intros Ep. cbn [action_type attr attr_port need]. rewrite E, Eq. cbn [Z.eqb OFPAT_OUTPUT]. rewrite M_bind_lift_Ok.
  unfold output_packet. rewrite Elt. by apply real_send_run.
Qed.

Lemma forward_run l r p e out (s : switch C) :
  (r < length (frames s))%nat -> forward (ports s) l (frame_of s r) = Some (e, out) ->
  process_actions randint app_parse items l r p s
  = (Ok tt, set_dp_out (dp_out s ++ out) (set_frames (<[r := e]> (frames s)) s)).
Proof.
  unfold process_actions. revert s out. induction l as [|a l IH]; intros s out Hr; cbn [forward for_each].
  - intros [= <- <-]. rewrite app_nil_r. destruct (lookup_lt_is_Some_2 _ _ Hr) as [x Hx]. rewrite Hx. cbn [default from_option id].
    rewrite list_insert_id by done. by destruct s.
  - rewrite M_bind_unfold. destruct (rewrite_of a) as [f|] eqn:Ef.
    + rewrite (rewrite_of_run a f) by done. intros E. rewrite (IH _ out).
      * cbn [frames set_frames dp_out]. by rewrite list_insert_insert_eq.
      * cbn. by rewrite length_insert.
      * cbn [frames set_frames ports]. rewrite list_lookup_insert_eq by done. exact E.
    + destruct (output_of (ports s) a) as [port|] eqn:Eo; [|done]. rewrite (output_of_run a r p port) by done.
      destruct (forward (ports s) l (frame_of s r)) as [[e' out']|] eqn:E; [|done]. cbn [mbind option_bind].
      intros [= -> <-]. rewrite (IH _ out') by done. cbn [frames set_dp_out dp_out set_frames]. by rewrite <-app_assoc.
Qed.

Lemma pack_frame_run r (s : switch C) b e :
  pack_ethernet (frame_of s r) = Ok (b, e) -> pack_frame r s = (Ok b, set_frames (<[r := e]> (frames s)) s).
Proof. intros E. unfold pack_frame, frame. rewrite !M_bind_unfold. cbn [get mret M_ret]. by rewrite E. Qed.

Lemma buffer_packet_run r p (s : switch C) :
  buffer_packet r p s = (Ok (Z.of_nat (free_slot (packet_buffer s)) + 1), set_buffer (put_slot (packet_buffer s) (r, p)) s).
Proof.
  unfold buffer_packet, free_slot, put_slot, blen. rewrite M_bind_unfold. cbn [get].
  by destruct (first_free (packet_buffer s)).
Qed.

(** The message that takes a frame to the controller. *)
Definition packet_in_of (s : switch C) (p reason : Z) (data : bytes) : ofp_packet_in :=
  mk_ofp_packet_in (header_for OFPT_PACKET_IN (Some (xid_count s))) p (Z.of_nat (free_slot (packet_buffer s)) + 1)
    reason data 0.
(** The state after a frame has been buffered and sent to the controller. *)
Definition buffered (s : switch C) (r : nat) (p reason : Z) (data : bytes) (e : ethernet) : switch C :=
  set_channel (channel_send (MPacketIn (packet_in_of s p reason data)) (channel s))
    (set_frames (<[r := e]> (frames s))
      (set_xid_count ((xid_count s + 1) mod (MAX_XID + 1)) (set_buffer (put_slot (packet_buffer s) (r, p)) s))).

Lemma miss_run now r p (s : switch C) b e :
  entry_for_packet (entries (table s)) (frame_of s r) p = None -> pack_ethernet (frame_of s r) = Ok (b, e) ->
  process_packet randint app_parse items now r p s = (Ok tt, buffered s r p OFPR_NO_MATCH b e).
Proof.
  intros Em Ep. unfold process_packet. rewrite M_bind_unfold, frame_run, M_bind_unfold. cbn [get].
  rewrite Em, M_bind_unfold, buffer_packet_run, M_bind_unfold, next_xid_run. unfold send_packet_in.
  rewrite M_bind_unfold. cbn [mret M_ret]. by rewrite M_bind_unfold, (pack_frame_run r _ b e).
Qed.

Lemma hit_run now r p (s : switch C) entry b e e' out :
  (r < length (frames s))%nat -> entry_for_packet (entries (table s)) (frame_of s r) p = Some entry ->
  pack_ethernet (frame_of s r) = Ok (b, e) -> forward (ports s) (te_actions entry) e = Some (e', out) ->
  exists t, entries t = (fun x => if (te_id x =? te_id entry)%nat then touch_packet x (blen b) now else x) <$> entries (table s) /\
    process_packet randint app_parse items now r p s
    = (Ok tt, set_dp_out (dp_out s ++ out) (set_frames (<[r := e']> (frames s)) (set_table t s))).
Proof.
  intros Hr Em Ep Ef. eexists (mk_switch_table _ (next (table s))). split; [reflexivity|].
  unfold process_packet. rewrite M_bind_unfold, frame_run, M_bind_unfold. cbn [get].
  rewrite Em, M_bind_unfold, (pack_frame_run r s b e Ep), M_bind_unfold. unfold touch. cbn [modify].
  rewrite (forward_run _ r p e' out).
  - cbn [frames set_frames set_table dp_out]. by rewrite list_insert_insert_eq.
  - cbn. by rewrite length_insert.
  - cbn [frames set_frames set_table ports]. by rewrite list_lookup_insert_eq.
Qed.

(** Releasing a buffered frame. *)
Lemma release_run l i r p (s : switch C) e out :
  packet_buffer s !! i = Some (Some (r, p)) -> (r < length (frames s))%nat ->
  forward (ports s) l (frame_of s r) = Some (e, out) ->
  process_actions_from_buffer randint app_parse items l (Z.of_nat i + 1) s
  = (Ok tt, set_buffer (<[i := None]> (packet_buffer s)) (set_dp_out (dp_out s ++ out) (set_frames (<[r := e]> (frames s)) s))).
Proof.
  intros Ei Hr Ef. pose proof (lookup_lt_Some _ _ _ Ei) as Hi. unfold process_actions_from_buffer.
  rewrite M_bind_unfold. cbn [get]. replace (Z.of_nat i + 1 - 1) with (Z.of_nat i) by lia.
  rewrite (proj2 (Z.ltb_ge _ _)) by (unfold blen; lia). rewrite py_index_nat, M_bind_lift_Ok, Ei by done.
  rewrite M_bind_unfold, (forward_run l r p e out), M_bind_unfold by done. cbn [get packet_buffer set_dp_out set_frames].
  rewrite py_index_nat, M_bind_lift_Ok by done. done.
Qed.

(** Every port but one gets the frame, once. *)
Lemma flood_run r p (s : switch C) :
  (forall n q, ports s !! n = Some q -> pp_port_no q = n) -> items (ports s) ≡ₚ map_to_list (ports s) ->
  output_packet items r (Some OFPP_FLOOD) p s
  = (Ok tt, set_dp_out (dp_out s ++ ((fun np => (frame_of s r, np.2)) <$> filter (fun np => np.1 <> p) (items (ports s)))) s).
Proof.
  intros Hp Hi. unfold output_packet. cbn [Z.ltb Z.compare Pos.compare Pos.compare_cont OFPP_FLOOD OFPP_MAX Z.eqb Pos.eqb orb OFPP_IN_PORT OFPP_ALL].
  change (OFPP_FLOOD <? OFPP_MAX) with false. cbn iota. rewrite M_bind_unfold. cbn [get].
  assert (Hall : forall np, np ∈ items (ports s) -> ports s !! np.1 = Some np.2).
  { intros [n q] Hnp. rewrite Hi in Hnp. by apply elem_of_map_to_list in Hnp. }
  revert Hall. generalize (items (ports s)). clear Hi. intros l Hall.
  assert (Hgen : forall s' : switch C, ports s' = ports s -> frame_of s' r = frame_of s r ->
    for_each l (fun np : Z * ofp_phy_port => if np.1 =? p then mret tt else real_send r (Some (pp_port_no np.2))) s'
    = (Ok tt, set_dp_out (dp_out s' ++ ((fun np => (frame_of s r, np.2)) <$> filter (fun np => np.1 <> p) l)) s')).
  { induction l as [|[n q] l IH]; intros s' Ep Ef; cbn [for_each].
    - cbn. rewrite app_nil_r. by destruct s'.
    - pose proof (Hall (n, q) ltac:(by left)) as Hq. cbn [fst snd] in *. rewrite M_bind_unfold.
      rewrite filter_cons. destruct (Z.eqb_spec n p) as [->|Hn].
      + rewrite decide_False by naive_solver. cbn [mret M_ret]. apply IH; [|done|done]. intros x Hx. apply Hall. by right.
      + rewrite decide_True by done. rewrite (Hp n q Hq). rewrite (real_send_run r n q s') by by rewrite Ep.
        rewrite IH; [|intros x Hx; apply Hall; by right|done|done]. cbn [dp_out set_dp_out fmap list_fmap].
        rewrite Ef, <-app_assoc. done. }
  by apply Hgen.
Qed.
End effects.

(** ** The controller's end of the switch: [ControllerConnection.read]

    Like [Connection.read], with two differences: an incomplete message ends the
    call with [None], and a handler that raises ends it with [False], the
    message consumed and the rest of the buffer left for the next call. *)

Inductive cc_end := CcTrue | CcNone | CcFalse | CcRaise (e : exn).

Section connection.
Context {S : Type} (handle : Z -> message -> M S unit) (clock : nat -> Z).

(** [clock n] is the time when the [n]-th message is handled. *)
Fixpoint controller_read (fuel : nat) (n : nat) (buf : bytes) (s : S) : option (cc_end * bytes * S) :=
  match fuel with
  | O => None
  | Datatypes.S fuel =>
      match buf with
      | b0 :: b1 :: b2 :: b3 :: _ :: _ =>
          if negb (byte_to_Z b0 =? OFP_VERSION) then Some (CcFalse, buf, s)
          else
            let packet_length := Z.lor (Z.shiftl (byte_to_Z b2) 8) (byte_to_Z b3) in
            if blen buf <? packet_length then Some (CcNone, buf, s)
            else
              match message_of_type (byte_to_Z b1) with
              | None => Some (CcRaise IndexError, buf, s)
              | Some m =>
                  match message_unpack m buf with
                  | Err e => Some (CcRaise e, buf, s)
                  | Ok (m, _) =>
                      let buf := pyfrom buf packet_length in
                      match handle (clock n) m s with
                      | (Ok _, s) => controller_read fuel (Datatypes.S n) buf s
                      | (Err _, s) => Some (CcFalse, buf, s)
                      end
                  end
              end
      | _ => Some (CcTrue, buf, s)
      end
  end.

(** The messages handled one after the other. *)
Fixpoint handle_all (n : nat) (ms : list message) : M S unit :=
  match ms with [] => mret tt | m :: ms => _ ← handle (clock n) m; handle_all (Datatypes.S n) ms end.

(** How a read ends when no handler raises. *)
Definition ends_as (buf : bytes) (e : read_end) : cc_end :=
  match e with
  | ReadOk => if blen buf <=? 4 then CcTrue else CcNone
  | ReadClosed => CcFalse
  | ReadRaise e => CcRaise e
  end.

Lemma read_loop_acc fuel buf ms :
  read_loop fuel buf ms = (fun r => (r.1, ms ++ r.2)) <$> read_loop fuel buf [].
Proof.
  revert buf ms. induction fuel as [|fuel IH]; intros buf ms; [done|]. cbn [read_loop].
  destruct buf as [|b0 [|b1 [|b2 [|b3 [|b4 buf]]]]]; try (cbn; by rewrite app_nil_r).
  destruct (negb _); [cbn; by rewrite app_nil_r|]. destruct (_ <? _); [cbn; by rewrite app_nil_r|].
  destruct (message_of_type _) as [m|]; [|cbn; by rewrite app_nil_r].
  destruct (message_unpack _ _) as [[m' r]|]; [|cbn; by rewrite app_nil_r].
  rewrite IH, (IH _ ([] ++ [m'])). destruct (read_loop fuel _ []) as [[[e b] l]|]; [|done].
  cbn. by rewrite <-app_assoc.
Qed.

(** The messages read are handled in order.  If none raises the call ends as
    the plain reading loop does; if one raises, the call ends there, and what is
    left in the buffer reads as the messages behind it. *)
Lemma controller_read_handles fuel n buf s e rest ms :
  read_loop fuel buf [] = Some (e, rest, ms) ->
  (forall s', handle_all n ms s = (Ok tt, s') ->
     controller_read fuel n buf s = Some (ends_as rest e, rest, s')) /\
  (forall ms1 m ms2 s1 x s2, ms = ms1 ++ m :: ms2 -> handle_all n ms1 s = (Ok tt, s1) ->
     handle (clock (n + length ms1)) m s1 = (Err x, s2) ->
     exists buf' fuel', controller_read fuel n buf s = Some (CcFalse, buf', s2) /\
       read_loop fuel' buf' [] = Some (e, rest, ms2)).
Proof.
  revert n buf s ms. induction fuel as [|fuel IH]; intros n buf s ms; [done|]. cbn [read_loop controller_read].
  assert (Hnil : forall b r, Some (e, rest, ms) = Some (r, b, []) ->
    (forall s', handle_all n ms s = (Ok tt, s') -> Some (ends_as b r, b, s) = Some (ends_as rest e, rest, s')) /\
    (forall ms1 m ms2 s1 x s2, ms = ms1 ++ m :: ms2 -> handle_all n ms1 s = (Ok tt, s1) ->
     handle (clock (n + length ms1)) m s1 = (Err x, s2) -> exists buf' fuel',
      Some (ends_as b r, b, s) = Some (CcFalse, buf', s2) /\ read_loop fuel' buf' [] = Some (e, rest, ms2))).
  { intros b r [= -> -> ->]. split; [by intros s' [= ->]|]. intros ms1 m ms2 s1 x s2 Ems. by destruct ms1. }
  destruct buf as [|b0 [|b1 [|b2 [|b3 [|b4 buf]]]]]; try (intros E; symmetry in E; exact (Hnil _ _ E)).
  destruct (negb _); [intros E; symmetry in E; exact (Hnil _ _ E)|].
  destruct (_ <? _) eqn:El.
  { intros E. symmetry in E. pose proof (Hnil _ _ E) as Hn. unfold ends_as in Hn at 1 3.
    assert ((blen (b0 :: b1 :: b2 :: b3 :: b4 :: buf) <=? 4) = false) as Hl.
    { rewrite !blen_cons. pose proof (blen_nonneg buf). lia. }
    by rewrite Hl in Hn. }
  destruct (message_of_type _) as [m0|]; [|intros E; symmetry in E; exact (Hnil _ _ E)].
  destruct (message_unpack _ _) as [[m r]|x]; [|intros E; symmetry in E; exact (Hnil _ _ E)].
  cbn [app]. rewrite read_loop_acc. set (buf' := pyfrom _ _).
  destruct (read_loop fuel buf' []) as [[[e' b'] l]|] eqn:Er; [|done]. cbn. intros [= -> -> <-]. split.
  - intros s' Hs. cbn [handle_all] in Hs. rewrite M_bind_unfold in Hs.
    destruct (handle (clock n) m s) as [[[]|x] s1]; [|done].
    by apply (proj1 (IH (Datatypes.S n) buf' s1 l Er)).
  - intros [|m1 ms1] mx ms2 s1 x s2 Ems H1 H2.
    + injection Ems as <- <-. injection H1 as <-. rewrite Nat.add_0_r in H2. rewrite H2. by exists buf', fuel.
    + injection Ems as <- ->. cbn [handle_all] in H1. rewrite M_bind_unfold in H1.
      destruct (handle (clock n) m s) as [[[]|y] s3]; [|done].
      apply (proj2 (IH (Datatypes.S n) buf' s3 _ Er) ms1 mx ms2 s1 x s2); [done|done|].
      cbn [length] in H2. by replace (Datatypes.S n + length ms1)%nat with (n + Datatypes.S (length ms1))%nat by lia.
Qed.
End connection.

(** ** Properties *)

Section properties.
Context (randint : nat -> Z) (app_parse : app_class -> bytes -> P payload).
Context (items : gmap Z ofp_phy_port -> list (Z * ofp_phy_port)).
Context {C : Type} `{Channel C}.

(** What happens to a switch: a frame arrives, a message is handled, a port
    goes down or up. *)
Inductive switch_event :=
  | EvFrame (e : ethernet) (in_port : Z)
  | EvMessage (m : message)
  | EvPortDown (p : ofp_phy_port)
  | EvPortUp (p : ofp_phy_port).

Definition on_event (now : Z) (ev : switch_event) : M (switch C) unit :=
  match ev with
  | EvFrame e p => r ← new_frame e; process_packet randint app_parse items now r p
  | EvMessage m => receive randint app_parse items receive_vendor now m
  | EvPortDown p => take_port_down p
  | EvPortUp p => bring_port_up p
  end.

Definition event_typed (ev : switch_event) : Prop :=
  match ev with EvMessage (MFlowMod m) => match_typed (fm_match m) | _ => True end.

(** The states a switch can be in. *)
Inductive reachable : switch C -> Prop :=
  | reach_new dpid caps ps g c : reachable (new_switch dpid caps ps g c)
  | reach_step now ev s : reachable s -> event_typed ev -> reachable (snd (on_event now ev s)).

Lemma new_switch_ok dpid caps ps g (c : C) : switch_ok (new_switch dpid caps ps g c).
Proof.
  split; [constructor|]. split; [|exact table_ok_empty]. cbn [ports new_switch].
  induction ps as [|p ps IH] using rev_ind; [done|]. rewrite foldl_app. cbn [foldl]. intros n q.
  rewrite lookup_insert. destruct (decide (pp_port_no p = n)) as [<-|]; [by intros [= <-]|apply IH].
Qed.

Lemma send_keeps m : preserves (switch_ok (C:=C)) (send m).
Proof. by apply preserves_modify. Qed.

Lemma on_event_ok now ev : event_typed ev -> preserves (switch_ok (C:=C)) (on_event now ev).
Proof.
  intros Ht. pose proof send_keeps as Hsend. destruct ev as [e p|m|p|p]; cbn [on_event].
  - intros s (H1 & H2 & H3). unfold new_frame. rewrite !M_bind_unfold. cbn [get modify mret M_ret].
    eapply forget_frame; [apply process_packet_ok|]. split; [split; [|done]|]; cbn.
    + eapply Forall_impl; [exact H1|]. intros [[r q]|]; rewrite ?length_app; simpl; lia || done.
    + rewrite length_app. simpl. lia.
  - destruct m; cbn [receive]; try (by apply Hsend); try apply preserves_ret; try apply preserves_lift.
    + unfold receive_features_request. apply preserves_bind; [apply preserves_get|]. intros s.
      apply preserves_bind; [apply preserves_lift|]. intros x. apply Hsend.
    + unfold receive_packet_out. destruct (negb _); [apply process_actions_on_data_ok|].
      destruct (0 <? _); [apply process_actions_from_buffer_ok|apply preserves_ret].
    + by apply receive_flow_mod_ok.
    + unfold receive_stats_request. apply preserves_bind; [apply preserves_lift|]. intros t.
      destruct (t =? 0); apply preserves_bind; try apply preserves_get; try apply preserves_lift; intros x;
        [apply Hsend|apply preserves_lift].
  - intros s (H1 & H2 & H3). unfold take_port_down. rewrite M_bind_unfold. cbn [get].
    destruct (bool_decide _); [|done]. split; [done|]. split; [|done].
    intros n q. change (delete (pp_port_no p) (ports s) !! n = Some q -> pp_port_no q = n). rewrite lookup_delete. destruct (decide _); [done|apply H2].
  - intros s (H1 & H2 & H3). unfold bring_port_up. rewrite M_bind_unfold. cbn [get].
    destruct (bool_decide _); [|done]. split; [done|]. split; [|done].
    intros n q. change (<[pp_port_no p := p]> (ports s) !! n = Some q -> pp_port_no q = n). rewrite lookup_insert.
    destruct (decide _) as [<-|]; [by intros [= <-]|apply H2].
Qed.

Lemma reachable_switch_ok s : reachable s -> switch_ok s.
Proof. induction 1 as [|now ev s _ IH Ht]; [apply new_switch_ok|by apply on_event_ok]. Qed.

(** C15: in every state a switch reaches, whatever frames, messages and port
    changes it has seen and whatever they raised, every buffered frame exists,
    every port is filed under its number, and the flow table is sorted, free of
    duplicates and with one entry per match and priority. *)
Theorem switch_invariant (s : switch C) : reachable s -> switch_ok s.
Proof. apply reachable_switch_ok. Qed.

(** In every state a switch reaches, flooding a frame succeeds, changes
    nothing but what has been sent, and sends the frame out of every port but
    the one given, once. *)
Theorem switch_flood (s : switch C) (r : nat) (p : Z) :
  reachable s -> items (ports s) ≡ₚ map_to_list (ports s) ->
  exists out, output_packet items r (Some OFPP_FLOOD) p s
    = (Ok tt, set_dp_out (dp_out s ++ ((fun q => (default new_ethernet (frames s !! r), q)) <$> out)) s) /\
    NoDup (pp_port_no <$> out) /\
    forall n q, ports s !! n = Some q -> (q ∈ out <-> n <> p).
Proof.
  intros Hs Hi. destruct (reachable_switch_ok s Hs) as (_ & Hp & _).
  exists ((filter (fun np => np.1 <> p) (items (ports s))).*2). split; [|split].
  - rewrite (flood_run randint items r p s Hp Hi). by rewrite <-list_fmap_compose.
  - assert (E : pp_port_no <$> (filter (fun np => np.1 <> p) (items (ports s))).*2
      = (filter (fun np => np.1 <> p) (items (ports s))).*1).
    { rewrite <-list_fmap_compose. apply list_fmap_ext. intros j [n q] Hj. cbn.
      apply list_elem_of_lookup_2, list_elem_of_filter in Hj as [_ Hj]. rewrite Hi in Hj.
      apply elem_of_map_to_list in Hj. by apply Hp. }
    rewrite E. eapply sublist_NoDup; [|apply fmap_sublist, sublist_filter]. rewrite Hi. apply NoDup_fst_map_to_list.
  - intros n q Hq. pose proof (Hp n q Hq) as En. rewrite list_elem_of_fmap. split.
    + intros ([n' q'] & -> & Hin). rewrite list_elem_of_filter in Hin. destruct Hin as [Hne Hin].
      rewrite Hi in Hin. apply elem_of_map_to_list, Hp in Hin. cbn in *. congruence.
    + intros Hne. exists (n, q). split; [done|]. rewrite list_elem_of_filter. split; [done|].
      rewrite Hi. by apply elem_of_map_to_list.
Qed.

(** A frame that no entry applies to is put in a free slot of the buffer and
    sent to the controller as a packet-in with the frame's bytes, the input port
    and a positive buffer id; no other slot changes.  As long as the slot is not
    released, carrying out actions on that id (of a flow modification or a
    packet-out) sends out exactly what the actions say of that frame, and frees
    the slot. *)
Theorem miss_then_release (now : Z) (s : switch C) (r : nat) (p : Z) (e e1 : ethernet) (data : bytes) :
  frames s !! r = Some e -> entry_for_packet (entries (table s)) e p = None -> pack_ethernet e = Ok (data, e1) ->
  exists m s1, process_packet randint app_parse items now r p s = (Ok tt, s1) /\
    channel s1 = channel_send (MPacketIn m) (channel s) /\
    pi_data m = data /\ pi_in_port m = p /\ pi_reason m = OFPR_NO_MATCH /\ 0 < pi_buffer_id m /\
    frames s1 !! r = Some e1 /\ dp_out s1 = dp_out s /\ table s1 = table s /\
    let slot := Z.to_nat (pi_buffer_id m - 1) in
    packet_buffer s1 !! slot = Some (Some (r, p)) /\
    (forall j x, packet_buffer s !! j = Some (Some x) -> j <> slot /\ packet_buffer s1 !! j = Some (Some x)) /\
    forall (s2 : switch C) l e2 e3 out, packet_buffer s2 !! slot = Some (Some (r, p)) -> frames s2 !! r = Some e2 ->
      forward (ports s2) l e2 = Some (e3, out) ->
      process_actions_from_buffer randint app_parse items l (pi_buffer_id m) s2
      = (Ok tt, set_buffer (<[slot := None]> (packet_buffer s2))
          (set_dp_out (dp_out s2 ++ out) (set_frames (<[r := e3]> (frames s2)) s2))).
Proof.
  intros Ee Em Ep. pose proof (lookup_lt_Some _ _ _ Ee) as Hr.
  assert (Ef : default new_ethernet (frames s !! r) = e) by by rewrite Ee.
  exists (packet_in_of s p OFPR_NO_MATCH data), (buffered s r p OFPR_NO_MATCH data e1).
  split; [apply miss_run; by rewrite Ef|]. split; [done|]. split; [done|]. split; [done|]. split; [done|].
  unfold packet_in_of. cbn [pi_buffer_id]. split; [lia|]. unfold buffered. cbn [frames set_channel set_frames].
  split; [by apply list_lookup_insert_eq|]. split; [done|]. split; [done|]. cbv zeta.
  replace (Z.of_nat (free_slot (packet_buffer s)) + 1 - 1) with (Z.of_nat (free_slot (packet_buffer s))) by lia.
  rewrite Nat2Z.id. cbn [packet_buffer set_channel set_frames set_xid_count set_buffer]. split; [|split].
  - rewrite put_slot_lookup. by rewrite decide_True.
  - intros j x Hj. assert (j <> free_slot (packet_buffer s)) as Hne by (intros ->; by apply free_slot_free in Hj).
    split; [done|]. rewrite put_slot_lookup. by rewrite decide_False.
  - intros s2 l e2 e3 out Hb Hf Hl. apply release_run with p; [done|by apply lookup_lt_Some in Hf|by rewrite Hf].
Qed.

(** C4: a frame that an entry applies to is not shown to the controller: the
    entry's counters take it into account, and what the entry's actions say
    (each rewriting the frame for those behind it, each output sending it as it
    then is) is what the switch sends. *)
Theorem switch_forwards (now : Z) (s : switch C) (r : nat) (p : Z) (e e1 e2 : ethernet) (entry : TableEntry) (data : bytes) (out : list (ethernet * ofp_phy_port)) :
  frames s !! r = Some e -> entry_for_packet (entries (table s)) e p = Some entry -> pack_ethernet e = Ok (data, e1) ->
  forward (ports s) (te_actions entry) e1 = Some (e2, out) ->
  exists s1, process_packet randint app_parse items now r p s = (Ok tt, s1) /\
    dp_out s1 = dp_out s ++ out /\ frames s1 = <[r := e2]> (frames s) /\
    channel s1 = channel s /\ packet_buffer s1 = packet_buffer s /\
    entries (table s1)
    = (fun x => if (te_id x =? te_id entry)%nat then touch_packet x (blen data) now else x) <$> entries (table s).
Proof.
  intros Ee Em Ep Hf. pose proof (lookup_lt_Some _ _ _ Ee) as Hr.
  assert (Ef : default new_ethernet (frames s !! r) = e) by by rewrite Ee.
  destruct (hit_run randint app_parse items now r p s entry data e1 e2 out) as (t & Et & E); [done|by rewrite Ef..|done|].
  eexists. split; [exact E|]. done.
Qed.


(** Where the switch does not do what it is asked.  Setting the VLAN id
    raises after the frame has been given an empty tag; enqueueing raises; a
    resubmit, or any unknown action, raises a [TypeError]; an id one beyond the
    buffer raises where a larger one is ignored; and every statistics request
    but the one for the description raises without an answer. *)
Theorem switch_failures (s : switch C) (r : nat) (p : Z) :
  (forall a, action_type a = Some OFPAT_SET_VLAN_VID -> r < length (frames s) ->
     apply_action randint app_parse items a r p s
     = (Err AttributeError, set_frames (<[r := tag_frame (default new_ethernet (frames s !! r))]> (frames s)) s))%nat /\
  (forall a, action_type a = Some OFPAT_ENQUEUE -> apply_action randint app_parse items a r p s = (Err AttributeError, s)) /\
  (forall a, action_type a = Some OFPAT_RESUBMIT -> apply_action randint app_parse items a r p s = (Err TypeError, s)) /\
  (forall l, process_actions_from_buffer randint app_parse items l (blen (packet_buffer s) + 1) s = (Err IndexError, s)) /\
  (forall l n, blen (packet_buffer s) + 1 < n -> process_actions_from_buffer randint app_parse items l n s = (Ok tt, s)) /\
  (forall m t, srq_type m = Some t -> t <> 0 -> exists x, receive_stats_request m s = (Err x, s)).
Proof.
  split_and!.
  - intros a Ea Hr. unfold apply_action. rewrite Ea. cbn [Z.eqb Pos.eqb OFPAT_OUTPUT OFPAT_SET_VLAN_VID].
    by rewrite M_bind_unfold, (rewrite_frame_run r _ s (tag_frame (default new_ethernet (frames s !! r)))).
  - intros a Ea. unfold apply_action. by rewrite Ea.
  - intros a Ea. unfold apply_action. by rewrite Ea.
  - intros l. unfold process_actions_from_buffer. rewrite M_bind_unfold. cbn [get].
    replace (blen (packet_buffer s) + 1 - 1) with (blen (packet_buffer s)) by lia. rewrite Z.ltb_irrefl.
    unfold py_index. pose proof (blen_nonneg (packet_buffer s)). rewrite (proj2 (Z.ltb_ge _ _)) by lia.
    by rewrite Z.ltb_irrefl, andb_false_r.
  - intros l n Hn. unfold process_actions_from_buffer. rewrite M_bind_unfold. cbn [get].
    by rewrite (proj2 (Z.ltb_lt _ _)) by lia.
  - intros m t Et Ht. unfold receive_stats_request. rewrite Et. cbn [need]. rewrite M_bind_lift_Ok.
    rewrite (proj2 (Z.eqb_neq _ _)) by done. cbv zeta. match goal with |- context [lift ?x ≫= _] => destruct x end; by eexists.
Qed.

(** A frame in the buffer is the object that the actions go on changing: when
    a list sends a frame to the controller and then rewrites it, the controller
    has been shown the frame as it was, and releasing the buffer will send the
    frame as it has become. *)
Theorem buffered_frame_shared (s : switch C) (r : nat) (p len max : Z) (e e1 : ethernet) (data : bytes) (dl : ofp_action_dl_addr) :
  frames s !! r = Some e -> pack_ethernet e = Ok (data, e1) -> adl_type dl = Some OFPAT_SET_DL_SRC ->
  exists m s1, process_actions randint app_parse items
      [AOutput (mk_action_output OFPAT_OUTPUT len (Some OFPP_CONTROLLER) max); ADlAddr dl] r p s = (Ok tt, s1) /\
    channel s1 = channel_send (MPacketIn m) (channel s) /\ pi_data m = data /\
    packet_buffer s1 !! Z.to_nat (pi_buffer_id m - 1) = Some (Some (r, p)) /\
    frames s1 !! r = Some (with_src e1 (adl_dl_addr dl)).
Proof.
  intros Ee Ep Edl. pose proof (lookup_lt_Some _ _ _ Ee) as Hr.
  exists (packet_in_of s p OFPR_ACTION data).
  assert (Ho : apply_action randint app_parse items (AOutput (mk_action_output OFPAT_OUTPUT len (Some OFPP_CONTROLLER) max)) r p s
    = (Ok tt, buffered s r p OFPR_ACTION data e1)).
  { unfold apply_action. cbn [action_type ao_type]. cbn [Z.eqb OFPAT_OUTPUT attr attr_port need ao_port]. rewrite M_bind_lift_Ok.
    unfold output_packet. change (OFPP_CONTROLLER <? OFPP_MAX) with false. cbn [Z.eqb Pos.eqb OFPP_CONTROLLER OFPP_IN_PORT OFPP_FLOOD OFPP_ALL orb].
    rewrite M_bind_unfold, buffer_packet_run, M_bind_unfold, next_xid_run. unfold send_packet_in.
    rewrite M_bind_unfold. cbn [mret M_ret]. rewrite M_bind_unfold, (pack_frame_run r _ data e1); [done|]. cbn. by rewrite Ee. }
  unfold process_actions. cbn [for_each]. rewrite M_bind_unfold, Ho, M_bind_unfold.
  rewrite (rewrite_of_run randint app_parse items _ (fun e => with_src e (adl_dl_addr dl))) by (cbn; by rewrite decide_True).
  eexists. split; [reflexivity|]. split; [done|]. split; [done|]. unfold packet_in_of. cbn [pi_buffer_id]. split.
  - replace (Z.of_nat (free_slot (packet_buffer s)) + 1 - 1) with (Z.of_nat (free_slot (packet_buffer s))) by lia.
    rewrite Nat2Z.id. change (put_slot (packet_buffer s) (r, p) !! free_slot (packet_buffer s) = Some (Some (r, p))).
    rewrite put_slot_lookup. by rewrite decide_True.
  - cbn [frames set_frames buffered set_channel]. rewrite list_lookup_insert_eq by (cbn; by rewrite length_insert).
    by rewrite list_lookup_insert_eq.
Qed.
End properties.

(** A switch with four ports, and a frame. *)
Definition example_ports : list ofp_phy_port := match default_port_list 4 1 with Ok l => l | Err _ => [] end.
Definition example_switch : switch plain_channel :=
  new_switch 1 new_capabilities example_ports (mk_gen 0 0) (mk_plain true []).
Definition example_with_frame : switch plain_channel := set_frames [example_packet] example_switch.
Definition example_packed : bytes * ethernet :=
  match pack_ethernet example_packet with Ok x => x | Err _ => ([], new_ethernet) end.
Definition example_rand : nat -> Z := fun _ => 0.
Definition example_app : app_class -> bytes -> P payload := fun k b => mret (PHdr true (HApp k (Ok b)) (PBytes [])).
Abbreviation step_example := (on_event example_rand example_app map_to_list).

Lemma example_packed_eq : pack_ethernet example_packet = Ok example_packed.
Proof. vm_compute. reflexivity. Qed.

Definition example_seen : switch plain_channel := snd (step_example 5 (EvFrame example_packet 1) example_switch).
Definition example_reached : switch plain_channel := snd (step_example 6 (EvMessage (MFlowMod example_flow)) example_seen).

Lemma example_is_reachable : reachable example_rand example_app map_to_list example_reached.
Proof.
  apply reach_step; [apply reach_step; [apply reach_new|exact I]|]. exact (proj2 (proj2 match_typed_examples)).
Qed.

Lemma switch_invariant_witness : reachable example_rand example_app map_to_list example_reached /\ switch_ok example_reached.
Proof. split; [exact example_is_reachable|]. exact (switch_invariant example_rand example_app map_to_list example_reached example_is_reachable). Defined.

Lemma switch_flood_witness :
  exists out, output_packet map_to_list 0 (Some OFPP_FLOOD) 1 example_reached
    = (Ok tt, set_dp_out (dp_out example_reached ++ ((fun q => (default new_ethernet (frames example_reached !! 0%nat), q)) <$> out)) example_reached) /\
    NoDup (pp_port_no <$> out) /\
    forall n q, ports example_reached !! n = Some q -> (q ∈ out <-> n <> 1).
Proof. apply (switch_flood example_rand example_app map_to_list example_reached 0 1 example_is_reachable). reflexivity. Defined.

Lemma miss_then_release_witness :
  exists m s1, process_packet example_rand example_app map_to_list 5 0 1 example_with_frame = (Ok tt, s1) /\
    sent (channel s1) = [MPacketIn m] /\ pi_data m = example_packed.1.
Proof.
  destruct (miss_then_release example_rand example_app map_to_list 5 example_with_frame 0 1 example_packet
    example_packed.2 example_packed.1) as (m & s1 & E & Ec & Ed & _); [reflexivity|vm_compute; reflexivity|vm_compute; reflexivity|].
  exists m, s1. split; [exact E|]. split; [by rewrite Ec|exact Ed].
Defined.

(** An entry that rewrites the source and sends the frame out of two ports. *)
Definition example_entry : TableEntry :=
  mk_TableEntry 0 (mk_counters 0 0 0 0) 5 0 0 0 new_match
    [AOutput (mk_action_output OFPAT_OUTPUT 8 (Some 2) 0);
     ADlAddr (mk_action_dl_addr (Some OFPAT_SET_DL_SRC) 16 (HwEth EMPTY_ETH));
     AOutput (mk_action_output OFPAT_OUTPUT 8 (Some 3) 0)] None.
Definition example_hit : switch plain_channel := set_table (mk_switch_table [example_entry] 1) example_with_frame.
Definition example_forwarded : ethernet * list (ethernet * ofp_phy_port) :=
  default (new_ethernet, []) (forward (ports example_hit) (te_actions example_entry) example_packed.2).

Lemma switch_forwards_witness :
  exists s1, process_packet example_rand example_app map_to_list 5 0 1 example_hit = (Ok tt, s1) /\
    dp_out s1 = example_forwarded.2 /\ length (dp_out s1) = 2%nat.
Proof.
  destruct (switch_forwards example_rand example_app map_to_list 5 example_hit 0 1 example_packet example_packed.2
    example_forwarded.1 example_entry example_packed.1 example_forwarded.2) as (s1 & E & Eo & _);
    [reflexivity|vm_compute; reflexivity..|].
  exists s1. split; [exact E|]. rewrite Eo. split; [reflexivity|]. vm_compute. reflexivity.
Defined.

(** A barrier request, then a statistics request that cannot be answered. *)
Definition example_barrier : bytes := [x01; x12; x00; x08; x00; x00; x00; x05].
Definition example_ports_request : bytes := [x01; x10; x00; x0c; x00; x00; x00; x06; x00; x05; x00; x00].
Definition example_handle (now : Z) (m : message) : M (switch plain_channel) unit :=
  receive example_rand example_app map_to_list receive_vendor now m.


Lemma buffered_frame_shared_witness :
  exists m s1, process_actions example_rand example_app map_to_list
      [AOutput (mk_action_output OFPAT_OUTPUT 8 (Some OFPP_CONTROLLER) 0); ADlAddr (mk_action_dl_addr (Some OFPAT_SET_DL_SRC) 16 (HwEth EMPTY_ETH))]
      0 1 example_with_frame = (Ok tt, s1) /\
    channel s1 = channel_send (MPacketIn m) (channel example_with_frame) /\ pi_data m = example_packed.1 /\
    packet_buffer s1 !! Z.to_nat (pi_buffer_id m - 1) = Some (Some (0%nat, 1)) /\
    frames s1 !! 0%nat = Some (with_src example_packed.2 (HwEth EMPTY_ETH)).
Proof.
  apply (buffered_frame_shared example_rand example_app map_to_list example_with_frame 0 1 8 0 example_packet
    example_packed.2 example_packed.1 (mk_action_dl_addr (Some OFPAT_SET_DL_SRC) 16 (HwEth EMPTY_ETH)));
    [reflexivity|vm_compute; reflexivity|reflexivity].
Defined.
