(* ===== verification/NxSwitch.v ===== *)
(** * The switch with several controllers ([pox/openflow/nx_switch_impl.py],
    [pox/openflow/nicira_ext.py])

    [NXSwitchImpl] is the software switch of [Switch.v] over a channel that
    distributes messages over the connections according to their roles.  A
    connection is known by its id. *)

From S2P Require Import Prelude PyStruct Addresses Codec OfpMatch OfpActions OfpStructs OfpMessages OfpVarMessages OfpStream.
From S2P Require Import Packet FlowTable PacketWire Switch.

(** ** The vendor data *)

Definition VENDOR_ID : Z := 0x00002320.
Definition ROLE_REQUEST : Z := 10.
Definition ROLE_REPLY : Z := 11.
Definition ROLE_OTHER : Z := 0.
Definition ROLE_MASTER : Z := 1.
Definition ROLE_SLAVE : Z := 2.

Record nx_data := mk_nx_data { nx_subtype : Z; nx_length : Z }.
Definition new_nx_data : nx_data := mk_nx_data 0 4.
Definition nx_data_pack (a : nx_data) : result bytes := pack [cL] (nx_subtype a, tt).
Definition nx_data_unpack (a : nx_data) (b : bytes) : result (nx_data * bytes) :=
  if blen b <? 4 then mret (a, b) else
  '(t, _) ← unpack_from [cL] b 0; mret (mk_nx_data t (nx_length a), pyfrom b 4).
Definition nx_data_eq (a b : nx_data) : bool := nx_subtype a =? nx_subtype b.

(** [role_data] and its subclasses, which differ in the subtype they start
    with. *)
Record role_data := mk_role_data { rd_data : nx_data; rd_role : Z }.
Definition new_role_data (subtype : Z) : role_data := mk_role_data (mk_nx_data subtype 8) ROLE_OTHER.
Definition role_data_pack (a : role_data) : result bytes :=
  h ← nx_data_pack (rd_data a); r ← pack [cL] (rd_role a, tt); mret (h ++ r).
Definition role_data_unpack (a : role_data) (b : bytes) : result (role_data * bytes) :=
  if blen b <? 8 then mret (a, b) else
  '(h, _) ← nx_data_unpack (rd_data a) b;
  '(r, _) ← unpack_from [cL] b 4;
  mret (mk_role_data h r, pyfrom b 8).
Definition role_data_eq (a b : role_data) : bool := nx_data_eq (rd_data a) (rd_data b) && (rd_role a =? rd_role b).

Inductive nx_message := RoleRequest (a : role_data) | RoleReply (a : role_data).
Definition unpack_vendor_data_nx (data : bytes) : result nx_message :=
  if blen data <? 4 then Err RuntimeError else
  '(nx, _) ← nx_data_unpack new_nx_data data;
  if nx_subtype nx =? ROLE_REQUEST then
    '(a, _) ← role_data_unpack (new_role_data ROLE_REQUEST) data; mret (RoleRequest a)
  else if nx_subtype nx =? ROLE_REPLY then
    '(a, _) ← role_data_unpack (new_role_data ROLE_REPLY) data; mret (RoleReply a)
  else Err NotImplementedError.

(** ** The connections *)

Record nx_channel := mk_nx {
  role_by_conn : gmap Z Z;
  connections : list Z;
  connection_in_action : option Z;
  next_other : Z;
  nx_sent : list (Z * message)
}.
Definition new_nx : nx_channel := mk_nx ∅ [] None 0 [].
Definition nx_to (conn : Z) (m : message) (c : nx_channel) : nx_channel :=
  mk_nx (role_by_conn c) (connections c) (connection_in_action c) (next_other c) (nx_sent c ++ [(conn, m)]).
Definition nx_act (a : option Z) (c : nx_channel) : nx_channel :=
  mk_nx (role_by_conn c) (connections c) a (next_other c) (nx_sent c).
Definition nx_roles (r : gmap Z Z) (c : nx_channel) : nx_channel :=
  mk_nx r (connections c) (connection_in_action c) (next_other c) (nx_sent c).

(** The connections of a role, in order. *)
Definition with_role (role : Z) (c : nx_channel) : list Z :=
  filter (fun id => role_by_conn c !! id = Some role) (connections c).

Definition slave_blacklist (m : message) : bool :=
  match m with MFlowMod _ | MPacketOut _ | MPortMod _ | MBarrierRequest _ => true | _ => false end.
Definition messages_for_all (m : message) : bool := match m with MPortStatus _ => true | _ => false end.

(** [NXSwitchImpl.send]. *)
Definition nx_send (m : message) (c : nx_channel) : nx_channel :=
  if messages_for_all m then foldl (fun c id => nx_to id m c) c (connections c)
  else
    match connection_in_action c with
    | Some id => nx_to id m c
    | None =>
        match with_role ROLE_MASTER c with
        | id :: _ => nx_to id m c
        | [] =>
            let others := with_role ROLE_OTHER c in
            if blen others =? 0 then c else
            let i := next_other c mod blen others in
            match others !! Z.to_nat i with
            | Some id =>
                mk_nx (role_by_conn c) (connections c) (connection_in_action c) (i + 1) (nx_sent c ++ [(id, m)])
            | None => c
            end
        end
    end.
#[global] Instance nx_channel_send : Channel nx_channel := nx_send.

Definition add_connection (id : Z) (c : nx_channel) : nx_channel :=
  mk_nx (<[id := ROLE_OTHER]> (role_by_conn c)) (connections c ++ [id]) (connection_in_action c) (next_other c) (nx_sent c).

Definition set_role (conn role : Z) (c : nx_channel) : nx_channel :=
  let r := <[conn := role]> (role_by_conn c) in
  nx_roles (if role =? ROLE_MASTER
            then foldl (fun r id => if id =? conn then r else <[id := ROLE_SLAVE]> r) r (connections c)
            else r) c.

(** [check_rights]. *)
Definition check_rights (m : message) (conn : Z) (c : nx_channel) : result bool :=
  role ← need KeyError (role_by_conn c !! conn);
  mret (negb (role =? ROLE_SLAVE) || negb (slave_blacklist m)).

(** The types [ofp_handlers] has an entry for. *)
Definition handled (m : message) : bool :=
  match m with
  | MHello _ | MEchoRequest _ | MFeaturesRequest _ | MFlowMod _ | MPacketOut _ | MBarrierRequest _
  | MGetConfigRequest _ | MSetConfig _ | MStatsRequest _ | MVendor _ | MEchoReply _ => true
  | _ => false
  end.

Section nx.
Context (randint : nat -> Z) (app_parse : app_class -> bytes -> P payload).
Context (items : gmap Z ofp_phy_port -> list (Z * ofp_phy_port)).

Abbreviation NX := (M (switch nx_channel)).
Definition on_channel (f : nx_channel -> nx_channel) : NX unit := modify (fun s => set_channel (f (channel s)) s).

Definition bad_vendor : message := MError (mk_ofp_error (er_hdr new_error) OFPET_BAD_REQUEST OFPBRC_BAD_VENDOR []).
Definition send_error (conn : Z) : NX unit := on_channel (nx_to conn bad_vendor).

(** [_receive_vendor]; [NotImplemented] is not an exception, so the clause that
    names it catches nothing. *)
Definition nx_receive_vendor (conn : Z) (m : ofp_vendor) : NX unit :=
  if ve_vendor m =? VENDOR_ID then
    data ← lift (unpack_vendor_data_nx (ve_data m));
    match data with
    | RoleRequest a =>
        _ ← on_channel (set_role conn (rd_role a));
        reply ← lift (role_data_pack (mk_role_data (mk_nx_data ROLE_REPLY 8) (rd_role a)));
        send (MVendor (mk_ofp_vendor (ve_hdr new_vendor) VENDOR_ID reply))
    | RoleReply _ => mret tt
    end
  else receive_vendor m.

(** A handler as [beef_up_handlers] wraps it: when it raises, the connection
    stays in action. *)
Definition nx_receive (conn now : Z) (m : message) : NX unit :=
  if negb (handled m) then lift (Err RuntimeError) else
  _ ← on_channel (nx_act (Some conn));
  c ← get channel;
  ok ← lift (check_rights m conn c);
  _ ← (if ok : bool then receive randint app_parse items (nx_receive_vendor conn) now m else send_error conn);
  on_channel (nx_act None).

(** ** What the connections do *)

(** A controller connects (with a new id), sends a message, or a frame
    arrives. *)
Inductive nx_event :=
  | NxConnect (id : Z)
  | NxMessage (conn : Z) (m : message)
  | NxFrame (e : ethernet) (in_port : Z).
Definition on_nx_event (now : Z) (ev : nx_event) : NX unit :=
  match ev with
  | NxConnect id => on_channel (add_connection id)
  | NxMessage conn m => nx_receive conn now m
  | NxFrame e p => r ← new_frame e; process_packet randint app_parse items now r p
  end.
Definition nx_event_ok (ev : nx_event) (c : nx_channel) : Prop :=
  match ev with
  | NxConnect id => id ∉ connections c
  | NxMessage conn _ => conn ∈ connections c
  | NxFrame _ _ => True
  end.

Inductive nx_reachable : switch nx_channel -> Prop :=
  | nx_new dpid caps ps g : nx_reachable (new_switch dpid caps ps g new_nx)
  | nx_step now ev s : nx_reachable s -> nx_event_ok ev (channel s) -> nx_reachable (snd (on_nx_event now ev s)).
End nx.

(** ** Sending *)

Lemma nx_to_frame id m c :
  role_by_conn (nx_to id m c) = role_by_conn c /\ connections (nx_to id m c) = connections c /\
  connection_in_action (nx_to id m c) = connection_in_action c.
Proof. done. Qed.

Lemma nx_send_frame m c :
  role_by_conn (nx_send m c) = role_by_conn c /\ connections (nx_send m c) = connections c /\
  connection_in_action (nx_send m c) = connection_in_action c.
Proof.
  unfold nx_send. destruct (messages_for_all m).
  - generalize (connections c) at 1 2 4 as l. induction l as [|id l IH] using rev_ind; [done|].
    rewrite !foldl_app. exact IH.
  - destruct (connection_in_action c) as [id|] eqn:E; [done|].
    destruct (with_role ROLE_MASTER c); [|done]. destruct (blen _ =? 0); [done|]. by destruct (_ !! _).
Qed.

(** A message of one controller's business goes to it; otherwise to the master
    if there is one. *)
Lemma nx_send_in_action m c id :
  messages_for_all m = false -> connection_in_action c = Some id -> nx_send m c = nx_to id m c.
Proof. intros Em Ea. unfold nx_send. by rewrite Em, Ea. Qed.
Lemma nx_send_master m c id l :
  messages_for_all m = false -> connection_in_action c = None -> with_role ROLE_MASTER c = id :: l -> nx_send m c = nx_to id m c.
Proof. intros Em Ea El. unfold nx_send. by rewrite Em, Ea, El. Qed.

(** Without a master the others take turns. *)
Definition turn (k : Z) (n i : nat) : nat := Z.to_nat ((k + Z.of_nat i) mod Z.of_nat n).

Lemma nx_send_turn m c :
  messages_for_all m = false -> connection_in_action c = None -> with_role ROLE_MASTER c = [] ->
  with_role ROLE_OTHER c <> [] ->
  exists id, with_role ROLE_OTHER c !! turn (next_other c) (length (with_role ROLE_OTHER c)) 0 = Some id /\
    nx_send m c = mk_nx (role_by_conn c) (connections c) None
      (next_other c mod Z.of_nat (length (with_role ROLE_OTHER c)) + 1) (nx_sent c ++ [(id, m)]).
Proof.
  intros Em Ea El Ho. unfold nx_send, turn. rewrite Em, Ea, El. set (others := with_role ROLE_OTHER c) in *.
  assert (0 < length others)%nat by (destruct others; simpl; [done|lia]).
  unfold blen. rewrite (proj2 (Z.eqb_neq _ _)) by lia. rewrite Z.add_0_r.
  pose proof (Z.mod_pos_bound (next_other c) (Z.of_nat (length others)) ltac:(lia)).
  destruct (others !! Z.to_nat (next_other c mod Z.of_nat (length others))) as [id|] eqn:E.
  - exists id. split; done.
  - apply lookup_ge_None in E. lia.
Qed.

Lemma turn_next k n i : (0 < n)%nat -> turn (k mod Z.of_nat n + 1) n i = turn k n (S i).
Proof.
  intros Hn. unfold turn. f_equal. replace (k mod Z.of_nat n + 1 + Z.of_nat i) with (k mod Z.of_nat n + (1 + Z.of_nat i)) by lia.
  rewrite Z.add_mod_idemp_l by lia. f_equal. lia.
Qed.

Lemma nx_turns ms c :
  Forall (fun m => messages_for_all m = false) ms -> connection_in_action c = None ->
  with_role ROLE_MASTER c = [] -> with_role ROLE_OTHER c <> [] ->
  exists ids, nx_sent (foldl (fun c m => nx_send m c) c ms) = nx_sent c ++ zip ids ms /\ length ids = length ms /\
    forall i, (i < length ms)%nat -> ids !! i = with_role ROLE_OTHER c !! turn (next_other c) (length (with_role ROLE_OTHER c)) i.
Proof.
  intros Hms. revert c. induction Hms as [|m ms Hm Hms IH]; intros c Ha Hma Ho.
  - exists []. cbn. rewrite app_nil_r. split; [done|]. split; [done|]. intros i. lia.
  - destruct (nx_send_turn m c Hm Ha Hma Ho) as (id & Ei & E). cbn [foldl]. rewrite E.
    set (c' := mk_nx _ _ _ _ _).
    assert (Ew : forall role, with_role role c' = with_role role c) by done.
    destruct (IH c' eq_refl) as (ids & Es & El & Hl); [by rewrite Ew..|].
    exists (id :: ids). split; [rewrite Es; cbn [nx_sent c' zip_with]; by rewrite <-app_assoc|].
    split; [cbn; by rewrite El|]. intros [|i] Hi; [done|]. cbn in Hi. cbn [lookup list_lookup].
    change (ids !! i = with_role ROLE_OTHER c !! turn (next_other c) (length (with_role ROLE_OTHER c)) (S i)).
    rewrite (Hl i) by lia. rewrite Ew. cbn [next_other c'].
    rewrite turn_next; [done|]. destruct (with_role ROLE_OTHER c); simpl; [done|lia].
Qed.

(** ** Roles *)

(** Connections are distinct, each has a role and nothing else has one, and at
    most one is the master. *)
Definition nx_ok (c : nx_channel) : Prop :=
  NoDup (connections c) /\ (forall id, is_Some (role_by_conn c !! id) <-> id ∈ connections c) /\
  forall i j, role_by_conn c !! i = Some ROLE_MASTER -> role_by_conn c !! j = Some ROLE_MASTER -> i = j.

Lemma nx_send_ok m c : nx_ok c -> nx_ok (channel_send m c).
Proof. unfold nx_ok, channel_send, nx_channel_send. by destruct (nx_send_frame m c) as (-> & -> & _). Qed.

Lemma add_connection_ok id c : nx_ok c -> id ∉ connections c -> nx_ok (add_connection id c).
Proof.
  intros (H1 & H2 & H3) Hid. unfold nx_ok, add_connection. cbn [connections role_by_conn]. split; [|split].
  - apply NoDup_app. split; [done|]. split; [|by apply NoDup_singleton].
    intros x Hx ->%list_elem_of_singleton. done.
  - intros x. rewrite lookup_insert, elem_of_app, list_elem_of_singleton. destruct (decide (id = x)) as [->|].
    + split; [by right|by eexists].
    + rewrite H2. split; [by left|by intros [|]].
  - intros i j. rewrite !lookup_insert. destruct (decide _); [done|]. destruct (decide _); [done|]. apply H3.
Qed.

Lemma slaves_lookup conn l (r : gmap Z Z) x :
  foldl (fun r id => if id =? conn then r else <[id := ROLE_SLAVE]> r) r l !! x
  = if decide (x ∈ l /\ x <> conn) then Some ROLE_SLAVE else r !! x.
Proof.
  revert r. induction l as [|id l IH]; intros r; cbn [foldl].
  - rewrite decide_False; [done|]. by intros [[]%elem_of_nil _].
  - rewrite IH. destruct (decide (x ∈ l /\ x <> conn)) as [H|H].
    + rewrite decide_True; [done|]. rewrite elem_of_cons. naive_solver.
    + destruct (Z.eqb_spec id conn) as [->|Hne].
      * rewrite decide_False; [done|]. rewrite elem_of_cons. naive_solver.
      * rewrite lookup_insert. destruct (decide (id = x)) as [->|].
        -- rewrite decide_True; [done|]. rewrite elem_of_cons. naive_solver.
        -- rewrite decide_False; [done|]. rewrite elem_of_cons. naive_solver.
Qed.

Lemma set_role_lookup conn role c x :
  role_by_conn (set_role conn role c) !! x
  = if decide (x = conn) then Some role
    else if decide (role = ROLE_MASTER /\ x ∈ connections c) then Some ROLE_SLAVE else role_by_conn c !! x.
Proof.
  unfold set_role, nx_roles. cbn [role_by_conn]. destruct (Z.eqb_spec role ROLE_MASTER) as [->|Hne].
  - rewrite slaves_lookup, lookup_insert. destruct (decide (x = conn)) as [->|].
    + rewrite decide_False by naive_solver. by rewrite decide_True.
    + destruct (decide (x ∈ connections c /\ x <> conn)) as [[]|H].
      * by rewrite decide_True.
      * rewrite !decide_False by naive_solver. done.
  - rewrite lookup_insert. destruct (decide (conn = x)) as [->|]; [by rewrite decide_True|].
    rewrite !decide_False by naive_solver. done.
Qed.

Lemma set_role_ok conn role c : nx_ok c -> conn ∈ connections c -> nx_ok (set_role conn role c).
Proof.
  intros (H1 & H2 & H3) Hc. split; [exact H1|]. split.
  - intros x. rewrite set_role_lookup. change (connections (set_role conn role c)) with (connections c).
    destruct (decide (x = conn)) as [->|]; [split; [done|by eexists]|].
    destruct (decide _) as [[_ Hx]|]; [split; [done|by eexists]|apply H2].
  - intros i j. rewrite !set_role_lookup.
    destruct (decide (i = conn)) as [->|Hi], (decide (j = conn)) as [->|Hj]; try done.
    + intros [= ->]. destruct (decide _) as [|Hn]; [done|]. intros Hj'. destruct Hn. split; [done|]. apply H2. by eexists.
    + intros Hi' [= ->]. destruct (decide _) as [|Hn]; [done|]. destruct Hn. split; [done|]. apply H2. by eexists.
    + destruct (decide _); [done|]. destruct (decide _); [done|]. apply H3.
Qed.

(** ** Properties *)

Section properties.
Context (randint : nat -> Z) (app_parse : app_class -> bytes -> P payload).
Context (items : gmap Z ofp_phy_port -> list (Z * ofp_phy_port)).

(** [conn] is a connection of a switch in order. *)
Definition served (conn : Z) (c : nx_channel) : Prop := nx_ok c /\ conn ∈ connections c.

Lemma served_send conn m c : served conn c -> served conn (channel_send m c).
Proof.
  intros [H1 H2]. split; [by apply nx_send_ok|].
  unfold channel_send, nx_channel_send. by destruct (nx_send_frame m c) as (_ & -> & _).
Qed.

Lemma on_channel_served conn f :
  (forall c, served conn c -> served conn (f c)) -> preserves (on_chan (served conn)) (on_channel f).
Proof. intros Hf. apply preserves_modify. intros s. apply Hf. Qed.

Lemma nx_receive_vendor_served conn m : preserves (on_chan (served conn)) (nx_receive_vendor conn m).
Proof.
  pose proof (chan_send (served conn) (served_send conn)) as Hs. unfold nx_receive_vendor, receive_vendor.
  destruct (_ =? _); [|apply Hs]. apply preserves_bind; [apply preserves_lift|]. intros [a|a]; [|apply preserves_ret].
  apply preserves_bind.
  - apply on_channel_served. intros c [H1 H2]. split; [by apply set_role_ok|done].
  - intros _. apply preserves_bind; [apply preserves_lift|]. intros b. apply Hs.
Qed.

Lemma nx_receive_served conn now m : preserves (on_chan (served conn)) (nx_receive randint app_parse items conn now m).
Proof.
  unfold nx_receive. destruct (negb _); [apply preserves_lift|].
  apply preserves_bind; [by apply on_channel_served|]. intros _.
  apply preserves_bind; [apply preserves_get|]. intros c. apply preserves_bind; [apply preserves_lift|]. intros ok.
  apply preserves_bind; [|intros _; by apply on_channel_served].
  destruct ok; [|by apply on_channel_served]. apply chan_receive; [apply served_send|]. intros v. apply nx_receive_vendor_served.
Qed.

Lemma on_nx_event_ok now ev s :
  nx_ok (channel s) -> nx_event_ok ev (channel s) -> nx_ok (channel (snd (on_nx_event randint app_parse items now ev s))).
Proof.
  intros Hs He. destruct ev as [id|conn m|e p]; cbn [on_nx_event nx_event_ok] in *.
  - by apply add_connection_ok.
  - by apply (nx_receive_served conn now m s).
  - apply (preserves_bind (on_chan nx_ok) (new_frame e) (fun r => process_packet randint app_parse items now r p));
      [apply chan_new_frame| |exact Hs].
    intros r. apply chan_process_packet. apply nx_send_ok.
Qed.

Lemma nx_ok_new : nx_ok new_nx.
Proof.
  split; [apply NoDup_nil_2|]. cbn [new_nx role_by_conn connections]. split.
  - intros id. rewrite lookup_empty. split; [by intros []|by intros ?%elem_of_nil].
  - intros i j. by rewrite lookup_empty.
Qed.

(** C19: whatever controllers connect, whatever they and the network send, and
    whatever raises, at most one connection is the master, every connection has
    a role and nothing else has one. *)
Theorem one_master (s : switch nx_channel) : nx_reachable randint app_parse items s -> nx_ok (channel s).
Proof.
  induction 1 as [dpid caps ps g|now ev s _ IH He]; [apply nx_ok_new|by apply on_nx_event_ok].
Qed.

(** A slave cannot change the switch.  A flow modification, packet-out, port
    modification or barrier from a slave leaves the table, the ports, the buffer,
    the frames and the roles as they were; if the switch handles such messages at
    all, the slave, and nobody else, is sent an error. *)
Theorem slave_harmless (s : switch nx_channel) (conn now : Z) (m : message) :
  role_by_conn (channel s) !! conn = Some ROLE_SLAVE -> slave_blacklist m = true ->
  nx_receive randint app_parse items conn now m s
  = if handled m then (Ok tt, set_channel (nx_act None (nx_to conn bad_vendor (channel s))) s) else (Err RuntimeError, s).
Proof.
  intros Hr Hb. unfold nx_receive. destruct (handled m); [|done]. cbn [negb].
  unfold on_channel. rewrite M_bind_unfold. cbn [modify]. rewrite M_bind_unfold. cbn [get].
  unfold check_rights. cbn [channel set_channel nx_act role_by_conn]. rewrite Hr. cbn [need].
  change ((mbind (fun role => mret (negb (role =? ROLE_SLAVE) || negb (slave_blacklist m))) (Ok ROLE_SLAVE)))
    with (Ok (negb (ROLE_SLAVE =? ROLE_SLAVE) || negb (slave_blacklist m))). rewrite Hb.
  cbn [negb orb Z.eqb Pos.eqb ROLE_SLAVE]. rewrite M_bind_lift_Ok, M_bind_unfold. done.
Qed.

(** Who is told.  A port status goes to every connection; while a message
    is being handled, what is sent goes to its sender; otherwise it goes to the
    master, and if there is none, as many messages as there are other
    controllers reach each of them once, whoever's turn it is. *)
Theorem nx_distribution (c : nx_channel) (ms : list message) :
  nx_ok c -> Forall (fun m => messages_for_all m = false) ms ->
  (forall m, messages_for_all m = true -> nx_sent (nx_send m c) = nx_sent c ++ ((fun id => (id, m)) <$> connections c)) /\
  (forall id m, connection_in_action c = Some id -> m ∈ ms -> nx_sent (nx_send m c) = nx_sent c ++ [(id, m)]) /\
  (connection_in_action c = None -> forall id, role_by_conn c !! id = Some ROLE_MASTER ->
     forall m, m ∈ ms -> nx_sent (nx_send m c) = nx_sent c ++ [(id, m)]) /\
  (connection_in_action c = None -> with_role ROLE_MASTER c = [] -> length ms = length (with_role ROLE_OTHER c) ->
     exists ids, nx_sent (foldl (fun c m => nx_send m c) c ms) = nx_sent c ++ zip ids ms /\ ids ≡ₚ with_role ROLE_OTHER c).
Proof.
  intros (Hn & Hd & H1) Hms. rewrite Forall_forall in Hms. split_and!.
  - intros m Hm. unfold nx_send. rewrite Hm.
    assert (Hg : forall l c', nx_sent (foldl (fun c id => nx_to id m c) c' l) = nx_sent c' ++ ((fun id => (id, m)) <$> l)).
    { induction l as [|id l IH]; intros c'; cbn [foldl]; [by rewrite app_nil_r|]. rewrite IH. cbn. by rewrite <-app_assoc. }
    apply Hg.
  - intros id m Ha Hm. rewrite (nx_send_in_action m c id) by auto. done.
  - intros Ha id Hid m Hm. destruct (with_role ROLE_MASTER c) as [|id' l] eqn:E.
    + assert (Hin : id ∈ with_role ROLE_MASTER c); [|rewrite E in Hin; by apply elem_of_nil in Hin].
      unfold with_role. rewrite list_elem_of_filter. split; [done|]. apply Hd. by eexists.
    + rewrite (nx_send_master m c id' l) by auto. cbn. do 3 f_equal.
      assert (Hin : id' ∈ with_role ROLE_MASTER c) by (rewrite E; by left).
      unfold with_role in Hin. apply list_elem_of_filter in Hin as [Hin _]. by apply H1.
  - intros Ha Hm Hl. destruct ms as [|m0 ms'] eqn:Ems.
    { exists []. cbn. rewrite app_nil_r. split; [done|]. by destruct (with_role ROLE_OTHER c). }
    rewrite <-Ems in *. assert (Ho : with_role ROLE_OTHER c <> []) by (intros E; rewrite E, Ems in Hl; done).
    destruct (nx_turns ms c) as (ids & Es & El & Hi); [by apply Forall_forall|done..|].
    exists ids. split; [done|]. set (l := with_role ROLE_OTHER c) in *.
    assert (0 < length l)%nat by (destruct l; simpl; [done|lia]).
    assert (ids = rotate (Z.to_nat (next_other c mod Z.of_nat (length l))) l) as ->.
    { apply list_eq. intros i. destruct (decide (i < length l)%nat) as [Hlt|].
      - rewrite lookup_rotate_r, Hi by lia. f_equal. unfold turn, rotate_nat_add. f_equal.
        rewrite Z2Nat.id by (apply Z.mod_pos_bound; lia). by rewrite Z.add_mod_idemp_l by lia.
      - rewrite !lookup_ge_None_2; [done|rewrite length_rotate; lia|lia]. }
    unfold rotate. rewrite Permutation_app_comm. by rewrite take_drop.
Qed.

(** A handler that raises leaves its connection in action: the next frame
    that misses the table is then sent to that connection, be it a slave, and
    not to the master. *)
Theorem action_sticks (s s1 : switch nx_channel) (conn now now' p : Z) (m : message) (x : exn) (e e1 : ethernet) (data : bytes) :
  handled m = true -> nx_receive randint app_parse items conn now m s = (Err x, s1) ->
  is_Some (role_by_conn (channel s) !! conn) ->
  entry_for_packet (entries (table s1)) e p = None -> pack_ethernet e = Ok (data, e1) ->
  exists m' s2, on_nx_event randint app_parse items now' (NxFrame e p) s1 = (Ok tt, s2) /\
    pi_data m' = data /\ nx_sent (channel s2) = nx_sent (channel s1) ++ [(conn, MPacketIn m')].
Proof.
  intros Hh Hrun [role Hrole] Hmiss Hp.
  assert (Ha : connection_in_action (channel s1) = Some conn).
  { unfold nx_receive in Hrun. rewrite Hh in Hrun. cbn [negb] in Hrun. unfold on_channel in Hrun. rewrite M_bind_unfold in Hrun.
    cbn [modify] in Hrun. rewrite M_bind_unfold in Hrun. cbn [get] in Hrun. unfold check_rights in Hrun.
    cbn [channel set_channel nx_act role_by_conn] in Hrun. rewrite Hrole in Hrun. cbn [need] in Hrun.
    change (mbind ?f (Ok ?a)) with (f a) in Hrun. cbv beta in Hrun. unfold mret, result_ret in Hrun.
    rewrite M_bind_lift_Ok, M_bind_unfold in Hrun.
    set (s0 := set_channel _ s) in Hrun. assert (H0 : on_chan (fun c => connection_in_action c = Some conn) s0) by done.
    match type of Hrun with (match ?k s0 with _ => _ end) = _ =>
      assert (Hk : preserves (on_chan (fun c => connection_in_action c = Some conn)) k); [|specialize (Hk s0 H0); destruct (k s0) as [[[]|y] s']] end.
    - clear. assert (Hs : forall m c, connection_in_action c = Some conn -> connection_in_action (channel_send m c) = Some conn).
      { intros m0 c Hc. unfold channel_send, nx_channel_send. by destruct (nx_send_frame m0 c) as (_ & _ & ->). }
      destruct (_ || _); [|by apply preserves_modify]. apply chan_receive; [exact Hs|]. intros v.
      unfold nx_receive_vendor, receive_vendor. destruct (_ =? _); [|by apply chan_send].
      apply preserves_bind; [apply preserves_lift|]. intros [a|a]; [|apply preserves_ret].
      apply preserves_bind; [by apply preserves_modify|]. intros _. apply preserves_bind; [apply preserves_lift|]. intros b. by apply chan_send.
    - done.
    - injection Hrun as _ <-. exact Hk. }
  cbn [on_nx_event]. unfold new_frame. rewrite !M_bind_unfold. cbn [get modify mret M_ret].
  set (s2 := set_frames (frames s1 ++ [e]) s1).
  assert (Ef : default new_ethernet (frames s2 !! length (frames s1)) = e) by (cbn; by rewrite list_lookup_middle).
  exists (packet_in_of s2 p OFPR_NO_MATCH data). eexists. split; [|split; [done|]].
  - apply (miss_run randint app_parse items now' (length (frames s1)) p s2 data e1); by rewrite Ef.
  - unfold buffered. cbn [channel set_channel]. unfold channel_send at 1, nx_channel_send.
    by rewrite (nx_send_in_action _ _ conn).
Qed.

(** The data of a role request or reply on the wire. *)
Definition role_bytes (subtype role : Z) : bytes := encode [cL] (subtype, tt) ++ encode [cL] (role, tt).

Lemma role_data_pack_ok t l role :
  uint_ok 4 t -> uint_ok 4 role -> role_data_pack (mk_role_data (mk_nx_data t l) role) = Ok (role_bytes t role).
Proof.
  intros Ht Hr. unfold role_data_pack, nx_data_pack. cbn [rd_data rd_role nx_subtype].
  rewrite (pack_ok [cL] (t, tt)) by done. by rewrite (pack_ok [cL] (role, tt)).
Qed.

Lemma nx_data_unpack_ok a t role :
  uint_ok 4 t -> uint_ok 4 role -> exists r, nx_data_unpack a (role_bytes t role) = Ok (mk_nx_data t (nx_length a), r).
Proof.
  intros Ht Hr. unfold nx_data_unpack, role_bytes. rewrite blen_app, !blen_encode. cbn [calcsize].
  change (Z.of_nat _ + Z.of_nat _ <? 4) with false. cbv iota. rewrite (unpack_from_here [cL] (t, tt)) by done. by eexists.
Qed.

Lemma role_data_unpack_ok a t role :
  uint_ok 4 t -> uint_ok 4 role ->
  exists r, role_data_unpack a (role_bytes t role) = Ok (mk_role_data (mk_nx_data t (nx_length (rd_data a))) role, r).
Proof.
  intros Ht Hr. unfold role_data_unpack. destruct (nx_data_unpack_ok (rd_data a) t role Ht Hr) as [r E]. rewrite E.
  unfold role_bytes. rewrite blen_app, !blen_encode. change (Z.of_nat _ + Z.of_nat _ <? 8) with false. cbv iota.
  cbn [mbind result_bind]. rewrite <-(app_nil_r (encode [cL] (role, tt))).
  rewrite (unpack_from_app [cL] (role, tt)); [by eexists|by rewrite blen_encode|done..].
Qed.

(** Role requests.  What a controller packs for a role, 32 bits wide, the
    switch reads back and grants, answering with a reply for that role to the
    controller that asked.  Asking to be the master makes every other
    connection a slave; any other role changes nobody else's. *)
Theorem role_request_granted (s : switch nx_channel) (conn now role : Z) (hdr : ofp_header) (old : Z) :
  uint_ok 4 role -> role_by_conn (channel s) !! conn = Some old ->
  exists b reply s1, role_data_pack (mk_role_data (mk_nx_data ROLE_REQUEST 8) role) = Ok b /\
    role_data_pack (mk_role_data (mk_nx_data ROLE_REPLY 8) role) = Ok reply /\
    nx_receive randint app_parse items conn now (MVendor (mk_ofp_vendor hdr VENDOR_ID b)) s = (Ok tt, s1) /\
    nx_sent (channel s1) = nx_sent (channel s) ++ [(conn, MVendor (mk_ofp_vendor (ve_hdr new_vendor) VENDOR_ID reply))] /\
    role_by_conn (channel s1) !! conn = Some role /\
    forall id, id <> conn -> role_by_conn (channel s1) !! id
      = if decide (role = ROLE_MASTER /\ id ∈ connections (channel s)) then Some ROLE_SLAVE else role_by_conn (channel s) !! id.
Proof.
  intros Hr Ho. exists (role_bytes ROLE_REQUEST role), (role_bytes ROLE_REPLY role).
  eexists. split; [by apply role_data_pack_ok|]. split; [by apply role_data_pack_ok|]. split.
  - unfold nx_receive. cbn [handled negb]. unfold on_channel. rewrite M_bind_unfold. cbn [modify]. rewrite M_bind_unfold. cbn [get].
    unfold check_rights. cbn [channel set_channel nx_act role_by_conn]. rewrite Ho. cbn [need slave_blacklist negb].
    change (mbind ?f (Ok ?a)) with (f a). cbv beta. rewrite orb_true_r. rewrite M_bind_lift_Ok, M_bind_unfold.
    cbn [receive]. unfold nx_receive_vendor. cbn [ve_vendor ve_data]. rewrite Z.eqb_refl.
    assert (E : unpack_vendor_data_nx (role_bytes ROLE_REQUEST role)
      = Ok (RoleRequest (mk_role_data (mk_nx_data ROLE_REQUEST 8) role))).
    { unfold unpack_vendor_data_nx. destruct (nx_data_unpack_ok new_nx_data ROLE_REQUEST role) as [r E]; [done..|].
      destruct (role_data_unpack_ok (new_role_data ROLE_REQUEST) ROLE_REQUEST role) as [r' E']; [done..|].
      rewrite E. cbn [mbind result_bind nx_subtype]. rewrite Z.eqb_refl, E'.
      unfold role_bytes. rewrite blen_app, !blen_encode. done. }
    rewrite E, M_bind_lift_Ok. unfold on_channel. rewrite M_bind_unfold. cbn [modify rd_role].
    rewrite (role_data_pack_ok ROLE_REPLY 8 role), M_bind_lift_Ok by done. reflexivity.
  - cbn [channel set_channel nx_act nx_sent role_by_conn]. unfold channel_send, nx_channel_send.
    rewrite (nx_send_in_action _ _ conn) by done. cbn [nx_sent nx_to role_by_conn]. split; [done|]. split.
    + change (role_by_conn (set_role conn role (nx_act (Some conn) (channel s))) !! conn = Some role).
      rewrite set_role_lookup. by rewrite decide_True.
    + intros id Hid. change (role_by_conn (set_role conn role (nx_act (Some conn) (channel s))) !! id
        = if decide (role = ROLE_MASTER /\ id ∈ connections (channel s)) then Some ROLE_SLAVE else role_by_conn (channel s) !! id).
      rewrite set_role_lookup. by rewrite decide_False.
Qed.
End properties.

(** Three controllers; the second becomes the master, the third asks for port
    statistics, which the switch cannot give. *)
Definition example_nx_start : switch nx_channel := new_switch 1 new_capabilities example_ports (mk_gen 0 0) new_nx.
Abbreviation nx_example := (on_nx_event example_rand example_app map_to_list).
Definition example_nx_up : switch nx_channel :=
  snd (nx_example 1 (NxConnect 12) (snd (nx_example 1 (NxConnect 11) (snd (nx_example 1 (NxConnect 10) example_nx_start))))).
Definition example_master_request : message :=
  MVendor (mk_ofp_vendor (mk_header 1 4 20 (Some 3)) VENDOR_ID (role_bytes ROLE_REQUEST ROLE_MASTER)).
Definition example_nx : switch nx_channel := snd (nx_example 2 (NxMessage 11 example_master_request) example_nx_up).
Definition example_stats : message := MStatsRequest (mk_ofp_stats_request (mk_header 1 16 12 (Some 6)) (Some 5) 0 (RBytes [])).
Definition example_stuck : switch nx_channel := snd (nx_example 3 (NxMessage 12 example_stats) example_nx).

Lemma example_nx_reachable : nx_reachable example_rand example_app map_to_list example_nx.
Proof.
  apply nx_step; [apply nx_step; [apply nx_step; [apply nx_step; [apply nx_new|]|]|]|];
    cbn [nx_event_ok]; refine (bool_decide_unpack _ _); vm_compute; exact I.
Qed.

Lemma one_master_witness : nx_reachable example_rand example_app map_to_list example_nx /\ nx_ok (channel example_nx).
Proof. split; [exact example_nx_reachable|]. exact (one_master example_rand example_app map_to_list example_nx example_nx_reachable). Defined.

Lemma slave_harmless_witness :
  nx_receive example_rand example_app map_to_list 12 4 (MFlowMod example_flow) example_nx
  = (Ok tt, set_channel (nx_act None (nx_to 12 bad_vendor (channel example_nx))) example_nx).
Proof. apply (slave_harmless example_rand example_app map_to_list example_nx 12 4 (MFlowMod example_flow)); vm_compute; reflexivity. Defined.

Lemma nx_distribution_witness :
  exists ids, nx_sent (foldl (fun c m => nx_send m c) (channel example_nx_up) [example_stats; example_stats; example_stats])
    = nx_sent (channel example_nx_up) ++ zip ids [example_stats; example_stats; example_stats] /\ ids ≡ₚ [10; 11; 12].
Proof.
  destruct (nx_distribution (channel example_nx_up) [example_stats; example_stats; example_stats]) as (_ & _ & _ & H).
  - unfold example_nx_up, example_nx_start.
    repeat (apply on_nx_event_ok; [|cbn [nx_event_ok]; refine (bool_decide_unpack _ _); vm_compute; exact I]). apply nx_ok_new.
  - repeat constructor.
  - apply H; vm_compute; reflexivity.
Defined.

Lemma action_sticks_witness :
  exists m' s2, nx_example 4 (NxFrame example_packet 1) example_stuck = (Ok tt, s2) /\
    pi_data m' = example_packed.1 /\ nx_sent (channel s2) = nx_sent (channel example_stuck) ++ [(12, MPacketIn m')].
Proof.
  apply (action_sticks example_rand example_app map_to_list example_nx example_stuck 12 3 4 1 example_stats AttributeError
    example_packet example_packed.2 example_packed.1); [reflexivity|vm_compute; reflexivity|by eexists|vm_compute; reflexivity..].
Defined.

Lemma role_request_granted_witness :
  exists s1, nx_receive example_rand example_app map_to_list 11 2 example_master_request example_nx_up = (Ok tt, s1) /\
    role_by_conn (channel s1) !! 11 = Some ROLE_MASTER.
Proof.
  destruct (role_request_granted example_rand example_app map_to_list example_nx_up 11 2 ROLE_MASTER (mk_header 1 4 20 (Some 3)) ROLE_OTHER)
    as (b & reply & s1 & Eb & _ & E & _ & Er & _); [vm_compute; split; congruence|vm_compute; reflexivity|].
  exists s1. rewrite (role_data_pack_ok ROLE_REQUEST 8 ROLE_MASTER) in Eb by (vm_compute; split; congruence).
  injection Eb as <-. split; [exact E|exact Er].
Defined.
