(* ===== verification/Dns.v ===== *)
(** * DNS packets ([pox/lib/packet/dns.py])

    Parsing, and what there is of packing.  A position in a packet is an index
    from zero up.  Names may be compressed: a label may be replaced by a pointer
    to an earlier name, which [_read_dns_name_from_index] follows by calling
    itself, so that the depth of Python's stack bounds the pointers of a name;
    that depth, as it is for the name of a question, is an argument (the names in
    the data of a record are read by one more function).  Printing is left out. *)

From S2P Require Import Prelude PyStruct Addresses.

Inductive rddata := RAddr (a : IPAddr) | RName (name : bytes) | RData (b : bytes).
Record question := mk_question { qs_name : bytes; qs_qtype : Z; qs_qclass : Z }.
Record rr := mk_rr { rr_name : bytes; rr_qtype : Z; rr_qclass : Z; rr_ttl : Z; rr_rdlen : Z; rr_rddata : rddata }.

Record dns_header := mk_dns_header {
  dn_id : Z; dn_qr : bool; dn_opcode : Z; dn_aa : bool; dn_tc : bool; dn_rd : bool; dn_ra : bool; dn_z : bool; dn_ad : bool;
  dn_cd : bool; dn_rcode : Z
}.
Definition new_dns_header : dns_header := mk_dns_header 0 false 0 false false false false false false false 0.
Record dns := mk_dns {
  dn_parsed : bool; dn_header : dns_header;
  dn_questions : list question; dn_answers : list rr; dn_authorities : list rr; dn_additional : list rr
}.
Definition new_dns : dns := mk_dns false new_dns_header [] [] [] [].

#[global] Instance rddata_eq_dec : EqDecision rddata.
Proof. solve_decision. Defined.
#[global] Instance question_eq_dec : EqDecision question.
Proof. solve_decision. Defined.
#[global] Instance rr_eq_dec : EqDecision rr.
Proof. solve_decision. Defined.

(** ** Names *)

(** The loop of [_read_dns_name_from_index]: it gives the index of the last byte
    of the name.  [follow] is the recursive call. *)
Fixpoint read_labels (fuel : nat) (follow : Z -> result (list bytes)) (l : bytes) (index : Z) : result (Z * list bytes) :=
  match fuel with
  | O => Err OutOfFuel
  | S fuel =>
      chunk_size ← byte_at l index;
      if Z.land chunk_size 0xc0 =? 0xc0 then
        low ← byte_at l (index + 1);
        names ← follow (Z.lor (Z.shiftl (Z.land chunk_size 0x3) 8) low);
        mret (index + 1, names)
      else if chunk_size =? 0 then mret (index, [])
      else
        let index := index + 1 in
        '(next, names) ← read_labels fuel follow l (index + chunk_size);
        mret (next, pyslice l index (index + chunk_size) :: names)
  end.
(** [depth] is how often it may call itself. *)
Fixpoint read_chunks (depth : nat) (l : bytes) (index : Z) : result (Z * list bytes) :=
  match depth with
  | O => Err RuntimeError
  | S depth => read_labels (S (length l)) (fun offset => '(_, names) ← read_chunks depth l offset; mret names) l index
  end.
Definition read_dns_name_from_index (depth : nat) (l : bytes) (index : Z) : result (Z * bytes) :=
  '(next, names) ← read_chunks depth l index;
  mret (next + 1, join (str ".") names).

(** ** Parsing *)
Definition get_rddata (depth : nat) (l : bytes) (type dlen beg_index : Z) : result rddata :=
  _ ← guard_ok (negb (blen l <? beg_index + dlen)) PlainException;
  if type =? 1 then
    (* the exception is made with a keyword that it does not take *)
    _ ← guard_ok (dlen =? 4) TypeError;
    a ← IPAddr_of_raw (pyslice l beg_index (beg_index + 4));
    mret (RAddr a)
  else if type =? 2 then '(_, name) ← read_dns_name_from_index depth l beg_index; mret (RName name)
  else if type =? 12 then '(_, name) ← read_dns_name_from_index depth l beg_index; mret (RName name)
  else if type =? 15 then '(_, name) ← read_dns_name_from_index depth l (beg_index + 2); mret (RName name)
  else mret (RData (pyslice l beg_index (beg_index + dlen))).

Section parse.
Context (depth : nat).

Definition next_question (l : bytes) (index : Z) : result (Z * question) :=
  let array_len := blen l in
  '(index, name) ← read_dns_name_from_index depth l index;
  _ ← guard_ok (negb (array_len <? index + 4)) PlainException;
  '(qtype, (qclass, _)) ← unpack [cH; cH] (pyslice l index (index + 4));
  mret (index + 4, mk_question name qtype qclass).

Definition next_rr (l : bytes) (index : Z) : result (Z * rr) :=
  let array_len := blen l in
  _ ← guard_ok (negb (array_len <? index)) PlainException;
  '(index, name) ← read_dns_name_from_index depth l index;
  _ ← guard_ok (negb (array_len <? index + 10)) PlainException;
  '(qtype, (qclass, (ttl, (rdlen, _)))) ← unpack [cH; cH; cL; cH] (pyslice l index (index + 10));
  _ ← guard_ok (negb (array_len <? index + 10 + rdlen)) PlainException;
  rddata ← get_rddata (pred depth) l qtype rdlen (index + 10);
  mret (index + 10 + rdlen, mk_rr name qtype qclass ttl rdlen rddata).

(** One of the four loops of [parse]: what it read, and the index it got to
    unless an exception ended it. *)
Fixpoint read_many {A} (next : Z -> result (Z * A)) (n : nat) (index : Z) : list A * option Z :=
  match n with
  | O => ([], Some index)
  | S n =>
      match next index with
      | Err _ => ([], None)
      | Ok (index, a) => let '(l, o) := read_many next n index in (a :: l, o)
      end
  end.

Definition flag (bits mask : Z) : bool := negb (Z.land bits mask =? 0).
Definition header_of (id bits0 bits1 : Z) : dns_header :=
  mk_dns_header id (flag bits0 0x80) (Z.land (Z.shiftr bits0 4) 0x07) (flag bits0 0x04) (flag bits0 0x02) (flag bits0 0x01)
    (flag bits1 0x80) (flag bits1 0x40) (flag bits1 0x20) (flag bits1 0x10) (Z.land bits1 0x0f).

Definition dns_parse (raw : bytes) : result dns :=
  if blen raw <? 12 then mret new_dns else
  '(id, (bits0, (bits1, (nq, (na, (nauth, (nadd, _))))))) ← unpack [cH; cB; cB; cH; cH; cH; cH] (pyupto raw 12);
  let h := header_of id bits0 bits1 in
  let '(qs, o) := read_many (next_question raw) (Z.to_nat nq) 12 in
  match o with None => mret (mk_dns false h qs [] [] []) | Some query_head =>
  let '(ans, o) := read_many (next_rr raw) (Z.to_nat na) query_head in
  match o with None => mret (mk_dns false h qs ans [] []) | Some query_head =>
  let '(auth, o) := read_many (next_rr raw) (Z.to_nat nauth) query_head in
  match o with None => mret (mk_dns false h qs ans auth []) | Some query_head =>
  let '(add, o) := read_many (next_rr raw) (Z.to_nat nadd) query_head in
  mret (mk_dns (bool_decide (is_Some o)) h qs ans auth add)
  end end end.
End parse.

(** ** Packing *)

Definition bit (b : bool) (mask : Z) : Z := if b then mask else 0.
Definition pack_bits0 (h : dns_header) : Z :=
  Z.lor (Z.lor (Z.lor (Z.lor (bit (dn_qr h) 0x80) (Z.shiftl (Z.land (dn_opcode h) 0x7) 4)) (bit (dn_rd h) 1)) (bit (dn_tc h) 2)) (bit (dn_aa h) 4).
Definition pack_bits1 (h : dns_header) : Z :=
  Z.lor (Z.lor (Z.lor (Z.lor (bit (dn_ra h) 0x80) (bit (dn_z h) 0x40)) (bit (dn_ad h) 0x20)) (bit (dn_cd h) 0x10)) (Z.land (dn_rcode h) 0xf).
(** [hdr].  [putName] reads [s], which is its own variable and not yet set, so that
    the first name raises; without names [hdr] returns nothing. *)
Definition putName (name : bytes) : result unit := Err UnboundLocalError.
Definition dns_hdr (d : dns) : result (option bytes) :=
  let h := dn_header d in
  _ ← pack [cH; cB; cB; cH; cH; cH; cH] (dn_id h, (pack_bits0 h, (pack_bits1 h, (blen (dn_questions d), (blen (dn_answers d),
    (blen (dn_authorities d), (blen (dn_additional d), tt)))))));
  match (qs_name <$> dn_questions d) ++ (rr_name <$> dn_answers d ++ dn_authorities d ++ dn_additional d) with
  | name :: _ => _ ← putName name; mret None
  | [] => mret None
  end.

(** ** What is on the wire

    RFC 1035, independently of the parser: labels of 1 to 63 bytes, then a zero
    byte or the position of a name elsewhere in the packet. *)

Record wire_name := mk_wire_name { wn_labels : list bytes; wn_pointer : option Z }.
Definition encode_label (s : bytes) : bytes := byte_of_Z (blen s) :: s.
Definition encode_name (n : wire_name) : bytes :=
  concat (encode_label <$> wn_labels n) ++ match wn_pointer n with None => [x00] | Some o => be_encode 2 (0xc000 + o) end.
Definition label_ok (s : bytes) : Prop := 0 < blen s < 64.

(** The name has these labels, after so many pointers, none of which is beyond
    the first kilobyte. *)
Inductive denotes (raw : bytes) : nat -> wire_name -> list bytes -> Prop :=
  | denotes_end n ls : Forall label_ok ls -> denotes raw n (mk_wire_name ls None) ls
  | denotes_pointer n ls o name pre post ls' :
      Forall label_ok ls -> 0 <= o < 1024 -> raw = pre ++ encode_name name ++ post -> blen pre = o ->
      denotes raw n name ls' -> denotes raw (S n) (mk_wire_name ls (Some o)) (ls ++ ls').

Inductive wire_rdata := WAddr (b : bytes) | WName (name : wire_name) | WMx (preference : Z) (name : wire_name) | WData (b : bytes).
Record wire_rr := mk_wire_rr { wr_name : wire_name; wr_type : Z; wr_class : Z; wr_ttl : Z; wr_data : wire_rdata }.
Record wire_question := mk_wire_question { wq_name : wire_name; wq_type : Z; wq_class : Z }.
Definition encode_rdata (d : wire_rdata) : bytes :=
  match d with WAddr b => b | WName n => encode_name n | WMx p n => be_encode 2 p ++ encode_name n | WData b => b end.
Definition encode_question (q : wire_question) : bytes :=
  encode_name (wq_name q) ++ encode [cH; cH] (wq_type q, (wq_class q, tt)).
Definition encode_rr (r : wire_rr) : bytes :=
  encode_name (wr_name r) ++ encode [cH; cH; cL; cH] (wr_type r, (wr_class r, (wr_ttl r, (blen (encode_rdata (wr_data r)), tt)))) ++
  encode_rdata (wr_data r).

Definition dotted (ls : list bytes) : bytes := join (str ".") ls.
Definition rdata_says (raw : bytes) (n : nat) (type : Z) (d : wire_rdata) (v : rddata) : Prop :=
  match d with
  | WAddr b => type = 1 /\ blen b = 4 /\ v = RAddr (mkIP (host_i b))
  | WName name => (type = 2 \/ type = 12) /\ exists ls, denotes raw n name ls /\ v = RName (dotted ls)
  | WMx _ name => type = 15 /\ exists ls, denotes raw n name ls /\ v = RName (dotted ls)
  | WData b => type ∉ [1; 2; 12; 15] /\ v = RData b
  end.
Definition question_says (raw : bytes) (n : nat) (q : wire_question) (v : question) : Prop :=
  uint_ok 2 (wq_type q) /\ uint_ok 2 (wq_class q) /\
  exists ls, denotes raw n (wq_name q) ls /\ v = mk_question (dotted ls) (wq_type q) (wq_class q).
Definition rr_says (raw : bytes) (n : nat) (r : wire_rr) (v : rr) : Prop :=
  uint_ok 2 (wr_type r) /\ uint_ok 2 (wr_class r) /\ uint_ok 4 (wr_ttl r) /\ uint_ok 2 (blen (encode_rdata (wr_data r))) /\
  exists ls d, denotes raw n (wr_name r) ls /\ rdata_says raw n (wr_type r) (wr_data r) d /\
    v = mk_rr (dotted ls) (wr_type r) (wr_class r) (wr_ttl r) (blen (encode_rdata (wr_data r))) d.

(** ** Reading what is there *)

(** [next] reads [a] off the bytes [b] wherever they are in the packet. *)
Definition reads_at {A} (next : Z -> result (Z * A)) (raw b : bytes) (a : A) : Prop :=
  forall pre post, raw = pre ++ b ++ post -> next (blen pre) = Ok (blen pre + blen b, a).

Lemma read_many_reads {A} (next : Z -> result (Z * A)) raw (bs : list bytes) (l : list A) pre post :
  Forall2 (reads_at next raw) bs l -> raw = pre ++ concat bs ++ post ->
  read_many next (length l) (blen pre) = (l, Some (blen pre + blen (concat bs))).
Proof.
  intros H. revert pre. induction H as [|b a bs l Hb _ IH]; intros pre E; cbn [read_many length concat].
  - by rewrite blen_nil, Z.add_0_r.
  - cbn [concat] in E. rewrite <-app_assoc in E. rewrite (Hb pre _ E). rewrite <-blen_app, (IH (pre ++ b)) by (by rewrite E, <-app_assoc).
    by rewrite !blen_app, Z.add_assoc.
Qed.

Lemma blen_encode_label s : blen (encode_label s) = 1 + blen s.
Proof. apply blen_cons. Qed.

(** One label. *)
Lemma read_labels_label fuel follow pre s post :
  label_ok s ->
  read_labels (S fuel) follow (pre ++ encode_label s ++ post) (blen pre)
  = ('(next, names) ← read_labels fuel follow (pre ++ encode_label s ++ post) (blen pre + blen (encode_label s)); mret (next, s :: names)).
Proof.
  intros [H0 H64]. unfold label_ok in *. set (raw := pre ++ _). cbn [read_labels].
  assert (Hb : byte_at raw (blen pre) = Ok (blen s)).
  { subst raw. unfold encode_label. cbn [app]. rewrite (byte_at_app _ _ _ _ eq_refl), byte_to_of_Z. by rewrite Z.mod_small by lia. }
  rewrite Hb. cbn [mbind result_bind]. assert (Hl : Z.land (blen s) 0xc0 = 0) by (change 0xc0 with (Z.shiftl 3 6); rewrite Z.land_comm; apply land_shiftl_small; lia).
  rewrite Hl. rewrite (proj2 (Z.eqb_neq (blen s) 0)) by lia. change (0 =? 192) with false. cbv iota zeta.
  rewrite <-Z.add_assoc, <-blen_encode_label. replace (pyslice raw _ _) with s; [done|].
  subst raw. change (encode_label s ++ post) with ([byte_of_Z (blen s)] ++ s ++ post). rewrite app_assoc.
  symmetry. apply pyslice_app; rewrite blen_app; [done|]. rewrite blen_encode_label. change (blen [byte_of_Z (blen s)]) with 1. lia.
Qed.

Lemma read_labels_run fuel follow ls pre rest :
  Forall label_ok ls ->
  let raw := pre ++ concat (encode_label <$> ls) ++ rest in
  read_labels (length ls + fuel) follow raw (blen pre)
  = ('(next, names) ← read_labels fuel follow raw (blen pre + blen (concat (encode_label <$> ls))); mret (next, ls ++ names)).
Proof.
  intros H. revert pre. induction H as [|s ls Hs _ IH]; intros pre raw.
  - cbn [fmap list_fmap concat length plus]. rewrite blen_nil, Z.add_0_r. by destruct (read_labels _ _ _ _) as [[next names]|e].
  - subst raw. cbn [fmap list_fmap concat length plus]. rewrite <-app_assoc, read_labels_label by done. rewrite <-blen_app, app_assoc, IH.
    rewrite !blen_app, Z.add_assoc. by destruct (read_labels fuel _ _ _) as [[next names]|e].
Qed.

Lemma pointer_bytes o : 0 <= o < 0x4000 ->
  exists hi lo, be_encode 2 (0xc000 + o) = [hi; lo] /\ byte_to_Z hi = 0xc0 + o / 256 /\ byte_to_Z lo = o mod 256.
Proof.
  intros Ho. do 2 eexists. split; [reflexivity|]. rewrite !byte_to_of_Z. change (256 ^ Z.of_nat 1) with 256. change (256 ^ Z.of_nat 0) with 1.
  replace (0xc000 + o) with (o + 192 * 256) by lia. rewrite Z.div_add, Z.div_1_r, Z.mod_add by lia.
  pose proof (Z.div_pos o 256). pose proof (Z.div_lt_upper_bound o 256 64). rewrite (Z.mod_small (_ + 192)) by lia. lia.
Qed.

(** Only ten of the fourteen bits of a pointer are read. *)
Lemma read_pointer fuel follow pre post o :
  0 <= o < 0x4000 ->
  read_labels (S fuel) follow (pre ++ be_encode 2 (0xc000 + o) ++ post) (blen pre)
  = (names ← follow (o mod 1024); mret (blen pre + 1, names)).
Proof.
  intros Ho. destruct (pointer_bytes o Ho) as (hi & lo & -> & Eh & El). cbn [app read_labels].
  assert (Hd : 0 <= o / 256 < 64) by (split; [apply Z.div_pos; lia|apply Z.div_lt_upper_bound; lia]).
  rewrite (byte_at_app pre hi _ _ eq_refl). cbn [mbind result_bind]. rewrite Eh.
  replace (0xc0 + o / 256) with (Z.lor 0xc0 (o / 256)).
  2:{ change 0xc0 with (Z.shiftl 3 6) at 1. rewrite lor_shiftl_add by lia. reflexivity. }
  rewrite Z.land_lor_distr_l. change (Z.land 192 192) with 192.
  assert (Hl : Z.land (o / 256) 192 = 0).
  { change 192 with (Z.shiftl 3 6). rewrite Z.land_comm. apply land_shiftl_small; lia. }
  rewrite Hl. change (Z.lor 192 0 =? 192) with true. cbv iota.
  replace (byte_at _ (blen pre + 1)) with (Ok (byte_to_Z lo)).
  2:{ change (hi :: lo :: post) with ([hi] ++ lo :: post). rewrite app_assoc, (byte_at_app (pre ++ [hi]) lo post) by (by rewrite blen_app). done. }
  cbn [mbind result_bind]. do 2 f_equal. rewrite Z.land_lor_distr_l. change (Z.land 192 3) with 0. rewrite Z.lor_0_l.
  change 3 with (Z.ones 2). rewrite Z.land_ones by lia. change (2 ^ 2) with 4.
  pose proof (Z.mod_pos_bound o 256). pose proof (Z.mod_pos_bound (o / 256) 4). rewrite El, lor_shiftl_add by lia.
  change (2 ^ 8) with 256. change 1024 with (256 * 4). rewrite Z.rem_mul_r by lia. lia.
Qed.

Lemma labels_length ls : (length ls <= length (concat (encode_label <$> ls)))%nat.
Proof. induction ls as [|s ls IH]; [done|]. cbn [fmap list_fmap concat length]. rewrite length_app. cbn [encode_label length]. lia. Qed.

Lemma read_chunks_labels depth ls pre rest :
  Forall label_ok ls -> rest <> [] -> let raw := pre ++ concat (encode_label <$> ls) ++ rest in
  exists fuel, read_chunks (S depth) raw (blen pre)
  = ('(next, names) ← read_labels (S fuel) (fun offset => '(_, names) ← read_chunks depth raw offset; mret names) raw
       (blen pre + blen (concat (encode_label <$> ls))); mret (next, ls ++ names)).
Proof.
  intros Hls Hrest raw. cbn [read_chunks]. pose proof (labels_length ls). assert (Hl : (length ls < length raw)%nat).
  { subst raw. rewrite !length_app. destruct rest; [done|]. cbn [length]. lia. }
  exists (length raw - length ls)%nat. replace (S (length raw)) with (length ls + S (length raw - length ls))%nat by lia.
  by apply read_labels_run.
Qed.

Lemma read_chunks_denotes raw n name ls depth pre post :
  denotes raw n name ls -> (n < depth)%nat -> raw = pre ++ encode_name name ++ post ->
  read_chunks depth raw (blen pre) = Ok (blen pre + blen (encode_name name) - 1, ls).
Proof.
  intros H. revert depth pre post. induction H as [n ls Hls|n ls o name pre' post' ls' Hls Ho E' Hp Hd IH]; intros [|depth] pre post Hn E; try lia;
    unfold encode_name in E; cbn [wn_labels wn_pointer] in E; rewrite <-app_assoc in E.
  - destruct (read_chunks_labels depth ls pre ([x00] ++ post) Hls) as [fuel Hr]; [done|]. rewrite <-E in Hr. rewrite Hr.
    replace (read_labels _ _ _ _) with (Ok (blen pre + blen (concat (encode_label <$> ls)), [] : list bytes)).
    + cbn [mbind result_bind mret result_ret]. rewrite app_nil_r. unfold encode_name. cbn [wn_labels wn_pointer]. rewrite blen_app.
      change (blen [x00]) with 1. do 2 f_equal. lia.
    + cbn [read_labels]. rewrite E, app_assoc, <-blen_app. cbn [app]. by rewrite (byte_at_app _ _ _ _ eq_refl).
  - destruct (read_chunks_labels depth ls pre (be_encode 2 (0xc000 + o) ++ post) Hls) as [fuel Hr]; [done|]. rewrite <-E in Hr. rewrite Hr.
    match goal with |- context [read_labels ?f ?fo raw ?i] => assert (Hptr : read_labels f fo raw i = (names ← fo (o mod 1024); mret (i + 1, names))) end.
    { rewrite E at 1. rewrite app_assoc, <-blen_app. by apply read_pointer; lia. }
    rewrite Hptr. rewrite (Z.mod_small o), <-Hp by lia. rewrite (IH depth pre' post') by (lia || done). cbn [mbind result_bind mret result_ret]. unfold encode_name. cbn [wn_labels wn_pointer].
    rewrite !blen_app, blen_be_encode. do 2 f_equal. lia.
Qed.

Lemma read_name_denotes raw n name ls depth : denotes raw n name ls -> (n < depth)%nat ->
  reads_at (read_dns_name_from_index depth raw) raw (encode_name name) (dotted ls).
Proof.
  intros Hd Hn pre post E. unfold read_dns_name_from_index. rewrite (read_chunks_denotes raw n name ls depth pre post) by done.
  cbn [mbind result_bind mret result_ret]. do 2 f_equal. lia.
Qed.

Lemma unpack_slice f v raw pre post n :
  raw = pre ++ encode f v ++ post -> n = Z.of_nat (calcsize f) -> no_sint0 f = true -> packable f v -> exact f v ->
  unpack f (pyslice raw (blen pre) (blen pre + n)) = Ok v.
Proof. intros -> -> Hs Hp He. rewrite (pyslice_app pre (encode f v) post) by (done || by rewrite blen_encode). by apply unpack_encode. Qed.

(** The data of a record. *)
Lemma get_rddata_reads raw n type d v depth pre post :
  rdata_says raw n type d v -> (n < depth)%nat -> raw = pre ++ encode_rdata d ++ post ->
  get_rddata depth raw type (blen (encode_rdata d)) (blen pre) = Ok v.
Proof.
  intros Hd Hn E. unfold get_rddata.
  assert (Hfit : blen raw <? blen pre + blen (encode_rdata d) = false).
  { apply Z.ltb_ge. rewrite E, !blen_app. pose proof (blen_nonneg post). lia. }
  rewrite Hfit. cbn [negb guard_ok mbind result_bind].
  destruct d as [b|name|p name|b]; cbn [rdata_says encode_rdata] in *.
  - destruct Hd as (-> & Hb & ->). rewrite Hb. change (1 =? 1) with true. change (4 =? 4) with true. cbn [guard_ok mbind result_bind].
    rewrite E, (pyslice_app pre b post) by (done || by rewrite Hb). unfold IPAddr_of_raw. by rewrite Hb.
  - destruct Hd as (Ht & ls & Hls & ->). pose proof (read_name_denotes raw n name ls depth Hls Hn pre post E) as Hr.
    destruct Ht as [-> | ->]; (change (2 =? 1) with false || change (12 =? 1) with false); cbv iota; cbn; by rewrite Hr.
  - destruct Hd as (-> & ls & Hls & ->). rewrite <-app_assoc, app_assoc in E.
    pose proof (read_name_denotes raw n name ls depth Hls Hn (pre ++ be_encode 2 p) post E) as Hr.
    rewrite blen_app, blen_be_encode in Hr. change (Z.of_nat 2) with 2 in Hr.
    change (15 =? 1) with false. change (15 =? 2) with false. change (15 =? 12) with false. change (15 =? 15) with true. cbv iota. by rewrite Hr.
  - destruct Hd as [Ht ->]. rewrite !not_elem_of_cons in Ht. destruct Ht as (H1 & H2 & H3 & H4 & _).
    rewrite !(proj2 (Z.eqb_neq _ _)) by done. by rewrite E, (pyslice_app pre b post).
Qed.

Lemma next_question_reads raw n q v depth : question_says raw n q v -> (n < depth)%nat ->
  reads_at (next_question depth raw) raw (encode_question q) v.
Proof.
  intros (Ht & Hc & ls & Hls & ->) Hn pre post E. unfold encode_question in *. rewrite <-app_assoc in E. unfold next_question.
  rewrite (read_name_denotes raw n _ ls depth Hls Hn pre _ E). cbn [mbind result_bind].
  assert (Hfit : blen raw <? blen pre + blen (encode_name (wq_name q)) + 4 = false).
  { apply Z.ltb_ge. rewrite E, !blen_app, blen_encode. pose proof (blen_nonneg post). cbn. lia. }
  rewrite Hfit. cbn [negb guard_ok mbind result_bind]. rewrite app_assoc in E. rewrite <-blen_app.
  rewrite (unpack_slice _ _ _ _ _ _ E) by done. cbn [mbind result_bind mret result_ret]. rewrite !blen_app, blen_encode. cbn. do 2 f_equal. lia.
Qed.

Lemma next_rr_reads raw n r v depth : rr_says raw n r v -> (S n < depth)%nat ->
  reads_at (next_rr depth raw) raw (encode_rr r) v.
Proof.
  intros (Ht & Hc & Httl & Hl & ls & d & Hls & Hd & ->) Hn pre post E. unfold encode_rr in *. rewrite <-!app_assoc in E. unfold next_rr.
  assert (Hfit : blen raw = blen pre + blen (encode_name (wr_name r)) + 10 + blen (encode_rdata (wr_data r)) + blen post).
  { rewrite E, !blen_app, blen_encode. cbn. lia. }
  pose proof (blen_nonneg post). pose proof (blen_nonneg (encode_rdata (wr_data r))). pose proof (blen_nonneg (encode_name (wr_name r))).
  rewrite (proj2 (Z.ltb_ge _ _)) by lia. cbn [negb guard_ok mbind result_bind].
  rewrite (read_name_denotes raw n _ ls depth Hls) with (post := _) (pre := pre) by (lia || exact E). cbn [mbind result_bind].
  rewrite (proj2 (Z.ltb_ge _ _)) by lia. cbn [negb guard_ok mbind result_bind]. rewrite app_assoc in E. rewrite <-blen_app.
  rewrite (unpack_slice _ _ _ _ _ _ E) by done. cbn [mbind result_bind]. rewrite blen_app.
  rewrite (proj2 (Z.ltb_ge _ _)) by lia. cbn [negb guard_ok mbind result_bind]. rewrite app_assoc in E.
  pose proof (get_rddata_reads raw n _ _ d (pred depth) _ post Hd ltac:(lia) E) as Hg. rewrite !blen_app, blen_encode in Hg.
  change (Z.of_nat (calcsize [cH; cH; cL; cH])) with 10 in Hg. rewrite Hg. cbn [mbind result_bind mret result_ret].
  rewrite !blen_app, blen_encode. cbn. do 2 f_equal. lia.
Qed.

(** ** Ends *)

Lemma byte_at_ends l i : byte_at l i <> Err OutOfFuel.
Proof. unfold byte_at. by destruct (l !! _). Qed.
Lemma byte_at_inside l i b : 0 <= i -> byte_at l i = Ok b -> i < blen l /\ 0 <= b.
Proof.
  intros Hi. unfold byte_at. destruct (l !! Z.to_nat i) as [x|] eqn:E; [|done]. intros [= <-]. apply lookup_lt_Some in E.
  unfold blen. pose proof (byte_to_Z_range x). lia.
Qed.

Lemma read_labels_ends fuel follow l index :
  (forall o, 0 <= o -> follow o <> Err OutOfFuel) -> 0 <= index -> Z.max 0 (blen l - index) < Z.of_nat fuel ->
  read_labels fuel follow l index <> Err OutOfFuel.
Proof.
  intros Hf. revert index. induction fuel as [|fuel IH]; intros index Hi Hl.
  { exfalso. lia. }
  cbn [read_labels]. destruct (byte_at l index) as [c|e] eqn:Ec; [|intros [= ->]; by apply (byte_at_ends l index)].
  apply byte_at_inside in Ec as [Hin Hc]; [|done]. cbn [mbind result_bind]. destruct (_ =? 192).
  - destruct (byte_at l (index + 1)) as [low|e] eqn:El; [|intros [= ->]; by apply (byte_at_ends l (index + 1))].
    apply byte_at_inside in El as [_ Hlow]; [|lia]. cbn [mbind result_bind]. specialize (Hf (Z.lor (Z.shiftl (Z.land c 3) 8) low)).
    assert (Ho : 0 <= Z.lor (Z.shiftl (Z.land c 3) 8) low) by (apply Z.lor_nonneg; split; [apply Z.shiftl_nonneg, Z.land_nonneg; by left|done]).
    destruct (follow _) as [names|e]; [done|]. intros [= ->]. by apply (Hf Ho).
  - destruct (Z.eqb_spec c 0) as [->|Hz]; [done|]. cbv zeta. specialize (IH (index + 1 + c)).
    destruct (read_labels fuel follow l _) as [[next names]|e]; [done|]. cbn [mbind result_bind]. intros [= ->]. apply IH; [lia|lia|done].
Qed.

Lemma read_chunks_ends depth l index : 0 <= index -> read_chunks depth l index <> Err OutOfFuel.
Proof.
  revert index. induction depth as [|depth IH]; intros index Hi; [done|]. cbn [read_chunks].
  apply read_labels_ends; [|done|unfold blen; lia]. intros o Ho. specialize (IH o Ho).
  destruct (read_chunks depth l o) as [[next names]|e]; [done|]. cbn [mbind result_bind]. congruence.
Qed.

Lemma read_many_length {A} (next : Z -> result (Z * A)) n index :
  let '(l, o) := read_many next n index in (length l <= n)%nat /\ (is_Some o -> length l = n).
Proof.
  revert index. induction n as [|n IH]; intros index; cbn [read_many]; [by split|].
  destruct (next index) as [[i a]|e]; [|split; [cbn; lia|by intros [??]]].
  specialize (IH i). destruct (read_many next n i) as [l o]. destruct IH as [H1 H2]. cbn [length]. split; [lia|]. intros Ho. by rewrite (H2 Ho).
Qed.

(** A pointer to itself. *)
Lemma self_pointer depth pre post o :
  blen pre = o -> 0 <= o < 1024 -> read_chunks depth (pre ++ be_encode 2 (0xc000 + o) ++ post) o = Err RuntimeError.
Proof.
  intros <- Ho. induction depth as [|depth IH]; [done|]. cbn [read_chunks]. rewrite read_pointer, Z.mod_small by lia.
  by rewrite IH.
Qed.

(** ** The header *)

(** The two bytes of flags of RFC 1035 and 2535. *)
Definition rfc_bits0 (qr : bool) (opcode : Z) (aa tc rd : bool) : Z := bit qr 128 + opcode * 8 + bit aa 4 + bit tc 2 + bit rd 1.
Definition rfc_bits1 (ra z ad cd : bool) (rcode : Z) : Z := bit ra 128 + bit z 64 + bit ad 32 + bit cd 16 + rcode.

Lemma below_16 (P : Z -> Prop) : Forall P [0; 1; 2; 3; 4; 5; 6; 7; 8; 9; 10; 11; 12; 13; 14; 15] -> forall z, 0 <= z < 16 -> P z.
Proof. intros H z Hz. rewrite Forall_forall in H. apply H. change (z ∈ seqZ 0 16). apply elem_of_seqZ. lia. Qed.

Lemma header_of_rfc id qr opcode aa tc rd ra z ad cd rcode :
  0 <= opcode < 16 -> 0 <= rcode < 16 ->
  header_of id (rfc_bits0 qr opcode aa tc rd) (rfc_bits1 ra z ad cd rcode)
  = mk_dns_header id qr (opcode / 2) aa tc rd ra z ad cd rcode.
Proof.
  intros Ho Hr. unfold header_of.
  assert (E0 : forall o, 0 <= o < 16 -> let b := rfc_bits0 qr o aa tc rd in
    (flag b 128, Z.land (Z.shiftr b 4) 7, flag b 4, flag b 2, flag b 1) = (qr, o / 2, aa, tc, rd)).
  { apply below_16. destruct qr, aa, tc, rd; repeat constructor. }
  assert (E1 : forall r, 0 <= r < 16 -> let b := rfc_bits1 ra z ad cd r in
    (flag b 128, flag b 64, flag b 32, flag b 16, Z.land b 15) = (ra, z, ad, cd, r)).
  { apply below_16. destruct ra, z, ad, cd; repeat constructor. }
  specialize (E0 opcode Ho). specialize (E1 rcode Hr). cbv zeta in E0, E1. by injection E0 as -> -> -> -> ->; injection E1 as -> -> -> -> ->.
Qed.

(** Packing gives no bytes. *)
Lemma dns_packs_nothing d : exists x, (o ← dns_hdr d; need TypeError o : result bytes) = Err x.
Proof.
  unfold dns_hdr. destruct (pack _ _) as [b|x]; [|by eexists]. cbn [mbind result_bind]. destruct (_ ++ _); by eexists.
Qed.

(** ** Properties *)


Lemma dns_total (depth : nat) (raw : bytes) :
  (forall index, 0 <= index -> read_chunks depth raw index <> Err OutOfFuel) /\
  exists d, dns_parse depth raw = Ok d /\ (blen raw < 12 -> d = new_dns) /\
    forall id bits0 bits1 nq na nauth nadd,
      unpack [cH; cB; cB; cH; cH; cH; cH] (pyupto raw 12) = Ok (id, (bits0, (bits1, (nq, (na, (nauth, (nadd, tt))))))) -> 12 <= blen raw ->
      dn_header d = header_of id bits0 bits1 /\
      (length (dn_questions d) <= Z.to_nat nq)%nat /\ (length (dn_answers d) <= Z.to_nat na)%nat /\
      (length (dn_authorities d) <= Z.to_nat nauth)%nat /\ (length (dn_additional d) <= Z.to_nat nadd)%nat /\
      (dn_parsed d = true -> length (dn_questions d) = Z.to_nat nq /\ length (dn_answers d) = Z.to_nat na /\
         length (dn_authorities d) = Z.to_nat nauth /\ length (dn_additional d) = Z.to_nat nadd).
Proof.
  split; [intros index; apply read_chunks_ends|]. unfold dns_parse. destruct (Z.ltb_spec (blen raw) 12) as [Hs|Hs].
  { exists new_dns. split; [done|]. split; [done|]. intros. lia. }
  assert (Lu : length (pyupto raw 12) = 12%nat) by (unfold pyupto; rewrite pyslice_pos by lia; unfold blen in *; rewrite length_take, length_drop; lia).
  unfold unpack. rewrite Lu. change (12 =? calcsize _)%nat with true. cbn [mbind result_bind]. cbv iota.
  destruct (decode [cH; cB; cB; cH; cH; cH; cH] _) as [id0 [b0 [b1 [nq0 [na0 [nauth0 [nadd0 []]]]]]]].
  pose proof (read_many_length (next_question depth raw) (Z.to_nat nq0) 12) as L1. destruct (read_many _ _ 12) as [qs [i1|]]; destruct L1 as [L1 L1'].
  2:{ eexists. split; [reflexivity|]. split; [lia|]. intros * [= -> -> -> -> -> -> ->] _. cbn. repeat split; try lia; done. }
  pose proof (read_many_length (next_rr depth raw) (Z.to_nat na0) i1) as L2. destruct (read_many _ _ i1) as [ans [i2|]]; destruct L2 as [L2 L2'].
  2:{ eexists. split; [reflexivity|]. split; [lia|]. intros * [= -> -> -> -> -> -> ->] _. cbn. repeat split; try lia; done. }
  pose proof (read_many_length (next_rr depth raw) (Z.to_nat nauth0) i2) as L3. destruct (read_many _ _ i2) as [auth [i3|]]; destruct L3 as [L3 L3'].
  2:{ eexists. split; [reflexivity|]. split; [lia|]. intros * [= -> -> -> -> -> -> ->] _. cbn. repeat split; try lia; done. }
  pose proof (read_many_length (next_rr depth raw) (Z.to_nat nadd0) i3) as L4. destruct (read_many _ _ i3) as [add o]; destruct L4 as [L4 L4'].
  eexists. split; [reflexivity|]. split; [lia|]. intros * [= -> -> -> -> -> -> ->] _. cbn. split_and!; try lia; try done.
  intros Hp%bool_decide_eq_true. by rewrite L1', L2', L3', L4'.
Qed.

(** Parsing never raises and always ends, whatever the bytes: a name ends, or
    raises, before the end of the packet is passed, and pointers in a circle run
    into the bound of the stack, which [parse] turns into a packet that is not
    parsed.  No section has more entries than its count, and a packet counts as
    parsed only with all of them. *)
Theorem dns_parse_ends (depth : nat) (raw : bytes) :
  (forall index, 0 <= index -> read_chunks depth raw index <> Err OutOfFuel) /\
  exists d, dns_parse depth raw = Ok d /\ (blen raw < 12 -> d = new_dns) /\
    forall id bits0 bits1 nq na nauth nadd,
      unpack [cH; cB; cB; cH; cH; cH; cH] (pyupto raw 12) = Ok (id, (bits0, (bits1, (nq, (na, (nauth, (nadd, tt))))))) -> 12 <= blen raw ->
      dn_header d = header_of id bits0 bits1 /\
      (length (dn_questions d) <= Z.to_nat nq)%nat /\ (length (dn_answers d) <= Z.to_nat na)%nat /\
      (length (dn_authorities d) <= Z.to_nat nauth)%nat /\ (length (dn_additional d) <= Z.to_nat nadd)%nat /\
      (dn_parsed d = true -> length (dn_questions d) = Z.to_nat nq /\ length (dn_answers d) = Z.to_nat na /\
         length (dn_authorities d) = Z.to_nat nauth /\ length (dn_additional d) = Z.to_nat nadd).
Proof. apply dns_total. Qed.

(** ** An answer with compressed names *)

Definition example_www : wire_name := mk_wire_name [str "w"; str "cs"] None.
Definition example_zone (l : list bytes) : wire_name := mk_wire_name l (Some 14).
Definition example_qs : list wire_question := [mk_wire_question example_www 1 1].
Definition example_ans : list wire_rr := [mk_wire_rr (mk_wire_name [] (Some 12)) 1 1 300 (WAddr [x0a; x00; x00; x01])].
Definition example_auth : list wire_rr := [mk_wire_rr (example_zone []) 2 1 300 (WName (example_zone [str "ns"]))].
Definition example_add : list wire_rr := [mk_wire_rr (example_zone []) 15 1 300 (WMx 5 (example_zone [str "mx"])); mk_wire_rr example_www 16 1 300 (WData (str "hi"))].
Definition example_message : bytes :=
  encode [cH; cB; cB; cH; cH; cH; cH] (7, (rfc_bits0 true 0 true false true, (rfc_bits1 true false false false 0,
    (1, (1, (1, (2, tt))))))) ++
  concat (encode_question <$> example_qs) ++ concat (encode_rr <$> example_ans) ++ concat (encode_rr <$> example_auth) ++
  concat (encode_rr <$> example_add) ++ [].
Definition example_dns : dns :=
  mk_dns true (mk_dns_header 7 true 0 true false true true false false false 0)
    [mk_question (str "w.cs") 1 1] [mk_rr (str "w.cs") 1 1 300 4 (RAddr (mkIP (host_i [x0a; x00; x00; x01])))]
    [mk_rr (str "cs") 2 1 300 5 (RName (str "ns.cs"))]
    [mk_rr (str "cs") 15 1 300 7 (RName (str "mx.cs")); mk_rr (str "w.cs") 16 1 300 2 (RData (str "hi"))].

Lemma example_www_denotes n : denotes example_message n example_www [str "w"; str "cs"].
Proof. constructor. by repeat constructor. Qed.
Lemma example_pointer_denotes n : denotes example_message (S n) (mk_wire_name [] (Some 12)) [str "w"; str "cs"].
Proof.
  apply (denotes_pointer example_message n [] 12 example_www (take 12 example_message) (drop 18 example_message) [str "w"; str "cs"]);
    [constructor|lia|by vm_compute|by vm_compute|apply example_www_denotes].
Qed.
Lemma example_zone_denotes n ls : Forall label_ok ls -> denotes example_message (S n) (example_zone ls) (ls ++ [str "cs"]).
Proof.
  intros H. apply (denotes_pointer example_message n ls 14 (mk_wire_name [str "cs"] None) (take 14 example_message) (drop 18 example_message));
    [done|lia|by vm_compute|by vm_compute|constructor; by repeat constructor].
Qed.


(** A name beyond the first kilobyte is taken for another one. *)
Example far_pointer :
  let raw := encode_name example_www ++ zeros 1024 ++ encode_name (mk_wire_name [str "far"] None) ++ encode_name (mk_wire_name [] (Some 1030)) in
  read_dns_name_from_index 5 raw 1030 = Ok (1035, str "far") /\ read_dns_name_from_index 5 raw 1035 = Ok (1037, []) .
Proof. by vm_compute. Qed.
