(* ===== verification/Dhcp.v ===== *)
(** * DHCP packets ([pox/lib/packet/dhcp.py])

    Parsing, packing and options.  [options] is a [DirtyDict], [None] while the
    object has no such attribute; the order in which Python lists it is an
    argument.  Printing is left out. *)

From S2P Require Import Prelude PyStruct Addresses Codec OfpMatch.

Definition DHCP_MIN_LEN : Z := 240.
Definition OVERLOAD_OPT : Z := 52.
Definition PAD_OPT : Z := 0.
Definition END_OPT : Z := 255.
Definition MAGIC : bytes := [x63; x82; x53; x63].

(** The value of an option: a string, or a list of strings. *)
Inductive optval := OBytes (b : bytes) | OList (l : list bytes).
Abbreviation dict := (gmap Z optval).

Inductive chaddr := CNone | CRaw (b : bytes) | CEth (a : EthAddr).

Record dhcp := mk_dhcp {
  dh_parsed : bool; dh_op : Z; dh_htype : Z; dh_hlen : Z; dh_hops : Z; dh_xid : Z; dh_secs : Z; dh_flags : Z;
  dh_ciaddr : nwaddr; dh_yiaddr : nwaddr; dh_siaddr : nwaddr; dh_giaddr : nwaddr; dh_chaddr : chaddr;
  dh_sname : bytes; dh_file : bytes; dh_magic : bytes; dh_raw_options : bytes; dh_options : option dict; dh_dirty : bool
}.
(** An object without [raw], and one that [parse] is about to fill. *)
Definition new_dhcp : dhcp :=
  mk_dhcp false 0 0 0 0 0 0 0 (NwIP IP_ANY) (NwIP IP_ANY) (NwIP IP_ANY) (NwIP IP_ANY) CNone [] [] [] [] (Some ∅) false.
Definition blank_dhcp : dhcp :=
  mk_dhcp false 0 0 0 0 0 0 0 (NwIP IP_ANY) (NwIP IP_ANY) (NwIP IP_ANY) (NwIP IP_ANY) CNone [] [] [] [] None false.
Definition set_dhcp_options (raw_options : bytes) (options : option dict) (dirty : bool) (d : dhcp) : dhcp :=
  mk_dhcp (dh_parsed d) (dh_op d) (dh_htype d) (dh_hlen d) (dh_hops d) (dh_xid d) (dh_secs d) (dh_flags d) (dh_ciaddr d) (dh_yiaddr d)
    (dh_siaddr d) (dh_giaddr d) (dh_chaddr d) (dh_sname d) (dh_file d) (dh_magic d) raw_options options dirty.

(** ** Options *)

(** [self.options[opt] = ...] or [+=]. *)
Definition add_option (opt : Z) (v : bytes) (o : dict) : dict :=
  <[opt := match o !! opt with Some (OBytes w) => OBytes (w ++ v) | _ => OBytes v end]> o.

(** The loop of [parseOptionSegment]. *)
Fixpoint segment_loop (fuel : nat) (barr : bytes) (ofs : Z) (o : dict) : result dict :=
  match fuel with
  | O => Err OutOfFuel
  | S fuel =>
      let l := blen barr in
      if l <=? ofs then mret o else
      opt ← byte_at barr ofs;
      if opt =? END_OPT then mret o else
      let ofs := ofs + 1 in
      if opt =? PAD_OPT then segment_loop fuel barr ofs o else
      if l <=? ofs then mret o else
      opt_len ← byte_at barr ofs;
      let ofs := ofs + 1 in
      if l <? ofs + opt_len then mret o else
      segment_loop fuel barr (ofs + opt_len) (add_option opt (pyslice barr ofs (ofs + opt_len)) o)
  end.
Definition parseOptionSegment (barr : bytes) (o : dict) : result dict := segment_loop (S (length barr)) barr 0 o.

(** The first byte of the overload option, a string, is compared with a number;
    they differ, and the message about it formats the string as a number. *)
Definition parseOptions (raw_options : bytes) : result dict :=
  o ← parseOptionSegment raw_options ∅;
  match o !! OVERLOAD_OPT with
  | None => mret o
  | Some (OBytes []) => Err IndexError
  | Some _ => Err TypeError
  end.

Definition addPart (k : Z) (v : bytes) : result bytes :=
  k ← py_chr k; n ← py_chr (blen v);
  let o := [k; n] ++ v in
  mret (if Z.odd (blen o) then o ++ [byte_of_Z PAD_OPT] else o).

(** [[v[i:i+255] for i in range(0, len(v), 255)]]. *)
Fixpoint chunks (fuel : nat) (v : bytes) : list bytes :=
  match fuel, v with
  | O, _ | _, [] => []
  | S fuel, _ => take 255 v :: chunks fuel (drop 255 v)
  end.
Definition parts (v : optval) : list bytes :=
  match v with
  | OBytes b => if 255 <? blen b then chunks (length b) b else [b]
  | OList l => l
  end.
Fixpoint pack_items (l : list (Z * optval)) : result bytes :=
  match l with
  | [] => mret [byte_of_Z END_OPT]
  | (k, v) :: l =>
      if (k =? END_OPT) || (k =? PAD_OPT) then pack_items l else
      b ← mapR (addPart k) (parts v);
      bs ← pack_items l;
      mret (concat b ++ bs)
  end.

Section dhcp.
Context (items : dict -> list (Z * optval)).

Definition packOptions (m : dict) : result bytes := pack_items (items m).

(** ** The packet *)

Definition dhcp_parse (raw : bytes) : result dhcp :=
  if blen raw <? DHCP_MIN_LEN then mret blank_dhcp else
  '(op, (htype, (hlen, (hops, (xid, (secs, (flags, (ci, (yi, (si, (gi, _))))))))))) ←
    unpack [cB; cB; cB; cB; cL; cH; cH; cL; cL; cL; cL] (pyupto raw 28);
  let ip z := NwIP (IPAddr_of_int z false) in
  chaddr ← (if hlen =? 6 then a ← EthAddr_init (EStr (pyupto (pyslice raw 28 44) 6)); mret (CEth a) else mret (CRaw (pyslice raw 28 44)));
  let magic := pyslice raw 236 240 in
  let d raw_options options dirty :=
    mk_dhcp true op htype hlen hops xid secs flags (ip ci) (ip yi) (ip si) (ip gi) chaddr
      (pyslice raw 44 108) (pyslice raw 102 236) magic raw_options options dirty in
  if 16 <? hlen then mret (d [] None false) else
  if negb (bool_decide (magic = MAGIC)) then mret (d [] None false) else
  o ← parseOptions (pyfrom raw 240);
  mret (d (pyfrom raw 240) (Some o) (negb (bool_decide (o = ∅)))).

(** [struct.pack] takes numbers for addresses, and no [IPAddr]. *)
Definition address_number (a : nwaddr) : result Z := match a with NwInt z => mret z | NwIP _ => Err StructError end.
Definition dhcp_hdr (d : dhcp) : result (bytes * dhcp) :=
  o ← need AttributeError (dh_options d);
  d ← (if dh_dirty d then b ← packOptions o; mret (set_dhcp_options b (Some o) false d) else mret d);
  chaddr ← match dh_chaddr d with CEth a => mret (eth_toRaw a ++ zeros 10) | _ => Err UnboundLocalError end;
  ci ← address_number (dh_ciaddr d); yi ← address_number (dh_yiaddr d);
  si ← address_number (dh_siaddr d); gi ← address_number (dh_giaddr d);
  b ← pack [cB; cB; cB; cB; cL; cH; cH; cL; cL; cL; cL; cs 16; cs 64; cs 128; cs 4]
        (dh_op d, (dh_htype d, (dh_hlen d, (dh_hops d, (dh_xid d, (dh_secs d, (dh_flags d, (ci, (yi, (si, (gi,
          (chaddr, (dh_sname d, (dh_file d, (dh_magic d, tt)))))))))))))));
  mret (b ++ dh_raw_options d, d).

Definition appendRawOption (code : Z) (val : option bytes) (length : option Z) (d : dhcp) : result dhcp :=
  c ← py_chr code;
  let d := set_dhcp_options (dh_raw_options d ++ [c]) (dh_options d) (dh_dirty d) d in
  match length, val with
  | None, None => mret d
  | None, Some val => n ← py_chr (blen val); mret (set_dhcp_options (dh_raw_options d ++ [n] ++ val) (dh_options d) (dh_dirty d) d)
  | Some n, val =>
      n ← py_chr n;
      val ← need TypeError val;
      mret (set_dhcp_options (dh_raw_options d ++ [n] ++ val) (dh_options d) (dh_dirty d) d)
  end.
End dhcp.

(** ** Options come back *)

(** With any fuel beyond the bytes left, the loop ends in [r]. *)
Definition reads_to (raw : bytes) (i : Z) (o r : dict) : Prop :=
  forall fuel, blen raw - i < Z.of_nat fuel -> segment_loop fuel raw i o = Ok r.

Lemma byte_of_small z : 0 <= z < 256 -> byte_to_Z (byte_of_Z z) = z.
Proof. intros Hz. rewrite byte_to_of_Z. by apply Z.mod_small. Qed.

Lemma py_chr_ok z : 0 <= z < 256 -> py_chr z = Ok (byte_of_Z z).
Proof. intros Hz. unfold py_chr. by rewrite (proj2 (Z.leb_le _ _)), (proj2 (Z.ltb_lt _ _)) by lia. Qed.

Lemma reads_pad raw pre post o r :
  raw = pre ++ byte_of_Z PAD_OPT :: post -> reads_to raw (blen pre + 1) o r -> reads_to raw (blen pre) o r.
Proof.
  intros -> H [|fuel] Hf; [rewrite blen_app, blen_cons in Hf; pose proof (blen_nonneg post); lia|]. cbn [segment_loop].
  rewrite (proj2 (Z.leb_gt _ _)) by (rewrite blen_app, blen_cons; pose proof (blen_nonneg post); lia).
  rewrite (byte_at_app _ _ _ _ eq_refl). cbn [mbind result_bind]. apply H. lia.
Qed.

Lemma reads_option raw pre k v post o r :
  0 < k < END_OPT -> blen v <= 255 -> raw = pre ++ byte_of_Z k :: byte_of_Z (blen v) :: v ++ post ->
  reads_to raw (blen pre + 2 + blen v) (add_option k v o) r -> reads_to raw (blen pre) o r.
Proof.
  unfold END_OPT. intros Hk Hv E H. pose proof (blen_nonneg v). pose proof (blen_nonneg post).
  assert (L : blen raw = blen pre + 2 + blen v + blen post) by (rewrite E, blen_app, !blen_cons, blen_app; lia).
  intros [|fuel] Hf; [lia|]. cbn [segment_loop]. rewrite (proj2 (Z.leb_gt _ _)) by lia.
  rewrite E at 1. rewrite (byte_at_app _ _ _ _ eq_refl), byte_of_small by lia. cbn [mbind result_bind].
  rewrite !(proj2 (Z.eqb_neq _ _)) by (unfold END_OPT, PAD_OPT; lia). cbv zeta. rewrite (proj2 (Z.leb_gt _ _)) by lia.
  change (pre ++ byte_of_Z k :: byte_of_Z (blen v) :: v ++ post) with (pre ++ [byte_of_Z k] ++ [byte_of_Z (blen v)] ++ v ++ post) in E.
  rewrite !app_assoc in E. rewrite E at 1. rewrite <-!app_assoc, (app_assoc pre). cbn [app]. rewrite byte_at_app by (symmetry; apply blen_app).
  rewrite byte_of_small by lia. cbn [mbind result_bind]. rewrite (proj2 (Z.ltb_ge _ _)) by lia.
  replace (pyslice raw _ _) with v.
  - replace (blen pre + 1 + 1 + blen v) with (blen pre + 2 + blen v) by lia. apply H. lia.
  - symmetry. rewrite E, <-app_assoc. apply pyslice_app; rewrite !blen_app; change (blen [_]) with 1; lia.
Qed.

Definition padding (v : bytes) : bytes := if Z.odd (blen v) then [byte_of_Z PAD_OPT] else [].
Lemma addPart_ok k v :
  0 < k < END_OPT -> blen v <= 255 -> addPart k v = Ok (byte_of_Z k :: byte_of_Z (blen v) :: v ++ padding v).
Proof.
  unfold END_OPT. intros Hk Hv. pose proof (blen_nonneg v). unfold addPart, padding. rewrite !py_chr_ok by lia. cbn [mbind result_bind mret result_ret].
  rewrite blen_app, Z.odd_add. change (Z.odd (blen [_; _])) with false. rewrite xorb_false_l. destruct (Z.odd (blen v)); [done|by rewrite app_nil_r].
Qed.

(** [addPart] is read as one option, with its padding. *)
Lemma reads_part raw pre k v post o r :
  0 < k < END_OPT -> blen v <= 255 -> let b := byte_of_Z k :: byte_of_Z (blen v) :: v ++ padding v in raw = pre ++ b ++ post ->
  reads_to raw (blen pre + blen b) (add_option k v o) r -> reads_to raw (blen pre) o r.
Proof.
  intros Hk Hv b E H. subst b. assert (E2 : raw = pre ++ byte_of_Z k :: byte_of_Z (blen v) :: v ++ padding v ++ post) by (rewrite E; cbn [app]; by rewrite <-app_assoc).
  apply (reads_option raw pre k v (padding v ++ post) o r Hk Hv E2). clear E. rewrite !blen_cons, blen_app in H. unfold padding in *.
  destruct (Z.odd (blen v)).
  - change (blen [_]) with 1 in H. set (p := pre ++ [byte_of_Z k; byte_of_Z (blen v)] ++ v).
    assert (Lp : blen p = blen pre + 2 + blen v) by (subst p; rewrite !blen_app; change (blen [_; _]) with 2; lia).
    rewrite <-Lp. apply (reads_pad raw p post); [subst p; rewrite E2, <-!app_assoc; done|].
    rewrite Lp. by replace (blen pre + 2 + blen v + 1) with (blen pre + (1 + (1 + (blen v + 1)))) by lia.
  - change (blen (@nil byte)) with 0 in H. by replace (blen pre + 2 + blen v) with (blen pre + (1 + (1 + (blen v + 0)))) by lia.
Qed.

(** All parts of one option. *)
Definition add_parts (k : Z) (ps : list bytes) (o : dict) : dict := foldl (fun o p => add_option k p o) o ps.
Definition encode_part (k : Z) (p : bytes) : bytes := byte_of_Z k :: byte_of_Z (blen p) :: p ++ padding p.

Lemma mapR_parts k ps : 0 < k < END_OPT -> Forall (fun p => blen p <= 255) ps -> mapR (addPart k) ps = Ok (encode_part k <$> ps).
Proof. intros Hk. induction 1 as [|p ps Hp _ IH]; [done|]. cbn [mapR fmap list_fmap]. rewrite addPart_ok by done. cbn [mbind result_bind]. by rewrite IH. Qed.

Lemma reads_parts raw k ps : 0 < k < END_OPT -> Forall (fun p => blen p <= 255) ps -> forall pre post o r,
  raw = pre ++ concat (encode_part k <$> ps) ++ post ->
  reads_to raw (blen pre + blen (concat (encode_part k <$> ps))) (add_parts k ps o) r -> reads_to raw (blen pre) o r.
Proof.
  intros Hk. induction 1 as [|p ps Hp _ IH]; intros pre post o r E H; cbn [fmap list_fmap concat add_parts foldl] in *.
  - by rewrite blen_nil, Z.add_0_r in H.
  - rewrite <-app_assoc in E. apply (reads_part raw pre k p _ o r Hk Hp E). fold (encode_part k p). rewrite <-blen_app.
    rewrite app_assoc in E. apply (IH (pre ++ encode_part k p) post _ r E). revert H. by rewrite !blen_app, Z.add_assoc.
Qed.

Lemma add_parts_new k ps o : o !! k = None ->
  add_parts k ps o = match ps with [] => o | _ => <[k := OBytes (concat ps)]> o end.
Proof.
  intros Hk. destruct ps as [|p ps]; [done|]. unfold add_parts. cbn [foldl concat]. unfold add_option at 2. rewrite Hk. clear Hk. revert p.
  induction ps as [|q ps IH]; intros p; cbn [foldl concat]; [by rewrite app_nil_r|].
  unfold add_option at 2. rewrite lookup_insert_eq, insert_insert_eq. rewrite IH. by rewrite <-app_assoc.
Qed.

Lemma concat_chunks fuel v : (length v <= fuel)%nat -> concat (chunks fuel v) = v.
Proof.
  revert v. induction fuel as [|fuel IH]; intros [|b v] Hl; cbn [length] in Hl; try done; [lia|]. cbn [chunks concat].
  rewrite IH by (rewrite length_drop; cbn [length]; lia). apply take_drop.
Qed.
Lemma chunks_short fuel v : Forall (fun p => blen p <= 255) (chunks fuel v).
Proof.
  revert v. induction fuel as [|fuel IH]; intros [|b v]; try constructor; [|apply IH]. unfold blen. rewrite length_take. lia.
Qed.

(** What a value is read as: the parts of a list run together, and an empty list
    is not written. *)
Definition read_back (v : optval) : option optval :=
  match v with OBytes b => Some (OBytes b) | OList [] => None | OList l => Some (OBytes (concat l)) end.
Definition value_ok (v : optval) : Prop := match v with OBytes _ => True | OList l => Forall (fun p => blen p <= 255) l end.
Definition option_ok (kv : Z * optval) : Prop := 0 < kv.1 < END_OPT /\ value_ok kv.2.

Lemma parts_ok v : value_ok v -> Forall (fun p => blen p <= 255) (parts v).
Proof.
  destruct v as [b|l]; cbn [value_ok parts]; [|done]. intros _. destruct (Z.ltb_spec 255 (blen b)); [apply chunks_short|].
  by apply Forall_singleton.
Qed.
Lemma parts_back v : match parts v with [] => None | ps => Some (OBytes (concat ps)) end = read_back v.
Proof.
  destruct v as [b|[|p l]]; cbn [parts read_back]; [|done|done]. destruct (Z.ltb_spec 255 (blen b)).
  - destruct b as [|x b]; [done|]. pose proof (concat_chunks (length (x :: b)) (x :: b) (le_n _)) as Hc.
    destruct (chunks _ _) eqn:E; [done|]. by rewrite Hc.
  - cbn [concat]. by rewrite app_nil_r.
Qed.

Definition put_back (o : dict) (kv : Z * optval) : dict := match read_back kv.2 with Some v => <[kv.1 := v]> o | None => o end.
Lemma add_parts_back k v o : o !! k = None -> add_parts k (parts v) o = put_back o (k, v).
Proof. intros Hk. rewrite add_parts_new by done. unfold put_back. cbn [fst snd]. rewrite <-parts_back. by destruct (parts v). Qed.
Lemma put_back_ne o k v k' : k <> k' -> put_back o (k, v) !! k' = o !! k'.
Proof. intros Hne. unfold put_back. cbn [fst snd]. destruct (read_back v); [by apply lookup_insert_ne|done]. Qed.

Lemma reads_end raw pre post o : raw = pre ++ byte_of_Z END_OPT :: post -> reads_to raw (blen pre) o o.
Proof.
  intros -> [|fuel] Hf; rewrite blen_app, blen_cons in Hf; pose proof (blen_nonneg post); [lia|]. cbn [segment_loop].
  rewrite (proj2 (Z.leb_gt _ _)) by (rewrite blen_app, blen_cons; lia). by rewrite (byte_at_app _ _ _ _ eq_refl).
Qed.

Lemma reads_items l : NoDup l.*1 -> Forall option_ok l -> exists b, pack_items l = Ok b /\
  forall raw pre post o, raw = pre ++ b ++ post -> (forall k, k ∈ l.*1 -> o !! k = None) -> reads_to raw (blen pre) o (foldl put_back o l).
Proof.
  intros Hn. induction 1 as [|[k v] l [Hk Hv] _ IH].
  { exists [byte_of_Z END_OPT]. split; [done|]. intros raw pre post o E _. by apply (reads_end raw pre post). }
  cbn [fmap list_fmap fst snd] in *. apply NoDup_cons in Hn as [Hnot Hn]. destruct (IH Hn) as (bs & Eb & Hr). clear IH.
  cbn [pack_items]. rewrite !(proj2 (Z.eqb_neq _ _)) by (unfold END_OPT, PAD_OPT in *; lia). cbn [orb].
  rewrite (mapR_parts k (parts v) Hk) by (by apply parts_ok). cbn [mbind result_bind]. rewrite Eb. eexists. split; [reflexivity|].
  intros raw pre post o E Ho. rewrite <-app_assoc in E. cbn [foldl]. apply (reads_parts raw k (parts v) Hk (parts_ok v Hv) pre _ o _ E).
  rewrite add_parts_back by (apply Ho; by left). rewrite <-blen_app. rewrite app_assoc in E. apply (Hr raw _ post _ E).
  intros k' Hk'. rewrite put_back_ne by (by intros ->). apply Ho. by right.
Qed.

Lemma foldl_put_back l o k : NoDup l.*1 -> (forall k, k ∈ l.*1 -> o !! k = None) ->
  foldl put_back o l !! k = match (list_to_map l : dict) !! k with Some v => read_back v | None => o !! k end.
Proof.
  revert o. induction l as [|[k0 v0] l IH]; intros o Hn Ho; [done|]. cbn [fmap list_fmap fst] in *. apply NoDup_cons in Hn as [Hnot Hn].
  cbn [foldl list_to_map foldr]. rewrite IH; [|done|].
  2:{ intros k' Hk'. rewrite put_back_ne by (by intros ->). apply Ho. by right. }
  cbn [uncurry fst snd]. destruct (decide (k0 = k)) as [->|Hne].
  - rewrite (not_elem_of_list_to_map_1 l k) by done. rewrite lookup_insert_eq. unfold put_back. cbn [fst snd].
    destruct (read_back v0); [by rewrite lookup_insert_eq|]. apply Ho. by left.
  - rewrite lookup_insert_ne by done. by rewrite put_back_ne.
Qed.

Section items.
Context (items : dict -> list (Z * optval)) (Hitems : forall m, items m ≡ₚ map_to_list m).

Lemma options_come_back (m : dict) : (forall k v, m !! k = Some v -> option_ok (k, v)) ->
  exists b, packOptions items m = Ok b /\ forall post, parseOptionSegment (b ++ post) ∅ = Ok (omap read_back m).
Proof.
  intros Hm. assert (Hn : NoDup (items m).*1) by (rewrite Hitems; apply NoDup_fst_map_to_list).
  destruct (reads_items (items m) Hn) as (b & Eb & Hr).
  { rewrite Hitems. apply Forall_forall. intros [k v] Hkv%elem_of_map_to_list. by apply Hm. }
  exists b. split; [exact Eb|]. intros post. unfold parseOptionSegment.
  rewrite (Hr (b ++ post) [] post ∅ eq_refl); [|intros; apply lookup_empty|unfold blen; cbn; lia].
  f_equal. apply map_eq. intros k. rewrite foldl_put_back by (done || intros; apply lookup_empty). rewrite lookup_omap.
  replace (list_to_map (items m) : dict) with m; [by destruct (m !! k)|].
  rewrite <-(list_to_map_to_list m) at 1. symmetry. by apply list_to_map_proper.
Qed.
End items.

(** ** The fields *)

(** What packing lays out, and where the parser looks. *)
Definition front_fmt : list code := [cB; cB; cB; cB; cL; cH; cH; cL; cL; cL; cL].
Section layout.
Context (a c s1 s2 f m o : bytes) (La : blen a = 28) (Lc : blen c = 16) (L1 : blen s1 = 58) (L2 : blen s2 = 6) (Lf : blen f = 128) (Lm : blen m = 4).
Let raw : bytes := a ++ c ++ (s1 ++ s2) ++ f ++ m ++ o.

Lemma layout_reads :
  pyupto raw 28 = a /\ pyslice raw 28 44 = c /\ pyslice raw 44 108 = s1 ++ s2 /\ pyslice raw 102 236 = s2 ++ f /\
  pyslice raw 236 240 = m /\ pyfrom raw 240 = o /\ 240 <= blen raw.
Proof.
  assert (Lr : blen raw = 240 + blen o) by (subst raw; rewrite !blen_app; lia). pose proof (blen_nonneg o).
  split; [unfold pyupto; apply (pyslice_app [] a); [done|by rewrite La]|].
  split; [apply (pyslice_app a c); lia|].
  split; [unfold raw; rewrite (app_assoc a c); apply pyslice_app; rewrite !blen_app; lia|].
  split.
  { replace raw with ((a ++ c ++ s1) ++ (s2 ++ f) ++ m ++ o) by (unfold raw; rewrite <-?app_assoc; reflexivity).
    apply pyslice_app; rewrite !blen_app; lia. }
  split.
  { replace raw with ((a ++ c ++ (s1 ++ s2) ++ f) ++ m ++ o) by (unfold raw; rewrite <-?app_assoc; reflexivity).
    apply pyslice_app; rewrite !blen_app; lia. }
  split; [|lia]. replace raw with ((a ++ c ++ (s1 ++ s2) ++ f ++ m) ++ o) by (unfold raw; rewrite <-?app_assoc; reflexivity).
  apply pyfrom_app. rewrite !blen_app. lia.
Qed.
End layout.

(** A packet whose addresses are numbers and whose hardware address is an Ethernet
    one; what it comes back as. *)
Record dhcp_ok (d : dhcp) (a : EthAddr) (ci yi si gi : Z) (m : dict) : Prop := {
  ok_op : uint_ok 1 (dh_op d); ok_htype : uint_ok 1 (dh_htype d); ok_hlen : dh_hlen d = 6; ok_hops : uint_ok 1 (dh_hops d);
  ok_xid : uint_ok 4 (dh_xid d); ok_secs : uint_ok 2 (dh_secs d); ok_flags : uint_ok 2 (dh_flags d);
  ok_ci : dh_ciaddr d = NwInt ci; ok_yi : dh_yiaddr d = NwInt yi; ok_si : dh_siaddr d = NwInt si; ok_gi : dh_giaddr d = NwInt gi;
  ok_ips : uint_ok 4 ci /\ uint_ok 4 yi /\ uint_ok 4 si /\ uint_ok 4 gi;
  ok_chaddr : dh_chaddr d = CEth a; ok_eth : length (eth_value a) = 6%nat /\ count_byte x3a (eth_value a) <> 5%nat;
  ok_sname : blen (dh_sname d) <= 64; ok_file : blen (dh_file d) <= 128; ok_magic : dh_magic d = MAGIC;
  ok_dirty : dh_dirty d = true; ok_options : dh_options d = Some m; ok_opts : forall k v, m !! k = Some v -> option_ok (k, v)
}.
Definition dhcp_back (d : dhcp) (a : EthAddr) (ci yi si gi : Z) (raw_options : bytes) (o : dict) : dhcp :=
  let ip z := NwIP (IPAddr_of_int z false) in
  mk_dhcp true (dh_op d) (dh_htype d) 6 (dh_hops d) (dh_xid d) (dh_secs d) (dh_flags d) (ip ci) (ip yi) (ip si) (ip gi) (CEth a)
    (ljust0 64 (dh_sname d)) (drop 58 (ljust0 64 (dh_sname d)) ++ ljust0 128 (dh_file d)) MAGIC raw_options (Some o) (negb (bool_decide (o = ∅))).

Lemma segment_total fuel barr ofs o : 0 <= ofs -> blen barr - ofs < Z.of_nat fuel -> 0 < Z.of_nat fuel -> exists r, segment_loop fuel barr ofs o = Ok r.
Proof.
  assert (Hb : forall i, 0 <= i < blen barr -> exists z, byte_at barr i = Ok z /\ 0 <= z).
  { intros i Hi. unfold byte_at, blen in *. destruct (lookup_lt_is_Some_2 barr (Z.to_nat i)) as [x ->]; [lia|].
    exists (byte_to_Z x). split; [done|]. pose proof (byte_to_Z_range x). lia. }
  revert ofs o. induction fuel as [|fuel IH]; intros ofs o Ho Hf H0; [lia|]. cbn [segment_loop].
  destruct (Z.leb_spec (blen barr) ofs); [by eexists|]. destruct (Hb ofs) as (opt & -> & _); [lia|]. cbn [mbind result_bind].
  destruct (_ =? END_OPT); [by eexists|]. destruct (_ =? PAD_OPT); [apply IH; lia|].
  destruct (Z.leb_spec (blen barr) (ofs + 1)); [by eexists|]. destruct (Hb (ofs + 1)) as (n & -> & Hn); [lia|]. cbn [mbind result_bind].
  destruct (Z.ltb_spec (blen barr) (ofs + 1 + 1 + n)); [by eexists|]. apply IH; lia.
Qed.

Lemma parseOptionSegment_total barr o : exists r, parseOptionSegment barr o = Ok r.
Proof. apply segment_total; unfold blen; lia. Qed.

Section properties.
Context (items : dict -> list (Z * optval)).

(** Packing, and reading what was packed up to the options. *)
Lemma dhcp_packs d a ci yi si gi m opts :
  dhcp_ok d a ci yi si gi m -> packOptions items m = Ok opts ->
  exists b, dhcp_hdr items d = Ok (b ++ opts, set_dhcp_options opts (Some m) false d) /\ blen b = 240 /\ forall post,
    dhcp_parse (b ++ post) = (o ← parseOptions post; mret (dhcp_back d a ci yi si gi post o)).
Proof.
  intros [] Eo. destruct ok_ips0 as (? & ? & ? & ?), ok_eth0 as [Le Hc]. unfold dhcp_hdr. rewrite ok_options0, ok_dirty0. cbn [need mbind result_bind]. rewrite Eo.
  cbn [mbind result_bind mret result_ret set_dhcp_options dh_chaddr dh_ciaddr dh_yiaddr dh_siaddr dh_giaddr dh_op dh_htype dh_hlen dh_hops dh_xid
    dh_secs dh_flags dh_sname dh_file dh_magic dh_raw_options].
  rewrite ok_chaddr0, ok_ci0, ok_yi0, ok_si0, ok_gi0, ok_hlen0. cbn [mbind result_bind mret result_ret address_number].
  rewrite pack_ok by (by split_and!). cbn [mbind result_bind].
  set (v := (dh_op d, (dh_htype d, (6, (dh_hops d, (dh_xid d, (dh_secs d, (dh_flags d, (ci, (yi, (si, (gi, tt))))))))))) : vals front_fmt).
  set (sn := pack_s 64 (dh_sname d)). set (b := encode _ _).
  assert (Lsn : length sn = 64%nat) by apply pack_s_length.
  assert (Eb : forall post, b ++ post = encode front_fmt v ++ pack_s 16 (eth_toRaw a ++ zeros 10) ++ (take 58 sn ++ drop 58 sn) ++ pack_s 128 (dh_file d) ++
    pack_s 4 MAGIC ++ post).
  { intros post. subst b v. rewrite ok_magic0, take_drop. subst sn. cbn [encode front_fmt fst snd]. rewrite <-!app_assoc. by rewrite app_nil_l. }
  exists b. split; [done|]. split; [apply blen_encode|]. intros post. rewrite Eb. change (pack_s 4 MAGIC) with MAGIC. rewrite (pack_s_ljust 128) by (unfold blen in *; lia).
  assert (Ech : pack_s 16 (eth_toRaw a ++ zeros 10) = eth_toRaw a ++ zeros 10) by (apply pack_s_exact; unfold eth_toRaw; rewrite length_app, Le; done).
  rewrite Ech. pose proof (layout_reads (encode front_fmt v) (eth_toRaw a ++ zeros 10) (take 58 sn) (drop 58 sn) (ljust0 128 (dh_file d)) MAGIC post) as Hl.
  cbv zeta in Hl. destruct Hl as (R1 & R2 & R3 & R4 & R5 & R6 & R7).
  { apply blen_encode. }
  { unfold blen, eth_toRaw. rewrite length_app, Le. done. }
  { unfold blen. rewrite length_take, Lsn. done. }
  { unfold blen. rewrite length_drop, Lsn. done. }
  { by apply blen_ljust0. }
  { by vm_compute. }
  unfold dhcp_parse. rewrite (proj2 (Z.ltb_ge _ _)) by exact R7. rewrite R1, R2, R3, R4, R5, R6.
  change [cB; cB; cB; cB; cL; cH; cH; cL; cL; cL; cL] with front_fmt. rewrite unpack_encode by (try done; by split_and!).
  cbn [mbind result_bind]. change (6 =? 6) with true. cbv iota.
  replace (pyupto (eth_toRaw a ++ zeros 10) 6) with (eth_toRaw a).
  2:{ symmetry. apply pyslice_here. unfold blen, eth_toRaw. by rewrite Le. }
  unfold eth_toRaw at 1. rewrite eth_init_raw by done. rewrite decide_False by done. cbn [mbind result_bind mret result_ret]. change (16 <? 6) with false.
  rewrite bool_decide_eq_true_2 by done. cbn [negb]. rewrite take_drop. subst sn. rewrite pack_s_ljust by (unfold blen in *; lia).
  destruct a. reflexivity.
Qed.


Lemma dhcp_repack_fails (raw : bytes) (d : dhcp) :
  dhcp_parse raw = Ok d -> exists e, dhcp_hdr items d = Err e.
Proof.
  assert (Hd : forall d o, (dh_options d = o) -> (exists ip, dh_ciaddr d = NwIP ip) -> exists e, dhcp_hdr items d = Err e).
  { intros d' o Eo [ip Ei]. unfold dhcp_hdr. destruct (dh_options d') as [m|]; cbn [need mbind result_bind]; [|by eexists].
    assert (Hs : forall d2, dh_ciaddr d2 = NwIP ip -> exists e, (chaddr ← match dh_chaddr d2 with CEth a => mret (eth_toRaw a ++ zeros 10) | _ => Err UnboundLocalError end;
      ci ← address_number (dh_ciaddr d2); yi ← address_number (dh_yiaddr d2); si ← address_number (dh_siaddr d2); gi ← address_number (dh_giaddr d2);
      b ← pack [cB; cB; cB; cB; cL; cH; cH; cL; cL; cL; cL; cs 16; cs 64; cs 128; cs 4]
        (dh_op d2, (dh_htype d2, (dh_hlen d2, (dh_hops d2, (dh_xid d2, (dh_secs d2, (dh_flags d2, (ci, (yi, (si, (gi,
          (chaddr, (dh_sname d2, (dh_file d2, (dh_magic d2, tt)))))))))))))));
      mret (b ++ dh_raw_options d2, d2)) = Err e).
    { intros d2 ->. destruct (dh_chaddr d2); cbn; by eexists. }
    destruct (dh_dirty d'); [|by apply Hs]. destruct (packOptions items m) as [b|e]; [|by eexists]. cbn [mbind result_bind mret result_ret]. by apply Hs. }
  unfold dhcp_parse. destruct (_ <? DHCP_MIN_LEN); [intros [= <-]; apply (Hd _ _ eq_refl); by eexists|].
  destruct (unpack _ _) as [(op & htype & hlen & hops & xid & secs & flags & ci & yi & si & gi & [])|e]; [|done]. cbn [mbind result_bind].
  match goal with |- context [if ?b then _ else mret (CRaw ?c)] => destruct (if b then _ else mret (CRaw c)) as [ch|e]; [|done] end.
  cbn [mbind result_bind]. destruct (16 <? hlen); [intros [= <-]; apply (Hd _ _ eq_refl); by eexists|].
  destruct (negb _); [intros [= <-]; apply (Hd _ _ eq_refl); by eexists|].
  destruct (parseOptions _) as [o|e]; [|done]. intros [= <-]. apply (Hd _ _ eq_refl). by eexists.
Qed.

(** A packet that was read can never be packed, whatever it holds, so that
    neither a switch nor an application can send it on as an object. *)
Theorem dhcp_never_repacked (raw : bytes) (d : dhcp) :
  dhcp_parse raw = Ok d -> exists e, dhcp_hdr items d = Err e.
Proof. apply dhcp_repack_fails. Qed.

Lemma dhcp_outcomes (raw : bytes) :
  (blen raw < DHCP_MIN_LEN /\ dhcp_parse raw = Ok blank_dhcp) \/
  (exists d, DHCP_MIN_LEN <= blen raw /\ dhcp_parse raw = Ok d /\ dh_parsed d = true /\
     forall o, dh_options d = Some o -> parseOptionSegment (pyfrom raw 240) ∅ = Ok o /\ o !! OVERLOAD_OPT = None) \/
  (exists e, dhcp_parse raw = Err e /\
     (e = ValueError /\ count_byte x3a (pyslice raw 28 34) = 5%nat \/
      (exists o, parseOptionSegment (pyfrom raw 240) ∅ = Ok o /\ is_Some (o !! OVERLOAD_OPT)) /\ (e = TypeError \/ e = IndexError))).
Proof.
  unfold dhcp_parse. destruct (Z.ltb_spec (blen raw) DHCP_MIN_LEN) as [Hs|Hs]; [by left|right]. unfold DHCP_MIN_LEN in Hs.
  assert (Lu : length (pyupto raw 28) = 28%nat) by (unfold pyupto; rewrite pyslice_pos by lia; unfold blen in *; rewrite length_take, length_drop; lia).
  unfold unpack. rewrite Lu. change (28 =? calcsize _)%nat with true. cbn [mbind result_bind]. cbv iota.
  destruct (decode _ _) as (op & htype & hlen & hops & xid & secs & flags & ci & yi & si & gi & []).
  assert (Hch : (if hlen =? 6 then a ← EthAddr_init (EStr (pyupto (pyslice raw 28 44) 6)); mret (CEth a) else mret (CRaw (pyslice raw 28 44))) = Err ValueError
      /\ count_byte x3a (pyslice raw 28 34) = 5%nat \/
    exists ch, (if hlen =? 6 then a ← EthAddr_init (EStr (pyupto (pyslice raw 28 44) 6)); mret (CEth a) else mret (CRaw (pyslice raw 28 44))) = Ok ch).
  { destruct (hlen =? 6); [|right; by eexists]. replace (pyupto (pyslice raw 28 44) 6) with (pyslice raw 28 34).
    - rewrite eth_init_raw by (rewrite pyslice_pos by lia; unfold blen in *; rewrite length_take, length_drop; lia).
      destruct (decide _); [by left|right; by eexists].
    - unfold pyupto. rewrite !pyslice_pos by lia. rewrite drop_0, take_take. f_equal. }
  destruct Hch as [[-> Hc]|[ch ->]]; [right; eexists; split; [done|by left]|]. cbn [mbind result_bind].
  destruct (16 <? hlen); [left; eexists; split_and!; [done..|by intros]|]. destruct (negb _); [left; eexists; split_and!; [done..|by intros]|].
  unfold parseOptions. destruct (parseOptionSegment_total (pyfrom raw 240) ∅) as [o ->]. cbn [mbind result_bind].
  destruct (o !! OVERLOAD_OPT) as [[[|x b]|l]|] eqn:Eo.
  - right. eexists. split; [done|]. right. split; [by exists o|by right].
  - right. eexists. split; [done|]. right. split; [by exists o|by left].
  - right. eexists. split; [done|]. right. split; [by exists o|by left].
  - left. eexists. split_and!; [done..|]. by intros ? [= <-].
Qed.

(** Parsing ends on every string.  It raises for two reasons only: a hardware
    address of which five bytes are colons, which is taken for text, and the
    option that says that other fields hold options too: that one always raises. *)
Theorem dhcp_parse_outcomes (raw : bytes) :
  (blen raw < DHCP_MIN_LEN /\ dhcp_parse raw = Ok blank_dhcp) \/
  (exists d, DHCP_MIN_LEN <= blen raw /\ dhcp_parse raw = Ok d /\ dh_parsed d = true /\
     forall o, dh_options d = Some o -> parseOptionSegment (pyfrom raw 240) ∅ = Ok o /\ o !! OVERLOAD_OPT = None) \/
  (exists e, dhcp_parse raw = Err e /\
     (e = ValueError /\ count_byte x3a (pyslice raw 28 34) = 5%nat \/
      (exists o, parseOptionSegment (pyfrom raw 240) ∅ = Ok o /\ is_Some (o !! OVERLOAD_OPT)) /\ (e = TypeError \/ e = IndexError))).
Proof. apply dhcp_outcomes. Qed.
End properties.

(** ** Examples *)

Definition listed_options (m : dict) : list (Z * optval) := map_to_list m.
Definition example_options : dict := <[53 := OBytes [x02]]> (<[6 := OList [[x08; x08; x08; x08]; [x08; x08; x04; x04]]]> {[12 := OBytes (str "host")]}).
Definition example_hw : EthAddr := mkEth [x02; x00; x00; x00; x00; x01].
Definition example_offer : dhcp :=
  mk_dhcp false 2 1 6 0 7 0 0 (NwInt 0) (NwInt 0x0a000005) (NwInt 0x0a000001) (NwInt 0) (CEth example_hw) (str "server") (str "boot") MAGIC [] (Some example_options) true.

Lemma example_offer_ok : dhcp_ok example_offer example_hw 0 0x0a000005 0x0a000001 0 example_options.
Proof.
  constructor; try done; try (by split_and!); try by vm_compute.
  intros k v. unfold example_options. rewrite !lookup_insert_Some, lookup_singleton_Some. unfold option_ok, END_OPT.
  intros [[<- <-]|[_ [[<- <-]|[_ [<- <-]]]]]; (split; [cbn; lia|]); cbn; repeat constructor; unfold blen; cbn; lia.
Qed.


Definition example_discover : bytes := [x01; x01; x06; x00] ++ zeros 24 ++ eth_value example_hw ++ zeros 202 ++ MAGIC ++ [x35; x01; x01; xff].
Definition example_read : dhcp := match dhcp_parse example_discover with Ok d => d | Err _ => new_dhcp end.
Lemma dhcp_never_repacked_witness : dhcp_parse example_discover = Ok example_read /\ dh_parsed example_read = true /\ exists e, dhcp_hdr listed_options example_read = Err e.
Proof. split; [by vm_compute|]. split; [by vm_compute|]. apply (dhcp_never_repacked listed_options example_discover). by vm_compute. Defined.

(** A request with the option raises. *)
Example overload_raises :
  dhcp_parse ([x01; x01; x06; x00] ++ zeros 24 ++ eth_value example_hw ++ zeros 202 ++ MAGIC ++ [x34; x01; x01; xff]) = Err TypeError.
Proof. by vm_compute. Qed.
