(* ===== verification/Eap.v ===== *)
(** * EAP over LANs ([pox/lib/packet/eap.py], [pox/lib/packet/eapol.py])

    The two headers, and the type of a request or a response.  Names of codes and
    types, which only printing uses, are left out. *)

From S2P Require Import Prelude PyStruct.

Definition EAP_TYPE : Z := 0.
Definition REQUEST_CODE : Z := 1.
Definition RESPONSE_CODE : Z := 2.
Definition SUCCESS_CODE : Z := 3.

(** [eap_type] is the attribute [type], which only requests and responses have. *)
Record eap := mk_eap { eap_parsed : bool; eap_code : Z; eap_id : Z; eap_length : Z; eap_type : option Z }.
Definition new_eap : eap := mk_eap false REQUEST_CODE 0 0 None.
Record eapol := mk_eapol { eapol_parsed : bool; eapol_version : Z; eapol_type : Z; eapol_bodylen : Z; eapol_next : option eap }.
Definition new_eapol : eapol := mk_eapol false 1 EAP_TYPE 0 None.

(** A request or a response that ends before its type raises. *)
Definition eap_parse (raw : bytes) : result eap :=
  if blen raw <? 4 then mret new_eap else
  '(code, (id, (length, _))) ← unpack [cB; cB; cH] (pyupto raw 4);
  if (code =? REQUEST_CODE) || (code =? RESPONSE_CODE) then
    '(type, _) ← unpack [cB] (pyslice raw 4 5);
    mret (mk_eap true code id length (Some type))
  else mret (mk_eap true code id length None).
Definition eap_hdr (e : eap) : result bytes := pack [cB; cB; cH] (eap_code e, (eap_id e, (eap_length e, tt))).

Definition eapol_parse (raw : bytes) : result eapol :=
  if blen raw <? 4 then mret new_eapol else
  '(version, (type, (bodylen, _))) ← unpack [cB; cB; cH] (pyupto raw 4);
  if type =? EAP_TYPE then
    e ← eap_parse (pyfrom raw 4);
    mret (mk_eapol true version type bodylen (Some e))
  else mret (mk_eapol true version type bodylen None).
Definition eapol_hdr (e : eapol) : result bytes := pack [cB; cB; cH] (eapol_version e, (eapol_type e, (eapol_bodylen e, tt))).
(** [packet_base.pack]: the payload first; neither class keeps what it does not
    know as one. *)
Definition eapol_pack (e : eapol) : result bytes :=
  match eapol_next e with
  | None => eapol_hdr e
  | Some x => rest ← eap_hdr x; h ← eapol_hdr e; mret (h ++ rest)
  end.

(** What parsing keeps of a frame, and what packing makes of it.  An
    authentication message is read with its code, identifier and type; packed
    again it is its first eight bytes, without type and data, and any other kind
    of frame is its first four.  A request or response of four bytes raises, and
    nothing else does. *)
Theorem eapol_keeps_headers (version type bodylen code id len : Z) (body : bytes) :
  uint_ok 1 version -> uint_ok 1 type -> uint_ok 2 bodylen -> uint_ok 1 code -> uint_ok 1 id -> uint_ok 2 len ->
  let front := encode [cB; cB; cH] (version, (type, (bodylen, tt))) in
  let inner := encode [cB; cB; cH] (code, (id, (len, tt))) in
  let asks := (code =? REQUEST_CODE) || (code =? RESPONSE_CODE) in
  (type <> EAP_TYPE -> exists e, eapol_parse (front ++ body) = Ok e /\ eapol_parsed e = true /\ eapol_next e = None /\ eapol_pack e = Ok front) /\
  (type = EAP_TYPE -> asks = false \/ body <> [] -> exists e x, eapol_parse (front ++ inner ++ body) = Ok e /\ eapol_parsed e = true /\
     eapol_next e = Some x /\ eap_code x = code /\ eap_id x = id /\ eap_type x = (if asks then byte_to_Z <$> head body else None) /\
     eapol_pack e = Ok (front ++ inner)) /\
  (type = EAP_TYPE -> asks = true -> eapol_parse (front ++ inner) = Err StructError).
Proof.
  intros Hv Ht Hb Hc Hi Hl front inner asks.
  assert (Hf : forall rest, blen (front ++ rest) <? 4 = false /\ unpack [cB; cB; cH] (pyupto (front ++ rest) 4) = Ok (version, (type, (bodylen, tt))) /\
    pyfrom (front ++ rest) 4 = rest).
  { intros rest. split; [apply Z.ltb_ge; rewrite blen_app; pose proof (blen_nonneg rest); unfold front; rewrite blen_encode; cbn; lia|].
    split; [|by apply pyfrom_app]. unfold pyupto. rewrite pyslice_here by done. by apply unpack_encode; [|split_and!|]. }
  assert (Hin : forall rest, blen (inner ++ rest) <? 4 = false /\ unpack [cB; cB; cH] (pyupto (inner ++ rest) 4) = Ok (code, (id, (len, tt))) /\
    pyslice (inner ++ rest) 4 5 = take 1 rest).
  { intros rest. split; [apply Z.ltb_ge; rewrite blen_app; pose proof (blen_nonneg rest); unfold inner; rewrite blen_encode; cbn; lia|].
    split; [unfold pyupto; rewrite pyslice_here by reflexivity; by apply unpack_encode; [|split_and!|]|].
    rewrite pyslice_skip by (split; [by vm_compute|lia]). change (4 - blen inner) with 0. change (5 - blen inner) with 1. by rewrite pyslice_pos by lia. }
  assert (Hpf : pack [cB; cB; cH] (version, (type, (bodylen, tt))) = Ok front) by (by apply pack_ok; split_and!).
  assert (Hpi : pack [cB; cB; cH] (code, (id, (len, tt))) = Ok inner) by (by apply pack_ok; split_and!).
  unfold eapol_parse. split; [|split].
  - intros Hne. destruct (Hf body) as (-> & -> & _). cbn [mbind result_bind]. rewrite (proj2 (Z.eqb_neq _ _)) by done. by eexists.
  - intros -> Hbody. destruct (Hf (inner ++ body)) as (-> & -> & ->). cbn [mbind result_bind]. change (EAP_TYPE =? EAP_TYPE) with true. cbv iota.
    unfold eap_parse. destruct (Hin body) as (-> & -> & ->). cbn [mbind result_bind]. fold asks. destruct asks.
    + destruct Hbody as [?|Hbody]; [done|]. destruct body as [|b body]; [done|]. unfold unpack. cbn [take length calcsize code_size Nat.add Nat.eqb mbind result_bind].
      do 2 eexists. split; [reflexivity|]. split_and!; try done.
      * cbn [eap_type head fmap option_fmap option_map]. f_equal. cbn [decode fst snd take]. apply be_decode_1.
      * unfold eapol_pack. cbn [eapol_next]. unfold eap_hdr, eapol_hdr. cbn [eap_code eap_id eap_length eapol_version eapol_type eapol_bodylen]. by rewrite Hpi, Hpf.
    + do 2 eexists. split; [reflexivity|]. split_and!; try done.
      unfold eapol_pack. cbn [eapol_next]. unfold eap_hdr, eapol_hdr. cbn [eap_code eap_id eap_length eapol_version eapol_type eapol_bodylen]. by rewrite Hpi, Hpf.
  - intros -> Hasks. destruct (Hf inner) as (-> & -> & ->). cbn [mbind result_bind]. change (EAP_TYPE =? EAP_TYPE) with true. cbv iota.
    unfold eap_parse. destruct (Hin []) as (H1 & H2 & H3). rewrite app_nil_r in H1, H2, H3. rewrite H1, H2, H3. cbn [mbind result_bind]. fold asks.
    by rewrite Hasks.
Qed.

Lemma eapol_keeps_headers_witness :
  uint_ok 1 2 /\ exists e x, eapol_parse ([x02; x00; x00; x09; x01; x07; x00; x09] ++ (x01 :: str "name")) = Ok e /\ eapol_parsed e = true /\
    eapol_next e = Some x /\ eap_code x = 1 /\ eap_id x = 7 /\ eap_type x = Some 1 /\ eapol_pack e = Ok [x02; x00; x00; x09; x01; x07; x00; x09].
Proof.
  split; [split; by vm_compute|].
  assert (H : forall n z, bool_decide (uint_ok n z) = true -> uint_ok n z) by (intros n z; apply bool_decide_eq_true_1).
  destruct (eapol_keeps_headers 2 0 9 1 7 9 (x01 :: str "name")) as (_ & Ha & _); try (by apply H). apply (Ha eq_refl). by right.
Defined.

Lemma unpack_short f b e : unpack f b = Err e -> e = StructError.
Proof. unfold unpack. destruct (_ =? _)%nat; [done|]. by intros [= <-]. Qed.
Lemma eapol_parse_raises raw e : eapol_parse raw = Err e -> e = StructError.
Proof.
  unfold eapol_parse, eap_parse. destruct (_ <? _); [done|].
  destruct (unpack [cB; cB; cH] (pyupto raw 4)) as [(v & t & b & [])|x] eqn:E; cbn [mbind result_bind]; [|intros [= ->]; by apply unpack_short in E].
  destruct (_ =? _); [|done]. destruct (_ <? _); [done|].
  destruct (unpack [cB; cB; cH] (pyupto (pyfrom _ _) _)) as [(c & i & l & [])|x] eqn:E2; cbn [mbind result_bind]; [|intros [= ->]; by apply unpack_short in E2].
  destruct (_ || _); [|done].
  destruct (unpack [cB] _) as [(c' & [])|x] eqn:E3; cbn [mbind result_bind]; [done|intros [= ->]; by apply unpack_short in E3].
Qed.
