(* ===== verification/Lldp.v ===== *)
(** * LLDP packets ([pox/lib/packet/lldp.py])

    The type-length-value structures of an LLDP packet, their packing and
    parsing.  The attributes [parsed], [arr] and [prev] of the structures, which
    nothing reads, are left out, and so is printing. *)

From S2P Require Import Prelude PyStruct Addresses Packet PacketWire.

Definition MIN_LEN : Z := 14.
Definition END_TLV : Z := 0.
Definition CHASSIS_ID_TLV : Z := 1.
Definition PORT_ID_TLV : Z := 2.
Definition TTL_TLV : Z := 3.
Definition PORT_DESC_TLV : Z := 4.
Definition SYSTEM_NAME_TLV : Z := 5.
Definition SYSTEM_DESC_TLV : Z := 6.
Definition SYSTEM_CAP_TLV : Z := 7.
Definition MANAGEMENT_ADDR_TLV : Z := 8.
Definition ORGANIZATIONALLY_SPECIFIC_TLV : Z := 127.

(** ** The structures *)

(** [Basic] stands for [system_name], [system_description], [port_description]
    and, for the other types, [unknown_tlv]. *)
Inductive tlv :=
  | ChassisId (strlen subtype : Z) (id : option bytes)
  | PortId (subtype : Z) (id : option bytes)
  | Ttl (strlen ttl : Z)
  | EndTlv (strlen : Z)
  | Basic (type len : Z) (next : bytes)
  | OrgSpecific (len : Z) (oui : bytes) (subtype : Z) (next : bytes)
  | SysCaps (len : Z) (next : bytes) (caps enabled_caps : list bool)
  | MgmtAddr (address_subtype : Z) (address : bytes) (interface_numbering_subtype interface_number : Z)
      (object_identifier : bytes).

#[global] Instance tlv_eq_dec : EqDecision tlv.
Proof. solve_decision. Defined.

Definition tlv_type (t : tlv) : Z :=
  match t with
  | ChassisId _ _ _ => CHASSIS_ID_TLV
  | PortId _ _ => PORT_ID_TLV
  | Ttl _ _ => TTL_TLV
  | EndTlv _ => END_TLV
  | Basic t _ _ => t
  | OrgSpecific _ _ _ _ => ORGANIZATIONALLY_SPECIFIC_TLV
  | SysCaps _ _ _ _ => SYSTEM_CAP_TLV
  | MgmtAddr _ _ _ _ _ => MANAGEMENT_ADDR_TLV
  end.

Definition new_chassis_id : tlv := ChassisId 0 0 None.
Definition chassis_fill (subtype : Z) (strval : bytes) : tlv := ChassisId (1 + blen strval) subtype (Some strval).
Definition new_port_id : tlv := PortId 0 None.
Definition port_fill (subtype : Z) (strval : bytes) : tlv := PortId subtype (Some strval).
Definition ttl_fill (ttl : Z) : tlv := Ttl 2 ttl.
Definition new_end_tlv : tlv := EndTlv 0.
Definition system_description_fill (strval : bytes) : tlv := Basic SYSTEM_DESC_TLV (blen strval) strval.

(** ** Packing *)

(** [self.tlv_type << 9 | (length & 0x01ff)]. *)
Definition typelen (t len : Z) : Z := Z.lor (Z.shiftl t 9) (Z.land len 0x1ff).

(** ["!HB<n>s"]; a negative count is no format. *)
Definition pack_id (t strlen subtype : Z) (id : option bytes) : result bytes :=
  _ ← guard_ok (0 <=? strlen - 1) StructError;
  h ← pack [cH; cB] (typelen t strlen, (subtype, tt));
  id ← need StructError id;
  mret (h ++ pack_s (Z.to_nat (strlen - 1)) id).

(** The bits of a list of flags, the first one lowest. *)
Fixpoint flag_bits (l : list bool) : Z :=
  match l with [] => 0 | b :: l => (if b : bool then 1 else 0) + 2 * flag_bits l end.

Definition port_pack (subtype : Z) (id : option bytes) : result bytes :=
  b ← need TypeError id;
  pack_id PORT_ID_TLV (1 + blen b) subtype id.
Definition ttl_pack (strlen ttl : Z) : result bytes := pack [cH; cH] (typelen TTL_TLV strlen, (ttl, tt)).
Definition end_pack (strlen : Z) : result bytes := pack [cH] (typelen END_TLV strlen, tt).
Definition basic_pack (t len : Z) (next : bytes) : result bytes := h ← pack [cH] (typelen t len, tt); mret (h ++ next).
Definition org_pack (len : Z) (oui : bytes) (subtype : Z) (next : bytes) : result bytes :=
  h ← pack [cH; cs 3; cB] (typelen ORGANIZATIONALLY_SPECIFIC_TLV len, (oui, (subtype, tt))); mret (h ++ next).
Definition caps_pack (len : Z) (caps enabled : list bool) : result bytes :=
  pack [cH; cH; cH] (typelen SYSTEM_CAP_TLV len, (flag_bits caps, (flag_bits enabled, tt))).
Definition mgmt_pack (subtype : Z) (address : bytes) (if_subtype if_number : Z) (oid : bytes) : result bytes :=
  h ← pack [cH] (typelen MANAGEMENT_ADDR_TLV (8 + blen address + blen oid), tt);
  a ← pack [cB; cB] (blen address + 1, (subtype, tt));
  i ← pack [cB; cL; cB] (if_subtype, (if_number, (blen oid, tt)));
  mret (h ++ a ++ address ++ i ++ oid).

Definition tlv_pack (t : tlv) : result bytes :=
  match t with
  | ChassisId strlen subtype id => pack_id CHASSIS_ID_TLV strlen subtype id
  | PortId subtype id => port_pack subtype id
  | Ttl strlen ttl => ttl_pack strlen ttl
  | EndTlv strlen => end_pack strlen
  | Basic t len next => basic_pack t len next
  | OrgSpecific len oui subtype next => org_pack len oui subtype next
  | SysCaps len _ caps enabled => caps_pack len caps enabled
  | MgmtAddr subtype address if_subtype if_number oid => mgmt_pack subtype address if_subtype if_number oid
  end.

(** [lldp.hdr]. *)
Fixpoint lldp_pack (tlvs : list tlv) : result bytes :=
  match tlvs with
  | [] => mret []
  | t :: tlvs => b ← tlv_pack t; bs ← lldp_pack tlvs; mret (b ++ bs)
  end.

(** ** Parsing *)

(** The [parse] methods, on [arr], whose header says [len]. *)
Definition chassis_parse (len : Z) (arr : bytes) : result tlv :=
  _ ← guard_ok (2 <=? len) AssertionError;
  '(subtype, _) ← unpack [cB] (pyslice arr 2 3);
  mret (ChassisId len subtype (Some (pyfrom arr 3))).
Definition port_parse (len : Z) (arr : bytes) : result tlv :=
  _ ← guard_ok (2 <=? len) AssertionError;
  '(subtype, _) ← unpack [cB] (pyslice arr 2 3);
  let id := pyfrom arr 3 in
  _ ← guard_ok (len =? 1 + blen id) AssertionError;
  mret (PortId subtype (Some id)).
Definition ttl_parse (len : Z) (arr : bytes) : result tlv :=
  if negb (len =? 2) then mret (Ttl len 0) else
  '(v, _) ← unpack [cH] (pyslice arr 2 4);
  mret (Ttl len v).
Definition org_parse (len : Z) (arr : bytes) : result tlv :=
  let next := pyfrom arr 2 in
  '(oui, (subtype, _)) ← unpack [cs 3; cB] (pyslice next 0 4);
  mret (OrgSpecific len oui subtype (pyfrom next 4)).
(** The flags are all set when the word is not zero: the source writes [and] for
    [&]. *)
Definition caps_parse (len : Z) (arr : bytes) : result tlv :=
  let next := pyfrom arr 2 in
  '(cap, (en, _)) ← unpack [cH; cH] next;
  mret (SysCaps len next (replicate 16 (negb (cap =? 0))) (replicate 16 (negb (en =? 0)))).
Definition mgmt_parse (arr : bytes) : result tlv :=
  asl ← byte_at arr 2;
  let asl := asl - 1 in
  subtype ← byte_at arr 3;
  let address := pyslice arr 4 (4 + asl) in
  if_subtype ← byte_at arr (4 + asl);
  '(if_number, _) ← unpack [cL] (pyslice arr (4 + asl + 1) (4 + asl + 1 + 4));
  osl ← byte_at arr (9 + asl);
  mret (MgmtAddr subtype address if_subtype if_number (pyslice arr (9 + asl + 1) (9 + asl + 1 + osl))).

(** The class for type [t]. *)
Definition tlv_parse (t len : Z) (arr : bytes) : result tlv :=
  if t =? CHASSIS_ID_TLV then chassis_parse len arr
  else if t =? PORT_ID_TLV then port_parse len arr
  else if t =? TTL_TLV then ttl_parse len arr
  else if t =? END_TLV then mret (EndTlv len)
  else if t =? ORGANIZATIONALLY_SPECIFIC_TLV then org_parse len arr
  else if t =? SYSTEM_CAP_TLV then caps_parse len arr
  else if t =? MANAGEMENT_ADDR_TLV then mgmt_parse arr
  else mret (Basic t len (pyfrom arr 2)).

(** [next_tlv]: the structure and how many bytes it takes; the test for the
    length leaves out the header. *)
Definition next_tlv (arr : bytes) : result (option (tlv * Z)) :=
  if blen arr <? 2 then mret None else
  '(w, _) ← unpack [cH] (pyslice arr 0 2);
  let type := Z.shiftr w 9 in
  let length := Z.land w 0x1ff in
  if blen arr <? length then mret None else
  t ← tlv_parse type length (pyslice arr 0 (2 + length));
  mret (Some (t, 2 + length)).

(** The loop over the optional structures. *)
Fixpoint tlv_loop (fuel : nat) (raw : bytes) (pduhead : Z) (tlvs : list tlv) : result (bool * list tlv) :=
  match fuel with
  | O => Err OutOfFuel
  | S fuel =>
      r ← next_tlv (pyfrom raw pduhead);
      match r with
      | None => mret (false, tlvs)
      | Some (t, n) =>
          let tlvs := tlvs ++ [t] in
          if tlv_type t =? END_TLV then mret (true, tlvs)
          else if blen raw <=? pduhead + n then mret (false, tlvs)
          else tlv_loop fuel raw (pduhead + n) tlvs
      end
  end.

(** One of the three structures that every packet starts with, and then the
    rest. *)
Definition first_tlv (type : Z) (raw : bytes) (pduhead : Z) (tlvs : list tlv)
    (rest : Z -> list tlv -> result (bool * list tlv)) : result (bool * list tlv) :=
  r ← next_tlv (pyfrom raw pduhead);
  match r with
  | None => mret (false, tlvs)
  | Some (t, n) =>
      if tlv_type t =? type then rest (pduhead + n) (tlvs ++ [t]) else mret (false, tlvs ++ [t])
  end.

(** [lldp.parse]: whether it was parsed to the end, and [tlvs]. *)
Definition lldp_parse (raw : bytes) : result (bool * list tlv) :=
  if blen raw <? MIN_LEN then mret (false, []) else
  first_tlv CHASSIS_ID_TLV raw 0 [] (fun p l =>
  first_tlv PORT_ID_TLV raw p l (fun p l =>
  first_tlv TTL_TLV raw p l (fun p l =>
  tlv_loop (S (length raw)) raw p l))).

Ltac pack_of := unfold tlv_pack, port_pack, ttl_pack, end_pack, basic_pack, org_pack, caps_pack, mgmt_pack.
Ltac parse_of := unfold tlv_parse, chassis_parse, port_parse, ttl_parse, org_parse, caps_parse, mgmt_parse.

(** ** Headers *)

Lemma typelen_value t len : 0 <= t -> 0 <= len < 512 -> typelen t len = t * 512 + len.
Proof.
  intros Ht Hl. unfold typelen. change 0x1ff with (Z.ones 9). rewrite Z.land_ones, Z.mod_small by (change (2 ^ 9) with 512; lia).
  rewrite lor_shiftl_add by (change (2 ^ 9) with 512; lia). done.
Qed.

Definition tlv_size_ok (t len : Z) : Prop := 0 <= t < 128 /\ 0 <= len < 512.

Lemma typelen_ok t len : tlv_size_ok t len ->
  uint_ok 2 (typelen t len) /\ Z.shiftr (typelen t len) 9 = t /\ Z.land (typelen t len) 0x1ff = len.
Proof.
  intros [Ht Hl]. rewrite typelen_value by lia. split; [unfold uint_ok; change (256 ^ Z.of_nat 2) with 65536; lia|].
  change 0x1ff with (Z.ones 9). rewrite Z.shiftr_div_pow2, Z.land_ones by lia. change (2 ^ 9) with 512.
  split; [rewrite Z.div_add_l by lia; rewrite Z.div_small by lia; lia|].
  rewrite Z.add_comm, Z.mod_add by lia. by apply Z.mod_small.
Qed.

(** A structure on the wire is its header and as many bytes as that says. *)
Lemma next_tlv_front t len body rest v :
  tlv_size_ok t len -> blen body = len ->
  tlv_parse t len (encode [cH] (typelen t len, tt) ++ body) = Ok v ->
  next_tlv (encode [cH] (typelen t len, tt) ++ body ++ rest) = Ok (Some (v, 2 + len)).
Proof.
  intros Hs Hb Hv. destruct (typelen_ok t len Hs) as (Hu & Et & El). unfold next_tlv.
  set (h := encode [cH] (typelen t len, tt)) in *. assert (Hh : blen h = 2) by (subst h; by rewrite blen_encode).
  pose proof (blen_nonneg rest). rewrite (proj2 (Z.ltb_ge _ _)) by (rewrite !blen_app; destruct Hs; lia).
  rewrite pyslice_here by done. unfold unpack at 1.
  assert (Hd : decode [cH] h = (typelen t len, tt)).
  { subst h. rewrite <-(app_nil_r (encode _ _)). by apply (decode_encode [cH] (typelen t len, tt)). }
  replace ((length h =? calcsize [cH])%nat) with true by (symmetry; apply Nat.eqb_eq; unfold blen in Hh; cbn; lia).
  cbn [mbind result_bind]. rewrite Hd. cbv zeta. rewrite Et, El.
  rewrite (proj2 (Z.ltb_ge _ _)) by (rewrite !blen_app; destruct Hs; lia).
  rewrite app_assoc, pyslice_here by (rewrite blen_app; lia). by rewrite Hv.
Qed.

(** ** A structure that is packed is read back *)

Definition tlv_wf (t : tlv) : Prop :=
  match t with
  | ChassisId strlen subtype id =>
      uint_ok 1 subtype /\ from_option (fun id => strlen = 1 + blen id /\ 1 <= blen id < 511) False id
  | PortId subtype id => uint_ok 1 subtype /\ from_option (fun id => 1 <= blen id < 511) False id
  | Ttl strlen ttl => strlen = 2 /\ uint_ok 2 ttl
  | EndTlv strlen => strlen = 0
  | Basic t len next => tlv_size_ok t len /\ len = blen next /\ t ∉ [0; 1; 2; 3; 7; 8; 127]
  | OrgSpecific len oui subtype next => len = 4 + blen next /\ len < 512 /\ blen oui = 3 /\ uint_ok 1 subtype
  | SysCaps len next caps enabled =>
      len = 4 /\ exists b b', caps = replicate 16 b /\ enabled = replicate 16 b' /\
        next = encode [cH; cH] (flag_bits caps, (flag_bits enabled, tt))
  | MgmtAddr subtype address if_subtype if_number oid =>
      uint_ok 1 subtype /\ uint_ok 1 if_subtype /\ uint_ok 4 if_number /\ blen address < 255 /\ blen oid < 256 /\
      8 + blen address + blen oid < 512
  end.

Lemma encode_first f x v : encode (cH :: f) (x, v) = encode [cH] (x, tt) ++ encode f v.
Proof. cbn [encode fst snd]. by rewrite app_nil_r. Qed.

Lemma unpack_exact f v : no_sint0 f = true -> packable f v -> exact f v -> unpack f (encode f v) = Ok v.
Proof.
  intros Hs Hp He. unfold unpack. rewrite encode_length, Nat.eqb_refl.
  rewrite <-(app_nil_r (encode f v)). by rewrite decode_encode.
Qed.

Lemma pack_s_all b : pack_s (length b) b = b.
Proof. unfold pack_s. by rewrite firstn_all, Nat.sub_diag, app_nil_r. Qed.

(** What makes a structure come back: its packing is a header and a body, and
    the class reads the body. *)
Lemma comes_from t ty len body :
  tlv_size_ok ty len -> blen body = len -> tlv_pack t = Ok (encode [cH] (typelen ty len, tt) ++ body) ->
  tlv_parse ty len (encode [cH] (typelen ty len, tt) ++ body) = Ok t ->
  exists b, tlv_pack t = Ok b /\ 2 <= blen b /\ forall rest, next_tlv (b ++ rest) = Ok (Some (t, blen b)).
Proof.
  intros Hs Hb Hp Hr. eexists. split; [exact Hp|].
  assert (Hl : blen (encode [cH] (typelen ty len, tt) ++ body) = 2 + len) by (rewrite blen_app, blen_encode, Hb; done).
  split; [rewrite Hl; destruct Hs; lia|]. intros rest. rewrite Hl, <-app_assoc. by apply next_tlv_front.
Qed.

Lemma header_blen x : blen (encode [cH] (x, tt)) = 2.
Proof. by rewrite blen_encode. Qed.

Lemma id_pack ty subtype id :
  0 <= ty < 128 -> uint_ok 1 subtype -> 1 <= blen id < 511 ->
  pack_id ty (1 + blen id) subtype (Some id)
  = Ok (encode [cH] (typelen ty (1 + blen id), tt) ++ encode [cB] (subtype, tt) ++ id).
Proof.
  intros Ht Hs Hl. destruct (typelen_ok ty (1 + blen id)) as (Hu & _); [split; lia|]. unfold pack_id.
  rewrite (proj2 (Z.leb_le _ _)) by lia. cbn [guard_ok mbind result_bind need].
  rewrite pack_ok by (by split_and!). cbn [mbind result_bind mret result_ret]. rewrite encode_first, <-app_assoc.
  replace (Z.to_nat (1 + blen id - 1)) with (length id) by (unfold blen; lia). by rewrite pack_s_all.
Qed.

Lemma skip_header {A} (h b : list A) i j : blen h = 2 -> 2 <= i <= j -> pyslice (h ++ b) i j = pyslice b (i - 2) (j - 2).
Proof. intros Hh Hi. rewrite pyslice_skip by lia. by rewrite Hh. Qed.
Lemma after_header {A} (h b : list A) i : blen h = 2 -> 2 <= i -> pyfrom (h ++ b) i = pyfrom b (i - 2).
Proof. intros Hh Hi. rewrite pyfrom_skip by lia. by rewrite Hh. Qed.

Lemma chassis_comes_back subtype id :
  uint_ok 1 subtype -> 1 <= blen id < 511 ->
  exists b, tlv_pack (chassis_fill subtype id) = Ok b /\ 2 <= blen b /\
    forall rest, next_tlv (b ++ rest) = Ok (Some (chassis_fill subtype id, blen b)).
Proof.
  intros Hs Hl. apply comes_from with CHASSIS_ID_TLV (1 + blen id) (encode [cB] (subtype, tt) ++ id).
  - split; [done|lia].
  - by rewrite blen_app, blen_encode.
  - by apply id_pack.
  - parse_of. change (CHASSIS_ID_TLV =? CHASSIS_ID_TLV) with true. cbv iota.
    rewrite (proj2 (Z.leb_le _ _)) by lia. cbn [guard_ok mbind result_bind].
    rewrite skip_header by (apply header_blen || lia). rewrite pyslice_here by by rewrite blen_encode.
    rewrite unpack_exact by (by split_and?). cbn [mbind result_bind].
    rewrite after_header by (apply header_blen || lia). by rewrite pyfrom_app by by rewrite blen_encode.
Qed.

Lemma port_comes_back subtype id :
  uint_ok 1 subtype -> 1 <= blen id < 511 ->
  exists b, tlv_pack (port_fill subtype id) = Ok b /\ 2 <= blen b /\
    forall rest, next_tlv (b ++ rest) = Ok (Some (port_fill subtype id, blen b)).
Proof.
  intros Hs Hl. apply comes_from with PORT_ID_TLV (1 + blen id) (encode [cB] (subtype, tt) ++ id).
  - split; [done|lia].
  - by rewrite blen_app, blen_encode.
  - by apply id_pack.
  - parse_of. change (PORT_ID_TLV =? CHASSIS_ID_TLV) with false. change (PORT_ID_TLV =? PORT_ID_TLV) with true. cbv iota.
    rewrite (proj2 (Z.leb_le _ _)) by lia. cbn [guard_ok mbind result_bind].
    rewrite skip_header by (apply header_blen || lia). rewrite pyslice_here by by rewrite blen_encode.
    rewrite unpack_exact by (by split_and?). cbn [mbind result_bind].
    rewrite after_header by (apply header_blen || lia). rewrite pyfrom_app by by rewrite blen_encode. by rewrite Z.eqb_refl.
Qed.

Lemma basic_comes_back ty next :
  tlv_size_ok ty (blen next) -> ty ∉ [0; 1; 2; 3; 7; 8; 127] ->
  exists b, tlv_pack (Basic ty (blen next) next) = Ok b /\ 2 <= blen b /\
    forall rest, next_tlv (b ++ rest) = Ok (Some (Basic ty (blen next) next, blen b)).
Proof.
  intros Hs Hn. destruct (typelen_ok ty (blen next) Hs) as (Hu & _). apply comes_from with ty (blen next) next; [done|done|..].
  - pack_of. by rewrite pack_ok by (by split_and!).
  - rewrite !not_elem_of_cons in Hn. unfold tlv_parse, chassis_parse, port_parse, ttl_parse, org_parse, caps_parse, mgmt_parse, CHASSIS_ID_TLV, PORT_ID_TLV, TTL_TLV, END_TLV,
      ORGANIZATIONALLY_SPECIFIC_TLV, SYSTEM_CAP_TLV, MANAGEMENT_ADDR_TLV.
    rewrite !(proj2 (Z.eqb_neq _ _)) by naive_solver.
    rewrite after_header by (apply header_blen || lia). by rewrite pyfrom_0.
Qed.

Lemma org_comes_back oui subtype next :
  4 + blen next < 512 -> blen oui = 3 -> uint_ok 1 subtype ->
  exists b, tlv_pack (OrgSpecific (4 + blen next) oui subtype next) = Ok b /\ 2 <= blen b /\
    forall rest, next_tlv (b ++ rest) = Ok (Some (OrgSpecific (4 + blen next) oui subtype next, blen b)).
Proof.
  intros Hl Ho Hs. pose proof (blen_nonneg next). assert (Hsz : tlv_size_ok ORGANIZATIONALLY_SPECIFIC_TLV (4 + blen next)) by (split; [done|lia]).
  destruct (typelen_ok _ _ Hsz) as (Hu & _).
  apply comes_from with ORGANIZATIONALLY_SPECIFIC_TLV (4 + blen next) (encode [cs 3; cB] (oui, (subtype, tt)) ++ next); [done|..].
  - by rewrite blen_app, blen_encode.
  - pack_of. rewrite pack_ok by (by split_and!). cbn [mbind result_bind mret result_ret].
    by rewrite encode_first, <-app_assoc.
  - parse_of. change (_ =? CHASSIS_ID_TLV) with false. change (_ =? PORT_ID_TLV) with false. change (_ =? TTL_TLV) with false.
    change (_ =? END_TLV) with false. change (_ =? ORGANIZATIONALLY_SPECIFIC_TLV) with true. cbv iota zeta.
    rewrite after_header by (apply header_blen || lia). rewrite pyfrom_0, pyslice_here by by rewrite blen_encode.
    rewrite unpack_exact by (unfold blen in Ho; cbn; split_and?; done || lia). cbn [mbind result_bind].
    by rewrite pyfrom_app by by rewrite blen_encode.
Qed.

Lemma flag_bits_all b : flag_bits (replicate 16 b) = if b then 65535 else 0.
Proof. by destruct b. Qed.

Lemma caps_come_back b b' :
  let t := SysCaps 4 (encode [cH; cH] (flag_bits (replicate 16 b), (flag_bits (replicate 16 b'), tt))) (replicate 16 b) (replicate 16 b') in
  exists bs, tlv_pack t = Ok bs /\ 2 <= blen bs /\ forall rest, next_tlv (bs ++ rest) = Ok (Some (t, blen bs)).
Proof.
  intros t. assert (Hb : forall x, uint_ok 2 (flag_bits (replicate 16 x))) by (intros []; by vm_compute).
  apply comes_from with SYSTEM_CAP_TLV 4 (encode [cH; cH] (flag_bits (replicate 16 b), (flag_bits (replicate 16 b'), tt))).
  - by split.
  - by rewrite blen_encode.
  - cbn [tlv_pack t]. unfold caps_pack. rewrite pack_ok, encode_first; [done|].
    split; [by vm_compute|]. by repeat (split; [apply Hb|]).
  - parse_of. change (_ =? CHASSIS_ID_TLV) with false. change (_ =? PORT_ID_TLV) with false. change (_ =? TTL_TLV) with false.
    change (_ =? END_TLV) with false. change (_ =? ORGANIZATIONALLY_SPECIFIC_TLV) with false. change (_ =? SYSTEM_CAP_TLV) with true.
    cbv iota zeta. rewrite after_header by (apply header_blen || lia). rewrite pyfrom_0.
    rewrite unpack_exact; [|done|by repeat (split; [apply Hb|])|done]. cbn [mbind result_bind mret result_ret].
    rewrite !flag_bits_all. by destruct b, b'.
Qed.

Lemma byte_at_here z rest i : uint_ok 1 z -> i = 0 -> byte_at (encode [cB] (z, tt) ++ rest) i = Ok z.
Proof.
  intros Hz ->. change (Ok (byte_to_Z (byte_of_Z (z / 1))) = Ok z). rewrite Z.div_1_r, byte_to_of_Z.
  unfold uint_ok in Hz. change (256 ^ Z.of_nat 1) with 256 in Hz. by rewrite Z.mod_small.
Qed.

Lemma pyslice_first {A} (m r : list A) i j : i = 0 -> j = blen m -> pyslice (m ++ r) i j = m.
Proof. intros -> ->. by apply pyslice_here. Qed.

(** Read the piece of a concatenation that an offset falls in. *)
Ltac pieces_lia := rewrite ?blen_encode in *; cbn [calcsize code_size Nat.add] in *; lia.
Ltac seek :=
  repeat first [rewrite byte_at_skip by pieces_lia | rewrite pyslice_skip by pieces_lia];
  first [ rewrite byte_at_here by (assumption || pieces_lia)
        | rewrite pyslice_first by pieces_lia ].

Lemma mgmt_comes_back subtype address if_subtype if_number oid :
  tlv_wf (MgmtAddr subtype address if_subtype if_number oid) ->
  exists b, tlv_pack (MgmtAddr subtype address if_subtype if_number oid) = Ok b /\ 2 <= blen b /\
    forall rest, next_tlv (b ++ rest) = Ok (Some (MgmtAddr subtype address if_subtype if_number oid, blen b)).
Proof.
  intros (Hs & His & Hin & Ha & Ho & Hl). pose proof (blen_nonneg address). pose proof (blen_nonneg oid).
  set (len := 8 + blen address + blen oid). assert (Hsz : tlv_size_ok MANAGEMENT_ADDR_TLV len) by (split; [done|subst len; lia]).
  destruct (typelen_ok _ _ Hsz) as (Hu & _).
  assert (Hal : uint_ok 1 (blen address + 1)) by (unfold uint_ok; change (256 ^ Z.of_nat 1) with 256; lia).
  assert (Hol : uint_ok 1 (blen oid)) by (unfold uint_ok; change (256 ^ Z.of_nat 1) with 256; lia).
  set (body := encode [cB] (blen address + 1, tt) ++ encode [cB] (subtype, tt) ++ address ++ encode [cB] (if_subtype, tt) ++
    encode [cL] (if_number, tt) ++ encode [cB] (blen oid, tt) ++ oid ++ []).
  apply comes_from with MANAGEMENT_ADDR_TLV len body; [done|..].
  - subst body len. rewrite !blen_app, !blen_encode. rewrite blen_nil. cbn [calcsize code_size Nat.add]. lia.
  - pack_of. rewrite !pack_ok by (by split_and!). cbn [mbind result_bind mret result_ret]. f_equal. f_equal.
    subst body. cbn [encode fst snd]. by rewrite <-!app_assoc, app_nil_r.
  - parse_of. change (_ =? CHASSIS_ID_TLV) with false. change (_ =? PORT_ID_TLV) with false. change (_ =? TTL_TLV) with false.
    change (_ =? END_TLV) with false. change (_ =? ORGANIZATIONALLY_SPECIFIC_TLV) with false. change (_ =? SYSTEM_CAP_TLV) with false.
    change (_ =? MANAGEMENT_ADDR_TLV) with true. cbv iota zeta. subst body.
    repeat first [seek | rewrite unpack_exact by (by split_and?) | progress cbn [mbind result_bind mret result_ret]
      | replace (blen address + 1 - 1) with (blen address) by lia].
    done.
Qed.

Lemma tlv_comes_back t :
  tlv_wf t -> exists b, tlv_pack t = Ok b /\ 2 <= blen b /\ forall rest, next_tlv (b ++ rest) = Ok (Some (t, blen b)).
Proof.
  destruct t as [sl st [id|]|st [id|]|sl v|sl|ty len next|len oui st next|len next caps en|]; cbn [tlv_wf from_option]; try (by intros []).
  - intros (Hs & -> & Hl). by apply chassis_comes_back.
  - intros (Hs & Hl). by apply port_comes_back.
  - intros [-> Hv]. apply comes_from with TTL_TLV 2 (encode [cH] (v, tt)); [by split|by rewrite blen_encode|..].
    + pack_of. by rewrite pack_ok, encode_first by (by split; [by vm_compute|split]).
    + parse_of. change (_ =? CHASSIS_ID_TLV) with false. change (_ =? PORT_ID_TLV) with false. change (_ =? TTL_TLV) with true.
      cbv iota. cbn [negb Z.eqb Pos.eqb]. rewrite skip_header by (apply header_blen || lia).
      rewrite pyslice_all by by rewrite blen_encode. by rewrite unpack_exact.
  - intros ->. apply comes_from with END_TLV 0 []; [by split|done|done|done].
  - intros (Hs & -> & Hn). by apply basic_comes_back.
  - intros (-> & Hl & Ho & Hs). by apply org_comes_back.
  - intros (-> & b & b' & -> & -> & ->). apply caps_come_back.
  - apply mgmt_comes_back.
Qed.

Lemma next_tlv_size arr t n : next_tlv arr = Ok (Some (t, n)) -> 2 <= n <= 513.
Proof.
  unfold next_tlv. destruct (_ <? _); [done|]. intros ([w []] & _ & E)%bind_Ok. revert E. cbv zeta.
  destruct (_ <? _); [done|]. intros (v & _ & [= _ <-])%bind_Ok. change 0x1ff with (Z.ones 9). rewrite Z.land_ones by done.
  pose proof (Z.mod_pos_bound w (2 ^ 9) eq_refl). lia.
Qed.

(** A structure takes at most 513 bytes. *)
Lemma lldp_pack_size tlvs b : Forall tlv_wf tlvs -> lldp_pack tlvs = Ok b -> blen b <= 513 * Z.of_nat (length tlvs).
Proof.
  intros Hw. revert b. induction Hw as [|t tlvs Ht _ IH]; intros b; cbn [lldp_pack]; [by intros [= <-]|].
  intros (b1 & E1 & (b2 & E2 & [= <-])%bind_Ok)%bind_Ok. destruct (tlv_comes_back t Ht) as (b1' & E1' & _ & Hn).
  rewrite E1 in E1'. injection E1' as <-. pose proof (next_tlv_size _ _ _ (Hn [])). specialize (IH b2 E2).
  rewrite blen_app. cbn [length]. lia.
Qed.

(** A packet as [lldp.parse] wants it. *)
Definition lldp_wf (tlvs : list tlv) : Prop :=
  exists c p v opts, tlvs = c :: p :: v :: opts ++ [new_end_tlv] /\
    tlv_type c = CHASSIS_ID_TLV /\ tlv_type p = PORT_ID_TLV /\ tlv_type v = TTL_TLV /\
    Forall tlv_wf (c :: p :: v :: opts) /\ Forall (fun t => tlv_type t <> END_TLV) opts.

Lemma end_comes_back : exists b, tlv_pack new_end_tlv = Ok b /\ 2 <= blen b /\ forall rest, next_tlv (b ++ rest) = Ok (Some (new_end_tlv, blen b)).
Proof. by apply (tlv_comes_back (EndTlv 0)). Qed.

Lemma loop_comes_back opts :
  Forall tlv_wf opts -> Forall (fun t => tlv_type t <> END_TLV) opts ->
  exists b, lldp_pack (opts ++ [new_end_tlv]) = Ok b /\ 2 * Z.of_nat (length opts) < blen b /\
    forall fuel pre junk acc, (length opts < fuel)%nat ->
      tlv_loop fuel (pre ++ b ++ junk) (blen pre) acc = Ok (true, acc ++ opts ++ [new_end_tlv]).
Proof.
  intros Hw He. induction Hw as [|t opts Ht Hw IH]; cbn [app lldp_pack].
  - destruct end_comes_back as (b & E & Hb & Hn). exists b. rewrite E. cbn [mbind result_bind mret result_ret]. rewrite app_nil_r.
    split; [done|]. split; [cbn; lia|]. intros fuel pre junk acc Hf. destruct fuel as [|fuel]; [simpl in Hf; lia|].
    cbn [tlv_loop]. by rewrite pyfrom_app, Hn by done.
  - apply Forall_cons in He as [Hne He]. destruct (IH He) as (bs & E & Hl & Hloop).
    destruct (tlv_comes_back t Ht) as (b & Eb & Hb & Hn). exists (b ++ bs). rewrite Eb, E. split; [done|].
    split; [rewrite blen_app; cbn [length]; lia|]. intros fuel pre junk acc Hf. destruct fuel as [|fuel]; [simpl in Hf; lia|].
    cbn [tlv_loop]. rewrite pyfrom_app by done. rewrite <-app_assoc, Hn. cbn [mbind result_bind].
    rewrite (proj2 (Z.eqb_neq _ _) Hne). pose proof (blen_nonneg junk).
    rewrite (proj2 (Z.leb_gt _ _)) by (rewrite !blen_app; lia).
    rewrite app_assoc, <-blen_app, Hloop by (simpl in Hf; lia). by rewrite <-app_assoc.
Qed.

Lemma first_comes_back t ty rest pre acc (k : Z -> list tlv -> result (bool * list tlv)) b :
  next_tlv (b ++ rest) = Ok (Some (t, blen b)) -> tlv_type t = ty ->
  first_tlv ty (pre ++ b ++ rest) (blen pre) acc k = k (blen pre + blen b) (acc ++ [t]).
Proof. intros Hn Ht. unfold first_tlv. rewrite pyfrom_app, Hn by done. cbn [mbind result_bind]. by rewrite Ht, Z.eqb_refl. Qed.

(** The three structures every packet has, and the end, make up the least
    length that is accepted. *)
Lemma front_size t b :
  tlv_wf t -> tlv_type t = CHASSIS_ID_TLV \/ tlv_type t = PORT_ID_TLV \/ tlv_type t = TTL_TLV -> tlv_pack t = Ok b -> 4 <= blen b.
Proof.
  destruct t as [sl st [id|]|st [id|]|sl v|sl|ty len next|len oui st next|len next caps en|]; cbn [tlv_wf from_option tlv_type];
    try (by intros []); try (intros _ [|[]]; done).
  - intros (Hs & -> & Hl) _. pack_of. rewrite id_pack by done. intros <-%Ok_inj. rewrite blen_app, header_blen, blen_app, blen_encode.
    cbn [calcsize code_size Nat.add]. lia.
  - intros (Hs & Hl) _. unfold tlv_pack, port_pack; cbn [need mbind result_bind]. rewrite id_pack by done. intros <-%Ok_inj.
    rewrite blen_app, header_blen, blen_app, blen_encode. cbn [calcsize code_size Nat.add]. lia.
  - intros [-> Hv] _. pack_of. rewrite pack_ok by (by split; [by vm_compute|split]). intros <-%Ok_inj. by rewrite blen_encode.
  - intros (_ & _ & Hn) Ht. rewrite !not_elem_of_cons in Hn. destruct Ht as [->|[->| ->]]; naive_solver.
Qed.

Lemma lldp_comes_back tlvs :
  lldp_wf tlvs -> exists b, lldp_pack tlvs = Ok b /\ forall junk, lldp_parse (b ++ junk) = Ok (true, tlvs).
Proof.
  intros (c & p & v & opts & -> & Hc & Hp & Hv & Hw & He). rewrite !Forall_cons in Hw. destruct Hw as (Wc & Wp & Wv & Wo).
  destruct (tlv_comes_back c Wc) as (bc & Ec & _ & Nc). destruct (tlv_comes_back p Wp) as (bp & Ep & _ & Np).
  destruct (tlv_comes_back v Wv) as (bv & Ev & _ & Nv). destruct (loop_comes_back opts Wo He) as (bo & Eo & Hl & No).
  exists (bc ++ bp ++ bv ++ bo). split; [cbn [lldp_pack]; by rewrite Ec, Ep, Ev, Eo|]. intros junk. unfold lldp_parse.
  pose proof (front_size c bc Wc ltac:(auto) Ec). pose proof (front_size p bp Wp ltac:(auto) Ep).
  pose proof (front_size v bv Wv ltac:(auto) Ev). pose proof (blen_nonneg junk).
  destruct end_comes_back as (be & Ee & Hbe & _).
  assert (Hbo : 2 <= blen bo).
  { destruct opts as [|o opts]; cbn [app lldp_pack] in Eo; [rewrite Ee in Eo; injection Eo as <-; by rewrite app_nil_r|].
    cbn [length] in Hl. lia. }
  rewrite (proj2 (Z.ltb_ge _ _)) by (rewrite !blen_app; unfold MIN_LEN; lia).
  assert (E1 : (bc ++ bp ++ bv ++ bo) ++ junk = [] ++ bc ++ bp ++ bv ++ bo ++ junk) by by rewrite <-!app_assoc.
  rewrite E1. change 0 with (blen (@nil byte)) at 1. rewrite (first_comes_back c) by done.
  rewrite app_nil_l, (first_comes_back p) by done.
  change (blen [] + blen bc) with (blen bc).
  rewrite app_assoc, <-blen_app, (first_comes_back v) by done. rewrite app_assoc, <-blen_app.
  rewrite <-!(app_assoc _ _ [_]). rewrite No; [done|]. rewrite !length_app. unfold blen in Hl. lia.
Qed.

(** ** Parsing whatever arrives *)

(** Only the exceptions [P] are raised. *)
Definition raises {A} (P : exn -> Prop) (r : result A) : Prop := match r with Ok _ => True | Err e => P e end.

Lemma raises_bind {A B} (P : exn -> Prop) (r : result A) (f : A -> result B) :
  raises P r -> (forall a, r = Ok a -> raises P (f a)) -> raises P (r ≫= f).
Proof. destruct r as [a|e]; [|done]. intros _ H. by apply H. Qed.

Definition lldp_exn (e : exn) : Prop := e = AssertionError \/ e = StructError \/ e = IndexError.

Lemma unpack_raises f b : raises lldp_exn (unpack f b).
Proof. unfold unpack. destruct (_ =? _)%nat; [done|right; by left]. Qed.
Lemma guard_raises c : raises lldp_exn (guard_ok c AssertionError).
Proof. destruct c; [done|by left]. Qed.
Lemma byte_at_raises b i : raises lldp_exn (byte_at b i).
Proof. unfold byte_at. destruct (b !! _); [done|right; by right]. Qed.
Ltac raises_leaf :=
  first [ match goal with |- raises _ (unpack ?f ?b) => exact (unpack_raises f b) end | apply guard_raises | apply byte_at_raises ].

Lemma tlv_parse_raises t len arr : raises lldp_exn (tlv_parse t len arr).
Proof.
  parse_of. repeat match goal with |- raises _ (if ?c then _ else _) => destruct c end; cbv zeta;
    repeat (refine (raises_bind lldp_exn _ _ _ _); [raises_leaf|intros; repeat match goal with x : vals _ |- _ => destruct x | x : _ * _ |- _ => destruct x end; cbv zeta]);
    exact I.
Qed.

Lemma next_tlv_raises arr : raises lldp_exn (next_tlv arr).
Proof.
  unfold next_tlv. destruct (_ <? _); [done|]. apply raises_bind; [raises_leaf|]. intros [w []] _. cbv zeta.
  destruct (_ <? _); [done|]. apply raises_bind; [apply tlv_parse_raises|]. done.
Qed.

Lemma tlv_loop_raises fuel raw p acc :
  0 <= p <= blen raw -> blen raw - p < Z.of_nat fuel -> raises lldp_exn (tlv_loop fuel raw p acc).
Proof.
  revert p acc. induction fuel as [|fuel IH]; intros p acc Hp Hf; [lia|]. cbn [tlv_loop].
  apply raises_bind; [apply next_tlv_raises|]. intros [[t n]|] E; [|done]. apply next_tlv_size in E as [E _].
  destruct (_ =? _); [done|]. destruct (Z.leb_spec (blen raw) (p + n)); [done|]. apply IH; lia.
Qed.

Lemma tlv_loop_shape fuel raw p acc tlvs :
  tlv_loop fuel raw p acc = Ok (true, tlvs) ->
  exists opts e, tlvs = acc ++ opts ++ [e] /\ tlv_type e = END_TLV /\ Forall (fun t => tlv_type t <> END_TLV) opts.
Proof.
  revert p acc. induction fuel as [|fuel IH]; intros p acc; [done|]. cbn [tlv_loop].
  intros ([[t n]|] & _ & E)%bind_Ok; [|done]. destruct (Z.eqb_spec (tlv_type t) END_TLV) as [Et|Et].
  - injection E as <-. by exists [], t.
  - destruct (_ <=? _); [done|]. apply IH in E as (opts & e & -> & He & Ho). exists (t :: opts), e.
    split; [by rewrite <-app_assoc|]. split; [done|by constructor].
Qed.

Lemma first_tlv_shape ty raw p acc k tlvs :
  first_tlv ty raw p acc k = Ok (true, tlvs) -> exists t n, tlv_type t = ty /\ k (p + n) (acc ++ [t]) = Ok (true, tlvs) /\ 2 <= n.
Proof.
  unfold first_tlv. intros ([[t n]|] & En & E)%bind_Ok; [|done]. apply next_tlv_size in En as [En _].
  destruct (Z.eqb_spec (tlv_type t) ty); [|done]. by exists t, n.
Qed.

(** ** Properties *)

(** An LLDP packet survives the wire.  A chassis, a port and a time-to-live
    structure, then any number of others (descriptions, names, capabilities,
    management addresses, organisational or unknown ones) and the end pack, and
    parsing the bytes, in front of any padding, gives the same structures. *)
Theorem lldp_roundtrip (tlvs : list tlv) :
  lldp_wf tlvs -> exists b, lldp_pack tlvs = Ok b /\ forall junk, lldp_parse (b ++ junk) = Ok (true, tlvs).
Proof. apply lldp_comes_back. Qed.

Lemma lldp_parse_raises raw : raises lldp_exn (lldp_parse raw).
Proof.
  unfold lldp_parse. destruct (_ <? _); [done|].
  assert (Hf : forall ty p acc k, 0 <= p -> (forall n l, 2 <= n -> raises lldp_exn (k (p + n) l)) -> raises lldp_exn (first_tlv ty raw p acc k)).
  { intros ty p acc k _ Hk. apply raises_bind; [apply next_tlv_raises|]. intros [[t n]|] E; [|done].
    apply next_tlv_size in E as [E _]. destruct (_ =? _); [by apply Hk|done]. }
  apply Hf; [lia|]. intros n1 l1 H1. apply Hf; [lia|]. intros n2 l2 H2. apply Hf; [lia|]. intros n3 l3 H3.
  destruct (Z.leb_spec (0 + n1 + n2 + n3) (blen raw)); [apply tlv_loop_raises; unfold blen in *; lia|].
  cbn [tlv_loop]. rewrite pyfrom_ge by lia. done.
Qed.

(** Whatever bytes arrive, parsing an LLDP packet ends: with a packet marked
    as not parsed, with one of three exceptions, or with a parsed packet, which
    then starts with a chassis, a port and a time-to-live structure and has one
    end, its last structure. *)
Theorem lldp_parse_ends (raw : bytes) :
  match lldp_parse raw with
  | Ok (false, _) => True
  | Ok (true, tlvs) => exists c p v opts e, tlvs = c :: p :: v :: opts ++ [e] /\
      tlv_type c = CHASSIS_ID_TLV /\ tlv_type p = PORT_ID_TLV /\ tlv_type v = TTL_TLV /\ tlv_type e = END_TLV /\
      Forall (fun t => tlv_type t <> END_TLV) opts
  | Err e => lldp_exn e
  end.
Proof.
  pose proof (lldp_parse_raises raw) as Hr.
  destruct (lldp_parse raw) as [[[] tlvs]|e] eqn:E; [|done|done]. unfold lldp_parse in E. destruct (_ <? _); [done|].
  apply first_tlv_shape in E as (c & n1 & Hc & E & _). apply first_tlv_shape in E as (p & n2 & Hp & E & _).
  apply first_tlv_shape in E as (v & n3 & Hv & E & _). apply tlv_loop_shape in E as (opts & e & -> & He & Ho).
  by exists c, p, v, opts, e.
Qed.

Definition example_tlvs : list tlv :=
  [chassis_fill 7 (str "dpid:1"); port_fill 2 (str "3"); ttl_fill 120; system_description_fill (str "dpid:1");
   MgmtAddr 1 [x0a; x00; x00; x01] 2 7 []; SysCaps 4 [xff; xff; x00; x00] (replicate 16 true) (replicate 16 false);
   OrgSpecific 6 [x00; x26; xe1] 1 [x2a; x2b]; Basic 9 1 [x01]; new_end_tlv].

Lemma lldp_roundtrip_witness :
  lldp_wf example_tlvs /\ exists b, lldp_pack example_tlvs = Ok b /\ forall junk, lldp_parse (b ++ junk) = Ok (true, example_tlvs).
Proof.
  assert (Hw : lldp_wf example_tlvs).
  { exists (chassis_fill 7 (str "dpid:1")), (port_fill 2 (str "3")), (ttl_fill 120),
      [system_description_fill (str "dpid:1"); MgmtAddr 1 [x0a; x00; x00; x01] 2 7 [];
       SysCaps 4 [xff; xff; x00; x00] (replicate 16 true) (replicate 16 false); OrgSpecific 6 [x00; x26; xe1] 1 [x2a; x2b]; Basic 9 1 [x01]].
    do 4 (split; [done|]). split; [|repeat constructor; discriminate].
    repeat apply Forall_cons_2; [..|apply Forall_nil_2]; cbn [tlv_wf chassis_fill port_fill ttl_fill system_description_fill from_option];
      try (vm_compute; done); try (vm_compute; split_and!; congruence).
    - split; [by vm_compute|]. split; [reflexivity|]. apply (bool_decide_unpack _). vm_compute. exact I.
    - split; [reflexivity|]. by exists true, false.
    - split; [by vm_compute|]. split; [reflexivity|]. apply (bool_decide_unpack _). vm_compute. exact I. }
  split; [exact Hw|]. exact (lldp_roundtrip example_tlvs Hw).
Defined.
