(* ===== verification/Apps.v ===== *)
(** * The parsers of application data together

    The classes that the packet parsers call for LLDP, EAPOL, DHCP and DNS, as the
    argument that [PacketWire.parse_ethernet] takes, and what becomes of frames
    that hold such packets: which exceptions leave the parsers, and what a switch
    does with frames that cannot be packed again. *)

From S2P Require Import Prelude PyStruct Addresses Codec OfpMatch OfpActions OfpStructs OfpMessages OfpVarMessages OfpStream Packet FlowTable PacketWire Eap Dns Dhcp Lldp Switch.

Section apps.
Context (depth : nat) (options : Dhcp.dict -> list (Z * optval)).

(** A DNS packet packs to [None], which its caller cannot take the length of. *)
Definition dns_packed (d : dns) : result bytes := o ← dns_hdr d; need TypeError o.
Definition all_apps (k : app_class) (raw : bytes) : P payload :=
  match k with
  | Lldp => '(ok, _) ← lift (lldp_parse raw); mret (PHdr ok (HApp Lldp (Ok raw)) PNone)
  | Eapol => e ← lift (eapol_parse raw); mret (PHdr (eapol_parsed e) (HApp Eapol (eapol_pack e)) PNone)
  | Dhcp => d ← lift (dhcp_parse raw); mret (PHdr (dh_parsed d) (HApp Dhcp (fst <$> dhcp_hdr options d)) PNone)
  | Dns => d ← lift (dns_parse depth raw); mret (PHdr (dn_parsed d) (HApp Dns (dns_packed d)) PNone)
  end.

(** ** Exceptions *)

Definition app_exn (e : exn) : Prop := e = AssertionError \/ e = StructError \/ e = IndexError \/ e = TypeError \/ e = ValueError.

Lemma safe_lift {A} (X : exn -> Prop) (r : result A) : (forall e, r = Err e -> X e) -> safe X (lift r).
Proof. intros H g e g' [= E <-]. right. by apply H. Qed.

Lemma all_apps_safe k raw : safe app_exn (all_apps k raw).
Proof.
  destruct k; cbn [all_apps]; apply safe_bind; try (intros; repeat case_match; apply safe_ret); apply safe_lift; intros e E.
  - assert (He : lldp_exn e) by (pose proof (lldp_parse_raises raw) as H; by rewrite E in H). destruct He as [->|[->| ->]]; unfold app_exn; auto.
  - apply eapol_parse_raises in E as ->. unfold app_exn; auto.
  - destruct (dhcp_outcomes raw) as [[_ H]|[(d & _ & H & _)|(e' & H & [[-> _]|[_ [-> | ->]]])]]; rewrite H in E; try done; injection E as <-; unfold app_exn; auto 6.
  - destruct (dns_total depth raw) as (_ & d & H & _). by rewrite H in E.
Qed.

(** C30: with all its parsers, reading a frame always ends, on any bytes, and raises
    one of six exceptions at most: the recursion of the packet parsers, the loops
    over TCP, DHCP and LLDP options and the names of DNS are all bounded. *)
Theorem frames_parse (randint : nat -> Z) (raw : bytes) (g : gen) :
  match parse_ethernet randint all_apps raw g with
  | (Ok e, _) => e_parsed e = true -> 14 <= blen raw
  | (Err x, _) => x ∈ [ValueError; AssertionError; AttributeError; StructError; IndexError; TypeError]
  end.
Proof.
  pose proof (parse_ethernet_safe app_exn randint all_apps all_apps_safe raw g) as H.
  destruct (parse_ethernet randint all_apps raw g) as [[e|x] g'] eqn:E.
  - unfold parse_ethernet in E. destruct (Z.ltb_spec (blen raw) 14) as [Hs|]; [|done]. by injection E as <- _.
  - destruct (H x g' eq_refl) as [[->|[->| ->]]|[->|[->|[->|[->| ->]]]]]; apply (bool_decide_unpack _); by vm_compute.
Qed.

(** ** Frames that cannot be packed *)

(** [p] is what is in the innermost place. *)
Inductive innermost (p : payload) : payload -> Prop :=
  | innermost_here : innermost p p
  | innermost_in f h next : innermost p next -> innermost p (PHdr f h next).

Lemma innermost_pack_fails f k x next q prev :
  innermost (PHdr f (HApp k (Err x)) next) q -> (exists b next', forall prev, pack_payload prev next = Ok (b, next')) -> pack_payload prev q = Err x.
Proof.
  intros H (b & next' & Hn). revert prev. induction H as [|f' h' q _ IH]; intros prev.
  - cbn [pack_payload]. by rewrite Hn.
  - cbn [pack_payload]. by rewrite IH.
Qed.

Lemma unpackable k raw g p g' : all_apps k raw g = (Ok p, g') -> k = Dhcp \/ k = Dns ->
  exists f x, p = PHdr f (HApp k (Err x)) PNone.
Proof.
  intros H [-> | ->]; cbn [all_apps] in H.
  - rewrite M_bind_unfold in H. unfold lift in H. destruct (dhcp_parse raw) as [d|e] eqn:E; [|done]. injection H as <- _.
    destruct (dhcp_repack_fails options raw d E) as [x ->]. by do 2 eexists.
  - rewrite M_bind_unfold in H. unfold lift in H. destruct (dns_parse depth raw) as [d|e]; [|done]. injection H as <- _.
    destruct (dns_packs_nothing d) as [x Hx]. fold (dns_packed d) in Hx. rewrite Hx. by do 2 eexists.
Qed.
End apps.

Lemma pack_ethernet_fails e x : (forall prev, pack_payload prev (e_next e) = Err x) -> pack_ethernet e = Err x.
Proof. intros H. unfold pack_ethernet. by rewrite H. Qed.

Section switch.
Context (randint : nat -> Z) (app_parse : app_class -> bytes -> P payload).
Context (items : gmap Z ofp_phy_port -> list (Z * ofp_phy_port)).
Context {C : Type} `{Channel C}.

End switch.

(** ** A DNS answer, from the wire to the switch *)

Definition dns_frame : bytes :=
  match pack_ethernet (mk_ethernet false (HwEth example_hw) (HwEth example_hw) 0x0800
    (PHdr false (HIpv4 (mk_ipv4 4 5 0 40 7 0 0 64 17 0 (NwIP (IPAddr_of_int 0x0a000001 false)) (NwIP (IPAddr_of_int 0x0a010203 false)))) (PHdr false (HUdp (mk_udp 53 4000 0 0)) (PBytes example_message)))) with
  | Ok (b, _) => b | Err _ => [] end.
Definition dns_ethernet : ethernet :=
  match parse_ethernet (fun _ => 0) (all_apps 100 listed_options) dns_frame (mk_gen 0 0) with (Ok e, _) => e | _ => new_ethernet end.
Definition dns_payload : payload := PHdr true (HApp Dns (dns_packed example_dns)) PNone.
Definition dns_switch : switch plain_channel := set_frames [dns_ethernet] example_switch.

