(* ===== verification/Discovery.v ===== *)
(** * Link discovery ([pox/openflow/discovery.py])

    The LLDP packets that are sent out of every port, what is learned from them
    when they come in, and the links that time out.  Times are in nanoseconds.
    What the component does to the outside is recorded in order: messages to a
    switch, the packed packet-outs of the sender, and link events.  Logging is
    left out; [dpidToStr] in a log message does not raise on a datapath id, which
    has 64 bits. *)

From stdpp Require Import pretty.
From S2P Require Import Prelude PyStruct Addresses Numerals Codec OfpMatch OfpActions OfpStructs OfpMessages OfpVarMessages OfpStream.
From S2P Require Import Packet FlowTable PacketWire Paths Controller L2Learning L2Multi SpanningTree Lldp.

#[global] Instance Link_countable : Countable Link.
Proof.
  refine (inj_countable' (fun l => (dpid1 l, port1 l, dpid2 l, port2 l)) (fun '(a, b, c, d) => mk_Link a b c d) _).
  by intros [].
Defined.

Definition LLDP_TTL : Z := 120.
Definition LINK_TIMEOUT : Z := 10 * second.
Definition NDP_MULTICAST : EthAddr := mkEth [x01; x23; x20; x00; x00; x01].
Definition SUB_LOCAL : Z := 7.
Definition SUB_MAC : Z := 4.
Definition SUB_PORT : Z := 2.

(** ** State *)

Record SendItem := mk_SendItem { si_dpid : Z; si_port : Z; si_packet : bytes }.
Inductive effect :=
  | ESend (dpid : Z) (m : message)
  | EPacket (dpid : Z) (packet : bytes)
  | ELink (added : bool) (l : Link).

(** [timer] is the number of packets when the timer was set: its period is the
    send cycle divided by it.  [xids] is the counter of transaction ids. *)
Record discovery := mk_discovery {
  dps : gset Z;
  links : gmap Link Z;
  packets : list SendItem;
  timer : option Z;
  xids : Z;
  effects : list effect
}.
Definition new_discovery (xid : Z) : discovery := mk_discovery ∅ ∅ [] None xid [].
Definition set_dps (x : gset Z) (d : discovery) : discovery := mk_discovery x (links d) (packets d) (timer d) (xids d) (effects d).
Definition set_links (x : gmap Link Z) (d : discovery) : discovery := mk_discovery (dps d) x (packets d) (timer d) (xids d) (effects d).
Definition set_packets (x : list SendItem) (d : discovery) : discovery := mk_discovery (dps d) (links d) x (timer d) (xids d) (effects d).
Definition set_timer (x : option Z) (d : discovery) : discovery := mk_discovery (dps d) (links d) (packets d) x (xids d) (effects d).
Definition set_xids (x : Z) (d : discovery) : discovery := mk_discovery (dps d) (links d) (packets d) (timer d) x (effects d).
Definition add_effect (x : effect) (d : discovery) : discovery :=
  mk_discovery (dps d) (links d) (packets d) (timer d) (xids d) (effects d ++ [x]).

(** ** Packets sent *)

Definition dpid_text (dpid : Z) : bytes := str "dpid:" ++ py_hex dpid.
Definition discovery_tlvs (dpid portNum : Z) : list tlv :=
  [chassis_fill SUB_LOCAL (dpid_text dpid); port_fill SUB_PORT (str (pretty portNum)); ttl_fill LLDP_TTL;
   system_description_fill (dpid_text dpid); new_end_tlv].

(** [create_discovery_packet]. *)
Definition create_discovery_packet (dpid portNum : Z) (portAddr : hwaddr) : M Z bytes :=
  raw ← lift (lldp_pack (discovery_tlvs dpid portNum));
  '(data, _) ← lift (pack_ethernet (mk_ethernet false (HwEth NDP_MULTICAST) portAddr LLDP_TYPE (PHdr false (HApp Lldp (Ok raw)) PNone)));
  '(o, _) ← message_pack (packet_out (-1) OFPP_NONE [output portNum] data) true;
  lift (need TypeError o).

(** [EventMixin] listeners: [listeners added link] is the exception that one of
    them raises, if any. *)
Section discovery.
Context (install_flow explicit_drop : bool) (listeners : bool -> Link -> option exn).
Context (keys : gmap Link Z -> list Link).

Abbreviation D := (M discovery).

Definition on_xids {A} (m : M Z A) : D A := fun d => let '(r, x) := m (xids d) in (r, set_xids x d).
Definition emit (x : effect) : D unit := modify (add_effect x).

(** [_setTimer]. *)
Definition setTimer : D unit :=
  modify (fun d => set_timer (if bool_decide (packets d = []) then None else Some (blen (packets d))) d).

Definition append_packet (dpid portNum : Z) (portAddr : hwaddr) : D unit :=
  p ← on_xids (create_discovery_packet dpid portNum portAddr);
  modify (fun d => set_packets (packets d ++ [mk_SendItem dpid portNum p]) d).

Definition without_switch (dpid : Z) (l : list SendItem) : list SendItem := filter (fun p => si_dpid p <> dpid) l.
Definition without_port (dpid portNum : Z) (l : list SendItem) : list SendItem :=
  filter (fun p => si_dpid p <> dpid \/ si_port p <> portNum) l.

Definition addSwitch (dpid : Z) (ports : list (Z * hwaddr)) : D unit :=
  _ ← modify (fun d => set_packets (without_switch dpid (packets d)) d);
  _ ← for_each ports (fun pa => if OFPP_MAX <? pa.1 then mret tt else append_packet dpid pa.1 pa.2);
  setTimer.
Definition delSwitch (dpid : Z) : D unit :=
  _ ← modify (fun d => set_packets (without_switch dpid (packets d)) d); setTimer.
Definition delPort (dpid portNum : Z) : D unit :=
  _ ← modify (fun d => set_packets (without_port dpid portNum (packets d)) d); setTimer.
Definition addPort (dpid portNum : Z) (portAddr : hwaddr) : D unit :=
  if OFPP_MAX <? portNum then mret tt else
  _ ← delPort dpid portNum;
  _ ← append_packet dpid portNum portAddr;
  setTimer.

(** [_timerHandler]. *)
Definition timerHandler : D unit :=
  l ← get packets;
  match l with
  | [] => lift (Err IndexError)
  | item :: l => _ ← modify (set_packets (l ++ [item])); emit (EPacket (si_dpid item) (si_packet item))
  end.

(** ** Links *)

(** [raiseEvent]: exceptions of listeners escape; [raiseEventNoErrors]: they do
    not. *)
Definition raiseEvent (added : bool) (l : Link) : D unit :=
  _ ← emit (ELink added l);
  match listeners added l with Some e => lift (Err e) | None => mret tt end.
Definition raiseEventNoErrors (added : bool) (l : Link) : D unit := emit (ELink added l).

(** [_deleteLinks]. *)
Definition deleteLinks (ls : list Link) : D unit :=
  for_each ls (fun l =>
    a ← get links;
    _ ← lift (guard_ok (bool_decide (is_Some (a !! l))) KeyError);
    _ ← modify (set_links (delete l a));
    raiseEvent false l).

(** [_expireLinks]. *)
Definition stale (curtime : Z) (stamp : option Z) : bool :=
  match stamp with Some t => LINK_TIMEOUT <? curtime - t | None => false end.
Definition expireLinks (curtime : Z) : D unit :=
  a ← get links;
  deleteLinks (filter (fun l => stale curtime (a !! l) = true) (keys a)).

(** ** Events *)

(** [_handle_ConnectionUp], with the ports of the features reply. *)
Definition handle_ConnectionUp (dpid : Z) (ports : list ofp_phy_port) : D unit :=
  s ← get dps;
  _ ← lift (guard_ok (bool_decide (dpid ∉ s)) AssertionError);
  _ ← (if install_flow
       then emit (ESend dpid (flow_mod (hset (zset new_match F_dl_type (Some LLDP_TYPE)) F_dl_dst (Some (HwEth NDP_MULTICAST)))
              0 0 (-1) [output OFPP_CONTROLLER]))
       else mret tt);
  _ ← modify (set_dps ({[dpid]} ∪ s));
  addSwitch dpid ((fun p => (pp_port_no p, pp_hw_addr p)) <$> ports).

Definition touches (dpid : Z) (l : Link) : bool := (dpid1 l =? dpid) || (dpid2 l =? dpid).
Definition handle_ConnectionDown (dpid : Z) : D unit :=
  s ← get dps;
  _ ← lift (guard_ok (bool_decide (dpid ∈ s)) AssertionError);
  _ ← modify (set_dps (s ∖ {[dpid]}));
  _ ← delSwitch dpid;
  a ← get links;
  deleteLinks (filter (fun l => touches dpid l = true) (keys a)).

(** [_handle_PortStatus], of the reason and the description in the message. *)
Definition handle_PortStatus (dpid : Z) (m : ofp_port_status) : D unit :=
  let port := pp_port_no (pst_desc m) in
  if OFPP_MAX <? port then mret tt
  else if pst_reason m =? OFPPR_ADD then addPort dpid port (pp_hw_addr (pst_desc m))
  else if pst_reason m =? OFPPR_DELETE then delPort dpid port
  else mret tt.

(** ** LLDP packets that come in *)

(** The structures of the parsed payload. *)
Definition tlvs_of (raw : bytes) : list tlv := match lldp_parse raw with Ok (_, l) => l | Err _ => [] end.

Definition starts_with (p s : bytes) : bool := bool_decide (take (length p) s = p).
Definition dpid_prefix : bytes := str "dpid:".

(** The first line that gives a number. *)
Fixpoint dpid_line (lines : list bytes) : option Z :=
  match lines with
  | [] => None
  | line :: lines =>
      match (if starts_with dpid_prefix line then py_int 16 (pyfrom line 5) else None) with
      | Some n => Some n
      | None => dpid_line lines
      end
  end.

(** [lookInSysDesc]: only the first system description counts. *)
Fixpoint lookInSysDesc (l : list tlv) : option Z :=
  match l with
  | Basic t _ next :: l =>
      if t =? SYSTEM_DESC_TLV then
        match dpid_line (split_on x0a next) with
        | Some n => Some n
        | None => if blen next =? 8 then Some (be_decode next) else None
        end
      else lookInSysDesc l
  | _ :: l => lookInSysDesc l
  | [] => None
  end.

(** The chassis: the text form calls a method that strings do not have, and the
    exception is caught, so only an address ever gives a number. *)
Definition lookInChassis (t : tlv) : option Z :=
  match t with
  | ChassisId _ subtype (Some id) =>
      if (subtype =? SUB_MAC) && (blen id =? 6) then Some (be_decode (x00 :: x00 :: id)) else None
  | _ => None
  end.

Definition is_digit (b : byte) : bool := (48 <=? byte_to_Z b) && (byte_to_Z b <=? 57).
Definition isdigit (s : bytes) : bool := negb (bool_decide (s = [])) && forallb is_digit s.

(** The port number. *)
Definition lookInPort (t : tlv) : option Z :=
  match t with
  | PortId _ (Some id) =>
      if isdigit id then py_int 10 id else if blen id =? 2 then Some (be_decode id) else None
  | _ => None
  end.
Definition port_subtype (t : tlv) : Z := match t with PortId s _ => s | _ => 0 end.

(** [_handle_PacketIn]; the result says whether the event is halted. *)
Definition handle_PacketIn (now : Z) (event : PacketIn) : D bool :=
  packet ← lift (ev_parsed event);
  if negb (e_type packet =? LLDP_TYPE) then mret false else
  if negb (bool_decide (e_dst packet = HwEth NDP_MULTICAST)) then mret false else
  match e_next packet with
  | PNone | PBytes [] | PHdr false _ _ => mret false
  | PMissing => lift (Err AttributeError)
  | PHdr true (HApp Lldp (Ok raw)) _ =>
      _ ← (if explicit_drop && negb (ev_buffer_id event =? -1)
           then emit (ESend (ev_dpid event) (packet_out (ev_buffer_id event) (ev_port event) [] [])) else mret tt);
      match tlvs_of raw with
      | c :: p :: t :: rest =>
          if negb (tlv_type c =? CHASSIS_ID_TLV) || negb (tlv_type p =? PORT_ID_TLV) || negb (tlv_type t =? TTL_TLV)
          then mret false else
          match (match lookInSysDesc rest with Some n => Some n | None => lookInChassis c end) with
          | None => mret false
          | Some originatorDPID =>
              s ← get dps;
              if negb (bool_decide (originatorDPID ∈ s)) then mret false else
              if negb (port_subtype p =? SUB_PORT) then mret false else
              match lookInPort p with
              | None => mret false
              | Some originatorPort =>
                  if (ev_dpid event =? originatorDPID) && (ev_port event =? originatorPort) then mret false else
                  let link := mk_Link originatorDPID originatorPort (ev_dpid event) (ev_port event) in
                  a ← get links;
                  _ ← modify (set_links (<[link := now]> a));
                  _ ← (if bool_decide (is_Some (a !! link)) then mret tt else raiseEventNoErrors true link);
                  mret true
              end
          end
      | _ => mret false
      end
  | _ => lift (Err AssertionError)
  end.

(** What makes the component move: the messages of switches it is connected to,
    and its two timers.  A switch has each of its ports once. *)
Inductive discovery_step (d : discovery) : discovery -> Prop :=
  | step_up dpid ports :
      NoDup (pp_port_no <$> ports) -> discovery_step d (snd (handle_ConnectionUp dpid ports d))
  | step_down dpid : discovery_step d (snd (handle_ConnectionDown dpid d))
  | step_port dpid m : dpid ∈ dps d -> discovery_step d (snd (handle_PortStatus dpid m d))
  | step_in now event : ev_dpid event ∈ dps d -> discovery_step d (snd (handle_PacketIn now event d))
  | step_expire curtime : discovery_step d (snd (expireLinks curtime d))
  | step_send : discovery_step d (snd (timerHandler d)).
End discovery.

(** [LinkEvent.portForDPID]. *)
Definition portForDPID (l : Link) (dpid : Z) : option Z :=
  if dpid1 l =? dpid then Some (port1 l) else if dpid2 l =? dpid then Some (port2 l) else None.

(** The LLDP parser as the one that frames call; the others stay arguments. *)
Definition lldp_app (other : app_class -> bytes -> P payload) (k : app_class) (raw : bytes) : P payload :=
  match k with
  | Lldp => '(ok, _) ← lift (lldp_parse raw); mret (PHdr ok (HApp Lldp (Ok raw)) PNone)
  | _ => other k raw
  end.

(** ** Reading what was written *)

Lemma dpid_text_line dpid : 0 <= dpid -> dpid_line (split_on x0a (dpid_text dpid)) = Some dpid.
Proof.
  intros Hd. destruct (py_hex_spec dpid Hd) as (Hdig & _ & Hint). unfold dpid_text.
  rewrite split_on_none.
  - cbn [dpid_line]. unfold starts_with, dpid_prefix. rewrite bool_decide_eq_true_2 by done.
    by rewrite pyfrom_app, Hint.
  - rewrite not_elem_of_app. split; [apply (bool_decide_unpack _); vm_compute; exact I|].
    rewrite Forall_forall in Hdig. intros H%Hdig. by apply (digit_plain 16) in H as (_ & _ & _ & _ & _ & ?).
Qed.

Lemma sys_desc_text dpid l : 0 <= dpid -> lookInSysDesc (system_description_fill (dpid_text dpid) :: l) = Some dpid.
Proof. intros Hd. cbn [lookInSysDesc system_description_fill]. by rewrite Z.eqb_refl, dpid_text_line. Qed.

Lemma decimal_is_digit b : digit_of 10 b -> is_digit b = true.
Proof. intros (d & Hd & Hr). destruct b; vm_compute in Hd; try discriminate; injection Hd as <-; try reflexivity; lia. Qed.

Lemma port_text n : 0 <= n -> lookInPort (port_fill SUB_PORT (str (pretty n))) = Some n.
Proof.
  intros Hn. destruct (pretty_spec n Hn) as (Hdig & Hne & Hint). unfold lookInPort, port_fill, isdigit.
  rewrite bool_decide_eq_false_2 by done. replace (forallb is_digit (str (pretty n))) with true; [done|].
  symmetry. apply forallb_forall. intros b Hb. rewrite Forall_forall in Hdig. apply decimal_is_digit, Hdig.
  by apply list_elem_of_In.
Qed.

(** The structures of a discovery packet. *)
Lemma discovery_tlvs_wf dpid n : 0 <= dpid < 2 ^ 64 -> uint_ok 2 n -> lldp_wf (discovery_tlvs dpid n).
Proof.
  intros Hd Hn. assert (Hn' : 0 <= n < 10 ^ Z.of_nat 5) by (unfold uint_ok in Hn; simpl in *; lia).
  assert (Ht : 5 <= blen (dpid_text dpid) <= 69).
  { unfold dpid_text. rewrite blen_app. change (blen (str "dpid:")) with 5.
    pose proof (py_hex_length dpid 64 ltac:(lia) ltac:(lia)). pose proof (blen_nonneg (py_hex dpid)). lia. }
  assert (Hp : 1 <= blen (str (pretty n)) <= 5).
  { pose proof (pretty_length n 4 Hn'). destruct (pretty_spec n) as (_ & Hne & _); [lia|].
    unfold blen in *. destruct (str (pretty n)); [done|]. simpl in *. lia. }
  unfold lldp_wf, discovery_tlvs. eexists _, _, _, [_]. do 4 (split; [reflexivity|]). split; [|by repeat constructor].
  repeat apply Forall_cons_2; try apply Forall_nil_2;
    cbn [tlv_wf chassis_fill port_fill ttl_fill system_description_fill from_option].
  - split; [by vm_compute|]. split; [done|lia].
  - split; [by vm_compute|lia].
  - by split; [|vm_compute].
  - split; [split; [by vm_compute|lia]|]. split; [done|]. apply (bool_decide_unpack _). vm_compute. exact I.
Qed.

(** ** What the packet does *)

Lemma packet_out_pack_keeps a x o a' x' :
  packet_out_pack a true x = (Ok (o, a'), x') -> po_actions a' = map action_after (po_actions a).
Proof.
  unfold packet_out_pack. intros H. apply M_bind_Ok in H as (? & ? & _ & H). apply M_bind_Ok in H as (? & ? & _ & H).
  apply M_bind_Ok in H as ([p h] & ? & _ & H). by injection H as _ <- _.
Qed.

(** The packet-out of a port, read by a switch, carries the frame and sends it
    out of that port; the frame is a discovery packet. *)
Lemma created_packet (randint : nat -> Z) other dpid n addr x :
  0 <= dpid < 2 ^ 64 -> 0 <= n <= OFPP_MAX -> eth_ok addr -> xid_ok x ->
  exists packet x' data raw, create_discovery_packet dpid n addr x = (Ok packet, x') /\ xid_ok x' /\
    (forall a r, exists m, packet_out_unpack a (packet ++ r) = Ok (m, r) /\
       po_data m = data /\ po_actions m = [AOutput (mk_action_output OFPAT_OUTPUT 8 (Some n) 0)]) /\
    lldp_parse raw = Ok (true, discovery_tlvs dpid n) /\
    forall g, exists g', parse_ethernet randint (lldp_app other) data g
      = (Ok (mk_ethernet true (HwEth NDP_MULTICAST) addr LLDP_TYPE (PHdr true (HApp Lldp (Ok raw)) PNone)), g').
Proof.
  intros Hd Hn Ha Hx. assert (Hn2 : uint_ok 2 n) by (unfold uint_ok, OFPP_MAX in *; simpl in *; lia).
  pose proof (discovery_tlvs_wf dpid n Hd Hn2) as Hw.
  destruct (lldp_comes_back _ Hw) as (raw & Er & Hr). specialize (Hr []). rewrite app_nil_r in Hr.
  assert (Hl : blen raw <= 2565).
  { destruct Hw as (c & p & v & opts & El & _ & _ & _ & Hf & _).
    change 2565 with (513 * Z.of_nat (length (discovery_tlvs dpid n))). apply (lldp_pack_size (discovery_tlvs dpid n)); [|exact Er].
    rewrite El. change (c :: p :: v :: opts ++ [new_end_tlv]) with ((c :: p :: v :: opts) ++ [new_end_tlv]).
    apply Forall_app. split; [exact Hf|by apply Forall_singleton]. }
  destruct (ethernet_reads randint (lldp_app other) (HwEth NDP_MULTICAST) addr LLDP_TYPE raw
    (PHdr true (HApp Lldp (Ok raw)) PNone)) as (b & Lb & Hpack & Hparse); [by vm_compute|done|by vm_compute|..].
  { intros fuel Hf. destruct fuel as [|fuel]; [lia|]. intros g. exists g. cbn [reads parse parse_step lldp_app type_parsers].
    rewrite M_bind_unfold. unfold lift. by rewrite Hr. }
  set (data := b ++ raw) in *. assert (Hld : 0 <= blen data <= 2579) by (subst data; rewrite blen_app, Lb; pose proof (blen_nonneg raw); lia).
  set (po := mk_ofp_packet_out (new_header OFPT_PACKET_OUT) (-1) OFPP_NONE [output n] data).
  assert (Hpo : packet_out_wf po).
  { split; [by split_and!|]. cbn [po po_hdr po_actions po_data po_buffer_id po_in_port]. split.
    - change (len_all [output n]) with 8. unfold uint_ok. change (256 ^ Z.of_nat 2) with 65536. lia.
    - split; [by vm_compute|]. split; [by left|]. split; [by vm_compute|].
      apply Forall_singleton. split; [by eexists|]. split; [done|]. split; [by exists n|by vm_compute]. }
  destruct (packet_out_law po x Hpo Hx) as (h & y & body & a' & x' & E & Hx' & _ & _ & _ & _ & _ & Hu).
  exists (header_bytes h y ++ body), x', data, raw. split; [|split; [done|split; [|done]]].
  - unfold create_discovery_packet. rewrite Er, M_bind_lift_Ok. rewrite (Hpack _ _ (PHdr false (HApp Lldp (Ok raw)) PNone)) by (cbn; by rewrite app_nil_r).
    rewrite M_bind_lift_Ok, M_bind_unfold. unfold packet_out. cbn [message_pack]. unfold pack_as. rewrite M_bind_unfold.
    fold po. by rewrite E.
  - intros a r. destruct (Hu a r) as (m & Em & Eq & Ed). exists m. split; [done|]. split; [done|]. apply output_after; [lia|].
    apply packet_out_pack_keeps in E. unfold packet_out_eq in Eq. rewrite !andb_true_iff in Eq. destruct Eq as [_ Eq].
    by rewrite E in Eq.
Qed.

Section found.
Context (explicit_drop : bool).

(** What becomes of the state when a packet from the other end of a link comes
    in: the message that drops it from its buffer, the time of the link, and the
    event for a link that is new. *)
Definition link_seen (now : Z) (event : PacketIn) (link : Link) (d : discovery) : discovery :=
  mk_discovery (dps d) (<[link := now]> (links d)) (packets d) (timer d) (xids d)
    (effects d ++
     (if explicit_drop && negb (ev_buffer_id event =? -1)
      then [ESend (ev_dpid event) (packet_out (ev_buffer_id event) (ev_port event) [] [])] else []) ++
     (if bool_decide (is_Some (links d !! link)) then [] else [ELink true link])).

Lemma handle_discovery_packet now event addr raw dpid n d :
  0 <= dpid -> 0 <= n ->
  ev_parsed event = Ok (mk_ethernet true (HwEth NDP_MULTICAST) addr LLDP_TYPE (PHdr true (HApp Lldp (Ok raw)) PNone)) ->
  lldp_parse raw = Ok (true, discovery_tlvs dpid n) -> dpid ∈ dps d -> (ev_dpid event, ev_port event) <> (dpid, n) ->
  handle_PacketIn explicit_drop now event d
    = (Ok true, link_seen now event (mk_Link dpid n (ev_dpid event) (ev_port event)) d).
Proof.
  intros Hd Hn Ev Er Hin Hne. unfold handle_PacketIn. rewrite Ev, M_bind_lift_Ok. cbn [e_type e_dst e_next].
  rewrite Z.eqb_refl, bool_decide_eq_true_2 by done. cbn [negb]. unfold tlvs_of. rewrite Er.
  set (send := if explicit_drop && _ then _ else _ : M discovery unit).
  destruct d as [dps0 links0 packets0 timer0 xids0 effects0]. cbn [dps] in Hin.
  assert (Es : send (mk_discovery dps0 links0 packets0 timer0 xids0 effects0)
    = (Ok tt, mk_discovery dps0 links0 packets0 timer0 xids0 (effects0 ++ if explicit_drop && negb (ev_buffer_id event =? -1)
      then [ESend (ev_dpid event) (packet_out (ev_buffer_id event) (ev_port event) [] [])] else []))).
  { subst send. destruct (_ && _); [done|]. by rewrite app_nil_r. }
  rewrite M_bind_unfold, Es. cbn [discovery_tlvs]. change (tlv_type (chassis_fill _ _)) with CHASSIS_ID_TLV.
  change (tlv_type (ttl_fill _)) with TTL_TLV. change (tlv_type (port_fill _ _)) with PORT_ID_TLV. rewrite !Z.eqb_refl. cbn [negb orb].
  rewrite sys_desc_text by done.
  rewrite M_bind_unfold. cbn [get dps]. rewrite bool_decide_eq_true_2 by done. cbn [negb].
  rewrite port_text by done.
  replace ((ev_dpid event =? dpid) && (ev_port event =? n)) with false
    by (symmetry; apply andb_false_iff; rewrite !Z.eqb_neq; destruct (Z.eq_dec (ev_dpid event) dpid); [right|left]; congruence).
  cbv zeta. rewrite M_bind_unfold. cbn [get links]. rewrite M_bind_unfold. cbn [modify set_links].
  unfold link_seen. cbn [dps links packets timer xids effects]. rewrite M_bind_unfold.
  destruct (bool_decide (is_Some (links0 !! _))); cbn; unfold add_effect, set_links; cbn [dps links packets timer xids effects];
    [by rewrite app_nil_r|by rewrite <-app_assoc].
Qed.
End found.

(** ** The invariant *)

(** What a listener knows of the links; it is told of each one when it is new
    and when it goes. *)
Definition hear (s : option (gset Link)) (e : effect) : option (gset Link) :=
  s ← s;
  match e with
  | ELink true l => if decide (l ∈ s) then None else Some ({[l]} ∪ s)
  | ELink false l => if decide (l ∈ s) then Some (s ∖ {[l]}) else None
  | _ => Some s
  end.
Definition heard (es : list effect) : option (gset Link) := foldl hear (Some ∅) es.

Lemma heard_app es es' s : heard es = Some s -> heard (es ++ es') = foldl hear (Some s) es'.
Proof. intros H. unfold heard in *. by rewrite foldl_app, H. Qed.

Lemma NoDup_fmap_filter {A B} (f : A -> B) (P : A -> Prop) `{!forall a, Decision (P a)} l :
  NoDup (f <$> l) -> NoDup (f <$> filter P l).
Proof.
  induction l as [|a l IH]; [done|]. rewrite fmap_cons, NoDup_cons. intros [Ha Hl]. rewrite filter_cons.
  case_decide; [|by apply IH]. rewrite fmap_cons, NoDup_cons. split; [|by apply IH].
  intros (b & E & [_ Hb]%list_elem_of_filter)%list_elem_of_fmap. apply Ha, list_elem_of_fmap. by exists b.
Qed.

Record discovery_ok (d : discovery) : Prop := mk_discovery_ok {
  ok_ends : forall l, l ∈ dom (links d) -> dpid1 l ∈ dps d /\ dpid2 l ∈ dps d /\ (dpid1 l, port1 l) <> (dpid2 l, port2 l);
  ok_heard : heard (effects d) = Some (dom (links d));
  ok_items : forall p, p ∈ packets d -> si_dpid p ∈ dps d /\ si_port p <= OFPP_MAX;
  ok_once : NoDup ((fun p => (si_dpid p, si_port p)) <$> packets d)
}.

Section invariant.
Context (listeners : bool -> Link -> option exn).

(** Links that are known go, and listeners are told of each. *)
Lemma deleteLinks_spec ls d :
  NoDup ls -> (forall l, l ∈ ls -> l ∈ dom (links d) /\ listeners false l = None) ->
  exists d', deleteLinks listeners ls d = (Ok tt, d') /\ dps d' = dps d /\ packets d' = packets d /\ timer d' = timer d /\
    effects d' = effects d ++ (ELink false <$> ls) /\ dom (links d') = dom (links d) ∖ list_to_set ls /\
    forall l, l ∉ ls -> links d' !! l = links d !! l.
Proof.
  intros Hn. revert d. induction Hn as [|l ls Hl Hn IH]; intros d Hin.
  - exists d. split_and!; try done; [by rewrite app_nil_r|set_solver].
  - cbn [deleteLinks for_each]. destruct (Hin l) as [Hs Hq]; [by left|].
    destruct (IH (add_effect (ELink false l) (set_links (delete l (links d)) d))) as (d' & E & E1 & E2 & E3 & E4 & E5 & E6).
    { intros l' Hl'. cbn. rewrite dom_delete. destruct (Hin l') as [? ?]; [by right|]. set_solver. }
    exists d'. split.
    + rewrite M_bind_unfold, M_bind_unfold. cbn [get]. rewrite M_bind_unfold, bool_decide_eq_true_2 by by apply elem_of_dom.
      cbn [guard_ok lift]. rewrite M_bind_unfold. cbn [modify]. unfold raiseEvent, emit. rewrite M_bind_unfold. cbn [modify].
      rewrite Hq. exact E.
    + split_and!; [done..| | |].
      * rewrite E4. cbn. by rewrite <-app_assoc.
      * rewrite E5. cbn. rewrite dom_delete_L. set_solver.
      * intros l' [? ?]%not_elem_of_cons. rewrite E6 by done. cbn. by rewrite lookup_delete_ne.
Qed.

Lemma hear_gone ls s : NoDup ls -> (forall l, l ∈ ls -> l ∈ s) -> foldl hear (Some s) (ELink false <$> ls) = Some (s ∖ list_to_set ls).
Proof.
  intros Hn. revert s. induction Hn as [|l ls Hl Hn IH]; intros s Hin; [cbn; f_equal; set_solver|].
  cbn. rewrite decide_True by (apply Hin; left). rewrite IH; [f_equal; set_solver|].
  intros l' Hl'. assert (l' ∈ s) by (apply Hin; by right). set_solver.
Qed.

Context (install_flow explicit_drop : bool) (keys : gmap Link Z -> list Link).
Context (Hkeys : forall a, keys a ≡ₚ (map_to_list a).*1).

Lemma elem_of_keys a l : l ∈ keys a <-> l ∈ dom a.
Proof.
  rewrite Hkeys, elem_of_dom, list_elem_of_fmap. split.
  - intros ([l' t] & -> & H%elem_of_map_to_list). by exists t.
  - intros [t Ht]. exists (l, t). by split; [|apply elem_of_map_to_list].
Qed.
Lemma NoDup_keys a : NoDup (keys a).
Proof. rewrite Hkeys. apply NoDup_fst_map_to_list. Qed.

Context (Hquiet : forall l, listeners false l = None).

(** Removing known links: of the switches that stay, no other link ends. *)
Lemma deleteLinks_ok ls d :
  (forall l, l ∈ dom (links d) -> l ∈ ls \/ dpid1 l ∈ dps d /\ dpid2 l ∈ dps d /\ (dpid1 l, port1 l) <> (dpid2 l, port2 l)) ->
  heard (effects d) = Some (dom (links d)) ->
  (forall p, p ∈ packets d -> si_dpid p ∈ dps d /\ si_port p <= OFPP_MAX) ->
  NoDup ((fun p => (si_dpid p, si_port p)) <$> packets d) ->
  NoDup ls -> (forall l, l ∈ ls -> l ∈ dom (links d)) ->
  discovery_ok (snd (deleteLinks listeners ls d)).
Proof.
  intros He Hh Hi Ho Hn Hin. destruct (deleteLinks_spec ls d Hn) as (d' & -> & E1 & E2 & _ & E4 & E5 & _); [by auto|]. cbn [snd].
  constructor; rewrite ?E1, ?E2, ?E4, ?E5; try done.
  - intros l [Hl Hnl]%elem_of_difference. rewrite elem_of_list_to_set in Hnl. by destruct (He l Hl).
  - rewrite (heard_app _ _ _ Hh). by apply hear_gone.
Qed.

Lemma down_ok dpid d : discovery_ok d -> discovery_ok (snd (handle_ConnectionDown listeners keys dpid d)).
Proof.
  intros Hd. pose proof Hd as [He Hh Hi Ho]. unfold handle_ConnectionDown. rewrite M_bind_unfold. cbn [get].
  case_bool_decide as Hin; [|done]. cbn [guard_ok]. rewrite M_bind_lift_Ok, M_bind_unfold. cbn [modify].
  rewrite M_bind_unfold. unfold delSwitch. rewrite M_bind_unfold. cbn [modify]. unfold setTimer. cbn [modify].
  rewrite M_bind_unfold. cbn [get links set_dps set_packets set_timer].
  assert (Hk : forall l, l ∈ filter (fun l => touches dpid l = true) (keys (links d)) <-> touches dpid l = true /\ l ∈ dom (links d)).
  { intros l. by rewrite list_elem_of_filter, elem_of_keys. }
  apply deleteLinks_ok; cbn [links effects packets dps].
  - intros l Hl. rewrite Hk. destruct (touches dpid l) eqn:E; [by left|right]. destruct (He l Hl) as (H1 & H2 & H3).
    unfold touches in E. rewrite orb_false_iff, !Z.eqb_neq in E. set_solver.
  - done.
  - intros p [Hp Hp']%list_elem_of_filter. destruct (Hi p Hp'). set_solver.
  - by apply NoDup_fmap_filter.
  - apply NoDup_filter, NoDup_keys.
  - intros l Hl. by apply Hk.
Qed.

(** New packets: of the given switch, each port at most once. *)
Definition adds (dpid : Z) (ps : list Z) (d d' : discovery) : Prop :=
  dps d' = dps d /\ links d' = links d /\ effects d' = effects d /\
  exists items, packets d' = packets d ++ items /\ Forall (fun p => si_dpid p = dpid /\ si_port p <= OFPP_MAX) items /\
    (si_port <$> items) `sublist_of` ps.

Lemma append_adds dpid n addr d : n <= OFPP_MAX -> adds dpid [n] d (snd (append_packet dpid n addr d)).
Proof.
  intros Hn. unfold append_packet, on_xids. rewrite M_bind_unfold. destruct (create_discovery_packet _ _ _ _) as [[p|e] x]; cbn [snd modify].
  - split_and!; [done..|]. exists [mk_SendItem dpid n p]. split; [done|]. split; [by apply Forall_singleton|done].
  - split_and!; [done..|]. exists []. split; [by rewrite app_nil_r|]. split; [done|apply sublist_nil_l].
Qed.

Lemma append_all_adds dpid ports d :
  adds dpid ports.*1 d
    (snd (for_each ports (fun pa : Z * hwaddr => if OFPP_MAX <? pa.1 then mret tt else append_packet dpid pa.1 pa.2) d)).
Proof.
  revert d. induction ports as [|[n addr] ports IH]; intros d; cbn [for_each fmap list_fmap fst snd].
  { split_and!; [done..|]. exists []. split; [by rewrite app_nil_r|]. by split. }
  rewrite M_bind_unfold. destruct (Z.ltb_spec OFPP_MAX n) as [Hn|Hn].
  - cbn [mret M_ret]. destruct (IH d) as (E1 & E2 & E3 & items & E4 & Hf & Hs). split_and!; [done..|]. exists items. split; [done|].
    split; [done|by apply sublist_cons].
  - destruct (append_adds dpid n addr d Hn) as (E1 & E2 & E3 & items & E4 & Hf & Hs).
    destruct (append_packet dpid n addr d) as [[[]|e] d1]; cbn [snd] in *.
    + destruct (IH d1) as (F1 & F2 & F3 & items' & F4 & Hf' & Hs'). split_and!; [congruence..|]. exists (items ++ items').
      rewrite F4, E4, app_assoc. split; [done|]. split; [by apply Forall_app|]. rewrite fmap_app. by apply (sublist_app _ [n]).
    + split_and!; [done..|]. exists items. split; [done|]. split; [done|]. etransitivity; [exact Hs|].
      apply sublist_skip, sublist_nil_l.
Qed.

(** Packets of ports that were not there keep the packets well-formed. *)
Lemma adds_ok dpid ps d d' :
  discovery_ok d -> dpid ∈ dps d -> NoDup ps -> (forall p, p ∈ packets d -> si_dpid p = dpid -> si_port p ∉ ps) ->
  adds dpid ps d d' -> discovery_ok d'.
Proof.
  intros [He Hh Hi Ho] Hin Hn Hd (E1 & E2 & E3 & items & E4 & Hf & Hs). rewrite Forall_forall in Hf.
  constructor; rewrite ?E1, ?E2, ?E3, ?E4; try done.
  - intros p [Hp|Hp]%elem_of_app; [by apply Hi|]. by destruct (Hf p Hp) as [-> ?].
  - rewrite fmap_app. apply NoDup_app. split; [done|]. split.
    + intros x (p & -> & Hp)%list_elem_of_fmap (q & [= Ed En] & Hq)%list_elem_of_fmap. destruct (Hf q Hq) as [Eq _].
      apply (Hd p Hp); [congruence|]. rewrite En. eapply elem_of_sublist; [|exact Hs]. apply list_elem_of_fmap. by exists q.
    + apply (NoDup_fmap_1 snd). rewrite <-list_fmap_compose. eapply sublist_NoDup; [exact Hn|exact Hs].
Qed.

Lemma expire_ok curtime d : discovery_ok d -> discovery_ok (snd (expireLinks listeners keys curtime d)).
Proof.
  intros [He Hh Hi Ho]. unfold expireLinks. rewrite M_bind_unfold. cbn [get]. apply deleteLinks_ok; try done.
  - intros l Hl. right. by apply He.
  - apply NoDup_filter, NoDup_keys.
  - intros l [_ Hl]%list_elem_of_filter. by apply elem_of_keys.
Qed.
Lemma timer_ok x d : discovery_ok d -> discovery_ok (set_timer x d).
Proof. by intros []. Qed.
Lemma removal_ok (P : SendItem -> Prop) `{!forall p, Decision (P p)} d :
  discovery_ok d -> discovery_ok (set_packets (filter P (packets d)) d).
Proof.
  intros [He Hh Hi Ho]. constructor; cbn [dps links packets effects set_packets]; try done.
  - intros p [_ Hp]%list_elem_of_filter. by apply Hi.
  - by apply NoDup_fmap_filter.
Qed.
Lemma emit_ok e d : hear (Some (dom (links d))) e = Some (dom (links d)) -> discovery_ok d -> discovery_ok (add_effect e d).
Proof.
  intros H [He Hh Hi Ho]. constructor; try done. change (effects (add_effect e d)) with (effects d ++ [e]).
  by rewrite (heard_app _ _ _ Hh).
Qed.

Lemma up_ok dpid ports d :
  NoDup (pp_port_no <$> ports) -> discovery_ok d -> discovery_ok (snd (handle_ConnectionUp install_flow dpid ports d)).
Proof.
  intros Hn Hd. unfold handle_ConnectionUp. rewrite M_bind_unfold. cbn [get].
  case_bool_decide as Hin; [|done]. cbn [guard_ok]. rewrite M_bind_lift_Ok, M_bind_unfold.
  set (e := ESend dpid _). set (d1 := if install_flow then add_effect e d else d).
  assert (E1 : (if install_flow then emit e else mret tt : M discovery unit) d = (Ok tt, d1)) by (subst d1; by destruct install_flow).
  assert (H1 : discovery_ok d1) by (subst d1; destruct install_flow; [by apply emit_ok|done]).
  assert (Hdps : dps d1 = dps d) by (subst d1; by destruct install_flow).
  rewrite E1. clearbody d1. rewrite M_bind_unfold. cbn [modify]. unfold addSwitch. rewrite M_bind_unfold. cbn [modify].
  set (d2 := set_packets _ _). assert (H2 : discovery_ok d2).
  { subst d2. apply removal_ok. destruct H1 as [He Hh Hi Ho]. constructor; cbn; try done.
    - intros l Hl. destruct (He l Hl) as (? & ? & ?). set_solver.
    - intros p Hp. destruct (Hi p Hp). set_solver. }
  rewrite M_bind_unfold.
  pose proof (append_all_adds dpid ((fun p => (pp_port_no p, pp_hw_addr p)) <$> ports) d2) as Hadd.
  apply adds_ok in Hadd; [|done| | |].
  - destruct (for_each _ _ d2) as [[[]|e'] d3]; [|exact Hadd]. unfold setTimer. cbn [modify snd]. by apply timer_ok.
  - subst d2. cbn. set_solver.
  - by rewrite <-list_fmap_compose.
  - intros p [Hp _]%list_elem_of_filter. done.
Qed.

Lemma delPort_ok dpid n d : discovery_ok d -> discovery_ok (snd (delPort dpid n d)).
Proof. intros Hd. unfold delPort, setTimer. rewrite M_bind_unfold. cbn [modify snd]. apply timer_ok. by apply removal_ok. Qed.

Lemma port_ok dpid m d : dpid ∈ dps d -> discovery_ok d -> discovery_ok (snd (handle_PortStatus dpid m d)).
Proof.
  intros Hin Hd. unfold handle_PortStatus. destruct (Z.ltb_spec OFPP_MAX (pp_port_no (pst_desc m))) as [|Hm]; [done|].
  destruct (_ =? _); [|destruct (_ =? _); [by apply delPort_ok|done]]. unfold addPort.
  rewrite (proj2 (Z.ltb_ge _ _)) by done. rewrite M_bind_unfold. set (n := pp_port_no _) in *. pose proof (delPort_ok dpid n d Hd) as H1.
  destruct (delPort dpid n d) as [[[]|e] d1] eqn:E; cbn [snd] in H1; [|done].
  assert (Ed : dps d1 = dps d /\ packets d1 = without_port dpid n (packets d)).
  { revert E. unfold delPort, setTimer. rewrite M_bind_unfold. cbn [modify]. by intros [= <-]. }
  destruct Ed as [Ed Ep]. rewrite M_bind_unfold.
  pose proof (append_adds dpid n (pp_hw_addr (pst_desc m)) d1 Hm) as Hadd. apply adds_ok in Hadd; [|done|by rewrite Ed|apply NoDup_singleton|].
  - destruct (append_packet _ _ _ d1) as [[[]|e'] d3]; [|exact Hadd]. unfold setTimer. cbn [modify snd]. by apply timer_ok.
  - rewrite Ep. intros p [Hp _]%list_elem_of_filter Eq. rewrite list_elem_of_singleton. naive_solver.
Qed.

Lemma timerHandler_ok d : discovery_ok d -> discovery_ok (snd (timerHandler d)).
Proof.
  intros Hd. unfold timerHandler. rewrite M_bind_unfold. cbn [get]. destruct (packets d) as [|p l] eqn:E; [done|].
  rewrite M_bind_unfold. cbn [modify]. unfold emit. cbn [modify snd]. apply emit_ok; [done|].
  assert (Hp : l ++ [p] ≡ₚ packets d) by (rewrite E; symmetry; apply Permutation_cons_append).
  destruct Hd as [He Hh Hi Ho]. constructor; cbn [dps links packets effects set_packets]; try done.
  - intros q. rewrite Hp. apply Hi.
  - by rewrite Hp.
Qed.

Lemma seen_ok now link d :
  discovery_ok d -> dpid1 link ∈ dps d -> dpid2 link ∈ dps d -> (dpid1 link, port1 link) <> (dpid2 link, port2 link) ->
  discovery_ok (snd ((if bool_decide (is_Some (links d !! link)) then mret tt else raiseEventNoErrors true link)
    (set_links (<[link := now]> (links d)) d))).
Proof.
  intros [He Hh Hi Ho] H1 H2 H3. set (d1 := set_links _ d).
  assert (Hends : forall l, l ∈ dom (links d1) -> dpid1 l ∈ dps d /\ dpid2 l ∈ dps d /\ (dpid1 l, port1 l) <> (dpid2 l, port2 l)).
  { intros l. subst d1. cbn [links set_links]. rewrite dom_insert, elem_of_union, elem_of_singleton. intros [->|Hl]; [done|by apply He]. }
  case_bool_decide as Hl.
  - constructor; cbn [snd mret M_ret]; try done. change (effects d1) with (effects d). rewrite Hh. f_equal. subst d1. cbn [links set_links].
    rewrite dom_insert_L. apply elem_of_dom in Hl. set_solver.
  - unfold raiseEventNoErrors, emit. cbn [modify snd]. constructor; try done.
    change (effects (add_effect _ d1)) with (effects d ++ [ELink true link]). rewrite (heard_app _ _ _ Hh). rewrite <-elem_of_dom in Hl.
    transitivity (if decide (link ∈ dom (links d)) then None else Some ({[link]} ∪ dom (links d))); [reflexivity|]. rewrite decide_False by done.
    f_equal. subst d1. cbn [links add_effect set_links]. by rewrite dom_insert_L.
Qed.

Lemma in_ok now event d : ev_dpid event ∈ dps d -> discovery_ok d -> discovery_ok (snd (handle_PacketIn explicit_drop now event d)).
Proof.
  intros Hin Hd. unfold handle_PacketIn. rewrite M_bind_unfold. cbn [lift]. destruct (ev_parsed event) as [packet|e]; [|done].
  destruct (negb (_ =? _)); [done|]. destruct (negb (bool_decide _)); [done|].
  destruct (e_next packet) as [| |[|]|[] [| | | | | | | | |[] [raw|]] next]; try done.
  rewrite M_bind_unfold. set (send := if explicit_drop && _ then _ else _ : M discovery unit).
  assert (Es : exists d1, send d = (Ok tt, d1) /\ discovery_ok d1 /\ dps d1 = dps d).
  { subst send. destruct (_ && _); [|by exists d]. eexists. split; [reflexivity|]. split; [by apply emit_ok|done]. }
  destruct Es as (d1 & -> & H1 & Ed). rewrite <-Ed in Hin. clear d Hd Ed send.
  destruct (tlvs_of raw) as [|c [|p [|t rest]]]; [done..|]. destruct (_ || _); [done|].
  destruct (match lookInSysDesc rest with Some n => Some n | None => lookInChassis c end) as [dpid|]; [|done].
  rewrite M_bind_unfold. cbn [get]. case_bool_decide as Ho; [|done]. cbn [negb]. destruct (negb (_ =? _)); [done|].
  destruct (lookInPort p) as [n|]; [|done]. destruct (_ && _) eqn:Eself; [done|]. cbv zeta. rewrite M_bind_unfold. cbn [get].
  rewrite M_bind_unfold. cbn [modify]. rewrite M_bind_unfold. set (link := mk_Link _ _ _ _).
  assert (Hl : (dpid1 link, port1 link) <> (dpid2 link, port2 link)).
  { subst link. cbn. intros [= -> ->]. by rewrite !Z.eqb_refl in Eself. }
  pose proof (seen_ok now link d1 H1 Ho Hin Hl) as H.
  match type of H with discovery_ok (snd ?x) => destruct x as [[[]|e] d2]; exact H end.
Qed.
End invariant.


Lemma for_each_app {S A} (a b : list A) (f : A -> M S unit) s :
  for_each (a ++ b) f s = (_ ← for_each a f; for_each b f) s.
Proof.
  revert s. induction a as [|x a IH]; intros s; [done|]. cbn [app for_each]. rewrite !M_bind_unfold.
  destruct (f x s) as [[[]|e] s1]; [apply IH|done].
Qed.

(** Links that have not been seen for longer than the timeout go, and only
    those: the others keep their times, and listeners hear of each removed link
    once.  Switches and packets stay. *)
Theorem links_expire (listeners : bool -> Link -> option exn) (keys : gmap Link Z -> list Link) (curtime : Z) (d : discovery) :
  (forall a, keys a ≡ₚ (map_to_list a).*1) -> (forall l, listeners false l = None) ->
  exists d' ls, expireLinks listeners keys curtime d = (Ok tt, d') /\
    (forall l t, links d' !! l = Some t <-> links d !! l = Some t /\ curtime - t <= LINK_TIMEOUT) /\
    effects d' = effects d ++ (ELink false <$> ls) /\ NoDup ls /\
    (forall l, l ∈ ls <-> exists t, links d !! l = Some t /\ LINK_TIMEOUT < curtime - t) /\
    dps d' = dps d /\ packets d' = packets d.
Proof.
  intros Hk Hq. unfold expireLinks. rewrite M_bind_unfold. cbn [get]. set (ls := filter _ _).
  assert (Hls : forall l, l ∈ ls <-> exists t, links d !! l = Some t /\ LINK_TIMEOUT < curtime - t).
  { intros l. subst ls. rewrite list_elem_of_filter, (elem_of_keys keys Hk), elem_of_dom. unfold stale. split.
    - intros [Hs [t Et]]. rewrite Et in *. exists t. by apply Z.ltb_lt in Hs.
    - intros (t & Et & Ht). rewrite Et. split; [by apply Z.ltb_lt|done]. }
  assert (Hn : NoDup ls) by (apply NoDup_filter, NoDup_keys, Hk).
  destruct (deleteLinks_spec listeners ls d Hn) as (d' & E & E1 & E2 & _ & E4 & E5 & E6).
  { intros l (t & Et & _)%Hls. split; [apply elem_of_dom; by exists t|done]. }
  exists d', ls. split_and!; try done. intros l t. destruct (decide (l ∈ ls)) as [Hl|Hl].
  - split; [|intros [Et Ht]; apply Hls in Hl as (t' & Et' & ?); rewrite Et in Et'; injection Et' as <-; lia].
    intros Et. assert (Hd : l ∈ dom (links d')) by (apply elem_of_dom; by exists t). rewrite E5 in Hd. set_solver.
  - rewrite E6 by done. split; [|by intros []]. intros Et. split; [done|]. rewrite Hls in Hl.
    destruct (Z.le_gt_cases (curtime - t) LINK_TIMEOUT); [done|]. destruct Hl. by exists t.
Qed.

(** When a listener raises on the removal of a link of a switch that has
    gone, the links that were to be removed after it stay, although the switch
    is no longer connected: the handler ends with the exception, and listeners
    never hear of their removal. *)
Theorem deleteLinks_interrupted (listeners : bool -> Link -> option exn) (keys : gmap Link Z -> list Link)
    (dpid : Z) (pre post : list Link) (l : Link) (e : exn) (d : discovery) :
  (forall a, keys a ≡ₚ (map_to_list a).*1) -> dpid ∈ dps d ->
  filter (fun l => touches dpid l = true) (keys (links d)) = pre ++ l :: post ->
  (forall l', l' ∈ pre -> listeners false l' = None) -> listeners false l = Some e ->
  exists d', handle_ConnectionDown listeners keys dpid d = (Err e, d') /\ dps d' = dps d ∖ {[dpid]} /\
    effects d' = effects d ++ (ELink false <$> pre ++ [l]) /\
    forall l', l' ∈ post -> touches dpid l' = true /\ links d' !! l' = links d !! l' /\ is_Some (links d' !! l').
Proof.
  intros Hk Hin Ef Hq He. unfold handle_ConnectionDown. rewrite M_bind_unfold. cbn [get].
  rewrite bool_decide_eq_true_2 by done. cbn [guard_ok]. rewrite M_bind_lift_Ok, M_bind_unfold. cbn [modify].
  rewrite M_bind_unfold. unfold delSwitch. rewrite M_bind_unfold. cbn [modify]. unfold setTimer. cbn [modify].
  rewrite M_bind_unfold. cbn [get links set_dps set_packets set_timer]. rewrite Ef. match goal with |- context [deleteLinks _ _ ?x] => set (d1 := x) end.
  assert (Hn : NoDup (pre ++ l :: post)) by (rewrite <-Ef; apply NoDup_filter, NoDup_keys, Hk).
  assert (Hall : forall l', l' ∈ pre ++ l :: post -> touches dpid l' = true /\ l' ∈ dom (links d)).
  { intros l'. rewrite <-Ef, list_elem_of_filter, (elem_of_keys keys Hk). done. }
  apply NoDup_app in Hn as (Hn & Hd & [Hl Hp]%NoDup_cons).
  destruct (deleteLinks_spec listeners pre d1 Hn) as (d2 & E & E1 & _ & _ & E4 & _ & E6).
  { intros l' Hl'. split; [|by apply Hq]. apply Hall, elem_of_app. by left. }
  assert (Hlook : forall l', l' ∈ l :: post -> links d2 !! l' = links d !! l' /\ is_Some (links d !! l')).
  { intros l' Hl'. split; [apply E6; intros H; by apply (Hd l')|]. apply elem_of_dom, Hall, elem_of_app. by right. }
  unfold deleteLinks in *. rewrite for_each_app, M_bind_unfold, E. cbn [for_each]. rewrite M_bind_unfold, M_bind_unfold. cbn [get].
  destruct (Hlook l) as [El Hs]; [by left|]. rewrite M_bind_unfold, El, bool_decide_eq_true_2 by done. cbn [guard_ok lift].
  rewrite M_bind_unfold. cbn [modify]. unfold raiseEvent, emit. rewrite M_bind_unfold. cbn [modify]. rewrite He. cbn [lift].
  eexists. split; [reflexivity|]. cbn [dps effects links add_effect set_links]. split; [exact E1|].
  split; [rewrite E4, fmap_app; by rewrite <-app_assoc|]. intros l' Hl'. split; [apply Hall, elem_of_app; right; by right|].
  destruct (Hlook l') as [E' Hs']; [by right|]. rewrite lookup_delete_ne by (intros ->; done). by rewrite E'.
Qed.

(** In one cycle every packet is sent once: as many timer ticks as there are
    packets send them all, in the order of the queue, to their switches, and
    the queue is as before. *)
Theorem probe_cycle (d : discovery) :
  for_each (packets d) (fun _ => timerHandler) d
    = (Ok tt, mk_discovery (dps d) (links d) (packets d) (timer d) (xids d)
        (effects d ++ ((fun p => EPacket (si_dpid p) (si_packet p)) <$> packets d))).
Proof.
  assert (H : forall a b d, packets d = a ++ b -> for_each a (fun _ => timerHandler) d
    = (Ok tt, mk_discovery (dps d) (links d) (b ++ a) (timer d) (xids d)
        (effects d ++ ((fun p => EPacket (si_dpid p) (si_packet p)) <$> a)))).
  { intros a. induction a as [|p a IH]; intros b [dps0 links0 packets0 timer0 xids0 effects0] E; cbn [packets] in E; subst packets0.
    - cbn. by rewrite !app_nil_r.
    - cbn [for_each]. rewrite M_bind_unfold. unfold timerHandler at 1. rewrite M_bind_unfold. cbn [get packets app].
      rewrite M_bind_unfold. cbn [modify]. unfold emit. cbn [modify]. rewrite (IH (b ++ [p])) by (cbn; by rewrite app_assoc).
      cbn. by rewrite <-!app_assoc. }
  rewrite (H (packets d) []) by (by rewrite app_nil_r). done.
Qed.

(** C10: discovery finds a link.  The packet created for a port of a connected
    switch is a packet-out that, read by that switch, sends a frame out of that
    port; when the frame comes in on a port of another switch (or another port
    of the same one) and the controller is told of it, the link between the two
    ports is recorded with the time, other links keep theirs, listeners hear of
    it exactly when it is new, and no other component sees the packet. *)
Theorem discovery_finds_link (explicit_drop : bool) (randint : nat -> Z) (other : app_class -> bytes -> P payload)
    (dpid n xid : Z) (addr : hwaddr) :
  0 <= dpid < 2 ^ 64 -> 0 <= n <= OFPP_MAX -> eth_ok addr -> xid_ok xid ->
  exists packet xid' frame, create_discovery_packet dpid n addr xid = (Ok packet, xid') /\
    (exists m, packet_out_unpack new_packet_out packet = Ok (m, []) /\
       po_data m = frame /\ po_actions m = [AOutput (mk_action_output OFPAT_OUTPUT 8 (Some n) 0)]) /\
    forall g, exists eth g', parse_ethernet randint (lldp_app other) frame g = (Ok eth, g') /\
      forall dpid2 port2 buffer_id data now d, dpid ∈ dps d -> (dpid2, port2) <> (dpid, n) ->
        let event := mk_PacketIn dpid2 port2 (Ok eth) buffer_id data in
        handle_PacketIn explicit_drop now event d
          = (Ok true, link_seen explicit_drop now event (mk_Link dpid n dpid2 port2) d).
Proof.
  intros Hd Hn Ha Hx. destruct (created_packet randint other dpid n addr xid Hd Hn Ha Hx)
    as (packet & x' & frame & raw & E & _ & Hu & Hr & Hp).
  exists packet, x', frame. split; [done|]. split; [destruct (Hu new_packet_out []) as (m & Em & ?); rewrite app_nil_r in Em; by exists m|].
  intros g. destruct (Hp g) as [g' Eg]. eexists _, g'. split; [exact Eg|]. intros dpid2 port2 buffer_id data now d Hin Hne event.
  by apply (handle_discovery_packet explicit_drop now event addr raw); [lia..| | | |].
Qed.

Lemma discovery_finds_link_witness :
  exists packet x frame, create_discovery_packet 0x1a 3 (HwEth (mkEth [x02; x00; x00; x00; x00; x01])) 7 = (Ok packet, x) /\
    (exists m, packet_out_unpack new_packet_out packet = Ok (m, []) /\
       po_data m = frame /\ po_actions m = [AOutput (mk_action_output OFPAT_OUTPUT 8 (Some 3) 0)]) /\
    exists eth g', parse_ethernet (fun _ => 0) (lldp_app (fun _ _ => lift (Err NameError))) frame (mk_gen 0 0) = (Ok eth, g') /\
      let event := mk_PacketIn 0x1b 1 (Ok eth) (-1) frame in
      handle_PacketIn true 100 event (set_dps {[0x1a; 0x1b]} (new_discovery 1))
        = (Ok true, link_seen true 100 event (mk_Link 0x1a 3 0x1b 1) (set_dps {[0x1a; 0x1b]} (new_discovery 1))).
Proof.
  destruct (discovery_finds_link true (fun _ => 0) (fun _ _ => lift (Err NameError)) 0x1a 3 7 (HwEth (mkEth [x02; x00; x00; x00; x00; x01])))
    as (packet & x & frame & E & Hm & Hg); [done|done|by vm_compute|done|].
  exists packet, x, frame. split; [exact E|]. split; [exact Hm|]. destruct (Hg (mk_gen 0 0)) as (eth & g' & Ep & Hh). exists eth, g'.
  split; [exact Ep|]. apply Hh; [|discriminate]. apply elem_of_union_l. by apply elem_of_singleton.
Defined.

(** Two switches, and the packet of the first that comes in from the second. *)
Definition example_raw : bytes := match lldp_pack (discovery_tlvs 0x1a 3) with Ok b => b | Err _ => [] end.
Definition example_event : PacketIn :=
  mk_PacketIn 0x1b 1 (Ok (mk_ethernet true (HwEth NDP_MULTICAST) (HwEth (mkEth [x02; x00; x00; x00; x00; x01])) LLDP_TYPE
    (PHdr true (HApp Lldp (Ok example_raw)) PNone))) 5 [].
Definition example_keys (a : gmap Link Z) : list Link := (map_to_list a).*1.
Definition example_discovery : discovery :=
  snd (handle_PacketIn true 100 example_event
    (snd (handle_ConnectionUp true 0x1b [] (snd (handle_ConnectionUp true 0x1a [] (new_discovery 1)))))).


(** A link seen in both directions, one of them long ago. *)
Definition example_both : discovery :=
  mk_discovery {[0x1a; 0x1b]} {[mk_Link 0x1a 3 0x1b 1 := 100 * second; mk_Link 0x1b 1 0x1a 3 := 50 * second]} [] None 1 [].

Lemma links_expire_witness :
  exists d' ls, expireLinks (fun _ _ => None) example_keys (101 * second) example_both = (Ok tt, d') /\
    links d' !! mk_Link 0x1a 3 0x1b 1 = Some (100 * second) /\ mk_Link 0x1b 1 0x1a 3 ∈ ls /\
    effects d' = ELink false <$> ls.
Proof.
  destruct (links_expire (fun _ _ => None) example_keys (101 * second) example_both) as (d' & ls & E & Hl & He & _ & Hls & _); [done|done|].
  exists d', ls. split; [exact E|]. split; [|split; [|exact He]].
  - apply Hl. split; [reflexivity|]. vm_compute. congruence.
  - apply Hls. exists (50 * second). split; reflexivity.
Defined.

Lemma deleteLinks_interrupted_witness :
  exists d', handle_ConnectionDown (fun _ _ => Some KeyError) example_keys 0x1b example_both = (Err KeyError, d') /\
    effects d' = [ELink false (mk_Link 0x1b 1 0x1a 3)] /\ is_Some (links d' !! mk_Link 0x1a 3 0x1b 1).
Proof.
  destruct (deleteLinks_interrupted (fun _ _ => Some KeyError) example_keys 0x1b [] [mk_Link 0x1a 3 0x1b 1] (mk_Link 0x1b 1 0x1a 3)
    KeyError example_both) as (d' & Ed & _ & Ee & Hp).
  - done.
  - apply (bool_decide_unpack _). vm_compute. exact I.
  - vm_compute. reflexivity.
  - intros ? H. by apply elem_of_nil in H.
  - done.
  - exists d'. split; [exact Ed|]. split; [exact Ee|]. apply (Hp (mk_Link 0x1a 3 0x1b 1)). left.
Defined.
