(* ===== verification/EndToEnd.v ===== *)
(** * Controller and switch together

    The learning switch of [L2Learning.v] at one end of a connection and the
    software switch of [Switch.v] at the other, with the messages as bytes in
    between: what an application builds can be sent, what the switch reads is
    fit for its table, and a packet to a known host is delivered. *)

From S2P Require Import Prelude PyStruct Addresses Codec OfpMatch OfpActions OfpStructs OfpMessages OfpVarMessages OfpStream.
From S2P Require Import Packet FlowTable PacketWire Controller L2Learning Switch.

(** ** What is read from the wire has its stored forms *)

Lemma mapR_length {A B} (f : A -> result B) l l' : mapR f l = Ok l' -> length l' = length l.
Proof.
  revert l'. induction l as [|a l IH]; intros l'; cbn [mapR]; [by intros [= <-]|].
  intros (b & _ & (bs & E & [= <-])%bind_Ok)%bind_Ok. cbn. by rewrite (IH _ E).
Qed.

Lemma unpack_eth_typed b off a : unpack_eth b off = Ok a -> length (eth_value a) = 6%nat.
Proof.
  unfold unpack_eth. intros ([b0 [b1 [b2 [b3 [b4 [b5 []]]]]]] & _ & E)%bind_Ok. cbn [EthAddr_init] in E.
  destruct (blen _ =? 6); [|done]. apply bind_Ok in E as (v & E & [= <-]). by apply mapR_length in E.
Qed.

Lemma match_unpack_typed m b fm m' r : match_typed m -> match_unpack m b fm = Ok (m', r) -> match_typed m'.
Proof.
  intros Hm. unfold match_unpack. destruct (_ <? _); [by intros [= <- <-]|].
  intros ([w [ip []]] & _ & E)%bind_Ok. apply bind_Ok in E as (s & Es & E). apply bind_Ok in E as (d & Ed & E).
  apply bind_Ok in E as ([v [vp []]] & _ & E). apply bind_Ok in E as ([t [tos [pr []]]] & _ & E).
  apply bind_Ok in E as ([ns [nd [ts [td []]]]] & _ & E). injection E as <- <-.
  apply unpack_eth_typed in Es, Ed. split; intros []; try done; apply IPAddr_of_int_wf.
Qed.

Lemma flow_mod_unpack_typed a b a' r :
  match_typed (fm_match a) -> flow_mod_unpack a b = Ok (a', r) -> match_typed (fm_match a').
Proof.
  intros Ha. unfold flow_mod_unpack. destruct (_ <? _); [by intros [= <- <-]|].
  intros ([h ?] & _ & E)%bind_Ok. apply bind_Ok in E as ([m r'] & Em & E). apply match_unpack_typed in Em; [|done].
  apply bind_Ok in E as ([? [? [? [? [? [? [? [? []]]]]]]]] & _ & E). apply bind_Ok in E as ([acts o] & _ & E).
  apply bind_Ok in E as (_ & _ & E). by injection E as <- <-.
Qed.

(** The matches of flow modifications, the only ones a switch stores. *)
Definition message_typed (m : message) : Prop :=
  match m with MFlowMod m => match_typed (fm_match m) | _ => True end.

Lemma message_unpack_typed t m b m' r :
  message_of_type t = Some m -> message_unpack m b = Ok (m', r) -> message_typed m'.
Proof.
  assert (Hw : forall {A} (wrap : A -> message) x, (forall a, message_typed (wrap a)) ->
    unpack_as wrap x = Ok (m', r) -> message_typed m').
  { intros A wrap x H. unfold unpack_as. intros ([a ?] & _ & [= <- _])%bind_Ok. apply H. }
  intros Ht. apply list_elem_of_lookup_2 in Ht.
  assert (Hall : Forall (fun m => message_unpack m b = Ok (m', r) -> message_typed m') classes).
  { unfold classes, make_type_to_class_table. cbn [all_classes length Nat.sub take].
    repeat constructor; cbn [message_unpack]; try (by apply Hw).
    unfold unpack_as. intros ([a ?] & E & [= <- _])%bind_Ok. cbn. eapply flow_mod_unpack_typed; [|exact E].
    apply new_match_typed. }
  rewrite Forall_forall in Hall. by apply Hall.
Qed.

(** ** The match of a well-formed packet can be sent *)

(** The type that the match of a packet has: behind the tag, if any. *)
Definition match_type (e : ethernet) : Z := match tag e with Some v => v_eth_type v | None => e_type e end.

Lemma eth_ok_typed h : eth_ok h -> hw_typed h.
Proof. by destruct h as [|a]; [|intros [Ha _]]. Qed.

(** The network header is of the kind that the type of the match announces. *)
Lemma network_wf e :
  ethernet_wf e -> uint_ok 2 (match_type e) /\
  match network e with
  | PHdr _ (HIpv4 h) next =>
      match_type e = 0x0800 /\ ipv4_wf h /\
      match ip_kind (i_protocol h) with Some k => payload_wf (Some h) k next | None => is_bytes next end
  | PHdr _ (HArp h) _ => (match_type e = 0x0806 \/ match_type e = 0x8035) /\ arp_wf h
  | _ => match_type e <> 0x0800
  end.
Proof.
  assert (Hk : forall t next, uint_ok 2 t -> t <> 0x8100 ->
    match type_parsers t with Some k => payload_wf None k next | None => is_bytes next \/ next = PNone end ->
    match next with
    | PHdr _ (HIpv4 h) next => t = 0x0800 /\ ipv4_wf h /\
        match ip_kind (i_protocol h) with Some k => payload_wf (Some h) k next | None => is_bytes next end
    | PHdr _ (HArp h) _ => (t = 0x0806 \/ t = 0x8035) /\ arp_wf h
    | _ => t <> 0x0800
    end).
  { intros t next _ H81 H. unfold type_parsers in H. rewrite (proj2 (Z.eqb_neq _ _) H81) in H.
    destruct (Z.eqb_spec t 0x0806), (Z.eqb_spec t 0x8035), (Z.eqb_spec t 0x0800), (t =? 0x88cc), (t =? 0x888e),
      ((t =? 0x8847) || (t =? 0x8848)); cbn [orb] in H; destruct next as [| | |[] [] next]; cbn [payload_wf] in H;
      naive_solver. }
  intros (_ & _ & _ & Ht & Hn). unfold match_type, tag, network. destruct (Z.eq_dec (e_type e) 0x8100) as [E|Hne].
  - rewrite E in Hn. cbn in Hn. destruct (e_next e) as [| | |[] [] next]; try done. destruct Hn as [Hv Hn].
    destruct Hv as (_ & _ & _ & _ & Hvt & H81). split; [done|]. apply Hk; [done..|].
    destruct (type_parsers _); [done|by right].
  - assert (Hnv : forall b h next, e_next e <> PHdr b (HVlan h) next).
    { intros b h next E. rewrite E in Hn. unfold type_parsers in Hn. rewrite (proj2 (Z.eqb_neq _ _) Hne) in Hn.
      destruct b; repeat (destruct (_ || _) in Hn || destruct (_ =? _) in Hn); try done. }
    pose proof (Hk (e_type e) (e_next e) Ht Hne) as Hk'.
    destruct (e_next e) as [| | |b [] next]; try (by destruct (Hnv b h next)).
    all: split; [done|]; apply Hk'; destruct (type_parsers _); naive_solver.
Qed.

Lemma tag_wf e v : ethernet_wf e -> tag e = Some v -> vlan_wf v.
Proof.
  intros (_ & _ & _ & _ & Hn). unfold tag. destruct (e_next e) as [| | |b [] next]; try done. intros [= <-].
  destruct (type_parsers (e_type e)) as [[]|], b; try done. by destruct Hn.
Qed.

Lemma uint_ok_small n x m : 0 <= x < m -> m <= 256 ^ Z.of_nat n -> uint_ok n x.
Proof. unfold uint_ok. lia. Qed.

Lemma packet_ports_wf h next k s d :
  ip_kind (i_protocol h) = Some k -> payload_wf (Some h) k next -> packet_ports next = Some (s, d) ->
  uint_ok 2 s /\ uint_ok 2 d.
Proof.
  intros _ Hn E. unfold packet_ports in E. destruct next as [| | |[] [] next]; try done; injection E as <- <-.
  all: destruct k; cbn [payload_wf] in Hn; try done.
  - destruct Hn as ((? & ? & _) & _). done.
  - destruct Hn as ((? & ? & _) & _). done.
  - destruct Hn as (H1 & H2 & _). unfold uint_ok in *. change (256 ^ Z.of_nat 2) with 65536. change (256 ^ Z.of_nat 1) with 256 in *. lia.
Qed.

(** Behind an IP header, ports belong to one of the three protocols. *)
Lemma ip_ports_kind h next x :
  match ip_kind (i_protocol h) with Some k => payload_wf (Some h) k next | None => is_bytes next end ->
  packet_ports next = Some x -> exists k, ip_kind (i_protocol h) = Some k /\ payload_wf (Some h) k next.
Proof.
  destruct (ip_kind (i_protocol h)) as [k|]; [by exists k|]. by destruct next.
Qed.

Lemma packet_field_range e ip f x :
  ethernet_wf e -> (forall p, ip = Some p -> uint_ok 2 p) -> packet_field e ip f = Some x -> uint_ok (zwidth f) x.
Proof.
  intros He Hip. pose proof (network_wf e He) as [Ht Hn]. pose proof (tag_wf e) as Hv.
  destruct f; cbn [packet_field zwidth].
  - apply Hip.
  - intros [= <-]. destruct (tag e) as [v|]; [|by vm_compute].
    destruct (Hv v He eq_refl) as (_ & _ & _ & H & _). eapply uint_ok_small; [exact H|by vm_compute].
  - intros [= <-]. destruct (tag e) as [v|]; [|by vm_compute].
    destruct (Hv v He eq_refl) as (H & _). eapply uint_ok_small; [exact H|by vm_compute].
  - by intros [= <-].
  - destruct (network e) as [| | |b [] next]; try done. intros [= <-]. apply Hn.
  - destruct (network e) as [| | |b [] next]; try done; destruct Hn as [_ Hn].
    + intros [= <-]. destruct Hn as [(_ & _ & _ & _ & _ & _ & _ & _ & _ & H) _]. exact H.
    + destruct (Z.leb_spec (a_opcode h) 255) as [Hle|]; [|done]. intros [= <-]. destruct Hn as (_ & _ & _ & _ & H & _).
      unfold uint_ok in *. change (256 ^ Z.of_nat 1) with 256. lia.
  - destruct (network e) as [| | |b [] next]; try done. destruct (packet_ports next) as [[s d]|] eqn:E; [|done].
    intros [= <-]. destruct Hn as (_ & _ & Hn). destruct (ip_ports_kind _ _ _ Hn E) as (k & Ek & Hk).
    by destruct (packet_ports_wf _ _ _ _ _ Ek Hk E).
  - destruct (network e) as [| | |b [] next]; try done. destruct (packet_ports next) as [[s d]|] eqn:E; [|done].
    intros [= <-]. destruct Hn as (_ & _ & Hn). destruct (ip_ports_kind _ _ _ Hn E) as (k & Ek & Hk).
    by destruct (packet_ports_wf _ _ _ _ _ Ek Hk E).
Qed.

Lemma ethernet_typed e : ethernet_wf e -> packet_typed e.
Proof.
  intros He. pose proof (network_wf e He) as [_ Hn]. destruct He as (_ & Hd & Hs & _). split.
  - intros []; by apply eth_ok_typed.
  - intros f x. unfold packet_nw. assert (Hok : forall a, ip_addr_ok a -> nw_typed a) by by intros [].
    destruct (network e) as [| | |b [] next]; try done; destruct Hn as [_ Hn].
    + intros [= <-]. destruct Hn as [(_ & _ & _ & _ & _ & _ & _ & H1 & H2 & _) _]. destruct f; by apply Hok.
    + destruct (_ <=? _); [|done]. intros [= <-]. destruct Hn as (_ & _ & _ & _ & _ & _ & _ & H1 & H2). destruct f; by apply Hok.
Qed.

Lemma from_packet_zraw e ip f : zraw (from_packet e ip) f = default 0 (packet_field e ip f).
Proof. packet_cases e; destruct ip, f; reflexivity. Qed.
Lemma from_packet_wildcards e ip :
  0 <= wildcards (from_packet e ip) < 2 ^ 32 /\ normal_word (wildcards (from_packet e ip)).
Proof. packet_cases e; destruct ip; (split; [vm_compute; split; congruence|intros []; vm_compute; congruence]). Qed.

(** The fields that the wire drops are those the packet does not have; a
    reverse-ARP packet is the exception, as only ARP is known to carry
    addresses. *)
Lemma from_packet_prereq e ip : ethernet_wf e -> match_type e <> 0x8035 -> prereq (from_packet e ip).
Proof.
  intros He Hr. pose proof (network_wf e He) as [_ Hn]. unfold prereq.
  assert (Hnv : forall f, packet_nw e f = None -> nview (from_packet e ip) f = None).
  { intros f E. unfold nview. by rewrite from_packet_get_nw, E. }
  rewrite !from_packet_zget. cbn [packet_field]. unfold match_type, packet_nw in *.
  destruct (network e) as [| | |b h next] eqn:En.
  1-3: rewrite decide_False by congruence; repeat split; right; split; [done|]; split; apply Hnv; done.
  destruct h; try (rewrite decide_False by congruence; repeat split; right; split; [done|]; split; apply Hnv; done).
  - destruct Hn as (-> & _ & Hn). rewrite decide_True by done. destruct (packet_ports next) as [x|] eqn:E; [left|by right].
    destruct (ip_ports_kind _ _ _ Hn E) as (k & Ek & _). unfold tp_proto. apply bool_decide_eq_true_2. unfold ip_kind in Ek.
    destruct (Z.eqb_spec (i_protocol h) 17), (Z.eqb_spec (i_protocol h) 6), (Z.eqb_spec (i_protocol h) 1); naive_solver congruence.
  - destruct Hn as [[->| ] _]; [|done]. rewrite decide_False by done. repeat split. by left.
Qed.

Lemma from_packet_match_wf e ip :
  ethernet_wf e -> match_type e <> 0x8035 -> (forall p, ip = Some p -> uint_ok 2 p) -> match_wf (from_packet e ip).
Proof.
  intros He Hr Hip. split; [by apply from_packet_typed, ethernet_typed|]. split.
  - intros f. rewrite from_packet_zraw. destruct (packet_field e ip f) as [x|] eqn:E; [by eapply packet_field_range|].
    destruct f; by vm_compute.
  - pose proof (from_packet_wildcards e ip) as [? ?]. split; [done|]. split; [done|]. by apply from_packet_prereq.
Qed.

(** ** What the applications build can be sent *)

Lemma output_wf p : uint_ok 2 p -> action_wf (output p).
Proof.
  intros Hp. split; [by exists OFPAT_OUTPUT|]. split; [done|]. split; [by exists p|by vm_compute].
Qed.

Lemma flow_mod_sendable m idle hard b acts :
  match_wf m -> uint_ok 2 idle -> uint_ok 2 hard -> buffer_id_ok b -> uint_ok 2 (72 + len_all acts) ->
  Forall action_wf acts -> sendable (flow_mod m idle hard b acts).
Proof.
  intros Hm Hi Hh Hb Hl Ha. split; [|by split]. unfold flow_mod. cbn [message_wf]. unfold flow_mod_wf, flow_mod_len.
  cbn [fm_hdr fm_actions fm_match fm_cookie fm_command fm_idle_timeout fm_hard_timeout fm_priority fm_buffer_id fm_out_port fm_flags].
  split; [by apply header_sendable|]. split; [exact Hl|]. split_and!; try done; by vm_compute.
Qed.

Lemma packet_out_sendable b p acts data :
  buffer_id_ok b -> b = -1 \/ data = [] -> uint_ok 2 p -> uint_ok 2 (16 + len_all acts + blen data) ->
  Forall action_wf acts -> sendable (packet_out b p acts data).
Proof. intros Hb Hd Hp Hl Ha. split; [|by split]. unfold packet_out. cbn. split; [by apply header_sendable|]. by split_and!. Qed.

(** A packet-in as the connection delivers it, of a well-formed packet. *)
Definition event_wf (e : PacketIn) : Prop :=
  uint_ok 2 (ev_port e) /\ buffer_id_ok (ev_buffer_id e) /\
  exists packet, ev_parsed e = Ok packet /\ ethernet_wf packet /\ match_type packet <> 0x8035.

Definition ports_wf (t : gmap EthAddr Z) : Prop := forall a p, t !! a = Some p -> uint_ok 2 p.

Lemma eth_ok_is h : eth_ok h -> exists a, h = HwEth a /\ eth_wf a.
Proof. destruct h as [|a]; [done|]. intros [Ha _]. by exists a. Qed.

Lemma packet_match_wf packet : ethernet_wf packet -> match_type packet <> 0x8035 -> match_wf (from_packet packet None).
Proof. intros He Hr. by apply from_packet_match_wf. Qed.

Lemma flood_sendable c now e : event_wf e -> Forall sendable (flood c now e).
Proof.
  intros (Hp & Hb & _). unfold flood. destruct (_ =? _); [done|]. apply Forall_singleton.
  destruct (_ <? _); (apply packet_out_sendable; [exact Hb|by right|exact Hp|by vm_compute|]); [|constructor].
  apply Forall_singleton, output_wf. by vm_compute.
Qed.

Lemma drop_sendable e packet d :
  event_wf e -> match_wf (from_packet packet None) -> (forall z, d = Some z -> uint_ok 2 z) -> Forall sendable (drop_packet e packet d).
Proof.
  intros (Hp & Hb & _) Hm Hd. unfold drop_packet. destruct d as [d|].
  - apply Forall_singleton, flow_mod_sendable; [exact Hm|by apply Hd|by apply Hd|exact Hb|by vm_compute|constructor].
  - destruct (_ =? _); [done|]. apply Forall_singleton, packet_out_sendable; [exact Hb|by right|exact Hp|by vm_compute|constructor].
Qed.

Lemma learning_step c t now e :
  event_wf e -> ports_wf t ->
  exists ms t', handle_PacketIn c t (now, e) = (Ok ms, t') /\ Forall sendable ms /\ ports_wf t'.
Proof.
  intros He Ht. pose proof He as (Hp & Hb & packet & Epar & Hw & Hr). pose proof (packet_match_wf packet Hw Hr) as Hm.
  pose proof Hw as (_ & Hd & Hs & _). destruct (eth_ok_is _ Hd) as (dst & Ed & Hdst). destruct (eth_ok_is _ Hs) as (src & Es & _).
  rewrite (handle_decides c t now e packet src dst) by done.
  assert (Ht' : ports_wf (<[src := ev_port e]> t)).
  { intros a p. rewrite lookup_insert. destruct (decide (src = a)); [by intros [= <-]|apply Ht]. }
  eexists _, _. split; [reflexivity|]. split; [|done].
  assert (Hdrop : forall z, Some 10 = Some z -> uint_ok 2 z) by (intros z [= <-]; by vm_compute).
  assert (Hfwd : forall p, <[src := ev_port e]> t !! dst = Some p ->
    Forall sendable (perform c now e packet (Forward p))).
  { intros p E. apply Forall_singleton, flow_mod_sendable; [exact Hm|by vm_compute|by vm_compute|exact Hb|by vm_compute|].
    apply Forall_singleton, output_wf. by apply (Ht' dst). }
  unfold decide_packet. destruct (_ && _); [by apply drop_sendable|]. destruct (bool_decide _); [by apply flood_sendable|].
  destruct (_ !! dst) as [p|]; [|by apply flood_sendable]. destruct (_ =? _); [by apply drop_sendable|]. by apply Hfwd.
Qed.

(** C38: every message the learning switch sends can be sent: over any history of
    packet-ins of well-formed packets (but of reverse ARP, whose match the wire
    format cannot hold) no handler raises, and the messages are ones that
    [Connection.send] packs and the other end reads. *)
Theorem learning_switch_sends (c : switch_config) (h : list (Z * PacketIn)) :
  Forall (fun te => event_wf te.2) h ->
  exists mss, fst (run (handle_PacketIn c) ∅ h) = Ok <$> mss /\ Forall sendable (mjoin mss).
Proof.
  intros Hh. assert (Hgen : forall t, ports_wf t -> exists mss, fst (run (handle_PacketIn c) t h) = Ok <$> mss /\
    Forall (Forall sendable) mss).
  { induction Hh as [|[now e] h He _ IH]; intros t Ht; [by exists []|]. cbn [run snd] in *.
    destruct (learning_step c t now e He Ht) as (ms & t' & E & Hs & Ht'). rewrite E.
    destruct (IH t' Ht') as (mss & Em & Hms). destruct (run _ _ _) as [os t'']. cbn [fst] in *.
    exists (ms :: mss). rewrite Em. split; [done|by constructor]. }
  destruct (Hgen ∅) as (mss & E & Hs); [intros a p; by rewrite lookup_empty|]. exists mss. split; [done|].
  apply Forall_forall. intros m (ms & Hm & Hin)%list_elem_of_join. rewrite !Forall_forall in Hs. specialize (Hs ms Hin).
  rewrite Forall_forall in Hs. by apply Hs.
Qed.

(** ** Messages across the connection *)

(** A message sent is read at the other end. *)
Lemma sent_is_read m x :
  sendable m -> xid_ok x ->
  exists f m1 m' x', message_pack m true x = (Ok (Some f, m1), x') /\ xid_ok x' /\
    conn_read 2 [] f = Some (ReadOk, [], [m']) /\ message_eq m' m1 = true /\ message_typed m'.
Proof.
  intros (Hw & Hv & Ht) Hx. destruct (message_frame m x Hw Hx Hv Ht) as (f & m1 & x' & E & Hx' & Hf).
  exists f, m1. pose proof Hf as (b0 & b1 & b2 & b3 & b4 & t & m0 & Ef & _ & Hm0 & _ & Hr).
  destruct (read_loop_frame 1 f m1 [] [] Hf) as (m' & Eq & El). rewrite app_nil_r in El.
  exists m', x'. split; [exact E|]. split; [done|]. split; [|split; [done|]].
  - rewrite Ef in *. exact El.
  - destruct (Hr []) as (m2 & Eu & _). rewrite app_nil_r in Eu.
    assert (m2 = m') as <-; [|by eapply message_unpack_typed].
    destruct Hf as (c0 & c1 & c2 & c3 & c4 & t' & n0 & Ef' & H0 & Hn0 & Hl & _). rewrite Ef in Ef'.
    injection Ef' as <- <- <- <- <- <-. rewrite Hm0 in Hn0. injection Hn0 as <-. cbn [read_loop] in El.
    rewrite Ef in *. rewrite H0 in El. change (negb (OFP_VERSION =? OFP_VERSION)) with false in El. cbv iota in El.
    rewrite Hl, Z.ltb_irrefl, Hm0, Eu in El. cbn [app] in El. rewrite pyfrom_ge in El by lia. cbn in El. congruence.
Qed.

Lemma packet_in_pack_keeps a x o m x' :
  message_pack (MPacketIn a) true x = (Ok (o, m), x') ->
  exists h, m = MPacketIn (mk_ofp_packet_in h (pi_in_port a) (pi_buffer_id a) (pi_reason a) (pi_data a) (packet_in_len a)).
Proof.
  cbn [message_pack]. unfold pack_as, packet_in_pack. rewrite !M_bind_unfold.
  destruct (pack_with _ _ _) as [[[p h]|] y]; [|done]. intros [= <- <- <-]. by exists h.
Qed.

(** A flow modification that outputs to one port. *)
Lemma flow_mod_crosses m idle hard b q x :
  sendable (flow_mod m idle hard b [output q]) -> match_typed m -> xid_ok x -> q < OFPP_MAX ->
  exists f m1 x' fm, message_pack (flow_mod m idle hard b [output q]) true x = (Ok (Some f, m1), x') /\ xid_ok x' /\
    conn_read 2 [] f = Some (ReadOk, [], [MFlowMod fm]) /\ match_typed (fm_match fm) /\ fm_match fm ≡ m /\
    accepted fm /\ fm_command fm = OFPFC_ADD /\ fm_priority fm = OFP_DEFAULT_PRIORITY /\ fm_buffer_id fm = b /\
    fm_actions fm = [AOutput (mk_action_output OFPAT_OUTPUT 8 (Some q) 0)].
Proof.
  intros Hs Hm Hx Hq. destruct (sent_is_read _ x Hs Hx) as (f & m1 & m' & x' & E & Hx' & Er & Eq & Hty).
  destruct (flow_mod_pack_keeps _ _ _ _ _ E) as [h ->]. destruct m'; try done. cbn [message_eq] in Eq.
  eexists f, _, x', m0. split; [exact E|]. split; [done|]. split; [exact Er|]. split; [exact Hty|].
  unfold flow_mod_eq in Eq. cbn in Eq. rewrite !andb_true_iff in Eq. destruct_and!.
  repeat match goal with H : (_ =? _) = true |- _ => apply Z.eqb_eq in H end.
  split; [by apply match_eq_equiv|]. split; [split; [by replace (fm_flags m0) with 0 by congruence|congruence]|]. split; [done|]. split; [done|].
  split; [done|]. apply output_after; [lia|done].
Qed.

Lemma packet_in_crosses m x :
  sendable (MPacketIn m) -> xid_ok x ->
  exists f m1 x' pm, message_pack (MPacketIn m) true x = (Ok (Some f, m1), x') /\ xid_ok x' /\
    conn_read 2 [] f = Some (ReadOk, [], [MPacketIn pm]) /\ pi_in_port pm = pi_in_port m /\
    pi_buffer_id pm = pi_buffer_id m /\ pi_data pm = pi_data m.
Proof.
  intros Hs Hx. destruct (sent_is_read _ x Hs Hx) as (f & m1 & m' & x' & E & Hx' & Er & Eq & _).
  destruct (packet_in_pack_keeps _ _ _ _ _ E) as [h ->]. destruct m' as [| | | | | | | | | |pm| | | | | | | | | | |]; try done.
  cbn [message_eq] in Eq. eexists f, _, x', pm. split; [exact E|]. split; [done|]. split; [exact Er|].
  unfold packet_in_eq in Eq. cbn in Eq. rewrite !andb_true_iff, !Z.eqb_eq, bool_decide_eq_true in Eq. naive_solver.
Qed.

Lemma conn_read_loop fuel f b ms : conn_read fuel [] f = Some (ReadOk, b, ms) -> read_loop fuel f [] = Some (ReadOk, b, ms).
Proof. by destruct f. Qed.

(** The match of a packet does not see what packing fills in. *)
Lemma from_packet_erase e ip : from_packet (erase_ethernet e) ip = from_packet e ip.
Proof.
  destruct e as [f d s t next]. unfold erase_ethernet. cbn [e_parsed e_dst e_src e_type e_next].
  destruct next as [| | |b h n]; try done. destruct h; try done; destruct n as [| | |b2 h2 n2]; try done; destruct h2; try done.
  destruct n2 as [| | |b3 h3 n3]; try done; by destruct h3.
Qed.
Lemma from_packet_same e e' ip : erase_ethernet e' = erase_ethernet e -> from_packet e' ip = from_packet e ip.
Proof. intros E. by rewrite <-from_packet_erase, E, from_packet_erase. Qed.

(** A match without a port covers the same match with one. *)
Lemma from_packet_covers e p : covers (from_packet e None) (from_packet e (Some p)).
Proof.
  split_and!.
  - intros f v. rewrite !from_packet_zget. by destruct f.
  - intros f v. unfold hview. by rewrite !from_packet_hget.
  - intros f x k. unfold nview. rewrite !from_packet_get_nw. destruct (packet_nw e f) as [y|]; [|done].
    intros [= <- <-]. exists (nw_ip y), 32. split; [done|]. split; [done|].
    change (32 - 32) with 0. change (2 ^ 0) with 1. by rewrite Z.div_1_r, Z.mul_1_r.
Qed.

Lemma entry_for_match_at l1 e l2 m :
  Forall (fun x => matches_with_wildcards (te_match x) m false = false) l1 ->
  matches_with_wildcards (te_match e) m false = true -> entry_for_match (l1 ++ e :: l2) m = Some e.
Proof.
  intros Hl He. induction Hl as [|x l1 Hx _ IH]; cbn [app entry_for_match]; [by rewrite He|by rewrite Hx].
Qed.

(** A packet nothing applies to, after the rule for its match is added. *)
Lemma rule_found (t : SwitchFlowTable) now fm e e' p :
  table_ok t -> accepted fm -> fm_command fm = OFPFC_ADD -> match_typed (fm_match fm) -> fm_match fm ≡ from_packet e None ->
  packet_typed e -> entry_for_packet (entries t) e p = None -> erase_ethernet e' = erase_ethernet e ->
  exists r t', process_flow_mod now fm t = (Ok r, t') /\
    entry_for_packet (entries t') e' p = Some (from_flow_mod (next t) now fm).
Proof.
  intros Ht Ha Hc Hm He Hp Hn Hs. eexists _, _. split; [by apply flow_add_effect|]. cbn [entries].
  unfold entry_for_packet in *. rewrite (from_packet_same e e') by done.
  apply entry_for_match_None in Hn. apply entry_for_match_at.
  - unfold before. rewrite Forall_forall in *. intros x [_ Hx]%list_elem_of_filter. apply list_elem_of_filter in Hx as [_ Hx]. auto.
  - cbn [te_match from_flow_mod]. apply mww_equiv_or_covers; [done|by apply from_packet_typed|].
    right. split; [done|]. rewrite He. apply from_packet_covers.
Qed.

(** The event that the connection raises for a packet-in. *)
Definition packet_in_event (dpid : Z) (m : ofp_packet_in) (parsed : result ethernet) : PacketIn :=
  mk_PacketIn dpid (pi_in_port m) parsed (pi_buffer_id m) (pi_data m).

Section together.
Context (randint : nat -> Z) (app_parse : app_class -> bytes -> P payload).
Context (items : gmap Z ofp_phy_port -> list (Z * ofp_phy_port)).
Context {C : Type} `{Channel C}.

(** The switch's end of the connection. *)
Definition switch_handle (now : Z) (m : message) : M (switch C) unit := receive randint app_parse items receive_vendor now m.

Lemma controller_read_one clock f m (s s' : switch C) :
  conn_read 2 [] f = Some (ReadOk, [], [m]) -> switch_handle (clock 0%nat) m s = (Ok tt, s') ->
  controller_read switch_handle clock 2 0 f s = Some (CcTrue, [], s').
Proof.
  intros Hr%conn_read_loop Hh. apply (proj1 (controller_read_handles switch_handle clock 2 0 f s ReadOk [] [m] Hr)).
  cbn [handle_all]. by rewrite M_bind_unfold, Hh.
Qed.

(** The rule and the release of the buffered packet, in one message. *)
Lemma rule_installed now' (s : switch C) r p q port (e e1 : ethernet) fm t' res data :
  frames s !! r = Some e -> ports s !! q = Some port -> q < OFPP_MAX ->
  process_flow_mod now' fm (table s) = (Ok res, t') ->
  fm_actions fm = [AOutput (mk_action_output OFPAT_OUTPUT 8 (Some q) 0)] ->
  fm_buffer_id fm = Z.of_nat (free_slot (packet_buffer s)) + 1 ->
  let s1 := buffered s r p OFPR_NO_MATCH data e1 in
  exists s2, switch_handle now' (MFlowMod fm) s1 = (Ok tt, s2) /\ table s2 = t' /\ channel s2 = channel s1 /\
    dp_out s2 = dp_out s ++ [(e1, port)] /\ frames s2 = frames s1 /\ ports s2 = ports s /\
    packet_buffer s2 !! free_slot (packet_buffer s) = Some None.
Proof.
  intros Hr Hq Hmax Hf Ha Hb s1. pose proof (lookup_lt_Some _ _ _ Hr) as Hlt.
  set (s2 := set_table t' s1). assert (Hfr : default new_ethernet (frames s2 !! r) = e1).
  { cbn. by rewrite list_lookup_insert_eq. }
  assert (Hrel := release_run randint app_parse items (fm_actions fm) (free_slot (packet_buffer s)) r p s2 e1 [(e1, port)]).
  rewrite Hfr in Hrel. eexists. split; [|split; [|split; [|split; [|split; [|split]]]]].
  - unfold switch_handle. cbn [receive]. unfold receive_flow_mod. rewrite M_bind_unfold. cbn [get].
    change (table s1) with (table s). rewrite Hf, M_bind_unfold. cbn [modify]. rewrite M_bind_lift_Ok.
    rewrite (proj2 (Z.ltb_lt _ _)) by (rewrite Hb; lia). rewrite Hb. apply Hrel.
    + cbn [packet_buffer s2 set_table s1 buffered set_channel set_frames set_xid_count set_buffer].
      rewrite put_slot_lookup. by rewrite decide_True.
    + cbn [s2 set_table frames s1 buffered set_channel set_frames]. by rewrite length_insert.
    + rewrite Ha. cbn [forward rewrite_of output_of]. rewrite decide_True by done. cbn [ao_port mbind option_bind].
      rewrite (proj2 (Z.ltb_lt _ _)) by done. change (ports s2) with (ports s). by rewrite Hq.
  - done.
  - done.
  - done.
  - cbn. by rewrite list_insert_insert_eq.
  - done.
  - cbn. apply list_lookup_insert_eq. unfold put_slot. pose proof (free_slot_le (packet_buffer s)).
    unfold free_slot in *. destruct (first_free (packet_buffer s)) as [i|] eqn:E; cbn.
    + rewrite length_insert. apply first_free_Some, lookup_lt_Some in E. done.
    + rewrite length_app. cbn. lia.
Qed.

(** The controller's bytes are harmless.  Whatever bytes a switch reads,
    it ends in a state that events lead to, so that everything proved of those
    states (the order of its table, its ports, its buffer) holds: matches read
    from the wire have the stored forms that the table relies on, and a handler
    that raises half-way leaves such a state too. *)
Theorem bytes_keep_reachable (clock : nat -> Z) (fuel n : nat) (buf rest : bytes) (s s' : switch C) (e : cc_end) :
  Switch.reachable randint app_parse items s -> controller_read switch_handle clock fuel n buf s = Some (e, rest, s') ->
  Switch.reachable randint app_parse items s'.
Proof.
  revert n buf s. induction fuel as [|fuel IH]; intros n buf s Hs; [done|]. cbn [controller_read].
  destruct buf as [|b0 [|b1 [|b2 [|b3 [|b4 buf]]]]]; try (by intros [= <- <- <-]).
  destruct (negb _); [by intros [= <- <- <-]|]. destruct (_ <? _); [by intros [= <- <- <-]|].
  destruct (message_of_type _) as [m0|] eqn:E0; [|by intros [= <- <- <-]].
  destruct (message_unpack m0 _) as [[m r]|] eqn:Eu; [|by intros [= <- <- <-]].
  pose proof (message_unpack_typed _ _ _ _ _ E0 Eu) as Hm.
  pose proof (reach_step randint app_parse items (clock n) (EvMessage m) s Hs Hm) as Hstep.
  change (on_event randint app_parse items (clock n) (EvMessage m) s) with (switch_handle (clock n) m s) in Hstep.
  destruct (switch_handle (clock n) m s) as [[[]|x] s1]; [by apply IH|by intros [= <- <- <-]].
Qed.

Lemma packet_in_sendable (s : switch C) p reason data :
  uint_ok 4 (xid_count s) -> uint_ok 2 p -> uint_ok 1 reason -> 18 + blen data < 2 ^ 16 ->
  blen (packet_buffer s) < 2 ^ 32 - 2 -> sendable (MPacketIn (packet_in_of s p reason data)).
Proof.
  intros Hx Hp Hr Hd Hb. split; [|by split]. unfold packet_in_of. cbn [message_wf]. unfold packet_in_wf, packet_in_len.
  cbn [pi_hdr pi_buffer_id pi_in_port pi_reason pi_data]. pose proof (blen_nonneg data).
  pose proof (free_slot_le (packet_buffer s)) as Hf. unfold blen in Hb.
  split; [split; [done|split; [by vm_compute|by split]]|]. split; [|split; [|by split]].
  - unfold uint_ok. change (256 ^ Z.of_nat 2) with (2 ^ 16). lia.
  - unfold buffer_id_ok. change (2 ^ 32) with 4294967296 in Hb. lia.
Qed.

(** A frame the new rule applies to. *)
Lemma rule_forwards now (s : switch C) e e' data p q port entry :
  ports s !! q = Some port -> q < OFPP_MAX -> entry_for_packet (entries (table s)) e p = Some entry ->
  pack_ethernet e = Ok (data, e') -> te_actions entry = [AOutput (mk_action_output OFPAT_OUTPUT 8 (Some q) 0)] ->
  exists s', on_event randint app_parse items now (EvFrame e p) s = (Ok tt, s') /\
    dp_out s' = dp_out s ++ [(e', port)] /\ channel s' = channel s.
Proof.
  intros Hq Hmax He Hp Ha. set (s0 := set_frames (frames s ++ [e]) s).
  assert (Hfr : default new_ethernet (frames s0 !! length (frames s)) = e) by (cbn; by rewrite list_lookup_middle).
  destruct (hit_run randint app_parse items now (length (frames s)) p s0 entry data e' e' [(e', port)]) as (t & _ & E).
  - cbn. rewrite length_app. cbn. lia.
  - by rewrite Hfr.
  - by rewrite Hfr.
  - rewrite Ha. cbn [forward rewrite_of output_of]. rewrite decide_True by done. cbn [ao_port mbind option_bind].
    rewrite (proj2 (Z.ltb_lt _ _)) by done. change (ports s0) with (ports s). by rewrite Hq.
  - eexists. split; [exact E|]. done.
Qed.

(** C3: the learning switch delivers.  A frame to a host whose port is known,
    arriving at a switch that has no rule for it, is sent to the controller; the
    controller reads it and answers with one message; the switch reads that and
    the frame leaves by the host's port, as it came but for the checksums and
    lengths that packing fills in.  Every later frame with the same headers goes
    straight out of that port, and the controller is not told.  Both messages
    travel as bytes. *)
Theorem learning_switch_delivers (c : switch_config) (tbl : mac_table) (dpid now now' p q x : Z) (clock : nat -> Z) (s : switch C) (r : nat) (e : ethernet) (src dst : EthAddr) (port : ofp_phy_port) :
  ethernet_wf e -> match_type e <> 0x8035 -> 32 + size (e_next e) < 2 ^ 16 ->
  e_src e = HwEth src -> e_dst e = HwEth dst ->
  decide_packet c (fun a => <[src := p]> tbl !! a) p e dst = Forward q ->
  uint_ok 2 p -> 0 <= q < OFPP_MAX -> ports s !! q = Some port ->
  switch_ok s -> uint_ok 4 (xid_count s) -> blen (packet_buffer s) < 2 ^ 32 - 2 -> xid_ok x ->
  frames s !! r = Some e -> entry_for_packet (entries (table s)) e p = None ->
  exists m s1 f1 m1 x1 pm e1 rule tbl' f2 m2 x2 s2,
    process_packet randint app_parse items now r p s = (Ok tt, s1) /\ channel s1 = channel_send (MPacketIn m) (channel s) /\
    message_pack (MPacketIn m) true x = (Ok (Some f1, m1), x1) /\ conn_read 2 [] f1 = Some (ReadOk, [], [MPacketIn pm]) /\
    (forall g, exists g', parse_ethernet randint app_parse (pi_data pm) g = (Ok e1, g')) /\
    handle_PacketIn c tbl (now', packet_in_event dpid pm (Ok e1)) = (Ok [rule], tbl') /\
    message_pack rule true x1 = (Ok (Some f2, m2), x2) /\
    controller_read switch_handle clock 2 0 f2 s1 = Some (CcTrue, [], s2) /\
    dp_out s2 = dp_out s ++ [(e1, port)] /\ erase_ethernet e1 = erase_ethernet e /\ channel s2 = channel s1 /\
    forall e2 now2, ethernet_wf e2 -> erase_ethernet e2 = erase_ethernet e ->
      exists s3 e3, on_event randint app_parse items now2 (EvFrame e2 p) s2 = (Ok tt, s3) /\
        dp_out s3 = dp_out s2 ++ [(e3, port)] /\ erase_ethernet e3 = erase_ethernet e2 /\ channel s3 = channel s2.
Proof.
  intros He Hrarp Hsize Hsrc Hdst Hdec Hp Hq Hport Hs Hxc Hbuf Hx Hr Hmiss.
  assert (Hfr : default new_ethernet (frames s !! r) = e) by by rewrite Hr.
  destruct (ethernet_comes_back randint app_parse e He) as (data & e1 & Ep & Hlen & Hsame & Hparse).
  pose proof (packet_in_sendable s p OFPR_NO_MATCH data Hxc Hp ltac:(by vm_compute) ltac:(lia) Hbuf) as Hsend.
  destruct (packet_in_crosses _ x Hsend Hx) as (f1 & m1 & x1 & pm & E1 & Hx1 & Er1 & Ein & Eb & Ed).
  cbn [packet_in_of pi_in_port pi_buffer_id pi_data] in Ein, Eb, Ed.
  pose proof (f_equal e_src Hsame) as Hs1. pose proof (f_equal e_dst Hsame) as Hd1. pose proof (f_equal e_type Hsame) as Ht1.
  cbn [erase_ethernet e_src e_dst e_type] in Hs1, Hd1, Ht1.
  assert (Hdw : eth_wf dst) by (destruct He as (_ & Hd & _); rewrite Hdst in Hd; apply Hd).
  pose proof (handle_decides c tbl now' (packet_in_event dpid pm (Ok e1)) e1 src dst eq_refl ltac:(congruence) ltac:(congruence) Hdw) as Hh.
  cbn [packet_in_event ev_port] in Hh. rewrite Ein in Hh.
  assert (Hdec' : decide_packet c (fun a => <[src := p]> tbl !! a) p e1 dst = Forward q) by (rewrite <-Hdec; unfold decide_packet; by rewrite Ht1).
  rewrite Hdec' in Hh. cbn [perform packet_in_event ev_buffer_id] in Hh. rewrite Eb, (from_packet_same e e1) in Hh by done.
  pose proof (packet_match_wf e He Hrarp) as Hm.
  destruct (flow_mod_crosses (from_packet e None) 10 30 (Z.of_nat (free_slot (packet_buffer s)) + 1) q x1)
    as (f2 & m2 & x2 & fm & E2 & _ & Er2 & Hty & Heq & Hacc & Hcmd & _ & Efb & Efa); [|apply Hm|done|lia|].
  { apply flow_mod_sendable; [exact Hm|by vm_compute|by vm_compute| |by vm_compute|].
    - destruct Hsend as [(_ & _ & Hb & _) _]. exact Hb.
    - apply Forall_singleton, output_wf. unfold uint_ok, OFPP_MAX in *. change (256 ^ Z.of_nat 2) with 65536. lia. }
  assert (Hrule : forall e2, erase_ethernet e2 = erase_ethernet e -> exists res t', process_flow_mod (clock 0%nat) fm (table s) = (Ok res, t') /\
    entry_for_packet (entries t') e2 p = Some (from_flow_mod (next (table s)) (clock 0%nat) fm)).
  { intros e2 H2. apply rule_found with e; try done; [apply Hs|by apply ethernet_typed]. }
  destruct (Hrule e eq_refl) as (res & t' & Et & _).
  destruct (rule_installed (clock 0%nat) s r p q port e e1 fm t' res data Hr Hport ltac:(lia) Et Efa Efb)
    as (s2 & Eh & Htab & Hch & Hout & _ & Hports & _).
  exists (packet_in_of s p OFPR_NO_MATCH data), (buffered s r p OFPR_NO_MATCH data e1), f1, m1, x1, pm, e1.
  exists (flow_mod (from_packet e None) 10 30 (Z.of_nat (free_slot (packet_buffer s)) + 1) [output q]).
  eexists _, f2, m2, x2, s2. split; [apply miss_run; by rewrite Hfr|]. split; [done|]. split; [exact E1|]. split; [exact Er1|].
  split; [by rewrite Ed|]. split; [exact Hh|]. split; [exact E2|]. split; [by apply controller_read_one with (MFlowMod fm)|].
  split; [exact Hout|]. split; [done|]. split; [done|]. intros e2 now2 He2 Hs2.
  destruct (ethernet_comes_back randint app_parse e2 He2) as (data2 & e3 & Ep2 & _ & Hsame3 & _).
  destruct (Hrule e2 Hs2) as (res' & t'' & Et' & Hfound). rewrite Et in Et'. injection Et' as <- <-.
  destruct (rule_forwards now2 s2 e2 e3 data2 p q port (from_flow_mod (next (table s)) (clock 0%nat) fm)) as (s3 & E3 & Ho & Hc3);
    [by rewrite Hports|lia|by rewrite Htab|done|done|].
  by exists s3, e3.
Qed.
End together.

(** ** Examples *)

Lemma example_packet_wf : ethernet_wf example_packet.
Proof.
  assert (Ho : Forall opt_wf [OMss 1460; ONop; OWs 7]) 
    by (apply Forall_cons_2; [by vm_compute|apply Forall_cons_2; [done|apply Forall_singleton; by vm_compute]]).
  repeat split; try exact Ho; vm_compute; split_and?; try done; intros; discriminate.
Qed.

Lemma learning_switch_sends_witness :
  let h := [(9, mk_PacketIn 1 3 (Ok example_packet) 77 []); (10, mk_PacketIn 1 4 (Ok example_packet) (-1) [])] in
  Forall (fun te => event_wf te.2) h /\
  exists mss, fst (run (handle_PacketIn example_config) ∅ h) = Ok <$> mss /\ Forall sendable (mjoin mss).
Proof.
  intros h. assert (Hh : Forall (fun te => event_wf te.2) h).
  { apply Forall_cons_2; [|apply Forall_singleton]; (split; [by vm_compute|]; split; [by vm_compute|]);
      exists example_packet; (split; [reflexivity|]); (split; [exact example_packet_wf|by vm_compute]). }
  split; [exact Hh|]. exact (learning_switch_sends example_config h Hh).
Defined.

Lemma bytes_keep_reachable_witness :
  Switch.reachable example_rand example_app map_to_list (set_channel (mk_plain true
    [MBarrierReply (mk_ofp_barrier_reply (header_for OFPT_BARRIER_REPLY (Some 5)))]) example_switch).
Proof.
  apply (bytes_keep_reachable example_rand example_app map_to_list (fun _ => 7) 3 0 (example_barrier ++ example_ports_request) []
    example_switch _ CcFalse); [apply reach_new|vm_compute; reflexivity].
Defined.

Definition example_hosts : mac_table := <[example_mac x02 := 2]> ∅.

Lemma learning_switch_delivers_witness :
  exists s1 f2 s2 e1 port, process_packet example_rand example_app map_to_list 5 0 1 example_with_frame = (Ok tt, s1) /\
    controller_read (switch_handle example_rand example_app map_to_list) (fun _ => 7) 2 0 f2 s1 = Some (CcTrue, [], s2) /\
    dp_out s2 = [(e1, port)] /\ pp_port_no port = 2 /\
    exists s3 e3, on_event example_rand example_app map_to_list 9 (EvFrame example_packet 1) s2 = (Ok tt, s3) /\
      dp_out s3 = [(e1, port); (e3, port)] /\ channel s3 = channel s2.
Proof.
  destruct (ports example_with_frame !! 2) as [port|] eqn:Ep; [|vm_compute in Ep; discriminate].
  destruct (learning_switch_delivers example_rand example_app map_to_list example_config example_hosts 1 5 6 1 2 3 (fun _ => 7)
    example_with_frame 0 example_packet (example_mac x01) (example_mac x02) port)
    as (m & s1 & f1 & m1 & x1 & pm & e1 & rule & tbl' & f2 & m2 & x2 & s2 & E1 & _ & _ & _ & _ & _ & _ & E2 & Eo & _ & _ & Hnext);
    [exact example_packet_wf|vm_compute; congruence|reflexivity|reflexivity|reflexivity|vm_compute; reflexivity
    |vm_compute; split; congruence|vm_compute; split; congruence|exact Ep| |vm_compute; split; congruence|reflexivity
    |vm_compute; split; congruence|reflexivity|vm_compute; reflexivity|].
  - destruct (new_switch_ok 1 new_capabilities example_ports (mk_gen 0 0) (mk_plain true [])) as (_ & H2 & H3).
    split; [constructor|]. split; [exact H2|exact H3].
  - destruct (Hnext example_packet 9 example_packet_wf eq_refl) as (s3 & e3 & E3 & Eo3 & _ & Ec).
    exists s1, f2, s2, e1, port. split; [exact E1|]. split; [exact E2|]. split; [exact Eo|]. split.
    + vm_compute in Ep. injection Ep as <-. reflexivity.
    + exists s3, e3. split; [exact E3|]. rewrite Eo3, Eo. split; [reflexivity|exact Ec].
Defined.
